(* ===== verification/_CoqProject ===== *)
-Q . S2P
Prelude.v
Json.v
Crypto.v
Schema.v
GoTx.v
Store.v
Queries.v
Tokens.v
IdentityQueries.v
LayoutQueries.v
Identity.v
Memberships.v
Configuration.v
Onboarding.v
IntegrationQueries.v
Events.v
Operations.v
Guest.v
Outbox.v
ReferencePOS.v
Integrations.v
PlatformQueries.v
AnalyticsQueries.v
Analytics.v
Hub.v
Sync.v
WebSocket.v
RateLimiter.v
Http.v
Dto.v
Auth.v
Platform.v
Api.v
Routes.v
HubFacts.v
TxFacts.v
Steps.v
LayoutFacts.v
IdentityFacts.v
MembershipFacts.v
CommandFacts.v
FloorSpec.v
ErrorFacts.v
GuestFacts.v
Commands.v
History.v
IntegrationFacts.v
SystemCommands.v
HttpSteps.v
LayoutCommands.v
IntegrationInv.v
IntegrationSteps.v
EventLog.v
Idempotency.v
Progress.v
Samples.v
FloorTheorems.v
AssistTheorems.v
GuestTheorems.v
OutboxFacts.v
Delivery.v
Pipeline.v
OutboxTheorems.v
SyncFacts.v
RealtimeTheorems.v
FrameTheorems.v
IdentitySamples.v
IdentityTheorems.v
Guards.v
MembershipTheorems.v
RoleTheorems.v
SystemSamples.v
AnalyticsTheorems.v
IntegrationTheorems.v
PlatformTheorems.v
RouteTheorems.v
SystemTheorems.v
LayoutTheorems.v
AccessTheorems.v
OnboardingTheorems.v
