(* ===== verification/Prelude.v ===== *)
(** * Seatd: a verification library for the Go backend

    Seatd keeps the floor of a restaurant: which tables are occupied, which of
    them ask for assistance, what guests may do with the code on their table,
    how all of it reaches displays, waiters and reports - and who may do what:
    organisations, their people and devices, and the layout of their locations.
    The backend is the Go code under src/internal; it stores everything in
    PostgreSQL.

    ** How the program works

    - Operations ([internal/domain/operations]).  Staff occupy and clear tables
      and handle assist requests; guests call for service through a table's QR
      capability.  Each command is one database transaction: it sets the tenant,
      answers a repeated command from its idempotency record, locks the row it
      changes and compares its version, writes the change, an operational event
      and one outbox record per destination, and commits.
    - Outbox ([internal/outbox]).  A worker claims due outbox records, hands the
      event to the consumers of the record's destination, remembers per consumer
      which events are done, and schedules retries with exponential backoff.
    - Realtime ([internal/realtime]).  A hub fans events out to the websocket
      connections of a location; a client that reconnects reads a snapshot with a
      cursor and pages through the events after it.
    - Guest rate limiting ([internal/httpapi/guest.go]).
    - Identity ([internal/domain/identity]).  People log in through external
      identities and hold web sessions; devices are paired with one-time codes
      and hold credentials; memberships give people roles in an organisation or
      a location, and roles grant permissions.  The platform provisions tenants;
      the owner of a new tenant sets up its first location.
    - Configuration ([internal/domain/configuration]).  Those who may edit the
      organisation, its locations and their floors, zones and tables, each edit
      naming the version it expects.
    - Integrations ([internal/domain/integrations]).  A vendor, such as a point of
      sale, reports tables as occupied or available: by signed webhooks, each
      event kept once in an inbox, and by a listing that a reconciliation compares
      with the floor.  What it reports is brought about through the operations
      service; what contradicts an open assist request is left to people.
    - Analytics ([internal/domain/analytics]).  A consumer of the outbox turns the
      sessions and assist requests of the day of an event into metrics, per hour
      and table and per day and table, zone, floor, location and service period;
      the service reports them, recomputes a range of days on request, and edits
      the service periods of a location.
    - HTTP API ([internal/httpapi]).  Routes, the authentication of a request by a
      web session, a device's credential or the headers of a trusted proxy, the
      policy of its route, the decoding of its body, the call of a service and the
      JSON of its answer; and the administration of the platform, whose handlers
      have transactions of their own, in which they call the identity service on
      other connections and record an audit event.

    The parts meet in the database: operations write [operational_events] and
    [outbox_records], the worker reads them and calls the hub through a consumer,
    the sync endpoints read [operational_events]; configuration and onboarding
    create the tables and occupancies that operations change, and ask the
    memberships of identity for permission; integrations call operations and read
    the occupancies and assist requests it keeps; analytics reads the floor, and
    writes nothing that another component reads but service periods.

    ** How it is modelled

    A request is a computation [Go A := Env -> St -> result error A * St]
    (GoTx.v).  [St] holds the database, the snapshot to roll back to, the
    transaction's time and a tick counter; [Env] gives, by tick, the clocks, the
    generated identifiers and random bytes, and which calls fail.  A failing
    commit may or may not have been applied.  Theorems quantify over [Env], so
    they cover every pattern of failing calls.  SQL statements are functions on
    [Db] (Schema.v, Store.v, Queries.v, IdentityQueries.v, LayoutQueries.v,
    IntegrationQueries.v, PlatformQueries.v, AnalyticsQueries.v) with the check, foreign key and unique constraints of the migrations.
    Transactions run one after the other, which is what the row locks enforce for
    the rows a command locks; histories (History.v, IdentityFacts.v,
    SystemCommands.v) interleave whole transactions.  Row locks are not modelled:
    that two transactions which disable the two owners of an organisation can read
    before either writes is composed by hand, on a sample, in
    [concurrent_disables_can_orphan].

    A handler of the HTTP API is a computation [Http A := Go (result ApiError A)]
    (Http.v): it may answer with an error of its own ([refuse]), and whatever a
    service returns as an error becomes such an answer ([calling]).  A request
    ([Request]) has its method, path, headers, query, wildcards and body; the body
    is given by what the JSON decoder finds in it.  A transaction of the platform
    reads at READ COMMITTED what the services it calls commit meanwhile on other
    connections ([on_other_connection]), and its commit fires the trigger against
    a platform without administrators ([CommitPlatform]).  [run_system]
    (SystemCommands.v) is one request of the backend, of a service or of the HTTP
    API, and [system_history] any sequence of them.

    What Go's and PostgreSQL's libraries do on text beyond ASCII - case mapping,
    the parsers of addresses, the collation, the time zones - is the class
    [GoText]; what becomes of a number that JSON decodes into a [float64] and
    encodes again is the class [GoNumber]; the JSON and time parsers and the
    environment a vendor's adapter reads are the class [PosText]; the texts of
    errors are the class [ErrorTexts]; [uuid.Parse], [net.SplitHostPort] and the
    time and float parsers of the HTTP API are the class [HttpText], whose one law
    is that the text of an identifier has the characters of one; PostgreSQL's
    ILIKE is the class [PlatformText].  What the reports take from outside is the
    class [ReportData]: the offsets of the time zone database, the zone of the
    server, the JSON text of a [float64], and PostgreSQL's sums, averages and
    percentiles over more than one number.  Numbers themselves are binary64
    ([SpecFloat]).  The samples instantiate all of these classes.
    Another vendor's adapter is any [Adapter] that leaves the database alone
    ([RemoteAdapter]).

    Components, their files and the code they follow:
    - Prelude: results, identifiers, bytes, text, sorting; Json: JSON values;
      Crypto: SHA-256 and unpadded URL base64; Schema: the tables and their
      constraints ([store/db/models.go], [infra/database/migrations]); GoTx: the
      monad and pgx's transactions; Store, Queries, IdentityQueries,
      LayoutQueries: statements ([store/db/*.sql.go]).
    - Events: [domain/events/events.go].
    - Operations: [domain/operations/service.go], [errors.go]; Guest: [guest.go],
      [tokens.go].
    - Tokens: [domain/identity/tokens.go]; Identity: [domain/identity/service.go]
      (profiles, sessions, devices); Memberships: [memberships.go]; Onboarding:
      the provisioning and the setup of [service.go].
    - Configuration: [domain/configuration/service.go], [errors.go].
    - ReferencePOS: the types and the adapter of [domain/integrations/service.go];
      Integrations: its service, whose SQL is IntegrationQueries.
    - Outbox: [outbox/outbox.go].
    - Hub: [realtime/hub.go], as goroutines that interleave at critical
      sections; Sync: [realtime/sync.go] and the cursor and reading handlers of
      [realtime/http.go]; WebSocket: frames of [realtime/websocket.go];
      RateLimiter: the limiter of [httpapi/guest.go].
    - Http: requests, answers and the helpers of [httpapi/api.go]; Dto: the JSON of
      answers and of requests, and the canonical text of commands;
      Auth: [httpapi/auth.go] and the policies and contexts of [api.go];
      PlatformQueries: [store/db/platform.sql.go]; Platform: [platform.go],
      [platform_admins.go], [platform_owners.go]; Api: the handlers of [api.go],
      [integrations.go], [owner_setup.go] and [guest.go]; Routes: the table of
      routes and the dispatch ([handle]).
    - AnalyticsQueries: numbers, instants and calendar dates, the tables of metrics
      and the statements of [store/db/analytics.sql.go] and of
      [domain/analytics/projection.go]; Analytics: [formulas.go],
      [service_period.go], [projection.go] and [service.go].
    - Library files.  TxFacts: transactions and rollback.  Steps: relations that
      statements, bodies and whole operations respect, with the tactics that walk
      through an operation's text.  CommandFacts (the command runner), FloorSpec
      (the abstract floor, and what commands do to it), ErrorFacts (which errors a call can
      return), GuestFacts, Commands, History, EventLog, Idempotency, Progress
      (runs without failures): the floor.
      IdentityFacts (one type of the identity operations, their histories, secrets
      and prefixes), MembershipFacts: people.  LayoutFacts
      (rows, constraints and versions of a layout), SystemCommands (one type of
      all requests of the backend, their histories, and requests that end between
      transactions), LayoutCommands: layouts.
      IntegrationFacts (requests of several transactions; the interfaces
      [OwnStatements] and [FloorCalls] between integrations and operations),
      IntegrationInv (the rows of integrations), IntegrationSteps (what each call
      of a request does): integrations.  OutboxFacts, Delivery, Pipeline, HubFacts,
      SyncFacts: delivery.  HttpSteps (the interface [Backend]: a relation that the services' operations
      and the platform's statements respect is respected by every handler,
      [http_keeps], and so by every request, [backend_keeps]), Guards (what an
      answer other than a refusal says of the bearer; [Answers], what a handler does
      to the database by what it answers; transactions that call a service which
      commits by itself, [service_tx_inv]): the HTTP API.  Samples,
      IdentitySamples, SystemSamples: a small
      restaurant, and an administrator of the platform, for the examples.

    ** What the theorems show

    - SystemTheorems: whatever requests arrive, at the services or at the HTTP API,
      in any order and with any failing calls, the database stays coherent: rows of all
      components satisfy their constraints, and the floor agrees with itself.
    - PlatformTheorems: a request to a route of the platform is refused or its
      bearer has the permission of the route; an answered one has left its audit
      event with actor, action, tenant and reason; an invitation that fails has no
      effect, or has made the owner without trace; the platform never loses its last
      administrator.
    - RouteTheorems: the policies that the API reads off the text of a path are the
      declared ones; a request of a tenant is refused or comes from a user or
      device of the tenant with the permission of the route.
    - FloorTheorems: every run of every command is a step of the abstract floor
      or changes nothing ([command_refines_floor]); a command with an id takes
      effect at most once, whichever of the seven it is ([IdCommand]); of any two
      commands on the same version of a table or an assist request one at most takes
      effect;
      the coherence of occupancy and sessions is an invariant of every history;
      an error means no change, or a whole change whose answer was lost; the
      event log numbers the versions of an entity without gap or repetition, and
      each event has its outbox records; what occupying and clearing do, and
      that a valid occupy succeeds.
    - AssistTheorems: the refusals, with their errors, and the life cycle of an
      assist request.
    - GuestTheorems: a token resolves to a live capability of its hash and tenant
      and to nothing else; rotation and revocation kill the old token for good;
      guests only touch their table's requests; one pending request per action.
    - IdentityTheorems: a session is accepted only when it is live and never after
      it was revoked; a revoked device never authenticates again; a pairing code
      pairs one device, and the paired device is let in.
    - MembershipTheorems, RoleTheorems: an organisation keeps an owner, and the two
      ways it can lose the last one; roles fit their scope; changes leave their
      audit event.
    - AccessTheorems: no operation of a tenant's actor ([TenantOperation]: on people
      and devices, the layout, integrations, analytics, reading included) succeeds or
      changes anything without its permission.
    - LayoutTheorems: tenants are isolated, down to the row of the location and its
      organisation ([confined]); edits of one version exclude each
      other; snapshots are complete; a new table can be used at once; archiving
      strands who sits there.
    - OnboardingTheorems: what provisioning and the setup leave; a setup happens
      once; a tenant keeps its owner under the requests of all services and of the
      HTTP API, reassignments over either included; the times of day of a service period.
    - IntegrationTheorems: whatever a vendor sends, the floor only moves by occupy
      and clear commands in the name of its connection; an event is handled once;
      a webhook without a valid signature leaves at most a row of the inbox; what
      an applied webhook says of table, session, inbox and connection; the branches
      of a reconciliation and its figures; integrations belong to their tenants;
      and that a replay applies a processed webhook again.
    - AnalyticsTheorems: a rebuild leaves, for every day it visits and every group in
      use, exactly the metrics that the formulas give, day by day and hour by hour, or
      changes none, and no other row ([rebuilt]); it visits the dates of its range
      once and in order; an event has its own day projected, but east of Greenwich
      the day before, and none on the day clocks go ahead of Greenwich; the occupancy
      of hours adds up to that of their day, by the overlaps of the sessions.
    - OutboxTheorems: what a claim takes, that claims are disjoint, what each
      outcome leaves behind, that redelivery does not handle twice, that records
      are never lost, that a batch delivers what a history of commands wrote, the
      bounds of the backoff; and that a stale worker can undo a delivery.
    - RealtimeTheorems: under every interleaving the hub neither panics nor
      overfills a queue nor crosses tenants nor deadlocks; what a publication
      does; that paging by cursor is complete; that push and pull agree; and how
      an event behind the cursor is missed.
    - FrameTheorems: frames round trip in both directions, within the limits; the
      read loop returns and answers pings.  RateLimiter: its bound.

    ** Bounds and fuel

    PostgreSQL's [integer] columns and Go's [int32] are [Z] with explicit range
    tests; times are nanoseconds in [Z], and a time the database stores is
    rounded to microseconds ([pg_time]).  Fuel appears where Go loops: the hub's
    single-goroutine runs ([publish_delivers] gives the fuel that is enough), the
    read loop (one more than the number of input bytes), paging (one more than
    the number of events) and the worker's endless [Run] (its theorem holds for
    every fuel); the days of a rebuild (a day is at least twenty hours after the
    one before in a zone that never jumps by more than four) and the hours of a
    day (one each).  The counters of a reconciliation are [int32] and wrap
    ([wrap32]); below 2^31 tables they count ([reconciliation_counts]).

    ** What is left out

    Row level security (the statements name their tenant themselves); metrics,
    tracing and logging; the HTTP server around the handlers and the text of JSON
    bodies; the websocket handshake and the routing of the realtime process;
    deadlines; row locks that a concurrent transaction skips or waits for;
    [Percentile] of [formulas.go], which only a test calls; the mains of the
    processes; the TypeScript and Dart clients. *)

From Stdlib Require Export ZArith Lia Ascii.
From Stdlib Require Import DecimalString.
From stdpp Require Export base tactics option list gmap strings fin_maps.

#[export] Set Warnings "-clear-no-such-hyp,-register-all".
#[export] Set Default Goal Selector "!".

Declare Scope seatd_scope.
Delimit Scope seatd_scope with seatd.

(** Facts that close routine side conditions; each file adds its own. *)
Create HintDb seatd.

(** ** Results: the [(value, error)] pairs of the Go functions *)

Inductive result (E A : Type) : Type :=
| Ok (a : A)
| Err (e : E).
Arguments Ok {E A} a.
Arguments Err {E A} e.

Definition is_ok {E A} (r : result E A) : bool :=
  match r with Ok _ => true | Err _ => false end.

#[export] Instance Ok_inj {E A} : Inj (=) (=) (@Ok E A).
Proof. by intros ?? [=]. Qed.

(** ** Identifiers and machine integers *)

(** A UUID is its 128-bit value; [uuid.Nil] is the all-zero one. *)
Abbreviation uuid := N (only parsing).
Definition uuid_Nil : uuid := 0%N.

Definition int32_max : Z := 2147483647.
Definition int32_min : Z := -2147483648.
Definition int64_max : Z := 9223372036854775807.
Definition int64_min : Z := -9223372036854775808.

Definition in_int32 (z : Z) : bool := (int32_min <=? z)%Z && (z <=? int32_max)%Z.

(** Two's complement wrap-around of a 64-bit Go integer. *)
Definition wrap64 (z : Z) : Z :=
  ((z + 9223372036854775808) mod 18446744073709551616 - 9223372036854775808)%Z.

Lemma wrap64_small z : (int64_min <= z <= int64_max)%Z -> wrap64 z = z.
Proof. unfold wrap64, int64_min, int64_max. intros. rewrite Z.mod_small; lia. Qed.

(** ** Bytes, kept as ascii characters, and text *)

Definition byte_of (n : N) : ascii := ascii_of_N n.

Fixpoint bytes_of_string (s : string) : list ascii :=
  match s with
  | EmptyString => []
  | String c s' => c :: bytes_of_string s'
  end.

Fixpoint string_of_bytes (l : list ascii) : string :=
  match l with
  | [] => EmptyString
  | c :: l' => String c (string_of_bytes l')
  end.

Lemma string_of_bytes_of_string s : string_of_bytes (bytes_of_string s) = s.
Proof. induction s as [|c s IH]; simpl; [done|by rewrite IH]. Qed.

(** The UTF-8 encodings of the characters [unicode.IsSpace] accepts. *)
Definition space_encodings : list (list N) :=
  [[9]; [10]; [11]; [12]; [13]; [32]; [194; 133]; [194; 160];
   [225; 154; 128];
   [226; 128; 128]; [226; 128; 129]; [226; 128; 130]; [226; 128; 131];
   [226; 128; 132]; [226; 128; 133]; [226; 128; 134]; [226; 128; 135];
   [226; 128; 136]; [226; 128; 137]; [226; 128; 138];
   [226; 128; 168]; [226; 128; 169]; [226; 128; 175];
   [226; 129; 159]; [227; 128; 128]]%N.

(** [strip_prefix p l] is the rest of [l] after the bytes [p]. *)
Fixpoint strip_prefix (p : list N) (l : list ascii) : option (list ascii) :=
  match p, l with
  | [], _ => Some l
  | n :: p', c :: l' => if N.eqb n (N_of_ascii c) then strip_prefix p' l' else None
  | _ :: _, [] => None
  end.

Fixpoint strip_any (ps : list (list N)) (l : list ascii) : option (list ascii) :=
  match ps with
  | [] => None
  | p :: ps' =>
      match strip_prefix p l with
      | Some rest => Some rest
      | None => strip_any ps' l
      end
  end.

Fixpoint trim_front (fuel : nat) (ps : list (list N)) (l : list ascii) : list ascii :=
  match fuel with
  | O => l
  | S fuel' =>
      match strip_any ps l with
      | Some rest => trim_front fuel' ps rest
      | None => l
      end
  end.

(** [strings.TrimSpace]: every encoding is at least one byte, so the length of
    the text is enough fuel for either end. *)
Definition TrimSpace (s : string) : string :=
  let l := bytes_of_string s in
  let l1 := trim_front (length l) space_encodings l in
  let l2 := trim_front (length l1) (map (@rev N) space_encodings) (rev l1) in
  string_of_bytes (rev l2).

(** Printable ASCII text has nothing to trim. *)
Definition plain_char (c : ascii) : bool := (32 <? N_of_ascii c)%N && (N_of_ascii c <? 128)%N.

Lemma strip_any_plain ps c l :
  forallb (fun p => match p with [] => false | n :: _ => (n <=? 32)%N || (128 <=? n)%N end) ps
    = true ->
  plain_char c = true -> strip_any ps (c :: l) = None.
Proof.
  unfold plain_char. intros Hps [Hlo%N.ltb_lt Hhi%N.ltb_lt]%andb_prop.
  induction ps as [|[|n p] ps IH]; simpl in *; [done..|].
  apply andb_prop in Hps as [Hn Hps]. destruct (N.eqb_spec n (N_of_ascii c)) as [->|_]; [|auto].
  apply orb_prop in Hn as [Hn%N.leb_le|Hn%N.leb_le]; lia.
Qed.

Lemma trim_front_plain fuel ps l :
  forallb (fun p => match p with [] => false | n :: _ => (n <=? 32)%N || (128 <=? n)%N end) ps
    = true ->
  Forall (fun c => plain_char c = true) l -> trim_front fuel ps l = l.
Proof.
  intros Hps Hl. destruct fuel; [done|]. simpl. destruct l as [|c l].
  - destruct (strip_any ps []) eqn:H; [|done]. exfalso.
    induction ps as [|[|n p] ps IH]; simpl in *; [done..|].
    apply andb_prop in Hps as [_ Hps]. auto.
  - apply Forall_cons in Hl as [Hc _]. by rewrite strip_any_plain.
Qed.

Lemma TrimSpace_plain s :
  Forall (fun c => plain_char c = true) (bytes_of_string s) -> TrimSpace s = s.
Proof.
  intros Hs. unfold TrimSpace. rewrite (trim_front_plain _ space_encodings) by done.
  rewrite trim_front_plain; [|done|by apply Forall_rev].
  by rewrite rev_involutive, string_of_bytes_of_string.
Qed.

(** [uuid.UUID.String]: 32 hexadecimal digits in groups of 8, 4, 4, 4 and 12. *)
Definition hex_digit (n : N) : ascii :=
  if (n <? 10)%N then ascii_of_N (48 + n) else ascii_of_N (87 + n).

Fixpoint hex_string (digits : nat) (x : N) : string :=
  match digits with
  | O => EmptyString
  | S k => String (hex_digit (N.shiftr x (4 * N.of_nat k) mod 16)) (hex_string k x)
  end.

Definition uuid_String (u : uuid) : string :=
  (hex_string 8 (N.shiftr u 96) +:+ "-" +:+ hex_string 4 (N.shiftr u 80) +:+ "-"
   +:+ hex_string 4 (N.shiftr u 64) +:+ "-" +:+ hex_string 4 (N.shiftr u 48) +:+ "-"
   +:+ hex_string 12 u)%string.

(** A decimal number, as [%d] prints it. *)
Definition int_String (z : Z) : string := NilZero.string_of_int (Z.to_int z).

Fixpoint has_prefix (p s : string) : bool :=
  match p, s with
  | EmptyString, _ => true
  | String c p', String d s' => Ascii.eqb c d && has_prefix p' s'
  | String _ _, EmptyString => false
  end.

(** Byte-wise order of Go strings ([<=] on strings). *)
Fixpoint string_leb (s t : string) : bool :=
  match s, t with
  | EmptyString, _ => true
  | String _ _, EmptyString => false
  | String c s', String d t' =>
      let m := N_of_ascii c in let n := N_of_ascii d in
      if (m <? n)%N then true else if (n <? m)%N then false else string_leb s' t'
  end.

Lemma string_leb_total s t : string_leb s t = false -> string_leb t s = true.
Proof.
  revert t. induction s as [|c s IH]; intros [|d t]; simpl; [done..|].
  destruct (N.ltb_spec (N_of_ascii c) (N_of_ascii d)); [done|].
  destruct (N.ltb_spec (N_of_ascii d) (N_of_ascii c)); [done|]. auto.
Qed.

Lemma string_leb_trans s t u :
  string_leb s t = true -> string_leb t u = true -> string_leb s u = true.
Proof.
  revert t u. induction s as [|c s IH]; intros [|d t] [|b u]; simpl; try done.
  destruct (N.ltb_spec (N_of_ascii c) (N_of_ascii d)), (N.ltb_spec (N_of_ascii d) (N_of_ascii c)),
    (N.ltb_spec (N_of_ascii d) (N_of_ascii b)), (N.ltb_spec (N_of_ascii b) (N_of_ascii d)),
    (N.ltb_spec (N_of_ascii c) (N_of_ascii b)), (N.ltb_spec (N_of_ascii b) (N_of_ascii c));
    try done; try lia. apply IH.
Qed.

Definition string_ltb (s t : string) : bool := negb (string_leb t s).

(** ** Stable insertion sort

    [sort.SliceStable], [sort.Float64s] and the [ORDER BY] clauses of the
    queries.  [le x y] says that [x] may stand before [y]. *)

Section Sorting.
Context {A : Type} (le : A -> A -> bool).

Fixpoint insert_by (x : A) (l : list A) : list A :=
  match l with
  | [] => [x]
  | y :: l' => if le x y then x :: l else y :: insert_by x l'
  end.

Fixpoint sort_by (l : list A) : list A :=
  match l with
  | [] => []
  | x :: l' => insert_by x (sort_by l')
  end.

Fixpoint sorted_by (l : list A) : bool :=
  match l with
  | [] => true
  | x :: l' => forallb (le x) l' && sorted_by l'
  end.

Lemma insert_by_perm x l : insert_by x l ≡ₚ x :: l.
Proof.
  induction l as [|y l IH]; simpl; [done|].
  case_match; [done|]. rewrite IH. by constructor.
Qed.

Lemma sort_by_perm l : sort_by l ≡ₚ l.
Proof. induction l as [|x l IH]; simpl; [done|]. by rewrite insert_by_perm, IH. Qed.

Lemma sort_by_elem x l : x ∈ sort_by l <-> x ∈ l.
Proof. by rewrite sort_by_perm. Qed.

Lemma sort_by_nil l : sort_by l = [] <-> l = [].
Proof.
  split; [|by intros ->]. intros H. apply Permutation_nil_r.
  by rewrite <- H, sort_by_perm.
Qed.

Lemma forallb_elem (f : A -> bool) l : forallb f l = true <-> forall x, x ∈ l -> f x = true.
Proof.
  rewrite List.forallb_forall. split; intros H x Hx; apply H;
  by apply list_elem_of_In.
Qed.

Context (le_total : forall x y, le x y = false -> le y x = true).
Context (le_trans : forall x y z, le x y = true -> le y z = true -> le x z = true).

Lemma insert_by_sorted x l : sorted_by l = true -> sorted_by (insert_by x l) = true.
Proof.
  induction l as [|y l IH]; simpl; [done|].
  intros [Hy Hl]%andb_prop. destruct (le x y) eqn:Hxy; simpl.
  - rewrite Hxy, Hy, Hl. simpl. rewrite andb_true_r.
  rewrite forallb_elem in Hy |- *. eauto.
  - rewrite IH by done. rewrite andb_true_r.
  rewrite forallb_elem in Hy |- *. intros z. rewrite insert_by_perm.
  intros [->|Hz]%elem_of_cons; eauto.
Qed.

Lemma sort_by_sorted l : sorted_by (sort_by l) = true.
Proof. induction l as [|x l IH]; simpl; [done|]. by apply insert_by_sorted. Qed.
End Sorting.

(** A list is sorted in one way only, when the order separates its elements. *)
Lemma sorted_by_unique {A} (le : A -> A -> bool) l1 l2 :
  (forall x y, x ∈ l1 -> y ∈ l1 -> le x y = true -> le y x = true -> x = y) ->
  sorted_by le l1 = true -> sorted_by le l2 = true -> l1 ≡ₚ l2 -> l1 = l2.
Proof.
  revert l2. induction l1 as [|x l1 IH]; intros l2 Hanti H1 H2 Hp.
  { symmetry. by apply Permutation_nil_r. }
  destruct l2 as [|y l2]; [by apply Permutation_nil_r in Hp|].
  simpl in H1, H2. apply andb_true_iff in H1 as [Hx H1]. apply andb_true_iff in H2 as [Hy H2].
  rewrite forallb_elem in Hx, Hy.
  assert (x = y) as ->.
  { assert (y ∈ x :: l1) as Hyin by (rewrite Hp; left).
    assert (x ∈ y :: l2) as Hxin by (rewrite <- Hp; left).
    apply elem_of_cons in Hyin as [->|Hyin]; [done|]. apply elem_of_cons in Hxin as [->|Hxin]; [done|].
    apply Hanti; [left|by right|auto|auto]. }
  f_equal. apply IH; [|done|done|by apply Permutation_cons_inv in Hp].
  intros a b Ha Hb. apply Hanti; by right.
Qed.

(** ** Decoding small case analyses *)

Ltac split_andb :=
  repeat match goal with
  | H : (_ && _)%bool = true |- _ => apply andb_prop in H as [? ?]
  end.

Ltac bool_facts :=
  repeat match goal with
  | H : (_ && _)%bool = true |- _ => apply andb_prop in H as [? ?]
  | H : bool_decide _ = true |- _ => apply bool_decide_eq_true in H
  | H : bool_decide _ = false |- _ => apply bool_decide_eq_false in H
  | H : (_ =? _)%Z = true |- _ => apply Z.eqb_eq in H
  | H : (_ =? _)%Z = false |- _ => apply Z.eqb_neq in H
  | H : (_ <=? _)%Z = true |- _ => apply Z.leb_le in H
  | H : (_ <? _)%Z = true |- _ => apply Z.ltb_lt in H
  | H : negb _ = true |- _ => apply negb_true_iff in H
  | H : negb _ = false |- _ => apply negb_false_iff in H
  end.
