(* ===== verification/Json.v ===== *)
(** JSON values as [encoding/json] and PostgreSQL's [jsonb] columns handle
    them.  A string that [uuid.UUID.String] or [time.Time]'s RFC 3339 text
    produced is kept as its own constructor: the development never depends on
    the characters of the rendering, only on its being a JSON string. *)

From S2P Require Import Prelude.

Inductive json : Type :=
| JNull
| JBool (b : bool)
| JNum (z : Z)
| JReal (literal : string)
| JStr (s : string)
| JUuid (u : N)
| JTime (t : Z)
| JArr (l : list json)
| JObj (l : list (string * json)).

(** A [json.RawMessage]: empty, or some text with the value it decodes to, if it
    does. *)
Inductive RawMessage : Type :=
| RawEmpty
| RawText (v : option json).

(** [jsonb_typeof(v) = 'object'] *)
Definition json_is_object (j : json) : bool :=
  match j with JObj _ => true | _ => false end.

(** The member of an object; a later duplicate of a key wins, as it does in
    [json.Unmarshal] and in [jsonb]. *)
Fixpoint members_get (k : string) (l : list (string * json)) : option json :=
  match l with
  | [] => None
  | (k', v) :: l' =>
      match members_get k l' with
      | Some w => Some w
      | None => if String.eqb k k' then Some v else None
      end
  end.

Definition json_get (k : string) (j : json) : option json :=
  match j with JObj l => members_get k l | _ => None end.

(** The comparison of a member's key with a struct field's name: Unicode simple
    case folding, in which two characters outside ASCII equal an ASCII letter
    (the long s and the Kelvin sign). *)
Fixpoint fold_bytes (l : list ascii) : list N :=
  match l with
  | [] => []
  | a :: l' =>
      let n := N_of_ascii a in
      match l' with
      | b :: l'' =>
          if ((n =? 197) && (N_of_ascii b =? 191))%N then 83%N :: fold_bytes l''
          else match l'' with
               | c :: l3 =>
                   if ((n =? 226) && (N_of_ascii b =? 132) && (N_of_ascii c =? 170))%N
                   then 75%N :: fold_bytes l3
                   else (if ((97 <=? n) && (n <=? 122))%N then n - 32 else n)%N :: fold_bytes l'
               | [] => (if ((97 <=? n) && (n <=? 122))%N then n - 32 else n)%N :: fold_bytes l'
               end
      | [] => [(if ((97 <=? n) && (n <=? 122))%N then n - 32 else n)%N]
      end
  end.

Definition fold_eq (s t : string) : bool :=
  bool_decide (fold_bytes (bytes_of_string s) = fold_bytes (bytes_of_string t)).

(** [json.Marshal] of a struct field with [omitempty]. *)
Definition omit_if (b : bool) (k : string) (v : json) : list (string * json) :=
  if b then [] else [(k, v)].

Definition omit_none {A} (f : A -> json) (k : string) (o : option A) : list (string * json) :=
  match o with None => [] | Some a => [(k, f a)] end.

(** [json.Marshal] of a [map[string]any] sorts the members by key. *)
Definition key_leb (x y : string * json) : bool := string_leb (fst x) (fst y).

Definition json_of_map (l : list (string * json)) : json := JObj (sort_by key_leb l).

(** ** Decoding into [any] and encoding again *)

(** What becomes of a number that is decoded into a [float64] and encoded again:
    the nearest [float64], written with the fewest digits.  The development uses
    that integers a [float64] holds exactly stay what they are. *)
Class GoNumber := {
  float_number : json -> json;
  float_number_exact : forall z, (Z.abs z <= 2 ^ 53)%Z -> float_number (JNum z) = JNum z;
}.

(** One member per key, the last one, in any order. *)
Fixpoint last_members (l : list (string * json)) : list (string * json) :=
  match l with
  | [] => []
  | (k, v) :: l' =>
      match members_get k l' with Some _ => last_members l' | None => (k, v) :: last_members l' end
  end.

(** [json.Unmarshal] into an [any], then [json.Marshal]. *)
Fixpoint reencode `{GoNumber} (j : json) : json :=
  match j with
  | JNum _ | JReal _ => float_number j
  | JArr l => JArr (map reencode l)
  | JObj l => json_of_map (last_members (map (fun '(k, v) => (k, reencode v)) l))
  | _ => j
  end.

Lemma members_get_app k l1 l2 :
  members_get k (l1 ++ l2) =
  match members_get k l2 with Some w => Some w | None => members_get k l1 end.
Proof.
  induction l1 as [|[k' v] l1 IH]; simpl; [by destruct (members_get k l2)|].
  rewrite IH. by destruct (members_get k l2).
Qed.

Lemma members_get_None k l : members_get k l = None <-> k ∉ map fst l.
Proof.
  induction l as [|[k' v] l IH]; simpl; [split; [intros _; apply not_elem_of_nil|done]|].
  rewrite not_elem_of_cons, <- IH. destruct (members_get k l); [naive_solver|].
  destruct (String.eqb_spec k k'); naive_solver.
Qed.

Lemma members_get_Some_NoDup k v l :
  NoDup (map fst l) -> members_get k l = Some v <-> (k, v) ∈ l.
Proof.
  induction l as [|[k' w] l IH]; simpl; intros Hnd.
  { split; [done|intros []%not_elem_of_nil]. }
  apply NoDup_cons in Hnd as [Hk' Hnd]. specialize (IH Hnd).
  rewrite elem_of_cons, <- IH. apply members_get_None in Hk'.
  destruct (members_get k l) eqn:Hk.
  - split; [by right|]. intros [[= -> ->]|]; congruence.
  - destruct (String.eqb_spec k k'); naive_solver.
Qed.

(** Sorting the members does not change what a lookup finds. *)
Lemma members_get_perm k l1 l2 :
  NoDup (map fst l1) -> l1 ≡ₚ l2 -> members_get k l1 = members_get k l2.
Proof.
  intros Hnd Hp. assert (NoDup (map fst l2)) as Hnd2.
  { by rewrite <- (Permutation_map fst Hp). }
  destruct (members_get k l1) eqn:H1.
  - apply members_get_Some_NoDup in H1; [|done]. symmetry.
    apply members_get_Some_NoDup; [done|]. by rewrite <- Hp.
  - symmetry. apply members_get_None. apply members_get_None in H1.
    by rewrite <- (Permutation_map fst Hp).
Qed.

Lemma json_of_map_get k l :
  NoDup (map fst l) -> json_get k (json_of_map l) = members_get k l.
Proof.
  intros Hnd. simpl. symmetry. apply members_get_perm; [done|].
  by rewrite sort_by_perm.
Qed.

(** ** Decoding into structs

    A member goes to the field its key matches, a later one over an earlier one;
    one of the wrong type is an error of the whole.  [dec] is given the value the
    field has, which [null] leaves in a string. *)
Definition decode_field {A} (dec : A -> json -> option A) (name : string)
    (members : list (string * json)) (zero : A) : option A :=
  foldl (fun cur kv =>
    a ← cur; if fold_eq (fst kv) name then dec a (snd kv) else Some a) (Some zero) members.

Definition decode_string (cur : string) (j : json) : option string :=
  match j with JStr s => Some s | JNull => Some cur | _ => None end.

Definition decode_int32_ptr (_ : option Z) (j : json) : option (option Z) :=
  match j with
  | JNull => Some None
  | JNum z => if in_int32 z then Some (Some z) else None
  | _ => None
  end.

(** The members of a struct; [null] leaves it as it is. *)
Definition decode_struct {A} (fields : A -> list (string * json) -> option A) (cur : A) (j : json)
    : option A :=
  match j with JObj ms => fields cur ms | JNull => Some cur | _ => None end.

(** A slice is decoded into the elements its backing array still holds: the
    pair keeps the slice and what stands behind its end. *)
Fixpoint decode_elements {A} (dec : A -> json -> option A) (zero : A) (old : list A) (l : list json)
    : option (list A * list A) :=
  match l with
  | [] => Some ([], old)
  | j :: l' =>
      let '(cur, old') := match old with a :: old' => (a, old') | [] => (zero, []) end in
      a ← dec cur j;
      r ← decode_elements dec zero old' l';
      Some (a :: fst r, snd r)
  end.

Definition decode_slice {A} (dec : A -> json -> option A) (zero : A) (cur : list A * list A) (j : json)
    : option (list A * list A) :=
  match j with
  | JNull | JArr [] => Some ([], [])
  | JArr l => decode_elements dec zero (fst cur ++ snd cur) l
  | _ => None
  end.
