(* ===== verification/Crypto.v ===== *)
(** The cryptography and encodings of the Go standard library that tokens and
    webhook signatures go through: [crypto/sha256], [crypto/hmac],
    [encoding/hex] and [base64.RawURLEncoding]. *)

From S2P Require Import Prelude.
#[local] Open Scope N_scope.
#[local] Open Scope list_scope.

Definition bytes_N (s : string) : list N := N_of_ascii <$> bytes_of_string s.

(** ** SHA-256 (FIPS 180-4) *)

Definition w32 (x : N) : N := x mod 4294967296.
Definition rotr (n x : N) : N := N.lor (N.shiftr x n) (w32 (N.shiftl x (32 - n))).
Definition not32 (x : N) : N := 4294967295 - x.

Definition Ch (x y z : N) : N := N.lxor (N.land x y) (N.land (not32 x) z).
Definition Maj (x y z : N) : N := N.lxor (N.lxor (N.land x y) (N.land x z)) (N.land y z).
Definition Sigma0 (x : N) : N := N.lxor (N.lxor (rotr 2 x) (rotr 13 x)) (rotr 22 x).
Definition Sigma1 (x : N) : N := N.lxor (N.lxor (rotr 6 x) (rotr 11 x)) (rotr 25 x).
Definition sigma0 (x : N) : N := N.lxor (N.lxor (rotr 7 x) (rotr 18 x)) (N.shiftr x 3).
Definition sigma1 (x : N) : N := N.lxor (N.lxor (rotr 17 x) (rotr 19 x)) (N.shiftr x 10).

(** The round constants are the first 32 fractional bits of the cube roots of the
    first 64 primes, the initial state those of the square roots of the first
    eight. *)
Definition is_prime (n : N) : bool :=
  forallb (fun d => negb (n mod N.of_nat d =? 0)) (seq 2 (N.to_nat (N.sqrt n) - 1)).

Definition primes : list N := List.filter is_prime (N.of_nat <$> seq 2 310).

(** The integer cube root, bit by bit from bit [k - 1] down. *)
Fixpoint cube_root (k : nat) (n r : N) : N :=
  match k with
  | O => r
  | S k' =>
      let r' := r + 2 ^ N.of_nat k' in
      cube_root k' n (if r' * r' * r' <=? n then r' else r)
  end.

Definition sha256_K : list N :=
  Eval vm_compute in map (fun p => w32 (cube_root 36 (N.shiftl p 96) 0)) primes.

Record HashState := { ha : N; hb : N; hc : N; hd : N; he : N; hf : N; hg : N; hh : N }.

Definition sqrt_bits (i : nat) : N := w32 (N.sqrt (N.shiftl (nth i primes 0) 64)).

Definition sha256_H0 : HashState :=
  Eval vm_compute in
  {| ha := sqrt_bits 0; hb := sqrt_bits 1; hc := sqrt_bits 2; hd := sqrt_bits 3;
     he := sqrt_bits 4; hf := sqrt_bits 5; hg := sqrt_bits 6; hh := sqrt_bits 7 |}.

(** The message schedule, newest word first. *)
Fixpoint schedule (n : nat) (w : list N) : list N :=
  match n with
  | O => w
  | S n' =>
      schedule n'
        (w32 (sigma1 (nth 1 w 0) + nth 6 w 0 + sigma0 (nth 14 w 0) + nth 15 w 0) :: w)
  end.

Definition sha256_round (s : HashState) (kw : N * N) : HashState :=
  let t1 := hh s + Sigma1 (he s) + Ch (he s) (hf s) (hg s) + fst kw + snd kw in
  let t2 := Sigma0 (ha s) + Maj (ha s) (hb s) (hc s) in
  {| ha := w32 (t1 + t2); hb := ha s; hc := hb s; hd := hc s;
     he := w32 (hd s + t1); hf := he s; hg := hf s; hh := hg s |}.

Definition sha256_block (s : HashState) (words : list N) : HashState :=
  let w := rev (schedule 48 (rev words)) in
  let r := foldl sha256_round s (zip sha256_K w) in
  {| ha := w32 (ha s + ha r); hb := w32 (hb s + hb r); hc := w32 (hc s + hc r);
     hd := w32 (hd s + hd r); he := w32 (he s + he r); hf := w32 (hf s + hf r);
     hg := w32 (hg s + hg r); hh := w32 (hh s + hh r) |}.

(** [n] big-endian bytes of [x]. *)
Fixpoint be_bytes (n : nat) (x : N) : list N :=
  match n with
  | O => []
  | S n' => (N.shiftr x (8 * N.of_nat n')) mod 256 :: be_bytes n' x
  end.

Fixpoint be_words (l : list N) : list N :=
  match l with
  | a :: b :: c :: d :: l' =>
      (N.shiftl a 24 + N.shiftl b 16 + N.shiftl c 8 + d) :: be_words l'
  | _ => []
  end.

Definition sha256_pad (l : list N) : list N :=
  let n := length l in
  l ++ 128 :: repeat 0 ((119 - n mod 64) mod 64)%nat ++ be_bytes 8 (8 * N.of_nat n).

Fixpoint sha256_blocks (fuel : nat) (s : HashState) (words : list N) : HashState :=
  match fuel with
  | O => s
  | S fuel' => sha256_blocks fuel' (sha256_block s (take 16 words)) (drop 16 words)
  end.

(** The padded length is [64 * blocks] bytes, [16] words a block. *)
Definition Sum256 (l : list N) : list N :=
  let p := sha256_pad l in
  let s := sha256_blocks (length p / 64) sha256_H0 (be_words p) in
  flat_map (be_bytes 4) [ha s; hb s; hc s; hd s; he s; hf s; hg s; hh s].

Example sha256_abc :
  Sum256 (bytes_N "abc") = flat_map (be_bytes 4)
    [0xba7816bf; 0x8f01cfea; 0x414140de; 0x5dae2223; 0xb00361a3; 0x96177a9c; 0xb410ff61; 0xf20015ad].
Proof. vm_compute. reflexivity. Qed.

Example sha256_two_blocks :
  Sum256 (bytes_N "abcdbcdecdefdefgefghfghighijhijkijkljklmklmnlmnomnopnopq") = flat_map (be_bytes 4)
    [0x248d6a61; 0xd20638b8; 0xe5c02693; 0x0c3e6039; 0xa33ce459; 0x64ff2167; 0xf6ecedd4; 0x19db06c1].
Proof. vm_compute. reflexivity. Qed.

Lemma be_bytes_length n x : length (be_bytes n x) = n.
Proof. induction n as [|n IH]; simpl; [done|by rewrite IH]. Qed.

(** ** [crypto/hmac] over SHA-256 (RFC 2104), and [hex.EncodeToString] *)

Definition hmac_key (key : list N) : list N :=
  let key := if (64 <? length key)%nat then Sum256 key else key in
  key ++ repeat 0 (64 - length key)%nat.

Definition hmac_sha256 (key msg : list N) : list N :=
  Sum256 (map (N.lxor 0x5c) (hmac_key key) ++ Sum256 (map (N.lxor 0x36) (hmac_key key) ++ msg)).

Fixpoint hex_EncodeToString (l : list N) : string :=
  match l with
  | [] => EmptyString
  | b :: l' => String (hex_digit (b / 16)) (String (hex_digit (b mod 16)) (hex_EncodeToString l'))
  end.

Example hmac_rfc4231 :
  hex_EncodeToString (hmac_sha256 (bytes_N "Jefe") (bytes_N "what do ya want for nothing?"))
  = "5bdcc146bf60754e6a042426089575c75a003f089d2739839dec58b964ec3843"%string.
Proof. vm_compute. reflexivity. Qed.

(** ** [base64.RawURLEncoding.EncodeToString] *)

Definition base64_char (n : N) : ascii :=
  if n <? 26 then ascii_of_N (65 + n)
  else if n <? 52 then ascii_of_N (97 + (n - 26))
  else if n <? 62 then ascii_of_N (48 + (n - 52))
  else if n =? 62 then "-"%char else "_"%char.

Fixpoint RawURLEncode (l : list N) : string :=
  match l with
  | [] => ""
  | [a] => String (base64_char (a / 4)) (String (base64_char (a mod 4 * 16)) "")
  | [a; b] =>
      String (base64_char (a / 4)) (String (base64_char (a mod 4 * 16 + b / 16))
        (String (base64_char (b mod 16 * 4)) ""))
  | a :: b :: c :: l' =>
      String (base64_char (a / 4)) (String (base64_char (a mod 4 * 16 + b / 16))
        (String (base64_char (b mod 16 * 4 + c / 64)) (String (base64_char (c mod 64))
          (RawURLEncode l'))))
  end%string.

Definition base64_value (c : ascii) : option N :=
  let n := N_of_ascii c in
  if (65 <=? n) && (n <=? 90) then Some (n - 65)
  else if (97 <=? n) && (n <=? 122) then Some (n - 97 + 26)
  else if (48 <=? n) && (n <=? 57) then Some (n - 48 + 52)
  else if n =? 45 then Some 62
  else if n =? 95 then Some 63 else None.

(** The decoder of the same alphabet, the specification of the encoder. *)
Fixpoint RawURLDecode (s : string) : option (list N) :=
  match s with
  | EmptyString => Some []
  | String w (String x EmptyString) =>
      a ← base64_value w; b ← base64_value x; Some [a * 4 + b / 16]
  | String w (String x (String y EmptyString)) =>
      a ← base64_value w; b ← base64_value x; c ← base64_value y;
      Some [a * 4 + b / 16; b mod 16 * 16 + c / 4]
  | String w (String x (String y (String z s'))) =>
      a ← base64_value w; b ← base64_value x; c ← base64_value y; d ← base64_value z;
      rest ← RawURLDecode s';
      Some (a * 4 + b / 16 :: b mod 16 * 16 + c / 4 :: c mod 4 * 64 + d :: rest)
  | _ => None
  end.

(** The alphabet decodes, checked on its 64 letters. *)
Lemma base64_value_char n : n < 64 -> base64_value (base64_char n) = Some n.
Proof.
  intros Hn.
  assert (forallb (fun n => match base64_value (base64_char n) with
                            | Some m => m =? n | None => false end)
            (N.of_nat <$> seq 0 64) = true) as Hall by (vm_compute; reflexivity).
  rewrite List.forallb_forall in Hall. specialize (Hall n).
  destruct (base64_value (base64_char n)) as [m|].
  - f_equal. apply N.eqb_eq, Hall. apply list_elem_of_In, list_elem_of_fmap.
    exists (N.to_nat n). rewrite elem_of_seq. lia.
  - discriminate Hall. apply list_elem_of_In, list_elem_of_fmap.
    exists (N.to_nat n). rewrite elem_of_seq. lia.
Qed.

(** Induction by groups of three bytes, as the encoder works. *)
Lemma list_ind3 {A} (P : list A -> Prop) :
  P [] -> (forall a, P [a]) -> (forall a b, P [a; b]) ->
  (forall a b c l, P l -> P (a :: b :: c :: l)) -> forall l, P l.
Proof.
  intros H0 H1 H2 H3. fix IH 1.
  intros [|a [|b [|c l]]]; [exact H0|apply H1|apply H2|apply H3, IH].
Qed.

(** Linear arithmetic with quotients and remainders by constants. *)
Ltac div_lia := zify; Z.to_euclidean_division_equations; lia.

(** Decoding what was encoded gives it back, so distinct bytes give distinct
    tokens. *)
Lemma RawURLDecode_Encode l :
  Forall (fun b => b < 256) l -> RawURLDecode (RawURLEncode l) = Some l.
Proof.
  induction l as [|a|a b|a b c l IH] using list_ind3; intros H;
    rewrite ?Forall_cons in H; [done|..].
  - destruct H as [Ha _]. simpl. rewrite !base64_value_char by div_lia. simpl.
    repeat f_equal; div_lia.
  - destruct H as (Ha & Hb & _). simpl. rewrite !base64_value_char by div_lia. simpl.
    repeat f_equal; div_lia.
  - destruct H as (Ha & Hb & Hc & Hl). simpl. rewrite !base64_value_char by div_lia. simpl.
    rewrite IH by done. simpl. repeat f_equal; div_lia.
Qed.

