(* ===== verification/Schema.v ===== *)
(** The rows of the PostgreSQL tables the services work on (the structs sqlc
    generates in [internal/store/db/models.go]), the database as a record of
    finite maps keyed by primary key, and the row constraints
    ([CHECK], [UNIQUE], [FOREIGN KEY]) that the migrations under
    [infra/database/migrations] put on them. *)

From Stdlib Require Import SpecFloat.
From S2P Require Import Prelude Json.
#[local] Open Scope string_scope.
#[local] Open Scope Z_scope.
#[local] Open Scope list_scope.

(** Timestamps are nanoseconds since the epoch; a [timestamptz] column keeps
    microseconds. *)
Definition pg_time (t : Z) : Z := t / 1000 * 1000.

(** ** Rows *)

Record Organisation := {
  org_ID : uuid;
  org_Slug : string;
  org_Name : string;
  org_Status : string;
  org_LegacyRestaurantID : option string;
  org_CreatedAt : Z;
  org_UpdatedAt : Z;
  org_OnboardedAt : option Z;
}.

Record Location := {
  loc_ID : uuid;
  loc_OrganisationID : uuid;
  loc_Slug : string;
  loc_Name : string;
  loc_Timezone : string;
  loc_Status : string;
  loc_LegacyRestaurantID : option string;
  loc_CreatedAt : Z;
  loc_UpdatedAt : Z;
  loc_OperatingConfig : json;
  loc_FeatureFlags : json;
}.

Record Table := {
  tbl_ID : uuid;
  tbl_OrganisationID : uuid;
  tbl_LocationID : uuid;
  tbl_FloorID : uuid;
  tbl_ZoneID : uuid;
  tbl_Label : string;
  tbl_CapacityLabel : string;
  tbl_Shape : string;
  tbl_Geometry : json;
  tbl_IsActive : bool;
  tbl_DeletedAt : option Z;
  tbl_Version : Z;
  tbl_LegacyTableID : option string;
  tbl_CreatedAt : Z;
  tbl_UpdatedAt : Z;
}.

Record Floor := {
  flr_ID : uuid;
  flr_OrganisationID : uuid;
  flr_LocationID : uuid;
  flr_Slug : string;
  flr_Name : string;
  flr_SortOrder : Z;
  flr_Canvas : json;
  flr_BackgroundAssetRef : option string;
  flr_IsActive : bool;
  flr_Version : Z;
  flr_CreatedAt : Z;
  flr_UpdatedAt : Z;
}.

Record Zone := {
  zon_ID : uuid;
  zon_OrganisationID : uuid;
  zon_LocationID : uuid;
  zon_FloorID : uuid;
  zon_Name : string;
  zon_SortOrder : Z;
  zon_IsActive : bool;
  zon_Version : Z;
  zon_CreatedAt : Z;
  zon_UpdatedAt : Z;
}.

(** The times of day are microseconds after midnight. *)
Record ServicePeriod := {
  svp_ID : uuid;
  svp_OrganisationID : uuid;
  svp_LocationID : uuid;
  svp_Name : string;
  svp_DaysOfWeek : list Z;
  svp_StartTime : Z;
  svp_EndTime : Z;
  svp_IsActive : bool;
  svp_Version : Z;
  svp_CreatedAt : Z;
  svp_UpdatedAt : Z;
}.

Record TableOccupancy := {
  occ_TableID : uuid;
  occ_OrganisationID : uuid;
  occ_LocationID : uuid;
  occ_Status : string;
  occ_CurrentSessionID : option uuid;
  occ_Version : Z;
  occ_UpdatedBy : option string;
  occ_UpdatedAt : Z;
  occ_CreatedAt : Z;
}.

Record TableSession := {
  ses_ID : uuid;
  ses_OrganisationID : uuid;
  ses_LocationID : uuid;
  ses_TableID : uuid;
  ses_StartedAt : Z;
  ses_EndedAt : option Z;
  ses_PartySize : option Z;
  ses_OpenedBy : option string;
  ses_ClosedBy : option string;
  ses_Source : string;
  ses_CreatedAt : Z;
  ses_UpdatedAt : Z;
}.

Record AssistRequest := {
  ast_ID : uuid;
  ast_OrganisationID : uuid;
  ast_LocationID : uuid;
  ast_TableID : uuid;
  ast_TableSessionID : option uuid;
  ast_Status : string;
  ast_RequestedAt : Z;
  ast_AcknowledgedAt : option Z;
  ast_ResolvedAt : option Z;
  ast_CancelledAt : option Z;
  ast_RequestedBy : option string;
  ast_AcknowledgedBy : option string;
  ast_ResolvedBy : option string;
  ast_CancelledBy : option string;
  ast_Source : string;
  ast_Note : option string;
  ast_Version : Z;
  ast_CreatedAt : Z;
  ast_UpdatedAt : Z;
  ast_ActionKey : option string;
}.

Record TableQrCapability := {
  qr_ID : uuid;
  qr_OrganisationID : uuid;
  qr_LocationID : uuid;
  qr_TableID : uuid;
  qr_Token : string;
  qr_Label : option string;
  qr_IssuedAt : Z;
  qr_ExpiresAt : option Z;
  qr_RevokedAt : option Z;
  qr_Version : Z;
  qr_CreatedAt : Z;
  qr_UpdatedAt : Z;
  qr_TokenLookupPrefix : string;
  qr_TokenHash : list N;
  qr_LastUsedAt : option Z;
}.

Record ApiIdempotencyRecord := {
  idr_CommandID : uuid;
  idr_OrganisationID : uuid;
  idr_LocationID : option uuid;
  idr_CommandType : string;
  idr_PayloadHash : list N;
  idr_ResponseStatus : Z;
  idr_ResponseBody : json;
  idr_CreatedAt : Z;
  idr_ExpiresAt : Z;
}.

Record OperationalEvent := {
  oev_ID : uuid;
  oev_OrganisationID : uuid;
  oev_LocationID : uuid;
  oev_EventType : string;
  oev_AggregateType : string;
  oev_AggregateID : uuid;
  oev_AggregateVersion : option Z;
  oev_ActorRef : string;
  oev_DeviceID : option uuid;
  oev_CommandID : option uuid;
  oev_Payload : json;
  oev_OccurredAt : Z;
  oev_SchemaVersion : Z;
  oev_EntityType : string;
  oev_EntityID : uuid;
  oev_EntityVersion : option Z;
  oev_CorrelationID : option uuid;
  oev_EventData : json;
}.

Record OutboxRecord := {
  obx_ID : uuid;
  obx_OrganisationID : uuid;
  obx_LocationID : uuid;
  obx_EventID : uuid;
  obx_Topic : string;
  obx_Payload : json;
  obx_Status : string;
  obx_Attempts : Z;
  obx_AvailableAt : Z;
  obx_LockedAt : option Z;
  obx_LockedBy : option string;
  obx_ProcessedAt : option Z;
  obx_CreatedAt : Z;
  obx_UpdatedAt : Z;
  obx_Destination : string;
  obx_LastError : option string;
}.

Record ConsumerEventRecord := {
  cev_ConsumerName : string;
  cev_EventID : uuid;
  cev_OutboxRecordID : uuid;
  cev_Status : string;
  cev_FirstSeenAt : Z;
  cev_ProcessedAt : option Z;
  cev_LastError : option string;
}.

Record Device := {
  dev_ID : uuid;
  dev_OrganisationID : uuid;
  dev_LocationID : option uuid;
  dev_UserProfileID : option uuid;
  dev_DeviceType : string;
  dev_Platform : string;
  dev_AppVersion : string;
  dev_TrustState : string;
  dev_RegisteredAt : Z;
  dev_LastSeenAt : option Z;
  dev_RevokedAt : option Z;
  dev_CreatedAt : Z;
  dev_UpdatedAt : Z;
  dev_Name : option string;
  dev_Capabilities : json;
  dev_Configuration : json;
  dev_AssignedAt : option Z;
  dev_LastHeartbeatAt : option Z;
  dev_HeartbeatIntervalSeconds : Z;
}.

(** ** Identity: people, their memberships, sessions, devices and the audit log *)

Record UserProfile := {
  usr_ID : uuid;
  usr_DisplayName : string;
  usr_Email : option string;
  usr_Status : string;
  usr_CreatedAt : Z;
  usr_UpdatedAt : Z;
}.

Record ExternalIdentity := {
  ext_ID : uuid;
  ext_UserProfileID : uuid;
  ext_Issuer : string;
  ext_Subject : string;
  ext_Email : option string;
  ext_CreatedAt : Z;
  ext_UpdatedAt : Z;
}.

Record OrganisationMembership := {
  omb_ID : uuid;
  omb_OrganisationID : uuid;
  omb_MemberRef : string;
  omb_Role : string;
  omb_CreatedAt : Z;
  omb_UpdatedAt : Z;
  omb_UserProfileID : option uuid;
  omb_DisabledAt : option Z;
}.

Record LocationMembership := {
  lmb_ID : uuid;
  lmb_OrganisationID : uuid;
  lmb_LocationID : uuid;
  lmb_MemberRef : string;
  lmb_Role : string;
  lmb_CreatedAt : Z;
  lmb_UpdatedAt : Z;
  lmb_UserProfileID : option uuid;
  lmb_DisabledAt : option Z;
}.

Record PlatformMembership := {
  pmb_ID : uuid;
  pmb_UserProfileID : uuid;
  pmb_Role : string;
  pmb_GrantedByActorRef : string;
  pmb_GrantedAt : Z;
  pmb_DisabledAt : option Z;
  pmb_DisabledByActorRef : option string;
  pmb_CreatedAt : Z;
  pmb_UpdatedAt : Z;
}.

Record PlatformAdminGrant := {
  pag_ID : uuid;
  pag_Email : string;
  pag_Role : string;
  pag_InvitedByActorRef : string;
  pag_CreatedAt : Z;
  pag_ConsumedAt : option Z;
  pag_ConsumedByUserProfileID : option uuid;
  pag_RevokedAt : option Z;
  pag_RevokedByActorRef : option string;
}.

(** [wse_IpAddress] is the address as [netip] prints it. *)
Record WebSession := {
  wse_ID : uuid;
  wse_UserProfileID : uuid;
  wse_LookupPrefix : string;
  wse_SessionHash : list N;
  wse_IssuedAt : Z;
  wse_LastUsedAt : option Z;
  wse_ExpiresAt : Z;
  wse_RevokedAt : option Z;
  wse_RotatedFromSessionID : option uuid;
  wse_UserAgent : option string;
  wse_IpAddress : option string;
  wse_CreatedAt : Z;
  wse_UpdatedAt : Z;
}.

Record DeviceCredential := {
  dcr_ID : uuid;
  dcr_OrganisationID : uuid;
  dcr_DeviceID : uuid;
  dcr_LookupPrefix : string;
  dcr_CredentialHash : list N;
  dcr_IssuedAt : Z;
  dcr_LastUsedAt : option Z;
  dcr_ExpiresAt : option Z;
  dcr_RevokedAt : option Z;
  dcr_CreatedAt : Z;
  dcr_UpdatedAt : Z;
}.

Record DevicePairingCode := {
  dpc_ID : uuid;
  dpc_OrganisationID : uuid;
  dpc_LocationID : uuid;
  dpc_CreatedBy : string;
  dpc_DeviceType : string;
  dpc_PairingCodeLookupPrefix : string;
  dpc_PairingCodeHash : list N;
  dpc_ExpiresAt : Z;
  dpc_ConsumedAt : option Z;
  dpc_ConsumedByDeviceID : option uuid;
  dpc_CreatedAt : Z;
  dpc_UpdatedAt : Z;
}.

Record AuditEvent := {
  aud_ID : uuid;
  aud_OrganisationID : option uuid;
  aud_LocationID : option uuid;
  aud_ActorRef : string;
  aud_Action : string;
  aud_TargetType : string;
  aud_TargetID : string;
  aud_Metadata : json;
  aud_CreatedAt : Z;
}.

(** The tables of the identity package.  [roles] is kept as the set of its names
    and [role_permissions] as its set of pairs. *)
Record IdentityDb := {
  idb_users : gmap N UserProfile;
  idb_externals : gmap N ExternalIdentity;
  idb_roles : gset string;
  idb_role_permissions : gset (string * string);
  idb_org_members : gmap N OrganisationMembership;
  idb_loc_members : gmap N LocationMembership;
  idb_platform_members : gmap N PlatformMembership;
  idb_grants : gmap N PlatformAdminGrant;
  idb_web_sessions : gmap N WebSession;
  idb_credentials : gmap N DeviceCredential;
  idb_pairing_codes : gmap N DevicePairingCode;
  idb_audit : gmap N AuditEvent;
}.

(** The parts of a location's layout beside its tables. *)
Record LayoutDb := {
  ldb_floors : gmap N Floor;
  ldb_zones : gmap N Zone;
  ldb_periods : gmap N ServicePeriod;
}.

(** ** Integrations: connections to vendors, the mapping of their tables, the inbox
    of their webhooks, and the runs of the reconciliation with what they found *)

Record IntegrationConnection := {
  icn_ID : uuid;
  icn_OrganisationID : uuid;
  icn_LocationID : uuid;
  icn_Vendor : string;
  icn_DisplayName : string;
  icn_CredentialRef : string;
  icn_Status : string;
  icn_Capabilities : json;
  icn_Config : json;
  icn_LastSuccessfulSyncAt : option Z;
  icn_LastError : option string;
  icn_CreatedAt : Z;
  icn_UpdatedAt : Z;
}.

Record IntegrationTableMapping := {
  itm_ID : uuid;
  itm_OrganisationID : uuid;
  itm_LocationID : uuid;
  itm_ConnectionID : uuid;
  itm_ExternalTableID : string;
  itm_TableID : option uuid;
  itm_ExternalLabel : option string;
  itm_Status : string;
  itm_LastSeenAt : option Z;
  itm_CreatedAt : Z;
  itm_UpdatedAt : Z;
}.

Record IntegrationWebhookInbox := {
  iwh_ID : uuid;
  iwh_OrganisationID : uuid;
  iwh_LocationID : uuid;
  iwh_ConnectionID : uuid;
  iwh_Vendor : string;
  iwh_ExternalEventID : string;
  iwh_ReceivedAt : Z;
  iwh_SignatureValid : bool;
  iwh_Payload : json;
  iwh_ProcessingState : string;
  iwh_Attempts : Z;
  iwh_LastError : option string;
  iwh_ProcessedAt : option Z;
  iwh_CreatedAt : Z;
  iwh_UpdatedAt : Z;
}.

Record IntegrationReconciliationRun := {
  irr_ID : uuid;
  irr_OrganisationID : uuid;
  irr_LocationID : uuid;
  irr_ConnectionID : uuid;
  irr_StartedAt : Z;
  irr_CompletedAt : option Z;
  irr_Status : string;
  irr_CheckedCount : Z;
  irr_DiscrepancyCount : Z;
  irr_AutoCorrectedCount : Z;
  irr_LastError : option string;
  irr_CreatedAt : Z;
  irr_UpdatedAt : Z;
}.

Record IntegrationDiscrepancy := {
  idc_ID : uuid;
  idc_OrganisationID : uuid;
  idc_LocationID : uuid;
  idc_ConnectionID : uuid;
  idc_ReconciliationRunID : uuid;
  idc_MappingID : option uuid;
  idc_TableID : option uuid;
  idc_ExternalTableID : string;
  idc_DiscrepancyType : string;
  idc_SeatdState : option string;
  idc_ExternalState : option string;
  idc_ResolutionState : string;
  idc_Details : json;
  idc_CreatedAt : Z;
  idc_UpdatedAt : Z;
}.

Record IntegrationDb := {
  xdb_connections : gmap N IntegrationConnection;
  xdb_mappings : gmap N IntegrationTableMapping;
  xdb_webhooks : gmap N IntegrationWebhookInbox;
  xdb_runs : gmap N IntegrationReconciliationRun;
  xdb_discrepancies : gmap N IntegrationDiscrepancy;
}.

Record GuestAbuseEvent := {
  gae_ID : uuid;
  gae_OrganisationID : option uuid;
  gae_LocationID : option uuid;
  gae_TableID : option uuid;
  gae_TokenLookupPrefix : string;
  gae_ActionKey : option string;
  gae_IpHash : list N;
  gae_Decision : string;
  gae_CreatedAt : Z;
}.

(** ** Analytics: the metrics that are projected from sessions and assists, the
    checkpoint of the projector and the runs of a rebuild *)

(** A Go [float64] and a [double precision] column: binary64. *)
Abbreviation float64 := spec_float (only parsing).
Definition float_zero : float64 := S754_zero false.

(** The columns every table of metrics has, which are the fields of [Metric]
    ([domain/analytics/formulas.go]). *)
Record Metric := {
  met_ActiveTableCount : Z;
  met_OccupancySeconds : float64;
  met_UtilisationBasisSeconds : float64;
  met_UtilisationRate : float64;
  met_CompletedSessionCount : Z;
  met_TurnoverRate : float64;
  met_AvgSessionSeconds : float64;
  met_P50SessionSeconds : float64;
  met_P90SessionSeconds : float64;
  met_AssistRequestCount : Z;
  met_AvgAssistResponseSeconds : float64;
  met_AvgAssistResolutionSeconds : float64;
  met_AnomalyCount : Z;
}.

(** A row of [analytics_daily_table_metrics], [.._zone_metrics], [.._floor_metrics],
    [.._location_metrics] and of [analytics_service_period_metrics], which differ in
    the column that names the group; a location is its own group.  Dates are days
    since the epoch. *)
Record AnalyticsDailyMetric := {
  adm_OrganisationID : uuid;
  adm_LocationID : uuid;
  adm_GroupID : uuid;
  adm_MetricDate : Z;
  adm_BucketStart : Z;
  adm_BucketEnd : Z;
  adm_Metric : Metric;
  adm_ProjectedAt : Z;
}.

Record AnalyticsHourlyTableMetric := {
  ahm_OrganisationID : uuid;
  ahm_LocationID : uuid;
  ahm_TableID : uuid;
  ahm_BucketStart : Z;
  ahm_BucketEnd : Z;
  ahm_Metric : Metric;
  ahm_ProjectedAt : Z;
}.

Record AnalyticsProjectorCheckpoint := {
  apc_ProjectorName : string;
  apc_ProjectorVersion : Z;
  apc_CursorOccurredAt : option Z;
  apc_CursorEventID : option uuid;
  apc_LagSeconds : float64;
  apc_RebuildStatus : string;
  apc_RebuildStartedAt : option Z;
  apc_RebuildCompletedAt : option Z;
  apc_UpdatedAt : Z;
}.

Record AnalyticsRebuildRun := {
  arr_ID : uuid;
  arr_OrganisationID : uuid;
  arr_LocationID : uuid;
  arr_RequestedBy : string;
  arr_RangeFrom : Z;
  arr_RangeTo : Z;
  arr_StartedAt : Z;
  arr_CompletedAt : option Z;
  arr_Status : string;
  arr_DaysProcessed : Z;
  arr_LastError : option string;
  arr_CreatedAt : Z;
  arr_UpdatedAt : Z;
}.

(** Rows are keyed by organisation, location, group and date or start of the hour. *)
Abbreviation metric_key := (uuid * uuid * uuid * Z)%type (only parsing).

Record AnalyticsDb := {
  adb_hourly : gmap metric_key AnalyticsHourlyTableMetric;
  adb_tables : gmap metric_key AnalyticsDailyMetric;
  adb_zones : gmap metric_key AnalyticsDailyMetric;
  adb_floors : gmap metric_key AnalyticsDailyMetric;
  adb_locations : gmap metric_key AnalyticsDailyMetric;
  adb_periods : gmap metric_key AnalyticsDailyMetric;
  adb_checkpoints : gmap string AnalyticsProjectorCheckpoint;
  adb_rebuilds : gmap N AnalyticsRebuildRun;
}.

(** ** The database *)

Record Db := {
  db_organisations : gmap N Organisation;
  db_locations : gmap N Location;
  db_tables : gmap N Table;
  db_occupancy : gmap N TableOccupancy;
  db_sessions : gmap N TableSession;
  db_assists : gmap N AssistRequest;
  db_qr : gmap N TableQrCapability;
  db_idempotency : gmap (N * N) ApiIdempotencyRecord;
  db_events : gmap N OperationalEvent;
  db_outbox : gmap N OutboxRecord;
  db_consumer_events : gmap (string * N) ConsumerEventRecord;
  db_devices : gmap N Device;
  db_identity : IdentityDb;
  db_layout : LayoutDb;
  db_integrations : IntegrationDb;
  db_abuse : gmap N GuestAbuseEvent;
  db_analytics : AnalyticsDb;
}.

(** The identity tables of a database. *)
Definition db_users (d : Db) : gmap N UserProfile := idb_users (db_identity d).
Definition db_externals (d : Db) : gmap N ExternalIdentity := idb_externals (db_identity d).
Definition db_org_members (d : Db) : gmap N OrganisationMembership := idb_org_members (db_identity d).
Definition db_loc_members (d : Db) : gmap N LocationMembership := idb_loc_members (db_identity d).
Definition db_platform_members (d : Db) : gmap N PlatformMembership := idb_platform_members (db_identity d).
Definition db_grants (d : Db) : gmap N PlatformAdminGrant := idb_grants (db_identity d).
Definition db_web_sessions (d : Db) : gmap N WebSession := idb_web_sessions (db_identity d).
Definition db_credentials (d : Db) : gmap N DeviceCredential := idb_credentials (db_identity d).
Definition db_pairing_codes (d : Db) : gmap N DevicePairingCode := idb_pairing_codes (db_identity d).
Definition db_audit (d : Db) : gmap N AuditEvent := idb_audit (db_identity d).

Definition db_floors (d : Db) : gmap N Floor := ldb_floors (db_layout d).
Definition db_zones (d : Db) : gmap N Zone := ldb_zones (db_layout d).
Definition db_periods (d : Db) : gmap N ServicePeriod := ldb_periods (db_layout d).

Definition db_connections (d : Db) : gmap N IntegrationConnection := xdb_connections (db_integrations d).
Definition db_mappings (d : Db) : gmap N IntegrationTableMapping := xdb_mappings (db_integrations d).
Definition db_webhooks (d : Db) : gmap N IntegrationWebhookInbox := xdb_webhooks (db_integrations d).
Definition db_runs (d : Db) : gmap N IntegrationReconciliationRun := xdb_runs (db_integrations d).
Definition db_discrepancies (d : Db) : gmap N IntegrationDiscrepancy := xdb_discrepancies (db_integrations d).

(** Functional updates of one table. *)
Definition set_occupancy (m : gmap N TableOccupancy) (d : Db) : Db :=
  {| db_organisations := db_organisations d; db_locations := db_locations d;
     db_tables := db_tables d; db_occupancy := m; db_sessions := db_sessions d;
     db_assists := db_assists d; db_qr := db_qr d; db_idempotency := db_idempotency d;
     db_events := db_events d; db_outbox := db_outbox d;
     db_consumer_events := db_consumer_events d; db_devices := db_devices d;
     db_identity := db_identity d; db_layout := db_layout d;
     db_integrations := db_integrations d; db_abuse := db_abuse d;
     db_analytics := db_analytics d |}.

Definition set_sessions (m : gmap N TableSession) (d : Db) : Db :=
  {| db_organisations := db_organisations d; db_locations := db_locations d;
     db_tables := db_tables d; db_occupancy := db_occupancy d; db_sessions := m;
     db_assists := db_assists d; db_qr := db_qr d; db_idempotency := db_idempotency d;
     db_events := db_events d; db_outbox := db_outbox d;
     db_consumer_events := db_consumer_events d; db_devices := db_devices d;
     db_identity := db_identity d; db_layout := db_layout d;
     db_integrations := db_integrations d; db_abuse := db_abuse d;
     db_analytics := db_analytics d |}.

Definition set_assists (m : gmap N AssistRequest) (d : Db) : Db :=
  {| db_organisations := db_organisations d; db_locations := db_locations d;
     db_tables := db_tables d; db_occupancy := db_occupancy d; db_sessions := db_sessions d;
     db_assists := m; db_qr := db_qr d; db_idempotency := db_idempotency d;
     db_events := db_events d; db_outbox := db_outbox d;
     db_consumer_events := db_consumer_events d; db_devices := db_devices d;
     db_identity := db_identity d; db_layout := db_layout d;
     db_integrations := db_integrations d; db_abuse := db_abuse d;
     db_analytics := db_analytics d |}.

Definition set_qr (m : gmap N TableQrCapability) (d : Db) : Db :=
  {| db_organisations := db_organisations d; db_locations := db_locations d;
     db_tables := db_tables d; db_occupancy := db_occupancy d; db_sessions := db_sessions d;
     db_assists := db_assists d; db_qr := m; db_idempotency := db_idempotency d;
     db_events := db_events d; db_outbox := db_outbox d;
     db_consumer_events := db_consumer_events d; db_devices := db_devices d;
     db_identity := db_identity d; db_layout := db_layout d;
     db_integrations := db_integrations d; db_abuse := db_abuse d;
     db_analytics := db_analytics d |}.

Definition set_idempotency (m : gmap (N * N) ApiIdempotencyRecord) (d : Db) : Db :=
  {| db_organisations := db_organisations d; db_locations := db_locations d;
     db_tables := db_tables d; db_occupancy := db_occupancy d; db_sessions := db_sessions d;
     db_assists := db_assists d; db_qr := db_qr d; db_idempotency := m;
     db_events := db_events d; db_outbox := db_outbox d;
     db_consumer_events := db_consumer_events d; db_devices := db_devices d;
     db_identity := db_identity d; db_layout := db_layout d;
     db_integrations := db_integrations d; db_abuse := db_abuse d;
     db_analytics := db_analytics d |}.

Definition set_events (m : gmap N OperationalEvent) (d : Db) : Db :=
  {| db_organisations := db_organisations d; db_locations := db_locations d;
     db_tables := db_tables d; db_occupancy := db_occupancy d; db_sessions := db_sessions d;
     db_assists := db_assists d; db_qr := db_qr d; db_idempotency := db_idempotency d;
     db_events := m; db_outbox := db_outbox d;
     db_consumer_events := db_consumer_events d; db_devices := db_devices d;
     db_identity := db_identity d; db_layout := db_layout d;
     db_integrations := db_integrations d; db_abuse := db_abuse d;
     db_analytics := db_analytics d |}.

Definition set_outbox (m : gmap N OutboxRecord) (d : Db) : Db :=
  {| db_organisations := db_organisations d; db_locations := db_locations d;
     db_tables := db_tables d; db_occupancy := db_occupancy d; db_sessions := db_sessions d;
     db_assists := db_assists d; db_qr := db_qr d; db_idempotency := db_idempotency d;
     db_events := db_events d; db_outbox := m;
     db_consumer_events := db_consumer_events d; db_devices := db_devices d;
     db_identity := db_identity d; db_layout := db_layout d;
     db_integrations := db_integrations d; db_abuse := db_abuse d;
     db_analytics := db_analytics d |}.

Definition set_consumer_events (m : gmap (string * N) ConsumerEventRecord) (d : Db) : Db :=
  {| db_organisations := db_organisations d; db_locations := db_locations d;
     db_tables := db_tables d; db_occupancy := db_occupancy d; db_sessions := db_sessions d;
     db_assists := db_assists d; db_qr := db_qr d; db_idempotency := db_idempotency d;
     db_events := db_events d; db_outbox := db_outbox d;
     db_consumer_events := m; db_devices := db_devices d;
     db_identity := db_identity d; db_layout := db_layout d;
     db_integrations := db_integrations d; db_abuse := db_abuse d;
     db_analytics := db_analytics d |}.

Definition set_devices (m : gmap N Device) (d : Db) : Db :=
  {| db_organisations := db_organisations d; db_locations := db_locations d;
     db_tables := db_tables d; db_occupancy := db_occupancy d; db_sessions := db_sessions d;
     db_assists := db_assists d; db_qr := db_qr d; db_idempotency := db_idempotency d;
     db_events := db_events d; db_outbox := db_outbox d;
     db_consumer_events := db_consumer_events d; db_devices := m;
     db_identity := db_identity d; db_layout := db_layout d;
     db_integrations := db_integrations d; db_abuse := db_abuse d;
     db_analytics := db_analytics d |}.

Definition set_identity (m : IdentityDb) (d : Db) : Db :=
  {| db_organisations := db_organisations d; db_locations := db_locations d;
     db_tables := db_tables d; db_occupancy := db_occupancy d; db_sessions := db_sessions d;
     db_assists := db_assists d; db_qr := db_qr d; db_idempotency := db_idempotency d;
     db_events := db_events d; db_outbox := db_outbox d;
     db_consumer_events := db_consumer_events d; db_devices := db_devices d; db_identity := m;
     db_layout := db_layout d;
     db_integrations := db_integrations d; db_abuse := db_abuse d;
     db_analytics := db_analytics d |}.

Definition set_organisations (m : gmap N Organisation) (d : Db) : Db :=
  {| db_organisations := m; db_locations := db_locations d; db_tables := db_tables d;
     db_occupancy := db_occupancy d; db_sessions := db_sessions d;
     db_assists := db_assists d; db_qr := db_qr d; db_idempotency := db_idempotency d;
     db_events := db_events d; db_outbox := db_outbox d;
     db_consumer_events := db_consumer_events d; db_devices := db_devices d;
     db_identity := db_identity d; db_layout := db_layout d;
     db_integrations := db_integrations d; db_abuse := db_abuse d;
     db_analytics := db_analytics d |}.

Definition set_locations (m : gmap N Location) (d : Db) : Db :=
  {| db_organisations := db_organisations d; db_locations := m; db_tables := db_tables d;
     db_occupancy := db_occupancy d; db_sessions := db_sessions d;
     db_assists := db_assists d; db_qr := db_qr d; db_idempotency := db_idempotency d;
     db_events := db_events d; db_outbox := db_outbox d;
     db_consumer_events := db_consumer_events d; db_devices := db_devices d;
     db_identity := db_identity d; db_layout := db_layout d;
     db_integrations := db_integrations d; db_abuse := db_abuse d;
     db_analytics := db_analytics d |}.

Definition set_tables (m : gmap N Table) (d : Db) : Db :=
  {| db_organisations := db_organisations d; db_locations := db_locations d; db_tables := m;
     db_occupancy := db_occupancy d; db_sessions := db_sessions d;
     db_assists := db_assists d; db_qr := db_qr d; db_idempotency := db_idempotency d;
     db_events := db_events d; db_outbox := db_outbox d;
     db_consumer_events := db_consumer_events d; db_devices := db_devices d;
     db_identity := db_identity d; db_layout := db_layout d;
     db_integrations := db_integrations d; db_abuse := db_abuse d;
     db_analytics := db_analytics d |}.

Definition set_layout (m : LayoutDb) (d : Db) : Db :=
  {| db_organisations := db_organisations d; db_locations := db_locations d;
     db_tables := db_tables d; db_occupancy := db_occupancy d; db_sessions := db_sessions d;
     db_assists := db_assists d; db_qr := db_qr d; db_idempotency := db_idempotency d;
     db_events := db_events d; db_outbox := db_outbox d;
     db_consumer_events := db_consumer_events d; db_devices := db_devices d;
     db_identity := db_identity d; db_layout := m;
     db_integrations := db_integrations d; db_abuse := db_abuse d;
     db_analytics := db_analytics d |}.

Definition set_floors (m : gmap N Floor) (d : Db) : Db :=
  set_layout {| ldb_floors := m; ldb_zones := db_zones d; ldb_periods := db_periods d |} d.

Definition set_zones (m : gmap N Zone) (d : Db) : Db :=
  set_layout {| ldb_floors := db_floors d; ldb_zones := m; ldb_periods := db_periods d |} d.

Definition set_periods (m : gmap N ServicePeriod) (d : Db) : Db :=
  set_layout {| ldb_floors := db_floors d; ldb_zones := db_zones d; ldb_periods := m |} d.

Definition set_integrations (m : IntegrationDb) (d : Db) : Db :=
  {| db_organisations := db_organisations d; db_locations := db_locations d;
     db_tables := db_tables d; db_occupancy := db_occupancy d; db_sessions := db_sessions d;
     db_assists := db_assists d; db_qr := db_qr d; db_idempotency := db_idempotency d;
     db_events := db_events d; db_outbox := db_outbox d;
     db_consumer_events := db_consumer_events d; db_devices := db_devices d;
     db_identity := db_identity d; db_layout := db_layout d;
     db_integrations := m; db_abuse := db_abuse d;
     db_analytics := db_analytics d |}.

Definition set_abuse (m : gmap N GuestAbuseEvent) (d : Db) : Db :=
  {| db_organisations := db_organisations d; db_locations := db_locations d;
     db_tables := db_tables d; db_occupancy := db_occupancy d; db_sessions := db_sessions d;
     db_assists := db_assists d; db_qr := db_qr d; db_idempotency := db_idempotency d;
     db_events := db_events d; db_outbox := db_outbox d;
     db_consumer_events := db_consumer_events d; db_devices := db_devices d;
     db_identity := db_identity d; db_layout := db_layout d;
     db_integrations := db_integrations d; db_abuse := m;
     db_analytics := db_analytics d |}.

Definition set_analytics (m : AnalyticsDb) (d : Db) : Db :=
  {| db_organisations := db_organisations d; db_locations := db_locations d;
     db_tables := db_tables d; db_occupancy := db_occupancy d; db_sessions := db_sessions d;
     db_assists := db_assists d; db_qr := db_qr d; db_idempotency := db_idempotency d;
     db_events := db_events d; db_outbox := db_outbox d;
     db_consumer_events := db_consumer_events d; db_devices := db_devices d;
     db_identity := db_identity d; db_layout := db_layout d;
     db_integrations := db_integrations d; db_abuse := db_abuse d; db_analytics := m |}.

Definition set_connections (m : gmap N IntegrationConnection) (d : Db) : Db :=
  set_integrations
  {| xdb_connections := m; xdb_mappings := db_mappings d; xdb_webhooks := db_webhooks d;
     xdb_runs := db_runs d; xdb_discrepancies := db_discrepancies d |} d.

Definition set_mappings (m : gmap N IntegrationTableMapping) (d : Db) : Db :=
  set_integrations
  {| xdb_connections := db_connections d; xdb_mappings := m; xdb_webhooks := db_webhooks d;
     xdb_runs := db_runs d; xdb_discrepancies := db_discrepancies d |} d.

Definition set_webhooks (m : gmap N IntegrationWebhookInbox) (d : Db) : Db :=
  set_integrations
  {| xdb_connections := db_connections d; xdb_mappings := db_mappings d; xdb_webhooks := m;
     xdb_runs := db_runs d; xdb_discrepancies := db_discrepancies d |} d.

Definition set_runs (m : gmap N IntegrationReconciliationRun) (d : Db) : Db :=
  set_integrations
  {| xdb_connections := db_connections d; xdb_mappings := db_mappings d; xdb_webhooks := db_webhooks d;
     xdb_runs := m; xdb_discrepancies := db_discrepancies d |} d.

Definition set_discrepancies (m : gmap N IntegrationDiscrepancy) (d : Db) : Db :=
  set_integrations
  {| xdb_connections := db_connections d; xdb_mappings := db_mappings d; xdb_webhooks := db_webhooks d;
     xdb_runs := db_runs d; xdb_discrepancies := m |} d.

Definition set_users (m : gmap N UserProfile) (d : Db) : Db :=
  let i := db_identity d in set_identity
  {| idb_users := m; idb_externals := idb_externals i; idb_roles := idb_roles i;
     idb_role_permissions := idb_role_permissions i; idb_org_members := idb_org_members i;
     idb_loc_members := idb_loc_members i; idb_platform_members := idb_platform_members i;
     idb_grants := idb_grants i; idb_web_sessions := idb_web_sessions i;
     idb_credentials := idb_credentials i; idb_pairing_codes := idb_pairing_codes i;
     idb_audit := idb_audit i |} d.

Definition set_externals (m : gmap N ExternalIdentity) (d : Db) : Db :=
  let i := db_identity d in set_identity
  {| idb_users := idb_users i; idb_externals := m; idb_roles := idb_roles i;
     idb_role_permissions := idb_role_permissions i; idb_org_members := idb_org_members i;
     idb_loc_members := idb_loc_members i; idb_platform_members := idb_platform_members i;
     idb_grants := idb_grants i; idb_web_sessions := idb_web_sessions i;
     idb_credentials := idb_credentials i; idb_pairing_codes := idb_pairing_codes i;
     idb_audit := idb_audit i |} d.

Definition set_org_members (m : gmap N OrganisationMembership) (d : Db) : Db :=
  let i := db_identity d in set_identity
  {| idb_users := idb_users i; idb_externals := idb_externals i; idb_roles := idb_roles i;
     idb_role_permissions := idb_role_permissions i; idb_org_members := m;
     idb_loc_members := idb_loc_members i; idb_platform_members := idb_platform_members i;
     idb_grants := idb_grants i; idb_web_sessions := idb_web_sessions i;
     idb_credentials := idb_credentials i; idb_pairing_codes := idb_pairing_codes i;
     idb_audit := idb_audit i |} d.

Definition set_loc_members (m : gmap N LocationMembership) (d : Db) : Db :=
  let i := db_identity d in set_identity
  {| idb_users := idb_users i; idb_externals := idb_externals i; idb_roles := idb_roles i;
     idb_role_permissions := idb_role_permissions i; idb_org_members := idb_org_members i;
     idb_loc_members := m; idb_platform_members := idb_platform_members i;
     idb_grants := idb_grants i; idb_web_sessions := idb_web_sessions i;
     idb_credentials := idb_credentials i; idb_pairing_codes := idb_pairing_codes i;
     idb_audit := idb_audit i |} d.

Definition set_platform_members (m : gmap N PlatformMembership) (d : Db) : Db :=
  let i := db_identity d in set_identity
  {| idb_users := idb_users i; idb_externals := idb_externals i; idb_roles := idb_roles i;
     idb_role_permissions := idb_role_permissions i; idb_org_members := idb_org_members i;
     idb_loc_members := idb_loc_members i; idb_platform_members := m;
     idb_grants := idb_grants i; idb_web_sessions := idb_web_sessions i;
     idb_credentials := idb_credentials i; idb_pairing_codes := idb_pairing_codes i;
     idb_audit := idb_audit i |} d.

Definition set_grants (m : gmap N PlatformAdminGrant) (d : Db) : Db :=
  let i := db_identity d in set_identity
  {| idb_users := idb_users i; idb_externals := idb_externals i; idb_roles := idb_roles i;
     idb_role_permissions := idb_role_permissions i; idb_org_members := idb_org_members i;
     idb_loc_members := idb_loc_members i; idb_platform_members := idb_platform_members i;
     idb_grants := m; idb_web_sessions := idb_web_sessions i;
     idb_credentials := idb_credentials i; idb_pairing_codes := idb_pairing_codes i;
     idb_audit := idb_audit i |} d.

Definition set_web_sessions (m : gmap N WebSession) (d : Db) : Db :=
  let i := db_identity d in set_identity
  {| idb_users := idb_users i; idb_externals := idb_externals i; idb_roles := idb_roles i;
     idb_role_permissions := idb_role_permissions i; idb_org_members := idb_org_members i;
     idb_loc_members := idb_loc_members i; idb_platform_members := idb_platform_members i;
     idb_grants := idb_grants i; idb_web_sessions := m; idb_credentials := idb_credentials i;
     idb_pairing_codes := idb_pairing_codes i; idb_audit := idb_audit i |} d.

Definition set_credentials (m : gmap N DeviceCredential) (d : Db) : Db :=
  let i := db_identity d in set_identity
  {| idb_users := idb_users i; idb_externals := idb_externals i; idb_roles := idb_roles i;
     idb_role_permissions := idb_role_permissions i; idb_org_members := idb_org_members i;
     idb_loc_members := idb_loc_members i; idb_platform_members := idb_platform_members i;
     idb_grants := idb_grants i; idb_web_sessions := idb_web_sessions i; idb_credentials := m;
     idb_pairing_codes := idb_pairing_codes i; idb_audit := idb_audit i |} d.

Definition set_pairing_codes (m : gmap N DevicePairingCode) (d : Db) : Db :=
  let i := db_identity d in set_identity
  {| idb_users := idb_users i; idb_externals := idb_externals i; idb_roles := idb_roles i;
     idb_role_permissions := idb_role_permissions i; idb_org_members := idb_org_members i;
     idb_loc_members := idb_loc_members i; idb_platform_members := idb_platform_members i;
     idb_grants := idb_grants i; idb_web_sessions := idb_web_sessions i;
     idb_credentials := idb_credentials i; idb_pairing_codes := m; idb_audit := idb_audit i |} d.

Definition set_audit (m : gmap N AuditEvent) (d : Db) : Db :=
  let i := db_identity d in set_identity
  {| idb_users := idb_users i; idb_externals := idb_externals i; idb_roles := idb_roles i;
     idb_role_permissions := idb_role_permissions i; idb_org_members := idb_org_members i;
     idb_loc_members := idb_loc_members i; idb_platform_members := idb_platform_members i;
     idb_grants := idb_grants i; idb_web_sessions := idb_web_sessions i;
     idb_credentials := idb_credentials i; idb_pairing_codes := idb_pairing_codes i;
     idb_audit := m |} d.

Definition empty_identity : IdentityDb :=
  {| idb_users := ∅; idb_externals := ∅; idb_roles := ∅; idb_role_permissions := ∅; idb_org_members := ∅;
     idb_loc_members := ∅; idb_platform_members := ∅; idb_grants := ∅; idb_web_sessions := ∅; idb_credentials := ∅;
     idb_pairing_codes := ∅; idb_audit := ∅ |}.

Definition empty_layout : LayoutDb := {| ldb_floors := ∅; ldb_zones := ∅; ldb_periods := ∅ |}.

Definition empty_integrations : IntegrationDb :=
  {| xdb_connections := ∅; xdb_mappings := ∅; xdb_webhooks := ∅; xdb_runs := ∅;
     xdb_discrepancies := ∅ |}.

Definition empty_analytics : AnalyticsDb :=
  {| adb_hourly := ∅; adb_tables := ∅; adb_zones := ∅; adb_floors := ∅; adb_locations := ∅;
     adb_periods := ∅; adb_checkpoints := ∅; adb_rebuilds := ∅ |}.

Definition empty_db : Db :=
  {| db_organisations := ∅; db_locations := ∅; db_tables := ∅; db_occupancy := ∅;
     db_sessions := ∅; db_assists := ∅; db_qr := ∅; db_idempotency := ∅; db_events := ∅;
     db_outbox := ∅; db_consumer_events := ∅; db_devices := ∅;
     db_identity := empty_identity; db_layout := empty_layout;
     db_integrations := empty_integrations; db_abuse := ∅; db_analytics := empty_analytics |}.

(** ** Row constraints

    [CHECK] constraints of one row, as boolean tests; [opt_default true] lets a
    [NULL] pass, as SQL does. *)

Definition opt_all {A} (f : A -> bool) (o : option A) : bool :=
  match o with Some a => f a | None => true end.

Definition is_some {A} (o : option A) : bool :=
  match o with Some _ => true | None => false end.

Definition not_empty (s : string) : bool := negb (String.eqb s "").

Definition status_check (s : string) : bool := String.eqb s "active" || String.eqb s "disabled".

Definition organisation_checks (o : Organisation) : bool :=
  not_empty (org_Slug o) && not_empty (org_Name o) && status_check (org_Status o).

Definition location_checks (l : Location) : bool :=
  not_empty (loc_Slug l) && not_empty (loc_Name l) && not_empty (loc_Timezone l)
  && status_check (loc_Status l)
  && json_is_object (loc_OperatingConfig l) && json_is_object (loc_FeatureFlags l).

Definition floor_checks (f : Floor) : bool :=
  not_empty (flr_Slug f) && not_empty (flr_Name f) && (0 <=? flr_SortOrder f)
  && (1 <=? flr_Version f).

Definition zone_checks (z : Zone) : bool :=
  not_empty (zon_Name z) && (0 <=? zon_SortOrder z) && (1 <=? zon_Version z).

Definition shape_check (s : string) : bool :=
  String.eqb s "rectangle" || String.eqb s "circle" || String.eqb s "square"
  || String.eqb s "custom".

Definition table_checks (t : Table) : bool :=
  not_empty (tbl_Label t) && not_empty (tbl_CapacityLabel t) && shape_check (tbl_Shape t)
  && json_is_object (tbl_Geometry t) && (1 <=? tbl_Version t)
  && ((negb (is_some (tbl_DeletedAt t)) && tbl_IsActive t) || is_some (tbl_DeletedAt t)).

Definition period_checks (p : ServicePeriod) : bool :=
  not_empty (svp_Name p)
  && ((1 <=? Z.of_nat (length (svp_DaysOfWeek p))) && (Z.of_nat (length (svp_DaysOfWeek p)) <=? 7))
  && forallb (fun x => (0 <=? x) && (x <=? 6)) (svp_DaysOfWeek p)
  && (1 <=? svp_Version p).

Definition occupancy_checks (o : TableOccupancy) : bool :=
  (String.eqb (occ_Status o) "available" || String.eqb (occ_Status o) "occupied")
  && (1 <=? occ_Version o)
  && ((String.eqb (occ_Status o) "available" && negb (is_some (occ_CurrentSessionID o)))
      || (String.eqb (occ_Status o) "occupied" && is_some (occ_CurrentSessionID o))).

Definition session_checks (s : TableSession) : bool :=
  opt_all (fun n => 0 <? n) (ses_PartySize s)
  && not_empty (ses_Source s)
  && opt_all (fun t => ses_StartedAt s <=? t) (ses_EndedAt s).

Definition assist_lifecycle (a : AssistRequest) : bool :=
  (String.eqb (ast_Status a) "pending" && negb (is_some (ast_AcknowledgedAt a))
     && negb (is_some (ast_ResolvedAt a)) && negb (is_some (ast_CancelledAt a)))
  || (String.eqb (ast_Status a) "acknowledged" && is_some (ast_AcknowledgedAt a)
     && negb (is_some (ast_ResolvedAt a)) && negb (is_some (ast_CancelledAt a)))
  || (String.eqb (ast_Status a) "resolved" && is_some (ast_ResolvedAt a)
     && negb (is_some (ast_CancelledAt a)))
  || (String.eqb (ast_Status a) "cancelled" && is_some (ast_CancelledAt a)
     && negb (is_some (ast_ResolvedAt a))).

Definition assist_checks (a : AssistRequest) : bool :=
  not_empty (ast_Source a)
  && (1 <=? ast_Version a)
  && assist_lifecycle a
  && (negb (String.eqb (ast_Source a) "guest_qr")
      || match ast_ActionKey a with Some k => not_empty k | None => false end).

Definition qr_checks (c : TableQrCapability) : bool :=
  not_empty (qr_Token c)
  && (1 <=? qr_Version c)
  && opt_all (fun t => qr_IssuedAt c <? t) (qr_ExpiresAt c)
  && (32 <=? Z.of_nat (length (qr_TokenHash c))).

Definition idempotency_checks (r : ApiIdempotencyRecord) : bool :=
  not_empty (idr_CommandType r)
  && (32 <=? Z.of_nat (length (idr_PayloadHash r)))
  && ((100 <=? idr_ResponseStatus r) && (idr_ResponseStatus r <=? 599))
  && json_is_object (idr_ResponseBody r)
  && (idr_CreatedAt r <? idr_ExpiresAt r).

Definition event_checks (v : OperationalEvent) : bool :=
  not_empty (oev_EventType v)
  && not_empty (oev_AggregateType v)
  && not_empty (oev_ActorRef v)
  && opt_all (fun n => 1 <=? n) (oev_AggregateVersion v)
  && json_is_object (oev_Payload v)
  && (1 <=? oev_SchemaVersion v)
  && not_empty (oev_EntityType v)
  && opt_all (fun n => 1 <=? n) (oev_EntityVersion v)
  && json_is_object (oev_EventData v).

Definition outbox_checks (r : OutboxRecord) : bool :=
  not_empty (obx_Topic r)
  && json_is_object (obx_Payload r)
  && (String.eqb (obx_Status r) "pending" || String.eqb (obx_Status r) "processing"
      || String.eqb (obx_Status r) "processed" || String.eqb (obx_Status r) "failed")
  && (0 <=? obx_Attempts r)
  && not_empty (obx_Destination r).

Definition consumer_event_checks (r : ConsumerEventRecord) : bool :=
  not_empty (cev_ConsumerName r)
  && (String.eqb (cev_Status r) "processing" || String.eqb (cev_Status r) "processed"
      || String.eqb (cev_Status r) "failed").

Definition user_checks (u : UserProfile) : bool :=
  not_empty (usr_DisplayName u) && opt_all not_empty (usr_Email u)
  && (String.eqb (usr_Status u) "active" || String.eqb (usr_Status u) "disabled").

Definition external_checks (x : ExternalIdentity) : bool :=
  not_empty (ext_Issuer x) && not_empty (ext_Subject x) && opt_all not_empty (ext_Email x).

Definition platform_member_checks (m : PlatformMembership) : bool :=
  (String.eqb (pmb_Role m) "platform_admin" || String.eqb (pmb_Role m) "support")
  && not_empty (pmb_GrantedByActorRef m)
  && opt_all not_empty (pmb_DisabledByActorRef m)
  && Bool.eqb (is_some (pmb_DisabledAt m)) (is_some (pmb_DisabledByActorRef m)).

Definition web_session_checks (s : WebSession) : bool :=
  not_empty (wse_LookupPrefix s)
  && (32 <=? Z.of_nat (length (wse_SessionHash s)))
  && (wse_IssuedAt s <? wse_ExpiresAt s).

Definition device_type_check (t : string) : bool :=
  String.eqb t "waiter_mobile" || String.eqb t "manager_tablet" || String.eqb t "display"
  || String.eqb t "host_device".

Definition device_checks (v : Device) : bool :=
  device_type_check (dev_DeviceType v)
  && not_empty (dev_Platform v) && not_empty (dev_AppVersion v)
  && (String.eqb (dev_TrustState v) "pending" || String.eqb (dev_TrustState v) "trusted"
      || String.eqb (dev_TrustState v) "revoked")
  && Bool.eqb (String.eqb (dev_TrustState v) "revoked") (is_some (dev_RevokedAt v))
  && opt_all not_empty (dev_Name v)
  && json_is_object (dev_Capabilities v) && json_is_object (dev_Configuration v)
  && (0 <? dev_HeartbeatIntervalSeconds v).

Definition credential_checks (c : DeviceCredential) : bool :=
  not_empty (dcr_LookupPrefix c)
  && (32 <=? Z.of_nat (length (dcr_CredentialHash c)))
  && opt_all (fun t => dcr_IssuedAt c <? t) (dcr_ExpiresAt c).

Definition pairing_code_checks (c : DevicePairingCode) : bool :=
  not_empty (dpc_CreatedBy c) && device_type_check (dpc_DeviceType c)
  && not_empty (dpc_PairingCodeLookupPrefix c)
  && (32 <=? Z.of_nat (length (dpc_PairingCodeHash c)))
  && (dpc_CreatedAt c <? dpc_ExpiresAt c).

Definition audit_checks (v : AuditEvent) : bool :=
  not_empty (aud_ActorRef v) && not_empty (aud_Action v) && not_empty (aud_TargetType v)
  && not_empty (aud_TargetID v) && json_is_object (aud_Metadata v).

(** An integration: its connections, mappings, webhooks, runs and discrepancies. *)
Definition connection_status_check (s : string) : bool :=
  String.eqb s "connected" || String.eqb s "disconnected" || String.eqb s "degraded".

Definition connection_checks (c : IntegrationConnection) : bool :=
  not_empty (icn_Vendor c) && not_empty (icn_DisplayName c) && not_empty (icn_CredentialRef c)
  && connection_status_check (icn_Status c)
  && json_is_object (icn_Capabilities c) && json_is_object (icn_Config c).

Definition mapping_status_check (s : string) : bool :=
  String.eqb s "mapped" || String.eqb s "unmapped" || String.eqb s "ignored".

Definition mapping_checks (m : IntegrationTableMapping) : bool :=
  not_empty (itm_ExternalTableID m) && opt_all not_empty (itm_ExternalLabel m)
  && mapping_status_check (itm_Status m)
  && ((String.eqb (itm_Status m) "mapped" && is_some (itm_TableID m))
      || negb (String.eqb (itm_Status m) "mapped")).

Definition webhook_checks (w : IntegrationWebhookInbox) : bool :=
  not_empty (iwh_Vendor w) && not_empty (iwh_ExternalEventID w)
  && json_is_object (iwh_Payload w)
  && (String.eqb (iwh_ProcessingState w) "received" || String.eqb (iwh_ProcessingState w) "processing"
      || String.eqb (iwh_ProcessingState w) "processed" || String.eqb (iwh_ProcessingState w) "failed"
      || String.eqb (iwh_ProcessingState w) "skipped")
  && (0 <=? iwh_Attempts w).

Definition run_checks (r : IntegrationReconciliationRun) : bool :=
  (String.eqb (irr_Status r) "running" || String.eqb (irr_Status r) "completed"
   || String.eqb (irr_Status r) "failed")
  && (0 <=? irr_CheckedCount r) && (0 <=? irr_DiscrepancyCount r)
  && (0 <=? irr_AutoCorrectedCount r).

Definition table_state_check (s : string) : bool :=
  String.eqb s "available" || String.eqb s "occupied".

Definition discrepancy_checks (x : IntegrationDiscrepancy) : bool :=
  not_empty (idc_ExternalTableID x)
  && (String.eqb (idc_DiscrepancyType x) "unmapped_table"
      || String.eqb (idc_DiscrepancyType x) "occupancy_mismatch"
      || String.eqb (idc_DiscrepancyType x) "ambiguous_conflict")
  && opt_all table_state_check (idc_SeatdState x) && opt_all table_state_check (idc_ExternalState x)
  && (String.eqb (idc_ResolutionState x) "auto_corrected"
      || String.eqb (idc_ResolutionState x) "review_required"
      || String.eqb (idc_ResolutionState x) "ignored")
  && json_is_object (idc_Details x).

(** ** Foreign keys and unique indexes *)

Definition location_fk (d : Db) (org loc : uuid) : bool :=
  match db_locations d !! loc with
  | Some l => (loc_OrganisationID l =? org)%N
  | None => false
  end.

Definition table_fk (d : Db) (org loc tbl : uuid) : bool :=
  match db_tables d !! tbl with
  | Some t => (tbl_OrganisationID t =? org)%N && (tbl_LocationID t =? loc)%N
  | None => false
  end.

Definition map_any {K A} `{Countable K} (f : A -> bool) (m : gmap K A) : bool :=
  existsb f (snd <$> map_to_list m).

Lemma map_any_true {K A} `{Countable K} (f : A -> bool) (m : gmap K A) :
  map_any f m = true <-> exists k x, m !! k = Some x /\ f x = true.
Proof.
  unfold map_any. rewrite List.existsb_exists. split.
  - intros (x & Hx%list_elem_of_In & Hf). apply list_elem_of_fmap in Hx as ([k y] & -> & Hy).
    apply elem_of_map_to_list in Hy. eauto.
  - intros (k & x & Hk & Hf). exists x. split; [|done].
    apply list_elem_of_In, list_elem_of_fmap. exists (k, x). split; [done|].
    by apply elem_of_map_to_list.
Qed.

Lemma map_any_false {K A} `{Countable K} (f : A -> bool) (m : gmap K A) :
  map_any f m = false <-> forall k x, m !! k = Some x -> f x = false.
Proof.
  rewrite <- not_true_iff_false, map_any_true. split.
  - intros Hn k x Hk. apply not_true_iff_false. naive_solver.
  - intros Ha (k & x & Hk & Hf). rewrite (Ha k x Hk) in Hf. done.
Qed.
