(* ===== verification/GoTx.v ===== *)
(** Effects of the Go services: errors, the environment a request runs in
    (clocks, random identifiers, failures), the state/error monad [Go], and the
    transaction primitives of pgx ([BeginTx], [Exec]/[QueryRow], [Commit],
    [Rollback]).

    A request is a function of its environment [Env] and its state [St].  Every
    effectful call consumes one tick; the environment may make the call at any
    tick fail, so a theorem about every environment covers every error path. *)

From S2P Require Import Prelude Json Schema.
#[local] Open Scope string_scope.
#[local] Open Scope Z_scope.
#[local] Open Scope list_scope.

(** ** Errors *)

Inductive PgError : Type :=
| UniqueViolation (name : string)
| CheckViolation (name : string)
| ForeignKeyViolation (name : string)
| NumericOutOfRange
| InvalidText
| ConnectionFailure.

Inductive error : Type :=
| Sentinel (pkg : string) (msg : string)
| NoRows
| PgErr (p : PgError)
| VersionConflictError (pkg : string) (Entity : string) (ID : N) (Expected Current : Z)
| Errorf (msg : string)
| ConflictError (pkg : string) (Constraint : string)
| Wrap (msg : string) (err : error)
| Join (e1 e2 : error).

#[export] Instance PgError_eq_dec : EqDecision PgError.
Proof. solve_decision. Defined.
#[export] Instance error_eq_dec : EqDecision error.
Proof. solve_decision. Defined.

(** The text of a [ConflictError] of the configuration service. *)
Definition uniqueConstraintMessage (constraint : string) : string :=
  if String.eqb constraint "zones_floor_id_name_key"
  then "a zone with this name already exists on this floor"
  else if String.eqb constraint "tables_floor_id_label_key"
  then "a table with this label already exists on this floor"
  else if String.eqb constraint "floors_location_id_slug_key"
  then "a floor with this slug already exists"
  else if String.eqb constraint "organisations_slug_key"
  then "an organisation with this slug already exists"
  else if String.eqb constraint "locations_organisation_id_slug_key"
  then "a location with this slug already exists"
  else "a resource with this unique value already exists".

(** [errors.Is]: identity, the [Is] method, then the wrapped errors. *)
Fixpoint errors_Is (err target : error) : bool :=
  bool_decide (err = target) ||
  match err with
  | VersionConflictError pkg _ _ _ _ => bool_decide (target = Sentinel pkg "version conflict")
  | ConflictError pkg _ => bool_decide (target = Sentinel pkg "conflict")
  | Wrap _ e => errors_Is e target
  | Join e1 e2 => errors_Is e1 target || errors_Is e2 target
  | _ => false
  end.

(** ** Environment and state *)

(** A failing call; [fault_applied] says, for a commit, that the server
    committed although the client saw an error. *)
Record Fault := { fault_error : PgError; fault_applied : bool }.

Record Env := {
  env_clock : nat -> Z;          (** [time.Now()], nanoseconds *)
  env_pgclock : nat -> Z;        (** the database host's clock *)
  env_uuid : nat -> uuid;        (** [uuid.New()] and [gen_random_uuid()] *)
  env_rand : nat -> nat -> N;    (** [crypto/rand]: byte [i] of the read at a tick *)
  env_fault : nat -> option Fault;
  env_traceparent : string;      (** what the tracing library injects *)
  env_tracestate : string;
}.

Record St := {
  st_db : Db;
  st_saved : option Db;          (** the snapshot an open transaction returns to *)
  st_now : Z;                    (** [now()] of the open transaction *)
  st_tick : nat;
}.

Definition with_db (d : Db) (s : St) : St :=
  {| st_db := d; st_saved := st_saved s; st_now := st_now s; st_tick := st_tick s |}.
Definition tick (s : St) : St :=
  {| st_db := st_db s; st_saved := st_saved s; st_now := st_now s; st_tick := S (st_tick s) |}.

Definition Go (A : Type) : Type := Env -> St -> result error A * St.

#[export] Instance Go_ret : MRet Go := fun A a _ s => (Ok a, s).
#[export] Instance Go_bind : MBind Go := fun A B k m e s =>
  match m e s with
  | (Ok a, s') => k a e s'
  | (Err err, s') => (Err err, s')
  end.

Definition fail {A} (err : error) : Go A := fun _ s => (Err err, s).

(** [if err != nil { return f(err) }] *)
Definition map_err {A} (f : error -> error) (m : Go A) : Go A := fun e s =>
  match m e s with
  | (Ok a, s') => (Ok a, s')
  | (Err err, s') => (Err (f err), s')
  end.

(** Run a call and look at its [err] afterwards. *)
Definition attempt {A} (m : Go A) : Go (result error A) := fun e s =>
  let '(r, s') := m e s in (Ok r, s').

Definition lift {A} (r : result error A) : Go A := fun _ s => (r, s).

Definition guard_err (b : bool) (err : error) : Go unit :=
  if b then fail err else mret tt.

(** ** Calls that read the environment *)

Definition time_Now : Go Z := fun e s => (Ok (env_clock e (st_tick s)), tick s).
Definition uuid_New : Go uuid := fun e s => (Ok (env_uuid e (st_tick s)), tick s).

Definition rand_Read (n : nat) : Go (list N) := fun e s =>
  match env_fault e (st_tick s) with
  | Some f => (Err (PgErr (fault_error f)), tick s)
  | None => (Ok (map (fun i => (env_rand e (st_tick s) i mod 256)%N) (seq 0 n)), tick s)
  end.

(** ** SQL statements

    A statement sees [now()], one [gen_random_uuid()] and the database; it
    returns its rows and the new database, or an error with no effect. *)

Definition Stmt (A : Type) : Type := Z -> uuid -> Db -> result error (A * Db).

Definition exec {A} (q : Stmt A) : Go A := fun e s =>
  match env_fault e (st_tick s) with
  | Some f => (Err (PgErr (fault_error f)), tick s)
  | None =>
      match q (st_now s) (env_uuid e (st_tick s)) (st_db s) with
      | Ok (a, d) => (Ok a, with_db d (tick s))
      | Err err => (Err err, tick s)
      end
  end.

(** ** Transactions *)

Definition BeginTx : Go unit := fun e s =>
  match env_fault e (st_tick s) with
  | Some f => (Err (PgErr (fault_error f)), tick s)
  | None =>
      (Ok tt, {| st_db := st_db s; st_saved := Some (st_db s);
                 st_now := pg_time (env_pgclock e (st_tick s)); st_tick := S (st_tick s) |})
  end.

Definition saved_db (s : St) : Db :=
  match st_saved s with Some d => d | None => st_db s end.

Definition close_tx (d : Db) (s : St) : St :=
  {| st_db := d; st_saved := None; st_now := st_now s; st_tick := S (st_tick s) |}.

Definition Commit : Go unit := fun e s =>
  match env_fault e (st_tick s) with
  | Some f =>
      (Err (PgErr (fault_error f)),
       close_tx (if fault_applied f then st_db s else saved_db s) s)
  | None => (Ok tt, close_tx (st_db s) s)
  end.

Definition Rollback : Go unit := fun e s =>
  match env_fault e (st_tick s) with
  | Some f => (Err (PgErr (fault_error f)), close_tx (saved_db s) s)
  | None => (Ok tt, close_tx (saved_db s) s)
  end.

(** [rollback(tx, ctx, err)]: the error that is returned after rolling back. *)
Definition rollback {A} (err : error) : Go A :=
  r ← attempt Rollback;
  match r with
  | Ok _ => fail err
  | Err rollbackErr => fail (Join err (Wrap "rolling back transaction" rollbackErr))
  end.

(** [if err := m; err != nil { return rollback(tx, ctx, f(err)) }] *)
Definition or_rollback {A} (f : error -> error) (m : Go A) : Go A :=
  r ← attempt m;
  match r with
  | Ok a => mret a
  | Err err => rollback (f err)
  end.

(** A request on a database, from tick 0 and outside any transaction. *)
Definition start (d : Db) : St :=
  {| st_db := d; st_saved := None; st_now := 0; st_tick := 0 |}.

Definition run {A} (m : Go A) (e : Env) (d : Db) : result error A * Db :=
  let '(r, s) := m e (start d) in (r, st_db s).

(** ** Reasoning about calls *)

Lemma bind_Ok {A B} (m : Go A) (k : A -> Go B) e s b s' :
  (m ≫= k) e s = (Ok b, s') <-> exists a s1, m e s = (Ok a, s1) /\ k a e s1 = (Ok b, s').
Proof.
  unfold mbind, Go_bind. destruct (m e s) as [[a|err] s1]; split.
  - eauto.
  - by intros (a' & s2 & [= <- <-] & ?).
  - done.
  - by intros (a' & s2 & [=] & ?).
Qed.

Lemma bind_Err {A B} (m : Go A) (k : A -> Go B) e s err s' :
  (m ≫= k) e s = (Err err, s') <->
  m e s = (Err err, s') \/ exists a s1, m e s = (Ok a, s1) /\ k a e s1 = (Err err, s').
Proof.
  unfold mbind, Go_bind. destruct (m e s) as [[a|err'] s1]; split.
  - intros ?. right. eauto.
  - intros [[=]|(a' & s2 & [= <- <-] & ?)]. done.
  - intros [= -> ->]. by left.
  - by intros [[= -> ->]|(a' & s2 & [=] & ?)].
Qed.

Lemma bind_run {A B} (m : Go A) (k : A -> Go B) e s a s1 :
  m e s = (Ok a, s1) -> (m ≫= k) e s = k a e s1.
Proof. unfold mbind, Go_bind. by intros ->. Qed.

Lemma bind_run_Err {A B} (m : Go A) (k : A -> Go B) e s err s1 :
  m e s = (Err err, s1) -> (m ≫= k) e s = (Err err, s1).
Proof. unfold mbind, Go_bind. by intros ->. Qed.

Lemma map_err_Ok {A} f (m : Go A) e s a s' :
  map_err f m e s = (Ok a, s') -> m e s = (Ok a, s').
Proof. unfold map_err. destruct (m e s) as [[?|?] ?]; naive_solver. Qed.

Lemma map_err_Err {A} f (m : Go A) e s err s' :
  map_err f m e s = (Err err, s') <-> exists e0, m e s = (Err e0, s') /\ err = f e0.
Proof. unfold map_err. destruct (m e s) as [[?|?] ?]; naive_solver. Qed.

Lemma attempt_Ok {A} (m : Go A) e s r s' :
  attempt m e s = (Ok r, s') -> m e s = (r, s').
Proof. unfold attempt. destruct (m e s). by intros [= -> ->]. Qed.

Lemma exec_Ok {A} (q : Stmt A) e s a s' :
  exec q e s = (Ok a, s') <->
  env_fault e (st_tick s) = None /\
  exists d, q (st_now s) (env_uuid e (st_tick s)) (st_db s) = Ok (a, d) /\
            s' = with_db d (tick s).
Proof.
  unfold exec. destruct (env_fault e (st_tick s)); [naive_solver|].
  destruct (q _ _ _) as [[? ?]|?]; naive_solver.
Qed.

Lemma exec_Err {A} (q : Stmt A) e s err s' :
  exec q e s = (Err err, s') <->
  s' = tick s /\
  ((exists f, env_fault e (st_tick s) = Some f /\ err = PgErr (fault_error f)) \/
   (env_fault e (st_tick s) = None /\
    q (st_now s) (env_uuid e (st_tick s)) (st_db s) = Err err)).
Proof.
  unfold exec. destruct (env_fault e (st_tick s)); [naive_solver|].
  destruct (q _ _ _) as [[? ?]|?]; naive_solver.
Qed.

Lemma guard_err_Ok b err e s u s' :
  guard_err b err e s = (Ok u, s') <-> b = false /\ s' = s /\ u = tt.
Proof. unfold guard_err, fail, mret, Go_ret. destruct b, u; naive_solver. Qed.

Lemma guard_err_Err b err err' e s s' :
  guard_err b err e s = (Err err', s') <-> b = true /\ s' = s /\ err' = err.
Proof. unfold guard_err, fail, mret, Go_ret. destruct b; naive_solver. Qed.

Lemma ret_Ok {A} (a b : A) (e : Env) (s s' : St) :
  (mret a : Go A) e s = (Ok b, s') <-> a = b /\ s = s'.
Proof. unfold mret, Go_ret. naive_solver. Qed.

(** One step of reading a successful run backwards. *)
Ltac go_step H :=
    lazymatch type of H with
    | (_ ≫= _) _ _ = (Ok _, _) =>
        let a := fresh "r" in let s := fresh "s" in let H1 := fresh "Hrun" in
        apply bind_Ok in H as (a & s & H1 & H); go_steps H1; try go_steps H
    | mbind _ _ _ _ = (Ok _, _) =>
        let a := fresh "r" in let s := fresh "s" in let H1 := fresh "Hrun" in
        apply bind_Ok in H as (a & s & H1 & H); go_steps H1; try go_steps H
    | map_err _ _ _ _ = (Ok _, _) => apply map_err_Ok in H; try go_steps H
    | attempt _ _ _ = (Ok _, _) => apply attempt_Ok in H
    | exec _ _ _ = (Ok _, _) =>
        let d := fresh "d" in let Hf := fresh "Hfault" in let Hs := fresh "Hst" in
        apply exec_Ok in H as (Hf & d & H & Hs); try subst
    | guard_err _ _ _ _ = (Ok _, _) =>
        let Hs := fresh "Hst" in let Hu := fresh "Hu" in
        apply guard_err_Ok in H as (H & Hs & Hu); try subst
    | mret _ _ _ = (Ok _, _) =>
        let H1 := fresh "Heq" in apply ret_Ok in H as [H1 H]; try subst
    | fail _ _ _ = (Ok _, _) => discriminate H
    end
  with go_steps H := first [go_step H | idtac].

(** [for _, x := range l { if err := f(x); err != nil { return err } }] *)
Fixpoint for_each {A} (l : list A) (f : A -> Go unit) : Go unit :=
  match l with
  | [] => mret tt
  | x :: l' => f x ;; for_each l' f
  end.

Definition traceContext : Go (string * string) := fun e s =>
  (Ok (env_traceparent e, env_tracestate e), s).

(** [set_config] of the row-level-security settings of the transaction. *)
Definition SetContext : Go unit := exec (fun _ _ d => Ok (tt, d)).

(** [if err := fn(...); err != nil { rollback }; commit], as every service
    writes it, with the texts its errors are wrapped in. *)
Definition contextTx {A} (begin_text context_text commit_text : string) (fn : Go A) : Go A :=
  map_err (Wrap begin_text) BeginTx ;;
  or_rollback (Wrap context_text) SetContext ;;
  a ← or_rollback id fn;
  map_err (Wrap commit_text) Commit ;;
  mret a.

Definition inTenantTx {A} (fn : Go A) : Go A :=
  contextTx "beginning transaction" "setting tenant context" "committing transaction" fn.

Definition inTx {A} (fn : Go A) : Go A :=
  map_err (Wrap "beginning transaction") BeginTx ;;
  a ← or_rollback id fn;
  map_err (Wrap "committing transaction") Commit ;;
  mret a.

(** [if errors.Is(err, pgx.ErrNoRows) { return e }; return fmt.Errorf(msg, err)] *)
Definition no_rows_to (e : error) (msg : string) (err : error) : error :=
  if errors_Is err NoRows then e else Wrap msg err.
