(* ===== verification/Store.v ===== *)
(** The SQL queries of [internal/store/db] (generated by sqlc) that the
    operations and guest services run, as functions on the database.

    [update_row], [insert_row] and [select_*] are PostgreSQL's behaviour for the
    statement shapes that occur: a [:one] query without a row is [NoRows], a
    constraint violation is an error without effect, [FOR UPDATE] only orders
    concurrent transactions and so reads like a plain [SELECT] here. *)

From S2P Require Import Prelude Json Schema GoTx.
#[local] Open Scope string_scope.
#[local] Open Scope Z_scope.
#[local] Open Scope list_scope.

(** ** Statement shapes *)

Definition check (b : bool) (e : PgError) : result error unit :=
  if b then Ok tt else Err (PgErr e).

(** [version + 1] on a column of type [integer]. *)
Definition int4_succ (v : Z) : result error Z :=
  if in_int32 (v + 1) then Ok (v + 1) else Err (PgErr NumericOutOfRange).

Definition res_bind {E A B} (r : result E A) (k : A -> result E B) : result E B :=
  match r with Ok a => k a | Err e => Err e end.

Notation "'let?' x ':=' r 'in' k" := (res_bind r (fun x => k))
  (at level 10, x pattern, r at level 100, k at level 200).

Section Selects.
Context {K A : Type} `{Countable K}.
Context (get : Db -> gmap K A).

Definition select_one (id : K) (whr : A -> bool) : Stmt A := fun _ _ d =>
  match get d !! id with
  | Some r => if whr r then Ok (r, d) else Err NoRows
  | None => Err NoRows
  end.

(** [SELECT ... WHERE whr ORDER BY le].  PostgreSQL leaves the order of rows
the [ORDER BY] does not separate open; the model takes the map's. *)
Definition rows (d : Db) (whr : A -> bool) (le : A -> A -> bool) : list A :=
  sort_by le (List.filter whr (snd <$> map_to_list (get d))).

Definition select_many (whr : A -> bool) (le : A -> A -> bool) : Stmt (list A) :=
  fun _ _ d => Ok (rows d whr le, d).

(** [... LIMIT 1] scanned into one row. *)
Definition select_first (whr : A -> bool) (le : A -> A -> bool) : Stmt A := fun _ _ d =>
  match rows d whr le with
  | r :: _ => Ok (r, d)
  | [] => Err NoRows
  end.

Lemma select_one_Ok id whr now u d r d' :
  select_one id whr now u d = Ok (r, d') <-> get d !! id = Some r /\ whr r = true /\ d' = d.
Proof.
  unfold select_one. destruct (get d !! id) as [a|]; [|naive_solver].
  destruct (whr a) eqn:Hw; split.
  - by intros [= <- <-].
  - by intros ([= ->] & _ & ->).
  - done.
  - intros ([= ->] & ? & _). congruence.
Qed.

Lemma select_one_Err id whr now u d err :
  select_one id whr now u d = Err err ->
  err = NoRows /\ (forall r, get d !! id = Some r -> whr r = false).
Proof.
  unfold select_one. destruct (get d !! id) as [a|]; [|naive_solver].
  destruct (whr a) eqn:Hw; [done|]. intros [= <-]. split; [done|]. by intros r [= <-].
Qed.

Lemma rows_elem d whr le r :
  r ∈ rows d whr le <-> (exists k, get d !! k = Some r) /\ whr r = true.
Proof.
  unfold rows. rewrite sort_by_elem, list_elem_of_In, List.filter_In, <- list_elem_of_In.
  rewrite list_elem_of_fmap. split.
  - intros [([k r'] & -> & Hk%elem_of_map_to_list) ?]. eauto.
  - intros [[k Hk] ?]. split; [|done]. exists (k, r). split; [done|].
  by apply elem_of_map_to_list.
Qed.

Lemma select_first_Ok whr le now u d r d' :
  select_first whr le now u d = Ok (r, d') ->
  d' = d /\ (exists k, get d !! k = Some r) /\ whr r = true /\
  head (rows d whr le) = Some r.
Proof.
  unfold select_first. destruct (rows d whr le) as [|x l] eqn:Hl; [done|].
  intros [= <- <-]. assert (x ∈ rows d whr le) as Hx by (rewrite Hl; left).
  apply rows_elem in Hx as [??]. done.
Qed.

(** Rows that carry their key appear once. *)
Lemma NoDup_rows_keys (key : A -> K) d whr le :
  (forall k r, get d !! k = Some r -> key r = k) -> NoDup (key <$> rows d whr le).
Proof.
  intros Hk. unfold rows.
  assert (NoDup (key <$> (snd <$> map_to_list (get d)))) as Hnd.
  { rewrite <- list_fmap_compose.
  replace (key ∘ snd <$> map_to_list (get d)) with (fst <$> map_to_list (get d)).
  - apply NoDup_fst_map_to_list.
  - apply list_fmap_ext. intros i [k r] Hi. apply list_elem_of_lookup_2, elem_of_map_to_list in Hi.
  symmetry. by apply Hk. }
  rewrite sort_by_perm. revert Hnd. generalize (snd <$> map_to_list (get d)). clear.
  intros l. induction l as [|r l IH]; intros Hnd; [constructor|]. rewrite fmap_cons in Hnd.
  apply NoDup_cons in Hnd as [Hn Hnd]. simpl. destruct (whr r); [|by apply IH].
  rewrite fmap_cons. constructor; [|by apply IH]. intros Hin. apply Hn.
  apply list_elem_of_fmap in Hin as (x & -> & Hx). apply list_elem_of_fmap. exists x. split; [done|].
  apply list_elem_of_In, List.filter_In in Hx as [Hx _]. by apply list_elem_of_In.
Qed.

(** The row of [LIMIT 1] stands before every other one. *)
Lemma select_first_least whr le now u d r d' :
  (forall x y, le x y = false -> le y x = true) ->
  (forall x y z, le x y = true -> le y z = true -> le x z = true) ->
  (forall x, le x x = true) ->
  select_first whr le now u d = Ok (r, d') ->
  forall k x, get d !! k = Some x -> whr x = true -> le r x = true.
Proof.
  intros Htot Htr Hrefl (_ & _ & _ & Hhd)%select_first_Ok k x Hk Hw.
  assert (x ∈ rows d whr le) as Hx by (apply rows_elem; eauto).
  pose proof (sort_by_sorted le Htot Htr (List.filter whr (snd <$> map_to_list (get d)))) as Hs.
  fold (rows d whr le) in Hs. destruct (rows d whr le) as [|y l]; [done|].
  injection Hhd as ->. apply elem_of_cons in Hx as [->|Hx]; [done|].
  simpl in Hs. apply andb_prop in Hs as [Hs _]. rewrite forallb_elem in Hs. auto.
Qed.

Lemma select_first_NoRows whr le now u d err :
  select_first whr le now u d = Err err ->
  err = NoRows /\ forall k r, get d !! k = Some r -> whr r = false.
Proof.
  unfold select_first. destruct (rows d whr le) as [|x l] eqn:Hl; [|done].
  intros [= <-]. split; [done|]. intros k r Hk. apply not_true_iff_false. intros Hw.
  assert (r ∈ rows d whr le) as Hr by (apply rows_elem; eauto).
  rewrite Hl in Hr. by apply not_elem_of_nil in Hr.
Qed.
End Selects.

Section Writes.
Context {K A : Type} `{Countable K}.
Context (get : Db -> gmap K A) (put : gmap K A -> Db -> Db).
Context (ok : Db -> K -> A -> result error unit).

Definition update_row (id : K) (whr : A -> bool) (set : Z -> A -> result error A) : Stmt A :=
  fun now _ d =>
  match get d !! id with
  | Some r =>
  if whr r then
    let? r' := set now r in
    let? _ := ok d id r' in
    Ok (r', put (<[id := r']> (get d)) d)
  else Err NoRows
  | None => Err NoRows
  end.

(** An [:exec] update by primary key: no row is not an error. *)
Definition update_exec (id : K) (whr : A -> bool) (set : Z -> A -> result error A) : Stmt unit :=
  fun now _ d =>
  match get d !! id with
  | Some r =>
  if whr r then
    let? r' := set now r in
    let? _ := ok d id r' in
    Ok (tt, put (<[id := r']> (get d)) d)
  else Ok (tt, d)
  | None => Ok (tt, d)
  end.

(** An [:exec] update of every row that matches. *)
Definition update_all (whr : A -> bool) (set : Z -> A -> A) : Stmt unit :=
  fun now _ d => Ok (tt, put ((fun r => if whr r then set now r else r) <$> get d) d).

Definition insert_row (pkey : string) (key : A -> K) (new : Z -> uuid -> A) : Stmt A :=
  fun now u d =>
  let r := new now u in
  let? _ := check (negb (is_some (get d !! key r))) (UniqueViolation pkey) in
  let? _ := ok d (key r) r in
  Ok (r, put (<[key r := r]> (get d)) d).

Lemma update_row_Ok id whr set now u d r' d' :
  update_row id whr set now u d = Ok (r', d') ->
  exists r, get d !! id = Some r /\ whr r = true /\ set now r = Ok r' /\
  ok d id r' = Ok tt /\ d' = put (<[id := r']> (get d)) d.
Proof.
  unfold update_row, res_bind. intros Hq.
  destruct (get d !! id) as [r|] eqn:Hg; [|done]. destruct (whr r) eqn:Hw; [|done].
  destruct (set now r) as [r1|] eqn:Hs; [|done].
  destruct (ok d id r1) as [[]|] eqn:Ho; [|done]. injection Hq as <- <-. eauto 10.
Qed.

Lemma update_row_run id whr set now u d r r' :
  get d !! id = Some r -> whr r = true -> set now r = Ok r' -> ok d id r' = Ok tt ->
  update_row id whr set now u d = Ok (r', put (<[id := r']> (get d)) d).
Proof. unfold update_row. intros -> -> -> Hok. simpl. by rewrite Hok. Qed.

Lemma update_exec_Ok id whr set now u d t d' :
  update_exec id whr set now u d = Ok (t, d') ->
  (d' = d /\ (forall r, get d !! id = Some r -> whr r = false)) \/
  exists r r', get d !! id = Some r /\ whr r = true /\ set now r = Ok r' /\
  ok d id r' = Ok tt /\ d' = put (<[id := r']> (get d)) d.
Proof.
  unfold update_exec, res_bind. intros Hq.
  destruct (get d !! id) as [r|] eqn:Hg; [|injection Hq as _ <-; left; split; [done|]; by intros ?].
  destruct (whr r) eqn:Hw; [|injection Hq as _ <-; left; split; [done|]; by intros ? [= <-]].
  destruct (set now r) as [r1|] eqn:Hs; [|done].
  destruct (ok d id r1) as [[]|] eqn:Ho; [|done]. injection Hq as _ <-. right. eauto 10.
Qed.

Lemma update_exec_run id whr set now u d r r' :
  get d !! id = Some r -> whr r = true -> set now r = Ok r' -> ok d id r' = Ok tt ->
  update_exec id whr set now u d = Ok (tt, put (<[id := r']> (get d)) d).
Proof. unfold update_exec. intros -> -> -> Hok. simpl. by rewrite Hok. Qed.

Lemma insert_row_Ok pkey key new now u d r d' :
  insert_row pkey key new now u d = Ok (r, d') ->
  r = new now u /\ get d !! key r = None /\ ok d (key r) r = Ok tt /\
  d' = put (<[key r := r]> (get d)) d.
Proof.
  unfold insert_row, res_bind, check. intros Hq.
  destruct (get d !! key (new now u)) eqn:Hg; simpl in Hq; [done|].
  destruct (ok d _ _) as [[]|] eqn:Hok; [|done]. injection Hq as <- <-. done.
Qed.

Lemma insert_row_run pkey key new now u d :
  get d !! key (new now u) = None -> ok d (key (new now u)) (new now u) = Ok tt ->
  insert_row pkey key new now u d =
  Ok (new now u, put (<[key (new now u) := new now u]> (get d)) d).
Proof. unfold insert_row. intros -> Hok. simpl. by rewrite Hok. Qed.

End Writes.

(** ** Constraints of each table *)

Definition occupancy_ok (d : Db) (id : uuid) (o : TableOccupancy) : result error unit :=
  let? _ := check (occupancy_checks o) (CheckViolation "table_occupancy") in
  match occ_CurrentSessionID o with
  | None => Ok tt
  | Some s =>
      let? _ := check (negb (map_any (fun o' => bool_decide (occ_CurrentSessionID o' = Some s))
                               (delete id (db_occupancy d))))
                  (UniqueViolation "table_occupancy_current_session_id_key") in
      check (is_some (db_sessions d !! s)) (ForeignKeyViolation "table_occupancy_current_session_fk")
  end.

(** The index [table_sessions_one_active_per_table]. *)
Definition session_active_on (t : uuid) (s : TableSession) : bool :=
  (ses_TableID s =? t)%N && negb (is_some (ses_EndedAt s)).

Definition session_ok (d : Db) (id : uuid) (s : TableSession) : result error unit :=
  let? _ := check (session_checks s) (CheckViolation "table_sessions") in
  let? _ := check (negb (negb (is_some (ses_EndedAt s))
                         && map_any (session_active_on (ses_TableID s)) (delete id (db_sessions d))))
              (UniqueViolation "table_sessions_one_active_per_table") in
  check (table_fk d (ses_OrganisationID s) (ses_LocationID s) (ses_TableID s))
    (ForeignKeyViolation "table_sessions_table_id_fkey").

Definition assist_ok (d : Db) (id : uuid) (a : AssistRequest) : result error unit :=
  let? _ := check (assist_checks a) (CheckViolation "assist_requests") in
  let? _ := check (table_fk d (ast_OrganisationID a) (ast_LocationID a) (ast_TableID a))
              (ForeignKeyViolation "assist_requests_table_id_fkey") in
  check (opt_all (fun s => is_some (db_sessions d !! s)) (ast_TableSessionID a))
    (ForeignKeyViolation "assist_requests_table_session_id_fkey").

Definition qr_ok (d : Db) (id : uuid) (c : TableQrCapability) : result error unit :=
  let? _ := check (qr_checks c) (CheckViolation "table_qr_capabilities") in
  let? _ := check (negb (map_any (fun c' => bool_decide (qr_TokenHash c' = qr_TokenHash c))
                           (delete id (db_qr d))))
              (UniqueViolation "table_qr_capabilities_token_hash_unique") in
  check (table_fk d (qr_OrganisationID c) (qr_LocationID c) (qr_TableID c))
    (ForeignKeyViolation "table_qr_capabilities_table_id_fkey").

Lemma check_Ok b e u : check b e = Ok u <-> b = true /\ u = tt.
Proof. unfold check. destruct b, u; naive_solver. Qed.

Lemma res_bind_Ok {E A B} (r : result E A) (k : A -> result E B) b :
  res_bind r k = Ok b <-> exists a, r = Ok a /\ k a = Ok b.
Proof. unfold res_bind. destruct r; naive_solver. Qed.

(** Split a successful chain of checks. *)
Ltac checks_in H :=
  repeat lazymatch type of H with
  | res_bind _ _ = Ok _ =>
      let u := fresh "u" in let H1 := fresh "Hchk" in
      apply res_bind_Ok in H as (u & H1 & H); try (apply check_Ok in H1 as [H1 _])
  | check _ _ = Ok _ => apply check_Ok in H as [H _]
  end.

Lemma int4_succ_Ok v w : int4_succ v = Ok w <-> w = v + 1 /\ int32_min <= v + 1 <= int32_max.
Proof. unfold int4_succ, in_int32. destruct (_ && _) eqn:E; naive_solver lia. Qed.

Lemma int4_succ_in v w : int4_succ v = Ok w -> in_int32 w = true.
Proof. unfold int4_succ. destruct (in_int32 (v + 1)) eqn:E; [by intros [= <-]|done]. Qed.

(** Turn the results of statements into facts about the rows they touched. *)
Ltac stmt_facts :=
  repeat match goal with
  | H : select_one _ _ _ _ _ _ = Ok (_, _) |- _ =>
      let Hg := fresh "Hget" in let Hw := fresh "Hwhr" in let Hd := fresh "Hdb" in
      apply select_one_Ok in H as (Hg & Hw & Hd)
  | H : update_row _ _ _ _ _ _ _ _ _ = Ok (_, _) |- _ =>
      let r := fresh "row" in let Hg := fresh "Hget" in let Hw := fresh "Hwhr" in
      let Hs := fresh "Hset" in let Ho := fresh "Hok" in let Hd := fresh "Hdb" in
      apply update_row_Ok in H as (r & Hg & Hw & Hs & Ho & Hd)
  | H : insert_row _ _ _ _ _ _ _ _ _ = Ok (_, _) |- _ =>
      let Hr := fresh "Hnew" in let Hg := fresh "Hfresh" in
      let Ho := fresh "Hok" in let Hd := fresh "Hdb" in
      apply insert_row_Ok in H as (Hr & Hg & Ho & Hd)
  end.
