(* ===== verification/Queries.v ===== *)
(** The queries of [internal/store/db/operations.sql.go], with the location and
    QR-capability queries of [organisation.sql.go] and [security.sql.go] that
    the guest service needs.  Arguments are the statement's [$1], [$2], ... in
    order. *)

From S2P Require Import Prelude Json Schema GoTx Store.
#[local] Open Scope string_scope.
#[local] Open Scope Z_scope.
#[local] Open Scope list_scope.

(** ** [table_occupancy] *)

Definition live_table (d : Db) (t : uuid) : bool :=
  match db_tables d !! t with
  | Some tb => tbl_IsActive tb && negb (is_some (tbl_DeletedAt tb))
  | None => false
  end.

Definition occ_in_scope (tableID organisationID locationID : uuid) (o : TableOccupancy) : bool :=
  (occ_TableID o =? tableID)%N && (occ_OrganisationID o =? organisationID)%N
  && (occ_LocationID o =? locationID)%N.

Definition LockTableOccupancy (tableID organisationID locationID : uuid) : Go TableOccupancy :=
  exec (fun now u d =>
    if live_table d tableID
    then select_one db_occupancy tableID (occ_in_scope tableID organisationID locationID) now u d
    else Err NoRows).

Definition occupied_row (currentSessionID : option uuid) (updatedBy : option string)
    (now : Z) (o : TableOccupancy) : result error TableOccupancy :=
  let? v := int4_succ (occ_Version o) in
  Ok {| occ_TableID := occ_TableID o; occ_OrganisationID := occ_OrganisationID o;
        occ_LocationID := occ_LocationID o; occ_Status := "occupied";
        occ_CurrentSessionID := currentSessionID; occ_Version := v;
        occ_UpdatedBy := updatedBy; occ_UpdatedAt := now; occ_CreatedAt := occ_CreatedAt o |}.

Definition MarkTableOccupied (tableID organisationID locationID : uuid)
    (currentSessionID : option uuid) (updatedBy : option string) (version : Z)
    : Go TableOccupancy :=
  exec (update_row db_occupancy set_occupancy occupancy_ok tableID
    (fun o => occ_in_scope tableID organisationID locationID o
              && String.eqb (occ_Status o) "available" && (occ_Version o =? version))
    (occupied_row currentSessionID updatedBy)).

Definition available_row (updatedBy : option string) (now : Z) (o : TableOccupancy)
    : result error TableOccupancy :=
  let? v := int4_succ (occ_Version o) in
  Ok {| occ_TableID := occ_TableID o; occ_OrganisationID := occ_OrganisationID o;
        occ_LocationID := occ_LocationID o; occ_Status := "available";
        occ_CurrentSessionID := None; occ_Version := v;
        occ_UpdatedBy := updatedBy; occ_UpdatedAt := now; occ_CreatedAt := occ_CreatedAt o |}.

Definition MarkTableAvailable (tableID organisationID locationID : uuid)
    (updatedBy : option string) (version : Z) : Go TableOccupancy :=
  exec (update_row db_occupancy set_occupancy occupancy_ok tableID
    (fun o => occ_in_scope tableID organisationID locationID o
              && String.eqb (occ_Status o) "occupied" && (occ_Version o =? version))
    (available_row updatedBy)).

(** ** [table_sessions] *)

Definition new_session (organisationID locationID tableID : uuid) (partySize : option Z)
    (openedBy : option string) (source : string) (now : Z) (id : uuid) : TableSession :=
  {| ses_ID := id; ses_OrganisationID := organisationID; ses_LocationID := locationID;
     ses_TableID := tableID; ses_StartedAt := now; ses_EndedAt := None;
     ses_PartySize := partySize; ses_OpenedBy := openedBy; ses_ClosedBy := None;
     ses_Source := source; ses_CreatedAt := now; ses_UpdatedAt := now |}.

Definition CreateTableSession (organisationID locationID tableID : uuid) (partySize : option Z)
    (openedBy : option string) (source : string) : Go TableSession :=
  exec (insert_row db_sessions set_sessions session_ok "table_sessions_pkey" ses_ID
    (new_session organisationID locationID tableID partySize openedBy source)).

Definition closed_session (closedBy : option string) (now : Z) (s : TableSession)
    : result error TableSession :=
  Ok {| ses_ID := ses_ID s; ses_OrganisationID := ses_OrganisationID s;
        ses_LocationID := ses_LocationID s; ses_TableID := ses_TableID s;
        ses_StartedAt := ses_StartedAt s; ses_EndedAt := Some now;
        ses_PartySize := ses_PartySize s; ses_OpenedBy := ses_OpenedBy s;
        ses_ClosedBy := closedBy; ses_Source := ses_Source s;
        ses_CreatedAt := ses_CreatedAt s; ses_UpdatedAt := now |}.

Definition CloseTableSession (id organisationID locationID : uuid) (closedBy : option string)
    : Go TableSession :=
  exec (update_row db_sessions set_sessions session_ok id
    (fun s => (ses_OrganisationID s =? organisationID)%N && (ses_LocationID s =? locationID)%N
              && negb (is_some (ses_EndedAt s)))
    (closed_session closedBy)).

(** ** [tables] joined with [table_occupancy] *)

Definition GetTableState (id organisationID locationID : uuid) : Go (Table * TableOccupancy) :=
  exec (fun _ _ d =>
    match db_tables d !! id, db_occupancy d !! id with
    | Some t, Some o =>
        if (tbl_OrganisationID t =? organisationID)%N && (tbl_LocationID t =? locationID)%N
           && tbl_IsActive t && negb (is_some (tbl_DeletedAt t))
        then Ok ((t, o), d) else Err NoRows
    | _, _ => Err NoRows
    end).

(** [GetTableDetail] asks for the same row. *)
Definition GetTableDetail (id organisationID locationID : uuid) : Go (Table * TableOccupancy) :=
  GetTableState id organisationID locationID.

(** ** [assist_requests] *)

Definition ast_in_scope (organisationID locationID : uuid) (a : AssistRequest) : bool :=
  (ast_OrganisationID a =? organisationID)%N && (ast_LocationID a =? locationID)%N.

Definition new_assist (organisationID locationID tableID : uuid) (tableSessionID : option uuid)
    (requestedBy : option string) (source : string) (note actionKey : option string)
    (now : Z) (id : uuid) : AssistRequest :=
  {| ast_ID := id; ast_OrganisationID := organisationID; ast_LocationID := locationID;
     ast_TableID := tableID; ast_TableSessionID := tableSessionID; ast_Status := "pending";
     ast_RequestedAt := now; ast_AcknowledgedAt := None; ast_ResolvedAt := None;
     ast_CancelledAt := None; ast_RequestedBy := requestedBy; ast_AcknowledgedBy := None;
     ast_ResolvedBy := None; ast_CancelledBy := None; ast_Source := source; ast_Note := note;
     ast_Version := 1; ast_CreatedAt := now; ast_UpdatedAt := now; ast_ActionKey := actionKey |}.

Definition CreateAssistRequest (organisationID locationID tableID : uuid)
    (tableSessionID : option uuid) (requestedBy : option string) (source : string)
    (note actionKey : option string) : Go AssistRequest :=
  exec (insert_row db_assists set_assists assist_ok "assist_requests_pkey" ast_ID
    (new_assist organisationID locationID tableID tableSessionID requestedBy source note actionKey)).

Definition LockAssistRequest (id organisationID locationID : uuid) : Go AssistRequest :=
  exec (select_one db_assists id (ast_in_scope organisationID locationID)).

Definition acknowledged_row (acknowledgedBy : option string) (now : Z) (a : AssistRequest)
    : result error AssistRequest :=
  let? v := int4_succ (ast_Version a) in
  Ok {| ast_ID := ast_ID a; ast_OrganisationID := ast_OrganisationID a;
        ast_LocationID := ast_LocationID a; ast_TableID := ast_TableID a;
        ast_TableSessionID := ast_TableSessionID a; ast_Status := "acknowledged";
        ast_RequestedAt := ast_RequestedAt a; ast_AcknowledgedAt := Some now;
        ast_ResolvedAt := ast_ResolvedAt a; ast_CancelledAt := ast_CancelledAt a;
        ast_RequestedBy := ast_RequestedBy a; ast_AcknowledgedBy := acknowledgedBy;
        ast_ResolvedBy := ast_ResolvedBy a; ast_CancelledBy := ast_CancelledBy a;
        ast_Source := ast_Source a; ast_Note := ast_Note a; ast_Version := v;
        ast_CreatedAt := ast_CreatedAt a; ast_UpdatedAt := now;
        ast_ActionKey := ast_ActionKey a |}.

Definition AcknowledgeAssistRequest (id organisationID locationID : uuid)
    (acknowledgedBy : option string) (version : Z) : Go AssistRequest :=
  exec (update_row db_assists set_assists assist_ok id
    (fun a => ast_in_scope organisationID locationID a
              && String.eqb (ast_Status a) "pending" && (ast_Version a =? version))
    (acknowledged_row acknowledgedBy)).

Definition resolved_row (resolvedBy : option string) (now : Z) (a : AssistRequest)
    : result error AssistRequest :=
  let? v := int4_succ (ast_Version a) in
  Ok {| ast_ID := ast_ID a; ast_OrganisationID := ast_OrganisationID a;
        ast_LocationID := ast_LocationID a; ast_TableID := ast_TableID a;
        ast_TableSessionID := ast_TableSessionID a; ast_Status := "resolved";
        ast_RequestedAt := ast_RequestedAt a; ast_AcknowledgedAt := ast_AcknowledgedAt a;
        ast_ResolvedAt := Some now; ast_CancelledAt := ast_CancelledAt a;
        ast_RequestedBy := ast_RequestedBy a; ast_AcknowledgedBy := ast_AcknowledgedBy a;
        ast_ResolvedBy := resolvedBy; ast_CancelledBy := ast_CancelledBy a;
        ast_Source := ast_Source a; ast_Note := ast_Note a; ast_Version := v;
        ast_CreatedAt := ast_CreatedAt a; ast_UpdatedAt := now;
        ast_ActionKey := ast_ActionKey a |}.

Definition open_status (s : string) : bool :=
  String.eqb s "pending" || String.eqb s "acknowledged".

Definition terminal_status (s : string) : bool :=
  String.eqb s "resolved" || String.eqb s "cancelled".

Definition ResolveAssistRequest (id organisationID locationID : uuid)
    (resolvedBy : option string) (version : Z) : Go AssistRequest :=
  exec (update_row db_assists set_assists assist_ok id
    (fun a => ast_in_scope organisationID locationID a
              && open_status (ast_Status a) && (ast_Version a =? version))
    (resolved_row resolvedBy)).

Definition cancelled_row (cancelledBy : option string) (now : Z) (a : AssistRequest)
    : result error AssistRequest :=
  let? v := int4_succ (ast_Version a) in
  Ok {| ast_ID := ast_ID a; ast_OrganisationID := ast_OrganisationID a;
        ast_LocationID := ast_LocationID a; ast_TableID := ast_TableID a;
        ast_TableSessionID := ast_TableSessionID a; ast_Status := "cancelled";
        ast_RequestedAt := ast_RequestedAt a; ast_AcknowledgedAt := ast_AcknowledgedAt a;
        ast_ResolvedAt := ast_ResolvedAt a; ast_CancelledAt := Some now;
        ast_RequestedBy := ast_RequestedBy a; ast_AcknowledgedBy := ast_AcknowledgedBy a;
        ast_ResolvedBy := ast_ResolvedBy a; ast_CancelledBy := cancelledBy;
        ast_Source := ast_Source a; ast_Note := ast_Note a; ast_Version := v;
        ast_CreatedAt := ast_CreatedAt a; ast_UpdatedAt := now;
        ast_ActionKey := ast_ActionKey a |}.

Definition CancelAssistRequest (id organisationID locationID : uuid)
    (cancelledBy : option string) (version : Z) : Go AssistRequest :=
  exec (update_row db_assists set_assists assist_ok id
    (fun a => ast_in_scope organisationID locationID a
              && open_status (ast_Status a) && (ast_Version a =? version))
    (cancelled_row cancelledBy)).

Definition CancelPendingGuestAssistRequest (id organisationID locationID : uuid)
    (cancelledBy : option string) : Go AssistRequest :=
  exec (update_row db_assists set_assists assist_ok id
    (fun a => ast_in_scope organisationID locationID a
              && String.eqb (ast_Source a) "guest_qr" && String.eqb (ast_Status a) "pending")
    (cancelled_row cancelledBy)).

(** [col = $n] with a nullable column and argument: [NULL] matches nothing. *)
Definition sql_eq {A} `{EqDecision A} (x y : option A) : bool :=
  match x, y with Some a, Some b => bool_decide (a = b) | _, _ => false end.

Definition by_requested_at (a b : AssistRequest) : bool := ast_RequestedAt a <=? ast_RequestedAt b.
Definition by_requested_at_desc (a b : AssistRequest) : bool := ast_RequestedAt b <=? ast_RequestedAt a.

Definition guest_scope (organisationID locationID tableID : uuid) (tableSessionID : option uuid)
    (a : AssistRequest) : bool :=
  ast_in_scope organisationID locationID a && (ast_TableID a =? tableID)%N
  && sql_eq (ast_TableSessionID a) tableSessionID && String.eqb (ast_Source a) "guest_qr".

Definition GetActiveGuestAssistBySession (organisationID locationID tableID : uuid)
    (tableSessionID : option uuid) : Go AssistRequest :=
  exec (select_first db_assists
    (fun a => guest_scope organisationID locationID tableID tableSessionID a
              && open_status (ast_Status a)) by_requested_at_desc).

Definition GetGuestAssistByID (id organisationID locationID tableID : uuid) : Go AssistRequest :=
  exec (select_one db_assists id
    (fun a => ast_in_scope organisationID locationID a && (ast_TableID a =? tableID)%N
              && String.eqb (ast_Source a) "guest_qr")).

Definition GetLatestTerminalGuestAssistByAction (organisationID locationID tableID : uuid)
    (tableSessionID : option uuid) (actionKey : option string) : Go AssistRequest :=
  exec (select_first db_assists
    (fun a => guest_scope organisationID locationID tableID tableSessionID a
              && sql_eq (ast_ActionKey a) actionKey && terminal_status (ast_Status a))
    by_requested_at_desc).

Definition GetPendingGuestAssistByAction (organisationID locationID tableID : uuid)
    (tableSessionID : option uuid) (actionKey : option string) : Go AssistRequest :=
  exec (select_first db_assists
    (fun a => guest_scope organisationID locationID tableID tableSessionID a
              && sql_eq (ast_ActionKey a) actionKey && String.eqb (ast_Status a) "pending")
    by_requested_at).

Definition ListActiveAssistsByLocation (organisationID locationID : uuid) : Go (list AssistRequest) :=
  exec (select_many db_assists
    (fun a => ast_in_scope organisationID locationID a && open_status (ast_Status a))
    by_requested_at).

Definition ListActiveAssistsByTable (organisationID locationID tableID : uuid)
    : Go (list AssistRequest) :=
  exec (select_many db_assists
    (fun a => ast_in_scope organisationID locationID a && (ast_TableID a =? tableID)%N
              && open_status (ast_Status a)) by_requested_at).

(** ** [locations] *)

Definition GetLocation (id organisationID : uuid) : Go Location :=
  exec (select_one db_locations id (fun l => (loc_OrganisationID l =? organisationID)%N)).

(** ** [table_qr_capabilities] *)

Definition new_qr_capability (organisationID locationID tableID : uuid)
    (tokenLookupPrefix : string) (tokenHash : list N) (label : string) (expiresAt : option Z)
    (now : Z) (id : uuid) : TableQrCapability :=
  {| qr_ID := id; qr_OrganisationID := organisationID; qr_LocationID := locationID;
     qr_TableID := tableID; qr_Token := tokenLookupPrefix; qr_Label := Some label;
     qr_IssuedAt := now; qr_ExpiresAt := expiresAt; qr_RevokedAt := None; qr_Version := 1;
     qr_CreatedAt := now; qr_UpdatedAt := now; qr_TokenLookupPrefix := tokenLookupPrefix;
     qr_TokenHash := tokenHash; qr_LastUsedAt := None |}.

Definition CreateTableQRCapabilityHashed (organisationID locationID tableID : uuid)
    (tokenLookupPrefix : string) (tokenHash : list N) (label : string) (expiresAt : option Z)
    : Go TableQrCapability :=
  exec (insert_row db_qr set_qr qr_ok "table_qr_capabilities_pkey" qr_ID
    (new_qr_capability organisationID locationID tableID tokenLookupPrefix tokenHash label
       (pg_time <$> expiresAt))).

(** The joins of [ListActiveTableQRCapabilitiesByPrefix]: an active location and
    a live table of the capability's own tenant. *)
Definition qr_live (d : Db) (c : TableQrCapability) : bool :=
  match db_locations d !! qr_LocationID c, db_tables d !! qr_TableID c with
  | Some l, Some t =>
      (loc_OrganisationID l =? qr_OrganisationID c)%N
      && (tbl_OrganisationID t =? qr_OrganisationID c)%N
      && (tbl_LocationID t =? qr_LocationID c)%N
      && String.eqb (loc_Status l) "active"
      && tbl_IsActive t && negb (is_some (tbl_DeletedAt t))
  | _, _ => false
  end.

Definition qr_active (now : Z) (c : TableQrCapability) : bool :=
  negb (is_some (qr_RevokedAt c)) && opt_all (fun t => now <? t) (qr_ExpiresAt c).

Definition by_issued_at_desc (a b : TableQrCapability) : bool := qr_IssuedAt b <=? qr_IssuedAt a.

Definition ListActiveTableQRCapabilitiesByPrefix (tokenLookupPrefix : string)
    : Go (list TableQrCapability) :=
  exec (fun now u d =>
    select_many db_qr
      (fun c => String.eqb (qr_TokenLookupPrefix c) tokenLookupPrefix
                && qr_active now c && qr_live d c) by_issued_at_desc now u d).

Definition touched_qr (now : Z) (c : TableQrCapability) : TableQrCapability :=
  {| qr_ID := qr_ID c; qr_OrganisationID := qr_OrganisationID c;
     qr_LocationID := qr_LocationID c; qr_TableID := qr_TableID c; qr_Token := qr_Token c;
     qr_Label := qr_Label c; qr_IssuedAt := qr_IssuedAt c; qr_ExpiresAt := qr_ExpiresAt c;
     qr_RevokedAt := qr_RevokedAt c; qr_Version := qr_Version c;
     qr_CreatedAt := qr_CreatedAt c; qr_UpdatedAt := now;
     qr_TokenLookupPrefix := qr_TokenLookupPrefix c; qr_TokenHash := qr_TokenHash c;
     qr_LastUsedAt := Some now |}.

(** An [:exec] statement: no row is not an error. *)
Definition TouchTableQRCapability (id : uuid) : Go unit :=
  exec (fun now _ d =>
    match db_qr d !! id with
    | Some c => Ok (tt, set_qr (<[id := touched_qr now c]> (db_qr d)) d)
    | None => Ok (tt, d)
    end).

Definition revoked_qr (revokedAt : Z) (now : Z) (c : TableQrCapability) : TableQrCapability :=
  {| qr_ID := qr_ID c; qr_OrganisationID := qr_OrganisationID c;
     qr_LocationID := qr_LocationID c; qr_TableID := qr_TableID c; qr_Token := qr_Token c;
     qr_Label := qr_Label c; qr_IssuedAt := qr_IssuedAt c; qr_ExpiresAt := qr_ExpiresAt c;
     qr_RevokedAt := Some revokedAt; qr_Version := qr_Version c;
     qr_CreatedAt := qr_CreatedAt c; qr_UpdatedAt := now;
     qr_TokenLookupPrefix := qr_TokenLookupPrefix c; qr_TokenHash := qr_TokenHash c;
     qr_LastUsedAt := qr_LastUsedAt c |}.

(** [revoked_at = COALESCE(revoked_at, now())] *)
Definition RotateTableQRCapabilityRow (id organisationID locationID tableID : uuid)
    : Go TableQrCapability :=
  exec (update_row db_qr set_qr qr_ok id
    (fun c => (qr_OrganisationID c =? organisationID)%N && (qr_LocationID c =? locationID)%N
              && (qr_TableID c =? tableID)%N)
    (fun now c => Ok (revoked_qr (default now (qr_RevokedAt c)) now c))).

Definition RevokeTableQRCapabilityRow (id organisationID locationID : uuid)
    : Go TableQrCapability :=
  exec (update_row db_qr set_qr qr_ok id
    (fun c => (qr_OrganisationID c =? organisationID)%N && (qr_LocationID c =? locationID)%N
              && negb (is_some (qr_RevokedAt c)))
    (fun now c => Ok (revoked_qr now now c))).

Definition ListTableQRCapabilitiesByTable (organisationID locationID tableID : uuid)
    : Go (list TableQrCapability) :=
  exec (select_many db_qr
    (fun c => (qr_OrganisationID c =? organisationID)%N && (qr_LocationID c =? locationID)%N
              && (qr_TableID c =? tableID)%N) by_issued_at_desc).

(** ** [guest_abuse_events] *)

Definition abuse_checks (v : GuestAbuseEvent) : bool :=
  negb (String.eqb (gae_TokenLookupPrefix v) "")
  && match gae_ActionKey v with Some k => negb (String.eqb k "") | None => true end
  && Nat.leb 32 (length (gae_IpHash v)) && negb (String.eqb (gae_Decision v) "").

Definition new_abuse (organisationID locationID tableID : option uuid) (tokenLookupPrefix : string)
    (actionKey : option string) (ipHash : list N) (decision : string) (now : Z) (id : uuid)
    : GuestAbuseEvent :=
  {| gae_ID := id; gae_OrganisationID := organisationID; gae_LocationID := locationID;
     gae_TableID := tableID; gae_TokenLookupPrefix := tokenLookupPrefix;
     gae_ActionKey := actionKey; gae_IpHash := ipHash; gae_Decision := decision;
     gae_CreatedAt := now |}.

(** A statement run on the pool: a transaction of its own, whose reply can be lost. *)
Definition on_pool {A} (q : Stmt A) : Go A := fun e s =>
  match q (pg_time (env_pgclock e (st_tick s))) (env_uuid e (st_tick s)) (st_db s),
        env_fault e (st_tick s) with
  | Ok (a, d), None => (Ok a, with_db d (tick s))
  | Ok (_, d), Some f =>
      (Err (PgErr (fault_error f)), if fault_applied f then with_db d (tick s) else tick s)
  | Err err, None => (Err err, tick s)
  | Err _, Some f => (Err (PgErr (fault_error f)), tick s)
  end.

Definition RecordGuestAbuseEvent (organisationID locationID tableID : option uuid)
    (tokenLookupPrefix : string) (actionKey : option string) (ipHash : list N) (decision : string)
    : Go GuestAbuseEvent :=
  on_pool (insert_row db_abuse set_abuse
    (fun _ _ v => check (abuse_checks v) (CheckViolation "guest_abuse_events"))
    "guest_abuse_events_pkey" gae_ID
    (new_abuse organisationID locationID tableID tokenLookupPrefix actionKey ipHash decision)).
