(* ===== verification/Tokens.v ===== *)
(** Opaque secrets and pairing codes ([domain/identity/tokens.go]): how they are
    generated, looked up by a prefix and compared by hash.  [GoText] collects the
    text functions of the Go standard library and of PostgreSQL that the identity
    package applies to text of any alphabet; the development uses of them only
    what the class states. *)

From S2P Require Import Prelude Json Crypto Schema GoTx.
#[local] Open Scope string_scope.
#[local] Open Scope Z_scope.
#[local] Open Scope list_scope.

(** ** Text *)

Fixpoint map_string (f : ascii -> ascii) (s : string) : string :=
  match s with
  | EmptyString => EmptyString
  | String c s' => String (f c) (map_string f s')
  end.

Definition ascii_upper (c : ascii) : ascii :=
  let n := N_of_ascii c in
  if ((97 <=? n) && (n <=? 122))%N then ascii_of_N (n - 32) else c.

Definition ascii_lower (c : ascii) : ascii :=
  let n := N_of_ascii c in
  if ((65 <=? n) && (n <=? 90))%N then ascii_of_N (n + 32) else c.

Definition is_ascii (s : string) : Prop :=
  Forall (fun c => (N_of_ascii c < 128)%N) (bytes_of_string s).

(** [strings.ToUpper], [strings.ToLower], PostgreSQL's [lower], the address part
    of [mail.ParseAddress], the text of [netip.ParseAddr], whether
    [time.LoadLocation] knows a zone, and the order of the database's collation.  Upper-casing ASCII text changes its letters
    only. *)
Class GoText := {
  ToUpper : string -> string;
  ToLower : string -> string;
  pg_lower : string -> string;
  ParseAddress : string -> option string;
  ParseAddr : string -> option string;
  LoadLocation : string -> bool;
  pg_collate : string -> string -> bool;
  ToUpper_ascii : forall s, is_ascii s -> ToUpper s = map_string ascii_upper s;
}.

(** [strings.ReplaceAll(s, c, "")] for a one-byte ASCII [c]. *)
Fixpoint remove_byte (c : ascii) (s : string) : string :=
  match s with
  | EmptyString => EmptyString
  | String d s' => if Ascii.eqb c d then remove_byte c s' else String d (remove_byte c s')
  end.

(** [btrim]: spaces only. *)
Fixpoint drop_spaces (l : list ascii) : list ascii :=
  match l with
  | c :: l' => if (N_of_ascii c =? 32)%N then drop_spaces l' else l
  | [] => []
  end.

Definition btrim (s : string) : string :=
  string_of_bytes (rev (drop_spaces (rev (drop_spaces (bytes_of_string s))))).

(** ** [base64.RawStdEncoding] *)

Definition std_char (c : ascii) : ascii :=
  if Ascii.eqb c "-" then "+"%char else if Ascii.eqb c "_" then "/"%char else c.

Definition RawStdEncode (l : list N) : string := map_string std_char (RawURLEncode l).

(** ** Secrets *)

Definition LookupPrefixLength : nat := 16.
Definition PairingCodeLookupLength : nat := 4.
Definition PairingCodeRandomBytes : nat := 5.
Definition SecretBytes : nat := 32.

Definition ErrInvalidSecret : error := Sentinel "identity" "invalid secret".

Definition GenerateOpaqueSecret : Go string :=
  buf ← rand_Read SecretBytes;
  mret (RawURLEncode buf).

Definition LookupPrefix (secret : string) : result error string :=
  let secret := TrimSpace secret in
  if (String.length secret <? LookupPrefixLength)%nat then Err ErrInvalidSecret
  else Ok (String.substring 0 LookupPrefixLength secret).

Definition HashSecret (secret : string) : result error (list N) :=
  let secret := TrimSpace secret in
  if String.eqb secret "" then Err ErrInvalidSecret
  else Ok (Sum256 (bytes_N secret)).

Definition SecretMatches (secret : string) (expectedHash : list N) : result error bool :=
  match HashSecret secret with
  | Err err => Err err
  | Ok actualHash =>
      if negb (length actualHash =? length expectedHash)%nat then Ok false
      else Ok (bool_decide (actualHash = expectedHash))
  end.

(** ** Pairing codes *)

Section PairingCodes.
Context {GT : GoText}.

Definition GeneratePairingCode : Go string :=
  buf ← rand_Read PairingCodeRandomBytes;
  mret (ToUpper (RawStdEncode buf)).

Definition NormalizePairingCode (code : string) : string :=
  ToUpper (remove_byte "-" (TrimSpace code)).

Definition PairingCodeLookupPrefix (code : string) : result error string :=
  let code := NormalizePairingCode code in
  if (String.length code <? PairingCodeLookupLength)%nat then Err ErrInvalidSecret
  else Ok (String.substring 0 PairingCodeLookupLength code).
End PairingCodes.

(** ** Facts *)

Lemma SecretMatches_true secret hash :
  SecretMatches secret hash = Ok true <-> HashSecret secret = Ok hash.
Proof.
  unfold SecretMatches. destruct (HashSecret secret) as [h|err]; [|split; discriminate].
  destruct (Nat.eqb_spec (length h) (length hash)) as [_|Hne]; simpl.
  - destruct (decide (h = hash)) as [->|Hne]; split; intros H.
    + done.
    + by rewrite bool_decide_true.
    + rewrite bool_decide_false in H by done. done.
    + by injection H as ->.
  - split; [done|]. by intros [= ->].
Qed.

(** Every secret that has a lookup prefix has a hash. *)
Lemma LookupPrefix_hash secret prefix :
  LookupPrefix secret = Ok prefix -> exists h, HashSecret secret = Ok h /\ length h = 32%nat.
Proof.
  unfold LookupPrefix, HashSecret. destruct (TrimSpace secret) as [|c s] eqn:Hs; [done|].
  intros _. rewrite (proj2 (String.eqb_neq _ _)) by done. eexists. split; [done|].
  unfold Sum256. cbn [flat_map app]. rewrite !length_app, !be_bytes_length. done.
Qed.
