(* ===== verification/IdentityQueries.v ===== *)
(** The queries of [internal/store/db/security.sql.go] and [platform.sql.go] that
    the identity package runs, on the tables of people, memberships, sessions,
    devices and the audit log, with the constraints of the migrations.  Arguments
    are the statement's [$1], [$2], ... in order. *)

From S2P Require Import Prelude Json Schema GoTx Store Queries Tokens.
#[local] Open Scope string_scope.
#[local] Open Scope Z_scope.
#[local] Open Scope list_scope.

(** No other row of [m] has the property. *)
Definition no_other {A} (f : A -> bool) (id : uuid) (m : gmap N A) : bool :=
  negb (map_any f (delete id m)).

Definition null {A} (o : option A) : bool := negb (is_some o).

Definition user_fk (d : Db) (u : uuid) : bool := is_some (db_users d !! u).
Definition organisation_fk (d : Db) (o : uuid) : bool := is_some (db_organisations d !! o).
Definition role_fk (d : Db) (r : string) : bool := bool_decide (r ∈ idb_roles (db_identity d)).
Definition role_allows (d : Db) (role permission : string) : bool :=
  bool_decide ((role, permission) ∈ idb_role_permissions (db_identity d)).

(** ** [user_profiles] and [external_identities] *)

Section Profiles.
Context {GT : GoText}.

(** The index [user_profiles_active_email_unique]. *)
Definition same_active_email (u v : UserProfile) : bool :=
  String.eqb (usr_Status u) "active" && String.eqb (usr_Status v) "active"
  && match usr_Email u, usr_Email v with
   | Some e, Some f => String.eqb (pg_lower (btrim e)) (pg_lower (btrim f))
   | _, _ => false
   end.

Definition user_ok (d : Db) (id : uuid) (u : UserProfile) : result error unit :=
  let? _ := check (user_checks u) (CheckViolation "user_profiles") in
  check (no_other (same_active_email u) id (db_users d))
  (UniqueViolation "user_profiles_active_email_unique").

Definition new_user (displayName : string) (email : option string) (now : Z) (id : uuid)
  : UserProfile :=
  {| usr_ID := id; usr_DisplayName := displayName; usr_Email := email; usr_Status := "active";
   usr_CreatedAt := now; usr_UpdatedAt := now |}.

Definition CreateUserProfileRow (displayName : string) (email : option string) : Go UserProfile :=
  exec (insert_row db_users set_users user_ok "user_profiles_pkey" usr_ID
  (new_user displayName email)).

Definition has_email (email : option string) (u : UserProfile) : bool :=
  match usr_Email u, email with
  | Some e, Some f => String.eqb (pg_lower (btrim e)) f
  | _, _ => false
  end && String.eqb (usr_Status u) "active".

Definition any_order {A} (x y : A) : bool := true.

Definition GetActiveUserProfileByEmail (email : option string) : Go UserProfile :=
  exec (select_first db_users (has_email email) any_order).

Definition external_ok (d : Db) (id : uuid) (x : ExternalIdentity) : result error unit :=
  let? _ := check (external_checks x) (CheckViolation "external_identities") in
  let? _ := check (no_other (fun y => String.eqb (ext_Issuer y) (ext_Issuer x)
                                    && String.eqb (ext_Subject y) (ext_Subject x))
                   id (db_externals d))
            (UniqueViolation "external_identities_issuer_subject_key") in
  check (user_fk d (ext_UserProfileID x)) (ForeignKeyViolation "external_identities_user_profile_id_fkey").

Definition new_external (userProfileID : uuid) (issuer subject : string) (email : option string)
  (now : Z) (id : uuid) : ExternalIdentity :=
  {| ext_ID := id; ext_UserProfileID := userProfileID; ext_Issuer := issuer;
   ext_Subject := subject; ext_Email := email; ext_CreatedAt := now; ext_UpdatedAt := now |}.

Definition LinkExternalIdentity (userProfileID : uuid) (issuer subject : string)
  (email : option string) : Go ExternalIdentity :=
  exec (insert_row db_externals set_externals external_ok "external_identities_pkey" ext_ID
  (new_external userProfileID issuer subject email)).

Definition user_active (d : Db) (u : uuid) : bool :=
  match db_users d !! u with Some p => String.eqb (usr_Status p) "active" | None => false end.

(** The row of a join with the profile it refers to. *)
Definition with_user {A} (user : A -> uuid) (q : Stmt A) : Stmt (UserProfile * A) := fun now u d =>
  let? r := q now u d in
  match db_users d !! user (fst r) with
  | Some p => Ok (p, fst r, snd r)
  | None => Err NoRows
  end.

Definition GetUserByExternalIdentity (issuer subject : string)
  : Go (UserProfile * ExternalIdentity) :=
  exec (with_user ext_UserProfileID (fun now u d =>
  select_first db_externals
    (fun x => String.eqb (ext_Issuer x) issuer && String.eqb (ext_Subject x) subject
              && user_active d (ext_UserProfileID x)) any_order now u d)).
End Profiles.

(** ** Memberships and permissions *)

Definition org_member_ok (d : Db) (id : uuid) (m : OrganisationMembership) : result error unit :=
  let? _ := check (not_empty (omb_MemberRef m) && not_empty (omb_Role m))
              (CheckViolation "organisation_memberships") in
  let? _ := check (no_other (fun n => (omb_OrganisationID n =? omb_OrganisationID m)%N
                                      && String.eqb (omb_MemberRef n) (omb_MemberRef m))
                     id (db_org_members d))
              (UniqueViolation "organisation_memberships_organisation_id_member_ref_key") in
  let? _ := check (negb (is_some (omb_UserProfileID m) && null (omb_DisabledAt m))
                   || no_other (fun n => (omb_OrganisationID n =? omb_OrganisationID m)%N
                                         && bool_decide (omb_UserProfileID n = omb_UserProfileID m)
                                         && null (omb_DisabledAt n))
                        id (db_org_members d))
              (UniqueViolation "organisation_memberships_active_user") in
  let? _ := check (organisation_fk d (omb_OrganisationID m))
              (ForeignKeyViolation "organisation_memberships_organisation_id_fkey") in
  let? _ := check (opt_all (user_fk d) (omb_UserProfileID m))
              (ForeignKeyViolation "organisation_memberships_user_profile_id_fkey") in
  check (role_fk d (omb_Role m)) (ForeignKeyViolation "organisation_memberships_role_fk").

Definition loc_member_ok (d : Db) (id : uuid) (m : LocationMembership) : result error unit :=
  let? _ := check (not_empty (lmb_MemberRef m) && not_empty (lmb_Role m))
              (CheckViolation "location_memberships") in
  let? _ := check (no_other (fun n => (lmb_LocationID n =? lmb_LocationID m)%N
                                      && String.eqb (lmb_MemberRef n) (lmb_MemberRef m))
                     id (db_loc_members d))
              (UniqueViolation "location_memberships_location_id_member_ref_key") in
  let? _ := check (negb (is_some (lmb_UserProfileID m) && null (lmb_DisabledAt m))
                   || no_other (fun n => (lmb_LocationID n =? lmb_LocationID m)%N
                                         && bool_decide (lmb_UserProfileID n = lmb_UserProfileID m)
                                         && null (lmb_DisabledAt n))
                        id (db_loc_members d))
              (UniqueViolation "location_memberships_active_user") in
  let? _ := check (location_fk d (lmb_OrganisationID m) (lmb_LocationID m))
              (ForeignKeyViolation "location_memberships_location_id_organisation_id_fkey") in
  let? _ := check (opt_all (user_fk d) (lmb_UserProfileID m))
              (ForeignKeyViolation "location_memberships_user_profile_id_fkey") in
  check (role_fk d (lmb_Role m)) (ForeignKeyViolation "location_memberships_role_fk").

Definition new_org_member (organisationID : uuid) (userProfileID : option uuid)
    (memberRef role : string) (now : Z) (id : uuid) : OrganisationMembership :=
  {| omb_ID := id; omb_OrganisationID := organisationID; omb_MemberRef := memberRef;
     omb_Role := role; omb_CreatedAt := now; omb_UpdatedAt := now;
     omb_UserProfileID := userProfileID; omb_DisabledAt := None |}.

Definition CreateUserOrganisationMembership (organisationID : uuid) (userProfileID : option uuid)
    (memberRef role : string) : Go OrganisationMembership :=
  exec (insert_row db_org_members set_org_members org_member_ok "organisation_memberships_pkey"
    omb_ID (new_org_member organisationID userProfileID memberRef role)).

Definition new_loc_member (organisationID locationID : uuid) (userProfileID : option uuid)
    (memberRef role : string) (now : Z) (id : uuid) : LocationMembership :=
  {| lmb_ID := id; lmb_OrganisationID := organisationID; lmb_LocationID := locationID;
     lmb_MemberRef := memberRef; lmb_Role := role; lmb_CreatedAt := now; lmb_UpdatedAt := now;
     lmb_UserProfileID := userProfileID; lmb_DisabledAt := None |}.

Definition CreateUserLocationMembership (organisationID locationID : uuid)
    (userProfileID : option uuid) (memberRef role : string) : Go LocationMembership :=
  exec (insert_row db_loc_members set_loc_members loc_member_ok "location_memberships_pkey"
    lmb_ID (new_loc_member organisationID locationID userProfileID memberRef role)).

(** An enabled organisation membership that [who] accepts and whose role grants
    the permission. *)
Definition org_grants (d : Db) (organisationID : uuid) (who : OrganisationMembership -> bool)
    (permission : string) : bool :=
  map_any (fun m => (omb_OrganisationID m =? organisationID)%N && who m
                    && null (omb_DisabledAt m) && role_allows d (omb_Role m) permission)
    (db_org_members d).

Definition loc_grants (d : Db) (organisationID locationID : uuid) (who : LocationMembership -> bool)
    (permission : string) : bool :=
  map_any (fun m => (lmb_OrganisationID m =? organisationID)%N
                    && (lmb_LocationID m =? locationID)%N && who m
                    && null (lmb_DisabledAt m) && role_allows d (lmb_Role m) permission)
    (db_loc_members d).

Definition query {A} (f : Db -> A) : Go A := exec (fun _ _ d => Ok (f d, d)).

Definition ActorHasOrganisationPermission (organisationID : uuid) (memberRef permission : string)
    : Go bool :=
  query (fun d => org_grants d organisationID
    (fun m => String.eqb (omb_MemberRef m) memberRef) permission).

Definition ActorHasLocationPermission (organisationID locationID : uuid)
    (memberRef permission : string) : Go bool :=
  query (fun d =>
    loc_grants d organisationID locationID (fun m => String.eqb (lmb_MemberRef m) memberRef)
      permission
    || org_grants d organisationID (fun m => String.eqb (omb_MemberRef m) memberRef) permission).

Definition UserHasOrganisationPermission (organisationID : uuid) (userProfileID : option uuid)
    (permission : string) : Go bool :=
  query (fun d => org_grants d organisationID
    (fun m => sql_eq (omb_UserProfileID m) userProfileID) permission).

Definition UserHasLocationPermission (organisationID locationID : uuid)
    (userProfileID : option uuid) (permission : string) : Go bool :=
  query (fun d =>
    loc_grants d organisationID locationID (fun m => sql_eq (lmb_UserProfileID m) userProfileID)
      permission
    || org_grants d organisationID (fun m => sql_eq (omb_UserProfileID m) userProfileID) permission).

Section MemberLists.
Context {GT : GoText}.

(** [ORDER BY permission_name] *)
Definition GetRolePermissions (role : string) : Go (list string) :=
  query (fun d => sort_by pg_collate
  (snd <$> List.filter (fun rp => String.eqb (fst rp) role)
             (elements (idb_role_permissions (db_identity d))))).

(** [ORDER BY a, b] on two text columns. *)
Definition order2 {A} (f g : A -> string) (x y : A) : bool :=
  if String.eqb (f x) (f y) then pg_collate (g x) (g y) else pg_collate (f x) (f y).

Definition ListUserOrganisationMemberships (userProfileID : option uuid)
  : Go (list OrganisationMembership) :=
  exec (select_many db_org_members
  (fun m => sql_eq (omb_UserProfileID m) userProfileID && null (omb_DisabledAt m))
  (order2 omb_Role omb_MemberRef)).

Definition ListUserLocationMemberships (userProfileID : option uuid)
  : Go (list LocationMembership) :=
  exec (select_many db_loc_members
  (fun m => sql_eq (lmb_UserProfileID m) userProfileID && null (lmb_DisabledAt m))
  (order2 lmb_Role lmb_MemberRef)).

Definition ListUserPlatformMemberships (userProfileID : uuid) : Go (list PlatformMembership) :=
  exec (select_many db_platform_members
  (fun m => (pmb_UserProfileID m =? userProfileID)%N && null (pmb_DisabledAt m))
  (fun x y => pg_collate (pmb_Role x) (pmb_Role y))).
End MemberLists.

(** ** Platform memberships and the grants that invite to them *)

Section Platform.
Context {GT : GoText}.

Definition grant_pending (email : string) (g : PlatformAdminGrant) : bool :=
  String.eqb (pg_lower (btrim (pag_Email g))) (pg_lower (btrim email))
  && null (pag_ConsumedAt g) && null (pag_RevokedAt g).

Definition consumed_grant (userProfileID : option uuid) (now : Z) (g : PlatformAdminGrant)
  : PlatformAdminGrant :=
  {| pag_ID := pag_ID g; pag_Email := pag_Email g; pag_Role := pag_Role g;
   pag_InvitedByActorRef := pag_InvitedByActorRef g; pag_CreatedAt := pag_CreatedAt g;
   pag_ConsumedAt := Some now; pag_ConsumedByUserProfileID := userProfileID;
   pag_RevokedAt := pag_RevokedAt g; pag_RevokedByActorRef := pag_RevokedByActorRef g |}.

(** The checks of [platform_admin_grants] and its pending-email index. *)
Definition grant_checks (g : PlatformAdminGrant) : bool :=
  not_empty (btrim (pag_Email g))
  && (String.eqb (pag_Role g) "platform_admin" || String.eqb (pag_Role g) "support")
  && not_empty (pag_InvitedByActorRef g) && opt_all not_empty (pag_RevokedByActorRef g)
  && Bool.eqb (is_some (pag_ConsumedAt g)) (is_some (pag_ConsumedByUserProfileID g))
  && Bool.eqb (is_some (pag_RevokedAt g)) (is_some (pag_RevokedByActorRef g)).

Definition grant_ok (d : Db) (id : uuid) (g : PlatformAdminGrant) : result error unit :=
  let? _ := check (grant_checks g) (CheckViolation "platform_admin_grants") in
  let? _ := check (negb (null (pag_ConsumedAt g) && null (pag_RevokedAt g))
                   || no_other (grant_pending (pag_Email g)) id (db_grants d))
            (UniqueViolation "platform_admin_grants_pending_email") in
  let? _ := check (role_fk d (pag_Role g)) (ForeignKeyViolation "platform_admin_grants_role_fkey") in
  check (opt_all (user_fk d) (pag_ConsumedByUserProfileID g))
  (ForeignKeyViolation "platform_admin_grants_consumed_by_user_profile_id_fkey").

(** The index [platform_admin_grants_pending_email] leaves one pending grant per
address. *)
Definition ConsumePlatformAdminGrant (userProfileID : option uuid) (email : string)
  : Go PlatformAdminGrant :=
  exec (fun now u d =>
  let? found := select_first db_grants (grant_pending email) any_order now u d in
  update_row db_grants set_grants grant_ok (pag_ID (fst found)) (grant_pending email)
    (fun now g => Ok (consumed_grant userProfileID now g)) now u d).

Definition active_platform_member (userProfileID : uuid) (m : PlatformMembership) : bool :=
  (pmb_UserProfileID m =? userProfileID)%N && null (pmb_DisabledAt m).

(** The index [platform_memberships_active_user] and the constraints. *)
Definition platform_member_ok (d : Db) (id : uuid) (m : PlatformMembership) : result error unit :=
  let? _ := check (platform_member_checks m) (CheckViolation "platform_memberships") in
  let? _ := check (negb (null (pmb_DisabledAt m))
                   || no_other (active_platform_member (pmb_UserProfileID m)) id
                        (db_platform_members d))
            (UniqueViolation "platform_memberships_active_user") in
  let? _ := check (user_fk d (pmb_UserProfileID m))
            (ForeignKeyViolation "platform_memberships_user_profile_id_fkey") in
  check (role_fk d (pmb_Role m)) (ForeignKeyViolation "platform_memberships_role_fkey").

Definition new_platform_member (userProfileID : uuid) (role grantedBy : string) (now : Z)
  (id : uuid) : PlatformMembership :=
  {| pmb_ID := id; pmb_UserProfileID := userProfileID; pmb_Role := role;
   pmb_GrantedByActorRef := grantedBy; pmb_GrantedAt := now; pmb_DisabledAt := None;
   pmb_DisabledByActorRef := None; pmb_CreatedAt := now; pmb_UpdatedAt := now |}.

Definition platform_role_row (role : string) (now : Z) (m : PlatformMembership)
  : PlatformMembership :=
  {| pmb_ID := pmb_ID m; pmb_UserProfileID := pmb_UserProfileID m; pmb_Role := role;
   pmb_GrantedByActorRef := pmb_GrantedByActorRef m; pmb_GrantedAt := pmb_GrantedAt m;
   pmb_DisabledAt := pmb_DisabledAt m; pmb_DisabledByActorRef := pmb_DisabledByActorRef m;
   pmb_CreatedAt := pmb_CreatedAt m; pmb_UpdatedAt := now |}.

(** [platform_admin_lockout_guard].  The trigger is deferred to the commit; the
statement that fires it is the last of its transaction. *)
Definition lockout_guard {A} (r : A * Db) : result error (A * Db) :=
  let? _ := check (map_any (fun m => String.eqb (pmb_Role m) "platform_admin"
                                   && null (pmb_DisabledAt m)) (db_platform_members (snd r)))
            (CheckViolation "platform_admin_lockout") in Ok r.

(** [INSERT ... ON CONFLICT (user_profile_id) WHERE disabled_at IS NULL DO UPDATE] *)
Definition CreatePlatformMembership (userProfileID : uuid) (role grantedBy : string)
  : Go PlatformMembership :=
  exec (fun now u d =>
  match select_first db_platform_members (active_platform_member userProfileID) any_order now u d with
  | Ok (m, _) =>
      let? r := update_row db_platform_members set_platform_members platform_member_ok (pmb_ID m)
                  (active_platform_member userProfileID)
                  (fun now m => Ok (platform_role_row role now m)) now u d in
      lockout_guard r
  | Err _ =>
      insert_row db_platform_members set_platform_members platform_member_ok
        "platform_memberships_pkey" pmb_ID (new_platform_member userProfileID role grantedBy)
        now u d
  end).
End Platform.

(** ** [web_sessions] *)

Definition web_session_ok (d : Db) (id : uuid) (s : WebSession) : result error unit :=
  let? _ := check (web_session_checks s) (CheckViolation "web_sessions") in
  let? _ := check (no_other (fun t => String.eqb (wse_LookupPrefix t) (wse_LookupPrefix s)) id
                     (db_web_sessions d))
              (UniqueViolation "web_sessions_lookup_prefix_key") in
  let? _ := check (user_fk d (wse_UserProfileID s))
              (ForeignKeyViolation "web_sessions_user_profile_id_fkey") in
  check (opt_all (fun r => is_some (db_web_sessions d !! r)) (wse_RotatedFromSessionID s))
    (ForeignKeyViolation "web_sessions_rotated_from_session_id_fkey").

Definition new_web_session (userProfileID : uuid) (prefix : string) (hash : list N)
    (expiresAt : Z) (userAgent ip : option string) (rotatedFrom : option uuid) (now : Z)
    (id : uuid) : WebSession :=
  {| wse_ID := id; wse_UserProfileID := userProfileID; wse_LookupPrefix := prefix;
     wse_SessionHash := hash; wse_IssuedAt := now; wse_LastUsedAt := None;
     wse_ExpiresAt := pg_time expiresAt; wse_RevokedAt := None;
     wse_RotatedFromSessionID := rotatedFrom; wse_UserAgent := userAgent; wse_IpAddress := ip;
     wse_CreatedAt := now; wse_UpdatedAt := now |}.

Definition CreateWebSessionRow (userProfileID : uuid) (prefix : string) (hash : list N)
    (expiresAt : Z) (userAgent ip : option string) (rotatedFrom : option uuid) : Go WebSession :=
  exec (insert_row db_web_sessions set_web_sessions web_session_ok "web_sessions_pkey" wse_ID
    (new_web_session userProfileID prefix hash expiresAt userAgent ip rotatedFrom)).

Definition session_live (d : Db) (now : Z) (s : WebSession) : bool :=
  null (wse_RevokedAt s) && (now <? wse_ExpiresAt s) && user_active d (wse_UserProfileID s).

Definition GetWebSessionByPrefix (prefix : string) : Go (UserProfile * WebSession) :=
  exec (with_user wse_UserProfileID (fun now u d =>
    select_first db_web_sessions
      (fun s => String.eqb (wse_LookupPrefix s) prefix && session_live d now s) any_order now u d)).

Definition stamped_session (lastUsed revoked : option Z) (now : Z) (s : WebSession) : WebSession :=
  {| wse_ID := wse_ID s; wse_UserProfileID := wse_UserProfileID s;
     wse_LookupPrefix := wse_LookupPrefix s; wse_SessionHash := wse_SessionHash s;
     wse_IssuedAt := wse_IssuedAt s; wse_LastUsedAt := lastUsed; wse_ExpiresAt := wse_ExpiresAt s;
     wse_RevokedAt := revoked; wse_RotatedFromSessionID := wse_RotatedFromSessionID s;
     wse_UserAgent := wse_UserAgent s; wse_IpAddress := wse_IpAddress s;
     wse_CreatedAt := wse_CreatedAt s; wse_UpdatedAt := now |}.

Definition TouchWebSession (id : uuid) : Go unit :=
  exec (fun now u d =>
    update_exec db_web_sessions set_web_sessions web_session_ok id
      (fun s => null (wse_RevokedAt s) && (now <? wse_ExpiresAt s))
      (fun now s => Ok (stamped_session (Some now) (wse_RevokedAt s) now s)) now u d).

(** [revoked_at = COALESCE(revoked_at, now())] *)
Definition RevokeWebSessionRow (id : uuid) : Go unit :=
  exec (update_exec db_web_sessions set_web_sessions web_session_ok id (fun _ => true)
    (fun now s =>
      Ok (stamped_session (wse_LastUsedAt s) (Some (default now (wse_RevokedAt s))) now s))).

(** ** [devices] *)

Definition device_ok (d : Db) (id : uuid) (v : Device) : result error unit :=
  let? _ := check (device_checks v) (CheckViolation "devices") in
  let? _ := check (organisation_fk d (dev_OrganisationID v))
              (ForeignKeyViolation "devices_organisation_id_fkey") in
  let? _ := check (opt_all (location_fk d (dev_OrganisationID v)) (dev_LocationID v))
              (ForeignKeyViolation "devices_location_id_organisation_id_fkey") in
  check (opt_all (user_fk d) (dev_UserProfileID v))
    (ForeignKeyViolation "devices_user_profile_id_fkey").

Definition new_device (organisationID : uuid) (locationID userProfileID : option uuid)
    (deviceType platform appVersion : string) (name : option string)
    (capabilities configuration : json) (interval : Z) (now : Z) (id : uuid) : Device :=
  {| dev_ID := id; dev_OrganisationID := organisationID; dev_LocationID := locationID;
     dev_UserProfileID := userProfileID; dev_DeviceType := deviceType; dev_Platform := platform;
     dev_AppVersion := appVersion; dev_TrustState := "pending"; dev_RegisteredAt := now;
     dev_LastSeenAt := None; dev_RevokedAt := None; dev_CreatedAt := now; dev_UpdatedAt := now;
     dev_Name := name; dev_Capabilities := capabilities; dev_Configuration := configuration;
     dev_AssignedAt := (match locationID with Some _ => Some now | None => None end);
     dev_LastHeartbeatAt := None; dev_HeartbeatIntervalSeconds := interval |}.

Definition RegisterDeviceRow (organisationID : uuid) (locationID userProfileID : option uuid)
    (deviceType platform appVersion : string) (name : option string)
    (capabilities configuration : json) (interval : Z) : Go Device :=
  exec (insert_row db_devices set_devices device_ok "devices_pkey" dev_ID
    (new_device organisationID locationID userProfileID deviceType platform appVersion name
       capabilities configuration interval)).

Definition dev_in_org (organisationID : uuid) (v : Device) : bool :=
  (dev_OrganisationID v =? organisationID)%N.

Definition GetDevice (id organisationID : uuid) : Go Device :=
  exec (select_one db_devices id (dev_in_org organisationID)).

Definition by_registered_desc (x y : Device) : bool := dev_RegisteredAt y <=? dev_RegisteredAt x.

Definition ListDevicesByOrganisation (organisationID : uuid) : Go (list Device) :=
  exec (select_many db_devices (dev_in_org organisationID) by_registered_desc).

Definition ListDevicesByLocation (organisationID : uuid) (locationID : option uuid)
    : Go (list Device) :=
  exec (select_many db_devices
    (fun v => dev_in_org organisationID v && sql_eq (dev_LocationID v) locationID)
    by_registered_desc).

(** The columns the updates of this package change. *)
Definition device_row (trust : string) (revoked lastSeen lastHeartbeat : option Z)
    (appVersion : string) (capabilities : json) (now : Z) (v : Device) : Device :=
  {| dev_ID := dev_ID v; dev_OrganisationID := dev_OrganisationID v;
     dev_LocationID := dev_LocationID v; dev_UserProfileID := dev_UserProfileID v;
     dev_DeviceType := dev_DeviceType v; dev_Platform := dev_Platform v;
     dev_AppVersion := appVersion; dev_TrustState := trust; dev_RegisteredAt := dev_RegisteredAt v;
     dev_LastSeenAt := lastSeen; dev_RevokedAt := revoked; dev_CreatedAt := dev_CreatedAt v;
     dev_UpdatedAt := now; dev_Name := dev_Name v; dev_Capabilities := capabilities;
     dev_Configuration := dev_Configuration v; dev_AssignedAt := dev_AssignedAt v;
     dev_LastHeartbeatAt := lastHeartbeat;
     dev_HeartbeatIntervalSeconds := dev_HeartbeatIntervalSeconds v |}.

Definition dev_trusted (v : Device) : bool :=
  String.eqb (dev_TrustState v) "trusted" && null (dev_RevokedAt v).

Definition MarkDeviceSeen (id organisationID : uuid) : Go Device :=
  exec (update_row db_devices set_devices device_ok id
    (fun v => dev_in_org organisationID v && dev_trusted v)
    (fun now v => Ok (device_row (dev_TrustState v) (dev_RevokedAt v) (Some now)
       (dev_LastHeartbeatAt v) (dev_AppVersion v) (dev_Capabilities v) now v))).

Definition RecordDeviceHeartbeat (id organisationID : uuid) (appVersion : string)
    (capabilities : json) : Go Device :=
  exec (update_row db_devices set_devices device_ok id
    (fun v => dev_in_org organisationID v && dev_trusted v)
    (fun now v => Ok (device_row (dev_TrustState v) (dev_RevokedAt v) (Some now) (Some now)
       appVersion capabilities now v))).

Definition TrustDeviceRow (id organisationID : uuid) : Go Device :=
  exec (update_row db_devices set_devices device_ok id
    (fun v => dev_in_org organisationID v && null (dev_RevokedAt v))
    (fun now v => Ok (device_row "trusted" (dev_RevokedAt v) (dev_LastSeenAt v)
       (dev_LastHeartbeatAt v) (dev_AppVersion v) (dev_Capabilities v) now v))).

Definition RevokeDeviceRow (id organisationID : uuid) : Go Device :=
  exec (update_row db_devices set_devices device_ok id
    (fun v => dev_in_org organisationID v && null (dev_RevokedAt v))
    (fun now v => Ok (device_row "revoked" (Some now) (dev_LastSeenAt v)
       (dev_LastHeartbeatAt v) (dev_AppVersion v) (dev_Capabilities v) now v))).

(** ** [device_credentials] *)

Definition credential_ok (d : Db) (id : uuid) (c : DeviceCredential) : result error unit :=
  let? _ := check (credential_checks c) (CheckViolation "device_credentials") in
  let? _ := check (no_other (fun t => String.eqb (dcr_LookupPrefix t) (dcr_LookupPrefix c)) id
                     (db_credentials d))
              (UniqueViolation "device_credentials_lookup_prefix_key") in
  let? _ := check (organisation_fk d (dcr_OrganisationID c))
              (ForeignKeyViolation "device_credentials_organisation_id_fkey") in
  check (is_some (db_devices d !! dcr_DeviceID c))
    (ForeignKeyViolation "device_credentials_device_id_fkey").

Definition new_credential (organisationID deviceID : uuid) (prefix : string) (hash : list N)
    (expiresAt : option Z) (now : Z) (id : uuid) : DeviceCredential :=
  {| dcr_ID := id; dcr_OrganisationID := organisationID; dcr_DeviceID := deviceID;
     dcr_LookupPrefix := prefix; dcr_CredentialHash := hash; dcr_IssuedAt := now;
     dcr_LastUsedAt := None; dcr_ExpiresAt := pg_time <$> expiresAt; dcr_RevokedAt := None;
     dcr_CreatedAt := now; dcr_UpdatedAt := now |}.

Definition CreateDeviceCredential (organisationID deviceID : uuid) (prefix : string)
    (hash : list N) (expiresAt : option Z) : Go DeviceCredential :=
  exec (insert_row db_credentials set_credentials credential_ok "device_credentials_pkey" dcr_ID
    (new_credential organisationID deviceID prefix hash expiresAt)).

Definition credential_live (d : Db) (now : Z) (c : DeviceCredential) : bool :=
  null (dcr_RevokedAt c) && opt_all (fun t => now <? t) (dcr_ExpiresAt c)
  && match db_devices d !! dcr_DeviceID c with Some v => dev_trusted v | None => false end.

(** [JOIN devices ON devices.id = device_credentials.device_id] *)
Definition GetDeviceCredentialByPrefix (prefix : string) : Go (DeviceCredential * Device) :=
  exec (fun now u d =>
    let? r := select_first db_credentials
      (fun c => String.eqb (dcr_LookupPrefix c) prefix && credential_live d now c) any_order now u d in
    match db_devices d !! dcr_DeviceID (fst r) with
    | Some v => Ok (fst r, v, d)
    | None => Err NoRows
    end).

Definition stamped_credential (lastUsed revoked : option Z) (now : Z) (c : DeviceCredential)
    : DeviceCredential :=
  {| dcr_ID := dcr_ID c; dcr_OrganisationID := dcr_OrganisationID c;
     dcr_DeviceID := dcr_DeviceID c; dcr_LookupPrefix := dcr_LookupPrefix c;
     dcr_CredentialHash := dcr_CredentialHash c; dcr_IssuedAt := dcr_IssuedAt c;
     dcr_LastUsedAt := lastUsed; dcr_ExpiresAt := dcr_ExpiresAt c; dcr_RevokedAt := revoked;
     dcr_CreatedAt := dcr_CreatedAt c; dcr_UpdatedAt := now |}.

Definition TouchDeviceCredential (id : uuid) : Go unit :=
  exec (update_exec db_credentials set_credentials credential_ok id
    (fun c => null (dcr_RevokedAt c))
    (fun now c => Ok (stamped_credential (Some now) (dcr_RevokedAt c) now c))).

Definition RevokeDeviceCredentials (organisationID deviceID : uuid) : Go unit :=
  exec (update_all db_credentials set_credentials
    (fun c => (dcr_OrganisationID c =? organisationID)%N && (dcr_DeviceID c =? deviceID)%N
              && null (dcr_RevokedAt c))
    (fun now c => stamped_credential (dcr_LastUsedAt c) (Some now) now c)).

(** ** [device_pairing_codes] *)

Definition pairing_code_ok (d : Db) (id : uuid) (c : DevicePairingCode) : result error unit :=
  let? _ := check (pairing_code_checks c) (CheckViolation "device_pairing_codes") in
  let? _ := check (no_other (fun t => String.eqb (dpc_PairingCodeLookupPrefix t)
                                        (dpc_PairingCodeLookupPrefix c)) id (db_pairing_codes d))
              (UniqueViolation "device_pairing_codes_pairing_code_lookup_prefix_key") in
  let? _ := check (location_fk d (dpc_OrganisationID c) (dpc_LocationID c))
              (ForeignKeyViolation "device_pairing_codes_location_id_organisation_id_fkey") in
  check (opt_all (fun v => is_some (db_devices d !! v)) (dpc_ConsumedByDeviceID c))
    (ForeignKeyViolation "device_pairing_codes_consumed_by_device_id_fkey").

Definition new_pairing_code (organisationID locationID : uuid) (createdBy deviceType : string)
    (prefix : string) (hash : list N) (expiresAt : Z) (now : Z) (id : uuid) : DevicePairingCode :=
  {| dpc_ID := id; dpc_OrganisationID := organisationID; dpc_LocationID := locationID;
     dpc_CreatedBy := createdBy; dpc_DeviceType := deviceType;
     dpc_PairingCodeLookupPrefix := prefix; dpc_PairingCodeHash := hash;
     dpc_ExpiresAt := pg_time expiresAt; dpc_ConsumedAt := None; dpc_ConsumedByDeviceID := None;
     dpc_CreatedAt := now; dpc_UpdatedAt := now |}.

Definition CreateDevicePairingCode (organisationID locationID : uuid) (createdBy deviceType : string)
    (prefix : string) (hash : list N) (expiresAt : Z) : Go DevicePairingCode :=
  exec (insert_row db_pairing_codes set_pairing_codes pairing_code_ok "device_pairing_codes_pkey"
    dpc_ID (new_pairing_code organisationID locationID createdBy deviceType prefix hash expiresAt)).

Definition pairing_live (now : Z) (c : DevicePairingCode) : bool :=
  null (dpc_ConsumedAt c) && (now <? dpc_ExpiresAt c).

Definition location_active (d : Db) (organisationID locationID : uuid) : bool :=
  match db_locations d !! locationID with
  | Some l => (loc_OrganisationID l =? organisationID)%N && String.eqb (loc_Status l) "active"
  | None => false
  end.

Definition GetDevicePairingCodeByPrefix (prefix : string) : Go DevicePairingCode :=
  exec (fun now u d =>
    select_first db_pairing_codes
      (fun c => String.eqb (dpc_PairingCodeLookupPrefix c) prefix && pairing_live now c
                && location_active d (dpc_OrganisationID c) (dpc_LocationID c)) any_order now u d).

Definition consumed_code (deviceID : option uuid) (now : Z) (c : DevicePairingCode)
    : DevicePairingCode :=
  {| dpc_ID := dpc_ID c; dpc_OrganisationID := dpc_OrganisationID c;
     dpc_LocationID := dpc_LocationID c; dpc_CreatedBy := dpc_CreatedBy c;
     dpc_DeviceType := dpc_DeviceType c;
     dpc_PairingCodeLookupPrefix := dpc_PairingCodeLookupPrefix c;
     dpc_PairingCodeHash := dpc_PairingCodeHash c; dpc_ExpiresAt := dpc_ExpiresAt c;
     dpc_ConsumedAt := Some now; dpc_ConsumedByDeviceID := deviceID;
     dpc_CreatedAt := dpc_CreatedAt c; dpc_UpdatedAt := now |}.

(** [... AND consumed_at IS NULL AND expires_at > now()] *)
Definition ConsumeDevicePairingCode (id : uuid) (deviceID : option uuid) : Go DevicePairingCode :=
  exec (fun now u d =>
    update_row db_pairing_codes set_pairing_codes pairing_code_ok id (pairing_live now)
      (fun now c => Ok (consumed_code deviceID now c)) now u d).

(** ** [audit_events] *)

Definition audit_ok (d : Db) (id : uuid) (v : AuditEvent) : result error unit :=
  let? _ := check (audit_checks v) (CheckViolation "audit_events") in
  check (opt_all (organisation_fk d) (aud_OrganisationID v))
    (ForeignKeyViolation "audit_events_organisation_id_fkey").

Definition new_audit (organisationID locationID : option uuid)
    (actorRef action targetType targetID : string) (metadata : json) (now : Z) (id : uuid)
    : AuditEvent :=
  {| aud_ID := id; aud_OrganisationID := organisationID; aud_LocationID := locationID;
     aud_ActorRef := actorRef; aud_Action := action; aud_TargetType := targetType;
     aud_TargetID := targetID; aud_Metadata := metadata; aud_CreatedAt := now |}.

Definition RecordAuditEvent (organisationID locationID : option uuid)
    (actorRef action targetType targetID : string) (metadata : json) : Go AuditEvent :=
  exec (insert_row db_audit set_audit audit_ok "audit_events_pkey" aud_ID
    (new_audit organisationID locationID actorRef action targetType targetID metadata)).
