(* ===== verification/LayoutQueries.v ===== *)
(** The queries of [internal/store/db/layout.sql.go] and [organisation.sql.go]
    that the configuration service and the onboarding of the identity service
    run, with [CreateServicePeriod] ([analytics.sql.go]) and
    [SetOrganisationOnboarded] ([platform.sql.go]), and the constraints of the
    tables they write. *)

From S2P Require Import Prelude Json Schema GoTx Store Tokens IdentityQueries.
#[local] Open Scope string_scope.
#[local] Open Scope Z_scope.
#[local] Open Scope list_scope.

(** ** Constraints *)

Definition organisation_ok (d : Db) (id : uuid) (o : Organisation) : result error unit :=
  let? _ := check (organisation_checks o) (CheckViolation "organisations") in
  check (no_other (fun o' => String.eqb (org_Slug o') (org_Slug o)) id (db_organisations d))
    (UniqueViolation "organisations_slug_key").

Definition location_ok (d : Db) (id : uuid) (l : Location) : result error unit :=
  let? _ := check (location_checks l) (CheckViolation "locations") in
  let? _ := check (no_other (fun l' => (loc_OrganisationID l' =? loc_OrganisationID l)%N
                                       && String.eqb (loc_Slug l') (loc_Slug l))
                     id (db_locations d))
              (UniqueViolation "locations_organisation_id_slug_key") in
  check (is_some (db_organisations d !! loc_OrganisationID l))
    (ForeignKeyViolation "locations_organisation_id_fkey").

Definition floor_ok (d : Db) (id : uuid) (f : Floor) : result error unit :=
  let? _ := check (floor_checks f) (CheckViolation "floors") in
  let? _ := check (no_other (fun f' => (flr_LocationID f' =? flr_LocationID f)%N
                                       && String.eqb (flr_Slug f') (flr_Slug f))
                     id (db_floors d))
              (UniqueViolation "floors_location_id_slug_key") in
  check (location_fk d (flr_OrganisationID f) (flr_LocationID f))
    (ForeignKeyViolation "floors_location_id_organisation_id_fkey").

(** The floor, by its three columns. *)
Definition floor_fk (d : Db) (org loc flr : uuid) : bool :=
  match db_floors d !! flr with
  | Some f => (flr_OrganisationID f =? org)%N && (flr_LocationID f =? loc)%N
  | None => false
  end.

Definition zone_ok (d : Db) (id : uuid) (z : Zone) : result error unit :=
  let? _ := check (zone_checks z) (CheckViolation "zones") in
  let? _ := check (no_other (fun z' => (zon_FloorID z' =? zon_FloorID z)%N
                                       && String.eqb (zon_Name z') (zon_Name z))
                     id (db_zones d))
              (UniqueViolation "zones_floor_id_name_key") in
  check (floor_fk d (zon_OrganisationID z) (zon_LocationID z) (zon_FloorID z))
    (ForeignKeyViolation "zones_floor_id_organisation_id_location_id_fkey").

(** The zone, by its four columns. *)
Definition zone_fk (d : Db) (org loc flr zon : uuid) : bool :=
  match db_zones d !! zon with
  | Some z => (zon_OrganisationID z =? org)%N && (zon_LocationID z =? loc)%N
              && (zon_FloorID z =? flr)%N
  | None => false
  end.

Definition table_ok (d : Db) (id : uuid) (t : Table) : result error unit :=
  let? _ := check (table_checks t) (CheckViolation "tables") in
  let? _ := check (no_other (fun t' => (tbl_FloorID t' =? tbl_FloorID t)%N
                                       && String.eqb (tbl_Label t') (tbl_Label t))
                     id (db_tables d))
              (UniqueViolation "tables_floor_id_label_key") in
  check (zone_fk d (tbl_OrganisationID t) (tbl_LocationID t) (tbl_FloorID t) (tbl_ZoneID t))
    (ForeignKeyViolation "tables_zone_id_organisation_id_location_id_floor_id_fkey").

Definition new_occupancy_ok (d : Db) (id : uuid) (o : TableOccupancy) : result error unit :=
  let? _ := occupancy_ok d id o in
  check (table_fk d (occ_OrganisationID o) (occ_LocationID o) (occ_TableID o))
    (ForeignKeyViolation "table_occupancy_table_id_organisation_id_location_id_fkey").

Definition period_ok (d : Db) (id : uuid) (p : ServicePeriod) : result error unit :=
  let? _ := check (period_checks p) (CheckViolation "service_periods") in
  let? _ := check (no_other (fun p' => (svp_LocationID p' =? svp_LocationID p)%N
                                       && String.eqb (svp_Name p') (svp_Name p))
                     id (db_periods d))
              (UniqueViolation "service_periods_location_id_name_key") in
  check (location_fk d (svp_OrganisationID p) (svp_LocationID p))
    (ForeignKeyViolation "service_periods_location_id_organisation_id_fkey").

(** ** [organisations] and [locations] *)

Definition new_organisation (slug name : string) (now : Z) (id : uuid) : Organisation :=
  {| org_ID := id; org_Slug := slug; org_Name := name; org_Status := "active";
     org_LegacyRestaurantID := None; org_CreatedAt := now; org_UpdatedAt := now;
     org_OnboardedAt := None |}.

Definition CreateOrganisation (slug name : string) : Go Organisation :=
  exec (insert_row db_organisations set_organisations organisation_ok "organisations_pkey" org_ID
          (new_organisation slug name)).

Definition GetOrganisation (id : uuid) : Go Organisation :=
  exec (select_one db_organisations id (fun _ => true)).

Definition organisation_row (name status : string) (onboarded : option Z) (now : Z)
    (o : Organisation) : Organisation :=
  {| org_ID := org_ID o; org_Slug := org_Slug o; org_Name := name; org_Status := status;
     org_LegacyRestaurantID := org_LegacyRestaurantID o; org_CreatedAt := org_CreatedAt o;
     org_UpdatedAt := now; org_OnboardedAt := onboarded |}.

Definition UpdateOrganisationRow (id : uuid) (slug name status : string) : Go Organisation :=
  exec (update_row db_organisations set_organisations organisation_ok id
    (fun o => String.eqb (org_Slug o) slug)
    (fun now o => Ok (organisation_row name status (org_OnboardedAt o) now o))).

Definition SetOrganisationOnboarded (id : uuid) : Go Organisation :=
  exec (update_row db_organisations set_organisations organisation_ok id (fun _ => true)
    (fun now o => Ok (organisation_row (org_Name o) (org_Status o) (Some now) now o))).

Definition new_location (organisationID : uuid) (slug name timezone : string) (now : Z)
    (id : uuid) : Location :=
  {| loc_ID := id; loc_OrganisationID := organisationID; loc_Slug := slug; loc_Name := name;
     loc_Timezone := timezone; loc_Status := "active"; loc_LegacyRestaurantID := None;
     loc_CreatedAt := now; loc_UpdatedAt := now; loc_OperatingConfig := JObj [];
     loc_FeatureFlags := JObj [] |}.

Definition CreateLocation (organisationID : uuid) (slug name timezone : string) : Go Location :=
  exec (insert_row db_locations set_locations location_ok "locations_pkey" loc_ID
          (new_location organisationID slug name timezone)).

Definition location_row (name timezone status : string) (operatingConfig featureFlags : json)
    (now : Z) (l : Location) : Location :=
  {| loc_ID := loc_ID l; loc_OrganisationID := loc_OrganisationID l; loc_Slug := loc_Slug l;
     loc_Name := name; loc_Timezone := timezone; loc_Status := status;
     loc_LegacyRestaurantID := loc_LegacyRestaurantID l; loc_CreatedAt := loc_CreatedAt l;
     loc_UpdatedAt := now; loc_OperatingConfig := operatingConfig;
     loc_FeatureFlags := featureFlags |}.

Definition UpdateLocationRow (id organisationID : uuid) (name timezone status : string)
    (operatingConfig featureFlags : json) : Go Location :=
  exec (update_row db_locations set_locations location_ok id
    (fun l => loc_OrganisationID l =? organisationID)%N
    (fun now l => Ok (location_row name timezone status operatingConfig featureFlags now l))).

(** ** [floors] *)

(** The columns by which an update finds its row: tenant and version. *)
Definition floor_at (organisationID locationID : uuid) (version : Z) (f : Floor) : bool :=
  (flr_OrganisationID f =? organisationID)%N && (flr_LocationID f =? locationID)%N
  && (flr_Version f =? version).

Definition new_floor (organisationID locationID : uuid) (slug name : string) (sortOrder : Z)
    (canvas : json) (background : option string) (now : Z) (id : uuid) : Floor :=
  {| flr_ID := id; flr_OrganisationID := organisationID; flr_LocationID := locationID;
     flr_Slug := slug; flr_Name := name; flr_SortOrder := sortOrder; flr_Canvas := canvas;
     flr_BackgroundAssetRef := background; flr_IsActive := true; flr_Version := 1;
     flr_CreatedAt := now; flr_UpdatedAt := now |}.

Definition CreateFloorRow (organisationID locationID : uuid) (slug name : string) (sortOrder : Z)
    (canvas : json) (background : option string) : Go Floor :=
  exec (insert_row db_floors set_floors floor_ok "floors_pkey" flr_ID
          (new_floor organisationID locationID slug name sortOrder canvas background)).

(** [version = version + 1, updated_at = now()], with the other columns given. *)
Definition floor_row (slug name : string) (sortOrder : Z) (canvas : json)
    (background : option string) (active : bool) (now : Z) (f : Floor) : result error Floor :=
  let? v := int4_succ (flr_Version f) in
  Ok {| flr_ID := flr_ID f; flr_OrganisationID := flr_OrganisationID f;
        flr_LocationID := flr_LocationID f; flr_Slug := slug; flr_Name := name;
        flr_SortOrder := sortOrder; flr_Canvas := canvas; flr_BackgroundAssetRef := background;
        flr_IsActive := active; flr_Version := v; flr_CreatedAt := flr_CreatedAt f;
        flr_UpdatedAt := now |}.

Definition UpdateFloorRow (id organisationID locationID : uuid) (slug name : string)
    (sortOrder : Z) (canvas : json) (background : option string) (version : Z) : Go Floor :=
  exec (update_row db_floors set_floors floor_ok id (floor_at organisationID locationID version)
    (fun now f => floor_row slug name sortOrder canvas background (flr_IsActive f) now f)).

Definition active_floor (active : bool) (now : Z) (f : Floor) : result error Floor :=
  floor_row (flr_Slug f) (flr_Name f) (flr_SortOrder f) (flr_Canvas f)
    (flr_BackgroundAssetRef f) active now f.

Definition ArchiveFloorRow (id organisationID locationID : uuid) (version : Z) : Go Floor :=
  exec (update_row db_floors set_floors floor_ok id (floor_at organisationID locationID version)
    (active_floor false)).

Definition RestoreFloorRow (id organisationID locationID : uuid) (version : Z) : Go Floor :=
  exec (update_row db_floors set_floors floor_ok id (floor_at organisationID locationID version)
    (active_floor true)).

(** ** [zones] *)

Definition zone_at (organisationID locationID floorID : uuid) (version : Z) (z : Zone) : bool :=
  (zon_OrganisationID z =? organisationID)%N && (zon_LocationID z =? locationID)%N
  && (zon_FloorID z =? floorID)%N && (zon_Version z =? version).

Definition new_zone (organisationID locationID floorID : uuid) (name : string) (sortOrder : Z)
    (now : Z) (id : uuid) : Zone :=
  {| zon_ID := id; zon_OrganisationID := organisationID; zon_LocationID := locationID;
     zon_FloorID := floorID; zon_Name := name; zon_SortOrder := sortOrder; zon_IsActive := true;
     zon_Version := 1; zon_CreatedAt := now; zon_UpdatedAt := now |}.

Definition CreateZoneRow (organisationID locationID floorID : uuid) (name : string)
    (sortOrder : Z) : Go Zone :=
  exec (insert_row db_zones set_zones zone_ok "zones_pkey" zon_ID
          (new_zone organisationID locationID floorID name sortOrder)).

Definition zone_row (name : string) (sortOrder : Z) (active : bool) (now : Z) (z : Zone)
    : result error Zone :=
  let? v := int4_succ (zon_Version z) in
  Ok {| zon_ID := zon_ID z; zon_OrganisationID := zon_OrganisationID z;
        zon_LocationID := zon_LocationID z; zon_FloorID := zon_FloorID z; zon_Name := name;
        zon_SortOrder := sortOrder; zon_IsActive := active; zon_Version := v;
        zon_CreatedAt := zon_CreatedAt z; zon_UpdatedAt := now |}.

Definition UpdateZoneRow (id organisationID locationID floorID : uuid) (name : string)
    (sortOrder version : Z) : Go Zone :=
  exec (update_row db_zones set_zones zone_ok id
    (zone_at organisationID locationID floorID version)
    (fun now z => zone_row name sortOrder (zon_IsActive z) now z)).

Definition ArchiveZoneRow (id organisationID locationID floorID : uuid) (version : Z) : Go Zone :=
  exec (update_row db_zones set_zones zone_ok id
    (zone_at organisationID locationID floorID version)
    (fun now z => zone_row (zon_Name z) (zon_SortOrder z) false now z)).

(** ** [tables] and the first [table_occupancy] row of a table *)

Definition table_at (organisationID locationID : uuid) (version : Z) (t : Table) : bool :=
  (tbl_OrganisationID t =? organisationID)%N && (tbl_LocationID t =? locationID)%N
  && (tbl_Version t =? version).

Definition new_table (organisationID locationID floorID zoneID : uuid)
    (label capacityLabel shape : string) (geometry : json) (now : Z) (id : uuid) : Table :=
  {| tbl_ID := id; tbl_OrganisationID := organisationID; tbl_LocationID := locationID;
     tbl_FloorID := floorID; tbl_ZoneID := zoneID; tbl_Label := label;
     tbl_CapacityLabel := capacityLabel; tbl_Shape := shape; tbl_Geometry := geometry;
     tbl_IsActive := true; tbl_DeletedAt := None; tbl_Version := 1; tbl_LegacyTableID := None;
     tbl_CreatedAt := now; tbl_UpdatedAt := now |}.

Definition CreateTableRow (organisationID locationID floorID zoneID : uuid)
    (label capacityLabel shape : string) (geometry : json) : Go Table :=
  exec (insert_row db_tables set_tables table_ok "tables_pkey" tbl_ID
          (new_table organisationID locationID floorID zoneID label capacityLabel shape geometry)).

Definition new_occupancy (tableID organisationID locationID : uuid) (now : Z) (_ : uuid)
    : TableOccupancy :=
  {| occ_TableID := tableID; occ_OrganisationID := organisationID; occ_LocationID := locationID;
     occ_Status := "available"; occ_CurrentSessionID := None; occ_Version := 1;
     occ_UpdatedBy := None; occ_UpdatedAt := now; occ_CreatedAt := now |}.

Definition CreateTableOccupancy (tableID organisationID locationID : uuid) : Go TableOccupancy :=
  exec (insert_row db_occupancy set_occupancy new_occupancy_ok "table_occupancy_pkey" occ_TableID
          (new_occupancy tableID organisationID locationID)).

Definition table_row (floorID zoneID : uuid) (label capacityLabel shape : string)
    (geometry : json) (active : bool) (deleted : option Z) (now : Z) (t : Table)
    : result error Table :=
  let? v := int4_succ (tbl_Version t) in
  Ok {| tbl_ID := tbl_ID t; tbl_OrganisationID := tbl_OrganisationID t;
        tbl_LocationID := tbl_LocationID t; tbl_FloorID := floorID; tbl_ZoneID := zoneID;
        tbl_Label := label; tbl_CapacityLabel := capacityLabel; tbl_Shape := shape;
        tbl_Geometry := geometry; tbl_IsActive := active; tbl_DeletedAt := deleted;
        tbl_Version := v; tbl_LegacyTableID := tbl_LegacyTableID t;
        tbl_CreatedAt := tbl_CreatedAt t; tbl_UpdatedAt := now |}.

Definition UpdateTableRow (id organisationID locationID floorID zoneID : uuid)
    (label capacityLabel shape : string) (geometry : json) (version : Z) : Go Table :=
  exec (update_row db_tables set_tables table_ok id (table_at organisationID locationID version)
    (fun now t => table_row floorID zoneID label capacityLabel shape geometry (tbl_IsActive t)
                    (tbl_DeletedAt t) now t)).

Definition active_table (active : bool) (deleted : Z -> option Z) (now : Z) (t : Table)
    : result error Table :=
  table_row (tbl_FloorID t) (tbl_ZoneID t) (tbl_Label t) (tbl_CapacityLabel t) (tbl_Shape t)
    (tbl_Geometry t) active (deleted now) now t.

Definition ArchiveTableRow (id organisationID locationID : uuid) (version : Z) : Go Table :=
  exec (update_row db_tables set_tables table_ok id (table_at organisationID locationID version)
    (active_table false Some)).

Definition RestoreTableRow (id organisationID locationID : uuid) (version : Z) : Go Table :=
  exec (update_row db_tables set_tables table_ok id (table_at organisationID locationID version)
    (active_table true (fun _ => None))).

(** ** [service_periods] *)

Definition new_period (organisationID locationID : uuid) (name : string) (days : list Z)
    (start finish : Z) (now : Z) (id : uuid) : ServicePeriod :=
  {| svp_ID := id; svp_OrganisationID := organisationID; svp_LocationID := locationID;
     svp_Name := name; svp_DaysOfWeek := days; svp_StartTime := start; svp_EndTime := finish;
     svp_IsActive := true; svp_Version := 1; svp_CreatedAt := now; svp_UpdatedAt := now |}.

Definition CreateServicePeriod (organisationID locationID : uuid) (name : string)
    (days : list Z) (start finish : Z) : Go ServicePeriod :=
  exec (insert_row db_periods set_periods period_ok "service_periods_pkey" svp_ID
          (new_period organisationID locationID name days start finish)).

(** ** Lists *)

(** [ORDER BY k1, k2, ...], each key a comparison. *)
Fixpoint order_by {A} (keys : list (A -> A -> comparison)) (x y : A) : bool :=
  match keys with
  | [] => true
  | k :: keys' =>
      match k x y with Lt => true | Gt => false | Eq => order_by keys' x y end
  end.

Definition cmp_num {A} (f : A -> Z) (x y : A) : comparison := f x ?= f y.
Definition cmp_id {A} (f : A -> uuid) (x y : A) : comparison := (f x ?= f y)%N.
(** [DESC] on a boolean column: true first. *)
Definition cmp_true_first {A} (f : A -> bool) (x y : A) : comparison :=
  match f x, f y with true, false => Lt | false, true => Gt | _, _ => Eq end.

Section Lists.
Context {GT : GoText}.

Definition cmp_text {A} (f : A -> string) (x y : A) : comparison :=
  if String.eqb (f x) (f y) then Eq else if pg_collate (f x) (f y) then Lt else Gt.

Definition ListLocationsByOrganisation (organisationID : uuid) : Go (list Location) :=
  exec (select_many db_locations (fun l => loc_OrganisationID l =? organisationID)%N
          (order_by [cmp_text loc_Name; cmp_text loc_Slug])).

Definition ListAllFloorsByLocation (organisationID locationID : uuid) : Go (list Floor) :=
  exec (select_many db_floors
          (fun f => (flr_OrganisationID f =? organisationID)%N
                    && (flr_LocationID f =? locationID)%N)
          (order_by [cmp_true_first flr_IsActive; cmp_num flr_SortOrder; cmp_text flr_Name])).

Definition ListAllZonesByLocation (organisationID locationID : uuid) : Go (list Zone) :=
  exec (select_many db_zones
          (fun z => (zon_OrganisationID z =? organisationID)%N
                    && (zon_LocationID z =? locationID)%N)
          (order_by [cmp_true_first zon_IsActive; cmp_id zon_FloorID; cmp_num zon_SortOrder;
                     cmp_text zon_Name])).

Definition tables_of (organisationID locationID : uuid) (d : Db) : list Table :=
  rows db_tables d (fun t => (tbl_OrganisationID t =? organisationID)%N
                             && (tbl_LocationID t =? locationID)%N)
    (order_by [cmp_id tbl_FloorID; cmp_text tbl_Label]).

Definition ListFloorsByLocation (organisationID locationID : uuid) : Go (list Floor) :=
  exec (select_many db_floors
          (fun f => (flr_OrganisationID f =? organisationID)%N
                    && (flr_LocationID f =? locationID)%N && flr_IsActive f)
          (order_by [cmp_num flr_SortOrder; cmp_text flr_Name])).

Definition ListZonesByFloor (organisationID locationID floorID : uuid) : Go (list Zone) :=
  exec (select_many db_zones
          (fun z => (zon_OrganisationID z =? organisationID)%N
                    && (zon_LocationID z =? locationID)%N && (zon_FloorID z =? floorID)%N
                    && zon_IsActive z)
          (order_by [cmp_num zon_SortOrder; cmp_text zon_Name])).

Definition live_at (organisationID locationID : uuid) (t : Table) : bool :=
  (tbl_OrganisationID t =? organisationID)%N && (tbl_LocationID t =? locationID)%N
  && tbl_IsActive t && negb (is_some (tbl_DeletedAt t)).

Definition ListTablesByFloor (organisationID locationID floorID : uuid) : Go (list Table) :=
  exec (select_many db_tables
          (fun t => live_at organisationID locationID t && (tbl_FloorID t =? floorID)%N)
          (order_by [cmp_text tbl_Label])).

(** A table without an occupancy is not joined. *)
Definition ListLocationTableStates (organisationID locationID : uuid)
    : Go (list (Table * TableOccupancy)) :=
  query (fun d =>
    omap (fun t => o ← db_occupancy d !! tbl_ID t; Some (t, o))
      (rows db_tables d (live_at organisationID locationID) (order_by [cmp_text tbl_Label]))).

(** The error of scanning the columns of a missing joined row. *)
Definition ErrScanNull : error := Errorf "cannot scan NULL into *string".

(** Scan the rows of a join with the occupancy. *)
Fixpoint scan_states (d : Db) (l : list Table) : result error (list (Table * TableOccupancy)) :=
  match l with
  | [] => Ok []
  | t :: l' =>
      match db_occupancy d !! tbl_ID t with
      | None => Err ErrScanNull
      | Some o => let? r := scan_states d l' in Ok ((t, o) :: r)
      end
  end.

Definition ListTableStatesByLocationIncludingArchived (organisationID locationID : uuid)
    : Go (list (Table * TableOccupancy)) :=
  exec (fun _ _ d => let? r := scan_states d (tables_of organisationID locationID d) in Ok (r, d)).
End Lists.
