(* ===== verification/Identity.v ===== *)
(** The identity service ([domain/identity/service.go]): actors and their
    permissions, the transactions of the service, user profiles and external
    identities, web sessions, and devices with their pairing codes. *)

From S2P Require Import Prelude Json Crypto Schema GoTx Store Queries Tokens IdentityQueries.
#[local] Open Scope string_scope.
#[local] Open Scope Z_scope.
#[local] Open Scope list_scope.

(** ** Names *)

Definition RolePlatformAdmin := "platform_admin".
Definition RoleOrganisationOwner := "organisation_owner".
Definition RoleLocationManager := "location_manager".
Definition RoleWaiter := "waiter".
Definition RoleReadOnly := "read_only".
Definition RoleSupport := "support".
Definition PermissionPlatformAdmin := "platform.admin".
Definition PermissionPlatformAdminWrite := "platform.admin.write".
Definition PermissionPlatformManageAdmins := "platform.admin.manage_admins".
Definition PermissionOrganisationManage := "organisation.manage".
Definition PermissionLocationManage := "location.manage".
Definition PermissionLayoutRead := "layout.read".
Definition PermissionLayoutWrite := "layout.write".
Definition PermissionOperationsRead := "operations.read".
Definition PermissionOperationsWrite := "operations.write".
Definition PermissionAuditRead := "audit.read".
Definition PermissionAnalyticsRead := "analytics.read".
Definition PermissionDeviceManage := "device.manage".
Definition DeviceTypeWaiterMobile := "waiter_mobile".
Definition DeviceTypeManagerTablet := "manager_tablet".
Definition DeviceTypeDisplay := "display".
Definition DeviceTypeHostDevice := "host_device".

Definition ErrNotFound : error := Sentinel "identity" "not found".
Definition ErrUnauthorized : error := Sentinel "identity" "unauthorized".
Definition ErrForbidden : error := Sentinel "identity" "forbidden".
Definition ErrAlreadyExists : error := Sentinel "identity" "already exists".
Definition ErrAlreadyRevoked : error := Sentinel "identity" "already revoked".
Definition ErrValidation : error := Sentinel "identity" "validation failed".

(** ** Helpers *)

Definition nullableText (value : string) : option string :=
  if String.eqb value "" then None else Some value.

Definition nullableUUID (value : uuid) : option uuid :=
  if (value =? uuid_Nil)%N then None else Some value.

Definition nullableUUIDValue (value : option uuid) : uuid := default uuid_Nil value.

(** [time.Time]'s zero value is the year 1. *)
Definition zero_time : Z := -62135596800 * 1000000000.
Definition nullableTime (value : Z) : option Z := if value =? zero_time then None else Some value.

Definition defaultJSONObject (value : RawMessage) : RawMessage :=
  match value with RawEmpty => RawText (Some (JObj [])) | _ => value end.

(** Decoding into a map accepts an object and [null]. *)
Definition jsonObject (value : RawMessage) : bool :=
  match value with RawText (Some (JObj _)) | RawText (Some JNull) => true | _ => false end.

(** The [jsonb] value of a message that decodes. *)
Definition raw_json (value : RawMessage) : json :=
  match value with RawText (Some j) => j | _ => JNull end.

Definition userProfileActorRef (id : uuid) : string :=
  if (id =? uuid_Nil)%N then "user:" else ("user:" +:+ uuid_String id)%string.

Definition validDeviceType (value : string) : bool :=
  String.eqb value DeviceTypeWaiterMobile || String.eqb value DeviceTypeManagerTablet
  || String.eqb value DeviceTypeDisplay || String.eqb value DeviceTypeHostDevice.

(** The first server error in an error's tree, as [errors.As] finds it. *)
Fixpoint errors_As_pg (err : error) : option PgError :=
  match err with
  | PgErr ConnectionFailure => None
  | PgErr p => Some p
  | Wrap _ e => errors_As_pg e
  | Join e1 e2 => match errors_As_pg e1 with Some p => Some p | None => errors_As_pg e2 end
  | _ => None
  end.

Definition mapIdentityConstraintError (err : error) : error :=
  match errors_As_pg err with Some (UniqueViolation _) => ErrAlreadyExists | _ => err end.

(** ** Transactions *)

Definition inAdminTx {A} (fn : Go A) : Go A :=
  inTx (map_err (Wrap "setting platform admin context") SetContext ;; fn).

Definition inTenantTx {A} (fn : Go A) : Go A :=
  inTx (map_err (Wrap "setting tenant context") SetContext ;; fn).

(** ** Actors *)

Record TenantActor := {
  act_OrganisationID : uuid;
  act_LocationID : uuid;
  act_ActorRef : string;
}.

Definition normalizeTenantActor (actor : TenantActor) : TenantActor :=
  {| act_OrganisationID := act_OrganisationID actor; act_LocationID := act_LocationID actor;
     act_ActorRef := TrimSpace (act_ActorRef actor) |}.

Definition validateTenantActor (actor : TenantActor) (requireLocation : bool) : Go unit :=
  guard_err ((act_OrganisationID actor =? uuid_Nil)%N
             || (requireLocation && (act_LocationID actor =? uuid_Nil)%N)) ErrValidation ;;
  guard_err (String.eqb (act_ActorRef actor) "") ErrForbidden.

Definition requireOrganisationPermission (actor : TenantActor) (permission : string) : Go unit :=
  allowed ← map_err (Wrap "checking organisation permission")
    (ActorHasOrganisationPermission (act_OrganisationID actor) (act_ActorRef actor) permission);
  guard_err (negb allowed) ErrForbidden.

Definition requireLocationPermission (actor : TenantActor) (permission : string) : Go unit :=
  guard_err (act_LocationID actor =? uuid_Nil)%N ErrForbidden ;;
  allowed ← map_err (Wrap "checking location permission")
    (ActorHasLocationPermission (act_OrganisationID actor) (act_LocationID actor)
       (act_ActorRef actor) permission);
  guard_err (negb allowed) ErrForbidden.

Definition HasOrganisationPermission (organisationID userProfileID : uuid) (permission : string)
    : Go bool :=
  inTenantTx (map_err (Wrap "checking organisation permission")
    (UserHasOrganisationPermission organisationID (Some userProfileID) permission)).

Definition HasLocationPermission (organisationID locationID userProfileID : uuid)
    (permission : string) : Go bool :=
  inTenantTx (map_err (Wrap "checking location permission")
    (UserHasLocationPermission organisationID locationID (Some userProfileID) permission)).

Section Service.
Context {GT : GoText}.

(** ** People *)

Definition normalizeEmail (value : string) : result error string :=
  let value := TrimSpace value in
  if String.eqb value "" then Err ErrValidation
  else match ParseAddress value with
       | None => Err ErrValidation
       | Some address =>
           if String.eqb (TrimSpace address) "" then Err ErrValidation else Ok (ToLower address)
       end.

(** The arguments of [CreateUserProfile] and [ResolveExternalIdentity]. *)
Record ResolveExternalIdentityParams := {
rei_DisplayName : string;
rei_Email : string;
rei_EmailVerified : bool;
rei_Issuer : string;
rei_Subject : string;
rei_ExternalEmail : string;
}.

Definition CreateUserProfile (displayName email issuer subject externalEmail : string)
    : Go (UserProfile * ExternalIdentity) :=
  inAdminTx (
    user ← map_err (Wrap "creating user profile")
      (CreateUserProfileRow displayName (nullableText email));
    external ← map_err (Wrap "linking external identity")
      (LinkExternalIdentity (usr_ID user) issuer subject (nullableText externalEmail));
    mret (user, external)).

Definition consumePendingPlatformGrant (userProfileID : uuid) (email : string) : Go unit :=
  match normalizeEmail email with
  | Err _ => mret tt
  | Ok normalizedEmail =>
      r ← attempt (ConsumePlatformAdminGrant (nullableUUID userProfileID) normalizedEmail);
      match r with
      | Err err =>
          if errors_Is err NoRows then mret tt
          else fail (Wrap "consuming platform admin grant" err)
      | Ok grant =>
          map_err (Wrap "creating platform membership from grant")
            (CreatePlatformMembership userProfileID (pag_Role grant)
               (pag_InvitedByActorRef grant)) ;;
          mret tt
      end
  end.

Definition normalizeResolveParams (arg : ResolveExternalIdentityParams)
    : ResolveExternalIdentityParams :=
  let email := TrimSpace (rei_Email arg) in
  let external := TrimSpace (rei_ExternalEmail arg) in
  let name := TrimSpace (rei_DisplayName arg) in
  {| rei_DisplayName := if String.eqb name "" then email else name;
     rei_Email := email; rei_EmailVerified := rei_EmailVerified arg;
     rei_Issuer := TrimSpace (rei_Issuer arg); rei_Subject := TrimSpace (rei_Subject arg);
     rei_ExternalEmail := if String.eqb external "" then email else external |}.

(** The verified address of an invited person: their profile, now linked. *)
Definition linkInvitedProfile (arg : ResolveExternalIdentityParams)
    : Go (option (UserProfile * ExternalIdentity)) :=
  match normalizeEmail (rei_Email arg) with
  | Err _ => mret None
  | Ok normalizedEmail =>
      r ← attempt (GetActiveUserProfileByEmail (nullableText normalizedEmail));
      match r with
      | Ok existing =>
          external ← map_err (Wrap "linking invited external identity")
            (LinkExternalIdentity (usr_ID existing) (rei_Issuer arg) (rei_Subject arg)
               (nullableText (rei_ExternalEmail arg)));
          mret (Some (existing, external))
      | Err err =>
          if errors_Is err NoRows then mret None
          else fail (Wrap "getting invited user profile by email" err)
      end
  end.

Definition ResolveExternalIdentity (arg : ResolveExternalIdentityParams)
    : Go (UserProfile * ExternalIdentity) :=
  let arg := normalizeResolveParams arg in
  guard_err (String.eqb (rei_DisplayName arg) "" || String.eqb (rei_Issuer arg) ""
             || String.eqb (rei_Subject arg) "") ErrValidation ;;
  let verified := rei_EmailVerified arg && not_empty (rei_Email arg) in
  inAdminTx (
    r ← attempt (GetUserByExternalIdentity (rei_Issuer arg) (rei_Subject arg));
    found ← match r with
            | Ok row => mret (Some row)
            | Err err =>
                if negb (errors_Is err NoRows) then fail (Wrap "getting external identity" err)
                else if verified then linkInvitedProfile arg
                else mret None
            end;
    let created :=
      user ← map_err (Wrap "creating user profile")
        (CreateUserProfileRow (rei_DisplayName arg)
           (nullableText (if rei_EmailVerified arg then rei_Email arg else "")));
      external ← map_err (Wrap "linking external identity")
        (LinkExternalIdentity (usr_ID user) (rei_Issuer arg) (rei_Subject arg)
           (nullableText (rei_ExternalEmail arg)));
      mret (user, external) in
    result ← match found with
             | Some row => if (usr_ID (fst row) =? uuid_Nil)%N then created else mret row
             | None => created
             end;
    (if verified then consumePendingPlatformGrant (usr_ID (fst result)) (rei_Email arg)
     else mret tt) ;;
    mret result).

(** ** Web sessions *)

Record Membership := {
mem_OrganisationID : uuid;
mem_LocationID : uuid;
mem_MemberRef : string;
mem_Role : string;
}.

(** The [WebSession] of the service; [wss_Session] is its row. *)
Record WebSessionResult := {
wss_Session : WebSession;
wss_User : UserProfile;
wss_Secret : string;
wss_Memberships : list Membership;
}.

Record CreateWebSessionParams := {
cws_UserProfileID : uuid;
cws_TTL : Z;
cws_UserAgent : string;
cws_IPAddress : string;
cws_RotatedFrom : uuid;
}.

Definition time_Second : Z := 1000000000.
Definition time_Minute : Z := 60 * time_Second.
Definition time_Hour : Z := 60 * time_Minute.

Definition org_membership (m : OrganisationMembership) : Membership :=
  {| mem_OrganisationID := omb_OrganisationID m; mem_LocationID := uuid_Nil;
     mem_MemberRef := omb_MemberRef m; mem_Role := omb_Role m |}.
Definition platform_membership (m : PlatformMembership) : Membership :=
  {| mem_OrganisationID := uuid_Nil; mem_LocationID := uuid_Nil;
     mem_MemberRef := userProfileActorRef (pmb_UserProfileID m); mem_Role := pmb_Role m |}.
Definition loc_membership (m : LocationMembership) : Membership :=
  {| mem_OrganisationID := lmb_OrganisationID m; mem_LocationID := lmb_LocationID m;
     mem_MemberRef := lmb_MemberRef m; mem_Role := lmb_Role m |}.

(** The profile a hydrated session starts with: only its identifier is set. *)
Definition user_of_session (session : WebSession) : UserProfile :=
  {| usr_ID := wse_UserProfileID session; usr_DisplayName := ""; usr_Email := None;
     usr_Status := ""; usr_CreatedAt := zero_time; usr_UpdatedAt := zero_time |}.

Definition hydrateWebSession (session : WebSession) (secret : string) : Go WebSessionResult :=
  inAdminTx (
    orgs ← map_err (Wrap "listing organisation memberships")
      (ListUserOrganisationMemberships (nullableUUID (wse_UserProfileID session)));
    locations ← map_err (Wrap "listing location memberships")
      (ListUserLocationMemberships (nullableUUID (wse_UserProfileID session)));
    platform ← map_err (Wrap "listing platform memberships")
      (ListUserPlatformMemberships (wse_UserProfileID session));
    mret {| wss_Session := session; wss_User := user_of_session session; wss_Secret := secret;
            wss_Memberships := map org_membership orgs ++ map platform_membership platform
                               ++ map loc_membership locations |}).

Definition with_session_user (user : UserProfile) (s : WebSessionResult) : WebSessionResult :=
  {| wss_Session := wss_Session s; wss_User := user; wss_Secret := wss_Secret s;
     wss_Memberships := wss_Memberships s |}.

(** The address is kept when it parses. *)
Definition session_ip (address : string) : option string :=
  if String.eqb (TrimSpace address) "" then None else ParseAddr (TrimSpace address).

Definition CreateWebSession (arg : CreateWebSessionParams) : Go WebSessionResult :=
  guard_err (cws_UserProfileID arg =? uuid_Nil)%N ErrValidation ;;
  let ttl := if cws_TTL arg <=? 0 then 8 * time_Hour else cws_TTL arg in
  guard_err ((ttl <? time_Minute) || (24 * time_Hour <? ttl)) ErrValidation ;;
  secret ← map_err (Wrap "generating web session") GenerateOpaqueSecret;
  prefix ← lift (LookupPrefix secret);
  hash ← lift (HashSecret secret);
  session ← inAdminTx (
    now ← time_Now;
    map_err (Wrap "creating web session")
      (CreateWebSessionRow (cws_UserProfileID arg) prefix hash (now + ttl)
         (nullableText (TrimSpace (cws_UserAgent arg))) (session_ip (cws_IPAddress arg))
         (nullableUUID (cws_RotatedFrom arg))));
  hydrateWebSession session secret.

(** Find the session of a secret and compare the hash. *)
Definition lookupWebSession (none : error) (prefix secret : string)
    : Go (UserProfile * WebSession) :=
  row ← map_err (no_rows_to none "getting web session") (GetWebSessionByPrefix prefix);
  ok ← lift (SecretMatches secret (wse_SessionHash (snd row)));
  guard_err (negb ok) ErrUnauthorized ;;
  mret row.

Definition ValidateWebSession (secret : string) : Go WebSessionResult :=
  prefix ← map_err (fun _ => ErrUnauthorized) (lift (LookupPrefix secret));
  row ← inAdminTx (
    row ← lookupWebSession ErrUnauthorized prefix secret;
    map_err (Wrap "touching web session") (TouchWebSession (wse_ID (snd row))) ;;
    mret row);
  session ← hydrateWebSession (snd row) secret;
  mret (with_session_user (fst row) session).

(** A session that is not there counts as revoked. *)
Definition RevokeWebSession (secret : string) : Go unit :=
  prefix ← map_err (fun _ => ErrUnauthorized) (lift (LookupPrefix secret));
  inAdminTx (
    r ← attempt (GetWebSessionByPrefix prefix);
    match r with
    | Err err => if errors_Is err NoRows then mret tt else fail (Wrap "getting web session" err)
    | Ok row =>
        ok ← lift (SecretMatches secret (wse_SessionHash (snd row)));
        guard_err (negb ok) ErrUnauthorized ;;
        map_err (Wrap "revoking web session") (RevokeWebSessionRow (wse_ID (snd row)))
    end).

Definition RotateWebSession (secret : string) (ttl : Z) (userAgent ipAddress : string)
    : Go WebSessionResult :=
  current ← ValidateWebSession secret;
  next ← CreateWebSession
    {| cws_UserProfileID := usr_ID (wss_User current); cws_TTL := ttl; cws_UserAgent := userAgent;
       cws_IPAddress := ipAddress; cws_RotatedFrom := wse_ID (wss_Session current) |};
  RevokeWebSession secret ;;
  mret (with_session_user (wss_User current) next).

(** ** Devices *)

Record RegisterDeviceParams := {
rdp_OrganisationID : uuid;
rdp_LocationID : uuid;
rdp_UserProfileID : uuid;
rdp_DeviceType : string;
rdp_Platform : string;
rdp_AppVersion : string;
rdp_Name : string;
rdp_Capabilities : RawMessage;
rdp_Configuration : RawMessage;
rdp_HeartbeatEvery : Z;
rdp_ExpiresAt : Z;
}.

Record RegisterDeviceResult := {
rdr_Device : Device;
rdr_Credential : DeviceCredential;
rdr_Secret : string;
}.

Definition normalizeRegisterDeviceParams (arg : RegisterDeviceParams) : RegisterDeviceParams :=
  {| rdp_OrganisationID := rdp_OrganisationID arg; rdp_LocationID := rdp_LocationID arg;
     rdp_UserProfileID := rdp_UserProfileID arg; rdp_DeviceType := TrimSpace (rdp_DeviceType arg);
     rdp_Platform := TrimSpace (rdp_Platform arg); rdp_AppVersion := TrimSpace (rdp_AppVersion arg);
     rdp_Name := TrimSpace (rdp_Name arg);
     rdp_Capabilities := defaultJSONObject (rdp_Capabilities arg);
     rdp_Configuration := defaultJSONObject (rdp_Configuration arg);
     rdp_HeartbeatEvery :=
       if rdp_HeartbeatEvery arg <=? 0 then time_Minute else rdp_HeartbeatEvery arg;
     rdp_ExpiresAt := rdp_ExpiresAt arg |}.

Definition validateRegisterDeviceParams (arg : RegisterDeviceParams) : Go unit :=
  guard_err ((rdp_OrganisationID arg =? uuid_Nil)%N || negb (validDeviceType (rdp_DeviceType arg))
             || String.eqb (rdp_Platform arg) "" || String.eqb (rdp_AppVersion arg) "")
    ErrValidation ;;
  guard_err (negb (jsonObject (rdp_Capabilities arg)) || negb (jsonObject (rdp_Configuration arg)))
    ErrValidation ;;
  guard_err ((rdp_HeartbeatEvery arg <? time_Second) || (time_Hour <? rdp_HeartbeatEvery arg))
    ErrValidation.

(** A device credential: the secret, its lookup prefix and its hash. *)
Definition newCredentialSecret : Go (string * string * list N) :=
  secret ← map_err (Wrap "generating device credential") GenerateOpaqueSecret;
  prefix ← lift (LookupPrefix secret);
  hash ← lift (HashSecret secret);
  mret (secret, prefix, hash).

Definition RegisterDevice (arg : RegisterDeviceParams) : Go RegisterDeviceResult :=
  let arg := normalizeRegisterDeviceParams arg in
  validateRegisterDeviceParams arg ;;
  cred ← newCredentialSecret;
  let '(secret, prefix, hash) := cred in
  inTenantTx (
    device ← map_err (Wrap "registering device")
      (RegisterDeviceRow (rdp_OrganisationID arg) (nullableUUID (rdp_LocationID arg))
         (nullableUUID (rdp_UserProfileID arg)) (rdp_DeviceType arg) (rdp_Platform arg)
         (rdp_AppVersion arg) (nullableText (rdp_Name arg)) (raw_json (rdp_Capabilities arg))
         (raw_json (rdp_Configuration arg)) (rdp_HeartbeatEvery arg / time_Second));
    credential ← map_err (Wrap "creating device credential")
      (CreateDeviceCredential (rdp_OrganisationID arg) (dev_ID device) prefix hash
         (nullableTime (rdp_ExpiresAt arg)));
    mret {| rdr_Device := device; rdr_Credential := credential; rdr_Secret := secret |}).

Record CreatePairingCodeParams := {
cpc_Actor : TenantActor;
cpc_DeviceType : string;
cpc_TTL : Z;
}.

Definition CreatePairingCode (arg : CreatePairingCodeParams) : Go (DevicePairingCode * string) :=
  let actor := normalizeTenantActor (cpc_Actor arg) in
  validateTenantActor actor true ;;
  let deviceType := if String.eqb (cpc_DeviceType arg) "" then DeviceTypeDisplay
                    else cpc_DeviceType arg in
  guard_err (negb (validDeviceType deviceType)) ErrValidation ;;
  let ttl := if cpc_TTL arg <=? 0 then 10 * time_Minute else cpc_TTL arg in
  guard_err (time_Hour <? ttl) ErrValidation ;;
  code ← map_err (Wrap "generating pairing code") GeneratePairingCode;
  prefix ← lift (PairingCodeLookupPrefix code);
  hash ← lift (HashSecret (NormalizePairingCode code));
  inTenantTx (
    requireLocationPermission actor PermissionDeviceManage ;;
    now ← time_Now;
    pairingCode ← map_err (Wrap "creating device pairing code")
      (CreateDevicePairingCode (act_OrganisationID actor) (act_LocationID actor)
         (act_ActorRef actor) deviceType prefix hash (now + ttl));
    mret (pairingCode, code)).

Record PairDeviceParams := {
pdp_Code : string;
pdp_Platform : string;
pdp_AppVersion : string;
pdp_Name : string;
pdp_Capabilities : RawMessage;
pdp_Configuration : RawMessage;
}.

(** The transaction of [PairDevice]. *)
Definition pairDeviceInTx (code prefix platform appVersion name : string)
    (capabilities configuration : json) (secret credentialPrefix : string)
    (credentialHash : list N) : Go RegisterDeviceResult :=
  pairingCode ← map_err (no_rows_to ErrUnauthorized "getting device pairing code")
    (GetDevicePairingCodeByPrefix prefix);
  ok ← lift (SecretMatches code (dpc_PairingCodeHash pairingCode));
  guard_err (negb ok) ErrUnauthorized ;;
  device ← map_err (Wrap "registering paired device")
    (RegisterDeviceRow (dpc_OrganisationID pairingCode) (nullableUUID (dpc_LocationID pairingCode))
       None (dpc_DeviceType pairingCode) platform appVersion (nullableText name) capabilities
       configuration 60);
  map_err (no_rows_to ErrUnauthorized "consuming device pairing code")
    (ConsumeDevicePairingCode (dpc_ID pairingCode) (nullableUUID (dev_ID device))) ;;
  device ← map_err (Wrap "trusting paired device")
    (TrustDeviceRow (dev_ID device) (dpc_OrganisationID pairingCode));
  credential ← map_err (Wrap "creating paired device credential")
    (CreateDeviceCredential (dpc_OrganisationID pairingCode) (dev_ID device) credentialPrefix
       credentialHash None);
  mret {| rdr_Device := device; rdr_Credential := credential; rdr_Secret := secret |}.

Definition PairDevice (arg : PairDeviceParams) : Go RegisterDeviceResult :=
  let code := NormalizePairingCode (pdp_Code arg) in
  prefix ← map_err (fun _ => ErrUnauthorized) (lift (PairingCodeLookupPrefix code));
  let platform := TrimSpace (pdp_Platform arg) in
  let appVersion := TrimSpace (pdp_AppVersion arg) in
  guard_err (String.eqb platform "" || String.eqb appVersion "") ErrValidation ;;
  let capabilities := defaultJSONObject (pdp_Capabilities arg) in
  let configuration := defaultJSONObject (pdp_Configuration arg) in
  guard_err (negb (jsonObject capabilities) || negb (jsonObject configuration)) ErrValidation ;;
  cred ← newCredentialSecret;
  let '(secret, credentialPrefix, credentialHash) := cred in
  inAdminTx (pairDeviceInTx code prefix platform appVersion (TrimSpace (pdp_Name arg))
               (raw_json capabilities) (raw_json configuration) secret credentialPrefix
               credentialHash).

Definition AuthenticateDeviceCredential (secret : string) : Go Device :=
  prefix ← lift (LookupPrefix secret);
  inAdminTx (
    row ← map_err (no_rows_to ErrUnauthorized "getting device credential")
      (GetDeviceCredentialByPrefix prefix);
    ok ← lift (SecretMatches secret (dcr_CredentialHash (fst row)));
    guard_err (negb ok) ErrUnauthorized ;;
    map_err (Wrap "marking device seen")
      (MarkDeviceSeen (dev_ID (snd row)) (dev_OrganisationID (snd row))) ;;
    map_err (Wrap "touching device credential") (TouchDeviceCredential (dcr_ID (fst row))) ;;
    mret (snd row)).

(** On an error Go still returns a device, which no caller reads. *)
Definition RecordHeartbeat (secret appVersion : string) (capabilities : RawMessage) : Go Device :=
  let appVersion := TrimSpace appVersion in
  guard_err (String.eqb appVersion "") ErrValidation ;;
  let capabilities := defaultJSONObject capabilities in
  guard_err (negb (jsonObject capabilities)) ErrValidation ;;
  device ← AuthenticateDeviceCredential secret;
  inTenantTx (map_err (no_rows_to ErrUnauthorized "recording device heartbeat")
    (RecordDeviceHeartbeat (dev_ID device) (dev_OrganisationID device) appVersion
       (raw_json capabilities))).

Definition ListDevices (actor : TenantActor) : Go (list Device) :=
  let actor := normalizeTenantActor actor in
  validateTenantActor actor false ;;
  inTenantTx (
    (if (act_LocationID actor =? uuid_Nil)%N
     then requireOrganisationPermission actor PermissionDeviceManage
     else requireLocationPermission actor PermissionDeviceManage) ;;
    map_err (Wrap "listing devices")
      (if (act_LocationID actor =? uuid_Nil)%N
       then ListDevicesByOrganisation (act_OrganisationID actor)
       else ListDevicesByLocation (act_OrganisationID actor)
              (nullableUUID (act_LocationID actor)))).

Definition TrustDevice (organisationID deviceID : uuid) : Go Device :=
  inTenantTx (map_err (no_rows_to ErrNotFound "trusting device")
    (TrustDeviceRow deviceID organisationID)).

Definition revokeDeviceInTx (actor : TenantActor) (deviceID : uuid) : Go Device :=
  current ← map_err (no_rows_to ErrNotFound "getting device")
    (GetDevice deviceID (act_OrganisationID actor));
  match dev_LocationID current with
  | Some loc =>
      requireLocationPermission
        {| act_OrganisationID := act_OrganisationID actor; act_LocationID := loc;
           act_ActorRef := act_ActorRef actor |} PermissionDeviceManage
  | None => requireOrganisationPermission actor PermissionDeviceManage
  end ;;
  map_err (Wrap "revoking device credentials")
    (RevokeDeviceCredentials (act_OrganisationID actor) deviceID) ;;
  map_err (no_rows_to ErrAlreadyRevoked "revoking device")
    (RevokeDeviceRow deviceID (act_OrganisationID actor)).

Definition RevokeDevice (actor : TenantActor) (deviceID : uuid) : Go Device :=
  let actor := normalizeTenantActor actor in
  validateTenantActor actor false ;;
  inTenantTx (revokeDeviceInTx actor deviceID).
End Service.
