(* ===== verification/Memberships.v ===== *)
(** Who belongs to an organisation and with which role
    ([domain/identity/memberships.go]): the operations of owners on the members
    of their organisation and of platform operators on its owners. *)

From S2P Require Import Prelude Json Crypto Schema GoTx Store Queries Tokens IdentityQueries Identity.
#[local] Open Scope string_scope.
#[local] Open Scope Z_scope.
#[local] Open Scope list_scope.

Definition MembershipScopeOrganisation := "organisation".
Definition MembershipScopeLocation := "location".
Definition auditActionMembershipCreate := "membership.create".
Definition auditActionMembershipUpdateRole := "membership.update_role".
Definition auditActionMembershipDisable := "membership.disable".
Definition auditTargetMembership := "membership".

Record ManagedMembership := {
  mng_ID : uuid;
  mng_Scope : string;
  mng_OrganisationID : uuid;
  mng_LocationID : uuid;
  mng_UserProfileID : uuid;
  mng_DisplayName : string;
  mng_Email : string;
  mng_MemberRef : string;
  mng_Role : string;
  mng_DisabledAt : option Z;
  mng_Permissions : list string;
}.

Record CreateMembershipParams := {
  cmp_Actor : TenantActor;
  cmp_Scope : string;
  cmp_LocationID : uuid;
  cmp_Email : string;
  cmp_DisplayName : string;
  cmp_Role : string;
}.

Record UpdateMembershipRoleParams := {
  ump_Actor : TenantActor;
  ump_Scope : string;
  ump_ID : uuid;
  ump_Role : string;
}.

Record DisableMembershipParams := {
  dmp_Actor : TenantActor;
  dmp_Scope : string;
  dmp_ID : uuid;
}.

Record PlatformInviteOwnerParams := {
  pio_TargetOrganisationID : uuid;
  pio_Email : string;
  pio_DisplayName : string;
  pio_ActorRef : string;
}.

Record PlatformOwnerMembershipParams := {
  pom_TargetOrganisationID : uuid;
  pom_MembershipID : uuid;
  pom_ActorRef : string;
}.

Record PlatformReassignOwnershipParams := {
  pro_TargetOrganisationID : uuid;
  pro_FromMembershipID : uuid;
  pro_ToEmail : string;
  pro_ActorRef : string;
}.

(** ** Transactions and validation *)

Definition inPlatformDBTx {A} (fn : Go A) : Go A :=
  inTx (map_err (Wrap "setting platform admin context") SetContext ;; fn).

Definition inTenantDBTx {A} (fn : Go A) : Go A :=
  inTx (map_err (Wrap "setting tenant context") SetContext ;; fn).

Definition validMembershipScope (scope : string) : bool :=
  String.eqb scope MembershipScopeOrganisation || String.eqb scope MembershipScopeLocation.

Definition validMembershipRole (scope role : string) : bool :=
  if String.eqb scope MembershipScopeOrganisation
  then String.eqb role RoleOrganisationOwner || String.eqb role RoleReadOnly
  else if String.eqb scope MembershipScopeLocation
  then String.eqb role RoleLocationManager || String.eqb role RoleWaiter
  else false.

Definition nullableAuditString (id : uuid) : json :=
  if (id =? uuid_Nil)%N then JNull else JUuid id.

(** ** Reading memberships *)

(** The columns of the queries, from a membership and its profile (if any). *)
Definition org_managed (p : option UserProfile) (m : OrganisationMembership) : ManagedMembership :=
  {| mng_ID := omb_ID m; mng_Scope := MembershipScopeOrganisation;
     mng_OrganisationID := omb_OrganisationID m; mng_LocationID := uuid_Nil;
     mng_UserProfileID := default uuid_Nil (omb_UserProfileID m);
     mng_DisplayName := from_option usr_DisplayName "" p;
     mng_Email := default "" (p ≫= usr_Email); mng_MemberRef := omb_MemberRef m;
     mng_Role := omb_Role m; mng_DisabledAt := omb_DisabledAt m; mng_Permissions := [] |}.

Definition loc_managed (p : option UserProfile) (m : LocationMembership) : ManagedMembership :=
  {| mng_ID := lmb_ID m; mng_Scope := MembershipScopeLocation;
     mng_OrganisationID := lmb_OrganisationID m; mng_LocationID := lmb_LocationID m;
     mng_UserProfileID := default uuid_Nil (lmb_UserProfileID m);
     mng_DisplayName := from_option usr_DisplayName "" p;
     mng_Email := default "" (p ≫= usr_Email); mng_MemberRef := lmb_MemberRef m;
     mng_Role := lmb_Role m; mng_DisabledAt := lmb_DisabledAt m; mng_Permissions := [] |}.

(** [LEFT JOIN user_profiles up ON up.id = m.user_profile_id] *)
Definition profile_of (d : Db) (u : option uuid) : option UserProfile := u ≫= fun i => db_users d !! i.

(** [scanManagedMembership]: no row is [ErrNotFound]. *)
Definition scanManagedMembership {A} (f : Db -> A -> ManagedMembership) (q : Stmt A)
    : Go ManagedMembership :=
  map_err (no_rows_to ErrNotFound "scanning membership")
    (exec (fun now u d => let? r := q now u d in Ok (f d (fst r), snd r))).

Definition managed_org (d : Db) (m : OrganisationMembership) : ManagedMembership :=
  org_managed (profile_of d (omb_UserProfileID m)) m.
Definition managed_loc (d : Db) (m : LocationMembership) : ManagedMembership :=
  loc_managed (profile_of d (lmb_UserProfileID m)) m.

(** An inner join: the profile exists. *)
Definition getMembershipByProfile (organisationID : uuid) (scope : string)
    (locationID userProfileID : uuid) : Go ManagedMembership :=
  if String.eqb scope MembershipScopeLocation
  then scanManagedMembership managed_loc (fun now u d =>
         select_first db_loc_members (fun m =>
           (lmb_OrganisationID m =? organisationID)%N && (lmb_LocationID m =? locationID)%N
           && sql_eq (lmb_UserProfileID m) (nullableUUID userProfileID)
           && is_some (profile_of d (lmb_UserProfileID m))) any_order now u d)
  else scanManagedMembership managed_org (fun now u d =>
         select_first db_org_members (fun m =>
           (omb_OrganisationID m =? organisationID)%N
           && sql_eq (omb_UserProfileID m) (nullableUUID userProfileID)
           && is_some (profile_of d (omb_UserProfileID m))) any_order now u d).

Definition getManagedMembershipForUpdate (organisationID : uuid) (scope : string) (id : uuid)
    : Go ManagedMembership :=
  guard_err (negb (validMembershipScope scope)) ErrValidation ;;
  if String.eqb scope MembershipScopeLocation
  then scanManagedMembership managed_loc
         (select_one db_loc_members id (fun m => lmb_OrganisationID m =? organisationID)%N)
  else scanManagedMembership managed_org
         (select_one db_org_members id (fun m => omb_OrganisationID m =? organisationID)%N).

(** ** Changing a membership *)

Definition org_member_row (role : string) (disabled : option Z) (now : Z)
    (m : OrganisationMembership) : OrganisationMembership :=
  {| omb_ID := omb_ID m; omb_OrganisationID := omb_OrganisationID m;
     omb_MemberRef := omb_MemberRef m; omb_Role := role; omb_CreatedAt := omb_CreatedAt m;
     omb_UpdatedAt := now; omb_UserProfileID := omb_UserProfileID m;
     omb_DisabledAt := disabled |}.

Definition loc_member_row (role : string) (disabled : option Z) (now : Z)
    (m : LocationMembership) : LocationMembership :=
  {| lmb_ID := lmb_ID m; lmb_OrganisationID := lmb_OrganisationID m;
     lmb_LocationID := lmb_LocationID m; lmb_MemberRef := lmb_MemberRef m; lmb_Role := role;
     lmb_CreatedAt := lmb_CreatedAt m; lmb_UpdatedAt := now;
     lmb_UserProfileID := lmb_UserProfileID m; lmb_DisabledAt := disabled |}.

(** [UPDATE <scope>_memberships SET ... WHERE organisation_id = $1 AND id = $2 ...] *)
Definition update_member (organisationID : uuid) (scope : string) (id : uuid)
    (whr : option Z -> bool) (role : string -> string) (disabled : Z -> option Z -> option Z)
    : Go unit :=
  if String.eqb scope MembershipScopeLocation
  then exec (update_exec db_loc_members set_loc_members loc_member_ok id
         (fun m => (lmb_OrganisationID m =? organisationID)%N && whr (lmb_DisabledAt m))
         (fun now m => Ok (loc_member_row (role (lmb_Role m)) (disabled now (lmb_DisabledAt m)) now m)))
  else exec (update_exec db_org_members set_org_members org_member_ok id
         (fun m => (omb_OrganisationID m =? organisationID)%N && whr (omb_DisabledAt m))
         (fun now m => Ok (org_member_row (role (omb_Role m)) (disabled now (omb_DisabledAt m)) now m))).

Definition updateMembershipRole (organisationID : uuid) (scope : string) (id : uuid)
    (role : string) : Go ManagedMembership :=
  map_err (Wrap "updating membership role")
    (update_member organisationID scope id null (fun _ => role) (fun _ old => old)) ;;
  getManagedMembershipForUpdate organisationID scope id.

Definition updateMembershipEnabled (organisationID : uuid) (scope : string) (id : uuid)
    (role : string) : Go ManagedMembership :=
  map_err (Wrap "reactivating membership")
    (update_member organisationID scope id (fun _ => true) (fun _ => role) (fun _ _ => None)) ;;
  getManagedMembershipForUpdate organisationID scope id.

Definition disableMembership (organisationID : uuid) (scope : string) (id : uuid)
    : Go ManagedMembership :=
  map_err (Wrap "disabling membership")
    (update_member organisationID scope id null (fun role => role) (fun now _ => Some now)) ;;
  getManagedMembershipForUpdate organisationID scope id.

(** An enabled owner of the organisation. *)
Definition active_owner (organisationID : uuid) (m : OrganisationMembership) : bool :=
  (omb_OrganisationID m =? organisationID)%N && String.eqb (omb_Role m) RoleOrganisationOwner
  && null (omb_DisabledAt m).

Definition owners (d : Db) (organisationID : uuid) : list OrganisationMembership :=
  List.filter (active_owner organisationID) (snd <$> map_to_list (db_org_members d)).

(** [count( * )::integer] *)
Definition owner_count (organisationID : uuid) (d : Db) : result error (Z * Db) :=
  let n := Z.of_nat (length (owners d organisationID)) in
  if in_int32 n then Ok (n, d) else Err (PgErr NumericOutOfRange).

Definition requireAnotherOrganisationOwner (organisationID : uuid) : Go unit :=
  ownerCount ← map_err (Wrap "counting organisation owners")
    (exec (fun _ _ d => owner_count organisationID d));
  guard_err (ownerCount <=? 1) ErrValidation.

Definition recordMembershipAudit (actor : TenantActor) (action : string)
    (membership : ManagedMembership) (metadata : list (string * json)) : Go unit :=
  map_err (Wrap "recording membership audit event")
    (RecordAuditEvent (nullableUUID (act_OrganisationID actor))
       (nullableUUID (mng_LocationID membership)) (act_ActorRef actor) action
       auditTargetMembership (uuid_String (mng_ID membership)) (JObj metadata)) ;;
  mret tt.

(** The members of the audit metadata, in the order [json.Marshal] sorts them. *)
Definition membership_metadata (membership : ManagedMembership) : list (string * json) :=
  [("email", JStr (mng_Email membership));
   ("locationId", nullableAuditString (mng_LocationID membership));
   ("role", JStr (mng_Role membership));
   ("scope", JStr (mng_Scope membership))].

Definition role_change_metadata (previous : string) (membership : ManagedMembership)
    : list (string * json) :=
  [("email", JStr (mng_Email membership));
   ("locationId", nullableAuditString (mng_LocationID membership));
   ("previousRole", JStr previous);
   ("role", JStr (mng_Role membership));
   ("scope", JStr (mng_Scope membership))].

(** ** Creating a membership, or enabling it again *)

Section Creation.
Context {GT : GoText}.

Definition getUserProfileByEmail (email : string) : Go UserProfile :=
  map_err (no_rows_to ErrNotFound "getting user profile by email")
    (exec (select_first db_users (has_email (Some email)) any_order)).

Definition getOrCreateUserProfileByEmail (email displayName : string) : Go UserProfile :=
  r ← attempt (getUserProfileByEmail email);
  match r with
  | Ok profile => mret profile
  | Err err =>
      if negb (errors_Is err ErrNotFound) then fail err
      else map_err (Wrap "creating user profile") (CreateUserProfileRow displayName (Some email))
  end.

Definition createOrReactivateOrganisationMembership (organisationID : uuid) (role : string)
    (profile : UserProfile) (memberRef : string) : Go ManagedMembership :=
  r ← attempt (getMembershipByProfile organisationID MembershipScopeOrganisation uuid_Nil
                 (usr_ID profile));
  match r with
  | Ok existing =>
      if null (mng_DisabledAt existing) then fail ErrAlreadyExists
      else updateMembershipEnabled organisationID MembershipScopeOrganisation (mng_ID existing) role
  | Err err =>
      if negb (errors_Is err ErrNotFound) then fail err
      else
        map_err (Wrap "creating organisation membership")
          (CreateUserOrganisationMembership organisationID (nullableUUID (usr_ID profile))
             memberRef role) ;;
        getMembershipByProfile organisationID MembershipScopeOrganisation uuid_Nil (usr_ID profile)
  end.

Definition createOrReactivateLocationMembership (organisationID locationID : uuid) (role : string)
    (profile : UserProfile) (memberRef : string) : Go ManagedMembership :=
  r ← attempt (getMembershipByProfile organisationID MembershipScopeLocation locationID
                 (usr_ID profile));
  match r with
  | Ok existing =>
      if null (mng_DisabledAt existing) then fail ErrAlreadyExists
      else updateMembershipEnabled organisationID MembershipScopeLocation (mng_ID existing) role
  | Err err =>
      if negb (errors_Is err ErrNotFound) then fail err
      else
        map_err (Wrap "creating location membership")
          (CreateUserLocationMembership organisationID locationID (nullableUUID (usr_ID profile))
             memberRef role) ;;
        getMembershipByProfile organisationID MembershipScopeLocation locationID (usr_ID profile)
  end.

(** ** Operations of an organisation's owners *)

Definition createMembershipInTx (actor : TenantActor) (scope role : string) (locationID : uuid)
    (email displayName : string) : Go ManagedMembership :=
  requireOrganisationPermission actor PermissionOrganisationManage ;;
  profile ← getOrCreateUserProfileByEmail email displayName;
  let memberRef := userProfileActorRef (usr_ID profile) in
  membership ←
    (if String.eqb scope MembershipScopeOrganisation
     then createOrReactivateOrganisationMembership (act_OrganisationID actor) role profile memberRef
     else if String.eqb scope MembershipScopeLocation
     then map_err (no_rows_to ErrNotFound "getting location")
            (GetLocation locationID (act_OrganisationID actor)) ;;
          createOrReactivateLocationMembership (act_OrganisationID actor) locationID role profile
            memberRef
     else fail ErrValidation);
  recordMembershipAudit actor auditActionMembershipCreate membership
    (membership_metadata membership) ;;
  mret membership.

Definition CreateMembership (arg : CreateMembershipParams) : Go ManagedMembership :=
  let actor := normalizeTenantActor (cmp_Actor arg) in
  let scope := TrimSpace (cmp_Scope arg) in
  let role := TrimSpace (cmp_Role arg) in
  let name := TrimSpace (cmp_DisplayName arg) in
  email ← lift (normalizeEmail (cmp_Email arg));
  validateTenantActor actor false ;;
  guard_err (negb (validMembershipRole scope role)) ErrValidation ;;
  guard_err (String.eqb scope MembershipScopeLocation && (cmp_LocationID arg =? uuid_Nil)%N)
    ErrValidation ;;
  guard_err (String.eqb scope MembershipScopeOrganisation
             && negb (cmp_LocationID arg =? uuid_Nil)%N) ErrValidation ;;
  map_err mapIdentityConstraintError
    (inTenantDBTx (createMembershipInTx actor scope role (cmp_LocationID arg) email
                     (if String.eqb name "" then email else name))).

Definition updateMembershipRoleInTx (actor : TenantActor) (scope : string) (id : uuid)
    (role : string) : Go ManagedMembership :=
  requireOrganisationPermission actor PermissionOrganisationManage ;;
  current ← getManagedMembershipForUpdate (act_OrganisationID actor) scope id;
  guard_err (is_some (mng_DisabledAt current)) ErrNotFound ;;
  (if String.eqb (mng_Scope current) MembershipScopeOrganisation
      && String.eqb (mng_Role current) RoleOrganisationOwner
      && negb (String.eqb role RoleOrganisationOwner)
   then requireAnotherOrganisationOwner (act_OrganisationID actor)
   else mret tt) ;;
  membership ← updateMembershipRole (act_OrganisationID actor) scope id role;
  recordMembershipAudit actor auditActionMembershipUpdateRole membership
    (role_change_metadata (mng_Role current) membership) ;;
  mret membership.

Definition UpdateMembershipRole (arg : UpdateMembershipRoleParams) : Go ManagedMembership :=
  let actor := normalizeTenantActor (ump_Actor arg) in
  let scope := TrimSpace (ump_Scope arg) in
  let role := TrimSpace (ump_Role arg) in
  validateTenantActor actor false ;;
  guard_err ((ump_ID arg =? uuid_Nil)%N || negb (validMembershipRole scope role)) ErrValidation ;;
  inTenantDBTx (updateMembershipRoleInTx actor scope (ump_ID arg) role).

(** The checks of [DisableMembership], and then its writes. *)
Definition disableMembershipChecks (actor : TenantActor) (scope : string) (id : uuid) : Go unit :=
  requireOrganisationPermission actor PermissionOrganisationManage ;;
  current ← getManagedMembershipForUpdate (act_OrganisationID actor) scope id;
  guard_err (is_some (mng_DisabledAt current)) ErrNotFound ;;
  (if String.eqb (mng_Scope current) MembershipScopeOrganisation
      && String.eqb (mng_Role current) RoleOrganisationOwner
   then requireAnotherOrganisationOwner (act_OrganisationID actor)
   else mret tt).

Definition disableMembershipWrites (actor : TenantActor) (scope : string) (id : uuid)
    : Go ManagedMembership :=
  membership ← disableMembership (act_OrganisationID actor) scope id;
  recordMembershipAudit actor auditActionMembershipDisable membership
    (membership_metadata membership) ;;
  mret membership.

Definition DisableMembership (arg : DisableMembershipParams) : Go ManagedMembership :=
  let actor := normalizeTenantActor (dmp_Actor arg) in
  let scope := TrimSpace (dmp_Scope arg) in
  validateTenantActor actor false ;;
  guard_err ((dmp_ID arg =? uuid_Nil)%N || negb (validMembershipScope scope)) ErrValidation ;;
  inTenantDBTx (disableMembershipChecks actor scope (dmp_ID arg) ;;
                disableMembershipWrites actor scope (dmp_ID arg)).

(** [hydrateMembershipPermissions]: one query per role. *)
Fixpoint hydrateMembershipPermissions (cache : list (string * list string))
    (memberships : list ManagedMembership) : Go (list ManagedMembership) :=
  match memberships with
  | [] => mret []
  | m :: rest =>
      permissions ←
        match List.find (fun c => String.eqb (fst c) (mng_Role m)) cache with
        | Some c => mret (snd c)
        | None => map_err (Wrap "getting role permissions") (GetRolePermissions (mng_Role m))
        end;
      rest' ← hydrateMembershipPermissions ((mng_Role m, permissions) :: cache) rest;
      mret ({| mng_ID := mng_ID m; mng_Scope := mng_Scope m;
               mng_OrganisationID := mng_OrganisationID m; mng_LocationID := mng_LocationID m;
               mng_UserProfileID := mng_UserProfileID m; mng_DisplayName := mng_DisplayName m;
               mng_Email := mng_Email m; mng_MemberRef := mng_MemberRef m; mng_Role := mng_Role m;
               mng_DisabledAt := mng_DisabledAt m; mng_Permissions := permissions |} :: rest')
  end.

(** [ORDER BY scope, role, display_name, member_ref].  A missing display name
  sorts last in SQL; [None] here is the missing name. *)
Definition name_leb (x y : option string) : bool :=
  match x, y with
  | Some a, Some b => pg_collate a b
  | _, None => true
  | None, Some _ => false
  end.

Definition listed_leb (x y : option string * ManagedMembership) : bool :=
  let '(nx, mx) := x in
  let '(ny, my) := y in
  if negb (String.eqb (mng_Scope mx) (mng_Scope my)) then pg_collate (mng_Scope mx) (mng_Scope my)
  else if negb (String.eqb (mng_Role mx) (mng_Role my)) then pg_collate (mng_Role mx) (mng_Role my)
  else if negb (bool_decide (nx = ny)) then name_leb nx ny
  else pg_collate (mng_MemberRef mx) (mng_MemberRef my).

Definition listed_memberships (organisationID : uuid) (includeDisabled : bool) (d : Db)
    : list ManagedMembership :=
  let orgs := List.filter (fun m => (omb_OrganisationID m =? organisationID)%N
                                    && (includeDisabled || null (omb_DisabledAt m)))
                (snd <$> map_to_list (db_org_members d)) in
  let locs := List.filter (fun m => (lmb_OrganisationID m =? organisationID)%N
                                    && (includeDisabled || null (lmb_DisabledAt m)))
                (snd <$> map_to_list (db_loc_members d)) in
  map snd (sort_by listed_leb
    (map (fun m => (usr_DisplayName <$> profile_of d (omb_UserProfileID m), managed_org d m)) orgs
     ++ map (fun m => (usr_DisplayName <$> profile_of d (lmb_UserProfileID m), managed_loc d m)) locs)).

Definition ListManagedMemberships (actor : TenantActor) (includeDisabled : bool)
    : Go (list ManagedMembership) :=
  let actor := normalizeTenantActor actor in
  validateTenantActor actor false ;;
  inTenantDBTx (
    requireOrganisationPermission actor PermissionOrganisationManage ;;
    memberships ← map_err (Wrap "listing memberships")
      (query (listed_memberships (act_OrganisationID actor) includeDisabled));
    hydrateMembershipPermissions [] memberships).

(** ** Operations of the platform *)

Definition PlatformInviteOwner (arg : PlatformInviteOwnerParams) : Go ManagedMembership :=
  let org := pio_TargetOrganisationID arg in
  let name := TrimSpace (pio_DisplayName arg) in
  email ← lift (normalizeEmail (pio_Email arg));
  guard_err ((org =? uuid_Nil)%N || String.eqb (TrimSpace (pio_ActorRef arg)) "") ErrValidation ;;
  map_err mapIdentityConstraintError (inPlatformDBTx (
    map_err (no_rows_to ErrNotFound "getting organisation")
      (exec (select_one db_organisations org (fun _ => true))) ;;
    profile ← getOrCreateUserProfileByEmail email (if String.eqb name "" then email else name);
    createOrReactivateOrganisationMembership org RoleOrganisationOwner profile
      (userProfileActorRef (usr_ID profile)))).

Definition owner_args (arg : PlatformOwnerMembershipParams) : Go unit :=
  guard_err ((pom_TargetOrganisationID arg =? uuid_Nil)%N || (pom_MembershipID arg =? uuid_Nil)%N
             || String.eqb (TrimSpace (pom_ActorRef arg)) "") ErrValidation.

Definition PlatformDisableOwnerMembership (arg : PlatformOwnerMembershipParams)
    : Go ManagedMembership :=
  let org := pom_TargetOrganisationID arg in
  owner_args arg ;;
  inPlatformDBTx (
    current ← getManagedMembershipForUpdate org MembershipScopeOrganisation (pom_MembershipID arg);
    guard_err (is_some (mng_DisabledAt current)) ErrNotFound ;;
    guard_err (negb (String.eqb (mng_Role current) RoleOrganisationOwner)) ErrValidation ;;
    requireAnotherOrganisationOwner org ;;
    disableMembership org MembershipScopeOrganisation (pom_MembershipID arg)).

Definition PlatformReactivateOwnerMembership (arg : PlatformOwnerMembershipParams)
    : Go ManagedMembership :=
  let org := pom_TargetOrganisationID arg in
  owner_args arg ;;
  map_err mapIdentityConstraintError (inPlatformDBTx (
    current ← getManagedMembershipForUpdate org MembershipScopeOrganisation (pom_MembershipID arg);
    guard_err (negb (String.eqb (mng_Role current) RoleOrganisationOwner)) ErrValidation ;;
    updateMembershipEnabled org MembershipScopeOrganisation (pom_MembershipID arg)
      RoleOrganisationOwner)).

(** The transaction of [PlatformReassignOwnership]: previous and next owner. *)
Definition reassignInTx (org from : uuid) (email : string)
    : Go (ManagedMembership * ManagedMembership) :=
  current ← getManagedMembershipForUpdate org MembershipScopeOrganisation from;
  guard_err (is_some (mng_DisabledAt current)) ErrNotFound ;;
  guard_err (negb (String.eqb (mng_Role current) RoleOrganisationOwner)) ErrValidation ;;
  profile ← getOrCreateUserProfileByEmail email email;
  r ← attempt (createOrReactivateOrganisationMembership org RoleOrganisationOwner profile
                 (userProfileActorRef (usr_ID profile)));
  next ← match r with
         | Ok next => mret next
         | Err err =>
             if errors_Is err ErrAlreadyExists
             then getMembershipByProfile org MembershipScopeOrganisation uuid_Nil (usr_ID profile)
             else fail err
         end;
  guard_err (mng_ID next =? from)%N ErrValidation ;;
  previous ← disableMembership org MembershipScopeOrganisation from;
  mret (previous, next).

Definition PlatformReassignOwnership (arg : PlatformReassignOwnershipParams)
    : Go (ManagedMembership * ManagedMembership) :=
  email ← lift (normalizeEmail (pro_ToEmail arg));
  guard_err ((pro_TargetOrganisationID arg =? uuid_Nil)%N || (pro_FromMembershipID arg =? uuid_Nil)%N
             || String.eqb (TrimSpace (pro_ActorRef arg)) "") ErrValidation ;;
  map_err mapIdentityConstraintError
    (inPlatformDBTx (reassignInTx (pro_TargetOrganisationID arg) (pro_FromMembershipID arg) email)).
End Creation.
