(* ===== verification/Configuration.v ===== *)
(** The configuration service ([domain/configuration/service.go], [errors.go]):
    an organisation, its locations, and the floors, zones and tables of a
    location's layout. *)

From S2P Require Import Prelude Json Schema GoTx Store Queries Tokens IdentityQueries LayoutQueries Identity.
#[local] Open Scope string_scope.
#[local] Open Scope Z_scope.
#[local] Open Scope list_scope.

Definition pkg := "configuration".
Definition ErrForbidden : error := Sentinel pkg "forbidden".
Definition ErrValidation : error := Sentinel pkg "validation failed".
Definition ErrVersionConflict : error := Sentinel pkg "version conflict".
Definition ErrNotFound : error := Sentinel pkg "not found".
Definition ErrConflict : error := Sentinel pkg "conflict".

(** ** Errors of writes *)

Definition mapConstraintError (err : error) : option error :=
  match errors_As_pg err with
  | Some (UniqueViolation constraint) => Some (ConflictError pkg constraint)
  | _ => None
  end.

Definition wrapWriteError (op : string) (err : error) : error :=
  match mapConstraintError err with
  | Some mapped => mapped
  | None => Wrap op err
  end.

(** [if errors.Is(err, pgx.ErrNoRows) { return e }; return wrapWriteError(op, err)] *)
Definition no_rows_or_write (e : error) (op : string) (err : error) : error :=
  if errors_Is err NoRows then e else wrapWriteError op err.

(** ** Parameters *)

Record TenantActor := {
  cac_OrganisationID : uuid;
  cac_LocationID : uuid;
  cac_ActorRef : string;
}.

Record OrganisationSnapshot := {
  osn_Organisation : Organisation;
  osn_Locations : list Location;
}.

Record LayoutSnapshot := {
  lsn_Floors : list Floor;
  lsn_Zones : list Zone;
  lsn_Tables : list (Table * TableOccupancy);
}.

Record UpdateOrganisationParams := {
  uop_Actor : TenantActor;
  uop_ID : uuid;
  uop_Slug : string;
  uop_Name : string;
  uop_Status : string;
}.

Record UpdateLocationParams := {
  ulp_Actor : TenantActor;
  ulp_ID : uuid;
  ulp_Name : string;
  ulp_Timezone : string;
  ulp_Status : string;
  ulp_OperatingConfig : RawMessage;
  ulp_FeatureFlags : RawMessage;
}.

Record UpsertFloorParams := {
  ufp_Actor : TenantActor;
  ufp_ID : uuid;
  ufp_Slug : string;
  ufp_Name : string;
  ufp_SortOrder : Z;
  ufp_Canvas : RawMessage;
  ufp_BackgroundAssetRef : string;
  ufp_ExpectedVersion : Z;
}.

Record UpsertZoneParams := {
  uzp_Actor : TenantActor;
  uzp_ID : uuid;
  uzp_FloorID : uuid;
  uzp_Name : string;
  uzp_SortOrder : Z;
  uzp_ExpectedVersion : Z;
}.

Record UpsertTableParams := {
  utp_Actor : TenantActor;
  utp_ID : uuid;
  utp_FloorID : uuid;
  utp_ZoneID : uuid;
  utp_Label : string;
  utp_CapacityLabel : string;
  utp_Shape : string;
  utp_Geometry : RawMessage;
  utp_ExpectedVersion : Z;
}.

(** ** Validation *)

Definition validate (actor : TenantActor) (requireLocation : bool) : Go unit :=
  guard_err ((cac_OrganisationID actor =? uuid_Nil)%N
             || String.eqb (TrimSpace (cac_ActorRef actor)) "") ErrValidation ;;
  guard_err (requireLocation && (cac_LocationID actor =? uuid_Nil)%N) ErrValidation.

Definition validateFloor (arg : UpsertFloorParams) : Go unit :=
  validate (ufp_Actor arg) true ;;
  guard_err (String.eqb (TrimSpace (ufp_Slug arg)) "" || String.eqb (TrimSpace (ufp_Name arg)) ""
             || (ufp_SortOrder arg <? 0)) ErrValidation.

Definition validateZone (arg : UpsertZoneParams) : Go unit :=
  validate (uzp_Actor arg) true ;;
  guard_err ((uzp_FloorID arg =? uuid_Nil)%N || String.eqb (TrimSpace (uzp_Name arg)) ""
             || (uzp_SortOrder arg <? 0)) ErrValidation.

Definition validShape (shape : string) : bool :=
  String.eqb shape "rectangle" || String.eqb shape "circle" || String.eqb shape "square"
  || String.eqb shape "custom".

Definition validateTable (arg : UpsertTableParams) (requireExisting : bool) : Go unit :=
  validate (utp_Actor arg) true ;;
  guard_err (requireExisting && ((utp_ID arg =? uuid_Nil)%N || (utp_ExpectedVersion arg <? 1)))
    ErrValidation ;;
  guard_err ((utp_FloorID arg =? uuid_Nil)%N || (utp_ZoneID arg =? uuid_Nil)%N) ErrValidation ;;
  guard_err (String.eqb (TrimSpace (utp_Label arg)) ""
             || String.eqb (TrimSpace (utp_CapacityLabel arg)) "") ErrValidation ;;
  guard_err (negb (validShape (utp_Shape arg))) ErrValidation.

Definition validStatus (status : string) : bool :=
  String.eqb status "active" || String.eqb status "disabled".

Definition nullableText (value : string) : option string :=
  let value := TrimSpace value in
  if String.eqb value "" then None else Some value.

(** ** Permissions and transactions *)

Definition requireOrganisationPermission (actor : TenantActor) (permission : string) : Go unit :=
  allowed ← map_err (Wrap "checking organisation permission")
    (ActorHasOrganisationPermission (cac_OrganisationID actor) (cac_ActorRef actor) permission);
  guard_err (negb allowed) ErrForbidden.

Definition requireLocationPermission (actor : TenantActor) (permission : string) : Go unit :=
  allowed ← map_err (Wrap "checking location permission")
    (ActorHasLocationPermission (cac_OrganisationID actor) (cac_LocationID actor)
       (cac_ActorRef actor) permission);
  guard_err (negb allowed) ErrForbidden.

(** The function has the text of the one of the operations service. *)
Definition inTenantTx {A} (fn : Go A) : Go A := GoTx.inTenantTx fn.

(** [err != nil || id == uuid.Nil || ...] after [actor.validate(true)]: any of
    them is a validation error. *)
Definition validateChange (actor : TenantActor) (bad : bool) : Go unit :=
  map_err (fun _ => ErrValidation) (validate actor true) ;;
  guard_err bad ErrValidation.

Section Service.
Context {GN : GoNumber}.

Definition normalizeJSONObject (raw : RawMessage) : result error json :=
  match raw with
  | RawEmpty => Ok (JObj [])
  | RawText (Some (JObj l)) => Ok (reencode (JObj l))
  | RawText (Some JNull) => Ok JNull
  | RawText _ => Err ErrValidation
  end.

(** ** The organisation and its locations *)

Definition UpdateOrganisation (arg : UpdateOrganisationParams) : Go Organisation :=
  validate (uop_Actor arg) false ;;
  guard_err (negb (uop_ID arg =? cac_OrganisationID (uop_Actor arg))%N) ErrNotFound ;;
  guard_err (String.eqb (TrimSpace (uop_Slug arg)) "" || String.eqb (TrimSpace (uop_Name arg)) ""
             || negb (validStatus (uop_Status arg))) ErrValidation ;;
  inTenantTx (
    requireOrganisationPermission (uop_Actor arg) PermissionOrganisationManage ;;
    map_err (no_rows_or_write ErrNotFound "updating organisation")
      (UpdateOrganisationRow (uop_ID arg) (TrimSpace (uop_Slug arg)) (TrimSpace (uop_Name arg))
         (uop_Status arg))).

Definition UpdateLocation (arg : UpdateLocationParams) : Go Location :=
  let actor := ulp_Actor arg in
  validate actor true ;;
  guard_err (negb (ulp_ID arg =? cac_LocationID actor)%N) ErrNotFound ;;
  guard_err (String.eqb (TrimSpace (ulp_Name arg)) "" || String.eqb (TrimSpace (ulp_Timezone arg)) ""
             || negb (validStatus (ulp_Status arg))) ErrValidation ;;
  operatingConfig ← lift (normalizeJSONObject (ulp_OperatingConfig arg));
  featureFlags ← lift (normalizeJSONObject (ulp_FeatureFlags arg));
  inTenantTx (
    requireLocationPermission actor PermissionLocationManage ;;
    map_err (no_rows_or_write ErrNotFound "updating location")
      (UpdateLocationRow (ulp_ID arg) (cac_OrganisationID actor) (TrimSpace (ulp_Name arg))
         (TrimSpace (ulp_Timezone arg)) (ulp_Status arg) operatingConfig featureFlags)).

(** ** Floors *)

Definition CreateFloor (arg : UpsertFloorParams) : Go Floor :=
  let actor := ufp_Actor arg in
  validateFloor arg ;;
  canvas ← lift (normalizeJSONObject (ufp_Canvas arg));
  inTenantTx (
    requireLocationPermission actor PermissionLayoutWrite ;;
    map_err (wrapWriteError "creating floor")
      (CreateFloorRow (cac_OrganisationID actor) (cac_LocationID actor) (TrimSpace (ufp_Slug arg))
         (TrimSpace (ufp_Name arg)) (ufp_SortOrder arg) canvas
         (nullableText (ufp_BackgroundAssetRef arg)))).

Definition UpdateFloor (arg : UpsertFloorParams) : Go Floor :=
  let actor := ufp_Actor arg in
  guard_err ((ufp_ID arg =? uuid_Nil)%N || (ufp_ExpectedVersion arg <? 1)) ErrValidation ;;
  validateFloor arg ;;
  canvas ← lift (normalizeJSONObject (ufp_Canvas arg));
  inTenantTx (
    requireLocationPermission actor PermissionLayoutWrite ;;
    map_err (no_rows_or_write ErrVersionConflict "updating floor")
      (UpdateFloorRow (ufp_ID arg) (cac_OrganisationID actor) (cac_LocationID actor)
         (TrimSpace (ufp_Slug arg)) (TrimSpace (ufp_Name arg)) (ufp_SortOrder arg) canvas
         (nullableText (ufp_BackgroundAssetRef arg)) (ufp_ExpectedVersion arg))).

Definition changeFloorActive (actor : TenantActor) (id : uuid) (expectedVersion : Z)
    (active : bool) : Go Floor :=
  validateChange actor ((id =? uuid_Nil)%N || (expectedVersion <? 1)) ;;
  inTenantTx (
    requireLocationPermission actor PermissionLayoutWrite ;;
    map_err (no_rows_or_write ErrVersionConflict "changing floor active state")
      (if active
       then RestoreFloorRow id (cac_OrganisationID actor) (cac_LocationID actor) expectedVersion
       else ArchiveFloorRow id (cac_OrganisationID actor) (cac_LocationID actor) expectedVersion)).

Definition ArchiveFloor (actor : TenantActor) (id : uuid) (expectedVersion : Z) : Go Floor :=
  changeFloorActive actor id expectedVersion false.
Definition RestoreFloor (actor : TenantActor) (id : uuid) (expectedVersion : Z) : Go Floor :=
  changeFloorActive actor id expectedVersion true.

(** ** Zones *)

Definition CreateZone (arg : UpsertZoneParams) : Go Zone :=
  let actor := uzp_Actor arg in
  validateZone arg ;;
  inTenantTx (
    requireLocationPermission actor PermissionLayoutWrite ;;
    map_err (wrapWriteError "creating zone")
      (CreateZoneRow (cac_OrganisationID actor) (cac_LocationID actor) (uzp_FloorID arg)
         (TrimSpace (uzp_Name arg)) (uzp_SortOrder arg))).

Definition UpdateZone (arg : UpsertZoneParams) : Go Zone :=
  let actor := uzp_Actor arg in
  guard_err ((uzp_ID arg =? uuid_Nil)%N || (uzp_ExpectedVersion arg <? 1)) ErrValidation ;;
  validateZone arg ;;
  inTenantTx (
    requireLocationPermission actor PermissionLayoutWrite ;;
    map_err (no_rows_or_write ErrVersionConflict "updating zone")
      (UpdateZoneRow (uzp_ID arg) (cac_OrganisationID actor) (cac_LocationID actor)
         (uzp_FloorID arg) (TrimSpace (uzp_Name arg)) (uzp_SortOrder arg)
         (uzp_ExpectedVersion arg))).

Definition ArchiveZone (actor : TenantActor) (id floorID : uuid) (expectedVersion : Z) : Go Zone :=
  validateChange actor ((id =? uuid_Nil)%N || (floorID =? uuid_Nil)%N || (expectedVersion <? 1)) ;;
  inTenantTx (
    requireLocationPermission actor PermissionLayoutWrite ;;
    map_err (no_rows_or_write ErrVersionConflict "archiving zone")
      (ArchiveZoneRow id (cac_OrganisationID actor) (cac_LocationID actor) floorID
         expectedVersion)).

(** ** Tables *)

(** The transaction of [CreateTable]: a table is created with its occupancy. *)
Definition createTableInTx (arg : UpsertTableParams) (geometry : json) : Go Table :=
  let actor := utp_Actor arg in
  requireLocationPermission actor PermissionLayoutWrite ;;
  table ← map_err (wrapWriteError "creating table")
    (CreateTableRow (cac_OrganisationID actor) (cac_LocationID actor) (utp_FloorID arg)
       (utp_ZoneID arg) (TrimSpace (utp_Label arg)) (TrimSpace (utp_CapacityLabel arg))
       (utp_Shape arg) geometry);
  map_err (Wrap "creating table occupancy")
    (CreateTableOccupancy (tbl_ID table) (cac_OrganisationID actor) (cac_LocationID actor)) ;;
  mret table.

Definition CreateTable (arg : UpsertTableParams) : Go Table :=
  validateTable arg false ;;
  geometry ← lift (normalizeJSONObject (utp_Geometry arg));
  inTenantTx (createTableInTx arg geometry).

Definition UpdateTable (arg : UpsertTableParams) : Go Table :=
  let actor := utp_Actor arg in
  validateTable arg true ;;
  geometry ← lift (normalizeJSONObject (utp_Geometry arg));
  inTenantTx (
    requireLocationPermission actor PermissionLayoutWrite ;;
    map_err (no_rows_or_write ErrVersionConflict "updating table")
      (UpdateTableRow (utp_ID arg) (cac_OrganisationID actor) (cac_LocationID actor)
         (utp_FloorID arg) (utp_ZoneID arg) (TrimSpace (utp_Label arg))
         (TrimSpace (utp_CapacityLabel arg)) (utp_Shape arg) geometry (utp_ExpectedVersion arg))).

Definition changeTableActive (actor : TenantActor) (id : uuid) (expectedVersion : Z)
    (active : bool) : Go Table :=
  validateChange actor ((id =? uuid_Nil)%N || (expectedVersion <? 1)) ;;
  inTenantTx (
    requireLocationPermission actor PermissionLayoutWrite ;;
    map_err (no_rows_or_write ErrVersionConflict "changing table active state")
      (if active
       then RestoreTableRow id (cac_OrganisationID actor) (cac_LocationID actor) expectedVersion
       else ArchiveTableRow id (cac_OrganisationID actor) (cac_LocationID actor) expectedVersion)).

Definition ArchiveTable (actor : TenantActor) (id : uuid) (expectedVersion : Z) : Go Table :=
  changeTableActive actor id expectedVersion false.
Definition RestoreTable (actor : TenantActor) (id : uuid) (expectedVersion : Z) : Go Table :=
  changeTableActive actor id expectedVersion true.
End Service.

(** ** Snapshots *)

Section Snapshots.
Context {GT : GoText}.

Definition OwnerSnapshot (actor : TenantActor) : Go OrganisationSnapshot :=
  validate actor false ;;
  inTenantTx (
    allowed ← map_err (Wrap "checking organisation permission")
      (ActorHasOrganisationPermission (cac_OrganisationID actor) (cac_ActorRef actor)
         PermissionOrganisationManage);
    guard_err (negb allowed) ErrForbidden ;;
    org ← map_err (no_rows_to ErrNotFound "getting organisation")
      (GetOrganisation (cac_OrganisationID actor));
    locations ← map_err (Wrap "listing locations")
      (ListLocationsByOrganisation (cac_OrganisationID actor));
    mret {| osn_Organisation := org; osn_Locations := locations |}).

(** The function [LayoutSnapshot] of the service; the record has its name. *)
Definition GetLayoutSnapshot (actor : TenantActor) : Go LayoutSnapshot :=
  let org := cac_OrganisationID actor in
  let loc := cac_LocationID actor in
  validate actor true ;;
  inTenantTx (
    requireLocationPermission actor PermissionLayoutRead ;;
    floors ← map_err (Wrap "listing floors") (ListAllFloorsByLocation org loc);
    zones ← map_err (Wrap "listing zones") (ListAllZonesByLocation org loc);
    tables ← map_err (Wrap "listing table states")
      (ListTableStatesByLocationIncludingArchived org loc);
    mret {| lsn_Floors := floors; lsn_Zones := zones; lsn_Tables := tables |}).
End Snapshots.
