(* ===== verification/Onboarding.v ===== *)
(** How a tenant starts ([domain/identity/service.go]): the platform provisions
    an organisation with its first location and owner, and the owner sets up the
    floor, zones, tables and service periods of that location. *)

From S2P Require Import Prelude Json Schema GoTx Store Queries Tokens IdentityQueries LayoutQueries Identity Memberships.
#[local] Open Scope string_scope.
#[local] Open Scope Z_scope.
#[local] Open Scope list_scope.

Record OnboardingZone := {
  obz_Name : string;
  obz_SortOrder : Z;
}.

Record OnboardingTable := {
  obt_Label : string;
  obt_CapacityLabel : string;
  obt_Shape : string;
  obt_Geometry : RawMessage;
  obt_ZoneName : string;
}.

Record OnboardingFloor := {
  obf_Name : string;
  obf_Slug : string;
  obf_Canvas : RawMessage;
  obf_Zones : list OnboardingZone;
  obf_Tables : list OnboardingTable;
  obf_SortOrder : Z;
}.

Record OnboardingServicePeriod := {
  obp_Name : string;
  obp_DaysOfWeek : list Z;
  obp_StartTime : string;
  obp_EndTime : string;
}.

Record PlatformProvisionTenantParams := {
  ppt_OrganisationName : string;
  ppt_OrganisationSlug : string;
  ppt_LocationName : string;
  ppt_LocationSlug : string;
  ppt_Timezone : string;
  ppt_OwnerEmail : string;
  ppt_OwnerDisplayName : string;
}.

Record PlatformProvisionTenantResult := {
  ppr_Organisation : Organisation;
  ppr_Location : Location;
  ppr_Owner : ManagedMembership;
}.

Record OwnerSetupParams := {
  osp_UserProfileID : uuid;
  osp_Floor : OnboardingFloor;
  osp_ServicePeriods : list OnboardingServicePeriod;
}.

Record OwnerSetupResult := {
  osr_Organisation : Organisation;
  osr_Location : Location;
  osr_Floor : Floor;
  osr_Zones : list Zone;
  osr_Tables : list Table;
  osr_ServicePeriods : list ServicePeriod;
}.

(** ** Times of day *)

Definition digit_value (c : ascii) : option Z :=
  let n := N_of_ascii c in
  if ((48 <=? n) && (n <=? 57))%N then Some (Z.of_N (n - 48)) else None.

Definition is_digit (c : ascii) : bool := is_some (digit_value c).

(** [getnum] of the time package: two digits, or one when not [fixed]. *)
Definition getnum (l : list ascii) (fixed : bool) : option (Z * list ascii) :=
  match l with
  | [] => None
  | c :: l' =>
      match digit_value c, l' with
      | None, _ => None
      | Some x, c2 :: l2 =>
          match digit_value c2 with
          | Some y => Some (x * 10 + y, l2)
          | None => if fixed then None else Some (x, l')
          end
      | Some x, [] => if fixed then None else Some (x, l')
      end
  end.

Definition below (bound : Z) (r : option (Z * list ascii)) : option (Z * list ascii) :=
  match r with Some (x, l) => if x <? bound then Some (x, l) else None | None => None end.

Definition colon (l : list ascii) : option (list ascii) :=
  match l with c :: l' => if Ascii.eqb c ":" then Some l' else None | [] => None end.

Fixpoint drop_digits (l : list ascii) : list ascii :=
  match l with c :: l' => if is_digit c then drop_digits l' else l | [] => [] end.

(** A fraction of a second is accepted although the layout has none. *)
Definition drop_fraction (l : list ascii) : list ascii :=
  match l with
  | c :: d :: l' =>
      if (Ascii.eqb c "." || Ascii.eqb c ",") && is_digit d then drop_digits l' else l
  | _ => l
  end.

(** [time.Parse("15:04", value)] and [time.Parse("15:04:05", value)]: the hour,
    minute and second. *)
Definition parse_hh_mm (l : list ascii) : option (Z * Z * list ascii) :=
  match below 24 (getnum l false) with
  | Some (h, l1) =>
      match colon l1 with
      | Some l2 =>
          match below 60 (getnum l2 true) with Some (m, l3) => Some (h, m, l3) | None => None end
      | None => None
      end
  | None => None
  end.

Definition time_Parse (seconds : bool) (value : string) : option (Z * Z * Z) :=
  match parse_hh_mm (bytes_of_string value) with
  | None => None
  | Some (h, m, l) =>
      if seconds then
        match colon l with
        | Some l1 =>
            match below 60 (getnum l1 true) with
            | Some (s, l2) => match drop_fraction l2 with [] => Some (h, m, s) | _ => None end
            | None => None
            end
        | None => None
        end
      else match l with [] => Some (h, m, 0) | _ => None end
  end.

(** Microseconds after midnight. *)
Definition parseOnboardingClock (value : string) : option Z :=
  let value := TrimSpace value in
  let parsed := match time_Parse false value with
                | Some p => Some p
                | None => time_Parse true value
                end in
  match parsed with
  | None => None
  | Some (h, m, s) => Some (h * 3600000000 + m * 60000000 + s * 1000000)
  end.

(** ** Validation *)

Definition slug_char (c : ascii) : bool :=
  let n := N_of_ascii c in
  ((97 <=? n) && (n <=? 122))%N || ((48 <=? n) && (n <=? 57))%N || Ascii.eqb c "-".

Definition validSlug (value : string) : bool :=
  not_empty value && forallb slug_char (bytes_of_string value).

Definition validTableShape (value : string) : bool :=
  String.eqb value "rectangle" || String.eqb value "circle" || String.eqb value "square"
  || String.eqb value "custom".

Fixpoint valid_days (seen : list Z) (days : list Z) : bool :=
  match days with
  | [] => true
  | day :: days' =>
      negb ((day <? 0) || (6 <? day) || existsb (Z.eqb day) seen) && valid_days (day :: seen) days'
  end.

Definition parseOnboardingServicePeriod (input : OnboardingServicePeriod)
    : result error (string * list Z * Z * Z) :=
  let name := TrimSpace (obp_Name input) in
  let days := obp_DaysOfWeek input in
  if String.eqb name "" || (length days =? 0)%nat || (7 <? length days)%nat then Err ErrValidation
  else if negb (valid_days [] days) then Err ErrValidation
  else match parseOnboardingClock (obp_StartTime input), parseOnboardingClock (obp_EndTime input) with
       | Some start, Some finish => Ok (name, days, start, finish)
       | _, _ => Err ErrValidation
       end.

Definition or_default (value other : string) : string := if String.eqb value "" then other else value.

Definition normalizeOnboardingTable (t : OnboardingTable) : OnboardingTable :=
  {| obt_Label := TrimSpace (obt_Label t);
     obt_CapacityLabel := or_default (TrimSpace (obt_CapacityLabel t)) "2-4";
     obt_Shape := or_default (TrimSpace (obt_Shape t)) "rectangle";
     obt_Geometry := obt_Geometry t; obt_ZoneName := TrimSpace (obt_ZoneName t) |}.

Definition normalizeOwnerSetupParams (arg : OwnerSetupParams) : OwnerSetupParams :=
  let f := osp_Floor arg in
  {| osp_UserProfileID := osp_UserProfileID arg;
     osp_Floor :=
       {| obf_Name := or_default (TrimSpace (obf_Name f)) "Main floor";
          obf_Slug := or_default (TrimSpace (obf_Slug f)) "main-floor";
          obf_Canvas := defaultJSONObject (obf_Canvas f);
          obf_Zones :=
            map (fun z => {| obz_Name := TrimSpace (obz_Name z); obz_SortOrder := obz_SortOrder z |})
              (match obf_Zones f with
               | [] => [{| obz_Name := "Dining room"; obz_SortOrder := 0 |}]
               | zones => zones
               end);
          obf_Tables := map normalizeOnboardingTable (obf_Tables f);
          obf_SortOrder := obf_SortOrder f |};
     osp_ServicePeriods :=
       map (fun p => {| obp_Name := TrimSpace (obp_Name p); obp_DaysOfWeek := obp_DaysOfWeek p;
                        obp_StartTime := TrimSpace (obp_StartTime p);
                        obp_EndTime := TrimSpace (obp_EndTime p) |}) (osp_ServicePeriods arg) |}.

(** Zone names are there and differ. *)
Fixpoint valid_zone_names (seen : list string) (names : list string) : bool :=
  match names with
  | [] => true
  | name :: names' =>
      not_empty name && negb (existsb (String.eqb name) seen) && valid_zone_names (name :: seen) names'
  end.

Definition valid_onboarding_table (zones : list string) (t : OnboardingTable) : bool :=
  not_empty (obt_Label t) && not_empty (obt_CapacityLabel t) && validTableShape (obt_Shape t)
  && jsonObject (obt_Geometry t)
  && (String.eqb (obt_ZoneName t) "" || existsb (String.eqb (obt_ZoneName t)) zones).

Definition validateOwnerSetupParams (arg : OwnerSetupParams) : Go unit :=
  let f := osp_Floor arg in
  let zones := map obz_Name (obf_Zones f) in
  guard_err ((osp_UserProfileID arg =? uuid_Nil)%N || negb (validSlug (obf_Slug f))
             || negb (jsonObject (obf_Canvas f))) ErrValidation ;;
  guard_err (negb (valid_zone_names [] zones)) ErrValidation ;;
  guard_err (negb (forallb (valid_onboarding_table zones) (obf_Tables f))) ErrValidation ;;
  guard_err (negb (forallb (fun p => is_ok (parseOnboardingServicePeriod p))
                     (osp_ServicePeriods arg))) ErrValidation.

(** ** The layout of the first location *)

Definition create_onboarding_zone (org loc flr : uuid) (z : OnboardingZone) : Go Zone :=
  map_err (Wrap "creating onboarding zone")
    (CreateZoneRow org loc flr (obz_Name z) (obz_SortOrder z)).

(** [zoneByName[name]]: the zone, or the zero value, whose identifier is nil. *)
Definition zone_named (zones : list Zone) (name : string) : uuid :=
  match List.find (fun z => String.eqb (zon_Name z) name) (rev zones) with
  | Some z => zon_ID z
  | None => uuid_Nil
  end.

Definition create_onboarding_table (org loc flr : uuid) (zones : list Zone) (defaultZone : Zone)
    (t : OnboardingTable) : Go Table :=
  let zone := if String.eqb (obt_ZoneName t) "" then zon_ID defaultZone
              else zone_named zones (obt_ZoneName t) in
  table ← map_err (Wrap "creating onboarding table")
    (CreateTableRow org loc flr zone (obt_Label t) (obt_CapacityLabel t) (obt_Shape t)
       (raw_json (obt_Geometry t)));
  map_err (Wrap "creating onboarding table occupancy")
    (CreateTableOccupancy (tbl_ID table) org loc) ;;
  mret table.

(** [zones[0]] panics without zones; normalization leaves at least one. *)
Definition createOnboardingLayout (org loc : uuid) (f : OnboardingFloor)
    : Go (Floor * list Zone * list Table) :=
  floor ← map_err (Wrap "creating onboarding floor")
    (CreateFloorRow org loc (obf_Slug f) (obf_Name f) (obf_SortOrder f) (raw_json (obf_Canvas f))
       None);
  zones ← mapM (create_onboarding_zone org loc (flr_ID floor)) (obf_Zones f);
  match zones with
  | [] => fail (Errorf "index out of range")
  | defaultZone :: _ =>
      tables ← mapM (create_onboarding_table org loc (flr_ID floor) zones defaultZone)
        (obf_Tables f);
      mret (floor, zones, tables)
  end.

Definition createOnboardingServicePeriod (org loc : uuid) (input : OnboardingServicePeriod)
    : Go ServicePeriod :=
  parsed ← lift (parseOnboardingServicePeriod input);
  let '(name, days, start, finish) := parsed in
  map_err (Wrap "creating onboarding service period")
    (CreateServicePeriod org loc name days start finish).

Section Service.
Context {GT : GoText}.

(** ** Provisioning *)

(** The transaction of [PlatformProvisionTenant]. *)
Definition provisionInTx (organisationSlug organisationName locationSlug locationName timezone
    ownerEmail ownerName : string) : Go PlatformProvisionTenantResult :=
  map_err (Wrap "setting platform admin context") SetContext ;;
  org ← map_err (Wrap "creating organisation")
    (CreateOrganisation organisationSlug organisationName);
  location ← map_err (Wrap "creating location")
    (CreateLocation (org_ID org) locationSlug locationName timezone);
  profile ← getOrCreateUserProfileByEmail ownerEmail ownerName;
  owner ← createOrReactivateOrganisationMembership (org_ID org) RoleOrganisationOwner profile
    (userProfileActorRef (usr_ID profile));
  mret {| ppr_Organisation := org; ppr_Location := location; ppr_Owner := owner |}.

Definition PlatformProvisionTenant (arg : PlatformProvisionTenantParams)
    : Go PlatformProvisionTenantResult :=
  let organisationName := TrimSpace (ppt_OrganisationName arg) in
  let organisationSlug := TrimSpace (ppt_OrganisationSlug arg) in
  let locationName := TrimSpace (ppt_LocationName arg) in
  let locationSlug := TrimSpace (ppt_LocationSlug arg) in
  let timezone := or_default (TrimSpace (ppt_Timezone arg)) "UTC" in
  ownerEmail ← lift (normalizeEmail (ppt_OwnerEmail arg));
  let ownerName := or_default (TrimSpace (ppt_OwnerDisplayName arg)) ownerEmail in
  guard_err (String.eqb organisationName "" || String.eqb locationName ""
             || negb (validSlug organisationSlug) || negb (validSlug locationSlug)) ErrValidation ;;
  guard_err (negb (LoadLocation timezone)) ErrValidation ;;
  map_err mapIdentityConstraintError
    (inTx (provisionInTx organisationSlug organisationName locationSlug locationName timezone
             ownerEmail ownerName)).

(** ** The owner's setup *)

(** The transaction of [OwnerSetup]. *)
Definition ownerSetupInTx (arg : OwnerSetupParams) : Go OwnerSetupResult :=
  orgs ← map_err (Wrap "listing owner memberships")
    (ListUserOrganisationMemberships (nullableUUID (osp_UserProfileID arg)));
  let ownerOrgID :=
    match List.find (fun m => String.eqb (omb_Role m) RoleOrganisationOwner) orgs with
    | Some m => omb_OrganisationID m
    | None => uuid_Nil
    end in
  guard_err (ownerOrgID =? uuid_Nil)%N ErrForbidden ;;
  org ← map_err (Wrap "getting owner organisation") (GetOrganisation ownerOrgID);
  guard_err (is_some (org_OnboardedAt org)) ErrAlreadyExists ;;
  locations ← map_err (Wrap "listing organisation locations")
    (ListLocationsByOrganisation ownerOrgID);
  match locations with
  | [] => fail ErrNotFound
  | location :: _ =>
      layout ← createOnboardingLayout ownerOrgID (loc_ID location) (osp_Floor arg);
      let '(floor, zones, tables) := layout in
      periods ← mapM (createOnboardingServicePeriod ownerOrgID (loc_ID location))
        (osp_ServicePeriods arg);
      org ← map_err (Wrap "marking organisation onboarded") (SetOrganisationOnboarded ownerOrgID);
      mret {| osr_Organisation := org; osr_Location := location; osr_Floor := floor;
              osr_Zones := zones; osr_Tables := tables; osr_ServicePeriods := periods |}
  end.

Definition OwnerSetup (arg : OwnerSetupParams) : Go OwnerSetupResult :=
  guard_err (osp_UserProfileID arg =? uuid_Nil)%N ErrValidation ;;
  let arg := normalizeOwnerSetupParams arg in
  validateOwnerSetupParams arg ;;
  map_err mapIdentityConstraintError (inAdminTx (ownerSetupInTx arg)).
End Service.

Example clock_1 : parseOnboardingClock " 9:30 " = Some 34200000000.
Proof. vm_compute. reflexivity. Qed.
Example clock_2 : parseOnboardingClock "23:59:59.25" = Some 86399000000.
Proof. vm_compute. reflexivity. Qed.
Example clock_3 : map parseOnboardingClock ["24:00"; "12:5"; "12"; "12:30 pm"; "12:30:1"; ""] = repeat None 6.
Proof. vm_compute. reflexivity. Qed.
