(* ===== verification/IntegrationQueries.v ===== *)
(** The statements of the integrations package ([domain/integrations/service.go]
    writes its SQL itself), with the constraints the migration
    [000010_integrations_reconciliation] puts on the tables they write. *)

From S2P Require Import Prelude Json Schema GoTx Store Queries Tokens IdentityQueries.
#[local] Open Scope string_scope.
#[local] Open Scope Z_scope.
#[local] Open Scope list_scope.

(** ** Constraints *)

Definition connection_ok (d : Db) (id : uuid) (c : IntegrationConnection) : result error unit :=
  let? _ := check (connection_checks c) (CheckViolation "integration_connections") in
  let? _ := check (no_other (fun c' => (icn_LocationID c' =? icn_LocationID c)%N
                                       && String.eqb (icn_Vendor c') (icn_Vendor c))
                     id (db_connections d))
              (UniqueViolation "integration_connections_location_id_vendor_key") in
  check (location_fk d (icn_OrganisationID c) (icn_LocationID c))
    (ForeignKeyViolation "integration_connections_location_id_organisation_id_fkey").

(** The connection, by its three columns. *)
Definition connection_fk (d : Db) (org loc conn : uuid) : bool :=
  match db_connections d !! conn with
  | Some c => (icn_OrganisationID c =? org)%N && (icn_LocationID c =? loc)%N
  | None => false
  end.

Definition same_external_table (connectionID : uuid) (externalTableID : string)
    (m : IntegrationTableMapping) : bool :=
  (itm_ConnectionID m =? connectionID)%N && String.eqb (itm_ExternalTableID m) externalTableID.

Definition mapping_ok (d : Db) (id : uuid) (m : IntegrationTableMapping) : result error unit :=
  let? _ := check (mapping_checks m) (CheckViolation "integration_table_mappings") in
  let? _ := check (no_other (same_external_table (itm_ConnectionID m) (itm_ExternalTableID m))
                     id (db_mappings d))
              (UniqueViolation "integration_table_mappings_connection_id_external_table_id_key") in
  let? _ := check (no_other (fun m' => (itm_ConnectionID m' =? itm_ConnectionID m)%N
                                       && sql_eq (itm_TableID m') (itm_TableID m))
                     id (db_mappings d))
              (UniqueViolation "integration_table_mappings_connection_id_table_id_key") in
  let? _ := check (connection_fk d (itm_OrganisationID m) (itm_LocationID m) (itm_ConnectionID m))
              (ForeignKeyViolation "integration_table_mappings_connection_id_fkey") in
  check (opt_all (table_fk d (itm_OrganisationID m) (itm_LocationID m)) (itm_TableID m))
    (ForeignKeyViolation "integration_table_mappings_table_id_fkey").

(** [UNIQUE (vendor, external_event_id)]: the connection is not part of the key. *)
Definition same_event (vendor externalEventID : string) (w : IntegrationWebhookInbox) : bool :=
  String.eqb (iwh_Vendor w) vendor && String.eqb (iwh_ExternalEventID w) externalEventID.

Definition webhook_ok (d : Db) (id : uuid) (w : IntegrationWebhookInbox) : result error unit :=
  let? _ := check (webhook_checks w) (CheckViolation "integration_webhook_inbox") in
  let? _ := check (no_other (same_event (iwh_Vendor w) (iwh_ExternalEventID w)) id (db_webhooks d))
              (UniqueViolation "integration_webhook_inbox_vendor_external_event_id_key") in
  check (connection_fk d (iwh_OrganisationID w) (iwh_LocationID w) (iwh_ConnectionID w))
    (ForeignKeyViolation "integration_webhook_inbox_connection_id_fkey").

Definition run_ok (d : Db) (id : uuid) (r : IntegrationReconciliationRun) : result error unit :=
  let? _ := check (run_checks r) (CheckViolation "integration_reconciliation_runs") in
  check (connection_fk d (irr_OrganisationID r) (irr_LocationID r) (irr_ConnectionID r))
    (ForeignKeyViolation "integration_reconciliation_runs_connection_id_fkey").

Definition discrepancy_ok (d : Db) (id : uuid) (x : IntegrationDiscrepancy) : result error unit :=
  let? _ := check (discrepancy_checks x) (CheckViolation "integration_discrepancies") in
  let? _ := check (connection_fk d (idc_OrganisationID x) (idc_LocationID x) (idc_ConnectionID x))
              (ForeignKeyViolation "integration_discrepancies_connection_id_fkey") in
  let? _ := check (is_some (db_runs d !! idc_ReconciliationRunID x))
              (ForeignKeyViolation "integration_discrepancies_reconciliation_run_id_fkey") in
  let? _ := check (opt_all (fun m => is_some (db_mappings d !! m)) (idc_MappingID x))
              (ForeignKeyViolation "integration_discrepancies_mapping_id_fkey") in
  check (opt_all (table_fk d (idc_OrganisationID x) (idc_LocationID x)) (idc_TableID x))
    (ForeignKeyViolation "integration_discrepancies_table_id_fkey").

(** ** Connections *)

Definition connection_at (org loc : uuid) (c : IntegrationConnection) : bool :=
  (icn_OrganisationID c =? org)%N && (icn_LocationID c =? loc)%N.

Definition select_connection (id org loc : uuid) : Go IntegrationConnection :=
  exec (select_one db_connections id (connection_at org loc)).

Definition select_connection_by_id (id : uuid) : Go IntegrationConnection :=
  exec (select_one db_connections id (fun _ => true)).

(** [FROM integration_connections c JOIN integration_webhook_inbox w] *)
Definition select_connection_of_webhook (webhookID org loc : uuid) : Go IntegrationConnection :=
  exec (fun now u d =>
    let? w := select_one db_webhooks webhookID (fun _ => true) now u d in
    select_one db_connections (iwh_ConnectionID (fst w)) (connection_at org loc) now u d).

Definition connection_live (c : IntegrationConnection) : bool :=
  String.eqb (icn_Status c) "connected" || String.eqb (icn_Status c) "degraded".

(** [ORDER BY updated_at] *)
Definition select_connected : Go (list IntegrationConnection) :=
  exec (select_many db_connections connection_live
    (fun c1 c2 => icn_UpdatedAt c1 <=? icn_UpdatedAt c2)).

Definition connection_row (status : string) (lastSync : option Z) (lastError : option string)
    (now : Z) (c : IntegrationConnection) : IntegrationConnection :=
  {| icn_ID := icn_ID c; icn_OrganisationID := icn_OrganisationID c;
     icn_LocationID := icn_LocationID c; icn_Vendor := icn_Vendor c;
     icn_DisplayName := icn_DisplayName c; icn_CredentialRef := icn_CredentialRef c;
     icn_Status := status; icn_Capabilities := icn_Capabilities c; icn_Config := icn_Config c;
     icn_LastSuccessfulSyncAt := lastSync; icn_LastError := lastError;
     icn_CreatedAt := icn_CreatedAt c; icn_UpdatedAt := now |}.

Definition mark_connection_synced (id : uuid) : Go unit :=
  exec (update_exec db_connections set_connections connection_ok id (fun _ => true)
    (fun now c => Ok (connection_row "connected" (Some now) None now c))).

Definition mark_connection_degraded (id : uuid) (lastError : option string) : Go unit :=
  exec (update_exec db_connections set_connections connection_ok id (fun _ => true)
    (fun now c => Ok (connection_row "degraded" (icn_LastSuccessfulSyncAt c) lastError now c))).

(** ** Mappings *)

Definition mapping_row (tableID : option uuid) (label : option string) (status : string)
    (lastSeen : option Z) (now : Z) (m : IntegrationTableMapping) : IntegrationTableMapping :=
  {| itm_ID := itm_ID m; itm_OrganisationID := itm_OrganisationID m;
     itm_LocationID := itm_LocationID m; itm_ConnectionID := itm_ConnectionID m;
     itm_ExternalTableID := itm_ExternalTableID m; itm_TableID := tableID;
     itm_ExternalLabel := label; itm_Status := status; itm_LastSeenAt := lastSeen;
     itm_CreatedAt := itm_CreatedAt m; itm_UpdatedAt := now |}.

(** [NULLIF($4, nil uuid)], [NULLIF($5, '')] *)
Definition nullif_uuid (u : uuid) : option uuid := if (u =? uuid_Nil)%N then None else Some u.
Definition nullif_text (s : string) : option string := if String.eqb s "" then None else Some s.

Definition update_mapping (id org loc tableID : uuid) (status : string) : Go IntegrationTableMapping :=
  exec (update_row db_mappings set_mappings mapping_ok id
    (fun m => (itm_OrganisationID m =? org)%N && (itm_LocationID m =? loc)%N)
    (fun now m => Ok (mapping_row (nullif_uuid tableID) (itm_ExternalLabel m) status
                        (itm_LastSeenAt m) now m))).

Definition new_mapping (org loc connectionID : uuid) (externalTableID externalLabel : string)
    (now : Z) (id : uuid) : IntegrationTableMapping :=
  {| itm_ID := id; itm_OrganisationID := org; itm_LocationID := loc;
     itm_ConnectionID := connectionID; itm_ExternalTableID := externalTableID;
     itm_TableID := None; itm_ExternalLabel := nullif_text externalLabel;
     itm_Status := "unmapped"; itm_LastSeenAt := Some now; itm_CreatedAt := now;
     itm_UpdatedAt := now |}.

(** [INSERT ... ON CONFLICT (connection_id, external_table_id) DO UPDATE]: the
    check constraints are tested on the new row before the conflict is looked for. *)
Definition upsert_mapping (org loc connectionID : uuid) (externalTableID externalLabel : string)
    : Go IntegrationTableMapping :=
  exec (fun now u d =>
    let new := new_mapping org loc connectionID externalTableID externalLabel in
    let? _ := check (mapping_checks (new now u)) (CheckViolation "integration_table_mappings") in
    match select_first db_mappings (same_external_table connectionID externalTableID) any_order
            now u d with
    | Ok (m, _) =>
        update_row db_mappings set_mappings mapping_ok (itm_ID m) (fun _ => true)
          (fun now m => Ok (mapping_row (itm_TableID m)
             (match nullif_text externalLabel with Some l => Some l | None => itm_ExternalLabel m end)
             (itm_Status m) (Some now) now m)) now u d
    | Err _ =>
        insert_row db_mappings set_mappings mapping_ok "integration_table_mappings_pkey" itm_ID new
          now u d
    end).

(** ** The webhook inbox *)

Definition new_webhook (org loc connectionID : uuid) (vendor externalEventID : string)
    (signatureValid : bool) (payload : json) (now : Z) (id : uuid) : IntegrationWebhookInbox :=
  {| iwh_ID := id; iwh_OrganisationID := org; iwh_LocationID := loc;
     iwh_ConnectionID := connectionID; iwh_Vendor := vendor;
     iwh_ExternalEventID := externalEventID; iwh_ReceivedAt := now;
     iwh_SignatureValid := signatureValid; iwh_Payload := payload;
     iwh_ProcessingState := "received"; iwh_Attempts := 0; iwh_LastError := None;
     iwh_ProcessedAt := None; iwh_CreatedAt := now; iwh_UpdatedAt := now |}.

(** [INSERT ... ON CONFLICT (vendor, external_event_id) DO NOTHING RETURNING ...]:
    no row when the event is known.  [payload] is the value of the text, which is
    missing when PostgreSQL does not take it for [jsonb]. *)
Definition insert_webhook (org loc connectionID : uuid) (vendor externalEventID : string)
    (signatureValid : bool) (payload : option json) : Go IntegrationWebhookInbox :=
  exec (fun now u d =>
    match payload with
    | None => Err (PgErr InvalidText)
    | Some j =>
        let new := new_webhook org loc connectionID vendor externalEventID signatureValid j in
        let? _ := check (webhook_checks (new now u)) (CheckViolation "integration_webhook_inbox") in
        match select_first db_webhooks (same_event vendor externalEventID) any_order now u d with
        | Ok _ => Err NoRows
        | Err _ =>
            insert_row db_webhooks set_webhooks webhook_ok "integration_webhook_inbox_pkey" iwh_ID
              new now u d
        end
    end).

Definition select_webhook_by_event (vendor externalEventID : string) : Go IntegrationWebhookInbox :=
  exec (select_first db_webhooks (same_event vendor externalEventID) any_order).

Definition webhook_at (org loc : uuid) (w : IntegrationWebhookInbox) : bool :=
  (iwh_OrganisationID w =? org)%N && (iwh_LocationID w =? loc)%N.

Definition select_webhook (id org loc : uuid) : Go IntegrationWebhookInbox :=
  exec (select_one db_webhooks id (webhook_at org loc)).

Definition webhook_row (state : string) (attempts : Z) (lastError : option string) (now : Z)
    (w : IntegrationWebhookInbox) : IntegrationWebhookInbox :=
  {| iwh_ID := iwh_ID w; iwh_OrganisationID := iwh_OrganisationID w;
     iwh_LocationID := iwh_LocationID w; iwh_ConnectionID := iwh_ConnectionID w;
     iwh_Vendor := iwh_Vendor w; iwh_ExternalEventID := iwh_ExternalEventID w;
     iwh_ReceivedAt := iwh_ReceivedAt w; iwh_SignatureValid := iwh_SignatureValid w;
     iwh_Payload := iwh_Payload w; iwh_ProcessingState := state; iwh_Attempts := attempts;
     iwh_LastError := lastError;
     iwh_ProcessedAt := (if String.eqb state "processed" then Some now else iwh_ProcessedAt w);
     iwh_CreatedAt := iwh_CreatedAt w; iwh_UpdatedAt := now |}.

Definition update_webhook (id : uuid) (state : string) (lastError : option string)
    : Go IntegrationWebhookInbox :=
  exec (update_row db_webhooks set_webhooks webhook_ok id (fun _ => true)
    (fun now w =>
      let? attempts := int4_succ (iwh_Attempts w) in
      Ok (webhook_row state attempts lastError now w))).

(** ** The floor, as the reconciliation reads it *)

Definition select_table_state (org loc tableID : uuid) : Go TableOccupancy :=
  exec (select_one db_occupancy tableID
    (fun o => (occ_OrganisationID o =? org)%N && (occ_LocationID o =? loc)%N)).

Definition assist_open (org loc tableID : uuid) (a : AssistRequest) : bool :=
  (ast_OrganisationID a =? org)%N && (ast_LocationID a =? loc)%N && (ast_TableID a =? tableID)%N
  && (String.eqb (ast_Status a) "pending" || String.eqb (ast_Status a) "acknowledged").

Definition exists_open_assist (org loc tableID : uuid) : Go bool :=
  query (fun d => map_any (assist_open org loc tableID) (db_assists d)).

(** ** Reconciliation runs and discrepancies *)

Definition new_run (org loc connectionID : uuid) (now : Z) (id : uuid)
    : IntegrationReconciliationRun :=
  {| irr_ID := id; irr_OrganisationID := org; irr_LocationID := loc;
     irr_ConnectionID := connectionID; irr_StartedAt := now; irr_CompletedAt := None;
     irr_Status := "running"; irr_CheckedCount := 0; irr_DiscrepancyCount := 0;
     irr_AutoCorrectedCount := 0; irr_LastError := None; irr_CreatedAt := now;
     irr_UpdatedAt := now |}.

Definition insert_run (org loc connectionID : uuid) : Go IntegrationReconciliationRun :=
  exec (insert_row db_runs set_runs run_ok "integration_reconciliation_runs_pkey" irr_ID
    (new_run org loc connectionID)).

Definition select_run (id : uuid) : Go IntegrationReconciliationRun :=
  exec (select_one db_runs id (fun _ => true)).

Definition run_row (status : string) (checked discrepancies corrected : Z)
    (lastError : option string) (now : Z) (r : IntegrationReconciliationRun)
    : IntegrationReconciliationRun :=
  {| irr_ID := irr_ID r; irr_OrganisationID := irr_OrganisationID r;
     irr_LocationID := irr_LocationID r; irr_ConnectionID := irr_ConnectionID r;
     irr_StartedAt := irr_StartedAt r; irr_CompletedAt := Some now; irr_Status := status;
     irr_CheckedCount := checked; irr_DiscrepancyCount := discrepancies;
     irr_AutoCorrectedCount := corrected; irr_LastError := lastError;
     irr_CreatedAt := irr_CreatedAt r; irr_UpdatedAt := now |}.

Definition update_run (id : uuid) (status : string) (checked discrepancies corrected : Z)
    (lastError : option string) : Go IntegrationReconciliationRun :=
  exec (update_row db_runs set_runs run_ok id (fun _ => true)
    (fun now r => Ok (run_row status checked discrepancies corrected lastError now r))).

Definition new_discrepancy (org loc connectionID runID : uuid) (mappingID : uuid)
    (tableID : option uuid) (externalTableID discrepancyType : string)
    (seatdState externalState : option string) (resolution : string) (details : json)
    (now : Z) (id : uuid) : IntegrationDiscrepancy :=
  {| idc_ID := id; idc_OrganisationID := org; idc_LocationID := loc;
     idc_ConnectionID := connectionID; idc_ReconciliationRunID := runID;
     idc_MappingID := Some mappingID; idc_TableID := tableID;
     idc_ExternalTableID := externalTableID; idc_DiscrepancyType := discrepancyType;
     idc_SeatdState := seatdState; idc_ExternalState := externalState;
     idc_ResolutionState := resolution; idc_Details := details; idc_CreatedAt := now;
     idc_UpdatedAt := now |}.

Definition insert_discrepancy (new : Z -> uuid -> IntegrationDiscrepancy)
    : Go IntegrationDiscrepancy :=
  exec (insert_row db_discrepancies set_discrepancies discrepancy_ok
    "integration_discrepancies_pkey" idc_ID new).

(** ** Listings *)

Section Listings.
Context {GT : GoText} (org loc connectionID : uuid).

(** [ORDER BY vendor, display_name] *)
Definition list_connections : Go (list IntegrationConnection) :=
  exec (select_many db_connections (connection_at org loc)
    (fun c1 c2 => if String.eqb (icn_Vendor c1) (icn_Vendor c2)
                  then pg_collate (icn_DisplayName c1) (icn_DisplayName c2)
                  else pg_collate (icn_Vendor c1) (icn_Vendor c2))).

(** [ORDER BY status, external_table_id] *)
Definition list_mappings : Go (list IntegrationTableMapping) :=
  exec (select_many db_mappings
    (fun m => (itm_OrganisationID m =? org)%N && (itm_LocationID m =? loc)%N
              && (itm_ConnectionID m =? connectionID)%N)
    (fun m1 m2 => if String.eqb (itm_Status m1) (itm_Status m2)
                  then pg_collate (itm_ExternalTableID m1) (itm_ExternalTableID m2)
                  else pg_collate (itm_Status m1) (itm_Status m2))).

(** [ORDER BY received_at DESC LIMIT 50] *)
Definition list_webhooks : Go (list IntegrationWebhookInbox) :=
  query (fun d => take 50 (rows db_webhooks d
    (fun w => webhook_at org loc w && (iwh_ConnectionID w =? connectionID)%N)
    (fun w1 w2 => iwh_ReceivedAt w2 <=? iwh_ReceivedAt w1))).

(** [ORDER BY created_at DESC LIMIT 100] *)
Definition list_discrepancies : Go (list IntegrationDiscrepancy) :=
  query (fun d => take 100 (rows db_discrepancies d
    (fun x => (idc_OrganisationID x =? org)%N && (idc_LocationID x =? loc)%N
              && (idc_ConnectionID x =? connectionID)%N)
    (fun x1 x2 => idc_CreatedAt x2 <=? idc_CreatedAt x1))).
End Listings.
