(* ===== verification/Events.v ===== *)
(** [internal/domain/events/events.go]: the envelope of an operational event and
    its JSON form, which the operations service writes into the outbox and the
    worker decodes again. *)

From S2P Require Import Prelude Json.
#[local] Open Scope string_scope.
#[local] Open Scope Z_scope.
#[local] Open Scope list_scope.

Definition SchemaVersion : Z := 1.

Definition TypeTableOccupied := "table.occupied".
Definition TypeTableCleared := "table.cleared".
Definition TypeSessionOpened := "session.opened".
Definition TypeSessionClosed := "session.closed".
Definition TypeAssistRequested := "assist.requested".
Definition TypeAssistAcknowledged := "assist.acknowledged".
Definition TypeAssistResolved := "assist.resolved".
Definition TypeAssistCancelled := "assist.cancelled".
Definition TypeDeviceRegistered := "device.registered".
Definition TypeDeviceRevoked := "device.revoked".

Record Envelope := {
  env_ID : uuid;
  env_Type : string;
  env_SchemaVersion : Z;
  env_OccurredAt : Z;
  env_OrganisationID : uuid;
  env_LocationID : uuid;
  env_ActorRef : string;
  env_DeviceID : option uuid;
  env_EntityType : string;
  env_EntityID : uuid;
  env_EntityVersion : option Z;
  env_CommandID : option uuid;
  env_CorrelationID : option uuid;
  env_Traceparent : string;
  env_Tracestate : string;
  env_Data : json;
}.

(** [events.Data], a [map[string]any]: the members, or the nil map. *)
Abbreviation Data := (option (list (string * json))) (only parsing).

Definition MarshalData (data : Data) : json :=
  match data with
  | None => JObj []
  | Some l => json_of_map l
  end.

Definition is_empty (s : string) : bool := String.eqb s "".

(** [json.Marshal(envelope)] *)
Definition Envelope_to_json (v : Envelope) : json :=
  JObj ([("id", JUuid (env_ID v));
         ("type", JStr (env_Type v));
         ("schemaVersion", JNum (env_SchemaVersion v));
         ("occurredAt", JTime (env_OccurredAt v));
         ("organisationId", JUuid (env_OrganisationID v));
         ("locationId", JUuid (env_LocationID v))]
        ++ omit_if (is_empty (env_ActorRef v)) "actorRef" (JStr (env_ActorRef v))
        ++ omit_none JUuid "deviceId" (env_DeviceID v)
        ++ [("entityType", JStr (env_EntityType v));
            ("entityId", JUuid (env_EntityID v))]
        ++ omit_none JNum "entityVersion" (env_EntityVersion v)
        ++ omit_none JUuid "commandId" (env_CommandID v)
        ++ omit_none JUuid "correlationId" (env_CorrelationID v)
        ++ omit_if (is_empty (env_Traceparent v)) "traceparent" (JStr (env_Traceparent v))
        ++ omit_if (is_empty (env_Tracestate v)) "tracestate" (JStr (env_Tracestate v))
        ++ [("data", env_Data v)]).

(** ** Decoding one struct field

    A missing or [null] member leaves the field's zero value; a member of the
    wrong JSON type is an error. *)

Definition field {A} (zero : A) (dec : json -> option A) (k : string) (j : json) : option A :=
  match json_get k j with
  | None | Some JNull => Some zero
  | Some v => dec v
  end.

Definition dec_uuid (j : json) : option uuid :=
  match j with JUuid u => Some u | _ => None end.
Definition dec_string (j : json) : option string :=
  match j with JStr s => Some s | _ => None end.
Definition dec_time (j : json) : option Z :=
  match j with JTime t => Some t | _ => None end.
Definition dec_int32 (j : json) : option Z :=
  match j with JNum z => if in_int32 z then Some z else None | _ => None end.
Definition dec_ptr {A} (dec : json -> option A) (j : json) : option (option A) :=
  Some <$> dec j.

(** [json.Unmarshal(payload, &event)]; [None] is a decoding error. *)
Definition Envelope_of_json (j : json) : option Envelope :=
  match j with
  | JObj _ =>
      i ← field uuid_Nil dec_uuid "id" j;
      ty ← field "" dec_string "type" j;
      sv ← field 0 dec_int32 "schemaVersion" j;
      oc ← field 0 dec_time "occurredAt" j;
      og ← field uuid_Nil dec_uuid "organisationId" j;
      lo ← field uuid_Nil dec_uuid "locationId" j;
      ac ← field "" dec_string "actorRef" j;
      de ← field None (dec_ptr dec_uuid) "deviceId" j;
      et ← field "" dec_string "entityType" j;
      ei ← field uuid_Nil dec_uuid "entityId" j;
      ev ← field None (dec_ptr dec_int32) "entityVersion" j;
      cm ← field None (dec_ptr dec_uuid) "commandId" j;
      co ← field None (dec_ptr dec_uuid) "correlationId" j;
      tp ← field "" dec_string "traceparent" j;
      ts ← field "" dec_string "tracestate" j;
      Some {| env_ID := i; env_Type := ty; env_SchemaVersion := sv; env_OccurredAt := oc;
              env_OrganisationID := og; env_LocationID := lo; env_ActorRef := ac;
              env_DeviceID := de; env_EntityType := et; env_EntityID := ei;
              env_EntityVersion := ev; env_CommandID := cm; env_CorrelationID := co;
              env_Traceparent := tp; env_Tracestate := ts;
              env_Data := default JNull (json_get "data" j) |}
  | _ => None
  end.

(** ** Round trip *)

Lemma MarshalData_object data : json_is_object (MarshalData data) = true.
Proof. by destruct data. Qed.

Lemma Envelope_of_to_json (v : Envelope)
    (Hsv : in_int32 (env_SchemaVersion v) = true)
    (Hev : forall n, env_EntityVersion v = Some n -> in_int32 n = true) :
  Envelope_of_json (Envelope_to_json v) = Some v.
Proof.
  destruct v as [i ty sv oc og lo ac de et ei ev cm co tp ts da].
  cbn [env_SchemaVersion env_EntityVersion] in Hsv, Hev.
  assert (forall s t, is_empty s = true -> t = s -> "" = t) as Hempty.
  { intros s t Hs ->. symmetry. by apply String.eqb_eq. }
  unfold Envelope_to_json. cbn [env_ActorRef env_DeviceID env_EntityVersion env_CommandID
    env_CorrelationID env_Traceparent env_Tracestate].
  destruct (is_empty ac) eqn:Hac, (is_empty tp) eqn:Htp, (is_empty ts) eqn:Hts;
    destruct de as [?|], ev as [k|], cm as [?|], co as [?|]; try specialize (Hev k eq_refl); cbn;
    rewrite ?Hsv, ?Hev; cbn; rewrite ?Hsv, ?Hev; cbn;
    rewrite <- ?(Hempty _ _ Hac eq_refl), <- ?(Hempty _ _ Htp eq_refl),
      <- ?(Hempty _ _ Hts eq_refl); reflexivity.
Qed.

(** What the operations service writes into an outbox record is what the
    worker reads back: decoding the JSON of an envelope gives the envelope, for
    every combination of omitted fields, when its version numbers are [int32]s
    as the Go type makes them. *)
Theorem envelope_roundtrip (v : Envelope)
    (Hsv : in_int32 (env_SchemaVersion v) = true)
    (Hev : forall n, env_EntityVersion v = Some n -> in_int32 n = true) :
  Envelope_of_json (Envelope_to_json v) = Some v.
Proof. by apply Envelope_of_to_json. Qed.

Lemma envelope_roundtrip_witness :
  Envelope_of_json (Envelope_to_json
    {| env_ID := 7%N; env_Type := TypeTableOccupied; env_SchemaVersion := SchemaVersion;
       env_OccurredAt := 1000; env_OrganisationID := 1%N; env_LocationID := 2%N;
       env_ActorRef := "user:1"; env_DeviceID := None; env_EntityType := "table";
       env_EntityID := 3%N; env_EntityVersion := Some 2; env_CommandID := Some 9%N;
       env_CorrelationID := Some 9%N; env_Traceparent := ""; env_Tracestate := "";
       env_Data := JObj [("status", JStr "occupied")] |}) <> None.
Proof.
  rewrite envelope_roundtrip; [done|reflexivity|by intros ? [= <-]].
Defined.
