(* ===== verification/Operations.v ===== *)
(** [internal/domain/operations]: table occupancy and assist commands
    ([service.go]), their errors ([errors.go]), the idempotent command runner
    and the transactional outbox writer. *)

From S2P Require Import Prelude Json Schema GoTx Store Queries Events.
#[local] Open Scope string_scope.
#[local] Open Scope Z_scope.
#[local] Open Scope list_scope.

(** ** Errors and constants *)

Definition pkg := "operations".
Definition ErrNotFound := Sentinel pkg "not found".
Definition ErrVersionConflict := Sentinel pkg "version conflict".
Definition ErrAlreadyOccupied := Sentinel pkg "table already occupied".
Definition ErrAlreadyAvailable := Sentinel pkg "table already available".
Definition ErrNoActiveSession := Sentinel pkg "no active session".
Definition ErrInvalidAssistTransition := Sentinel pkg "invalid assist transition".
Definition ErrAssistAlreadyResolved := Sentinel pkg "assist already resolved".
Definition ErrIdempotencyConflict := Sentinel pkg "idempotency conflict".
Definition ErrActionNotEnabled := Sentinel pkg "guest action not enabled".
Definition ErrRateLimited := Sentinel pkg "rate limited".

Definition TableStatusAvailable := "available".
Definition TableStatusOccupied := "occupied".
Definition AssistStatusPending := "pending".
Definition AssistStatusAcknowledged := "acknowledged".
Definition AssistStatusResolved := "resolved".
Definition AssistStatusCancelled := "cancelled".

(** [30 * 24 * time.Hour] in nanoseconds. *)
Definition DefaultIdempotencyRetention : Z := 30 * 24 * 3600 * 1000000000.

(** ** Nullable arguments *)

Definition nullableText (value : string) : option string :=
  if String.eqb value "" then None else Some value.
Definition nullableUUID (value : uuid) : option uuid :=
  if (value =? uuid_Nil)%N then None else Some value.
Definition nullableString (value : string) : json :=
  if String.eqb value "" then JNull else JStr value.
Definition intPtr (value : option Z) : json :=
  match value with None => JNull | Some n => JNum n end.

(** ** Commands and their replay *)

Record CommandMeta := {
  cmd_ID : uuid;
  cmd_Type : string;
  cmd_PayloadHash : list N;
  cmd_DeviceID : option uuid;
  cmd_Retention : Z;
}.

(** The response body is stored in a [jsonb] column; [None] is an empty body. *)
Record CommandReplay := {
  rep_Replayed : bool;
  rep_Status : Z;
  rep_Body : option json;
}.

Definition getIdempotencyReplay (organisationID : uuid) (meta : CommandMeta)
    : Go (option CommandReplay) :=
  r ← attempt (exec (select_one db_idempotency (organisationID, cmd_ID meta) (fun _ => true)));
  match r with
  | Err err =>
      if errors_Is err NoRows then mret None
      else fail (Wrap "getting idempotency record" err)
  | Ok rec =>
      if negb (String.eqb (idr_CommandType rec) (cmd_Type meta))
         || negb (bool_decide (idr_PayloadHash rec = cmd_PayloadHash meta))
      then fail ErrIdempotencyConflict
      else mret (Some {| rep_Replayed := true; rep_Status := idr_ResponseStatus rec;
                         rep_Body := Some (idr_ResponseBody rec) |})
  end.

Definition idempotency_ok (d : Db) (_ : N * N) (r : ApiIdempotencyRecord) : result error unit :=
  let? _ := check (idempotency_checks r) (CheckViolation "api_idempotency_records") in
  let? _ := check (is_some (db_organisations d !! idr_OrganisationID r))
              (ForeignKeyViolation "api_idempotency_records_organisation_id_fkey") in
  check (opt_all (location_fk d (idr_OrganisationID r)) (idr_LocationID r))
    (ForeignKeyViolation "api_idempotency_records_location_id_fkey").

Definition insertIdempotencyRecord (organisationID locationID : uuid) (actorRef : string)
    (meta : CommandMeta) (status : Z) (body : json) : Go unit :=
  let retention := if cmd_Retention meta <=? 0 then DefaultIdempotencyRetention
                   else cmd_Retention meta in
  map_err (Wrap ("recording idempotency result for " +:+ actorRef))
    (exec (insert_row db_idempotency set_idempotency idempotency_ok
       "api_idempotency_records_pkey"
       (fun r => (idr_OrganisationID r, idr_CommandID r))
       (fun now _ =>
          {| idr_CommandID := cmd_ID meta; idr_OrganisationID := organisationID;
             idr_LocationID := Some locationID; idr_CommandType := cmd_Type meta;
             idr_PayloadHash := cmd_PayloadHash meta; idr_ResponseStatus := status;
             idr_ResponseBody := body; idr_CreatedAt := now;
             idr_ExpiresAt := now + Z.quot retention 1000000000 * 1000000000 |}))) ;;
  mret tt.

(** [runTenantCommand].  The value is [None] where the code returns the zero
    value of [T] next to a replay. *)
Definition runTenantCommand {T} (organisationID locationID : uuid) (actorRef : string)
    (meta : CommandMeta) (execute : Go T) (after : T -> Go unit)
    (encode : option (T -> result error (Z * option json))) : Go (option T * CommandReplay) :=
  map_err (Wrap "beginning transaction") BeginTx ;;
  or_rollback (Wrap "setting tenant context") SetContext ;;
  found ← (if (cmd_ID meta =? uuid_Nil)%N then mret None
           else or_rollback id (getIdempotencyReplay organisationID meta));
  match found with
  | Some replay =>
      map_err (Wrap "committing replay transaction") Commit ;;
      mret (None, replay)
  | None =>
      value ← or_rollback id execute;
      or_rollback id (after value) ;;
      resp ← match encode with
             | None => mret (200, None)
             | Some enc => or_rollback (Wrap "encoding idempotency response") (lift (enc value))
             end;
      let status := fst resp in
      body ← (if (cmd_ID meta =? uuid_Nil)%N then mret (snd resp)
              else let body := default (JObj []) (snd resp) in
                   or_rollback id (insertIdempotencyRecord organisationID locationID actorRef
                                     meta status body) ;;
                   mret (Some body));
      map_err (Wrap "committing transaction") Commit ;;
      mret (Some value, {| rep_Replayed := false; rep_Status := status; rep_Body := body |})
  end.

(** ** Operational events and the outbox *)

Record operationalEvent := {
  ope_OrganisationID : uuid;
  ope_LocationID : uuid;
  ope_EventType : string;
  ope_EntityType : string;
  ope_EntityID : uuid;
  ope_EntityVersion : Z;
  ope_ActorRef : string;
  ope_DeviceID : option uuid;
  ope_CommandID : option uuid;
  ope_Topic : string;
  ope_Destinations : list string;
  ope_Data : option (list (string * json));
}.

Definition operationDestinations : list string :=
  ["realtime.operations"; "analytics.operations"; "audit.operations"].

Definition event_ok (d : Db) (_ : N) (v : OperationalEvent) : result error unit :=
  let? _ := check (event_checks v) (CheckViolation "operational_events") in
  let? _ := check (is_some (db_organisations d !! oev_OrganisationID v))
              (ForeignKeyViolation "operational_events_organisation_id_fkey") in
  let? _ := check (location_fk d (oev_OrganisationID v) (oev_LocationID v))
              (ForeignKeyViolation "operational_events_location_id_fkey") in
  check (opt_all (fun x => is_some (db_devices d !! x)) (oev_DeviceID v))
    (ForeignKeyViolation "operational_events_device_id_fkey").

Definition outbox_ok (d : Db) (_ : N) (r : OutboxRecord) : result error unit :=
  let? _ := check (outbox_checks r) (CheckViolation "outbox_records") in
  let? _ := check (is_some (db_organisations d !! obx_OrganisationID r))
              (ForeignKeyViolation "outbox_records_organisation_id_fkey") in
  let? _ := check (location_fk d (obx_OrganisationID r) (obx_LocationID r))
              (ForeignKeyViolation "outbox_records_location_id_fkey") in
  check (is_some (db_events d !! obx_EventID r))
    (ForeignKeyViolation "outbox_records_event_id_fkey").

Definition new_outbox_record (organisationID locationID eventID : uuid)
    (topic destination : string) (payload : json) (now : Z) (id : uuid) : OutboxRecord :=
  {| obx_ID := id; obx_OrganisationID := organisationID; obx_LocationID := locationID;
     obx_EventID := eventID; obx_Topic := topic; obx_Payload := payload;
     obx_Status := "pending"; obx_Attempts := 0; obx_AvailableAt := now;
     obx_LockedAt := None; obx_LockedBy := None; obx_ProcessedAt := None;
     obx_CreatedAt := now; obx_UpdatedAt := now; obx_Destination := destination;
     obx_LastError := None |}.

Definition insertOutboxRecord (organisationID locationID eventID : uuid)
    (topic destination : string) (payload : json) : Go unit :=
  map_err (Wrap ("writing outbox record for " +:+ destination))
    (exec (insert_row db_outbox set_outbox outbox_ok "outbox_records_pkey" obx_ID
       (new_outbox_record organisationID locationID eventID topic destination payload))) ;;
  mret tt.

Definition event_actor (event : operationalEvent) : string :=
  if is_empty (ope_ActorRef event) then "system" else ope_ActorRef event.

Definition event_envelope (event : operationalEvent) (eventID : uuid) (now : Z)
    (trace : string * string) : Envelope :=
  {| env_ID := eventID; env_Type := ope_EventType event; env_SchemaVersion := SchemaVersion;
     env_OccurredAt := now; env_OrganisationID := ope_OrganisationID event;
     env_LocationID := ope_LocationID event; env_ActorRef := event_actor event;
     env_DeviceID := ope_DeviceID event; env_EntityType := ope_EntityType event;
     env_EntityID := ope_EntityID event; env_EntityVersion := Some (ope_EntityVersion event);
     env_CommandID := ope_CommandID event; env_CorrelationID := ope_CommandID event;
     env_Traceparent := fst trace; env_Tracestate := snd trace;
     env_Data := MarshalData (ope_Data event) |}.

Definition event_row (event : operationalEvent) (eventID : uuid) (now : Z) (payload : json)
    : OperationalEvent :=
  {| oev_ID := eventID; oev_OrganisationID := ope_OrganisationID event;
     oev_LocationID := ope_LocationID event; oev_EventType := ope_EventType event;
     oev_AggregateType := ope_EntityType event; oev_AggregateID := ope_EntityID event;
     oev_AggregateVersion := Some (ope_EntityVersion event);
     oev_ActorRef := event_actor event; oev_DeviceID := ope_DeviceID event;
     oev_CommandID := ope_CommandID event; oev_Payload := payload;
     oev_OccurredAt := pg_time now; oev_SchemaVersion := SchemaVersion;
     oev_EntityType := ope_EntityType event; oev_EntityID := ope_EntityID event;
     oev_EntityVersion := Some (ope_EntityVersion event);
     oev_CorrelationID := ope_CommandID event; oev_EventData := MarshalData (ope_Data event) |}.

Definition event_topic (event : operationalEvent) : string :=
  if is_empty (ope_Topic event) then ope_EntityType event else ope_Topic event.

Definition event_destinations (event : operationalEvent) : list string :=
  match ope_Destinations event with [] => [event_topic event] | l => l end.

Definition writeOperationalEvent (event : operationalEvent) : Go unit :=
  eventID ← uuid_New;
  now ← time_Now;
  trace ← traceContext;
  let payload := Envelope_to_json (event_envelope event eventID now trace) in
  map_err (Wrap "writing operational event")
    (exec (insert_row db_events set_events event_ok "operational_events_pkey" oev_ID
       (fun _ _ => event_row event eventID now payload))) ;;
  for_each (event_destinations event) (fun destination =>
    insertOutboxRecord (ope_OrganisationID event) (ope_LocationID event) eventID
      (event_topic event) destination payload).

(** ** Table occupancy *)

Record OccupyTableParams := {
  ocp_OrganisationID : uuid;
  ocp_LocationID : uuid;
  ocp_TableID : uuid;
  ocp_ExpectedVersion : Z;
  ocp_PartySize : option Z;
  ocp_ActorRef : string;
  ocp_Source : string;
  ocp_Command : CommandMeta;
}.

(** [OccupyTableResult] and [ClearTableResult] have the same fields. *)
Record TableResult := {
  res_Table : Table;
  res_Occupancy : TableOccupancy;
  res_Session : TableSession;
}.

Record ClearTableParams := {
  clp_OrganisationID : uuid;
  clp_LocationID : uuid;
  clp_TableID : uuid;
  clp_ExpectedVersion : Z;
  clp_ActorRef : string;
  clp_Command : CommandMeta;
}.

Definition lockTableOccupancy (tableID organisationID locationID : uuid) : Go TableOccupancy :=
  map_err (no_rows_to ErrNotFound "locking table occupancy")
    (LockTableOccupancy tableID organisationID locationID).

Definition occupyTableInTx (arg : OccupyTableParams) : Go TableResult :=
  occupancy ← lockTableOccupancy (ocp_TableID arg) (ocp_OrganisationID arg) (ocp_LocationID arg);
  guard_err (String.eqb (occ_Status occupancy) TableStatusOccupied) ErrAlreadyOccupied ;;
  guard_err (negb (occ_Version occupancy =? ocp_ExpectedVersion arg))
    (VersionConflictError pkg "table_occupancy" (ocp_TableID arg)
       (ocp_ExpectedVersion arg) (occ_Version occupancy)) ;;
  session ← map_err (Wrap "creating table session")
    (CreateTableSession (ocp_OrganisationID arg) (ocp_LocationID arg) (ocp_TableID arg)
       (ocp_PartySize arg) (nullableText (ocp_ActorRef arg)) (ocp_Source arg));
  updated ← map_err (no_rows_to ErrVersionConflict "marking table occupied")
    (MarkTableOccupied (ocp_TableID arg) (ocp_OrganisationID arg) (ocp_LocationID arg)
       (Some (ses_ID session)) (nullableText (ocp_ActorRef arg)) (ocp_ExpectedVersion arg));
  state ← map_err (Wrap "getting updated table state")
    (GetTableState (ocp_TableID arg) (ocp_OrganisationID arg) (ocp_LocationID arg));
  mret {| res_Table := fst state; res_Occupancy := updated; res_Session := session |}.

Definition clearTableInTx (arg : ClearTableParams) : Go TableResult :=
  occupancy ← lockTableOccupancy (clp_TableID arg) (clp_OrganisationID arg) (clp_LocationID arg);
  guard_err (String.eqb (occ_Status occupancy) TableStatusAvailable) ErrAlreadyAvailable ;;
  guard_err (negb (occ_Version occupancy =? clp_ExpectedVersion arg))
    (VersionConflictError pkg "table_occupancy" (clp_TableID arg)
       (clp_ExpectedVersion arg) (occ_Version occupancy)) ;;
  match occ_CurrentSessionID occupancy with
  | None => fail ErrNoActiveSession
  | Some sessionID =>
      session ← map_err (no_rows_to ErrNoActiveSession "closing table session")
        (CloseTableSession sessionID (clp_OrganisationID arg) (clp_LocationID arg)
           (nullableText (clp_ActorRef arg)));
      updated ← map_err (no_rows_to ErrVersionConflict "marking table available")
        (MarkTableAvailable (clp_TableID arg) (clp_OrganisationID arg) (clp_LocationID arg)
           (nullableText (clp_ActorRef arg)) (clp_ExpectedVersion arg));
      state ← map_err (Wrap "getting updated table state")
        (GetTableState (clp_TableID arg) (clp_OrganisationID arg) (clp_LocationID arg));
      mret {| res_Table := fst state; res_Occupancy := updated; res_Session := session |}
  end.

Definition occupied_event (arg : OccupyTableParams) (result : TableResult) : operationalEvent :=
  {| ope_OrganisationID := ocp_OrganisationID arg; ope_LocationID := ocp_LocationID arg;
     ope_EventType := TypeTableOccupied; ope_EntityType := "table";
     ope_EntityID := ocp_TableID arg; ope_EntityVersion := occ_Version (res_Occupancy result);
     ope_ActorRef := ocp_ActorRef arg; ope_DeviceID := cmd_DeviceID (ocp_Command arg);
     ope_CommandID := nullableUUID (cmd_ID (ocp_Command arg));
     ope_Topic := "operations.table"; ope_Destinations := operationDestinations;
     ope_Data := Some [("tableId", JUuid (ocp_TableID arg));
                       ("sessionId", JUuid (ses_ID (res_Session result)));
                       ("status", JStr (occ_Status (res_Occupancy result)));
                       ("partySize", intPtr (ocp_PartySize arg))] |}.

Definition OccupyTableCommand (arg : OccupyTableParams)
    (encode : option (TableResult -> result error (Z * option json)))
    : Go (option TableResult * CommandReplay) :=
  runTenantCommand (ocp_OrganisationID arg) (ocp_LocationID arg) (ocp_ActorRef arg)
    (ocp_Command arg) (occupyTableInTx arg)
    (fun result => writeOperationalEvent (occupied_event arg result)) encode.

Definition OccupyTable (arg : OccupyTableParams) : Go (option TableResult) :=
  r ← OccupyTableCommand arg None; mret (fst r).

Definition cleared_event (arg : ClearTableParams) (result : TableResult) : operationalEvent :=
  {| ope_OrganisationID := clp_OrganisationID arg; ope_LocationID := clp_LocationID arg;
     ope_EventType := TypeTableCleared; ope_EntityType := "table";
     ope_EntityID := clp_TableID arg; ope_EntityVersion := occ_Version (res_Occupancy result);
     ope_ActorRef := clp_ActorRef arg; ope_DeviceID := cmd_DeviceID (clp_Command arg);
     ope_CommandID := nullableUUID (cmd_ID (clp_Command arg));
     ope_Topic := "operations.table"; ope_Destinations := operationDestinations;
     ope_Data := Some [("tableId", JUuid (clp_TableID arg));
                       ("sessionId", JUuid (ses_ID (res_Session result)));
                       ("status", JStr (occ_Status (res_Occupancy result)))] |}.

Definition ClearTableCommand (arg : ClearTableParams)
    (encode : option (TableResult -> result error (Z * option json)))
    : Go (option TableResult * CommandReplay) :=
  runTenantCommand (clp_OrganisationID arg) (clp_LocationID arg) (clp_ActorRef arg)
    (clp_Command arg) (clearTableInTx arg)
    (fun result => writeOperationalEvent (cleared_event arg result)) encode.

Definition ClearTable (arg : ClearTableParams) : Go (option TableResult) :=
  r ← ClearTableCommand arg None; mret (fst r).

(** ** Assist requests *)

Record RequestAssistParams := {
  rap_OrganisationID : uuid;
  rap_LocationID : uuid;
  rap_TableID : uuid;
  rap_RequestedBy : string;
  rap_Source : string;
  rap_Note : string;
}.

Definition requested_event (arg : RequestAssistParams) (created : AssistRequest)
    : operationalEvent :=
  {| ope_OrganisationID := rap_OrganisationID arg; ope_LocationID := rap_LocationID arg;
     ope_EventType := TypeAssistRequested; ope_EntityType := "assist";
     ope_EntityID := ast_ID created; ope_EntityVersion := ast_Version created;
     ope_ActorRef := rap_RequestedBy arg; ope_DeviceID := None; ope_CommandID := None;
     ope_Topic := "operations.assist"; ope_Destinations := operationDestinations;
     ope_Data := Some [("assistId", JUuid (ast_ID created));
                       ("tableId", JUuid (rap_TableID arg));
                       ("status", JStr (ast_Status created));
                       ("source", JStr (rap_Source arg));
                       ("note", nullableString (rap_Note arg))] |}.

Definition RequestAssist (arg : RequestAssistParams) : Go AssistRequest :=
  inTenantTx (
    occupancy ← lockTableOccupancy (rap_TableID arg) (rap_OrganisationID arg) (rap_LocationID arg);
    created ← map_err (Wrap "creating assist request")
      (CreateAssistRequest (rap_OrganisationID arg) (rap_LocationID arg) (rap_TableID arg)
         (occ_CurrentSessionID occupancy) (nullableText (rap_RequestedBy arg)) (rap_Source arg)
         (nullableText (rap_Note arg)) None);
    writeOperationalEvent (requested_event arg created) ;;
    mret created).

Record ChangeAssistParams := {
  cap_OrganisationID : uuid;
  cap_LocationID : uuid;
  cap_AssistID : uuid;
  cap_ExpectedVersion : Z;
  cap_ActorRef : string;
  cap_Command : CommandMeta;
}.

Definition validAssistTransition (current next : string) : bool :=
  if String.eqb next AssistStatusAcknowledged then String.eqb current AssistStatusPending
  else if String.eqb next AssistStatusResolved || String.eqb next AssistStatusCancelled
  then String.eqb current AssistStatusPending || String.eqb current AssistStatusAcknowledged
  else false.

Definition changeAssistInTx (arg : ChangeAssistParams) (nextStatus : string) : Go AssistRequest :=
  let id := cap_AssistID arg in
  let org := cap_OrganisationID arg in
  let loc := cap_LocationID arg in
  let by_ := nullableText (cap_ActorRef arg) in
  let version := cap_ExpectedVersion arg in
  current ← map_err (no_rows_to ErrNotFound "locking assist request")
    (LockAssistRequest id org loc);
  guard_err (negb (ast_Version current =? version))
    (VersionConflictError pkg "assist_request" id version (ast_Version current)) ;;
  guard_err (String.eqb (ast_Status current) AssistStatusResolved
             && String.eqb nextStatus AssistStatusResolved) ErrAssistAlreadyResolved ;;
  guard_err (negb (validAssistTransition (ast_Status current) nextStatus))
    ErrInvalidAssistTransition ;;
  let wrap := no_rows_to ErrVersionConflict "changing assist request status" in
  if String.eqb nextStatus AssistStatusAcknowledged
  then map_err wrap (AcknowledgeAssistRequest id org loc by_ version)
  else if String.eqb nextStatus AssistStatusResolved
  then map_err wrap (ResolveAssistRequest id org loc by_ version)
  else if String.eqb nextStatus AssistStatusCancelled
  then map_err wrap (CancelAssistRequest id org loc by_ version)
  else fail ErrInvalidAssistTransition.

Definition assist_event (arg : ChangeAssistParams) (eventType : string) (assist : AssistRequest)
    : operationalEvent :=
  {| ope_OrganisationID := cap_OrganisationID arg; ope_LocationID := cap_LocationID arg;
     ope_EventType := eventType; ope_EntityType := "assist";
     ope_EntityID := cap_AssistID arg; ope_EntityVersion := ast_Version assist;
     ope_ActorRef := cap_ActorRef arg; ope_DeviceID := cmd_DeviceID (cap_Command arg);
     ope_CommandID := nullableUUID (cmd_ID (cap_Command arg));
     ope_Topic := "operations.assist"; ope_Destinations := operationDestinations;
     ope_Data := Some [("assistId", JUuid (cap_AssistID arg));
                       ("tableId", JUuid (ast_TableID assist));
                       ("status", JStr (ast_Status assist))] |}.

Definition changeAssistCommand (arg : ChangeAssistParams) (nextStatus eventType : string)
    (encode : option (AssistRequest -> result error (Z * option json)))
    : Go (option AssistRequest * CommandReplay) :=
  runTenantCommand (cap_OrganisationID arg) (cap_LocationID arg) (cap_ActorRef arg)
    (cap_Command arg) (changeAssistInTx arg nextStatus)
    (fun assist => writeOperationalEvent (assist_event arg eventType assist)) encode.

Definition AcknowledgeAssistCommand (arg : ChangeAssistParams)
    (encode : option (AssistRequest -> result error (Z * option json))) :=
  changeAssistCommand arg AssistStatusAcknowledged "assist.acknowledged" encode.

Definition ResolveAssistCommand (arg : ChangeAssistParams)
    (encode : option (AssistRequest -> result error (Z * option json))) :=
  changeAssistCommand arg AssistStatusResolved "assist.resolved" encode.

Definition CancelAssistCommand (arg : ChangeAssistParams)
    (encode : option (AssistRequest -> result error (Z * option json))) :=
  changeAssistCommand arg AssistStatusCancelled "assist.cancelled" encode.

Definition AcknowledgeAssist (arg : ChangeAssistParams) : Go (option AssistRequest) :=
  r ← AcknowledgeAssistCommand arg None; mret (fst r).
Definition ResolveAssist (arg : ChangeAssistParams) : Go (option AssistRequest) :=
  r ← ResolveAssistCommand arg None; mret (fst r).
Definition CancelAssist (arg : ChangeAssistParams) : Go (option AssistRequest) :=
  r ← CancelAssistCommand arg None; mret (fst r).
