(* ===== verification/Guest.v ===== *)
(** [internal/domain/operations/guest.go] and [tokens.go]: what an anonymous
    guest may do with the capability token printed in a table's QR code, and how
    staff issue, rotate and revoke such capabilities. *)

From S2P Require Import Prelude Json Crypto Schema GoTx Store Queries Events Operations.
#[local] Open Scope string_scope.
#[local] Open Scope Z_scope.
#[local] Open Scope list_scope.

Definition GuestSource := "guest_qr".
Definition guestActorRef := "guest:qr".
Definition guestTokenPrefixLength : nat := 16.
(** [2 * time.Minute] in nanoseconds. *)
Definition defaultGuestCooldown : Z := 2 * 60 * 1000000000.
Definition DefaultCapabilityTokenBytes : nat := 32.

(** ** Capability tokens *)

Definition GenerateCapabilityTokenWithBytes (size : nat) : Go string :=
  guard_err (Nat.ltb size DefaultCapabilityTokenBytes)
    (Errorf "capability token size must be at least 32 bytes") ;;
  buf ← map_err (Wrap "reading random bytes") (rand_Read size);
  mret (RawURLEncode buf).

Definition GenerateCapabilityToken : Go string :=
  GenerateCapabilityTokenWithBytes DefaultCapabilityTokenBytes.

Definition TokenLookupParts (token : string) : result error (string * list N) :=
  let token := TrimSpace token in
  if Nat.ltb (String.length token) guestTokenPrefixLength
  then Err (Errorf "qr token must be at least 16 characters")
  else Ok (String.substring 0 guestTokenPrefixLength token, Sum256 (bytes_N token)).

(** ** The actions a location offers to its guests *)

Record GuestAction := {
  gac_Key : string;
  gac_Label : string;
  gac_SortOrder : Z;
  gac_Enabled : bool;
}.

Definition defaultGuestActions : list GuestAction :=
  [{| gac_Key := "call_waiter"; gac_Label := "Call waiter"; gac_SortOrder := 10; gac_Enabled := true |};
   {| gac_Key := "request_bill"; gac_Label := "Request bill"; gac_SortOrder := 20; gac_Enabled := true |};
   {| gac_Key := "request_water"; gac_Label := "Request water"; gac_SortOrder := 30; gac_Enabled := true |};
   {| gac_Key := "request_service"; gac_Label := "Request service"; gac_SortOrder := 40; gac_Enabled := true |}].

Definition is_lower (c : ascii) : bool :=
  let n := N_of_ascii c in ((97 <=? n) && (n <=? 122))%N.
Definition is_digit (c : ascii) : bool :=
  let n := N_of_ascii c in ((48 <=? n) && (n <=? 57))%N.

(** The pattern [^[a-z][a-z0-9_]{1,63}$]. *)
Definition validGuestActionKey (key : string) : bool :=
  match bytes_of_string key with
  | c :: rest =>
      is_lower c
      && forallb (fun d => is_lower d || is_digit d || Ascii.eqb d "_") rest
      && Nat.leb 1 (length rest) && Nat.leb (length rest) 63
  | [] => false
  end.

(** One element of the [guestActions] array of a location's configuration. *)
Record actionConfig := {
  acf_Key : string;
  acf_Label : string;
  acf_SortOrder : Z;
  acf_Enabled : option bool;
}.

(** A struct field takes the members whose key matches its name without regard
    to case, in order; one of the wrong JSON type is skipped with an error the
    code ignores, and [null] leaves the field alone. *)
Definition assign {A} (dec : json -> option A) (name : string) (members : list (string * json))
    (zero : A) : A :=
  foldl (fun cur kv =>
    if fold_eq (fst kv) name then default cur (dec (snd kv)) else cur) zero members.

Definition dec_json_string (j : json) : option string :=
  match j with JStr s => Some s | _ => None end.
Definition dec_json_int (j : json) : option Z :=
  match j with
  | JNum z => if (int64_min <=? z) && (z <=? int64_max) then Some z else None
  | _ => None
  end.
Definition dec_json_bool_ptr (j : json) : option (option bool) :=
  match j with JBool b => Some (Some b) | JNull => Some None | _ => None end.

Definition dec_action (j : json) : actionConfig :=
  let ms := match j with JObj ms => ms | _ => [] end in
  {| acf_Key := assign dec_json_string "key" ms "";
     acf_Label := assign dec_json_string "label" ms "";
     acf_SortOrder := assign dec_json_int "sortOrder" ms 0;
     acf_Enabled := assign dec_json_bool_ptr "enabled" ms None |}.

Definition dec_actions (j : json) : option (list actionConfig) :=
  match j with
  | JArr l => Some (map dec_action l)
  | JNull => Some []
  | _ => None
  end.

Definition config_actions (raw : json) : list actionConfig :=
  match raw with
  | JObj ms => assign dec_actions "guestActions" ms []
  | _ => []
  end.

(** The loop body of [GuestActionsFromConfig]. *)
Definition action_of_config (item : actionConfig) : option GuestAction :=
  let key := TrimSpace (acf_Key item) in
  let label := TrimSpace (acf_Label item) in
  if negb (validGuestActionKey key) || String.eqb label ""
     || match acf_Enabled item with Some b => negb b | None => false end
  then None
  else Some {| gac_Key := key; gac_Label := label; gac_SortOrder := acf_SortOrder item;
               gac_Enabled := true |}.

(** [a] may stand before [b]: the negation of [less b a]. *)
Definition action_leb (a b : GuestAction) : bool :=
  if gac_SortOrder a =? gac_SortOrder b then string_leb (gac_Label a) (gac_Label b)
  else gac_SortOrder a <? gac_SortOrder b.

Definition GuestActionsFromConfig (raw : json) : list GuestAction :=
  match config_actions raw with
  | [] => defaultGuestActions
  | items =>
      match sort_by action_leb (omap action_of_config items) with
      | [] => defaultGuestActions
      | actions => actions
      end
  end.

Definition guestActionEnabled (raw : json) (key : string) : bool :=
  existsb (fun action => String.eqb (gac_Key action) key) (GuestActionsFromConfig raw).

(** ** Resolving a token *)

Definition find_capability (candidates : list TableQrCapability) (hash : list N)
    : option TableQrCapability :=
  List.find (fun c => bool_decide (qr_TokenHash c = hash)) candidates.

Definition resolveQRCapability (token : string) : Go TableQrCapability :=
  match TokenLookupParts token with
  | Err _ => fail ErrNotFound
  | Ok (prefix, hash) =>
      inTx (
        candidates ← map_err (Wrap "listing qr capabilities by prefix")
          (ListActiveTableQRCapabilitiesByPrefix prefix);
        match find_capability candidates hash with
        | Some match_ =>
            if (qr_ID match_ =? uuid_Nil)%N then fail ErrNotFound else mret match_
        | None => fail ErrNotFound
        end)
  end.

(** ** The command runner of guests *)

Definition runGuestCommand {T} (organisationID locationID : uuid) (actorRef : string)
    (meta : CommandMeta) (execute : Go T) (after : T -> Go unit)
    (encode : T -> result error (Z * option json)) : Go (option T * CommandReplay) :=
  map_err (Wrap "beginning transaction") BeginTx ;;
  or_rollback (Wrap "setting tenant context") SetContext ;;
  found ← (if (cmd_ID meta =? uuid_Nil)%N then mret None
           else or_rollback id (getIdempotencyReplay organisationID meta));
  match found with
  | Some replay =>
      map_err (Wrap "committing replay transaction") Commit ;;
      mret (None, replay)
  | None =>
      value ← or_rollback id execute;
      or_rollback id (after value) ;;
      resp ← or_rollback (Wrap "encoding idempotency response") (lift (encode value));
      let status := fst resp in
      body ← (if (cmd_ID meta =? uuid_Nil)%N then mret (snd resp)
              else let body := default (JObj []) (snd resp) in
                   or_rollback id (insertIdempotencyRecord organisationID locationID actorRef
                                     meta status body) ;;
                   mret (Some body));
      map_err (Wrap "committing transaction") Commit ;;
      mret (Some value, {| rep_Replayed := false; rep_Status := status; rep_Body := body |})
  end.

(** ** Guest operations *)

Record GuestContextResult := {
  gcx_OrganisationID : uuid;
  gcx_LocationID : uuid;
  gcx_LocationName : string;
  gcx_TableID : uuid;
  gcx_TableLabel : string;
  gcx_Occupancy : TableOccupancy;
  gcx_Actions : list GuestAction;
  gcx_ActiveRequest : option AssistRequest;
}.

Definition GuestContext (token : string) : Go GuestContextResult :=
  capability ← resolveQRCapability token;
  let org := qr_OrganisationID capability in
  let loc := qr_LocationID capability in
  let tbl := qr_TableID capability in
  inTenantTx (
    map_err (Wrap "updating qr capability use") (TouchTableQRCapability (qr_ID capability)) ;;
    location ← map_err (no_rows_to ErrNotFound "getting guest location") (GetLocation loc org);
    state ← map_err (no_rows_to ErrNotFound "getting guest table state") (GetTableState tbl org loc);
    let occupancy := snd state in
    active ← (if String.eqb (occ_Status occupancy) TableStatusOccupied
                 && is_some (occ_CurrentSessionID occupancy)
              then
                r ← attempt (GetActiveGuestAssistBySession org loc tbl
                               (occ_CurrentSessionID occupancy));
                match r with
                | Ok a => mret (Some a)
                | Err err => if errors_Is err NoRows then mret None
                             else fail (Wrap "getting active guest assist" err)
                end
              else mret None);
    mret {| gcx_OrganisationID := org; gcx_LocationID := loc; gcx_LocationName := loc_Name location;
            gcx_TableID := tbl; gcx_TableLabel := tbl_Label (fst state);
            gcx_Occupancy := occupancy;
            gcx_Actions := GuestActionsFromConfig (loc_OperatingConfig location);
            gcx_ActiveRequest := active |}).

Record GuestRequestParams := {
  grp_Token : string;
  grp_ActionKey : string;
  grp_IdempotencyKey : uuid;
  grp_PayloadHash : list N;
}.

Record GuestCancelParams := {
  gcp_Token : string;
  gcp_AssistID : uuid;
  gcp_IdempotencyKey : uuid;
  gcp_PayloadHash : list N;
}.

Definition guest_meta (key : uuid) (type : string) (hash : list N) : CommandMeta :=
  {| cmd_ID := key; cmd_Type := type; cmd_PayloadHash := hash; cmd_DeviceID := None;
     cmd_Retention := DefaultIdempotencyRetention |}.

(** The [execute] closure of [CreateGuestRequest]; the flag is the closure's
    [createdNew]. *)
Definition createGuestRequestInTx (capability : TableQrCapability) (actionKey : string)
    : Go (AssistRequest * bool) :=
  let org := qr_OrganisationID capability in
  let loc := qr_LocationID capability in
  let tbl := qr_TableID capability in
  location ← map_err (no_rows_to ErrNotFound "getting guest location") (GetLocation loc org);
  guard_err (negb (guestActionEnabled (loc_OperatingConfig location) actionKey))
    ErrActionNotEnabled ;;
  occupancy ← lockTableOccupancy tbl org loc;
  guard_err (negb (String.eqb (occ_Status occupancy) TableStatusOccupied)
             || negb (is_some (occ_CurrentSessionID occupancy))) ErrNoActiveSession ;;
  let session := occ_CurrentSessionID occupancy in
  pending ← attempt (GetPendingGuestAssistByAction org loc tbl session (Some actionKey));
  match pending with
  | Ok found => mret (found, false)
  | Err err =>
      guard_err (negb (errors_Is err NoRows)) (Wrap "getting pending guest assist" err) ;;
      terminal ← attempt (GetLatestTerminalGuestAssistByAction org loc tbl session (Some actionKey));
      match terminal with
      | Ok last =>
          now ← time_Now;
          guard_err (now - ast_RequestedAt last <? defaultGuestCooldown) ErrRateLimited
      | Err err =>
          guard_err (negb (errors_Is err NoRows)) (Wrap "getting latest terminal guest assist" err)
      end ;;
      created ← map_err (Wrap "creating guest assist request")
        (CreateAssistRequest org loc tbl session (nullableText guestActorRef) GuestSource None
           (Some actionKey));
      mret (created, true)
  end.

Definition guest_requested_event (capability : TableQrCapability) (key : uuid)
    (actionKey : string) (assist : AssistRequest) : operationalEvent :=
  {| ope_OrganisationID := qr_OrganisationID capability;
     ope_LocationID := qr_LocationID capability;
     ope_EventType := TypeAssistRequested; ope_EntityType := "assist";
     ope_EntityID := ast_ID assist; ope_EntityVersion := ast_Version assist;
     ope_ActorRef := guestActorRef; ope_DeviceID := None; ope_CommandID := nullableUUID key;
     ope_Topic := "operations.assist"; ope_Destinations := operationDestinations;
     ope_Data := Some [("assistId", JUuid (ast_ID assist));
                       ("tableId", JUuid (qr_TableID capability));
                       ("status", JStr (ast_Status assist));
                       ("source", JStr GuestSource);
                       ("actionKey", JStr actionKey)] |}.

Definition CreateGuestRequest (arg : GuestRequestParams)
    (encode : AssistRequest -> result error (Z * option json))
    : Go (option (AssistRequest * bool) * CommandReplay) :=
  let actionKey := TrimSpace (grp_ActionKey arg) in
  guard_err (negb (validGuestActionKey actionKey)) ErrActionNotEnabled ;;
  capability ← resolveQRCapability (grp_Token arg);
  let meta := guest_meta (grp_IdempotencyKey arg) "guest.request" (grp_PayloadHash arg) in
  runGuestCommand (qr_OrganisationID capability) (qr_LocationID capability) guestActorRef meta
    (createGuestRequestInTx capability actionKey)
    (fun r => if negb (snd r) then mret tt
              else writeOperationalEvent
                     (guest_requested_event capability (grp_IdempotencyKey arg) actionKey (fst r)))
    (fun r => encode (fst r)).

Definition GetGuestRequest (token : string) (assistID : uuid) : Go AssistRequest :=
  capability ← resolveQRCapability token;
  inTenantTx (
    map_err (no_rows_to ErrNotFound "getting guest assist")
      (GetGuestAssistByID assistID (qr_OrganisationID capability) (qr_LocationID capability)
         (qr_TableID capability))).

Definition cancelGuestRequestInTx (capability : TableQrCapability) (assistID : uuid)
    : Go AssistRequest :=
  let org := qr_OrganisationID capability in
  let loc := qr_LocationID capability in
  current ← map_err (no_rows_to ErrNotFound "getting guest assist")
    (GetGuestAssistByID assistID org loc (qr_TableID capability));
  guard_err (negb (String.eqb (ast_Status current) AssistStatusPending))
    ErrInvalidAssistTransition ;;
  map_err (no_rows_to ErrInvalidAssistTransition "cancelling guest assist")
    (CancelPendingGuestAssistRequest assistID org loc (nullableText guestActorRef)).

Definition guest_cancelled_event (capability : TableQrCapability) (key : uuid)
    (assist : AssistRequest) : operationalEvent :=
  {| ope_OrganisationID := qr_OrganisationID capability;
     ope_LocationID := qr_LocationID capability;
     ope_EventType := TypeAssistCancelled; ope_EntityType := "assist";
     ope_EntityID := ast_ID assist; ope_EntityVersion := ast_Version assist;
     ope_ActorRef := guestActorRef; ope_DeviceID := None; ope_CommandID := nullableUUID key;
     ope_Topic := "operations.assist"; ope_Destinations := operationDestinations;
     ope_Data := Some [("assistId", JUuid (ast_ID assist));
                       ("tableId", JUuid (qr_TableID capability));
                       ("status", JStr (ast_Status assist))] |}.

Definition CancelGuestRequest (arg : GuestCancelParams)
    (encode : AssistRequest -> result error (Z * option json))
    : Go (option AssistRequest * CommandReplay) :=
  capability ← resolveQRCapability (gcp_Token arg);
  let meta := guest_meta (gcp_IdempotencyKey arg) "guest.cancel" (gcp_PayloadHash arg) in
  runGuestCommand (qr_OrganisationID capability) (qr_LocationID capability) guestActorRef meta
    (cancelGuestRequestInTx capability (gcp_AssistID arg))
    (fun assist => writeOperationalEvent
                     (guest_cancelled_event capability (gcp_IdempotencyKey arg) assist))
    encode.

(** ** Issuing, rotating and revoking capabilities *)

Record QRExport := {
  qrx_ID : uuid;
  qrx_TableID : uuid;
  qrx_Token : string;
  qrx_LookupPrefix : string;
  qrx_Label : string;
  qrx_ExpiresAt : option Z;
  qrx_IssuedAt : Z;
  qrx_RevokedAt : option Z;
  qrx_Version : Z;
}.

Definition qrLabel (value : option string) : string := default "" value.

Definition qrExportFromDB (capability : TableQrCapability) (token : string) : QRExport :=
  {| qrx_ID := qr_ID capability; qrx_TableID := qr_TableID capability; qrx_Token := token;
     qrx_LookupPrefix := qr_TokenLookupPrefix capability;
     qrx_Label := qrLabel (qr_Label capability); qrx_ExpiresAt := qr_ExpiresAt capability;
     qrx_IssuedAt := qr_IssuedAt capability; qrx_RevokedAt := qr_RevokedAt capability;
     qrx_Version := qr_Version capability |}.

Definition ExportTableQRCapability (organisationID locationID tableID : uuid) (label : string)
    (expiresAt : option Z) : Go QRExport :=
  token ← GenerateCapabilityToken;
  parts ← lift (TokenLookupParts token);
  inTenantTx (
    capability ← map_err (Wrap "creating table qr capability")
      (CreateTableQRCapabilityHashed organisationID locationID tableID (fst parts) (snd parts)
         (TrimSpace label) expiresAt);
    mret (qrExportFromDB capability token)).

Definition RotateTableQRCapability (organisationID locationID tableID capabilityID : uuid)
    : Go QRExport :=
  inTenantTx (
    previous ← map_err (no_rows_to ErrNotFound "revoking previous table qr capability")
      (RotateTableQRCapabilityRow capabilityID organisationID locationID tableID);
    token ← GenerateCapabilityToken;
    parts ← lift (TokenLookupParts token);
    next ← map_err (Wrap "creating rotated table qr capability")
      (CreateTableQRCapabilityHashed organisationID locationID tableID (fst parts) (snd parts)
         (qrLabel (qr_Label previous)) (qr_ExpiresAt previous));
    mret (qrExportFromDB next token)).

Definition RevokeTableQRCapability (organisationID locationID tableID capabilityID : uuid)
    : Go TableQrCapability :=
  inTenantTx (
    revoked ← map_err (no_rows_to ErrNotFound "revoking table qr capability")
      (RevokeTableQRCapabilityRow capabilityID organisationID locationID);
    guard_err (negb (qr_TableID revoked =? tableID)%N) ErrNotFound ;;
    mret revoked).
