(* ===== verification/Outbox.v ===== *)
(** [internal/outbox/outbox.go]: the worker that claims outbox records, hands
    their events to the consumers of their destination, and schedules retries.

    Metrics and tracing are left out.  The consumers a worker is given are
    parameters: a consumer is a name and any computation on the event. *)

From S2P Require Import Prelude Json Schema GoTx Store Queries Events Operations.
#[local] Open Scope string_scope.
#[local] Open Scope Z_scope.
#[local] Open Scope list_scope.

Definition StatusPending := "pending".
Definition StatusProcessing := "processing".
Definition StatusProcessed := "processed".
Definition StatusFailed := "failed".

(** ** The text of an error

    [err.Error()] is stored with a failed record.  The texts of driver errors and
    of [encoding/json]'s decoding errors are parameters. *)
Class ErrorTexts := {
  pg_text : PgError -> string;
  decode_text : json -> string;
}.

Fixpoint error_text `{ErrorTexts} (err : error) : string :=
  match err with
  | Sentinel _ msg => msg
  | NoRows => "no rows in result set"
  | PgErr p => pg_text p
  | VersionConflictError _ entity id expected current =>
      entity +:+ " " +:+ uuid_String id +:+ " version conflict: expected " +:+ int_String expected
      +:+ ", current " +:+ int_String current
  | Errorf msg => msg
  | ConflictError _ constraint => uniqueConstraintMessage constraint
  | Wrap msg e => msg +:+ ": " +:+ error_text e
  | Join e1 e2 => error_text e1 +:+ String "010" EmptyString +:+ error_text e2
  end.

(** ** Records, consumers and the worker *)

Record Record_ := {
  rcd_ID : uuid;
  rcd_OrganisationID : uuid;
  rcd_LocationID : uuid;
  rcd_EventID : uuid;
  rcd_Destination : string;
  rcd_Topic : string;
  rcd_Payload : json;
  rcd_Attempts : Z;
  rcd_CreatedAt : Z;
}.

Record Consumer := {
  con_Name : string;
  con_Handle : Envelope -> Go unit;
}.

(** [ConsumerFunc.Handle]: a nil function does nothing. *)
Definition ConsumerFunc (name : string) (fn : option (Envelope -> Go unit)) : Consumer :=
  {| con_Name := name;
     con_Handle := match fn with Some f => f | None => fun _ => mret tt end |}.

(** Durations are nanoseconds. *)
Record Config := {
  cfg_InstanceID : string;
  cfg_BatchSize : Z;
  cfg_Concurrency : Z;
  cfg_MaxAttempts : Z;
  cfg_PollInterval : Z;
  cfg_BackoffBase : Z;
  cfg_BackoffMax : Z;
  cfg_ClaimTimeout : Z;
}.

Record Worker := {
  wk_consumerMap : list (string * list Consumer);
  wk_destinations : list string;
  wk_instanceID : string;
  wk_batchSize : Z;
  wk_concurrency : Z;
  wk_maxAttempts : Z;
  wk_pollInterval : Z;
  wk_backoffBase : Z;
  wk_backoffMax : Z;
  wk_claimTimeout : Z;
}.

Definition positive_or (default value : Z) : Z := if value <=? 0 then default else value.

(** [generated] is the instance id made of a fresh UUID. *)
Definition NewWorker (consumers : list (string * list Consumer)) (cfg : Config)
    (generated : string) : Worker :=
  {| wk_consumerMap := consumers;
     wk_destinations := map fst consumers;
     wk_instanceID := if String.eqb (cfg_InstanceID cfg) "" then generated else cfg_InstanceID cfg;
     wk_batchSize := positive_or 25 (cfg_BatchSize cfg);
     wk_concurrency := positive_or 4 (cfg_Concurrency cfg);
     wk_maxAttempts := positive_or 8 (cfg_MaxAttempts cfg);
     wk_pollInterval := positive_or 1000000000 (cfg_PollInterval cfg);
     wk_backoffBase := positive_or 1000000000 (cfg_BackoffBase cfg);
     wk_backoffMax := positive_or (60 * 1000000000) (cfg_BackoffMax cfg);
     wk_claimTimeout := positive_or (5 * 60 * 1000000000) (cfg_ClaimTimeout cfg) |}.

Fixpoint consumers_of (m : list (string * list Consumer)) (key : string) : list Consumer :=
  match m with
  | [] => []
  | (k, cs) :: m' => if String.eqb k key then cs else consumers_of m' key
  end.

(** The consumers of a record: those of its destination, else of its topic. *)
Definition record_consumers (w : Worker) (record : Record_) : list Consumer :=
  match consumers_of (wk_consumerMap w) (rcd_Destination record) with
  | [] => consumers_of (wk_consumerMap w) (rcd_Topic record)
  | cs => cs
  end.

(** ** Backoff

    [float64(base) * math.Pow(2, exponent)]: the base is rounded to 53
    significant bits, the power is exact and so is the product while it is
    finite.  Converting a float that is not an [int64] is left to the
    implementation by the language; [conv] is its result. *)
Definition round53 (z : Z) : Z :=
  let e := Z.log2 z - 52 in
  if e <=? 0 then z
  else
    let q := z / 2 ^ e in
    let r := z mod 2 ^ e in
    let half := 2 ^ (e - 1) in
    let up := (half <? r) || ((half =? r) && Z.odd q) in
    (if up then q + 1 else q) * 2 ^ e.

Definition backoff (conv : Z -> Z) (w : Worker) (attempt : Z) : Z :=
  let exponent := Z.max 0 (attempt - 1) in
  let v := round53 (wk_backoffBase w) * 2 ^ exponent in
  let delay := if v <=? int64_max then v else conv v in
  if wk_backoffMax w <? delay then wk_backoffMax w else delay.

(** ** Claiming *)

(** Milliseconds of a duration, as [Duration.Milliseconds]. *)
Definition Milliseconds (d : Z) : Z := Z.quot d 1000000.

Definition claimable (w : Worker) (now : Z) (r : OutboxRecord) : bool :=
  ((String.eqb (obx_Status r) "pending" && (obx_AvailableAt r <=? now))
   || (String.eqb (obx_Status r) "processing"
       && match obx_LockedAt r with
          | Some t => t <? now - Milliseconds (wk_claimTimeout w) * 1000000
          | None => false
          end))
  && (match wk_destinations w with [] => true | _ => false end
      || existsb (String.eqb (obx_Destination r)) (wk_destinations w)
      || existsb (String.eqb (obx_Topic r)) (wk_destinations w)).

Definition by_created (a b : OutboxRecord) : bool :=
  (obx_CreatedAt a <? obx_CreatedAt b)
  || ((obx_CreatedAt a =? obx_CreatedAt b) && (obx_ID a <=? obx_ID b)%N).

Definition claimed_row (w : Worker) (now : Z) (r : OutboxRecord) : result error OutboxRecord :=
  let? n := int4_succ (obx_Attempts r) in
  Ok {| obx_ID := obx_ID r; obx_OrganisationID := obx_OrganisationID r;
        obx_LocationID := obx_LocationID r; obx_EventID := obx_EventID r; obx_Topic := obx_Topic r;
        obx_Payload := obx_Payload r; obx_Status := "processing"; obx_Attempts := n;
        obx_AvailableAt := obx_AvailableAt r; obx_LockedAt := Some now;
        obx_LockedBy := Some (wk_instanceID w); obx_ProcessedAt := obx_ProcessedAt r;
        obx_CreatedAt := obx_CreatedAt r; obx_UpdatedAt := now;
        obx_Destination := obx_Destination r; obx_LastError := None |}.

Definition record_of (r : OutboxRecord) : Record_ :=
  {| rcd_ID := obx_ID r; rcd_OrganisationID := obx_OrganisationID r;
     rcd_LocationID := obx_LocationID r; rcd_EventID := obx_EventID r;
     rcd_Destination := obx_Destination r; rcd_Topic := obx_Topic r;
     rcd_Payload := obx_Payload r; rcd_Attempts := obx_Attempts r;
     rcd_CreatedAt := obx_CreatedAt r |}.

(** [UPDATE ... FROM claimed]: every row of the list is rewritten, or the
    statement fails. *)
Fixpoint claim_rows (w : Worker) (now : Z) (l : list OutboxRecord) (d : Db)
    : result error (list Record_ * Db) :=
  match l with
  | [] => Ok ([], d)
  | r :: l' =>
      let? r' := claimed_row w now r in
      let? x := claim_rows w now l' (set_outbox (<[obx_ID r := r']> (db_outbox d)) d) in
      Ok (record_of r' :: fst x, snd x)
  end.

(** Rows locked by other transactions are skipped by [SKIP LOCKED]; here every
    transaction runs alone. *)
Definition claim (w : Worker) : Go (list Record_) :=
  map_err (Wrap "beginning outbox claim transaction") BeginTx ;;
  or_rollback (Wrap "setting worker database context") SetContext ;;
  records ← or_rollback (Wrap "claiming outbox records") (exec (fun now _ d =>
    claim_rows w now (take (Z.to_nat (wk_batchSize w)) (rows db_outbox d (claimable w now) by_created)) d));
  map_err (Wrap "committing outbox claim transaction") Commit ;;
  mret records.

(** ** Administrative statements *)

Definition adminExec (q : Stmt unit) : Go unit :=
  map_err (Wrap "beginning admin transaction") BeginTx ;;
  or_rollback (Wrap "setting admin database context") SetContext ;;
  or_rollback id (exec q) ;;
  map_err (Wrap "committing admin transaction") Commit ;;
  mret tt.

(** [UPDATE outbox_records SET ... WHERE id = $1]: no row is not an error. *)
Definition update_outbox (id : uuid) (set : Z -> OutboxRecord -> OutboxRecord) : Stmt unit :=
  fun now _ d =>
    match db_outbox d !! id with
    | Some r => Ok (tt, set_outbox (<[id := set now r]> (db_outbox d)) d)
    | None => Ok (tt, d)
    end.

Definition update_consumer (name : string) (event : uuid)
    (set : Z -> ConsumerEventRecord -> ConsumerEventRecord) : Stmt unit :=
  fun now _ d =>
    match db_consumer_events d !! (name, event) with
    | Some r => Ok (tt, set_consumer_events (<[(name, event) := set now r]> (db_consumer_events d)) d)
    | None => Ok (tt, d)
    end.

Definition with_status (status : string) (available : Z) (processed : option Z)
    (last_error : option string) (now : Z) (r : OutboxRecord) : OutboxRecord :=
  {| obx_ID := obx_ID r; obx_OrganisationID := obx_OrganisationID r;
     obx_LocationID := obx_LocationID r; obx_EventID := obx_EventID r; obx_Topic := obx_Topic r;
     obx_Payload := obx_Payload r; obx_Status := status; obx_Attempts := obx_Attempts r;
     obx_AvailableAt := available; obx_LockedAt := None; obx_LockedBy := None;
     obx_ProcessedAt := processed; obx_CreatedAt := obx_CreatedAt r; obx_UpdatedAt := now;
     obx_Destination := obx_Destination r; obx_LastError := last_error |}.

Definition processed_outbox (now : Z) (r : OutboxRecord) : OutboxRecord :=
  with_status "processed" (obx_AvailableAt r) (Some now) (obx_LastError r) now r.
Definition retried_outbox (delay_ms : Z) (text : string) (now : Z) (r : OutboxRecord) : OutboxRecord :=
  with_status "pending" (now + delay_ms * 1000000) (obx_ProcessedAt r) (Some text) now r.
Definition failed_outbox (text : string) (now : Z) (r : OutboxRecord) : OutboxRecord :=
  with_status "failed" (obx_AvailableAt r) (obx_ProcessedAt r) (Some text) now r.

Definition with_consumer_status (status : string) (processed : option Z) (last_error : option string)
    (r : ConsumerEventRecord) : ConsumerEventRecord :=
  {| cev_ConsumerName := cev_ConsumerName r; cev_EventID := cev_EventID r;
     cev_OutboxRecordID := cev_OutboxRecordID r; cev_Status := status;
     cev_FirstSeenAt := cev_FirstSeenAt r; cev_ProcessedAt := processed; cev_LastError := last_error |}.

Definition markProcessed (record : Record_) : Go unit :=
  adminExec (update_outbox (rcd_ID record) processed_outbox).

Definition markConsumerProcessed (name : string) (event : uuid) : Go unit :=
  map_err (Wrap "marking consumer event processed")
    (adminExec (update_consumer name event (fun now => with_consumer_status "processed" (Some now) None))).

Section Processing.
Context `{ErrorTexts} (conv : Z -> Z).

Definition markConsumerFailed (name : string) (event : uuid) (cause : error) : Go unit :=
  map_err (Wrap "marking consumer event failed")
  (adminExec (update_consumer name event (fun _ r =>
   with_consumer_status "failed" (cev_ProcessedAt r) (Some (error_text cause)) r))).

Definition markFailed (record : Record_) (cause : error) : Go unit :=
  map_err (Wrap "marking outbox record failed")
  (adminExec (update_outbox (rcd_ID record) (failed_outbox (error_text cause)))) ;;
  fail cause.

Definition retryOrFail (w : Worker) (record : Record_) (cause : error) : Go unit :=
  if wk_maxAttempts w <=? rcd_Attempts record then markFailed record cause
  else
  map_err (Wrap "scheduling outbox retry")
  (adminExec (update_outbox (rcd_ID record)
   (retried_outbox (Milliseconds (backoff conv w (rcd_Attempts record)))
      (error_text cause)))) ;;
  fail cause.

(** ** Handing an event to a consumer *)

Definition consumer_event_ok (d : Db) (r : ConsumerEventRecord) : result error unit :=
  let? _ := check (consumer_event_checks r) (CheckViolation "consumer_event_records") in
  let? _ := check (is_some (db_events d !! cev_EventID r))
        (ForeignKeyViolation "consumer_event_records_event_id_fkey") in
  check (is_some (db_outbox d !! cev_OutboxRecordID r))
  (ForeignKeyViolation "consumer_event_records_outbox_record_id_fkey").

(** [INSERT ... ON CONFLICT DO NOTHING RETURNING true] *)
Definition insert_consumer_event (name : string) (event record : uuid) : Stmt bool := fun now _ d =>
  let r := {| cev_ConsumerName := name; cev_EventID := event; cev_OutboxRecordID := record;
        cev_Status := "processing"; cev_FirstSeenAt := now; cev_ProcessedAt := None;
        cev_LastError := None |} in
  match db_consumer_events d !! (name, event) with
  | Some _ => Err NoRows
  | None =>
  let? _ := consumer_event_ok d r in
  Ok (true, set_consumer_events (<[(name, event) := r]> (db_consumer_events d)) d)
  end.

(** The transaction that opens a consumer's handling; [true] when the event
still has to be handled. *)
Definition startConsumer (record : Record_) (name : string) : Go bool :=
  map_err (Wrap "beginning consumer idempotency transaction") BeginTx ;;
  or_rollback (Wrap "setting consumer database context") SetContext ;;
  r ← attempt (exec (insert_consumer_event name (rcd_EventID record) (rcd_ID record)));
  inserted ← match r with
       | Ok b => mret b
       | Err err => if errors_Is err NoRows then mret false
                    else rollback (Wrap "recording consumer idempotency start" err)
       end;
  skip ← (if (inserted : bool) then mret false
    else
      row ← or_rollback (Wrap "reading consumer idempotency status")
        (exec (select_one db_consumer_events (name, rcd_EventID record) (fun _ => true)));
      mret (String.eqb (cev_Status row) StatusProcessed));
  if (skip : bool) then
  map_err (Wrap "committing consumer idempotency skip") Commit ;; mret false
  else
  map_err (Wrap "committing consumer idempotency start") Commit ;; mret true.

Definition handleConsumer (record : Record_) (event : Envelope) (consumer : Consumer) : Go unit :=
  todo ← startConsumer record (con_Name consumer);
  if (todo : bool) then
  r ← attempt (con_Handle consumer event);
  match r with
  | Err err =>
  attempt (markConsumerFailed (con_Name consumer) (rcd_EventID record) err) ;;
  fail (Wrap ("consumer " +:+ con_Name consumer +:+ " handling event "
              +:+ uuid_String (rcd_EventID record)) err)
  | Ok _ => markConsumerProcessed (con_Name consumer) (rcd_EventID record)
  end
  else mret tt.

(** ** Processing a record, a batch *)

Definition processRecord (w : Worker) (record : Record_) : Go unit :=
  match Envelope_of_json (rcd_Payload record) with
  | None => markFailed record (Wrap "decoding event payload" (Errorf (decode_text (rcd_Payload record))))
  | Some event =>
  r ← attempt (for_each (record_consumers w record) (handleConsumer record event));
  match r with
  | Err err => retryOrFail w record err
  | Ok _ => markProcessed record
  end
  end.

(** The first error of the group, after every record was processed. *)
Fixpoint process_all (w : Worker) (records : list Record_) : Go (option error) :=
  match records with
  | [] => mret None
  | record :: rest =>
  r ← attempt (processRecord w record);
  first ← process_all w rest;
  mret (match r with Err err => Some err | Ok _ => first end)
  end.

(** [ProcessBatch]: the goroutines of the group run one after the other, in the
order [schedule] puts them.  The cancellation of the group's context after a
first error shows as failing calls of the others. *)
Definition ProcessBatch (w : Worker) (schedule : list Record_ -> list Record_) : Go (Z * option error) :=
  records ← claim w;
  err ← process_all w (schedule records);
  mret (Z.of_nat (length records), err).

(** [Run]: batches one after the other, at once while there is work and after a
tick otherwise.  [cancelled n] says whether the context is done when the
worker waits after its [n]-th batch; [fuel] bounds the batches, and [None]
is a worker that still runs. *)
Definition Canceled : error := Sentinel "context" "context canceled".

Fixpoint Run (fuel : nat) (w : Worker) (schedule : list Record_ -> list Record_)
  (cancelled : nat -> bool) (n : nat) : Go (option error) :=
  match fuel with
  | O => mret None
  | S fuel =>
  r ← attempt (ProcessBatch w schedule);
  let '(processed, err) := match r with Ok x => x | Err e => (0, Some e) end in
  if from_option (fun e => errors_Is e Canceled) false err then mret err
  else if 0 <? processed then Run fuel w schedule cancelled (S n)
  else if cancelled n then mret (Some Canceled)
  else Run fuel w schedule cancelled (S n)
  end.
End Processing.

(** ** Statistics *)

Record Stats := { sts_PendingCount : Z; sts_OldestPendingAge : Z }.

Definition is_pending (r : OutboxRecord) : bool := String.eqb (obx_Status r) "pending".

Definition oldest (l : list OutboxRecord) : option Z :=
  foldr (fun r acc => Some (match acc with None => obx_CreatedAt r | Some t => Z.min (obx_CreatedAt r) t end))
    None l.

Definition GetStats : Go Stats :=
  map_err (Wrap "querying outbox stats") (
    map_err (Wrap "beginning admin query transaction") BeginTx ;;
    or_rollback (Wrap "setting admin database context") SetContext ;;
    row ← or_rollback id (exec (fun _ _ d =>
      let l := List.filter is_pending (snd <$> map_to_list (db_outbox d)) in
      Ok ((Z.of_nat (length l), oldest l), d)));
    map_err (Wrap "committing admin query transaction") Commit ;;
    mret row) ≫= fun row =>
  match snd row with
  | None => mret {| sts_PendingCount := fst row; sts_OldestPendingAge := 0 |}
  | Some t => now ← time_Now; mret {| sts_PendingCount := fst row; sts_OldestPendingAge := now - t |}
  end.
