(* ===== verification/ReferencePOS.v ===== *)
(** What the integrations package knows of a vendor ([Adapter] of
    [domain/integrations/service.go]), its own data types, and the adapter of the
    reference POS: the decoding of a webhook, its HMAC signature, and the tables
    of a connection's configuration. *)

From S2P Require Import Prelude Json Crypto Schema GoTx Queries Operations.
#[local] Open Scope string_scope.
#[local] Open Scope Z_scope.
#[local] Open Scope list_scope.

(** ** Constants *)

Definition VendorReferencePOS := "reference_pos".
Definition StatusConnected := "connected".
Definition StatusDisconnected := "disconnected".
Definition StatusDegraded := "degraded".
Definition MappingMapped := "mapped".
Definition MappingUnmapped := "unmapped".
Definition MappingIgnored := "ignored".
Definition WebhookReceived := "received".
Definition WebhookProcessed := "processed".
Definition WebhookFailed := "failed".
Definition WebhookSkipped := "skipped".
Definition ResolutionAutoCorrected := "auto_corrected".
Definition ResolutionReview := "review_required".
Definition ResolutionIgnored := "ignored".

Definition pkg := "integrations".
Definition ErrForbidden : error := Sentinel pkg "forbidden".
Definition ErrValidation : error := Sentinel pkg "validation failed".
Definition ErrNotFound : error := Sentinel pkg "not found".

(** ** Texts

    [json.Unmarshal]'s reading of a text as a value, the value PostgreSQL stores
    for a text and the text it gives for a value, the reading of an RFC 3339 time,
    and the environment of the process. *)
Class PosText := {
  json_Unmarshal : list N -> option json;
  jsonb_in : list N -> option json;
  jsonb_out : json -> list N;
  parse_rfc3339 : string -> option Z;
  Getenv : string -> string;
}.

(** ** Data *)

Record TenantActor := {
  iac_OrganisationID : uuid;
  iac_LocationID : uuid;
  iac_ActorRef : string;
}.

Record Connection := {
  con_ID : uuid;
  con_OrganisationID : uuid;
  con_LocationID : uuid;
  con_Vendor : string;
  con_DisplayName : string;
  con_CredentialRef : string;
  con_Status : string;
  con_Capabilities : json;
  con_Config : json;
  con_LastSuccessfulSyncAt : option Z;
  con_LastError : option string;
  con_CreatedAt : Z;
  con_UpdatedAt : Z;
}.

Record Mapping := {
  map_ID : uuid;
  map_ConnectionID : uuid;
  map_ExternalTableID : string;
  map_TableID : option uuid;
  map_ExternalLabel : option string;
  map_Status : string;
  map_LastSeenAt : option Z;
}.

Record Webhook := {
  whk_ID : uuid;
  whk_ConnectionID : uuid;
  whk_Vendor : string;
  whk_ExternalEventID : string;
  whk_ReceivedAt : Z;
  whk_SignatureValid : bool;
  whk_Payload : json;
  whk_ProcessingState : string;
  whk_Attempts : Z;
  whk_LastError : option string;
  whk_ProcessedAt : option Z;
}.

Record Discrepancy := {
  dsc_ID : uuid;
  dsc_ConnectionID : uuid;
  dsc_RunID : uuid;
  dsc_MappingID : option uuid;
  dsc_TableID : option uuid;
  dsc_ExternalTableID : string;
  dsc_Type : string;
  dsc_SeatdState : option string;
  dsc_ExternalState : option string;
  dsc_ResolutionState : string;
  dsc_Details : json;
  dsc_CreatedAt : Z;
}.

Record ReconciliationRun := {
  rrn_ID : uuid;
  rrn_ConnectionID : uuid;
  rrn_StartedAt : Z;
  rrn_CompletedAt : option Z;
  rrn_Status : string;
  rrn_CheckedCount : Z;
  rrn_DiscrepancyCount : Z;
  rrn_AutoCorrectedCount : Z;
  rrn_LastError : option string;
}.

Record Health := { hlt_Status : string; hlt_Message : string }.

Record WebhookFact := {
  fct_ExternalEventID : string;
  fct_ExternalTableID : string;
  fct_Status : string;
  fct_PartySize : option Z;
  fct_OccurredAt : option Z;
}.

Record ExternalTableState := {
  ext_TableID : string;
  ext_Status : string;
  ext_Label : string;
}.

Record WebhookResult := { wrs_Webhook : Webhook; wrs_Applied : bool }.

(** What the service asks of a vendor.  A webhook's payload is its bytes. *)
Record Adapter := {
  ad_Vendor : string;
  ad_HandleWebhook : Connection -> list N -> string -> Go (WebhookFact * bool);
  ad_FetchExternalStatus : Connection -> Go (list ExternalTableState);
  ad_CheckHealth : Connection -> Go Health;
}.

(** ** The reference POS *)

(** [ref_table] is the element of [config.ReferenceTables]; [webhookBody] the
    struct a payload is decoded into. *)
Record ref_table := { rft_ExternalTableID : string; rft_Status : string; rft_Label : string }.

Record webhookBody := {
  wbd_EventID : string;
  wbd_ExternalTableID : string;
  wbd_Status : string;
  wbd_PartySize : option Z;
  wbd_OccurredAt : option Z;
}.

Definition validTableStatus (status : string) : bool :=
  String.eqb status TableStatusAvailable || String.eqb status TableStatusOccupied.

Definition zero_ref_table : ref_table :=
  {| rft_ExternalTableID := ""; rft_Status := ""; rft_Label := "" |}.

Definition decode_ref_table : ref_table -> json -> option ref_table :=
  decode_struct (fun cur ms =>
    id ← decode_field decode_string "externalTableId" ms (rft_ExternalTableID cur);
    status ← decode_field decode_string "status" ms (rft_Status cur);
    label ← decode_field decode_string "label" ms (rft_Label cur);
    Some {| rft_ExternalTableID := id; rft_Status := status; rft_Label := label |}).

(** The [referenceTables] of a configuration. *)
Definition decode_config (j : json) : option (list ref_table) :=
  match j with
  | JObj ms =>
      fst <$> decode_field (decode_slice decode_ref_table zero_ref_table) "referenceTables" ms ([], [])
  | JNull => Some []
  | _ => None
  end.

Definition ref_table_valid (table : ref_table) : bool :=
  negb (String.eqb (TrimSpace (rft_ExternalTableID table)) "") && validTableStatus (rft_Status table).

Definition ref_table_state (table : ref_table) : ExternalTableState :=
  {| ext_TableID := TrimSpace (rft_ExternalTableID table); ext_Status := rft_Status table;
     ext_Label := TrimSpace (rft_Label table) |}.

Section Reference.
Context {PT : PosText}.

Definition decode_time_ptr (_ : option Z) (j : json) : option (option Z) :=
  match j with
  | JNull => Some None
  | JStr s => Some <$> parse_rfc3339 s
  | _ => None
  end.

Definition decode_webhook (j : json) : option webhookBody :=
  match j with
  | JObj ms =>
      event ← decode_field decode_string "eventId" ms "";
      table ← decode_field decode_string "externalTableId" ms "";
      status ← decode_field decode_string "status" ms "";
      party ← decode_field decode_int32_ptr "partySize" ms None;
      occurred ← decode_field decode_time_ptr "occurredAt" ms None;
      Some {| wbd_EventID := event; wbd_ExternalTableID := table; wbd_Status := status;
              wbd_PartySize := party; wbd_OccurredAt := occurred |}
  | JNull =>
      Some {| wbd_EventID := ""; wbd_ExternalTableID := ""; wbd_Status := "";
              wbd_PartySize := None; wbd_OccurredAt := None |}
  | _ => None
  end.

Definition referenceSecret : string :=
  let secret := TrimSpace (Getenv "SEATD_REFERENCE_POS_WEBHOOK_SECRET") in
  if String.eqb secret "" then "reference-pos-local-secret" else secret.

Definition verifyReferenceSignature (payload : list N) (signature : string) : bool :=
  let signature := TrimSpace signature in
  if String.eqb signature "" then false
  else
    let expectedHex := hex_EncodeToString (hmac_sha256 (bytes_N referenceSecret) payload) in
    String.eqb expectedHex signature.

Definition HandleWebhook (_ : Connection) (payload : list N) (signature : string)
    : result error (WebhookFact * bool) :=
  match json_Unmarshal payload ≫= decode_webhook with
  | None => Err ErrValidation
  | Some body =>
      let eventID := TrimSpace (wbd_EventID body) in
      let externalTableID := TrimSpace (wbd_ExternalTableID body) in
      if String.eqb eventID "" || String.eqb externalTableID ""
         || negb (validTableStatus (wbd_Status body))
      then Err ErrValidation
      else
        let valid := verifyReferenceSignature payload signature in
        Ok ({| fct_ExternalEventID := eventID; fct_ExternalTableID := externalTableID;
               fct_Status := wbd_Status body; fct_PartySize := wbd_PartySize body;
               fct_OccurredAt := wbd_OccurredAt body |}, valid)
  end.

(** The configuration is read from its [jsonb] text. *)
Definition FetchExternalStatus (connection : Connection) : result error (list ExternalTableState) :=
  match json_Unmarshal (jsonb_out (con_Config connection)) ≫= decode_config with
  | None => Err ErrValidation
  | Some tables => Ok (map ref_table_state (List.filter ref_table_valid tables))
  end.

Definition CheckHealth (connection : Connection) : Health :=
  if String.eqb (con_Status connection) StatusDisconnected
  then {| hlt_Status := StatusDisconnected; hlt_Message := "connection is disabled" |}
  else {| hlt_Status := con_Status connection; hlt_Message := "" |}.

Definition ReferencePOSAdapter : Adapter :=
  {| ad_Vendor := VendorReferencePOS;
     ad_HandleWebhook := fun connection payload signature =>
       lift (HandleWebhook connection payload signature);
     ad_FetchExternalStatus := fun connection => lift (FetchExternalStatus connection);
     ad_CheckHealth := fun connection => mret (CheckHealth connection) |}.

(** The adapters [NewService] registers. *)
Definition adapters : gmap string Adapter := {[ad_Vendor ReferencePOSAdapter := ReferencePOSAdapter]}.
End Reference.
