(* ===== verification/Integrations.v ===== *)
(** The integrations service ([domain/integrations/service.go]): the connections,
    mappings, webhooks and discrepancies a tenant sees, the webhooks vendors send,
    and the reconciliation of the floor with what a vendor reports.  Tracing is
    left out.  A request is a sequence of transactions, not one. *)

From S2P Require Import Prelude Json Crypto Schema GoTx Store Queries Tokens IdentityQueries IntegrationQueries Operations Outbox ReferencePOS.
#[local] Open Scope string_scope.
#[local] Open Scope Z_scope.
#[local] Open Scope list_scope.

Definition PermissionIntegrationsRead := "integrations.read".
Definition PermissionIntegrationsManage := "integrations.manage".

(** ** Rows as the service returns them *)

Definition scanConnection (row : IntegrationConnection) : Connection :=
  {| con_ID := icn_ID row; con_OrganisationID := icn_OrganisationID row;
     con_LocationID := icn_LocationID row; con_Vendor := icn_Vendor row;
     con_DisplayName := icn_DisplayName row; con_CredentialRef := icn_CredentialRef row;
     con_Status := icn_Status row; con_Capabilities := icn_Capabilities row;
     con_Config := icn_Config row; con_LastSuccessfulSyncAt := icn_LastSuccessfulSyncAt row;
     con_LastError := icn_LastError row; con_CreatedAt := icn_CreatedAt row;
     con_UpdatedAt := icn_UpdatedAt row |}.

Definition scanMapping (row : IntegrationTableMapping) : Mapping :=
  {| map_ID := itm_ID row; map_ConnectionID := itm_ConnectionID row;
     map_ExternalTableID := itm_ExternalTableID row; map_TableID := itm_TableID row;
     map_ExternalLabel := itm_ExternalLabel row; map_Status := itm_Status row;
     map_LastSeenAt := itm_LastSeenAt row |}.

Definition scanWebhook (row : IntegrationWebhookInbox) : Webhook :=
  {| whk_ID := iwh_ID row; whk_ConnectionID := iwh_ConnectionID row;
     whk_Vendor := iwh_Vendor row; whk_ExternalEventID := iwh_ExternalEventID row;
     whk_ReceivedAt := iwh_ReceivedAt row; whk_SignatureValid := iwh_SignatureValid row;
     whk_Payload := iwh_Payload row; whk_ProcessingState := iwh_ProcessingState row;
     whk_Attempts := iwh_Attempts row; whk_LastError := iwh_LastError row;
     whk_ProcessedAt := iwh_ProcessedAt row |}.

Definition scanDiscrepancy (row : IntegrationDiscrepancy) : Discrepancy :=
  {| dsc_ID := idc_ID row; dsc_ConnectionID := idc_ConnectionID row;
     dsc_RunID := idc_ReconciliationRunID row; dsc_MappingID := idc_MappingID row;
     dsc_TableID := idc_TableID row; dsc_ExternalTableID := idc_ExternalTableID row;
     dsc_Type := idc_DiscrepancyType row; dsc_SeatdState := idc_SeatdState row;
     dsc_ExternalState := idc_ExternalState row;
     dsc_ResolutionState := idc_ResolutionState row; dsc_Details := idc_Details row;
     dsc_CreatedAt := idc_CreatedAt row |}.

Definition scan_run (row : IntegrationReconciliationRun) : ReconciliationRun :=
  {| rrn_ID := irr_ID row; rrn_ConnectionID := irr_ConnectionID row;
     rrn_StartedAt := irr_StartedAt row; rrn_CompletedAt := irr_CompletedAt row;
     rrn_Status := irr_Status row; rrn_CheckedCount := irr_CheckedCount row;
     rrn_DiscrepancyCount := irr_DiscrepancyCount row;
     rrn_AutoCorrectedCount := irr_AutoCorrectedCount row; rrn_LastError := irr_LastError row |}.

(** [tableState] *)
Record tableState := { tst_Status : string; tst_Version : Z }.

(** ** Helpers *)

Definition validate (actor : TenantActor) (requireLocation : bool) : Go unit :=
  guard_err ((iac_OrganisationID actor =? uuid_Nil)%N
             || String.eqb (TrimSpace (iac_ActorRef actor)) "") ErrValidation ;;
  guard_err (requireLocation && (iac_LocationID actor =? uuid_Nil)%N) ErrValidation.

Definition validMappingStatus (status : string) : bool :=
  String.eqb status MappingMapped || String.eqb status MappingUnmapped
  || String.eqb status MappingIgnored.

Definition requireLocationPermission (actor : TenantActor) (permission : string) : Go unit :=
  allowed ← map_err (Wrap "checking location permission")
    (ActorHasLocationPermission (iac_OrganisationID actor) (iac_LocationID actor)
       (iac_ActorRef actor) permission);
  guard_err (negb allowed) ErrForbidden.

(** The function has the text of the one of the operations service. *)
Definition inTenantTx {A} (fn : Go A) : Go A := GoTx.inTenantTx fn.

Definition inAdminTx {A} (fn : Go A) : Go A :=
  contextTx "beginning admin transaction" "setting admin context" "committing admin transaction" fn.

(** [err != nil || id == uuid.Nil || ...] after [actor.validate(true)]. *)
Definition validateRequest (actor : TenantActor) (bad : bool) : Go unit :=
  map_err (fun _ => ErrValidation) (validate actor true) ;;
  guard_err bad ErrValidation.

(** [if errors.Is(err, pgx.ErrNoRows) { return ErrNotFound }; return err] *)
Definition not_found (err : error) : error := if errors_Is err NoRows then ErrNotFound else err.

(** [pgtype.Text{String: s, Valid: s != ""}] *)
Definition error_arg (lastError : string) : option string :=
  if String.eqb lastError "" then None else Some lastError.

(** The conversion of an [int] to [int32], and its increment. *)
Definition wrap32 (z : Z) : Z := (z + 2147483648) mod 4294967296 - 2147483648.

(** [fmt.Sprint] puts a space between two operands neither of which is a string:
    between the two identifiers, not before the status. *)
Definition commandHash (connectionID tableID : uuid) (status : string) : list N :=
  Sum256 (bytes_N (uuid_String connectionID +:+ " " +:+ uuid_String tableID +:+ status)).

(** ** What a tenant sees *)

Section Listings.
Context {GT : GoText}.

Definition ListConnections (actor : TenantActor) : Go (list Connection) :=
  validate actor true ;;
  inTenantTx (
    requireLocationPermission actor PermissionIntegrationsRead ;;
    rows ← map_err (Wrap "listing integration connections")
      (list_connections (iac_OrganisationID actor) (iac_LocationID actor));
    mret (map scanConnection rows)).

Definition ListMappings (actor : TenantActor) (connectionID : uuid) : Go (list Mapping) :=
  validateRequest actor (connectionID =? uuid_Nil)%N ;;
  inTenantTx (
    requireLocationPermission actor PermissionIntegrationsRead ;;
    rows ← map_err (Wrap "listing integration mappings")
      (list_mappings (iac_OrganisationID actor) (iac_LocationID actor) connectionID);
    mret (map scanMapping rows)).

Definition ListWebhooks (actor : TenantActor) (connectionID : uuid) : Go (list Webhook) :=
  validateRequest actor (connectionID =? uuid_Nil)%N ;;
  inTenantTx (
    requireLocationPermission actor PermissionIntegrationsRead ;;
    rows ← map_err (Wrap "listing integration webhooks")
      (list_webhooks (iac_OrganisationID actor) (iac_LocationID actor) connectionID);
    mret (map scanWebhook rows)).

Definition ListDiscrepancies (actor : TenantActor) (connectionID : uuid) : Go (list Discrepancy) :=
  validateRequest actor (connectionID =? uuid_Nil)%N ;;
  inTenantTx (
    requireLocationPermission actor PermissionIntegrationsRead ;;
    rows ← map_err (Wrap "listing integration discrepancies")
      (list_discrepancies (iac_OrganisationID actor) (iac_LocationID actor) connectionID);
    mret (map scanDiscrepancy rows)).
End Listings.

Definition UpdateMapping (actor : TenantActor) (mappingID tableID : uuid) (status : string)
    : Go Mapping :=
  validateRequest actor ((mappingID =? uuid_Nil)%N || negb (validMappingStatus status)) ;;
  guard_err (String.eqb status MappingMapped && (tableID =? uuid_Nil)%N) ErrValidation ;;
  inTenantTx (
    requireLocationPermission actor PermissionIntegrationsManage ;;
    row ← map_err not_found
      (update_mapping mappingID (iac_OrganisationID actor) (iac_LocationID actor) tableID status);
    mret (scanMapping row)).

(** ** Connections and webhooks *)

Definition getConnectionForActor (actor : TenantActor) (connectionID : uuid) (permission : string)
    : Go Connection :=
  validateRequest actor (connectionID =? uuid_Nil)%N ;;
  inTenantTx (
    requireLocationPermission actor permission ;;
    row ← map_err not_found
      (select_connection connectionID (iac_OrganisationID actor) (iac_LocationID actor));
    mret (scanConnection row)).

Definition getConnectionByID (connectionID : uuid) : Go Connection :=
  inAdminTx (
    row ← map_err not_found (select_connection_by_id connectionID);
    mret (scanConnection row)).

Definition listConnectedConnections : Go (list Connection) :=
  inAdminTx (
    rows ← map_err (Wrap "listing connected integrations") select_connected;
    mret (map scanConnection rows)).

Definition getWebhookByExternalEventID (vendor externalEventID : string) : Go Webhook :=
  row ← select_webhook_by_event vendor externalEventID;
  mret (scanWebhook row).

(** The webhook, and whether it is new. *)
Definition insertWebhook (connection : Connection) (externalEventID : string)
    (signatureValid : bool) (payload : option json) : Go (Webhook * bool) :=
  inAdminTx (
    r ← attempt (insert_webhook (con_OrganisationID connection) (con_LocationID connection)
                   (con_ID connection) (con_Vendor connection) externalEventID signatureValid
                   payload);
    match r with
    | Ok row => mret (scanWebhook row, true)
    | Err err =>
        if errors_Is err NoRows
        then webhook ← getWebhookByExternalEventID (con_Vendor connection) externalEventID;
             mret (webhook, false)
        else fail err
    end).

Definition getConnectionForWebhook (actor : TenantActor) (webhookID : uuid) (permission : string)
    : Go Connection :=
  validate actor true ;;
  inTenantTx (
    requireLocationPermission actor permission ;;
    row ← map_err not_found
      (select_connection_of_webhook webhookID (iac_OrganisationID actor) (iac_LocationID actor));
    mret (scanConnection row)).

Definition getWebhookForActor (actor : TenantActor) (webhookID : uuid) (permission : string)
    : Go (Webhook * Connection) :=
  connection ← getConnectionForWebhook actor webhookID permission;
  webhook ← inTenantTx (
    row ← map_err not_found
      (select_webhook webhookID (iac_OrganisationID actor) (iac_LocationID actor));
    mret (scanWebhook row));
  mret (webhook, connection).

Definition markWebhook (webhookID : uuid) (state lastError : string) : Go Webhook :=
  inAdminTx (
    row ← update_webhook webhookID state (error_arg lastError);
    let webhook := scanWebhook row in
    if String.eqb state WebhookProcessed
    then map_err (Wrap "marking integration webhook sync successful")
           (mark_connection_synced (whk_ConnectionID webhook)) ;;
         mret webhook
    else mret webhook).

Definition mappingByExternalID (connection : Connection) (externalTableID externalLabel : string)
    : Go Mapping :=
  inAdminTx (
    row ← upsert_mapping (con_OrganisationID connection) (con_LocationID connection)
            (con_ID connection) externalTableID externalLabel;
    mret (scanMapping row)).

(** ** The floor *)

Definition currentTableState (connection : Connection) (tableID : uuid) : Go tableState :=
  map_err not_found (inAdminTx (
    row ← select_table_state (con_OrganisationID connection) (con_LocationID connection) tableID;
    mret {| tst_Status := occ_Status row; tst_Version := occ_Version row |})).

Definition hasActiveAssists (connection : Connection) (tableID : uuid) : Go bool :=
  inAdminTx (exists_open_assist (con_OrganisationID connection) (con_LocationID connection) tableID).

(** [if err != nil && !errors.Is(err, e) { return err }; return nil] *)
Definition unless_is {A} (e : error) (m : Go A) : Go unit :=
  r ← attempt m;
  match r with
  | Ok _ => mret tt
  | Err err => if errors_Is err e then mret tt else fail err
  end.

Definition table_state_command (connection : Connection) (tableID : uuid) (status : string)
    (id : uuid) : CommandMeta :=
  {| cmd_ID := id; cmd_Type := "integration.table_state";
     cmd_PayloadHash := commandHash (con_ID connection) tableID status;
     cmd_DeviceID := None; cmd_Retention := 0 |}.

Definition pos_occupy (connection : Connection) (tableID : uuid) (expectedVersion : Z)
    (partySize : option Z) (command : CommandMeta) : OccupyTableParams :=
  {| ocp_OrganisationID := con_OrganisationID connection;
     ocp_LocationID := con_LocationID connection; ocp_TableID := tableID;
     ocp_ExpectedVersion := expectedVersion; ocp_PartySize := partySize;
     ocp_ActorRef := "integration:" +:+ uuid_String (con_ID connection);
     ocp_Source := "integration:" +:+ con_Vendor connection; ocp_Command := command |}.

Definition pos_clear (connection : Connection) (tableID : uuid) (expectedVersion : Z)
    (command : CommandMeta) : ClearTableParams :=
  {| clp_OrganisationID := con_OrganisationID connection;
     clp_LocationID := con_LocationID connection; clp_TableID := tableID;
     clp_ExpectedVersion := expectedVersion;
     clp_ActorRef := "integration:" +:+ uuid_String (con_ID connection); clp_Command := command |}.

Definition applyTableState (connection : Connection) (tableID : uuid) (expectedVersion : Z)
    (status : string) (partySize : option Z) : Go unit :=
  id ← uuid_New;
  let command := table_state_command connection tableID status id in
  if String.eqb status TableStatusOccupied
  then unless_is ErrAlreadyOccupied
         (OccupyTable (pos_occupy connection tableID expectedVersion partySize command))
  else if String.eqb status TableStatusAvailable
  then unless_is ErrAlreadyAvailable
         (ClearTable (pos_clear connection tableID expectedVersion command))
  else fail ErrValidation.

(** [mapping.TableID == nil || mapping.Status != MappingMapped] *)
Definition mapped_table (mapping : Mapping) : option uuid :=
  if String.eqb (map_Status mapping) MappingMapped then map_TableID mapping else None.

Definition applyWebhookFact (connection : Connection) (fact : WebhookFact) : Go unit :=
  mapping ← mappingByExternalID connection (fct_ExternalTableID fact) "";
  match mapped_table mapping with
  | None => fail (Errorf ("external table " +:+ fct_ExternalTableID fact +:+ " is not mapped"))
  | Some tableID =>
      current ← currentTableState connection tableID;
      if String.eqb (tst_Status current) (fct_Status fact) then mret tt
      else applyTableState connection tableID (tst_Version current) (fct_Status fact)
             (fct_PartySize fact)
  end.

(** ** Reconciliation *)

Definition scanRun (runID : uuid) : Go ReconciliationRun :=
  inAdminTx (row ← select_run runID; mret (scan_run row)).

Definition createRun (connection : Connection) : Go ReconciliationRun :=
  runID ← inAdminTx (
    row ← insert_run (con_OrganisationID connection) (con_LocationID connection)
            (con_ID connection);
    mret (irr_ID row));
  scanRun runID.

Definition finishRun (runID : uuid) (status : string) (checked discrepancies corrected : Z)
    (lastError : string) : Go ReconciliationRun :=
  run ← inAdminTx (
    row ← update_run runID status checked discrepancies corrected (error_arg lastError);
    (if String.eqb status "completed"
     then map_err (Wrap "marking integration reconciliation successful")
            (mark_connection_synced (irr_ConnectionID row))
     else if String.eqb status "failed"
     then map_err (Wrap "marking integration reconciliation failed")
            (mark_connection_degraded (irr_ConnectionID row) (error_arg lastError))
     else mret tt) ;;
    mret row);
  scanRun (irr_ID run).

(** [len(details) == 0] gives the empty object. *)
Definition recordDiscrepancy (connection : Connection) (runID : uuid) (mapping : Mapping)
    (tableID : option uuid) (externalTableID discrepancyType : string)
    (seatdState externalState : option string) (resolution : string) (details : RawMessage)
    : Go Discrepancy :=
  inAdminTx (
    match (match details with RawEmpty => Some (JObj []) | RawText v => v end) with
    | None => fail (PgErr InvalidText)
    | Some details =>
        row ← insert_discrepancy (new_discrepancy (con_OrganisationID connection)
                (con_LocationID connection) (con_ID connection) runID (map_ID mapping) tableID
                externalTableID discrepancyType seatdState externalState resolution details);
        mret (scanDiscrepancy row)
    end).

(** The resolution, whether there was a discrepancy, whether it was corrected. *)
Definition reconcileTableState (connection : Connection) (runID : uuid) (state : ExternalTableState)
    : Go (string * bool * bool) :=
  mapping ← mappingByExternalID connection (ext_TableID state) (ext_Label state);
  match mapped_table mapping with
  | None =>
      recordDiscrepancy connection runID mapping None (ext_TableID state) "unmapped_table" None
        (Some (ext_Status state)) ResolutionReview RawEmpty ;;
      mret (ResolutionReview, true, false)
  | Some tableID =>
      current ← currentTableState connection tableID;
      if String.eqb (tst_Status current) (ext_Status state)
      then mret (ResolutionIgnored, false, false)
      else
        hasAssists ← hasActiveAssists connection tableID;
        let resolution := if (hasAssists : bool) then ResolutionReview else ResolutionAutoCorrected in
        let discrepancyType := if hasAssists then "ambiguous_conflict" else "occupancy_mismatch" in
        recordDiscrepancy connection runID mapping (Some tableID) (ext_TableID state)
          discrepancyType (Some (tst_Status current)) (Some (ext_Status state)) resolution RawEmpty ;;
        if hasAssists then mret (resolution, true, false)
        else
          applyTableState connection tableID (tst_Version current) (ext_Status state) None ;;
          mret (resolution, true, true)
  end.

Section Service.
Context {ET : ErrorTexts} {PT : PosText}.
Context (adapters : gmap string Adapter).

Definition adapter (vendor : string) : Go Adapter :=
  match adapters !! vendor with Some a => mret a | None => fail ErrNotFound end.

Definition Health (actor : TenantActor) (connectionID : uuid) : Go ReferencePOS.Health :=
  connection ← getConnectionForActor actor connectionID PermissionIntegrationsRead;
  a ← adapter (con_Vendor connection);
  ad_CheckHealth a connection.

(** A fact that fails to apply is recorded with its error; when that fails too,
    both errors are returned. *)
Definition apply_and_mark (connection : Connection) (webhook : Webhook) (fact : WebhookFact)
    : Go WebhookResult :=
  r ← attempt (applyWebhookFact connection fact);
  match r with
  | Err err =>
      m ← attempt (markWebhook (whk_ID webhook) WebhookFailed (error_text err));
      match m with
      | Err markErr => fail (Join err markErr)
      | Ok webhook => mret {| wrs_Webhook := webhook; wrs_Applied := false |}
      end
  | Ok _ =>
      webhook ← markWebhook (whk_ID webhook) WebhookProcessed "";
      mret {| wrs_Webhook := webhook; wrs_Applied := true |}
  end.

(** [if !signatureValid]: the webhook is kept, and skipped. *)
Definition skip_webhook (webhook : Webhook) : Go WebhookResult :=
  webhook ← markWebhook (whk_ID webhook) WebhookSkipped "signature validation failed";
  mret {| wrs_Webhook := webhook; wrs_Applied := false |}.

Definition ReceiveWebhook (vendor : string) (connectionID : uuid) (signature : string)
    (payload : list N) : Go WebhookResult :=
  let vendor := TrimSpace vendor in
  guard_err (String.eqb vendor "" || (connectionID =? uuid_Nil)%N || Nat.eqb (length payload) 0)
    ErrValidation ;;
  connection ← getConnectionByID connectionID;
  guard_err (negb (String.eqb (con_Vendor connection) vendor)) ErrNotFound ;;
  a ← adapter vendor;
  handled ← ad_HandleWebhook a connection payload signature;
  let fact := fst handled in
  let signatureValid : bool := snd handled in
  stored ← insertWebhook connection (fct_ExternalEventID fact) signatureValid (jsonb_in payload);
  let webhook := fst stored in
  if negb (snd stored) || String.eqb (whk_ProcessingState webhook) WebhookProcessed
  then mret {| wrs_Webhook := webhook; wrs_Applied := false |}
  else if negb signatureValid then skip_webhook webhook
  else apply_and_mark connection webhook fact.

Definition ReplayWebhook (actor : TenantActor) (webhookID : uuid) : Go WebhookResult :=
  validateRequest actor (webhookID =? uuid_Nil)%N ;;
  found ← getWebhookForActor actor webhookID PermissionIntegrationsManage;
  let webhook := fst found in
  let connection := snd found in
  a ← adapter (con_Vendor connection);
  handled ← ad_HandleWebhook a connection (jsonb_out (whk_Payload webhook)) "";
  if negb (snd handled) && negb (whk_SignatureValid webhook) then skip_webhook webhook
  else apply_and_mark connection webhook (fst handled).

(** The loop over the external tables: it stops at the first error, after the
    run is marked as failed with the counts so far. *)
Fixpoint reconcile_states (connection : Connection) (runID : uuid) (checked : Z)
    (states : list ExternalTableState) (discrepancies corrected : Z) : Go (Z * Z) :=
  match states with
  | [] => mret (discrepancies, corrected)
  | state :: states' =>
      r ← attempt (reconcileTableState connection runID state);
      match r with
      | Err err =>
          attempt (finishRun runID "failed" checked discrepancies corrected (error_text err)) ;;
          fail err
      | Ok (_, hadDiscrepancy, wasCorrected) =>
          reconcile_states connection runID checked states'
            (if (hadDiscrepancy : bool) then wrap32 (discrepancies + 1) else discrepancies)
            (if (wasCorrected : bool) then wrap32 (corrected + 1) else corrected)
      end
  end.

Definition reconcileConnection (connection : Connection) : Go ReconciliationRun :=
  a ← adapter (con_Vendor connection);
  run ← createRun connection;
  fetched ← attempt (ad_FetchExternalStatus a connection);
  match fetched with
  | Err err =>
      attempt (finishRun (rrn_ID run) "failed" 0 0 0 (error_text err)) ;;
      fail err
  | Ok states =>
      let checked := wrap32 (Z.of_nat (length states)) in
      counts ← reconcile_states connection (rrn_ID run) checked states 0 0;
      finishRun (rrn_ID run) "completed" checked (fst counts) (snd counts) ""
  end.

Definition Reconcile (actor : TenantActor) (connectionID : uuid) : Go ReconciliationRun :=
  connection ← getConnectionForActor actor connectionID PermissionIntegrationsManage;
  reconcileConnection connection.

(** The number of connections processed, and the error that stopped the loop. *)
Fixpoint reconcile_all (connections : list Connection) (processed : Z) : Go (Z * option error) :=
  match connections with
  | [] => mret (processed, None)
  | connection :: connections' =>
      r ← attempt (reconcileConnection connection);
      match r with
      | Err err => mret (processed, Some err)
      | Ok _ => reconcile_all connections' (processed + 1)
      end
  end.

Definition ReconcileConnected : Go (Z * option error) :=
  r ← attempt listConnectedConnections;
  match r with
  | Err err => mret (0, Some err)
  | Ok connections => reconcile_all connections 0
  end.
End Service.
