(* ===== verification/PlatformQueries.v ===== *)
(** The queries of [internal/store/db/platform.sql.go] that the platform
    administration runs: the tenants with the counts of their locations, devices,
    members and integrations, the administrators of the platform and the
    invitations to become one. *)

From S2P Require Import Prelude Json Schema GoTx Store Queries Tokens IdentityQueries LayoutQueries Memberships.
#[local] Open Scope string_scope.
#[local] Open Scope Z_scope.
#[local] Open Scope list_scope.

(** [text ILIKE pattern] of PostgreSQL in the database's locale. *)
Class PlatformText := {
  pg_ilike : string -> string -> bool;
}.

(** ** Aggregates *)

Definition values {K A} `{Countable K} (m : gmap K A) : list A := snd <$> map_to_list m.

Definition count {A} (f : A -> bool) (l : list A) : Z := Z.of_nat (length (List.filter f l)).

(** [max] of a column, without its nulls. *)
Definition max_of {A} (f : A -> option Z) (l : list A) : option Z :=
  foldl (fun acc a => match acc, f a with
                      | Some x, Some y => Some (Z.max x y)
                      | None, y => y
                      | x, None => x
                      end) None l.

(** [GROUP BY] a key in the order of [le], with the count of each group. *)
Definition group_count {A K} `{EqDecision K} (key : A -> K) (le : K -> K -> bool) (l : list A)
    : list (K * list A) :=
  map (fun k => (k, List.filter (fun a => bool_decide (key a = k)) l))
    (sort_by le (remove_dups (map key l))).

(** Counts are cast to [integer]. *)
Definition as_int4 {A} (counts : list Z) (a : A) : result error A :=
  if forallb in_int32 counts then Ok a else Err (PgErr NumericOutOfRange).

Definition locations_of_org (d : Db) (o : uuid) : list Location :=
  List.filter (fun l => loc_OrganisationID l =? o)%N (values (db_locations d)).
Definition devices_of_org (d : Db) (o : uuid) : list Device :=
  List.filter (fun v => dev_OrganisationID v =? o)%N (values (db_devices d)).
Definition audit_of_org (d : Db) (o : uuid) : list AuditEvent :=
  List.filter (fun v => bool_decide (aud_OrganisationID v = Some o)) (values (db_audit d)).

(** ** Tenants *)

(** A row of [SearchPlatformTenants]; [GetPlatformTenantOverview] has the last two
    columns besides. *)
Record PlatformTenantRow := {
  ptr_ID : uuid;
  ptr_Slug : string;
  ptr_Name : string;
  ptr_Status : string;
  ptr_CreatedAt : Z;
  ptr_UpdatedAt : Z;
  ptr_LocationCount : Z;
  ptr_ActiveLocationCount : Z;
  ptr_DisabledLocationCount : Z;
  ptr_DeviceCount : Z;
  ptr_TrustedDeviceCount : Z;
  ptr_LastDeviceSeenAt : option Z;
  ptr_LastAuditAt : option Z;
  ptr_PendingDeviceCount : Z;
  ptr_RevokedDeviceCount : Z;
}.

Definition has_status (s : string) (l : Location) : bool := String.eqb (loc_Status l) s.
Definition has_trust (s : string) (v : Device) : bool := String.eqb (dev_TrustState v) s.

Definition tenant_row (d : Db) (o : Organisation) : PlatformTenantRow :=
  let ls := locations_of_org d (org_ID o) in
  let vs := devices_of_org d (org_ID o) in
  {| ptr_ID := org_ID o; ptr_Slug := org_Slug o; ptr_Name := org_Name o;
     ptr_Status := org_Status o; ptr_CreatedAt := org_CreatedAt o;
     ptr_UpdatedAt := org_UpdatedAt o; ptr_LocationCount := Z.of_nat (length ls);
     ptr_ActiveLocationCount := count (has_status "active") ls;
     ptr_DisabledLocationCount := count (has_status "disabled") ls;
     ptr_DeviceCount := Z.of_nat (length vs); ptr_TrustedDeviceCount := count (has_trust "trusted") vs;
     ptr_LastDeviceSeenAt := max_of dev_LastSeenAt vs;
     ptr_LastAuditAt := max_of (fun v => Some (aud_CreatedAt v)) (audit_of_org d (org_ID o));
     ptr_PendingDeviceCount := count (has_trust "pending") vs;
     ptr_RevokedDeviceCount := count (has_trust "revoked") vs |}.

(** Every other count is at most one of these two. *)
Definition tenant_counts (r : PlatformTenantRow) : list Z := [ptr_LocationCount r; ptr_DeviceCount r].

Section Tenants.
Context {GT : GoText} {PL : PlatformText}.

Definition tenant_matches (search : string) (o : Organisation) : bool :=
  String.eqb search ""
  || pg_ilike (org_Slug o) ("%" +:+ search +:+ "%") || pg_ilike (org_Name o) ("%" +:+ search +:+ "%").

Definition SearchPlatformTenants (search : string) (resultLimit : Z) : Go (list PlatformTenantRow) :=
  exec (fun _ _ d =>
    let found := rows db_organisations d (tenant_matches search)
                   (order_by [cmp_num (fun o => - org_UpdatedAt o); cmp_text org_Name;
                              cmp_text org_Slug]) in
    let out := firstn (Z.to_nat resultLimit) (map (tenant_row d) found) in
    as_int4 (concat (map tenant_counts out)) (out, d)).

Definition GetPlatformTenantOverview (id : uuid) : Go PlatformTenantRow :=
  exec (fun now u d =>
    let? r := select_one db_organisations id (fun _ => true) now u d in
    let row := tenant_row d (fst r) in
    as_int4 (tenant_counts row) (row, d)).

Definition ListPlatformTenantLocations (organisationID : uuid) : Go (list Location) :=
  exec (select_many db_locations (fun l => loc_OrganisationID l =? organisationID)%N
          (order_by [cmp_text loc_Status; cmp_text loc_Name; cmp_text loc_Slug])).

(** The roles of the enabled members, each with how many have it. *)
Definition tenant_roles (d : Db) (o : uuid) : list string :=
  map omb_Role (List.filter (fun m => (omb_OrganisationID m =? o)%N && null (omb_DisabledAt m))
                  (values (db_org_members d)))
  ++ map lmb_Role (List.filter (fun m => (lmb_OrganisationID m =? o)%N && null (lmb_DisabledAt m))
                     (values (db_loc_members d))).

Definition ListPlatformTenantMembershipRoleCounts (organisationID : uuid) : Go (list (string * Z)) :=
  exec (fun _ _ d =>
    let out := map (fun g => (fst g, Z.of_nat (length (snd g))))
                 (group_count id pg_collate (tenant_roles d organisationID)) in
    as_int4 (map snd out) (out, d)).

Record DeviceCountRow := {
  dcw_TrustState : string;
  dcw_DeviceType : string;
  dcw_DeviceCount : Z;
  dcw_LastSeenAt : option Z;
}.

Definition pair_collate (x y : string * string) : bool :=
  if String.eqb (fst x) (fst y) then pg_collate (snd x) (snd y) else pg_collate (fst x) (fst y).

Definition ListPlatformTenantDeviceCounts (organisationID : uuid) : Go (list DeviceCountRow) :=
  exec (fun _ _ d =>
    let out := map (fun g => {| dcw_TrustState := fst (fst g); dcw_DeviceType := snd (fst g);
                                dcw_DeviceCount := Z.of_nat (length (snd g));
                                dcw_LastSeenAt := max_of dev_LastSeenAt (snd g) |})
                 (group_count (fun v => (dev_TrustState v, dev_DeviceType v)) pair_collate
                    (devices_of_org d organisationID)) in
    as_int4 (map dcw_DeviceCount out) (out, d)).
End Tenants.

(** ** Diagnostics *)

Record PlatformDiagnosticsRow := {
  pdr_DisabledLocationCount : Z;
  pdr_NeverHeartbeatDeviceCount : Z;
  pdr_StaleDeviceCount : Z;
  pdr_PendingDeviceCount : Z;
  pdr_RevokedDeviceCount : Z;
  pdr_IntegrationCount : Z;
  pdr_ConnectedIntegrationCount : Z;
  pdr_DegradedIntegrationCount : Z;
  pdr_DisconnectedIntegrationCount : Z;
  pdr_LastSuccessfulSyncAt : option Z;
  pdr_RecentPlatformAuditCount : Z;
  pdr_Checkpoint : option AnalyticsProjectorCheckpoint;
}.

(** A trusted device silent for three heartbeats, and three minutes at least; the
    product is one of [integer]s. *)
Definition heartbeat_product_ok (v : Device) : bool := in_int32 (dev_HeartbeatIntervalSeconds v * 3).

Definition beats (v : Device) : bool := has_trust "trusted" v && is_some (dev_LastHeartbeatAt v).

Definition stale (now : Z) (v : Device) : bool :=
  beats v
  && match dev_LastHeartbeatAt v with
     | Some t => t <? now - Z.max (dev_HeartbeatIntervalSeconds v * 3) 180 * 1000000000
     | None => false
     end.

Definition connection_status (s : string) (c : IntegrationConnection) : bool :=
  String.eqb (icn_Status c) s.

Definition days_ns (n : Z) : Z := n * 86400 * 1000000000.

Definition later_checkpoint (x y : AnalyticsProjectorCheckpoint) : bool := apc_UpdatedAt y <=? apc_UpdatedAt x.

Definition latest_checkpoint (d : Db) : option AnalyticsProjectorCheckpoint :=
  head (sort_by later_checkpoint (values (adb_checkpoints (db_analytics d)))).

Definition diagnostics_row (now : Z) (d : Db) (o : uuid) : PlatformDiagnosticsRow :=
  let vs := devices_of_org d o in
  let cs := List.filter (fun c => icn_OrganisationID c =? o)%N (values (db_connections d)) in
  {| pdr_DisabledLocationCount := count (has_status "disabled") (locations_of_org d o);
     pdr_NeverHeartbeatDeviceCount :=
       count (fun v => has_trust "trusted" v && null (dev_LastHeartbeatAt v)) vs;
     pdr_StaleDeviceCount := count (stale now) vs;
     pdr_PendingDeviceCount := count (has_trust "pending") vs;
     pdr_RevokedDeviceCount := count (has_trust "revoked") vs;
     pdr_IntegrationCount := Z.of_nat (length cs);
     pdr_ConnectedIntegrationCount := count (connection_status "connected") cs;
     pdr_DegradedIntegrationCount := count (connection_status "degraded") cs;
     pdr_DisconnectedIntegrationCount := count (connection_status "disconnected") cs;
     pdr_LastSuccessfulSyncAt := max_of icn_LastSuccessfulSyncAt cs;
     pdr_RecentPlatformAuditCount :=
       count (fun v => has_prefix "platform." (aud_Action v)
                       && (now - days_ns 7 <=? aud_CreatedAt v)) (audit_of_org d o);
     pdr_Checkpoint := latest_checkpoint d |}.

Definition diagnostics_counts (r : PlatformDiagnosticsRow) : list Z :=
  [pdr_DisabledLocationCount r; pdr_NeverHeartbeatDeviceCount r; pdr_StaleDeviceCount r;
   pdr_PendingDeviceCount r; pdr_RevokedDeviceCount r; pdr_IntegrationCount r;
   pdr_RecentPlatformAuditCount r].

Definition GetPlatformTenantDiagnostics (organisationID : uuid) : Go PlatformDiagnosticsRow :=
  exec (fun now _ d =>
    let? _ := check (forallb heartbeat_product_ok (List.filter beats (devices_of_org d organisationID)))
                NumericOutOfRange in
    let row := diagnostics_row now d organisationID in
    as_int4 (diagnostics_counts row) (row, d)).

(** ** The status of an organisation *)

Definition SetOrganisationStatus (id : uuid) (status : string) : Go Organisation :=
  exec (update_row db_organisations set_organisations organisation_ok id (fun _ => true)
    (fun now o => Ok (organisation_row (org_Name o) status (org_OnboardedAt o) now o))).

(** ** Administrators of the platform *)

#[export] Instance PlatformMembership_eq_dec : EqDecision PlatformMembership.
Proof. solve_decision. Defined.

Definition ActorHasPlatformPermission (userProfileID : uuid) (permission : string) : Go bool :=
  query (fun d => map_any (fun m => active_platform_member userProfileID m
                                    && role_allows d (pmb_Role m) permission)
                    (db_platform_members d)).

Definition GetActiveUserProfileByActorRef (id : uuid) : Go UserProfile :=
  exec (select_one db_users id (fun u => String.eqb (usr_Status u) "active")).

Definition GetPlatformMembership (id : uuid) : Go PlatformMembership :=
  exec (select_one db_platform_members id (fun _ => true)).

Definition active_platform_admin (m : PlatformMembership) : bool :=
  String.eqb (pmb_Role m) "platform_admin" && null (pmb_DisabledAt m).

Definition CountActivePlatformAdmins : Go Z :=
  exec (fun _ _ d =>
    let n := count active_platform_admin (values (db_platform_members d)) in as_int4 [n] (n, d)).

(** [disabled_at] and [disabled_by_actor_ref] change together. *)
Definition platform_enabled_row (disabled : option (Z * string)) (now : Z) (m : PlatformMembership)
    : PlatformMembership :=
  {| pmb_ID := pmb_ID m; pmb_UserProfileID := pmb_UserProfileID m; pmb_Role := pmb_Role m;
     pmb_GrantedByActorRef := pmb_GrantedByActorRef m; pmb_GrantedAt := pmb_GrantedAt m;
     pmb_DisabledAt := fst <$> disabled; pmb_DisabledByActorRef := snd <$> disabled;
     pmb_CreatedAt := pmb_CreatedAt m; pmb_UpdatedAt := now |}.

Definition DisablePlatformMembership (id : uuid) (actorRef : string) : Go PlatformMembership :=
  exec (update_row db_platform_members set_platform_members platform_member_ok id
    (fun m => null (pmb_DisabledAt m))
    (fun now m => Ok (platform_enabled_row (Some (now, actorRef)) now m))).

Definition ReactivatePlatformMembership (id : uuid) : Go PlatformMembership :=
  exec (update_row db_platform_members set_platform_members platform_member_ok id (fun _ => true)
    (fun now m => Ok (platform_enabled_row None now m))).

(** [NULLS FIRST] *)
Definition cmp_null_first {A} (f : A -> option Z) (x y : A) : comparison :=
  match f x, f y with
  | None, None => Eq | None, Some _ => Lt | Some _, None => Gt
  | Some a, Some b => Z.compare a b
  end.

Section Lists.
Context {GT : GoText}.

(** A null address sorts last. *)
Definition cmp_text_null {A} (f : A -> option string) (x y : A) : comparison :=
  match f x, f y with
  | None, None => Eq | None, Some _ => Gt | Some _, None => Lt
  | Some a, Some b => cmp_text id a b
  end.

(** A membership with the profile it joins. *)
Definition ListPlatformMemberships : Go (list (PlatformMembership * UserProfile)) :=
  query (fun d =>
    sort_by (order_by [cmp_null_first (fun r => pmb_DisabledAt (fst r));
                       cmp_text (fun r => pmb_Role (fst r));
                       cmp_text (fun r => usr_DisplayName (snd r));
                       cmp_text_null (fun r => usr_Email (snd r))])
      (omap (fun m => p ← db_users d !! pmb_UserProfileID m; Some (m, p))
         (values (db_platform_members d)))).

Definition ListPlatformAdminGrants : Go (list PlatformAdminGrant) :=
  exec (select_many db_grants (fun _ => true)
          (order_by [cmp_null_first pag_RevokedAt; cmp_null_first pag_ConsumedAt;
                     cmp_num (fun g => - pag_CreatedAt g)])).

Definition new_grant (email role invitedBy : string) (now : Z) (id : uuid) : PlatformAdminGrant :=
  {| pag_ID := id; pag_Email := pg_lower (btrim email); pag_Role := role;
     pag_InvitedByActorRef := invitedBy; pag_CreatedAt := now; pag_ConsumedAt := None;
     pag_ConsumedByUserProfileID := None; pag_RevokedAt := None; pag_RevokedByActorRef := None |}.

Definition regranted (role invitedBy : string) (g : PlatformAdminGrant) : PlatformAdminGrant :=
  {| pag_ID := pag_ID g; pag_Email := pag_Email g; pag_Role := role;
     pag_InvitedByActorRef := invitedBy; pag_CreatedAt := pag_CreatedAt g;
     pag_ConsumedAt := pag_ConsumedAt g;
     pag_ConsumedByUserProfileID := pag_ConsumedByUserProfileID g;
     pag_RevokedAt := pag_RevokedAt g; pag_RevokedByActorRef := pag_RevokedByActorRef g |}.

(** [INSERT ... ON CONFLICT ... DO UPDATE]: the row that was to be inserted is
    checked before the conflict is looked for. *)
Definition CreatePlatformAdminGrant (email role invitedBy : string) : Go PlatformAdminGrant :=
  exec (fun now u d =>
    let new := new_grant email role invitedBy now u in
    let? _ := check (grant_checks new) (CheckViolation "platform_admin_grants") in
    match select_first db_grants (grant_pending (pag_Email new)) any_order now u d with
    | Ok (g, _) =>
        update_row db_grants set_grants grant_ok (pag_ID g) (grant_pending (pag_Email new))
          (fun _ g => Ok (regranted role invitedBy g)) now u d
    | Err _ =>
        insert_row db_grants set_grants grant_ok "platform_admin_grants_pkey" pag_ID
          (new_grant email role invitedBy) now u d
    end).

Definition revoked_grant (actorRef : string) (now : Z) (g : PlatformAdminGrant) : PlatformAdminGrant :=
  {| pag_ID := pag_ID g; pag_Email := pag_Email g; pag_Role := pag_Role g;
     pag_InvitedByActorRef := pag_InvitedByActorRef g; pag_CreatedAt := pag_CreatedAt g;
     pag_ConsumedAt := pag_ConsumedAt g;
     pag_ConsumedByUserProfileID := pag_ConsumedByUserProfileID g;
     pag_RevokedAt := Some now; pag_RevokedByActorRef := Some actorRef |}.

Definition RevokePlatformAdminGrant (id : uuid) (actorRef : string) : Go PlatformAdminGrant :=
  exec (update_row db_grants set_grants grant_ok id
    (fun g => null (pag_ConsumedAt g) && null (pag_RevokedAt g))
    (fun now g => Ok (revoked_grant actorRef now g))).

(** ** What the platform sees of a tenant's owners and audit log *)

Definition owner_row_name (d : Db) (m : OrganisationMembership) : option string :=
  usr_DisplayName <$> profile_of d (omb_UserProfileID m).

Definition ListPlatformTenantOwners (organisationID : uuid) (includeDisabled : bool)
    : Go (list (OrganisationMembership * option UserProfile)) :=
  query (fun d =>
    map (fun m => (m, profile_of d (omb_UserProfileID m)))
      (rows db_org_members d
         (fun m => (omb_OrganisationID m =? organisationID)%N
                   && String.eqb (omb_Role m) "organisation_owner"
                   && (includeDisabled || null (omb_DisabledAt m)))
         (order_by [cmp_null_first omb_DisabledAt; cmp_text_null (owner_row_name d);
                    cmp_text omb_MemberRef]))).

Definition ListPlatformTenantAudit (organisationID : option uuid) (limit : Z) : Go (list AuditEvent) :=
  query (fun d =>
    firstn (Z.to_nat limit)
      (rows db_audit d (fun v => sql_eq (aud_OrganisationID v) organisationID)
         (order_by [cmp_num (fun v => - aud_CreatedAt v)]))).
End Lists.
