(* ===== verification/AnalyticsQueries.v ===== *)
(** What analytics computes with and what it asks of the database: binary64 numbers,
    the dates and instants of Go's time package, the constraints of the metric tables,
    the statements [domain/analytics/projection.go] and [service.go] contain and those
    of [store/db/analytics.sql.go].

    PostgreSQL computes a duration exactly, in microseconds, and rounds once when it
    is cast to [double precision]; its aggregates over such numbers are parameters. *)

From Stdlib Require Import SpecFloat.
From S2P Require Import Prelude Json Schema GoTx Store Queries Tokens IdentityQueries LayoutQueries PlatformQueries.
#[local] Open Scope string_scope.
#[local] Open Scope Z_scope.
#[local] Open Scope list_scope.

(** ** Numbers *)

Definition prec : Z := 53.
Definition emax : Z := 1024.

Definition f_add (x y : float64) : float64 := SFadd prec emax x y.
Definition f_mul (x y : float64) : float64 := SFmul prec emax x y.
Definition f_div (x y : float64) : float64 := SFdiv prec emax x y.
Definition f_lt (x y : float64) : bool := SFltb x y.

(** The nearest number to an integer, and to a quotient by a positive one. *)
Definition f_of_Z (z : Z) : float64 := binary_normalize prec emax z 0 false.

Definition f_ratio_pos (neg : bool) (n d : positive) : float64 :=
  let '(m, e, l) := SFdiv_core_binary prec emax (Zpos n) 0 (Zpos d) 0 in
  binary_round_aux prec emax neg m e l.

Definition f_ratio (n : Z) (d : positive) : float64 :=
  match n with
  | Z0 => float_zero
  | Zpos p => f_ratio_pos false p d
  | Zneg p => f_ratio_pos true p d
  end.

Definition nanos : Z := 1000000000.

(** [extract(epoch FROM ...)::double precision] of a difference of timestamps. *)
Definition epoch_seconds (d : Z) : float64 := f_ratio d 1000000000.

(** [time.Duration.Seconds]. *)
Definition Duration_Seconds (d : Z) : float64 :=
  f_add (f_of_Z (Z.quot d nanos)) (f_div (f_of_Z (Z.rem d nanos)) (f_of_Z nanos)).

Example seconds_half : epoch_seconds 1500000000 = S754_finite false 6755399441055744 (-52).
Proof. vm_compute. reflexivity. Qed.
Example seconds_third : f_ratio 1 3 = f_div (f_of_Z 1) (f_of_Z 3).
Proof. vm_compute. reflexivity. Qed.

(** ** What the reports take from outside

    The offset from UTC, in seconds, that the time zone database gives a zone at a
    Unix time; the zone of the server ([time.Local]); the JSON number a [float64] is encoded to;
    the instant PostgreSQL casts a date to, by the zone of its session; and its
    aggregates over lists that are not empty. *)
Class ReportData := {
  zone_offset : string -> Z -> Z;
  time_Local : string;
  json_float : float64 -> json;
  pg_midnight : Z -> Z;
  pg_avg_epoch : list Z -> float64;
  pg_avg : list float64 -> float64;
  pg_sum : list float64 -> float64;
  pg_percentile_cont : float64 -> list float64 -> float64;
  zone_offset_UTC : forall s, zone_offset "UTC" s = 0;
}.

(** ** Dates and instants

    A calendar date is its day since the epoch; a [time.Time] is an instant, in
    nanoseconds since the epoch, that is read in a location. *)

Definition day_seconds : Z := 86400.
Definition day_nanos : Z := day_seconds * nanos.

Record GoTime := { tm_instant : Z; tm_loc : string }.

Section Dates.
Context {RD : ReportData}.

Definition UTC (t : GoTime) : GoTime := {| tm_instant := tm_instant t; tm_loc := "UTC" |}.
Definition In_ (t : GoTime) (loc : string) : GoTime := {| tm_instant := tm_instant t; tm_loc := loc |}.

(** What a clock on the wall shows. *)
Definition wall (t : GoTime) : Z :=
  tm_instant t + zone_offset (tm_loc t) (tm_instant t / nanos) * nanos.

(** [t.Date()], [t.Clock()] with the nanoseconds, [t.Weekday()]. *)
Definition day_of (t : GoTime) : Z := wall t / day_nanos.
Definition clock_of (t : GoTime) : Z := wall t mod day_nanos.
Definition Weekday (t : GoTime) : Z := (day_of t + 4) mod 7.

(** [time.Date]: the offset at the time read as UTC, and, unless that is zero, the
    offset at the instant it leads to. *)
Definition Date (day clock : Z) (loc : string) : GoTime :=
  let t := day * day_nanos + clock in
  let offset := zone_offset loc (t / nanos) in
  let offset := if offset =? 0 then 0 else zone_offset loc (t / nanos - offset) in
  {| tm_instant := t - offset * nanos; tm_loc := loc |}.

(** [t.AddDate(0, 0, n)]. *)
Definition AddDays (t : GoTime) (n : Z) : GoTime := Date (day_of t + n) (clock_of t) (tm_loc t).

Definition Before (t u : GoTime) : bool := tm_instant t <? tm_instant u.
Definition After (t u : GoTime) : bool := Before u t.
End Dates.

(** *** The calendar *)

Definition days_from_civil (y m d : Z) : Z :=
  let y := if m <=? 2 then y - 1 else y in
  let era := y / 400 in
  let yoe := y mod 400 in
  let doy := (153 * (if 2 <? m then m - 3 else m + 9) + 2) / 5 + d - 1 in
  era * 146097 + (yoe * 365 + yoe / 4 - yoe / 100 + doy) - 719468.

Definition civil_from_days (day : Z) : Z * Z * Z :=
  let z := day + 719468 in
  let era := z / 146097 in
  let doe := z mod 146097 in
  let yoe := (doe - doe / 1460 + doe / 36524 - doe / 146096) / 365 in
  let doy := doe - (365 * yoe + yoe / 4 - yoe / 100) in
  let mp := (5 * doy + 2) / 153 in
  let d := doy - (153 * mp + 2) / 5 + 1 in
  let m := if mp <? 10 then mp + 3 else mp - 9 in
  ((if m <=? 2 then era * 400 + yoe + 1 else era * 400 + yoe), m, d).

Definition leap (y : Z) : bool := (y mod 4 =? 0) && (negb (y mod 100 =? 0) || (y mod 400 =? 0)).

Definition days_in (y m : Z) : Z :=
  if m =? 2 then (if leap y then 29 else 28)
  else if (m =? 4) || (m =? 6) || (m =? 9) || (m =? 11) then 30 else 31.

Example civil_1 : days_from_civil 2024 2 29 = 19782 /\ civil_from_days 19782 = (2024, 2, 29).
Proof. by split. Qed.
Example civil_2 : days_from_civil 1 1 1 = -719162.
Proof. reflexivity. Qed.

(** The formats ["2006-01-02"] of [t.Format] and [time.Parse]. *)
Definition pad (width : nat) (z : Z) : string :=
  let digits := int_String z in
  String.concat "" (repeat "0" (width - String.length digits)) +:+ digits.

Definition format_date (day : Z) : string :=
  let '(y, m, d) := civil_from_days day in
  (if y <? 0 then "-" +:+ pad 4 (- y) else pad 4 y) +:+ "-" +:+ pad 2 m +:+ "-" +:+ pad 2 d.

Definition digit (c : ascii) : option Z :=
  let n := Z.of_N (N_of_ascii c) in if (48 <=? n) && (n <=? 57) then Some (n - 48) else None.

Fixpoint number (acc : Z) (l : list ascii) : option Z :=
  match l with
  | [] => Some acc
  | c :: l' => match digit c with Some x => number (acc * 10 + x) l' | None => None end
  end.

Definition dash (c : ascii) : bool := Ascii.eqb c "-".

Definition parse_date (s : string) : option Z :=
  match bytes_of_string s with
  | [y1; y2; y3; y4; s1; m1; m2; s2; d1; d2] =>
      match number 0 [y1; y2; y3; y4], number 0 [m1; m2], number 0 [d1; d2] with
      | Some y, Some m, Some d =>
          if dash s1 && dash s2 && ((1 <=? m) && (m <=? 12)) && ((1 <=? d) && (d <=? days_in y m))
          then Some (days_from_civil y m d) else None
      | _, _, _ => None
      end
  | _ => None
  end.

Example date_1 : (format_date 19782, parse_date "2024-02-29", parse_date "2023-02-29", parse_date "2024-2-29")
  = ("2024-02-29", Some 19782, None, None).
Proof. vm_compute. reflexivity. Qed.

(** ** The tables *)

Inductive MetricTable : Type := TableMetrics | ZoneMetrics | FloorMetrics | LocationMetrics | PeriodMetrics.

#[export] Instance MetricTable_eq_dec : EqDecision MetricTable.
Proof. solve_decision. Defined.

Definition db_daily (t : MetricTable) (d : Db) : gmap metric_key AnalyticsDailyMetric :=
  let a := db_analytics d in
  match t with
  | TableMetrics => adb_tables a
  | ZoneMetrics => adb_zones a
  | FloorMetrics => adb_floors a
  | LocationMetrics => adb_locations a
  | PeriodMetrics => adb_periods a
  end.

Definition set_daily (t : MetricTable) (m : gmap metric_key AnalyticsDailyMetric) (d : Db) : Db :=
  let a := db_analytics d in
  set_analytics
    {| adb_hourly := adb_hourly a;
       adb_tables := if t is TableMetrics then m else adb_tables a;
       adb_zones := if t is ZoneMetrics then m else adb_zones a;
       adb_floors := if t is FloorMetrics then m else adb_floors a;
       adb_locations := if t is LocationMetrics then m else adb_locations a;
       adb_periods := if t is PeriodMetrics then m else adb_periods a;
       adb_checkpoints := adb_checkpoints a; adb_rebuilds := adb_rebuilds a |} d.

Definition db_hourly (d : Db) := adb_hourly (db_analytics d).
Definition db_checkpoints (d : Db) := adb_checkpoints (db_analytics d).
Definition db_rebuilds (d : Db) := adb_rebuilds (db_analytics d).

Definition set_hourly (m : gmap metric_key AnalyticsHourlyTableMetric) (d : Db) : Db :=
  let a := db_analytics d in
  set_analytics
    {| adb_hourly := m; adb_tables := adb_tables a; adb_zones := adb_zones a; adb_floors := adb_floors a;
       adb_locations := adb_locations a; adb_periods := adb_periods a;
       adb_checkpoints := adb_checkpoints a; adb_rebuilds := adb_rebuilds a |} d.

Definition set_checkpoints (m : gmap string AnalyticsProjectorCheckpoint) (d : Db) : Db :=
  let a := db_analytics d in
  set_analytics
    {| adb_hourly := adb_hourly a; adb_tables := adb_tables a; adb_zones := adb_zones a;
       adb_floors := adb_floors a; adb_locations := adb_locations a; adb_periods := adb_periods a;
       adb_checkpoints := m; adb_rebuilds := adb_rebuilds a |} d.

Definition set_rebuilds (m : gmap N AnalyticsRebuildRun) (d : Db) : Db :=
  let a := db_analytics d in
  set_analytics
    {| adb_hourly := adb_hourly a; adb_tables := adb_tables a; adb_zones := adb_zones a;
       adb_floors := adb_floors a; adb_locations := adb_locations a; adb_periods := adb_periods a;
       adb_checkpoints := adb_checkpoints a; adb_rebuilds := m |} d.

Definition daily_key (r : AnalyticsDailyMetric) : metric_key :=
  (adm_OrganisationID r, adm_LocationID r, adm_GroupID r, adm_MetricDate r).
Definition hourly_key (r : AnalyticsHourlyTableMetric) : metric_key :=
  (ahm_OrganisationID r, ahm_LocationID r, ahm_TableID r, ahm_BucketStart r).

Definition table_name (t : MetricTable) : string :=
  match t with
  | TableMetrics => "analytics_daily_table_metrics"
  | ZoneMetrics => "analytics_daily_zone_metrics"
  | FloorMetrics => "analytics_daily_floor_metrics"
  | LocationMetrics => "analytics_daily_location_metrics"
  | PeriodMetrics => "analytics_service_period_metrics"
  end.

Definition group_fk (t : MetricTable) (d : Db) (r : AnalyticsDailyMetric) : bool :=
  let org := adm_OrganisationID r in
  let loc := adm_LocationID r in
  match t with
  | TableMetrics => table_fk d org loc (adm_GroupID r)
  | ZoneMetrics => is_some (db_zones d !! adm_GroupID r)
  | FloorMetrics => floor_fk d org loc (adm_GroupID r)
  | LocationMetrics => location_fk d org loc
  | PeriodMetrics => is_some (db_periods d !! adm_GroupID r)
  end.

Definition daily_ok (t : MetricTable) (d : Db) (_ : metric_key) (r : AnalyticsDailyMetric) : result error unit :=
  let? _ := check (adm_BucketStart r <? adm_BucketEnd r) (CheckViolation (table_name t)) in
  check (group_fk t d r) (ForeignKeyViolation (table_name t)).

Definition f_nonneg (x : float64) : bool := negb (f_lt x float_zero).

Definition hourly_checks (r : AnalyticsHourlyTableMetric) : bool :=
  let m := ahm_Metric r in
  (ahm_BucketStart r <? ahm_BucketEnd r) && (0 <=? met_ActiveTableCount m)
  && f_nonneg (met_OccupancySeconds m) && f_nonneg (met_UtilisationBasisSeconds m)
  && f_nonneg (met_UtilisationRate m) && (0 <=? met_CompletedSessionCount m)
  && f_nonneg (met_TurnoverRate m) && (0 <=? met_AssistRequestCount m) && (0 <=? met_AnomalyCount m).

Definition hourly_ok (d : Db) (_ : metric_key) (r : AnalyticsHourlyTableMetric) : result error unit :=
  let? _ := check (hourly_checks r) (CheckViolation "analytics_hourly_table_metrics") in
  check (table_fk d (ahm_OrganisationID r) (ahm_LocationID r) (ahm_TableID r))
    (ForeignKeyViolation "analytics_hourly_table_metrics").

Definition checkpoint_checks (c : AnalyticsProjectorCheckpoint) : bool :=
  not_empty (apc_ProjectorName c) && (1 <=? apc_ProjectorVersion c) && f_nonneg (apc_LagSeconds c)
  && (String.eqb (apc_RebuildStatus c) "idle" || String.eqb (apc_RebuildStatus c) "running"
      || String.eqb (apc_RebuildStatus c) "failed").

Definition rebuild_checks (r : AnalyticsRebuildRun) : bool :=
  not_empty (arr_RequestedBy r) && (arr_RangeFrom r <? arr_RangeTo r)
  && (String.eqb (arr_Status r) "running" || String.eqb (arr_Status r) "completed"
      || String.eqb (arr_Status r) "failed")
  && (0 <=? arr_DaysProcessed r).

Definition rebuild_ok (d : Db) (_ : uuid) (r : AnalyticsRebuildRun) : result error unit :=
  let? _ := check (rebuild_checks r) (CheckViolation "analytics_rebuild_runs") in
  check (location_fk d (arr_OrganisationID r) (arr_LocationID r))
    (ForeignKeyViolation "analytics_rebuild_runs").

(** ** The metric of a window *)

Inductive Scope : Type := ScopeLocation | ScopeTable (id : uuid) | ScopeZone (id : uuid) | ScopeFloor (id : uuid).

(** [scopeFilter]. *)
Definition in_scope (scope : Scope) (t : Table) : bool :=
  match scope with
  | ScopeLocation => true
  | ScopeTable id => (tbl_ID t =? id)%N
  | ScopeZone id => (tbl_ZoneID t =? id)%N
  | ScopeFloor id => (tbl_FloorID t =? id)%N
  end.

Section Window.
Context (org loc : uuid) (scope : Scope) (windowStart windowEnd asOf : Z) (d : Db).

Definition scoped_tables : list Table :=
  List.filter (fun t => live_at org loc t && in_scope scope t) (values (db_tables d)).

(** [JOIN scoped_tables]. *)
Definition of_scoped (table : uuid) : bool := existsb (fun t => (tbl_ID t =? table)%N) scoped_tables.

Definition scoped_sessions : list TableSession :=
  List.filter (fun s => of_scoped (ses_TableID s)) (values (db_sessions d)).

Definition session_end (s : TableSession) : Z := default asOf (ses_EndedAt s).

Definition overlaps (s : TableSession) : bool :=
  (ses_StartedAt s <? windowEnd) && (windowStart <? session_end s) && (ses_StartedAt s <=? session_end s).

Definition overlap (s : TableSession) : Z :=
  Z.max 0 (Z.min (session_end s) windowEnd - Z.max (ses_StartedAt s) windowStart).

Definition sum_of {A} (f : A -> Z) (l : list A) : Z := foldr (fun a acc => f a + acc) 0 l.

Definition session_overlap : Z := sum_of overlap (List.filter overlaps scoped_sessions).

Definition completed (s : TableSession) : option Z :=
  t ← ses_EndedAt s;
  if (windowStart <=? t) && (t <? windowEnd) && (ses_StartedAt s <=? t) then Some (t - ses_StartedAt s) else None.

Definition scoped_assists : list AssistRequest :=
  List.filter (fun a => of_scoped (ast_TableID a) && (windowStart <=? ast_RequestedAt a)
                        && (ast_RequestedAt a <? windowEnd)) (values (db_assists d)).

(** The time from the request to a later moment, where there is one. *)
Definition since_request (moment : AssistRequest -> option Z) (a : AssistRequest) : option Z :=
  t ← moment a; if ast_RequestedAt a <=? t then Some (t - ast_RequestedAt a) else None.

Definition impossible (s : TableSession) : bool :=
  match ses_EndedAt s with Some t => t <? ses_StartedAt s | None => false end.

(** [coalesce(aggregate, 0)]: an aggregate over no row is NULL. *)
Definition or_zero {A} (agg : list A -> float64) (l : list A) : float64 :=
  match l with [] => float_zero | _ => agg l end.

Context {RD : ReportData}.

Definition window_metric : Metric :=
  let tables := Z.of_nat (length scoped_tables) in
  let durations := map epoch_seconds (omap completed scoped_sessions) in
  {| met_ActiveTableCount := tables;
     met_OccupancySeconds := epoch_seconds session_overlap;
     met_UtilisationBasisSeconds := f_mul (f_of_Z tables) (epoch_seconds (windowEnd - windowStart));
     met_UtilisationRate := float_zero;
     met_CompletedSessionCount := Z.of_nat (length durations);
     met_TurnoverRate := float_zero;
     met_AvgSessionSeconds := or_zero pg_avg durations;
     met_P50SessionSeconds := or_zero (pg_percentile_cont (f_ratio 1 2)) durations;
     met_P90SessionSeconds := or_zero (pg_percentile_cont (f_ratio 9 10)) durations;
     met_AssistRequestCount := Z.of_nat (length scoped_assists);
     met_AvgAssistResponseSeconds := or_zero pg_avg_epoch (omap (since_request ast_AcknowledgedAt) scoped_assists);
     met_AvgAssistResolutionSeconds := or_zero pg_avg_epoch (omap (since_request ast_ResolvedAt) scoped_assists);
     met_AnomalyCount := count impossible scoped_sessions |}.

Definition metric_counts (m : Metric) : list Z :=
  [met_ActiveTableCount m; met_CompletedSessionCount m; met_AssistRequestCount m; met_AnomalyCount m].
End Window.

Section Statements.
Context {GT : GoText} {RD : ReportData}.

(** The parameters reach the database in microseconds. *)
Definition QueryWindowMetric (org loc : uuid) (scope : Scope) (windowStart windowEnd asOf : Z) : Go Metric :=
  exec (fun _ _ d =>
    let m := window_metric org loc scope (pg_time windowStart) (pg_time windowEnd) (pg_time asOf) d in
    as_int4 (metric_counts m) (m, d)).

(** ** Writing metrics *)

Definition InsertDailyMetric (t : MetricTable) (org loc group : uuid) (day start finish : Z) (metric : Metric)
    : Go AnalyticsDailyMetric :=
  exec (insert_row (db_daily t) (set_daily t) (daily_ok t) (table_name t +:+ "_pkey") daily_key
    (fun now _ =>
      {| adm_OrganisationID := org; adm_LocationID := loc; adm_GroupID := group; adm_MetricDate := day;
         adm_BucketStart := pg_time start; adm_BucketEnd := pg_time finish; adm_Metric := metric;
         adm_ProjectedAt := now |})).

Definition InsertHourlyMetric (org loc table : uuid) (start finish : Z) (metric : Metric)
    : Go AnalyticsHourlyTableMetric :=
  exec (insert_row db_hourly set_hourly hourly_ok "analytics_hourly_table_metrics_pkey" hourly_key
    (fun now _ =>
      {| ahm_OrganisationID := org; ahm_LocationID := loc; ahm_TableID := table;
         ahm_BucketStart := pg_time start; ahm_BucketEnd := pg_time finish; ahm_Metric := metric;
         ahm_ProjectedAt := now |})).

Definition of_day (org loc : uuid) (day : Z) (r : AnalyticsDailyMetric) : bool :=
  (adm_OrganisationID r =? org)%N && (adm_LocationID r =? loc)%N && (adm_MetricDate r =? day).

Definition of_hours (org loc : uuid) (start finish : Z) (r : AnalyticsHourlyTableMetric) : bool :=
  (ahm_OrganisationID r =? org)%N && (ahm_LocationID r =? loc)%N
  && (pg_time start <=? ahm_BucketStart r) && (ahm_BucketStart r <? pg_time finish).

Definition without {K A} `{Countable K} (f : A -> bool) (m : gmap K A) : gmap K A :=
  filter (fun kv => f (snd kv) = false) m.

Definition DeleteDailyMetrics (t : MetricTable) (org loc : uuid) (day : Z) : Go unit :=
  exec (fun _ _ d => Ok (tt, set_daily t (without (of_day org loc day) (db_daily t d)) d)).

Definition DeleteHourlyMetrics (org loc : uuid) (start finish : Z) : Go unit :=
  exec (fun _ _ d => Ok (tt, set_hourly (without (of_hours org loc start finish) (db_hourly d)) d)).

(** ** The checkpoint *)

(** [INSERT ... ON CONFLICT (projector_name) DO UPDATE]. *)
Definition upsert_checkpoint (name : string) (new : Z -> AnalyticsProjectorCheckpoint)
    (set : Z -> AnalyticsProjectorCheckpoint -> AnalyticsProjectorCheckpoint) : Go unit :=
  exec (fun now _ d =>
    let c := match db_checkpoints d !! name with Some c => set now c | None => new now end in
    let? _ := check (checkpoint_checks c) (CheckViolation "analytics_projector_checkpoints") in
    Ok (tt, set_checkpoints (<[name := c]> (db_checkpoints d)) d)).

Definition MarkRebuildRunning (name : string) (version : Z) : Go unit :=
  upsert_checkpoint name
    (fun now => {| apc_ProjectorName := name; apc_ProjectorVersion := version; apc_CursorOccurredAt := None;
                   apc_CursorEventID := None; apc_LagSeconds := float_zero; apc_RebuildStatus := "running";
                   apc_RebuildStartedAt := Some now; apc_RebuildCompletedAt := None; apc_UpdatedAt := now |})
    (fun now c => {| apc_ProjectorName := apc_ProjectorName c; apc_ProjectorVersion := version;
                     apc_CursorOccurredAt := apc_CursorOccurredAt c; apc_CursorEventID := apc_CursorEventID c;
                     apc_LagSeconds := apc_LagSeconds c; apc_RebuildStatus := "running";
                     apc_RebuildStartedAt := Some now; apc_RebuildCompletedAt := apc_RebuildCompletedAt c;
                     apc_UpdatedAt := now |}).

Definition MarkRebuildComplete (name : string) : Go unit :=
  exec (update_exec db_checkpoints set_checkpoints
    (fun _ _ c => check (checkpoint_checks c) (CheckViolation "analytics_projector_checkpoints")) name
    (fun _ => true)
    (fun now c =>
      Ok {| apc_ProjectorName := apc_ProjectorName c; apc_ProjectorVersion := apc_ProjectorVersion c;
            apc_CursorOccurredAt := apc_CursorOccurredAt c; apc_CursorEventID := apc_CursorEventID c;
            apc_LagSeconds := apc_LagSeconds c; apc_RebuildStatus := "idle";
            apc_RebuildStartedAt := apc_RebuildStartedAt c; apc_RebuildCompletedAt := Some now;
            apc_UpdatedAt := now |})).

Definition AdvanceCheckpoint (name : string) (version occurredAt : Z) (event : uuid) (lag : float64) : Go unit :=
  upsert_checkpoint name
    (fun now => {| apc_ProjectorName := name; apc_ProjectorVersion := version;
                   apc_CursorOccurredAt := Some (pg_time occurredAt); apc_CursorEventID := Some event;
                   apc_LagSeconds := lag; apc_RebuildStatus := "idle"; apc_RebuildStartedAt := None;
                   apc_RebuildCompletedAt := None; apc_UpdatedAt := now |})
    (fun now c => {| apc_ProjectorName := apc_ProjectorName c; apc_ProjectorVersion := version;
                     apc_CursorOccurredAt := Some (pg_time occurredAt); apc_CursorEventID := Some event;
                     apc_LagSeconds := lag; apc_RebuildStatus := "idle";
                     apc_RebuildStartedAt := apc_RebuildStartedAt c;
                     apc_RebuildCompletedAt := apc_RebuildCompletedAt c; apc_UpdatedAt := now |}).

Definition GetAnalyticsProjectorCheckpoint (name : string) : Go AnalyticsProjectorCheckpoint :=
  exec (select_one db_checkpoints name (fun _ => true)).

(** ** The runs of a rebuild *)

Definition CreateRebuildRun (org loc : uuid) (requestedBy : string) (from to : Z) : Go AnalyticsRebuildRun :=
  exec (insert_row db_rebuilds set_rebuilds rebuild_ok "analytics_rebuild_runs_pkey" arr_ID
    (fun now id =>
      {| arr_ID := id; arr_OrganisationID := org; arr_LocationID := loc; arr_RequestedBy := requestedBy;
         arr_RangeFrom := from; arr_RangeTo := to; arr_StartedAt := now; arr_CompletedAt := None;
         arr_Status := "running"; arr_DaysProcessed := 0; arr_LastError := None; arr_CreatedAt := now;
         arr_UpdatedAt := now |})).

Definition FinishRebuildRun (id : uuid) (status : string) (days : Z) (lastError : option string)
    : Go AnalyticsRebuildRun :=
  exec (update_row db_rebuilds set_rebuilds rebuild_ok id (fun _ => true)
    (fun now r =>
      Ok {| arr_ID := arr_ID r; arr_OrganisationID := arr_OrganisationID r;
            arr_LocationID := arr_LocationID r; arr_RequestedBy := arr_RequestedBy r;
            arr_RangeFrom := arr_RangeFrom r; arr_RangeTo := arr_RangeTo r; arr_StartedAt := arr_StartedAt r;
            arr_CompletedAt := Some now; arr_Status := status; arr_DaysProcessed := days;
            arr_LastError := lastError; arr_CreatedAt := arr_CreatedAt r; arr_UpdatedAt := now |})).

Definition LatestRebuildRun (org loc : uuid) : Go AnalyticsRebuildRun :=
  exec (select_first db_rebuilds
    (fun r => (arr_OrganisationID r =? org)%N && (arr_LocationID r =? loc)%N)
    (fun x y => arr_StartedAt y <=? arr_StartedAt x)).

(** ** What is projected *)

Definition live_tables (org loc : uuid) : Go (list Table) :=
  exec (select_many db_tables (live_at org loc) (order_by [cmp_text tbl_Label])).

(** [SELECT DISTINCT ... ORDER BY] the group. *)
Definition live_groups (f : Table -> uuid) (org loc : uuid) : Go (list uuid) :=
  query (fun d => sort_by N.leb (remove_dups (map f (List.filter (live_at org loc) (values (db_tables d)))))).

Definition period_at (org loc : uuid) (p : ServicePeriod) : bool :=
  (svp_OrganisationID p =? org)%N && (svp_LocationID p =? loc)%N.

Definition ListActiveServicePeriodsByLocation (org loc : uuid) : Go (list ServicePeriod) :=
  exec (select_many db_periods (fun p => period_at org loc p && svp_IsActive p) (order_by [cmp_text svp_Name])).

(** ** Service periods *)

Definition ListServicePeriodsByLocation (org loc : uuid) : Go (list ServicePeriod) :=
  exec (select_many db_periods (period_at org loc) (order_by [cmp_true_first svp_IsActive; cmp_text svp_Name])).

Definition period_version (org loc : uuid) (version : Z) (p : ServicePeriod) : bool :=
  period_at org loc p && (svp_Version p =? version).

Definition period_row (name : string) (days : list Z) (start finish : Z) (active : bool) (now : Z)
    (p : ServicePeriod) : result error ServicePeriod :=
  let? v := int4_succ (svp_Version p) in
  Ok {| svp_ID := svp_ID p; svp_OrganisationID := svp_OrganisationID p; svp_LocationID := svp_LocationID p;
        svp_Name := name; svp_DaysOfWeek := days; svp_StartTime := start; svp_EndTime := finish;
        svp_IsActive := active; svp_Version := v; svp_CreatedAt := svp_CreatedAt p; svp_UpdatedAt := now |}.

Definition UpdateServicePeriodRow (id org loc : uuid) (name : string) (days : list Z) (start finish version : Z)
    : Go ServicePeriod :=
  exec (update_row db_periods set_periods period_ok id (period_version org loc version)
    (fun now p => period_row name days start finish (svp_IsActive p) now p)).

Definition ArchiveServicePeriodRow (id org loc : uuid) (version : Z) : Go ServicePeriod :=
  exec (update_row db_periods set_periods period_ok id (period_version org loc version)
    (fun now p => period_row (svp_Name p) (svp_DaysOfWeek p) (svp_StartTime p) (svp_EndTime p) false now p)).

(** ** Reports *)

Definition metric_between (org loc : uuid) (from to : Z) (r : AnalyticsDailyMetric) : bool :=
  (adm_OrganisationID r =? org)%N && (adm_LocationID r =? loc)%N
  && (from <=? adm_MetricDate r) && (adm_MetricDate r <? to).

Definition ListDailyLocationMetrics (org loc : uuid) (from to : Z) : Go (list AnalyticsDailyMetric) :=
  exec (select_many (db_daily LocationMetrics) (metric_between org loc from to) (order_by [cmp_num adm_MetricDate])).

(** Metrics with the row of their group; a row without one is not joined. *)
Definition joined_metrics {G} (t : MetricTable) (groups : Db -> gmap N G) (order : list (G -> G -> comparison))
    (name : G -> string) (org loc : uuid) (from to : Z) : Go (list (AnalyticsDailyMetric * string)) :=
  query (fun d =>
    let joined := omap (fun r => g ← groups d !! adm_GroupID r; Some (r, g))
                    (List.filter (metric_between org loc from to) (values (db_daily t d))) in
    map (fun rg => (fst rg, name (snd rg)))
      (sort_by (order_by (map (fun k x y => k (snd x) (snd y)) order
                          ++ [cmp_num (fun rg => adm_MetricDate (fst rg))])) joined)).

Definition ListDailyZoneMetrics (org loc : uuid) (from to : Z) : Go (list (AnalyticsDailyMetric * string)) :=
  joined_metrics ZoneMetrics db_zones [cmp_num zon_SortOrder; cmp_text zon_Name] zon_Name org loc from to.
Definition ListDailyFloorMetrics (org loc : uuid) (from to : Z) : Go (list (AnalyticsDailyMetric * string)) :=
  joined_metrics FloorMetrics db_floors [cmp_num flr_SortOrder; cmp_text flr_Name] flr_Name org loc from to.
Definition ListServicePeriodMetrics (org loc : uuid) (from to : Z) : Go (list (AnalyticsDailyMetric * string)) :=
  joined_metrics PeriodMetrics db_periods [cmp_text svp_Name] svp_Name org loc from to.

(** [NULLIF(x, 0)] under an aggregate that leaves NULLs out; an aggregate over no value
    is NULL, which is read as zero ([optionalFloat]). *)
Definition nonzero (f : Metric -> float64) (l : list Metric) : list float64 :=
  List.filter (fun x => negb (SFeqb x float_zero)) (map f l).

(** The row of one hour over its tables. *)
Definition hour_metric (rows : list AnalyticsHourlyTableMetric) : Metric :=
  let ms := map ahm_Metric rows in
  let tables := Z.of_nat (length (remove_dups (map ahm_TableID rows))) in
  let occupancy := pg_sum (map met_OccupancySeconds ms) in
  let basis := pg_sum (map met_UtilisationBasisSeconds ms) in
  let sessions := sum_of met_CompletedSessionCount ms in
  {| met_ActiveTableCount := tables;
     met_OccupancySeconds := occupancy;
     met_UtilisationBasisSeconds := basis;
     met_UtilisationRate := if f_lt float_zero basis then f_div occupancy basis else float_zero;
     met_CompletedSessionCount := sessions;
     met_TurnoverRate := if 0 <? tables then f_div (f_of_Z sessions) (f_of_Z tables) else float_zero;
     met_AvgSessionSeconds := or_zero pg_avg (nonzero met_AvgSessionSeconds ms);
     met_P50SessionSeconds := or_zero (pg_percentile_cont (f_ratio 1 2)) (nonzero met_P50SessionSeconds ms);
     met_P90SessionSeconds := or_zero (pg_percentile_cont (f_ratio 9 10)) (nonzero met_P90SessionSeconds ms);
     met_AssistRequestCount := sum_of met_AssistRequestCount ms;
     met_AvgAssistResponseSeconds := or_zero pg_avg (nonzero met_AvgAssistResponseSeconds ms);
     met_AvgAssistResolutionSeconds := or_zero pg_avg (nonzero met_AvgAssistResolutionSeconds ms);
     met_AnomalyCount := sum_of met_AnomalyCount ms |}.

Definition hour_bucket (r : AnalyticsHourlyTableMetric) : Z * Z := (ahm_BucketStart r, ahm_BucketEnd r).

Definition ListHourlyMetrics (org loc : uuid) (from to : Z) : Go (list (Z * Z * Metric)) :=
  exec (fun _ _ d =>
    let rows := List.filter (of_hours org loc from to) (values (db_hourly d)) in
    let points := map (fun g => (fst g, hour_metric (snd g)))
                    (group_count hour_bucket (fun x y => fst x <=? fst y) rows) in
    as_int4 (flat_map (fun p => metric_counts (snd p)) points) (points, d)).

(** ** The quality of the data *)

Definition hours (n : Z) : Z := n * 3600 * nanos.

Definition session_at (org loc : uuid) (s : TableSession) : bool :=
  (ses_OrganisationID s =? org)%N && (ses_LocationID s =? loc)%N.

Definition QuerySessionQuality (org loc : uuid) : Go (Z * Z * Z) :=
  exec (fun now _ d =>
    let l := List.filter (session_at org loc) (values (db_sessions d)) in
    let opened := count (fun s => null (ses_EndedAt s)) l in
    let long := count (fun s => null (ses_EndedAt s) && (ses_StartedAt s <? now - hours 6)) l in
    let wrong := count impossible l in
    as_int4 [opened; long; wrong] (opened, long, wrong, d)).

Definition QueryMissingOccupancy (org loc : uuid) : Go Z :=
  exec (fun _ _ d =>
    let n := count (fun t => live_at org loc t && null (db_occupancy d !! tbl_ID t)) (values (db_tables d)) in
    as_int4 [n] (n, d)).

Definition late_heartbeat (now : Z) (v : Device) : bool :=
  match dev_LastHeartbeatAt v with
  | None => true
  | Some t => t <? now - dev_HeartbeatIntervalSeconds v * 2 * nanos
  end.

Definition QueryStaleDevices (org loc : uuid) : Go Z :=
  exec (fun now _ d =>
    let n := count (fun v => (dev_OrganisationID v =? org)%N && bool_decide (dev_LocationID v = Some loc)
                             && String.eqb (dev_TrustState v) "trusted" && null (dev_RevokedAt v)
                             && late_heartbeat now v) (values (db_devices d)) in
    as_int4 [n] (n, d)).
End Statements.
