(* ===== verification/Analytics.v ===== *)
(** Analytics ([domain/analytics]): the formulas, the windows of service periods, the
    projector that turns sessions and assists into the metrics of a day, and the
    service that reports, rebuilds and edits service periods.  Tracing and the
    counters of rebuilds are left out. *)

From Stdlib Require Import SpecFloat.
From S2P Require Import Prelude Json Schema GoTx Store Queries Tokens IdentityQueries LayoutQueries Identity Onboarding Events Outbox ReferencePOS Integrations PlatformQueries AnalyticsQueries.
#[local] Open Scope string_scope.
#[local] Open Scope Z_scope.
#[local] Open Scope list_scope.

Definition ProjectorName := "analytics-projector".
Definition ProjectorVersion := 1.
Definition GrainHour := "hour".
Definition GrainDay := "day".
Definition GroupByZone := "zone".
Definition GroupByFloor := "floor".
Definition GroupByServicePeriod := "service_period".

Definition pkg := "analytics".
Definition ErrForbidden : error := Sentinel pkg "forbidden".
Definition ErrValidation : error := Sentinel pkg "validation failed".
Definition ErrNotFound : error := Sentinel pkg "not found".
Definition ErrInvalidServicePeriod : error := Sentinel pkg "invalid service period".

(** ** Formulas ([formulas.go]) *)

Definition FinalizeMetric (metric : Metric) : Metric :=
  {| met_ActiveTableCount := met_ActiveTableCount metric;
     met_OccupancySeconds := met_OccupancySeconds metric;
     met_UtilisationBasisSeconds := met_UtilisationBasisSeconds metric;
     met_UtilisationRate :=
       if f_lt float_zero (met_UtilisationBasisSeconds metric)
       then f_div (met_OccupancySeconds metric) (met_UtilisationBasisSeconds metric)
       else met_UtilisationRate metric;
     met_CompletedSessionCount := met_CompletedSessionCount metric;
     met_TurnoverRate :=
       if 0 <? met_ActiveTableCount metric
       then f_div (f_of_Z (met_CompletedSessionCount metric)) (f_of_Z (met_ActiveTableCount metric))
       else met_TurnoverRate metric;
     met_AvgSessionSeconds := met_AvgSessionSeconds metric;
     met_P50SessionSeconds := met_P50SessionSeconds metric;
     met_P90SessionSeconds := met_P90SessionSeconds metric;
     met_AssistRequestCount := met_AssistRequestCount metric;
     met_AvgAssistResponseSeconds := met_AvgAssistResponseSeconds metric;
     met_AvgAssistResolutionSeconds := met_AvgAssistResolutionSeconds metric;
     met_AnomalyCount := met_AnomalyCount metric |}.

(** Instants; the code turns the duration of the overlap into seconds at once. *)
Definition maxTime (a b : Z) : Z := if b <? a then a else b.
Definition minTime (a b : Z) : Z := if a <? b then a else b.

Definition OverlapDuration (start : Z) (finish : option Z) (windowStart windowEnd asOf : Z) : Z * bool :=
  let sessionEnd := match finish with Some t => t | None => asOf end in
  if sessionEnd <? start then (0, false)
  else
    let overlapStart := maxTime start windowStart in
    let overlapEnd := minTime sessionEnd windowEnd in
    if negb (overlapStart <? overlapEnd) then (0, true) else (overlapEnd - overlapStart, true).

Definition OverlapSeconds (start : Z) (finish : option Z) (windowStart windowEnd asOf : Z) : float64 * bool :=
  let '(d, valid) := OverlapDuration start finish windowStart windowEnd asOf in
  (if d =? 0 then float_zero else Duration_Seconds (Z.min int64_max d), valid).

(** ** Service periods ([service_period.go])

    A time of day is microseconds after midnight, or not valid. *)

Definition containsDay (days : list Z) (day : Z) : bool := existsb (Z.eqb day) days.

Definition ParseClock (value : string) : option Z :=
  let value := TrimSpace value in
  let parsed := match time_Parse false value with
                | Some p => Some p
                | None => time_Parse true value
                end in
  match parsed with
  | None => None
  | Some (hour, minute, second) => Some (hour * 3600000000 + minute * 60000000 + second * 1000000)
  end.

Definition two (value : Z) : string :=
  if value <? 10 then "0" +:+ int_String value else int_String value.

Definition FormatClock (value : Z) : string :=
  let hour := value / 3600000000 in
  let minute := value / 60000000 mod 60 in
  let second := value / 1000000 mod 60 in
  if second =? 0 then two hour +:+ ":" +:+ two minute
  else two hour +:+ ":" +:+ two minute +:+ ":" +:+ two second.

Record ServicePeriodWindow := {
  spw_Date : GoTime;
  spw_Start : GoTime;
  spw_End : GoTime;
}.

Section Windows.
Context {RD : ReportData}.

Definition ServicePeriodWindowForDate (date : GoTime) (location : string) (daysOfWeek : list Z)
    (startTime endTime : option Z) : result error (option ServicePeriodWindow) :=
  match startTime, endTime with
  | Some startTime, Some endTime =>
      let localDate := Date (day_of (In_ date location)) 0 location in
      if negb (containsDay daysOfWeek (Weekday localDate)) then Ok None
      else
        let start := Date (day_of localDate) (startTime * 1000) location in
        let finish := Date (day_of localDate) (endTime * 1000) location in
        let finish := if After finish start then finish else AddDays finish 1 in
        Ok (Some {| spw_Date := localDate; spw_Start := UTC start; spw_End := UTC finish |})
  | _, _ => Err ErrInvalidServicePeriod
  end.

(** ** Days ([service.go]) *)

Definition localDateWindow (date : GoTime) (location : string) : GoTime * GoTime :=
  let start := Date (day_of (In_ date location)) 0 location in
  (UTC start, UTC (AddDays start 1)).

Definition calendarDateInLocation (date : GoTime) (location : string) : GoTime := Date (day_of date) 0 location.

Definition localCalendarDateWindow (date : GoTime) (location : string) : GoTime * GoTime :=
  let start := Date (day_of (calendarDateInLocation date location)) 0 location in
  (UTC start, UTC (AddDays start 1)).

(** The days the loop of [rebuildRange] visits; in a zone that never jumps by more than
    four hours each is twenty hours after the one before, or more. *)
Fixpoint days_from (fuel : nat) (day stop : GoTime) : list GoTime :=
  match fuel with
  | O => []
  | S fuel' => if Before day stop then day :: days_from fuel' (AddDays day 1) stop else []
  end.

Definition days_fuel (day stop : GoTime) : nat :=
  S (Z.to_nat ((tm_instant stop - tm_instant day) / hours 20)).

Definition rebuild_days (from to : GoTime) (location : string) : list GoTime :=
  let day := calendarDateInLocation from location in
  let stop := calendarDateInLocation to location in
  days_from (days_fuel day stop) day stop.

(** The hours of a day, the last one cut off at its end. *)
Fixpoint hours_from (fuel : nat) (hourStart dayEnd : Z) : list (Z * Z) :=
  match fuel with
  | O => []
  | S fuel' =>
      if hourStart <? dayEnd
      then (hourStart, minTime (hourStart + hours 1) dayEnd) :: hours_from fuel' (hourStart + hours 1) dayEnd
      else []
  end.

Definition hours_fuel (dayStart dayEnd : Z) : nat := S (Z.to_nat ((dayEnd - dayStart) / hours 1)).

Definition day_hours (dayStart dayEnd : Z) : list (Z * Z) :=
  hours_from (hours_fuel dayStart dayEnd) dayStart dayEnd.
End Windows.

(** ** The projector ([projection.go]) *)

Section Projector.
Context {GT : GoText} {RD : ReportData}.

Definition calculateWindowMetric (org loc : uuid) (scope : Scope) (windowStart windowEnd asOf : Z) : Go Metric :=
  metric ← map_err (Wrap "calculating analytics metric")
    (QueryWindowMetric org loc scope windowStart windowEnd asOf);
  mret (FinalizeMetric metric).

Definition clearProjectionDay (org loc : uuid) (day : GoTime) : Go unit :=
  map_err (Wrap "clearing hourly analytics projection")
    (DeleteHourlyMetrics org loc (tm_instant day) (tm_instant (AddDays day 1))) ;;
  for_each [TableMetrics; ZoneMetrics; FloorMetrics; LocationMetrics; PeriodMetrics] (fun t =>
    map_err (Wrap "clearing analytics projection") (DeleteDailyMetrics t org loc (day_of day))).

Definition insert_daily (msg : string) (t : MetricTable) (org loc group : uuid) (day start finish : Z)
    (metric : Metric) : Go unit :=
  map_err (Wrap msg) (InsertDailyMetric t org loc group day start finish metric) ;; mret tt.

Definition projectLocation (org loc : uuid) (day start finish : Z) : Go unit :=
  metric ← calculateWindowMetric org loc ScopeLocation start finish finish;
  insert_daily "inserting daily location metric" LocationMetrics org loc loc day start finish metric.

Definition projectGrouped (t : MetricTable) (group : Table -> uuid) (scope : uuid -> Scope)
    (org loc : uuid) (day start finish : Z) : Go unit :=
  ids ← map_err (Wrap "listing analytics groups") (live_groups group org loc);
  for_each ids (fun id =>
    metric ← calculateWindowMetric org loc (scope id) start finish finish;
    insert_daily "inserting grouped analytics metric" t org loc id day start finish metric).

Definition projectTables (org loc : uuid) (day start finish : Z) (grain : string) : Go unit :=
  tables ← map_err (Wrap "listing analytics tables") (live_tables org loc);
  for_each (map tbl_ID tables) (fun id =>
    metric ← calculateWindowMetric org loc (ScopeTable id) start finish finish;
    if String.eqb grain "hour"
    then map_err (Wrap "inserting table analytics metric") (InsertHourlyMetric org loc id start finish metric) ;;
         mret tt
    else insert_daily "inserting table analytics metric" TableMetrics org loc id day start finish metric).

Definition insertServicePeriodMetric (org loc period : uuid) (day start finish : Z) (metric : Metric) : Go unit :=
  insert_daily "inserting service period analytics metric" PeriodMetrics org loc period day start finish metric.

(** [time.LoadLocation] of a location's time zone. *)
Definition load_location (msg : string) (location : Location) : Go string :=
  guard_err (negb (LoadLocation (loc_Timezone location)))
    (Wrap msg (Errorf ("unknown time zone " +:+ loc_Timezone location))) ;;
  mret (loc_Timezone location).

Definition projectPeriod (org loc : uuid) (day : GoTime) (tz : string) (period : ServicePeriod) : Go unit :=
  found ← lift (ServicePeriodWindowForDate day tz (svp_DaysOfWeek period) (Some (svp_StartTime period))
    (Some (svp_EndTime period)));
  match found with
  | None => mret tt
  | Some window =>
      let start := tm_instant (spw_Start window) in
      let finish := tm_instant (spw_End window) in
      metric ← calculateWindowMetric org loc ScopeLocation start finish finish;
      insertServicePeriodMetric org loc (svp_ID period) (day_of day) start finish metric
  end.

Definition projectDay (org loc : uuid) (day dayStart dayEnd : GoTime) : Go unit :=
  let date := day_of day in
  let start := tm_instant dayStart in
  let finish := tm_instant dayEnd in
  projectLocation org loc date start finish ;;
  projectGrouped FloorMetrics tbl_FloorID ScopeFloor org loc date start finish ;;
  projectGrouped ZoneMetrics tbl_ZoneID ScopeZone org loc date start finish ;;
  projectTables org loc date start finish "day" ;;
  for_each (day_hours start finish) (fun hour => projectTables org loc date (fst hour) (snd hour) "hour") ;;
  periods ← map_err (Wrap "listing projection service periods") (ListActiveServicePeriodsByLocation org loc);
  location ← map_err (Wrap "getting service period location") (GetLocation loc org);
  tz ← load_location "loading service period timezone" location;
  for_each periods (projectPeriod org loc day tz).

Definition rebuildDay (org loc : uuid) (tz : string) (day : GoTime) : Go unit :=
  let '(dayStart, dayEnd) := localCalendarDateWindow day tz in
  clearProjectionDay org loc day ;;
  projectDay org loc day dayStart dayEnd.

(** The days processed, and the error that stopped the loop. *)
Fixpoint rebuild_loop (org loc : uuid) (tz : string) (days : list GoTime) (daysProcessed : Z)
    : Go (Z * option error) :=
  match days with
  | [] => mret (daysProcessed, None)
  | day :: days' =>
      r ← attempt (rebuildDay org loc tz day);
      match r with
      | Err err => mret (daysProcessed, Some err)
      | Ok _ => rebuild_loop org loc tz days' (wrap32 (daysProcessed + 1))
      end
  end.

(** What comes before the loop. *)
Definition rebuildStart (org loc : uuid) : Go string :=
  location ← map_err (Wrap "getting rebuild location") (GetLocation loc org);
  tz ← load_location "loading rebuild timezone" location;
  map_err (Wrap "marking analytics rebuild running") (MarkRebuildRunning ProjectorName ProjectorVersion) ;;
  mret tz.

(** The [(int32, error)] pair, of which a caller keeps the number with an error too. *)
Definition rebuildRange (org loc : uuid) (from to : GoTime) : Go (Z * option error) :=
  started ← attempt (rebuildStart org loc);
  match started with
  | Err err => mret (0, Some err)
  | Ok tz =>
      done ← rebuild_loop org loc tz (rebuild_days from to tz) 0;
      match done with
      | (daysProcessed, Some err) => mret (daysProcessed, Some err)
      | (daysProcessed, None) =>
          r ← attempt (map_err (Wrap "marking analytics rebuild complete") (MarkRebuildComplete ProjectorName));
          mret (daysProcessed, match r with Ok _ => None | Err err => Some err end)
      end
  end.

(** [if _, err := m; err != nil { return err }] *)
Definition fail_with {S} (out : S * option error) : Go S :=
  match out with (a, None) => mret a | (_, Some err) => fail err end.

Definition upsertCheckpoint (event : Envelope) : Go unit :=
  now ← time_Now;
  let lag := Z.max 0 (Z.min int64_max (now - env_OccurredAt event)) in
  map_err (Wrap "upserting analytics checkpoint")
    (AdvanceCheckpoint ProjectorName ProjectorVersion (env_OccurredAt event) (env_ID event)
       (Duration_Seconds lag)).

(** The transaction of [Projector.Handle]. *)
Definition projectEvent (event : Envelope) : Go unit :=
  let org := env_OrganisationID event in
  let loc := env_LocationID event in
  location ← map_err (Wrap "getting projector location") (GetLocation loc org);
  tz ← load_location "loading location timezone" location;
  let window := localDateWindow {| tm_instant := env_OccurredAt event; tm_loc := "UTC" |} tz in
  out ← rebuildRange org loc (fst window) (snd window);
  fail_with out ;;
  upsertCheckpoint event.

Definition Projector_Handle (event : Envelope) : Go unit :=
  contextTx "beginning analytics projection transaction" "setting analytics projector context"
    "committing analytics projection transaction" (projectEvent event).

Definition NewProjector : Consumer := {| con_Name := ProjectorName; con_Handle := Projector_Handle |}.
End Projector.

(** ** The service ([service.go]) *)

Record TenantActor := {
  aac_OrganisationID : uuid;
  aac_LocationID : uuid;
  aac_ActorRef : string;
}.

Record WindowMetric := {
  wmt_ID : uuid;
  wmt_Name : string;
  wmt_WindowStart : GoTime;
  wmt_WindowEnd : GoTime;
  wmt_Metric : Metric;
}.

Record RebuildRun := {
  rbr_ID : uuid;
  rbr_OrganisationID : uuid;
  rbr_LocationID : uuid;
  rbr_RequestedBy : string;
  rbr_RangeFrom : GoTime;
  rbr_RangeTo : GoTime;
  rbr_StartedAt : Z;
  rbr_CompletedAt : option Z;
  rbr_Status : string;
  rbr_DaysProcessed : Z;
  rbr_LastError : option string;
}.

Record DataQuality := {
  dql_OpenSessionCount : Z;
  dql_LongOpenSessionCount : Z;
  dql_ImpossibleSessionCount : Z;
  dql_MissingOccupancyCount : Z;
  dql_StaleDeviceCount : Z;
  dql_ProjectorLagSeconds : float64;
  dql_RebuildStatus : string;
}.

Record Summary := {
  sum_Location : Location;
  sum_Date : GoTime;
  sum_Today : WindowMetric;
  sum_CurrentServicePeriod : option WindowMetric;
  sum_Checkpoint : option AnalyticsProjectorCheckpoint;
  sum_DataQuality : DataQuality;
  sum_LastRebuildRun : option RebuildRun;
}.

Record TimePoint := {
  tpt_BucketStart : Z;
  tpt_BucketEnd : Z;
  tpt_Metric : Metric;
}.

Record ComparisonPoint := {
  cpt_GroupID : uuid;
  cpt_GroupName : string;
  cpt_MetricDate : Z;
  cpt_WindowStart : Z;
  cpt_WindowEnd : Z;
  cpt_Metric : Metric;
}.

Record ServicePeriodInput := {
  spi_Name : string;
  spi_DaysOfWeek : list Z;
  spi_StartTime : string;
  spi_EndTime : string;
  spi_ExpectedVersion : Z;
}.

Record RebuildParams := {
  rbp_Actor : TenantActor;
  rbp_LocationID : uuid;
  rbp_From : GoTime;
  rbp_To : GoTime;
}.

Definition valid_actor (actor : TenantActor) : bool :=
  negb ((aac_OrganisationID actor =? uuid_Nil)%N || (aac_LocationID actor =? uuid_Nil)%N
        || String.eqb (TrimSpace (aac_ActorRef actor)) "").

Definition validate (actor : TenantActor) : Go unit := guard_err (negb (valid_actor actor)) ErrValidation.

Definition validateServicePeriodInput (input : ServicePeriodInput) (requireVersion : bool)
    : result error (string * list Z * Z * Z) :=
  let name := TrimSpace (spi_Name input) in
  let days := spi_DaysOfWeek input in
  if String.eqb name "" || (length days =? 0)%nat || (7 <? length days)%nat then Err ErrValidation
  else if requireVersion && (spi_ExpectedVersion input <? 1) then Err ErrValidation
  else if negb (valid_days [] days) then Err ErrValidation
  else match ParseClock (spi_StartTime input), ParseClock (spi_EndTime input) with
       | Some start, Some finish => Ok (name, days, start, finish)
       | _, _ => Err ErrValidation
       end.

Definition requirePermission (actor : TenantActor) (permission msg : string) : Go unit :=
  allowed ← map_err (Wrap msg)
    (ActorHasLocationPermission (aac_OrganisationID actor) (aac_LocationID actor) (aac_ActorRef actor) permission);
  guard_err (negb allowed) ErrForbidden.

Definition requireRead (actor : TenantActor) : Go unit :=
  requirePermission actor PermissionAnalyticsRead "checking analytics permission".
Definition requireManage (actor : TenantActor) : Go unit :=
  requirePermission actor PermissionLocationManage "checking location permission".

Section Service.
Context {GT : GoText} {RD : ReportData} {ET : ErrorTexts}.

(** *** Service periods *)

Definition ListServicePeriods (actor : TenantActor) : Go (list ServicePeriod) :=
  validate actor ;;
  inTenantTx (
    requireRead actor ;;
    map_err (Wrap "listing service periods")
      (ListServicePeriodsByLocation (aac_OrganisationID actor) (aac_LocationID actor))).

Definition CreateServicePeriod (actor : TenantActor) (input : ServicePeriodInput) : Go ServicePeriod :=
  validate actor ;;
  parsed ← lift (validateServicePeriodInput input false);
  let '(name, days, start, finish) := parsed in
  inTenantTx (
    requireManage actor ;;
    map_err (Wrap "creating service period")
      (LayoutQueries.CreateServicePeriod (aac_OrganisationID actor) (aac_LocationID actor) name days start finish)).

Definition UpdateServicePeriod (actor : TenantActor) (id : uuid) (input : ServicePeriodInput) : Go ServicePeriod :=
  guard_err (negb (valid_actor actor) || (id =? uuid_Nil)%N) ErrValidation ;;
  parsed ← lift (validateServicePeriodInput input true);
  let '(name, days, start, finish) := parsed in
  inTenantTx (
    requireManage actor ;;
    map_err (no_rows_to ErrNotFound "updating service period")
      (UpdateServicePeriodRow id (aac_OrganisationID actor) (aac_LocationID actor) name days start finish
         (spi_ExpectedVersion input))).

Definition ArchiveServicePeriod (actor : TenantActor) (id : uuid) (expectedVersion : Z) : Go ServicePeriod :=
  guard_err (negb (valid_actor actor) || (id =? uuid_Nil)%N || (expectedVersion <? 1)) ErrValidation ;;
  inTenantTx (
    requireManage actor ;;
    map_err (no_rows_to ErrNotFound "archiving service period")
      (ArchiveServicePeriodRow id (aac_OrganisationID actor) (aac_LocationID actor) expectedVersion)).

(** *** Reports *)

(** [pgx.ErrNoRows] is not an error. *)
Definition optional {A} (msg : string) (m : Go A) : Go (option A) :=
  r ← attempt m;
  match r with
  | Ok a => mret (Some a)
  | Err err => if errors_Is err NoRows then mret None else fail (Wrap msg err)
  end.

(** A date comes back as the instant of its midnight, in the server's zone. *)
Definition scanned_date (day : Z) : GoTime := {| tm_instant := pg_midnight day; tm_loc := time_Local |}.

Definition scanRebuildRun (r : AnalyticsRebuildRun) : RebuildRun :=
  {| rbr_ID := arr_ID r; rbr_OrganisationID := arr_OrganisationID r; rbr_LocationID := arr_LocationID r;
     rbr_RequestedBy := arr_RequestedBy r; rbr_RangeFrom := scanned_date (arr_RangeFrom r);
     rbr_RangeTo := scanned_date (arr_RangeTo r); rbr_StartedAt := arr_StartedAt r;
     rbr_CompletedAt := arr_CompletedAt r; rbr_Status := arr_Status r;
     rbr_DaysProcessed := arr_DaysProcessed r; rbr_LastError := arr_LastError r |}.

Definition latestRebuildRun (org loc : uuid) : Go (option RebuildRun) :=
  found ← optional "getting latest analytics rebuild run" (LatestRebuildRun org loc);
  mret (scanRebuildRun <$> found).

Definition dataQuality (actor : TenantActor) : Go DataQuality :=
  let org := aac_OrganisationID actor in
  let loc := aac_LocationID actor in
  sessions ← map_err (Wrap "querying session data quality") (QuerySessionQuality org loc);
  let '(opened, long, wrong) := sessions in
  missing ← map_err (Wrap "querying occupancy data quality") (QueryMissingOccupancy org loc);
  late ← map_err (Wrap "querying device data quality") (QueryStaleDevices org loc);
  mret {| dql_OpenSessionCount := opened; dql_LongOpenSessionCount := long;
          dql_ImpossibleSessionCount := wrong; dql_MissingOccupancyCount := missing;
          dql_StaleDeviceCount := late; dql_ProjectorLagSeconds := float_zero; dql_RebuildStatus := "" |}.

Definition with_checkpoint (quality : DataQuality) (checkpoint : option AnalyticsProjectorCheckpoint) : DataQuality :=
  match checkpoint with
  | None => quality
  | Some c =>
      {| dql_OpenSessionCount := dql_OpenSessionCount quality;
         dql_LongOpenSessionCount := dql_LongOpenSessionCount quality;
         dql_ImpossibleSessionCount := dql_ImpossibleSessionCount quality;
         dql_MissingOccupancyCount := dql_MissingOccupancyCount quality;
         dql_StaleDeviceCount := dql_StaleDeviceCount quality;
         dql_ProjectorLagSeconds := apc_LagSeconds c; dql_RebuildStatus := apc_RebuildStatus c |}
  end.

Definition checkpoint_quality (quality : DataQuality) : Go (option AnalyticsProjectorCheckpoint * DataQuality) :=
  checkpoint ← optional "getting analytics checkpoint" (GetAnalyticsProjectorCheckpoint ProjectorName);
  mret (checkpoint, with_checkpoint quality checkpoint).

(** The method [DataQuality]. *)
Definition GetDataQuality (actor : TenantActor) : Go DataQuality :=
  validate actor ;;
  inTenantTx (
    requireRead actor ;;
    quality ← dataQuality actor;
    found ← checkpoint_quality quality;
    mret (snd found)).

(** The first active period whose window holds the instant. *)
Fixpoint current_period (org loc : uuid) (location : string) (date : GoTime) (asOf : Z) (periods : list ServicePeriod)
    : Go (option WindowMetric) :=
  match periods with
  | [] => mret None
  | period :: periods' =>
      found ← lift (ServicePeriodWindowForDate date location (svp_DaysOfWeek period)
        (Some (svp_StartTime period)) (Some (svp_EndTime period)));
      match found with
      | None => current_period org loc location date asOf periods'
      | Some window =>
          let start := tm_instant (spw_Start window) in
          let finish := tm_instant (spw_End window) in
          if (asOf <? start) || negb (asOf <? finish) then current_period org loc location date asOf periods'
          else
            metric ← calculateWindowMetric org loc ScopeLocation start finish asOf;
            mret (Some {| wmt_ID := svp_ID period; wmt_Name := svp_Name period;
                          wmt_WindowStart := spw_Start window; wmt_WindowEnd := spw_End window;
                          wmt_Metric := metric |})
      end
  end.

Definition currentServicePeriodMetric (actor : TenantActor) (location : string) (date : GoTime) (asOf : Z)
    : Go (option WindowMetric) :=
  let org := aac_OrganisationID actor in
  let loc := aac_LocationID actor in
  periods ← map_err (Wrap "listing active service periods") (ListActiveServicePeriodsByLocation org loc);
  current_period org loc location date asOf periods.

Definition summaryInTx (actor : TenantActor) (date : GoTime) (asOf : Z) : Go Summary :=
  let org := aac_OrganisationID actor in
  let loc := aac_LocationID actor in
  requireRead actor ;;
  location ← map_err (no_rows_to ErrNotFound "getting analytics location") (GetLocation loc org);
  tz ← load_location "loading location timezone" location;
  let localDate := calendarDateInLocation date tz in
  let window := localCalendarDateWindow localDate tz in
  let start := tm_instant (fst window) in
  let finish := tm_instant (snd window) in
  metric ← calculateWindowMetric org loc ScopeLocation start finish (minTime asOf finish);
  current ← currentServicePeriodMetric actor tz localDate asOf;
  quality ← dataQuality actor;
  found ← checkpoint_quality quality;
  lastRun ← latestRebuildRun org loc;
  mret {| sum_Location := location; sum_Date := localDate;
          sum_Today := {| wmt_ID := uuid_Nil; wmt_Name := ""; wmt_WindowStart := fst window;
                          wmt_WindowEnd := snd window; wmt_Metric := metric |};
          sum_CurrentServicePeriod := current; sum_Checkpoint := fst found;
          sum_DataQuality := snd found; sum_LastRebuildRun := lastRun |}.

(** The method [Summary]. *)
Definition GetSummary (actor : TenantActor) (locationID : uuid) (date : GoTime) (asOf : Z) : Go Summary :=
  validate actor ;;
  let actor := {| aac_OrganisationID := aac_OrganisationID actor; aac_LocationID := locationID;
                  aac_ActorRef := aac_ActorRef actor |} in
  inTenantTx (summaryInTx actor date asOf).

Definition daily_point (row : AnalyticsDailyMetric) : TimePoint :=
  {| tpt_BucketStart := adm_BucketStart row; tpt_BucketEnd := adm_BucketEnd row; tpt_Metric := adm_Metric row |}.
Definition hourly_point (row : Z * Z * Metric) : TimePoint :=
  {| tpt_BucketStart := fst (fst row); tpt_BucketEnd := snd (fst row); tpt_Metric := snd row |}.

Definition Timeseries (actor : TenantActor) (from to : GoTime) (grain : string) : Go (list TimePoint) :=
  let org := aac_OrganisationID actor in
  let loc := aac_LocationID actor in
  validate actor ;;
  guard_err (negb (Before from to) || negb (String.eqb grain GrainHour || String.eqb grain GrainDay)) ErrValidation ;;
  inTenantTx (
    requireRead actor ;;
    if String.eqb grain GrainDay
    then
      rows ← map_err (Wrap "listing daily location metrics")
        (ListDailyLocationMetrics org loc (day_of from) (day_of to));
      mret (map daily_point rows)
    else
      rows ← map_err (Wrap "listing hourly metrics")
        (ListHourlyMetrics org loc (tm_instant from) (tm_instant to));
      mret (map hourly_point rows)).

Definition comparison_point (row : AnalyticsDailyMetric * string) : ComparisonPoint :=
  let r := fst row in
  {| cpt_GroupID := adm_GroupID r; cpt_GroupName := snd row; cpt_MetricDate := adm_MetricDate r;
     cpt_WindowStart := adm_BucketStart r; cpt_WindowEnd := adm_BucketEnd r; cpt_Metric := adm_Metric r |}.

Definition Comparison (actor : TenantActor) (from to : GoTime) (groupBy : string) : Go (list ComparisonPoint) :=
  let org := aac_OrganisationID actor in
  let loc := aac_LocationID actor in
  validate actor ;;
  guard_err (negb (Before from to)) ErrValidation ;;
  inTenantTx (
    requireRead actor ;;
    rows ←
      (if String.eqb groupBy GroupByZone
       then map_err (Wrap "listing zone metrics") (ListDailyZoneMetrics org loc (day_of from) (day_of to))
       else if String.eqb groupBy GroupByFloor
       then map_err (Wrap "listing floor metrics") (ListDailyFloorMetrics org loc (day_of from) (day_of to))
       else if String.eqb groupBy GroupByServicePeriod
       then map_err (Wrap "listing service period metrics")
              (ListServicePeriodMetrics org loc (day_of from) (day_of to))
       else fail ErrValidation);
    mret (map comparison_point rows)).

(** *** Rebuilding *)

Definition createRebuildRun (actor : TenantActor) (from to : GoTime) : Go RebuildRun :=
  run ← map_err (Wrap "creating analytics rebuild run")
    (CreateRebuildRun (aac_OrganisationID actor) (aac_LocationID actor) (aac_ActorRef actor) (day_of from)
       (day_of to));
  mret (scanRebuildRun run).

Definition finishRebuildRun (runID : uuid) (status : string) (daysProcessed : Z) (lastError : string)
    : Go RebuildRun :=
  run ← map_err (Wrap "finishing analytics rebuild run")
    (FinishRebuildRun runID status daysProcessed (if String.eqb lastError "" then None else Some lastError));
  mret (scanRebuildRun run).

(** [err := s.inTenantTx(..., func(...) error { n, err = fn(); return err })]: the
    variable keeps what [fn] assigned to it whatever becomes of the transaction. *)
Definition capturing {S} (zero : S) (fn : Go (S * option error)) : Go (S * option error) :=
  began ← attempt (map_err (Wrap "beginning transaction") BeginTx);
  match began with
  | Err err => mret (zero, Some err)
  | Ok _ =>
      set ← attempt (or_rollback (Wrap "setting tenant context") SetContext);
      match set with
      | Err err => mret (zero, Some err)
      | Ok _ =>
          out ← fn;
          match out with
          | (n, Some err) =>
              r ← attempt (rollback (A := unit) err);
              mret (n, match r with Err err' => Some err' | Ok _ => Some err end)
          | (n, None) =>
              r ← attempt (map_err (Wrap "committing transaction") Commit);
              mret (n, match r with Err err => Some err | Ok _ => None end)
          end
      end
  end.

Definition Rebuild (arg : RebuildParams) : Go RebuildRun :=
  let actor := rbp_Actor arg in
  validate actor ;;
  guard_err (negb (rbp_LocationID arg =? aac_LocationID actor)%N || negb (Before (rbp_From arg) (rbp_To arg)))
    ErrValidation ;;
  inTenantTx (requireManage actor) ;;
  run ← inTenantTx (createRebuildRun actor (rbp_From arg) (rbp_To arg));
  out ← capturing 0 (rebuildRange (aac_OrganisationID actor) (aac_LocationID actor) (rbp_From arg) (rbp_To arg));
  let '(daysProcessed, rebuildErr) := out in
  finished ← attempt (inTenantTx (
    finishRebuildRun (rbr_ID run)
      (match rebuildErr with None => "completed" | Some _ => "failed" end) daysProcessed
      (match rebuildErr with None => "" | Some err => error_text err end)));
  match rebuildErr, finished with
  | Some err, Err finishErr => fail (Join err finishErr)
  | Some err, Ok _ => fail err
  | None, Err finishErr => fail finishErr
  | None, Ok run => mret run
  end.
End Service.
