(* ===== verification/Hub.v ===== *)
(** [internal/realtime/hub.go]: the hub that fans operational events out to the
    websocket connections of a location.

    Goroutines share the hub and its clients.  Each critical section, atomic
    counter and channel operation is one step of [exec_op]; [cstep] interleaves
    the goroutines at that grain.  Logging and tracing are left out. *)

From S2P Require Import Prelude Json Events.
#[local] Open Scope string_scope.
#[local] Open Scope list_scope.

Definition DestinationOperations := "realtime.operations".

Record Scope := { sc_OrganisationID : uuid; sc_LocationID : uuid }.

#[export] Instance Scope_eq_dec : EqDecision Scope.
Proof. solve_decision. Defined.
#[export] Instance Scope_countable : Countable Scope.
Proof.
  refine (inj_countable' (fun s => (sc_OrganisationID s, sc_LocationID s))
    (fun p => {| sc_OrganisationID := p.1; sc_LocationID := p.2 |}) _).
  by intros [].
Defined.

(** The texts of identifiers and times are kept as what they render. *)
Record Message := {
  msg_Type : string;
  msg_EventID : uuid;
  msg_OrganisationID : uuid;
  msg_LocationID : uuid;
  msg_EntityType : string;
  msg_EntityID : uuid;
  msg_Version : option Z;
  msg_OccurredAt : Z;
  msg_Data : json;
}.

Definition MessageFromEvent (event : Envelope) : Message :=
  {| msg_Type := env_Type event; msg_EventID := env_ID event;
     msg_OrganisationID := env_OrganisationID event; msg_LocationID := env_LocationID event;
     msg_EntityType := env_EntityType event; msg_EntityID := env_EntityID event;
     msg_Version := env_EntityVersion event; msg_OccurredAt := env_OccurredAt event;
     msg_Data := env_Data event |}.

Definition scope_of_event (event : Envelope) : Scope :=
  {| sc_OrganisationID := env_OrganisationID event; sc_LocationID := env_LocationID event |}.

(** ** Clients *)

(** The state of [sync.Once]. *)
Inductive OnceState := NotStarted | Running | Finished.

(** A pointer to a client is a number.  [cl_send] is the content of the buffered
    channel, [cl_cap] its capacity; a Go channel is closed or not, apart from the
    client's own [closed] flag.  [cl_received] is what the write loop has taken
    from the channel so far. *)
Record Client := {
  cl_scope : Scope;
  cl_actorRef : string;
  cl_deviceID : uuid;
  cl_cap : nat;
  cl_send : list Message;
  cl_send_closed : bool;
  cl_done_closed : bool;
  cl_closed : bool;
  cl_closeOnce : OnceState;
  cl_received : list Message;
}.

Definition new_client (scope : Scope) (actorRef : string) (deviceID : uuid) (buffer : Z) : Client :=
  {| cl_scope := scope; cl_actorRef := actorRef; cl_deviceID := deviceID;
     cl_cap := Z.to_nat (if (buffer <=? 0)%Z then 32%Z else buffer);
     cl_send := []; cl_send_closed := false; cl_done_closed := false; cl_closed := false;
     cl_closeOnce := NotStarted; cl_received := [] |}.

Definition set_send (l got : list Message) (c : Client) : Client :=
  {| cl_scope := cl_scope c; cl_actorRef := cl_actorRef c; cl_deviceID := cl_deviceID c;
     cl_cap := cl_cap c; cl_send := l; cl_send_closed := cl_send_closed c;
     cl_done_closed := cl_done_closed c; cl_closed := cl_closed c;
     cl_closeOnce := cl_closeOnce c; cl_received := got |}.

Definition set_once (o : OnceState) (c : Client) : Client :=
  {| cl_scope := cl_scope c; cl_actorRef := cl_actorRef c; cl_deviceID := cl_deviceID c;
     cl_cap := cl_cap c; cl_send := cl_send c; cl_send_closed := cl_send_closed c;
     cl_done_closed := cl_done_closed c; cl_closed := cl_closed c;
     cl_closeOnce := o; cl_received := cl_received c |}.

Definition set_closed (c : Client) : Client :=
  {| cl_scope := cl_scope c; cl_actorRef := cl_actorRef c; cl_deviceID := cl_deviceID c;
     cl_cap := cl_cap c; cl_send := cl_send c; cl_send_closed := true; cl_done_closed := true;
     cl_closed := true; cl_closeOnce := cl_closeOnce c; cl_received := cl_received c |}.

(** [None] is a run-time panic: sending on, or closing, a closed channel. *)
Definition trySend (message : Message) (c : Client) : option (Client * bool) :=
  if cl_closed c then Some (c, false)
  else if cl_send_closed c then None
  else if (length (cl_send c) <? cl_cap c)%nat
       then Some (set_send (cl_send c ++ [message]) (cl_received c) c, true)
       else Some (c, false).

Definition close (c : Client) : option Client :=
  if cl_closed c then Some c
  else if cl_done_closed c || cl_send_closed c then None
  else Some (set_closed c).

(** ** The hub *)

Record Metrics := {
  ConnectionsAccepted : Z;
  ConnectionsClosed : Z;
  MessagesPublished : Z;
  MessagesDropped : Z;
  BackpressureCloses : Z;
}.

Record Hub := {
  hub_clients : gmap Scope (gset nat);
  hub_metrics : Metrics;
}.

(** The hub, the clients its goroutines point to, and whether one panicked. *)
Record World := {
  w_hub : Hub;
  w_heap : gmap nat Client;
  w_panicked : bool;
}.

Definition NewHub : Hub :=
  {| hub_clients := ∅;
     hub_metrics := {| ConnectionsAccepted := 0; ConnectionsClosed := 0; MessagesPublished := 0;
                       MessagesDropped := 0; BackpressureCloses := 0 |} |}.

Definition new_world : World := {| w_hub := NewHub; w_heap := ∅; w_panicked := false |}.

Definition set_clients (m : gmap Scope (gset nat)) (w : World) : World :=
  {| w_hub := {| hub_clients := m; hub_metrics := hub_metrics (w_hub w) |};
     w_heap := w_heap w; w_panicked := w_panicked w |}.

Definition set_client (id : nat) (c : Client) (w : World) : World :=
  {| w_hub := w_hub w; w_heap := <[id := c]> (w_heap w); w_panicked := w_panicked w |}.

Definition panic (w : World) : World :=
  {| w_hub := w_hub w; w_heap := w_heap w; w_panicked := true |}.

(** [h.metrics.<counter>.Add(1)] *)
Inductive counter := Accepted | ClosedCount | Published | Dropped | Backpressure.

#[export] Instance counter_eq_dec : EqDecision counter.
Proof. solve_decision. Defined.

Definition add_metric (k : counter) (m : Metrics) : Metrics :=
  let bump k' n := (if decide (k = k') then n + 1 else n)%Z in
  {| ConnectionsAccepted := bump Accepted (ConnectionsAccepted m);
     ConnectionsClosed := bump ClosedCount (ConnectionsClosed m);
     MessagesPublished := bump Published (MessagesPublished m);
     MessagesDropped := bump Dropped (MessagesDropped m);
     BackpressureCloses := bump Backpressure (BackpressureCloses m) |}.

Definition add_one (k : counter) (w : World) : World :=
  {| w_hub := {| hub_clients := hub_clients (w_hub w); hub_metrics := add_metric k (hub_metrics (w_hub w)) |};
     w_heap := w_heap w; w_panicked := w_panicked w |}.

(** [h.clients[scope]]; a missing entry is a nil map, which reads as empty. *)
Definition members (w : World) (scope : Scope) : gset nat := default ∅ (hub_clients (w_hub w) !! scope).

Definition insert_client (scope : Scope) (id : nat) (w : World) : World :=
  set_clients (<[scope := {[id]} ∪ members w scope]> (hub_clients (w_hub w))) w.

(** The locked section of [Unsubscribe]. *)
Definition delete_client (scope : Scope) (id : nat) (w : World) : World :=
  match hub_clients (w_hub w) !! scope with
  | None => w
  | Some scoped =>
      if decide (scoped ∖ {[id]} = ∅)
      then set_clients (delete scope (hub_clients (w_hub w))) w
      else set_clients (<[scope := scoped ∖ {[id]}]> (hub_clients (w_hub w))) w
  end.

Record Snapshot := {
  ActiveConnections : Z;
  snap_metrics : Metrics;
}.

Definition MetricsSnapshot (w : World) : Snapshot :=
  {| ActiveConnections :=
       map_fold (fun _ scoped n => n + Z.of_nat (size scoped))%Z 0%Z (hub_clients (w_hub w));
     snap_metrics := hub_metrics (w_hub w) |}.

(** ** Goroutines *)

(** The steps of the function that [closeOnce.Do] runs. *)
Inductive body := BDelete | BClose | BCount | BReturn.

(** What a goroutine has still to do. *)
Inductive op :=
| OpSubscribe (id : nat) (scope : Scope) (actorRef : string) (deviceID : uuid) (buffer : Z)
| OpCount (k : counter)
| OpUnsubscribe (id : nat)
| OpBody (b : body) (id : nat)
| OpPublish (event : Envelope)
| OpSend (id : nat) (message : Message)
| OpRecv (id : nat).

(** One step of a goroutine at its next operation: the world after it and what
    the operation leaves to do before the goroutine goes on.  [None]: it waits.
    [order] is the order in which [range] visits a map. *)
Definition exec_op (order : gset nat -> list nat) (o : op) (w : World) : option (World * list op) :=
  match o with
  | OpSubscribe id scope actorRef deviceID buffer =>
      match w_heap w !! id with
      | Some _ => None
      | None => Some (insert_client scope id (set_client id (new_client scope actorRef deviceID buffer) w),
                      [OpCount Accepted])
      end
  | OpCount k => Some (add_one k w, [])
  | OpUnsubscribe id =>
      c ← w_heap w !! id;
      match cl_closeOnce c with
      | NotStarted => Some (set_client id (set_once Running c) w, [OpBody BDelete id])
      | Running => None
      | Finished => Some (w, [])
      end
  | OpBody BDelete id =>
      c ← w_heap w !! id;
      Some (delete_client (cl_scope c) id w, [OpBody BClose id])
  | OpBody BClose id =>
      c ← w_heap w !! id;
      match close c with
      | Some c' => Some (set_client id c' w, [OpBody BCount id])
      | None => Some (panic w, [])
      end
  | OpBody BCount id => Some (add_one ClosedCount w, [OpBody BReturn id])
  | OpBody BReturn id =>
      c ← w_heap w !! id;
      Some (set_client id (set_once Finished c) w, [])
  | OpPublish event =>
      let message := MessageFromEvent event in
      Some (w, OpCount Published
               :: ((fun id => OpSend id message) <$> order (members w (scope_of_event event))))
  | OpSend id message =>
      c ← w_heap w !! id;
      match trySend message c with
      | Some (c', true) => Some (set_client id c' w, [])
      | Some (c', false) => Some (set_client id c' w, [OpCount Dropped; OpCount Backpressure; OpUnsubscribe id])
      | None => Some (panic w, [])
      end
  | OpRecv id =>
      c ← w_heap w !! id;
      match cl_send c with
      | m :: rest => Some (set_client id (set_send rest (cl_received c ++ [m]) c) w, [])
      | [] => if cl_send_closed c then Some (w, []) else None
      end
  end.

(** Operations a goroutine may start with: the hub's methods, on clients it was
    given, and the receive of a connection's write loop. *)
Definition startable (w : World) (o : op) : Prop :=
  match o with
  | OpSubscribe _ _ _ _ _ | OpPublish _ => True
  | OpUnsubscribe id | OpRecv id => is_Some (w_heap w !! id)
  | _ => False
  end.

Inductive cstep : World * gmap nat (list op) -> World * gmap nat (list op) -> Prop :=
| cstep_go w T t o : T !! t = None -> startable w o -> cstep (w, T) (w, <[t := [o]]> T)
| cstep_op w T t o rest order w' new :
    T !! t = Some (o :: rest) -> (forall s, order s ≡ₚ elements s) ->
    exec_op order o w = Some (w', new) ->
    cstep (w, T) (w', <[t := new ++ rest]> T)
| cstep_end w T t : T !! t = Some [] -> cstep (w, T) (w, delete t T).

Inductive reachable : World * gmap nat (list op) -> Prop :=
| reachable_init : reachable (new_world, ∅)
| reachable_step c c' : reachable c -> cstep c c' -> reachable c'.

(** One goroutine alone, until it has nothing left to do. *)
Fixpoint run_ops (fuel : nat) (order : gset nat -> list nat) (ops : list op) (w : World) : option World :=
  match ops with
  | [] => Some w
  | o :: rest =>
      match fuel with
      | O => None
      | S fuel =>
          '(w', new) ← exec_op order o w;
          run_ops fuel order (new ++ rest) w'
      end
  end.
