(* ===== verification/Sync.v ===== *)
(** [internal/realtime/sync.go] and the cursor and snapshot of
    [internal/realtime/http.go]: what a client that reconnects reads to catch up.

    The texts of identifiers and times in the transfer objects are kept as what
    they render; a cursor is kept as its two fields, without its base64 text. *)

From S2P Require Import Prelude Json Schema GoTx Store Queries Events Hub.
#[local] Open Scope string_scope.
#[local] Open Scope Z_scope.
#[local] Open Scope list_scope.

Record requestContext := {
  req_OrganisationID : uuid;
  req_LocationID : uuid;
  req_ActorRef : string;
  req_DeviceID : uuid;
}.

(** ** Cursors *)

Record Cursor := { cur_OccurredAt : Z; cur_EventID : uuid }.

(** The zero [time.Time], January 1 of year 1, in Unix nanoseconds. *)
Definition time_zero : Z := -62135596800 * 1000000000.
Definition IsZero (t : Z) : bool := t =? time_zero.

Definition zero_Cursor : Cursor := {| cur_OccurredAt := time_zero; cur_EventID := uuid_Nil |}.

Definition cursorFrom (occurredAt : Z) (eventID : uuid) : Cursor :=
  if (eventID =? uuid_Nil)%N then zero_Cursor
  else {| cur_OccurredAt := occurredAt; cur_EventID := eventID |}.

(** [nil] arguments are SQL's NULL. *)
Definition cursorTime (cursor : Cursor) : option Z :=
  if IsZero (cur_OccurredAt cursor) then None else Some (cur_OccurredAt cursor).

Definition cursorUUID (cursor : Cursor) : option uuid :=
  if (cur_EventID cursor =? uuid_Nil)%N then None else Some (cur_EventID cursor).

(** ** Transfer objects *)

Record tableDTO := {
  tbd_ID : uuid; tbd_FloorID : uuid; tbd_ZoneID : uuid; tbd_Label : string;
  tbd_CapacityLabel : string; tbd_Shape : string; tbd_Geometry : json; tbd_Version : Z;
}.

Record occupancyDTO := {
  ocd_Status : string; ocd_CurrentSessionID : option uuid; ocd_Version : Z; ocd_UpdatedAt : Z;
}.

Record tableStateDTO := { tsd_Table : tableDTO; tsd_Occupancy : occupancyDTO }.

Record assistDTO := {
  asd_ID : uuid; asd_TableID : uuid; asd_TableSessionID : option uuid; asd_Status : string;
  asd_RequestedAt : Z; asd_Version : Z; asd_Note : option string;
}.

Definition event_in_scope (req : requestContext) (ev : OperationalEvent) : bool :=
  (oev_OrganisationID ev =? req_OrganisationID req)%N && (oev_LocationID ev =? req_LocationID req)%N.

(** [ORDER BY occurred_at, id] *)
Definition by_occurred (a b : OperationalEvent) : bool :=
  (oev_OccurredAt a <? oev_OccurredAt b)
  || ((oev_OccurredAt a =? oev_OccurredAt b) && (oev_ID a <=? oev_ID b)%N).

Definition loadCurrentCursor (req : requestContext) : Go Cursor :=
  r ← attempt (exec (select_first db_events (event_in_scope req) (fun a b => by_occurred b a)));
  match r with
  | Ok ev => mret (cursorFrom (oev_OccurredAt ev) (oev_ID ev))
  | Err err => if bool_decide (err = NoRows) then mret zero_Cursor
               else fail (Wrap "loading current event cursor" err)
  end.

Definition tableState (t : Table) (o : TableOccupancy) : tableStateDTO :=
  {| tsd_Table := {| tbd_ID := tbl_ID t; tbd_FloorID := tbl_FloorID t; tbd_ZoneID := tbl_ZoneID t;
                     tbd_Label := tbl_Label t; tbd_CapacityLabel := tbl_CapacityLabel t;
                     tbd_Shape := tbl_Shape t; tbd_Geometry := tbl_Geometry t;
                     tbd_Version := tbl_Version t |};
     tsd_Occupancy := {| ocd_Status := occ_Status o; ocd_CurrentSessionID := occ_CurrentSessionID o;
                         ocd_Version := occ_Version o; ocd_UpdatedAt := occ_UpdatedAt o |} |}.

Definition table_shown (req : requestContext) (t : Table) : bool :=
  (tbl_OrganisationID t =? req_OrganisationID req)%N && (tbl_LocationID t =? req_LocationID req)%N
  && tbl_IsActive t && negb (is_some (tbl_DeletedAt t)).

(** The tables of the location with their occupancy, by the database's order of
    labels. *)
Definition loadTableStates (collate : string -> string -> bool) (req : requestContext)
    : Go (list tableStateDTO) :=
  map_err (Wrap "loading location table states") (exec (fun _ _ d =>
    Ok (omap (fun t => tableState t <$> db_occupancy d !! tbl_ID t)
          (rows db_tables d (table_shown req) (fun a b => collate (tbl_Label a) (tbl_Label b))), d))).

Definition assistState (a : AssistRequest) : assistDTO :=
  {| asd_ID := ast_ID a; asd_TableID := ast_TableID a; asd_TableSessionID := ast_TableSessionID a;
     asd_Status := ast_Status a; asd_RequestedAt := ast_RequestedAt a; asd_Version := ast_Version a;
     asd_Note := ast_Note a |}.

Definition by_requested (a b : AssistRequest) : bool :=
  (ast_RequestedAt a <? ast_RequestedAt b)
  || ((ast_RequestedAt a =? ast_RequestedAt b) && (ast_ID a <=? ast_ID b)%N).

Definition loadActiveAssists (req : requestContext) : Go (list assistDTO) :=
  l ← map_err (Wrap "loading active assists") (exec (select_many db_assists (fun a =>
        (ast_OrganisationID a =? req_OrganisationID req)%N
        && (ast_LocationID a =? req_LocationID req)%N
        && (String.eqb (ast_Status a) "pending" || String.eqb (ast_Status a) "acknowledged"))
        by_requested));
  mret (assistState <$> l).

(** ** Events after a cursor *)

(** [$3 IS NULL OR (occurred_at, id) > ($3, $4)]; the comparison with a NULL
    [$4] is not true when the times are equal. *)
Definition after_cursor (after : Cursor) (ev : OperationalEvent) : bool :=
  match cursorTime after with
  | None => true
  | Some t => (t <? oev_OccurredAt ev)
              || ((t =? oev_OccurredAt ev)
                  && match cursorUUID after with Some id => (id <? oev_ID ev)%N | None => false end)
  end.

Definition event_message (req : requestContext) (ev : OperationalEvent) : Message :=
  {| msg_Type := oev_EventType ev; msg_EventID := oev_ID ev;
     msg_OrganisationID := req_OrganisationID req; msg_LocationID := req_LocationID req;
     msg_EntityType := oev_EntityType ev; msg_EntityID := oev_EntityID ev;
     msg_Version := oev_EntityVersion ev; msg_OccurredAt := oev_OccurredAt ev;
     msg_Data := oev_EventData ev |}.

(** The page of at most [limit] events; the HTTP handler keeps [limit] between 1
    and 500. *)
Definition event_page (req : requestContext) (after : Cursor) (limit : Z) (d : Db) : list OperationalEvent :=
  take (Z.to_nat limit)
    (rows db_events d (fun ev => event_in_scope req ev && after_cursor after ev) by_occurred).

Definition next_cursor (after : Cursor) (l : list OperationalEvent) : Cursor :=
  fold_left (fun _ ev => cursorFrom (oev_OccurredAt ev) (oev_ID ev)) l after.

Definition loadEventsAfter (req : requestContext) (after : Cursor) (limit : Z)
    : Go (list Message * Cursor) :=
  l ← map_err (Wrap "loading realtime events after cursor")
        (exec (fun _ _ d => Ok (event_page req after limit d, d)));
  mret (event_message req <$> l, next_cursor after l).

(** ** The two handlers' transactions *)

Record locationSnapshot := {
  snp_OrganisationID : uuid; snp_LocationID : uuid; snp_Cursor : Cursor;
  snp_Tables : list tableStateDTO; snp_Assists : list assistDTO;
}.

Definition getLocationSnapshot (collate : string -> string -> bool) (req : requestContext)
    : Go locationSnapshot :=
  inTenantTx (
    cursor ← loadCurrentCursor req;
    tables ← loadTableStates collate req;
    assists ← loadActiveAssists req;
    mret {| snp_OrganisationID := req_OrganisationID req; snp_LocationID := req_LocationID req;
            snp_Cursor := cursor; snp_Tables := tables; snp_Assists := assists |}).

Definition listEvents (req : requestContext) (after : Cursor) (limit : Z)
    : Go (list Message * Cursor) :=
  inTenantTx (loadEventsAfter req after limit).
