(* ===== verification/WebSocket.v ===== *)
(** [internal/realtime/websocket.go]: the frames of the websocket connection and
    the loop that reads them.

    The upgrade handshake is left out.  A connection is the bytes its peer still
    sends before the stream ends; deadlines end it too. *)

From S2P Require Import Prelude Json Crypto GoTx.
#[local] Open Scope string_scope.
#[local] Open Scope N_scope.
#[local] Open Scope list_scope.

Definition opText : N := 1.
Definition opClose : N := 8.
Definition opPing : N := 9.
Definition opPong : N := 10.
Definition maxFrameSize : N := 1048576.

Definition EOF : error := Sentinel "io" "EOF".
Definition ErrUnexpectedEOF : error := Sentinel "io" "unexpected EOF".

(** [io.ReadFull] of [n] bytes. *)
Definition ReadFull (n : nat) (input : list N) : result error (list N * list N) :=
  if (n <=? length input)%nat then Ok (take n input, drop n input)
  else Err (match input with [] => EOF | _ => ErrUnexpectedEOF end).

Definition res_then {A B} (r : result error A) (k : A -> result error B) : result error B :=
  match r with Ok a => k a | Err e => Err e end.
Notation "'read!' x ':=' r 'in' k" := (res_then r (fun x => k))
  (at level 10, x pattern, r at level 100, k at level 200, only parsing) : seatd_scope.
#[local] Open Scope seatd_scope.

(** [binary.BigEndian.Uint16], [Uint64] *)
Definition be_uint (l : list N) : N := fold_left (fun acc b => acc * 256 + b) l 0.

(** [payload[i] ^= mask[i%4]], from index [i] on. *)
Fixpoint unmask (mask : list N) (i : nat) (payload : list N) : list N :=
  match payload with
  | [] => []
  | b :: rest => N.lxor b (nth (Nat.modulo i 4) mask 0) :: unmask mask (S i) rest
  end.

(** [uint64(ws.readLimit)] *)
Definition limit_uint64 (readLimit : Z) : N := Z.to_N (readLimit mod 2 ^ 64).

Definition extended_length (length7 : N) (input : list N) : result error (N * list N) :=
  if length7 =? 126 then read! (ext, input) := ReadFull 2 input in Ok (be_uint ext, input)
  else if length7 =? 127 then read! (ext, input) := ReadFull 8 input in Ok (be_uint ext, input)
  else Ok (length7, input).

(** The frame, or the error, with what is left of the input. *)
Definition readFrame (readLimit : Z) (input : list N) : result error (N * list N * list N) :=
  read! (header, input) := ReadFull 2 input in
  let b0 := nth 0 header 0 in
  let b1 := nth 1 header 0 in
  if N.land b0 128 =? 0 then Err (Errorf "fragmented websocket frames are not supported") else
  let op := N.land b0 15 in
  if N.land b1 128 =? 0 then Err (Errorf "client websocket frame is not masked") else
  read! (length, input) := extended_length (N.land b1 127) input in
  if (limit_uint64 readLimit <? length) || (maxFrameSize <? length)
  then Err (Errorf "websocket frame exceeds read limit") else
  read! (mask, input) := ReadFull 4 input in
  read! (payload, input) := ReadFull (N.to_nat length) input in
  Ok (op, unmask mask 0 payload, input).

Definition frame_header (op : N) (length : N) : list N :=
  N.lor 128 op ::
  (if length <? 126 then [length]
   else if length <=? 65535 then 126 :: be_bytes 2 length
   else 127 :: be_bytes 8 length).

(** The bytes that [writeFrame] puts on the connection when no write fails. *)
Definition writeFrame (op : N) (payload : list N) : list N :=
  frame_header op (N.of_nat (length payload)) ++ payload.

(** [ReadLoop]: the frames it writes back and the error it returns with.
    [write n] is the result of its [n]-th write, [done n] whether the context is
    cancelled after its [n]-th frame; [fuel] bounds the number of frames. *)
Fixpoint ReadLoop (fuel : nat) (readLimit : Z) (write : nat -> option error) (done : nat -> option error)
    (n : nat) (input : list N) : option (list (N * list N) * error) :=
  match fuel with
  | O => None
  | S fuel =>
      match readFrame readLimit input with
      | Err err => Some ([], err)
      | Ok (op, payload, rest) =>
          let continue (out : list (N * list N)) :=
            match done n with
            | Some err => Some (out, err)
            | None =>
                '(out', err) ← ReadLoop fuel readLimit write done (S n) rest;
                Some (out ++ out', err)
            end in
          if op =? opClose then Some ([(opClose, [])], EOF)
          else if op =? opPing then
            match write n with
            | Some err => Some ([], err)
            | None => continue [(opPong, payload)]
            end
          else if (op =? opPong) || (op =? opText) then continue []
          else Some ([], Errorf ("unsupported websocket opcode " +:+ int_String (Z.of_N op)))
      end
  end.
