(* ===== verification/RateLimiter.v ===== *)
(** The guest rate limiter of [internal/httpapi/guest.go]: fixed windows per key.
    The limiter's mutex makes each [allow] one step; the time it reads is its
    argument. *)

From S2P Require Import Prelude Sync.
#[local] Open Scope string_scope.
#[local] Open Scope Z_scope.
#[local] Open Scope list_scope.

Record guestRateBucket := { bkt_reset : Z; bkt_count : Z }.

Record guestRateLimiter := {
  lim_window : Z;
  lim_limit : Z;
  lim_hits : gmap string guestRateBucket;
}.

Definition newGuestRateLimiter (window limit : Z) : guestRateLimiter :=
  {| lim_window := window; lim_limit := limit; lim_hits := ∅ |}.

(** The bucket that a call at [now] counts in; a missing one is the zero value. *)
Definition current_bucket (l : guestRateLimiter) (now : Z) (key : string) : guestRateBucket :=
  let bucket := default {| bkt_reset := time_zero; bkt_count := 0 |} (lim_hits l !! key) in
  if bkt_reset bucket <? now then {| bkt_reset := now + lim_window l; bkt_count := 0 |} else bucket.

Definition allow (limiter : option guestRateLimiter) (now : Z) (key : string)
    : option guestRateLimiter * bool :=
  match limiter with
  | None => (None, true)
  | Some l =>
      let bucket := current_bucket l now key in
      let bucket := {| bkt_reset := bkt_reset bucket; bkt_count := bkt_count bucket + 1 |} in
      (Some {| lim_window := lim_window l; lim_limit := lim_limit l;
               lim_hits := <[key := bucket]> (lim_hits l) |},
       bkt_count bucket <=? lim_limit l)
  end.

(** The calls of a run, as times and keys, and what each was answered. *)
Fixpoint allow_all (limiter : option guestRateLimiter) (calls : list (Z * string))
    : list (Z * string * bool) :=
  match calls with
  | [] => []
  | (now, key) :: rest =>
      let '(limiter', ok) := allow limiter now key in
      (now, key, ok) :: allow_all limiter' rest
  end.

(** How many calls with [key] were let through. *)
Definition admitted (key : string) (answers : list (Z * string * bool)) : Z :=
  Z.of_nat (length (List.filter (fun a => String.eqb a.1.2 key && a.2) answers)).

Fixpoint sorted_times (calls : list (Z * string)) : Prop :=
  match calls with
  | [] => True
  | c :: rest => Forall (fun c' => c.1 <= c'.1) rest /\ sorted_times rest
  end.

Definition counts_ok (l : guestRateLimiter) : Prop :=
  forall key b, lim_hits l !! key = Some b -> 0 <= bkt_count b.

Lemma allow_counts_ok l now key : counts_ok l ->
  counts_ok (default l (fst (allow (Some l) now key))).
Proof.
  intros H k b. simpl. intros [[<- <-]|[_ Hb]]%lookup_insert_Some; [|by eapply H]. simpl.
  assert (0 <= bkt_count (current_bucket l now key)); [|lia].
  unfold current_bucket. destruct (lim_hits l !! key) eqn:Hk; simpl; case_match; simpl; try lia.
  by eapply H.
Qed.

(** While a key's bucket lasts, at most what its count leaves is admitted. *)
Lemma admitted_in_bucket key calls l reset count :
  counts_ok l -> Forall (fun c => c.1 <= reset) calls ->
  lim_hits l !! key = Some {| bkt_reset := reset; bkt_count := count |} ->
  admitted key (allow_all (Some l) calls) <= Z.max 0 (lim_limit l - count).
Proof.
  revert l count. induction calls as [|[now k] calls IH]; intros l count Hok Hle Hb; [unfold admitted; simpl; lia|].
  apply Forall_cons_1 in Hle as [Hnow Hle]. simpl in Hnow.
  pose proof (allow_counts_ok l now k Hok) as Hok'. simpl in Hok'.
  cbn [allow_all allow]. unfold admitted in *. cbn [List.filter fst snd].
  destruct (String.eqb_spec k key) as [->|Hne]; cbn [andb].
  - assert (current_bucket l now key = {| bkt_reset := reset; bkt_count := count |}) as Hcb.
    { unfold current_bucket. rewrite Hb. simpl. destruct (Z.ltb_spec reset now); [lia|done]. }
    rewrite Hcb in *. cbn [bkt_reset bkt_count] in *.
    specialize (IH _ (count + 1) Hok' Hle). cbn [lim_hits lim_limit] in IH.
    rewrite lookup_insert_eq in IH. specialize (IH eq_refl).
    destruct (Z.leb_spec (count + 1) (lim_limit l)); cbn [length]; lia.
  - specialize (IH _ count Hok' Hle). cbn [lim_hits lim_limit] in IH.
    rewrite lookup_insert_ne in IH by done. by apply IH.
Qed.

(** A bucket that is opened within an interval outlasts it. *)
Lemma admitted_twice key calls l t :
  counts_ok l -> 0 <= lim_window l -> sorted_times calls ->
  Forall (fun c => t <= c.1 <= t + lim_window l) calls ->
  admitted key (allow_all (Some l) calls)
  <= Z.max 0 (lim_limit l - from_option bkt_count 0 (lim_hits l !! key)) + Z.max 0 (lim_limit l).
Proof.
  revert l. induction calls as [|[now k] calls IH]; intros l Hok Hw Hs Hin; [unfold admitted; simpl; lia|].
  simpl in Hs. destruct Hs as [Hafter Hs]. apply Forall_cons_1 in Hin as [Hnow Hin]. simpl in Hnow.
  pose proof (allow_counts_ok l now k Hok) as Hok'. simpl in Hok'.
  cbn [allow_all allow]. unfold admitted in *. cbn [List.filter fst snd].
  destruct (String.eqb_spec k key) as [->|Hne]; cbn [andb].
  - destruct (Z.ltb_spec (bkt_reset (default {| bkt_reset := time_zero; bkt_count := 0 |} (lim_hits l !! key))) now)
      as [Hlt|Hge].
    + assert (current_bucket l now key = {| bkt_reset := now + lim_window l; bkt_count := 0 |}) as Hcb.
      { unfold current_bucket. apply Z.ltb_lt in Hlt. by rewrite Hlt. }
      rewrite Hcb in *. cbn [bkt_reset bkt_count] in *.
      pose proof (admitted_in_bucket key calls _ (now + lim_window l) (0 + 1) Hok') as Hb.
      cbn [lim_hits lim_limit] in Hb. unfold admitted in Hb. rewrite lookup_insert_eq in Hb.
      assert (Forall (fun c => c.1 <= now + lim_window l) calls) as Hle.
      { eapply Forall_impl; [exact Hin|]. intros c. simpl. lia. }
      specialize (Hb Hle eq_refl).
      destruct (Z.leb_spec (0 + 1) (lim_limit l)); cbn [length]; lia.
    + assert (current_bucket l now key
        = default {| bkt_reset := time_zero; bkt_count := 0 |} (lim_hits l !! key)) as Hcb.
      { unfold current_bucket. apply Z.ltb_ge in Hge. by rewrite Hge. }
      rewrite Hcb in *. set (b := default _ _) in *.
      assert (from_option bkt_count 0 (lim_hits l !! key) = bkt_count b) as ->
        by (unfold b; by destruct (lim_hits l !! key)).
      specialize (IH _ Hok' Hw Hs Hin). cbn [lim_hits lim_limit] in IH.
      rewrite lookup_insert_eq in IH. cbn [from_option bkt_count] in IH.
      cbn [bkt_count bkt_reset]. destruct (Z.leb_spec (bkt_count b + 1) (lim_limit l)); cbn [length]; lia.
  - specialize (IH _ Hok' Hw Hs Hin). cbn [lim_hits lim_limit] in IH.
    by rewrite lookup_insert_ne in IH.
Qed.

Lemma allow_fold_inv before l0 l :
  counts_ok l0 -> fold_left (fun l c => fst (allow l c.1 c.2)) before (Some l0) = Some l ->
  counts_ok l /\ lim_window l = lim_window l0 /\ lim_limit l = lim_limit l0.
Proof.
  revert l0. induction before as [|[now k] before IH]; intros l0 Hok H; [by injection H as <-|].
  cbn [fold_left fst snd allow] in H. apply IH in H as (? & -> & ->); [done|].
  exact (allow_counts_ok l0 now k Hok).
Qed.

(** Rate limiting: however many calls come and whatever came before, in any
    interval as long as the window a key is admitted at most twice its limit,
    and until a key's bucket is reset at most what its count leaves; calls with
    other keys do not count. *)
Theorem guest_rate_bounded window limit before calls l key t (Hwindow : 0 <= window)
    (Hl : fold_left (fun l c => fst (allow l c.1 c.2)) before (Some (newGuestRateLimiter window limit)) = Some l)
    (Hsorted : sorted_times calls) (Hinterval : Forall (fun c => t <= c.1 <= t + window) calls) :
  admitted key (allow_all (Some l) calls) <= 2 * Z.max 0 limit /\
  (forall reset count, lim_hits l !! key = Some {| bkt_reset := reset; bkt_count := count |} ->
     Forall (fun c => c.1 <= reset) calls ->
     admitted key (allow_all (Some l) calls) <= Z.max 0 (limit - count)).
Proof.
  apply allow_fold_inv in Hl as (Hok & Hw & Hlim); [|by intros k b].
  cbn [newGuestRateLimiter lim_window lim_limit] in Hw, Hlim. rewrite <- Hw in Hwindow, Hinterval. split.
  - pose proof (admitted_twice key calls l t Hok Hwindow Hsorted Hinterval) as H. rewrite Hlim in H.
    assert (0 <= from_option bkt_count 0 (lim_hits l !! key)); [|lia].
    destruct (lim_hits l !! key) eqn:Hk; simpl; [by eapply Hok|lia].
  - intros reset count Hb Hle. rewrite <- Hlim. by eapply admitted_in_bucket.
Qed.

Lemma guest_rate_bounded_witness :
  admitted "a" (allow_all (Some (newGuestRateLimiter 60 2))
    [(100, "a"); (101, "b"); (110, "a"); (120, "a"); (160, "a"); (160, "b")]) <= 2 * Z.max 0 2.
Proof.
  apply (guest_rate_bounded 60 2 [] _ (newGuestRateLimiter 60 2) "a" 100); [lia|reflexivity|..].
  - cbn [sorted_times fst]. repeat split; repeat apply Forall_cons_2; try apply Forall_nil_2; cbn [fst]; lia.
  - repeat apply Forall_cons_2; try apply Forall_nil_2; cbn [fst]; lia.
Defined.
