(* ===== verification/Http.v ===== *)
(** The HTTP layer's own vocabulary ([internal/httpapi]): requests, the answers
    that are written to them, the functions that read headers, paths, queries and
    bodies, and the monad of the handlers.  A handler of Go writes an error and
    returns; here it ends with that error.  What a handler writes on success is its
    value: a status and a JSON body. *)

From S2P Require Import Prelude Json Schema GoTx Tokens Identity.
#[local] Open Scope string_scope.
#[local] Open Scope Z_scope.
#[local] Open Scope list_scope.

(** ** Requests *)

(** [body_bytes] is what can be read of the body within the limit, [body_first] the
    JSON value it starts with, if it is one, and [body_end] whether only white space
    follows it.  A body holds its strings as [JStr]. *)
Record Body := {
  body_bytes : option (list N);
  body_first : option json;
  body_end : bool;
}.

(** [req_Header] and [req_Query] keep the first value of a name, [req_PathValue] the
    wildcards of the route. *)
Record Request := {
  req_Method : string;
  req_Path : string;
  req_Header : gmap string string;
  req_Query : gmap string string;
  req_PathValue : gmap string string;
  req_Body : Body;
  req_UserAgent : string;
  req_RemoteAddr : string;
}.

Definition MethodGet := "GET".
Definition MethodPost := "POST".

Definition Header_Get (r : Request) (name : string) : string := default "" (req_Header r !! name).
Definition Query_Get (r : Request) (name : string) : string := default "" (req_Query r !! name).
Definition PathValue (r : Request) (name : string) : string := default "" (req_PathValue r !! name).

(** The part of [app.Config] the handlers read. *)
Record Config := {
  cfg_Environment : string;
  cfg_GuestWebOrigin : string;
  cfg_InternalAPISecret : string;
  cfg_TrustedIdentityHeaders : bool;
}.

Definition EnvLocal := "local".
Definition EnvTest := "test".

Definition isDevelopmentEnvironment (env : string) : bool :=
  String.eqb env EnvLocal || String.eqb env EnvTest.

(** [uuid.Parse] of the uuid package, the host of [net.SplitHostPort],
    [time.Parse(time.RFC3339, _)] in nanoseconds, and whether [strconv.ParseFloat]
    finds a number in range.  What [uuid.Parse] accepts has 32 characters or more;
    it reads hexadecimal digits, dashes and the prefix [urn:uuid:], and of the form
    in braces neither the first character nor the last. *)
Definition uuid_char (c : ascii) : bool :=
  let n := N_of_ascii c in
  ((48 <=? n) && (n <=? 57) || (65 <=? n) && (n <=? 70) || (97 <=? n) && (n <=? 102))%N
  || existsb (Ascii.eqb c) ["-"; ":"; "u"; "r"; "n"; "i"; "U"; "R"; "N"; "I"]%char.

Definition uuid_text (s : string) : bool :=
  let l := bytes_of_string s in
  (32 <=? length l)%nat && forallb uuid_char (removelast (tl l)).

Class HttpText := {
  uuid_Parse : string -> option uuid;
  SplitHostPort : string -> option string;
  ParseRFC3339 : string -> option Z;
  ParseFloat_fits : json -> bool;
  uuid_Parse_text : forall s u, uuid_Parse s = Some u -> uuid_text s = true;
}.

(** ** Text *)

(** [strings.HasSuffix], [strings.Contains] and [strings.CutPrefix]. *)
Fixpoint has_suffix (suffix s : string) : bool :=
  String.eqb suffix s || match s with EmptyString => false | String _ s' => has_suffix suffix s' end.

Fixpoint contains (part s : string) : bool :=
  has_prefix part s || match s with EmptyString => false | String _ s' => contains part s' end.

Definition CutPrefix (s prefix : string) : option string :=
  if has_prefix prefix s
  then Some (String.substring (String.length prefix) (String.length s - String.length prefix) s)
  else None.

(** [strconv.Atoi]: an optional sign and decimal digits, within [int64]. *)
Fixpoint digits_value (acc : Z) (l : list ascii) : option Z :=
  match l with
  | [] => Some acc
  | c :: l' =>
      let n := Z.of_N (N_of_ascii c) in
      if (48 <=? n) && (n <=? 57) then digits_value (10 * acc + (n - 48)) l' else None
  end.

Definition Atoi (s : string) : option Z :=
  let '(sign, digits) :=
    match bytes_of_string s with
    | c :: l => if Ascii.eqb c "-" then (-1, l) else if Ascii.eqb c "+" then (1, l)
                else (1, c :: l)
    | [] => (1, [])
    end in
  match digits with
  | [] => None
  | _ =>
      match digits_value 0 digits with
      | Some n => if (int64_min <=? sign * n) && (sign * n <=? int64_max) then Some (sign * n) else None
      | None => None
      end
  end.

(** ** Answers *)

Record ApiError := {
  ape_Status : Z;
  ape_Code : string;
  ape_Message : string;
  ape_Details : list (string * string);
}.

Definition StatusOK := 200.
Definition StatusCreated := 201.
Definition StatusAccepted := 202.
Definition StatusBadRequest := 400.
Definition StatusUnauthorized := 401.
Definition StatusForbidden := 403.
Definition StatusNotFound := 404.
Definition StatusConflict := 409.
Definition StatusTooManyRequests := 429.
Definition StatusInternalServerError := 500.

Definition writeError (status : Z) (code message : string) : ApiError :=
  {| ape_Status := status; ape_Code := code; ape_Message := message; ape_Details := [] |}.

Definition validation_failed (message : string) : ApiError :=
  writeError StatusBadRequest "validation_failed" message.
Definition permission_denied : ApiError :=
  writeError StatusForbidden "forbidden" "permission denied".
Definition internal_error : ApiError :=
  writeError StatusInternalServerError "internal_error" "internal server error".

(** ** Handlers *)

Definition Http (A : Type) : Type := Go (result ApiError A).

Definition http_ret {A} (a : A) : Http A := mret (M := Go) (Ok a).
Definition refuse {A} (err : ApiError) : Http A := mret (M := Go) (Err err).
Definition http_bind {A B} (m : Http A) (k : A -> Http B) : Http B :=
  mbind (M := Go) (fun r => match r with Ok a => k a | Err err => refuse err end) m.

Notation "x ⇐ m ; k" := (http_bind m (fun x : _ => k))
  (at level 20, m at level 100, k at level 200, only parsing).
Notation "m ;⇒ k" := (http_bind m (fun _ => k))
  (at level 100, k at level 200, only parsing, right associativity).

Definition refuse_if (b : bool) (err : ApiError) : Http unit :=
  if b then refuse err else http_ret tt.

(** [if err != nil { api.write...Error(w, err); return }] *)
Definition calling {A} (write : error -> ApiError) (m : Go A) : Http A :=
  mbind (M := Go) (fun r => match r with Ok a => http_ret a | Err err => refuse (write err) end)
    (attempt m).

(** What is written: the status, the body unless it is empty, and the headers a
    handler sets besides the content type. *)
Record Answer := {
  ans_Status : Z;
  ans_Body : option json;
  ans_Header : list (string * string);
}.

Definition writeJSON (status : Z) (value : json) : Http Answer :=
  http_ret {| ans_Status := status; ans_Body := Some value; ans_Header := [] |}.

(** ** Reading a request *)

Definition headerOrganisationID := "X-Seatd-Organisation-ID".
Definition headerLocationID := "X-Seatd-Location-ID".
Definition headerActorRef := "X-Seatd-Actor-Ref".
Definition headerDeviceID := "X-Seatd-Device-ID".
Definition headerInternalSecret := "X-Seatd-Internal-Secret".

Definition hasClientIdentityHeaders (r : Request) : bool :=
  not_empty (TrimSpace (Header_Get r headerActorRef))
  || not_empty (TrimSpace (Header_Get r headerDeviceID)).

Definition hasBearerAuthorization (r : Request) : bool :=
  match CutPrefix (TrimSpace (Header_Get r "Authorization")) "Bearer " with
  | Some credential => not_empty (TrimSpace credential)
  | None => false
  end.

Definition bearerCredential (r : Request) : Http string :=
  let missing := writeError StatusUnauthorized "unauthorized" "bearer credential is required" in
  match CutPrefix (TrimSpace (Header_Get r "Authorization")) "Bearer " with
  | Some credential =>
      refuse_if (String.eqb (TrimSpace credential) "") missing ;⇒ http_ret (TrimSpace credential)
  | None => refuse missing
  end.

(** Bodies: [decoder.Decode] into a struct with [DisallowUnknownFields]. *)
Definition known_fields (fields : list string) (j : json) : bool :=
  match j with
  | JObj members => forallb (fun kv => existsb (fold_eq (fst kv)) fields) members
  | _ => true
  end.

Definition decode_body {A} (fields : list string) (decode : A -> list (string * json) -> option A)
    (zero : A) (j : json) : option A :=
  if known_fields fields j then decode_struct decode zero j else None.

Definition decodeJSONBody {A} (fields : list string) (decode : A -> list (string * json) -> option A)
    (zero : A) (r : Request) : Http A :=
  match body_first (req_Body r) ≫= decode_body fields decode zero with
  | None => refuse (validation_failed "request body must be valid JSON")
  | Some a =>
      refuse_if (negb (body_end (req_Body r)))
        (validation_failed "request body must contain one JSON object") ;⇒
      http_ret a
  end.

Section Reading.
Context {HT : HttpText}.

Definition parseHeaderUUID (r : Request) (name : string) (required : bool) : Http uuid :=
  let value := TrimSpace (Header_Get r name) in
  if String.eqb value ""
  then refuse_if required (validation_failed (name +:+ " is required")) ;⇒ http_ret uuid_Nil
  else match uuid_Parse value with
       | Some id => http_ret id
       | None => refuse (validation_failed (name +:+ " must be a UUID"))
       end.

Definition pathUUID (r : Request) (name : string) : Http uuid :=
  match uuid_Parse (PathValue r name) with
  | Some id => http_ret id
  | None => refuse (validation_failed (name +:+ " must be a UUID"))
  end.

Definition clientIP (r : Request) : string := default (req_RemoteAddr r) (SplitHostPort (req_RemoteAddr r)).

(** [userProfileIDFromActorRef]: its only error is [identity.ErrValidation]. *)
Definition userProfileIDFromActorRef (actorRef : string) : option uuid :=
  value ← CutPrefix (TrimSpace actorRef) "user:";
  uuid_Parse (TrimSpace value).
End Reading.

Definition writeIdentityError (err : error) : ApiError :=
  if errors_Is err Identity.ErrUnauthorized
  then writeError StatusUnauthorized "unauthorized" "credential is invalid"
  else if errors_Is err Identity.ErrForbidden then permission_denied
  else if errors_Is err Identity.ErrValidation then validation_failed "request validation failed"
  else if errors_Is err Identity.ErrAlreadyExists
  then writeError StatusConflict "already_exists" "resource already exists"
  else if errors_Is err Identity.ErrAlreadyRevoked
  then writeError StatusConflict "already_revoked" "device is already revoked"
  else if errors_Is err Identity.ErrNotFound || errors_Is err NoRows
  then writeError StatusNotFound "not_found" "resource not found"
  else internal_error.

(** ** Facts *)

Lemma http_ret_Ok {A} (a b : A) e s s' : http_ret a e s = (Ok (Ok b), s') -> a = b /\ s' = s.
Proof. by intros [= -> <-]. Qed.

Lemma refuse_Ok {A} err e s (a : A) s' : refuse err e s = (Ok (Ok a), s') -> False.
Proof. by intros [=]. Qed.

Lemma http_bind_Ok {A B} (m : Http A) (k : A -> Http B) e s b s' :
  http_bind m k e s = (Ok (Ok b), s') ->
  exists a s1, m e s = (Ok (Ok a), s1) /\ k a e s1 = (Ok (Ok b), s').
Proof.
  unfold http_bind, mbind, Go_bind. destruct (m e s) as [[[a|err]|err] s1]; [by eauto| |done].
  by intros ?%refuse_Ok.
Qed.

Lemma calling_Ok {A} write (m : Go A) e s a s' :
  calling write m e s = (Ok (Ok a), s') -> m e s = (Ok a, s').
Proof.
  unfold calling, attempt, mbind, Go_bind. destruct (m e s) as [[x|err] s1].
  - by intros [-> ->]%http_ret_Ok.
  - by intros ?%refuse_Ok.
Qed.

Lemma refuse_if_Ok b err e s u s' : refuse_if b err e s = (Ok (Ok u), s') -> b = false /\ s' = s.
Proof. unfold refuse_if. destruct b; [by intros ?%refuse_Ok|]. by intros [_ ->]%http_ret_Ok. Qed.

(** A handler never fails otherwise than with what it writes. *)
Class Answers {A} (m : Http A) : Prop :=
  answers : forall e s r s', m e s = (r, s') -> is_ok r = true.

#[export] Instance answers_ret {A} (a : A) : Answers (http_ret a).
Proof. by intros e s r s' [= <- _]. Qed.
#[export] Instance answers_refuse {A} err : Answers (@refuse A err).
Proof. by intros e s r s' [= <- _]. Qed.
#[export] Instance answers_refuse_if b err : Answers (refuse_if b err).
Proof. unfold refuse_if. destruct b; apply _. Qed.
#[export] Instance answers_calling {A} write (m : Go A) : Answers (calling write m).
Proof.
  intros e s r s' H. unfold calling, attempt, mbind, Go_bind in H.
  destruct (m e s) as [[a|err] s1]; by injection H as <- _.
Qed.
#[export] Instance answers_bind {A B} (m : Http A) (k : A -> Http B) :
  Answers m -> (forall a, Answers (k a)) -> Answers (http_bind m k).
Proof.
  intros Hm Hk e s r s' H. unfold http_bind, mbind, Go_bind in H.
  destruct (m e s) as [[[a|err]|err] s1] eqn:H1; [by apply Hk in H|by injection H as <- _|].
  by apply Hm in H1.
Qed.
#[export] Hint Extern 5 (Answers (match ?x with _ => _ end)) => destruct x : typeclass_instances.
