(* ===== verification/Dto.v ===== *)
(** The JSON of the HTTP API ([internal/httpapi]).  What it answers with: a row as the
    object its DTO encodes to ([...FromDB]), members in the order of the struct, the
    ones with [omitempty] left out when they are nil.  And the bodies of requests:
    the structs they are decoded into, the readers of the handlers that also want the
    bytes, and the canonical form whose hash identifies a command. *)

From S2P Require Import Prelude Json Crypto Schema GoTx Tokens Memberships Onboarding Operations AnalyticsQueries Analytics Http.
#[local] Open Scope string_scope.
#[local] Open Scope Z_scope.
#[local] Open Scope list_scope.

(** [uuidPtr], [textPtr], [intPtr] and [timePtr] with [omitempty]. *)
Definition uuidPtr (k : string) (o : option uuid) := omit_none JUuid k o.
Definition textPtr (k : string) (o : option string) := omit_none JStr k o.
Definition intPtr (k : string) (o : option Z) := omit_none JNum k o.
Definition timePtr (k : string) (o : option Z) := omit_none JTime k o.

Definition organisationFromDB (org : Organisation) : json :=
  JObj ([("id", JUuid (org_ID org)); ("slug", JStr (org_Slug org)); ("name", JStr (org_Name org));
         ("status", JStr (org_Status org))]
        ++ timePtr "onboardedAt" (org_OnboardedAt org)).

Definition locationFromDB (location : Location) : json :=
  JObj [("id", JUuid (loc_ID location)); ("organisationId", JUuid (loc_OrganisationID location));
        ("slug", JStr (loc_Slug location)); ("name", JStr (loc_Name location));
        ("timezone", JStr (loc_Timezone location)); ("status", JStr (loc_Status location));
        ("operatingConfig", loc_OperatingConfig location);
        ("featureFlags", loc_FeatureFlags location)].

Definition floorFromDB (floor : Floor) : json :=
  JObj ([("id", JUuid (flr_ID floor)); ("slug", JStr (flr_Slug floor)); ("name", JStr (flr_Name floor));
         ("sortOrder", JNum (flr_SortOrder floor)); ("canvas", flr_Canvas floor)]
        ++ textPtr "backgroundAssetRef" (flr_BackgroundAssetRef floor)
        ++ [("isActive", JBool (flr_IsActive floor)); ("version", JNum (flr_Version floor))]).

Definition zoneFromDB (zone : Zone) : json :=
  JObj [("id", JUuid (zon_ID zone)); ("floorId", JUuid (zon_FloorID zone));
        ("name", JStr (zon_Name zone)); ("sortOrder", JNum (zon_SortOrder zone));
        ("isActive", JBool (zon_IsActive zone)); ("version", JNum (zon_Version zone))].

Definition tableFromDB (table : Table) : json :=
  JObj [("id", JUuid (tbl_ID table)); ("floorId", JUuid (tbl_FloorID table));
        ("zoneId", JUuid (tbl_ZoneID table)); ("label", JStr (tbl_Label table));
        ("capacityLabel", JStr (tbl_CapacityLabel table)); ("shape", JStr (tbl_Shape table));
        ("geometry", tbl_Geometry table);
        ("isActive", JBool (tbl_IsActive table && negb (is_some (tbl_DeletedAt table))));
        ("version", JNum (tbl_Version table))].

Definition occupancyFromDB (occupancy : TableOccupancy) : json :=
  JObj ([("status", JStr (occ_Status occupancy))]
        ++ uuidPtr "currentSessionId" (occ_CurrentSessionID occupancy)
        ++ [("version", JNum (occ_Version occupancy)); ("updatedAt", JTime (occ_UpdatedAt occupancy))]).

Definition sessionFromDB (session : TableSession) : json :=
  JObj ([("id", JUuid (ses_ID session)); ("tableId", JUuid (ses_TableID session));
         ("startedAt", JTime (ses_StartedAt session))]
        ++ timePtr "endedAt" (ses_EndedAt session) ++ intPtr "partySize" (ses_PartySize session)
        ++ [("source", JStr (ses_Source session))]).

Definition assistFromDB (assist : AssistRequest) : json :=
  JObj ([("id", JUuid (ast_ID assist)); ("tableId", JUuid (ast_TableID assist))]
        ++ uuidPtr "tableSessionId" (ast_TableSessionID assist)
        ++ [("status", JStr (ast_Status assist)); ("requestedAt", JTime (ast_RequestedAt assist));
            ("version", JNum (ast_Version assist))]
        ++ textPtr "note" (ast_Note assist) ++ textPtr "actionKey" (ast_ActionKey assist)).

Definition tableStateFromDB (table : Table) (occupancy : TableOccupancy) : json :=
  JObj [("table", tableFromDB table); ("occupancy", occupancyFromDB occupancy)].

Definition tableCommandResponseFromDB (table : Table) (occupancy : TableOccupancy)
    (session : TableSession) : json :=
  JObj [("table", tableFromDB table); ("occupancy", occupancyFromDB occupancy);
        ("session", sessionFromDB session)].

Definition deviceFromDB (device : Device) : json :=
  JObj ([("id", JUuid (dev_ID device)); ("organisationId", JUuid (dev_OrganisationID device))]
        ++ uuidPtr "locationId" (dev_LocationID device) ++ textPtr "name" (dev_Name device)
        ++ [("deviceType", JStr (dev_DeviceType device)); ("platform", JStr (dev_Platform device));
            ("appVersion", JStr (dev_AppVersion device)); ("trustState", JStr (dev_TrustState device));
            ("registeredAt", JTime (dev_RegisteredAt device))]
        ++ timePtr "lastSeenAt" (dev_LastSeenAt device)
        ++ timePtr "lastHeartbeatAt" (dev_LastHeartbeatAt device)
        ++ timePtr "assignedAt" (dev_AssignedAt device) ++ timePtr "revokedAt" (dev_RevokedAt device)
        ++ [("heartbeatIntervalSeconds", JNum (dev_HeartbeatIntervalSeconds device));
            ("capabilities", dev_Capabilities device); ("configuration", dev_Configuration device)]).

Definition pairingCodeFromDB (pairingCode : DevicePairingCode) (code : string) : json :=
  JObj ([("id", JUuid (dpc_ID pairingCode)); ("locationId", JUuid (dpc_LocationID pairingCode));
         ("deviceType", JStr (dpc_DeviceType pairingCode)); ("code", JStr code);
         ("expiresAt", JTime (dpc_ExpiresAt pairingCode))]
        ++ timePtr "consumedAt" (dpc_ConsumedAt pairingCode)).

(** The pointers of [managedMembershipFromDomain] are nil for zero values. *)
Definition uuid_member (k : string) (u : uuid) := omit_if (u =? uuid_Nil)%N k (JUuid u).
Definition text_member (k s : string) := omit_if (String.eqb s "") k (JStr s).

Definition managedMembershipFromDomain (membership : ManagedMembership) : json :=
  JObj ([("id", JUuid (mng_ID membership)); ("scope", JStr (mng_Scope membership));
         ("organisationId", JUuid (mng_OrganisationID membership))]
        ++ uuid_member "locationId" (mng_LocationID membership)
        ++ uuid_member "userProfileId" (mng_UserProfileID membership)
        ++ text_member "displayName" (mng_DisplayName membership)
        ++ text_member "email" (mng_Email membership)
        ++ [("memberRef", JStr (mng_MemberRef membership)); ("role", JStr (mng_Role membership))]
        ++ timePtr "disabledAt" (mng_DisabledAt membership)
        ++ omit_if (match mng_Permissions membership with [] => true | _ => false end) "permissions"
             (JArr (map JStr (mng_Permissions membership)))).

Definition servicePeriodFromDB (period : ServicePeriod) : json :=
  JObj [("id", JUuid (svp_ID period)); ("locationId", JUuid (svp_LocationID period));
        ("name", JStr (svp_Name period)); ("daysOfWeek", JArr (map JNum (svp_DaysOfWeek period)));
        ("startTime", JStr (FormatClock (svp_StartTime period)));
        ("endTime", JStr (FormatClock (svp_EndTime period)));
        ("isActive", JBool (svp_IsActive period)); ("version", JNum (svp_Version period))].

(** *** Analytics *)

Section Analytics.
Context {RD : ReportData}.

Definition analyticsMetricFromDomain (metric : Metric) : json :=
  JObj [("activeTableCount", JNum (met_ActiveTableCount metric));
        ("occupancySeconds", json_float (met_OccupancySeconds metric));
        ("utilisationBasisSeconds", json_float (met_UtilisationBasisSeconds metric));
        ("utilisationRate", json_float (met_UtilisationRate metric));
        ("completedSessionCount", JNum (met_CompletedSessionCount metric));
        ("turnoverRate", json_float (met_TurnoverRate metric));
        ("avgSessionSeconds", json_float (met_AvgSessionSeconds metric));
        ("p50SessionSeconds", json_float (met_P50SessionSeconds metric));
        ("p90SessionSeconds", json_float (met_P90SessionSeconds metric));
        ("assistRequestCount", JNum (met_AssistRequestCount metric));
        ("avgAssistResponseSeconds", json_float (met_AvgAssistResponseSeconds metric));
        ("avgAssistResolutionSeconds", json_float (met_AvgAssistResolutionSeconds metric));
        ("anomalyCount", JNum (met_AnomalyCount metric))].

Definition analyticsWindowMetricFromDomain (window : WindowMetric) : json :=
  JObj (uuid_member "id" (wmt_ID window) ++ text_member "name" (wmt_Name window)
        ++ [("windowStart", JTime (tm_instant (wmt_WindowStart window)));
            ("windowEnd", JTime (tm_instant (wmt_WindowEnd window)));
            ("metric", analyticsMetricFromDomain (wmt_Metric window))]).

Definition analyticsCheckpointFromDB (checkpoint : AnalyticsProjectorCheckpoint) : json :=
  JObj ([("projectorName", JStr (apc_ProjectorName checkpoint));
         ("projectorVersion", JNum (apc_ProjectorVersion checkpoint))]
        ++ timePtr "cursorOccurredAt" (apc_CursorOccurredAt checkpoint)
        ++ uuidPtr "cursorEventId" (apc_CursorEventID checkpoint)
        ++ [("lagSeconds", json_float (apc_LagSeconds checkpoint));
            ("rebuildStatus", JStr (apc_RebuildStatus checkpoint));
            ("updatedAt", JTime (apc_UpdatedAt checkpoint))]).

Definition analyticsDataQualityFromDomain (quality : DataQuality) : json :=
  JObj [("openSessionCount", JNum (dql_OpenSessionCount quality));
        ("longOpenSessionCount", JNum (dql_LongOpenSessionCount quality));
        ("impossibleSessionCount", JNum (dql_ImpossibleSessionCount quality));
        ("missingOccupancyCount", JNum (dql_MissingOccupancyCount quality));
        ("staleDeviceCount", JNum (dql_StaleDeviceCount quality));
        ("projectorLagSeconds", json_float (dql_ProjectorLagSeconds quality));
        ("rebuildStatus", JStr (dql_RebuildStatus quality))].

(** [t.Format("2006-01-02")]. *)
Definition date_json (t : GoTime) : json := JStr (format_date (day_of t)).

Definition analyticsRebuildRunFromDomain (run : RebuildRun) : json :=
  JObj ([("id", JUuid (rbr_ID run)); ("locationId", JUuid (rbr_LocationID run));
         ("requestedBy", JStr (rbr_RequestedBy run)); ("rangeFrom", date_json (rbr_RangeFrom run));
         ("rangeTo", date_json (rbr_RangeTo run)); ("startedAt", JTime (rbr_StartedAt run))]
        ++ timePtr "completedAt" (rbr_CompletedAt run)
        ++ [("status", JStr (rbr_Status run)); ("daysProcessed", JNum (rbr_DaysProcessed run))]
        ++ textPtr "lastError" (rbr_LastError run)).

Definition analyticsSummaryFromDomain (summary : Summary) : json :=
  JObj ([("location", locationFromDB (sum_Location summary)); ("date", date_json (sum_Date summary));
         ("today", analyticsWindowMetricFromDomain (sum_Today summary))]
        ++ omit_none analyticsWindowMetricFromDomain "currentServicePeriod" (sum_CurrentServicePeriod summary)
        ++ omit_none analyticsCheckpointFromDB "checkpoint" (sum_Checkpoint summary)
        ++ [("dataQuality", analyticsDataQualityFromDomain (sum_DataQuality summary))]
        ++ omit_none analyticsRebuildRunFromDomain "lastRebuildRun" (sum_LastRebuildRun summary)).

Definition analyticsTimePointFromDomain (point : TimePoint) : json :=
  JObj [("bucketStart", JTime (tpt_BucketStart point)); ("bucketEnd", JTime (tpt_BucketEnd point));
        ("metric", analyticsMetricFromDomain (tpt_Metric point))].

Definition analyticsComparisonPointFromDomain (point : ComparisonPoint) : json :=
  JObj [("groupId", JUuid (cpt_GroupID point)); ("groupName", JStr (cpt_GroupName point));
        ("metricDate", JStr (format_date (cpt_MetricDate point)));
        ("windowStart", JTime (cpt_WindowStart point)); ("windowEnd", JTime (cpt_WindowEnd point));
        ("metric", analyticsMetricFromDomain (cpt_Metric point))].
End Analytics.

(** ** Fields

    What [json.Decoder] puts into a field of each type; [null] leaves a value that is
    no pointer alone.  A [json.RawMessage] keeps [null] too. *)

Definition decode_int (bits : Z) (cur : Z) (j : json) : option Z :=
  match j with
  | JNum z => if (- 2 ^ (bits - 1) <=? z) && (z <? 2 ^ (bits - 1)) then Some z else None
  | JNull => Some cur
  | _ => None
  end.
Definition decode_int32 := decode_int 32.
Definition decode_int16 := decode_int 16.

Definition decode_raw (_ : RawMessage) (j : json) : option RawMessage := Some (RawText (Some j)).

(** A struct that refuses members it has no field for. *)
Definition strict_struct {A} (fields : list string) (decode : A -> list (string * json) -> option A)
    (cur : A) (j : json) : option A :=
  if known_fields fields j then decode_struct decode cur j else None.

(** A slice field: the slice and what its array holds behind it. *)
Definition decode_list {A} (dec : A -> json -> option A) (zero : A) (name : string)
    (ms : list (string * json)) (cur : list A) : option (list A) :=
  fst <$> decode_field (decode_slice dec zero) name ms (cur, []).

Section Fields.
Context {HT : HttpText}.

Definition decode_uuid (cur : uuid) (j : json) : option uuid :=
  match j with JStr s => uuid_Parse s | JNull => Some cur | _ => None end.
Definition decode_uuid_ptr (_ : option uuid) (j : json) : option (option uuid) :=
  match j with JStr s => Some <$> uuid_Parse s | JNull => Some None | _ => None end.
End Fields.

(** ** Requests of the configuration *)

Record updateOrganisationRequest := { uor_Slug : string; uor_Name : string; uor_Status : string }.

Definition updateOrganisation_fields (z : updateOrganisationRequest) (ms : list (string * json))
    : option updateOrganisationRequest :=
  slug ← decode_field decode_string "slug" ms (uor_Slug z);
  name ← decode_field decode_string "name" ms (uor_Name z);
  status ← decode_field decode_string "status" ms (uor_Status z);
  Some {| uor_Slug := slug; uor_Name := name; uor_Status := status |}.

Record updateLocationRequest := {
  ulr_Name : string;
  ulr_Timezone : string;
  ulr_Status : string;
  ulr_OperatingConfig : RawMessage;
  ulr_FeatureFlags : RawMessage;
}.

Definition updateLocation_fields (z : updateLocationRequest) (ms : list (string * json))
    : option updateLocationRequest :=
  name ← decode_field decode_string "name" ms (ulr_Name z);
  timezone ← decode_field decode_string "timezone" ms (ulr_Timezone z);
  status ← decode_field decode_string "status" ms (ulr_Status z);
  config ← decode_field decode_raw "operatingConfig" ms (ulr_OperatingConfig z);
  flags ← decode_field decode_raw "featureFlags" ms (ulr_FeatureFlags z);
  Some {| ulr_Name := name; ulr_Timezone := timezone; ulr_Status := status;
          ulr_OperatingConfig := config; ulr_FeatureFlags := flags |}.

Record floorRequest := {
  flq_Slug : string;
  flq_Name : string;
  flq_SortOrder : Z;
  flq_Canvas : RawMessage;
  flq_BackgroundAssetRef : string;
  flq_ExpectedVersion : Z;
}.

Definition floor_fields (z : floorRequest) (ms : list (string * json)) : option floorRequest :=
  slug ← decode_field decode_string "slug" ms (flq_Slug z);
  name ← decode_field decode_string "name" ms (flq_Name z);
  sort ← decode_field decode_int32 "sortOrder" ms (flq_SortOrder z);
  canvas ← decode_field decode_raw "canvas" ms (flq_Canvas z);
  background ← decode_field decode_string "backgroundAssetRef" ms (flq_BackgroundAssetRef z);
  version ← decode_field decode_int32 "expectedVersion" ms (flq_ExpectedVersion z);
  Some {| flq_Slug := slug; flq_Name := name; flq_SortOrder := sort; flq_Canvas := canvas;
          flq_BackgroundAssetRef := background; flq_ExpectedVersion := version |}.

Record zoneRequest := {
  znq_FloorID : uuid;
  znq_Name : string;
  znq_SortOrder : Z;
  znq_ExpectedVersion : Z;
}.

Record tableRequest := {
  tbq_FloorID : uuid;
  tbq_ZoneID : uuid;
  tbq_Label : string;
  tbq_CapacityLabel : string;
  tbq_Shape : string;
  tbq_Geometry : RawMessage;
  tbq_ExpectedVersion : Z;
}.

Record archiveRequest := { arq_ExpectedVersion : Z; arq_FloorID : uuid }.

Section Layout.
Context {HT : HttpText}.

Definition zone_fields (z : zoneRequest) (ms : list (string * json)) : option zoneRequest :=
  floorID ← decode_field decode_uuid "floorId" ms (znq_FloorID z);
  name ← decode_field decode_string "name" ms (znq_Name z);
  sort ← decode_field decode_int32 "sortOrder" ms (znq_SortOrder z);
  version ← decode_field decode_int32 "expectedVersion" ms (znq_ExpectedVersion z);
  Some {| znq_FloorID := floorID; znq_Name := name; znq_SortOrder := sort;
          znq_ExpectedVersion := version |}.

Definition table_fields (z : tableRequest) (ms : list (string * json)) : option tableRequest :=
  floorID ← decode_field decode_uuid "floorId" ms (tbq_FloorID z);
  zoneID ← decode_field decode_uuid "zoneId" ms (tbq_ZoneID z);
  label ← decode_field decode_string "label" ms (tbq_Label z);
  capacity ← decode_field decode_string "capacityLabel" ms (tbq_CapacityLabel z);
  shape ← decode_field decode_string "shape" ms (tbq_Shape z);
  geometry ← decode_field decode_raw "geometry" ms (tbq_Geometry z);
  version ← decode_field decode_int32 "expectedVersion" ms (tbq_ExpectedVersion z);
  Some {| tbq_FloorID := floorID; tbq_ZoneID := zoneID; tbq_Label := label;
          tbq_CapacityLabel := capacity; tbq_Shape := shape; tbq_Geometry := geometry;
          tbq_ExpectedVersion := version |}.

Definition archive_fields (z : archiveRequest) (ms : list (string * json)) : option archiveRequest :=
  version ← decode_field decode_int32 "expectedVersion" ms (arq_ExpectedVersion z);
  floorID ← decode_field decode_uuid "floorId" ms (arq_FloorID z);
  Some {| arq_ExpectedVersion := version; arq_FloorID := floorID |}.
End Layout.

(** ** Requests of devices and memberships *)

Record createPairingCodeRequest := {
  cpr_LocationID : uuid;
  cpr_DeviceType : string;
  cpr_TTLSeconds : Z;
}.

Definition pairingCode_fields `{HttpText} (z : createPairingCodeRequest) (ms : list (string * json))
    : option createPairingCodeRequest :=
  locationID ← decode_field decode_uuid "locationId" ms (cpr_LocationID z);
  type ← decode_field decode_string "deviceType" ms (cpr_DeviceType z);
  ttl ← decode_field decode_int32 "ttlSeconds" ms (cpr_TTLSeconds z);
  Some {| cpr_LocationID := locationID; cpr_DeviceType := type; cpr_TTLSeconds := ttl |}.

Record pairDeviceRequest := {
  pdr_Code : string;
  pdr_Platform : string;
  pdr_AppVersion : string;
  pdr_Name : string;
  pdr_Capabilities : RawMessage;
  pdr_Configuration : RawMessage;
}.

Definition pairDevice_fields (z : pairDeviceRequest) (ms : list (string * json))
    : option pairDeviceRequest :=
  code ← decode_field decode_string "code" ms (pdr_Code z);
  platform ← decode_field decode_string "platform" ms (pdr_Platform z);
  version ← decode_field decode_string "appVersion" ms (pdr_AppVersion z);
  name ← decode_field decode_string "name" ms (pdr_Name z);
  capabilities ← decode_field decode_raw "capabilities" ms (pdr_Capabilities z);
  configuration ← decode_field decode_raw "configuration" ms (pdr_Configuration z);
  Some {| pdr_Code := code; pdr_Platform := platform; pdr_AppVersion := version; pdr_Name := name;
          pdr_Capabilities := capabilities; pdr_Configuration := configuration |}.

Record deviceHeartbeatRequest := { dhr_AppVersion : string; dhr_Capabilities : RawMessage }.

Definition heartbeat_fields (z : deviceHeartbeatRequest) (ms : list (string * json))
    : option deviceHeartbeatRequest :=
  version ← decode_field decode_string "appVersion" ms (dhr_AppVersion z);
  capabilities ← decode_field decode_raw "capabilities" ms (dhr_Capabilities z);
  Some {| dhr_AppVersion := version; dhr_Capabilities := capabilities |}.

Record createMembershipRequest := {
  cmq_Scope : string;
  cmq_LocationID : string;
  cmq_Email : string;
  cmq_DisplayName : string;
  cmq_Role : string;
}.

Definition createMembership_fields (z : createMembershipRequest) (ms : list (string * json))
    : option createMembershipRequest :=
  scope ← decode_field decode_string "scope" ms (cmq_Scope z);
  locationID ← decode_field decode_string "locationId" ms (cmq_LocationID z);
  email ← decode_field decode_string "email" ms (cmq_Email z);
  name ← decode_field decode_string "displayName" ms (cmq_DisplayName z);
  role ← decode_field decode_string "role" ms (cmq_Role z);
  Some {| cmq_Scope := scope; cmq_LocationID := locationID; cmq_Email := email;
          cmq_DisplayName := name; cmq_Role := role |}.

Record updateMembershipRoleRequest := { umr_Role : string }.

Definition membershipRole_fields (z : updateMembershipRoleRequest) (ms : list (string * json))
    : option updateMembershipRoleRequest :=
  role ← decode_field decode_string "role" ms (umr_Role z);
  Some {| umr_Role := role |}.

(** ** The setup of an owner *)

Record ownerSetupRequest := {
  osq_Floor : OnboardingFloor;
  osq_ServicePeriods : list OnboardingServicePeriod;
}.

Definition setup_zone_fields (z : OnboardingZone) (ms : list (string * json)) : option OnboardingZone :=
  name ← decode_field decode_string "name" ms (obz_Name z);
  sort ← decode_field decode_int32 "sortOrder" ms (obz_SortOrder z);
  Some {| obz_Name := name; obz_SortOrder := sort |}.

Definition setup_table_fields (z : OnboardingTable) (ms : list (string * json))
    : option OnboardingTable :=
  label ← decode_field decode_string "label" ms (obt_Label z);
  capacity ← decode_field decode_string "capacityLabel" ms (obt_CapacityLabel z);
  shape ← decode_field decode_string "shape" ms (obt_Shape z);
  geometry ← decode_field decode_raw "geometry" ms (obt_Geometry z);
  zone ← decode_field decode_string "zoneName" ms (obt_ZoneName z);
  Some {| obt_Label := label; obt_CapacityLabel := capacity; obt_Shape := shape;
          obt_Geometry := geometry; obt_ZoneName := zone |}.

Definition no_zone : OnboardingZone := {| obz_Name := ""; obz_SortOrder := 0 |}.
Definition no_table : OnboardingTable :=
  {| obt_Label := ""; obt_CapacityLabel := ""; obt_Shape := ""; obt_Geometry := RawEmpty;
     obt_ZoneName := "" |}.

Definition setup_floor_fields (z : OnboardingFloor) (ms : list (string * json)) : option OnboardingFloor :=
  name ← decode_field decode_string "name" ms (obf_Name z);
  slug ← decode_field decode_string "slug" ms (obf_Slug z);
  canvas ← decode_field decode_raw "canvas" ms (obf_Canvas z);
  zones ← decode_list (strict_struct ["name"; "sortOrder"] setup_zone_fields) no_zone "zones" ms
            (obf_Zones z);
  tables ← decode_list
             (strict_struct ["label"; "capacityLabel"; "shape"; "geometry"; "zoneName"]
                setup_table_fields) no_table "tables" ms (obf_Tables z);
  sort ← decode_field decode_int32 "sortOrder" ms (obf_SortOrder z);
  Some {| obf_Name := name; obf_Slug := slug; obf_Canvas := canvas; obf_Zones := zones;
          obf_Tables := tables; obf_SortOrder := sort |}.

Definition no_period : OnboardingServicePeriod :=
  {| obp_Name := ""; obp_DaysOfWeek := []; obp_StartTime := ""; obp_EndTime := "" |}.

Definition setup_period_fields (z : OnboardingServicePeriod) (ms : list (string * json))
    : option OnboardingServicePeriod :=
  name ← decode_field decode_string "name" ms (obp_Name z);
  days ← decode_list decode_int16 0 "daysOfWeek" ms (obp_DaysOfWeek z);
  start ← decode_field decode_string "startTime" ms (obp_StartTime z);
  finish ← decode_field decode_string "endTime" ms (obp_EndTime z);
  Some {| obp_Name := name; obp_DaysOfWeek := days; obp_StartTime := start; obp_EndTime := finish |}.

Definition no_floor : OnboardingFloor :=
  {| obf_Name := ""; obf_Slug := ""; obf_Canvas := RawEmpty; obf_Zones := []; obf_Tables := [];
     obf_SortOrder := 0 |}.

Definition setup_fields (z : ownerSetupRequest) (ms : list (string * json)) : option ownerSetupRequest :=
  floor ← decode_field
            (strict_struct ["name"; "slug"; "canvas"; "zones"; "tables"; "sortOrder"]
               setup_floor_fields) "floor" ms (osq_Floor z);
  periods ← decode_list
              (strict_struct ["name"; "daysOfWeek"; "startTime"; "endTime"] setup_period_fields)
              no_period "servicePeriods" ms (osq_ServicePeriods z);
  Some {| osq_Floor := floor; osq_ServicePeriods := periods |}.

(** ** Commands *)

Record commandRequest := {
  cmr_CommandID : uuid;
  cmr_ExpectedVersion : Z;
  cmr_PartySize : option Z;
}.

Record guestCreateRequest := { gcr_CommandID : uuid; gcr_ActionKey : string }.
Record guestCancelRequest := { gnr_CommandID : uuid }.
Record exportQRRequest := { eqr_Label : string; eqr_ExpiresAt : string }.

Record updateIntegrationMappingRequest := { uim_TableID : option uuid; uim_Status : string }.

Definition exportQR_fields (z : exportQRRequest) (ms : list (string * json)) : option exportQRRequest :=
  label ← decode_field decode_string "label" ms (eqr_Label z);
  expires ← decode_field decode_string "expiresAt" ms (eqr_ExpiresAt z);
  Some {| eqr_Label := label; eqr_ExpiresAt := expires |}.

(** *** Requests of analytics *)

Record servicePeriodRequest := {
  spq_Name : string;
  spq_DaysOfWeek : list Z;
  spq_StartTime : string;
  spq_EndTime : string;
  spq_ExpectedVersion : Z;
}.

Definition servicePeriod_fields (z : servicePeriodRequest) (ms : list (string * json))
    : option servicePeriodRequest :=
  name ← decode_field decode_string "name" ms (spq_Name z);
  days ← decode_list decode_int16 0 "daysOfWeek" ms (spq_DaysOfWeek z);
  start ← decode_field decode_string "startTime" ms (spq_StartTime z);
  finish ← decode_field decode_string "endTime" ms (spq_EndTime z);
  version ← decode_field decode_int32 "expectedVersion" ms (spq_ExpectedVersion z);
  Some {| spq_Name := name; spq_DaysOfWeek := days; spq_StartTime := start; spq_EndTime := finish;
          spq_ExpectedVersion := version |}.

Record analyticsRebuildRequest := { arb_LocationID : string; arb_From : string; arb_To : string }.

Definition analyticsRebuild_fields (z : analyticsRebuildRequest) (ms : list (string * json))
    : option analyticsRebuildRequest :=
  location ← decode_field decode_string "locationId" ms (arb_LocationID z);
  from ← decode_field decode_string "from" ms (arb_From z);
  to ← decode_field decode_string "to" ms (arb_To z);
  Some {| arb_LocationID := location; arb_From := from; arb_To := to |}.

(** *** The bytes of a JSON value

    [json.Marshal]: strings between quotes with the characters HTML cares about and
    the two line separators escaped. *)

Definition hex_digit (n : N) : ascii :=
  ascii_of_N (if (n <? 10)%N then 48 + n else 87 + n)%N.

Definition escape_byte (c : ascii) : list ascii :=
  let n := N_of_ascii c in
  if ((n =? 34) || (n =? 92))%N then ["\"%char; c]
  else if (n =? 8)%N then ["\"%char; "b"%char]
  else if (n =? 12)%N then ["\"%char; "f"%char]
  else if (n =? 10)%N then ["\"%char; "n"%char]
  else if (n =? 13)%N then ["\"%char; "r"%char]
  else if (n =? 9)%N then ["\"%char; "t"%char]
  else if ((n <? 32) || (n =? 60) || (n =? 62) || (n =? 38))%N
  then ["\"%char; "u"%char; "0"%char; "0"%char; hex_digit (n / 16); hex_digit (n mod 16)]
  else [c].

(** U+2028 and U+2029 are the bytes E2 80 A8 and E2 80 A9. *)
Fixpoint escape (l : list ascii) : list ascii :=
  match l with
  | [] => []
  | c :: l' =>
      match l' with
      | d :: e :: l3 =>
          if ((N_of_ascii c =? 226) && (N_of_ascii d =? 128)
              && ((N_of_ascii e =? 168) || (N_of_ascii e =? 169)))%N
          then ["\"%char; "u"%char; "2"%char; "0"%char; "2"%char; hex_digit (N_of_ascii e mod 16)]
               ++ escape l3
          else escape_byte c ++ escape l'
      | _ => escape_byte c ++ escape l'
      end
  end.

Definition quote : ascii := ascii_of_N 34.
Definition quoted (s : string) : list ascii := quote :: escape (bytes_of_string s) ++ [quote].

Fixpoint padded (width : nat) (n : Z) : list ascii :=
  match width with
  | O => []
  | S w => padded w (n / 10) ++ [ascii_of_N (48 + Z.to_N (n mod 10))]
  end.

Fixpoint drop_zeros (l : list ascii) : list ascii :=
  match l with
  | c :: l' => if Ascii.eqb c "0" then drop_zeros l' else l
  | [] => []
  end.

(** [time.Time.Format(time.RFC3339Nano)] in UTC. *)
Definition RFC3339Nano (t : Z) : list ascii :=
  let s := t / 1000000000 in
  let ns := t mod 1000000000 in
  let '(y, m, d) := civil_from_days (s / 86400) in
  let r := s mod 86400 in
  padded 4 y ++ ["-"%char] ++ padded 2 m ++ ["-"%char] ++ padded 2 d ++ ["T"%char]
  ++ padded 2 (r / 3600) ++ [":"%char] ++ padded 2 (r / 60 mod 60) ++ [":"%char] ++ padded 2 (r mod 60)
  ++ (if ns =? 0 then [] else "."%char :: rev (drop_zeros (rev (padded 9 ns)))) ++ ["Z"%char].

Fixpoint joined (parts : list (list ascii)) : list ascii :=
  match parts with
  | [] => []
  | [p] => p
  | p :: rest => p ++ ","%char :: joined rest
  end.

Fixpoint marshal (j : json) : list ascii :=
  match j with
  | JNull => bytes_of_string "null"
  | JBool b => bytes_of_string (if b then "true" else "false")
  | JNum z => bytes_of_string (int_String z)
  | JReal literal => bytes_of_string literal
  | JStr s => quoted s
  | JUuid u => quoted (uuid_String u)
  | JTime t => quote :: RFC3339Nano t ++ [quote]
  | JArr l => "["%char :: joined (map marshal l) ++ ["]"%char]
  | JObj l => "{"%char :: joined (map (fun '(k, v) => quoted k ++ ":"%char :: marshal v) l) ++ ["}"%char]
  end.

Definition ascii_N (l : list ascii) : list N := map N_of_ascii l.

(** The numbers a [float64] has room for. *)
Fixpoint numbers_fit `{HttpText} (j : json) : bool :=
  match j with
  | JNum _ | JReal _ => ParseFloat_fits j
  | JArr l => forallb numbers_fit l
  | JObj l => forallb (fun '(_, v) => numbers_fit v) l
  | _ => true
  end.

Section Commands.
Context {HT : HttpText} {GN : GoNumber}.

Definition mapping_fields (z : updateIntegrationMappingRequest) (ms : list (string * json))
    : option updateIntegrationMappingRequest :=
  tableID ← decode_field decode_uuid_ptr "tableId" ms (uim_TableID z);
  status ← decode_field decode_string "status" ms (uim_Status z);
  Some {| uim_TableID := tableID; uim_Status := status |}.

Definition command_fields (z : commandRequest) (ms : list (string * json)) : option commandRequest :=
  id ← decode_field decode_uuid "commandId" ms (cmr_CommandID z);
  version ← decode_field decode_int32 "expectedVersion" ms (cmr_ExpectedVersion z);
  party ← decode_field decode_int32_ptr "partySize" ms (cmr_PartySize z);
  Some {| cmr_CommandID := id; cmr_ExpectedVersion := version; cmr_PartySize := party |}.

Definition guestCreate_fields (z : guestCreateRequest) (ms : list (string * json))
    : option guestCreateRequest :=
  id ← decode_field decode_uuid "commandId" ms (gcr_CommandID z);
  key ← decode_field decode_string "actionKey" ms (gcr_ActionKey z);
  Some {| gcr_CommandID := id; gcr_ActionKey := key |}.

Definition guestCancel_fields (z : guestCancelRequest) (ms : list (string * json))
    : option guestCancelRequest :=
  id ← decode_field decode_uuid "commandId" ms (gnr_CommandID z);
  Some {| gnr_CommandID := id |}.

(** [canonicalJSON]: into a [map[string]any], whose nil value is encoded as [null]. *)
Definition canonicalJSON (j : json) : option (list N) :=
  match j with
  | JObj _ => if numbers_fit j then Some (ascii_N (marshal (reencode j))) else None
  | JNull => Some (ascii_N (marshal JNull))
  | _ => None
  end.

(** The whole body as one value: [json.Unmarshal]. *)
Definition whole_value (r : Request) : option json :=
  if body_end (req_Body r) then body_first (req_Body r) else None.

(** What [commandInput] and [readGuestJSON] do with a body. *)
Definition commandBody (r : Request) : Http (commandRequest * list N) :=
  match body_bytes (req_Body r) with
  | None => refuse (validation_failed "request body is invalid")
  | Some _ =>
      match j ← whole_value r;
            req ← decode_struct command_fields
                    {| cmr_CommandID := uuid_Nil; cmr_ExpectedVersion := 0; cmr_PartySize := None |} j;
            Some (j, req) with
      | None => refuse (validation_failed "request body must be JSON")
      | Some (j, req) =>
          refuse_if (cmr_CommandID req =? uuid_Nil)%N (validation_failed "commandId is required") ;⇒
          refuse_if (cmr_ExpectedVersion req <? 1)
            (validation_failed "expectedVersion must be at least 1") ;⇒
          refuse_if (match cmr_PartySize req with Some n => n <? 1 | None => false end)
            (validation_failed "partySize must be at least 1") ;⇒
          match canonicalJSON j with
          | Some canonical => http_ret (req, canonical)
          | None => refuse (validation_failed "request body must be a JSON object")
          end
      end
  end.

Definition readGuestJSON {A} (fields : list string)
    (decode : A -> list (string * json) -> option A) (zero : A) (r : Request) : Http (A * list N) :=
  match body_bytes (req_Body r) with
  | None => refuse (validation_failed "request body is invalid")
  | Some _ =>
      req ⇐ decodeJSONBody fields decode zero r;
      match body_first (req_Body r) ≫= canonicalJSON with
      | Some canonical => http_ret (req, canonical)
      | None => refuse (validation_failed "request body must be a JSON object")
      end
  end.

Definition commandMeta (commandType : string) (commandID : uuid) (canonicalBody : list N)
    (deviceID : option uuid) : CommandMeta :=
  {| cmd_ID := commandID; cmd_Type := commandType; cmd_PayloadHash := Sum256 canonicalBody;
     cmd_DeviceID := deviceID; cmd_Retention := 0 |}.
End Commands.

Example marshal_escapes :
  marshal (JObj [("a<b", JArr [JNum (-5); JNull; JStr "x&y"]); ("at", JTime 1700000000120000000)])
  = bytes_of_string "{" ++ [quote] ++ bytes_of_string "a\u003cb" ++ [quote]
    ++ bytes_of_string ":[-5,null," ++ [quote] ++ bytes_of_string "x\u0026y" ++ [quote]
    ++ bytes_of_string "]," ++ [quote] ++ bytes_of_string "at" ++ [quote] ++ bytes_of_string ":"
    ++ [quote] ++ bytes_of_string "2023-11-14T22:13:20.12Z" ++ [quote] ++ bytes_of_string "}".
Proof. vm_compute. reflexivity. Qed.
