(* ===== verification/Auth.v ===== *)
(** Who a request of the HTTP API acts for ([internal/httpapi/auth.go] and the
    [requestContext] family of [api.go]): the policy of a route, the permissions of
    sessions and devices, the context a handler gets, the transaction it runs in and
    the check of its permission there, and the handlers of web sessions. *)

From S2P Require Import Prelude Json Schema GoTx Store Queries Tokens IdentityQueries LayoutQueries Identity Integrations Http Dto.
#[local] Open Scope string_scope.
#[local] Open Scope Z_scope.
#[local] Open Scope list_scope.

Definition errForbidden : error := Sentinel "httpapi" "forbidden".

Inductive principalType : Type := principalUser | principalDevice | principalTrustedHeader.
Inductive tenantAuthzScope : Type := tenantAuthzOrganisation | tenantAuthzLocation.

Record authPolicy := {
  pol_Permission : string;
  pol_AllowUser : bool;
  pol_AllowDevice : bool;
  pol_RequireLocation : bool;
  pol_RequireActor : bool;
}.

Record RequestContext := {
  rqc_OrganisationID : uuid;
  rqc_LocationID : uuid;
  rqc_ActorRef : string;
  rqc_DeviceID : option uuid;
  rqc_UserProfileID : option uuid;
  rqc_PrincipalType : principalType;
  rqc_Roles : list string;
  rqc_Permissions : list string;
}.

(** ** Policies of routes *)

Definition under (prefixes : list string) (path : string) : bool :=
  existsb (fun p => has_prefix p path) prefixes.

Definition is_get (r : Request) : bool := String.eqb (req_Method r) MethodGet.
Definition floor_command (path : string) : bool :=
  has_suffix "/occupy" path || has_suffix "/clear" path.

Definition routeRequiresUser (r : Request) : bool :=
  let path := req_Path r in
  under ["/v1/platform/"; "/v1/organisations/"; "/v1/devices"; "/v1/memberships";
         "/v1/integrations"; "/v1/analytics"; "/v1/service-periods"] path
  || contains "/qr-capabilities" path
  || negb (is_get r) && under ["/v1/locations/"; "/v1/floors"; "/v1/zones"] path
  || negb (is_get r) && has_prefix "/v1/tables" path && negb (floor_command path).

Definition routeAllowsDevice (r : Request) : bool :=
  let path := req_Path r in
  if String.eqb path "/v1/location-state" || String.eqb path "/v1/assists"
     || under ["/v1/floors"; "/v1/tables"; "/v1/floors/"] path then true
  else if has_prefix "/v1/assists/" path then String.eqb (req_Method r) MethodPost
  else if has_prefix "/v1/locations/" path then is_get r
  else false.

Definition read_or (r : Request) (read write : string) : string := if is_get r then read else write.

Definition routePermission (r : Request) : string :=
  let path := req_Path r in
  if has_prefix "/v1/platform/" path then PermissionPlatformAdmin
  else if has_prefix "/v1/devices" path then PermissionDeviceManage
  else if has_prefix "/v1/integrations" path
  then read_or r PermissionIntegrationsRead PermissionIntegrationsManage
  else if under ["/v1/analytics"; "/v1/service-periods"] path then PermissionAnalyticsRead
  else if has_prefix "/v1/organisations/" path then PermissionOrganisationManage
  else if has_prefix "/v1/locations/" path then read_or r PermissionLayoutRead PermissionLocationManage
  else if has_prefix "/v1/audit/" path then PermissionAuditRead
  else if under ["/v1/owner/snapshot"; "/v1/layout/"] path || contains "/qr-capabilities" path
  then read_or r PermissionLayoutRead PermissionLayoutWrite
  else if under ["/v1/floors"; "/v1/zones"] path
  then read_or r PermissionLayoutRead PermissionLayoutWrite
  else if has_prefix "/v1/tables" path
  then if floor_command path then PermissionOperationsWrite
       else read_or r PermissionLayoutRead PermissionLayoutWrite
  else if String.eqb path "/v1/location-state" || String.eqb path "/v1/assists"
  then PermissionOperationsRead
  else if has_prefix "/v1/assists/" path then PermissionOperationsWrite
  else if has_prefix "/v1/memberships" path then PermissionOrganisationManage
  else "".

Definition routeRequiresLocation (r : Request) : bool :=
  let path := req_Path r in
  String.eqb path "/v1/location-state" || String.eqb path "/v1/assists"
  || under ["/v1/locations/"; "/v1/floors"; "/v1/zones"; "/v1/tables"; "/v1/layout/"; "/v1/audit/";
            "/v1/analytics"; "/v1/service-periods"; "/v1/integrations"] path.

Definition routeRequiresActor (r : Request) : bool :=
  negb (is_get r)
  || under ["/v1/owner/snapshot"; "/v1/layout/editor-snapshot"; "/v1/service-periods"] (req_Path r).

Definition routeAuthPolicy (r : Request) : authPolicy :=
  {| pol_Permission := routePermission r; pol_AllowUser := true;
     pol_AllowDevice := negb (routeRequiresUser r) && routeAllowsDevice r;
     pol_RequireLocation := routeRequiresLocation r; pol_RequireActor := routeRequiresActor r |}.

(** ** Permissions of principals *)

Definition rolePermissions (role : string) : list string :=
  if String.eqb role RolePlatformAdmin
  then [PermissionPlatformAdmin; PermissionPlatformAdminWrite; PermissionPlatformManageAdmins;
        PermissionAuditRead]
  else if String.eqb role RoleSupport then [PermissionPlatformAdmin; PermissionAuditRead]
  else if String.eqb role RoleOrganisationOwner
  then [PermissionOrganisationManage; PermissionLocationManage; PermissionLayoutRead;
        PermissionLayoutWrite; PermissionOperationsRead; PermissionOperationsWrite;
        PermissionDeviceManage; PermissionAuditRead; PermissionAnalyticsRead;
        PermissionIntegrationsRead; PermissionIntegrationsManage]
  else if String.eqb role RoleLocationManager
  then [PermissionLocationManage; PermissionLayoutRead; PermissionLayoutWrite;
        PermissionOperationsRead; PermissionOperationsWrite; PermissionDeviceManage;
        PermissionAnalyticsRead; PermissionIntegrationsRead; PermissionIntegrationsManage]
  else if String.eqb role RoleWaiter
  then [PermissionLayoutRead; PermissionOperationsRead; PermissionOperationsWrite]
  else if String.eqb role RoleReadOnly then [PermissionLayoutRead; PermissionOperationsRead]
  else [].

Definition hasPermission (permissions : list string) (permission : string) : bool :=
  existsb (fun candidate => String.eqb candidate permission) permissions.

Definition devicePermissions (device : Device) : list string :=
  let t := dev_DeviceType device in
  if String.eqb t DeviceTypeDisplay then [PermissionLayoutRead; PermissionOperationsRead]
  else if String.eqb t DeviceTypeWaiterMobile || String.eqb t DeviceTypeManagerTablet
          || String.eqb t DeviceTypeHostDevice
  then [PermissionLayoutRead; PermissionOperationsRead; PermissionOperationsWrite]
  else [].

(** [if !seen[x] { out = append(out, x); seen[x] = true }] *)
Definition append_new (out : list string) (x : string) : list string :=
  if hasPermission out x then out else out ++ [x].

(** A membership of the organisation that covers the location, or any of the
    organisation when there is none. *)
Definition allows_scope (organisationID locationID : uuid) (m : Membership) : bool :=
  (mem_OrganisationID m =? organisationID)%N
  && (if (locationID =? uuid_Nil)%N then (mem_LocationID m =? uuid_Nil)%N
      else (mem_LocationID m =? uuid_Nil)%N || (mem_LocationID m =? locationID)%N).

Definition sessionAllowsScope (session : WebSessionResult) (organisationID locationID : uuid) : bool :=
  existsb (allows_scope organisationID locationID) (wss_Memberships session).

Definition sessionRoles (session : WebSessionResult) (organisationID locationID : uuid) : list string :=
  foldl (fun roles m =>
    if negb (mem_OrganisationID m =? organisationID)%N then roles
    else if (locationID =? uuid_Nil)%N && negb (mem_LocationID m =? uuid_Nil)%N then roles
    else if negb (locationID =? uuid_Nil)%N && negb (mem_LocationID m =? uuid_Nil)%N
            && negb (mem_LocationID m =? locationID)%N then roles
    else if String.eqb (mem_Role m) "" then roles
    else append_new roles (mem_Role m)) [] (wss_Memberships session).

Definition sessionPermissions (session : WebSessionResult) (organisationID locationID : uuid)
    : list string :=
  foldl (fun permissions role => foldl append_new permissions (rolePermissions role)) []
    (sessionRoles session organisationID locationID).

Definition userActorRef (id : uuid) : string :=
  if (id =? uuid_Nil)%N then "user:" else "user:" +:+ uuid_String id.

Definition actorRefForSession (session : WebSessionResult) : string :=
  match List.find (fun m => not_empty (TrimSpace (mem_MemberRef m))) (wss_Memberships session) with
  | Some m => mem_MemberRef m
  | None => userActorRef (usr_ID (wss_User session))
  end.

(** [err] looked at by the handler itself. *)
Definition trying {A} (m : Go A) : Http (result error A) := mbind (M := Go) http_ret (attempt m).

(** ** The context of a request *)

Section Context_.
Context {GT : GoText} {HT : HttpText}.
Context (cfg : Config).

Definition authorizeInternalRequest (r : Request) : Http unit :=
  if isDevelopmentEnvironment (cfg_Environment cfg) then http_ret tt
  else if String.eqb (cfg_InternalAPISecret cfg) ""
  then refuse (writeError StatusInternalServerError "internal_error"
                 "internal API secret is not configured")
  else refuse_if (negb (String.eqb (TrimSpace (Header_Get r headerInternalSecret))
                          (cfg_InternalAPISecret cfg)))
         (writeError StatusUnauthorized "unauthorized" "internal credential is invalid").

Definition webSessionRequestContext (session : WebSessionResult) (organisationID locationID : uuid)
    (requireActor : bool) (policy : authPolicy) : Http RequestContext :=
  refuse_if (negb (sessionAllowsScope session organisationID locationID)) permission_denied ;⇒
  let permissions := sessionPermissions session organisationID locationID in
  refuse_if (not_empty (pol_Permission policy)
             && negb (hasPermission permissions (pol_Permission policy))) permission_denied ;⇒
  http_ret
    {| rqc_OrganisationID := organisationID; rqc_LocationID := locationID;
       rqc_ActorRef := if requireActor || match wss_Memberships session with [] => false | _ => true end
                       then actorRefForSession session else "";
       rqc_DeviceID := None; rqc_UserProfileID := nullableUUID (usr_ID (wss_User session));
       rqc_PrincipalType := principalUser;
       rqc_Roles := sessionRoles session organisationID locationID;
       rqc_Permissions := permissions |}.

Definition deviceRequestContext (device : Device) (organisationID locationID : uuid)
    (requireActor : bool) (policy : authPolicy) : Http RequestContext :=
  refuse_if (negb (dev_OrganisationID device =? organisationID)%N) permission_denied ;⇒
  match dev_LocationID device with
  | None => refuse (writeError StatusForbidden "forbidden" "device is not assigned to a location")
  | Some assigned =>
      let locationID := if (locationID =? uuid_Nil)%N then assigned else locationID in
      refuse_if (negb (assigned =? locationID)%N) permission_denied ;⇒
      let permissions := devicePermissions device in
      refuse_if (not_empty (pol_Permission policy)
                 && negb (hasPermission permissions (pol_Permission policy))) permission_denied ;⇒
      http_ret
        {| rqc_OrganisationID := organisationID; rqc_LocationID := locationID;
           rqc_ActorRef := if requireActor then "device:" +:+ uuid_String (dev_ID device) else "";
           rqc_DeviceID := Some (dev_ID device); rqc_UserProfileID := None;
           rqc_PrincipalType := principalDevice; rqc_Roles := [];
           rqc_Permissions := permissions |}
  end.

Definition authenticatedRequestContext (r : Request) (requireLocation requireActor : bool)
    : Http RequestContext :=
  orgID ⇐ parseHeaderUUID r headerOrganisationID true;
  locationID ⇐ parseHeaderUUID r headerLocationID requireLocation;
  secret ⇐ bearerCredential r;
  let policy := routeAuthPolicy r in
  refuse_if (negb (pol_AllowUser policy) && negb (pol_AllowDevice policy)) permission_denied ;⇒
  session ⇐ trying (ValidateWebSession secret);
  match session with
  | Ok session =>
      refuse_if (negb (pol_AllowUser policy)) permission_denied ;⇒
      webSessionRequestContext session orgID locationID requireActor policy
  | Err err =>
      refuse_if (negb (errors_Is err ErrUnauthorized) || negb (pol_AllowDevice policy))
        (writeIdentityError err) ;⇒
      device ⇐ calling writeIdentityError (AuthenticateDeviceCredential secret);
      deviceRequestContext device orgID locationID requireActor policy
  end.

(** The headers of a trusted proxy, or of a developer. *)
Definition headerRequestContext (r : Request) (requireLocation requireActor : bool)
    : Http RequestContext :=
  orgID ⇐ parseHeaderUUID r headerOrganisationID true;
  locationID ⇐ parseHeaderUUID r headerLocationID requireLocation;
  let actorRef := TrimSpace (Header_Get r headerActorRef) in
  refuse_if (requireActor && String.eqb actorRef "")
    (validation_failed (headerActorRef +:+ " is required")) ;⇒
  deviceID ⇐ parseHeaderUUID r headerDeviceID false;
  http_ret
    {| rqc_OrganisationID := orgID; rqc_LocationID := locationID; rqc_ActorRef := actorRef;
       rqc_DeviceID := nullableUUID deviceID; rqc_UserProfileID := None;
       rqc_PrincipalType := principalTrustedHeader; rqc_Roles := []; rqc_Permissions := [] |}.

Definition requestContext (r : Request) (requireLocation requireActor : bool)
    : Http RequestContext :=
  if negb (isDevelopmentEnvironment (cfg_Environment cfg))
  then if cfg_TrustedIdentityHeaders cfg && hasClientIdentityHeaders r
       then authorizeInternalRequest r ;⇒ headerRequestContext r requireLocation requireActor
       else refuse_if (hasClientIdentityHeaders r)
              (validation_failed "client-supplied identity headers are not accepted") ;⇒
            authenticatedRequestContext r requireLocation requireActor
  else if hasBearerAuthorization r then authenticatedRequestContext r requireLocation requireActor
  else headerRequestContext r requireLocation requireActor.

(** ** Transactions of a tenant, and the permission checked inside *)

Definition requireRequestPermission (req : RequestContext) (scope : tenantAuthzScope)
    (permission : string) : Go unit :=
  if String.eqb permission "" || hasPermission (rqc_Permissions req) permission then mret tt
  else
    guard_err (String.eqb (TrimSpace (rqc_ActorRef req)) "") errForbidden ;;
    allowed ←
      match scope with
      | tenantAuthzOrganisation =>
          map_err (Wrap "checking actor permission")
            (ActorHasOrganisationPermission (rqc_OrganisationID req) (rqc_ActorRef req) permission)
      | tenantAuthzLocation =>
          guard_err (rqc_LocationID req =? uuid_Nil)%N errForbidden ;;
          map_err (Wrap "checking actor permission")
            (ActorHasLocationPermission (rqc_OrganisationID req) (rqc_LocationID req)
               (rqc_ActorRef req) permission)
      end;
    guard_err (negb allowed) errForbidden.

Definition inAuthorizedTenantTx {A} (req : RequestContext) (scope : tenantAuthzScope)
    (permission : string) (fn : Go A) : Go A :=
  GoTx.inTenantTx (requireRequestPermission req scope permission ;; fn).

Definition writeDBError (err : error) : ApiError :=
  if errors_Is err errForbidden then permission_denied
  else if errors_Is err NoRows then writeError StatusNotFound "not_found" "resource not found"
  else internal_error.

(** ** Web sessions *)

Definition membershipDTOs (memberships : list Membership) : json :=
  JArr (map (fun membership =>
    JObj ([("id", JStr "");
           ("scope", JStr (if negb (mem_LocationID membership =? uuid_Nil)%N then "location"
                           else if (mem_OrganisationID membership =? uuid_Nil)%N then "platform"
                           else "organisation"));
           ("organisationId", if (mem_OrganisationID membership =? uuid_Nil)%N then JStr ""
                              else JUuid (mem_OrganisationID membership))]
          ++ uuid_member "locationId" (mem_LocationID membership)
          ++ [("memberRef", JStr (mem_MemberRef membership)); ("role", JStr (mem_Role membership))]))
    memberships).

Definition locationForSession (organisationID locationID : uuid) : Go Location :=
  GoTx.inTenantTx (GetLocation locationID organisationID).

(** A transaction whose error is dropped, for what its body put in a variable of
    the caller before the commit. *)
Definition inTenantTx_dropped {A} (fn : Go A) : Go (option A) :=
  r ← attempt BeginTx;
  match r with
  | Err _ => mret None
  | Ok _ =>
      r ← attempt (or_rollback (Wrap "setting tenant context") SetContext);
      match r with
      | Err _ => mret None
      | Ok _ =>
          r ← attempt (or_rollback id fn);
          match r with
          | Err _ => mret None
          | Ok a => attempt Commit ;; mret (Some a)
          end
      end
  end.

(** [seen] is the identifiers of [locations]. *)
Definition seen_location (locations : list Location) (id : uuid) : bool :=
  existsb (fun l => (loc_ID l =? id)%N) locations.

Definition add_location (locations : list Location) (location : Location) : list Location :=
  if seen_location locations (loc_ID location) then locations else locations ++ [location].

Definition locations_of_membership (locations : list Location) (membership : Membership)
    : Go (list Location) :=
  if negb (mem_LocationID membership =? uuid_Nil)%N
     && negb (seen_location locations (mem_LocationID membership))
  then
    r ← attempt (locationForSession (mem_OrganisationID membership) (mem_LocationID membership));
    match r with Ok location => mret (locations ++ [location]) | Err _ => mret locations end
  else if (mem_OrganisationID membership =? uuid_Nil)%N then mret locations
  else
    r ← inTenantTx_dropped (ListLocationsByOrganisation (mem_OrganisationID membership));
    match r with Some items => mret (foldl add_location locations items) | None => mret locations end.

Fixpoint locations_of (locations : list Location) (memberships : list Membership)
    : Go (list Location) :=
  match memberships with
  | [] => mret locations
  | m :: rest => locations ← locations_of_membership locations m; locations_of locations rest
  end.

Definition locationsForSession (session : WebSessionResult) : Go (list Location) :=
  locations_of [] (wss_Memberships session).

Definition webSessionDTO (session : WebSessionResult) : Go json :=
  locations ← locationsForSession session;
  mret (JObj (text_member "sessionSecret" (wss_Secret session)
    ++ [("id", JUuid (wse_ID (wss_Session session)));
        ("userProfileId", JUuid (usr_ID (wss_User session)));
        ("actorRef", JStr (actorRefForSession session));
        ("displayName", JStr (usr_DisplayName (wss_User session)))]
    ++ textPtr "email" (usr_Email (wss_User session))
    ++ [("issuedAt", JTime (wse_IssuedAt (wss_Session session)));
        ("expiresAt", JTime (wse_ExpiresAt (wss_Session session)));
        ("memberships", membershipDTOs (wss_Memberships session));
        ("locations", JArr (map locationFromDB locations))])).

Definition writeWebSession (status : Z) (session : WebSessionResult) : Http Answer :=
  dto ⇐ calling writeIdentityError (webSessionDTO session);
  writeJSON status (JObj [("session", dto)]).

(** [oidcSessionRequest]. *)
Record oidcSessionRequest := {
  oid_Issuer : string;
  oid_Subject : string;
  oid_Email : string;
  oid_EmailVerified : bool;
  oid_DisplayName : string;
  oid_TTLSeconds : Z;
}.

Definition decode_bool (cur : bool) (j : json) : option bool :=
  match j with JBool b => Some b | JNull => Some cur | _ => None end.
Definition decode_int64 (cur : Z) (j : json) : option Z :=
  match j with
  | JNum z => if (int64_min <=? z) && (z <=? int64_max) then Some z else None
  | JNull => Some cur
  | _ => None
  end.

Definition oidc_fields (_ : oidcSessionRequest) (ms : list (string * json)) : option oidcSessionRequest :=
  issuer ← decode_field decode_string "issuer" ms "";
  subject ← decode_field decode_string "subject" ms "";
  email ← decode_field decode_string "email" ms "";
  verified ← decode_field decode_bool "emailVerified" ms false;
  name ← decode_field decode_string "displayName" ms "";
  ttl ← decode_field decode_int64 "ttlSeconds" ms 0;
  Some {| oid_Issuer := issuer; oid_Subject := subject; oid_Email := email;
          oid_EmailVerified := verified; oid_DisplayName := name; oid_TTLSeconds := ttl |}.

Definition no_oidc : oidcSessionRequest :=
  {| oid_Issuer := ""; oid_Subject := ""; oid_Email := ""; oid_EmailVerified := false;
     oid_DisplayName := ""; oid_TTLSeconds := 0 |}.

Definition createOIDCWebSession (r : Request) : Http Answer :=
  authorizeInternalRequest r ;⇒
  req ⇐ decodeJSONBody ["issuer"; "subject"; "email"; "emailVerified"; "displayName"; "ttlSeconds"]
          oidc_fields no_oidc r;
  let ttl := wrap64 (oid_TTLSeconds req * time_Second) in
  let ttl := if ttl <=? 0 then 8 * time_Hour else ttl in
  profile ⇐ calling writeIdentityError (ResolveExternalIdentity
    {| rei_DisplayName := oid_DisplayName req; rei_Email := oid_Email req;
       rei_EmailVerified := oid_EmailVerified req; rei_Issuer := oid_Issuer req;
       rei_Subject := oid_Subject req; rei_ExternalEmail := oid_Email req |});
  session ⇐ calling writeIdentityError (CreateWebSession
    {| cws_UserProfileID := usr_ID (fst profile); cws_TTL := ttl; cws_UserAgent := req_UserAgent r;
       cws_IPAddress := clientIP r; cws_RotatedFrom := uuid_Nil |});
  writeWebSession StatusCreated (with_session_user (fst profile) session).

Definition getWebSession (r : Request) : Http Answer :=
  secret ⇐ bearerCredential r;
  session ⇐ calling writeIdentityError (ValidateWebSession secret);
  writeWebSession StatusOK session.

Definition rotateWebSession (r : Request) : Http Answer :=
  secret ⇐ bearerCredential r;
  session ⇐ calling writeIdentityError
    (RotateWebSession secret (8 * time_Hour) (req_UserAgent r) (clientIP r));
  writeWebSession StatusOK session.

Definition logoutWebSession (r : Request) : Http Answer :=
  secret ⇐ bearerCredential r;
  calling writeIdentityError (RevokeWebSession secret) ;⇒
  writeJSON StatusOK (JObj [("ok", JBool true)]).
End Context_.
