(* ===== verification/Platform.v ===== *)
(** The platform's administration of tenants, owners and administrators
    ([internal/httpapi/platform.go], [platform_owners.go], [platform_admins.go]):
    every handler, with the transaction that checks the permission, records the
    audit event and commits. *)

From S2P Require Import Prelude Json Schema GoTx Store Queries Tokens IdentityQueries LayoutQueries Identity Memberships Onboarding Http Dto PlatformQueries AnalyticsQueries Auth.
#[local] Open Scope string_scope.
#[local] Open Scope Z_scope.
#[local] Open Scope list_scope.

Definition platformActionTenantSearch := "platform.tenant_search".
Definition platformActionTenantRead := "platform.tenant_read".
Definition platformActionTenantDiagnosticsRead := "platform.tenant_diagnostics_read".
Definition platformActionTenantSuspend := "platform.tenant_suspend".
Definition platformActionTenantReactivate := "platform.tenant_reactivate".
Definition platformActionAdminInvite := "platform.admin_invite".
Definition platformActionAdminInviteRevoke := "platform.admin_invite_revoke".
Definition platformActionAdminRevoke := "platform.admin_revoke".
Definition platformActionAdminReactivate := "platform.admin_reactivate".
Definition platformActionTenantCreate := "platform.tenant_create".
Definition platformActionOwnerInvite := "platform.owner_invite".
Definition platformActionOwnerSuspend := "platform.owner_suspend".
Definition platformActionOwnerReactivate := "platform.owner_reactivate".
Definition platformActionOwnerReassign := "platform.owner_reassign".
Definition platformActionTenantAuditRead := "platform.tenant_audit_read".

(** ** What is answered *)

Definition platformTenantSummary (row : PlatformTenantRow) : list (string * json) :=
  [("id", JUuid (ptr_ID row)); ("slug", JStr (ptr_Slug row)); ("name", JStr (ptr_Name row));
   ("status", JStr (ptr_Status row)); ("createdAt", JTime (ptr_CreatedAt row));
   ("updatedAt", JTime (ptr_UpdatedAt row)); ("locationCount", JNum (ptr_LocationCount row));
   ("activeLocationCount", JNum (ptr_ActiveLocationCount row));
   ("disabledLocationCount", JNum (ptr_DisabledLocationCount row));
   ("deviceCount", JNum (ptr_DeviceCount row));
   ("trustedDeviceCount", JNum (ptr_TrustedDeviceCount row))]
  ++ timePtr "lastDeviceSeenAt" (ptr_LastDeviceSeenAt row)
  ++ timePtr "lastAuditAt" (ptr_LastAuditAt row).

Definition platformTenantSummaryFromSearch (row : PlatformTenantRow) : json :=
  JObj (platformTenantSummary row).

Definition platformTenantOverviewFromDB (row : PlatformTenantRow) : json :=
  JObj (platformTenantSummary row
        ++ [("pendingDeviceCount", JNum (ptr_PendingDeviceCount row));
            ("revokedDeviceCount", JNum (ptr_RevokedDeviceCount row))]).

Definition platformLocationFromDB (row : Location) : json :=
  JObj [("id", JUuid (loc_ID row)); ("organisationId", JUuid (loc_OrganisationID row));
        ("slug", JStr (loc_Slug row)); ("name", JStr (loc_Name row));
        ("timezone", JStr (loc_Timezone row)); ("status", JStr (loc_Status row));
        ("createdAt", JTime (loc_CreatedAt row)); ("updatedAt", JTime (loc_UpdatedAt row))].

Definition platformRoleCountFromDB (row : string * Z) : json :=
  JObj [("role", JStr (fst row)); ("memberCount", JNum (snd row))].

Definition platformDeviceCountFromDB (row : DeviceCountRow) : json :=
  JObj ([("trustState", JStr (dcw_TrustState row)); ("deviceType", JStr (dcw_DeviceType row));
         ("deviceCount", JNum (dcw_DeviceCount row))]
        ++ timePtr "lastSeenAt" (dcw_LastSeenAt row)).

Definition platformDiagnosticsFromDB {RD : ReportData} (row : PlatformDiagnosticsRow) : json :=
  let checkpoint := pdr_Checkpoint row in
  JObj ([("disabledLocationCount", JNum (pdr_DisabledLocationCount row));
         ("neverHeartbeatDeviceCount", JNum (pdr_NeverHeartbeatDeviceCount row));
         ("staleDeviceCount", JNum (pdr_StaleDeviceCount row));
         ("pendingDeviceCount", JNum (pdr_PendingDeviceCount row));
         ("revokedDeviceCount", JNum (pdr_RevokedDeviceCount row));
         ("integrationCount", JNum (pdr_IntegrationCount row));
         ("connectedIntegrationCount", JNum (pdr_ConnectedIntegrationCount row));
         ("degradedIntegrationCount", JNum (pdr_DegradedIntegrationCount row));
         ("disconnectedIntegrationCount", JNum (pdr_DisconnectedIntegrationCount row))]
        ++ timePtr "lastSuccessfulSyncAt" (pdr_LastSuccessfulSyncAt row)
        ++ [("recentPlatformAuditCount", JNum (pdr_RecentPlatformAuditCount row))]
        ++ omit_none json_float "analyticsLagSeconds" (apc_LagSeconds <$> checkpoint)
        ++ omit_none JStr "analyticsRebuildStatus" (apc_RebuildStatus <$> checkpoint)
        ++ timePtr "analyticsCheckpointUpdatedAt" (apc_UpdatedAt <$> checkpoint)).

Definition platformMembershipMembers (m : PlatformMembership) (name : string) (email : option string)
    : json :=
  JObj ([("id", JUuid (pmb_ID m)); ("userProfileId", JUuid (pmb_UserProfileID m));
         ("displayName", JStr name)]
        ++ textPtr "email" email
        ++ [("role", JStr (pmb_Role m)); ("grantedByActorRef", JStr (pmb_GrantedByActorRef m));
            ("grantedAt", JTime (pmb_GrantedAt m))]
        ++ timePtr "disabledAt" (pmb_DisabledAt m)
        ++ textPtr "disabledByActorRef" (pmb_DisabledByActorRef m)
        ++ [("createdAt", JTime (pmb_CreatedAt m)); ("updatedAt", JTime (pmb_UpdatedAt m))]).

Definition platformAdminFromDB (row : PlatformMembership * UserProfile) : json :=
  platformMembershipMembers (fst row) (usr_DisplayName (snd row)) (usr_Email (snd row)).

(** A membership without its profile: no name, no address. *)
Definition platformMembershipFromDB (row : PlatformMembership) : json :=
  platformMembershipMembers row "" None.

Definition platformAdminGrantFromDB (row : PlatformAdminGrant) : json :=
  JObj ([("id", JUuid (pag_ID row)); ("email", JStr (pag_Email row)); ("role", JStr (pag_Role row));
         ("invitedByActorRef", JStr (pag_InvitedByActorRef row));
         ("createdAt", JTime (pag_CreatedAt row))]
        ++ timePtr "consumedAt" (pag_ConsumedAt row)
        ++ uuidPtr "consumedByUserProfileId" (pag_ConsumedByUserProfileID row)
        ++ timePtr "revokedAt" (pag_RevokedAt row)
        ++ textPtr "revokedByActorRef" (pag_RevokedByActorRef row)).

Definition platformTenantOwnerFromDB (row : OrganisationMembership * option UserProfile) : json :=
  let '(m, profile) := row in
  managedMembershipFromDomain
    {| mng_ID := omb_ID m; mng_Scope := "organisation"; mng_OrganisationID := omb_OrganisationID m;
       mng_LocationID := uuid_Nil; mng_UserProfileID := nullableUUIDValue (omb_UserProfileID m);
       mng_DisplayName := match profile with Some p => usr_DisplayName p | None => "" end;
       mng_Email := match profile with Some p => default "" (usr_Email p) | None => "" end;
       mng_MemberRef := omb_MemberRef m; mng_Role := omb_Role m;
       mng_DisabledAt := omb_DisabledAt m; mng_Permissions := [] |}.

Definition platformAuditEventFromDB (row : AuditEvent) : json :=
  JObj ([("id", JUuid (aud_ID row))]
        ++ uuidPtr "organisationId" (aud_OrganisationID row)
        ++ uuidPtr "locationId" (aud_LocationID row)
        ++ [("actorRef", JStr (aud_ActorRef row)); ("action", JStr (aud_Action row));
            ("targetType", JStr (aud_TargetType row)); ("targetId", JStr (aud_TargetID row));
            ("metadata", aud_Metadata row); ("createdAt", JTime (aud_CreatedAt row))]).

Definition writePlatformError (err : error) : ApiError :=
  if errors_Is err Identity.ErrUnauthorized
  then writeError StatusUnauthorized "unauthorized" "credential is invalid"
  else if errors_Is err Identity.ErrForbidden then permission_denied
  else if errors_Is err Identity.ErrValidation then validation_failed "request is invalid"
  else if errors_Is err Identity.ErrAlreadyExists
  then writeError StatusConflict "already_exists" "resource already exists"
  else if errors_Is err NoRows then writeError StatusNotFound "not_found" "resource not found"
  else internal_error.

(** ** Transactions of the platform *)

Record PlatformRequestContext := {
  prc_ActorRef : string;
  prc_UserProfileID : uuid;
}.

(** The trigger [platform_admin_lockout], deferred to the commit of a transaction
    that updated a row of [platform_memberships]. *)
Definition platform_members_updated (before after : Db) : bool :=
  negb (bool_decide (db_platform_members after = db_platform_members before)).

Definition CommitPlatform : Go unit := fun e s =>
  if platform_members_updated (saved_db s) (st_db s)
  then match lockout_guard (tt, st_db s) with
       | Err err => (Err err, close_tx (saved_db s) s)
       | Ok _ => Commit e s
       end
  else Commit e s.

Definition inAuthorizedPlatformTx {A} (req : PlatformRequestContext) (permission : string)
    (fn : Go A) : Go A :=
  guard_err (String.eqb (TrimSpace (prc_ActorRef req)) "" || (prc_UserProfileID req =? uuid_Nil)%N)
    Identity.ErrUnauthorized ;;
  map_err (Wrap "beginning platform transaction") BeginTx ;;
  or_rollback (Wrap "setting platform admin context") SetContext ;;
  allowed ← or_rollback (Wrap "checking platform permission")
    (ActorHasPlatformPermission (prc_UserProfileID req) permission);
  or_rollback id (guard_err (negb allowed) Identity.ErrForbidden) ;;
  a ← or_rollback id fn;
  map_err (Wrap "committing platform transaction") CommitPlatform ;;
  mret a.

(** A request of the identity service inside a platform transaction runs in a
    transaction of its own, on another connection of the pool: it starts from what
    is committed, and the platform's transaction, which has written nothing yet and
    reads at READ COMMITTED, sees its effect from then on. *)
Definition on_other_connection {A} (m : Go A) : Go A := fun e s =>
  let '(r, s1) := m e {| st_db := saved_db s; st_saved := None; st_now := st_now s;
                         st_tick := st_tick s |} in
  (r, {| st_db := st_db s1;
         st_saved := match st_saved s with Some _ => Some (st_db s1) | None => None end;
         st_now := st_now s; st_tick := st_tick s1 |}).

Definition recordPlatformAudit (req : PlatformRequestContext) (organisationID : uuid)
    (action targetType targetID : string) (metadata : list (string * json)) : Go unit :=
  map_err (Wrap "recording platform audit event")
    (RecordAuditEvent (nullableUUID organisationID) None (prc_ActorRef req) action targetType targetID
       (json_of_map metadata)) ;;
  mret tt.

(** ** Handlers *)

Section Handlers.
Context {GT : GoText} {HT : HttpText} {PL : PlatformText} {RD : ReportData}.
Context (cfg : Config).

Definition platformRequestContext (r : Request) : Http PlatformRequestContext :=
  refuse_if (not_empty (TrimSpace (Header_Get r headerDeviceID))) permission_denied ;⇒
  let actorRef := TrimSpace (Header_Get r headerActorRef) in
  if isDevelopmentEnvironment (cfg_Environment cfg) && not_empty actorRef
  then match userProfileIDFromActorRef actorRef with
       | None => refuse (validation_failed
                           (headerActorRef +:+ " must be user:<uuid> for platform routes"))
       | Some userProfileID =>
           calling (fun _ => writeIdentityError Identity.ErrUnauthorized)
             (GetActiveUserProfileByActorRef userProfileID) ;⇒
           http_ret {| prc_ActorRef := actorRef; prc_UserProfileID := userProfileID |}
       end
  else
    refuse_if (hasClientIdentityHeaders r)
      (validation_failed "client-supplied identity headers are not accepted") ;⇒
    secret ⇐ bearerCredential r;
    session ⇐ calling writeIdentityError (ValidateWebSession secret);
    http_ret {| prc_ActorRef := actorRefForSession session;
                prc_UserProfileID := usr_ID (wss_User session) |}.

Definition platformLimit (r : Request) : Http Z :=
  let raw := TrimSpace (Query_Get r "limit") in
  if String.eqb raw "" then http_ret 25
  else match Atoi raw with
       | Some parsed =>
           refuse_if ((parsed <? 1) || (100 <? parsed))
             (validation_failed "limit must be between 1 and 100") ;⇒
           http_ret parsed
       | None => refuse (validation_failed "limit must be between 1 and 100")
       end.

(** Bodies of string fields. *)
Definition decode_strings (fields : list string) (r : Request) : Http (list (string * string)) :=
  decodeJSONBody fields
    (fun _ ms => mapM (fun f => v ← decode_field decode_string f ms ""; Some (f, v)) fields) [] r.

Definition field (body : list (string * string)) (name : string) : string :=
  match List.find (fun kv => String.eqb (fst kv) name) body with Some kv => snd kv | None => "" end.

Definition requireReason (reason : string) : Http string :=
  let reason := TrimSpace reason in
  refuse_if (String.eqb reason "") (validation_failed "reason is required") ;⇒ http_ret reason.

Definition decodePlatformStatusChangeReason (r : Request) : Http string :=
  body ⇐ decode_strings ["reason"] r;
  requireReason (field body "reason").

(** *** Tenants *)

Definition loadPlatformTenantDetail (tenantID : uuid) : Go json :=
  overview ← map_err (Wrap "getting platform tenant overview") (GetPlatformTenantOverview tenantID);
  locations ← map_err (Wrap "listing platform tenant locations")
    (ListPlatformTenantLocations tenantID);
  roleCounts ← map_err (Wrap "listing platform tenant role counts")
    (ListPlatformTenantMembershipRoleCounts tenantID);
  deviceCounts ← map_err (Wrap "listing platform tenant device counts")
    (ListPlatformTenantDeviceCounts tenantID);
  diagnostics ← map_err (Wrap "getting platform tenant diagnostics")
    (GetPlatformTenantDiagnostics tenantID);
  mret (JObj [("tenant", platformTenantOverviewFromDB overview);
              ("locations", JArr (map platformLocationFromDB locations));
              ("roleCounts", JArr (map platformRoleCountFromDB roleCounts));
              ("deviceCounts", JArr (map platformDeviceCountFromDB deviceCounts));
              ("diagnostics", platformDiagnosticsFromDB diagnostics)]).

Definition searchPlatformTenants (r : Request) : Http Answer :=
  req ⇐ platformRequestContext r;
  let search := TrimSpace (Query_Get r "q") in
  limit ⇐ platformLimit r;
  tenants ⇐ calling writePlatformError (inAuthorizedPlatformTx req PermissionPlatformAdmin (
    rows ← map_err (Wrap "searching platform tenants") (SearchPlatformTenants search limit);
    let tenants := map platformTenantSummaryFromSearch rows in
    recordPlatformAudit req uuid_Nil platformActionTenantSearch "platform" "tenants"
      [("query", JStr search); ("limit", JNum limit);
       ("resultCount", JNum (Z.of_nat (length tenants)))] ;;
    mret tenants));
  writeJSON StatusOK (JObj [("tenants", JArr tenants)]).

Definition getPlatformTenant (r : Request) : Http Answer :=
  req ⇐ platformRequestContext r;
  tenantID ⇐ pathUUID r "id";
  detail ⇐ calling writePlatformError (inAuthorizedPlatformTx req PermissionPlatformAdmin (
    detail ← loadPlatformTenantDetail tenantID;
    recordPlatformAudit req tenantID platformActionTenantRead "organisation" (uuid_String tenantID) [] ;;
    mret detail));
  writeJSON StatusOK detail.

Definition getPlatformTenantDiagnostics (r : Request) : Http Answer :=
  req ⇐ platformRequestContext r;
  tenantID ⇐ pathUUID r "id";
  diagnostics ⇐ calling writePlatformError (inAuthorizedPlatformTx req PermissionPlatformAdmin (
    map_err (Wrap "getting platform tenant overview") (GetPlatformTenantOverview tenantID) ;;
    row ← map_err (Wrap "getting platform tenant diagnostics")
      (GetPlatformTenantDiagnostics tenantID);
    recordPlatformAudit req tenantID platformActionTenantDiagnosticsRead "organisation"
      (uuid_String tenantID) [] ;;
    mret (platformDiagnosticsFromDB row)));
  writeJSON StatusOK (JObj [("diagnostics", diagnostics)]).

Definition tenantStatusInTx (req : PlatformRequestContext) (tenantID : uuid)
    (status action reason : string) : Go json :=
  map_err (Wrap "setting organisation status") (SetOrganisationStatus tenantID status) ;;
  detail ← loadPlatformTenantDetail tenantID;
  recordPlatformAudit req tenantID action "organisation" (uuid_String tenantID)
    [("reason", JStr reason); ("status", JStr status)] ;;
  mret detail.

Definition changePlatformTenantStatus (r : Request) (status action : string) : Http Answer :=
  req ⇐ platformRequestContext r;
  tenantID ⇐ pathUUID r "id";
  reason ⇐ decodePlatformStatusChangeReason r;
  detail ⇐ calling writePlatformError (inAuthorizedPlatformTx req PermissionPlatformAdminWrite
    (tenantStatusInTx req tenantID status action reason));
  writeJSON StatusOK detail.

Definition suspendPlatformTenant (r : Request) : Http Answer :=
  changePlatformTenantStatus r "disabled" platformActionTenantSuspend.
Definition reactivatePlatformTenant (r : Request) : Http Answer :=
  changePlatformTenantStatus r "active" platformActionTenantReactivate.

(** *** Administrators *)

Definition listPlatformAdmins (r : Request) : Http Answer :=
  req ⇐ platformRequestContext r;
  out ⇐ calling writePlatformError (inAuthorizedPlatformTx req PermissionPlatformAdmin (
    admins ← map_err (Wrap "listing platform memberships") ListPlatformMemberships;
    grants ← map_err (Wrap "listing platform admin grants") ListPlatformAdminGrants;
    mret (JObj [("admins", JArr (map platformAdminFromDB admins));
                ("invitations", JArr (map platformAdminGrantFromDB grants))])));
  writeJSON StatusOK out.

Definition grant_metadata (grant : PlatformAdminGrant) (reason : string) : list (string * json) :=
  [("email", JStr (pag_Email grant)); ("role", JStr (pag_Role grant)); ("reason", JStr reason)].

Definition inviteInTx (req : PlatformRequestContext) (email role reason : string)
    : Go PlatformAdminGrant :=
  grant ← map_err (Wrap "creating platform admin grant")
    (CreatePlatformAdminGrant email role (prc_ActorRef req));
  recordPlatformAudit req uuid_Nil platformActionAdminInvite "platform_admin_grant"
    (uuid_String (pag_ID grant)) (grant_metadata grant reason) ;;
  mret grant.

Definition invitePlatformAdmin (r : Request) : Http Answer :=
  req ⇐ platformRequestContext r;
  body ⇐ decode_strings ["email"; "role"; "reason"] r;
  let role := TrimSpace (field body "role") in
  let role := if String.eqb role "" then RolePlatformAdmin else role in
  refuse_if (negb (String.eqb role RolePlatformAdmin) && negb (String.eqb role RoleSupport))
    (validation_failed "role must be platform_admin or support") ;⇒
  reason ⇐ requireReason (field body "reason");
  grant ⇐ calling writePlatformError (inAuthorizedPlatformTx req PermissionPlatformManageAdmins
    (inviteInTx req (field body "email") role reason));
  writeJSON StatusCreated (platformAdminGrantFromDB grant).

Definition revokeInvitationInTx (req : PlatformRequestContext) (id : uuid) (reason : string)
    : Go PlatformAdminGrant :=
  grant ← map_err (Wrap "revoking platform admin grant")
    (RevokePlatformAdminGrant id (prc_ActorRef req));
  recordPlatformAudit req uuid_Nil platformActionAdminInviteRevoke "platform_admin_grant"
    (uuid_String (pag_ID grant)) (grant_metadata grant reason) ;;
  mret grant.

Definition revokePlatformAdminInvitation (r : Request) : Http Answer :=
  req ⇐ platformRequestContext r;
  id ⇐ pathUUID r "id";
  reason ⇐ decodePlatformStatusChangeReason r;
  grant ⇐ calling writePlatformError (inAuthorizedPlatformTx req PermissionPlatformManageAdmins
    (revokeInvitationInTx req id reason));
  writeJSON StatusOK (platformAdminGrantFromDB grant).

(** [if errors.Is(err, pgx.ErrNoRows) { return pgx.ErrNoRows }] *)
Definition adminStatusChecks (id : uuid) (active : bool) : Go unit :=
  current ← map_err (Wrap "getting platform membership") (GetPlatformMembership id);
  if negb active && String.eqb (pmb_Role current) RolePlatformAdmin
  then
    count ← map_err (Wrap "counting active platform admins") CountActivePlatformAdmins;
    guard_err (count <=? 1) Identity.ErrValidation
  else mret tt.

Definition adminStatusWrites (req : PlatformRequestContext) (id : uuid) (active : bool)
    (reason : string) : Go PlatformMembership :=
  membership ← map_err (no_rows_to NoRows "changing platform membership status")
    (if active then ReactivatePlatformMembership id
     else DisablePlatformMembership id (prc_ActorRef req));
  recordPlatformAudit req uuid_Nil
    (if active then platformActionAdminReactivate else platformActionAdminRevoke)
    "platform_membership" (uuid_String (pmb_ID membership))
    [("role", JStr (pmb_Role membership)); ("reason", JStr reason); ("active", JBool active)] ;;
  mret membership.

Definition adminStatusInTx (req : PlatformRequestContext) (id : uuid) (active : bool)
    (reason : string) : Go PlatformMembership :=
  adminStatusChecks id active ;; adminStatusWrites req id active reason.

Definition changePlatformAdminStatus (r : Request) (active : bool) : Http Answer :=
  req ⇐ platformRequestContext r;
  id ⇐ pathUUID r "id";
  reason ⇐ decodePlatformStatusChangeReason r;
  membership ⇐ calling writePlatformError (inAuthorizedPlatformTx req PermissionPlatformManageAdmins
    (adminStatusInTx req id active reason));
  writeJSON StatusOK (platformMembershipFromDB membership).

Definition revokePlatformAdmin (r : Request) : Http Answer := changePlatformAdminStatus r false.
Definition reactivatePlatformAdmin (r : Request) : Http Answer := changePlatformAdminStatus r true.

(** *** Owners of tenants *)

Definition platformTenantRequest (r : Request) : Http (PlatformRequestContext * uuid) :=
  req ⇐ platformRequestContext r;
  tenantID ⇐ pathUUID r "id";
  http_ret (req, tenantID).

Definition platformTenantOwnerRequest (r : Request) : Http (PlatformRequestContext * uuid * uuid) :=
  rt ⇐ platformTenantRequest r;
  membershipID ⇐ pathUUID r "membershipId";
  http_ret (rt, membershipID).

Definition createTenantInTx (req : PlatformRequestContext) (arg : PlatformProvisionTenantParams)
    (reason : string) : Go (json * ManagedMembership) :=
  result ← on_other_connection (PlatformProvisionTenant arg);
  let id := org_ID (ppr_Organisation result) in
  detail ← loadPlatformTenantDetail id;
  recordPlatformAudit req id platformActionTenantCreate "organisation" (uuid_String id)
    [("reason", JStr reason); ("ownerEmail", JStr (ppt_OwnerEmail arg))] ;;
  mret (detail, ppr_Owner result).

Definition createPlatformTenant (r : Request) : Http Answer :=
  req ⇐ platformRequestContext r;
  body ⇐ decode_strings ["organisationName"; "organisationSlug"; "locationName"; "locationSlug";
                         "timezone"; "ownerEmail"; "ownerDisplayName"; "reason"] r;
  reason ⇐ requireReason (field body "reason");
  out ⇐ calling writePlatformError (inAuthorizedPlatformTx req PermissionPlatformAdminWrite
    (createTenantInTx req
       {| ppt_OrganisationName := field body "organisationName";
          ppt_OrganisationSlug := field body "organisationSlug";
          ppt_LocationName := field body "locationName";
          ppt_LocationSlug := field body "locationSlug";
          ppt_Timezone := field body "timezone"; ppt_OwnerEmail := field body "ownerEmail";
          ppt_OwnerDisplayName := field body "ownerDisplayName" |} reason));
  writeJSON StatusCreated (JObj [("tenant", fst out); ("owner", managedMembershipFromDomain (snd out))]).

Definition listPlatformTenantOwners (r : Request) : Http Answer :=
  rt ⇐ platformTenantRequest r;
  owners ⇐ calling writePlatformError (inAuthorizedPlatformTx (fst rt) PermissionPlatformAdmin (
    rows ← map_err (Wrap "listing tenant owners") (ListPlatformTenantOwners (snd rt) true);
    mret (map platformTenantOwnerFromDB rows)));
  writeJSON StatusOK (JObj [("owners", JArr owners)]).

Definition inviteOwnerInTx (req : PlatformRequestContext) (tenantID : uuid)
    (email displayName reason : string) : Go ManagedMembership :=
  membership ← on_other_connection (PlatformInviteOwner
    {| pio_TargetOrganisationID := tenantID; pio_Email := email; pio_DisplayName := displayName;
       pio_ActorRef := prc_ActorRef req |});
  recordPlatformAudit req tenantID platformActionOwnerInvite "membership"
    (uuid_String (mng_ID membership))
    [("reason", JStr reason); ("email", JStr (mng_Email membership))] ;;
  mret membership.

Definition invitePlatformTenantOwner (r : Request) : Http Answer :=
  rt ⇐ platformTenantRequest r;
  body ⇐ decode_strings ["email"; "displayName"; "reason"] r;
  reason ⇐ requireReason (field body "reason");
  membership ⇐ calling writePlatformError
    (inAuthorizedPlatformTx (fst rt) PermissionPlatformAdminWrite
       (inviteOwnerInTx (fst rt) (snd rt) (field body "email") (field body "displayName") reason));
  writeJSON StatusCreated (managedMembershipFromDomain membership).

Definition ownerStatusInTx (req : PlatformRequestContext) (tenantID membershipID : uuid)
    (active : bool) (reason : string) : Go ManagedMembership :=
  let params := {| pom_TargetOrganisationID := tenantID; pom_MembershipID := membershipID;
                   pom_ActorRef := prc_ActorRef req |} in
  membership ← on_other_connection
    (if active then PlatformReactivateOwnerMembership params
     else PlatformDisableOwnerMembership params);
  recordPlatformAudit req tenantID
    (if active then platformActionOwnerReactivate else platformActionOwnerSuspend) "membership"
    (uuid_String (mng_ID membership)) [("reason", JStr reason); ("active", JBool active)] ;;
  mret membership.

Definition changePlatformTenantOwnerStatus (r : Request) (active : bool) : Http Answer :=
  rtm ⇐ platformTenantOwnerRequest r;
  reason ⇐ decodePlatformStatusChangeReason r;
  membership ⇐ calling writePlatformError
    (inAuthorizedPlatformTx (fst (fst rtm)) PermissionPlatformAdminWrite
       (ownerStatusInTx (fst (fst rtm)) (snd (fst rtm)) (snd rtm) active reason));
  writeJSON StatusOK (managedMembershipFromDomain membership).

Definition suspendPlatformTenantOwner (r : Request) : Http Answer :=
  changePlatformTenantOwnerStatus r false.
Definition reactivatePlatformTenantOwner (r : Request) : Http Answer :=
  changePlatformTenantOwnerStatus r true.

Definition reassignOwnerInTx (req : PlatformRequestContext) (tenantID membershipID : uuid)
    (toEmail reason : string) : Go (ManagedMembership * ManagedMembership) :=
  result ← on_other_connection (PlatformReassignOwnership
    {| pro_TargetOrganisationID := tenantID; pro_FromMembershipID := membershipID;
       pro_ToEmail := toEmail; pro_ActorRef := prc_ActorRef req |});
  recordPlatformAudit req tenantID platformActionOwnerReassign "membership"
    (uuid_String membershipID)
    [("reason", JStr reason); ("toMembership", JUuid (mng_ID (snd result)));
     ("toEmail", JStr (mng_Email (snd result)))] ;;
  mret result.

Definition reassignPlatformTenantOwner (r : Request) : Http Answer :=
  rtm ⇐ platformTenantOwnerRequest r;
  body ⇐ decode_strings ["toEmail"; "reason"] r;
  reason ⇐ requireReason (field body "reason");
  result ⇐ calling writePlatformError
    (inAuthorizedPlatformTx (fst (fst rtm)) PermissionPlatformAdminWrite
       (reassignOwnerInTx (fst (fst rtm)) (snd (fst rtm)) (snd rtm) (field body "toEmail") reason));
  writeJSON StatusOK (json_of_map
    [("previousOwner", managedMembershipFromDomain (fst result));
     ("nextOwner", managedMembershipFromDomain (snd result))]).

Definition listPlatformTenantAudit (r : Request) : Http Answer :=
  rt ⇐ platformTenantRequest r;
  limit ⇐ platformLimit r;
  events ⇐ calling writePlatformError (inAuthorizedPlatformTx (fst rt) PermissionPlatformAdmin (
    rows ← map_err (Wrap "listing tenant audit")
      (ListPlatformTenantAudit (nullableUUID (snd rt)) limit);
    recordPlatformAudit (fst rt) (snd rt) platformActionTenantAuditRead "organisation"
      (uuid_String (snd rt)) [("limit", JNum limit)] ;;
    mret (map platformAuditEventFromDB rows)));
  writeJSON StatusOK (JObj [("events", JArr events)]).
End Handlers.
