(* ===== verification/Api.v ===== *)
(** The handlers of the HTTP API over the services ([internal/httpapi/api.go],
    [integrations.go], [owner_setup.go] and the handlers of capabilities and guests in
    [guest.go]): what each reads of a request, the operation it calls, and what it
    answers. *)

From S2P Require Import Prelude Json Crypto Schema GoTx AnalyticsQueries Analytics Store Queries Tokens IdentityQueries LayoutQueries Identity Memberships Configuration Onboarding Events Operations Guest Outbox ReferencePOS Integrations RateLimiter Http Dto Auth.
#[local] Open Scope string_scope.
#[local] Open Scope Z_scope.
#[local] Open Scope list_scope.

(** ** Errors of the services *)

(** [errors.As] into a [VersionConflictError] or [ConflictError] of a package. *)
Fixpoint errors_As {A} (find : error -> option A) (err : error) : option A :=
  match find err with
  | Some a => Some a
  | None =>
      match err with
      | Wrap _ e => errors_As find e
      | Join e1 e2 => match errors_As find e1 with Some a => Some a | None => errors_As find e2 end
      | _ => None
      end
  end.

Definition version_conflict (p : string) (err : error) : option (list (string * string)) :=
  match err with
  | VersionConflictError q entity id expected current =>
      if String.eqb p q
      then Some [("entity", entity); ("id", uuid_String id); ("expected", int_String expected);
                 ("current", int_String current)]
      else None
  | _ => None
  end.

Definition constraint_conflict (p : string) (err : error) : option string :=
  match err with
  | ConflictError q constraint => if String.eqb p q then Some (uniqueConstraintMessage constraint) else None
  | _ => None
  end.

Definition conflict (code message : string) : ApiError := writeError StatusConflict code message.
Definition resource_not_found : ApiError := writeError StatusNotFound "not_found" "resource not found".

Definition writeDomainError (err : error) : ApiError :=
  let is_err := errors_Is err in
  if is_err Operations.ErrIdempotencyConflict
  then conflict "idempotency_conflict" "command id was already used with a different payload"
  else match errors_As (version_conflict Operations.pkg) err with
       | Some details =>
           {| ape_Status := StatusConflict; ape_Code := "version_conflict";
              ape_Message := "entity version conflict"; ape_Details := details |}
       | None =>
           if is_err Operations.ErrVersionConflict
           then conflict "version_conflict" "entity version conflict"
           else if is_err ErrAlreadyOccupied then conflict "already_occupied" "table is already occupied"
           else if is_err ErrAlreadyAvailable
           then conflict "already_available" "table is already available"
           else if is_err ErrNoActiveSession
           then conflict "no_active_session" "table has no active session"
           else if is_err ErrAssistAlreadyResolved
           then conflict "assist_already_resolved" "assist is already resolved"
           else if is_err ErrInvalidAssistTransition
           then conflict "validation_failed" "assist status transition is not allowed"
           else if is_err ErrActionNotEnabled
           then writeError StatusBadRequest "action_not_enabled" "guest action is not enabled"
           else if is_err ErrRateLimited
           then writeError StatusTooManyRequests "rate_limited" "too many guest requests"
           else if is_err Operations.ErrNotFound then resource_not_found
           else internal_error
       end.

Definition writeConfigurationError (err : error) : ApiError :=
  if errors_Is err Configuration.ErrForbidden then permission_denied
  else if errors_Is err Configuration.ErrValidation then validation_failed "request validation failed"
  else match errors_As (constraint_conflict Configuration.pkg) err with
       | Some message => conflict "already_exists" message
       | None =>
           if errors_Is err Configuration.ErrConflict
           then conflict "already_exists" "a resource with this unique value already exists"
           else if errors_Is err Configuration.ErrVersionConflict
           then conflict "version_conflict" "entity version conflict"
           else if errors_Is err Configuration.ErrNotFound then resource_not_found
           else internal_error
       end.

Definition writeIntegrationError (err : error) : ApiError :=
  if errors_Is err ReferencePOS.ErrForbidden then permission_denied
  else if errors_Is err ReferencePOS.ErrValidation then validation_failed "request validation failed"
  else if errors_Is err ReferencePOS.ErrNotFound then resource_not_found
  else if errors_Is err NoRows then resource_not_found
  else internal_error.

Definition writeAnalyticsError (err : error) : ApiError :=
  if errors_Is err Analytics.ErrForbidden then permission_denied
  else if errors_Is err Analytics.ErrValidation then validation_failed "request validation failed"
  else if errors_Is err Analytics.ErrNotFound then resource_not_found
  else internal_error.

(** ** Actors *)

Definition configActor (ctx : RequestContext) : Configuration.TenantActor :=
  {| cac_OrganisationID := rqc_OrganisationID ctx; cac_LocationID := rqc_LocationID ctx;
     cac_ActorRef := rqc_ActorRef ctx |}.
Definition identityActor (ctx : RequestContext) : Identity.TenantActor :=
  {| act_OrganisationID := rqc_OrganisationID ctx; act_LocationID := rqc_LocationID ctx;
     act_ActorRef := rqc_ActorRef ctx |}.
Definition integrationActor (ctx : RequestContext) : ReferencePOS.TenantActor :=
  {| iac_OrganisationID := rqc_OrganisationID ctx; iac_LocationID := rqc_LocationID ctx;
     iac_ActorRef := rqc_ActorRef ctx |}.

Definition analyticsActor (ctx : RequestContext) : Analytics.TenantActor :=
  {| aac_OrganisationID := rqc_OrganisationID ctx; aac_LocationID := rqc_LocationID ctx;
     aac_ActorRef := rqc_ActorRef ctx |}.

Definition floorParams (ctx : RequestContext) (id : uuid) (req : floorRequest) : UpsertFloorParams :=
  {| ufp_Actor := configActor ctx; ufp_ID := id; ufp_Slug := flq_Slug req; ufp_Name := flq_Name req;
     ufp_SortOrder := flq_SortOrder req; ufp_Canvas := flq_Canvas req;
     ufp_BackgroundAssetRef := flq_BackgroundAssetRef req;
     ufp_ExpectedVersion := flq_ExpectedVersion req |}.

Definition zoneParams (ctx : RequestContext) (id : uuid) (req : zoneRequest) : UpsertZoneParams :=
  {| uzp_Actor := configActor ctx; uzp_ID := id; uzp_FloorID := znq_FloorID req;
     uzp_Name := znq_Name req; uzp_SortOrder := znq_SortOrder req;
     uzp_ExpectedVersion := znq_ExpectedVersion req |}.

Definition tableParams (ctx : RequestContext) (id : uuid) (req : tableRequest) : UpsertTableParams :=
  {| utp_Actor := configActor ctx; utp_ID := id; utp_FloorID := tbq_FloorID req;
     utp_ZoneID := tbq_ZoneID req; utp_Label := tbq_Label req;
     utp_CapacityLabel := tbq_CapacityLabel req; utp_Shape := tbq_Shape req;
     utp_Geometry := tbq_Geometry req; utp_ExpectedVersion := tbq_ExpectedVersion req |}.

(** A list under its name. *)
Definition listed {A} (name : string) (dto : A -> json) (rows : list A) : json :=
  JObj [(name, JArr (map dto rows))].

Section Handlers.
Context {GT : GoText} {HT : HttpText} {GN : GoNumber} {ET : ErrorTexts} {PT : PosText} {RD : ReportData}.
Context (cfg : Config).

(** ** Organisations and locations *)

Definition getOrganisation (r : Request) : Http Answer :=
  ctx ⇐ requestContext cfg r false false;
  id ⇐ pathUUID r "id";
  refuse_if (negb (id =? rqc_OrganisationID ctx)%N)
    (writeError StatusNotFound "not_found" "organisation not found") ;⇒
  org ⇐ calling writeDBError
    (inAuthorizedTenantTx ctx tenantAuthzOrganisation PermissionOrganisationManage (GetOrganisation id));
  writeJSON StatusOK (organisationFromDB org).

Definition getOwnerSnapshot (r : Request) : Http Answer :=
  ctx ⇐ requestContext cfg r false true;
  snapshot ⇐ calling writeConfigurationError (OwnerSnapshot (configActor ctx));
  writeJSON StatusOK
    (JObj [("organisation", organisationFromDB (osn_Organisation snapshot));
           ("locations", JArr (map locationFromDB (osn_Locations snapshot)))]).

Definition updateOrganisation (r : Request) : Http Answer :=
  ctx ⇐ requestContext cfg r false true;
  id ⇐ pathUUID r "id";
  req ⇐ decodeJSONBody ["slug"; "name"; "status"] updateOrganisation_fields
          {| uor_Slug := ""; uor_Name := ""; uor_Status := "" |} r;
  org ⇐ calling writeConfigurationError (UpdateOrganisation
    {| uop_Actor := configActor ctx; uop_ID := id; uop_Slug := uor_Slug req; uop_Name := uor_Name req;
       uop_Status := uor_Status req |});
  writeJSON StatusOK (organisationFromDB org).

Definition getLocation (r : Request) : Http Answer :=
  ctx ⇐ requestContext cfg r true false;
  id ⇐ pathUUID r "id";
  refuse_if (negb (id =? rqc_LocationID ctx)%N)
    (writeError StatusNotFound "not_found" "location not found") ;⇒
  location ⇐ calling writeDBError
    (inAuthorizedTenantTx ctx tenantAuthzLocation PermissionLayoutRead
       (GetLocation id (rqc_OrganisationID ctx)));
  writeJSON StatusOK (locationFromDB location).

Definition updateLocation (r : Request) : Http Answer :=
  ctx ⇐ requestContext cfg r true true;
  id ⇐ pathUUID r "id";
  req ⇐ decodeJSONBody ["name"; "timezone"; "status"; "operatingConfig"; "featureFlags"]
          updateLocation_fields
          {| ulr_Name := ""; ulr_Timezone := ""; ulr_Status := ""; ulr_OperatingConfig := RawEmpty;
             ulr_FeatureFlags := RawEmpty |} r;
  location ⇐ calling writeConfigurationError (UpdateLocation
    {| ulp_Actor := configActor ctx; ulp_ID := id; ulp_Name := ulr_Name req;
       ulp_Timezone := ulr_Timezone req; ulp_Status := ulr_Status req;
       ulp_OperatingConfig := ulr_OperatingConfig req; ulp_FeatureFlags := ulr_FeatureFlags req |});
  writeJSON StatusOK (locationFromDB location).

(** ** Layouts *)

Definition listFloors (r : Request) : Http Answer :=
  ctx ⇐ requestContext cfg r true false;
  floors ⇐ calling writeDBError
    (inAuthorizedTenantTx ctx tenantAuthzLocation PermissionLayoutRead
       (ListFloorsByLocation (rqc_OrganisationID ctx) (rqc_LocationID ctx)));
  writeJSON StatusOK (listed "floors" floorFromDB floors).

Definition tableStateRow (s : Table * TableOccupancy) : json := tableStateFromDB (fst s) (snd s).

Definition getLayoutEditorSnapshot (r : Request) : Http Answer :=
  ctx ⇐ requestContext cfg r true true;
  snapshot ⇐ calling writeConfigurationError (GetLayoutSnapshot (configActor ctx));
  writeJSON StatusOK
    (JObj [("floors", JArr (map floorFromDB (lsn_Floors snapshot)));
           ("zones", JArr (map zoneFromDB (lsn_Zones snapshot)));
           ("tables", JArr (map tableStateRow (lsn_Tables snapshot)))]).

Definition floorInput (r : Request) : Http (RequestContext * floorRequest) :=
  ctx ⇐ requestContext cfg r true true;
  req ⇐ decodeJSONBody ["slug"; "name"; "sortOrder"; "canvas"; "backgroundAssetRef"; "expectedVersion"]
          floor_fields
          {| flq_Slug := ""; flq_Name := ""; flq_SortOrder := 0; flq_Canvas := RawEmpty;
             flq_BackgroundAssetRef := ""; flq_ExpectedVersion := 0 |} r;
  http_ret (ctx, req).

Definition createFloor (r : Request) : Http Answer :=
  input ⇐ floorInput r;
  floor ⇐ calling writeConfigurationError
    (CreateFloor (floorParams (fst input) uuid_Nil (snd input)));
  writeJSON StatusCreated (floorFromDB floor).

Definition updateFloor (r : Request) : Http Answer :=
  input ⇐ floorInput r;
  id ⇐ pathUUID r "id";
  floor ⇐ calling writeConfigurationError (UpdateFloor (floorParams (fst input) id (snd input)));
  writeJSON StatusOK (floorFromDB floor).

Definition archiveBody (r : Request) : Http archiveRequest :=
  decodeJSONBody ["expectedVersion"; "floorId"] archive_fields
    {| arq_ExpectedVersion := 0; arq_FloorID := uuid_Nil |} r.

Definition changeFloorActive (r : Request)
    (change : Configuration.TenantActor -> uuid -> Z -> Go Floor) : Http Answer :=
  ctx ⇐ requestContext cfg r true true;
  id ⇐ pathUUID r "id";
  req ⇐ archiveBody r;
  floor ⇐ calling writeConfigurationError (change (configActor ctx) id (arq_ExpectedVersion req));
  writeJSON StatusOK (floorFromDB floor).

Definition archiveFloor (r : Request) : Http Answer := changeFloorActive r ArchiveFloor.
Definition restoreFloor (r : Request) : Http Answer := changeFloorActive r RestoreFloor.

Definition listZones (r : Request) : Http Answer :=
  ctx ⇐ requestContext cfg r true false;
  floorID ⇐ pathUUID r "id";
  zones ⇐ calling writeDBError
    (inAuthorizedTenantTx ctx tenantAuthzLocation PermissionLayoutRead
       (ListZonesByFloor (rqc_OrganisationID ctx) (rqc_LocationID ctx) floorID));
  writeJSON StatusOK (listed "zones" zoneFromDB zones).

Definition zoneInput (r : Request) : Http (RequestContext * zoneRequest) :=
  ctx ⇐ requestContext cfg r true true;
  req ⇐ decodeJSONBody ["floorId"; "name"; "sortOrder"; "expectedVersion"] zone_fields
          {| znq_FloorID := uuid_Nil; znq_Name := ""; znq_SortOrder := 0; znq_ExpectedVersion := 0 |} r;
  http_ret (ctx, req).

Definition createZone (r : Request) : Http Answer :=
  input ⇐ zoneInput r;
  zone ⇐ calling writeConfigurationError (CreateZone (zoneParams (fst input) uuid_Nil (snd input)));
  writeJSON StatusCreated (zoneFromDB zone).

Definition updateZone (r : Request) : Http Answer :=
  input ⇐ zoneInput r;
  id ⇐ pathUUID r "id";
  zone ⇐ calling writeConfigurationError (UpdateZone (zoneParams (fst input) id (snd input)));
  writeJSON StatusOK (zoneFromDB zone).

Definition archiveZone (r : Request) : Http Answer :=
  ctx ⇐ requestContext cfg r true true;
  id ⇐ pathUUID r "id";
  req ⇐ archiveBody r;
  zone ⇐ calling writeConfigurationError
    (ArchiveZone (configActor ctx) id (arq_FloorID req) (arq_ExpectedVersion req));
  writeJSON StatusOK (zoneFromDB zone).

Definition listTables (r : Request) : Http Answer :=
  ctx ⇐ requestContext cfg r true false;
  floorID ⇐ pathUUID r "id";
  tables ⇐ calling writeDBError
    (inAuthorizedTenantTx ctx tenantAuthzLocation PermissionLayoutRead
       (ListTablesByFloor (rqc_OrganisationID ctx) (rqc_LocationID ctx) floorID));
  writeJSON StatusOK (listed "tables" tableFromDB tables).

Definition tableInput (r : Request) : Http (RequestContext * tableRequest) :=
  ctx ⇐ requestContext cfg r true true;
  req ⇐ decodeJSONBody
          ["floorId"; "zoneId"; "label"; "capacityLabel"; "shape"; "geometry"; "expectedVersion"]
          table_fields
          {| tbq_FloorID := uuid_Nil; tbq_ZoneID := uuid_Nil; tbq_Label := ""; tbq_CapacityLabel := "";
             tbq_Shape := ""; tbq_Geometry := RawEmpty; tbq_ExpectedVersion := 0 |} r;
  http_ret (ctx, req).

Definition createTable (r : Request) : Http Answer :=
  input ⇐ tableInput r;
  table ⇐ calling writeConfigurationError
    (CreateTable (tableParams (fst input) uuid_Nil (snd input)));
  writeJSON StatusCreated (tableFromDB table).

Definition updateTable (r : Request) : Http Answer :=
  input ⇐ tableInput r;
  id ⇐ pathUUID r "id";
  table ⇐ calling writeConfigurationError (UpdateTable (tableParams (fst input) id (snd input)));
  writeJSON StatusOK (tableFromDB table).

Definition changeTableActive (r : Request)
    (change : Configuration.TenantActor -> uuid -> Z -> Go Table) : Http Answer :=
  ctx ⇐ requestContext cfg r true true;
  id ⇐ pathUUID r "id";
  req ⇐ archiveBody r;
  table ⇐ calling writeConfigurationError (change (configActor ctx) id (arq_ExpectedVersion req));
  writeJSON StatusOK (tableFromDB table).

Definition archiveTable (r : Request) : Http Answer := changeTableActive r ArchiveTable.
Definition restoreTable (r : Request) : Http Answer := changeTableActive r RestoreTable.

(** ** The floor *)

Definition loadTableState (ctx : RequestContext) (tableID : uuid) : Http (Table * TableOccupancy) :=
  calling writeDBError
    (inAuthorizedTenantTx ctx tenantAuthzLocation PermissionLayoutRead
       (GetTableDetail tableID (rqc_OrganisationID ctx) (rqc_LocationID ctx))).

Definition getTable (r : Request) : Http Answer :=
  ctx ⇐ requestContext cfg r true false;
  tableID ⇐ pathUUID r "id";
  state ⇐ loadTableState ctx tableID;
  writeJSON StatusOK (tableStateRow state).

Definition getLocationState (r : Request) : Http Answer :=
  ctx ⇐ requestContext cfg r true false;
  states ⇐ calling writeDBError
    (inAuthorizedTenantTx ctx tenantAuthzLocation PermissionOperationsRead
       (ListLocationTableStates (rqc_OrganisationID ctx) (rqc_LocationID ctx)));
  writeJSON StatusOK (listed "tables" tableStateRow states).

Definition listAssists (r : Request) : Http Answer :=
  ctx ⇐ requestContext cfg r true false;
  let status := Query_Get r "status" in
  refuse_if (negb (String.eqb status "") && negb (String.eqb status "active"))
    (validation_failed "status must be active") ;⇒
  assists ⇐ calling writeDBError
    (inAuthorizedTenantTx ctx tenantAuthzLocation PermissionOperationsRead
       (ListActiveAssistsByLocation (rqc_OrganisationID ctx) (rqc_LocationID ctx)));
  writeJSON StatusOK (listed "assists" assistFromDB assists).

(** *** The timeline of an entity *)

(** The query of [getAuditTimeline], which scans [entity_version] into an int. *)
Definition timeline_row (organisationID locationID : uuid) (entityType : string) (entityID : uuid)
    (v : OperationalEvent) : bool :=
  (oev_OrganisationID v =? organisationID)%N && (oev_LocationID v =? locationID)%N
  && String.eqb (oev_EntityType v) entityType && (oev_EntityID v =? entityID)%N.

Definition select_timeline (organisationID locationID : uuid) (entityType : string) (entityID : uuid)
    (limit : Z) : Go (list OperationalEvent) :=
  query (fun d =>
    firstn (Z.to_nat limit)
      (rows db_events d (timeline_row organisationID locationID entityType entityID)
         (order_by [cmp_num oev_OccurredAt; cmp_id oev_ID]))).

Definition timelineEvent (v : OperationalEvent) : json :=
  JObj ([("id", JUuid (oev_ID v)); ("type", JStr (oev_EventType v));
         ("schemaVersion", JNum (oev_SchemaVersion v)); ("occurredAt", JTime (oev_OccurredAt v));
         ("actorRef", JStr (oev_ActorRef v))]
        ++ uuidPtr "deviceId" (oev_DeviceID v)
        ++ [("entityType", JStr (oev_EntityType v)); ("entityId", JUuid (oev_EntityID v))]
        ++ Dto.intPtr "entityVersion" (oev_EntityVersion v)
        ++ uuidPtr "commandId" (oev_CommandID v)
        ++ [("data", oev_EventData v)]).

(** The slice starts as nil, which is encoded as [null]. *)
Definition timelineEvents (rows : list OperationalEvent) : json :=
  match rows with [] => JNull | _ => JArr (map timelineEvent rows) end.

Definition timelineLimit (r : Request) : Http Z :=
  let raw := TrimSpace (Query_Get r "limit") in
  if String.eqb raw "" then http_ret 50
  else match Atoi raw with
       | Some parsed =>
           refuse_if ((parsed <? 1) || (200 <? parsed))
             (validation_failed "limit must be between 1 and 200") ;⇒
           http_ret parsed
       | None => refuse (validation_failed "limit must be between 1 and 200")
       end.

Definition getAuditTimeline (r : Request) : Http Answer :=
  ctx ⇐ requestContext cfg r true false;
  let entityType := TrimSpace (Query_Get r "entityType") in
  refuse_if (String.eqb entityType "") (validation_failed "entityType is required") ;⇒
  match uuid_Parse (TrimSpace (Query_Get r "entityId")) with
  | None => refuse (validation_failed "entityId must be a UUID")
  | Some entityID =>
      limit ⇐ timelineLimit r;
      events ⇐ calling writeDBError
        (inAuthorizedTenantTx ctx tenantAuthzLocation PermissionAuditRead
           (select_timeline (rqc_OrganisationID ctx) (rqc_LocationID ctx) entityType entityID limit));
      writeJSON StatusOK (JObj [("events", timelineEvents events)])
  end.

(** *** Commands *)

Definition writeCommandResult (replay : CommandReplay) : Http Answer :=
  http_ret {| ans_Status := rep_Status replay; ans_Body := rep_Body replay;
              ans_Header := if rep_Replayed replay
                            then [("X-Seatd-Idempotency-Replayed", "true")] else [] |}.

Definition commandInput (r : Request) : Http (RequestContext * commandRequest * uuid * list N) :=
  ctx ⇐ requestContext cfg r true true;
  resourceID ⇐ pathUUID r "id";
  body ⇐ commandBody r;
  http_ret (ctx, fst body, resourceID, snd body).

(** [marshalStatus] *)
Definition marshalStatus {A} (status : Z) (dto : A -> json) (value : A) : result error (Z * option json) :=
  Ok (status, Some (dto value)).

Definition tableResult (result : TableResult) : json :=
  tableCommandResponseFromDB (res_Table result) (res_Occupancy result) (res_Session result).

Definition occupyTable (r : Request) : Http Answer :=
  input ⇐ commandInput r;
  let '(ctx, req, tableID, body) := input in
  out ⇐ calling writeDomainError (OccupyTableCommand
    {| ocp_OrganisationID := rqc_OrganisationID ctx; ocp_LocationID := rqc_LocationID ctx;
       ocp_TableID := tableID; ocp_ExpectedVersion := cmr_ExpectedVersion req;
       ocp_PartySize := cmr_PartySize req; ocp_ActorRef := rqc_ActorRef ctx; ocp_Source := "api";
       ocp_Command := commandMeta "table.occupy" (cmr_CommandID req) body (rqc_DeviceID ctx) |}
    (Some (marshalStatus StatusOK tableResult)));
  writeCommandResult (snd out).

Definition clearTable (r : Request) : Http Answer :=
  input ⇐ commandInput r;
  let '(ctx, req, tableID, body) := input in
  out ⇐ calling writeDomainError (ClearTableCommand
    {| clp_OrganisationID := rqc_OrganisationID ctx; clp_LocationID := rqc_LocationID ctx;
       clp_TableID := tableID; clp_ExpectedVersion := cmr_ExpectedVersion req;
       clp_ActorRef := rqc_ActorRef ctx;
       clp_Command := commandMeta "table.clear" (cmr_CommandID req) body (rqc_DeviceID ctx) |}
    (Some (marshalStatus StatusOK tableResult)));
  writeCommandResult (snd out).

Definition changeAssist (r : Request) (commandType : string)
    (command : ChangeAssistParams -> option (AssistRequest -> result error (Z * option json)) ->
               Go (option AssistRequest * CommandReplay)) : Http Answer :=
  input ⇐ commandInput r;
  let '(ctx, req, assistID, body) := input in
  out ⇐ calling writeDomainError (command
    {| cap_OrganisationID := rqc_OrganisationID ctx; cap_LocationID := rqc_LocationID ctx;
       cap_AssistID := assistID; cap_ExpectedVersion := cmr_ExpectedVersion req;
       cap_ActorRef := rqc_ActorRef ctx;
       cap_Command := commandMeta commandType (cmr_CommandID req) body (rqc_DeviceID ctx) |}
    (Some (marshalStatus StatusOK assistFromDB)));
  writeCommandResult (snd out).

Definition acknowledgeAssist (r : Request) : Http Answer :=
  changeAssist r "assist.acknowledge" AcknowledgeAssistCommand.
Definition resolveAssist (r : Request) : Http Answer :=
  changeAssist r "assist.resolve" ResolveAssistCommand.
Definition cancelAssist (r : Request) : Http Answer :=
  changeAssist r "assist.cancel" CancelAssistCommand.

(** ** Devices *)

Definition listDevices (r : Request) : Http Answer :=
  ctx ⇐ requestContext cfg r false false;
  devices ⇐ calling writeIdentityError (ListDevices (identityActor ctx));
  writeJSON StatusOK (listed "devices" deviceFromDB devices).

Definition createDevicePairingCode (r : Request) : Http Answer :=
  ctx ⇐ requestContext cfg r false true;
  req ⇐ decodeJSONBody ["locationId"; "deviceType"; "ttlSeconds"] pairingCode_fields
          {| cpr_LocationID := uuid_Nil; cpr_DeviceType := ""; cpr_TTLSeconds := 0 |} r;
  result ⇐ calling writeIdentityError (CreatePairingCode
    {| cpc_Actor := {| act_OrganisationID := rqc_OrganisationID ctx;
                       act_LocationID := cpr_LocationID req; act_ActorRef := rqc_ActorRef ctx |};
       cpc_DeviceType := cpr_DeviceType req; cpc_TTL := cpr_TTLSeconds req * time_Second |});
  writeJSON StatusCreated (JObj [("pairingCode", pairingCodeFromDB (fst result) (snd result))]).

Definition pairDevice (r : Request) : Http Answer :=
  req ⇐ decodeJSONBody ["code"; "platform"; "appVersion"; "name"; "capabilities"; "configuration"]
          pairDevice_fields
          {| pdr_Code := ""; pdr_Platform := ""; pdr_AppVersion := ""; pdr_Name := "";
             pdr_Capabilities := RawEmpty; pdr_Configuration := RawEmpty |} r;
  result ⇐ calling writeIdentityError (PairDevice
    {| pdp_Code := pdr_Code req; pdp_Platform := pdr_Platform req; pdp_AppVersion := pdr_AppVersion req;
       pdp_Name := pdr_Name req; pdp_Capabilities := pdr_Capabilities req;
       pdp_Configuration := pdr_Configuration req |});
  writeJSON StatusCreated (JObj [("device", deviceFromDB (rdr_Device result));
                                 ("credential", JStr (rdr_Secret result))]).

Definition deviceHeartbeat (r : Request) : Http Answer :=
  credential ⇐ bearerCredential r;
  req ⇐ decodeJSONBody ["appVersion"; "capabilities"] heartbeat_fields
          {| dhr_AppVersion := ""; dhr_Capabilities := RawEmpty |} r;
  device ⇐ calling writeIdentityError
    (RecordHeartbeat credential (dhr_AppVersion req) (dhr_Capabilities req));
  writeJSON StatusOK (deviceFromDB device).

Definition displayContext (device : Device) (locationID : uuid) : RequestContext :=
  {| rqc_OrganisationID := dev_OrganisationID device; rqc_LocationID := locationID;
     rqc_ActorRef := "device:" +:+ uuid_String (dev_ID device); rqc_DeviceID := Some (dev_ID device);
     rqc_UserProfileID := None; rqc_PrincipalType := principalDevice; rqc_Roles := [];
     rqc_Permissions := devicePermissions device |}.

Definition getDisplaySnapshot (r : Request) : Http Answer :=
  credential ⇐ bearerCredential r;
  device ⇐ calling writeIdentityError (AuthenticateDeviceCredential credential);
  match dev_LocationID device with
  | None => refuse (writeError StatusForbidden "forbidden" "device is not assigned to a location")
  | Some locationID =>
      let ctx := displayContext device locationID in
      shown ⇐ calling writeDBError
        (inAuthorizedTenantTx ctx tenantAuthzLocation PermissionOperationsRead (
           states ← map_err (Wrap "listing display table states")
             (ListLocationTableStates (rqc_OrganisationID ctx) (rqc_LocationID ctx));
           assists ← map_err (Wrap "listing display assists")
             (ListActiveAssistsByLocation (rqc_OrganisationID ctx) (rqc_LocationID ctx));
           mret (states, assists)));
      now ⇐ calling writeDBError time_Now;
      writeJSON StatusOK
        (JObj [("organisationId", JUuid (rqc_OrganisationID ctx));
               ("locationId", JUuid (rqc_LocationID ctx)); ("cursor", JTime now);
               ("tables", JArr (map tableStateRow (fst shown)));
               ("assists", JArr (map assistFromDB (snd shown)))])
  end.

Definition revokeDevice (r : Request) : Http Answer :=
  ctx ⇐ requestContext cfg r false true;
  deviceID ⇐ pathUUID r "id";
  device ⇐ calling writeIdentityError (RevokeDevice (identityActor ctx) deviceID);
  writeJSON StatusOK (deviceFromDB device).

(** ** Memberships *)

Definition listMemberships (r : Request) : Http Answer :=
  ctx ⇐ requestContext cfg r false false;
  let includeDisabled := fold_eq (TrimSpace (Query_Get r "includeDisabled")) "true" in
  memberships ⇐ calling writeIdentityError
    (ListManagedMemberships (identityActor ctx) includeDisabled);
  writeJSON StatusOK (listed "memberships" managedMembershipFromDomain memberships).

Definition optionalUUID (value message : string) : Http uuid :=
  if String.eqb (TrimSpace value) "" then http_ret uuid_Nil
  else match uuid_Parse (TrimSpace value) with
       | Some id => http_ret id
       | None => refuse (validation_failed message)
       end.

Definition createMembership (r : Request) : Http Answer :=
  ctx ⇐ requestContext cfg r false true;
  req ⇐ decodeJSONBody ["scope"; "locationId"; "email"; "displayName"; "role"] createMembership_fields
          {| cmq_Scope := ""; cmq_LocationID := ""; cmq_Email := ""; cmq_DisplayName := "";
             cmq_Role := "" |} r;
  locationID ⇐ optionalUUID (cmq_LocationID req) "locationId must be a UUID";
  membership ⇐ calling writeIdentityError (CreateMembership
    {| cmp_Actor := identityActor ctx; cmp_Scope := cmq_Scope req; cmp_LocationID := locationID;
       cmp_Email := cmq_Email req; cmp_DisplayName := cmq_DisplayName req;
       cmp_Role := cmq_Role req |});
  writeJSON StatusCreated (managedMembershipFromDomain membership).

Definition updateMembershipRole (r : Request) : Http Answer :=
  ctx ⇐ requestContext cfg r false true;
  membershipID ⇐ pathUUID r "id";
  req ⇐ decodeJSONBody ["role"] membershipRole_fields {| umr_Role := "" |} r;
  membership ⇐ calling writeIdentityError (UpdateMembershipRole
    {| ump_Actor := identityActor ctx; ump_Scope := PathValue r "scope"; ump_ID := membershipID;
       ump_Role := umr_Role req |});
  writeJSON StatusOK (managedMembershipFromDomain membership).

Definition disableMembership (r : Request) : Http Answer :=
  ctx ⇐ requestContext cfg r false true;
  membershipID ⇐ pathUUID r "id";
  membership ⇐ calling writeIdentityError (DisableMembership
    {| dmp_Actor := identityActor ctx; dmp_Scope := PathValue r "scope"; dmp_ID := membershipID |});
  writeJSON StatusOK (managedMembershipFromDomain membership).

(** ** Owner setup *)

Definition setupOwner (r : Request) : Http Answer :=
  secret ⇐ bearerCredential r;
  session ⇐ calling writeIdentityError (ValidateWebSession secret);
  req ⇐ decodeJSONBody ["floor"; "servicePeriods"] setup_fields
          {| osq_Floor := no_floor; osq_ServicePeriods := [] |} r;
  result ⇐ calling writeIdentityError (OwnerSetup
    {| osp_UserProfileID := usr_ID (wss_User session); osp_Floor := osq_Floor req;
       osp_ServicePeriods := osq_ServicePeriods req |});
  writeJSON StatusOK
    (JObj [("organisation", organisationFromDB (osr_Organisation result));
           ("location", locationFromDB (osr_Location result)); ("floor", floorFromDB (osr_Floor result));
           ("zones", JArr (map zoneFromDB (osr_Zones result)));
           ("tables", JArr (map tableFromDB (osr_Tables result)));
           ("servicePeriods", JArr (map servicePeriodFromDB (osr_ServicePeriods result)))]).

(** ** Capabilities of tables *)

Definition tableQRCapabilityFromDB (capability : TableQrCapability) : json :=
  JObj ([("id", JUuid (qr_ID capability)); ("tableId", JUuid (qr_TableID capability));
         ("lookupPrefix", JStr (qr_TokenLookupPrefix capability))]
        ++ textPtr "label" (qr_Label capability)
        ++ [("issuedAt", JTime (qr_IssuedAt capability))]
        ++ timePtr "expiresAt" (qr_ExpiresAt capability)
        ++ timePtr "revokedAt" (qr_RevokedAt capability)
        ++ timePtr "lastUsedAt" (qr_LastUsedAt capability)
        ++ [("version", JNum (qr_Version capability))]).

(** [url.PathEscape] *)
Definition path_safe (c : ascii) : bool :=
  let n := N_of_ascii c in
  ((48 <=? n) && (n <=? 57) || (65 <=? n) && (n <=? 90) || (97 <=? n) && (n <=? 122))%N
  || existsb (N.eqb n) (map N_of_ascii ["-"; "_"; "."; "~"; "$"; "&"; "+"; "="; ":"; "@"]%char).
Definition upper_hex (n : N) : ascii := ascii_of_N (if (n <? 10)%N then 48 + n else 55 + n)%N.
Definition PathEscape (s : string) : string :=
  string_of_bytes (flat_map (fun c =>
    if path_safe c then [c]
    else ["%"%char; upper_hex (N_of_ascii c / 16); upper_hex (N_of_ascii c mod 16)])
    (bytes_of_string s)).

Fixpoint drop_slashes (l : list ascii) : list ascii :=
  match l with
  | c :: l' => if Ascii.eqb c "/" then drop_slashes l' else l
  | [] => []
  end.
Definition TrimRight_slash (s : string) : string :=
  string_of_bytes (rev (drop_slashes (rev (bytes_of_string s)))).

Definition guestPublicURL (origin token : string) : string :=
  let origin := TrimRight_slash (TrimSpace origin) in
  if String.eqb origin "" then "/qr/" +:+ PathEscape token
  else origin +:+ "/qr/" +:+ PathEscape token.

Definition qrExportFromDomain (guestOrigin : string) (export : QRExport) : json :=
  JObj ([("id", JUuid (qrx_ID export)); ("tableId", JUuid (qrx_TableID export));
         ("lookupPrefix", JStr (qrx_LookupPrefix export))]
        ++ text_member "label" (qrx_Label export)
        ++ [("issuedAt", JTime (qrx_IssuedAt export))]
        ++ timePtr "expiresAt" (qrx_ExpiresAt export) ++ timePtr "revokedAt" (qrx_RevokedAt export)
        ++ [("version", JNum (qrx_Version export)); ("token", JStr (qrx_Token export));
            ("publicUrl", JStr (guestPublicURL guestOrigin (qrx_Token export)))]).

Definition listTableQRCapabilities (r : Request) : Http Answer :=
  ctx ⇐ requestContext cfg r true true;
  tableID ⇐ pathUUID r "id";
  capabilities ⇐ calling writeDBError
    (inAuthorizedTenantTx ctx tenantAuthzLocation PermissionLayoutRead
       (ListTableQRCapabilitiesByTable (rqc_OrganisationID ctx) (rqc_LocationID ctx) tableID));
  writeJSON StatusOK (listed "qrCapabilities" tableQRCapabilityFromDB capabilities).

(** The column keeps microseconds. *)
Definition parseOptionalTime (value name : string) : Http (option Z) :=
  let value := TrimSpace value in
  if String.eqb value "" then http_ret None
  else match ParseRFC3339 value with
       | Some t => http_ret (Some (pg_time t))
       | None => refuse (validation_failed (name +:+ " must be an RFC3339 timestamp"))
       end.

Definition exportTableQRCapability (r : Request) : Http Answer :=
  ctx ⇐ requestContext cfg r true true;
  tableID ⇐ pathUUID r "id";
  req ⇐ decodeJSONBody ["label"; "expiresAt"] exportQR_fields
          {| eqr_Label := ""; eqr_ExpiresAt := "" |} r;
  expiresAt ⇐ parseOptionalTime (eqr_ExpiresAt req) "expiresAt";
  export ⇐ calling writeDomainError
    (ExportTableQRCapability (rqc_OrganisationID ctx) (rqc_LocationID ctx) tableID (eqr_Label req)
       expiresAt);
  writeJSON StatusCreated (qrExportFromDomain (cfg_GuestWebOrigin cfg) export).

Definition qrCapabilityInput (r : Request) : Http (RequestContext * uuid * uuid) :=
  ctx ⇐ requestContext cfg r true true;
  tableID ⇐ pathUUID r "id";
  capabilityID ⇐ pathUUID r "capabilityId";
  http_ret (ctx, tableID, capabilityID).

Definition rotateTableQRCapability (r : Request) : Http Answer :=
  input ⇐ qrCapabilityInput r;
  let '(ctx, tableID, capabilityID) := input in
  export ⇐ calling writeDomainError
    (RotateTableQRCapability (rqc_OrganisationID ctx) (rqc_LocationID ctx) tableID capabilityID);
  writeJSON StatusCreated (qrExportFromDomain (cfg_GuestWebOrigin cfg) export).

Definition revokeTableQRCapability (r : Request) : Http Answer :=
  input ⇐ qrCapabilityInput r;
  let '(ctx, tableID, capabilityID) := input in
  capability ⇐ calling writeDomainError
    (RevokeTableQRCapability (rqc_OrganisationID ctx) (rqc_LocationID ctx) tableID capabilityID);
  writeJSON StatusOK (tableQRCapabilityFromDB capability).

(** ** Guests *)

Definition hex_bytes (l : list N) : string :=
  string_of_bytes (flat_map (fun n => [hex_digit (n / 16); hex_digit (n mod 16)]) l).

Definition tokenLookupPrefix (token : string) : string :=
  match TokenLookupParts token with
  | Ok (prefix, _) => prefix
  | Err _ => "invalid:" +:+ hex_bytes (firstn 8 (Sum256 (bytes_N (TrimSpace token))))
  end.

Definition hashClientIP (ip : string) : list N := Sum256 (bytes_N ip).

(** The scope is empty at every call; an error is only logged. *)
Definition recordGuestAbuse (r : Request) (token actionKey decision : string) : Http unit :=
  mbind (M := Go) (fun _ => http_ret tt)
    (attempt (RecordGuestAbuseEvent None None None (tokenLookupPrefix token)
       (nullableText (TrimSpace actionKey)) (hashClientIP (clientIP r)) decision)).

Definition guestAction (action : GuestAction) : json :=
  JObj [("key", JStr (gac_Key action)); ("label", JStr (gac_Label action))].

Definition guestContextFromDomain (ctx : GuestContextResult) : json :=
  JObj ([("locationName", JStr (gcx_LocationName ctx)); ("tableLabel", JStr (gcx_TableLabel ctx));
         ("occupancy", occupancyFromDB (gcx_Occupancy ctx));
         ("actions", JArr (map guestAction (gcx_Actions ctx)))]
        ++ omit_none assistFromDB "activeRequest" (gcx_ActiveRequest ctx)).

Definition getGuestQR (r : Request) : Http Answer :=
  let token := TrimSpace (PathValue r "token") in
  found ⇐ trying (GuestContext token);
  match found with
  | Err err =>
      recordGuestAbuse r token "" "lookup_denied" ;⇒
      refuse (writeDomainError err)
  | Ok ctx => writeJSON StatusOK (guestContextFromDomain ctx)
  end.

Definition guestRateKey (r : Request) (token actionKey : string) : string :=
  clientIP r +:+ ":" +:+ tokenLookupPrefix token +:+ ":" +:+ actionKey.

Definition rate_limited : ApiError :=
  writeError StatusTooManyRequests "rate_limited" "too many guest requests".

Definition guestCreateInput (r : Request) : Http (guestCreateRequest * list N * string) :=
  input ⇐ readGuestJSON ["commandId"; "actionKey"] guestCreate_fields
            {| gcr_CommandID := uuid_Nil; gcr_ActionKey := "" |} r;
  let actionKey := TrimSpace (gcr_ActionKey (fst input)) in
  refuse_if (gcr_CommandID (fst input) =? uuid_Nil)%N (validation_failed "commandId is required") ;⇒
  refuse_if (String.eqb actionKey "") (validation_failed "actionKey is required") ;⇒
  http_ret (input, actionKey).

(** What follows once the limiter has let the request through. *)
Definition guestRequest (r : Request) (token actionKey : string) (commandID : uuid) (body : list N)
    : Http Answer :=
  out ⇐ trying (CreateGuestRequest
          {| grp_Token := token; grp_ActionKey := actionKey; grp_IdempotencyKey := commandID;
             grp_PayloadHash := Sum256 body |} (marshalStatus StatusCreated assistFromDB));
  match out with
  | Err err =>
      (if errors_Is err ErrRateLimited then recordGuestAbuse r token actionKey "cooldown"
       else http_ret tt) ;⇒
      refuse (writeDomainError err)
  | Ok out => writeCommandResult (snd out)
  end.

(** The limiter is memory of the process: it is given to the handler and handed back. *)
Definition createGuestRequest (limiter : option guestRateLimiter) (r : Request)
    : Go (result ApiError Answer * option guestRateLimiter) :=
  let token := TrimSpace (PathValue r "token") in
  mbind (M := Go) (fun input =>
    match input with
    | Err err => mret (M := Go) (Err err, limiter)
    | Ok (req, body, actionKey) =>
        mbind (M := Go) (fun now =>
          let '(limiter, allowed) := allow limiter now (guestRateKey r token actionKey) in
          mbind (M := Go) (fun answer => mret (M := Go) (answer, limiter))
            (if allowed then guestRequest r token actionKey (gcr_CommandID req) body
             else recordGuestAbuse r token actionKey "rate_limited" ;⇒ refuse rate_limited))
          time_Now
    end) (guestCreateInput r).

Definition getGuestRequest (r : Request) : Http Answer :=
  let token := TrimSpace (PathValue r "token") in
  assistID ⇐ pathUUID r "id";
  assist ⇐ calling writeDomainError (GetGuestRequest token assistID);
  writeJSON StatusOK (assistFromDB assist).

Definition cancelGuestRequest (r : Request) : Http Answer :=
  let token := TrimSpace (PathValue r "token") in
  assistID ⇐ pathUUID r "id";
  input ⇐ readGuestJSON ["commandId"] guestCancel_fields {| gnr_CommandID := uuid_Nil |} r;
  refuse_if (gnr_CommandID (fst input) =? uuid_Nil)%N (validation_failed "commandId is required") ;⇒
  out ⇐ calling writeDomainError (CancelGuestRequest
    {| gcp_Token := token; gcp_AssistID := assistID; gcp_IdempotencyKey := gnr_CommandID (fst input);
       gcp_PayloadHash := Sum256 (snd input) |} (marshalStatus StatusOK assistFromDB));
  writeCommandResult (snd out).

(** [withGuestCORS]: the headers it sets, and whether it answers itself. *)
Definition guestCORS (r : Request) : list (string * string) * bool :=
  if has_prefix "/v1/guest/" (req_Path r)
  then
    let origin := TrimSpace (Header_Get r "Origin") in
    let allowed := TrimSpace (cfg_GuestWebOrigin cfg) in
    let allowed := if String.eqb allowed "" then "*" else allowed in
    (if String.eqb allowed "*" || String.eqb origin allowed
     then [("Access-Control-Allow-Origin", allowed); ("Vary", "Origin");
           ("Access-Control-Allow-Methods", "GET, POST, OPTIONS");
           ("Access-Control-Allow-Headers", "Content-Type"); ("Access-Control-Max-Age", "600")]
     else [], String.eqb (req_Method r) "OPTIONS")
  else ([], false).

(** ** Integrations *)

Definition headerIntegrationConnectionID := "X-Seatd-Integration-Connection-ID".
Definition headerIntegrationSignature := "X-Seatd-Integration-Signature".

Definition integrationConnectionFromDomain (connection : Connection) : json :=
  JObj ([("id", JUuid (con_ID connection)); ("organisationId", JUuid (con_OrganisationID connection));
         ("locationId", JUuid (con_LocationID connection)); ("vendor", JStr (con_Vendor connection));
         ("displayName", JStr (con_DisplayName connection));
         ("credentialRef", JStr (con_CredentialRef connection));
         ("status", JStr (con_Status connection)); ("capabilities", con_Capabilities connection);
         ("config", con_Config connection)]
        ++ timePtr "lastSuccessfulSyncAt" (con_LastSuccessfulSyncAt connection)
        ++ textPtr "lastError" (con_LastError connection)
        ++ [("createdAt", JTime (con_CreatedAt connection));
            ("updatedAt", JTime (con_UpdatedAt connection))]).

Definition integrationMappingFromDomain (mapping : Mapping) : json :=
  JObj ([("id", JUuid (map_ID mapping)); ("connectionId", JUuid (map_ConnectionID mapping));
         ("externalTableId", JStr (map_ExternalTableID mapping))]
        ++ uuidPtr "tableId" (map_TableID mapping)
        ++ textPtr "externalLabel" (map_ExternalLabel mapping)
        ++ [("status", JStr (map_Status mapping))] ++ timePtr "lastSeenAt" (map_LastSeenAt mapping)).

Definition integrationWebhookFromDomain (webhook : Webhook) : json :=
  JObj ([("id", JUuid (whk_ID webhook)); ("connectionId", JUuid (whk_ConnectionID webhook));
         ("vendor", JStr (whk_Vendor webhook)); ("externalEventId", JStr (whk_ExternalEventID webhook));
         ("receivedAt", JTime (whk_ReceivedAt webhook));
         ("signatureValid", JBool (whk_SignatureValid webhook)); ("payload", whk_Payload webhook);
         ("processingState", JStr (whk_ProcessingState webhook));
         ("attempts", JNum (whk_Attempts webhook))]
        ++ textPtr "lastError" (whk_LastError webhook)
        ++ timePtr "processedAt" (whk_ProcessedAt webhook)).

Definition integrationDiscrepancyFromDomain (discrepancy : Discrepancy) : json :=
  JObj ([("id", JUuid (dsc_ID discrepancy)); ("connectionId", JUuid (dsc_ConnectionID discrepancy));
         ("reconciliationRunId", JUuid (dsc_RunID discrepancy))]
        ++ uuidPtr "mappingId" (dsc_MappingID discrepancy)
        ++ uuidPtr "tableId" (dsc_TableID discrepancy)
        ++ [("externalTableId", JStr (dsc_ExternalTableID discrepancy));
            ("type", JStr (dsc_Type discrepancy))]
        ++ textPtr "seatdState" (dsc_SeatdState discrepancy)
        ++ textPtr "externalState" (dsc_ExternalState discrepancy)
        ++ [("resolutionState", JStr (dsc_ResolutionState discrepancy));
            ("details", dsc_Details discrepancy); ("createdAt", JTime (dsc_CreatedAt discrepancy))]).

Definition integrationRunFromDomain (run : ReconciliationRun) : json :=
  JObj ([("id", JUuid (rrn_ID run)); ("connectionId", JUuid (rrn_ConnectionID run));
         ("startedAt", JTime (rrn_StartedAt run))]
        ++ timePtr "completedAt" (rrn_CompletedAt run)
        ++ [("status", JStr (rrn_Status run)); ("checkedCount", JNum (rrn_CheckedCount run));
            ("discrepancyCount", JNum (rrn_DiscrepancyCount run));
            ("autoCorrectedCount", JNum (rrn_AutoCorrectedCount run))]
        ++ textPtr "lastError" (rrn_LastError run)).

Definition webhookResult (result : WebhookResult) : json :=
  json_of_map [("webhook", integrationWebhookFromDomain (wrs_Webhook result));
               ("applied", JBool (wrs_Applied result))].

Definition listIntegrations (r : Request) : Http Answer :=
  ctx ⇐ requestContext cfg r true true;
  connections ⇐ calling writeIntegrationError (ListConnections (integrationActor ctx));
  writeJSON StatusOK (listed "integrations" integrationConnectionFromDomain connections).

Definition integrationInput (r : Request) : Http (RequestContext * uuid) :=
  ctx ⇐ requestContext cfg r true true;
  id ⇐ pathUUID r "id";
  http_ret (ctx, id).

Definition getIntegrationHealth (r : Request) : Http Answer :=
  input ⇐ integrationInput r;
  health ⇐ calling writeIntegrationError
    (Health ReferencePOS.adapters (integrationActor (fst input)) (snd input));
  writeJSON StatusOK
    (JObj ([("status", JStr (hlt_Status health))] ++ text_member "message" (hlt_Message health))).

Definition listIntegrationMappings (r : Request) : Http Answer :=
  input ⇐ integrationInput r;
  mappings ⇐ calling writeIntegrationError (ListMappings (integrationActor (fst input)) (snd input));
  writeJSON StatusOK (listed "mappings" integrationMappingFromDomain mappings).

Definition updateIntegrationMapping (r : Request) : Http Answer :=
  input ⇐ integrationInput r;
  mappingID ⇐ pathUUID r "mappingId";
  req ⇐ decodeJSONBody ["tableId"; "status"] mapping_fields
          {| uim_TableID := None; uim_Status := "" |} r;
  mapping ⇐ calling writeIntegrationError
    (UpdateMapping (integrationActor (fst input)) mappingID (default uuid_Nil (uim_TableID req))
       (uim_Status req));
  writeJSON StatusOK (integrationMappingFromDomain mapping).

Definition listIntegrationWebhooks (r : Request) : Http Answer :=
  input ⇐ integrationInput r;
  webhooks ⇐ calling writeIntegrationError (ListWebhooks (integrationActor (fst input)) (snd input));
  writeJSON StatusOK (listed "webhooks" integrationWebhookFromDomain webhooks).

Definition replayIntegrationWebhook (r : Request) : Http Answer :=
  input ⇐ integrationInput r;
  webhookID ⇐ pathUUID r "webhookId";
  result ⇐ calling writeIntegrationError
    (ReplayWebhook ReferencePOS.adapters (integrationActor (fst input)) webhookID);
  writeJSON StatusOK (webhookResult result).

Definition listIntegrationDiscrepancies (r : Request) : Http Answer :=
  input ⇐ integrationInput r;
  discrepancies ⇐ calling writeIntegrationError
    (ListDiscrepancies (integrationActor (fst input)) (snd input));
  writeJSON StatusOK (listed "discrepancies" integrationDiscrepancyFromDomain discrepancies).

Definition reconcileIntegration (r : Request) : Http Answer :=
  input ⇐ integrationInput r;
  run ⇐ calling writeIntegrationError
    (Reconcile ReferencePOS.adapters (integrationActor (fst input)) (snd input));
  writeJSON StatusOK (JObj [("reconciliationRun", integrationRunFromDomain run)]).

Definition receiveIntegrationWebhook (r : Request) : Http Answer :=
  connectionID ⇐ parseHeaderUUID r headerIntegrationConnectionID true;
  match body_bytes (req_Body r) with
  | None => refuse (validation_failed "request body must be valid JSON")
  | Some payload =>
      result ⇐ calling writeIntegrationError
        (ReceiveWebhook ReferencePOS.adapters (TrimSpace (PathValue r "vendor")) connectionID
           (Header_Get r headerIntegrationSignature) payload);
      writeJSON StatusAccepted (webhookResult result)
  end.
(** ** Analytics and service periods *)

Definition analyticsInput (r : Request) : Http (RequestContext * uuid) :=
  ctx ⇐ requestContext cfg r true true;
  match uuid_Parse (TrimSpace (Query_Get r "locationId")) with
  | None => refuse (validation_failed "locationId must be a UUID")
  | Some locationID =>
      refuse_if (negb (locationID =? rqc_LocationID ctx)%N)
        (writeError StatusNotFound "not_found" "location not found") ;⇒
      http_ret (ctx, locationID)
  end.

(** A date of the API is its midnight in UTC. *)
Definition date_time (day : Z) : GoTime := {| tm_instant := day * day_nanos; tm_loc := "UTC" |}.

Definition parseQueryDate (r : Request) (key : string) (fallback : GoTime) : Http GoTime :=
  let value := TrimSpace (Query_Get r key) in
  if String.eqb value "" then http_ret fallback
  else match parse_date value with
       | Some day => http_ret (date_time day)
       | None => refuse (validation_failed (key +:+ " must be YYYY-MM-DD"))
       end.

(** [time.Time{}] is the first of January of the year 1. *)
Definition zero_time : GoTime := date_time (-719162).
Definition IsZero (t : GoTime) : bool := tm_instant t =? tm_instant zero_time.

Definition parseDateRange (r : Request) : Http (GoTime * GoTime) :=
  from ⇐ parseQueryDate r "from" zero_time;
  to ⇐ parseQueryDate r "to" zero_time;
  refuse_if (IsZero from || IsZero to || negb (Before from to))
    (validation_failed "from and to are required and from must be before to") ;⇒
  http_ret (from, to).

(** The actor, at the location of the query. *)
Definition actor_at (ctx : RequestContext) (locationID : uuid) : Analytics.TenantActor :=
  {| aac_OrganisationID := rqc_OrganisationID ctx; aac_LocationID := locationID;
     aac_ActorRef := rqc_ActorRef ctx |}.

Definition getAnalyticsSummary (r : Request) : Http Answer :=
  input ⇐ analyticsInput r;
  now ⇐ calling writeAnalyticsError time_Now;
  date ⇐ parseQueryDate r "date" {| tm_instant := now; tm_loc := time_Local |};
  asOf ⇐ calling writeAnalyticsError time_Now;
  summary ⇐ calling writeAnalyticsError (GetSummary (analyticsActor (fst input)) (snd input) date asOf);
  writeJSON StatusOK (analyticsSummaryFromDomain summary).

Definition getAnalyticsTimeseries (r : Request) : Http Answer :=
  input ⇐ analyticsInput r;
  range ⇐ parseDateRange r;
  let grain := or_default (TrimSpace (Query_Get r "grain")) GrainDay in
  points ⇐ calling writeAnalyticsError
    (Timeseries (actor_at (fst input) (snd input)) (fst range) (snd range) grain);
  writeJSON StatusOK (listed "points" analyticsTimePointFromDomain points).

Definition getAnalyticsComparison (r : Request) : Http Answer :=
  input ⇐ analyticsInput r;
  range ⇐ parseDateRange r;
  let groupBy := TrimSpace (Query_Get r "groupBy") in
  points ⇐ calling writeAnalyticsError
    (Comparison (actor_at (fst input) (snd input)) (fst range) (snd range) groupBy);
  writeJSON StatusOK (listed "points" analyticsComparisonPointFromDomain points).

Definition getAnalyticsDataQuality (r : Request) : Http Answer :=
  input ⇐ analyticsInput r;
  quality ⇐ calling writeAnalyticsError (GetDataQuality (actor_at (fst input) (snd input)));
  writeJSON StatusOK (analyticsDataQualityFromDomain quality).

Definition bodyDate (key value : string) : Http GoTime :=
  match parse_date (TrimSpace value) with
  | Some day => http_ret (date_time day)
  | None => refuse (validation_failed (key +:+ " must be YYYY-MM-DD"))
  end.

Definition rebuildAnalytics (r : Request) : Http Answer :=
  ctx ⇐ requestContext cfg r true true;
  req ⇐ decodeJSONBody ["locationId"; "from"; "to"] analyticsRebuild_fields
          {| arb_LocationID := ""; arb_From := ""; arb_To := "" |} r;
  match uuid_Parse (TrimSpace (arb_LocationID req)) with
  | None => refuse (validation_failed "locationId must be a UUID")
  | Some locationID =>
      from ⇐ bodyDate "from" (arb_From req);
      to ⇐ bodyDate "to" (arb_To req);
      run ⇐ calling writeAnalyticsError (Rebuild
        {| rbp_Actor := analyticsActor ctx; rbp_LocationID := locationID; rbp_From := from; rbp_To := to |});
      writeJSON StatusOK (JObj [("rebuildRun", analyticsRebuildRunFromDomain run)])
  end.

Definition listServicePeriods (r : Request) : Http Answer :=
  ctx ⇐ requestContext cfg r true true;
  periods ⇐ calling writeAnalyticsError (ListServicePeriods (analyticsActor ctx));
  writeJSON StatusOK (listed "servicePeriods" servicePeriodFromDB periods).

(** The body of [servicePeriodInput] and the conversion of the same name. *)
Definition servicePeriodInput (r : Request) : Http (RequestContext * ServicePeriodInput) :=
  ctx ⇐ requestContext cfg r true true;
  req ⇐ decodeJSONBody ["name"; "daysOfWeek"; "startTime"; "endTime"; "expectedVersion"] servicePeriod_fields
          {| spq_Name := ""; spq_DaysOfWeek := []; spq_StartTime := ""; spq_EndTime := "";
             spq_ExpectedVersion := 0 |} r;
  http_ret (ctx, {| spi_Name := spq_Name req; spi_DaysOfWeek := spq_DaysOfWeek req;
                    spi_StartTime := spq_StartTime req; spi_EndTime := spq_EndTime req;
                    spi_ExpectedVersion := spq_ExpectedVersion req |}).

Definition createServicePeriod (r : Request) : Http Answer :=
  input ⇐ servicePeriodInput r;
  period ⇐ calling writeAnalyticsError
    (Analytics.CreateServicePeriod (analyticsActor (fst input)) (snd input));
  writeJSON StatusCreated (servicePeriodFromDB period).

Definition updateServicePeriod (r : Request) : Http Answer :=
  input ⇐ servicePeriodInput r;
  id ⇐ pathUUID r "id";
  period ⇐ calling writeAnalyticsError
    (UpdateServicePeriod (analyticsActor (fst input)) id (snd input));
  writeJSON StatusOK (servicePeriodFromDB period).

Definition archiveServicePeriod (r : Request) : Http Answer :=
  ctx ⇐ requestContext cfg r true true;
  id ⇐ pathUUID r "id";
  req ⇐ archiveBody r;
  period ⇐ calling writeAnalyticsError
    (ArchiveServicePeriod (analyticsActor ctx) id (arq_ExpectedVersion req));
  writeJSON StatusOK (servicePeriodFromDB period).
End Handlers.
