(* ===== verification/Routes.v ===== *)
(** The routes of the HTTP API ([NewHandler] of [internal/httpapi/api.go]): the
    pattern each handler is registered under, and the handler a request runs. *)

From S2P Require Import Prelude Json Schema GoTx Tokens Outbox ReferencePOS RateLimiter Http PlatformQueries AnalyticsQueries Auth Platform Api.
#[local] Open Scope string_scope.
#[local] Open Scope list_scope.

(** The handlers.  The one that creates guest requests is given the state of the rate
    limiter. *)
Inductive Route : Type :=
| RGetGuestQR
| RCreateGuestRequest (limiter : option guestRateLimiter)
| RGetGuestRequest
| RCancelGuestRequest
| RCreateOIDCWebSession
| RGetWebSession
| RRotateWebSession
| RLogoutWebSession
| RSetupOwner
| RCreatePlatformTenant
| RSearchPlatformTenants
| RGetPlatformTenant
| RGetPlatformTenantDiagnostics
| RListPlatformTenantOwners
| RInvitePlatformTenantOwner
| RSuspendPlatformTenantOwner
| RReactivatePlatformTenantOwner
| RReassignPlatformTenantOwner
| RListPlatformTenantAudit
| RSuspendPlatformTenant
| RReactivatePlatformTenant
| RListPlatformAdmins
| RInvitePlatformAdmin
| RRevokePlatformAdminInvitation
| RRevokePlatformAdmin
| RReactivatePlatformAdmin
| RGetOrganisation
| RUpdateOrganisation
| RGetOwnerSnapshot
| RGetLocation
| RUpdateLocation
| RListFloors
| RCreateFloor
| RUpdateFloor
| RArchiveFloor
| RRestoreFloor
| RListZones
| RListTables
| RGetLayoutEditorSnapshot
| RCreateZone
| RUpdateZone
| RArchiveZone
| RGetTable
| RCreateTable
| RListTableQRCapabilities
| RExportTableQRCapability
| RRotateTableQRCapability
| RRevokeTableQRCapability
| RUpdateTable
| RArchiveTable
| RRestoreTable
| RGetLocationState
| RListAssists
| RGetAuditTimeline
| RGetAnalyticsSummary
| RGetAnalyticsTimeseries
| RGetAnalyticsComparison
| RGetAnalyticsDataQuality
| RRebuildAnalytics
| RListServicePeriods
| RCreateServicePeriod
| RUpdateServicePeriod
| RArchiveServicePeriod
| RListDevices
| RCreateDevicePairingCode
| RPairDevice
| RDeviceHeartbeat
| RGetDisplaySnapshot
| RRevokeDevice
| RListIntegrations
| RGetIntegrationHealth
| RListIntegrationMappings
| RUpdateIntegrationMapping
| RListIntegrationWebhooks
| RReplayIntegrationWebhook
| RListIntegrationDiscrepancies
| RReconcileIntegration
| RReceiveIntegrationWebhook
| RListMemberships
| RCreateMembership
| RUpdateMembershipRole
| RDisableMembership
| ROccupyTable
| RClearTable
| RAcknowledgeAssist
| RResolveAssist
| RCancelAssist.

(** A pattern of [http.ServeMux]: literal segments and wildcards. *)
Inductive segment : Type := Lit (s : string) | Wild (name : string).

Definition pattern (rt : Route) : string * list segment :=
  match rt with
  | RGetGuestQR =>
      ("GET", [Lit "v1"; Lit "guest"; Lit "qr"; Wild "token"])
  | RCreateGuestRequest _ =>
      ("POST", [Lit "v1"; Lit "guest"; Lit "qr"; Wild "token"; Lit "requests"])
  | RGetGuestRequest =>
      ("GET", [Lit "v1"; Lit "guest"; Lit "qr"; Wild "token"; Lit "requests"; Wild "id"])
  | RCancelGuestRequest =>
      ("POST", [Lit "v1"; Lit "guest"; Lit "qr"; Wild "token"; Lit "requests"; Wild "id"; Lit "cancel"])
  | RCreateOIDCWebSession =>
      ("POST", [Lit "v1"; Lit "auth"; Lit "oidc"; Lit "session"])
  | RGetWebSession =>
      ("GET", [Lit "v1"; Lit "auth"; Lit "session"])
  | RRotateWebSession =>
      ("POST", [Lit "v1"; Lit "auth"; Lit "session"; Lit "rotate"])
  | RLogoutWebSession =>
      ("POST", [Lit "v1"; Lit "auth"; Lit "session"; Lit "logout"])
  | RSetupOwner =>
      ("POST", [Lit "v1"; Lit "owner"; Lit "setup"])
  | RCreatePlatformTenant =>
      ("POST", [Lit "v1"; Lit "platform"; Lit "tenants"])
  | RSearchPlatformTenants =>
      ("GET", [Lit "v1"; Lit "platform"; Lit "tenants"])
  | RGetPlatformTenant =>
      ("GET", [Lit "v1"; Lit "platform"; Lit "tenants"; Wild "id"])
  | RGetPlatformTenantDiagnostics =>
      ("GET", [Lit "v1"; Lit "platform"; Lit "tenants"; Wild "id"; Lit "diagnostics"])
  | RListPlatformTenantOwners =>
      ("GET", [Lit "v1"; Lit "platform"; Lit "tenants"; Wild "id"; Lit "owners"])
  | RInvitePlatformTenantOwner =>
      ("POST", [Lit "v1"; Lit "platform"; Lit "tenants"; Wild "id"; Lit "owners"])
  | RSuspendPlatformTenantOwner =>
      ("POST", [Lit "v1"; Lit "platform"; Lit "tenants"; Wild "id"; Lit "owners"; Wild "membershipId"; Lit "suspend"])
  | RReactivatePlatformTenantOwner =>
      ("POST", [Lit "v1"; Lit "platform"; Lit "tenants"; Wild "id"; Lit "owners"; Wild "membershipId"; Lit "reactivate"])
  | RReassignPlatformTenantOwner =>
      ("POST", [Lit "v1"; Lit "platform"; Lit "tenants"; Wild "id"; Lit "owners"; Wild "membershipId"; Lit "reassign"])
  | RListPlatformTenantAudit =>
      ("GET", [Lit "v1"; Lit "platform"; Lit "tenants"; Wild "id"; Lit "audit"])
  | RSuspendPlatformTenant =>
      ("POST", [Lit "v1"; Lit "platform"; Lit "tenants"; Wild "id"; Lit "suspend"])
  | RReactivatePlatformTenant =>
      ("POST", [Lit "v1"; Lit "platform"; Lit "tenants"; Wild "id"; Lit "reactivate"])
  | RListPlatformAdmins =>
      ("GET", [Lit "v1"; Lit "platform"; Lit "admins"])
  | RInvitePlatformAdmin =>
      ("POST", [Lit "v1"; Lit "platform"; Lit "admins"; Lit "invitations"])
  | RRevokePlatformAdminInvitation =>
      ("DELETE", [Lit "v1"; Lit "platform"; Lit "admins"; Lit "invitations"; Wild "id"])
  | RRevokePlatformAdmin =>
      ("POST", [Lit "v1"; Lit "platform"; Lit "admins"; Wild "id"; Lit "revoke"])
  | RReactivatePlatformAdmin =>
      ("POST", [Lit "v1"; Lit "platform"; Lit "admins"; Wild "id"; Lit "reactivate"])
  | RGetOrganisation =>
      ("GET", [Lit "v1"; Lit "organisations"; Wild "id"])
  | RUpdateOrganisation =>
      ("PUT", [Lit "v1"; Lit "organisations"; Wild "id"])
  | RGetOwnerSnapshot =>
      ("GET", [Lit "v1"; Lit "owner"; Lit "snapshot"])
  | RGetLocation =>
      ("GET", [Lit "v1"; Lit "locations"; Wild "id"])
  | RUpdateLocation =>
      ("PUT", [Lit "v1"; Lit "locations"; Wild "id"])
  | RListFloors =>
      ("GET", [Lit "v1"; Lit "floors"])
  | RCreateFloor =>
      ("POST", [Lit "v1"; Lit "floors"])
  | RUpdateFloor =>
      ("PUT", [Lit "v1"; Lit "floors"; Wild "id"])
  | RArchiveFloor =>
      ("POST", [Lit "v1"; Lit "floors"; Wild "id"; Lit "archive"])
  | RRestoreFloor =>
      ("POST", [Lit "v1"; Lit "floors"; Wild "id"; Lit "restore"])
  | RListZones =>
      ("GET", [Lit "v1"; Lit "floors"; Wild "id"; Lit "zones"])
  | RListTables =>
      ("GET", [Lit "v1"; Lit "floors"; Wild "id"; Lit "tables"])
  | RGetLayoutEditorSnapshot =>
      ("GET", [Lit "v1"; Lit "layout"; Lit "editor-snapshot"])
  | RCreateZone =>
      ("POST", [Lit "v1"; Lit "zones"])
  | RUpdateZone =>
      ("PUT", [Lit "v1"; Lit "zones"; Wild "id"])
  | RArchiveZone =>
      ("POST", [Lit "v1"; Lit "zones"; Wild "id"; Lit "archive"])
  | RGetTable =>
      ("GET", [Lit "v1"; Lit "tables"; Wild "id"])
  | RCreateTable =>
      ("POST", [Lit "v1"; Lit "tables"])
  | RListTableQRCapabilities =>
      ("GET", [Lit "v1"; Lit "tables"; Wild "id"; Lit "qr-capabilities"])
  | RExportTableQRCapability =>
      ("POST", [Lit "v1"; Lit "tables"; Wild "id"; Lit "qr-capabilities"])
  | RRotateTableQRCapability =>
      ("POST", [Lit "v1"; Lit "tables"; Wild "id"; Lit "qr-capabilities"; Wild "capabilityId"; Lit "rotate"])
  | RRevokeTableQRCapability =>
      ("POST", [Lit "v1"; Lit "tables"; Wild "id"; Lit "qr-capabilities"; Wild "capabilityId"; Lit "revoke"])
  | RUpdateTable =>
      ("PUT", [Lit "v1"; Lit "tables"; Wild "id"])
  | RArchiveTable =>
      ("POST", [Lit "v1"; Lit "tables"; Wild "id"; Lit "archive"])
  | RRestoreTable =>
      ("POST", [Lit "v1"; Lit "tables"; Wild "id"; Lit "restore"])
  | RGetLocationState =>
      ("GET", [Lit "v1"; Lit "location-state"])
  | RListAssists =>
      ("GET", [Lit "v1"; Lit "assists"])
  | RGetAuditTimeline =>
      ("GET", [Lit "v1"; Lit "audit"; Lit "timeline"])
  | RGetAnalyticsSummary =>
      ("GET", [Lit "v1"; Lit "analytics"; Lit "summary"])
  | RGetAnalyticsTimeseries =>
      ("GET", [Lit "v1"; Lit "analytics"; Lit "timeseries"])
  | RGetAnalyticsComparison =>
      ("GET", [Lit "v1"; Lit "analytics"; Lit "comparison"])
  | RGetAnalyticsDataQuality =>
      ("GET", [Lit "v1"; Lit "analytics"; Lit "data-quality"])
  | RRebuildAnalytics =>
      ("POST", [Lit "v1"; Lit "analytics"; Lit "rebuild"])
  | RListServicePeriods =>
      ("GET", [Lit "v1"; Lit "service-periods"])
  | RCreateServicePeriod =>
      ("POST", [Lit "v1"; Lit "service-periods"])
  | RUpdateServicePeriod =>
      ("PUT", [Lit "v1"; Lit "service-periods"; Wild "id"])
  | RArchiveServicePeriod =>
      ("POST", [Lit "v1"; Lit "service-periods"; Wild "id"; Lit "archive"])
  | RListDevices =>
      ("GET", [Lit "v1"; Lit "devices"])
  | RCreateDevicePairingCode =>
      ("POST", [Lit "v1"; Lit "devices"; Lit "pairing-codes"])
  | RPairDevice =>
      ("POST", [Lit "v1"; Lit "devices"; Lit "pair"])
  | RDeviceHeartbeat =>
      ("POST", [Lit "v1"; Lit "devices"; Lit "heartbeat"])
  | RGetDisplaySnapshot =>
      ("GET", [Lit "v1"; Lit "devices"; Lit "display-snapshot"])
  | RRevokeDevice =>
      ("POST", [Lit "v1"; Lit "devices"; Wild "id"; Lit "revoke"])
  | RListIntegrations =>
      ("GET", [Lit "v1"; Lit "integrations"])
  | RGetIntegrationHealth =>
      ("GET", [Lit "v1"; Lit "integrations"; Wild "id"; Lit "health"])
  | RListIntegrationMappings =>
      ("GET", [Lit "v1"; Lit "integrations"; Wild "id"; Lit "mappings"])
  | RUpdateIntegrationMapping =>
      ("PUT", [Lit "v1"; Lit "integrations"; Wild "id"; Lit "mappings"; Wild "mappingId"])
  | RListIntegrationWebhooks =>
      ("GET", [Lit "v1"; Lit "integrations"; Wild "id"; Lit "webhooks"])
  | RReplayIntegrationWebhook =>
      ("POST", [Lit "v1"; Lit "integrations"; Wild "id"; Lit "webhooks"; Wild "webhookId"; Lit "replay"])
  | RListIntegrationDiscrepancies =>
      ("GET", [Lit "v1"; Lit "integrations"; Wild "id"; Lit "discrepancies"])
  | RReconcileIntegration =>
      ("POST", [Lit "v1"; Lit "integrations"; Wild "id"; Lit "reconcile"])
  | RReceiveIntegrationWebhook =>
      ("POST", [Lit "v1"; Lit "integrations"; Wild "vendor"; Lit "webhooks"])
  | RListMemberships =>
      ("GET", [Lit "v1"; Lit "memberships"])
  | RCreateMembership =>
      ("POST", [Lit "v1"; Lit "memberships"])
  | RUpdateMembershipRole =>
      ("PUT", [Lit "v1"; Lit "memberships"; Wild "scope"; Wild "id"])
  | RDisableMembership =>
      ("POST", [Lit "v1"; Lit "memberships"; Wild "scope"; Wild "id"; Lit "disable"])
  | ROccupyTable =>
      ("POST", [Lit "v1"; Lit "tables"; Wild "id"; Lit "occupy"])
  | RClearTable =>
      ("POST", [Lit "v1"; Lit "tables"; Wild "id"; Lit "clear"])
  | RAcknowledgeAssist =>
      ("POST", [Lit "v1"; Lit "assists"; Wild "id"; Lit "acknowledge"])
  | RResolveAssist =>
      ("POST", [Lit "v1"; Lit "assists"; Wild "id"; Lit "resolve"])
  | RCancelAssist =>
      ("POST", [Lit "v1"; Lit "assists"; Wild "id"; Lit "cancel"])
  end.

(** The path a pattern stands for, with the values of its wildcards. *)
Fixpoint path_of (value : string -> string) (l : list segment) : string :=
  match l with
  | [] => ""
  | Lit s :: l' => "/" +:+ s +:+ path_of value l'
  | Wild name :: l' => "/" +:+ value name +:+ path_of value l'
  end.

(** The multiplexer has matched a request with a route: the method is the pattern's and
    the path is what it stands for. *)
Definition routed (rt : Route) (r : Request) : Prop :=
  req_Method r = fst (pattern rt) /\ req_Path r = path_of (PathValue r) (snd (pattern rt)).

Section Handling.
Context {GT : GoText} {HT : HttpText} {GN : GoNumber} {ET : ErrorTexts} {PT : PosText}
  {PL : PlatformText} {RD : ReportData}.
Context (cfg : Config).

Definition handle (rt : Route) (r : Request) : Http Answer :=
  match rt with
  | RGetGuestQR => getGuestQR r
  | RCreateGuestRequest limiter => mbind (M := Go) (fun out => mret (M := Go) (fst out)) (Api.createGuestRequest limiter r)
  | RGetGuestRequest => getGuestRequest r
  | RCancelGuestRequest => cancelGuestRequest r
  | RCreateOIDCWebSession => createOIDCWebSession cfg r
  | RGetWebSession => getWebSession r
  | RRotateWebSession => rotateWebSession r
  | RLogoutWebSession => logoutWebSession r
  | RSetupOwner => setupOwner r
  | RCreatePlatformTenant => createPlatformTenant cfg r
  | RSearchPlatformTenants => searchPlatformTenants cfg r
  | RGetPlatformTenant => getPlatformTenant cfg r
  | RGetPlatformTenantDiagnostics => getPlatformTenantDiagnostics cfg r
  | RListPlatformTenantOwners => listPlatformTenantOwners cfg r
  | RInvitePlatformTenantOwner => invitePlatformTenantOwner cfg r
  | RSuspendPlatformTenantOwner => suspendPlatformTenantOwner cfg r
  | RReactivatePlatformTenantOwner => reactivatePlatformTenantOwner cfg r
  | RReassignPlatformTenantOwner => reassignPlatformTenantOwner cfg r
  | RListPlatformTenantAudit => listPlatformTenantAudit cfg r
  | RSuspendPlatformTenant => suspendPlatformTenant cfg r
  | RReactivatePlatformTenant => reactivatePlatformTenant cfg r
  | RListPlatformAdmins => listPlatformAdmins cfg r
  | RInvitePlatformAdmin => invitePlatformAdmin cfg r
  | RRevokePlatformAdminInvitation => revokePlatformAdminInvitation cfg r
  | RRevokePlatformAdmin => revokePlatformAdmin cfg r
  | RReactivatePlatformAdmin => reactivatePlatformAdmin cfg r
  | RGetOrganisation => getOrganisation cfg r
  | RUpdateOrganisation => updateOrganisation cfg r
  | RGetOwnerSnapshot => getOwnerSnapshot cfg r
  | RGetLocation => getLocation cfg r
  | RUpdateLocation => updateLocation cfg r
  | RListFloors => listFloors cfg r
  | RCreateFloor => createFloor cfg r
  | RUpdateFloor => updateFloor cfg r
  | RArchiveFloor => archiveFloor cfg r
  | RRestoreFloor => restoreFloor cfg r
  | RListZones => listZones cfg r
  | RListTables => listTables cfg r
  | RGetLayoutEditorSnapshot => getLayoutEditorSnapshot cfg r
  | RCreateZone => createZone cfg r
  | RUpdateZone => updateZone cfg r
  | RArchiveZone => archiveZone cfg r
  | RGetTable => getTable cfg r
  | RCreateTable => createTable cfg r
  | RListTableQRCapabilities => listTableQRCapabilities cfg r
  | RExportTableQRCapability => exportTableQRCapability cfg r
  | RRotateTableQRCapability => rotateTableQRCapability cfg r
  | RRevokeTableQRCapability => revokeTableQRCapability cfg r
  | RUpdateTable => updateTable cfg r
  | RArchiveTable => archiveTable cfg r
  | RRestoreTable => restoreTable cfg r
  | RGetLocationState => getLocationState cfg r
  | RListAssists => listAssists cfg r
  | RGetAuditTimeline => getAuditTimeline cfg r
  | RGetAnalyticsSummary => getAnalyticsSummary cfg r
  | RGetAnalyticsTimeseries => getAnalyticsTimeseries cfg r
  | RGetAnalyticsComparison => getAnalyticsComparison cfg r
  | RGetAnalyticsDataQuality => getAnalyticsDataQuality cfg r
  | RRebuildAnalytics => rebuildAnalytics cfg r
  | RListServicePeriods => listServicePeriods cfg r
  | RCreateServicePeriod => createServicePeriod cfg r
  | RUpdateServicePeriod => updateServicePeriod cfg r
  | RArchiveServicePeriod => archiveServicePeriod cfg r
  | RListDevices => listDevices cfg r
  | RCreateDevicePairingCode => createDevicePairingCode cfg r
  | RPairDevice => pairDevice r
  | RDeviceHeartbeat => deviceHeartbeat r
  | RGetDisplaySnapshot => getDisplaySnapshot r
  | RRevokeDevice => revokeDevice cfg r
  | RListIntegrations => listIntegrations cfg r
  | RGetIntegrationHealth => getIntegrationHealth cfg r
  | RListIntegrationMappings => listIntegrationMappings cfg r
  | RUpdateIntegrationMapping => updateIntegrationMapping cfg r
  | RListIntegrationWebhooks => listIntegrationWebhooks cfg r
  | RReplayIntegrationWebhook => replayIntegrationWebhook cfg r
  | RListIntegrationDiscrepancies => listIntegrationDiscrepancies cfg r
  | RReconcileIntegration => reconcileIntegration cfg r
  | RReceiveIntegrationWebhook => receiveIntegrationWebhook r
  | RListMemberships => listMemberships cfg r
  | RCreateMembership => createMembership cfg r
  | RUpdateMembershipRole => updateMembershipRole cfg r
  | RDisableMembership => disableMembership cfg r
  | ROccupyTable => occupyTable cfg r
  | RClearTable => clearTable cfg r
  | RAcknowledgeAssist => acknowledgeAssist cfg r
  | RResolveAssist => resolveAssist cfg r
  | RCancelAssist => cancelAssist cfg r
  end.
End Handling.
