(* ===== verification/HubFacts.v ===== *)
(** The invariant of the hub under every interleaving of its goroutines. *)

From S2P Require Import Prelude Json Events Hub.
#[local] Open Scope list_scope.

(** ** Where the goroutines stand *)

Definition head_body (ops : list op) : option (body * nat) :=
  match ops with OpBody b id :: _ => Some (b, id) | _ => None end.

Definition body_at (T : gmap nat (list op)) (t : nat) : option (body * nat) := T !! t ≫= head_body.

Definition plain (o : op) : Prop := match o with OpBody _ _ => False | _ => True end.

Lemma body_at_insert T t ops t' :
  body_at (<[t := ops]> T) t' = if decide (t' = t) then head_body ops else body_at T t'.
Proof.
  unfold body_at. case_decide as Ht; [subst; by rewrite lookup_insert_eq|by rewrite lookup_insert_ne].
Qed.

Lemma body_at_delete T t t' :
  body_at (delete t T) t' = if decide (t' = t) then None else body_at T t'.
Proof.
  unfold body_at. case_decide as Ht; [subst; by rewrite lookup_delete_eq|by rewrite lookup_delete_ne].
Qed.

Lemma head_body_plain ops : Forall plain ops -> head_body ops = None.
Proof. intros [|[] ? ?]; done. Qed.

(** [phases] says which clients are being closed, and how far that is; each such
    client has exactly one goroutine at it. *)
Record link (T : gmap nat (list op)) (phases : gmap nat body) : Prop := {
  lk_thread : forall t b id, body_at T t = Some (b, id) -> phases !! id = Some b;
  lk_phase : forall id b, phases !! id = Some b -> exists t, body_at T t = Some (b, id);
  lk_one : forall t1 t2 b1 b2 id, body_at T t1 = Some (b1, id) -> body_at T t2 = Some (b2, id) -> t1 = t2;
}.

Lemma link_same T T' P : (forall t, body_at T' t = body_at T t) -> link T P -> link T' P.
Proof.
  intros Heq [H1 H2 H3]. split; intros *; rewrite ?Heq; eauto.
  intros Hp. destruct (H2 _ _ Hp) as (t & Ht). exists t. by rewrite Heq.
Qed.

(** A goroutine moves from one client's body to another place: into it, on, or
    out of it. *)
Lemma link_move T P t ops id (from : option body) :
  (body_at T t = (fun b => (b, id)) <$> from) -> P !! id = from ->
  (forall b id', head_body ops = Some (b, id') -> id' = id) ->
  link T P ->
  link (<[t := ops]> T) (partial_alter (fun _ => fst <$> head_body ops) id P).
Proof.
  intros Hat Hph Hid [H1 H2 H3].
  assert (forall t' b, t' <> t -> body_at T t' = Some (b, id) -> False) as Hnone.
  { intros t' b Hne Ht'. pose proof (H1 _ _ _ Ht') as Hb. rewrite Hph in Hb. subst from.
    rewrite Hb in Hat. apply Hne. eapply H3; [exact Ht'|exact Hat]. }
  split.
  - intros t' b id'. rewrite body_at_insert. case_decide as Ht.
    + intros Hh. rewrite (Hid _ _ Hh), lookup_partial_alter_eq, Hh. done.
    + intros Hb. destruct (decide (id' = id)) as [->|Hne]; [by destruct (Hnone _ _ Ht Hb)|].
      rewrite lookup_partial_alter_ne by done. eauto.
  - intros id' b. destruct (decide (id' = id)) as [->|Hne].
    + rewrite lookup_partial_alter_eq. destruct (head_body ops) as [[b' id']|] eqn:Hh; [|done].
      intros [= ->]. exists t. rewrite body_at_insert, decide_True by done. by rewrite Hh, (Hid _ _ eq_refl).
    + rewrite lookup_partial_alter_ne by done. intros Hp. destruct (H2 _ _ Hp) as (t' & Ht').
      exists t'. rewrite body_at_insert, decide_False; [done|].
      intros ->. rewrite Hat in Ht'. destruct from; [|done]. injection Ht' as _ <-. done.
  - intros t1 t2 b1 b2 id'. rewrite !body_at_insert. repeat case_decide; subst; try done.
    + intros Hh Hb. rewrite (Hid _ _ Hh) in Hb. by destruct (Hnone _ _ ltac:(done) Hb).
    + intros Hb Hh. rewrite (Hid _ _ Hh) in Hb. by destruct (Hnone _ _ ltac:(done) Hb).
    + eauto.
Qed.

(** ** Clients *)

Definition message_scope (m : Message) : Scope :=
  {| sc_OrganisationID := msg_OrganisationID m; sc_LocationID := msg_LocationID m |}.

Definition scoped (c : Client) (m : Message) : Prop := message_scope m = cl_scope c.

(** The flags of a client agree with how far its closing is. *)
Definition in_phase (c : Client) (p : option body) : Prop :=
  match cl_closeOnce c, p with
  | NotStarted, None | Running, Some BDelete | Running, Some BClose => cl_closed c = false
  | Running, Some BCount | Running, Some BReturn | Finished, None => cl_closed c = true
  | _, _ => False
  end.

Record client_ok (c : Client) : Prop := {
  ck_done : cl_done_closed c = cl_closed c;
  ck_send : cl_send_closed c = cl_closed c;
  ck_room : 0 < cl_cap c;
  ck_bound : length (cl_send c) <= cl_cap c;
  ck_scope : Forall (scoped c) (cl_received c ++ cl_send c);
}.

(** A client is among its scope's members until its closing deletes it. *)
Definition listed (c : Client) (p : option body) : Prop :=
  cl_closeOnce c = NotStarted \/ p = Some BDelete.

Record world_inv (w : World) (P : gmap nat body) : Prop := {
  wi_calm : w_panicked w = false;
  wi_client : forall id c, w_heap w !! id = Some c -> client_ok c /\ in_phase c (P !! id);
  wi_known : forall id b, P !! id = Some b -> is_Some (w_heap w !! id);
  wi_members : forall scope id, id ∈ members w scope <->
    exists c, w_heap w !! id = Some c /\ cl_scope c = scope /\ listed c (P !! id);
  wi_nonempty : forall scope, hub_clients (w_hub w) !! scope <> Some ∅;
}.

(** What goroutines refer to is there, and they send within a scope. *)
Definition op_ok (w : World) (o : op) : Prop :=
  match o with
  | OpSend id m => exists c, w_heap w !! id = Some c /\ scoped c m
  | OpUnsubscribe id | OpBody _ id | OpRecv id => is_Some (w_heap w !! id)
  | _ => True
  end.

Definition thread_ok (w : World) (ops : list op) : Prop :=
  Forall (op_ok w) ops /\ Forall plain (tail ops).

Definition hub_inv (cfg : World * gmap nat (list op)) : Prop :=
  exists P, world_inv cfg.1 P /\ link cfg.2 P /\ forall t ops, cfg.2 !! t = Some ops -> thread_ok cfg.1 ops.

(** Clients keep their scope and are never forgotten. *)
Definition heap_grows (w w' : World) : Prop :=
  forall id c, w_heap w !! id = Some c -> exists c', w_heap w' !! id = Some c' /\ cl_scope c' = cl_scope c.

Lemma op_ok_grows w w' o : heap_grows w w' -> op_ok w o -> op_ok w' o.
Proof.
  intros Hg. destruct o; simpl; try done.
  - intros [c Hc]. destruct (Hg _ _ Hc) as (c' & ? & _). by exists c'.
  - intros [c Hc]. destruct (Hg _ _ Hc) as (c' & ? & _). by exists c'.
  - intros (c & Hc & Hm). destruct (Hg _ _ Hc) as (c' & ? & Hs). exists c'. split; [done|].
    unfold scoped in *. by rewrite Hs.
  - intros [c Hc]. destruct (Hg _ _ Hc) as (c' & ? & _). by exists c'.
Qed.

Lemma thread_ok_grows w w' ops : heap_grows w w' -> thread_ok w ops -> thread_ok w' ops.
Proof. intros Hg [H1 H2]. split; [|done]. eapply Forall_impl; [exact H1|]. intros o. by apply op_ok_grows. Qed.

Lemma heap_grows_refl w : heap_grows w w.
Proof. intros id c Hc. by exists c. Qed.

Lemma heap_grows_set w id c c' :
  w_heap w !! id = Some c -> cl_scope c' = cl_scope c -> heap_grows w (set_client id c' w).
Proof.
  intros Hc Hs k x Hx. simpl. destruct (decide (k = id)) as [->|Hne].
  - rewrite lookup_insert_eq. exists c'. split; [done|congruence].
  - rewrite lookup_insert_ne by done. by exists x.
Qed.

(** ** World updates *)

(** A client changes, its place in the hub does not. *)
Lemma world_inv_client w P id c c' p :
  world_inv w P -> w_heap w !! id = Some c -> cl_scope c' = cl_scope c ->
  client_ok c' -> in_phase c' p -> (listed c' p <-> listed c (P !! id)) ->
  world_inv (set_client id c' w) (partial_alter (fun _ => p) id P).
Proof.
  intros [H1 H2 H3 H4 H5] Hc Hs Hok Hph Hl. split; simpl; [done| | | |done].
  - intros k x. destruct (decide (k = id)) as [->|Hne].
    + rewrite lookup_insert_eq, lookup_partial_alter_eq. by intros [= <-].
    + rewrite lookup_insert_ne, lookup_partial_alter_ne by done. apply H2.
  - intros k b. destruct (decide (k = id)) as [->|Hne].
    + rewrite lookup_insert_eq. by exists c'.
    + rewrite lookup_insert_ne, lookup_partial_alter_ne by done. apply H3.
  - intros scope k. change (members (set_client id c' w) scope) with (members w scope).
    rewrite H4. destruct (decide (k = id)) as [->|Hne].
    + rewrite lookup_insert_eq, lookup_partial_alter_eq. split.
      * intros (x & Hx & <- & ?). exists c'. rewrite Hc in Hx. injection Hx as <-.
        split_and!; [done|done|by apply Hl].
      * intros (x & [= <-] & <- & ?). exists c. split_and!; [done|done|by apply Hl].
    + by rewrite lookup_insert_ne, lookup_partial_alter_ne by done.
Qed.

Lemma world_inv_hub w P h : hub_clients h = hub_clients (w_hub w) -> world_inv w P ->
  world_inv {| w_hub := h; w_heap := w_heap w; w_panicked := w_panicked w |} P.
Proof.
  intros Hh [H1 H2 H3 H4 H5]. split; simpl; [done|done|done| |by rewrite Hh].
  intros scope id. unfold members. simpl. rewrite Hh. apply H4.
Qed.

Lemma elem_members_insert w scope id scope' id' :
  id' ∈ members (insert_client scope id w) scope' <->
  (id' = id /\ scope' = scope) \/ id' ∈ members w scope'.
Proof.
  unfold insert_client, members at 1. simpl. destruct (decide (scope' = scope)) as [->|Hne].
  - rewrite lookup_insert_eq. simpl. set_solver.
  - rewrite lookup_insert_ne by done. fold (members w scope'). set_solver.
Qed.

Lemma elem_members_delete w scope id scope' id' :
  id' ∈ members (delete_client scope id w) scope' <->
  id' ∈ members w scope' /\ ~ (id' = id /\ scope' = scope).
Proof.
  unfold delete_client. destruct (hub_clients (w_hub w) !! scope) as [scoped0|] eqn:Hs.
  - case_decide as He; unfold members; simpl; destruct (decide (scope' = scope)) as [->|Hne].
    + rewrite lookup_delete_eq, Hs. simpl. set_solver.
    + rewrite lookup_delete_ne by done. set_solver.
    + rewrite lookup_insert_eq, Hs. simpl. set_solver.
    + rewrite lookup_insert_ne by done. set_solver.
  - unfold members. destruct (decide (scope' = scope)) as [->|Hne]; [rewrite Hs; set_solver|set_solver].
Qed.

Lemma world_inv_subscribe w P id scope actor device buffer :
  world_inv w P -> w_heap w !! id = None ->
  world_inv (insert_client scope id (set_client id (new_client scope actor device buffer) w)) P.
Proof.
  intros [H1 H2 H3 H4 H5] Hn.
  assert (P !! id = None) as HP.
  { destruct (P !! id) eqn:Hp; [|done]. destruct (H3 _ _ Hp). congruence. }
  split; simpl; [done| | | |].
  - intros k x [[<- <-]|[_ Hx]]%lookup_insert_Some; [|by apply H2]. rewrite HP. split; [|done].
    split; simpl; [done|done| |lia|done]. destruct (Z.leb_spec buffer 0); lia.
  - intros k b Hb. destruct (decide (k = id)) as [->|Hne]; [congruence|].
    rewrite lookup_insert_ne by done. eauto.
  - intros scope' k. rewrite elem_members_insert.
    change (members (set_client id _ w) scope') with (members w scope'). rewrite H4.
    destruct (decide (k = id)) as [->|Hne].
    + rewrite lookup_insert_eq. split.
      * intros [[_ ->]|(x & Hx & _)]; [|congruence]. eexists. split_and!; [done|done|by left].
      * intros (x & [= <-] & <- & _). by left.
    + rewrite lookup_insert_ne by done. naive_solver.
  - intros scope'. destruct (decide (scope' = scope)) as [->|Hne].
    + rewrite lookup_insert_eq. intros [= He]. set_solver.
    + rewrite lookup_insert_ne by done. apply H5.
Qed.

Lemma world_inv_delete w P id c :
  world_inv w P -> w_heap w !! id = Some c -> P !! id = Some BDelete ->
  world_inv (delete_client (cl_scope c) id w) (partial_alter (fun _ => Some BClose) id P).
Proof.
  intros [H1 H2 H3 H4 H5] Hc HP. destruct (H2 _ _ Hc) as [Hok Hph]. rewrite HP in Hph.
  assert (w_heap (delete_client (cl_scope c) id w) = w_heap w) as Hheap.
  { unfold delete_client. repeat case_match; done. }
  split.
  - unfold delete_client. repeat case_match; done.
  - intros k x. rewrite Hheap. intros Hx. destruct (decide (k = id)) as [->|Hne].
    + rewrite lookup_partial_alter_eq. rewrite Hc in Hx. injection Hx as <-. split; [done|].
      unfold in_phase in *. by destruct (cl_closeOnce c).
    + rewrite lookup_partial_alter_ne by done. by apply H2.
  - intros k b. rewrite Hheap. destruct (decide (k = id)) as [->|Hne]; [by rewrite Hc|].
    rewrite lookup_partial_alter_ne by done. apply H3.
  - intros scope k. rewrite elem_members_delete, H4, Hheap. destruct (decide (k = id)) as [->|Hne].
    + rewrite lookup_partial_alter_eq. split.
      * intros [(x & Hx & <- & _) Hn]. rewrite Hc in Hx. injection Hx as <-. naive_solver.
      * intros (x & Hx & <- & [Hl|Hl]); [|done]. rewrite Hc in Hx. injection Hx as <-.
        unfold in_phase in Hph. by rewrite Hl in Hph.
    + rewrite lookup_partial_alter_ne by done. naive_solver.
  - intros scope. unfold delete_client. destruct (hub_clients (w_hub w) !! cl_scope c) eqn:Hs; [|apply H5].
    case_decide as He; simpl; destruct (decide (scope = cl_scope c)) as [->|Hne].
    + by rewrite lookup_delete_eq.
    + rewrite lookup_delete_ne by done. apply H5.
    + rewrite lookup_insert_eq. congruence.
    + rewrite lookup_insert_ne by done. apply H5.
Qed.

Lemma world_inv_same w P id c c' :
  world_inv w P -> w_heap w !! id = Some c -> cl_scope c' = cl_scope c ->
  cl_closeOnce c' = cl_closeOnce c -> cl_closed c' = cl_closed c -> client_ok c' ->
  world_inv (set_client id c' w) P.
Proof.
  intros Hw Hc Hs Ho Hcl Hok. destruct (wi_client _ _ Hw _ _ Hc) as [_ Hph].
  replace P with (partial_alter (fun _ => P !! id) id P) by (by apply partial_alter_id).
  eapply world_inv_client; [done|exact Hc|done|done| |].
  - unfold in_phase in *. by rewrite Ho, Hcl.
  - unfold listed. by rewrite Ho.
Qed.

(** ** The operations on one client *)

Lemma trySend_ok m c :
  client_ok c -> scoped c m -> exists c' b, trySend m c = Some (c', b) /\ client_ok c' /\
    cl_scope c' = cl_scope c /\ cl_closeOnce c' = cl_closeOnce c /\ cl_closed c' = cl_closed c.
Proof.
  intros Hok Hm. pose proof Hok as [Hd Hs Hr Hb Hsc]. unfold trySend.
  destruct (cl_closed c) eqn:Hcl; [exists c, false; by rewrite Hcl|]. rewrite Hs. case_match eqn:Hlt; [|exists c, false; by rewrite Hcl]. apply Nat.ltb_lt in Hlt.
  eexists _, true. split; [done|]. simpl. split_and!; try done. split; simpl; try congruence.
  - rewrite length_app. simpl. lia.
  - rewrite app_assoc. apply Forall_app. split; [done|]. by apply Forall_singleton.
Qed.

Lemma recv_ok c m rest :
  client_ok c -> cl_send c = m :: rest -> client_ok (set_send rest (cl_received c ++ [m]) c).
Proof.
  intros [Hd Hs Hr Hb Hsc] Hq. split; simpl; try done; rewrite Hq in *; simpl in *; [lia|].
  by rewrite <- app_assoc.
Qed.

Lemma close_ok c :
  client_ok c -> cl_closed c = false -> close c = Some (set_closed c) /\ client_ok (set_closed c).
Proof.
  intros [Hd Hs Hr Hb Hsc] Hcl. unfold close. rewrite Hd, Hs, Hcl. done.
Qed.

(** ** Preservation *)

Lemma thread_plain w o rest : thread_ok w (o :: rest) -> head_body rest = None.
Proof. intros [_ H]. by apply head_body_plain. Qed.

Definition preserved (w : World) (P : gmap nat body) (T : gmap nat (list op)) (t : nat) (rest : list op)
    (w' : World) (new : list op) : Prop :=
  exists P', world_inv w' P' /\ link (<[t := new ++ rest]> T) P' /\ heap_grows w w' /\
    Forall (op_ok w') new /\ Forall plain (tail new) /\ (new = [] \/ Forall plain rest).

Section Preserve.
Context (w : World) (P : gmap nat body) (T : gmap nat (list op)) (t : nat) (o : op) (rest : list op).
Context (Hw : world_inv w P) (Hl : link T P) (Ht : T !! t = Some (o :: rest)).
Context (Hok : thread_ok w (o :: rest)).

(** A step that enters or leaves no closing. *)
Lemma preserved_neutral w' new :
  plain o -> head_body (new ++ rest) = None -> world_inv w' P -> heap_grows w w' ->
  Forall (op_ok w') new -> Forall plain (tail new) -> preserved w P T t rest w' new.
Proof.
  intros Hpl Hh Hw' Hg Hn Htl. exists P. split_and!; try done.
  - apply (link_same T); [|done]. intros t'. rewrite body_at_insert. case_decide as He; [|done].
  subst. rewrite Hh. unfold body_at. rewrite Ht. by destruct o.
  - right. apply Hok.
Qed.

(** A step of a closing, at the phase [from] or before it. *)
Lemma preserved_body w' new id from :
  head_body (o :: rest) = (fun b => (b, id)) <$> from -> P !! id = from ->
  (forall b id', head_body (new ++ rest) = Some (b, id') -> id' = id) ->
  world_inv w' (partial_alter (fun _ => fst <$> head_body (new ++ rest)) id P) ->
  heap_grows w w' -> Forall (op_ok w') new -> Forall plain (tail new) ->
  preserved w P T t rest w' new.
Proof.
  intros Hh HP Hid Hw' Hg Hn Htl. eexists. split_and!; try done.
  - eapply link_move; [|exact HP|done|done]. unfold body_at. by rewrite Ht.
  - right. apply Hok.
Qed.
End Preserve.

Lemma body_phase T P t b id rest : link T P -> T !! t = Some (OpBody b id :: rest) -> P !! id = Some b.
Proof. intros Hl Ht. eapply lk_thread; [exact Hl|]. unfold body_at. by rewrite Ht. Qed.

Lemma exec_body_preserved w P T t b id rest order w' new :
  world_inv w P -> link T P -> T !! t = Some (OpBody b id :: rest) -> thread_ok w (OpBody b id :: rest) ->
  exec_op order (OpBody b id) w = Some (w', new) -> preserved w P T t rest w' new.
Proof.
  intros Hw Hl Ht Hok Hex. pose proof (body_phase _ _ _ _ _ _ Hl Ht) as HP.
  pose proof (thread_plain _ _ _ Hok) as Hrest.
  pose proof Hok as Hok2. destruct Hok as [Hops Hpl].
  assert (exists c, w_heap w !! id = Some c) as (c & Hc) by (apply Forall_cons_1 in Hops as [[c Hc] _]; eauto).
  destruct (wi_client _ _ Hw _ _ Hc) as [Hcok Hph]. rewrite HP in Hph.
  destruct b; simpl in Hex; rewrite ?Hc in Hex; simpl in Hex.
  - injection Hex as <- <-. eapply (preserved_body w P T t _ rest Hl Ht Hok2 _ _ id (Some BDelete)); try done.
    + by intros b id' [= _ <-].
    + by apply world_inv_delete.
    + intros k x Hx. exists x. split; [|done]. unfold delete_client. repeat case_match; done.
    + repeat constructor. simpl. unfold delete_client. repeat case_match; by exists c.
  - assert (cl_closed c = false) as Hcl by (unfold in_phase in Hph; by destruct (cl_closeOnce c)).
    destruct (close_ok c Hcok Hcl) as [Hclose Hok']. rewrite Hclose in Hex. injection Hex as <- <-.
    eapply (preserved_body w P T t _ rest Hl Ht Hok2 _ _ id (Some BClose)); try done.
    + by intros b id' [= _ <-].
    + eapply world_inv_client; try done.
      * unfold in_phase in *. simpl. by destruct (cl_closeOnce c).
      * unfold listed, in_phase in *. rewrite HP. simpl. destruct (cl_closeOnce c); naive_solver.
    + by eapply heap_grows_set.
    + repeat constructor. simpl. rewrite lookup_insert_eq. by eexists.
  - injection Hex as <- <-. eapply (preserved_body w P T t _ rest Hl Ht Hok2 _ _ id (Some BCount)); try done.
    + by intros b id' [= _ <-].
    + apply world_inv_hub; [done|]. simpl.
      destruct Hw as [H1 H2 H3 H4 H5]. split; [done| | | |done].
      * intros k x Hx. destruct (decide (k = id)) as [->|Hne].
        -- rewrite lookup_partial_alter_eq. rewrite Hc in Hx. injection Hx as <-. split; [done|].
           unfold in_phase in *. by destruct (cl_closeOnce c).
        -- rewrite lookup_partial_alter_ne by done. by apply H2.
      * intros k b. destruct (decide (k = id)) as [->|Hne]; [by rewrite Hc|].
        rewrite lookup_partial_alter_ne by done. apply H3.
      * intros scope k. rewrite H4. destruct (decide (k = id)) as [->|Hne].
        -- rewrite lookup_partial_alter_eq, HP. unfold listed. naive_solver.
        -- by rewrite lookup_partial_alter_ne.
    + intros k x Hx. by exists x.
    + repeat constructor. simpl. by exists c.
  - injection Hex as <- <-. eapply (preserved_body w P T t _ rest Hl Ht Hok2 _ _ id (Some BReturn)); try done.
    + simpl. by rewrite Hrest.
    + simpl. rewrite Hrest. simpl. eapply world_inv_client; try done.
      * destruct Hcok. by split.
      * unfold in_phase in *. simpl. by destruct (cl_closeOnce c).
      * unfold listed, in_phase in *. rewrite HP. simpl. destruct (cl_closeOnce c); naive_solver.
    + by eapply heap_grows_set.
Qed.

Lemma exec_preserved w P T t o rest order w' new :
  (forall s, order s ≡ₚ elements s) ->
  world_inv w P -> link T P -> T !! t = Some (o :: rest) -> thread_ok w (o :: rest) ->
  exec_op order o w = Some (w', new) -> preserved w P T t rest w' new.
Proof.
  intros Hord Hw Hl Ht Hok Hex. pose proof (thread_plain _ _ _ Hok) as Hrest.
  pose proof (Forall_inv (proj1 Hok)) as Ho.
  destruct o as [id scope actor device buffer|k|id|b id|event|id m|id]; simpl in Hex, Ho.
  - destruct (w_heap w !! id) eqn:Hn; [done|]. injection Hex as <- <-.
    eapply (preserved_neutral w P T t _ rest Hl Ht Hok); try done; [by apply world_inv_subscribe| |by repeat constructor].
    intros k x Hx. simpl. exists x. rewrite lookup_insert_ne; [done|congruence].
  - injection Hex as <- <-. eapply (preserved_neutral w P T t _ rest Hl Ht Hok); try done; [by apply world_inv_hub|].
    intros i x Hx. by exists x.
  - destruct Ho as [c Hc]. rewrite Hc in Hex. simpl in Hex. destruct (cl_closeOnce c) eqn:Honce; [|done|].
    + injection Hex as <- <-. destruct (wi_client _ _ Hw _ _ Hc) as [Hcok Hph].
      assert (P !! id = None) as HP by (unfold in_phase in Hph; rewrite Honce in Hph; by destruct (P !! id)).
      rewrite HP in Hph.
      eapply (preserved_body w P T t _ rest Hl Ht Hok _ _ id None); try done.
      * by intros b id' [= _ <-].
      * eapply world_inv_client; try done.
        -- destruct Hcok. by split.
        -- unfold in_phase in *. simpl. by rewrite Honce in Hph.
        -- unfold listed. rewrite HP, Honce. simpl. naive_solver.
      * by eapply heap_grows_set.
      * repeat constructor. simpl. rewrite lookup_insert_eq. by eexists.
    + injection Hex as <- <-. by eapply (preserved_neutral w P T t _ rest Hl Ht Hok); try done; apply heap_grows_refl.
  - by apply (exec_body_preserved w P T t b id rest order).
  - injection Hex as <- <-. eapply (preserved_neutral w P T t _ rest Hl Ht Hok); try done; [apply heap_grows_refl| |].
    + constructor; [done|]. apply Forall_fmap, Forall_forall. intros id. rewrite Hord, elem_of_elements.
      rewrite (wi_members _ _ Hw). intros (c & Hc & Hs & _). simpl. exists c. split; [done|].
      unfold scoped. by rewrite Hs.
    + simpl. apply Forall_fmap, Forall_forall. done.
  - destruct Ho as (c & Hc & Hm). rewrite Hc in Hex. simpl in Hex.
    destruct (wi_client _ _ Hw _ _ Hc) as [Hcok _].
    destruct (trySend_ok m c Hcok Hm) as (c' & b & Hts & Hok' & Hs & Honce & Hcl). rewrite Hts in Hex.
    assert (world_inv (set_client id c' w) P) by (by eapply world_inv_same).
    assert (heap_grows w (set_client id c' w)) by (by eapply heap_grows_set).
    destruct b; injection Hex as <- <-; eapply (preserved_neutral w P T t _ rest Hl Ht Hok); try done.
    + repeat constructor. simpl. rewrite lookup_insert_eq. by eexists.
    + by repeat constructor.
  - destruct Ho as [c Hc]. rewrite Hc in Hex. simpl in Hex.
    destruct (wi_client _ _ Hw _ _ Hc) as [Hcok _].
    destruct (cl_send c) as [|m rest'] eqn:Hq.
    + destruct (cl_send_closed c); [|done]. injection Hex as <- <-.
      by eapply (preserved_neutral w P T t _ rest Hl Ht Hok); try done; apply heap_grows_refl.
    + injection Hex as <- <-. eapply (preserved_neutral w P T t _ rest Hl Ht Hok); try done.
      * eapply world_inv_same; try done. by apply recv_ok.
      * by eapply heap_grows_set.
Qed.

Lemma hub_inv_init : hub_inv (new_world, ∅).
Proof.
  exists ∅. split_and!; simpl.
  - split; simpl; try done. intros scope id. unfold members. simpl. rewrite lookup_empty. simpl.
    split; [set_solver|]. intros (c & Hc & _). by rewrite lookup_empty in Hc.
  - split; intros *; unfold body_at; by rewrite ?lookup_empty.
  - intros t ops. by rewrite lookup_empty.
Qed.

Lemma hub_inv_step cfg cfg' : hub_inv cfg -> cstep cfg cfg' -> hub_inv cfg'.
Proof.
  intros (P & Hw & Hl & HT) Hs. destruct Hs as [w T t o Hn Hst|w T t o rest order w' new Ht Hord Hex|w T t Ht];
    simpl in *.
  - exists P. split_and!; simpl; [done| |].
    + apply (link_same T); [|done]. intros t'. rewrite body_at_insert. case_decide as He; [|done].
      subst. unfold body_at. rewrite Hn. by destruct o.
    + intros t' ops [[<- <-]|[_ Hx]]%lookup_insert_Some; [|by eapply HT]. split; [|by simpl].
      apply Forall_singleton. by destruct o.
  - destruct (exec_preserved w P T t o rest order w' new Hord Hw Hl Ht (HT _ _ Ht) Hex)
      as (P' & Hw' & Hl' & Hg & Hn & Htl & Hr).
    exists P'. split_and!; simpl; [done..|]. destruct (HT _ _ Ht) as [Hops Hpl].
    intros t' ops [[<- <-]|[_ Hx]]%lookup_insert_Some; [|eapply thread_ok_grows; [done|by eapply HT]].
    apply Forall_cons_1 in Hops as [_ Hops]. split.
    + apply Forall_app. split; [done|]. eapply Forall_impl; [exact Hops|]. intros x. by apply op_ok_grows.
    + destruct new as [|n new]; simpl in *; [by destruct rest; [|inversion Hpl]|]. by apply Forall_app.
  - exists P. split_and!; simpl; [done| |].
    + apply (link_same T); [|done]. intros t'. rewrite body_at_delete. case_decide as He; [|done].
      subst. unfold body_at. by rewrite Ht.
    + intros t' ops [_ Hx]%lookup_delete_Some. by eapply HT.
Qed.

Lemma reachable_inv cfg : reachable cfg -> hub_inv cfg.
Proof. induction 1; [apply hub_inv_init|by eapply hub_inv_step]. Qed.

(** ** Running a schedule

    A schedule names the goroutine of each step; what it runs to is reachable. *)

Inductive choice := Go (t : nat) (o : op) | Run (t : nat) | End (t : nat).

#[export] Instance startable_dec w o : Decision (startable w o).
Proof.
  destruct o; simpl; [left; exact I|right; tauto|apply is_Some_dec|right; tauto|left; exact I|right; tauto|
    apply is_Some_dec].
Defined.

Definition sched_step (ch : choice) (cfg : World * gmap nat (list op))
    : option (World * gmap nat (list op)) :=
  let '(w, T) := cfg in
  match ch with
  | Go t o => if decide (T !! t = None /\ startable w o) then Some (w, <[t := [o]]> T) else None
  | Run t =>
      match T !! t with
      | Some (o :: rest) =>
          '(w', new) ← exec_op elements o w;
          Some (w', <[t := new ++ rest]> T)
      | _ => None
      end
  | End t => match T !! t with Some [] => Some (w, delete t T) | _ => None end
  end.

Fixpoint run_schedule (l : list choice) (cfg : World * gmap nat (list op))
    : option (World * gmap nat (list op)) :=
  match l with
  | [] => Some cfg
  | ch :: l' => cfg' ← sched_step ch cfg; run_schedule l' cfg'
  end.

Lemma sched_step_cstep ch cfg cfg' : sched_step ch cfg = Some cfg' -> cstep cfg cfg'.
Proof.
  destruct cfg as [w T]. destruct ch as [t o|t|t]; simpl.
  - case_decide as H; [|done]. intros [= <-]. destruct H. by constructor.
  - destruct (T !! t) as [[|o rest]|] eqn:Ht; try done.
    destruct (exec_op elements o w) as [[w' new]|] eqn:He; [|done]. intros [= <-].
    by eapply cstep_op.
  - destruct (T !! t) as [[|o rest]|] eqn:Ht; try done. intros [= <-]. by constructor.
Qed.

Lemma run_schedule_reachable l cfg cfg' :
  reachable cfg -> run_schedule l cfg = Some cfg' -> reachable cfg'.
Proof.
  revert cfg. induction l as [|ch l IH]; intros cfg Hr H; [by injection H as <-|]. simpl in H.
  destruct (sched_step ch cfg) as [c1|] eqn:Hs; [|done].
  apply (IH c1); [|done]. eapply reachable_step; [done|by eapply sched_step_cstep].
Qed.

(** ** A goroutine alone *)

Lemma run_ops_app order f1 f2 ops rest w w1 w2 :
  run_ops f1 order ops w = Some w1 -> run_ops f2 order rest w1 = Some w2 ->
  run_ops (f1 + f2) order (ops ++ rest) w = Some w2.
Proof.
  revert ops w. induction f1 as [|f1 IH]; intros ops w H1 H2.
  - destruct ops; [|done]. by injection H1 as <-.
  - destruct ops as [|o ops].
    + injection H1 as <-. simpl. clear IH. revert H2. generalize (S f1). intros n.
      revert rest w. generalize f2. induction f0 as [|f0 IH]; intros rest w H2.
      * destruct rest; [|done]. injection H2 as <-. by destruct n.
      * destruct rest as [|o rest]; [injection H2 as <-; by destruct n|].
        rewrite Nat.add_succ_r. simpl in *. destruct (exec_op order o w) as [[w' new]|]; [|done].
        simpl in *. by apply IH.
    + simpl in *. destruct (exec_op order o w) as [[w' new]|]; [|done]. simpl in *.
      rewrite app_assoc. by apply IH.
Qed.

Definition room (c : Client) : bool := (length (cl_send c) <? cl_cap c)%nat.

Definition metrics_of (w : World) : Metrics := hub_metrics (w_hub w).

(** What one send leaves behind in an idle hub. *)
Definition sent_client (m : Message) (c : Client) : Client :=
  if room c then set_send (cl_send c ++ [m]) (cl_received c) c else set_once Finished (set_closed c).

Record sent (m : Message) (id : nat) (c : Client) (w w' : World) : Prop := {
  st_other : forall k, k <> id -> w_heap w' !! k = w_heap w !! k;
  st_this : w_heap w' !! id = Some (sent_client m c);
  st_members : forall scope k, k ∈ members w' scope <->
    k ∈ members w scope /\ ~ (k = id /\ scope = cl_scope c /\ room c = false);
  st_published : MessagesPublished (metrics_of w') = MessagesPublished (metrics_of w);
  st_dropped : MessagesDropped (metrics_of w')
    = (MessagesDropped (metrics_of w) + if room c then 0 else 1)%Z;
}.

Lemma delete_client_frame scope id w :
  w_heap (delete_client scope id w) = w_heap w /\ metrics_of (delete_client scope id w) = metrics_of w.
Proof. unfold delete_client. repeat case_match; done. Qed.

Lemma send_run order m id c w :
  client_ok c -> w_heap w !! id = Some c -> cl_closeOnce c = NotStarted -> cl_closed c = false ->
  exists w', run_ops 8 order [OpSend id m] w = Some w' /\ sent m id c w w'.
Proof.
  intros Hok Hc Honce Hcl. pose proof Hok as [Hd Hs Hr Hb Hsc].
  assert (trySend m c = Some (if room c then (set_send (cl_send c ++ [m]) (cl_received c) c, true) else (c, false)))
    as Hts.
  { unfold trySend, room. rewrite Hcl, Hs, Hcl. by destruct (length (cl_send c) <? cl_cap c). }
  destruct (room c) eqn:Hroom.
  - eexists. split; [cbn [run_ops exec_op]; rewrite Hc; cbn [mbind option_bind]; rewrite Hts; reflexivity|].
    split; simpl; try done.
    + intros k Hk. by rewrite lookup_insert_ne.
    + unfold sent_client. by rewrite lookup_insert_eq, Hroom.
    + intros scope k. change (members _ scope) with (members w scope) at 1. rewrite Hroom. naive_solver.
    + rewrite Hroom. unfold metrics_of. simpl. lia.
  - set (w1 := add_one Backpressure (add_one Dropped (set_client id c w))).
    set (w2 := set_client id (set_once Running c) w1).
    set (w3 := delete_client (cl_scope c) id w2).
    destruct (delete_client_frame (cl_scope c) id w2) as [Hh3 Hm3]. fold w3 in Hh3, Hm3.
    assert (w_heap w3 !! id = Some (set_once Running c)) as Hc3
      by (rewrite Hh3; simpl; by rewrite lookup_insert_eq).
    assert (close (set_once Running c) = Some (set_closed (set_once Running c))) as Hclose.
    { unfold close. simpl. by rewrite Hcl, Hd, Hs, Hcl. }
    set (w4 := set_client id (set_closed (set_once Running c)) w3).
    exists (set_client id (set_once Finished (set_closed (set_once Running c))) (add_one ClosedCount w4)).
    split.
    + cbn [run_ops exec_op]. rewrite Hc. cbn [mbind option_bind]. rewrite Hts. cbn [app].
      cbn [exec_op mbind option_bind app]. fold w1.
      replace (w_heap w1 !! id) with (Some c) by (simpl; by rewrite lookup_insert_eq).
      cbn [mbind option_bind]. rewrite Honce. fold w2. cbn [app exec_op mbind option_bind].
      replace (w_heap w2 !! id) with (Some (set_once Running c)) by (simpl; by rewrite lookup_insert_eq).
      cbn [mbind option_bind cl_scope set_once]. fold w3. cbn [app exec_op mbind option_bind].
      rewrite Hc3. cbn [mbind option_bind]. rewrite Hclose. fold w4.
      cbn [app exec_op mbind option_bind].
      replace (w_heap (add_one ClosedCount w4) !! id) with (Some (set_closed (set_once Running c)))
        by (simpl; by rewrite lookup_insert_eq).
      reflexivity.
    + split.
      * intros k Hk. simpl. rewrite !lookup_insert_ne, Hh3 by done. simpl. by rewrite !lookup_insert_ne.
      * simpl. unfold sent_client. by rewrite lookup_insert_eq, Hroom.
      * intros scope k. unfold members at 1. simpl. fold (members w3 scope). unfold w3.
        rewrite elem_members_delete. change (members w2 scope) with (members w scope).
        rewrite Hroom. naive_solver.
      * unfold metrics_of in *. simpl. by rewrite Hm3.
      * unfold metrics_of in *. simpl. rewrite Hm3, Hroom. simpl. lia.
Qed.

Definition full (w : World) (id : nat) : bool :=
  match w_heap w !! id with Some c => negb (room c) | None => false end.

(** The sends of one publication, in any order. *)
Lemma sends_run order m ids w :
  NoDup ids ->
  (forall id, id ∈ ids -> exists c, w_heap w !! id = Some c /\ client_ok c /\
     cl_closeOnce c = NotStarted /\ cl_closed c = false) ->
  exists w', run_ops (8 * length ids) order ((fun id => OpSend id m) <$> ids) w = Some w' /\
    (forall id, id ∉ ids -> w_heap w' !! id = w_heap w !! id) /\
    (forall id c, id ∈ ids -> w_heap w !! id = Some c -> w_heap w' !! id = Some (sent_client m c)) /\
    (forall scope k, k ∈ members w' scope <-> k ∈ members w scope /\
       ~ (k ∈ ids /\ exists c, w_heap w !! k = Some c /\ scope = cl_scope c /\ room c = false)) /\
    MessagesPublished (metrics_of w') = MessagesPublished (metrics_of w) /\
    MessagesDropped (metrics_of w')
      = (MessagesDropped (metrics_of w) + Z.of_nat (length (List.filter (full w) ids)))%Z.
Proof.
  revert w. induction ids as [|id ids IH]; intros w Hnd Hall.
  { exists w. split_and!; try done; [by intros id c ?%not_elem_of_nil| |simpl; lia].
    intros scope k. split; [|naive_solver]. intros Hk. split; [done|]. by intros [?%not_elem_of_nil _]. }
  apply NoDup_cons in Hnd as [Hnin Hnd].
  destruct (Hall id) as (c & Hc & Hok & Honce & Hcl); [left|].
  destruct (send_run order m id c w Hok Hc Honce Hcl) as (w1 & Hrun1 & [Hoth Hthis Hmem Hpub Hdrop]).
  destruct (IH w1 Hnd) as (w2 & Hrun2 & Hoth2 & Hthis2 & Hmem2 & Hpub2 & Hdrop2).
  { intros k Hk. rewrite Hoth by (by intros ->). apply Hall. by right. }
  exists w2. split_and!.
  - rewrite fmap_cons. change (OpSend id m :: ?l) with ([OpSend id m] ++ l).
    replace (8 * length (id :: ids))%nat with (8 + 8 * length ids)%nat by (simpl; lia).
    by eapply run_ops_app.
  - intros k [Hk1 Hk2]%not_elem_of_cons. by rewrite Hoth2, Hoth.
  - intros k x [->|Hk]%elem_of_cons Hx.
    + rewrite Hoth2, Hthis by done. congruence.
    + apply Hthis2; [done|]. by rewrite Hoth by (by intros ->).
  - intros scope k. rewrite Hmem2, Hmem. destruct (decide (k = id)) as [->|Hne].
    + split.
      * intros [[Hk Hn] _]. split; [done|]. intros (_ & x & Hx & Hs & Hr). rewrite Hc in Hx.
        injection Hx as <-. by apply Hn.
      * intros [Hk Hn]. split; [split; [done|]|by intros [? _]]. intros (_ & Hs & Hr). apply Hn.
        split; [left|]. by exists c.
    + rewrite Hoth by done. split.
      * intros [[Hk _] Hn]. split; [done|]. intros ([->|Hin]%elem_of_cons & Hx); [done|]. by apply Hn.
      * intros [Hk Hn]. split; [split; [done|]|]; [by intros [-> _]|].
        intros [Hin Hx]. apply Hn. split; [by right|done].
  - by rewrite Hpub2.
  - rewrite Hdrop2, Hdrop. simpl. assert (full w id = negb (room c)) as -> by (unfold full; by rewrite Hc).
    assert (List.filter (full w1) ids = List.filter (full w) ids) as ->.
    { clear -Hoth Hnin. induction ids as [|k ids IH]; [done|].
      apply not_elem_of_cons in Hnin as [Hk Hnin]. simpl. rewrite (IH Hnin).
      assert (full w1 k = full w k) as -> by (unfold full; by rewrite Hoth). done. }
    destruct (room c); simpl; lia.
Qed.

(** A client's state between two activities of the hub. *)
Lemma idle_client w id c :
  hub_inv (w, ∅) -> w_heap w !! id = Some c ->
  client_ok c /\ (id ∈ members w (cl_scope c) <-> cl_closed c = false) /\
  (cl_closed c = false <-> cl_closeOnce c = NotStarted).
Proof.
  intros (P & Hw & Hl & _) Hc. simpl in *. destruct (wi_client _ _ Hw _ _ Hc) as [Hok Hph].
  assert (P !! id = None) as HP.
  { destruct (P !! id) as [b|] eqn:HP; [|done]. destruct (lk_phase _ _ Hl _ _ HP) as (t & Ht).
    unfold body_at in Ht. by rewrite lookup_empty in Ht. }
  rewrite HP in Hph. split; [done|]. rewrite (wi_members _ _ Hw). unfold in_phase in Hph.
  destruct (cl_closeOnce c) eqn:Honce; rewrite ?Hph; split; split; try done.
  - intros _. exists c. split_and!; [done|done|by left].
  - intros (x & Hx & _ & [Hn|Hn]); [|congruence]. rewrite Hc in Hx. congruence.
Qed.
