(* ===== verification/TxFacts.v ===== *)
(** What the transaction primitives guarantee to the services built on them:
    a body that only runs statements stays inside its transaction ([InTx]), a
    body whose errors all pass through [or_rollback] leaves the snapshot behind
    when it fails ([Guarded]), and so a request that returns an error has left
    the database as it was, unless its commit was applied by the server and
    reported as failed. *)

From S2P Require Import Prelude Json Schema GoTx.

Class InTx {A} (m : Go A) : Prop :=
  in_tx : forall e s r s', m e s = (r, s') ->
    st_saved s' = st_saved s /\ st_now s' = st_now s.

Class Guarded {A} (m : Go A) : Prop :=
  guarded : forall e s r s' d0, m e s = (r, s') -> st_saved s = Some d0 ->
    match r with
    | Ok _ => st_saved s' = Some d0 /\ st_now s' = st_now s
    | Err _ => st_saved s' = None /\ st_db s' = d0
    end.

(** ** Bodies of transactions *)

Section InTxInstances.
Context {A B : Type}.

#[export] Instance in_tx_ret (a : A) : InTx (mret a).
Proof. by intros e s r s' [= <- <-]. Qed.

#[export] Instance in_tx_fail err : InTx (@fail A err).
Proof. by intros e s r s' [= <- <-]. Qed.

#[export] Instance in_tx_lift r0 : InTx (@lift A r0).
Proof. by intros e s r s' [= <- <-]. Qed.

#[export] Instance in_tx_bind (m : Go A) (k : A -> Go B) :
  InTx m -> (forall a, InTx (k a)) -> InTx (m ≫= k).
Proof.
  intros Hm Hk e s r s' Hrun. unfold mbind, Go_bind in Hrun.
  destruct (m e s) as [[a|err] s1] eqn:H1; apply Hm in H1 as [Hs Hn].
  - apply Hk in Hrun as [-> ->]. done.
  - by injection Hrun as _ <-.
Qed.

#[export] Instance in_tx_map_err f (m : Go A) : InTx m -> InTx (map_err f m).
Proof.
  intros Hm e s r s' Hrun. unfold map_err in Hrun.
  destruct (m e s) as [[a|err] s1] eqn:H1; apply Hm in H1; by injection Hrun as _ <-.
Qed.

#[export] Instance in_tx_attempt (m : Go A) : InTx m -> InTx (attempt m).
Proof.
  intros Hm e s r s' Hrun. unfold attempt in Hrun.
  destruct (m e s) as [r1 s1] eqn:H1. apply Hm in H1. by injection Hrun as _ <-.
Qed.

#[export] Instance in_tx_exec (q : Stmt A) : InTx (exec q).
Proof.
  intros e s r s' Hrun. unfold exec in Hrun. repeat case_match; by injection Hrun as _ <-.
Qed.

#[export] Instance in_tx_for_each (l : list A) (f : A -> Go unit) :
  (forall a, InTx (f a)) -> InTx (for_each l f).
Proof.
  intros Hf. induction l as [|a l IH]; simpl.
  - by intros e s r s' [= <- <-].
  - intros e s r s' Hrun. unfold mbind, Go_bind in Hrun.
  destruct (f a e s) as [[[]|err] s1] eqn:H1; apply Hf in H1 as [Hs Hn].
  + apply IH in Hrun as [-> ->]. done.
  + by injection Hrun as _ <-.
Qed.
End InTxInstances.

#[export] Instance in_tx_mapM {A B} (f : A -> Go B) l : (forall a, InTx (f a)) -> InTx (mapM f l).
Proof.
  intros Hf. induction l as [|a l IH]; simpl; [apply in_tx_ret|]. apply in_tx_bind; [done|].
  intros b. apply in_tx_bind; [done|]. intros bs. apply in_tx_ret.
Qed.

#[export] Instance in_tx_guard_err b err : InTx (guard_err b err).
Proof. unfold guard_err. destruct b; apply _. Qed.
#[export] Instance in_tx_time_Now : InTx time_Now.
Proof. by intros e s r s' [= <- <-]. Qed.
#[export] Instance in_tx_uuid_New : InTx uuid_New.
Proof. by intros e s r s' [= <- <-]. Qed.
#[export] Instance in_tx_traceContext : InTx traceContext.
Proof. by intros e s r s' [= <- <-]. Qed.
#[export] Instance in_tx_rand_Read n : InTx (rand_Read n).
Proof. intros e s r s' H. unfold rand_Read in H. case_match; by injection H as _ <-. Qed.
#[export] Instance in_tx_SetContext : InTx SetContext.
Proof. unfold SetContext. apply _. Qed.

(** Case analyses inside a body. *)
#[export] Hint Extern 5 (InTx (match ?x with _ => _ end)) => destruct x : typeclass_instances.
#[export] Hint Extern 5 (InTx (let '(_, _) := ?x in _)) => destruct x : typeclass_instances.
#[export] Hint Extern 5 (Guarded (match ?x with _ => _ end)) => destruct x : typeclass_instances.

(** ** Bodies that roll back *)

#[export] Instance guarded_ret {A} (a : A) : Guarded (mret a).
Proof. by intros e s r s' d0 [= <- <-]. Qed.

#[export] Instance guarded_bind {A B} (m : Go A) (k : A -> Go B) :
  Guarded m -> (forall a, Guarded (k a)) -> Guarded (m ≫= k).
Proof.
  intros Hm Hk e s r s' d0 Hrun Hs. unfold mbind, Go_bind in Hrun.
  destruct (m e s) as [[a|err] s1] eqn:H1; pose proof (Hm _ _ _ _ d0 H1 Hs) as [Hs1 Hn].
  - pose proof (Hk a e s1 r s' d0 Hrun Hs1) as Hk1. destruct r; [|done].
    destruct Hk1 as [? ->]. done.
  - by injection Hrun as <- <-.
Qed.

Lemma rollback_run {A} err e s :
  exists err' s', @rollback A err e s = (Err err', s') /\
    st_saved s' = None /\ st_db s' = saved_db s /\
    (env_fault e (st_tick s) = None -> err' = err).
Proof.
  unfold rollback, attempt, Rollback, mbind, Go_bind, fail.
  destruct (env_fault e (st_tick s)); simpl; eauto 10. by do 2 eexists.
Qed.

#[export] Instance guarded_or_rollback {A} f (m : Go A) : InTx m -> Guarded (or_rollback f m).
Proof.
  intros Hm e s r s' d0 Hrun Hs. unfold or_rollback, attempt, mbind, Go_bind in Hrun.
  destruct (m e s) as [[a|err] s1] eqn:H1; apply Hm in H1 as [Hs1 Hn]; simpl in Hrun.
  - injection Hrun as <- <-. by rewrite Hs1.
  - destruct (@rollback_run A (f err) e s1) as (err' & s2 & Hrb & Hs2 & Hdb & _).
    rewrite Hrb in Hrun. injection Hrun as <- <-. split; [done|].
    rewrite Hdb. unfold saved_db. by rewrite Hs1, Hs.
Qed.

Lemma or_rollback_Ok {A} f (m : Go A) e s a s' :
  or_rollback f m e s = (Ok a, s') -> m e s = (Ok a, s').
Proof.
  unfold or_rollback, attempt, mbind, Go_bind.
  destruct (m e s) as [[a1|err] s1]; simpl; [done|].
  destruct (@rollback_run A (f err) e s1) as (err' & s2 & Hrb & _).
  rewrite Hrb. naive_solver.
Qed.

(** ** Opening and closing *)

Lemma SetContext_Ok e s u s' :
  SetContext e s = (Ok u, s') ->
  st_db s' = st_db s /\ st_saved s' = st_saved s /\ st_now s' = st_now s.
Proof. unfold SetContext. intros (_ & d & [= _ <-] & ->)%exec_Ok. done. Qed.

Lemma Commit_Ok e s u s' :
  Commit e s = (Ok u, s') -> st_db s' = st_db s /\ st_saved s' = None.
Proof. unfold Commit. case_match; [done|]. by intros [= <- <-]. Qed.

(** A failed commit either changed nothing or was applied by the server. *)
Lemma Commit_Err e s err s' d0 :
  Commit e s = (Err err, s') -> st_saved s = Some d0 ->
  st_saved s' = None /\
  (st_db s' = d0 \/
   (exists f, env_fault e (st_tick s) = Some f /\ fault_applied f = true) /\ st_db s' = st_db s).
Proof.
  unfold Commit, saved_db. intros H Hs. rewrite Hs in H.
  destruct (env_fault e (st_tick s)) as [f|]; [|done]. injection H as <- <-. simpl.
  destruct (fault_applied f) eqn:Hf; eauto 10.
Qed.

Lemma guarded_Err {A} (m : Go A) e s err s' d0 :
  Guarded m -> m e s = (Err err, s') -> st_saved s = Some d0 -> st_db s' = d0.
Proof. intros Hm H Hs. by destruct (Hm _ _ _ _ _ H Hs). Qed.

(** Outcomes of a transaction around [body]: it committed, or nothing changed,
    or it committed and the caller was told otherwise. *)
Definition lost_commit (e : Env) : Prop :=
  exists t f, env_fault e t = Some f /\ fault_applied f = true.

(** One call of an open transaction: it fails and nothing has changed, or the
    rest of the transaction runs. *)
Lemma guarded_step {A B} (m : Go A) (k : A -> Go B) e s r s' d0 :
  Guarded m -> (m ≫= k) e s = (r, s') -> st_saved s = Some d0 ->
  (exists err, r = Err err /\ st_db s' = d0) \/
  (exists a s1, m e s = (Ok a, s1) /\ st_saved s1 = Some d0 /\ st_now s1 = st_now s /\
     k a e s1 = (r, s')).
Proof.
  intros Hm H Hs. unfold mbind, Go_bind in H.
  destruct (m e s) as [[a|err] s1] eqn:H1; pose proof (Hm _ _ _ _ _ H1 Hs) as [Hs1 Hn].
  - right. eauto 10.
  - left. injection H as <- <-. eauto.
Qed.

Lemma begin_step {A} f (k : unit -> Go A) e s r s' :
  (map_err f BeginTx ≫= k) e s = (r, s') ->
  (exists err, r = Err err /\ st_db s' = st_db s) \/
  (exists s1, st_db s1 = st_db s /\ st_saved s1 = Some (st_db s) /\
     st_now s1 = pg_time (env_pgclock e (st_tick s)) /\ k tt e s1 = (r, s')).
Proof.
  unfold mbind, Go_bind, map_err, BeginTx. destruct (env_fault e (st_tick s)).
  - intros [= <- <-]. left. eauto.
  - intros H. right. eexists. split_and!; [..|exact H]; done.
Qed.

Lemma commit_step {A} f (a : A) e s r s' d0 :
  (map_err f Commit ;; mret a) e s = (r, s') -> st_saved s = Some d0 ->
  (exists err, r = Err err /\ st_db s' = d0) \/
  (st_db s' = st_db s /\ (r = Ok a \/ (exists err, r = Err err) /\ lost_commit e)).
Proof.
  intros H Hs. unfold mbind, Go_bind, map_err, mret, Go_ret in H.
  destruct (Commit e s) as [[[]|err] s1] eqn:Hc; injection H as <- <-.
  - apply Commit_Ok in Hc as [-> _]. eauto.
  - destruct (Commit_Err _ _ _ _ _ Hc Hs) as [_ [->|[(t & ? & ?) ->]]]; [by eauto|].
    right. unfold lost_commit. eauto 10.
Qed.

Lemma context_step {A} f (k : unit -> Go A) e s r s' d0 :
  (or_rollback f SetContext ≫= k) e s = (r, s') -> st_saved s = Some d0 -> st_db s = d0 ->
  (exists err, r = Err err /\ st_db s' = d0) \/
  (exists s1, st_db s1 = d0 /\ st_saved s1 = Some d0 /\ st_now s1 = st_now s /\
     k tt e s1 = (r, s')).
Proof.
  intros H Hs Hd. apply (guarded_step _ _ _ _ _ _ d0) in H as [?|([] & s1 & H1 & ? & ? & H)];
    [by left| |apply _|done].
  apply or_rollback_Ok, SetContext_Ok in H1 as (Hdb & _). right. exists s1. by rewrite Hdb.
Qed.

(** A transaction that commits the effect of [fn], from its snapshot. *)
Definition committed {A} (fn : Go A) (e : Env) (d : Db) (a : A) (d' : Db) : Prop :=
  exists s1 s2, st_db s1 = d /\ (exists t, st_now s1 = pg_time (env_pgclock e t)) /\
    fn e s1 = (Ok a, s2) /\ st_db s2 = d'.

Lemma contextTx_inv {A} b c k (fn : Go A) e s r s' :
  InTx fn -> contextTx b c k fn e s = (r, s') ->
  (exists err, r = Err err /\ st_db s' = st_db s) \/
  (exists a, committed fn e (st_db s) a (st_db s') /\
     (r = Ok a \/ (exists err, r = Err err) /\ lost_commit e)).
Proof.
  intros Hfn H. unfold contextTx in H.
  apply begin_step in H as [?|(s0 & Hd0 & Hs0 & Hn0 & H)]; [by left|].
  apply (context_step _ _ _ _ _ _ (st_db s)) in H as [?|(s1 & Hd1 & Hs1 & Hn1 & H)];
    [by left| |done|done].
  apply (guarded_step _ _ _ _ _ _ (st_db s)) in H as [?|(a & s2 & Ha & Hs2 & _ & H)];
    [by left| |apply _|done].
  apply or_rollback_Ok in Ha.
  apply (commit_step _ _ _ _ _ _ (st_db s)) in H as [?|[Hdb Hr]]; [by left| |done].
  right. exists a. split; [|done]. exists s1, s2. rewrite Hn1, Hn0. eauto 10.
Qed.

Lemma inTenantTx_inv {A} (fn : Go A) e s r s' :
  InTx fn -> inTenantTx fn e s = (r, s') ->
  (exists err, r = Err err /\ st_db s' = st_db s) \/
  (exists a, committed fn e (st_db s) a (st_db s') /\
     (r = Ok a \/ (exists err, r = Err err) /\ lost_commit e)).
Proof. apply contextTx_inv. Qed.

Lemma inTx_inv {A} (fn : Go A) e s r s' :
  InTx fn -> inTx fn e s = (r, s') ->
  (exists err, r = Err err /\ st_db s' = st_db s) \/
  (exists a, committed fn e (st_db s) a (st_db s') /\
     (r = Ok a \/ (exists err, r = Err err) /\ lost_commit e)).
Proof.
  intros Hfn H. unfold inTx in H.
  apply begin_step in H as [?|(s0 & Hd0 & Hs0 & Hn0 & H)]; [by left|].
  apply (guarded_step _ _ _ _ _ _ (st_db s)) in H as [?|(a & s2 & Ha & Hs2 & _ & H)];
    [by left| |apply _|done].
  apply or_rollback_Ok in Ha.
  apply (commit_step _ _ _ _ _ _ (st_db s)) in H as [?|[Hdb Hr]]; [by left| |done].
  right. exists a. split; [|done]. exists s0, s2. eauto 10.
Qed.

(** A transaction that returned its value has committed it. *)
Lemma inTx_Ok {A} (fn : Go A) e s a s' :
  InTx fn -> inTx fn e s = (Ok a, s') -> committed fn e (st_db s) a (st_db s').
Proof. intros Hfn [(err & [=] & _)|(b & Hc & [[= ->]|[(err & [=]) _]])]%inTx_inv; done. Qed.

(** The context a transaction sets before its body. *)
Lemma committed_context {A} f (fn : Go A) e d a d' :
  committed (map_err f SetContext ;; fn) e d a d' -> committed fn e d a d'.
Proof.
  intros (s1 & s2 & Hd & Ht & Hrun & Hd'). apply bind_Ok in Hrun as ([] & s3 & H1 & Hrun).
  apply map_err_Ok, SetContext_Ok in H1 as (Hdb & _ & Hn).
  exists s3, s2. rewrite Hdb, Hn. done.
Qed.

(** Show that a body only runs statements, unfolding the operations it calls. *)
Ltac solve_intx :=
    lazymatch goal with
    | |- forall _, _ => intros ?; solve_intx
    | |- InTx ?m =>
        lazymatch m with
        | mbind _ _ => apply in_tx_bind; solve_intx
        | map_err _ _ => apply in_tx_map_err; solve_intx
        | attempt _ => apply in_tx_attempt; solve_intx
        | match ?x with _ => _ end => destruct x; solve_intx
        | for_each _ _ => apply in_tx_for_each; solve_intx
        | mapM _ _ => apply in_tx_mapM; solve_intx
        | _ => first [ solve [typeclasses eauto]
                     | unfold_head m; cbv beta zeta; solve_intx ]
        end
    end
  with unfold_head m :=
    lazymatch m with
    | ?f _ => unfold_head f
    | ?f => progress unfold f
    end.
