(* ===== verification/Steps.v ===== *)
(** Relations between the database before and after a computation.  [Keeps R m]
    says that whatever [m] does - its statements, a rollback to the snapshot of an
    open transaction, a commit that fails on the way - relates the database it
    found to the one it leaves.  A preorder that every statement of a component
    respects is respected by all its operations, and by every history of them;
    [solve_keeps] walks through an operation's text to show it. *)

From S2P Require Import Prelude Json Schema GoTx Store TxFacts.

Section Keeps.
Context (R : Db -> Db -> Prop).

(** The databases a state can come back to are related to [d0]. *)
Definition keeps_st (d0 : Db) (s : St) : Prop :=
  R d0 (st_db s) /\ forall d, st_saved s = Some d -> R d0 d.

Definition Keeps {A} (m : Go A) : Prop :=
  forall d0 e s r s', m e s = (r, s') -> keeps_st d0 s -> keeps_st d0 s'.

Definition StmtKeeps {A} (q : Stmt A) : Prop :=
  forall now u d a d', q now u d = Ok (a, d') -> R d d'.

Context `{PreOrder Db R}.

Lemma keeps_ret {A} (a : A) : Keeps (mret a).
Proof. by intros d0 e s r s' [= <- <-]. Qed.

Lemma keeps_fail {A} err : Keeps (@fail A err).
Proof. by intros d0 e s r s' [= <- <-]. Qed.

Lemma keeps_lift {A} (r0 : result error A) : Keeps (lift r0).
Proof. by intros d0 e s r s' [= <- <-]. Qed.

Lemma keeps_bind {A B} (m : Go A) (k : A -> Go B) :
  Keeps m -> (forall a, Keeps (k a)) -> Keeps (m ≫= k).
Proof.
  intros Hm Hk d0 e s r s' Hrun Hs. unfold mbind, Go_bind in Hrun.
  destruct (m e s) as [[a|err] s1] eqn:H1; pose proof (Hm _ _ _ _ _ H1 Hs) as Hs1.
  - by apply (Hk a _ _ _ _ _ Hrun).
  - by injection Hrun as <- <-.
Qed.

Lemma keeps_map_err {A} f (m : Go A) : Keeps m -> Keeps (map_err f m).
Proof.
  intros Hm d0 e s r s' Hrun Hs. unfold map_err in Hrun.
  destruct (m e s) as [[a|err] s1] eqn:H1; injection Hrun as <- <-; by apply (Hm _ _ _ _ _ H1).
Qed.

Lemma keeps_attempt {A} (m : Go A) : Keeps m -> Keeps (attempt m).
Proof.
  intros Hm d0 e s r s' Hrun Hs. unfold attempt in Hrun.
  destruct (m e s) as [r1 s1] eqn:H1. injection Hrun as <- <-. by apply (Hm _ _ _ _ _ H1).
Qed.

Lemma keeps_guard_err b err : Keeps (guard_err b err).
Proof. unfold guard_err. destruct b; [apply keeps_fail|apply keeps_ret]. Qed.

Lemma keeps_for_each {A} (l : list A) (f : A -> Go unit) :
  (forall a, Keeps (f a)) -> Keeps (for_each l f).
Proof.
  intros Hf. induction l as [|a l IH]; simpl; [apply keeps_ret|].
  apply keeps_bind; [apply Hf|]. by intros _.
Qed.

Lemma keeps_mapM {A B} (f : A -> Go B) (l : list A) : (forall a, Keeps (f a)) -> Keeps (mapM f l).
Proof.
  intros Hf. induction l as [|a l IH]; simpl; [apply keeps_ret|].
  apply keeps_bind; [apply Hf|]. intros b. apply keeps_bind; [exact IH|]. intros bs. apply keeps_ret.
Qed.

Lemma keeps_exec {A} (q : Stmt A) : StmtKeeps q -> Keeps (exec q).
Proof.
  intros Hq d0 e s r s' Hrun [Hdb Hsv]. unfold exec in Hrun.
  destruct (env_fault e (st_tick s)); [by injection Hrun as <- <-|].
  destruct (q _ _ _) as [[a d]|err] eqn:Hr; injection Hrun as <- <-; [|done].
  split; [|done]. simpl. etrans; [exact Hdb|]. by eapply Hq.
Qed.

Lemma keeps_time_Now : Keeps time_Now.
Proof. by intros d0 e s r s' [= <- <-]. Qed.
Lemma keeps_uuid_New : Keeps uuid_New.
Proof. by intros d0 e s r s' [= <- <-]. Qed.
Lemma keeps_traceContext : Keeps traceContext.
Proof. by intros d0 e s r s' [= <- <-]. Qed.
Lemma keeps_rand_Read n : Keeps (rand_Read n).
Proof. intros d0 e s r s' Hr. unfold rand_Read in Hr. case_match; by injection Hr as <- <-. Qed.

Lemma keeps_BeginTx : Keeps BeginTx.
Proof.
  intros d0 e s r s' Hr [Hdb Hsv]. unfold BeginTx in Hr.
  case_match; injection Hr as <- <-; [done|]. split; [done|]. by intros d [= <-].
Qed.

Lemma keeps_saved d0 s : keeps_st d0 s -> R d0 (saved_db s).
Proof. intros [Hdb Hsv]. unfold saved_db. destruct (st_saved s); auto. Qed.

Lemma keeps_Commit : Keeps Commit.
Proof.
  intros d0 e s r s' Hr Hs. pose proof (keeps_saved _ _ Hs). destruct Hs as [Hdb Hsv].
  unfold Commit in Hr. case_match; injection Hr as <- <-; split; simpl; try done.
  by case_match.
Qed.

Lemma keeps_Rollback : Keeps Rollback.
Proof.
  intros d0 e s r s' Hr Hs%keeps_saved. unfold Rollback in Hr.
  case_match; injection Hr as <- <-; by split.
Qed.

Lemma keeps_rollback {A} err : Keeps (@rollback A err).
Proof.
  unfold rollback. apply keeps_bind; [apply keeps_attempt, keeps_Rollback|].
  intros [|]; apply keeps_fail.
Qed.

Lemma keeps_or_rollback {A} f (m : Go A) : Keeps m -> Keeps (or_rollback f m).
Proof.
  intros Hm. unfold or_rollback. apply keeps_bind; [by apply keeps_attempt|].
  intros [a|err]; [apply keeps_ret|apply keeps_rollback].
Qed.

Lemma keeps_SetContext : Keeps SetContext.
Proof. apply keeps_exec. intros now u d a d' [= _ <-]. done. Qed.

(** What a run leaves. *)
Lemma keeps_run {A} (m : Go A) e d r d' : Keeps m -> run m e d = (r, d') -> R d d'.
Proof.
  unfold run. intros Hm Hr. destruct (m e (start d)) as [r1 s1] eqn:H1. injection Hr as <- <-.
  assert (keeps_st d s1) as [Hdb _]; [|done].
  apply (Hm d _ _ _ _ H1). by split.
Qed.

(** The same for the body of a transaction, which only runs statements. *)
Definition BodyKeeps {A} (m : Go A) : Prop :=
  forall e s r s', m e s = (r, s') -> R (st_db s) (st_db s').

Lemma body_ret {A} (a : A) : BodyKeeps (mret a).
Proof. by intros e s r s' [= <- <-]. Qed.
Lemma body_fail {A} err : BodyKeeps (@fail A err).
Proof. by intros e s r s' [= <- <-]. Qed.
Lemma body_lift {A} (r0 : result error A) : BodyKeeps (lift r0).
Proof. by intros e s r s' [= <- <-]. Qed.
Lemma body_guard_err b err : BodyKeeps (guard_err b err).
Proof. unfold guard_err. destruct b; [apply body_fail|apply body_ret]. Qed.
Lemma body_time_Now : BodyKeeps time_Now.
Proof. by intros e s r s' [= <- <-]. Qed.
Lemma body_uuid_New : BodyKeeps uuid_New.
Proof. by intros e s r s' [= <- <-]. Qed.

Lemma body_bind {A B} (m : Go A) (k : A -> Go B) :
  BodyKeeps m -> (forall a, BodyKeeps (k a)) -> BodyKeeps (m ≫= k).
Proof.
  intros Hm Hk e s r s' Hrun. unfold mbind, Go_bind in Hrun.
  destruct (m e s) as [[a|err] s1] eqn:H1.
  - etrans; [by eapply Hm|by eapply Hk].
  - injection Hrun as <- <-. by eapply Hm.
Qed.

Lemma body_map_err {A} f (m : Go A) : BodyKeeps m -> BodyKeeps (map_err f m).
Proof.
  intros Hm e s r s' Hrun. unfold map_err in Hrun.
  destruct (m e s) as [[a|err] s1] eqn:H1; injection Hrun as <- <-; by eapply Hm.
Qed.

Lemma body_attempt {A} (m : Go A) : BodyKeeps m -> BodyKeeps (attempt m).
Proof.
  intros Hm e s r s' Hrun. unfold attempt in Hrun.
  destruct (m e s) as [r1 s1] eqn:H1. injection Hrun as <- <-. by eapply Hm.
Qed.

Lemma body_exec {A} (q : Stmt A) : StmtKeeps q -> BodyKeeps (exec q).
Proof.
  intros Hq e s r s' Hrun. unfold exec in Hrun. destruct (env_fault e (st_tick s)).
  { by injection Hrun as <- <-. }
  destruct (q _ _ _) as [[a d]|err] eqn:Hr; injection Hrun as <- <-; [|done]. by eapply Hq.
Qed.

Lemma body_mapM {A B} (f : A -> Go B) l : (forall a, BodyKeeps (f a)) -> BodyKeeps (mapM f l).
Proof.
  intros Hf. induction l as [|a l IH]; simpl; [apply body_ret|].
  apply body_bind; [apply Hf|]. intros b. apply body_bind; [exact IH|]. intros bs. apply body_ret.
Qed.

Lemma body_for_each {A} (l : list A) (f : A -> Go unit) :
  (forall a, BodyKeeps (f a)) -> BodyKeeps (for_each l f).
Proof.
  intros Hf. induction l as [|a l IH]; simpl; [apply body_ret|].
  apply body_bind; [apply Hf|]. by intros _.
Qed.

(** The same when the body succeeds: a transaction commits nothing else. *)
Definition OkKeeps {A} (m : Go A) : Prop :=
  forall e s a s', m e s = (Ok a, s') -> R (st_db s) (st_db s').

Lemma ok_body {A} (m : Go A) : BodyKeeps m -> OkKeeps m.
Proof. intros Hm e s a s' Hrun. by eapply Hm. Qed.

Lemma ok_bind {A B} (m : Go A) (k : A -> Go B) :
  OkKeeps m -> (forall a, OkKeeps (k a)) -> OkKeeps (m ≫= k).
Proof.
  intros Hm Hk e s b s' (a & s1 & H1 & H2)%bind_Ok. etrans; [by eapply Hm|by eapply Hk].
Qed.

Lemma ok_map_err {A} f (m : Go A) : OkKeeps m -> OkKeeps (map_err f m).
Proof. intros Hm e s a s' Hok%map_err_Ok. by eapply Hm. Qed.

Lemma ok_mapM {A B} (f : A -> Go B) l : (forall a, OkKeeps (f a)) -> OkKeeps (mapM f l).
Proof.
  intros Hf. induction l as [|a l IH]; simpl; [apply ok_body, body_ret|].
  apply ok_bind; [apply Hf|]. intros b. apply ok_bind; [exact IH|]. intros bs. apply ok_body, body_ret.
Qed.

(** A whole transaction, when its committed body respects the relation. *)
Lemma body_inTx {A} (fn : Go A) : InTx fn -> OkKeeps fn -> BodyKeeps (inTx fn).
Proof.
  intros Hin Hfn e s r s' Hrun.
  apply inTx_inv in Hrun as [(err & _ & ->)|(a & (s1 & s2 & <- & _ & Hb & <-) & _)]; [done| |done].
  by eapply Hfn.
Qed.

Lemma body_contextTx {A} b c k (fn : Go A) : InTx fn -> OkKeeps fn -> BodyKeeps (contextTx b c k fn).
Proof.
  intros Hin Hfn e s r s' Hrun.
  apply contextTx_inv in Hrun as [(err & _ & ->)|(a & (s1 & s2 & <- & _ & Hb & <-) & _)]; [done| |done].
  by eapply Hfn.
Qed.

Lemma body_inTenantTx {A} (fn : Go A) : InTx fn -> OkKeeps fn -> BodyKeeps (inTenantTx fn).
Proof. apply body_contextTx. Qed.

Lemma body_run {A} (m : Go A) e d r d' : BodyKeeps m -> run m e d = (r, d') -> R d d'.
Proof.
  unfold run. intros Hm Hr. destruct (m e (start d)) as [r1 s1] eqn:H1. injection Hr as <- <-.
  by apply Hm in H1.
Qed.
End Keeps.

(** ** What a successful computation did *)

(** A computation that changes nothing. *)
Definition quiet {A} (m : Go A) : Prop := BodyKeeps eq m.

Definition Ends {A} (P : A -> Db -> Db -> Prop) (m : Go A) : Prop :=
  forall e s a s', m e s = (Ok a, s') -> P a (st_db s) (st_db s').

Lemma run_Ok {A} (m : Go A) e d a d' :
  run m e d = (Ok a, d') -> exists s', m e (start d) = (Ok a, s') /\ st_db s' = d'.
Proof. unfold run. destruct (m e (start d)) as [r s'] eqn:H. intros [= -> <-]. eauto. Qed.

Section Ends.
Context {A : Type} (P : A -> Db -> Db -> Prop).

Lemma ends_run (m : Go A) e d a d' : Ends P m -> run m e d = (Ok a, d') -> P a d d'.
Proof. intros Hm (s' & H & <-)%run_Ok. by apply Hm in H. Qed.

Lemma ends_quiet_then {B} (m : Go B) (k : B -> Go A) :
  quiet m -> (forall b, Ends P (k b)) -> Ends P (m ≫= k).
Proof.
  intros Hm Hk e s b s' (a & s1 & H1 & H)%bind_Ok. apply Hm in H1. rewrite H1. by eapply Hk.
Qed.

Lemma ends_lift_then {B} (r : result error B) (k : B -> Go A) :
  (forall b, r = Ok b -> Ends P (k b)) -> Ends P (lift r ≫= k).
Proof.
  intros Hk e s a s' (b & s1 & H1 & H)%bind_Ok. unfold lift in H1. injection H1 as -> <-. by eapply Hk.
Qed.

Lemma ends_guard_then b err (k : unit -> Go A) :
  (b = false -> Ends P (k tt)) -> Ends P (guard_err b err ≫= k).
Proof. intros Hk e s a s' ([] & s1 & (Hb & -> & _)%guard_err_Ok & H)%bind_Ok. by eapply Hk. Qed.

Lemma ends_map_err f (m : Go A) : Ends P m -> Ends P (map_err f m).
Proof. intros Hm e s a s' H%map_err_Ok. by eapply Hm. Qed.

Lemma ends_tx (fn : Go A) : InTx fn -> Ends P fn -> Ends P (inTx fn).
Proof.
  intros Hin Hfn e s a s' (s1 & s2 & <- & _ & Hb & <-)%inTx_Ok; [|done]. by eapply Hfn.
Qed.

Lemma ends_context_tx b c k (fn : Go A) : InTx fn -> Ends P fn -> Ends P (contextTx b c k fn).
Proof.
  intros Hin Hfn e s a s' [(err & [=] & _)|(v & (s1 & s2 & <- & _ & Hb & <-) & Hr)]%contextTx_inv; [|done].
  destruct Hr as [[= ->]|[(err & [=]) _]]. by eapply Hfn.
Qed.

Lemma ends_tenant_tx (fn : Go A) : InTx fn -> Ends P fn -> Ends P (inTenantTx fn).
Proof. apply ends_context_tx. Qed.
End Ends.

(** ** Statements *)

(** Read a successful statement backwards, down to the tables it writes. *)
Ltac stmt_invert H :=
    lazymatch type of H with
    | select_one _ _ _ _ _ _ = Ok _ => apply select_one_Ok in H as (? & ? & H); subst
    | select_first _ _ _ _ _ _ = Ok _ => apply select_first_Ok in H as (H & ? & ? & ?); subst
    | update_row _ _ _ _ _ _ _ _ _ = Ok _ => apply update_row_Ok in H as (? & ? & ? & ? & ? & H); subst
    | update_exec _ _ _ _ _ _ _ _ _ = Ok _ =>
        apply update_exec_Ok in H as [[H ?]|(? & ? & ? & ? & ? & ? & H)]; subst
    | insert_row _ _ _ _ _ _ _ _ _ = Ok _ => apply insert_row_Ok in H as (? & ? & ? & H); subst
    | res_bind _ _ = Ok _ =>
        let H1 := fresh "Hstmt" in
        apply res_bind_Ok in H as (? & H1 & H); stmt_invert_pair H1; stmt_invert H
    | Ok _ = Ok _ => injection H as ? ?; subst
    | Err _ = Ok _ => discriminate H
    | ?t = Ok _ =>
        lazymatch t with
        | match ?x with _ => _ end => destruct x eqn:?; try discriminate H; stmt_invert H
        | _ => let h := get_head t in progress unfold h in H; cbv beta zeta in H; stmt_invert H
        end
    | _ => idtac
    end
  with stmt_invert_pair H :=
    lazymatch type of H with
    | _ = Ok ?p =>
        lazymatch type of p with
        | prod _ _ => destruct p; cbn [fst snd] in *; stmt_invert H
        | unit => idtac
        | _ => idtac
        end
    end
  with get_head t :=
    lazymatch t with
    | ?f _ => get_head f
    | ?f => f
    end.

(** Statement-level facts about a relation, and computations already known to
    respect it. *)
Create HintDb keeps.

Ltac solve_stmt :=
  let H := fresh "Hq" in
  intros ?now ?u ?d ?a ?d' H; cbv beta zeta in H; stmt_invert H;
  try reflexivity; cbn [fst snd] in *; eauto with keeps.

Ltac solve_keeps :=
  lazymatch goal with
  | |- forall _, _ => intros ?; solve_keeps
  | |- Keeps _ ?m =>
      first
      [ solve [eauto 2 with keeps]
      | lazymatch m with
        | mret _ => apply keeps_ret
        | fail _ => apply keeps_fail
        | lift _ => apply keeps_lift
        | guard_err _ _ => apply keeps_guard_err
        | map_err _ _ => apply keeps_map_err; solve_keeps
        | attempt _ => apply keeps_attempt; solve_keeps
        | or_rollback _ _ => apply keeps_or_rollback; solve_keeps
        | rollback _ => apply keeps_rollback
        | for_each _ _ => apply keeps_for_each; solve_keeps
        | mapM _ _ => refine (keeps_mapM _ _ _ _); solve_keeps
        | exec _ => refine (keeps_exec _ _ _); solve_stmt
        | time_Now => apply keeps_time_Now
        | uuid_New => apply keeps_uuid_New
        | traceContext => apply keeps_traceContext
        | rand_Read _ => apply keeps_rand_Read
        | BeginTx => apply keeps_BeginTx
        | Commit => apply keeps_Commit
        | Rollback => apply keeps_Rollback
        | SetContext => refine (keeps_SetContext _)
        | mbind _ _ => apply keeps_bind; solve_keeps
        | (fun _ => _) => idtac
        | match ?x with _ => _ end => destruct x; solve_keeps
        | (let '_ := ?x in _) => destruct x; solve_keeps
        | _ => let h := get_head m in progress unfold h; cbv beta zeta; solve_keeps
        end ]
  | |- _ => idtac
  end.

Ltac solve_body :=
  lazymatch goal with
  | |- forall _, _ => intros ?; solve_body
  | |- BodyKeeps _ ?m =>
      first
      [ solve [eauto 2 with keeps]
      | lazymatch m with
        | mret _ => refine (body_ret _ _)
        | fail _ => refine (body_fail _ _)
        | lift _ => refine (body_lift _ _)
        | guard_err _ _ => refine (body_guard_err _ _ _)
        | time_Now => refine (body_time_Now _)
        | uuid_New => refine (body_uuid_New _)
        | map_err _ _ => apply body_map_err; solve_body
        | attempt _ => apply body_attempt; solve_body
        | exec _ => refine (body_exec _ _ _); solve_stmt
        | mapM _ _ => refine (body_mapM _ _ _ _); solve_body
        | for_each _ _ => refine (body_for_each _ _ _ _); solve_body
        | mbind _ _ => refine (body_bind _ _ _ _ _); solve_body
        | match ?x with _ => _ end => destruct x; solve_body
        | _ => let h := get_head m in progress unfold h; cbv beta zeta; solve_body
        end ]
  | |- _ => idtac
  end.

(** Successful bodies: a hint for the steps that only the success of the whole
    justifies, and [solve_body] for the rest. *)
Ltac solve_ok :=
  lazymatch goal with
  | |- forall _, _ => intros ?; solve_ok
  | |- OkKeeps _ ?m =>
      first
      [ solve [eauto 2 with keeps]
      | lazymatch m with
        | mbind _ _ => refine (ok_bind _ _ _ _ _); solve_ok
        | map_err _ _ => apply ok_map_err; solve_ok
        | mapM _ _ => refine (ok_mapM _ _ _ _); solve_ok
        | match ?x with _ => _ end => destruct x; solve_ok
        end
      | apply ok_body; solve [solve_body]
      | let h := get_head m in progress unfold h; cbv beta zeta; solve_ok ]
  | |- _ => idtac
  end.

(** Whole operations, transaction by transaction. *)
Ltac solve_op :=
  lazymatch goal with
  | |- forall _, _ => intros ?; solve_op
  | |- BodyKeeps _ (inTx _) => refine (body_inTx _ _ _ _); first [solve [solve_intx] | solve_ok]
  | |- BodyKeeps _ (inTenantTx _) => refine (body_inTenantTx _ _ _ _); first [solve [solve_intx] | solve_ok]
  | |- BodyKeeps _ (contextTx _ _ _ _) => refine (body_contextTx _ _ _ _ _ _ _); first [solve [solve_intx] | solve_ok]
  | |- BodyKeeps _ ?m =>
      first
      [ solve [eauto 2 with keeps]
      | lazymatch m with
        | mbind _ _ => refine (body_bind _ _ _ _ _); solve_op
        | map_err _ _ => apply body_map_err; solve_op
        | attempt _ => apply body_attempt; solve_op
        | uuid_New => refine (body_uuid_New _)
        | fail _ => refine (body_fail _ _)
        | mret _ => refine (body_ret _ _)
        | lift _ => refine (body_lift _ _)
        | guard_err _ _ => refine (body_guard_err _ _ _)
        | match ?x with _ => _ end => destruct x; solve_op
        | _ => let h := get_head m in progress unfold h; cbv beta zeta; solve_op
        end ]
  end.

(** ** Requests that are refused *)

(** A computation that, from the database [d], only fails, and changes nothing. *)
Definition refused {A} (d : Db) (m : Go A) : Prop :=
  forall e s r s', st_db s = d -> m e s = (r, s') -> is_ok r = false /\ st_db s' = d.

Lemma refused_first {A B} d (m : Go A) (k : A -> Go B) : refused d m -> refused d (m ≫= k).
Proof.
  intros Hm e s r s' Hs H. unfold mbind, Go_bind in H. destruct (m e s) as [[a|err] s1] eqn:H1.
  - by destruct (Hm _ _ _ _ Hs H1).
  - injection H as <- <-. by destruct (Hm _ _ _ _ Hs H1).
Qed.

Lemma refused_then {A B} d (m : Go A) (k : A -> Go B) :
  quiet m -> (forall a, refused d (k a)) -> refused d (m ≫= k).
Proof.
  intros Hm Hk e s r s' Hs H. unfold mbind, Go_bind in H. destruct (m e s) as [[a|err] s1] eqn:H1;
  apply Hm in H1; [by apply (Hk a e s1); congruence|]. injection H as <- <-. split; [done|congruence].
Qed.

Lemma refused_map_err {A} d f (m : Go A) : refused d m -> refused d (map_err f m).
Proof.
  intros Hm e s r s' Hs H. unfold map_err in H. destruct (m e s) as [[a|err] s1] eqn:H1;
  destruct (Hm _ _ _ _ Hs H1); [done|by injection H as <- <-].
Qed.

Lemma refused_tx {A} d msg (fn : Go A) :
  InTx fn -> (forall e s a s', st_db s = d -> fn e s = (Ok a, s') -> False) ->
  refused d (inTx (map_err (Wrap msg) SetContext ;; fn)).
Proof.
  intros Hin Hfn e s r s' Hs H.
  apply inTx_inv in H as [(err & -> & ->)|(a & Hc & _)]; [done| |solve_intx].
  exfalso. apply committed_context in Hc as (s1 & s2 & Hd & _ & Hb & _). eapply Hfn; [|exact Hb]. congruence.
Qed.

Lemma refused_tenant_tx {A} d (fn : Go A) :
  InTx fn -> (forall e s a s', st_db s = d -> fn e s = (Ok a, s') -> False) ->
  refused d (GoTx.inTenantTx fn).
Proof.
  intros Hin Hfn e s r s' Hs H.
  apply inTenantTx_inv in H as [(err & -> & ->)|(a & (s1 & s2 & Hd & _ & Hb & _) & _)]; [done| |done].
  exfalso. eapply Hfn; [|exact Hb]. congruence.
Qed.

(** Walk to the transaction, whose first step checks the permission. *)
Ltac refuse_tenant :=
  lazymatch goal with
  | |- forall _, _ => intros ?; refuse_tenant
  | |- refused _ (GoTx.inTenantTx _) =>
      apply refused_tenant_tx; [solve_intx|intros ?e0 ?s0 ?a0 ?s1 ?Hs ?H]
  | |- refused _ ?m =>
      lazymatch m with
      | mbind _ _ =>
          first [ apply refused_then; [unfold quiet; solve [solve_body]|]; refuse_tenant
                | apply refused_first; refuse_tenant ]
      | map_err _ _ => apply refused_map_err; refuse_tenant
      | match ?x with _ => _ end => destruct x; refuse_tenant
      | _ => unfold_head m; cbv beta zeta; refuse_tenant
      end
  end.
