(* ===== verification/LayoutFacts.v ===== *)
(** What the statements on a layout keep: every row satisfies the constraints of
    its table, no row is lost or moves to another tenant, and a row that changes
    gets a greater version. *)

From S2P Require Import Prelude Json Schema GoTx Store Queries Tokens IdentityQueries LayoutQueries Identity Memberships Configuration Onboarding TxFacts Steps.
#[local] Open Scope string_scope.
#[local] Open Scope Z_scope.
#[local] Open Scope list_scope.

(** ** Tables with constraints *)

Section Sound.
Context {A : Type} (key : A -> N) (chk : A -> bool) (clash : A -> A -> bool) (fk : A -> bool).

(** Every row is under its key, passes the row checks and the foreign key, and
    clashes with no other row in a unique index. *)
Record sound (m : gmap N A) : Prop := {
  so_key : forall k r, m !! k = Some r -> key r = k;
  so_chk : forall k r, m !! k = Some r -> chk r = true;
  so_fk : forall k r, m !! k = Some r -> fk r = true;
  so_unique : forall k r j s, m !! k = Some r -> m !! j = Some s -> clash s r = true -> j = k;
}.
End Sound.

Arguments so_key {A key chk clash fk m}.
Arguments so_chk {A key chk clash fk m}.
Arguments so_fk {A key chk clash fk m}.
Arguments so_unique {A key chk clash fk m}.

Lemma sound_fk {A} key chk clash (fk fk' : A -> bool) m :
  (forall r, fk r = true -> fk' r = true) -> sound key chk clash fk m -> sound key chk clash fk' m.
Proof. intros Hfk [H1 H2 H3 H4]. split; eauto. Qed.

Lemma no_other_spec {A} (f : A -> bool) k m :
  no_other f k m = true <-> forall j s, m !! j = Some s -> f s = true -> j = k.
Proof.
  unfold no_other. rewrite negb_true_iff, map_any_false. split.
  - intros H j s Hj Hf. destruct (decide (j = k)) as [|Hne]; [done|].
    specialize (H j s). rewrite lookup_delete_ne in H by done. rewrite (H Hj) in Hf. done.
  - intros H j s Hj. apply lookup_delete_Some in Hj as [Hne Hj].
    apply not_true_iff_false. intros Hf. by apply Hne; symmetry; eapply H.
Qed.

Lemma sound_write {A} key chk clash (fk : A -> bool) m k r :
  (forall x y, clash x y = clash y x) -> sound key chk clash fk m ->
  key r = k -> chk r = true -> no_other (fun s => clash s r) k m = true -> fk r = true ->
  sound key chk clash fk (<[k := r]> m).
Proof.
  intros Hsym [H1 H2 H3 H4] Hk Hc Hno Hfk. rewrite no_other_spec in Hno. split.
  - intros i x [[<- <-]|[_ Hi]]%lookup_insert_Some; eauto.
  - intros i x [[<- <-]|[_ Hi]]%lookup_insert_Some; eauto.
  - intros i x [[<- <-]|[_ Hi]]%lookup_insert_Some; eauto.
  - intros i x j y [[<- <-]|[? Hi]]%lookup_insert_Some [[<- <-]|[? Hj]]%lookup_insert_Some Hcl;
      [done|by eapply Hno| |by eapply H4]. symmetry. eapply Hno; [exact Hi|]. by rewrite Hsym.
Qed.

(** Rows that stay, up to [le]. *)
Definition rows_le {A} (le : A -> A -> Prop) (m m' : gmap N A) : Prop :=
  forall k r, m !! k = Some r -> exists r', m' !! k = Some r' /\ le r r'.

#[export] Instance rows_le_preorder {A} (le : A -> A -> Prop) `{!PreOrder le} : PreOrder (rows_le le).
Proof.
  split; [intros m k r Hk; by exists r|]. intros m1 m2 m3 H1 H2 k r Hk.
  apply H1 in Hk as (r2 & Hk & Hle). apply H2 in Hk as (r3 & Hk & Hle2).
  exists r3. split; [done|]. by etrans.
Qed.

Lemma rows_le_insert {A} (le : A -> A -> Prop) `{!PreOrder le} m k r :
  m !! k = None -> rows_le le m (<[k := r]> m).
Proof.
  intros Hk i x Hi. exists x. split; [|done]. rewrite lookup_insert_ne; [done|]. congruence.
Qed.

Lemma rows_le_update {A} (le : A -> A -> Prop) `{!PreOrder le} m k r r' :
  m !! k = Some r -> le r r' -> rows_le le m (<[k := r']> m).
Proof.
  intros Hk Hle i x Hi. destruct (decide (i = k)) as [->|Hne].
  - exists r'. rewrite lookup_insert_eq. split; [done|]. congruence.
  - exists x. by rewrite lookup_insert_ne.
Qed.

(** ** What stays of a row *)

Definition newer {A} (version : A -> Z) (r r' : A) : Prop := r' = r \/ version r < version r'.

Lemma newer_trans {A} (version : A -> Z) x y z : newer version x y -> newer version y z -> newer version x z.
Proof. unfold newer. intros [->|?] [->|?]; [by left|right; lia..]. Qed.

Record location_le (l l' : Location) : Prop := {
  lle_id : loc_ID l' = loc_ID l;
  lle_org : loc_OrganisationID l' = loc_OrganisationID l;
}.
Record floor_le (f f' : Floor) : Prop := {
  fle_id : flr_ID f' = flr_ID f;
  fle_org : flr_OrganisationID f' = flr_OrganisationID f;
  fle_loc : flr_LocationID f' = flr_LocationID f;
  fle_newer : newer flr_Version f f';
}.
Record zone_le (z z' : Zone) : Prop := {
  zle_id : zon_ID z' = zon_ID z;
  zle_org : zon_OrganisationID z' = zon_OrganisationID z;
  zle_loc : zon_LocationID z' = zon_LocationID z;
  zle_floor : zon_FloorID z' = zon_FloorID z;
  zle_newer : newer zon_Version z z';
}.
Record table_le (t t' : Table) : Prop := {
  tle_id : tbl_ID t' = tbl_ID t;
  tle_org : tbl_OrganisationID t' = tbl_OrganisationID t;
  tle_loc : tbl_LocationID t' = tbl_LocationID t;
  tle_newer : newer tbl_Version t t';
}.

#[export] Instance location_le_preorder : PreOrder location_le.
Proof. split; [by split|]. intros x y z [] []. split; congruence. Qed.
#[export] Instance floor_le_preorder : PreOrder floor_le.
Proof.
  split; [split; try done; by left|]. intros x y z [] []. split; [congruence..|]. by eapply newer_trans.
Qed.
#[export] Instance zone_le_preorder : PreOrder zone_le.
Proof.
  split; [split; try done; by left|]. intros x y z [] []. split; [congruence..|]. by eapply newer_trans.
Qed.
#[export] Instance table_le_preorder : PreOrder table_le.
Proof.
  split; [split; try done; by left|]. intros x y z [] []. split; [congruence..|]. by eapply newer_trans.
Qed.

(** ** The invariant of a layout *)

(** The unique indexes. *)
Definition same_org_slug (x y : Organisation) : bool := String.eqb (org_Slug x) (org_Slug y).
Definition same_location_slug (x y : Location) : bool :=
  (loc_OrganisationID x =? loc_OrganisationID y)%N && String.eqb (loc_Slug x) (loc_Slug y).
Definition same_floor_slug (x y : Floor) : bool :=
  (flr_LocationID x =? flr_LocationID y)%N && String.eqb (flr_Slug x) (flr_Slug y).
Definition same_zone_name (x y : Zone) : bool :=
  (zon_FloorID x =? zon_FloorID y)%N && String.eqb (zon_Name x) (zon_Name y).
Definition same_table_label (x y : Table) : bool :=
  (tbl_FloorID x =? tbl_FloorID y)%N && String.eqb (tbl_Label x) (tbl_Label y).
Definition same_period_name (x y : ServicePeriod) : bool :=
  (svp_LocationID x =? svp_LocationID y)%N && String.eqb (svp_Name x) (svp_Name y).

(** Every location is of an organisation, every floor of a location, every zone
    of a floor, every table of a zone on its floor, all of the same tenant. *)
Record layout_inv (d : Db) : Prop := {
  li_organisations : sound org_ID organisation_checks same_org_slug (fun _ => true)
    (db_organisations d);
  li_locations : sound loc_ID location_checks same_location_slug
    (fun l => is_some (db_organisations d !! loc_OrganisationID l)) (db_locations d);
  li_floors : sound flr_ID floor_checks same_floor_slug
    (fun f => location_fk d (flr_OrganisationID f) (flr_LocationID f)) (db_floors d);
  li_zones : sound zon_ID zone_checks same_zone_name
    (fun z => floor_fk d (zon_OrganisationID z) (zon_LocationID z) (zon_FloorID z)) (db_zones d);
  li_tables : sound tbl_ID table_checks same_table_label
    (fun t => zone_fk d (tbl_OrganisationID t) (tbl_LocationID t) (tbl_FloorID t) (tbl_ZoneID t))
    (db_tables d);
  li_periods : sound svp_ID period_checks same_period_name
    (fun p => location_fk d (svp_OrganisationID p) (svp_LocationID p)) (db_periods d);
}.

(** No row is lost or changes its tenant, and versions grow. *)
Record layout_le (d d' : Db) : Prop := {
  ly_organisations : rows_le (fun _ _ => True) (db_organisations d) (db_organisations d');
  ly_locations : rows_le location_le (db_locations d) (db_locations d');
  ly_floors : rows_le floor_le (db_floors d) (db_floors d');
  ly_zones : rows_le zone_le (db_zones d) (db_zones d');
  ly_tables : rows_le table_le (db_tables d) (db_tables d');
}.

#[export] Instance true_preorder {A} : PreOrder (fun _ _ : A => True).
Proof. by split. Qed.

#[export] Instance layout_le_preorder : PreOrder layout_le.
Proof. split; [by split|]. intros x y z [] []. split; by etrans. Qed.

Lemma location_fk_mono d d' org loc :
  layout_le d d' -> location_fk d org loc = true -> location_fk d' org loc = true.
Proof.
  unfold location_fk. intros Hle. destruct (db_locations d !! loc) as [l|] eqn:Hl; [|done].
  destruct (ly_locations _ _ Hle _ _ Hl) as (l' & -> & Hl'). by rewrite (lle_org _ _ Hl').
Qed.

Lemma organisation_fk_mono d d' org :
  layout_le d d' -> is_some (db_organisations d !! org) = true ->
  is_some (db_organisations d' !! org) = true.
Proof.
  intros Hle. destruct (db_organisations d !! org) as [o|] eqn:Ho; [|done].
  by destruct (ly_organisations _ _ Hle _ _ Ho) as (o' & -> & _).
Qed.

Lemma floor_fk_mono d d' org loc flr :
  layout_le d d' -> floor_fk d org loc flr = true -> floor_fk d' org loc flr = true.
Proof.
  unfold floor_fk. intros Hle. destruct (db_floors d !! flr) as [f|] eqn:Hf; [|done].
  destruct (ly_floors _ _ Hle _ _ Hf) as (f' & -> & Hf').
  by rewrite (fle_org _ _ Hf'), (fle_loc _ _ Hf').
Qed.

Lemma zone_fk_mono d d' org loc flr zon :
  layout_le d d' -> zone_fk d org loc flr zon = true -> zone_fk d' org loc flr zon = true.
Proof.
  unfold zone_fk. intros Hle. destruct (db_zones d !! zon) as [z|] eqn:Hz; [|done].
  destruct (ly_zones _ _ Hle _ _ Hz) as (z' & -> & Hz').
  by rewrite (zle_org _ _ Hz'), (zle_loc _ _ Hz'), (zle_floor _ _ Hz').
Qed.

(** ** Steps *)

Record layout_step (d d' : Db) : Prop := {
  ls_le : layout_le d d';
  ls_inv : layout_inv d -> layout_inv d';
}.

#[export] Instance layout_step_preorder : PreOrder layout_step.
Proof. split; [by split|]. intros x y z [] []. split; [by etrans|auto]. Qed.

(** Rows of a later database keep their foreign keys. *)
Lemma sound_later {A} key chk clash (fk fk' : A -> bool) m m' :
  m' = m -> (forall r, fk r = true -> fk' r = true) ->
  sound key chk clash fk m -> sound key chk clash fk' m'.
Proof. intros ->. apply sound_fk. Qed.

(** A database in which one table is [m] and the rest of the layout as before. *)
Lemma layout_le_floors d m : rows_le floor_le (db_floors d) m -> layout_le d (set_floors m d).
Proof. intros H. by split. Qed.
Lemma layout_le_zones d m : rows_le zone_le (db_zones d) m -> layout_le d (set_zones m d).
Proof. intros H. by split. Qed.
Lemma layout_le_tables d m : rows_le table_le (db_tables d) m -> layout_le d (set_tables m d).
Proof. intros H. by split. Qed.
Lemma layout_le_locations d m : rows_le location_le (db_locations d) m -> layout_le d (set_locations m d).
Proof. intros H. by split. Qed.
Lemma layout_le_organisations d m :
  rows_le (fun _ _ => True) (db_organisations d) m -> layout_le d (set_organisations m d).
Proof. intros H. by split. Qed.
Lemma layout_le_periods d m : layout_le d (set_periods m d).
Proof. by split. Qed.

Lemma step_organisations d m :
  rows_le (fun _ _ => True) (db_organisations d) m ->
  (layout_inv d -> sound org_ID organisation_checks same_org_slug (fun _ => true) m) ->
  layout_step d (set_organisations m d).
Proof.
  intros Hle%layout_le_organisations Hm. split; [done|]. intros Hi. split; try apply Hi; [by apply Hm|].
  eapply sound_fk; [|apply Hi]. intros r. by apply organisation_fk_mono.
Qed.

Lemma step_locations d m :
  rows_le location_le (db_locations d) m ->
  (layout_inv d -> sound loc_ID location_checks same_location_slug
     (fun l => is_some (db_organisations d !! loc_OrganisationID l)) m) ->
  layout_step d (set_locations m d).
Proof.
  intros Hle%layout_le_locations Hm. split; [done|]. intros Hi.
  split; try apply Hi; [by apply Hm| |]; (eapply sound_fk; [|apply Hi]); intros r; by apply location_fk_mono.
Qed.

Lemma step_floors d m :
  rows_le floor_le (db_floors d) m ->
  (layout_inv d -> sound flr_ID floor_checks same_floor_slug
     (fun f => location_fk d (flr_OrganisationID f) (flr_LocationID f)) m) ->
  layout_step d (set_floors m d).
Proof.
  intros Hle%layout_le_floors Hm. split; [done|]. intros Hi. split; try apply Hi; [by apply Hm|].
  eapply sound_fk; [|apply Hi]. intros r. by apply floor_fk_mono.
Qed.

Lemma step_zones d m :
  rows_le zone_le (db_zones d) m ->
  (layout_inv d -> sound zon_ID zone_checks same_zone_name
     (fun z => floor_fk d (zon_OrganisationID z) (zon_LocationID z) (zon_FloorID z)) m) ->
  layout_step d (set_zones m d).
Proof.
  intros Hle%layout_le_zones Hm. split; [done|]. intros Hi. split; try apply Hi; [by apply Hm|].
  eapply sound_fk; [|apply Hi]. intros r. by apply zone_fk_mono.
Qed.

Lemma step_tables d m :
  rows_le table_le (db_tables d) m ->
  (layout_inv d -> sound tbl_ID table_checks same_table_label
     (fun t => zone_fk d (tbl_OrganisationID t) (tbl_LocationID t) (tbl_FloorID t) (tbl_ZoneID t)) m) ->
  layout_step d (set_tables m d).
Proof.
  intros Hle%layout_le_tables Hm. split; [done|]. intros Hi. split; try apply Hi. by apply Hm.
Qed.

Lemma step_periods d m :
  (layout_inv d -> sound svp_ID period_checks same_period_name
     (fun p => location_fk d (svp_OrganisationID p) (svp_LocationID p)) m) ->
  layout_step d (set_periods m d).
Proof. intros Hm. split; [apply layout_le_periods|]. intros Hi. split; try apply Hi. by apply Hm. Qed.

(** ** Statements *)

Lemma eqb_pair_sym {A} (f : A -> N) (g : A -> string) x y :
  (f x =? f y)%N && String.eqb (g x) (g y) = (f y =? f x)%N && String.eqb (g y) (g x).
Proof. by rewrite N.eqb_sym, String.eqb_sym. Qed.

(** A row is new under its key, or takes the place of a smaller one. *)
Definition placed {A} (key : A -> N) (le : A -> A -> Prop) (m : gmap N A) (k : N) (r : A) : Prop :=
  (m !! k = None /\ key r = k) \/ (exists x, m !! k = Some x /\ le x r /\ key r = key x).

Lemma placed_le {A} (key : A -> N) (le : A -> A -> Prop) `{!PreOrder le} m k r :
  placed key le m k r -> rows_le le m (<[k := r]> m).
Proof. intros [[? _]|(x & ? & ? & _)]; [by apply rows_le_insert|by eapply rows_le_update]. Qed.

Lemma placed_key {A} (key : A -> N) le chk clash fk m k r :
  placed key le m k r -> sound key chk clash fk m -> key r = k.
Proof. intros [[_ ?]|(x & Hx & _ & ->)]; [done|]. intros H. by apply (so_key H). Qed.

(** Writing a row that its table's constraint accepts. *)
Ltac write_row step :=
  let Hok := fresh "Hok" in let Hp := fresh "Hp" in
  intros Hok Hp; apply step;
  [ by eapply placed_le; [apply _|exact Hp]
  | intros [? ? ? ? ? ?]; match goal with |- sound _ ?chk _ _ _ => idtac end;
    lazymatch type of Hok with ?ok _ _ _ = _ => unfold ok in Hok end; checks_in Hok;
    eapply sound_write; try done;
    [ first [intros ? ?; apply eqb_pair_sym | intros ? ?; apply String.eqb_sym]
    | by eapply placed_key ] ].

Lemma write_organisation d k r :
  organisation_ok d k r = Ok tt -> placed org_ID (fun _ _ => True) (db_organisations d) k r ->
  layout_step d (set_organisations (<[k := r]> (db_organisations d)) d).
Proof. write_row step_organisations. Qed.

Lemma write_location d k r :
  location_ok d k r = Ok tt -> placed loc_ID location_le (db_locations d) k r ->
  layout_step d (set_locations (<[k := r]> (db_locations d)) d).
Proof. write_row step_locations. Qed.

Lemma write_floor d k r :
  floor_ok d k r = Ok tt -> placed flr_ID floor_le (db_floors d) k r ->
  layout_step d (set_floors (<[k := r]> (db_floors d)) d).
Proof. write_row step_floors. Qed.

Lemma write_zone d k r :
  zone_ok d k r = Ok tt -> placed zon_ID zone_le (db_zones d) k r ->
  layout_step d (set_zones (<[k := r]> (db_zones d)) d).
Proof. write_row step_zones. Qed.

Lemma write_table d k r :
  table_ok d k r = Ok tt -> placed tbl_ID table_le (db_tables d) k r ->
  layout_step d (set_tables (<[k := r]> (db_tables d)) d).
Proof. write_row step_tables. Qed.

Lemma write_period d k r :
  period_ok d k r = Ok tt -> placed svp_ID (fun _ _ => True) (db_periods d) k r ->
  layout_step d (set_periods (<[k := r]> (db_periods d)) d).
Proof.
  intros Hok Hp. apply step_periods. intros [? ? ? ? ? ?]. unfold period_ok in Hok. checks_in Hok.
  eapply sound_write; try done; [intros ? ?; apply eqb_pair_sym|by eapply placed_key].
Qed.

(** The statements: each writes one row it found or made. *)
Ltac row_changes :=
  repeat match goal with
  | H : res_bind _ _ = Ok _ |- _ => apply res_bind_Ok in H as (? & ?Hv & H)
  | H : int4_succ _ = Ok _ |- _ => apply int4_succ_Ok in H as [? _]
  | H : Ok _ = Ok _ |- _ => injection H as <-
  end.

Ltac placed_row :=
  first
  [ by left
  | right; eexists; split_and!; [eassumption| |done];
    first [ exact I | split; first [done | by right; simpl; lia] ] ].

Ltac layout_stmt :=
  apply (keeps_exec layout_step);
  let H := fresh "Hq" in
  intros ?now ?u ?d ?a ?d' H; cbv beta zeta in H; stmt_invert H; try reflexivity;
  first
  [ apply write_organisation | apply write_location | apply write_floor | apply write_zone
  | apply write_table | apply write_period ];
  [ assumption | ].

Lemma floor_row_le slug name sort canvas bg active now f f' :
  floor_row slug name sort canvas bg active now f = Ok f' -> floor_le f f'.
Proof. intros (v & [Hv _]%int4_succ_Ok & [= <-])%res_bind_Ok. split; [done..|]. right. simpl. lia. Qed.

Lemma zone_row_le name sort active now z z' :
  zone_row name sort active now z = Ok z' -> zone_le z z'.
Proof. intros (v & [Hv _]%int4_succ_Ok & [= <-])%res_bind_Ok. split; [done..|]. right. simpl. lia. Qed.

Lemma table_row_le flr zon label cap shape geo active deleted now t t' :
  table_row flr zon label cap shape geo active deleted now t = Ok t' -> table_le t t'.
Proof. intros (v & [Hv _]%int4_succ_Ok & [= <-])%res_bind_Ok. split; [done..|]. right. simpl. lia. Qed.

Lemma placed_update {A} (key : A -> N) le m k r r' :
  m !! k = Some r -> le r r' -> (le r r' -> key r' = key r) -> placed key le m k r'.
Proof. intros. right. exists r. auto. Qed.

(** An update of one row. *)
Lemma layout_update_floor id whr set :
  (forall now f f', set now f = Ok f' -> floor_le f f') ->
  Keeps layout_step (exec (update_row db_floors set_floors floor_ok id whr set)).
Proof. intros Hset. layout_stmt. eapply placed_update; eauto. apply fle_id. Qed.

Lemma layout_update_zone id whr set :
  (forall now z z', set now z = Ok z' -> zone_le z z') ->
  Keeps layout_step (exec (update_row db_zones set_zones zone_ok id whr set)).
Proof. intros Hset. layout_stmt. eapply placed_update; eauto. apply zle_id. Qed.

Lemma layout_update_table id whr set :
  (forall now t t', set now t = Ok t' -> table_le t t') ->
  Keeps layout_step (exec (update_row db_tables set_tables table_ok id whr set)).
Proof. intros Hset. layout_stmt. eapply placed_update; eauto. apply tle_id. Qed.

Lemma layout_update_period id whr set :
  (forall now p p', set now p = Ok p' -> svp_ID p' = svp_ID p) ->
  Keeps layout_step (exec (update_row db_periods set_periods period_ok id whr set)).
Proof. intros Hset. layout_stmt. right. eexists. split_and!; [eassumption|exact I|by eapply Hset]. Qed.

Lemma layout_CreateOrganisation slug name : Keeps layout_step (CreateOrganisation slug name).
Proof. unfold CreateOrganisation. layout_stmt. by left. Qed.
Lemma layout_organisation_row id whr name status onboarded :
  Keeps layout_step (exec (update_row db_organisations set_organisations organisation_ok id whr
    (fun now o => Ok (organisation_row (name o) (status o) (onboarded now o) now o)))).
Proof. layout_stmt. row_changes. by eapply placed_update. Qed.
Lemma layout_UpdateOrganisationRow id slug name status :
  Keeps layout_step (UpdateOrganisationRow id slug name status).
Proof. apply (layout_organisation_row _ _ (fun _ => name) (fun _ => status) (fun _ => org_OnboardedAt)). Qed.
Lemma layout_SetOrganisationOnboarded id : Keeps layout_step (SetOrganisationOnboarded id).
Proof. apply (layout_organisation_row _ _ org_Name org_Status (fun now _ => Some now)). Qed.
Lemma layout_CreateLocation org slug name tz : Keeps layout_step (CreateLocation org slug name tz).
Proof. unfold CreateLocation. layout_stmt. by left. Qed.
Lemma layout_UpdateLocationRow id org name tz status oc ff :
  Keeps layout_step (UpdateLocationRow id org name tz status oc ff).
Proof. unfold UpdateLocationRow. layout_stmt. row_changes. by eapply placed_update. Qed.
Lemma layout_CreateFloorRow org loc slug name sort canvas bg :
  Keeps layout_step (CreateFloorRow org loc slug name sort canvas bg).
Proof. unfold CreateFloorRow. layout_stmt. by left. Qed.
Lemma layout_UpdateFloorRow id org loc slug name sort canvas bg v :
  Keeps layout_step (UpdateFloorRow id org loc slug name sort canvas bg v).
Proof. apply layout_update_floor. intros *. apply floor_row_le. Qed.
Lemma layout_ArchiveFloorRow id org loc v : Keeps layout_step (ArchiveFloorRow id org loc v).
Proof. apply layout_update_floor. intros *. apply floor_row_le. Qed.
Lemma layout_RestoreFloorRow id org loc v : Keeps layout_step (RestoreFloorRow id org loc v).
Proof. apply layout_update_floor. intros *. apply floor_row_le. Qed.
Lemma layout_CreateZoneRow org loc flr name sort : Keeps layout_step (CreateZoneRow org loc flr name sort).
Proof. unfold CreateZoneRow. layout_stmt. by left. Qed.
Lemma layout_UpdateZoneRow id org loc flr name sort v :
  Keeps layout_step (UpdateZoneRow id org loc flr name sort v).
Proof. apply layout_update_zone. intros *. apply zone_row_le. Qed.
Lemma layout_ArchiveZoneRow id org loc flr v : Keeps layout_step (ArchiveZoneRow id org loc flr v).
Proof. apply layout_update_zone. intros *. apply zone_row_le. Qed.
Lemma layout_CreateTableRow org loc flr zon label cap shape geo :
  Keeps layout_step (CreateTableRow org loc flr zon label cap shape geo).
Proof. unfold CreateTableRow. layout_stmt. by left. Qed.
Lemma layout_UpdateTableRow id org loc flr zon label cap shape geo v :
  Keeps layout_step (UpdateTableRow id org loc flr zon label cap shape geo v).
Proof. apply layout_update_table. intros *. apply table_row_le. Qed.
Lemma layout_ArchiveTableRow id org loc v : Keeps layout_step (ArchiveTableRow id org loc v).
Proof. apply layout_update_table. intros *. apply table_row_le. Qed.
Lemma layout_RestoreTableRow id org loc v : Keeps layout_step (RestoreTableRow id org loc v).
Proof. apply layout_update_table. intros *. apply table_row_le. Qed.
Lemma layout_CreateServicePeriod org loc name days start finish :
  Keeps layout_step (CreateServicePeriod org loc name days start finish).
Proof. unfold CreateServicePeriod. layout_stmt. by left. Qed.

#[export] Hint Resolve layout_CreateOrganisation layout_UpdateOrganisationRow
  layout_SetOrganisationOnboarded layout_CreateLocation layout_UpdateLocationRow
  layout_CreateFloorRow layout_UpdateFloorRow layout_ArchiveFloorRow layout_RestoreFloorRow
  layout_CreateZoneRow layout_UpdateZoneRow layout_ArchiveZoneRow layout_CreateTableRow
  layout_UpdateTableRow layout_ArchiveTableRow layout_RestoreTableRow
  layout_CreateServicePeriod : keeps.

(** The rest of the database may change. *)
Record same_layout (d d' : Db) : Prop := {
  sl_organisations : db_organisations d' = db_organisations d;
  sl_locations : db_locations d' = db_locations d;
  sl_tables : db_tables d' = db_tables d;
  sl_layout : db_layout d' = db_layout d;
}.

#[export] Instance same_layout_preorder : PreOrder same_layout.
Proof. split; [by split|]. intros x y z [] []. split; congruence. Qed.

Lemma same_layout_step d d' : same_layout d d' -> layout_step d d'.
Proof.
  intros [Ho Hl Ht Hy]. assert (db_floors d' = db_floors d) as Hf by (unfold db_floors; by rewrite Hy).
  assert (db_zones d' = db_zones d) as Hz by (unfold db_zones; by rewrite Hy).
  assert (db_periods d' = db_periods d) as Hp by (unfold db_periods; by rewrite Hy).
  split; [split; by rewrite ?Ho, ?Hl, ?Hf, ?Hz, ?Ht|].
  intros []. split; unfold location_fk, floor_fk, zone_fk in *; by rewrite ?Ho, ?Hl, ?Hf, ?Hz, ?Ht, ?Hp.
Qed.

#[export] Hint Extern 1 (same_layout _ _) => split; reflexivity : keeps.
#[export] Hint Extern 1 (layout_step _ _) => apply same_layout_step; split; reflexivity : keeps.
