(* ===== verification/IdentityFacts.v ===== *)
(** One type of all operations of the identity package, their runs, and the
    histories of a database under them: whole requests in any order, with any
    arguments, clocks, generated values and failing calls.  And what none of them
    undoes: a session or credential keeps its secret, its owner and its expiry, and
    once revoked stays revoked; a revoked device stays revoked; a consumed pairing
    code stays consumed by the same device; and lookup prefixes stay unique. *)

From S2P Require Import Prelude Json Crypto Schema GoTx Store Queries Tokens IdentityQueries Identity Memberships TxFacts Steps.
#[local] Open Scope string_scope.
#[local] Open Scope Z_scope.
#[local] Open Scope list_scope.

Inductive IdentityCommand : Type :=
| ICreateUser (displayName email issuer subject externalEmail : string)
| IResolve (arg : ResolveExternalIdentityParams)
| ICreateSession (arg : CreateWebSessionParams)
| IValidateSession (secret : string)
| IRotateSession (secret : string) (ttl : Z) (userAgent ipAddress : string)
| IRevokeSession (secret : string)
| IRegisterDevice (arg : RegisterDeviceParams)
| ICreatePairingCode (arg : CreatePairingCodeParams)
| IPairDevice (arg : PairDeviceParams)
| IHeartbeat (secret appVersion : string) (capabilities : RawMessage)
| ITrustDevice (organisationID deviceID : uuid)
| IRevokeDevice (actor : TenantActor) (deviceID : uuid)
| IAuthenticate (secret : string)
| ICreateMembership (arg : CreateMembershipParams)
| IUpdateRole (arg : UpdateMembershipRoleParams)
| IDisable (arg : DisableMembershipParams)
| IInviteOwner (arg : PlatformInviteOwnerParams)
| IDisableOwner (arg : PlatformOwnerMembershipParams)
| IReactivateOwner (arg : PlatformOwnerMembershipParams)
| IReassign (arg : PlatformReassignOwnershipParams).

Definition discard {A} (m : Go A) : Go unit := m ;; mret tt.

Lemma discard_run {A} (m : Go A) e d a d' : run m e d = (Ok a, d') -> run (discard m) e d = (Ok tt, d').
Proof.
  intros (s' & H & <-)%run_Ok. unfold run, discard. by rewrite (bind_run _ _ _ _ _ _ H).
Qed.

Section Histories.
Context {GT : GoText}.

Definition run_identity (c : IdentityCommand) : Go unit :=
  match c with
  | ICreateUser n m i s x => discard (CreateUserProfile n m i s x)
  | IResolve arg => discard (ResolveExternalIdentity arg)
  | ICreateSession arg => discard (CreateWebSession arg)
  | IValidateSession secret => discard (ValidateWebSession secret)
  | IRotateSession secret ttl ua ip => discard (RotateWebSession secret ttl ua ip)
  | IRevokeSession secret => RevokeWebSession secret
  | IRegisterDevice arg => discard (RegisterDevice arg)
  | ICreatePairingCode arg => discard (CreatePairingCode arg)
  | IPairDevice arg => discard (PairDevice arg)
  | IHeartbeat secret version caps => discard (RecordHeartbeat secret version caps)
  | ITrustDevice org dev => discard (TrustDevice org dev)
  | IRevokeDevice actor dev => discard (RevokeDevice actor dev)
  | IAuthenticate secret => discard (AuthenticateDeviceCredential secret)
  | ICreateMembership arg => discard (CreateMembership arg)
  | IUpdateRole arg => discard (UpdateMembershipRole arg)
  | IDisable arg => discard (DisableMembership arg)
  | IInviteOwner arg => discard (PlatformInviteOwner arg)
  | IDisableOwner arg => discard (PlatformDisableOwnerMembership arg)
  | IReactivateOwner arg => discard (PlatformReactivateOwnerMembership arg)
  | IReassign arg => discard (PlatformReassignOwnership arg)
  end.

(** The reassignment of ownership, which one route of the platform does. *)
Definition is_reassign (c : IdentityCommand) : bool :=
  match c with IReassign _ => true | _ => false end.

Inductive identity_history (d0 : Db) : Db -> Prop :=
| identity_start : identity_history d0 d0
| identity_next d c e r d' :
    identity_history d0 d -> run (run_identity c) e d = (r, d') -> identity_history d0 d'.

(** A relation that every operation respects holds along every history. *)
Lemma identity_history_keeps (R : Db -> Db -> Prop) `{!PreOrder R} d0 d :
  (forall c, Keeps R (run_identity c)) -> identity_history d0 d -> R d0 d.
Proof.
  intros Hk. induction 1 as [|d c e r d' _ IH Hrun]; [done|].
  etrans; [exact IH|]. by eapply keeps_run.
Qed.
End Histories.

(** ** The identity package leaves the restaurant floor alone *)

(** Every table but those of the identity package and [devices] is the same. *)
Record same_floor (d d' : Db) : Prop := {
  sf_organisations : db_organisations d' = db_organisations d;
  sf_locations : db_locations d' = db_locations d;
  sf_tables : db_tables d' = db_tables d;
  sf_occupancy : db_occupancy d' = db_occupancy d;
  sf_sessions : db_sessions d' = db_sessions d;
  sf_assists : db_assists d' = db_assists d;
  sf_qr : db_qr d' = db_qr d;
  sf_idempotency : db_idempotency d' = db_idempotency d;
  sf_events : db_events d' = db_events d;
  sf_outbox : db_outbox d' = db_outbox d;
  sf_consumer_events : db_consumer_events d' = db_consumer_events d;
}.

#[export] Instance same_floor_preorder : PreOrder same_floor.
Proof.
  split; [by split|]. intros x y z [] []. split; congruence.
Qed.

#[export] Hint Extern 1 (same_floor _ _) => split; reflexivity : keeps.

Lemma identity_keeps_floor `{!GoText} c : Keeps same_floor (run_identity c).
Proof. destruct c; solve_keeps. Qed.

(** ** Tables that only grow *)

Section Tables.
Context {A : Type} (le : A -> A -> Prop) `{!PreOrder le} (key : A -> N)
  {M : Type} (mark : A -> M).

(** Rows are stored under their key and have marks of their own. *)
Record well_keyed (m : gmap N A) : Prop := {
  wk_key : forall k r, m !! k = Some r -> key r = k;
  wk_mark : forall k1 k2 r1 r2,
    m !! k1 = Some r1 -> m !! k2 = Some r2 -> mark r1 = mark r2 -> k1 = k2;
}.

Record table_step (m m' : gmap N A) : Prop := {
  ts_rows : forall k r, m !! k = Some r -> exists r', m' !! k = Some r' /\ le r r';
  ts_keyed : well_keyed m -> well_keyed m';
}.

#[export] Instance table_step_preorder : PreOrder table_step.
Proof.
  split.
  - intros m. split; [|done]. intros k r Hk. exists r. by split.
  - intros m1 m2 m3 [Hr1 Hk1] [Hr2 Hk2]. split; [|by auto].
  intros k r (r2 & H2 & Hle2)%Hr1. apply Hr2 in H2 as (r3 & H3 & Hle3).
  exists r3. split; [done|]. by etrans.
Qed.

Lemma table_step_update m k r r' :
  m !! k = Some r -> le r r' -> key r' = key r -> mark r' = mark r ->
  table_step m (<[k := r']> m).
Proof.
  intros Hk Hle Hkey Hmark. split.
  - intros i x Hi. destruct (decide (i = k)) as [->|Hne].
  + exists r'. rewrite lookup_insert_eq. split; [done|]. congruence.
  + exists x. by rewrite lookup_insert_ne.
  - intros [Hwk Hwm]. split.
  + intros i x Hi. apply lookup_insert_Some in Hi as [[<- <-]|[_ Hi]]; [|by auto].
  rewrite Hkey. auto.
  + intros i j x y Hi Hj Hm. apply lookup_insert_Some in Hi as [[<- <-]|[? Hi]];
  apply lookup_insert_Some in Hj as [[<- <-]|[? Hj]]; try done; rewrite ?Hmark in Hm; eauto.
Qed.

Lemma table_step_insert m r :
  m !! key r = None ->
  (well_keyed m -> forall j y, m !! j = Some y -> mark y <> mark r) ->
  table_step m (<[key r := r]> m).
Proof.
  intros Hk Hno. split.
  - intros i x Hi. exists x. rewrite lookup_insert_ne by congruence. done.
  - intros Hw. specialize (Hno Hw). destruct Hw as [Hwk Hwm]. split.
  + intros i x Hi. apply lookup_insert_Some in Hi as [[<- <-]|[_ Hi]]; auto.
  + intros i j x y Hi Hj Hm. apply lookup_insert_Some in Hi as [[<- <-]|[? Hi]];
  apply lookup_insert_Some in Hj as [[<- <-]|[? Hj]];
  [done|by destruct (Hno _ _ Hj)|by destruct (Hno _ _ Hi)|by eauto].
Qed.

(** A unique index on text, and the primary key itself. *)
Lemma no_other_mark (f : A -> string) m r :
  m !! key r = None -> no_other (fun t => String.eqb (f t) (f r)) (key r) m = true ->
  forall j y, m !! j = Some y -> f y <> f r.
Proof.
  intros Hk Hno j y Hj. apply negb_true_iff in Hno. rewrite map_any_false in Hno.
  apply String.eqb_neq, (Hno j). by rewrite lookup_delete_ne by congruence.
Qed.

Lemma table_step_fmap m f :
  (forall r, le r (f r)) -> (forall r, key (f r) = key r) -> (forall r, mark (f r) = mark r) ->
  table_step m (f <$> m).
Proof.
  intros Hle Hkey Hmark. split.
  - intros i x Hi. exists (f x). rewrite lookup_fmap, Hi. done.
  - intros [Hwk Hwm]. split.
  + intros i x. rewrite lookup_fmap, fmap_Some. intros (y & Hi & ->). rewrite Hkey. auto.
  + intros i j x y. rewrite !lookup_fmap, !fmap_Some. intros (x' & Hi & ->) (y' & Hj & ->).
  rewrite !Hmark. eauto.
Qed.
End Tables.

(** ** What stays of a row *)

Definition stays {A} (o o' : option A) : Prop := is_some o = true -> o' = o.

#[export] Instance stays_preorder {A} : PreOrder (@stays A).
Proof.
  split; [by intros o|]. unfold stays. intros x y z Hxy Hyz Hx. rewrite Hyz, Hxy; [done..|].
  by rewrite Hxy.
Qed.

Lemma stays_refl {A} (o : option A) : stays o o.
Proof. done. Qed.

Lemma stays_null {A} (o o' : option A) : null o = true -> stays o o'.
Proof. unfold stays, null. by destruct o. Qed.

Record session_le (s s' : WebSession) : Prop := {
  sl_user : wse_UserProfileID s' = wse_UserProfileID s;
  sl_prefix : wse_LookupPrefix s' = wse_LookupPrefix s;
  sl_hash : wse_SessionHash s' = wse_SessionHash s;
  sl_expires : wse_ExpiresAt s' = wse_ExpiresAt s;
  sl_revoked : stays (wse_RevokedAt s) (wse_RevokedAt s');
}.

Record credential_le (c c' : DeviceCredential) : Prop := {
  cl_org : dcr_OrganisationID c' = dcr_OrganisationID c;
  cl_device : dcr_DeviceID c' = dcr_DeviceID c;
  cl_prefix : dcr_LookupPrefix c' = dcr_LookupPrefix c;
  cl_hash : dcr_CredentialHash c' = dcr_CredentialHash c;
  cl_expires : dcr_ExpiresAt c' = dcr_ExpiresAt c;
  cl_revoked : stays (dcr_RevokedAt c) (dcr_RevokedAt c');
}.

Record device_le (v v' : Device) : Prop := {
  dl_org : dev_OrganisationID v' = dev_OrganisationID v;
  dl_location : dev_LocationID v' = dev_LocationID v;
  dl_type : dev_DeviceType v' = dev_DeviceType v;
  dl_revoked : stays (dev_RevokedAt v) (dev_RevokedAt v');
}.

Record code_le (c c' : DevicePairingCode) : Prop := {
  pl_org : dpc_OrganisationID c' = dpc_OrganisationID c;
  pl_location : dpc_LocationID c' = dpc_LocationID c;
  pl_prefix : dpc_PairingCodeLookupPrefix c' = dpc_PairingCodeLookupPrefix c;
  pl_hash : dpc_PairingCodeHash c' = dpc_PairingCodeHash c;
  pl_expires : dpc_ExpiresAt c' = dpc_ExpiresAt c;
  pl_consumed : stays (dpc_ConsumedAt c) (dpc_ConsumedAt c');
  pl_device : is_some (dpc_ConsumedAt c) = true ->
    dpc_ConsumedByDeviceID c' = dpc_ConsumedByDeviceID c;
}.

#[export] Instance session_le_preorder : PreOrder session_le.
Proof. split; [by split|]. intros x y z [] []. split; [congruence..|]. by etrans. Qed.
#[export] Instance credential_le_preorder : PreOrder credential_le.
Proof. split; [by split|]. intros x y z [] []. split; [congruence..|]. by etrans. Qed.
#[export] Instance device_le_preorder : PreOrder device_le.
Proof. split; [by split|]. intros x y z [] []. split; [congruence..|]. by etrans. Qed.
#[export] Instance code_le_preorder : PreOrder code_le.
Proof.
  split; [by split|]. intros x y z Hxy Hyz. split; [destruct Hxy, Hyz; congruence..| |].
  - etrans; [apply (pl_consumed _ _ Hxy)|apply (pl_consumed _ _ Hyz)].
  - intros Hx. rewrite (pl_device _ _ Hyz); [by apply (pl_device _ _ Hxy)|].
    by rewrite (pl_consumed _ _ Hxy Hx).
Qed.

Record auth_step (d d' : Db) : Prop := {
  au_sessions : table_step session_le wse_ID wse_LookupPrefix
    (db_web_sessions d) (db_web_sessions d');
  au_credentials : table_step credential_le dcr_ID dcr_LookupPrefix
    (db_credentials d) (db_credentials d');
  au_devices : table_step device_le dev_ID dev_ID
    (db_devices d) (db_devices d');
  au_codes : table_step code_le dpc_ID dpc_PairingCodeLookupPrefix
    (db_pairing_codes d) (db_pairing_codes d');
}.

#[export] Instance auth_step_preorder : PreOrder auth_step.
Proof.
  split; [by split|]. intros x y z [] []. split; by etrans.
Qed.

(** ** Every statement respects it *)

Lemma auth_sessions d m :
  table_step session_le wse_ID wse_LookupPrefix (db_web_sessions d) m ->
  auth_step d (set_web_sessions m d).
Proof. intros H. by split. Qed.

Lemma auth_credentials d m :
  table_step credential_le dcr_ID dcr_LookupPrefix (db_credentials d) m ->
  auth_step d (set_credentials m d).
Proof. intros H. by split. Qed.

Lemma auth_devices d m :
  table_step device_le dev_ID dev_ID (db_devices d) m -> auth_step d (set_devices m d).
Proof. intros H. by split. Qed.

Lemma auth_codes d m :
  table_step code_le dpc_ID dpc_PairingCodeLookupPrefix (db_pairing_codes d) m ->
  auth_step d (set_pairing_codes m d).
Proof. intros H. by split. Qed.

(** The statements that write one of the four tables, up to the row that changes. *)
Ltac auth_stmt :=
  apply (keeps_exec auth_step);
  let H := fresh "Hq" in
  intros ?now ?u ?d ?a ?d' H; cbv beta zeta in H; stmt_invert H; try reflexivity;
  first [apply auth_sessions|apply auth_credentials|apply auth_devices|apply auth_codes].

(** Inside an update: the changed row keeps what must stay. *)
Ltac stays_row :=
  repeat match goal with
  | H : Ok _ = Ok _ |- _ => injection H as <-
  | H : (_ && _)%bool = true |- _ => apply andb_prop in H as [? ?]
  end;
  eapply table_step_update; [apply _|eassumption| |done|done];
  split; first [done | by apply stays_null | idtac].

Ltac unique_row :=
  eapply table_step_insert; [apply _|done|]; intros _; eapply no_other_mark; [eassumption|].

Lemma auth_CreateWebSessionRow u p h x ua ip r : Keeps auth_step (CreateWebSessionRow u p h x ua ip r).
Proof.
  unfold CreateWebSessionRow. auth_stmt. unique_row.
  match goal with H : web_session_ok _ _ _ = _ |- _ => unfold web_session_ok in H; by checks_in H end.
Qed.

Lemma auth_TouchWebSession id : Keeps auth_step (TouchWebSession id).
Proof. unfold TouchWebSession. auth_stmt. stays_row. Qed.

Lemma auth_RevokeWebSessionRow id : Keeps auth_step (RevokeWebSessionRow id).
Proof.
  unfold RevokeWebSessionRow. auth_stmt. stays_row.
  unfold stays. simpl. by destruct (wse_RevokedAt _).
Qed.

Lemma auth_CreateDeviceCredential o v p h x : Keeps auth_step (CreateDeviceCredential o v p h x).
Proof.
  unfold CreateDeviceCredential. auth_stmt. unique_row.
  match goal with H : credential_ok _ _ _ = _ |- _ => unfold credential_ok in H; by checks_in H end.
Qed.

Lemma auth_TouchDeviceCredential id : Keeps auth_step (TouchDeviceCredential id).
Proof. unfold TouchDeviceCredential. auth_stmt. stays_row. Qed.

Lemma auth_RevokeDeviceCredentials o v : Keeps auth_step (RevokeDeviceCredentials o v).
Proof.
  unfold RevokeDeviceCredentials. apply (keeps_exec auth_step). intros now u d a d' [= _ <-].
  apply auth_credentials, table_step_fmap; intros c.
  - destruct (_ && _) eqn:Hc; [|done]. apply andb_prop in Hc as [_ Hc].
    split; [done..|by apply stays_null].
  - by destruct (_ && _).
  - by destruct (_ && _).
Qed.

Lemma auth_RegisterDeviceRow o l u t p v n c f i : Keeps auth_step (RegisterDeviceRow o l u t p v n c f i).
Proof.
  unfold RegisterDeviceRow. auth_stmt. eapply table_step_insert; [apply _|done|].
  intros [Hk _] j y Hj Heq. pose proof (Hk _ _ Hj). congruence.
Qed.

Lemma auth_device_update id whr set :
  (forall now v v', whr v = true -> set now v = Ok v' -> device_le v v' /\ dev_ID v' = dev_ID v) ->
  Keeps auth_step (exec (update_row db_devices set_devices device_ok id whr set)).
Proof.
  intros Hset. auth_stmt. edestruct Hset as [Hle Hid]; [eassumption..|].
  eapply table_step_update; [apply _|eassumption..|done|done].
Qed.

Lemma auth_MarkDeviceSeen id o : Keeps auth_step (MarkDeviceSeen id o).
Proof. apply auth_device_update. by intros now v v' _ [= <-]. Qed.
Lemma auth_RecordDeviceHeartbeat id o a c : Keeps auth_step (RecordDeviceHeartbeat id o a c).
Proof. apply auth_device_update. by intros now v v' _ [= <-]. Qed.
Lemma auth_TrustDeviceRow id o : Keeps auth_step (TrustDeviceRow id o).
Proof. apply auth_device_update. by intros now v v' _ [= <-]. Qed.
Lemma auth_RevokeDeviceRow id o : Keeps auth_step (RevokeDeviceRow id o).
Proof.
  apply auth_device_update. intros now v v' [_ Hn]%andb_prop [= <-].
  split; [|done]. split; [done..|by apply stays_null].
Qed.

Lemma auth_CreateDevicePairingCode o l c t p h x :
  Keeps auth_step (CreateDevicePairingCode o l c t p h x).
Proof.
  unfold CreateDevicePairingCode. auth_stmt. unique_row.
  match goal with H : pairing_code_ok _ _ _ = _ |- _ => unfold pairing_code_ok in H; by checks_in H end.
Qed.

Lemma auth_ConsumeDevicePairingCode id v : Keeps auth_step (ConsumeDevicePairingCode id v).
Proof.
  unfold ConsumeDevicePairingCode. auth_stmt.
  match goal with H : pairing_live _ _ = true |- _ => apply andb_prop in H as [Hn _] end.
  stays_row. unfold null in Hn. by destruct (dpc_ConsumedAt _).
Qed.

#[export] Hint Resolve auth_CreateWebSessionRow auth_TouchWebSession auth_RevokeWebSessionRow
  auth_CreateDeviceCredential auth_TouchDeviceCredential auth_RevokeDeviceCredentials
  auth_RegisterDeviceRow auth_MarkDeviceSeen auth_RecordDeviceHeartbeat auth_TrustDeviceRow
  auth_RevokeDeviceRow auth_CreateDevicePairingCode auth_ConsumeDevicePairingCode : keeps.

(** The other tables do not matter. *)
#[export] Hint Extern 1 (auth_step _ _) => split; reflexivity : keeps.

Lemma identity_keeps_auth `{!GoText} c : Keeps auth_step (run_identity c).
Proof. destruct c; solve_keeps. Qed.
