(* ===== verification/MembershipFacts.v ===== *)
(** What the building blocks of the membership operations do to the rows of
    [organisation_memberships]: which row they find, which row they change, and
    that they leave every other row alone. *)

From S2P Require Import Prelude Json Crypto Schema GoTx Store Queries Tokens IdentityQueries Identity Memberships TxFacts Steps IdentityFacts.
#[local] Open Scope string_scope.
#[local] Open Scope Z_scope.
#[local] Open Scope list_scope.

(** ** Owners *)

Definition has_owner (org : uuid) (d : Db) : Prop :=
  exists k m, db_org_members d !! k = Some m /\ active_owner org m = true.

Definition members_keyed (d : Db) : Prop :=
  forall k m, db_org_members d !! k = Some m -> omb_ID m = k.

Lemma active_owner_inv org m :
  active_owner org m = true <->
  omb_OrganisationID m = org /\ omb_Role m = RoleOrganisationOwner /\ omb_DisabledAt m = None.
Proof.
  unfold active_owner, null. rewrite !andb_true_iff, N.eqb_eq, String.eqb_eq.
  destruct (omb_DisabledAt m); naive_solver.
Qed.

(** A count of two leaves an owner besides any given row. *)
Lemma two_of_list {A} (f : A -> bool) (l : list (N * A)) k :
  NoDup (fst <$> l) -> (1 < length (List.filter f (snd <$> l)))%nat ->
  exists j x, (j, x) ∈ l /\ f x = true /\ j <> k.
Proof.
  induction l as [|[i x] l IH]; [simpl; lia|]. rewrite !fmap_cons. cbn [fst snd List.filter].
  intros [Hi Hnd]%NoDup_cons Hlen. destruct (f x) eqn:Hf; cbn [length] in Hlen.
  - destruct (decide (i = k)) as [->|Hne]; [|exists i, x; split; [left|done]].
    destruct (List.filter f (snd <$> l)) as [|y ys] eqn:Hl; cbn [length] in Hlen; [lia|].
    assert (y ∈ List.filter f (snd <$> l)) as Hy by (rewrite Hl; left).
    apply list_elem_of_In, List.filter_In in Hy as [Hy Hfy].
    apply list_elem_of_In, list_elem_of_fmap in Hy as ([j z] & -> & Hj).
    exists j, z. split; [by right|]. split; [done|]. intros ->. apply Hi.
    apply list_elem_of_fmap. by exists (k, z).
  - destruct (IH Hnd Hlen) as (j & y & Hj & Hy & Hne). exists j, y. split; [by right|done].
Qed.

Lemma another_owner org d k n d' :
  owner_count org d = Ok (n, d') -> (n <=? 1) = false ->
  exists j m, db_org_members d !! j = Some m /\ active_owner org m = true /\ j <> k.
Proof.
  unfold owner_count, owners. destruct (in_int32 _); [|done]. intros [= <- <-] Hn%Z.leb_gt.
  destruct (two_of_list (active_owner org) (map_to_list (db_org_members d)) k) as (j & m & Hj & ? & ?).
  - apply NoDup_fst_map_to_list.
  - lia.
  - apply elem_of_map_to_list in Hj. eauto.
Qed.

(** ** Finding a membership *)

Lemma scan_Ok {A} f (q : Stmt A) e s m s' :
  scanManagedMembership f q e s = (Ok m, s') ->
  exists a d, q (st_now s) (env_uuid e (st_tick s)) (st_db s) = Ok (a, d) /\
    m = f (st_db s) a /\ st_db s' = d /\ st_now s' = st_now s.
Proof.
  unfold scanManagedMembership.
  intros (_ & d1 & ([a d2] & Hq & H)%res_bind_Ok & ->)%map_err_Ok%exec_Ok.
  injection H as <- <-. exists a, d2. done.
Qed.

Lemma getForUpdate_org org id e s m s' :
  getManagedMembershipForUpdate org MembershipScopeOrganisation id e s = (Ok m, s') ->
  exists r, db_org_members (st_db s) !! id = Some r /\ omb_OrganisationID r = org /\
    m = managed_org (st_db s) r /\ st_db s' = st_db s /\ st_now s' = st_now s.
Proof.
  unfold getManagedMembershipForUpdate. intros ([] & s1 & H1 & H)%bind_Ok.
  apply guard_err_Ok in H1 as (_ & -> & _). simpl in H.
  apply scan_Ok in H as (r & d & Hq & -> & Hd & Hn). apply select_one_Ok in Hq as (Hr & Ho%N.eqb_eq & ->).
  exists r. done.
Qed.

Lemma getByProfile_org org loc u e s m s' :
  getMembershipByProfile org MembershipScopeOrganisation loc u e s = (Ok m, s') ->
  exists k r, db_org_members (st_db s) !! k = Some r /\ omb_OrganisationID r = org /\
    omb_UserProfileID r = Some u /\ u <> uuid_Nil /\ is_some (db_users (st_db s) !! u) = true /\
    m = managed_org (st_db s) r /\ st_db s' = st_db s.
Proof.
  unfold getMembershipByProfile. simpl. intros (r & d & Hq & -> & Hd & _)%scan_Ok.
  apply select_first_Ok in Hq as (-> & (k & Hk) & [[Ho%N.eqb_eq Hu]%andb_prop Hp]%andb_prop & _).
  unfold sql_eq, nullableUUID in Hu.
  destruct (omb_UserProfileID r) eqn:Hr; [|done]. destruct (N.eqb_spec u uuid_Nil); [done|].
  apply bool_decide_eq_true in Hu as ->. by exists k, r.
Qed.

Lemma getByProfile_org_Err org loc u e s err s' :
  getMembershipByProfile org MembershipScopeOrganisation loc u e s = (Err err, s') ->
  st_db s' = st_db s /\ errors_Is err ErrAlreadyExists = false /\
  (errors_Is err ErrNotFound = true ->
   forall k r, db_org_members (st_db s) !! k = Some r -> omb_OrganisationID r = org ->
     omb_UserProfileID r = Some u -> is_some (db_users (st_db s) !! u) = true -> u <> uuid_Nil -> False).
Proof.
  unfold getMembershipByProfile. simpl. unfold scanManagedMembership.
  intros (e0 & (-> & [(f & _ & ->)|(_ & H)])%exec_Err & ->)%map_err_Err; [done|].
  split; [done|].
  destruct (select_first _ _ _ _ _ _) as [[r d]|err0] eqn:Hs; [done|]. injection H as <-.
  apply select_first_NoRows in Hs as [-> Hno]. split; [done|]. intros _ k r Hk Ho Hu Hex Hnil.
  specialize (Hno _ _ Hk). cbv beta in Hno. rewrite Ho, N.eqb_refl, Hu in Hno. simpl in Hno.
  unfold nullableUUID in Hno. destruct (N.eqb_spec u uuid_Nil); [done|].
  unfold sql_eq, profile_of in Hno. rewrite bool_decide_true in Hno by done. simpl in Hno. congruence.
Qed.

(** ** Changing a membership *)

(** The rows are as before, but perhaps one. *)
Definition row_changed (k : N) (r' : OrganisationMembership) (d d' : Db) : Prop :=
  db_org_members d' = <[k := r']> (db_org_members d).

Lemma update_member_org org id whr role dis e s u s' :
  update_member org MembershipScopeOrganisation id whr role dis e s = (Ok u, s') ->
  (db_org_members (st_db s') = db_org_members (st_db s) /\
   forall r, db_org_members (st_db s) !! id = Some r -> omb_OrganisationID r = org ->
     whr (omb_DisabledAt r) = false) \/
  exists r, db_org_members (st_db s) !! id = Some r /\ omb_OrganisationID r = org /\
    whr (omb_DisabledAt r) = true /\
    row_changed id (org_member_row (role (omb_Role r)) (dis (st_now s) (omb_DisabledAt r)) (st_now s) r)
      (st_db s) (st_db s').
Proof.
  unfold update_member. simpl. intros (_ & d & H & ->)%exec_Ok.
  apply update_exec_Ok in H as [[-> Hno]|(r & r' & Hr & [Ho%N.eqb_eq Hw]%andb_prop & [= <-] & _ & ->)].
  - left. split; [done|]. intros r Hr Ho. apply Hno in Hr. by rewrite Ho, N.eqb_refl in Hr.
  - right. by exists r.
Qed.

Lemma updateEnabled_org org id role e s m s' :
  updateMembershipEnabled org MembershipScopeOrganisation id role e s = (Ok m, s') ->
  exists r now, db_org_members (st_db s) !! id = Some r /\ omb_OrganisationID r = org /\
    row_changed id (org_member_row role None now r) (st_db s) (st_db s') /\
    m = managed_org (st_db s') (org_member_row role None now r).
Proof.
  unfold updateMembershipEnabled. intros ([] & s1 & H1 & H)%bind_Ok. apply map_err_Ok in H1.
  apply getForUpdate_org in H as (r1 & Hr1 & Ho1 & -> & -> & _).
  apply update_member_org in H1 as [[Hsame Hno]|(r & Hr & Ho & _ & Hch)].
  - rewrite Hsame in Hr1. by specialize (Hno _ Hr1 Ho1).
  - exists r, (st_now s). rewrite Hch, lookup_insert_eq in Hr1. injection Hr1 as <-. done.
Qed.

Lemma disable_org org id e s m s' :
  disableMembership org MembershipScopeOrganisation id e s = (Ok m, s') ->
  exists r r', db_org_members (st_db s) !! id = Some r /\ omb_OrganisationID r = org /\
    row_changed id r' (st_db s) (st_db s') /\ omb_ID r' = omb_ID r /\
    omb_OrganisationID r' = org /\ omb_Role r' = omb_Role r /\ omb_UserProfileID r' = omb_UserProfileID r /\
    is_some (omb_DisabledAt r') = true /\ m = managed_org (st_db s') r'.
Proof.
  unfold disableMembership. intros ([] & s1 & H1 & H)%bind_Ok. apply map_err_Ok in H1.
  apply getForUpdate_org in H as (r1 & Hr1 & Ho1 & -> & -> & _).
  apply update_member_org in H1 as [[Hsame Hno]|(r & Hr & Ho & _ & Hch)].
  - exists r1, r1. rewrite Hsame in Hr1. unfold row_changed. rewrite insert_id by done.
    specialize (Hno _ Hr1 Ho1). unfold null in Hno. apply negb_false_iff in Hno. done.
  - exists r. eexists. split; [done|]. split; [done|]. split; [exact Hch|].
    unfold row_changed in Hch. rewrite Hch, lookup_insert_eq in Hr1. injection Hr1 as <-. done.
Qed.

Lemma updateRole_org org id role e s m s' :
  updateMembershipRole org MembershipScopeOrganisation id role e s = (Ok m, s') ->
  exists r, db_org_members (st_db s) !! id = Some r /\ omb_OrganisationID r = org /\
    ((is_some (omb_DisabledAt r) = true /\ db_org_members (st_db s') = db_org_members (st_db s)) \/
     exists r', row_changed id r' (st_db s) (st_db s') /\ omb_ID r' = omb_ID r /\
      omb_OrganisationID r' = org /\ omb_Role r' = role /\ omb_UserProfileID r' = omb_UserProfileID r /\
      omb_DisabledAt r' = omb_DisabledAt r /\ m = managed_org (st_db s') r').
Proof.
  unfold updateMembershipRole. intros ([] & s1 & H1 & H)%bind_Ok. apply map_err_Ok in H1.
  apply getForUpdate_org in H as (r1 & Hr1 & Ho1 & -> & -> & _).
  apply update_member_org in H1 as [[Hsame Hno]|(r & Hr & Ho & _ & Hch)].
  - rewrite Hsame in Hr1. exists r1. split; [done|]. split; [done|]. left. split; [|done].
    specialize (Hno _ Hr1 Ho1). unfold null in Hno. by apply negb_false_iff in Hno.
  - exists r. split; [done|]. split; [done|]. right. eexists. split; [exact Hch|].
    unfold row_changed in Hch. rewrite Hch, lookup_insert_eq in Hr1. injection Hr1 as <-. done.
Qed.

(** People are added, and their rows stay. *)
Definition users_grow (d d' : Db) : Prop :=
  forall k u, db_users d !! k = Some u -> db_users d' !! k = Some u.

(** The organisation memberships are the same rows. *)
Definition orgs_same (d d' : Db) : Prop := db_org_members d' = db_org_members d.

#[export] Instance users_grow_preorder : PreOrder users_grow.
Proof. split; [by intros d k u|]. intros x y z H1 H2 k u Hk. auto. Qed.

#[export] Instance orgs_same_preorder : PreOrder orgs_same.
Proof. unfold orgs_same. split; [done|]. intros x y z H1 H2. congruence. Qed.

Lemma users_grow_insert d u : db_users d !! usr_ID u = None ->
  users_grow d (set_users (<[usr_ID u := u]> (db_users d)) d).
Proof. intros Hf k v Hk. unfold db_users. simpl. rewrite lookup_insert_ne; [done|congruence]. Qed.

#[export] Hint Resolve users_grow_insert : keeps.
#[export] Hint Extern 1 (users_grow _ _) => intros ? ? ?; assumption : keeps.
#[export] Hint Extern 1 (orgs_same _ _) => reflexivity : keeps.

Lemma updateEnabled_users org id role e s m s' :
  updateMembershipEnabled org MembershipScopeOrganisation id role e s = (Ok m, s') ->
  db_users (st_db s') = db_users (st_db s).
Proof.
  unfold updateMembershipEnabled. intros ([] & s1 & H1 & H)%bind_Ok. apply map_err_Ok in H1.
  apply getForUpdate_org in H as (_ & _ & _ & _ & -> & _). unfold update_member in H1. simpl in H1.
  apply exec_Ok in H1 as (_ & d & H & ->).
  by apply update_exec_Ok in H as [[-> _]|(r & r' & _ & _ & _ & _ & ->)].
Qed.

(** A new or reactivated membership: an enabled row of the profile with the role,
    where there was no row or a disabled one. *)
Record granted (org : uuid) (role : string) (u : uuid) (m : ManagedMembership) (d d' : Db)
    (k : N) (r' : OrganisationMembership) : Prop := {
  gr_changed : row_changed k r' d d';
  gr_old : forall r, db_org_members d !! k = Some r ->
    is_some (omb_DisabledAt r) = true /\ omb_OrganisationID r = org;
  gr_id : omb_ID r' = k;
  gr_org : omb_OrganisationID r' = org;
  gr_role : omb_Role r' = role;
  gr_user : omb_UserProfileID r' = Some u;
  gr_fk : is_some (db_users d' !! u) = true;
  gr_enabled : omb_DisabledAt r' = None;
  gr_managed : m = managed_org d' r';
}.

Section Grant.
Context {GT : GoText}.

Lemma createOrReactivate_Ok org role profile ref e s m s' :
  members_keyed (st_db s) ->
  createOrReactivateOrganisationMembership org role profile ref e s = (Ok m, s') ->
  exists k r', granted org role (usr_ID profile) m (st_db s) (st_db s') k r'.
Proof.
  intros Hkey. unfold createOrReactivateOrganisationMembership. intros (r & s1 & H1 & H)%bind_Ok.
  apply attempt_Ok in H1. destruct r as [existing|err].
  - apply getByProfile_org in H1 as (k & r & Hk & Ho & Hu & _ & Hex & -> & Hdb). simpl in H.
  pose proof (Hkey _ _ Hk) as Hid. unfold null in H. destruct (is_some (omb_DisabledAt r)) eqn:Hdis; [|done].
  simpl in H. rewrite Hid in H. pose proof (updateEnabled_users _ _ _ _ _ _ _ H) as Husers.
  apply updateEnabled_org in H as (r1 & now & Hr1 & _ & Hch & ->).
  unfold row_changed in Hch. rewrite Hdb in *. rewrite Hk in Hr1. injection Hr1 as <-.
  exists k. eexists. split; [exact Hch|..]; try done; [|by rewrite Husers].
  intros r1 Hr1. by rewrite Hk in Hr1; injection Hr1 as <-.
  - apply getByProfile_org_Err in H1 as (Hdb & _ & Hno).
  destruct (errors_Is err ErrNotFound); [|done]. specialize (Hno eq_refl). simpl in H.
  apply bind_Ok in H as (r0 & s2 & H2 & H). apply map_err_Ok, exec_Ok in H2 as (_ & d2 & H2 & ->).
  apply insert_row_Ok in H2 as (Hr0 & Hfresh & Hok & ->). rewrite Hdb in *.
  apply getByProfile_org in H as (k & r & Hk & Ho & Hu & Hnil & _ & -> & Hdb').
  cbn [st_db with_db tick] in *. set (id := omb_ID r0) in *.
  change (<[id := r0]> (db_org_members (st_db s)) !! k = Some r) in Hk.
  assert (is_some (db_users (st_db s) !! usr_ID profile) = true) as Hex.
  { unfold org_member_ok in Hok. checks_in Hok. subst r0. unfold new_org_member in Hchk3. simpl in Hchk3.
  unfold nullableUUID in Hchk3. by destruct (N.eqb_spec (usr_ID profile) uuid_Nil). }
  apply lookup_insert_Some in Hk as [[<- <-]|[_ Hk]]; [|by destruct (Hno _ _ Hk Ho Hu Hex Hnil)].
  exists id, r0. rewrite Hdb'. split; try done; try (by subst r0).
  intros r1 Hr1. by rewrite Hfresh in Hr1.
Qed.

(** A refusal because the membership exists comes before any write: no other call
    of the operation reports it. *)
Definition never_exists {A} (m : Go A) : Prop :=
  forall e s err s', m e s = (Err err, s') -> errors_Is err ErrAlreadyExists = false.

Lemma never_bind {A B} (m : Go A) (k : A -> Go B) :
  never_exists m -> (forall a, never_exists (k a)) -> never_exists (m ≫= k).
Proof. intros Hm Hk e s err s' [H|(a & s1 & _ & H)]%bind_Err; [by eapply Hm|by eapply Hk]. Qed.

Lemma never_wrap {A} msg (m : Go A) : never_exists m -> never_exists (map_err (Wrap msg) m).
Proof. intros Hm e s err s' (e0 & H & ->)%map_err_Err. simpl. by eapply Hm. Qed.

Lemma never_exec {A} (q : Stmt A) :
  (forall now u d err, q now u d = Err err -> errors_Is err ErrAlreadyExists = false) ->
  never_exists (exec q).
Proof. intros Hq e s err s' (_ & [(f & _ & ->)|(_ & H)])%exec_Err; [done|by eapply Hq]. Qed.

Lemma never_checked {A} (r : result error unit) (k : unit -> result error A) err :
  (forall e, r = Err e -> errors_Is e ErrAlreadyExists = false) ->
  (forall u e, k u = Err e -> errors_Is e ErrAlreadyExists = false) ->
  res_bind r k = Err err -> errors_Is err ErrAlreadyExists = false.
Proof. unfold res_bind. destruct r; [eauto|]. intros Hr _ [= <-]. by apply Hr. Qed.

Lemma never_check b p e : check b p = Err e -> errors_Is e ErrAlreadyExists = false.
Proof. unfold check. destruct b; [done|]. by intros [= <-]. Qed.

Lemma never_org_member_ok d k m e : org_member_ok d k m = Err e -> errors_Is e ErrAlreadyExists = false.
Proof.
  unfold org_member_ok.
  repeat (apply never_checked; [intros ?; apply never_check|intros _ ?]). apply never_check.
Qed.

Lemma never_getForUpdate org id :
  never_exists (getManagedMembershipForUpdate org MembershipScopeOrganisation id).
Proof.
  unfold getManagedMembershipForUpdate. apply never_bind.
  { intros e s err s' (_ & _ & ->)%guard_err_Err. done. }
  intros _ e s err s' (e0 & (_ & [(f & _ & ->)|(_ & H)])%exec_Err & ->)%map_err_Err; [done|].
  unfold res_bind in H. destruct (select_one _ _ _ _ _ _) as [[r d]|e1] eqn:Hs; [done|].
  injection H as <-. by apply select_one_Err in Hs as [-> _].
Qed.

Lemma never_updateEnabled org id role :
  never_exists (updateMembershipEnabled org MembershipScopeOrganisation id role).
Proof.
  unfold updateMembershipEnabled. apply never_bind; [|intros _; apply never_getForUpdate].
  apply never_wrap, never_exec. intros now u d err. unfold update_exec.
  destruct (db_org_members d !! id) as [r|]; [|done]. destruct (_ && _); [|done]. cbn [res_bind].
  apply never_checked; [apply never_org_member_ok|done].
Qed.

Lemma never_insert_member org u ref role :
  never_exists (CreateUserOrganisationMembership org u ref role).
Proof.
  apply never_exec. intros now v d err. unfold insert_row.
  apply never_checked; [intros ?; apply never_check|]. intros _ err'.
  apply never_checked; [apply never_org_member_ok|done].
Qed.

Lemma never_getByProfile org loc u :
  never_exists (getMembershipByProfile org MembershipScopeOrganisation loc u).
Proof. intros e s err s' H. by apply getByProfile_org_Err in H as (_ & ? & _). Qed.

Lemma createOrReactivate_exists org role profile ref e s err s' :
  createOrReactivateOrganisationMembership org role profile ref e s = (Err err, s') ->
  errors_Is err ErrAlreadyExists = true ->
  st_db s' = st_db s /\ exists existing s1,
  getMembershipByProfile org MembershipScopeOrganisation uuid_Nil (usr_ID profile) e s = (Ok existing, s1) /\
  mng_DisabledAt existing = None.
Proof.
  intros H Hex. unfold createOrReactivateOrganisationMembership in H.
  apply bind_Err in H as [H|(r & s1 & H1 & H)].
  { unfold attempt in H. by destruct (getMembershipByProfile _ _ _ _ _ _). }
  apply attempt_Ok in H1. destruct r as [existing|err1].
  - pose proof H1 as H2. apply getByProfile_org in H2 as (k & r & _ & _ & _ & _ & _ & _ & Hdb).
  destruct (null _) eqn:Hn; [|apply never_updateEnabled in H; congruence].
  injection H as _ <-. split; [done|]. exists existing, s1. split; [done|].
  unfold null in Hn. by destruct (mng_DisabledAt existing).
  - apply getByProfile_org_Err in H1 as (Hdb & Hne & _). destruct (errors_Is err1 ErrNotFound).
  + simpl in H. apply bind_Err in H as [H|(r & s2 & _ & H)].
  * apply (never_wrap _ _ (never_insert_member _ _ _ _)) in H. congruence.
  * apply never_getByProfile in H. congruence.
  + injection H as -> <-. congruence.
Qed.

(** Reading twice finds the same row. *)
Lemma getByProfile_same org loc u e1 s1 m1 s1' e2 s2 m2 s2' :
  getMembershipByProfile org MembershipScopeOrganisation loc u e1 s1 = (Ok m1, s1') ->
  getMembershipByProfile org MembershipScopeOrganisation loc u e2 s2 = (Ok m2, s2') ->
  st_db s1 = st_db s2 -> m1 = m2.
Proof.
  unfold getMembershipByProfile. simpl. intros (r1 & d1 & H1 & -> & _)%scan_Ok (r2 & d2 & H2 & -> & _)%scan_Ok Hdb.
  unfold select_first in H1, H2. rewrite Hdb in *.
  destruct (rows _ _ _ _); [done|]. injection H1 as <- _. injection H2 as <- _. done.
Qed.

(** The profile of an address: the one that has it, or a new one. *)
Lemma getOrCreate_Ok email name e s p s' :
  getOrCreateUserProfileByEmail email name e s = (Ok p, s') ->
  db_org_members (st_db s') = db_org_members (st_db s) /\
  ((exists k, db_users (st_db s) !! k = Some p /\ has_email (Some email) p = true) \/
   db_users (st_db s) !! usr_ID p = None).
Proof.
  unfold getOrCreateUserProfileByEmail. intros (r & s1 & H1 & H)%bind_Ok. apply attempt_Ok in H1.
  unfold getUserProfileByEmail in H1. destruct r as [q|err].
  - apply map_err_Ok, exec_Ok in H1 as (_ & d & Hq & ->). apply ret_Ok in H as [<- <-].
  apply select_first_Ok in Hq as (-> & (k & Hk) & Hw & _). split; [done|]. left. eauto.
  - apply map_err_Err in H1 as (e0 & H1 & ->). destruct (errors_Is _ ErrNotFound); [|done].
  assert (st_db s1 = st_db s) as Hdb by (apply exec_Err in H1 as [-> _]; done).
  apply map_err_Ok, exec_Ok in H as (_ & d & Hq & ->). apply insert_row_Ok in Hq as (-> & Hf & _ & ->).
  rewrite <- Hdb. split; [done|]. right. done.
Qed.
End Grant.
