(* ===== verification/CommandFacts.v ===== *)
(** The idempotent command runner and the outbox writer of
    [internal/domain/operations/service.go]: what [writeOperationalEvent] adds to
    the database, and the three outcomes of [runTenantCommand]. *)

From S2P Require Import Prelude Json Schema GoTx Store Queries Events Operations TxFacts.
#[local] Open Scope string_scope.
#[local] Open Scope Z_scope.
#[local] Open Scope list_scope.

(** ** The building blocks stay inside their transaction *)

#[export] Instance in_tx_getIdempotencyReplay org meta : InTx (getIdempotencyReplay org meta).
Proof. unfold getIdempotencyReplay. apply _. Qed.
#[export] Instance in_tx_insertIdempotencyRecord org loc actor meta st body :
  InTx (insertIdempotencyRecord org loc actor meta st body).
Proof. unfold insertIdempotencyRecord. apply _. Qed.
#[export] Instance in_tx_insertOutboxRecord org loc ev tp dst p :
  InTx (insertOutboxRecord org loc ev tp dst p).
Proof. unfold insertOutboxRecord. apply _. Qed.
#[export] Instance in_tx_writeOperationalEvent ev : InTx (writeOperationalEvent ev).
Proof. unfold writeOperationalEvent. apply _. Qed.
#[export] Instance in_tx_lockTableOccupancy t o l : InTx (lockTableOccupancy t o l).
Proof. unfold lockTableOccupancy, LockTableOccupancy. apply _. Qed.
#[export] Instance in_tx_occupyTableInTx arg : InTx (occupyTableInTx arg).
Proof.
  unfold occupyTableInTx, CreateTableSession, MarkTableOccupied, GetTableState. apply _.
Qed.
#[export] Instance in_tx_clearTableInTx arg : InTx (clearTableInTx arg).
Proof.
  unfold clearTableInTx, CloseTableSession, MarkTableAvailable, GetTableState. apply _.
Qed.
#[export] Instance in_tx_changeAssistInTx arg next : InTx (changeAssistInTx arg next).
Proof.
  unfold changeAssistInTx, LockAssistRequest, AcknowledgeAssistRequest, ResolveAssistRequest,
    CancelAssistRequest. apply _.
Qed.

(** ** The outbox writer *)

(** [outbox_added ev eid topic payload now dests m m']: one pending record per
    destination, each under a fresh id. *)
Inductive outbox_added (org loc eid : uuid) (topic : string) (payload : json) (now : Z) :
    list string -> gmap N OutboxRecord -> gmap N OutboxRecord -> Prop :=
| outbox_added_nil m : outbox_added org loc eid topic payload now [] m m
| outbox_added_cons m m' id dst dests :
    m !! id = None ->
    outbox_added org loc eid topic payload now dests
      (<[id := new_outbox_record org loc eid topic dst payload now id]> m) m' ->
    outbox_added org loc eid topic payload now (dst :: dests) m m'.

Lemma outbox_added_keeps org loc eid tp p now dests m m' id r :
  outbox_added org loc eid tp p now dests m m' -> m !! id = Some r -> m' !! id = Some r.
Proof.
  induction 1 as [|m m' id' dst dests Hf _ IH]; [done|]. intros Hid. apply IH.
  rewrite lookup_insert_ne; [done|congruence].
Qed.

(** Every destination has its record afterwards. *)
Lemma outbox_added_all org loc eid tp p now dests m m' dst :
  outbox_added org loc eid tp p now dests m m' -> dst ∈ dests ->
  exists id, m !! id = None /\ m' !! id = Some (new_outbox_record org loc eid tp dst p now id).
Proof.
  induction 1 as [|m m' id d dests Hf Hadd IH]; [by intros []%not_elem_of_nil|].
  intros [->|Hin]%elem_of_cons.
  - exists id. split; [done|]. eapply outbox_added_keeps; [done|]. apply lookup_insert_eq.
  - destruct (IH Hin) as (id' & Hn & Hs). exists id'. split; [|done].
    destruct (decide (id' = id)) as [->|Hne]; [done|].
    by rewrite lookup_insert_ne in Hn.
Qed.

(** Nothing else is added. *)
Lemma outbox_added_only org loc eid tp p now dests m m' id r :
  outbox_added org loc eid tp p now dests m m' -> m' !! id = Some r ->
  m !! id = Some r \/ exists dst, dst ∈ dests /\ r = new_outbox_record org loc eid tp dst p now id.
Proof.
  induction 1 as [|m m' id' d dests Hf Hadd IH]; [by left|].
  intros Hr. destruct (IH Hr) as [Hr'|(dst & Hin & ->)].
  - destruct (decide (id = id')) as [->|Hne].
    + rewrite lookup_insert_eq in Hr'. injection Hr' as <-. right. exists d.
      split; [left|done].
    + left. by rewrite lookup_insert_ne in Hr'.
  - right. exists dst. split; [by right|done].
Qed.

Lemma for_each_outbox org loc eid tp p dests e s u s' :
  for_each dests (fun dst => insertOutboxRecord org loc eid tp dst p) e s = (Ok u, s') ->
  exists m', outbox_added org loc eid tp p (st_now s) dests (db_outbox (st_db s)) m' /\
    st_db s' = set_outbox m' (st_db s).
Proof.
  revert s. induction dests as [|dst dests IH]; intros s H; simpl in H.
  - injection H as _ <-. exists (db_outbox (st_db s)). split; [constructor|].
    by destruct (st_db s).
  - apply bind_Ok in H as ([] & s1 & H1 & H). unfold insertOutboxRecord in H1. go_steps H1.
    apply insert_row_Ok in Hrun as (-> & Hfresh & _ & ->).
    apply IH in H as (m' & Hadd & Hdb). exists m'. split.
    + econstructor; [exact Hfresh|]. exact Hadd.
    + rewrite Hdb. by destruct (st_db s).
Qed.

(** The effect of one event: its row under the fresh id [eid], and one outbox
    record per destination carrying its envelope. *)
Definition event_payload (ev : operationalEvent) (eid : uuid) (time : Z)
    (trace : string * string) : json :=
  Envelope_to_json (event_envelope ev eid time trace).

Definition event_added (ev : operationalEvent) (tnow : Z) (eid : uuid) (time : Z)
    (d d' : Db) : Prop :=
  exists trace ob,
    db_events d !! eid = None /\
    event_ok d eid (event_row ev eid time (event_payload ev eid time trace)) = Ok tt /\
    outbox_added (ope_OrganisationID ev) (ope_LocationID ev) eid (event_topic ev)
      (event_payload ev eid time trace) tnow (event_destinations ev) (db_outbox d) ob /\
    d' = set_outbox ob
           (set_events (<[eid := event_row ev eid time (event_payload ev eid time trace)]>
              (db_events d)) d).

Lemma writeOperationalEvent_Ok ev e s u s' :
  writeOperationalEvent ev e s = (Ok u, s') ->
  exists eid time, event_added ev (st_now s) eid time (st_db s) (st_db s').
Proof.
  intros H. unfold writeOperationalEvent in H.
  apply bind_Ok in H as (eid & s1 & [= <- <-] & H).
  apply bind_Ok in H as (now & s2 & [= <- <-] & H).
  apply bind_Ok in H as (trace & s3 & [= <- <-] & H).
  go_steps H. apply insert_row_Ok in Hrun as (-> & Hfresh & Hok & ->).
  apply for_each_outbox in H as (m' & Hadd & Hdb).
  do 2 eexists. exists (env_traceparent e, env_tracestate e), m'. simpl in *.
  split; [exact Hfresh|]. split; [exact Hok|]. split; [exact Hadd|]. by rewrite Hdb.
Qed.

(** ** The command runner *)

Definition recorded (org : uuid) (meta : CommandMeta) (d : Db) (rep : CommandReplay) : Prop :=
  exists r, db_idempotency d !! (org, cmd_ID meta) = Some r /\
    idr_CommandType r = cmd_Type meta /\ idr_PayloadHash r = cmd_PayloadHash meta /\
    rep = {| rep_Replayed := true; rep_Status := idr_ResponseStatus r;
             rep_Body := Some (idr_ResponseBody r) |}.

Lemma getIdempotencyReplay_Ok org meta e s o s' :
  getIdempotencyReplay org meta e s = (Ok o, s') ->
  st_db s' = st_db s /\
  match o with
  | Some rep => recorded org meta (st_db s) rep
  | None => db_idempotency (st_db s) !! (org, cmd_ID meta) = None
  end.
Proof.
  unfold getIdempotencyReplay. intros H. apply bind_Ok in H as (r & s1 & Hq & H).
  apply attempt_Ok in Hq. destruct r as [rec|err].
  - apply exec_Ok in Hq as (_ & d & (Hr & _ & ->)%select_one_Ok & ->).
    destruct (negb _ || _) eqn:Hc; [done|]. apply orb_false_elim in Hc as [Hc1 Hc2].
    apply negb_false_iff in Hc1, Hc2. apply String.eqb_eq in Hc1. apply bool_decide_eq_true in Hc2.
    apply ret_Ok in H as [<- <-]. split; [done|]. exists rec. done.
  - apply exec_Err in Hq as (-> & [(f & _ & ->)|(_ & [-> Hn]%select_one_Err)]); simpl in H.
    { done. }
    apply ret_Ok in H as [<- <-]. split; [done|]. simpl.
    destruct (db_idempotency (st_db s) !! _) eqn:Hl; [|done]. by specialize (Hn _ eq_refl).
Qed.

(** The record a command leaves, under its (organisation, command) key. *)
Definition idempotency_added (org loc : uuid) (meta : CommandMeta) (rep : CommandReplay)
    (d d' : Db) : Prop :=
  exists r, db_idempotency d !! (org, cmd_ID meta) = None /\
    d' = set_idempotency (<[(org, cmd_ID meta) := r]> (db_idempotency d)) d /\
    idr_OrganisationID r = org /\ idr_CommandID r = cmd_ID meta /\
    idr_LocationID r = Some loc /\
    idr_CommandType r = cmd_Type meta /\ idr_PayloadHash r = cmd_PayloadHash meta /\
    idr_ResponseStatus r = rep_Status rep /\ rep_Body rep = Some (idr_ResponseBody r) /\
    idempotency_checks r = true.

Lemma insertIdempotencyRecord_Ok org loc actor meta st body e s u s' :
  insertIdempotencyRecord org loc actor meta st body e s = (Ok u, s') ->
  idempotency_added org loc meta
    {| rep_Replayed := false; rep_Status := st; rep_Body := Some body |} (st_db s) (st_db s').
Proof.
  unfold insertIdempotencyRecord. intros H. go_steps H.
  apply insert_row_Ok in Hrun as (-> & Hfresh & Hok & ->). subst.
  eexists. split; [exact Hfresh|]. split; [reflexivity|].
  unfold idempotency_ok in Hok. checks_in Hok. repeat (split; [reflexivity|]). exact Hchk.
Qed.

Section Runner.
Context {T : Type} (org loc : uuid) (actor : string) (meta : CommandMeta).
Context (execute : Go T) (after : T -> Go unit).
Context (encode : option (T -> result error (Z * option json))).
Context {Hexecute : InTx execute} {Hafter : forall v, InTx (after v)}.

Definition response (v : T) (status : Z) (body : option json) : Prop :=
  match encode with
  | None => status = 200 /\ body = None
  | Some enc => enc v = Ok (status, body)
  end.

(** The command ran from [d] to [d'] and would answer [rep]. *)
Definition executed (e : Env) (d : Db) (v : T) (rep : CommandReplay) (d' : Db) : Prop :=
  exists s1 s2 s3 status body,
  st_db s1 = d /\ (exists t, st_now s1 = pg_time (env_pgclock e t)) /\
  execute e s1 = (Ok v, s2) /\ after v e s2 = (Ok tt, s3) /\
  response v status body /\ rep_Replayed rep = false /\ rep_Status rep = status /\
  (if (cmd_ID meta =? uuid_Nil)%N then rep_Body rep = body /\ d' = st_db s3
   else db_idempotency d !! (org, cmd_ID meta) = None /\
    rep_Body rep = Some (default (JObj []) body) /\
    idempotency_added org loc meta rep (st_db s3) d').

Lemma replay_lookup_Ok e s o s' :
  (if (cmd_ID meta =? uuid_Nil)%N then mret None
   else or_rollback id (getIdempotencyReplay org meta)) e s = (Ok o, s') ->
  st_db s' = st_db s /\ st_saved s' = st_saved s /\ st_now s' = st_now s /\
  match o with
  | Some rep => cmd_ID meta <> uuid_Nil /\ recorded org meta (st_db s) rep
  | None => cmd_ID meta <> uuid_Nil -> db_idempotency (st_db s) !! (org, cmd_ID meta) = None
  end.
Proof.
  destruct (cmd_ID meta =? uuid_Nil)%N eqn:Hid.
  - intros [<- <-]%ret_Ok. apply N.eqb_eq in Hid. done.
  - intros H%or_rollback_Ok. pose proof (in_tx _ _ _ _ H) as [-> ->].
  apply getIdempotencyReplay_Ok in H as [-> Ho]. apply N.eqb_neq in Hid.
  destruct o; done.
Qed.

Lemma record_Ok v st bd e s b s' :
  (if (cmd_ID meta =? uuid_Nil)%N then mret bd
   else or_rollback id (insertIdempotencyRecord org loc actor meta st (default (JObj []) bd)) ;;
  mret (Some (default (JObj []) bd))) e s = (Ok b, s') ->
  forall d0, st_db s = d0 -> response v st bd ->
  st_saved s' = st_saved s /\
  (if (cmd_ID meta =? uuid_Nil)%N then b = bd /\ st_db s' = d0
   else b = Some (default (JObj []) bd) /\
  idempotency_added org loc meta
    {| rep_Replayed := false; rep_Status := st; rep_Body := b |} d0 (st_db s')).
Proof.
  destruct (cmd_ID meta =? uuid_Nil)%N eqn:Hid.
  - intros [<- <-]%ret_Ok d0 Hd _. done.
  - intros H d0 Hd _. apply bind_Ok in H as ([] & s1 & H & [<- <-]%ret_Ok).
  apply or_rollback_Ok in H. pose proof (in_tx _ _ _ _ H) as [-> _].
  apply insertIdempotencyRecord_Ok in H. by subst.
Qed.
(** The body of the transaction after the replay lookup found nothing. *)
Lemma executed_intro e s0 t v s1 s2 status body b s4 :
  (cmd_ID meta <> uuid_Nil -> db_idempotency (st_db s0) !! (org, cmd_ID meta) = None) ->
  st_now s0 = pg_time (env_pgclock e t) ->
  execute e s0 = (Ok v, s1) -> after v e s1 = (Ok tt, s2) ->
  response v status body ->
  (if (cmd_ID meta =? uuid_Nil)%N then b = body /\ st_db s4 = st_db s2
   else b = Some (default (JObj []) body) /\
  idempotency_added org loc meta
    {| rep_Replayed := false; rep_Status := status; rep_Body := b |} (st_db s2) (st_db s4)) ->
  executed e (st_db s0) v {| rep_Replayed := false; rep_Status := status; rep_Body := b |}
  (st_db s4).
Proof.
  intros Hno Hnow Hex Haf Hresp Hrec. exists s0, s1, s2, status, body.
  do 7 (split; [by eauto|]). destruct (cmd_ID meta =? uuid_Nil)%N eqn:Hid.
  - destruct Hrec as [-> ->]. done.
  - apply N.eqb_neq in Hid. destruct Hrec as [-> Hrec]. auto.
Qed.

Lemma encode_Ok e s v resp s' :
  match encode with
  | None => mret (200, None)
  | Some enc => or_rollback (Wrap "encoding idempotency response") (lift (enc v))
  end e s = (Ok resp, s') ->
  s' = s /\ response v resp.1 resp.2.
Proof.
  unfold response. destruct encode as [enc|].
  - intros H%or_rollback_Ok. unfold lift in H. injection H as -> ->. split; [done|].
  by destruct resp.
  - by intros [<- <-]%ret_Ok.
Qed.

(** The three outcomes of [runTenantCommand]. *)
Lemma runTenantCommand_inv e s r s' :
  runTenantCommand org loc actor meta execute after encode e s = (r, s') ->
  (exists err, r = Err err /\ st_db s' = st_db s) \/
  (exists rep, cmd_ID meta <> uuid_Nil /\ recorded org meta (st_db s) rep /\
   st_db s' = st_db s /\ (r = Ok (None, rep) \/ (exists err, r = Err err))) \/
  (exists v rep, executed e (st_db s) v rep (st_db s') /\
   (r = Ok (Some v, rep) \/ (exists err, r = Err err) /\ lost_commit e)).
Proof.
  intros H. unfold runTenantCommand in H.
  apply begin_step in H as [?|(s0 & Hd0 & Hs0 & Hn0 & H)]; [by left|].
  apply (context_step _ _ _ _ _ _ (st_db s)) in H as [?|(s1 & Hd1 & Hs1 & Hn1 & H)];
  [by left| |done|done].
  apply (guarded_step _ _ _ _ _ _ (st_db s)) in H as [?|(found & s2 & Hf & Hs2 & Hn2 & H)];
  [by left| |apply _|done].
  apply replay_lookup_Ok in Hf as (Hd2 & _ & _ & Hf). rewrite Hd1 in Hd2, Hf.
  destruct found as [rep|].
  { destruct Hf as [Hid Hrec].
  apply (commit_step _ _ _ _ _ _ (st_db s)) in H as [?|[Hdb Hr]]; [by left| |done].
  right; left. exists rep. rewrite Hdb. split_and!; [done|done|done|]. naive_solver. }
  apply (guarded_step _ _ _ _ _ _ (st_db s)) in H as [?|(v & s3 & Hv & Hs3 & _ & H)];
  [by left| |apply _|done].
  apply (guarded_step _ _ _ _ _ _ (st_db s)) in H as [?|([] & s4 & Ha & Hs4 & _ & H)];
  [by left| |apply _|done].
  apply or_rollback_Ok in Hv. apply or_rollback_Ok in Ha.
  apply (guarded_step _ _ _ _ _ _ (st_db s)) in H as [?|(resp & s5 & He & Hs5 & _ & H)];
  [by left| |apply _|done].
  apply encode_Ok in He as [-> Hresp].
  apply (guarded_step _ _ _ _ _ _ (st_db s)) in H as [?|(b & s6 & Hb & Hs6 & _ & H)];
  [by left| |apply _|done].
  eapply record_Ok in Hb as [_ Hb]; [|done|exact Hresp].
  apply (commit_step _ _ _ _ _ _ (st_db s)) in H as [?|[Hdb Hr]]; [by left| |done].
  right; right. exists v, {| rep_Replayed := false; rep_Status := resp.1; rep_Body := b |}.
  split; [|done]. rewrite Hdb, <- Hd2.
  eapply (executed_intro e s2 (st_tick s)); eauto; [by rewrite Hd2|by rewrite Hn2, Hn1].
Qed.
End Runner.

(** ** What the bookkeeping leaves alone *)

(** The floor: occupancy, sessions and assists. *)
Definition same_floor (d d' : Db) : Prop :=
  db_occupancy d' = db_occupancy d /\ db_sessions d' = db_sessions d /\
  db_assists d' = db_assists d.

#[export] Instance same_floor_equiv : Equivalence same_floor.
Proof. split; unfold same_floor; [done|intros ?? (?&?&?)|intros ??? (?&?&?) (?&?&?)]; naive_solver congruence. Qed.

Lemma event_added_frame ev tnow eid time d d' :
  event_added ev tnow eid time d d' ->
  same_floor d d' /\ db_idempotency d' = db_idempotency d /\ db_qr d' = db_qr d /\
  db_tables d' = db_tables d /\ db_locations d' = db_locations d /\
  db_consumer_events d' = db_consumer_events d /\
  exists trace,
    db_events d' = <[eid := event_row ev eid time (event_payload ev eid time trace)]> (db_events d) /\
    outbox_added (ope_OrganisationID ev) (ope_LocationID ev) eid (event_topic ev)
      (event_payload ev eid time trace) tnow (event_destinations ev) (db_outbox d) (db_outbox d').
Proof. intros (trace & ob & _ & _ & Hob & ->). repeat split. by exists trace. Qed.

(** Everything but the idempotency records, which only grow, is as it was. *)
Definition bookkeeping (d d' : Db) : Prop :=
  same_floor d d' /\ db_events d' = db_events d /\ db_outbox d' = db_outbox d /\
  db_qr d' = db_qr d /\ db_tables d' = db_tables d /\ db_locations d' = db_locations d /\
  db_consumer_events d' = db_consumer_events d /\ db_idempotency d ⊆ db_idempotency d'.

Lemma bookkeeping_refl d : bookkeeping d d.
Proof. done. Qed.

Lemma idempotency_added_frame org loc meta rep d d' :
  idempotency_added org loc meta rep d d' -> bookkeeping d d'.
Proof. intros (r & Hf & -> & _). split_and!; try done. by apply insert_subseteq. Qed.

(** The event [ev] was written, and nothing else happened but bookkeeping. *)
Definition logged (ev : operationalEvent) (tnow : Z) (eid : uuid) (time : Z) (d d' : Db) : Prop :=
  exists d2, event_added ev tnow eid time d d2 /\ bookkeeping d2 d'.

(** What a command that ran leaves around its body and its [after]. *)
Lemma executed_frame {T} org loc meta (execute : Go T) after encode e d v rep d' :
  executed org loc meta execute after encode e d v rep d' ->
  exists s1 s2 s3,
    st_db s1 = d /\ (exists t, st_now s1 = pg_time (env_pgclock e t)) /\
    execute e s1 = (Ok v, s2) /\ after v e s2 = (Ok tt, s3) /\ bookkeeping (st_db s3) d'.
Proof.
  intros (s1 & s2 & s3 & status & body & Hd & Hnow & Hex & Haf & _ & _ & _ & Hid).
  exists s1, s2, s3. do 4 (split; [done|]).
  destruct (cmd_ID meta =? uuid_Nil)%N.
  - destruct Hid as [_ ->]. apply bookkeeping_refl.
  - destruct Hid as (_ & _ & Hadd). by eapply idempotency_added_frame.
Qed.

(** A command that ran and wrote one event: its body, then its bookkeeping. *)
Lemma executed_event {T} org loc meta (execute : Go T) (ev : T -> operationalEvent) encode
    e d v rep d' :
  executed org loc meta execute (fun v => writeOperationalEvent (ev v)) encode e d v rep d' ->
  exists s1 s2 eid time,
    st_db s1 = d /\ (exists t, st_now s1 = pg_time (env_pgclock e t)) /\
    execute e s1 = (Ok v, s2) /\ logged (ev v) (st_now s2) eid time (st_db s2) d'.
Proof.
  intros (s1 & s2 & s3 & Hd & Hnow & Hex & Haf & Hbk)%executed_frame.
  apply writeOperationalEvent_Ok in Haf as (eid & time & Hadd).
  exists s1, s2, eid, time. do 3 (split; [done|]). by exists (st_db s3).
Qed.
