(* ===== verification/FloorSpec.v ===== *)
(** What the floor of a restaurant promises, independently of how the services
    keep it: a table is free or occupied by a session, with a version that every
    change increments; an assist request has a status and a version.  And what the
    commands of [internal/domain/operations/service.go] do: on success, when they
    fail, and the invariants every history of commands keeps. *)

From S2P Require Import Prelude Json Schema GoTx Store Queries Events Operations TxFacts CommandFacts.
#[local] Open Scope string_scope.
#[local] Open Scope Z_scope.
#[local] Open Scope list_scope.

(** ** The abstract state *)

Inductive TableState :=
| Free (version : Z)
| Occupied (version : Z) (session : uuid).

Inductive AssistState := Assist (status : string) (version : Z).

Record Floor := { fl_tables : gmap N TableState; fl_assists : gmap N AssistState }.

(** ** Its steps *)

Inductive floor_step : Floor -> Floor -> Prop :=
| FloorOccupy f t v s :
    fl_tables f !! t = Some (Free v) ->
    (forall t' v', fl_tables f !! t' <> Some (Occupied v' s)) ->
    floor_step f {| fl_tables := <[t := Occupied (v + 1) s]> (fl_tables f);
                    fl_assists := fl_assists f |}
| FloorClear f t v s :
    fl_tables f !! t = Some (Occupied v s) ->
    floor_step f {| fl_tables := <[t := Free (v + 1)]> (fl_tables f);
                    fl_assists := fl_assists f |}
| FloorRequest f a :
    fl_assists f !! a = None ->
    floor_step f {| fl_tables := fl_tables f;
                    fl_assists := <[a := Assist "pending" 1]> (fl_assists f) |}
| FloorAssist f a st st' v :
    fl_assists f !! a = Some (Assist st v) ->
    validAssistTransition st st' = true ->
    floor_step f {| fl_tables := fl_tables f;
                    fl_assists := <[a := Assist st' (v + 1)]> (fl_assists f) |}.

(** ** The abstraction of a database *)

Definition table_state (o : TableOccupancy) : TableState :=
  match occ_CurrentSessionID o with
  | None => Free (occ_Version o)
  | Some s => Occupied (occ_Version o) s
  end.

Definition assist_state (a : AssistRequest) : AssistState :=
  Assist (ast_Status a) (ast_Version a).

Definition floor_of (d : Db) : Floor :=
  {| fl_tables := table_state <$> db_occupancy d;
     fl_assists := assist_state <$> db_assists d |}.

(** ** The invariant of the concrete state

    A table is occupied exactly when its occupancy row points at a session of
    that table which has not ended, and a session that has not ended is the one
    its table's occupancy points at. *)

Record floor_inv (d : Db) : Prop := {
  fi_occupancy : forall t o, db_occupancy d !! t = Some o ->
    occ_TableID o = t /\ occupancy_checks o = true /\
    forall sid, occ_CurrentSessionID o = Some sid ->
      exists x, db_sessions d !! sid = Some x /\ session_active_on t x = true /\
        ses_OrganisationID x = occ_OrganisationID o /\ ses_LocationID x = occ_LocationID o;
  fi_sessions : forall sid x, db_sessions d !! sid = Some x ->
    ses_ID x = sid /\ session_checks x = true /\
    (ses_EndedAt x = None ->
       exists o, db_occupancy d !! ses_TableID x = Some o /\ occ_CurrentSessionID o = Some sid);
  fi_assists : forall a r, db_assists d !! a = Some r ->
    ast_ID r = a /\ assist_checks r = true;
}.

Lemma free_no_session o : occupancy_checks o = true -> occ_Status o = "available" ->
  occ_CurrentSessionID o = None.
Proof.
  unfold occupancy_checks. intros Hck Hs. rewrite Hs in Hck.
  destruct (occ_CurrentSessionID o); [|done]. simpl in Hck. by rewrite !andb_false_r in Hck.
Qed.

(** At most one active session per table. *)
Lemma one_active_session d s1 s2 x1 x2 :
  floor_inv d -> db_sessions d !! s1 = Some x1 -> db_sessions d !! s2 = Some x2 ->
  ses_EndedAt x1 = None -> ses_EndedAt x2 = None -> ses_TableID x1 = ses_TableID x2 -> s1 = s2.
Proof.
  intros Hi H1 H2 He1 He2 Ht.
  destruct (fi_sessions _ Hi _ _ H1) as (_ & _ & Ho1).
  destruct (fi_sessions _ Hi _ _ H2) as (_ & _ & Ho2).
  destruct (Ho1 He1) as (o1 & Hl1 & Hc1), (Ho2 He2) as (o2 & Hl2 & Hc2). congruence.
Qed.

(** ** Writes that keep the invariant *)

Lemma floor_inv_same d d' : same_floor d d' -> floor_inv d -> floor_inv d'.
Proof.
  intros (Ho & Hs & Ha) [H1 H2 H3]. split; rewrite ?Ho, ?Hs, ?Ha; done.
Qed.

Lemma floor_of_same d d' : same_floor d d' -> floor_of d' = floor_of d.
Proof. intros (Ho & _ & Ha). unfold floor_of. by rewrite Ho, Ha. Qed.

(** The table's occupancy row and one session row change together: the new pair
    must be coherent, and the session the row pointed at must have ended unless
    it is the one it still points at. *)
Lemma floor_inv_table d t o o' sid x' :
  floor_inv d -> db_occupancy d !! t = Some o ->
  occ_TableID o' = t -> occupancy_checks o' = true -> ses_ID x' = sid ->
  session_checks x' = true -> ses_TableID x' = t ->
  (occ_CurrentSessionID o' = None /\ occ_CurrentSessionID o = Some sid /\ ses_EndedAt x' <> None \/
   occ_CurrentSessionID o' = Some sid /\ occ_CurrentSessionID o = None /\ ses_EndedAt x' = None /\
   db_sessions d !! sid = None /\
   ses_OrganisationID x' = occ_OrganisationID o' /\ ses_LocationID x' = occ_LocationID o') ->
  floor_inv (set_occupancy (<[t := o']> (db_occupancy d))
    (set_sessions (<[sid := x']> (db_sessions d)) d)).
Proof.
  intros [Hocc Hses Hast] Ho Hid Hck Hsid Hsck Htbl Hcase. split; simpl; [| |done].
  - intros t2 o2 [[<- <-]|[Hne Ho2]]%lookup_insert_Some.
    + split_and!; [done..|]. intros sid2 Hc. exists x'.
      destruct Hcase as [(Hn & _)|(Hs & _ & He & _ & Horg & Hloc)]; [congruence|].
      rewrite Hs in Hc. injection Hc as <-. split_and!; [by rewrite lookup_insert_eq| |done..].
      unfold session_active_on. by rewrite Htbl, N.eqb_refl, He.
    + destruct (Hocc _ _ Ho2) as (? & ? & Hcur). split_and!; [done..|].
      intros sid2 Hc. destruct (Hcur _ Hc) as (x & Hx & Hact & Horgloc). exists x.
      split; [|done]. rewrite lookup_insert_ne; [done|]. intros <-.
      destruct Hcase as [(_ & Hs & _)|(_ & _ & _ & Hf & _)]; [|congruence].
      destruct (Hocc _ _ Ho) as (_ & _ & Hcur').
      destruct (Hcur' _ Hs) as (x2 & Hx2 & Hact2 & _). rewrite Hx in Hx2. injection Hx2 as <-.
      unfold session_active_on in Hact, Hact2. bool_facts.
      repeat match goal with H : N.eqb _ _ = true |- _ => apply N.eqb_eq in H end. congruence.
  - intros sid2 x2 [[<- <-]|[Hne Hx2]]%lookup_insert_Some.
    + split_and!; [done..|]. intros He. exists o'. rewrite Htbl, lookup_insert_eq. split; [done|].
      destruct Hcase as [(_ & _ & Hn)|(Hs & _)]; [done|by rewrite Hs].
    + destruct (Hses _ _ Hx2) as (? & ? & Hact). split_and!; [done..|].
      intros He. destruct (Hact He) as (o2 & Ho2 & Hc2).
      destruct (decide (t = ses_TableID x2)) as [->|Hne2].
      * rewrite Ho in Ho2. injection Ho2 as <-.
        destruct Hcase as [(_ & Hs & _)|(_ & Hn & _)]; congruence.
      * exists o2. by rewrite lookup_insert_ne.
Qed.

Lemma floor_inv_assist d a r :
  floor_inv d -> ast_ID r = a -> assist_checks r = true ->
  floor_inv (set_assists (<[a := r]> (db_assists d)) d).
Proof.
  intros [Hocc Hses Hast] Hid Hck. split; simpl; [done..|].
  intros a2 r2 [[<- <-]|[_ Hr2]]%lookup_insert_Some; eauto.
Qed.

(** ** Successful bodies, as equations on the database *)

Lemma lockTableOccupancy_Ok t org loc e s o s' :
  lockTableOccupancy t org loc e s = (Ok o, s') ->
  live_table (st_db s) t = true /\ db_occupancy (st_db s) !! t = Some o /\
  occ_in_scope t org loc o = true /\ st_db s' = st_db s /\ st_now s' = st_now s.
Proof.
  unfold lockTableOccupancy, LockTableOccupancy. intros H. go_steps H.
  destruct (live_table (st_db s) t) eqn:Hl; [|done].
  apply select_one_Ok in H as (? & ? & ->). done.
Qed.

Lemma GetTableState_Ok t org loc e s x s' :
  GetTableState t org loc e s = (Ok x, s') ->
  db_tables (st_db s) !! t = Some x.1 /\ db_occupancy (st_db s) !! t = Some x.2 /\
  st_db s' = st_db s.
Proof.
  unfold GetTableState. intros H. go_steps H.
  destruct (db_tables (st_db s) !! t); [|done]. destruct (db_occupancy (st_db s) !! t); [|done].
  case_match; [|done]. by injection H as <- <-.
Qed.

(** The database after a table was occupied (or cleared): the occupancy row
    [o'] and the session row [x'] replace what stood under their keys. *)
Definition table_changed (t : uuid) (o' : TableOccupancy) (x' : TableSession) (d : Db) : Db :=
  set_occupancy (<[t := o']> (db_occupancy d))
    (set_sessions (<[ses_ID x' := x']> (db_sessions d)) d).

Lemma occupyTableInTx_Ok arg e s res s' :
  occupyTableInTx arg e s = (Ok res, s') ->
  let t := ocp_TableID arg in
  exists o, live_table (st_db s) t = true /\ db_occupancy (st_db s) !! t = Some o /\
    occ_in_scope t (ocp_OrganisationID arg) (ocp_LocationID arg) o = true /\
    occ_Status o = "available" /\ occ_Version o = ocp_ExpectedVersion arg /\
    occ_Version o + 1 <= int32_max /\
    (exists id, res_Session res =
       new_session (ocp_OrganisationID arg) (ocp_LocationID arg) t (ocp_PartySize arg)
         (nullableText (ocp_ActorRef arg)) (ocp_Source arg) (st_now s) id) /\
    db_sessions (st_db s) !! ses_ID (res_Session res) = None /\
    session_ok (st_db s) (ses_ID (res_Session res)) (res_Session res) = Ok tt /\
    occupied_row (Some (ses_ID (res_Session res))) (nullableText (ocp_ActorRef arg)) (st_now s) o
      = Ok (res_Occupancy res) /\
    occupancy_checks (res_Occupancy res) = true /\
    db_tables (st_db s) !! t = Some (res_Table res) /\
    st_db s' = table_changed t (res_Occupancy res) (res_Session res) (st_db s).
Proof.
  intros H t. subst t. unfold occupyTableInTx in H.
  apply bind_Ok in H as (o & s1 & Hlock & H).
  apply lockTableOccupancy_Ok in Hlock as (Hlive & Ho & Hscope & Hd1 & Hn1).
  unfold CreateTableSession, MarkTableOccupied in H. go_steps H.
  match goal with HG : GetTableState _ _ _ _ _ = _ |- _ =>
    apply GetTableState_Ok in HG as (Htb & _ & Hd4) end.
  stmt_facts. subst. simpl in *. rewrite Hd1 in *. rewrite Hn1 in *. simplify_eq.
  bool_facts. match goal with Hs : String.eqb _ _ = true |- _ => apply String.eqb_eq in Hs end.
  assert (occ_Version o + 1 <= int32_max).
  { unfold occupied_row in Hset. apply res_bind_Ok in Hset as (v & Hv%int4_succ_Ok & _). lia. }
  unfold occupancy_ok in Hok. apply res_bind_Ok in Hok as (? & [Hck _]%check_Ok & _).
  exists o. split_and!; try done. by eexists.
Qed.

Lemma clearTableInTx_Ok arg e s res s' :
  clearTableInTx arg e s = (Ok res, s') ->
  let t := clp_TableID arg in
  exists o x sid, live_table (st_db s) t = true /\ db_occupancy (st_db s) !! t = Some o /\
    occ_in_scope t (clp_OrganisationID arg) (clp_LocationID arg) o = true /\
    occ_Status o = "occupied" /\ occ_Version o = clp_ExpectedVersion arg /\
    occ_Version o + 1 <= int32_max /\
    occ_CurrentSessionID o = Some sid /\ db_sessions (st_db s) !! sid = Some x /\
    ses_OrganisationID x = clp_OrganisationID arg /\ ses_LocationID x = clp_LocationID arg /\
    ses_EndedAt x = None /\
    closed_session (nullableText (clp_ActorRef arg)) (st_now s) x = Ok (res_Session res) /\
    session_ok (st_db s) sid (res_Session res) = Ok tt /\
    available_row (nullableText (clp_ActorRef arg)) (st_now s) o = Ok (res_Occupancy res) /\
    occupancy_checks (res_Occupancy res) = true /\
    db_tables (st_db s) !! t = Some (res_Table res) /\
    st_db s' = set_occupancy (<[t := res_Occupancy res]> (db_occupancy (st_db s)))
                 (set_sessions (<[sid := res_Session res]> (db_sessions (st_db s))) (st_db s)).
Proof.
  intros H t. subst t. unfold clearTableInTx in H.
  apply bind_Ok in H as (o & s1 & Hlock & H).
  apply lockTableOccupancy_Ok in Hlock as (Hlive & Ho & Hscope & Hd1 & Hn1).
  go_steps H. destruct (occ_CurrentSessionID o) as [sid|] eqn:Hsid; [|done].
  unfold CloseTableSession, MarkTableAvailable in H. go_steps H.
  match goal with HG : GetTableState _ _ _ _ _ = _ |- _ =>
    apply GetTableState_Ok in HG as (Htb & _ & Hd4) end.
  stmt_facts. subst. simpl in *. rewrite Hd1 in *. rewrite Hn1 in *. simplify_eq.
  bool_facts. repeat match goal with
    | Hs : String.eqb _ _ = true |- _ => apply String.eqb_eq in Hs
    | Hs : N.eqb _ _ = true |- _ => apply N.eqb_eq in Hs
    end.
  assert (occ_Version o + 1 <= int32_max).
  { unfold available_row in Hset. apply res_bind_Ok in Hset as (v & Hv%int4_succ_Ok & _). lia. }
  unfold occupancy_ok in Hok. apply res_bind_Ok in Hok as (? & [Hck _]%check_Ok & _).
  exists o, row0, sid. split_and!; try done. by destruct (ses_EndedAt row0).
Qed.

(** The row each assist command writes. *)
Definition assist_row (next : string) (by_ : option string) (now : Z) (a : AssistRequest)
    : result error AssistRequest :=
  if String.eqb next AssistStatusAcknowledged then acknowledged_row by_ now a
  else if String.eqb next AssistStatusResolved then resolved_row by_ now a
  else cancelled_row by_ now a.

Lemma changeAssistInTx_Ok arg next e s a' s' :
  changeAssistInTx arg next e s = (Ok a', s') ->
  let id := cap_AssistID arg in
  exists a, db_assists (st_db s) !! id = Some a /\
    ast_in_scope (cap_OrganisationID arg) (cap_LocationID arg) a = true /\
    ast_Version a = cap_ExpectedVersion arg /\
    validAssistTransition (ast_Status a) next = true /\
    assist_row next (nullableText (cap_ActorRef arg)) (st_now s) a = Ok a' /\
    assist_ok (st_db s) id a' = Ok tt /\
    st_db s' = set_assists (<[id := a']> (db_assists (st_db s))) (st_db s).
Proof.
  intros H id. subst id. unfold changeAssistInTx, LockAssistRequest in H. go_steps H.
  stmt_facts. subst. exists r. bool_facts.
  destruct (String.eqb next AssistStatusAcknowledged) eqn:H1;
    [|destruct (String.eqb next AssistStatusResolved) eqn:H2;
      [|destruct (String.eqb next AssistStatusCancelled) eqn:H3; [|done]]];
    unfold AcknowledgeAssistRequest, ResolveAssistRequest, CancelAssistRequest in H;
    go_steps H; stmt_facts; subst; simpl in *; simplify_eq;
    unfold assist_row; rewrite H1, ?H2; split_and!; done.
Qed.

(** Only the three transitions of the switch are valid. *)
Lemma validAssistTransition_cases cur next :
  validAssistTransition cur next = true ->
  next = AssistStatusAcknowledged /\ cur = AssistStatusPending \/
  (next = AssistStatusResolved \/ next = AssistStatusCancelled) /\
  (cur = AssistStatusPending \/ cur = AssistStatusAcknowledged).
Proof.
  unfold validAssistTransition. intros H.
  repeat match goal with
  | H : context [String.eqb ?x ?y] |- _ => destruct (String.eqb_spec x y); simpl in H; subst
  end; naive_solver.
Qed.

(** What the three rows have in common. *)
Lemma assist_row_fields next by_ now a a' :
  assist_row next by_ now a = Ok a' -> validAssistTransition (ast_Status a) next = true ->
  ast_ID a' = ast_ID a /\ ast_OrganisationID a' = ast_OrganisationID a /\
  ast_LocationID a' = ast_LocationID a /\ ast_TableID a' = ast_TableID a /\
  ast_TableSessionID a' = ast_TableSessionID a /\ ast_Status a' = next /\
  ast_Version a' = ast_Version a + 1 /\ ast_Source a' = ast_Source a /\
  ast_ActionKey a' = ast_ActionKey a /\ ast_RequestedAt a' = ast_RequestedAt a /\
  in_int32 (ast_Version a') = true.
Proof.
  intros H Hv. apply validAssistTransition_cases in Hv.
  assert (next = AssistStatusAcknowledged \/ next = AssistStatusResolved \/
          next = AssistStatusCancelled) as Hn by naive_solver.
  destruct Hn as [->|[->| ->]]; unfold assist_row in H; simpl in H;
    apply res_bind_Ok in H as (v & Hi & [= <-]); pose proof (int4_succ_in _ _ Hi);
    apply int4_succ_Ok in Hi as [-> _]; done.
Qed.
