(* ===== verification/ErrorFacts.v ===== *)
(** Which errors a computation can return.  A caller that takes one error of a
    command for success relies on nothing else in the command raising it. *)

From S2P Require Import Prelude Json Schema GoTx Store Queries Events Operations TxFacts CommandFacts FloorSpec.
#[local] Open Scope string_scope.
#[local] Open Scope Z_scope.
#[local] Open Scope list_scope.

Class Never (t : error) {A} (m : Go A) : Prop :=
  never : forall e s err s', m e s = (Err err, s') -> errors_Is err t = false.

(** Statements fail with PostgreSQL's errors and with [NoRows]. *)
Definition plain_error (err : error) : Prop := err = NoRows \/ exists p, err = PgErr p.
Definition plain {A} (q : Stmt A) : Prop := forall now u d err, q now u d = Err err -> plain_error err.

Lemma plain_check b p err : check b p = Err err -> plain_error err.
Proof. unfold check. destruct b; [done|]. intros [= <-]. right. eauto. Qed.

Lemma plain_bind {A B} (r : result error A) (k : A -> result error B) err :
  (forall x, r = Err x -> plain_error x) -> (forall a x, k a = Err x -> plain_error x) ->
  res_bind r k = Err err -> plain_error err.
Proof. unfold res_bind. intros Hr Hk. destruct r as [a|x]; [apply Hk|intros [= <-]; by apply Hr]. Qed.

Lemma plain_int4_succ v err : int4_succ v = Err err -> plain_error err.
Proof. unfold int4_succ. destruct (in_int32 _); [done|]. intros [= <-]. right. eauto. Qed.

Section Statements.
Context {K A : Type} `{Countable K} (get : Db -> gmap K A) (put : gmap K A -> Db -> Db).
Context (ok : Db -> K -> A -> result error unit).
Context (Hok : forall d k r err, ok d k r = Err err -> plain_error err).

Lemma plain_select_one id whr : plain (select_one get id whr).
Proof using.
  intros now u d err. unfold select_one. repeat case_match; try done; intros [= <-]; by left.
Qed.

Lemma plain_insert_row pkey key new : plain (insert_row get put ok pkey key new).
Proof using Hok.
  intros now u d err. unfold insert_row. cbv zeta. apply plain_bind; [intros x; apply plain_check|].
  intros _ x. apply plain_bind; [apply Hok|]. done.
Qed.

Lemma plain_update_row id whr set :
  (forall now r err, set now r = Err err -> plain_error err) -> plain (update_row get put ok id whr set).
Proof using Hok.
  intros Hset now u d err. unfold update_row. destruct (get d !! id) as [r|]; [|intros [= <-]; by left].
  destruct (whr r); [|intros [= <-]; by left]. apply plain_bind; [apply Hset|].
  intros r' x. apply plain_bind; [apply Hok|]. done.
Qed.
End Statements.

(** The constraints of a table. *)
Ltac solve_plain :=
  repeat first
    [ done | apply plain_check | apply plain_int4_succ
    | apply plain_bind; [intros ?|intros ? ?]
    | match goal with |- context [match ?x with _ => _ end] => destruct x end ].

Section Target.
Context (pkg msg : string).
#[local] Abbreviation t := (Sentinel pkg msg).

Lemma plain_not err : plain_error err -> errors_Is err t = false.
Proof. by intros [->|(p & ->)]. Qed.

Lemma other_sentinel pkg' msg' : Sentinel pkg' msg' <> t -> errors_Is (Sentinel pkg' msg') t = false.
Proof. intros Hne. cbn. by rewrite bool_decide_false. Qed.

#[export] Instance never_ret {A} (a : A) : Never t (mret a).
Proof. by intros e s err s'. Qed.

#[export] Instance never_bind {A B} (m : Go A) (k : A -> Go B) :
  Never t m -> (forall a, Never t (k a)) -> Never t (m ≫= k).
Proof. intros Hm Hk e s err s' [H|(a & s1 & _ & H)]%bind_Err; [by eapply Hm|by eapply Hk]. Qed.

#[export] Instance never_wrap {A} w (m : Go A) : Never t m -> Never t (map_err (Wrap w) m).
Proof.
  intros Hm e s err s' (err0 & H & ->)%map_err_Err. simpl.
  by eapply Hm.
Qed.

Lemma never_plain_exec {A} (q : Stmt A) : plain q -> Never t (exec q).
Proof.
  intros Hq e s err s' (_ & [(f & _ & ->)|(_ & H)])%exec_Err.
  - apply plain_not. right. eauto.
  - by apply plain_not, (Hq _ _ _ _ H).
Qed.

#[export] Instance never_attempt {A} (m : Go A) : Never t (attempt m).
Proof. intros e s err s' H. unfold attempt in H. by destruct (m e s). Qed.

#[export] Instance never_for_each {A} (l : list A) (f : A -> Go unit) :
  (forall a, Never t (f a)) -> Never t (for_each l f).
Proof. intros Hf. induction l as [|a l IH]; simpl; [apply _|]. apply never_bind; [apply Hf|done]. Qed.

#[export] Instance never_time : Never t time_Now.
Proof. by intros e s err s'. Qed.
#[export] Instance never_uuid : Never t uuid_New.
Proof. by intros e s err s'. Qed.
#[export] Instance never_trace : Never t traceContext.
Proof. by intros e s err s'. Qed.

Lemma never_plain_call {A} (m : Go A) :
  (forall e s err s', m e s = (Err err, s') -> plain_error err) -> Never t m.
Proof. intros Hm e s err s' H. by apply plain_not, (Hm _ _ _ _ H). Qed.

#[export] Instance never_BeginTx : Never t BeginTx.
Proof.
  apply never_plain_call. intros e s err s' H. unfold BeginTx in H. case_match; [|done].
  injection H as <- _. right. eauto.
Qed.
#[export] Instance never_Commit : Never t Commit.
Proof.
  apply never_plain_call. intros e s err s' H. unfold Commit in H. case_match; [|done].
  injection H as <- _. right. eauto.
Qed.

(** What is returned after a rollback is the error, or the error and the one of
    the rollback. *)
Lemma rollback_Is {A} err e s err' s' :
  @rollback A err e s = (Err err', s') -> errors_Is err' t = errors_Is err t.
Proof.
  unfold rollback, attempt, mbind, Go_bind, Rollback, fail.
  destruct (env_fault e (st_tick s)); intros [= <- _]; [|done].
  cbn. by rewrite !orb_false_r.
Qed.

Lemma or_rollback_Is {A} f (m : Go A) e s err s' :
  or_rollback f m e s = (Err err, s') ->
  exists err0 s0, m e s = (Err err0, s0) /\ errors_Is err t = errors_Is (f err0) t.
Proof.
  unfold or_rollback, attempt, mbind, Go_bind. destruct (m e s) as [[a|err0] s0]; [done|].
  intros H%rollback_Is. eauto.
Qed.

#[export] Instance never_or_rollback_wrap {A} w (m : Go A) :
  Never t m -> Never t (or_rollback (Wrap w) m).
Proof.
  intros Hm e s err s' (err0 & s0 & H & ->)%or_rollback_Is. simpl.
  by eapply Hm.
Qed.

#[export] Instance never_or_rollback_id {A} (m : Go A) : Never t m -> Never t (or_rollback id m).
Proof. intros Hm e s err s' (err0 & s0 & H & ->)%or_rollback_Is. by eapply Hm. Qed.

(** Another sentinel is not this one. *)
Lemma never_guard b pkg' msg' : Sentinel pkg' msg' <> t -> Never t (guard_err b (Sentinel pkg' msg')).
Proof.
  intros Hne e s err s' H. unfold guard_err in H. destruct b; [|done].
  injection H as <- _. by apply other_sentinel.
Qed.

(** ** The bookkeeping of a command *)

#[export] Instance never_SetContext : Never t SetContext.
Proof. apply never_plain_exec. done. Qed.

#[export] Instance never_insertIdempotency org loc actor meta st body :
  Never t (insertIdempotencyRecord org loc actor meta st body).
Proof.
  unfold insertIdempotencyRecord. cbv zeta. apply never_bind; [|intros; apply _]. apply never_wrap, never_plain_exec, plain_insert_row.
  intros. revert H. unfold idempotency_ok. solve_plain.
Qed.

#[export] Instance never_writeOperationalEvent ev : Never t (writeOperationalEvent ev).
Proof.
  unfold writeOperationalEvent, insertOutboxRecord. repeat (apply never_bind; [try apply _|intros ?]).
  - apply never_wrap, never_plain_exec, plain_insert_row. intros. revert H. unfold event_ok. solve_plain.
  - apply never_for_each. intros dst. apply never_bind; [|intros; apply _].
    apply never_wrap, never_plain_exec, plain_insert_row. intros. revert H. unfold outbox_ok. solve_plain.
Qed.

Lemma never_idempotency org meta :
  ErrIdempotencyConflict <> t -> Never t (getIdempotencyReplay org meta).
Proof.
  intros Hne e s err s' H. unfold getIdempotencyReplay, attempt, mbind, Go_bind in H.
  destruct (exec _ e s) as [[r|er] s1] eqn:Hq.
  - destruct (_ || _); [|done]. injection H as <- _. by apply other_sentinel.
  - destruct (errors_Is er NoRows); [done|]. injection H as <- _. simpl.
    apply plain_not.
    apply exec_Err in Hq as (_ & [(f & _ & ->)|(_ & Hq)]); [right; eauto|].
    by eapply plain_select_one.
Qed.

(** Only the command's own body can raise [t]; it ran on the database the request
    found. *)
Lemma runTenantCommand_raises {T} org loc actor meta (execute : Go T) after (Q : Db -> Prop) e s err s' :
  ErrIdempotencyConflict <> t -> (forall v, Never t (after v)) ->
  (forall s1 err s2, execute e s1 = (Err err, s2) -> errors_Is err t = true -> Q (st_db s1)) ->
  runTenantCommand org loc actor meta execute after None e s = (Err err, s') ->
  errors_Is err t = true -> Q (st_db s).
Proof.
  intros Hne Haf Hex H Hty. unfold runTenantCommand in H.
  assert (forall A (m : Go A) s0 err0 s0', Never t m -> m e s0 = (Err err0, s0') -> err0 = err -> False) as Hno.
  { intros A m s0 err0 s0' Hm Hrun ->. by rewrite (Hm _ _ _ _ Hrun) in Hty. }
  apply bind_Err in H as [H|([] & s1 & H1 & H)]; [by destruct (Hno _ _ _ _ _ _ H)|].
  apply map_err_Ok in H1. assert (st_db s1 = st_db s) as Hd1.
  { unfold BeginTx in H1. destruct (env_fault e (st_tick s)); [done|]. by injection H1 as <-. }
  apply bind_Err in H as [H|([] & s2 & H2 & H)]; [by destruct (Hno _ _ _ _ _ _ H)|].
  apply or_rollback_Ok, SetContext_Ok in H2 as (Hd2 & _).
  apply bind_Err in H as [H|(found & s3 & H3 & H)].
  { destruct (cmd_ID meta =? uuid_Nil)%N; [done|]. pose proof (never_idempotency org meta Hne).
    by destruct (Hno _ _ _ _ _ _ H). }
  apply replay_lookup_Ok in H3 as (Hd3 & _ & _ & _).
  destruct found as [rep|].
  { apply bind_Err in H as [H|(u & s4 & _ & H)]; [by destruct (Hno _ _ _ _ _ _ H)|done]. }
  apply bind_Err in H as [H|(v & s4 & _ & H)].
  { apply or_rollback_Is in H as (err0 & s0 & H & Heq). rewrite <- Hd1, <- Hd2, <- Hd3.
    eapply Hex; [exact H|]. by rewrite Heq in Hty. }
  apply bind_Err in H as [H|(u & s5 & _ & H)]; [by destruct (Hno _ _ _ _ _ _ H)|].
  apply bind_Err in H as [H|(resp & s6 & _ & H)]; [done|].
  apply bind_Err in H as [H|(body & s7 & _ & H)].
  { destruct (cmd_ID meta =? uuid_Nil)%N; [done|]. by destruct (Hno _ _ _ _ _ _ H). }
  apply bind_Err in H as [H|(u2 & s8 & _ & H)]; [by destruct (Hno _ _ _ _ _ _ H)|done].
Qed.
End Target.

#[export] Instance never_no_rows_to {A} pkg msg pkg' msg' w (m : Go A) :
  Never (Sentinel pkg msg) m -> Sentinel pkg' msg' <> Sentinel pkg msg ->
  Never (Sentinel pkg msg) (map_err (no_rows_to (Sentinel pkg' msg') w) m).
Proof.
  intros Hm Hne e s err s' (err0 & H & ->)%map_err_Err. unfold no_rows_to.
  destruct (errors_Is err0 NoRows); [by apply other_sentinel|]. simpl. by eapply Hm.
Qed.

(** ** The statements of the two table commands *)

Lemma plain_int4_row {A} v (f : Z -> A) err :
  (let? v' := int4_succ v in Ok (f v')) = Err err -> plain_error err.
Proof. apply plain_bind; [intros x; apply plain_int4_succ|done]. Qed.

Lemma plain_occupancy_ok d k r err : occupancy_ok d k r = Err err -> plain_error err.
Proof. unfold occupancy_ok. solve_plain. Qed.
Lemma plain_session_ok d k r err : session_ok d k r = Err err -> plain_error err.
Proof. unfold session_ok. solve_plain. Qed.

Section Tables.
Context (pkg msg : string).
#[local] Abbreviation t := (Sentinel pkg msg).

#[export] Instance never_LockTableOccupancy tbl org loc : Never t (LockTableOccupancy tbl org loc).
Proof.
  apply never_plain_exec. intros now u d err. destruct (live_table d tbl); [apply plain_select_one|].
  intros [= <-]. by left.
Qed.

#[export] Instance never_GetTableState tbl org loc : Never t (GetTableState tbl org loc).
Proof. apply never_plain_exec. intros now u d err H. repeat case_match; try done; injection H as <-; by left. Qed.

#[export] Instance never_CreateTableSession org loc tbl n by_ src :
  Never t (CreateTableSession org loc tbl n by_ src).
Proof. apply never_plain_exec, plain_insert_row, plain_session_ok. Qed.

#[export] Instance never_CloseTableSession id org loc by_ : Never t (CloseTableSession id org loc by_).
Proof. by apply never_plain_exec, plain_update_row; [apply plain_session_ok|]. Qed.

#[export] Instance never_MarkTableOccupied tbl org loc sid by_ v :
  Never t (MarkTableOccupied tbl org loc sid by_ v).
Proof. apply never_plain_exec, plain_update_row; [apply plain_occupancy_ok|]. intros ???. apply plain_int4_row. Qed.

#[export] Instance never_MarkTableAvailable tbl org loc by_ v :
  Never t (MarkTableAvailable tbl org loc by_ v).
Proof. apply never_plain_exec, plain_update_row; [apply plain_occupancy_ok|]. intros ???. apply plain_int4_row. Qed.
End Tables.

(** A guard that reports another error. *)
Lemma never_guard_version pkg msg b ent id v v' :
  msg <> "version conflict" ->
  Never (Sentinel pkg msg) (guard_err b (VersionConflictError pkg ent id v v')).
Proof.
  intros Hne e s err s' (_ & _ & ->)%guard_err_Err. simpl. rewrite bool_decide_false; [done|congruence].
Qed.

Ltac solve_never :=
  repeat first
    [ apply never_ret | apply never_bind; [|intros ?] | apply never_wrap
    | apply never_no_rows_to; [|done] | apply never_guard_version; done
    | apply never_guard; done | typeclasses eauto ].

(** ** Tables that are already as wanted *)

Lemma occupyTableInTx_already arg e s err s' :
  occupyTableInTx arg e s = (Err err, s') -> errors_Is err ErrAlreadyOccupied = true ->
  exists o, db_occupancy (st_db s) !! ocp_TableID arg = Some o /\ occ_Status o = TableStatusOccupied.
Proof.
  intros H Hty. unfold occupyTableInTx in H. apply bind_Err in H as [H|(o & s1 & Hlock & H)].
  - assert (Never ErrAlreadyOccupied (lockTableOccupancy (ocp_TableID arg) (ocp_OrganisationID arg) (ocp_LocationID arg))) as Hn
      by (unfold lockTableOccupancy; solve_never).
    by rewrite (Hn _ _ _ _ H) in Hty.
  - apply lockTableOccupancy_Ok in Hlock as (_ & Ho & _).
    destruct (String.eqb (occ_Status o) TableStatusOccupied) eqn:Hs.
    + exists o. split; [done|]. by apply String.eqb_eq.
    + match type of H with ?m _ _ = _ => assert (Never ErrAlreadyOccupied m) as Hn by solve_never end.
      by rewrite (Hn _ _ _ _ H) in Hty.
Qed.

Lemma clearTableInTx_already arg e s err s' :
  clearTableInTx arg e s = (Err err, s') -> errors_Is err ErrAlreadyAvailable = true ->
  exists o, db_occupancy (st_db s) !! clp_TableID arg = Some o /\ occ_Status o = TableStatusAvailable.
Proof.
  intros H Hty. unfold clearTableInTx in H. apply bind_Err in H as [H|(o & s1 & Hlock & H)].
  - assert (Never ErrAlreadyAvailable (lockTableOccupancy (clp_TableID arg) (clp_OrganisationID arg) (clp_LocationID arg))) as Hn
      by (unfold lockTableOccupancy; solve_never).
    by rewrite (Hn _ _ _ _ H) in Hty.
  - apply lockTableOccupancy_Ok in Hlock as (_ & Ho & _).
    destruct (String.eqb (occ_Status o) TableStatusAvailable) eqn:Hs.
    + exists o. split; [done|]. by apply String.eqb_eq.
    + match type of H with ?m _ _ = _ => assert (Never ErrAlreadyAvailable m) as Hn end.
      { destruct (occ_CurrentSessionID o); solve_never. intros ????[= <- _]. done. }
      by rewrite (Hn _ _ _ _ H) in Hty.
Qed.

(** The commands report it of the table as they found it. *)
Lemma OccupyTable_already arg e s err s' :
  OccupyTable arg e s = (Err err, s') -> errors_Is err ErrAlreadyOccupied = true ->
  exists o, db_occupancy (st_db s) !! ocp_TableID arg = Some o /\ occ_Status o = TableStatusOccupied.
Proof.
  intros [H|(a & s1 & _ & H)]%bind_Err; [|done]. unfold OccupyTableCommand in H.
  refine (runTenantCommand_raises pkg "table already occupied" _ _ _ _ _ _
    (fun d => exists o, db_occupancy d !! ocp_TableID arg = Some o /\ occ_Status o = TableStatusOccupied)
    _ _ _ _ _ _ ltac:(intros ???; apply occupyTableInTx_already) H). done.
Qed.

Lemma ClearTable_already arg e s err s' :
  ClearTable arg e s = (Err err, s') -> errors_Is err ErrAlreadyAvailable = true ->
  exists o, db_occupancy (st_db s) !! clp_TableID arg = Some o /\ occ_Status o = TableStatusAvailable.
Proof.
  intros [H|(a & s1 & _ & H)]%bind_Err; [|done]. unfold ClearTableCommand in H.
  refine (runTenantCommand_raises pkg "table already available" _ _ _ _ _ _
    (fun d => exists o, db_occupancy d !! clp_TableID arg = Some o /\ occ_Status o = TableStatusAvailable)
    _ _ _ _ _ _ ltac:(intros ???; apply clearTableInTx_already) H). done.
Qed.
