(* ===== verification/GuestFacts.v ===== *)
(** The guest service: tokens resolve only to live capabilities of their own
    tenant, guest commands touch only the table of their capability, and a
    revoked or rotated token is dead. *)

From S2P Require Import Prelude Json Crypto Schema GoTx Store Queries Events Operations Guest TxFacts CommandFacts FloorSpec.
#[local] Open Scope string_scope.
#[local] Open Scope Z_scope.
#[local] Open Scope list_scope.

#[export] Instance in_tx_GenerateCapabilityTokenWithBytes n :
  InTx (GenerateCapabilityTokenWithBytes n).
Proof. unfold GenerateCapabilityTokenWithBytes. apply _. Qed.
#[export] Instance in_tx_createGuestRequestInTx c k : InTx (createGuestRequestInTx c k).
Proof.
  unfold createGuestRequestInTx, GetLocation, GetPendingGuestAssistByAction,
    GetLatestTerminalGuestAssistByAction, CreateAssistRequest. apply _.
Qed.
#[export] Instance in_tx_cancelGuestRequestInTx c a : InTx (cancelGuestRequestInTx c a).
Proof.
  unfold cancelGuestRequestInTx, GetGuestAssistByID, CancelPendingGuestAssistRequest. apply _.
Qed.

(** The guest runner is the staff runner with an encoder. *)
Lemma runGuestCommand_eq {T} org loc actor meta (execute : Go T) after encode :
  runGuestCommand org loc actor meta execute after encode =
  runTenantCommand org loc actor meta execute after (Some encode).
Proof. reflexivity. Qed.

(** ** Tokens *)

Lemma base64_char_plain n : (n < 64)%N -> plain_char (base64_char n) = true.
Proof.
  intros Hn. assert (forallb (fun n => plain_char (base64_char n)) (N.of_nat <$> seq 0 64) = true)
    as Hall by (vm_compute; reflexivity).
  rewrite List.forallb_forall in Hall. apply Hall, list_elem_of_In, list_elem_of_fmap.
  exists (N.to_nat n). rewrite elem_of_seq. lia.
Qed.

Lemma RawURLEncode_plain l :
  Forall (fun b => (b < 256)%N) l ->
  Forall (fun c => plain_char c = true) (bytes_of_string (RawURLEncode l)).
Proof.
  induction l as [|a|a b|a b c l IH] using list_ind3; intros H; rewrite ?Forall_cons in H; simpl;
    repeat (apply Forall_cons; split; [apply base64_char_plain; div_lia|]); [constructor..|].
  apply IH, H.
Qed.

Lemma RawURLEncode_length l :
  String.length (RawURLEncode l) = ((4 * length l + 2) / 3)%nat.
Proof.
  induction l as [|a|a b|a b c l IH] using list_ind3; [reflexivity..|].
  simpl RawURLEncode. simpl String.length. rewrite IH. simpl length.
  replace (4 * S (S (S (length l))) + 2)%nat with ((4 * length l + 2) + 4 * 3)%nat by lia.
  rewrite Nat.div_add by lia. lia.
Qed.

(** What a generated token looks like. *)
Definition generated (token : string) : Prop :=
  exists buf, length buf = 32%nat /\ Forall (fun b => (b < 256)%N) buf /\ token = RawURLEncode buf.

Lemma generated_parts token :
  generated token ->
  TrimSpace token = token /\ String.length token = 43%nat /\
  TokenLookupParts token = Ok (String.substring 0 16 token, Sum256 (bytes_N token)).
Proof.
  intros (buf & Hlen & Hb & ->).
  pose proof (TrimSpace_plain _ (RawURLEncode_plain _ Hb)) as Htrim.
  assert (String.length (RawURLEncode buf) = 43%nat) as Hl.
  { by rewrite RawURLEncode_length, Hlen. }
  split_and!; [done..|]. unfold TokenLookupParts. by rewrite Htrim, Hl.
Qed.

Lemma rand_Read_Ok n e s buf s' :
  rand_Read n e s = (Ok buf, s') ->
  length buf = n /\ Forall (fun b => (b < 256)%N) buf /\ s' = tick s.
Proof.
  unfold rand_Read. case_match; [done|]. intros [= <- <-]. split_and!; [|..|done].
  - by rewrite length_map, length_seq.
  - apply Forall_map, Forall_forall. intros i _. simpl. by apply N.mod_lt.
Qed.

Lemma GenerateCapabilityToken_Ok e s token s' :
  GenerateCapabilityToken e s = (Ok token, s') -> generated token /\ s' = tick s.
Proof.
  unfold GenerateCapabilityToken, GenerateCapabilityTokenWithBytes. intros H. go_steps H.
  apply rand_Read_Ok in Hrun0 as (? & ? & ?). split; [|done]. by eexists.
Qed.

(** ** Resolving *)

Lemma find_capability_Some l h c :
  find_capability l h = Some c -> c ∈ l /\ qr_TokenHash c = h.
Proof.
  intros [Hin Hh]%find_some. apply bool_decide_eq_true in Hh. by apply list_elem_of_In in Hin.
Qed.

Definition resolves (d : Db) (now : Z) (token : string) (c : TableQrCapability) : Prop :=
  exists prefix, TokenLookupParts token = Ok (prefix, qr_TokenHash c) /\
    qr_TokenLookupPrefix c = prefix /\ (exists k, db_qr d !! k = Some c) /\
    qr_active now c = true /\ qr_live d c = true /\ qr_ID c <> uuid_Nil.

Lemma resolveQRCapability_inv token e s r s' :
  resolveQRCapability token e s = (r, s') ->
  st_db s' = st_db s /\
  match r with
  | Ok c => exists t, resolves (st_db s) (pg_time (env_pgclock e t)) token c
  | Err _ => True
  end.
Proof.
  unfold resolveQRCapability. destruct (TokenLookupParts token) as [[prefix hash]|] eqn:Hp;
    [|by intros [= <- <-]].
  intros H. apply inTx_inv in H; [|unfold ListActiveTableQRCapabilitiesByPrefix; apply _].
  destruct H as [(err & -> & ->)|(c & Hc & Hr)]; [done|].
  destruct Hc as (s1 & s2 & Hd1 & (t & Hn) & Hfn & Hd2).
  apply bind_Ok in Hfn as (cands & s3 & Hl & Hfn).
  unfold ListActiveTableQRCapabilitiesByPrefix in Hl. go_steps Hl.
  injection Hl as Hl <-.
  destruct (find_capability cands hash) as [m|] eqn:Hf; [|done].
  destruct (qr_ID m =? uuid_Nil)%N eqn:Hnil; [done|].
  apply ret_Ok in Hfn as [<- <-]. simpl in Hd2. split; [by rewrite <- Hd2, Hd1|].
  destruct Hr as [->|[(err & ->) _]]; [|done]. exists t.
  apply find_capability_Some in Hf as [Hin <-]. rewrite <- Hl in Hin.
  apply rows_elem in Hin as [Hk Hw]. rewrite Hn, Hd1 in *. bool_facts.
  apply String.eqb_eq in H. apply N.eqb_neq in Hnil. exists prefix. naive_solver.
Qed.

(** ** The bodies of the guest commands *)

Lemma attempt_select_first {K A} `{Countable K} (get : Db -> gmap K A) whr le e s r s' :
  attempt (exec (select_first get whr le)) e s = (Ok r, s') ->
  st_db s' = st_db s /\ st_now s' = st_now s /\
  match r with
  | Ok x => (exists k, get (st_db s) !! k = Some x) /\ whr x = true /\
      ((forall x y, le x y = false -> le y x = true) ->
       (forall x y z, le x y = true -> le y z = true -> le x z = true) ->
       (forall x, le x x = true) ->
       forall k y, get (st_db s) !! k = Some y -> whr y = true -> le x y = true)
  | Err err => errors_Is err NoRows = true -> forall k x, get (st_db s) !! k = Some x -> whr x = false
  end.
Proof.
  intros Hr%attempt_Ok. destruct r as [x|err].
  - apply exec_Ok in Hr as (_ & d & Hsel & ->).
    pose proof Hsel as (-> & Hk & Hw & _)%select_first_Ok. split_and!; try done.
    intros H1 H2 H3. by eapply select_first_least.
  - apply exec_Err in Hr as (-> & [(f & _ & ->)|(_ & [-> Hn]%select_first_NoRows)]); [done|].
    split_and!; [done..|]. intros _. exact Hn.
Qed.

Lemma desc_total x y : by_requested_at_desc x y = false -> by_requested_at_desc y x = true.
Proof. unfold by_requested_at_desc. rewrite Z.leb_gt, Z.leb_le. lia. Qed.
Lemma desc_trans x y z :
  by_requested_at_desc x y = true -> by_requested_at_desc y z = true -> by_requested_at_desc x z = true.
Proof. unfold by_requested_at_desc. rewrite !Z.leb_le. lia. Qed.
Lemma desc_refl x : by_requested_at_desc x x = true.
Proof. unfold by_requested_at_desc. by rewrite Z.leb_le. Qed.

Section CreateGuest.
Context (cap : TableQrCapability) (key : string).
#[local] Abbreviation org := (qr_OrganisationID cap) (only parsing).
#[local] Abbreviation loc := (qr_LocationID cap) (only parsing).
#[local] Abbreviation tbl := (qr_TableID cap) (only parsing).

(** An assist of this table, session and action. *)
Definition guest_match (sid : uuid) (a : AssistRequest) : bool :=
  guest_scope org loc tbl (Some sid) a && sql_eq (ast_ActionKey a) (Some key).

Definition guest_created (now : Z) (clock : Z) (d : Db) (a : AssistRequest) (isnew : bool)
  (d' : Db) : Prop :=
  exists l o sid,
  db_locations d !! loc = Some l /\ loc_OrganisationID l = org /\
  guestActionEnabled (loc_OperatingConfig l) key = true /\
  live_table d tbl = true /\ db_occupancy d !! tbl = Some o /\
  occ_in_scope tbl org loc o = true /\ occ_Status o = "occupied" /\
  occ_CurrentSessionID o = Some sid /\
  if isnew then
  (forall k x, db_assists d !! k = Some x -> guest_match sid x = true ->
   ast_Status x <> "pending") /\
  (forall k x, db_assists d !! k = Some x -> guest_match sid x = true ->
   terminal_status (ast_Status x) = true ->
   defaultGuestCooldown <= clock - ast_RequestedAt x) /\
  (exists id, a = new_assist org loc tbl (Some sid) (Some guestActorRef) GuestSource None
                  (Some key) now id) /\
  db_assists d !! ast_ID a = None /\ assist_ok d (ast_ID a) a = Ok tt /\
  d' = set_assists (<[ast_ID a := a]> (db_assists d)) d
  else
  (exists k, db_assists d !! k = Some a) /\ guest_match sid a = true /\
  ast_Status a = "pending" /\ d' = d.

Lemma guest_match_pending sid x d :
  (forall k x, db_assists d !! k = Some x ->
   guest_scope org loc tbl (Some sid) x && sql_eq (ast_ActionKey x) (Some key)
   && String.eqb (ast_Status x) "pending" = false) ->
  forall k, db_assists d !! k = Some x -> guest_match sid x = true -> ast_Status x <> "pending".
Proof.
  intros Hp k Hk Hm Hs. specialize (Hp k x Hk). unfold guest_match in Hm.
  by rewrite Hm, Hs in Hp.
Qed.

(** The cooldown step, after the look-up of the last finished request. *)
Lemma cooldown_Ok sid d (r : result error AssistRequest) e s u s' :
  match r with
  | Ok last => forall k x, db_assists d !! k = Some x ->
  guest_scope org loc tbl (Some sid) x && sql_eq (ast_ActionKey x) (Some key)
  && terminal_status (ast_Status x) = true -> ast_RequestedAt x <= ast_RequestedAt last
  | Err err => errors_Is err NoRows = true -> forall k x, db_assists d !! k = Some x ->
  guest_scope org loc tbl (Some sid) x && sql_eq (ast_ActionKey x) (Some key)
  && terminal_status (ast_Status x) = false
  end ->
  match r with
  | Ok last =>
  now ← time_Now;
  guard_err (now - ast_RequestedAt last <? defaultGuestCooldown) ErrRateLimited
  | Err err =>
  guard_err (negb (errors_Is err NoRows)) (Wrap "getting latest terminal guest assist" err)
  end e s = (Ok u, s') ->
  st_db s' = st_db s /\ st_now s' = st_now s /\
  exists t, forall k x, db_assists d !! k = Some x -> guest_match sid x = true ->
  terminal_status (ast_Status x) = true ->
  defaultGuestCooldown <= env_clock e t - ast_RequestedAt x.
Proof.
  intros Ht H. destruct r as [last|err].
  - apply bind_Ok in H as (now & s9 & [= <- <-] & H). apply guard_err_Ok in H as (H & -> & _).
  apply Z.ltb_ge in H. split_and!; [done..|]. exists (st_tick s). intros k x Hk Hm Hterm.
  specialize (Ht k x Hk). unfold guest_match in Hm. rewrite Hm, Hterm in Ht.
  specialize (Ht eq_refl). lia.
  - apply guard_err_Ok in H as (H & -> & _). apply negb_false_iff in H.
  split_and!; [done..|]. exists 0%nat. intros k x Hk Hm Hterm. specialize (Ht H k x Hk).
  unfold guest_match in Hm. by rewrite Hm, Hterm in Ht.
Qed.

Lemma createGuestRequestInTx_Ok e s a isnew s' :
  createGuestRequestInTx cap key e s = (Ok (a, isnew), s') ->
  exists t, guest_created (st_now s) (env_clock e t) (st_db s) a isnew (st_db s').
Proof.
  intros H. unfold createGuestRequestInTx in H.
  apply bind_Ok in H as (l & s1 & Hl & H). unfold GetLocation in Hl. go_steps Hl.
  apply select_one_Ok in Hl as (Hl & Hlorg & ->).
  apply bind_Ok in H as ([] & s2 & Hen & H). apply guard_err_Ok in Hen as (Hen & -> & _).
  apply bind_Ok in H as (o & s3 & Hlock & H).
  apply lockTableOccupancy_Ok in Hlock as (Hlive & Ho & Hscope & Hd3 & Hn3).
  apply bind_Ok in H as ([] & s4 & Hocc & H). apply guard_err_Ok in Hocc as (Hocc & -> & _).
  simpl in *. apply orb_false_elim in Hocc as [Hst Hsid]. bool_facts.
  apply String.eqb_eq in Hst. destruct (occ_CurrentSessionID o) as [sid|] eqn:Hcur; [|done].
  apply N.eqb_eq in Hlorg.
  apply bind_Ok in H as (pending & s5 & Hp & H).
  apply attempt_select_first in Hp as (Hd5 & Hn5 & Hp). rewrite Hd3 in *. rewrite Hn3 in *.
  destruct pending as [found|err].
  - apply ret_Ok in H as [[= <- <-] <-]. exists 0%nat, l, o, sid.
  destruct Hp as (Hk & [Hm Hs]%andb_prop & _). apply String.eqb_eq in Hs. by rewrite Hd5.
  - apply bind_Ok in H as ([] & s6 & Hg & H). apply guard_err_Ok in Hg as (Hg & -> & _).
  apply negb_false_iff in Hg.
  apply bind_Ok in H as (terminal & s7 & Ht & H).
  apply attempt_select_first in Ht as (Hd7 & Hn7 & Ht). rewrite Hd5 in *. rewrite Hn5 in *.
  apply bind_Ok in H as ([] & s8 & Hcool & H).
  apply (cooldown_Ok sid (st_db s)) in Hcool as (Hd8 & Hn8 & t & Hcd);
  [|destruct terminal; [|exact Ht]; intros k x Hk Hw; destruct Ht as (_ & _ & Ht);
  by apply Z.leb_le, (Ht desc_total desc_trans desc_refl k x)].
  apply bind_Ok in H as (created & s9 & Hc & H). unfold CreateAssistRequest in Hc. go_steps Hc.
  apply ret_Ok in H as [[= <- <-] <-]. apply insert_row_Ok in Hc as (Hnew & Hfresh & Hok & ->).
  rewrite Hd8, Hd7, Hn8, Hn7 in *. simpl. exists t, l, o, sid. split_and!; try done.
  + intros k x. eapply guest_match_pending. eauto.
  + by eexists.
Qed.
End CreateGuest.

Lemma cancelGuestRequestInTx_Ok cap id e s a' s' :
  cancelGuestRequestInTx cap id e s = (Ok a', s') ->
  exists a, db_assists (st_db s) !! id = Some a /\
    ast_in_scope (qr_OrganisationID cap) (qr_LocationID cap) a = true /\
    ast_TableID a = qr_TableID cap /\ ast_Source a = "guest_qr" /\ ast_Status a = "pending" /\
    cancelled_row (Some guestActorRef) (st_now s) a = Ok a' /\
    assist_ok (st_db s) id a' = Ok tt /\
    st_db s' = set_assists (<[id := a']> (db_assists (st_db s))) (st_db s).
Proof.
  unfold cancelGuestRequestInTx, GetGuestAssistByID, CancelPendingGuestAssistRequest.
  intros H. go_steps H. stmt_facts. subst. simpl in *. simplify_eq. eexists. bool_facts.
  repeat match goal with
    | Hs : String.eqb _ _ = true |- _ => apply String.eqb_eq in Hs
    | Hs : N.eqb _ _ = true |- _ => apply N.eqb_eq in Hs
    end. by split_and!.
Qed.

(** ** The capability table *)

(** Rows are keyed by their id and no two share a token hash. *)
Definition qr_inv (d : Db) : Prop :=
  (forall k c, db_qr d !! k = Some c -> qr_ID c = k) /\
  (forall k1 k2 c1 c2, db_qr d !! k1 = Some c1 -> db_qr d !! k2 = Some c2 ->
     qr_TokenHash c1 = qr_TokenHash c2 -> k1 = k2).

(** What never changes about a capability, and revocation, which is for good. *)
Definition qr_extends (c c' : TableQrCapability) : Prop :=
  qr_ID c' = qr_ID c /\ qr_OrganisationID c' = qr_OrganisationID c /\
  qr_LocationID c' = qr_LocationID c /\ qr_TableID c' = qr_TableID c /\
  qr_TokenHash c' = qr_TokenHash c /\ qr_ExpiresAt c' = qr_ExpiresAt c /\
  (is_some (qr_RevokedAt c) = true -> is_some (qr_RevokedAt c') = true).

Definition qr_evolves (d d' : Db) : Prop :=
  (qr_inv d -> qr_inv d') /\
  forall k c, db_qr d !! k = Some c -> exists c', db_qr d' !! k = Some c' /\ qr_extends c c'.

#[export] Instance qr_extends_preorder : PreOrder qr_extends.
Proof.
  split; [done|]. unfold qr_extends. intros a b c (?&?&?&?&?&?&?) (?&?&?&?&?&?&?).
  split_and!; try congruence. auto.
Qed.

#[export] Instance qr_evolves_preorder : PreOrder qr_evolves.
Proof.
  split; [split; eauto; intros; eexists; split; [done|reflexivity]|].
  intros d1 d2 d3 [Hi1 H1] [Hi2 H2]. split; [auto|]. intros k c Hc.
  destruct (H1 _ _ Hc) as (c2 & Hc2 & He2). destruct (H2 _ _ Hc2) as (c3 & Hc3 & He3).
  exists c3. split; [done|]. by etransitivity.
Qed.

Lemma qr_evolves_same d d' : db_qr d' = db_qr d -> qr_evolves d d'.
Proof.
  intros Hq. unfold qr_evolves, qr_inv. rewrite Hq. split; [done|].
  intros k c Hc. exists c. split; [done|reflexivity].
Qed.

Lemma qr_evolves_update d k c c' :
  db_qr d !! k = Some c -> qr_extends c c' ->
  qr_evolves d (set_qr (<[k := c']> (db_qr d)) d).
Proof.
  intros Hk Hext. destruct (Hext) as (Hid & _ & _ & _ & Hh & _). split.
  - intros [H1 H2]. split; simpl.
    + intros k1 c1 [[<- <-]|[_ Hc1]]%lookup_insert_Some; [|eauto]. rewrite Hid. eauto.
    + intros k1 k2 c1 c2 [[<- <-]|[_ Hc1]]%lookup_insert_Some
        [[<- <-]|[_ Hc2]]%lookup_insert_Some; rewrite ?Hh; eauto.
  - intros k1 c1 Hc1. simpl. destruct (decide (k1 = k)) as [->|Hne].
    + rewrite lookup_insert_eq. exists c'. by simplify_eq.
    + rewrite lookup_insert_ne by done. exists c1. split; [done|reflexivity].
Qed.

Lemma qr_evolves_insert d c :
  db_qr d !! qr_ID c = None -> qr_ok d (qr_ID c) c = Ok tt ->
  qr_evolves d (set_qr (<[qr_ID c := c]> (db_qr d)) d).
Proof.
  intros Hf Hok. unfold qr_ok in Hok. checks_in Hok. apply negb_true_iff in Hchk0.
  rewrite map_any_false in Hchk0.
  assert (forall k c', db_qr d !! k = Some c' -> qr_TokenHash c' <> qr_TokenHash c) as Hu.
  { intros k c' Hk Hh. specialize (Hchk0 k c'). rewrite lookup_delete_ne in Hchk0 by congruence.
    apply Hchk0 in Hk. by apply bool_decide_eq_false in Hk. }
  split.
  - intros [H1 H2]. split; simpl.
    + intros k1 c1 [[<- <-]|[_ Hc1]]%lookup_insert_Some; eauto.
    + intros k1 k2 c1 c2 [[<- <-]|[_ Hc1]]%lookup_insert_Some
        [[<- <-]|[_ Hc2]]%lookup_insert_Some Hh; [done| | |by eauto]; exfalso;
        [by eapply Hu|by eapply Hu].
  - intros k1 c1 Hc1. simpl. exists c1. split; [|reflexivity].
    rewrite lookup_insert_ne; [done|congruence].
Qed.
