(* ===== verification/Commands.v ===== *)
(** Every operation of the operations service as one type of commands, and what
    a run of any of them can do to the database: nothing, or one row-level step
    together with the event that reports it. *)

From S2P Require Import Prelude Json Crypto Schema GoTx Store Queries Events Operations Guest TxFacts CommandFacts FloorSpec GuestFacts.
#[local] Open Scope string_scope.
#[local] Open Scope Z_scope.
#[local] Open Scope list_scope.

Abbreviation encoder T := (T -> result error (Z * option json)) (only parsing).

Inductive Command :=
| COccupy (arg : OccupyTableParams) (enc : option (encoder TableResult))
| CClear (arg : ClearTableParams) (enc : option (encoder TableResult))
| CRequest (arg : RequestAssistParams)
| CAcknowledge (arg : ChangeAssistParams) (enc : option (encoder AssistRequest))
| CResolve (arg : ChangeAssistParams) (enc : option (encoder AssistRequest))
| CCancel (arg : ChangeAssistParams) (enc : option (encoder AssistRequest))
| CGuestContext (token : string)
| CGuestRequest (arg : GuestRequestParams) (enc : encoder AssistRequest)
| CGuestGet (token : string) (assist : uuid)
| CGuestCancel (arg : GuestCancelParams) (enc : encoder AssistRequest)
| CExportQR (org loc tbl : uuid) (label : string) (expires : option Z)
| CRotateQR (org loc tbl cap : uuid)
| CRevokeQR (org loc tbl cap : uuid).

Definition run_command (c : Command) : Go unit :=
  match c with
  | COccupy arg enc => OccupyTableCommand arg enc ;; mret tt
  | CClear arg enc => ClearTableCommand arg enc ;; mret tt
  | CRequest arg => RequestAssist arg ;; mret tt
  | CAcknowledge arg enc => AcknowledgeAssistCommand arg enc ;; mret tt
  | CResolve arg enc => ResolveAssistCommand arg enc ;; mret tt
  | CCancel arg enc => CancelAssistCommand arg enc ;; mret tt
  | CGuestContext token => GuestContext token ;; mret tt
  | CGuestRequest arg enc => CreateGuestRequest arg enc ;; mret tt
  | CGuestGet token a => GetGuestRequest token a ;; mret tt
  | CGuestCancel arg enc => CancelGuestRequest arg enc ;; mret tt
  | CExportQR org loc tbl label ex => ExportTableQRCapability org loc tbl label ex ;; mret tt
  | CRotateQR org loc tbl cap => RotateTableQRCapability org loc tbl cap ;; mret tt
  | CRevokeQR org loc tbl cap => RevokeTableQRCapability org loc tbl cap ;; mret tt
  end.

(** ** Row-level steps *)

Definition reports (ev : operationalEvent) (entity : string) (id : uuid) (version : Z) : Prop :=
  ope_EntityType ev = entity /\ ope_EntityID ev = id /\ ope_EntityVersion ev = version /\
  in_int32 version = true /\ ope_Destinations ev = operationDestinations.

(** Two requests of the same guest action: same tenant, table, session and
    action key. *)
Definition same_slot (x y : AssistRequest) : Prop :=
  ast_OrganisationID x = ast_OrganisationID y /\ ast_LocationID x = ast_LocationID y /\
  ast_TableID x = ast_TableID y /\ ast_TableSessionID x = ast_TableSessionID y /\
  ast_ActionKey x = ast_ActionKey y.

(** A new guest request finds no pending one for its action. *)
Definition slot_free (d : Db) (r : AssistRequest) : Prop :=
  ast_Source r = "guest_qr" ->
  forall k x, db_assists d !! k = Some x -> ast_Source x = "guest_qr" -> same_slot x r ->
    ast_Status x <> "pending".

Inductive row_step (d : Db) : Db -> operationalEvent -> Prop :=
| RowOccupy t o o' x ev :
    db_occupancy d !! t = Some o -> occ_Status o = "available" ->
    occ_TableID o' = occ_TableID o -> occ_OrganisationID o' = occ_OrganisationID o ->
    occ_LocationID o' = occ_LocationID o -> occ_CurrentSessionID o' = Some (ses_ID x) ->
    occ_Version o' = occ_Version o + 1 -> occupancy_checks o' = true ->
    db_sessions d !! ses_ID x = None -> session_checks x = true ->
    ses_TableID x = t -> ses_EndedAt x = None ->
    ses_OrganisationID x = occ_OrganisationID o -> ses_LocationID x = occ_LocationID o ->
    reports ev "table" t (occ_Version o') ->
    row_step d (table_changed t o' x d) ev
| RowClear t o o' x x' ev :
    db_occupancy d !! t = Some o ->
    occ_CurrentSessionID o = Some (ses_ID x') ->
    occ_TableID o' = occ_TableID o -> occ_OrganisationID o' = occ_OrganisationID o ->
    occ_LocationID o' = occ_LocationID o -> occ_CurrentSessionID o' = None ->
    occ_Version o' = occ_Version o + 1 -> occupancy_checks o' = true ->
    db_sessions d !! ses_ID x' = Some x -> session_checks x' = true ->
    ses_TableID x' = ses_TableID x -> ses_EndedAt x = None -> ses_EndedAt x' <> None ->
    reports ev "table" t (occ_Version o') ->
    row_step d (table_changed t o' x' d) ev
| RowRequest r ev :
    db_assists d !! ast_ID r = None -> ast_Status r = "pending" -> ast_Version r = 1 ->
    assist_checks r = true -> slot_free d r -> reports ev "assist" (ast_ID r) 1 ->
    row_step d (set_assists (<[ast_ID r := r]> (db_assists d)) d) ev
| RowAssist a r r' ev :
    db_assists d !! a = Some r -> ast_ID r' = ast_ID r ->
    validAssistTransition (ast_Status r) (ast_Status r') = true ->
    ast_Version r' = ast_Version r + 1 -> assist_checks r' = true ->
    ast_OrganisationID r' = ast_OrganisationID r -> ast_LocationID r' = ast_LocationID r ->
    ast_TableID r' = ast_TableID r -> ast_TableSessionID r' = ast_TableSessionID r ->
    ast_Source r' = ast_Source r -> ast_ActionKey r' = ast_ActionKey r ->
    reports ev "assist" a (ast_Version r') ->
    row_step d (set_assists (<[a := r']> (db_assists d)) d) ev.

(** A run of a command: nothing but bookkeeping and capabilities, or one step
    and its event. *)
Inductive change (d d' : Db) : Prop :=
| change_none :
    same_floor d d' -> db_events d' = db_events d -> db_outbox d' = db_outbox d ->
    db_idempotency d ⊆ db_idempotency d' -> qr_evolves d d' -> change d d'
| change_step d2 ev tnow eid time :
    row_step d d2 ev -> logged ev tnow eid time d2 d' -> change d d'.

Lemma change_refl d : change d d.
Proof. apply change_none; by rewrite ?qr_evolves_same. Qed.

Lemma change_bookkeeping d d' : bookkeeping d d' -> change d d'.
Proof. intros (? & ? & ? & ? & _ & _ & _ & ?). apply change_none; auto using qr_evolves_same. Qed.

(** ** The rows the bodies write *)

Section FloorRows.
Context (d : Db) (Hinv : floor_inv d).

Lemma occupy_row_step arg res s s' e :
  st_db s = d -> occupyTableInTx arg e s = (Ok res, s') ->
  row_step d (st_db s') (occupied_event arg res).
Proof.
  intros Hd H. apply occupyTableInTx_Ok in H as
  (o & _ & Ho & Hscope & Hst & Hv & _ & (id & Hx) & Hfresh & Hsok & Hset & Hck & _ & Hdb).
  rewrite Hd in *. rewrite Hdb. unfold occupied_row in Hset.
  apply res_bind_Ok in Hset as (v & Hi4 & Hset). pose proof (int4_succ_in _ _ Hi4) as H32.
  apply int4_succ_Ok in Hi4 as [-> _]. injection Hset as Hset.
  unfold session_ok in Hsok. apply res_bind_Ok in Hsok as (? & [Hsck _]%check_Ok & _).
  unfold occ_in_scope in Hscope. bool_facts.
  repeat match goal with Hs : N.eqb _ _ = true |- _ => apply N.eqb_eq in Hs end.
  eapply RowOccupy; try done; try (rewrite <- Hset; done); try (rewrite Hx; done).
  split_and!; try done. by rewrite <- Hset.
Qed.

Lemma clear_row_step arg res s s' e :
  st_db s = d -> clearTableInTx arg e s = (Ok res, s') ->
  row_step d (st_db s') (cleared_event arg res).
Proof.
  intros Hd H. apply clearTableInTx_Ok in H as
  (o & x & sid & _ & Ho & Hscope & Hst & Hv & _ & Hcur & Hx & _ & _ & Hend & Hcl & Hsok & Hset
   & Hck & _ & Hdb).
  rewrite Hd in *. rewrite Hdb. unfold available_row in Hset.
  apply res_bind_Ok in Hset as (v & Hi4 & Hset). pose proof (int4_succ_in _ _ Hi4) as H32.
  apply int4_succ_Ok in Hi4 as [-> _]. injection Hset as Hset.
  unfold session_ok in Hsok. apply res_bind_Ok in Hsok as (? & [Hsck _]%check_Ok & _).
  destruct (fi_sessions _ Hinv _ _ Hx) as (Hid & _ & _).
  unfold closed_session in Hcl. injection Hcl as Hcl.
  assert (ses_ID (res_Session res) = sid) as Hsid by (by rewrite <- Hcl).
  rewrite <- Hsid in *.
  eapply RowClear; try done; try (rewrite <- Hset; done); try (rewrite <- Hcl; done).
  split_and!; try done. by rewrite <- Hset.
Qed.

Lemma assist_row_step arg next ty a' s s' e :
  st_db s = d -> changeAssistInTx arg next e s = (Ok a', s') ->
  row_step d (st_db s') (assist_event arg ty a').
Proof.
  intros Hd H. apply changeAssistInTx_Ok in H as (a & Ha & _ & _ & Hval & Hset & Hok & Hdb).
  rewrite Hd in *. rewrite Hdb.
  apply assist_row_fields in Hset as (? & ? & ? & ? & ? & Hst & ? & ? & ? & _ & ?); [|done].
  unfold assist_ok in Hok. apply res_bind_Ok in Hok as (? & [Hck _]%check_Ok & _).
  eapply RowAssist; try done. by rewrite Hst.
Qed.

Lemma guest_cancel_row_step cap id key a' s s' e :
  st_db s = d -> cancelGuestRequestInTx cap id e s = (Ok a', s') ->
  row_step d (st_db s') (guest_cancelled_event cap key a').
Proof.
  intros Hd H. apply cancelGuestRequestInTx_Ok in H as (a & Ha & _ & _ & _ & Hst & Hset & Hok & Hdb).
  rewrite Hd in *. rewrite Hdb. unfold cancelled_row in Hset.
  apply res_bind_Ok in Hset as (v & Hi4 & Hset). pose proof (int4_succ_in _ _ Hi4) as H32.
  apply int4_succ_Ok in Hi4 as [-> _]. injection Hset as Hset.
  unfold assist_ok in Hok. apply res_bind_Ok in Hok as (? & [Hck _]%check_Ok & _).
  destruct (fi_assists _ Hinv _ _ Ha) as [Hid _].
  eapply RowAssist; try done; rewrite <- Hset; [done|by rewrite Hst|done..|].
  split_and!; try done; by rewrite <- Hset.
Qed.
End FloorRows.

Lemma guest_create_row_step cap key idk a s s' e :
  createGuestRequestInTx cap key e s = (Ok (a, true), s') ->
  row_step (st_db s) (st_db s') (guest_requested_event cap idk key a).
Proof.
  intros H. apply createGuestRequestInTx_Ok in H as
    (t & l & o & sid & _ & _ & _ & _ & _ & _ & _ & _ & Hnop & _ & (id & ->) & Hfresh & Hok & Hdb).
  rewrite Hdb. unfold assist_ok in Hok. apply res_bind_Ok in Hok as (? & [Hck _]%check_Ok & _).
  apply RowRequest; try done. intros _ k y Hk Hsrc (Hyo & Hyl & Hyt & Hys & Hyk). simpl in *.
  apply (Hnop k y Hk). unfold guest_match, guest_scope, ast_in_scope, sql_eq.
  rewrite Hyo, Hyl, Hyt, Hys, Hyk, Hsrc, !N.eqb_refl. simpl. by rewrite !bool_decide_true.
Qed.

(** ** The outcome of a run *)

(** The database changed by at most one step; if the caller got an error nothing
    changed, unless the server applied a commit it reported as failed. *)
Definition outcome {A} (e : Env) (d : Db) (r : result error A) (d' : Db) : Prop :=
  change d d' /\ (forall err, r = Err err -> d' = d \/ lost_commit e).

Lemma outcome_same {A} e d (r : result error A) : outcome e d r d.
Proof. split; [apply change_refl|by left]. Qed.

Lemma outcome_discard {A} (m : Go A) e s r s' :
  (m ;; mret tt) e s = (r, s') ->
  (forall r1, m e s = (r1, s') -> outcome e (st_db s) r1 (st_db s')) ->
  outcome e (st_db s) r (st_db s').
Proof.
  unfold mbind, Go_bind, mret, Go_ret. destruct (m e s) as [[a|err] s1] eqn:Hm.
  - intros [= <- <-] H. destruct (H _ eq_refl) as [Hc _]. split; [done|]. done.
  - intros [= <- <-] H. destruct (H _ eq_refl) as [Hc He]. split; [done|].
    intros err' [= <-]. by eapply He.
Qed.

(** A tenant transaction whose committed body is a [change]. *)
Lemma inTenantTx_outcome {A} (fn : Go A) e s r s' :
  InTx fn ->
  (forall s1 a s2, st_db s1 = st_db s -> fn e s1 = (Ok a, s2) -> change (st_db s) (st_db s2)) ->
  inTenantTx fn e s = (r, s') -> outcome e (st_db s) r (st_db s').
Proof.
  intros Hin Hfn H. apply inTenantTx_inv in H as [(err & -> & ->)|(a & Hc & Hr)]; [|..|done].
  - apply outcome_same.
  - destruct Hc as (s1 & s2 & Hd1 & _ & Hrun & <-). split; [by eapply Hfn|].
    intros err ->. destruct Hr as [?|[_ ?]]; [done|by right].
Qed.

Lemma runTenantCommand_outcome {T} org loc actor meta (execute : Go T) after enc e s r s' :
  InTx execute -> (forall v, InTx (after v)) ->
  (forall s1 v s2 s3, st_db s1 = st_db s -> execute e s1 = (Ok v, s2) ->
     after v e s2 = (Ok tt, s3) -> forall d', bookkeeping (st_db s3) d' -> change (st_db s) d') ->
  runTenantCommand org loc actor meta execute after enc e s = (r, s') ->
  outcome e (st_db s) r (st_db s').
Proof.
  intros Hex Haf Hbody H. apply runTenantCommand_inv in H as
    [(err & -> & ->)|[(rep & _ & _ & -> & _)|(v & rep & Hrun & Hr)]]; [..|done|done].
  - apply outcome_same.
  - apply outcome_same.
  - apply executed_frame in Hrun as (s1 & s2 & s3 & Hd & _ & He & Ha & Hbk).
    split; [by eapply Hbody|]. intros err ->. destruct Hr as [?|[_ ?]]; [done|by right].
Qed.

(** The common case: one step, then its event. *)
Lemma step_outcome {T} org loc actor meta (execute : Go T) ev enc e s r s' :
  InTx execute ->
  (forall s1 v s2, st_db s1 = st_db s -> execute e s1 = (Ok v, s2) ->
     row_step (st_db s) (st_db s2) (ev v)) ->
  runTenantCommand org loc actor meta execute (fun v => writeOperationalEvent (ev v)) enc e s
    = (r, s') -> outcome e (st_db s) r (st_db s').
Proof.
  intros Hin Hstep. apply runTenantCommand_outcome; [done|apply _|].
  intros s1 v s2 s3 Hd He Hw d' Hbk. apply writeOperationalEvent_Ok in Hw as (eid & time & Hadd).
  eapply change_step; [by eapply Hstep|]. by exists (st_db s3).
Qed.

Lemma RequestAssist_outcome arg e s r s' :
  RequestAssist arg e s = (r, s') -> outcome e (st_db s) r (st_db s').
Proof.
  apply inTenantTx_outcome; [unfold CreateAssistRequest; apply _|].
  intros s1 a s2 Hd H. apply bind_Ok in H as (o & s3 & Hl & H).
  apply lockTableOccupancy_Ok in Hl as (_ & _ & _ & Hd3 & _).
  apply bind_Ok in H as (created & s4 & Hc & H). unfold CreateAssistRequest in Hc. go_steps Hc.
  apply insert_row_Ok in Hc as (Hnew & Hfresh & Hok & ->).
  apply bind_Ok in H as ([] & s5 & Hw & [-> <-]%ret_Ok).
  apply writeOperationalEvent_Ok in Hw as (eid & time & Hadd). simpl in Hadd.
  unfold assist_ok in Hok. apply res_bind_Ok in Hok as (? & [Hck _]%check_Ok & _).
  rewrite Hd3, Hd in *. eapply change_step; [|by exists (st_db s5)].
  subst a. apply RowRequest; try done. intros Hsrc. simpl in Hsrc.
  unfold assist_checks in Hck. simpl in Hck. rewrite Hsrc in Hck. bool_facts. done.
Qed.

Lemma resolve_then {A} token (k : TableQrCapability -> Go A) e s r s' :
  (resolveQRCapability token ≫= k) e s = (r, s') ->
  (forall c s1, resolveQRCapability token e s = (Ok c, s1) -> st_db s1 = st_db s ->
     k c e s1 = (r, s') -> outcome e (st_db s) r (st_db s')) ->
  outcome e (st_db s) r (st_db s').
Proof.
  unfold mbind, Go_bind. destruct (resolveQRCapability token e s) as [[c|err] s1] eqn:Hr.
  - intros H Hk. apply (Hk c s1); [done| |done]. by apply resolveQRCapability_inv in Hr as [].
  - intros [= <- <-] _. apply resolveQRCapability_inv in Hr as [-> _]. apply outcome_same.
Qed.

(** ** The guest and capability operations *)

Definition only_qr (d d' : Db) : Prop := (exists q, d' = set_qr q d) /\ qr_evolves d d'.

Lemma only_qr_change d d' : only_qr d d' -> change d d'.
Proof. intros [(q & ->) ?]. by apply change_none. Qed.

Lemma only_qr_refl d : only_qr d d.
Proof. split; [|reflexivity]. exists (db_qr d). by destruct d. Qed.

Lemma only_qr_trans d1 d2 d3 : only_qr d1 d2 -> only_qr d2 d3 -> only_qr d1 d3.
Proof. intros [(q1 & ->) H1] [(q2 & ->) H2]. split; [by exists q2|]. by etransitivity. Qed.

(** Calls that only write capability rows. *)
Class OnlyQr {A} (m : Go A) : Prop :=
  only_qr_run : forall e s a s', m e s = (Ok a, s') -> only_qr (st_db s) (st_db s').

#[export] Instance only_qr_bind {A B} (m : Go A) (k : A -> Go B) :
  OnlyQr m -> (forall a, OnlyQr (k a)) -> OnlyQr (m ≫= k).
Proof.
  intros Hm Hk e s b s' (a & s1 & H1 & H2)%bind_Ok.
  eapply only_qr_trans; [by eapply Hm|by eapply Hk].
Qed.
#[export] Instance only_qr_map_err {A} f (m : Go A) : OnlyQr m -> OnlyQr (map_err f m).
Proof. intros Hm e s a s' H%map_err_Ok. by eapply Hm. Qed.
#[export] Instance only_qr_attempt {A} (q : Stmt A) : OnlyQr (exec q) -> OnlyQr (attempt (exec q)).
Proof.
  intros Hm e s r s' H%attempt_Ok. destruct r as [a|err]; [by eapply Hm|].
  apply exec_Err in H as [-> _]. apply only_qr_refl.
Qed.
#[export] Instance only_qr_ret {A} (a : A) : OnlyQr (mret a).
Proof. intros e s b s' [_ <-]%ret_Ok. apply only_qr_refl. Qed.
#[export] Instance only_qr_fail {A} err : OnlyQr (@fail A err).
Proof. by intros e s a s'. Qed.
#[export] Instance only_qr_guard b err : OnlyQr (guard_err b err).
Proof. intros e s a s' (_ & -> & _)%guard_err_Ok. apply only_qr_refl. Qed.
#[export] Instance only_qr_lift {A} (r : result error A) : OnlyQr (lift r).
Proof. intros e s a s' [= _ <-]. apply only_qr_refl. Qed.
#[export] Instance only_qr_token n : OnlyQr (GenerateCapabilityTokenWithBytes n).
Proof.
  intros e s a s' H. unfold GenerateCapabilityTokenWithBytes in H. go_steps H.
  apply rand_Read_Ok in Hrun0 as (_ & _ & ->). apply only_qr_refl.
Qed.
#[export] Hint Extern 5 (OnlyQr (match ?x with _ => _ end)) => destruct x : typeclass_instances.

#[export] Instance only_qr_select_one {K A} `{Countable K} (get : Db -> gmap K A) id whr :
  OnlyQr (exec (select_one get id whr)).
Proof. intros e s a s' (_ & d & (_ & _ & ->)%select_one_Ok & ->)%exec_Ok. apply only_qr_refl. Qed.
#[export] Instance only_qr_select_first {K A} `{Countable K} (get : Db -> gmap K A) whr le :
  OnlyQr (exec (select_first get whr le)).
Proof. intros e s a s' (_ & d & (-> & _)%select_first_Ok & ->)%exec_Ok. apply only_qr_refl. Qed.
#[export] Instance only_qr_rotate id o l t : OnlyQr (RotateTableQRCapabilityRow id o l t).
Proof.
  intros e s a s' (_ & d & (r & Hr & _ & [= <-] & _ & ->)%update_row_Ok & ->)%exec_Ok.
  split; [by eexists|]. by eapply qr_evolves_update.
Qed.
#[export] Instance only_qr_revoke id o l : OnlyQr (RevokeTableQRCapabilityRow id o l).
Proof.
  intros e s a s' (_ & d & (r & Hr & _ & [= <-] & _ & ->)%update_row_Ok & ->)%exec_Ok.
  split; [by eexists|]. by eapply qr_evolves_update.
Qed.
#[export] Instance only_qr_create o l t p h lb ex : OnlyQr (CreateTableQRCapabilityHashed o l t p h lb ex).
Proof.
  intros e s a s' (_ & d & (_ & Hf & Hok & ->)%insert_row_Ok & ->)%exec_Ok.
  split; [by eexists|]. by apply qr_evolves_insert.
Qed.
#[export] Instance only_qr_touch id : OnlyQr (TouchTableQRCapability id).
Proof.
  intros e s a s' (_ & d & H & ->)%exec_Ok. destruct (db_qr (st_db s) !! id) eqn:Hid;
    injection H as _ <-; [|apply only_qr_refl].
  split; [by eexists|]. by eapply qr_evolves_update.
Qed.
#[export] Instance only_qr_state t o l : OnlyQr (GetTableState t o l).
Proof. intros e s a s' (_ & _ & ->)%GetTableState_Ok. apply only_qr_refl. Qed.

Lemma qr_tx_outcome {A} (fn : Go A) e s r s' :
  InTx fn -> OnlyQr fn -> inTenantTx fn e s = (r, s') -> outcome e (st_db s) r (st_db s').
Proof.
  intros Hin Hq. apply inTenantTx_outcome; [done|]. intros s1 a s2 Hd Hrun.
  rewrite <- Hd. apply only_qr_change. by eapply Hq.
Qed.

Lemma GuestContext_outcome token e s r s' :
  GuestContext token e s = (r, s') -> outcome e (st_db s) r (st_db s').
Proof.
  intros H. eapply resolve_then; [exact H|]. intros c s1 _ <- Hrun.
  eapply qr_tx_outcome; [| |exact Hrun];
    unfold GetLocation, GetActiveGuestAssistBySession; [|apply _].
  unfold TouchTableQRCapability, GetTableState. apply _.
Qed.

Lemma GetGuestRequest_outcome token a e s r s' :
  GetGuestRequest token a e s = (r, s') -> outcome e (st_db s) r (st_db s').
Proof.
  intros H. eapply resolve_then; [exact H|]. intros c s1 _ <- Hrun.
  eapply qr_tx_outcome; [..|exact Hrun]; unfold GetGuestAssistByID; apply _.
Qed.

Lemma RotateTableQRCapability_outcome org loc tbl cap e s r s' :
  RotateTableQRCapability org loc tbl cap e s = (r, s') -> outcome e (st_db s) r (st_db s').
Proof.
  apply qr_tx_outcome; unfold GenerateCapabilityToken; [|apply _].
  unfold RotateTableQRCapabilityRow, CreateTableQRCapabilityHashed. apply _.
Qed.

Lemma RevokeTableQRCapability_outcome org loc tbl cap e s r s' :
  RevokeTableQRCapability org loc tbl cap e s = (r, s') -> outcome e (st_db s) r (st_db s').
Proof. apply qr_tx_outcome; [unfold RevokeTableQRCapabilityRow; apply _|apply _]. Qed.

Lemma GenerateCapabilityToken_db e s r s' :
  GenerateCapabilityToken e s = (r, s') -> st_db s' = st_db s.
Proof.
  unfold GenerateCapabilityToken, GenerateCapabilityTokenWithBytes, guard_err, map_err, rand_Read,
    mbind, Go_bind, mret, Go_ret. simpl. destruct (env_fault e (st_tick s)); by intros [= _ <-].
Qed.

Lemma ExportTableQRCapability_outcome org loc tbl label ex e s r s' :
  ExportTableQRCapability org loc tbl label ex e s = (r, s') -> outcome e (st_db s) r (st_db s').
Proof.
  unfold ExportTableQRCapability. intros H. unfold mbind at 1, Go_bind at 1 in H.
  destruct (GenerateCapabilityToken e s) as [[tok|err] s1] eqn:Hg;
    apply GenerateCapabilityToken_db in Hg; rewrite <- Hg; [|injection H as <- <-; apply outcome_same].
  unfold mbind at 1, Go_bind at 1, lift in H.
  destruct (TokenLookupParts tok); [|injection H as <- <-; apply outcome_same].
  eapply qr_tx_outcome; [| |exact H]; [unfold CreateTableQRCapabilityHashed; apply _|apply _].
Qed.

Lemma CreateGuestRequest_outcome arg enc e s r s' :
  CreateGuestRequest arg enc e s = (r, s') -> outcome e (st_db s) r (st_db s').
Proof.
  unfold CreateGuestRequest, guard_err. destruct (negb _); [intros [= <- <-]; apply outcome_same|].
  intros H. erewrite bind_run in H by done.
  eapply resolve_then; [exact H|]. intros c s1 _ <- Hrun. rewrite runGuestCommand_eq in Hrun.
  eapply runTenantCommand_outcome; [..|exact Hrun];
    [apply _|intros v; simpl; destruct (negb v.2); apply _|].
  intros s2 [a isnew] s3 s4 Hd He Ha d' Hbk. simpl in Ha. rewrite <- Hd. destruct isnew; simpl in Ha.
  - apply writeOperationalEvent_Ok in Ha as (eid & time & Hadd).
    eapply change_step; [by eapply guest_create_row_step|]. by exists (st_db s4).
  - apply ret_Ok in Ha as [_ <-]. apply createGuestRequestInTx_Ok in He as
      (t & l & o & sid & _ & _ & _ & _ & _ & _ & _ & _ & _ & _ & _ & <-).
    by apply change_bookkeeping.
Qed.

Lemma CancelGuestRequest_outcome arg enc e s r s' :
  floor_inv (st_db s) ->
  CancelGuestRequest arg enc e s = (r, s') -> outcome e (st_db s) r (st_db s').
Proof.
  intros Hinv H. eapply resolve_then; [exact H|]. intros c s1 _ Hd Hrun.
  cbv beta zeta in Hrun. rewrite runGuestCommand_eq in Hrun. rewrite <- Hd in *.
  eapply step_outcome; [| |exact Hrun]; [apply _|].
  intros s2 v s3 Hd2 He. by eapply guest_cancel_row_step.
Qed.

Lemma run_command_outcome c e s r s' :
  floor_inv (st_db s) -> run_command c e s = (r, s') -> outcome e (st_db s) r (st_db s').
Proof.
  intros Hinv H. destruct c; (eapply outcome_discard; [exact H|]); clear H; intros r1 H.
  - eapply step_outcome; [| |exact H]; [apply _|]. intros. by eapply occupy_row_step.
  - eapply step_outcome; [| |exact H]; [apply _|]. intros. by eapply clear_row_step.
  - by eapply RequestAssist_outcome.
  - eapply step_outcome; [| |exact H]; [apply _|]. intros. by eapply assist_row_step.
  - eapply step_outcome; [| |exact H]; [apply _|]. intros. by eapply assist_row_step.
  - eapply step_outcome; [| |exact H]; [apply _|]. intros. by eapply assist_row_step.
  - by eapply GuestContext_outcome.
  - by eapply CreateGuestRequest_outcome.
  - by eapply GetGuestRequest_outcome.
  - by eapply CancelGuestRequest_outcome.
  - by eapply ExportTableQRCapability_outcome.
  - by eapply RotateTableQRCapability_outcome.
  - by eapply RevokeTableQRCapability_outcome.
Qed.
