(* ===== verification/History.v ===== *)
(** Histories of commands.  A history is any sequence of runs of the commands of
    [Commands], each under an environment of its own (so any of its calls may
    fail).  The invariants of this file hold after every history, because every
    run is a [change] and every [change] keeps them. *)

From S2P Require Import Prelude Json Crypto Schema GoTx Store Queries Events Operations Guest TxFacts CommandFacts FloorSpec GuestFacts Commands.
#[local] Open Scope string_scope.
#[local] Open Scope Z_scope.
#[local] Open Scope list_scope.

Inductive history (d0 : Db) : Db -> Prop :=
| history_start : history d0 d0
| history_run d d' c e r :
    history d0 d -> run (run_command c) e d = (r, d') -> history d0 d'.

Lemma run_outcome c e d r d' :
  floor_inv d -> run (run_command c) e d = (r, d') -> outcome e d r d'.
Proof.
  unfold run. intros Hi H. destruct (run_command c e (start d)) as [r1 s1] eqn:Hr.
  injection H as <- <-. exact (run_command_outcome c e (start d) r1 s1 Hi Hr).
Qed.

(** ** What a logged event leaves alone *)

Lemma logged_frame ev tnow eid time d d' :
  logged ev tnow eid time d d' ->
  same_floor d d' /\ db_qr d' = db_qr d /\ db_idempotency d ⊆ db_idempotency d' /\
  db_events d !! eid = None /\
  exists trace,
    db_events d' = <[eid := event_row ev eid time (event_payload ev eid time trace)]> (db_events d) /\
    event_ok d eid (event_row ev eid time (event_payload ev eid time trace)) = Ok tt /\
    outbox_added (ope_OrganisationID ev) (ope_LocationID ev) eid (event_topic ev)
      (event_payload ev eid time trace) tnow (event_destinations ev) (db_outbox d) (db_outbox d').
Proof.
  intros (d2 & (trace & ob & Hf & Hok & Hob & ->) & (Hs & He & Ho & Hq & _ & _ & _ & Hid)).
  rewrite He, Ho, Hq. split_and!; try done. exists trace. done.
Qed.

(** ** The floor invariant *)

Lemma row_step_floor_inv d d2 ev : floor_inv d -> row_step d d2 ev -> floor_inv d2.
Proof.
  intros Hi H. destruct H; unfold table_changed.
  - destruct (fi_occupancy _ Hi _ _ H) as (Hid & Hck & _).
    eapply floor_inv_table; try done; [congruence|]. right.
    pose proof (free_no_session _ Hck H0) as Hn.
    split_and!; congruence.
  - destruct (fi_occupancy _ Hi _ _ H) as (Hid & Hck & Hc).
    destruct (Hc _ H0) as (y & Hy & Hact & _).
    eapply floor_inv_table; try done; [congruence| |by left].
    assert (y = x) as -> by congruence. unfold session_active_on in Hact.
    apply andb_prop in Hact as [Ht%N.eqb_eq _]. congruence.
  - by apply floor_inv_assist.
  - destruct (fi_assists _ Hi _ _ H) as [Hid _]. apply floor_inv_assist; [done|congruence|done].
Qed.

Lemma change_floor_inv d d' : floor_inv d -> change d d' -> floor_inv d'.
Proof.
  intros Hi [Hs _ _ _ _|d2 ev tnow eid time Hst (Hs & _)%logged_frame];
    eauto using floor_inv_same, row_step_floor_inv.
Qed.

Lemma history_floor_inv d0 d : floor_inv d0 -> history d0 d -> floor_inv d.
Proof.
  intros Hi H. induction H as [|d d' c e r _ IH Hr]; [done|].
  apply run_outcome in Hr as [Hc _]; [|done]. by eapply change_floor_inv.
Qed.

(** ** Refinement of the floor specification *)

Lemma row_step_refines d d2 ev :
  floor_inv d -> row_step d d2 ev -> floor_step (floor_of d) (floor_of d2).
Proof.
  intros Hi H. destruct H; unfold floor_of, table_changed; simpl; rewrite fmap_insert.
  - destruct (fi_occupancy _ Hi _ _ H) as (_ & Hck & _).
    pose proof (free_no_session _ Hck H0) as Hn.
    replace (table_state o') with (Occupied (occ_Version o + 1) (ses_ID x))
      by (unfold table_state; by rewrite H4, H5).
    apply (FloorOccupy {| fl_tables := _; fl_assists := _ |}); simpl.
    + rewrite lookup_fmap, H. unfold table_state. simpl. by rewrite Hn.
    + intros t' v' Ht'. rewrite lookup_fmap in Ht'.
      destruct (db_occupancy d !! t') as [o2|] eqn:Ho2; [|done]. simpl in Ht'.
      injection Ht' as Ht'. unfold table_state in Ht'.
      destruct (occ_CurrentSessionID o2) as [sid|] eqn:Hc; [|done]. injection Ht' as _ ->.
      destruct (fi_occupancy _ Hi _ _ Ho2) as (_ & _ & Hcur).
      destruct (Hcur _ Hc) as (y & Hy & _). congruence.
  - replace (table_state o') with (Free (occ_Version o + 1))
      by (unfold table_state; by rewrite H4, H5).
    eapply (FloorClear {| fl_tables := _; fl_assists := _ |}); simpl.
    rewrite lookup_fmap, H. unfold table_state. simpl. by rewrite H0.
  - replace (assist_state r) with (Assist "pending" 1) by (unfold assist_state; by rewrite H0, H1).
    apply (FloorRequest {| fl_tables := _; fl_assists := _ |}). simpl. by rewrite lookup_fmap, H.
  - replace (assist_state r') with (Assist (ast_Status r') (ast_Version r + 1))
      by (unfold assist_state; by rewrite H2).
    eapply (FloorAssist {| fl_tables := _; fl_assists := _ |}); [|done].
    simpl. by rewrite lookup_fmap, H.
Qed.

Lemma change_refines d d' :
  floor_inv d -> change d d' -> floor_of d' = floor_of d \/ floor_step (floor_of d) (floor_of d').
Proof.
  intros Hi [Hs _ _ _ _|d2 ev tnow eid time Hst (Hs & _)%logged_frame].
  - left. by apply floor_of_same.
  - right. rewrite (floor_of_same _ _ Hs). by eapply row_step_refines.
Qed.

(** ** Versions *)

(** A row's version grows whenever the row changes. *)
Lemma change_occupancy d d' t o o' :
  change d d' -> db_occupancy d !! t = Some o -> db_occupancy d' !! t = Some o' ->
  o' = o \/ occ_Version o < occ_Version o'.
Proof.
  intros Hc Ho Ho'. destruct Hc as [(Hs & _) _ _ _ _|d2 ev tnow eid time Hst ((Hs & _) & _)%logged_frame].
  - rewrite Hs in Ho'. left. congruence.
  - rewrite Hs in Ho'. destruct Hst; simpl in Ho';
      try (apply lookup_insert_Some in Ho' as [[<- <-]|[_ Ho']]; [right; simplify_eq; lia|]);
      left; congruence.
Qed.

Lemma change_keeps_tables d d' t o :
  change d d' -> db_occupancy d !! t = Some o -> exists o', db_occupancy d' !! t = Some o'.
Proof.
  intros Hc Ho. destruct Hc as [(Hs & _) _ _ _ _|d2 ev tnow eid time Hst ((Hs & _) & _)%logged_frame];
    rewrite Hs; [eauto|]. destruct Hst; simpl; [..|eauto|eauto];
    (destruct (decide (t0 = t)) as [->|Hne];
       [rewrite lookup_insert_eq|rewrite lookup_insert_ne by done]; eauto).
Qed.

Lemma change_assist d d' a r :
  change d d' -> db_assists d !! a = Some r ->
  exists r', db_assists d' !! a = Some r' /\
    (r' = r \/ ast_Version r' = ast_Version r + 1 /\
       validAssistTransition (ast_Status r) (ast_Status r') = true).
Proof.
  intros Hc Hr. destruct Hc as [(_ & _ & Hs) _ _ _ _|d2 ev tnow eid time Hst ((_ & _ & Hs) & _)%logged_frame];
    rewrite Hs; [eauto|]. destruct Hst; simpl; [eauto|eauto|..].
  - rewrite lookup_insert_ne by congruence. eauto.
  - destruct (decide (a0 = a)) as [->|Hne].
    + rewrite lookup_insert_eq. simplify_eq. eauto.
    + rewrite lookup_insert_ne by done. eauto.
Qed.

Lemma history_occupancy d0 d t o :
  floor_inv d0 -> history d0 d -> db_occupancy d0 !! t = Some o ->
  exists o', db_occupancy d !! t = Some o' /\ (o' = o \/ occ_Version o < occ_Version o').
Proof.
  intros Hi H Ho. induction H as [|d d' c e r H IH Hr]; [eauto|].
  destruct IH as (o1 & Ho1 & Hv1).
  apply run_outcome in Hr as [Hc _]; [|by eapply history_floor_inv].
  destruct (change_keeps_tables _ _ _ _ Hc Ho1) as (o2 & Ho2). exists o2. split; [done|].
  destruct (change_occupancy _ _ _ _ _ Hc Ho1 Ho2) as [->|Hlt]; [done|].
  right. destruct Hv1 as [->|?]; lia.
Qed.

Lemma history_idempotency d0 d :
  floor_inv d0 -> history d0 d -> db_idempotency d0 ⊆ db_idempotency d.
Proof.
  intros Hi H. induction H as [|d d' c e r H IH Hr]; [done|].
  apply run_outcome in Hr as [Hc _]; [|by eapply history_floor_inv].
  destruct Hc as [_ _ _ Hid _|d2 ev tnow eid time Hst (_ & _ & Hid & _)%logged_frame].
  - by etransitivity.
  - etransitivity; [exact IH|]. by destruct Hst.
Qed.

Lemma history_qr d0 d : floor_inv d0 -> history d0 d -> qr_evolves d0 d.
Proof.
  intros Hi H. induction H as [|d d' c e r H IH Hr]; [reflexivity|].
  apply run_outcome in Hr as [Hc _]; [|by eapply history_floor_inv].
  etransitivity; [exact IH|].
  destruct Hc as [_ _ _ _ Hq|d2 ev tnow eid time Hst (_ & Hq & _)%logged_frame]; [done|].
  apply qr_evolves_same. rewrite Hq. by destruct Hst.
Qed.

Lemma terminal_no_transition cur next :
  terminal_status cur = true -> validAssistTransition cur next = false.
Proof.
  intros Ht. apply not_true_iff_false. intros Hv%validAssistTransition_cases.
  destruct Hv as [[_ ->]|[_ [->| ->]]]; done.
Qed.
