(* ===== verification/IntegrationFacts.v ===== *)
(** What the requests of the integrations service can do to the database: a
    relation that writing an integration's own tables respects, and that occupying
    and clearing a table respect, is respected by all of them. *)

From S2P Require Import Prelude Json Crypto Schema GoTx Store Queries Tokens IdentityQueries IntegrationQueries Operations Outbox ReferencePOS Integrations TxFacts Steps IdentityFacts CommandFacts FloorSpec Commands.
#[local] Open Scope string_scope.
#[local] Open Scope Z_scope.
#[local] Open Scope list_scope.

Inductive IntegrationCommand : Type :=
| XListConnections (actor : ReferencePOS.TenantActor)
| XListMappings (actor : ReferencePOS.TenantActor) (connectionID : uuid)
| XUpdateMapping (actor : ReferencePOS.TenantActor) (mappingID tableID : uuid) (status : string)
| XListWebhooks (actor : ReferencePOS.TenantActor) (connectionID : uuid)
| XListDiscrepancies (actor : ReferencePOS.TenantActor) (connectionID : uuid)
| XHealth (actor : ReferencePOS.TenantActor) (connectionID : uuid)
| XReceiveWebhook (vendor : string) (connectionID : uuid) (signature : string) (payload : list N)
| XReplayWebhook (actor : ReferencePOS.TenantActor) (webhookID : uuid)
| XReconcile (actor : ReferencePOS.TenantActor) (connectionID : uuid)
| XReconcileConnected.

(** ** Adapters leave the database alone *)

Class Untouching {A} (m : Go A) : Prop :=
  untouched : forall e s r s', m e s = (r, s') -> st_db s' = st_db s /\ st_saved s' = st_saved s.

#[export] Instance untouching_lift {A} (r : result error A) : Untouching (lift r).
Proof. by intros e s r' s' [= _ <-]. Qed.
#[export] Instance untouching_ret {A} (a : A) : Untouching (mret a).
Proof. by intros e s r' s' [= _ <-]. Qed.

Class RemoteAdapter (a : Adapter) : Prop := {
  remote_handle : forall c p s, Untouching (ad_HandleWebhook a c p s);
  remote_fetch : forall c, Untouching (ad_FetchExternalStatus a c);
  remote_health : forall c, Untouching (ad_CheckHealth a c);
}.

#[export] Instance reference_remote `{PosText} : RemoteAdapter ReferencePOSAdapter.
Proof. split; intros; simpl; apply _. Qed.

Definition all_remote (adapters : gmap string Adapter) : Prop :=
  forall v a, adapters !! v = Some a -> RemoteAdapter a.

Lemma reference_all_remote `{PosText} : all_remote ReferencePOS.adapters.
Proof. intros v a Ha. unfold adapters in Ha. apply lookup_singleton_Some in Ha as [_ <-]. apply _. Qed.

(** ** Requests of several transactions

    Between its transactions a request holds no snapshot.  [TopKeeps R m]: a
    computation that starts and ends there relates the databases by [R]. *)

Definition TopKeeps {A} (R : Db -> Db -> Prop) (m : Go A) : Prop :=
  forall e s r s', st_saved s = None -> m e s = (r, s') ->
    st_saved s' = None /\ R (st_db s) (st_db s').

(** A computation that closes the transaction it finds open. *)
Definition Closes {A} (m : Go A) : Prop :=
  forall e s r s' d0, st_saved s = Some d0 -> m e s = (r, s') -> st_saved s' = None.

Lemma closes_guarded {A B} (m : Go A) (k : A -> Go B) :
  Guarded m -> (forall a, Closes (k a)) -> Closes (m ≫= k).
Proof.
  intros Hm Hk e s r s' d0 Hs H. unfold mbind, Go_bind in H.
  destruct (m e s) as [[a|err] s1] eqn:H1; pose proof (Hm _ _ _ _ _ H1 Hs) as [Hs1 _].
  - by eapply Hk.
  - by injection H as _ <-.
Qed.

Lemma closes_commit {A} f (a : A) : Closes (map_err f Commit ;; mret a).
Proof.
  intros e s r s' d0 Hs H. unfold mbind, Go_bind, map_err, Commit in H.
  destruct (env_fault e (st_tick s)); by injection H as _ <-.
Qed.

Lemma begin_closes {A} f (k : unit -> Go A) e s r s' :
  Closes (k tt) -> st_saved s = None -> (map_err f BeginTx ≫= k) e s = (r, s') -> st_saved s' = None.
Proof.
  intros Hk Hs H. unfold mbind, Go_bind, map_err, BeginTx in H.
  destruct (env_fault e (st_tick s)); [by injection H as _ <-|]. by eapply Hk in H.
Qed.

Lemma contextTx_closes {A} b c k (fn : Go A) e s r s' :
  InTx fn -> st_saved s = None -> contextTx b c k fn e s = (r, s') -> st_saved s' = None.
Proof.
  intros Hin. apply begin_closes. apply closes_guarded; [apply _|]. intros _.
  apply closes_guarded; [apply _|]. intros a. apply closes_commit.
Qed.

Lemma runTenantCommand_closes {T} org loc actor meta (execute : Go T) after enc e s r s' :
  InTx execute -> (forall v, InTx (after v)) -> st_saved s = None ->
  runTenantCommand org loc actor meta execute after enc e s = (r, s') -> st_saved s' = None.
Proof.
  intros Hex Haf. unfold runTenantCommand. apply begin_closes.
  apply closes_guarded; [apply _|]. intros _.
  apply closes_guarded; [unfold getIdempotencyReplay; apply _|]. intros [replay|]; [apply closes_commit|].
  apply closes_guarded; [apply _|]. intros v. apply closes_guarded; [apply _|]. intros _.
  apply closes_guarded; [apply _|]. intros resp.
  apply closes_guarded; [unfold insertIdempotencyRecord; apply _|]. intros body. apply closes_commit.
Qed.

Section TopKeeps.
Context (R : Db -> Db -> Prop) `{!PreOrder R}.

Lemma top_ret {A} (a : A) : TopKeeps R (mret a).
Proof. by intros e s r s' Hs [= _ <-]. Qed.
Lemma top_untouching {A} (m : Go A) : Untouching m -> TopKeeps R m.
Proof. intros Hm e s r s' Hs [-> ->]%Hm. done. Qed.
Lemma top_guard_err b err : TopKeeps R (guard_err b err).
Proof. intros e s r s' Hs H. unfold guard_err in H. destruct b; by injection H as _ <-. Qed.
Lemma top_uuid_New : TopKeeps R uuid_New.
Proof. by intros e s r s' Hs [= _ <-]. Qed.
Lemma top_fail {A} err : TopKeeps R (@fail A err).
Proof. by intros e s r s' Hs [= _ <-]. Qed.

Lemma top_bind {A B} (m : Go A) (k : A -> Go B) :
  TopKeeps R m -> (forall a, TopKeeps R (k a)) -> TopKeeps R (m ≫= k).
Proof.
  intros Hm Hk e s r s' Hs H. unfold mbind, Go_bind in H.
  destruct (m e s) as [[a|err] s1] eqn:H1; destruct (Hm _ _ _ _ Hs H1) as [Hs1 HR].
  - destruct (Hk _ _ _ _ _ Hs1 H) as [? HR2]. split; [done|]. by etrans.
  - by injection H as _ <-.
Qed.

Lemma top_map_err {A} f (m : Go A) : TopKeeps R m -> TopKeeps R (map_err f m).
Proof.
  intros Hm e s r s' Hs H. unfold map_err in H.
  destruct (m e s) as [[a|err] s1] eqn:H1; apply Hm in H1; try done; by injection H as _ <-.
Qed.

Lemma top_attempt {A} (m : Go A) : TopKeeps R m -> TopKeeps R (attempt m).
Proof.
  intros Hm e s r s' Hs H. unfold attempt in H.
  destruct (m e s) as [r1 s1] eqn:H1. apply Hm in H1; [|done]. by injection H as _ <-.
Qed.

Lemma top_contextTx {A} b c k (fn : Go A) : InTx fn -> OkKeeps R fn -> TopKeeps R (contextTx b c k fn).
Proof.
  intros Hin Hfn e s r s' Hs H. split; [by eapply contextTx_closes|].
  by eapply body_contextTx.
Qed.
End TopKeeps.

(** A relation that contains another keeps what it keeps. *)
Lemma top_weaken {A} (R R' : Db -> Db -> Prop) (m : Go A) :
  (forall d d', R d d' -> R' d d') -> TopKeeps R m -> TopKeeps R' m.
Proof. intros Hsub Hm e s r s' Hs H. apply Hm in H as []; auto. Qed.

Lemma top_run {A} R (m : Go A) e d r d' : TopKeeps R m -> run m e d = (r, d') -> R d d'.
Proof.
  unfold run. intros Hm Hr. destruct (m e (start d)) as [r1 s1] eqn:H1. injection Hr as <- <-.
  by apply Hm in H1 as [].
Qed.

#[export] Hint Extern 1 (TopKeeps _ (ad_HandleWebhook _ _ _ _)) =>
  (apply top_untouching; [typeclasses eauto|apply remote_handle]) : keeps.
#[export] Hint Extern 1 (TopKeeps _ (ad_FetchExternalStatus _ _)) =>
  (apply top_untouching; [typeclasses eauto|apply remote_fetch]) : keeps.
#[export] Hint Extern 1 (TopKeeps _ (ad_CheckHealth _ _)) =>
  (apply top_untouching; [typeclasses eauto|apply remote_health]) : keeps.

(** Walk through a request; its transactions are the leaves. *)
Ltac solve_top :=
  lazymatch goal with
  | |- forall _, _ => intros ?; solve_top
  | |- TopKeeps _ (let _ := _ in _) => cbv zeta; solve_top
  | |- TopKeeps _ ?m =>
      first
      [ solve [eauto 2 with keeps]
      | lazymatch m with
        | mret _ => refine (top_ret _ _)
        | fail _ => refine (top_fail _ _)
        | uuid_New => refine (top_uuid_New _)
        | guard_err _ _ => refine (top_guard_err _ _ _)
        | map_err _ _ => apply top_map_err; solve_top
        | attempt _ => apply top_attempt; solve_top
        | mbind _ _ => refine (top_bind _ _ _ _ _); solve_top
        | contextTx _ _ _ _ =>
            refine (top_contextTx _ _ _ _ _ _ _); first [solve [solve_intx] | solve_ok]
        | match ?x with _ => _ end => destruct x; solve_top
        | _ => let h := get_head m in progress unfold h; cbv beta zeta; solve_top
        end ]
  | |- _ => idtac
  end.

(** ** What a request runs

    A relation over which the writing statements of the service, and its two calls
    of the operations service, are known. *)

(** The commands an integration issues. *)
Definition on_behalf (c : Command) : bool :=
  match c with
  | COccupy arg None =>
      has_prefix "integration:" (ocp_ActorRef arg) && has_prefix "integration:" (ocp_Source arg)
  | CClear arg None => has_prefix "integration:" (clp_ActorRef arg)
  | _ => false
  end.

Class OwnStatements (R : Db -> Db -> Prop) : Prop := {
  os_preorder :: PreOrder R;
  os_update_webhook : forall id st t, BodyKeeps R (update_webhook id st t);
  os_insert_webhook : forall o l c v x s p, BodyKeeps R (insert_webhook o l c v x s p);
  os_upsert_mapping : forall o l c x t, BodyKeeps R (upsert_mapping o l c x t);
  os_update_mapping : forall id o l t st, BodyKeeps R (update_mapping id o l t st);
  os_insert_run : forall o l c, BodyKeeps R (insert_run o l c);
  os_update_run : forall id st a b c t, BodyKeeps R (update_run id st a b c t);
  os_mark_synced : forall id, BodyKeeps R (mark_connection_synced id);
  os_mark_degraded : forall id t, BodyKeeps R (mark_connection_degraded id t);
  os_insert_discrepancy : forall o l c r m t x ty a b st j,
    BodyKeeps R (insert_discrepancy (new_discrepancy o l c r m t x ty a b st j));
}.

Class FloorCalls (R : Db -> Db -> Prop) : Prop := {
  fc_occupy : forall arg, on_behalf (COccupy arg None) = true -> TopKeeps R (OccupyTable arg);
  fc_clear : forall arg, on_behalf (CClear arg None) = true -> TopKeeps R (ClearTable arg);
}.

#[export] Hint Resolve os_update_webhook os_insert_webhook os_upsert_mapping os_update_mapping
  os_insert_run os_update_run os_mark_synced os_mark_degraded os_insert_discrepancy : keeps.

Section Requests.
Context (R : Db -> Db -> Prop) {HO : OwnStatements R}.

Lemma top_getConnectionForActor a id p : TopKeeps R (getConnectionForActor a id p).
Proof. solve_top. Qed.
Lemma top_getConnectionByID id : TopKeeps R (getConnectionByID id).
Proof. solve_top. Qed.
Lemma top_listConnected : TopKeeps R listConnectedConnections.
Proof. solve_top. Qed.
Lemma top_insertWebhook c x v p : TopKeeps R (insertWebhook c x v p).
Proof. solve_top. Qed.
Lemma top_getWebhookForActor a id p : TopKeeps R (getWebhookForActor a id p).
Proof. solve_top. Qed.
Lemma top_markWebhook id st t : TopKeeps R (markWebhook id st t).
Proof. solve_top. Qed.
Lemma top_mappingByExternalID c x l : TopKeeps R (mappingByExternalID c x l).
Proof. solve_top. Qed.
Lemma top_currentTableState c t : TopKeeps R (currentTableState c t).
Proof. solve_top. Qed.
Lemma top_hasActiveAssists c t : TopKeeps R (hasActiveAssists c t).
Proof. solve_top. Qed.
Lemma top_createRun c : TopKeeps R (createRun c).
Proof. solve_top. Qed.
Lemma top_finishRun id st a b c t : TopKeeps R (finishRun id st a b c t).
Proof. solve_top. Qed.
Lemma top_recordDiscrepancy c r m t x ty a b st raw :
  TopKeeps R (recordDiscrepancy c r m t x ty a b st raw).
Proof. solve_top. Qed.
Lemma top_skip_webhook w : TopKeeps R (skip_webhook w).
Proof. solve_top. Qed.

#[local] Hint Resolve top_getConnectionForActor top_getConnectionByID top_listConnected
  top_insertWebhook top_getWebhookForActor top_markWebhook top_mappingByExternalID
  top_currentTableState top_hasActiveAssists top_createRun top_finishRun top_recordDiscrepancy
  top_skip_webhook : keeps.

Context {HF : FloorCalls R}.

Lemma has_prefix_app p s : has_prefix p (p +:+ s) = true.
Proof. induction p as [|c p IH]; simpl; [done|]. by rewrite Ascii.eqb_refl. Qed.

Lemma top_unless_is {A} err (m : Go A) : TopKeeps R m -> TopKeeps R (unless_is err m).
Proof.
  intros Hm. unfold unless_is. refine (top_bind _ _ _ _ _); [by apply top_attempt|].
  intros [|err2]; [|destruct (errors_Is err2 err)]; solve_top.
Qed.

Lemma top_applyTableState c t v st p : TopKeeps R (applyTableState c t v st p).
Proof.
  unfold applyTableState. refine (top_bind _ _ _ _ _); [refine (top_uuid_New _)|]. intros id. cbv zeta.
  repeat case_match; [apply top_unless_is, fc_occupy|apply top_unless_is, fc_clear|solve_top];
    cbn; by rewrite ?has_prefix_app.
Qed.

#[local] Hint Resolve top_applyTableState : keeps.

Lemma top_reconcileTableState c run state : TopKeeps R (reconcileTableState c run state).
Proof. solve_top. Qed.

Context {GT : GoText} {ET : ErrorTexts} {PT : PosText}.

Lemma top_apply_and_mark c w f : TopKeeps R (apply_and_mark c w f).
Proof. solve_top. Qed.

#[local] Hint Resolve top_reconcileTableState top_apply_and_mark : keeps.

Lemma top_reconcile_states c run n states : forall i j,
  TopKeeps R (reconcile_states c run n states i j).
Proof.
  induction states as [|state states IH]; intros i j; simpl; [solve_top|].
  refine (top_bind _ _ _ _ _); [solve_top|]. intros [[[? ?] ?]|err]; [apply IH|solve_top].
Qed.

#[local] Hint Resolve top_reconcile_states : keeps.

Context (adapters : gmap string Adapter) (Hremote : all_remote adapters).

Lemma top_adapter {A} vendor (k : Adapter -> Go A) :
  (forall a, RemoteAdapter a -> TopKeeps R (k a)) -> TopKeeps R (adapter adapters vendor ≫= k).
Proof using HO Hremote.
  intros Hk. unfold adapter. destruct (adapters !! vendor) as [a|] eqn:Ha.
  - intros e s r s' Hs H. erewrite bind_run in H by done. eapply Hk; [by eapply Hremote|done|done].
  - intros e s r s' Hs H. erewrite bind_run_Err in H by done. by injection H as _ <-.
Qed.

Lemma top_reconcileConnection c : TopKeeps R (reconcileConnection adapters c).
Proof using All. apply top_adapter. intros a Ha. solve_top. Qed.

#[local] Hint Resolve top_reconcileConnection : keeps.

Lemma top_reconcile_all cs : forall n, TopKeeps R (reconcile_all adapters cs n).
Proof using All.
  induction cs as [|c cs IH]; intros n; simpl; [solve_top|].
  refine (top_bind _ _ _ _ _); [solve_top|]. intros [?|err]; [apply IH|solve_top].
Qed.

#[local] Hint Resolve top_reconcile_all : keeps.

Lemma top_ReceiveWebhook v id s p : TopKeeps R (ReceiveWebhook adapters v id s p).
Proof using All.
  unfold ReceiveWebhook. cbv zeta. refine (top_bind _ _ _ _ _); [solve_top|]. intros _.
  refine (top_bind _ _ _ _ _); [solve_top|]. intros conn.
  refine (top_bind _ _ _ _ _); [solve_top|]. intros _. apply top_adapter. intros a Ha. solve_top.
Qed.

Lemma top_ReplayWebhook a id : TopKeeps R (ReplayWebhook adapters a id).
Proof using All.
  unfold ReplayWebhook. cbv zeta. refine (top_bind _ _ _ _ _); [solve_top|]. intros _.
  refine (top_bind _ _ _ _ _); [solve_top|]. intros w. apply top_adapter. intros ad Ha. solve_top.
Qed.

Lemma top_Health a id : TopKeeps R (Health adapters a id).
Proof using All.
  unfold Health. refine (top_bind _ _ _ _ _); [solve_top|]. intros conn. apply top_adapter.
  intros ad Ha. solve_top.
Qed.
End Requests.

#[export] Hint Resolve top_getConnectionForActor top_getConnectionByID top_listConnected
  top_insertWebhook top_getWebhookForActor top_markWebhook top_mappingByExternalID
  top_currentTableState top_hasActiveAssists top_createRun top_finishRun top_recordDiscrepancy
  top_skip_webhook top_applyTableState top_reconcileTableState top_apply_and_mark
  top_reconcile_states top_reconcileConnection top_reconcile_all top_ReceiveWebhook
  top_ReplayWebhook top_Health : keeps.

Section Commands.
Context {GT : GoText} {ET : ErrorTexts} {PT : PosText}.

Definition run_integration (adapters : gmap string Adapter) (c : IntegrationCommand) : Go unit :=
  match c with
  | XListConnections actor => discard (ListConnections actor)
  | XListMappings actor conn => discard (ListMappings actor conn)
  | XUpdateMapping actor id tbl status => discard (UpdateMapping actor id tbl status)
  | XListWebhooks actor conn => discard (ListWebhooks actor conn)
  | XListDiscrepancies actor conn => discard (ListDiscrepancies actor conn)
  | XHealth actor conn => discard (Health adapters actor conn)
  | XReceiveWebhook vendor conn sig payload => discard (ReceiveWebhook adapters vendor conn sig payload)
  | XReplayWebhook actor id => discard (ReplayWebhook adapters actor id)
  | XReconcile actor conn => discard (Reconcile adapters actor conn)
  | XReconcileConnected => discard (ReconcileConnected adapters)
  end.

Lemma top_integration R `{!OwnStatements R, !FloorCalls R} adapters c :
  all_remote adapters -> TopKeeps R (run_integration adapters c).
Proof. intros Hremote. destruct c; solve_top. Qed.
End Commands.

(** ** Relations known of the floor commands *)

Lemma run_discarded {A B} (m : Go A) (k : A -> B) e s r s' :
  (x ← m; mret (k x)) e s = (r, s') -> exists r1, (m ;; mret tt) e s = (r1, s').
Proof.
  unfold mbind, Go_bind, mret, Go_ret. destruct (m e s) as [[a|err] s1]; intros [= _ <-]; eauto.
Qed.

(** A command of the operations service between transactions. *)
Definition CommandKeeps (R : Db -> Db -> Prop) (c : Command) : Prop :=
  forall e s r s', st_saved s = None -> run_command c e s = (r, s') -> R (st_db s) (st_db s').

Lemma keeps_command R c : Keeps R (run_command c) -> Reflexive R -> CommandKeeps R c.
Proof.
  intros Hk Hr e s r s' Hs H. assert (keeps_st R (st_db s) s) as H0 by (split; [done|by rewrite Hs]).
  exact (proj1 (Hk _ _ _ _ _ H H0)).
Qed.

Lemma occupy_closes arg e s r s' :
  st_saved s = None -> OccupyTable arg e s = (r, s') -> st_saved s' = None.
Proof.
  intros Hs H. unfold OccupyTable, mbind, Go_bind in H.
  destruct (OccupyTableCommand arg None e s) as [r1 s1] eqn:H1.
  apply runTenantCommand_closes in H1; [|apply _|apply _|done]. destruct r1; by injection H as _ <-.
Qed.

Lemma clear_closes arg e s r s' :
  st_saved s = None -> ClearTable arg e s = (r, s') -> st_saved s' = None.
Proof.
  intros Hs H. unfold ClearTable, mbind, Go_bind in H.
  destruct (ClearTableCommand arg None e s) as [r1 s1] eqn:H1.
  apply runTenantCommand_closes in H1; [|apply _|apply _|done]. destruct r1; by injection H as _ <-.
Qed.

Lemma floor_calls R : (forall c, on_behalf c = true -> CommandKeeps R c) -> FloorCalls R.
Proof.
  intros Hc. split; intros arg Hpos e s r s' Hs H.
  - split; [by eapply occupy_closes|]. apply run_discarded in H as (r1 & H).
    exact (Hc (COccupy arg None) Hpos _ _ _ _ Hs H).
  - split; [by eapply clear_closes|]. apply run_discarded in H as (r1 & H).
    exact (Hc (CClear arg None) Hpos _ _ _ _ Hs H).
Qed.

(** ** An integration's own tables *)

Definition own_tables (d d' : Db) : Prop := exists x, d' = set_integrations x d.

#[export] Instance own_tables_preorder : PreOrder own_tables.
Proof.
  split; [intros d; exists (db_integrations d); by destruct d|].
  intros d1 d2 d3 [x ->] [y ->]. by exists y.
Qed.

#[local] Hint Extern 1 (own_tables _ _) => (eexists; reflexivity) : keeps.

#[export] Instance own_statements : OwnStatements own_tables.
Proof. split; [apply _|intros; solve_body..]. Qed.

Lemma own_statements_of R `{!PreOrder R} : (forall x d, R d (set_integrations x d)) -> OwnStatements R.
Proof.
  intros Hx. assert (forall A (m : Go A), BodyKeeps own_tables m -> BodyKeeps R m) as Hm.
  { intros A m Hm e s r s' H. destruct (Hm _ _ _ _ H) as [x ->]. apply Hx. }
  split; [apply _|intros; apply Hm, own_statements..].
Qed.

(** A relation that the own tables do not matter to, and that the commands of the
    floor keep, is kept by every request. *)
Lemma integration_top {GT : GoText} {ET : ErrorTexts} {PT : PosText} R `{!PreOrder R} c :
  (forall x d, R d (set_integrations x d)) -> (forall c, Keeps R (run_command c)) ->
  TopKeeps R (run_integration ReferencePOS.adapters c).
Proof.
  intros Hx Hc. pose proof (own_statements_of R Hx).
  assert (FloorCalls R) by (apply floor_calls; intros; apply keeps_command; [done|apply _]).
  apply top_integration; [done|done|apply reference_all_remote].
Qed.

Lemma integration_keeps {GT : GoText} {ET : ErrorTexts} {PT : PosText} R `{!PreOrder R} c e d r d' :
  (forall x d, R d (set_integrations x d)) -> (forall c, Keeps R (run_command c)) ->
  run (run_integration ReferencePOS.adapters c) e d = (r, d') -> R d d'.
Proof. intros Hx Hc. apply top_run. by apply integration_top. Qed.

(** ** The steps of a request

    A request changes the integration's own tables, or has the operations service
    occupy or clear a table on behalf of an integration. *)
Inductive pos_step (d d' : Db) : Prop :=
| pos_own : own_tables d d' -> pos_step d d'
| pos_command c e s r s' :
    on_behalf c = true -> st_saved s = None -> st_db s = d -> run_command c e s = (r, s') ->
    st_db s' = d' -> pos_step d d'.

#[export] Instance pos_statements : OwnStatements (rtc pos_step).
Proof. apply own_statements_of; [apply _|]. intros x d. apply rtc_once, pos_own. by exists x. Qed.

#[export] Instance pos_calls : FloorCalls (rtc pos_step).
Proof.
  apply floor_calls. intros c Hpos e s r s' Hs H. apply rtc_once.
  exact (pos_command _ _ c _ _ _ _ Hpos Hs eq_refl H eq_refl).
Qed.
