(* ===== verification/SystemCommands.v ===== *)
(** One type of the operations on organisations, locations and layouts; and of
    the requests of the whole backend, with their histories: floor commands,
    guests, people and devices, configuration, onboarding, integrations and the
    HTTP API interleave in any order, each a request of its own.  And what is
    common to requests that end between transactions. *)

From S2P Require Import Prelude Json Crypto Schema GoTx AnalyticsQueries Analytics Store Queries Tokens IdentityQueries LayoutQueries Identity Memberships Configuration Onboarding Events Operations Guest Outbox ReferencePOS Integrations RateLimiter Http Dto PlatformQueries Auth Platform Api Routes TxFacts Steps IdentityFacts CommandFacts FloorSpec GuestFacts Commands IntegrationFacts.
#[local] Open Scope string_scope.
#[local] Open Scope Z_scope.
#[local] Open Scope list_scope.

Inductive LayoutCommand : Type :=
| LOwnerSnapshot (actor : Configuration.TenantActor)
| LLayoutSnapshot (actor : Configuration.TenantActor)
| LUpdateOrganisation (arg : UpdateOrganisationParams)
| LUpdateLocation (arg : UpdateLocationParams)
| LCreateFloor (arg : UpsertFloorParams)
| LUpdateFloor (arg : UpsertFloorParams)
| LArchiveFloor (actor : Configuration.TenantActor) (id : uuid) (version : Z)
| LRestoreFloor (actor : Configuration.TenantActor) (id : uuid) (version : Z)
| LCreateZone (arg : UpsertZoneParams)
| LUpdateZone (arg : UpsertZoneParams)
| LArchiveZone (actor : Configuration.TenantActor) (id floorID : uuid) (version : Z)
| LCreateTable (arg : UpsertTableParams)
| LUpdateTable (arg : UpsertTableParams)
| LArchiveTable (actor : Configuration.TenantActor) (id : uuid) (version : Z)
| LRestoreTable (actor : Configuration.TenantActor) (id : uuid) (version : Z)
| LProvision (arg : PlatformProvisionTenantParams)
| LOwnerSetup (arg : OwnerSetupParams).

(** The requests of analytics, and the events its projector is handed. *)
Inductive AnalyticsCommand : Type :=
| ASummary (actor : Analytics.TenantActor) (location : uuid) (date : GoTime) (asOf : Z)
| ATimeseries (actor : Analytics.TenantActor) (from to : GoTime) (grain : string)
| AComparison (actor : Analytics.TenantActor) (from to : GoTime) (groupBy : string)
| ADataQuality (actor : Analytics.TenantActor)
| AListServicePeriods (actor : Analytics.TenantActor)
| ACreateServicePeriod (actor : Analytics.TenantActor) (input : ServicePeriodInput)
| AUpdateServicePeriod (actor : Analytics.TenantActor) (id : uuid) (input : ServicePeriodInput)
| AArchiveServicePeriod (actor : Analytics.TenantActor) (id : uuid) (version : Z)
| ARebuild (arg : RebuildParams)
| AProject (event : Envelope).

Inductive SystemCommand : Type :=
| SFloor (c : Command)
| SIdentity (c : IdentityCommand)
| SLayout (c : LayoutCommand)
| SIntegration (c : IntegrationCommand)
| SAnalytics (c : AnalyticsCommand)
| SHttp (cfg : Http.Config) (rt : Route) (r : Request).

Section Histories.
Context {GT : GoText} {GN : GoNumber} {ET : ErrorTexts} {PT : PosText}
  {HT : HttpText} {PL : PlatformText} {RD : ReportData}.

Definition run_layout (c : LayoutCommand) : Go unit :=
  match c with
  | LOwnerSnapshot actor => discard (OwnerSnapshot actor)
  | LLayoutSnapshot actor => discard (GetLayoutSnapshot actor)
  | LUpdateOrganisation arg => discard (UpdateOrganisation arg)
  | LUpdateLocation arg => discard (UpdateLocation arg)
  | LCreateFloor arg => discard (CreateFloor arg)
  | LUpdateFloor arg => discard (UpdateFloor arg)
  | LArchiveFloor actor id v => discard (ArchiveFloor actor id v)
  | LRestoreFloor actor id v => discard (RestoreFloor actor id v)
  | LCreateZone arg => discard (CreateZone arg)
  | LUpdateZone arg => discard (UpdateZone arg)
  | LArchiveZone actor id flr v => discard (ArchiveZone actor id flr v)
  | LCreateTable arg => discard (CreateTable arg)
  | LUpdateTable arg => discard (UpdateTable arg)
  | LArchiveTable actor id v => discard (ArchiveTable actor id v)
  | LRestoreTable actor id v => discard (RestoreTable actor id v)
  | LProvision arg => discard (PlatformProvisionTenant arg)
  | LOwnerSetup arg => discard (OwnerSetup arg)
  end.

Definition run_analytics (c : AnalyticsCommand) : Go unit :=
  match c with
  | ASummary actor location date asOf => discard (GetSummary actor location date asOf)
  | ATimeseries actor from to grain => discard (Timeseries actor from to grain)
  | AComparison actor from to groupBy => discard (Comparison actor from to groupBy)
  | ADataQuality actor => discard (GetDataQuality actor)
  | AListServicePeriods actor => discard (ListServicePeriods actor)
  | ACreateServicePeriod actor input => discard (Analytics.CreateServicePeriod actor input)
  | AUpdateServicePeriod actor id input => discard (UpdateServicePeriod actor id input)
  | AArchiveServicePeriod actor id version => discard (ArchiveServicePeriod actor id version)
  | ARebuild arg => discard (Rebuild arg)
  | AProject event => Projector_Handle event
  end.

Definition run_system (c : SystemCommand) : Go unit :=
  match c with
  | SFloor c => run_command c
  | SIdentity c => run_identity c
  | SLayout c => run_layout c
  | SIntegration c => run_integration ReferencePOS.adapters c
  | SAnalytics c => run_analytics c
  | SHttp cfg rt r => discard (handle cfg rt r)
  end.

Inductive system_history (d0 : Db) : Db -> Prop :=
| system_start : system_history d0 d0
| system_next d c e r d' :
    system_history d0 d -> run (run_system c) e d = (r, d') -> system_history d0 d'.

Lemma system_history_keeps (R : Db -> Db -> Prop) `{!PreOrder R} d0 d :
  (forall c e d r d', run (run_system c) e d = (r, d') -> R d d') -> system_history d0 d -> R d0 d.
Proof.
  intros Hk. induction 1 as [|d c e r d' _ IH Hrun]; [done|].
  etrans; [exact IH|]. by eapply Hk.
Qed.
End Histories.

(** ** Requests that end between transactions *)

Definition anything (_ _ : Db) : Prop := True.

#[export] Instance anything_preorder : PreOrder anything.
Proof. by split. Qed.

Abbreviation Closed := (TopKeeps anything).

Lemma top_of_keeps {A} R (m : Go A) : Reflexive R -> Closed m -> Keeps R m -> TopKeeps R m.
Proof.
  intros Hr Hc Hk e s r s' Hs H. split; [by apply (Hc _ _ _ _ Hs H)|].
  assert (keeps_st R (st_db s) s) as H0 by (split; [done|by rewrite Hs]).
  exact (proj1 (Hk _ _ _ _ _ H H0)).
Qed.

Lemma keeps_both (R1 R2 : Db -> Db -> Prop) {A} (m : Go A) :
  Keeps R1 m -> Keeps R2 m -> Keeps (fun d d' => R1 d d' /\ R2 d d') m.
Proof.
  intros H1 H2 d0 e s r s' Hrun [[Ha Hb] Hsv].
  destruct (H1 d0 _ _ _ _ Hrun) as [H3 H4]; [split; [done|]; by intros d [? _]%Hsv|].
  destruct (H2 d0 _ _ _ _ Hrun) as [H5 H6]; [split; [done|]; by intros d [_ ?]%Hsv|].
  split; [done|]. intros d Hd. split; auto.
Qed.

Lemma top_of_body {A} R (m : Go A) : Closed m -> BodyKeeps R m -> TopKeeps R m.
Proof. intros Hc Hb e s r s' Hs H. split; [by apply (Hc _ _ _ _ Hs H)|by eapply Hb]. Qed.

(** One statement does not look at the snapshot. *)
Lemma exec_body {A} R (q : Stmt A) : Reflexive R -> Keeps R (exec q) -> BodyKeeps R (exec q).
Proof.
  intros Hr Hk e s r s' H.
  set (s0 := {| st_db := st_db s; st_saved := None; st_now := st_now s; st_tick := st_tick s |}).
  destruct (exec q e s0) as [r0 s1] eqn:H0.
  assert (st_db s1 = st_db s') as <-.
  { unfold exec in *. cbn [st_db st_now st_tick s0] in H0. repeat case_match; injection H as _ <-;
    by injection H0 as _ <-. }
  assert (keeps_st R (st_db s) s0) as Hs by (by split). exact (proj1 (Hk _ _ _ _ _ H0 Hs)).
Qed.

Lemma top_undiscard {A} R (m : Go A) : TopKeeps R (m ;; mret tt) -> TopKeeps R m.
Proof.
  intros Hm e s r s' Hs H.
  destruct ((m ;; mret tt) e s) as [r1 s1] eqn:H1. pose proof (Hm _ _ _ _ Hs H1) as Hk.
  unfold mbind, Go_bind, mret, Go_ret in H1. rewrite H in H1. destruct r; by injection H1 as _ <-.
Qed.

Lemma inTx_closes {A} (fn : Go A) e s r s' :
  InTx fn -> st_saved s = None -> inTx fn e s = (r, s') -> st_saved s' = None.
Proof.
  intros Hin. apply begin_closes. apply closes_guarded; [apply _|]. intros a. apply closes_commit.
Qed.

Section Top.
Context (R : Db -> Db -> Prop) `{!PreOrder R}.

Lemma top_inTx {A} (fn : Go A) : InTx fn -> OkKeeps R fn -> TopKeeps R (inTx fn).
Proof.
  intros Hin Hfn e s r s' Hs H. split; [by eapply inTx_closes|]. by eapply body_inTx.
Qed.
Lemma top_time_Now : TopKeeps R time_Now.
Proof. by intros e s r s' Hs [= _ <-]. Qed.
Lemma top_rand_Read n : TopKeeps R (rand_Read n).
Proof. intros e s r s' Hs H. unfold rand_Read in H. case_match; by injection H as _ <-. Qed.
Lemma top_lift {A} (r0 : result error A) : TopKeeps R (lift r0).
Proof. by intros e s r s' Hs [= _ <-]. Qed.
Lemma top_read {A} (f : Db -> result error A) : TopKeeps R (exec (fun _ _ d => let? a := f d in Ok (a, d))).
Proof.
  intros e s r s' Hs H. unfold exec in H. destruct (env_fault e (st_tick s)); [by injection H as _ <-|].
  destruct (f (st_db s)); by injection H as _ <-.
Qed.
End Top.

Lemma runGuestCommand_closes {T} org loc actor meta (execute : Go T) after enc e s r s' :
  InTx execute -> (forall v, InTx (after v)) -> st_saved s = None ->
  runGuestCommand org loc actor meta execute after enc e s = (r, s') -> st_saved s' = None.
Proof.
  intros Hex Haf. unfold runGuestCommand. apply begin_closes.
  apply closes_guarded; [apply _|]. intros _.
  apply closes_guarded; [unfold getIdempotencyReplay; apply _|]. intros [replay|]; [apply closes_commit|].
  apply closes_guarded; [apply _|]. intros v. apply closes_guarded; [apply _|]. intros _.
  apply closes_guarded; [apply _|]. intros resp.
  apply closes_guarded; [unfold insertIdempotencyRecord; apply _|]. intros body. apply closes_commit.
Qed.

(** Walk through a request whose leaves are transactions. *)
Ltac solve_closed :=
  lazymatch goal with
  | |- forall _, _ => intros ?; solve_closed
  | |- TopKeeps _ (let _ := _ in _) => cbv zeta; solve_closed
  | |- TopKeeps _ ?m =>
      lazymatch m with
      | mret _ => refine (top_ret _ _)
      | fail _ => refine (top_fail _ _)
      | lift _ => refine (top_lift _ _)
      | uuid_New => refine (top_uuid_New _)
      | time_Now => refine (top_time_Now _)
      | rand_Read _ => refine (top_rand_Read _ _)
      | guard_err _ _ => refine (top_guard_err _ _ _)
      | map_err _ _ => apply top_map_err; solve_closed
      | attempt _ => apply top_attempt; solve_closed
      | mbind _ _ => refine (top_bind _ _ _ _ _); solve_closed
      | contextTx _ _ _ _ =>
          intros ? ? ? ? ? ?; split; [eapply contextTx_closes; [|eassumption..]; solve_intx|exact I]
      | inTx _ => intros ? ? ? ? ? ?; split; [eapply inTx_closes; [|eassumption..]; solve_intx|exact I]
      | runTenantCommand _ _ _ _ _ _ _ =>
          intros ? ? ? ? ? ?; split;
          [eapply runTenantCommand_closes; [..|eassumption|eassumption]; solve_intx|exact I]
      | runGuestCommand _ _ _ _ _ _ _ =>
          intros ? ? ? ? ? ?; split;
          [eapply runGuestCommand_closes; [..|eassumption|eassumption]; intros; cbv beta; solve_intx|exact I]
      | match ?x with _ => _ end => destruct x; solve_closed
      | _ => let h := get_head m in progress unfold h; cbv beta zeta; solve_closed
      end
  | |- _ => idtac
  end.

Section Closed.
Context {GT : GoText} {GN : GoNumber} {ET : ErrorTexts} {PT : PosText}.

Lemma closed_floor c : Closed (run_command c).
Proof. destruct c; solve_closed. Qed.
Lemma closed_layout c : Closed (run_layout c).
Proof. destruct c; solve_closed. Qed.
Lemma closed_identity c : Closed (run_identity c).
Proof. destruct c; solve_closed. Qed.
End Closed.

(** ** Analytics *)

(** A transaction whose closure keeps a value in a variable is the transaction of the
    closure's body. *)
Definition Returns {A} (m : Go A) : Prop := forall e s, exists a s', m e s = (Ok a, s').

Lemma returns_ret {A} (a : A) : Returns (mret a).
Proof. intros e s. by eexists _, _. Qed.
Lemma returns_attempt_then {A B} (m : Go A) (k : result error A -> Go B) :
  (forall r, Returns (k r)) -> Returns (attempt m ≫= k).
Proof.
  intros Hk e s. unfold mbind, Go_bind, attempt. destruct (m e s) as [r s1]. apply Hk.
Qed.
Lemma returns_bind {A B} (m : Go A) (k : A -> Go B) :
  Returns m -> (forall a, Returns (k a)) -> Returns (m ≫= k).
Proof.
  intros Hm Hk e s. destruct (Hm e s) as (a & s1 & H1). unfold mbind, Go_bind. rewrite H1. apply Hk.
Qed.

Lemma capturing_run {S} (zero : S) (fn : Go (S * option error)) e s : Returns fn ->
  exists n r s', GoTx.inTenantTx (out ← fn; fail_with out) e s = (r, s') /\
    capturing zero fn e s = (Ok (n, match r with Ok _ => None | Err err => Some err end), s') /\
    forall a, r = Ok a -> a = n.
Proof.
  intros Hfn. unfold GoTx.inTenantTx, contextTx, capturing, attempt, or_rollback, map_err, mbind, Go_bind, mret, Go_ret.
  destruct (BeginTx e s) as [[[]|err] s1].
  2:{ eexists _, (Err _), _. by split_and!. }
  unfold attempt. destruct (SetContext e s1) as [[[]|err] s2].
  2:{ destruct (@rollback_run unit (Wrap "setting tenant context" err) e s2) as (err' & s3 & -> & _).
      eexists _, (Err _), _. by split_and!. }
  destruct (Hfn e s2) as ([n [err|]] & s3 & ->); unfold fail_with, fail.
  - destruct (@rollback_run unit err e s3) as (err' & s4 & Hr & _).
    assert (@rollback S (id err) e s3 = (Err err', s4)) as ->.
    { unfold rollback, mbind, Go_bind, attempt, fail, id in *. destruct (Rollback e s3) as [[?|?] ?]; by injection Hr as <- <-. }
    rewrite Hr. eexists _, (Err _), _. by split_and!.
  - unfold mret, Go_ret. cbn. destruct (Commit e s3) as [[[]|err] s4].
    + eexists n, (Ok n), s4. split_and!; [done..|]. by intros a [= <-].
    + eexists n, (Err _), s4. by split_and!.
Qed.

Lemma top_capturing {S} R (zero : S) (fn : Go (S * option error)) : Returns fn ->
  TopKeeps R (GoTx.inTenantTx (out ← fn; fail_with out)) -> TopKeeps R (capturing zero fn).
Proof.
  intros Hfn Htx e s r s' Hs H. destruct (capturing_run zero fn e s Hfn) as (n & r' & s1 & H1 & H2 & _).
  rewrite H2 in H. injection H as _ <-. by eapply Htx.
Qed.

Section Analytics.
Context {GT : GoText} {RD : ReportData} {ET : ErrorTexts}.

Lemma rebuild_loop_returns org loc tz days : forall n, Returns (rebuild_loop org loc tz days n).
Proof.
  induction days as [|day days IH]; intros n; cbn [rebuild_loop]; [apply returns_ret|].
  apply returns_attempt_then. intros [[]|err]; [apply IH|apply returns_ret].
Qed.

Lemma rebuildRange_returns org loc from to : Returns (rebuildRange org loc from to).
Proof.
  apply returns_attempt_then. intros [tz|err]; [|apply returns_ret].
  apply returns_bind; [apply rebuild_loop_returns|]. intros [n [err|]]; [apply returns_ret|].
  apply returns_attempt_then. intros r. apply returns_ret.
Qed.

#[export] Instance rebuild_loop_intx org loc tz days : forall n, InTx (rebuild_loop org loc tz days n).
Proof.
  induction days as [|day days IH]; intros n; cbn [rebuild_loop]; [apply _|].
  apply in_tx_bind; [solve_intx|].
  intros [[]|err]; [apply IH|apply _].
Qed.

#[export] Instance current_period_intx org loc tz date asOf ps : InTx (current_period org loc tz date asOf ps).
Proof.
  induction ps as [|p ps IH]; cbn [current_period]; [apply _|].
  apply in_tx_bind; [apply _|]. intros [w|]; [|exact IH]. cbv zeta. destruct (_ || _); [exact IH|]. solve_intx.
Qed.

(** What a relation is asked to respect: the statements that write metrics, the
    checkpoint, the runs of rebuilds, and service periods. *)
Class AnalyticsStatements (R : Db -> Db -> Prop) : Prop := {
  as_insert_daily : forall t org loc g day start finish m,
    BodyKeeps R (InsertDailyMetric t org loc g day start finish m);
  as_insert_hourly : forall org loc g start finish m, BodyKeeps R (InsertHourlyMetric org loc g start finish m);
  as_delete_daily : forall t org loc day, BodyKeeps R (DeleteDailyMetrics t org loc day);
  as_delete_hourly : forall org loc start finish, BodyKeeps R (DeleteHourlyMetrics org loc start finish);
  as_running : BodyKeeps R (MarkRebuildRunning ProjectorName ProjectorVersion);
  as_complete : BodyKeeps R (MarkRebuildComplete ProjectorName);
  as_advance : forall at_ event lag, BodyKeeps R (AdvanceCheckpoint ProjectorName ProjectorVersion at_ event lag);
  as_create_run : forall org loc by_ from to, BodyKeeps R (CreateRebuildRun org loc by_ from to);
  as_finish_run : forall id status days text, BodyKeeps R (FinishRebuildRun id status days text);
  as_create : forall org loc name days start finish,
    BodyKeeps R (LayoutQueries.CreateServicePeriod org loc name days start finish);
  as_update : forall id org loc name days start finish v,
    BodyKeeps R (UpdateServicePeriodRow id org loc name days start finish v);
  as_archive : forall id org loc v, BodyKeeps R (ArchiveServicePeriodRow id org loc v);
}.

Context (R : Db -> Db -> Prop) `{!PreOrder R, HP : !AnalyticsStatements R}.

#[local] Hint Resolve as_insert_daily as_insert_hourly as_delete_daily as_delete_hourly as_running as_complete
  as_advance as_create_run as_finish_run as_create as_update as_archive : keeps.

Lemma body_window org loc scope start finish asOf :
  BodyKeeps R (calculateWindowMetric org loc scope start finish asOf).
Proof. solve_body. Qed.
#[local] Hint Resolve body_window : keeps.
#[local] Instance window_intx org loc scope start finish asOf :
  InTx (calculateWindowMetric org loc scope start finish asOf).
Proof. unfold calculateWindowMetric. solve_intx. Qed.
#[local] Opaque calculateWindowMetric.

Lemma body_rebuildDay org loc tz day : BodyKeeps R (rebuildDay org loc tz day).
Proof. solve_body. Qed.
#[local] Hint Resolve body_rebuildDay : keeps.

Lemma body_rebuild_loop org loc tz days : forall n, BodyKeeps R (rebuild_loop org loc tz days n).
Proof.
  induction days as [|day days IH]; intros n; cbn [rebuild_loop]; [solve_body|].
  refine (body_bind _ _ _ _ _); [solve_body|]. intros [[]|err]; [apply IH|solve_body].
Qed.
#[local] Hint Resolve body_rebuild_loop : keeps.

Lemma body_current_period org loc tz date asOf ps : BodyKeeps R (current_period org loc tz date asOf ps).
Proof.
  induction ps as [|p ps IH]; cbn [current_period]; [solve_body|].
  refine (body_bind _ _ _ _ _); [solve_body|]. intros [w|]; [|exact IH]. cbv zeta. destruct (_ || _); [exact IH|].
  solve_body.
Qed.
#[local] Hint Resolve body_current_period : keeps.

Lemma body_summaryInTx actor date asOf : BodyKeeps R (summaryInTx actor date asOf).
Proof. solve_body. Qed.
#[local] Hint Resolve body_summaryInTx : keeps.

Lemma analytics_tx {A} b c k (fn : Go A) : InTx fn -> BodyKeeps R fn -> TopKeeps R (contextTx b c k fn).
Proof. intros Hin Hb. refine (top_contextTx _ _ _ _ _ Hin _). by apply ok_body. Qed.

Ltac solve_analytics :=
  lazymatch goal with
  | |- forall _, _ => intros ?; solve_analytics
  | |- TopKeeps _ ?m =>
      lazymatch m with
      | contextTx _ _ _ _ => apply analytics_tx; [solve_intx|solve_body]
      | capturing _ _ => apply top_capturing; [apply rebuildRange_returns|unfold GoTx.inTenantTx; solve_analytics]
      | mret _ => refine (top_ret _ _)
      | fail _ => refine (top_fail _ _)
      | lift _ => refine (top_lift _ _)
      | guard_err _ _ => refine (top_guard_err _ _ _)
      | attempt _ => apply top_attempt; solve_analytics
      | mbind _ _ => refine (top_bind _ _ _ _ _); solve_analytics
      | match ?x with _ => _ end => destruct x; solve_analytics
      | (match ?x with _ => _ end) _ => destruct x; cbv beta; solve_analytics
      | _ => let h := get_head m in progress unfold h; cbv beta zeta; solve_analytics
      end
  end.

Lemma analytics_top c : TopKeeps R (run_analytics c).
Proof. destruct c; solve_analytics. Qed.
End Analytics.

(** To most relations the tables of analytics do not matter, and to many the service
    periods do not either. *)
Section Periods.
Context {GT : GoText} {RD : ReportData} {ET : ErrorTexts}.
Context (R : Db -> Db -> Prop) `{!PreOrder R}.

Lemma analytics_statements : (forall a d, R d (set_analytics a d)) ->
  (forall org loc name days start finish,
     BodyKeeps R (LayoutQueries.CreateServicePeriod org loc name days start finish)) ->
  (forall id org loc name days start finish v,
     BodyKeeps R (UpdateServicePeriodRow id org loc name days start finish v)) ->
  (forall id org loc v, BodyKeeps R (ArchiveServicePeriodRow id org loc v)) -> AnalyticsStatements R.
Proof.
  intros Ha H1 H2 H3. split; [..|exact H1|exact H2|exact H3]; intros; refine (body_exec _ _ _); intros now u d a d' H.
  - apply insert_row_Ok in H as (_ & _ & _ & ->). apply Ha.
  - apply insert_row_Ok in H as (_ & _ & _ & ->). apply Ha.
  - injection H as _ <-. apply Ha.
  - injection H as _ <-. apply Ha.
  - apply res_bind_Ok in H as (_ & _ & [= _ <-]). apply Ha.
  - apply update_exec_Ok in H as [[-> _]|(? & ? & _ & _ & _ & _ & ->)]; [reflexivity|apply Ha].
  - apply res_bind_Ok in H as (_ & _ & [= _ <-]). apply Ha.
  - apply insert_row_Ok in H as (_ & _ & _ & ->). apply Ha.
  - apply update_row_Ok in H as (? & _ & _ & _ & _ & ->). apply Ha.
Qed.

Lemma period_statements : (forall a d, R d (set_analytics a d)) -> (forall m d, R d (set_periods m d)) ->
  AnalyticsStatements R.
Proof.
  intros Ha Hp. apply analytics_statements; [exact Ha|..]; intros; refine (body_exec _ _ _); intros now u d a d' H.
  - apply insert_row_Ok in H as (_ & _ & _ & ->). apply Hp.
  - apply update_row_Ok in H as (? & _ & _ & _ & _ & ->). apply Hp.
  - apply update_row_Ok in H as (? & _ & _ & _ & _ & ->). apply Hp.
Qed.

Lemma analytics_of c : (forall a d, R d (set_analytics a d)) -> (forall m d, R d (set_periods m d)) ->
  TopKeeps R (run_analytics c).
Proof. intros Ha Hp. apply analytics_top; [apply _|by apply period_statements]. Qed.
End Periods.
