(* ===== verification/HttpSteps.v ===== *)
(** What a request of the HTTP API does to the database, from what the requests of
    the services do: a relation that these respect, and the platform's own
    statements, is respected by every handler. *)

From S2P Require Import Prelude Json Crypto Schema GoTx AnalyticsQueries Analytics Store Queries Tokens IdentityQueries LayoutQueries Identity Memberships Configuration Onboarding Events Operations Guest Outbox ReferencePOS Integrations RateLimiter Http Dto PlatformQueries Auth Platform Api Routes TxFacts Steps IdentityFacts Commands IntegrationFacts SystemCommands.
#[local] Open Scope string_scope.
#[local] Open Scope Z_scope.
#[local] Open Scope list_scope.

(** ** Inside a transaction of the platform *)

Create HintDb http.

Section Within.
Context (R W : Db -> Db -> Prop) `{!PreOrder R, !PreOrder W}.

(** What a transaction has committed on other connections moves by [R]; what it has
    written itself is [W] away from that. *)
Definition Within {A} (fn : Go A) : Prop :=
  forall e s r s' b, st_saved s = Some b -> W b (st_db s) -> fn e s = (r, s') ->
    exists b', st_saved s' = Some b' /\ R b b' /\ W b' (st_db s').

Lemma within_body {A} (fn : Go A) : InTx fn -> BodyKeeps W fn -> Within fn.
Proof.
  intros Hin Hb e s r s' b Hs Hw H. exists b. pose proof (Hin _ _ _ _ H) as [-> _].
  split_and!; [done|done|]. apply Hb in H. by etrans.
Qed.

Lemma within_bind {A B} (m : Go A) (k : A -> Go B) :
  Within m -> (forall a, Within (k a)) -> Within (m ≫= k).
Proof.
  intros Hm Hk e s r s' b Hs Hw H. unfold mbind, Go_bind in H.
  destruct (m e s) as [[a|err] s1] eqn:H1; destruct (Hm _ _ _ _ _ Hs Hw H1) as (b1 & Hs1 & Hr1 & Hw1).
  - destruct (Hk _ _ _ _ _ _ Hs1 Hw1 H) as (b2 & ? & ? & ?). exists b2. split_and!; [done|by etrans|done].
  - injection H as _ <-. eauto.
Qed.

Lemma within_service {A} (m : Go A) : TopKeeps R m -> Within (on_other_connection m).
Proof.
  intros Hm e s r s' b Hs Hw H. unfold on_other_connection, saved_db in H. rewrite Hs in H.
  destruct (m e _) as [r1 s1] eqn:H1. injection H as _ <-.
  apply Hm in H1 as [_ HR]; [|done]. exists (st_db s1). cbn [st_saved st_db] in *. by split_and!.
Qed.

(** What the trigger lets through. *)
Definition admin_left (b v : Db) : Prop :=
  platform_members_updated b v = true -> map_any active_platform_admin (db_platform_members v) = true.

Lemma CommitPlatform_inv e s b r s' : st_saved s = Some b -> CommitPlatform e s = (r, s') ->
  st_saved s' = None /\ (st_db s' = b \/ admin_left b (st_db s) /\ st_db s' = st_db s).
Proof.
  intros Hs H. unfold CommitPlatform, saved_db in H. rewrite Hs in H.
  assert (forall r s', Commit e s = (r, s') -> st_saved s' = None /\ (st_db s' = b \/ st_db s' = st_db s)) as Hc.
  { clear H. intros r1 s1 H. destruct r1 as [u|err].
    - apply Commit_Ok in H as [-> ->]. auto.
    - apply (Commit_Err _ _ _ _ b) in H as [-> [->|[_ ->]]]; auto. }
  unfold admin_left. destruct (platform_members_updated b (st_db s)) eqn:Hup.
  - unfold lockout_guard, check in H. cbn [snd] in H. unfold active_platform_admin.
    destruct (map_any _ _) eqn:Ha; simpl in H; [apply Hc in H as [? []]; auto|].
    injection H as _ <-. auto.
  - apply Hc in H as [? []]; auto. split; [done|]. right. by split.
Qed.

Lemma within_or_rollback {A} (fn : Go A) e s r s' b :
  Within fn -> st_saved s = Some b -> W b (st_db s) -> or_rollback id fn e s = (r, s') ->
  match r with
  | Ok _ => exists b', st_saved s' = Some b' /\ R b b' /\ W b' (st_db s')
  | Err _ => st_saved s' = None /\ R b (st_db s')
  end.
Proof.
  intros Hfn Hs Hw H. unfold or_rollback, attempt, mbind, Go_bind in H.
  destruct (fn e s) as [[a|err] s1] eqn:H1; destruct (Hfn _ _ _ _ _ Hs Hw H1) as (b1 & Hs1 & Hr1 & Hw1).
  - injection H as <- <-. eauto.
  - destruct (@rollback_run A (id err) e s1) as (err' & s2 & Hrb & Hs2 & Hdb & _).
    rewrite Hrb in H. injection H as <- <-. split; [done|]. unfold saved_db in Hdb. by rewrite Hdb, Hs1.
Qed.

(** The transaction from its body on. *)
Lemma within_rest {A} (fn : Go A) f e s r s' b :
  (forall b v, W b v -> admin_left b v -> R b v) -> Within fn ->
  st_saved s = Some b -> W b (st_db s) ->
  (a ← or_rollback id fn; map_err f CommitPlatform ;; mret a) e s = (r, s') ->
  st_saved s' = None /\ R b (st_db s').
Proof.
  intros Hcommit Hfn Hs Hw H. unfold mbind at 1, Go_bind at 1 in H.
  destruct (or_rollback id fn e s) as [[a|err] s1] eqn:H1;
    pose proof (within_or_rollback _ _ _ _ _ _ Hfn Hs Hw H1) as Hwr; [|by injection H as _ <-].
  destruct Hwr as (b1 & Hs1 & Hr1 & Hw1). unfold mbind, Go_bind, map_err in H.
  destruct (CommitPlatform e s1) as [r2 s2] eqn:H2.
  destruct (CommitPlatform_inv _ _ _ _ _ Hs1 H2) as [Hs2 Hd].
  assert (s' = s2) as -> by (destruct r2; by injection H as _ <-). split; [done|].
  destruct Hd as [->|[Ha ->]]; [done|]. etrans; [exact Hr1|]. by apply Hcommit.
Qed.

(** From the opening of a transaction on. *)
Definition Concludes {A} (m : Go A) : Prop :=
  forall e s r s' b, st_saved s = Some b -> st_db s = b -> m e s = (r, s') ->
    st_saved s' = None /\ R b (st_db s').

Lemma concludes_read {A B} f (m : Go A) (k : A -> Go B) :
  quiet m -> InTx m -> (forall a, Concludes (k a)) -> Concludes (or_rollback f m ≫= k).
Proof.
  intros Hq Hin Hk e s r s' b Hs Hd H. unfold mbind, Go_bind in H.
  destruct (or_rollback f m e s) as [[a|err] s1] eqn:H1;
    pose proof (guarded_or_rollback f m Hin _ _ _ _ _ H1 Hs) as [Hs1 Hn].
  - apply or_rollback_Ok, Hq in H1. eapply Hk; [exact Hs1| |exact H]. congruence.
  - injection H as _ <-. split; [done|]. by rewrite Hn.
Qed.

Lemma top_begin {A} f (k : unit -> Go A) :
  Concludes (k tt) -> TopKeeps R (map_err f BeginTx ≫= k).
Proof.
  intros Hk e s r s' Hs H. unfold mbind, Go_bind, map_err, BeginTx in H.
  destruct (env_fault e (st_tick s)); [by injection H as _ <-|].
  by apply (Hk _ _ _ _ (st_db s)) in H.
Qed.

Lemma top_platform {A} req p (fn : Go A) :
  (forall b v, W b v -> admin_left b v -> R b v) -> Within fn ->
  TopKeeps R (inAuthorizedPlatformTx req p fn).
Proof.
  intros Hcommit Hfn. unfold inAuthorizedPlatformTx. refine (top_bind _ _ _ (top_guard_err _ _ _) _).
  intros _. apply top_begin.
  apply concludes_read; [apply body_exec; [apply _|]; by intros ? ? ? ? ? [= _ <-]|apply _|intros _].
  apply concludes_read; [apply body_exec; [apply _|]; by intros ? ? ? ? ? [= _ <-]|apply _|intros allowed].
  apply concludes_read; [apply (body_guard_err _)|apply _|intros _].
  intros e s r s' b Hs Hd H. eapply within_rest; [exact Hcommit|exact Hfn|exact Hs|by rewrite Hd|exact H].
Qed.
End Within.

(** ** Parts of handlers *)

Section Parts.
Context (R : Db -> Db -> Prop) `{!PreOrder R}.

Lemma top_http_bind {A B} (m : Http A) (k : A -> Http B) :
  TopKeeps R m -> (forall a, TopKeeps R (k a)) -> TopKeeps R (http_bind m k).
Proof.
  intros Hm Hk. unfold http_bind. refine (top_bind _ _ _ Hm _). intros [a|err]; [apply Hk|].
  refine (top_ret _ _).
Qed.

Lemma top_calling {A} write (m : Go A) : TopKeeps R m -> TopKeeps R (calling write m).
Proof.
  intros Hm. unfold calling. refine (top_bind _ _ _ (top_attempt _ _ Hm) _). intros [a|err]; refine (top_ret _ _).
Qed.

Lemma top_trying {A} (m : Go A) : TopKeeps R m -> TopKeeps R (trying m).
Proof. intros Hm. refine (top_bind _ _ _ (top_attempt _ _ Hm) _). intros a. refine (top_ret _ _). Qed.

(** Transactions that only read. *)
Lemma top_reads {A} b c k (fn : Go A) : InTx fn -> quiet fn -> TopKeeps R (contextTx b c k fn).
Proof.
  intros Hin Hq. refine (top_contextTx _ _ _ _ _ Hin _). intros e s a s' ->%Hq. done.
Qed.

Lemma top_reads_inTx {A} (fn : Go A) : InTx fn -> quiet fn -> TopKeeps R (inTx fn).
Proof. intros Hin Hq. refine (top_inTx _ _ Hin _). intros e s a s' ->%Hq. done. Qed.

Lemma top_exec {A} (q : Stmt A) : quiet (exec q) -> TopKeeps R (exec q).
Proof.
  intros Hq e s r s' Hs H. pose proof (in_tx_exec q _ _ _ _ H) as [-> _]. apply Hq in H. by rewrite H.
Qed.

Lemma top_dropped {A} (fn : Go A) : InTx fn -> quiet fn -> TopKeeps R (inTenantTx_dropped fn).
Proof.
  intros Hin Hq e s r s' Hs H. unfold inTenantTx_dropped in H.
  unfold mbind at 1, Go_bind at 1, attempt at 1, BeginTx in H.
  destruct (env_fault e (st_tick s)); [by injection H as _ <-|].
  set (s1 := {| st_db := st_db s; st_saved := Some (st_db s); st_now := _; st_tick := _ |}) in H.
  unfold mbind at 1, Go_bind at 1, attempt at 1 in H.
  destruct (or_rollback _ SetContext e s1) as [[u|err] s2] eqn:H2;
    pose proof (guarded_or_rollback _ SetContext _ _ _ _ _ (st_db s) H2 eq_refl) as [Hs2 Hd2];
    [|injection H as _ <-; split; [done|by rewrite Hd2]].
  apply or_rollback_Ok, SetContext_Ok in H2 as (Hd & _ & _).
  unfold mbind at 1, Go_bind at 1, attempt at 1 in H.
  destruct (or_rollback id fn e s2) as [[a|err] s3] eqn:H3;
    pose proof (guarded_or_rollback id fn Hin _ _ _ _ _ H3 Hs2) as [Hs3 Hd3];
    [|injection H as _ <-; split; [done|by rewrite Hd3]].
  apply or_rollback_Ok, Hq in H3. unfold mbind, Go_bind, attempt in H.
  destruct (Commit e s3) as [r4 s4] eqn:H4. injection H as _ <-.
  assert (st_db s3 = st_db s) as He by (rewrite <- H3, Hd; done).
  destruct r4 as [u4|err4].
  - apply Commit_Ok in H4 as [-> ->]. by rewrite He.
  - apply (Commit_Err _ _ _ _ (st_db s)) in H4 as [-> [->|[_ ->]]]; [done|by rewrite He|done].
Qed.

Lemma top_on_pool {A} (q : Stmt A) : StmtKeeps R q -> TopKeeps R (on_pool q).
Proof.
  intros Hq e s r s' Hs H. unfold on_pool in H.
  destruct (q _ _ _) as [[a d]|err] eqn:Hr; destruct (env_fault e (st_tick s)) as [f|];
    try (by injection H as _ <-); injection H as _ <-;
    [destruct (fault_applied f); [|done]|]; split; try done; by eapply Hq.
Qed.
End Parts.

Section Hydration.
Context {GT : GoText}.

Lemma hydrate_in_tx ms : forall c, InTx (hydrateMembershipPermissions c ms).
Proof.
  induction ms as [|m ms IH]; intros c; cbn [hydrateMembershipPermissions]; [solve_intx|].
  apply in_tx_bind; [solve_intx|]. intros ps. apply in_tx_bind; [apply IH|]. solve_intx.
Qed.

Lemma hydrate_quiet ms : forall c, BodyKeeps eq (hydrateMembershipPermissions c ms).
Proof.
  induction ms as [|m ms IH]; intros c; cbn [hydrateMembershipPermissions]; [solve_body|].
  refine (body_bind _ _ _ _ _); [solve_body|]. intros ps. refine (body_bind _ _ _ (IH _) _). solve_body.
Qed.
End Hydration.
#[local] Existing Instance hydrate_in_tx.
#[local] Hint Resolve hydrate_quiet : keeps.

(** ** Every request *)

Section Requests.
Context {GT : GoText} {HT : HttpText} {GN : GoNumber} {ET : ErrorTexts} {PT : PosText}
  {PL : PlatformText} {RD : ReportData}.

(** A relation that is known of the services' requests - but for the reassignment of
    ownership, which only one route does - and, weakened to [W] until the commit, of
    the platform's own statements. *)
Class Backend (R W : Db -> Db -> Prop) : Prop := {
  be_R :: PreOrder R;
  be_W :: PreOrder W;
  be_commit : forall b v, W b v -> admin_left b v -> R b v;
  be_floor : forall c, TopKeeps R (run_command c);
  be_identity : forall c, is_reassign c = false -> TopKeeps R (run_identity c);
  be_layout : forall c, TopKeeps R (run_layout c);
  be_integration : forall c, TopKeeps R (run_integration ReferencePOS.adapters c);
  be_analytics : forall c, TopKeeps R (run_analytics c);
  be_org_status : forall id st, BodyKeeps W (SetOrganisationStatus id st);
  be_grant : forall a b c, BodyKeeps W (CreatePlatformAdminGrant a b c);
  be_revoke_grant : forall a b, BodyKeeps W (RevokePlatformAdminGrant a b);
  be_disable : forall a b, BodyKeeps W (DisablePlatformMembership a b);
  be_reactivate : forall a, BodyKeeps W (ReactivatePlatformMembership a);
  be_audit : forall a b c d f g j, BodyKeeps W (RecordAuditEvent a b c d f g j);
  be_abuse : forall m d, R d (set_abuse m d);
}.

#[local] Hint Resolve be_org_status be_grant be_revoke_grant be_disable be_reactivate be_audit : keeps.

Section Keeps.
Context (R W : Db -> Db -> Prop) {HB : Backend R W}.
Context (cfg : Http.Config).

(** The operations of the services that handlers call. *)
Ltac by_command H := apply top_undiscard; exact H.
Ltac service :=
  lazymatch goal with
  | |- TopKeeps _ (OccupyTableCommand ?a ?e) => by_command (be_floor (COccupy a e))
  | |- TopKeeps _ (ClearTableCommand ?a ?e) => by_command (be_floor (CClear a e))
  | |- TopKeeps _ (AcknowledgeAssistCommand ?a ?e) => by_command (be_floor (CAcknowledge a e))
  | |- TopKeeps _ (ResolveAssistCommand ?a ?e) => by_command (be_floor (CResolve a e))
  | |- TopKeeps _ (CancelAssistCommand ?a ?e) => by_command (be_floor (CCancel a e))
  | |- TopKeeps _ (GuestContext ?a) => by_command (be_floor (CGuestContext a))
  | |- TopKeeps _ (CreateGuestRequest ?a ?e) => by_command (be_floor (CGuestRequest a e))
  | |- TopKeeps _ (GetGuestRequest ?a ?e) => by_command (be_floor (CGuestGet a e))
  | |- TopKeeps _ (CancelGuestRequest ?a ?e) => by_command (be_floor (CGuestCancel a e))
  | |- TopKeeps _ (ExportTableQRCapability ?a ?b ?c ?d ?e) => by_command (be_floor (CExportQR a b c d e))
  | |- TopKeeps _ (RotateTableQRCapability ?a ?b ?c ?d) => by_command (be_floor (CRotateQR a b c d))
  | |- TopKeeps _ (RevokeTableQRCapability ?a ?b ?c ?d) => by_command (be_floor (CRevokeQR a b c d))
  | |- TopKeeps _ (ResolveExternalIdentity ?a) => by_command (be_identity (IResolve a) eq_refl)
  | |- TopKeeps _ (CreateWebSession ?a) => by_command (be_identity (ICreateSession a) eq_refl)
  | |- TopKeeps _ (ValidateWebSession ?a) => by_command (be_identity (IValidateSession a) eq_refl)
  | |- TopKeeps _ (RotateWebSession ?a ?b ?c ?d) => by_command (be_identity (IRotateSession a b c d) eq_refl)
  | |- TopKeeps _ (RevokeWebSession ?a) => exact (be_identity (IRevokeSession a) eq_refl)
  | |- TopKeeps _ (CreatePairingCode ?a) => by_command (be_identity (ICreatePairingCode a) eq_refl)
  | |- TopKeeps _ (PairDevice ?a) => by_command (be_identity (IPairDevice a) eq_refl)
  | |- TopKeeps _ (RecordHeartbeat ?a ?b ?c) => by_command (be_identity (IHeartbeat a b c) eq_refl)
  | |- TopKeeps _ (RevokeDevice ?a ?b) => by_command (be_identity (IRevokeDevice a b) eq_refl)
  | |- TopKeeps _ (AuthenticateDeviceCredential ?a) => by_command (be_identity (IAuthenticate a) eq_refl)
  | |- TopKeeps _ (CreateMembership ?a) => by_command (be_identity (ICreateMembership a) eq_refl)
  | |- TopKeeps _ (UpdateMembershipRole ?a) => by_command (be_identity (IUpdateRole a) eq_refl)
  | |- TopKeeps _ (DisableMembership ?a) => by_command (be_identity (IDisable a) eq_refl)
  | |- TopKeeps _ (PlatformInviteOwner ?a) => by_command (be_identity (IInviteOwner a) eq_refl)
  | |- TopKeeps _ (PlatformDisableOwnerMembership ?a) => by_command (be_identity (IDisableOwner a) eq_refl)
  | |- TopKeeps _ (PlatformReactivateOwnerMembership ?a) =>
      by_command (be_identity (IReactivateOwner a) eq_refl)
  | |- TopKeeps _ (OwnerSnapshot ?a) => by_command (be_layout (LOwnerSnapshot a))
  | |- TopKeeps _ (GetLayoutSnapshot ?a) => by_command (be_layout (LLayoutSnapshot a))
  | |- TopKeeps _ (UpdateOrganisation ?a) => by_command (be_layout (LUpdateOrganisation a))
  | |- TopKeeps _ (UpdateLocation ?a) => by_command (be_layout (LUpdateLocation a))
  | |- TopKeeps _ (CreateFloor ?a) => by_command (be_layout (LCreateFloor a))
  | |- TopKeeps _ (UpdateFloor ?a) => by_command (be_layout (LUpdateFloor a))
  | |- TopKeeps _ (ArchiveFloor ?a ?b ?c) => by_command (be_layout (LArchiveFloor a b c))
  | |- TopKeeps _ (RestoreFloor ?a ?b ?c) => by_command (be_layout (LRestoreFloor a b c))
  | |- TopKeeps _ (CreateZone ?a) => by_command (be_layout (LCreateZone a))
  | |- TopKeeps _ (UpdateZone ?a) => by_command (be_layout (LUpdateZone a))
  | |- TopKeeps _ (ArchiveZone ?a ?b ?c ?d) => by_command (be_layout (LArchiveZone a b c d))
  | |- TopKeeps _ (CreateTable ?a) => by_command (be_layout (LCreateTable a))
  | |- TopKeeps _ (UpdateTable ?a) => by_command (be_layout (LUpdateTable a))
  | |- TopKeeps _ (ArchiveTable ?a ?b ?c) => by_command (be_layout (LArchiveTable a b c))
  | |- TopKeeps _ (RestoreTable ?a ?b ?c) => by_command (be_layout (LRestoreTable a b c))
  | |- TopKeeps _ (PlatformProvisionTenant ?a) => by_command (be_layout (LProvision a))
  | |- TopKeeps _ (OwnerSetup ?a) => by_command (be_layout (LOwnerSetup a))
  | |- TopKeeps _ (ListConnections ?a) => by_command (be_integration (XListConnections a))
  | |- TopKeeps _ (ListMappings ?a ?b) => by_command (be_integration (XListMappings a b))
  | |- TopKeeps _ (UpdateMapping ?a ?b ?c ?d) => by_command (be_integration (XUpdateMapping a b c d))
  | |- TopKeeps _ (ListWebhooks ?a ?b) => by_command (be_integration (XListWebhooks a b))
  | |- TopKeeps _ (ListDiscrepancies ?a ?b) => by_command (be_integration (XListDiscrepancies a b))
  | |- TopKeeps _ (Health _ ?a ?b) => by_command (be_integration (XHealth a b))
  | |- TopKeeps _ (ReceiveWebhook _ ?a ?b ?c ?d) => by_command (be_integration (XReceiveWebhook a b c d))
  | |- TopKeeps _ (ReplayWebhook _ ?a ?b) => by_command (be_integration (XReplayWebhook a b))
  | |- TopKeeps _ (GetSummary ?a ?b ?c ?d) => by_command (be_analytics (ASummary a b c d))
  | |- TopKeeps _ (Timeseries ?a ?b ?c ?d) => by_command (be_analytics (ATimeseries a b c d))
  | |- TopKeeps _ (Comparison ?a ?b ?c ?d) => by_command (be_analytics (AComparison a b c d))
  | |- TopKeeps _ (GetDataQuality ?a) => by_command (be_analytics (ADataQuality a))
  | |- TopKeeps _ (ListServicePeriods ?a) => by_command (be_analytics (AListServicePeriods a))
  | |- TopKeeps _ (Analytics.CreateServicePeriod ?a ?b) => by_command (be_analytics (ACreateServicePeriod a b))
  | |- TopKeeps _ (UpdateServicePeriod ?a ?b ?c) => by_command (be_analytics (AUpdateServicePeriod a b c))
  | |- TopKeeps _ (ArchiveServicePeriod ?a ?b ?c) => by_command (be_analytics (AArchiveServicePeriod a b c))
  | |- TopKeeps _ (Rebuild ?a) => by_command (be_analytics (ARebuild a))
  | |- TopKeeps _ (Reconcile _ ?a ?b) => by_command (be_integration (XReconcile a b))
  end.

Ltac solve_within :=
  lazymatch goal with
  | |- forall _, _ => intros ?; solve_within
  | |- Within _ _ (match ?x with _ => _ end) => destruct x; solve_within
  | |- Within _ _ (on_other_connection _) =>
      apply (within_service R W); lazymatch goal with
      | |- TopKeeps _ (match ?x with _ => _ end) => destruct x; service
      | |- _ => first [service|assumption|eauto] end
  | |- Within _ _ (on_other_connection _ ≫= _) =>
      refine (within_bind _ _ _ _ _ _); solve_within
  | |- Within _ _ ?m =>
      first [ solve [apply (within_body R W); [solve_intx|solve_body]]
            | let h := get_head m in progress unfold h; cbv beta zeta; solve_within ]
  end.

Ltac solve_http :=
  lazymatch goal with
  | |- forall _, _ => intros ?; solve_http
  | |- TopKeeps _ (let _ := _ in _) => cbv zeta; solve_http
  | |- TopKeeps _ ?m =>
      lazymatch m with
      | http_bind _ _ => refine (top_http_bind _ _ _ _ _); solve_http
      | http_ret _ => refine (top_ret _ _)
      | refuse _ => refine (top_ret _ _)
      | refuse_if ?b _ => unfold refuse_if; destruct b; refine (top_ret _ _)
      | calling _ _ => apply (top_calling R); solve_http
      | trying _ => apply (top_trying R); solve_http
      | inAuthorizedPlatformTx _ _ _ =>
          refine (top_platform _ W _ _ _ be_commit _); solve_within
      | contextTx _ _ _ _ => apply (top_reads R); [solve_intx|unfold quiet; solve_body]
      | inTx _ => apply (top_reads_inTx R); [solve_intx|unfold quiet; solve_body]
      | inTenantTx_dropped _ => apply (top_dropped R); [solve_intx|unfold quiet; solve_body]
      | exec _ => apply (top_exec R); unfold quiet; solve_body
      | on_pool _ => apply (top_on_pool R); solve_stmt
      | guard_err _ _ => refine (top_guard_err _ _ _)
      | mret _ => refine (top_ret _ _)
      | time_Now => refine (top_time_Now _)
      | map_err _ _ => apply top_map_err; solve_http
      | attempt _ => apply top_attempt; solve_http
      | match ?x with _ => _ end => destruct x; solve_http
      | mbind _ _ => refine (top_bind _ _ _ _ _); solve_http
      | _ => first [ solve [service] | solve [eauto 2 with http]
                   | let h := get_head m in progress unfold h; cbv beta zeta; solve_http ]
      end
  | |- _ => idtac
  end.

#[local] Hint Extern 1 (R _ _) => apply be_abuse : keeps.

Lemma top_locations ms : forall ls, TopKeeps R (locations_of ls ms).
Proof. induction ms as [|m ms IH]; intros ls; cbn [locations_of]; [solve_http|].
  refine (top_bind _ _ _ _ IH). solve_http.
Qed.
#[local] Hint Resolve top_locations : http.

Definition kept (rt : Route) : Prop :=
  match rt with
  | RReassignPlatformTenantOwner => forall arg, TopKeeps R (PlatformReassignOwnership arg)
  | _ => True
  end.

Lemma http_keeps rt r : kept rt -> TopKeeps R (handle cfg rt r).
Proof.
  intros Hk. destruct rt; cbn [handle kept] in *; solve_http.
Qed.
End Keeps.

(** A relation known of every operation is kept by every request of the backend. *)
Lemma backend_keeps R W {HB : Backend R W} c e d r d' :
  (forall arg, TopKeeps R (PlatformReassignOwnership arg)) ->
  run (run_system c) e d = (r, d') -> R d d'.
Proof.
  intros Hre. apply top_run. destruct c as [c|c|c|c|c|cfg rt rq]; cbn [run_system].
  - apply be_floor.
  - destruct (is_reassign c) eqn:Hc; [|by apply be_identity]. destruct c; try discriminate Hc.
    refine (top_bind _ _ _ (Hre arg) _). intros a. refine (top_ret _ _).
  - apply be_layout.
  - apply be_integration.
  - apply be_analytics.
  - refine (top_bind _ _ _ (http_keeps R W cfg rt rq _) _); [by destruct rt|]. intros a. refine (top_ret _ _).
Qed.

Section Of.
Context (R : Db -> Db -> Prop) `{!PreOrder R}.

Lemma floor_top c : Keeps R (run_command c) -> TopKeeps R (run_command c).
Proof. apply top_of_keeps; [apply _|apply closed_floor]. Qed.
Lemma identity_top c : Keeps R (run_identity c) -> TopKeeps R (run_identity c).
Proof. apply top_of_keeps; [apply _|apply closed_identity]. Qed.
Lemma layout_top c : Keeps R (run_layout c) -> TopKeeps R (run_layout c).
Proof. apply top_of_keeps; [apply _|apply closed_layout]. Qed.
Lemma reassign_of arg : TopKeeps R (run_identity (IReassign arg)) -> TopKeeps R (PlatformReassignOwnership arg).
Proof. intros Hk. apply top_undiscard. exact Hk. Qed.
Lemma reassign_top arg : Keeps R (run_identity (IReassign arg)) -> TopKeeps R (PlatformReassignOwnership arg).
Proof. intros Hk. apply reassign_of. by apply identity_top. Qed.

(** The tables that the platform's statements write, but for the organisations', do not
    matter to most relations. *)
Lemma backend_of :
  (forall c, TopKeeps R (run_command c)) ->
  (forall c, is_reassign c = false -> TopKeeps R (run_identity c)) ->
  (forall c, TopKeeps R (run_layout c)) ->
  (forall c, TopKeeps R (run_integration ReferencePOS.adapters c)) ->
  (forall c, TopKeeps R (run_analytics c)) ->
  (forall id st, BodyKeeps R (SetOrganisationStatus id st)) ->
  (forall i d, R d (set_platform_members i d)) -> (forall i d, R d (set_grants i d)) ->
  (forall i d, R d (set_audit i d)) -> (forall m d, R d (set_abuse m d)) -> Backend R R.
Proof.
  intros Hf Hi Hl Hx Hps Ho Hp Hg Ha Hb. assert (forall A (m : Go A),
    BodyKeeps (fun d d' => d' = d \/ (exists x, d' = set_platform_members x d)
      \/ (exists x, d' = set_grants x d) \/ exists x, d' = set_audit x d) m -> BodyKeeps R m) as Hm.
  { intros A m Hm e s r s' H. destruct (Hm _ _ _ _ H) as [->|[[x ->]|[[x ->]|[x ->]]]]; [reflexivity|auto..]. }
  split; auto; intros; apply Hm;
    intros e s res s' H; unfold CreatePlatformAdminGrant, RevokePlatformAdminGrant, DisablePlatformMembership,
      ReactivatePlatformMembership, RecordAuditEvent, exec in H;
    (destruct (env_fault e (st_tick s)); [injection H as _ <-; by left|]);
    (match type of H with (match ?q with _ => _ end) = _ => destruct q as [[x d']|err] eqn:Hq end;
       [|injection H as _ <-; by left]); injection H as _ <-; cbn [st_db with_db tick]; cbv zeta in Hq;
    stmt_invert Hq; eauto 10.
Qed.
End Of.
End Requests.
