(* ===== verification/LayoutCommands.v ===== *)
(** What the operations of each service leave of the layout, the floor, the
    people and the devices. *)

From S2P Require Import Prelude Json Schema GoTx AnalyticsQueries Analytics Store Queries Tokens IdentityQueries LayoutQueries Identity Memberships Configuration Onboarding Operations Guest Outbox ReferencePOS Integrations TxFacts Steps LayoutFacts IdentityFacts FloorSpec Commands History IntegrationFacts Http PlatformQueries Routes SystemCommands HttpSteps.
#[local] Open Scope string_scope.
#[local] Open Scope Z_scope.
#[local] Open Scope list_scope.

Section Histories.
Context {GT : GoText} {GN : GoNumber} {ET : ErrorTexts} {PT : PosText}
  {HT : HttpText} {PL : PlatformText} {RD : ReportData}.

(** ** Layouts *)

Lemma layout_keeps_layout c : Keeps layout_step (run_layout c).
Proof. destruct c; solve_keeps. Qed.

Lemma identity_keeps_layout c : Keeps layout_step (run_identity c).
Proof. destruct c; solve_keeps. Qed.

Lemma floor_keeps_layout c : Keeps layout_step (run_command c).
Proof. destruct c; solve_keeps. Qed.

Lemma layout_le_integrations x d : layout_le d (set_integrations x d).
Proof. by split. Qed.

Lemma layout_step_integrations x d : layout_step d (set_integrations x d).
Proof. split; [apply layout_le_integrations|]. by intros []. Qed.

Lemma layout_SetOrganisationStatus id st : BodyKeeps layout_step (SetOrganisationStatus id st).
Proof.
  apply exec_body; [apply _|].
  apply (layout_organisation_row _ _ org_Name (fun _ => st) (fun _ => org_OnboardedAt)).
Qed.

Lemma period_row_id name days start finish active now p p' :
  period_row name days start finish active now p = Ok p' -> svp_ID p' = svp_ID p.
Proof. by intros (v & _ & [= <-])%res_bind_Ok. Qed.

#[export] Instance layout_periods : AnalyticsStatements layout_step.
Proof.
  apply analytics_statements; [apply _|intros a d; by apply same_layout_step|..]; intros; (apply exec_body; [apply _|]).
  - apply layout_CreateServicePeriod.
  - apply layout_update_period. intros *. apply period_row_id.
  - apply layout_update_period. intros *. apply period_row_id.
Qed.

#[export] Instance layout_backend : Backend layout_step layout_step.
Proof.
  apply backend_of; [apply _|..].
  - intros c. apply floor_top; [apply _|apply floor_keeps_layout].
  - intros c _. apply identity_top; [apply _|apply identity_keeps_layout].
  - intros c. apply layout_top; [apply _|apply layout_keeps_layout].
  - intros c. apply integration_top; [apply _|apply layout_step_integrations|apply floor_keeps_layout].
  - apply analytics_top; apply _.
  - apply layout_SetOrganisationStatus.
  - intros x d. split; [by split|by intros []].
  - intros x d. split; [by split|by intros []].
  - intros x d. split; [by split|by intros []].
  - intros x d. split; [by split|by intros []].
Qed.

Lemma system_keeps_layout c e d r d' : run (run_system c) e d = (r, d') -> layout_step d d'.
Proof.
  apply (backend_keeps layout_step layout_step). intros arg. apply reassign_top; [apply _|].
  apply identity_keeps_layout.
Qed.

(** ** The floor *)

(** Nothing of the floor is lost; tables that are new are free. *)
Record floor_grows (d d' : Db) : Prop := {
  fg_sessions : db_sessions d' = db_sessions d;
  fg_assists : db_assists d' = db_assists d;
  fg_kept : db_occupancy d ⊆ db_occupancy d';
  fg_new : forall t o, db_occupancy d' !! t = Some o -> db_occupancy d !! t = None ->
    occ_TableID o = t /\ occupancy_checks o = true /\ occ_CurrentSessionID o = None;
}.

#[export] Instance floor_grows_preorder : PreOrder floor_grows.
Proof.
  split; [by split; [..|intros * H1 H2; congruence]|]. intros x y z [? ? ? Hxy] [? ? Hsub Hyz].
  split; [congruence..|by etrans|]. intros t o Hz Hx. destruct (db_occupancy y !! t) as [o'|] eqn:Hy.
  - assert (o' = o) as -> by (eapply lookup_weaken in Hy; [|exact Hsub]; congruence). eauto.
  - eauto.
Qed.

Lemma floor_grows_inv d d' : floor_grows d d' -> floor_inv d -> floor_inv d'.
Proof.
  intros [Hs Ha Hsub Hnew] [H1 H2 H3]. split; rewrite ?Hs, ?Ha; [| |exact H3].
  - intros t o Ho. destruct (db_occupancy d !! t) as [o'|] eqn:Ht.
    + assert (o' = o) as -> by (eapply lookup_weaken in Ht; [|exact Hsub]; congruence). eauto.
    + destruct (Hnew _ _ Ho Ht) as (? & ? & Hn). split_and!; [done..|]. intros sid. by rewrite Hn.
  - intros sid x Hx. destruct (H2 _ _ Hx) as (? & ? & Hact). split_and!; [done..|].
    intros He. destruct (Hact He) as (o & Ho & Hc). exists o. split; [|done].
    by eapply lookup_weaken.
Qed.

Lemma grows_CreateTableOccupancy t org loc : Keeps floor_grows (CreateTableOccupancy t org loc).
Proof.
  unfold CreateTableOccupancy. apply (keeps_exec floor_grows). intros now u d a d' Hq.
  apply insert_row_Ok in Hq as (-> & Hnone & Hok & ->). split; [done..| |].
  - by apply insert_subseteq.
  - intros t' o Ho Hn. simpl in Ho. apply lookup_insert_Some in Ho as [[<- <-]|[_ Ho]]; [|congruence].
    unfold new_occupancy_ok in Hok. apply res_bind_Ok in Hok as (u1 & Hok & _).
    unfold occupancy_ok in Hok. checks_in Hok. done.
Qed.

#[local] Hint Resolve grows_CreateTableOccupancy : keeps.
#[local] Hint Extern 1 (floor_grows _ _) =>
  split; [reflexivity|reflexivity|reflexivity|intros ? ? ? ?; simpl in *; congruence] : keeps.

Lemma layout_keeps_floor c : Keeps floor_grows (run_layout c).
Proof. destruct c; solve_keeps. Qed.

(** ** People *)

Record same_people (d d' : Db) : Prop := {
  sp_identity : db_identity d' = db_identity d;
  sp_devices : db_devices d' = db_devices d;
}.

#[export] Instance same_people_preorder : PreOrder same_people.
Proof. split; [by split|]. intros x y z [] []. split; congruence. Qed.

#[local] Hint Extern 1 (same_people _ _) => split; reflexivity : keeps.

Lemma floor_keeps_people c : Keeps same_people (run_command c).
Proof. destruct c; solve_keeps. Qed.

Lemma integration_keeps_people c e d r d' :
  run (run_integration ReferencePOS.adapters c) e d = (r, d') -> same_people d d'.
Proof. apply integration_keeps; [apply _|by intros|apply floor_keeps_people]. Qed.

Lemma layout_keeps_auth c : Keeps auth_step (run_layout c).
Proof. destruct c; solve_keeps. Qed.

(** ** Every table has its occupancy *)

Definition tables_occupied (d : Db) : Prop :=
  forall t r, db_tables d !! t = Some r ->
    exists o, db_occupancy d !! t = Some o /\ occ_OrganisationID o = tbl_OrganisationID r /\
      occ_LocationID o = tbl_LocationID r.

(** Tables and occupancies keep their tenants, and no table is added. *)
Record occupancy_kept (d d' : Db) : Prop := {
  ok_tables : forall k t', db_tables d' !! k = Some t' -> exists t, db_tables d !! k = Some t /\
    tbl_OrganisationID t = tbl_OrganisationID t' /\ tbl_LocationID t = tbl_LocationID t';
  ok_occupancy : forall k o, db_occupancy d !! k = Some o -> exists o', db_occupancy d' !! k = Some o' /\
    occ_OrganisationID o' = occ_OrganisationID o /\ occ_LocationID o' = occ_LocationID o;
}.

#[export] Instance occupancy_kept_preorder : PreOrder occupancy_kept.
Proof.
  split; [split; eauto|]. intros x y z [Ht1 Ho1] [Ht2 Ho2]. split.
  - intros k t3 (t2 & (t1 & ? & ? & ?)%Ht1 & ? & ?)%Ht2. exists t1. split; [done|]. split; congruence.
  - intros k o1 (o2 & (o3 & ? & ? & ?)%Ho2 & ? & ?)%Ho1. exists o3. split; [done|]. split; congruence.
Qed.

Lemma same_tables_kept d d' :
  db_tables d' = db_tables d -> db_occupancy d' = db_occupancy d -> occupancy_kept d d'.
Proof. intros Ht Ho. split; [rewrite Ht|rewrite Ho]; eauto. Qed.

Lemma occupancy_kept_all d d' : occupancy_kept d d' -> tables_occupied d -> tables_occupied d'.
Proof.
  intros [Ht Ho] Hall k t' (t & Hk & Horg & Hloc)%Ht.
  destruct (Hall _ _ Hk) as (o & (o' & Ho' & ? & ?)%Ho & ? & ?). exists o'. split; [done|]. split; congruence.
Qed.

Lemma kept_update_occupancy id whr set :
  (forall now o o', set now o = Ok o' ->
     occ_OrganisationID o' = occ_OrganisationID o /\ occ_LocationID o' = occ_LocationID o) ->
  Keeps occupancy_kept (exec (update_row db_occupancy set_occupancy occupancy_ok id whr set)).
Proof.
  intros Hset. apply (keeps_exec occupancy_kept). intros now u d a d' Hq.
  apply update_row_Ok in Hq as (o & Ho & _ & Hs & _ & ->). split; [simpl; eauto|].
  intros k x Hx. simpl. destruct (decide (k = id)) as [->|Hne].
  - exists a. rewrite lookup_insert_eq. split; [done|]. assert (x = o) as -> by congruence. eauto.
  - exists x. by rewrite lookup_insert_ne.
Qed.

Lemma kept_MarkTableOccupied t org loc sid by_ v : Keeps occupancy_kept (MarkTableOccupied t org loc sid by_ v).
Proof. apply kept_update_occupancy. by intros now o o' (w & _ & [= <-])%res_bind_Ok. Qed.
Lemma kept_MarkTableAvailable t org loc by_ v : Keeps occupancy_kept (MarkTableAvailable t org loc by_ v).
Proof. apply kept_update_occupancy. by intros now o o' (w & _ & [= <-])%res_bind_Ok. Qed.

#[local] Hint Resolve kept_MarkTableOccupied kept_MarkTableAvailable : keeps.
#[local] Hint Extern 1 (occupancy_kept _ _) => apply same_tables_kept; reflexivity : keeps.

Lemma floor_keeps_occupancy c : Keeps occupancy_kept (run_command c).
Proof. destruct c; solve_keeps. Qed.

Lemma integration_keeps_occupancy c e d r d' :
  run (run_integration ReferencePOS.adapters c) e d = (r, d') -> occupancy_kept d d'.
Proof. apply integration_keeps; [apply _|intros; by apply same_tables_kept|apply floor_keeps_occupancy]. Qed.

Definition occupied_step (d d' : Db) : Prop := tables_occupied d -> tables_occupied d'.

#[export] Instance occupied_step_preorder : PreOrder occupied_step.
Proof. split; [intros d H; exact H|]. intros x y z H1 H2 Hx. auto. Qed.

Lemma kept_occupied d d' : occupancy_kept d d' -> occupied_step d d'.
Proof. intros Hk Hall. by eapply occupancy_kept_all. Qed.

Lemma occupied_update_table id whr set :
  (forall now t t', set now t = Ok t' -> table_le t t') ->
  BodyKeeps occupied_step (exec (update_row db_tables set_tables table_ok id whr set)).
Proof.
  intros Hset. apply (body_exec occupied_step). intros now u d a d' Hq.
  apply update_row_Ok in Hq as (t & Ht & _ & Hs%Hset & _ & ->). apply kept_occupied.
  split; [|simpl; eauto]. intros k x Hx. simpl in Hx. apply lookup_insert_Some in Hx as [[<- <-]|[_ Hx]].
  - exists t. split; [done|]. by rewrite (tle_org _ _ Hs), (tle_loc _ _ Hs).
  - by exists x.
Qed.

Lemma occupied_UpdateTableRow id org loc flr zon label cap shape geo v :
  BodyKeeps occupied_step (UpdateTableRow id org loc flr zon label cap shape geo v).
Proof. apply occupied_update_table. intros *. apply table_row_le. Qed.
Lemma occupied_ArchiveTableRow id org loc v : BodyKeeps occupied_step (ArchiveTableRow id org loc v).
Proof. apply occupied_update_table. intros *. apply table_row_le. Qed.
Lemma occupied_RestoreTableRow id org loc v : BodyKeeps occupied_step (RestoreTableRow id org loc v).
Proof. apply occupied_update_table. intros *. apply table_row_le. Qed.

(** A table and its occupancy, one after the other. *)
Lemma occupied_create {A} org loc flr zon label cap shape geo w1 w2 (k : Table -> A) :
  OkKeeps occupied_step
    (table ← map_err w1 (CreateTableRow org loc flr zon label cap shape geo);
     map_err w2 (CreateTableOccupancy (tbl_ID table) org loc) ;;
     mret (k table)).
Proof.
  intros e s a s' (t & s1 & H1 & H)%bind_Ok. apply bind_Ok in H as (o & s2 & H2 & H).
  apply ret_Ok in H as [_ <-]. apply map_err_Ok, exec_Ok in H1 as (_ & d1 & H1 & ->).
  apply map_err_Ok, exec_Ok in H2 as (_ & d2 & H2 & ->).
  apply insert_row_Ok in H1 as (Ht & Hn & _ & ->). apply insert_row_Ok in H2 as (Ho & Hn2 & _ & ->).
  cbn [st_db with_db tick]. subst t o. intros Hall k' r Hr. simpl in Hr |- *.
  apply lookup_insert_Some in Hr as [[<- <-]|[Hne Hr]].
  - eexists. rewrite lookup_insert_eq. done.
  - destruct (Hall _ _ Hr) as (o & Ho & ?). exists o. split; [|done].
    rewrite lookup_insert_ne; [done|]. simpl in Hn2. congruence.
Qed.

Lemma occupied_createTableInTx arg geo : OkKeeps occupied_step (createTableInTx arg geo).
Proof.
  unfold createTableInTx. refine (ok_bind _ _ _ _ _); [apply ok_body; solve_body|]. intros _.
  apply (occupied_create _ _ _ _ _ _ _ _ _ _ id).
Qed.

Lemma occupied_create_onboarding_table org loc flr zones z t :
  OkKeeps occupied_step (create_onboarding_table org loc flr zones z t).
Proof. apply (occupied_create _ _ _ _ _ _ _ _ _ _ id). Qed.

#[local] Hint Resolve occupied_UpdateTableRow occupied_ArchiveTableRow occupied_RestoreTableRow
  occupied_createTableInTx occupied_create_onboarding_table : keeps.
#[local] Hint Extern 1 (occupied_step _ _) => (let H := fresh in intros H; exact H) : keeps.

Lemma layout_keeps_occupied c : BodyKeeps occupied_step (run_layout c).
Proof. destruct c; solve_op. Qed.

(** ** Integrations *)

(** The tables of the integrations are the integrations' own. *)
Definition same_integrations (d d' : Db) : Prop := db_integrations d' = db_integrations d.

#[export] Instance same_integrations_preorder : PreOrder same_integrations.
Proof. split; [done|]. unfold same_integrations. intros x y z. congruence. Qed.

#[local] Hint Extern 1 (same_integrations _ _) => reflexivity : keeps.

Lemma floor_keeps_integrations c : Keeps same_integrations (run_command c).
Proof. destruct c; solve_keeps. Qed.
Lemma identity_keeps_integrations c : Keeps same_integrations (run_identity c).
Proof. destruct c; solve_keeps. Qed.
Lemma layout_keeps_integrations c : Keeps same_integrations (run_layout c).
Proof. destruct c; solve_keeps. Qed.

(** The floor under the requests of integrations. *)
Definition floor_kept (d d' : Db) : Prop := floor_inv d -> floor_inv d'.

#[export] Instance floor_kept_preorder : PreOrder floor_kept.
Proof. split; [intros d H; exact H|]. intros x y z H1 H2 Hx. auto. Qed.

#[export] Instance floor_kept_calls : FloorCalls floor_kept.
Proof.
  apply floor_calls. intros c _ e s r s' _ H Hi.
  eapply change_floor_inv; [exact Hi|]. by apply run_command_outcome in H as [].
Qed.

Lemma integration_keeps_floor c e d r d' :
  run (run_integration ReferencePOS.adapters c) e d = (r, d') -> floor_kept d d'.
Proof.
  assert (OwnStatements floor_kept) as Hown.
  { apply own_statements_of; [apply _|]. intros x d0 [? ? ?]. by split. }
  apply top_run, top_integration; [done|apply _|apply reference_all_remote].
Qed.
End Histories.
