(* ===== verification/IntegrationInv.v ===== *)
(** The invariant of an integration's tables: every row satisfies the constraints
    of its table, mappings and webhooks are unique as the migration wants them, and
    every row belongs to a connection of its tenant.  No connection, mapping,
    webhook, run or discrepancy is lost, and what identifies it stays. *)

From S2P Require Import Prelude Json Schema AnalyticsQueries GoTx Store Queries Tokens IdentityQueries LayoutQueries IntegrationQueries Identity Configuration Onboarding Operations Guest Outbox ReferencePOS Integrations TxFacts Steps LayoutFacts IdentityFacts Commands IntegrationFacts Http PlatformQueries Routes SystemCommands HttpSteps LayoutCommands.
#[local] Open Scope string_scope.
#[local] Open Scope Z_scope.
#[local] Open Scope list_scope.

(** ** What stays of a row *)

Record connection_le (c c' : IntegrationConnection) : Prop := {
  cle_id : icn_ID c' = icn_ID c;
  cle_org : icn_OrganisationID c' = icn_OrganisationID c;
  cle_loc : icn_LocationID c' = icn_LocationID c;
  cle_vendor : icn_Vendor c' = icn_Vendor c;
  cle_config : icn_Config c' = icn_Config c;
}.
Record mapping_le (m m' : IntegrationTableMapping) : Prop := {
  mle_id : itm_ID m' = itm_ID m;
  mle_org : itm_OrganisationID m' = itm_OrganisationID m;
  mle_loc : itm_LocationID m' = itm_LocationID m;
  mle_connection : itm_ConnectionID m' = itm_ConnectionID m;
  mle_external : itm_ExternalTableID m' = itm_ExternalTableID m;
}.
Record webhook_le (w w' : IntegrationWebhookInbox) : Prop := {
  wle_id : iwh_ID w' = iwh_ID w;
  wle_org : iwh_OrganisationID w' = iwh_OrganisationID w;
  wle_loc : iwh_LocationID w' = iwh_LocationID w;
  wle_connection : iwh_ConnectionID w' = iwh_ConnectionID w;
  wle_vendor : iwh_Vendor w' = iwh_Vendor w;
  wle_event : iwh_ExternalEventID w' = iwh_ExternalEventID w;
  wle_signature : iwh_SignatureValid w' = iwh_SignatureValid w;
  wle_payload : iwh_Payload w' = iwh_Payload w;
  wle_attempts : iwh_Attempts w <= iwh_Attempts w';
}.
Record run_le (r r' : IntegrationReconciliationRun) : Prop := {
  rle_id : irr_ID r' = irr_ID r;
  rle_org : irr_OrganisationID r' = irr_OrganisationID r;
  rle_loc : irr_LocationID r' = irr_LocationID r;
  rle_connection : irr_ConnectionID r' = irr_ConnectionID r;
}.

#[export] Instance connection_le_preorder : PreOrder connection_le.
Proof. split; [by split|]. intros x y z [] []. split; congruence. Qed.
#[export] Instance mapping_le_preorder : PreOrder mapping_le.
Proof. split; [by split|]. intros x y z [] []. split; congruence. Qed.
#[export] Instance webhook_le_preorder : PreOrder webhook_le.
Proof. split; [by split|]. intros x y z [] []. split; [congruence..|lia]. Qed.
#[export] Instance run_le_preorder : PreOrder run_le.
Proof. split; [by split|]. intros x y z [] []. split; congruence. Qed.

Record integrations_le (d d' : Db) : Prop := {
  ile_connections : rows_le connection_le (db_connections d) (db_connections d');
  ile_mappings : rows_le mapping_le (db_mappings d) (db_mappings d');
  ile_webhooks : rows_le webhook_le (db_webhooks d) (db_webhooks d');
  ile_runs : rows_le run_le (db_runs d) (db_runs d');
  ile_discrepancies : rows_le eq (db_discrepancies d) (db_discrepancies d');
}.

#[export] Instance integrations_le_preorder : PreOrder integrations_le.
Proof. split; [by split|]. intros x y z [] []. split; by etrans. Qed.

(** ** The invariant *)

Definition same_location_vendor (x y : IntegrationConnection) : bool :=
  (icn_LocationID x =? icn_LocationID y)%N && String.eqb (icn_Vendor x) (icn_Vendor y).
Definition same_mapping (x y : IntegrationTableMapping) : bool :=
  same_external_table (itm_ConnectionID y) (itm_ExternalTableID y) x
  || ((itm_ConnectionID x =? itm_ConnectionID y)%N && sql_eq (itm_TableID x) (itm_TableID y)).
Definition same_webhook (x y : IntegrationWebhookInbox) : bool :=
  same_event (iwh_Vendor y) (iwh_ExternalEventID y) x.

Definition mapping_fk (d : Db) (m : IntegrationTableMapping) : bool :=
  connection_fk d (itm_OrganisationID m) (itm_LocationID m) (itm_ConnectionID m)
  && opt_all (table_fk d (itm_OrganisationID m) (itm_LocationID m)) (itm_TableID m).
Definition discrepancy_fk (d : Db) (x : IntegrationDiscrepancy) : bool :=
  connection_fk d (idc_OrganisationID x) (idc_LocationID x) (idc_ConnectionID x)
  && is_some (db_runs d !! idc_ReconciliationRunID x)
  && opt_all (fun m => is_some (db_mappings d !! m)) (idc_MappingID x)
  && opt_all (table_fk d (idc_OrganisationID x) (idc_LocationID x)) (idc_TableID x).

Record integrations_inv (d : Db) : Prop := {
  ii_connections : sound icn_ID connection_checks same_location_vendor
    (fun c => location_fk d (icn_OrganisationID c) (icn_LocationID c)) (db_connections d);
  ii_mappings : sound itm_ID mapping_checks same_mapping (mapping_fk d) (db_mappings d);
  ii_webhooks : sound iwh_ID webhook_checks same_webhook
    (fun w => connection_fk d (iwh_OrganisationID w) (iwh_LocationID w) (iwh_ConnectionID w))
    (db_webhooks d);
  ii_runs : sound irr_ID run_checks (fun _ _ => false)
    (fun r => connection_fk d (irr_OrganisationID r) (irr_LocationID r) (irr_ConnectionID r))
    (db_runs d);
  ii_discrepancies : sound idc_ID discrepancy_checks (fun _ _ => false) (discrepancy_fk d)
    (db_discrepancies d);
}.

Record integrations_step (d d' : Db) : Prop := {
  is_le : integrations_le d d';
  is_inv : integrations_inv d -> integrations_inv d';
}.

#[export] Instance integrations_step_preorder : PreOrder integrations_step.
Proof. split; [by split|]. intros x y z [] []. split; [by etrans|auto]. Qed.

(** ** Foreign keys of a later database *)

Lemma table_fk_mono d d' org loc t :
  rows_le table_le (db_tables d) (db_tables d') -> table_fk d org loc t = true ->
  table_fk d' org loc t = true.
Proof.
  unfold table_fk. intros Hle. destruct (db_tables d !! t) as [r|] eqn:Hr; [|done].
  destruct (Hle _ _ Hr) as (r' & -> & Hr'). by rewrite (tle_org _ _ Hr'), (tle_loc _ _ Hr').
Qed.

Lemma connection_fk_mono d d' org loc c :
  integrations_le d d' -> connection_fk d org loc c = true -> connection_fk d' org loc c = true.
Proof.
  unfold connection_fk. intros Hle. destruct (db_connections d !! c) as [r|] eqn:Hr; [|done].
  destruct (ile_connections _ _ Hle _ _ Hr) as (r' & -> & Hr').
  by rewrite (cle_org _ _ Hr'), (cle_loc _ _ Hr').
Qed.

Lemma rows_le_some {A} (le : A -> A -> Prop) m m' k :
  rows_le le m m' -> is_some (m !! k) = true -> is_some (m' !! k) = true.
Proof. intros Hle. destruct (m !! k) eqn:Hk; [|done]. by destruct (Hle _ _ Hk) as (? & -> & _). Qed.

Lemma opt_all_mono {A} (f g : A -> bool) o :
  (forall a, f a = true -> g a = true) -> opt_all f o = true -> opt_all g o = true.
Proof. destruct o; simpl; auto. Qed.

Section Later.
Context (d d' : Db) (Hle : integrations_le d d')
  (Htables : rows_le table_le (db_tables d) (db_tables d')).

Lemma mapping_fk_mono m : mapping_fk d m = true -> mapping_fk d' m = true.
Proof using Hle Htables.
  unfold mapping_fk. rewrite !andb_true_iff. intros [? ?].
  split; [by eapply connection_fk_mono|]. eapply opt_all_mono; [|done]. intros t. by apply table_fk_mono.
Qed.

Lemma discrepancy_fk_mono x : discrepancy_fk d x = true -> discrepancy_fk d' x = true.
Proof using Hle Htables.
  unfold discrepancy_fk. rewrite !andb_true_iff. intros [[[? ?] ?] ?]. split_and!.
  - by eapply connection_fk_mono.
  - by eapply rows_le_some; [apply Hle|].
  - eapply opt_all_mono; [|done]. intros m. eapply rows_le_some, Hle.
  - eapply opt_all_mono; [|done]. intros t. by apply table_fk_mono.
Qed.
End Later.

(** The other requests keep it. *)
Lemma same_integrations_step d d' :
  same_integrations d d' -> layout_le d d' -> integrations_step d d'.
Proof.
  unfold same_integrations. intros Hsame Hlay.
  assert (integrations_le d d') as Hle.
  { split; unfold db_connections, db_mappings, db_webhooks, db_runs, db_discrepancies; by rewrite Hsame. }
  split; [done|]. intros [H1 H2 H3 H4 H5]. pose proof (ly_tables _ _ Hlay) as Ht.
  unfold db_connections, db_mappings, db_webhooks, db_runs, db_discrepancies in *. split;
    unfold db_connections, db_mappings, db_webhooks, db_runs, db_discrepancies; rewrite Hsame.
  - eapply sound_fk; [|exact H1]. intros c. by apply location_fk_mono.
  - eapply sound_fk; [|exact H2]. intros m. by apply mapping_fk_mono.
  - eapply sound_fk; [|exact H3]. intros w. by apply connection_fk_mono.
  - eapply sound_fk; [|exact H4]. intros r. by apply connection_fk_mono.
  - eapply sound_fk; [|exact H5]. intros x. by apply discrepancy_fk_mono.
Qed.

(** ** Writes *)

Lemma le_connections d m : rows_le connection_le (db_connections d) m -> integrations_le d (set_connections m d).
Proof. intros H. by split. Qed.
Lemma le_mappings d m : rows_le mapping_le (db_mappings d) m -> integrations_le d (set_mappings m d).
Proof. intros H. by split. Qed.
Lemma le_webhooks d m : rows_le webhook_le (db_webhooks d) m -> integrations_le d (set_webhooks m d).
Proof. intros H. by split. Qed.
Lemma le_runs d m : rows_le run_le (db_runs d) m -> integrations_le d (set_runs m d).
Proof. intros H. by split. Qed.
Lemma le_discrepancies d m : rows_le eq (db_discrepancies d) m -> integrations_le d (set_discrepancies m d).
Proof. intros H. by split. Qed.

Lemma no_other_or {A} (f g : A -> bool) k m :
  no_other f k m = true -> no_other g k m = true -> no_other (fun x => f x || g x) k m = true.
Proof.
  rewrite !no_other_spec. intros Hf Hg j s Hj [H|H]%orb_true_iff; eauto.
Qed.

Lemma no_other_false {A} k (m : gmap N A) : no_other (fun _ => false) k m = true.
Proof. by apply no_other_spec. Qed.

Lemma sql_eq_sym {A} `{EqDecision A} (x y : option A) : sql_eq x y = sql_eq y x.
Proof. destruct x, y; try done. apply bool_decide_ext. naive_solver. Qed.

Lemma same_mapping_sym x y : same_mapping x y = same_mapping y x.
Proof.
  unfold same_mapping, same_external_table.
  by rewrite (N.eqb_sym (itm_ConnectionID x)), (String.eqb_sym (itm_ExternalTableID x)), sql_eq_sym.
Qed.

Lemma same_webhook_sym x y : same_webhook x y = same_webhook y x.
Proof.
  unfold same_webhook, same_event.
  by rewrite (String.eqb_sym (iwh_Vendor x)), (String.eqb_sym (iwh_ExternalEventID x)).
Qed.

(** A row that its constraints accept, under the keys of the tables as they were. *)
Lemma write_connection d k r :
  connection_ok d k r = Ok tt -> placed icn_ID connection_le (db_connections d) k r ->
  integrations_step d (set_connections (<[k := r]> (db_connections d)) d).
Proof.
  intros Hok Hp. assert (integrations_le d (set_connections (<[k := r]> (db_connections d)) d)) as Hle.
  { by eapply le_connections, placed_le; [apply _|]. }
  split; [done|]. intros [H1 H2 H3 H4 H5]. unfold connection_ok in Hok. checks_in Hok. split.
  - eapply sound_write; try done; [intros ? ?; apply eqb_pair_sym|by eapply placed_key].
  - eapply sound_fk; [|exact H2]. intros m. by apply mapping_fk_mono.
  - eapply sound_fk; [|exact H3]. intros w. by apply connection_fk_mono.
  - eapply sound_fk; [|exact H4]. intros x. by apply connection_fk_mono.
  - eapply sound_fk; [|exact H5]. intros x. by apply discrepancy_fk_mono.
Qed.

Lemma write_mapping d k r :
  mapping_ok d k r = Ok tt -> placed itm_ID mapping_le (db_mappings d) k r ->
  integrations_step d (set_mappings (<[k := r]> (db_mappings d)) d).
Proof.
  intros Hok Hp. assert (integrations_le d (set_mappings (<[k := r]> (db_mappings d)) d)) as Hle.
  { by eapply le_mappings, placed_le; [apply _|]. }
  split; [done|]. intros [H1 H2 H3 H4 H5]. unfold mapping_ok in Hok. checks_in Hok. split; try done.
  - eapply sound_write; try done; [apply same_mapping_sym|by eapply placed_key|by apply no_other_or|].
    unfold mapping_fk. apply andb_true_iff. by split.
  - eapply sound_fk; [|exact H5]. intros x. by apply discrepancy_fk_mono.
Qed.

Lemma write_webhook d k r :
  webhook_ok d k r = Ok tt -> placed iwh_ID webhook_le (db_webhooks d) k r ->
  integrations_step d (set_webhooks (<[k := r]> (db_webhooks d)) d).
Proof.
  intros Hok Hp. split; [by eapply le_webhooks, placed_le; [apply _|]|].
  intros [H1 H2 H3 H4 H5]. unfold webhook_ok in Hok. checks_in Hok. split; try done.
  eapply sound_write; try done; [apply same_webhook_sym|by eapply placed_key].
Qed.

Lemma write_run d k r :
  run_ok d k r = Ok tt -> placed irr_ID run_le (db_runs d) k r ->
  integrations_step d (set_runs (<[k := r]> (db_runs d)) d).
Proof.
  intros Hok Hp. assert (integrations_le d (set_runs (<[k := r]> (db_runs d)) d)) as Hle.
  { by eapply le_runs, placed_le; [apply _|]. }
  split; [done|]. intros [H1 H2 H3 H4 H5]. unfold run_ok in Hok. checks_in Hok. split; try done.
  - eapply sound_write; try done; [by eapply placed_key|apply no_other_false].
  - eapply sound_fk; [|exact H5]. intros x. by apply discrepancy_fk_mono.
Qed.

Lemma write_discrepancy d k r :
  discrepancy_ok d k r = Ok tt -> placed idc_ID eq (db_discrepancies d) k r ->
  integrations_step d (set_discrepancies (<[k := r]> (db_discrepancies d)) d).
Proof.
  intros Hok Hp. split; [by eapply le_discrepancies, placed_le; [apply _|]|].
  intros [H1 H2 H3 H4 H5]. unfold discrepancy_ok in Hok. checks_in Hok. split; try done.
  eapply sound_write; try done; [by eapply placed_key|apply no_other_false|].
  unfold discrepancy_fk. rewrite !andb_true_iff. done.
Qed.

(** ** Statements *)

Lemma connection_row_le st sync err now c : connection_le c (connection_row st sync err now c).
Proof. by split. Qed.
Lemma mapping_row_le t l st seen now m : mapping_le m (mapping_row t l st seen now m).
Proof. by split. Qed.
Lemma run_row_le st a b c err now r : run_le r (run_row st a b c err now r).
Proof. by split. Qed.
Lemma webhook_row_le st n err now w : iwh_Attempts w <= n -> webhook_le w (webhook_row st n err now w).
Proof. by split. Qed.

Lemma replaced {A} (key : A -> N) (le : A -> A -> Prop) m k r r' :
  m !! k = Some r -> le r r' -> key r' = key r -> placed key le m k r'.
Proof. right. eauto. Qed.

Lemma is_update_webhook id st t : BodyKeeps integrations_step (update_webhook id st t).
Proof.
  refine (body_exec _ _ _). intros now u d w d' (r & Hr & _ & (n & Hn & [= <-])%res_bind_Ok & Hok & ->)%update_row_Ok.
  apply write_webhook; [done|]. eapply replaced; [done| |done].
  apply webhook_row_le. apply int4_succ_Ok in Hn. lia.
Qed.

Lemma is_insert_webhook o l c v x s p : BodyKeeps integrations_step (insert_webhook o l c v x s p).
Proof.
  refine (body_exec _ _ _). intros now u d w d' H. destruct p as [j|]; [|done].
  apply res_bind_Ok in H as (u1 & _ & H). destruct (select_first _ _ _ _ _ _); [done|].
  apply insert_row_Ok in H as (-> & Hn & Hok & ->). apply write_webhook; [done|by left].
Qed.

Lemma is_upsert_mapping o l c x t : BodyKeeps integrations_step (upsert_mapping o l c x t).
Proof.
  refine (body_exec _ _ _). intros now u d m d' H. apply res_bind_Ok in H as (u1 & _ & H).
  destruct (select_first _ _ _ _ _ _) as [[m0 d0]|err].
  - apply update_row_Ok in H as (r & Hr & _ & [= <-] & Hok & ->). apply write_mapping; [done|].
    eapply replaced; [done|apply mapping_row_le|done].
  - apply insert_row_Ok in H as (-> & Hn & Hok & ->). apply write_mapping; [done|by left].
Qed.

Lemma is_update_mapping id o l t st : BodyKeeps integrations_step (update_mapping id o l t st).
Proof.
  refine (body_exec _ _ _). intros now u d m d' (r & Hr & _ & [= <-] & Hok & ->)%update_row_Ok.
  apply write_mapping; [done|]. eapply replaced; [done|apply mapping_row_le|done].
Qed.

Lemma is_update_connection id whr set :
  (forall now c c', set now c = Ok c' -> connection_le c c') ->
  BodyKeeps integrations_step (exec (update_exec db_connections set_connections connection_ok id whr set)).
Proof.
  intros Hset. refine (body_exec _ _ _).
  intros now u d a d' [[-> _]|(r & r' & Hr & _ & Hs%Hset & Hok & ->)]%update_exec_Ok; [done|].
  apply write_connection; [done|]. eapply replaced; [done..|apply Hs].
Qed.

#[export] Instance integrations_statements : OwnStatements integrations_step.
Proof.
  split; [apply _|apply is_update_webhook|apply is_insert_webhook|apply is_upsert_mapping
    |apply is_update_mapping|..]; intros.
  - refine (body_exec _ _ _). intros now u d a d' (-> & Hn & Hok & ->)%insert_row_Ok.
    apply write_run; [done|by left].
  - refine (body_exec _ _ _). intros now u d a' d' (r & Hr & _ & [= <-] & Hok & ->)%update_row_Ok.
    apply write_run; [done|]. eapply replaced; [done|apply run_row_le|done].
  - apply is_update_connection. intros now c c' [= <-]. apply connection_row_le.
  - apply is_update_connection. intros now c c' [= <-]. apply connection_row_le.
  - refine (body_exec _ _ _). intros now u d a' d' (-> & Hn & Hok & ->)%insert_row_Ok.
    apply write_discrepancy; [done|by left].
Qed.

(** ** The whole backend *)

Section System.
Context {GT : GoText} {GN : GoNumber} {ET : ErrorTexts} {PT : PosText}
  {HT : HttpText} {PL : PlatformText} {RD : ReportData}.

#[export] Instance integrations_calls : FloorCalls integrations_step.
Proof.
  apply floor_calls. intros c _ e s r s' Hs H.
  assert (keeps_st same_integrations (st_db s) s) as H1 by (split; [done|by rewrite Hs]).
  assert (keeps_st layout_step (st_db s) s) as H2 by (split; [done|by rewrite Hs]).
  apply same_integrations_step.
  - exact (proj1 (floor_keeps_integrations c _ _ _ _ _ H H1)).
  - exact (ls_le _ _ (proj1 (floor_keeps_layout c _ _ _ _ _ H H2))).
Qed.

Lemma kept_integrations_step d d' : same_integrations d d' /\ layout_step d d' -> integrations_step d d'.
Proof. intros [Hi Hl]. apply same_integrations_step; [done|apply (ls_le _ _ Hl)]. Qed.

Lemma integrations_SetOrganisationStatus id st : BodyKeeps integrations_step (SetOrganisationStatus id st).
Proof.
  intros e s r s' H. apply kept_integrations_step. split; [|by apply layout_SetOrganisationStatus in H].
  assert (BodyKeeps same_integrations (SetOrganisationStatus id st)) as Hb by solve_body. by apply Hb in H.
Qed.

Lemma integrations_top (m : Go unit) :
  Keeps same_integrations m -> Keeps layout_step m -> Closed m -> TopKeeps integrations_step m.
Proof.
  intros Hi Hl Hc. eapply top_weaken; [exact kept_integrations_step|].
  apply top_of_keeps; [|done|by apply keeps_both]. intros d. by split.
Qed.

Lemma identity_integrations c : TopKeeps integrations_step (run_identity c).
Proof. apply integrations_top; [apply identity_keeps_integrations|apply identity_keeps_layout|apply closed_identity]. Qed.

#[export] Instance integrations_backend : Backend integrations_step integrations_step.
Proof.
  apply backend_of; [apply _|..].
  - intros c. apply integrations_top; [apply floor_keeps_integrations|apply floor_keeps_layout|apply closed_floor].
  - intros c _. apply identity_integrations.
  - intros c. apply integrations_top; [apply layout_keeps_integrations|apply layout_keeps_layout|apply closed_layout].
  - intros c. apply top_integration; [apply _..|apply reference_all_remote].
  - intros c. apply analytics_of; [apply _|..]; intros x d; by apply same_integrations_step.
  - apply integrations_SetOrganisationStatus.
  - intros x d. by apply same_integrations_step.
  - intros x d. by apply same_integrations_step.
  - intros x d. by apply same_integrations_step.
  - intros x d. by apply same_integrations_step.
Qed.

Lemma system_keeps_integrations c e d r d' :
  run (run_system c) e d = (r, d') -> integrations_step d d'.
Proof.
  apply (backend_keeps integrations_step integrations_step). intros arg.
  apply reassign_of, identity_integrations.
Qed.
End System.
