(* ===== verification/IntegrationSteps.v ===== *)
(** What the calls an integration request is made of do: the rows they read and
    write, and how a table is brought to the state a vendor reports. *)

From S2P Require Import Prelude Json Crypto Schema GoTx Store Queries Tokens IdentityQueries IntegrationQueries Events Operations Outbox ReferencePOS Integrations TxFacts Steps LayoutFacts IdentityFacts CommandFacts FloorSpec ErrorFacts Commands History IntegrationFacts LayoutCommands IntegrationInv.
#[local] Open Scope string_scope.
#[local] Open Scope Z_scope.
#[local] Open Scope list_scope.

(** ** Transactions *)

Lemma contextTx_Ok {A} b c k (fn : Go A) e s a s' :
  InTx fn -> contextTx b c k fn e s = (Ok a, s') -> committed fn e (st_db s) a (st_db s').
Proof.
  by intros Hfn [(err & [=] & _)|(x & Hc & [[= ->]|[(err & [=]) _]])]%contextTx_inv.
Qed.

(** Read a successful transaction backwards. *)
Ltac tx_Ok H :=
  let s1 := fresh "s" in let s2 := fresh "s" in let Hd := fresh "Hdb" in let Hd' := fresh "Hdb'" in
  apply contextTx_Ok in H as (s1 & s2 & Hd & _ & H & Hd'); [go_steps H; stmt_facts; subst; simpl in Hd'; rewrite ?Hd in *|solve_intx].

(** A request that only reads. *)
Lemma reads {A} (m : Go A) e s r s' : BodyKeeps eq m -> m e s = (r, s') -> st_db s' = st_db s.
Proof. intros Hm H. by rewrite (Hm _ _ _ _ H). Qed.

(** ** Connections and webhooks *)

Lemma getConnectionByID_Ok id e s c s' :
  getConnectionByID id e s = (Ok c, s') ->
  exists row, db_connections (st_db s) !! id = Some row /\ c = scanConnection row /\
    st_db s' = st_db s.
Proof.
  intros H. unfold getConnectionByID, inAdminTx, select_connection_by_id in H. tx_Ok H.
  eexists. split_and!; [done|done|congruence].
Qed.

Lemma getConnectionByID_db id e s r s' :
  getConnectionByID id e s = (r, s') -> st_db s' = st_db s.
Proof. apply reads. unfold getConnectionByID, inAdminTx. solve_op. Qed.

(** The row an inserted webhook gets. *)
Definition fresh_webhook (conn : Connection) (event : string) (valid : bool) (w : IntegrationWebhookInbox)
    : Prop :=
  exists j now id, w = new_webhook (con_OrganisationID conn) (con_LocationID conn) (con_ID conn)
    (con_Vendor conn) event valid j now id.

Definition event_unseen (vendor event : string) (d : Db) : Prop :=
  forall k w, db_webhooks d !! k = Some w -> same_event vendor event w = false.

(** The statement of [insertWebhook]: a new row, or the one of the event. *)
Lemma insert_webhook_stmt conn event valid payload e s r s' :
  insert_webhook (con_OrganisationID conn) (con_LocationID conn) (con_ID conn) (con_Vendor conn)
    event valid payload e s = (r, s') ->
  (exists w, r = Ok w /\ fresh_webhook conn event valid w /\ event_unseen (con_Vendor conn) event (st_db s) /\
     db_webhooks (st_db s) !! iwh_ID w = None /\
     st_db s' = set_webhooks (<[iwh_ID w := w]> (db_webhooks (st_db s))) (st_db s)) \/
  (exists err, r = Err err /\ st_db s' = st_db s).
Proof.
  unfold insert_webhook. intros H. destruct r as [w|err]; [left|right].
  - apply exec_Ok in H as (_ & d' & H & ->). destruct payload as [j|]; [|done].
    apply res_bind_Ok in H as (u & _ & H).
    destruct (select_first _ _ _ _ _ _) as [?|err] eqn:Hs; [done|].
    apply select_first_NoRows in Hs as [_ Hs]. apply insert_row_Ok in H as (-> & Hn & _ & ->).
    eexists. split_and!; [done| |exact Hs|done|done]. unfold fresh_webhook. eauto.
  - apply exec_Err in H as (-> & _). eauto.
Qed.

(** The stored row, and the database: with it, when it is new. *)
Definition webhook_stored (conn : Connection) (event : string) (valid : bool) (d : Db)
    (w : IntegrationWebhookInbox) (isNew : bool) (d' : Db) : Prop :=
  if isNew
  then fresh_webhook conn event valid w /\ event_unseen (con_Vendor conn) event d /\
       db_webhooks d !! iwh_ID w = None /\
       d' = set_webhooks (<[iwh_ID w := w]> (db_webhooks d)) d
  else (exists k, db_webhooks d !! k = Some w) /\ same_event (con_Vendor conn) event w = true /\ d' = d.

Lemma webhook_stored_lookup conn event valid d w d' :
  webhook_stored conn event valid d w true d' -> db_webhooks d' !! iwh_ID w = Some w.
Proof. intros (_ & _ & _ & ->). exact (lookup_insert_eq _ _ _). Qed.

Lemma insertWebhook_ran conn event valid payload e s r s' :
  insertWebhook conn event valid payload e s = (r, s') ->
  ((exists err, r = Err err) /\ st_db s' = st_db s) \/
  exists w isNew, webhook_stored conn event valid (st_db s) w isNew (st_db s') /\
    (r = Ok (scanWebhook w, isNew) \/ exists err, r = Err err).
Proof.
  intros H. unfold insertWebhook, inAdminTx in H.
  apply contextTx_inv in H as [(err & -> & Hd)|(a & (s1 & s2 & Hd & _ & H & Hd') & Hr)];
    [left; eauto| |solve_intx].
  right. assert (forall b, r = Ok b \/ (exists err, r = Err err) /\ lost_commit e ->
    r = Ok b \/ exists err, r = Err err) as Hr' by naive_solver.
  apply bind_Ok in H as (r1 & s3 & H1%attempt_Ok & H).
  apply insert_webhook_stmt in H1 as [(w & -> & Hw & Hun & Hn & Hdb)|(err & -> & Hdb)].
  - apply ret_Ok in H as [<- <-]. exists w, true. split; [|by apply Hr'].
    unfold webhook_stored. by rewrite <- Hd, <- Hd', Hdb.
  - destruct (errors_Is err NoRows); [|done].
    apply bind_Ok in H as (x & s4 & H & [<- <-]%ret_Ok).
    apply bind_Ok in H as (w & s5 & H & [<- <-]%ret_Ok).
    apply exec_Ok in H as (_ & d & (-> & (k & Hk) & Hsame & _)%select_first_Ok & ->). simpl in *.
    eexists _, false. split; [|by apply Hr']. unfold webhook_stored. rewrite Hdb in *. rewrite Hd in *.
    split_and!; [eauto|done|done].
Qed.

(** A webhook that was marked. *)
Definition webhook_marked (id : uuid) (state : string) (lastError : option string) (d d' : Db) : Prop :=
  exists w now, db_webhooks d !! id = Some w /\ iwh_Attempts w + 1 <= int32_max /\
    d' = set_webhooks (<[id := webhook_row state (iwh_Attempts w + 1) lastError now w]> (db_webhooks d)) d.

Lemma update_webhook_Ok id state err e s w s' :
  update_webhook id state err e s = (Ok w, s') ->
  exists w0, db_webhooks (st_db s) !! id = Some w0 /\ iwh_Attempts w0 + 1 <= int32_max /\
    w = webhook_row state (iwh_Attempts w0 + 1) err (st_now s) w0 /\
    st_db s' = set_webhooks (<[id := w]> (db_webhooks (st_db s))) (st_db s).
Proof.
  unfold update_webhook. intros H. go_steps H. stmt_facts. subst.
  apply res_bind_Ok in Hset as (n & [-> Hn]%int4_succ_Ok & [= <-]). eexists _. split_and!; try done. lia.
Qed.

(** A webhook that was stored, and then marked. *)
Lemma webhook_stored_twice k w w' d :
  set_webhooks (<[k := w']> (db_webhooks (set_webhooks (<[k := w]> (db_webhooks d)) d)))
    (set_webhooks (<[k := w]> (db_webhooks d)) d) = set_webhooks (<[k := w']> (db_webhooks d)) d.
Proof.
  change (set_webhooks (<[k := w']> (<[k := w]> (db_webhooks d))) d = set_webhooks (<[k := w']> (db_webhooks d)) d).
  by rewrite insert_insert_eq.
Qed.

(** A mark that is not the final one leaves the connection alone. *)
Lemma markWebhook_ran id state lastError e s r s' :
  String.eqb state WebhookProcessed = false -> markWebhook id state lastError e s = (r, s') ->
  st_db s' = st_db s \/ webhook_marked id state (error_arg lastError) (st_db s) (st_db s').
Proof.
  intros Hst H. unfold markWebhook, inAdminTx in H.
  apply contextTx_inv in H as [(err & -> & ->)|(a & (s1 & s2 & Hd & _ & H & Hd') & _)];
    [by left| |solve_intx].
  right. rewrite Hst in H. apply bind_Ok in H as (w & s3 & H1 & H). apply ret_Ok in H as [_ <-].
  apply update_webhook_Ok in H1 as (w0 & Hw0 & Hn & -> & Hdb).
  rewrite <- Hd, <- Hd', Hdb. by exists w0, (st_now s1).
Qed.

(** The connection of a webhook that was applied. *)
Definition connection_synced (id : uuid) (now : Z) (d d' : Db) : Prop :=
  match db_connections d !! id with
  | Some c => d' = set_connections (<[id := connection_row "connected" (Some now) None now c]>
                     (db_connections d)) d
  | None => d' = d
  end.

Lemma mark_connection_synced_Ok id e s u s' :
  mark_connection_synced id e s = (Ok u, s') -> connection_synced id (st_now s) (st_db s) (st_db s').
Proof.
  intros H. unfold mark_connection_synced in H. apply exec_Ok in H as (_ & d & H & ->). simpl.
  unfold connection_synced.
  apply update_exec_Ok in H as [[-> Hno]|(c & c' & Hc & _ & [= <-] & _ & ->)]; [|by rewrite Hc].
  destruct (db_connections (st_db s) !! id) as [c|] eqn:Hc; [|done]. by specialize (Hno _ eq_refl).
Qed.

Lemma markWebhook_Ok id state lastError e s x s' :
  markWebhook id state lastError e s = (Ok x, s') ->
  exists w0 w now d, db_webhooks (st_db s) !! id = Some w0 /\
    w = webhook_row state (iwh_Attempts w0 + 1) (error_arg lastError) now w0 /\
    x = scanWebhook w /\ d = set_webhooks (<[id := w]> (db_webhooks (st_db s))) (st_db s) /\
    if String.eqb state WebhookProcessed
    then connection_synced (iwh_ConnectionID w0) now d (st_db s') else st_db s' = d.
Proof.
  intros H. unfold markWebhook, inAdminTx in H.
  apply contextTx_Ok in H as (s1 & s2 & Hd & _ & H & Hd'); [|solve_intx].
  apply bind_Ok in H as (w & s3 & H1 & H). pose proof (in_tx _ _ _ _ H1) as [_ Hnow].
  apply update_webhook_Ok in H1 as (w0 & Hw0 & _ & -> & Hdb). rewrite Hd in Hw0, Hdb.
  exists w0. eexists _, (st_now s1), _. split; [done|]. split; [reflexivity|]. cbv zeta in H.
  destruct (String.eqb state WebhookProcessed).
  - apply bind_Ok in H as (u & s4 & H1%map_err_Ok & H). apply ret_Ok in H as [<- <-].
    apply mark_connection_synced_Ok in H1. rewrite Hnow, Hdb, Hd' in H1.
    split; [reflexivity|]. split; [reflexivity|]. exact H1.
  - apply ret_Ok in H as [<- <-]. split; [reflexivity|]. split; [reflexivity|]. by rewrite <- Hd', Hdb.
Qed.

Lemma markWebhook_inbox id state lastError e s x s' :
  markWebhook id state lastError e s = (Ok x, s') ->
  exists w0 w, db_webhooks (st_db s) !! id = Some w0 /\ webhook_le w0 w /\ x = scanWebhook w /\
    db_webhooks (st_db s') = <[id := w]> (db_webhooks (st_db s)).
Proof.
  intros (w0 & w & now & d & Hw0 & Hw & Hx & Hd & Hs)%markWebhook_Ok. exists w0, w.
  split_and!; [done| |done|].
  - rewrite Hw. apply webhook_row_le. lia.
  - unfold connection_synced in Hs. destruct (String.eqb _ _); [destruct (db_connections d !! _)|];
      by rewrite Hs, Hd.
Qed.

(** ** Mappings *)

(** The mapping of an external table: the known one seen again, with its table
    and its status, or a new one that is not mapped. *)
Definition mapping_seen (conn : Connection) (external : string) (d : Db) (m : IntegrationTableMapping)
    (d' : Db) : Prop :=
  same_external_table (con_ID conn) external m = true /\
    d' = set_mappings (<[itm_ID m := m]> (db_mappings d)) d /\
    (db_mappings d !! itm_ID m = None /\ itm_Status m = MappingUnmapped /\ itm_TableID m = None \/
   exists m0, db_mappings d !! itm_ID m = Some m0 /\
    same_external_table (con_ID conn) external m0 = true /\
    itm_Status m = itm_Status m0 /\ itm_TableID m = itm_TableID m0).

Lemma mappingByExternalID_Ok conn external label e s x s' :
  mappingByExternalID conn external label e s = (Ok x, s') ->
  (forall k m, db_mappings (st_db s) !! k = Some m -> itm_ID m = k) ->
  exists m, x = scanMapping m /\ mapping_seen conn external (st_db s) m (st_db s').
Proof.
  intros H Hkey. unfold mappingByExternalID, inAdminTx, upsert_mapping in H.
  apply contextTx_Ok in H as (s1 & s2 & Hd & _ & H & Hd'); [|solve_intx].
  apply bind_Ok in H as (m & s3 & H & [<- <-]%ret_Ok). exists m. split; [done|].
  apply exec_Ok in H as (_ & d & H & ->). simpl in Hd'. subst d.
  apply res_bind_Ok in H as (u & _ & H). rewrite Hd in H. unfold mapping_seen.
  destruct (select_first _ _ _ _ _ _) as [[m0 d0]|err] eqn:Hs.
  - apply select_first_Ok in Hs as (_ & (k & Hk) & Hsame & _).
    apply update_row_Ok in H as (m1 & Hm1 & _ & [= <-] & _ & ->). simpl.
    rewrite (Hkey _ _ Hk) in *. rewrite Hk in Hm1. injection Hm1 as ->.
    rewrite (Hkey _ _ Hk) in *. split_and!; [done|done|]. right. by exists m1.
  - apply insert_row_Ok in H as (-> & Hn & _ & ->). simpl in *. split_and!; [|done|by left].
    unfold same_external_table. simpl. by rewrite N.eqb_refl, String.eqb_refl.
Qed.

(** ** The floor *)

Lemma currentTableState_Ok conn t e s x s' :
  currentTableState conn t e s = (Ok x, s') ->
  exists o, db_occupancy (st_db s) !! t = Some o /\ occ_OrganisationID o = con_OrganisationID conn /\
    occ_LocationID o = con_LocationID conn /\
    tst_Status x = occ_Status o /\ tst_Version x = occ_Version o /\ st_db s' = st_db s.
Proof.
  intros H%map_err_Ok. unfold inAdminTx, select_table_state in H. tx_Ok H.
  apply andb_prop in Hwhr as [?%N.eqb_eq ?%N.eqb_eq]. eexists. split_and!; done.
Qed.

Lemma hasActiveAssists_Ok conn t e s b s' :
  hasActiveAssists conn t e s = (Ok b, s') ->
  b = map_any (assist_open (con_OrganisationID conn) (con_LocationID conn) t) (db_assists (st_db s)) /\
    st_db s' = st_db s.
Proof.
  intros H. unfold hasActiveAssists, inAdminTx, exists_open_assist, query in H. tx_Ok H.
  by injection H as <- <-.
Qed.

(** Who the floor says moved a table on behalf of a connection. *)
Definition integration_ref (conn : Connection) : option string :=
  Some ("integration:" +:+ uuid_String (con_ID conn)).

(** A table was brought to [status]: it had it, or it was changed once, by the
    integration; guests that are seated are the party the vendor reported. *)
Inductive table_moved (conn : Connection) (t : uuid) (status : string) (party : option Z) (d d' : Db)
    : Prop :=
| moved_not o :
    same_floor d d' -> db_occupancy d !! t = Some o -> occ_Status o = status ->
    table_moved conn t status party d d'
| moved_seated o o' x :
    status = TableStatusOccupied -> db_occupancy d !! t = Some o -> occ_Status o = TableStatusAvailable ->
    db_occupancy d' = <[t := o']> (db_occupancy d) -> occ_Status o' = TableStatusOccupied ->
    occ_CurrentSessionID o' = Some (ses_ID x) -> occ_UpdatedBy o' = integration_ref conn ->
    db_sessions d !! ses_ID x = None -> db_sessions d' = <[ses_ID x := x]> (db_sessions d) ->
    ses_TableID x = t -> ses_EndedAt x = None -> ses_PartySize x = party ->
    ses_Source x = "integration:" +:+ con_Vendor conn -> db_assists d' = db_assists d ->
    table_moved conn t status party d d'
| moved_cleared o o' sid x x' :
    status = TableStatusAvailable -> db_occupancy d !! t = Some o -> occ_Status o = TableStatusOccupied ->
    db_occupancy d' = <[t := o']> (db_occupancy d) -> occ_Status o' = TableStatusAvailable ->
    occ_CurrentSessionID o = Some sid -> occ_UpdatedBy o' = integration_ref conn ->
    db_sessions d !! sid = Some x -> db_sessions d' = <[sid := x']> (db_sessions d) ->
    ses_EndedAt x = None -> is_some (ses_EndedAt x') = true -> db_assists d' = db_assists d ->
    table_moved conn t status party d d'.

Lemma table_moved_status conn t status party d d' :
  table_moved conn t status party d d' ->
  exists o, db_occupancy d' !! t = Some o /\ occ_Status o = status.
Proof.
  destruct 1 as [o (Hs & _) Ho|o o' x -> _ _ Hd Hs|o o' sid x x' -> _ _ Hd Hs].
  - exists o. by rewrite Hs.
  - exists o'. by rewrite Hd, lookup_insert_eq.
  - exists o'. by rewrite Hd, lookup_insert_eq.
Qed.

Lemma table_moved_frame conn t status party d d1 d' :
  same_floor d d1 -> table_moved conn t status party d1 d' -> table_moved conn t status party d d'.
Proof.
  intros Hs Hm. pose proof Hs as (Hocc & Hses & Has).
  destruct Hm as [o Hf Ho Hst| |]; rewrite ?Hocc, ?Hses, ?Has in *;
    [eapply moved_not; [by etrans|done..]|by eapply moved_seated|by eapply moved_cleared].
Qed.

(** A command with a new identifier is not a replay. *)
Definition unrecorded (e : Env) (d : Db) : Prop :=
  forall org t, db_idempotency d !! (org, env_uuid e t) = None.

Lemma unless_is_Ok {A} err (m : Go A) e s u s' :
  unless_is err m e s = (Ok u, s') ->
  (exists a, m e s = (Ok a, s')) \/ (exists err', m e s = (Err err', s') /\ errors_Is err' err = true).
Proof.
  unfold unless_is. intros (r & s1 & H1%attempt_Ok & H)%bind_Ok. destruct r as [a|err'].
  - apply ret_Ok in H as [_ <-]. eauto.
  - destruct (errors_Is err' err) eqn:He; [|done]. apply ret_Ok in H as [_ <-]. eauto.
Qed.

Lemma integration_actor conn : nullableText ("integration:" +:+ uuid_String (con_ID conn)) = integration_ref conn.
Proof. done. Qed.

(** A command with a new identifier whose result is looked at, and not its replay. *)
Lemma new_command_ran {T} org loc actor meta (execute : Go T) ev e s r s' :
  InTx execute ->
  (cmd_ID meta <> uuid_Nil -> db_idempotency (st_db s) !! (org, cmd_ID meta) = None) ->
  (x ← runTenantCommand org loc actor meta execute (fun v => writeOperationalEvent (ev v)) None;
   mret (fst x)) e s = (r, s') ->
  (exists err, r = Err err) /\ st_db s' = st_db s \/
  exists s1 s2 v, st_db s1 = st_db s /\ execute e s1 = (Ok v, s2) /\ same_floor (st_db s2) (st_db s').
Proof.
  intros Hin Hnew H. unfold mbind, Go_bind in H.
  destruct (runTenantCommand _ _ _ _ _ _ None e s) as [r1 s1] eqn:H1.
  assert (s1 = s' /\ (forall err, r1 = Err err -> exists err', r = Err err')) as [-> Herr].
  { destruct r1; injection H as <- <-; split; eauto; done. }
  apply runTenantCommand_inv in H1 as
    [(err & -> & ->)|[(rep & Hid & Hrec & _)|(v1 & rep & Hrun & _)]]; [|..|apply _|apply _].
  - left. split; [by eapply Herr|done].
  - destruct Hrec as (rec & Hrec & _). by rewrite (Hnew Hid) in Hrec.
  - right. apply executed_event in Hrun as (s2 & s3 & eid & time & Hd & _ & Hex & (Hfl & _)%logged_frame).
    by exists s2, s3, v1.
Qed.

Lemma pos_occupy_ran conn t v party cmd e s r s' :
  (cmd_ID cmd <> uuid_Nil -> db_idempotency (st_db s) !! (con_OrganisationID conn, cmd_ID cmd) = None) ->
  OccupyTable (pos_occupy conn t v party cmd) e s = (r, s') ->
  (exists err, r = Err err) /\ st_db s' = st_db s \/
  table_moved conn t TableStatusOccupied party (st_db s) (st_db s').
Proof.
  intros Hnew [?|(s2 & s3 & v1 & Hd & Hex & Hfl)]%new_command_ran; [by left| |apply _|exact Hnew].
  right.
  apply occupyTableInTx_Ok in Hex as
    (o & _ & Ho & _ & Hst & _ & _ & (id & Hx) & Hfresh & _ & Hset & _ & _ & Hdb).
  destruct Hfl as (Hocc & Hses & Has). rewrite Hdb, Hd in *.
  unfold occupied_row in Hset. apply res_bind_Ok in Hset as (n & _ & Hset). injection Hset as Hset.
  unfold table_changed in *. simpl in *.
  eapply moved_seated;
    [done|exact Ho|exact Hst|exact Hocc|by rewrite <- Hset|by rewrite <- Hset|by rewrite <- Hset
    |exact Hfresh|exact Hses|by rewrite Hx..|exact Has].
Qed.

Lemma pos_clear_ran conn t v party cmd e s r s' :
  (cmd_ID cmd <> uuid_Nil -> db_idempotency (st_db s) !! (con_OrganisationID conn, cmd_ID cmd) = None) ->
  ClearTable (pos_clear conn t v cmd) e s = (r, s') ->
  (exists err, r = Err err) /\ st_db s' = st_db s \/
  table_moved conn t TableStatusAvailable party (st_db s) (st_db s').
Proof.
  intros Hnew [?|(s2 & s3 & v1 & Hd & Hex & Hfl)]%new_command_ran; [by left| |apply _|exact Hnew].
  right.
  apply clearTableInTx_Ok in Hex as
    (o & x & sid & _ & Ho & _ & Hst & _ & _ & Hcur & Hx & _ & _ & Hend & Hcl & _ & Hset & _ & _ & Hdb).
  destruct Hfl as (Hocc & Hses & Has). rewrite Hdb, Hd in *.
  unfold available_row in Hset. apply res_bind_Ok in Hset as (n & _ & Hset). injection Hset as Hset.
  injection Hcl as Hcl.
  simpl in *. eapply moved_cleared;
    [done|exact Ho|exact Hst|exact Hocc|by rewrite <- Hset|exact Hcur|by rewrite <- Hset|exact Hx
    |exact Hses|exact Hend|by rewrite <- Hcl|exact Has].
Qed.

Lemma applyTableState_Ok conn t v status party e s u s' :
  unrecorded e (st_db s) -> applyTableState conn t v status party e s = (Ok u, s') ->
  table_moved conn t status party (st_db s) (st_db s').
Proof.
  intros Hnew H. unfold applyTableState in H. apply bind_Ok in H as (id & s1 & Hid & H).
  assert (id = env_uuid e (st_tick s) /\ st_db s1 = st_db s) as [-> Hd] by (by injection Hid as <- <-).
  rewrite <- Hd in *. cbv zeta in H.
  destruct (String.eqb_spec status TableStatusOccupied) as [->|_];
    [|destruct (String.eqb_spec status TableStatusAvailable) as [->|_]; [|done]].
  - apply unless_is_Ok in H as [(a & H)|(err & H & Hty)].
    + apply pos_occupy_ran in H as [[(? & ?) _]|?]; [done|done|intros _; apply Hnew].
    + pose proof (OccupyTable_already _ _ _ _ _ H Hty) as (o & Ho & Hst).
      apply pos_occupy_ran in H as [[_ ->]|?]; [by eapply moved_not|done|intros _; apply Hnew].
  - apply unless_is_Ok in H as [(a & H)|(err & H & Hty)].
    + apply (pos_clear_ran _ _ _ party) in H as [[(? & ?) _]|?]; [done|done|intros _; apply Hnew].
    + pose proof (ClearTable_already _ _ _ _ _ H Hty) as (o & Ho & Hst).
      apply (pos_clear_ran _ _ _ party) in H as [[_ ->]|?]; [by eapply moved_not|done|intros _; apply Hnew].
Qed.

(** The operations service leaves an integration's own tables alone. *)
#[local] Hint Extern 1 (same_integrations _ _) => reflexivity : keeps.

Lemma command_integrations {T} org loc actor meta (execute : Go T) ev enc :
  InTx execute -> BodyKeeps same_integrations execute ->
  BodyKeeps same_integrations
    (runTenantCommand org loc actor meta execute (fun v => writeOperationalEvent (ev v)) enc).
Proof.
  intros Hin Hex e s r s' H.
  apply runTenantCommand_inv in H as
    [(err & _ & ->)|[(rep & _ & _ & -> & _)|(v & rep & Hrun & _)]]; [done|done| |done|apply _].
  destruct Hrun as (s1 & s2 & s3 & status & body & <- & _ & H1 & H2 & _ & _ & _ & Hid).
  etrans; [by eapply Hex|].
  apply writeOperationalEvent_Ok in H2 as (eid & time & (trace & ob & _ & _ & _ & Hd3)).
  trans (st_db s3); [by rewrite Hd3|].
  destruct (cmd_ID meta =? uuid_Nil)%N.
  - by destruct Hid as [_ ->].
  - by destruct Hid as (_ & _ & (rec & _ & -> & _)).
Qed.

Lemma applyTableState_integrations conn t v status party :
  BodyKeeps same_integrations (applyTableState conn t v status party).
Proof.
  unfold applyTableState. refine (body_bind _ _ _ _ _); [refine (body_uuid_New _)|]. intros id. cbv zeta.
  repeat case_match; [..|refine (body_fail _ _)]; unfold unless_is;
    (refine (body_bind _ _ _ _ _); [apply body_attempt|intros [?|?]; solve_body]);
    (refine (body_bind _ _ _ _ _); [apply command_integrations; [apply _|solve_body]|solve_body]).
Qed.

(** ** Discrepancies *)

(** One discrepancy was recorded, about this mapping and this state. *)
Definition discrepancy_noted (conn : Connection) (run : uuid) (state : ExternalTableState)
    (m : IntegrationTableMapping) (t : option uuid) (type : string) (seatd : option string)
    (resolution : string) (d d' : Db) : Prop :=
  exists now id, let x := new_discrepancy (con_OrganisationID conn) (con_LocationID conn) (con_ID conn)
      run (itm_ID m) t (ext_TableID state) type seatd (Some (ext_Status state)) resolution (JObj []) now id in
    db_discrepancies d !! id = None /\ db_discrepancies d' = <[id := x]> (db_discrepancies d).

Lemma recordDiscrepancy_Ok conn run state m t type seatd resolution e s x s' :
  recordDiscrepancy conn run (scanMapping m) t (ext_TableID state) type seatd (Some (ext_Status state))
    resolution RawEmpty e s = (Ok x, s') ->
  discrepancy_noted conn run state m t type seatd resolution (st_db s) (st_db s') /\
  same_floor (st_db s) (st_db s') /\ db_mappings (st_db s') = db_mappings (st_db s) /\
  db_idempotency (st_db s') = db_idempotency (st_db s).
Proof.
  intros H. unfold recordDiscrepancy, inAdminTx in H.
  apply contextTx_Ok in H as (s1 & s2 & Hd & _ & H & Hd'); [|solve_intx].
  apply bind_Ok in H as (w & s3 & H & [<- <-]%ret_Ok).
  apply exec_Ok in H as (_ & d & (-> & Hn & _ & ->)%insert_row_Ok & ->). simpl in *. rewrite Hd in *.
  rewrite <- Hd'. split; [|done]. by exists (st_now s1), (env_uuid e (st_tick s1)).
Qed.

Lemma discrepancy_noted_size conn run state m t type seatd resolution d d' :
  discrepancy_noted conn run state m t type seatd resolution d d' ->
  size (db_discrepancies d') = S (size (db_discrepancies d)).
Proof. intros (now & id & Hn & ->). by rewrite map_size_insert_None. Qed.

(** ** Reconciling one table *)

(** What the reconciliation of one external table left: which branch was taken
    is decided by the mapping, the state of the table and its open assists. *)
Definition table_reconciled (conn : Connection) (run : uuid) (state : ExternalTableState)
    (fresh : Prop) (d d' : Db) (result : string * bool * bool) : Prop :=
  exists m d1, mapping_seen conn (ext_TableID state) d m d1 /\
    db_mappings d' = db_mappings d1 /\
    match mapped_table (scanMapping m) with
    | None =>
        result = (ResolutionReview, true, false) /\ same_floor d d' /\
        discrepancy_noted conn run state m None "unmapped_table" None ResolutionReview d d'
    | Some t =>
        exists o, db_occupancy d !! t = Some o /\
          if String.eqb (occ_Status o) (ext_Status state)
          then result = (ResolutionIgnored, false, false) /\ same_floor d d' /\
               db_discrepancies d' = db_discrepancies d
          else if map_any (assist_open (con_OrganisationID conn) (con_LocationID conn) t) (db_assists d)
          then result = (ResolutionReview, true, false) /\ same_floor d d' /\
               discrepancy_noted conn run state m (Some t) "ambiguous_conflict" (Some (occ_Status o))
                 ResolutionReview d d'
          else result = (ResolutionAutoCorrected, true, true) /\
               (fresh -> table_moved conn t (ext_Status state) None d d') /\
               discrepancy_noted conn run state m (Some t) "occupancy_mismatch" (Some (occ_Status o))
                 ResolutionAutoCorrected d d'
    end.

Lemma mapping_seen_frame conn external d m d1 :
  mapping_seen conn external d m d1 ->
  same_floor d d1 /\ db_discrepancies d1 = db_discrepancies d /\ db_idempotency d1 = db_idempotency d.
Proof. by intros (_ & -> & _). Qed.

Lemma reconcileTableState_Ok conn run state e s result s' :
  (forall k m, db_mappings (st_db s) !! k = Some m -> itm_ID m = k) ->
  reconcileTableState conn run state e s = (Ok result, s') ->
  table_reconciled conn run state (unrecorded e (st_db s)) (st_db s) (st_db s') result.
Proof.
  intros Hkey H. unfold reconcileTableState in H.
  apply bind_Ok in H as (x & s1 & H1 & H). apply mappingByExternalID_Ok in H1 as (m & -> & Hm); [|done].
  pose proof (mapping_seen_frame _ _ _ _ _ Hm) as (Hfl & Hdi & Hid).
  exists m, (st_db s1). split; [done|].
  destruct (mapped_table (scanMapping m)) as [t|].
  - apply bind_Ok in H as (cur & s2 & H1 & H).
    apply currentTableState_Ok in H1 as (o & Ho & _ & _ & Hst & _ & Hd2). rewrite Hst in H.
    destruct Hfl as (Hocc & Hses & Has). rewrite Hocc in Ho.
    destruct (String.eqb (occ_Status o) (ext_Status state)) eqn:Heq.
    + apply ret_Ok in H as [<- <-]. rewrite Hd2. split; [done|]. exists o. by rewrite Heq.
    + apply bind_Ok in H as (b & s3 & H1 & H). apply hasActiveAssists_Ok in H1 as [Hb Hd3].
      rewrite Hd2, Has in Hb. rewrite Hd2 in Hd3.
      apply bind_Ok in H as (dis & s4 & H1 & H). apply recordDiscrepancy_Ok in H1 as (Hn & Hf & Hmap & Hid4).
      rewrite Hd3 in Hn, Hf, Hmap, Hid4.
      assert (forall ty se re d0, discrepancy_noted conn run state m (Some t) ty se re (st_db s1) d0 ->
        discrepancy_noted conn run state m (Some t) ty se re (st_db s) d0) as Hback.
      { unfold discrepancy_noted. by rewrite Hdi. }
      assert (same_floor (st_db s) (st_db s4)) as Hf4 by (etrans; [|exact Hf]; done).
      destruct b.
      * apply ret_Ok in H as [<- <-]. split; [done|]. exists o. rewrite Heq, <- Hb.
        split_and!; try done. by apply Hback.
      * apply bind_Ok in H as (u & s5 & H1 & [<- <-]%ret_Ok).
        pose proof (applyTableState_integrations _ _ _ _ _ _ _ _ _ H1) as Hint.
        split; [by rewrite <- Hmap; unfold db_mappings; rewrite Hint|].
        exists o. rewrite Heq, <- Hb. split_and!; try done.
        -- intros Hfresh. eapply table_moved_frame; [exact Hf4|]. eapply applyTableState_Ok; [|exact H1].
           intros org n. rewrite Hid4, Hid. apply Hfresh.
        -- apply Hback. unfold discrepancy_noted, db_discrepancies in *. rewrite Hint. exact Hn.
  - apply bind_Ok in H as (dis & s2 & H1 & [<- <-]%ret_Ok).
    apply recordDiscrepancy_Ok in H1 as (Hn & Hf & Hmap & _). split; [done|]. split_and!; [done|by etrans|].
    unfold discrepancy_noted in *. by rewrite <- Hdi.
Qed.
