(* ===== verification/EventLog.v ===== *)
(** The log of operational events.  After every history that starts on a fresh
    floor, the events of a table number its versions 2, 3, ... up to the current
    one, each exactly once, and likewise an assist request's from 1: a consumer
    that has seen version [n] knows which event comes next.  Every event has its
    three outbox records, and their payload decodes to the event's envelope. *)

From S2P Require Import Prelude Json Crypto Schema GoTx Store Queries Events Operations Guest TxFacts CommandFacts FloorSpec GuestFacts Commands History.
#[local] Open Scope string_scope.
#[local] Open Scope Z_scope.
#[local] Open Scope list_scope.

(** ** Logs of one kind of entity *)

Definition about (entity : string) (id : uuid) (v : Z) (ev : OperationalEvent) : Prop :=
  oev_EntityType ev = entity /\ oev_EntityID ev = id /\ oev_EntityVersion ev = Some v.

(** The events of an entity carry exactly the versions from [lo] to its current
    one, each once. *)
Definition gap_free (entity : string) (lo : Z) (current : gmap N Z) (log : gmap N OperationalEvent)
    : Prop :=
  (forall id cur v, current !! id = Some cur -> lo <= v <= cur ->
     exists eid ev, log !! eid = Some ev /\ about entity id v ev) /\
  (forall eid1 eid2 ev1 ev2 id v, log !! eid1 = Some ev1 -> log !! eid2 = Some ev2 ->
     about entity id v ev1 -> about entity id v ev2 -> eid1 = eid2) /\
  (forall eid ev, log !! eid = Some ev -> oev_EntityType ev = entity ->
     exists cur v, current !! oev_EntityID ev = Some cur /\ oev_EntityVersion ev = Some v /\
       lo <= v <= cur).

Lemma gap_free_other entity lo current log eid ev :
  log !! eid = None -> oev_EntityType ev <> entity ->
  gap_free entity lo current log -> gap_free entity lo current (<[eid := ev]> log).
Proof.
  intros Hf Hne (Hall & Hone & Honly). split_and!.
  - intros id cur v Hc Hv. destruct (Hall id cur v Hc Hv) as (eid' & ev' & Hl & Ha).
    exists eid', ev'. rewrite lookup_insert_ne by congruence. done.
  - intros e1 e2 ev1 ev2 id v [[<- <-]|[_ H1]]%lookup_insert_Some
      [[<- <-]|[_ H2]]%lookup_insert_Some A1 A2; [done|by destruct A1|by destruct A2|].
    by eapply Hone.
  - intros e1 ev1 [[<- <-]|[_ H1]]%lookup_insert_Some Ht; [done|]. by eapply Honly.
Qed.

(** The next version is logged with the change that makes it current. *)
Lemma gap_free_next entity lo current log id v eid ev :
  (current !! id = None /\ v = lo \/
   exists cur, current !! id = Some cur /\ v = cur + 1 /\ lo <= v) ->
  log !! eid = None -> about entity id v ev ->
  gap_free entity lo current log -> gap_free entity lo (<[id := v]> current) (<[eid := ev]> log).
Proof.
  intros Hcur Hf Hab (Hall & Hone & Honly).
  assert (forall e1 ev1, log !! e1 = Some ev1 -> about entity id v ev1 -> False) as Hnew.
  { intros e1 ev1 H1 (Ht & Hid & Hv). destruct (Honly _ _ H1 Ht) as (c & w & Hc & Hw & Hle).
    rewrite Hid in Hc. rewrite Hv in Hw. injection Hw as <-.
    destruct Hcur as [[Hn _]|(c' & Hc' & -> & _)]; [congruence|].
    rewrite Hc in Hc'. injection Hc' as ->. lia. }
  split_and!.
  - intros id' cur w [[<- <-]|[Hne Hc]]%lookup_insert_Some Hw.
    + destruct (decide (w = v)) as [->|Hwv].
      * exists eid, ev. by rewrite lookup_insert_eq.
      * destruct Hcur as [[_ ->]|(c & Hc & -> & _)]; [lia|].
        destruct (Hall id c w Hc) as (e1 & ev1 & H1 & A1); [lia|].
        exists e1, ev1. rewrite lookup_insert_ne by congruence. done.
    + destruct (Hall id' cur w Hc Hw) as (e1 & ev1 & H1 & A1).
      exists e1, ev1. rewrite lookup_insert_ne by congruence. done.
  - intros e1 e2 ev1 ev2 id' w [[<- <-]|[_ H1]]%lookup_insert_Some
      [[<- <-]|[_ H2]]%lookup_insert_Some A1 A2; [done|..|by eapply Hone]; exfalso.
    + assert (id' = id /\ w = v) as [-> ->].
      { destruct A1 as (_ & ? & ?), Hab as (_ & ? & ?). split; congruence. } by eapply Hnew.
    + assert (id' = id /\ w = v) as [-> ->].
      { destruct A2 as (_ & ? & ?), Hab as (_ & ? & ?). split; congruence. } by eapply Hnew.
  - intros e1 ev1 [[<- <-]|[_ H1]]%lookup_insert_Some Ht.
    + destruct Hab as (_ & -> & ->). exists v, v. rewrite lookup_insert_eq.
      split_and!; [done..| |lia]. destruct Hcur as [[_ ->]|(c & _ & _ & ?)]; lia.
    + destruct (Honly _ _ H1 Ht) as (c & w & Hc & Hw & Hle).
      destruct (decide (oev_EntityID ev1 = id)) as [Hid|Hne].
      * exists v, w. rewrite Hid, lookup_insert_eq. split_and!; [done|done|lia|].
        destruct Hcur as [[Hn ->]|(c' & Hc' & -> & _)]; [congruence|].
        rewrite Hid, Hc' in Hc. injection Hc as ->. lia.
      * exists c, w. by rewrite lookup_insert_ne.
Qed.

(** ** The log invariant *)

Definition table_versions (d : Db) : gmap N Z := occ_Version <$> db_occupancy d.
Definition assist_versions (d : Db) : gmap N Z := ast_Version <$> db_assists d.

Definition log_inv (d : Db) : Prop :=
  gap_free "table" 2 (table_versions d) (db_events d) /\
  gap_free "assist" 1 (assist_versions d) (db_events d).

(** A floor before its first command: tables at version 1, no assists, no
    events. *)
Definition fresh_floor (d : Db) : Prop :=
  floor_inv d /\ (forall t o, db_occupancy d !! t = Some o -> occ_Version o = 1) /\
  db_assists d = ∅ /\ db_events d = ∅.

Lemma fresh_log_inv d : fresh_floor d -> log_inv d.
Proof.
  intros (_ & Hocc & Ha & He). unfold log_inv, gap_free, table_versions, assist_versions.
  rewrite Ha, He. split_and!; try (intros *; rewrite lookup_empty; done).
  - intros id cur v Hc Hv. rewrite lookup_fmap in Hc.
    destruct (db_occupancy d !! id) eqn:Ho; [|done]. injection Hc as <-.
    apply Hocc in Ho. lia.
  - intros id cur v Hc. by rewrite fmap_empty, lookup_empty in Hc.
Qed.

Lemma row_step_log d d2 ev eid row :
  floor_inv d -> row_step d d2 ev -> db_events d2 !! eid = None ->
  oev_EntityType row = ope_EntityType ev -> oev_EntityID row = ope_EntityID ev ->
  oev_EntityVersion row = Some (ope_EntityVersion ev) ->
  log_inv d ->
  gap_free "table" 2 (table_versions d2) (<[eid := row]> (db_events d2)) /\
  gap_free "assist" 1 (assist_versions d2) (<[eid := row]> (db_events d2)).
Proof.
  intros Hi Hst Hf Hty Hid Hv [Ht Ha].
  destruct Hst; unfold table_changed, table_versions, assist_versions in *; simpl in *;
    rewrite ?fmap_insert;
    match goal with H : reports _ _ _ _ |- _ => destruct H as (He1 & He2 & He3 & _) end;
    rewrite He1 in Hty; rewrite He2 in Hid; rewrite He3 in Hv.
  1,2: destruct (fi_occupancy _ Hi _ _ H) as (_ & Hck & _);
    unfold occupancy_checks in Hck; bool_facts;
    split; [|by apply gap_free_other; [done|congruence|]];
    apply gap_free_next; [|done|done|done]; right; exists (occ_Version o);
    rewrite lookup_fmap, H; split_and!; [done|done|lia].
  - split; [by apply gap_free_other; [done|congruence|]|].
    rewrite H1. apply gap_free_next; [|done|done|done]. left. by rewrite lookup_fmap, H.
  - destruct (fi_assists _ Hi _ _ H) as [_ Hck]. unfold assist_checks in Hck. bool_facts.
    split; [by apply gap_free_other; [done|congruence|]|].
    apply gap_free_next; [|done|done|done]. right. exists (ast_Version r).
    rewrite lookup_fmap, H. split_and!; [done|done|lia].
Qed.

Lemma change_log_inv d d' : floor_inv d -> log_inv d -> change d d' -> log_inv d'.
Proof.
  intros Hi Hl [(Ho & _ & Ha) He _ _ _|d2 ev tnow eid time Hst
    ((Ho & _ & Ha) & _ & _ & Hf & trace & He & _)%logged_frame];
    unfold log_inv, table_versions, assist_versions; rewrite Ho, Ha, He; [done|].
  by eapply row_step_log.
Qed.

Lemma history_log_inv d0 d : fresh_floor d0 -> history d0 d -> floor_inv d /\ log_inv d.
Proof.
  intros Hf H. pose proof (fresh_log_inv _ Hf) as Hl. destruct Hf as (Hi & _).
  induction H as [|d d' c e r H [IHf IHl] Hr]; [done|].
  apply run_outcome in Hr as [Hc _]; [|done].
  split; [by eapply change_floor_inv|by eapply change_log_inv].
Qed.

(** ** The outbox of every event *)

(** Event [eid] has a record for [dst] that carries the event's payload. *)
Definition has_record (d : Db) (eid : uuid) (ev : OperationalEvent) (dst : string) : Prop :=
  exists rid r, db_outbox d !! rid = Some r /\ obx_EventID r = eid /\
    obx_Destination r = dst /\ obx_Payload r = oev_Payload ev /\
    obx_OrganisationID r = oev_OrganisationID ev /\ obx_LocationID r = oev_LocationID ev.

(** The payload of an event is the envelope that describes it. *)
Definition payload_describes (eid : uuid) (ev : OperationalEvent) : Prop :=
  exists v, Envelope_of_json (oev_Payload ev) = Some v /\ env_ID v = eid /\
    env_Type v = oev_EventType ev /\ env_EntityType v = oev_EntityType ev /\
    env_EntityID v = oev_EntityID ev /\ env_EntityVersion v = oev_EntityVersion ev /\
    env_OrganisationID v = oev_OrganisationID ev /\ env_LocationID v = oev_LocationID ev /\
    env_CommandID v = oev_CommandID ev /\ env_Data v = oev_EventData ev /\
    oev_OccurredAt ev = pg_time (env_OccurredAt v).

Definition outbox_inv (d : Db) : Prop :=
  forall eid ev, db_events d !! eid = Some ev ->
    oev_ID ev = eid /\ payload_describes eid ev /\
    forall dst, dst ∈ operationDestinations -> has_record d eid ev dst.

Lemma event_row_describes ev eid time trace :
  in_int32 (ope_EntityVersion ev) = true ->
  payload_describes eid (event_row ev eid time (event_payload ev eid time trace)).
Proof.
  intros H32. exists (event_envelope ev eid time trace).
  split; [|done]. apply Envelope_of_to_json; [done|]. by intros n [= <-].
Qed.

Lemma change_outbox_inv d d' : outbox_inv d -> change d d' -> outbox_inv d'.
Proof.
  intros Hinv [_ He Ho _ _|d2 ev tnow eid time Hst
    (_ & _ & _ & Hf & trace & He & _ & Hob)%logged_frame]; intros eid' ev' Hev.
  { rewrite He in Hev. destruct (Hinv _ _ Hev) as (? & ? & Hd). split_and!; [done..|].
    unfold has_record. rewrite Ho. done. }
  assert (db_events d2 = db_events d /\ db_outbox d2 = db_outbox d /\
          in_int32 (ope_EntityVersion ev) = true /\ ope_Destinations ev = operationDestinations)
    as (He2 & Ho2 & H32 & Hdst).
  { destruct Hst; match goal with H : reports _ _ _ _ |- _ =>
      destruct H as (_ & _ & Hv & H32 & Hd); rewrite Hv, Hd end; done. }
  rewrite He in Hev. apply lookup_insert_Some in Hev as [[<- <-]|[_ Hev]].
  - split_and!; [done|by apply event_row_describes|]. intros dst Hin.
    eapply (outbox_added_all _ _ _ _ _ _ _ _ _ dst) in Hob as (rid & _ & Hr).
    + by exists rid, (new_outbox_record (ope_OrganisationID ev) (ope_LocationID ev) eid
        (event_topic ev) dst (event_payload ev eid time trace) tnow rid).
    + unfold event_destinations. by rewrite Hdst.
  - rewrite He2 in Hev. destruct (Hinv _ _ Hev) as (? & ? & Hd). split_and!; [done..|].
    intros dst Hin. destruct (Hd dst Hin) as (rid & r & Hr & Hrest). exists rid, r.
    split; [|done]. eapply outbox_added_keeps; [exact Hob|]. by rewrite Ho2.
Qed.

Lemma history_outbox_inv d0 d :
  floor_inv d0 -> outbox_inv d0 -> history d0 d -> outbox_inv d.
Proof.
  intros Hi Ho H. induction H as [|d d' c e r H IH Hr]; [done|].
  apply run_outcome in Hr as [Hc _]; [|by eapply history_floor_inv].
  by eapply change_outbox_inv.
Qed.
