(* ===== verification/Idempotency.v ===== *)
(** Idempotent commands: a command with an id takes effect at most once, however
    often the caller retries it and whatever happened to the first attempt. *)

From S2P Require Import Prelude Json Schema GoTx Store Queries Events Operations TxFacts CommandFacts.
#[local] Open Scope string_scope.
#[local] Open Scope Z_scope.
#[local] Open Scope list_scope.

Lemma run_inv {A} (m : Go A) e d r d' :
  run m e d = (r, d') -> exists s', m e (start d) = (r, s') /\ st_db s' = d'.
Proof. unfold run. destruct (m e (start d)) as [r1 s1]. intros [= <- <-]. eauto. Qed.

(** ** Runs in which no call fails *)

Definition fault_free (e : Env) : Prop := forall t, env_fault e t = None.

Section Forward.
Context (e : Env) (Hff : fault_free e).

Definition begun (s : St) : St :=
  {| st_db := st_db s; st_saved := Some (st_db s);
   st_now := pg_time (env_pgclock e (st_tick s)); st_tick := S (st_tick s) |}.

Lemma BeginTx_run s : BeginTx e s = (Ok tt, begun s).
Proof. unfold BeginTx. by rewrite Hff. Qed.

Lemma Commit_run s : Commit e s = (Ok tt, close_tx (st_db s) s).
Proof. unfold Commit. by rewrite Hff. Qed.

Lemma exec_run {A} (q : Stmt A) s a d :
  q (st_now s) (env_uuid e (st_tick s)) (st_db s) = Ok (a, d) ->
  exec q e s = (Ok a, with_db d (tick s)).
Proof. unfold exec. rewrite Hff. by intros ->. Qed.

Lemma exec_run_Err {A} (q : Stmt A) s err :
  q (st_now s) (env_uuid e (st_tick s)) (st_db s) = Err err ->
  exec q e s = (Err err, tick s).
Proof. unfold exec. rewrite Hff. by intros ->. Qed.

Lemma SetContext_run s : SetContext e s = (Ok tt, tick s).
Proof. unfold SetContext. erewrite exec_run by done. by destruct s. Qed.

Lemma map_err_run {A} f (m : Go A) s a s' :
  m e s = (Ok a, s') -> map_err f m e s = (Ok a, s').
Proof. unfold map_err. by intros ->. Qed.

Lemma or_rollback_run {A} f (m : Go A) s a s' :
  m e s = (Ok a, s') -> or_rollback f m e s = (Ok a, s').
Proof. unfold or_rollback, attempt, mbind, Go_bind. by intros ->. Qed.

(** Without faults the rollback succeeds, and the body's error is returned. *)
Lemma or_rollback_run_Err {A} f (m : Go A) s err s' d0 :
  m e s = (Err err, s') -> st_saved s' = Some d0 ->
  or_rollback f m e s = (Err (f err), close_tx d0 s').
Proof.
  unfold or_rollback, rollback, attempt, Rollback, mbind, Go_bind, fail, saved_db.
  intros -> Hs. by rewrite Hff, Hs.
Qed.

Lemma run_transaction {A} (k : unit -> Go A) d :
  (map_err (Wrap "beginning transaction") BeginTx ≫= fun _ =>
   or_rollback (Wrap "setting tenant context") SetContext ≫= k) e (start d) =
  k tt e (tick (begun (start d))).
Proof.
  erewrite bind_run; [|by apply map_err_run, BeginTx_run].
  erewrite bind_run; [|by apply or_rollback_run, SetContext_run]. done.
Qed.

(** A transaction whose body succeeds commits it. *)
Lemma contextTx_run {A} b c k (fn : Go A) (P : A -> Db -> Prop) s :
  (forall s1, st_db s1 = st_db s -> exists a s2, fn e s1 = (Ok a, s2) /\ P a (st_db s2)) ->
  exists a s', contextTx b c k fn e s = (Ok a, s') /\ P a (st_db s').
Proof.
  intros Hfn. unfold contextTx. erewrite bind_run; [|by apply map_err_run, BeginTx_run].
  erewrite bind_run; [|by apply or_rollback_run, SetContext_run].
  destruct (Hfn (tick (begun s))) as (a & s2 & H2 & HP); [done|].
  erewrite bind_run; [|by apply or_rollback_run].
  erewrite bind_run; [|by apply map_err_run, Commit_run]. by do 2 eexists.
Qed.

Lemma inTenantTx_run {A} (fn : Go A) (P : A -> Db -> Prop) s :
  (forall s1, st_db s1 = st_db s -> exists a s2, fn e s1 = (Ok a, s2) /\ P a (st_db s2)) ->
  exists a s', inTenantTx fn e s = (Ok a, s') /\ P a (st_db s').
Proof. apply contextTx_run. Qed.

Lemma guard_err_run b err s : b = false -> guard_err b err e s = (Ok tt, s).
Proof. by intros ->. Qed.
End Forward.

(** ** Looking a command up *)

Section Lookup.
Context (e : Env) (Hff : fault_free e).

Definition replay_of (r : ApiIdempotencyRecord) : CommandReplay :=
  {| rep_Replayed := true; rep_Status := idr_ResponseStatus r;
   rep_Body := Some (idr_ResponseBody r) |}.

Definition same_request (meta : CommandMeta) (r : ApiIdempotencyRecord) : bool :=
  String.eqb (idr_CommandType r) (cmd_Type meta)
  && bool_decide (idr_PayloadHash r = cmd_PayloadHash meta).

Lemma lookup_found org meta s r :
  db_idempotency (st_db s) !! (org, cmd_ID meta) = Some r ->
  getIdempotencyReplay org meta e s =
  (if same_request meta r then (Ok (Some (replay_of r)), tick s)
   else (Err ErrIdempotencyConflict, tick s)).
Proof.
  intros Hr. unfold getIdempotencyReplay, same_request.
  assert (exec (select_one db_idempotency (org, cmd_ID meta) (fun _ => true)) e s
    = (Ok r, tick s)) as Hq.
  { erewrite exec_run; [|done|unfold select_one; by rewrite Hr]. by destruct s. }
  unfold attempt, mbind, Go_bind. rewrite Hq.
  destruct (String.eqb _ _), (bool_decide _); done.
Qed.

Lemma lookup_none org meta s :
  db_idempotency (st_db s) !! (org, cmd_ID meta) = None ->
  getIdempotencyReplay org meta e s = (Ok None, tick s).
Proof.
  intros Hr. unfold getIdempotencyReplay, attempt, mbind, Go_bind.
  rewrite (exec_run_Err e Hff _ _ NoRows); [done|]. unfold select_one. by rewrite Hr.
Qed.

Context {T : Type} (org loc : uuid) (actor : string) (meta : CommandMeta).
Context (execute : Go T) (after : T -> Go unit).
Context (encode : option (T -> result error (Z * option json))).

(** A recorded command is answered from its record. *)
Lemma recorded_run d r :
  cmd_ID meta <> uuid_Nil -> db_idempotency d !! (org, cmd_ID meta) = Some r ->
  run (runTenantCommand org loc actor meta execute after encode) e d =
  if same_request meta r then (Ok (None, replay_of r), d) else (Err ErrIdempotencyConflict, d).
Proof.
  intros Hid Hr. unfold run, runTenantCommand. rewrite run_transaction by done.
  apply N.eqb_neq in Hid. rewrite Hid.
  pose proof (lookup_found org meta (tick (begun e (start d))) r Hr) as Hl.
  destruct (same_request meta r).
  - erewrite bind_run; [|by apply or_rollback_run]. simpl.
  erewrite bind_run; [|by apply map_err_run, Commit_run]. done.
  - erewrite bind_run_Err; [|by eapply or_rollback_run_Err]. done.
Qed.
End Lookup.

(** ** Retrying *)

Section Retry.
Context {T : Type} (org loc : uuid) (actor : string) (meta : CommandMeta).
Context (execute : Go T) (after : T -> Go unit).
Context (encode : option (T -> result error (Z * option json))).
Context {Hexecute : InTx execute} {Hafter : forall v, InTx (after v)}.

(** The first attempt had no effect, or its record is there and holds the
    response it gave. *)
Lemma first_attempt e s r s' :
  cmd_ID meta <> uuid_Nil ->
  runTenantCommand org loc actor meta execute after encode e s = (r, s') ->
  (exists err, r = Err err /\ st_db s' = st_db s) \/
  exists rec, db_idempotency (st_db s') !! (org, cmd_ID meta) = Some rec /\
    same_request meta rec = true /\
    (forall o rep, r = Ok (o, rep) ->
       rep_Status rep = idr_ResponseStatus rec /\ rep_Body rep = Some (idr_ResponseBody rec)).
Proof.
  intros Hid Hr. apply runTenantCommand_inv in Hr as
    [(err & -> & ->)|[(rep & _ & Hrec & -> & Hr)|(v & rep & Hrun & Hr)]]; [..|done|done].
  - left. eauto.
  - right. destruct Hrec as (rec & Hl & Ht & Hh & ->). exists rec. split_and!; [done|..].
    + unfold same_request. rewrite Ht, Hh, String.eqb_refl. by apply bool_decide_eq_true.
    + intros o rep Hok. destruct Hr as [->|(err & ->)]; [|done]. by injection Hok as _ <-.
  - right. destruct Hrun as (s0 & s2 & s3 & st & body & _ & _ & _ & _ & _ & _ & _ & Hrec).
    apply N.eqb_neq in Hid as Hid'. rewrite Hid' in Hrec.
    destruct Hrec as (_ & _ & rec & _ & -> & _ & _ & _ & Ht & Hh & Hs & Hb & _).
    exists rec. simpl. rewrite lookup_insert_eq. split_and!; [done|..].
    + unfold same_request. rewrite Ht, Hh, String.eqb_refl. by apply bool_decide_eq_true.
    + intros o rep' Hok. destruct Hr as [->|[(err & ->) _]]; [|done]. injection Hok as _ <-. done.
Qed.

(** Where the record stands, a further attempt changes nothing; and only the same
    request is answered, from the record. *)
Lemma recorded_no_effect e s rec r s' :
  cmd_ID meta <> uuid_Nil -> db_idempotency (st_db s) !! (org, cmd_ID meta) = Some rec ->
  runTenantCommand org loc actor meta execute after encode e s = (r, s') ->
  st_db s' = st_db s /\
  (r = Ok (None, replay_of rec) /\ same_request meta rec = true \/ exists err, r = Err err).
Proof.
  intros Hid Hrec Hr. apply runTenantCommand_inv in Hr as
    [(err & -> & ->)|[(rep & _ & Hr' & -> & Hr)|(v & rep & Hrun & Hr)]]; [..|done|done].
  - eauto.
  - destruct Hr' as (rec' & Hl & Ht & Hh & ->). rewrite Hrec in Hl.
    injection Hl as ->. split; [done|]. destruct Hr as [->|?]; [left|by right]. split; [done|].
    unfold same_request. rewrite Ht, Hh, String.eqb_refl. by apply bool_decide_eq_true.
  - exfalso. destruct Hrun as (s0 & s2 & s3 & st & body & _ & _ & _ & _ & _ & _ & _ & Hn).
    apply N.eqb_neq in Hid. rewrite Hid in Hn. destruct Hn as [Hn _]. congruence.
Qed.
End Retry.
