(* ===== verification/Progress.v ===== *)
(** Commands that succeed: when no call fails, fresh identifiers are fresh and
    the request is valid, the statements of a command all go through. *)

From S2P Require Import Prelude Json Schema GoTx Store Queries Events Operations TxFacts CommandFacts FloorSpec Idempotency.
#[local] Open Scope string_scope.
#[local] Open Scope Z_scope.
#[local] Open Scope list_scope.

(** The identifiers drawn from tick [t] on are new to the database. *)
Record fresh_ids (e : Env) (t0 : nat) (d : Db) : Prop := {
  fr_inj : forall t1 t2, env_uuid e t1 = env_uuid e t2 -> t1 = t2;
  fr_sessions : forall t, (t0 <= t)%nat -> db_sessions d !! env_uuid e t = None;
  fr_events : forall t, (t0 <= t)%nat -> db_events d !! env_uuid e t = None;
  fr_outbox : forall t, (t0 <= t)%nat -> db_outbox d !! env_uuid e t = None;
}.

Section Progress.
Context (e : Env) (Hff : fault_free e).

Lemma check_run b err : b = true -> check b err = Ok tt.
Proof. by intros ->. Qed.

Lemma insert_session_ok d s :
  floor_inv d -> session_checks s = true -> ses_EndedAt s = None ->
  db_sessions d !! ses_ID s = None ->
  (forall o, db_occupancy d !! ses_TableID s = Some o -> occ_CurrentSessionID o = None) ->
  table_fk d (ses_OrganisationID s) (ses_LocationID s) (ses_TableID s) = true ->
  session_ok d (ses_ID s) s = Ok tt.
Proof.
  intros Hi Hck He Hf Hfree Hfk. unfold session_ok, res_bind. rewrite check_run by done.
  rewrite check_run; [by apply check_run|]. rewrite He. simpl.
  apply negb_true_iff, map_any_false. intros k x Hk. apply lookup_delete_Some in Hk as [_ Hk].
  destruct (fi_sessions _ Hi _ _ Hk) as (_ & _ & Hact).
  unfold session_active_on. destruct (ses_EndedAt x) eqn:Hx; [by rewrite andb_false_r|].
  destruct (N.eqb_spec (ses_TableID x) (ses_TableID s)) as [Ht|]; [|done].
  destruct (Hact eq_refl) as (o & Ho & Hc). rewrite Ht in Ho. apply Hfree in Ho. congruence.
Qed.

(** The row of an occupied table, after its session was inserted. *)
Lemma occupied_row_ok d t o o' s :
  floor_inv d -> db_sessions d !! ses_ID s = None ->
  occupancy_checks o' = true -> occ_CurrentSessionID o' = Some (ses_ID s) ->
  db_occupancy d !! t = Some o ->
  occupancy_ok (set_sessions (<[ses_ID s := s]> (db_sessions d)) d) t o' = Ok tt.
Proof.
  intros Hi Hf Hck Hcur Ho. unfold occupancy_ok, res_bind. rewrite check_run by done.
  rewrite Hcur, check_run.
  - apply check_run. simpl. by rewrite lookup_insert_eq.
  - apply negb_true_iff, map_any_false. simpl. intros k x Hk.
  apply lookup_delete_Some in Hk as [_ Hk]. apply bool_decide_eq_false. intros Hc.
  destruct (fi_occupancy _ Hi _ _ Hk) as (_ & _ & Hx).
  destruct (Hx _ Hc) as (y & Hy & _). congruence.
Qed.

Record occupy_ready (d : Db) (arg : OccupyTableParams) (tb : Table) (o : TableOccupancy) : Prop := {
or_table : db_tables d !! ocp_TableID arg = Some tb;
or_scope : tbl_OrganisationID tb = ocp_OrganisationID arg /\ tbl_LocationID tb = ocp_LocationID arg;
or_live : tbl_IsActive tb = true /\ tbl_DeletedAt tb = None;
or_row : db_occupancy d !! ocp_TableID arg = Some o;
or_row_scope : occ_OrganisationID o = ocp_OrganisationID arg /\ occ_LocationID o = ocp_LocationID arg;
or_free : occ_Status o = "available";
or_version : occ_Version o = ocp_ExpectedVersion arg /\ occ_Version o < int32_max;
or_party : opt_all (fun n => 0 <? n) (ocp_PartySize arg) = true;
or_source : ocp_Source arg <> "";
}.

Lemma lockTableOccupancy_run t org loc s o :
  live_table (st_db s) t = true -> db_occupancy (st_db s) !! t = Some o ->
  occ_in_scope t org loc o = true -> lockTableOccupancy t org loc e s = (Ok o, tick s).
Proof.
  intros Hl Ho Hs. unfold lockTableOccupancy. apply map_err_run. unfold LockTableOccupancy.
  erewrite exec_run; [|done|rewrite Hl; unfold select_one; rewrite Ho, Hs; reflexivity].
  by destruct s.
Qed.

Lemma GetTableState_run t org loc s tb o :
  db_tables (st_db s) !! t = Some tb -> db_occupancy (st_db s) !! t = Some o ->
  tbl_OrganisationID tb = org -> tbl_LocationID tb = loc -> tbl_IsActive tb = true ->
  tbl_DeletedAt tb = None -> GetTableState t org loc e s = (Ok (tb, o), tick s).
Proof.
  intros Ht Ho <- <- Ha Hd. unfold GetTableState.
  erewrite exec_run; [|done|rewrite Ht, Ho, !N.eqb_refl, Ha, Hd; reflexivity]. by destruct s.
Qed.

Lemma occupyTableInTx_run arg s tb o :
  floor_inv (st_db s) -> occupy_ready (st_db s) arg tb o ->
  (forall t, (st_tick s <= t)%nat -> db_sessions (st_db s) !! env_uuid e t = None) ->
  exists res s', occupyTableInTx arg e s = (Ok res, s') /\ st_tick s' = (4 + st_tick s)%nat.
Proof.
  intros Hi [Htb [Htorg Htloc] [Hact Hdel] Ho [Hoorg Holoc] Hfree [Hv Hmax] Hps Hsrc] Hfresh.
  destruct (fi_occupancy _ Hi _ _ Ho) as (Hid & Hck & _).
  pose proof (free_no_session _ Hck Hfree) as Hnone.
  assert (occ_in_scope (ocp_TableID arg) (ocp_OrganisationID arg) (ocp_LocationID arg) o = true)
  as Hscope by (unfold occ_in_scope; by rewrite Hid, Hoorg, Holoc, !N.eqb_refl).
  unfold occupyTableInTx.
  erewrite bind_run; [|apply lockTableOccupancy_run; [|exact Ho|exact Hscope]];
  [|unfold live_table; by rewrite Htb, Hact, Hdel].
  unfold guard_err. rewrite Hfree. simpl String.eqb. erewrite bind_run by done.
  rewrite Hv, Z.eqb_refl. erewrite bind_run by done.
  set (x := new_session (ocp_OrganisationID arg) (ocp_LocationID arg) (ocp_TableID arg)
        (ocp_PartySize arg) (nullableText (ocp_ActorRef arg)) (ocp_Source arg)
        (st_now s) (env_uuid e (S (st_tick s)))).
  assert (db_sessions (st_db s) !! ses_ID x = None) as Hxf by (apply Hfresh; lia).
  assert (session_ok (st_db s) (ses_ID x) x = Ok tt) as Hxok.
  { apply insert_session_ok; try done.
  - unfold session_checks. simpl. rewrite Hps. unfold not_empty.
  destruct (String.eqb_spec (ocp_Source arg) ""); done.
  - simpl. rewrite Ho. by intros ? [= <-].
  - unfold table_fk. simpl. by rewrite Htb, Htorg, Htloc, !N.eqb_refl. }
  erewrite bind_run; [|apply map_err_run; unfold CreateTableSession; apply exec_run;
  [done|]; apply insert_row_run; [exact Hxf|exact Hxok]].
  assert (in_int32 (occ_Version o + 1) = true) as H32.
  { unfold occupancy_checks in Hck. bool_facts. unfold in_int32, int32_min. lia. }
  set (o' := {| occ_TableID := occ_TableID o; occ_OrganisationID := occ_OrganisationID o;
  occ_LocationID := occ_LocationID o; occ_Status := "occupied";
  occ_CurrentSessionID := Some (ses_ID x); occ_Version := occ_Version o + 1;
  occ_UpdatedBy := nullableText (ocp_ActorRef arg); occ_UpdatedAt := st_now s;
  occ_CreatedAt := occ_CreatedAt o |}).
  assert (occupancy_checks o' = true) as Hck'.
  { unfold occupancy_checks in *. bool_facts. simpl. rewrite andb_true_r. lia. }
  erewrite bind_run; [|apply map_err_run; unfold MarkTableOccupied; apply exec_run;
  [done|]; eapply update_row_run with (r' := o')]; [|exact Ho|..].
  2: { simpl. by rewrite Hscope, Hfree, Hv, Z.eqb_refl. }
  2: { unfold occupied_row, int4_succ, res_bind. by rewrite H32. }
  2: { eapply occupied_row_ok; done. }
  erewrite bind_run; [|apply map_err_run, GetTableState_run]; [|simpl; try done..].
  { eexists _, _. split; [reflexivity|]. reflexivity. }
  by rewrite lookup_insert_eq.
Qed.

(** ** The event and its records *)

Record event_ready (d : Db) (ev : operationalEvent) : Prop := {
er_org : is_some (db_organisations d !! ope_OrganisationID ev) = true;
er_loc : location_fk d (ope_OrganisationID ev) (ope_LocationID ev) = true;
er_device : opt_all (fun x => is_some (db_devices d !! x)) (ope_DeviceID ev) = true;
er_type : ope_EventType ev <> "" /\ ope_EntityType ev <> "" /\ event_topic ev <> "";
er_version : 1 <= ope_EntityVersion ev;
er_dests : forall dst, dst ∈ event_destinations ev -> dst <> "";
}.

Lemma not_empty_true s : s <> "" -> not_empty s = true.
Proof. unfold not_empty. by destruct (String.eqb_spec s ""). Qed.

Lemma outbox_records_run org loc eid topic payload dests s :
  topic <> "" -> json_is_object payload = true -> (forall dst, dst ∈ dests -> dst <> "") ->
  is_some (db_organisations (st_db s) !! org) = true -> location_fk (st_db s) org loc = true ->
  is_some (db_events (st_db s) !! eid) = true ->
  (forall t1 t2, env_uuid e t1 = env_uuid e t2 -> t1 = t2) ->
  (forall t, (st_tick s <= t)%nat -> db_outbox (st_db s) !! env_uuid e t = None) ->
  exists s', for_each dests (fun dst => insertOutboxRecord org loc eid topic dst payload) e s
         = (Ok tt, s').
Proof.
  intros Htp Hobj. revert s. induction dests as [|dst dests IH]; intros s Hd Horg Hloc Hev Hinj Hfr.
  { by eexists. }
  simpl. set (row := new_outbox_record org loc eid topic dst payload (st_now s) (env_uuid e (st_tick s))).
  assert (outbox_ok (st_db s) (obx_ID row) row = Ok tt) as Hok.
  { unfold outbox_ok, res_bind. rewrite check_run.
  - simpl. rewrite Horg, Hloc, Hev. done.
  - unfold outbox_checks. simpl. rewrite not_empty_true, Hobj, not_empty_true; [done| |done].
  apply Hd. left. }
  erewrite bind_run; [|unfold insertOutboxRecord; erewrite bind_run; [reflexivity|];
  apply map_err_run, exec_run; [done|]; apply insert_row_run; [apply Hfr; lia|exact Hok]].
  apply IH; simpl; try done.
  - intros dst' Hin. apply Hd. by right.
  - intros t Ht. rewrite lookup_insert_ne; [apply Hfr; lia|].
  intros Heq. apply Hinj in Heq. lia.
Qed.

Lemma writeOperationalEvent_run ev s :
  event_ready (st_db s) ev ->
  (forall t1 t2, env_uuid e t1 = env_uuid e t2 -> t1 = t2) ->
  (forall t, (st_tick s <= t)%nat -> db_events (st_db s) !! env_uuid e t = None) ->
  (forall t, (st_tick s <= t)%nat -> db_outbox (st_db s) !! env_uuid e t = None) ->
  exists s', writeOperationalEvent ev e s = (Ok tt, s').
Proof.
  intros [Horg Hloc Hdev (Hty & Het & Htp) Hv Hds] Hinj Hfe Hfo. unfold writeOperationalEvent.
  erewrite bind_run by reflexivity. erewrite bind_run by reflexivity.
  erewrite bind_run by reflexivity. cbv zeta.
  set (row := event_row _ _ _ _). set (pl := Envelope_to_json _) in *.
  assert (event_ok (st_db s) (oev_ID row) row = Ok tt) as Hok.
  { unfold event_ok, res_bind. rewrite check_run.
  - simpl. by rewrite Horg, Hloc, Hdev.
  - unfold event_checks. simpl. rewrite !not_empty_true, MarshalData_object; try done.
  + simpl. rewrite !andb_true_r. apply Z.leb_le in Hv. by rewrite Hv.
  + unfold event_actor, is_empty. by destruct (String.eqb_spec (ope_ActorRef ev) ""). }
  erewrite bind_run; [|apply map_err_run, exec_run; [done|]; apply insert_row_run;
  [apply Hfe; simpl; lia|exact Hok]].
  apply outbox_records_run; simpl; try done.
  - by rewrite lookup_insert_eq.
  - intros t Ht. apply Hfo. lia.
Qed.

(** ** The command runner *)

(** A response the idempotency table accepts. *)
Record recordable (d : Db) (org loc : uuid) (meta : CommandMeta) (status : Z)
(body : option json) : Prop := {
rc_type : cmd_Type meta <> "";
rc_hash : (32 <= length (cmd_PayloadHash meta))%nat;
rc_status : 100 <= status <= 599;
rc_body : json_is_object (default (JObj []) body) = true;
rc_retention : cmd_Retention meta <= 0 \/ 1000000000 <= cmd_Retention meta;
rc_org : is_some (db_organisations d !! org) = true;
rc_loc : location_fk d org loc = true;
rc_new : db_idempotency d !! (org, cmd_ID meta) = None;
}.

Lemma insertIdempotencyRecord_run org loc actor meta status body s :
  recordable (st_db s) org loc meta status (Some body) ->
  exists s', insertIdempotencyRecord org loc actor meta status body e s = (Ok tt, s').
Proof.
  intros [Hty Hh Hst Hb Hr Horg Hloc Hnew]. eexists. unfold insertIdempotencyRecord.
  erewrite bind_run; [reflexivity|]. apply map_err_run, exec_run; [done|].
  apply insert_row_run; [exact Hnew|]. unfold idempotency_ok, res_bind. rewrite check_run.
  - simpl. rewrite Horg, Hloc. done.
  - unfold idempotency_checks. simpl. rewrite not_empty_true by done. simpl in Hb. rewrite Hb.
  set (rt := if cmd_Retention meta <=? 0 then _ else _).
  assert (1 <= Z.quot rt 1000000000) as Hq.
  { assert (1000000000 <= rt) as Hrt.
  { subst rt. unfold DefaultIdempotencyRetention. case_match; bool_facts; [lia|].
  apply Z.leb_gt in H. lia. }
  apply Z.quot_le_lower_bound; lia. }
  repeat (apply andb_true_intro; split); try apply Z.leb_le; try apply Z.ltb_lt; lia.
Qed.

Section Command.
Context {T : Type} (org loc : uuid) (actor : string) (meta : CommandMeta).
Context (execute : Go T) (after : T -> Go unit).
Context (encode : option (T -> result error (Z * option json))).

(** Where the body starts: after begin, context and, for a command with an
id, the look-up. *)
Definition body_start (d : Db) : St :=
  let s := tick (begun e (start d)) in
  if (cmd_ID meta =? uuid_Nil)%N then s else tick s.

Lemma body_reached d B (k : option CommandReplay -> Go B) :
    (cmd_ID meta <> uuid_Nil -> db_idempotency d !! (org, cmd_ID meta) = None) ->
    ((if (cmd_ID meta =? uuid_Nil)%N then mret None
  else or_rollback id (getIdempotencyReplay org meta)) ≫= k) e (tick (begun e (start d)))
    = k None e (body_start d).
Proof.
  intros Hid. unfold body_start. destruct (N.eqb_spec (cmd_ID meta) uuid_Nil) as [Heq|Hne].
  - by erewrite bind_run by done.
  - erewrite bind_run; [done|]. apply or_rollback_run, lookup_none; [done|]. by apply Hid.
Qed.

Lemma body_start_db d : st_db (body_start d) = d /\ st_saved (body_start d) = Some d.
Proof. unfold body_start. by case_match. Qed.

(** A body that refuses the request: its error is returned, nothing changes. *)
Lemma runTenantCommand_refuses d err s2 :
  InTx execute -> (cmd_ID meta <> uuid_Nil -> db_idempotency d !! (org, cmd_ID meta) = None) ->
  execute e (body_start d) = (Err err, s2) ->
  run (runTenantCommand org loc actor meta execute after encode) e d = (Err err, d).
Proof.
  intros Hin Hid Hex. unfold run, runTenantCommand.
  rewrite run_transaction, body_reached by done.
  pose proof (Hin _ _ _ _ Hex) as [Hs _]. rewrite (proj2 (body_start_db d)) in Hs.
  erewrite bind_run_Err; [|by eapply or_rollback_run_Err]. done.
Qed.

Lemma runTenantCommand_run d v s2 s3 status body :
  execute e (body_start d) = (Ok v, s2) -> after v e s2 = (Ok tt, s3) ->
  response encode v status body ->
  (cmd_ID meta <> uuid_Nil ->
 db_idempotency d !! (org, cmd_ID meta) = None /\
 recordable (st_db s3) org loc meta status (Some (default (JObj []) body))) ->
  exists rep d', run (runTenantCommand org loc actor meta execute after encode) e d
 = (Ok (Some v, rep), d') /\ rep_Replayed rep = false.
Proof.
    intros Hex Haf Henc Hid. unfold run, runTenantCommand. rewrite run_transaction by done.
    rewrite body_reached by (intros Hne; by destruct (Hid Hne)).
    erewrite bind_run; [|by apply or_rollback_run].
    erewrite bind_run; [|by apply or_rollback_run].
    assert (match encode with
    | None => mret (200, None)
    | Some enc => or_rollback (Wrap "encoding idempotency response") (lift (enc v))
    end e s3 = (Ok (status, body), s3)) as He.
    { unfold response in Henc. destruct encode as [enc|].
  - apply or_rollback_run. unfold lift. by rewrite Henc.
  - by destruct Henc as [-> ->]. }
    erewrite bind_run by exact He. cbv zeta. simpl fst. simpl snd.
    destruct (N.eqb_spec (cmd_ID meta) uuid_Nil) as [Heq|Hne].
    - erewrite bind_run by done. erewrite bind_run; [|by apply map_err_run, Commit_run].
  by do 2 eexists.
    - destruct (Hid Hne) as [_ Hrec].
  destruct (insertIdempotencyRecord_run _ _ actor _ _ _ _ Hrec) as (s4 & Hins).
  erewrite bind_run; [|erewrite bind_run; [reflexivity|by apply or_rollback_run]].
  erewrite bind_run; [|by apply map_err_run, Commit_run]. by do 2 eexists.
Qed.
End Command.
End Progress.
