(* ===== verification/Samples.v ===== *)
(** A small restaurant on which the theorems are tried: one organisation, one
    active location, one table, and environments in which no call fails. *)

From S2P Require Import Prelude Json Crypto Schema GoTx Store Queries Events Operations Guest Outbox TxFacts CommandFacts FloorSpec GuestFacts Commands History EventLog Idempotency.
#[local] Open Scope string_scope.
#[local] Open Scope Z_scope.
#[local] Open Scope list_scope.

(** The texts of errors that are not the code's own. *)
#[export] Instance sample_texts : ErrorTexts :=
  {| pg_text := fun _ => "connection failure"; decode_text := fun _ => "invalid json" |}.

Definition sample_org : Organisation :=
  {| org_ID := 1%N; org_Slug := "bistro"; org_Name := "Bistro"; org_Status := "active";
     org_LegacyRestaurantID := None; org_CreatedAt := 0; org_UpdatedAt := 0;
     org_OnboardedAt := None |}.

Definition sample_location : Location :=
  {| loc_ID := 2%N; loc_OrganisationID := 1%N; loc_Slug := "main"; loc_Name := "Main room";
     loc_Timezone := "Europe/London"; loc_Status := "active"; loc_LegacyRestaurantID := None;
     loc_CreatedAt := 0; loc_UpdatedAt := 0; loc_OperatingConfig := JObj [];
     loc_FeatureFlags := JObj [] |}.

Definition sample_table : Table :=
  {| tbl_ID := 3%N; tbl_OrganisationID := 1%N; tbl_LocationID := 2%N; tbl_FloorID := 4%N;
     tbl_ZoneID := 5%N; tbl_Label := "T1"; tbl_CapacityLabel := "4"; tbl_Shape := "circle";
     tbl_Geometry := JObj []; tbl_IsActive := true; tbl_DeletedAt := None; tbl_Version := 1;
     tbl_LegacyTableID := None; tbl_CreatedAt := 0; tbl_UpdatedAt := 0 |}.

Definition sample_occupancy : TableOccupancy :=
  {| occ_TableID := 3%N; occ_OrganisationID := 1%N; occ_LocationID := 2%N;
     occ_Status := "available"; occ_CurrentSessionID := None; occ_Version := 1;
     occ_UpdatedBy := None; occ_UpdatedAt := 0; occ_CreatedAt := 0 |}.

(** The floor and the zone the table stands in. *)
Definition sample_floor_row : Schema.Floor :=
  {| flr_ID := 4%N; flr_OrganisationID := 1%N; flr_LocationID := 2%N; flr_Slug := "ground";
     flr_Name := "Ground floor"; flr_SortOrder := 0; flr_Canvas := JObj [];
     flr_BackgroundAssetRef := None; flr_IsActive := true; flr_Version := 1; flr_CreatedAt := 0;
     flr_UpdatedAt := 0 |}.

Definition sample_zone : Zone :=
  {| zon_ID := 5%N; zon_OrganisationID := 1%N; zon_LocationID := 2%N; zon_FloorID := 4%N;
     zon_Name := "Window"; zon_SortOrder := 0; zon_IsActive := true; zon_Version := 1;
     zon_CreatedAt := 0; zon_UpdatedAt := 0 |}.

Definition sample_layout : LayoutDb :=
  {| ldb_floors := {[4%N := sample_floor_row]}; ldb_zones := {[5%N := sample_zone]};
     ldb_periods := ∅ |}.

Definition sample_db : Db :=
  {| db_organisations := {[1%N := sample_org]}; db_locations := {[2%N := sample_location]};
     db_tables := {[3%N := sample_table]}; db_occupancy := {[3%N := sample_occupancy]};
     db_sessions := ∅; db_assists := ∅; db_qr := ∅; db_idempotency := ∅; db_events := ∅;
     db_outbox := ∅; db_consumer_events := ∅; db_devices := ∅;
     db_identity := empty_identity; db_layout := sample_layout;
     db_integrations := empty_integrations; db_abuse := ∅; db_analytics := empty_analytics |}.

(** No call fails; identifiers start at [base], the clocks at [now]. *)
Definition calm (base : N) (now : Z) : Env :=
  {| env_clock := fun t => now + Z.of_nat t; env_pgclock := fun t => now + Z.of_nat t;
     env_uuid := fun t => (base + N.of_nat t)%N;
     env_rand := fun t i => (base + N.of_nat t + N.of_nat i)%N;
     env_fault := fun _ => None; env_traceparent := ""; env_tracestate := "" |}.

(** The commit of the transaction is applied but its answer is lost. *)
Definition lossy (base : N) (now : Z) (at_tick : nat) : Env :=
  {| env_clock := fun t => now + Z.of_nat t; env_pgclock := fun t => now + Z.of_nat t;
     env_uuid := fun t => (base + N.of_nat t)%N;
     env_rand := fun t i => (base + N.of_nat t + N.of_nat i)%N;
     env_fault := fun t => if Nat.eqb t at_tick
       then Some {| fault_error := ConnectionFailure; fault_applied := true |} else None;
     env_traceparent := ""; env_tracestate := "" |}.

Definition sample_meta (id : uuid) (type : string) : CommandMeta :=
  {| cmd_ID := id; cmd_Type := type; cmd_PayloadHash := repeat 7%N 32; cmd_DeviceID := None;
     cmd_Retention := 0 |}.

Definition sample_occupy (id : uuid) (version : Z) : OccupyTableParams :=
  {| ocp_OrganisationID := 1%N; ocp_LocationID := 2%N; ocp_TableID := 3%N;
     ocp_ExpectedVersion := version; ocp_PartySize := Some 2; ocp_ActorRef := "user:1";
     ocp_Source := "staff"; ocp_Command := sample_meta id "table.occupy" |}.

Definition sample_clear (id : uuid) (version : Z) : ClearTableParams :=
  {| clp_OrganisationID := 1%N; clp_LocationID := 2%N; clp_TableID := 3%N;
     clp_ExpectedVersion := version; clp_ActorRef := "user:1";
     clp_Command := sample_meta id "table.clear" |}.

Definition sample_request : RequestAssistParams :=
  {| rap_OrganisationID := 1%N; rap_LocationID := 2%N; rap_TableID := 3%N;
     rap_RequestedBy := "user:1"; rap_Source := "staff"; rap_Note := "" |}.

Definition sample_change (assist id : uuid) (version : Z) : ChangeAssistParams :=
  {| cap_OrganisationID := 1%N; cap_LocationID := 2%N; cap_AssistID := assist;
     cap_ExpectedVersion := version; cap_ActorRef := "user:1";
     cap_Command := sample_meta id "assist.change" |}.

(** The databases after the first commands of a service. *)
Definition after_command (c : Command) (e : Env) (d : Db) : Db := snd (run (run_command c) e d).

Definition occupied_db : Db :=
  after_command (COccupy (sample_occupy 50 1) None) (calm 100 1000000000) sample_db.
Definition cleared_db : Db :=
  after_command (CClear (sample_clear 51 2) None) (calm 200 2000000000) occupied_db.
Definition requested_db : Db :=
  after_command (CRequest sample_request) (calm 300 3000000000) occupied_db.

Lemma after_command_history c e d d0 : history d0 d -> history d0 (after_command c e d).
Proof.
  intros H. unfold after_command. destruct (run (run_command c) e d) as [r d'] eqn:Hr.
  by eapply history_run.
Qed.

Lemma sample_fresh : fresh_floor sample_db.
Proof.
  split_and!; [|intros t o Ho; simpl in Ho; by apply lookup_singleton_Some in Ho as [<- <-]|done|done].
  split; simpl; intros ?? H; [|by rewrite lookup_empty in H..].
  apply lookup_singleton_Some in H as [<- <-]. done.
Qed.

Lemma sample_floor_inv : floor_inv sample_db.
Proof. apply sample_fresh. Qed.

Lemma occupied_history : history sample_db occupied_db.
Proof. apply after_command_history, history_start. Qed.

Lemma cleared_history : history sample_db cleared_db.
Proof. apply after_command_history, occupied_history. Qed.

Example occupied_version :
  occ_Version <$> db_occupancy occupied_db !! 3%N = Some 2.
Proof. vm_compute. reflexivity. Qed.

Example cleared_version :
  (fun o => (occ_Version o, occ_Status o)) <$> db_occupancy cleared_db !! 3%N = Some (3, "available").
Proof. vm_compute. reflexivity. Qed.

Example requested_assists : size (db_assists requested_db) = 1%nat /\ size (db_outbox requested_db) = 6%nat.
Proof. vm_compute. done. Qed.

(** A capability for the sample table, and its token. *)
Definition sample_token : string := RawURLEncode (N.of_nat <$> seq 100 32).

Definition exported_db : Db :=
  after_command (CExportQR 1%N 2%N 3%N "T1" None) (calm 100 1000000000) sample_db.

Lemma exported_history : history sample_db exported_db.
Proof. apply after_command_history, history_start. Qed.

Lemma sample_qr_inv : qr_inv sample_db.
Proof. split; simpl; intros *; by rewrite lookup_empty. Qed.

Lemma exported_inv : floor_inv exported_db /\ qr_inv exported_db.
Proof.
  pose proof exported_history as H. split; [by apply (history_floor_inv sample_db); [apply sample_floor_inv|]|].
  apply (history_qr _ _ sample_floor_inv H), sample_qr_inv.
Qed.

Lemma sample_token_known :
  exists c prefix, db_qr exported_db !! 103%N = Some c /\
    TokenLookupParts sample_token = Ok (prefix, qr_TokenHash c).
Proof. vm_compute. do 2 eexists. split; reflexivity. Qed.
