(* ===== verification/FloorTheorems.v ===== *)
(** The main results on the operations service ([internal/domain/operations]):
    what its commands do, singly and over every history. *)

From S2P Require Import Prelude Json Crypto Schema GoTx Store Queries Events Operations Guest TxFacts CommandFacts FloorSpec GuestFacts Commands History EventLog Idempotency Progress Samples.
#[local] Open Scope string_scope.
#[local] Open Scope Z_scope.
#[local] Open Scope list_scope.

(** ** Helpers *)

(** A run that returned a fresh value ran its body and wrote its event. *)
Lemma run_event {T} org loc actor meta (execute : Go T) ev enc e d v rep d' :
  InTx execute ->
  run (runTenantCommand org loc actor meta execute (fun v => writeOperationalEvent (ev v)) enc) e d
    = (Ok (Some v, rep), d') ->
  exists s1 s2 eid time, st_db s1 = d /\ execute e s1 = (Ok v, s2) /\
    logged (ev v) (st_now s2) eid time (st_db s2) d'.
Proof.
  intros Hin H. unfold run in H.
  destruct (runTenantCommand _ _ _ _ _ _ _ e (start d)) as [r1 s1] eqn:Hr. injection H as -> <-.
  apply runTenantCommand_inv in Hr as
    [(err & ? & _)|[(rep1 & _ & _ & _ & [?|(err & ?)])|(v1 & rep1 & Hrun & [?|[(err & ?) _]])]];
    [done|done|done| |done|apply _|apply _].
  simplify_eq. apply executed_event in Hrun as (s2 & s3 & eid & time & ? & _ & ? & ?). eauto 10.
Qed.

Lemma executed_none {T} org loc actor meta (execute : Go T) after enc e d r d' :
  InTx execute -> (forall v, InTx (after v)) ->
  (forall s1 v s2, st_db s1 = d -> execute e s1 = (Ok v, s2) -> False) ->
  run (runTenantCommand org loc actor meta execute after enc) e d = (r, d') ->
  d' = d /\ (forall v rep, r <> Ok (Some v, rep)).
Proof.
  intros Hin Haf Hno H. unfold run in H.
  destruct (runTenantCommand _ _ _ _ _ _ _ e (start d)) as [r1 s1] eqn:Hr. injection H as <- <-.
  apply runTenantCommand_inv in Hr as
    [(err & -> & ->)|[(rep1 & _ & _ & -> & [->|(err & ->)])|(v1 & rep1 & Hrun & _)]];
    [done|done|done| |done|done].
  exfalso. apply executed_frame in Hrun as (s2 & s3 & s4 & Hd & _ & He & _). by eapply Hno.
Qed.

Lemma history_trans d0 d1 d2 : history d0 d1 -> history d1 d2 -> history d0 d2.
Proof. intros H. induction 1; [done|]. by eapply history_run. Qed.

(** ** Histories *)

(** C1. The operations service refines the floor specification: every run of
    every command, under every pattern of failures, either leaves the abstract
    floor unchanged or makes exactly one step of the specification (occupy a
    free table with a new session, clear an occupied one, open an assist
    request, or move one along its life cycle). *)
Theorem command_refines_floor c e d r d' (Hinv : floor_inv d)
    (Hrun : run (run_command c) e d = (r, d')) :
  floor_of d' = floor_of d \/ floor_step (floor_of d) (floor_of d').
Proof. apply run_outcome in Hrun as [Hc _]; [|done]. by apply change_refines. Qed.

Lemma command_refines_floor_witness :
  floor_of occupied_db = floor_of sample_db \/ floor_step (floor_of sample_db) (floor_of occupied_db).
Proof.
  eapply (command_refines_floor (COccupy (sample_occupy 50 1) None) (calm 100 1000000000)).
  - apply sample_floor_inv.
  - apply surjective_pairing.
Defined.

(** After every history of commands from a coherent floor, a table's
    occupancy row points at a session exactly when it is occupied, that session
    is of this table and has not ended, every session that has not ended is the
    one its table points at, and so no table has two active sessions. *)
Theorem history_keeps_floor d0 d (Hinv : floor_inv d0) (Hist : history d0 d) :
  floor_inv d /\
  forall s1 s2 x1 x2, db_sessions d !! s1 = Some x1 -> db_sessions d !! s2 = Some x2 ->
    ses_EndedAt x1 = None -> ses_EndedAt x2 = None -> ses_TableID x1 = ses_TableID x2 -> s1 = s2.
Proof.
  pose proof (history_floor_inv _ _ Hinv Hist) as Hd. split; [done|].
  intros *. by apply one_active_session.
Qed.

Lemma history_keeps_floor_witness : floor_inv cleared_db.
Proof.
  apply (history_keeps_floor sample_db cleared_db); [apply sample_floor_inv|apply cleared_history].
Defined.

(** C22. Commands are atomic: a run that returns an error has left the database
    as it was, unless a commit was applied by the server and reported as failed,
    and then it made a whole change (the rows together with their event), never
    a part of one. *)
Theorem command_atomic c e d err d' (Hinv : floor_inv d)
    (Hrun : run (run_command c) e d = (Err err, d')) :
  d' = d \/ lost_commit e /\ change d d'.
Proof.
  apply run_outcome in Hrun as [Hc He]; [|done]. destruct (He err eq_refl); auto.
Qed.

Lemma command_atomic_witness :
  let d' := after_command (CClear (sample_clear 51 1) None) (calm 200 2000000000) sample_db in
  d' = sample_db \/ lost_commit (calm 200 2000000000) /\ change sample_db d'.
Proof.
  eapply (command_atomic (CClear (sample_clear 51 1) None) (calm 200 2000000000) sample_db
            ErrAlreadyAvailable).
  - apply sample_floor_inv.
  - vm_compute. reflexivity.
Defined.

(** C23. The event log is gap free: after every history from a fresh floor, the
    events of a table carry the versions 2, 3, ... up to its current version,
    each exactly once, those of an assist request 1, 2, ..., and there is no
    event about anything else. *)
Theorem event_log_gap_free d0 d (Hfresh : fresh_floor d0) (Hist : history d0 d) :
  gap_free "table" 2 (table_versions d) (db_events d) /\
  gap_free "assist" 1 (assist_versions d) (db_events d).
Proof. apply (history_log_inv d0 d Hfresh Hist). Qed.

Lemma event_log_gap_free_witness : gap_free "table" 2 (table_versions cleared_db) (db_events cleared_db).
Proof.
  apply (event_log_gap_free sample_db cleared_db); [apply sample_fresh|apply cleared_history].
Defined.

(** C24. The outbox is transactional: after every history, each logged event has
    an outbox record for the realtime, analytics and audit consumers, whose
    payload decodes to an envelope with the event's id, type, entity, version,
    tenant, command and data. *)
Theorem transactional_outbox d0 d eid ev (Hinv : floor_inv d0) (Hout : outbox_inv d0)
    (Hist : history d0 d) (Hev : db_events d !! eid = Some ev) :
  payload_describes eid ev /\
  forall dst, dst ∈ ["realtime.operations"; "analytics.operations"; "audit.operations"] ->
    has_record d eid ev dst.
Proof. by destruct (history_outbox_inv _ _ Hinv Hout Hist _ _ Hev) as (_ & ? & ?). Qed.

Lemma transactional_outbox_witness :
  exists eid ev, db_events occupied_db !! eid = Some ev /\ has_record occupied_db eid ev "audit.operations".
Proof.
  assert (exists ev, db_events occupied_db !! 107%N = Some ev) as (ev & Hev).
  { vm_compute. by eexists. }
  exists 107%N, ev. split; [exact Hev|].
  apply (transactional_outbox sample_db occupied_db 107%N ev sample_floor_inv);
    [|apply occupied_history|exact Hev|].
  - intros k x Hk. unfold sample_db in Hk. simpl in Hk. by rewrite lookup_empty in Hk.
  - right. right. left.
Defined.

(** ** Commands with an id

    The commands that keep a record of their answer under an id: those of the staff,
    with the id of their [CommandMeta], and those of guests, with their idempotency
    key.  A record belongs to an organisation; a guest's is that of the table the
    token opens. *)

Inductive IdCommand :=
| IdOccupy (arg : OccupyTableParams) (enc : option (encoder TableResult))
| IdClear (arg : ClearTableParams) (enc : option (encoder TableResult))
| IdAcknowledge (arg : ChangeAssistParams) (enc : option (encoder AssistRequest))
| IdResolve (arg : ChangeAssistParams) (enc : option (encoder AssistRequest))
| IdCancel (arg : ChangeAssistParams) (enc : option (encoder AssistRequest))
| IdGuestRequest (arg : GuestRequestParams) (enc : encoder AssistRequest)
| IdGuestCancel (arg : GuestCancelParams) (enc : encoder AssistRequest).

Definition answered {A} (m : Go (A * CommandReplay)) : Go CommandReplay := r ← m; mret (snd r).

(** The command, and what it is answered. *)
Definition send (c : IdCommand) : Go CommandReplay :=
  match c with
  | IdOccupy arg enc => answered (OccupyTableCommand arg enc)
  | IdClear arg enc => answered (ClearTableCommand arg enc)
  | IdAcknowledge arg enc => answered (AcknowledgeAssistCommand arg enc)
  | IdResolve arg enc => answered (ResolveAssistCommand arg enc)
  | IdCancel arg enc => answered (CancelAssistCommand arg enc)
  | IdGuestRequest arg enc => answered (CreateGuestRequest arg enc)
  | IdGuestCancel arg enc => answered (CancelGuestRequest arg enc)
  end.

Definition as_command (c : IdCommand) : Command :=
  match c with
  | IdOccupy arg enc => COccupy arg enc
  | IdClear arg enc => CClear arg enc
  | IdAcknowledge arg enc => CAcknowledge arg enc
  | IdResolve arg enc => CResolve arg enc
  | IdCancel arg enc => CCancel arg enc
  | IdGuestRequest arg enc => CGuestRequest arg enc
  | IdGuestCancel arg enc => CGuestCancel arg enc
  end.

Definition meta_of (c : IdCommand) : CommandMeta :=
  match c with
  | IdOccupy arg _ => ocp_Command arg
  | IdClear arg _ => clp_Command arg
  | IdAcknowledge arg _ | IdResolve arg _ | IdCancel arg _ => cap_Command arg
  | IdGuestRequest arg _ => guest_meta (grp_IdempotencyKey arg) "guest.request" (grp_PayloadHash arg)
  | IdGuestCancel arg _ => guest_meta (gcp_IdempotencyKey arg) "guest.cancel" (gcp_PayloadHash arg)
  end.

(** Who sends it: a member of an organisation, or the bearer of a token. *)
Inductive Sender := Staff (org : uuid) | Bearer (token : string).

Definition sender (c : IdCommand) : Sender :=
  match c with
  | IdOccupy arg _ => Staff (ocp_OrganisationID arg)
  | IdClear arg _ => Staff (clp_OrganisationID arg)
  | IdAcknowledge arg _ | IdResolve arg _ | IdCancel arg _ => Staff (cap_OrganisationID arg)
  | IdGuestRequest arg _ => Bearer (grp_Token arg)
  | IdGuestCancel arg _ => Bearer (gcp_Token arg)
  end.

Definition acts_in (d : Db) (who : Sender) (org : uuid) : Prop :=
  match who with
  | Staff o => org = o
  | Bearer token => exists now cap, resolves d now token cap /\ org = qr_OrganisationID cap
  end.

Lemma answered_inv {A} (m : Go (A * CommandReplay)) e s r s' :
  answered m e s = (r, s') -> exists r0, m e s = (r0, s') /\
    r = match r0 with Ok x => Ok (snd x) | Err err => Err err end.
Proof.
  unfold answered, mbind, Go_bind. destruct (m e s) as [[x|err] s1]; intros [= <- <-]; eauto.
Qed.

(** A command with an id is one of the history. *)
Lemma send_history c e d0 d r d' : history d0 d -> run (send c) e d = (r, d') -> history d0 d'.
Proof.
  intros H (s' & Hs & <-)%run_inv.
  apply (history_run _ _ _ (as_command c) e (match r with Ok _ => Ok tt | Err err => Err err end) H).
  unfold run. destruct c; simpl in *; apply answered_inv in Hs as (r0 & H0 & ->);
    unfold mbind, Go_bind; rewrite H0; by destruct r0.
Qed.

(** What runs a command in its tenant's transaction. *)
Definition runs_as (c : IdCommand) (org : uuid) (e : Env) (s : St) (r : result error CommandReplay) (s' : St) : Prop :=
  exists (T : Type) loc actor (execute : Go T) after enc r0,
    InTx execute /\ (forall v, InTx (after v)) /\
    runTenantCommand org loc actor (meta_of c) execute after enc e s = (r0, s') /\
    r = match r0 with Ok x => Ok (snd x) | Err err => Err err end.

Lemma guest_runs {A} token (k : TableQrCapability -> Go A) e s r s' :
  (resolveQRCapability token ≫= k) e s = (r, s') ->
  (exists err, r = Err err /\ st_db s' = st_db s) \/
  exists cap s1, acts_in (st_db s) (Bearer token) (qr_OrganisationID cap) /\ st_db s1 = st_db s /\
    k cap e s1 = (r, s').
Proof.
  unfold mbind, Go_bind. destruct (resolveQRCapability token e s) as [[c|err] s1] eqn:Hr;
    apply resolveQRCapability_inv in Hr as [Hd Hc].
  - intros H. right. destruct Hc as (t & Hc). exists c, s1. split_and!; [by do 2 eexists|done|exact H].
  - intros [= <- <-]. left. eauto.
Qed.

Lemma send_inv c e s r s' :
  send c e s = (r, s') ->
  (exists err, r = Err err /\ st_db s' = st_db s) \/
  exists org s1, acts_in (st_db s) (sender c) org /\ st_db s1 = st_db s /\ runs_as c org e s1 r s'.
Proof.
  destruct c; simpl; intros (r0 & H & ->)%answered_inv.
  1-5: (right; eexists _, s; split; [reflexivity|]; split; [done|]; do 7 eexists;
        exact (conj _ (conj _ (conj H eq_refl)))).
  - unfold CreateGuestRequest, guard_err in H. destruct (negb _);
      [injection H as <- <-; left; eauto|]. erewrite bind_run in H by done.
    apply guest_runs in H as [(err & -> & Hd)|(cap & s1 & Ha & Hd & H)]; [left; eauto|right].
    rewrite runGuestCommand_eq in H. exists (qr_OrganisationID cap), s1. split_and!; [done..|].
    do 7 eexists. refine (conj _ (conj _ (conj H eq_refl))).
    intros v. destruct (negb _); apply _.
  - apply guest_runs in H as [(err & -> & Hd)|(cap & s1 & Ha & Hd & H)]; [left; eauto|right].
    cbv beta zeta in H. rewrite runGuestCommand_eq in H. exists (qr_OrganisationID cap), s1. split_and!; [done..|].
    do 7 eexists. exact (conj _ (conj _ (conj H eq_refl))).
Qed.

(** A token opens a table of the same organisation for good. *)
Lemma acts_in_later d d' who org org' :
  floor_inv d -> qr_inv d -> history d d' -> acts_in d who org -> acts_in d' who org' -> org' = org.
Proof.
  intros Hi Hq Hh. destruct who as [o|token]; simpl; [congruence|].
  intros (n1 & c1 & (p1 & Hp1 & _ & (k1 & Hk1) & _) & ->) (n2 & c2 & (p2 & Hp2 & _ & (k2 & Hk2) & _) & ->).
  rewrite Hp1 in Hp2. injection Hp2 as _ Hh2.
  destruct (history_qr _ _ Hi Hh) as [Hinv Hext]. destruct (Hext _ _ Hk1) as (c3 & Hk3 & (_ & Ho & _ & _ & Hh3 & _)).
  assert (k2 = k1) as -> by (apply (proj2 (Hinv Hq)) with c2 c3; congruence). congruence.
Qed.

(** Where the record of its id stands, a command changes nothing. *)
Lemma runs_recorded c org e s r s' rec :
  runs_as c org e s r s' -> cmd_ID (meta_of c) <> uuid_Nil ->
  db_idempotency (st_db s) !! (org, cmd_ID (meta_of c)) = Some rec ->
  st_db s' = st_db s /\ forall rep, r = Ok rep -> same_request (meta_of c) rec = true /\ rep = replay_of rec.
Proof.
  intros (T & loc & act & ex & af & enc & r0 & Hi1 & Hi2 & H & ->) Hid Hrec.
  apply recorded_no_effect with (rec := rec) in H as [-> Hr]; [|done..]. split; [done|]. intros rep Hrep.
  destruct Hr as [[-> Hs]|(err & ->)]; [|done]. by injection Hrep.
Qed.

Lemma staff_answers c org e d rec :
  fault_free e -> sender c = Staff org -> cmd_ID (meta_of c) <> uuid_Nil ->
  db_idempotency d !! (org, cmd_ID (meta_of c)) = Some rec -> same_request (meta_of c) rec = true ->
  run (send c) e d = (Ok (replay_of rec), d).
Proof.
  intros Hff Hwho Hid Hrec Hreq.
  enough (forall (T : Type) loc act (ex : Go T) af enc,
    run (answered (runTenantCommand org loc act (meta_of c) ex af enc)) e d = (Ok (replay_of rec), d)) as H.
  { destruct c; simpl in Hwho; try discriminate Hwho; injection Hwho as <-; apply H. }
  intros T loc act ex af enc. pose proof (recorded_run e Hff org loc act (meta_of c) ex af enc d rec Hid Hrec) as H.
  rewrite Hreq in H. apply run_inv in H as (s' & H & <-). unfold run, answered. by rewrite (bind_run _ _ _ _ _ _ H).
Qed.

(** ** Retries *)

(** C20. A command with an id takes effect at most once, whichever it is: occupying or
    clearing a table, acknowledging, resolving or cancelling an assist request, a
    guest's request or a guest's cancellation.  After a first attempt, whatever
    happened to it, and any history in between, another command of the same sender
    with the same id - a retry, or another use of the id - changes nothing, unless the
    first attempt changed nothing and was answered an error.  If it is answered at
    all it is the same request, and the answer is the status and body which the first
    attempt gave or would have given; and for the staff, when no call fails, a retry
    of the same request is answered. *)
Theorem retry_at_most_once c1 c2 e1 d r1 d1 d2 e2 r2 d3
    (Hinv : floor_inv d) (Hqr : qr_inv d) (Hid : cmd_ID (meta_of c1) <> uuid_Nil)
    (Hwho : sender c2 = sender c1) (Hsame : cmd_ID (meta_of c2) = cmd_ID (meta_of c1))
    (H1 : run (send c1) e1 d = (r1, d1)) (Hist : history d1 d2)
    (H2 : run (send c2) e2 d2 = (r2, d3)) :
  d1 = d /\ (exists err, r1 = Err err) \/
  d3 = d2 /\ exists rec,
    (forall rep, r1 = Ok rep ->
       rep_Status rep = idr_ResponseStatus rec /\ rep_Body rep = Some (idr_ResponseBody rec)) /\
    (forall rep, r2 = Ok rep -> same_request (meta_of c2) rec = true /\ rep = replay_of rec) /\
    (meta_of c2 = meta_of c1 -> (exists org, sender c2 = Staff org) -> fault_free e2 ->
       r2 = Ok (replay_of rec)).
Proof.
  pose proof (send_history _ _ _ _ _ _ (history_start d) H1) as Hh1.
  assert (history d d2) as Hh by (by eapply history_trans).
  apply run_inv in H1 as (s1 & H1 & <-). apply send_inv in H1 as
    [(err & -> & Hd)|(org & s0 & Ha & Hd0 & T & loc & act & ex & af & enc & r0 & Hi1 & Hi2 & H1 & ->)];
    [left; eauto|]. cbn [st_db start] in *.
  apply first_attempt in H1 as [(err & -> & Hd)|(rec & Hrec & Hreq & Hresp)]; [left; rewrite Hd; eauto| |done..].
  right. eapply lookup_weaken in Hrec; [|eapply history_idempotency; [|exact Hist]; by eapply history_floor_inv].
  rewrite <- Hsame in Hid, Hrec.
  assert (d3 = d2 /\ forall rep, r2 = Ok rep -> same_request (meta_of c2) rec = true /\ rep = replay_of rec)
    as [Hd3 Hr2].
  { apply run_inv in H2 as (s2 & H2 & <-). apply send_inv in H2 as
      [(err & -> & Hd)|(org' & s3 & Ha' & Hd3 & H2)]; [done|]. cbn [st_db start] in *.
    rewrite Hwho in Ha'. assert (org' = org) as -> by by eapply (acts_in_later d d2).
    rewrite <- Hd3 in Hrec. rewrite <- Hd3. by apply (runs_recorded c2 org e2 s3 r2 s2). }
  split; [done|]. exists rec. split_and!; [|done|].
  - destruct r0 as [[]|]; [|done]. intros rep [= <-]. by eapply Hresp.
  - intros Hm (o & Ho) Hff. rewrite <- Hwho, Ho in Ha. simpl in Ha. subst o.
    rewrite (staff_answers c2 org e2 d2 rec) in H2; [by injection H2|done..|by rewrite Hm].
Qed.

(** The first attempt's commit is applied but its answer is lost; the table is
    cleared and occupied by others before the retry. *)
Lemma retry_at_most_once_witness :
  let c := IdOccupy (sample_occupy 50 1) None in
  let d1 := snd (run (send c) (lossy 100 1000000000 14) sample_db) in
  let d2 := after_command (CClear (sample_clear 51 2) None) (calm 200 2000000000) d1 in
  let r3 := run (send c) (calm 300 3000000000) d2 in
  occ_Version <$> db_occupancy d1 !! 3%N = Some 2 /\ (d1 = sample_db \/ snd r3 = d2).
Proof.
  intros c d1 d2 r3. split; [vm_compute; reflexivity|].
  destruct (retry_at_most_once c c (lossy 100 1000000000 14) sample_db
    (fst (run (send c) (lossy 100 1000000000 14) sample_db)) d1 d2
    (calm 300 3000000000) (fst r3) (snd r3)) as [[? _]|[? _]]; [..|by left|by right].
  - apply sample_floor_inv.
  - apply sample_qr_inv.
  - done.
  - done.
  - done.
  - apply surjective_pairing.
  - apply after_command_history, history_start.
  - apply surjective_pairing.
Defined.

(** Reusing a command id for a different command type or payload is refused
    with [ErrIdempotencyConflict] and changes nothing. *)
Theorem idempotency_conflict arg enc e d rec (Hff : fault_free e)
    (Hid : cmd_ID (clp_Command arg) <> uuid_Nil)
    (Hrec : db_idempotency d !! (clp_OrganisationID arg, cmd_ID (clp_Command arg)) = Some rec)
    (Hdiff : idr_CommandType rec <> cmd_Type (clp_Command arg) \/
             idr_PayloadHash rec <> cmd_PayloadHash (clp_Command arg)) :
  run (ClearTableCommand arg enc) e d = (Err ErrIdempotencyConflict, d).
Proof.
  unfold ClearTableCommand. rewrite (recorded_run e Hff _ _ _ _ _ _ _ _ rec) by done.
  unfold same_request. destruct (String.eqb_spec (idr_CommandType rec) (cmd_Type (clp_Command arg)));
    [|done]. rewrite bool_decide_false; [done|]. naive_solver.
Qed.

Lemma idempotency_conflict_witness :
  run (ClearTableCommand (sample_clear 50 2) None) (calm 200 2000000000) occupied_db
  = (Err ErrIdempotencyConflict, occupied_db).
Proof.
  assert (exists rec, db_idempotency occupied_db !! (1%N, 50%N) = Some rec /\
            idr_CommandType rec = "table.occupy") as (rec & Hrec & Hty).
  { vm_compute. by eexists. }
  revert Hrec. generalize occupied_db. intros d Hrec.
  apply (idempotency_conflict _ _ _ _ rec); [done|done|exact Hrec|left; by rewrite Hty].
Defined.

(** ** Tables *)

(** The rows that have a version, and the version of a row. *)
Inductive Versioned := TheTable (id : uuid) | TheAssist (id : uuid).

Definition version_at (d : Db) (x : Versioned) : option Z :=
  match x with
  | TheTable id => occ_Version <$> db_occupancy d !! id
  | TheAssist id => ast_Version <$> db_assists d !! id
  end.

(** The row a command of the staff changes, with the version it expects. *)
Definition expects (c : IdCommand) : option (Versioned * Z) :=
  match c with
  | IdOccupy arg _ => Some (TheTable (ocp_TableID arg), ocp_ExpectedVersion arg)
  | IdClear arg _ => Some (TheTable (clp_TableID arg), clp_ExpectedVersion arg)
  | IdAcknowledge arg _ | IdResolve arg _ | IdCancel arg _ =>
      Some (TheAssist (cap_AssistID arg), cap_ExpectedVersion arg)
  | IdGuestRequest _ _ | IdGuestCancel _ _ => None
  end.

(** A command changed nothing, and is answered a replay or an error; or its body ran. *)
Lemma ran {T} org loc actor meta (execute : Go T) ev enc e d r d' :
  InTx execute ->
  run (answered (runTenantCommand org loc actor meta execute (fun v => writeOperationalEvent (ev v)) enc)) e d
    = (r, d') ->
  d' = d /\ (forall rep, r = Ok rep -> rep_Replayed rep = true) \/
  exists s1 v s2, st_db s1 = d /\ execute e s1 = (Ok v, s2) /\ same_floor (st_db s2) d'.
Proof.
  intros Hin (s' & (r0 & H & ->)%answered_inv & <-)%run_inv. apply runTenantCommand_inv in H as
    [(err & -> & Hd)|[(rep & _ & (rec & _ & _ & _ & ->) & Hd & Hr)|(v & rep & Hrun & _)]]; [..|apply _|apply _].
  - by left.
  - left. split; [done|]. destruct Hr as [->|(err & ->)]; [|done]. by intros rep [= <-].
  - right. apply executed_event in Hrun as (s1 & s2 & eid & time & Hd & _ & He & Hl).
    apply logged_frame in Hl as (Hs & _). eauto 10.
Qed.

Lemma body_moves_version c x v e d r d' :
  expects c = Some (x, v) -> run (send c) e d = (r, d') ->
  d' = d /\ (forall rep, r = Ok rep -> rep_Replayed rep = true) \/
  version_at d x = Some v /\ version_at d' x = Some (v + 1).
Proof.
  destruct c; intros [= <- <-] H;
    (apply ran in H as [?|(s1 & a & s2 & Hd & He & (Ho & _ & Ha))]; [by left| |apply _]);
    right; rewrite <- Hd; cbn [version_at]; rewrite ?Ho, ?Ha.
  3-5: (apply changeAssistInTx_Ok in He as (b & -> & _ & Hv & Hval & Hset & _ & ->);
    apply assist_row_fields in Hset as (_ & _ & _ & _ & _ & _ & Hn & _); [|done];
    simpl; rewrite lookup_insert_eq; simpl; rewrite Hn, Hv; by split).
  - apply occupyTableInTx_Ok in He as (o & _ & -> & _ & _ & Hv & _ & _ & _ & _ & Hset & _ & _ & ->).
    simpl. rewrite lookup_insert_eq, Hv. split; [done|]. unfold occupied_row in Hset.
    apply res_bind_Ok in Hset as (w & [-> _]%int4_succ_Ok & [= <-]). simpl. by rewrite Hv.
  - apply clearTableInTx_Ok in He as (o & y & sid & _ & -> & _ & _ & Hv & _ & _ & _ & _ & _ & _ & _ & _ & Hset & _ & _ & ->).
    simpl. rewrite lookup_insert_eq, Hv. split; [done|]. unfold available_row in Hset.
    apply res_bind_Ok in Hset as (w & [-> _]%int4_succ_Ok & [= <-]). simpl. by rewrite Hv.
Qed.

(** Versions never go back. *)
Lemma history_version d0 d x v :
  floor_inv d0 -> history d0 d -> version_at d0 x = Some v -> exists v', version_at d x = Some v' /\ v <= v'.
Proof.
  intros Hi Hh. destruct x as [t|a]; cbn [version_at].
  - intros (o & Ho & ->)%fmap_Some. destruct (history_occupancy _ _ _ _ Hi Hh Ho) as (o' & -> & Hv).
    eexists. split; [reflexivity|]. destruct Hv as [->|?]; lia.
  - intros (r & Hr & ->)%fmap_Some. revert Hr. induction Hh as [|d d' c e res Hh IH Hrun]; intros Hr.
    { rewrite Hr. by eexists. }
    destruct (IH Hr) as (v & (r1 & Hr1 & ->)%fmap_Some & Hle).
    apply run_outcome in Hrun as [Hc _]; [|by eapply history_floor_inv].
    destruct (change_assist _ _ _ _ Hc Hr1) as (r2 & -> & Hv). eexists. split; [reflexivity|].
    destruct Hv as [->|[? _]]; lia.
Qed.

(** C21. Optimistic concurrency: a version names one state of a row.  Of any two
    commands that expect the same version of the same table - to occupy or clear it -
    or of the same assist request - to acknowledge, resolve or cancel it - in any
    history, at most one takes effect: once the first changed anything, or was
    answered as done, the other changes nothing, and is answered an error or a replay
    of an earlier answer. *)
Theorem optimistic_concurrency c1 c2 x v e1 d r1 d1 d2 e2 r2 d3
    (Hinv : floor_inv d) (Hx1 : expects c1 = Some (x, v)) (Hx2 : expects c2 = Some (x, v))
    (H1 : run (send c1) e1 d = (r1, d1))
    (Heffect : d1 <> d \/ exists rep, r1 = Ok rep /\ rep_Replayed rep = false)
    (Hist : history d1 d2) (H2 : run (send c2) e2 d2 = (r2, d3)) :
  d3 = d2 /\ forall rep, r2 = Ok rep -> rep_Replayed rep = true.
Proof.
  assert (floor_inv d1) as Hinv1 by (eapply history_floor_inv, send_history; eauto using history_start).
  destruct (body_moves_version _ _ _ _ _ _ _ Hx1 H1) as [[-> Hrep]|[_ Hv]].
  { destruct Heffect as [?|(rep & -> & Hf)]; [done|]. by rewrite (Hrep _ eq_refl) in Hf. }
  destruct (history_version _ _ _ _ Hinv1 Hist Hv) as (v' & Hv' & Hle).
  destruct (body_moves_version _ _ _ _ _ _ _ Hx2 H2) as [?|[Hv2 _]]; [done|].
  rewrite Hv' in Hv2. injection Hv2 as ->. lia.
Qed.

(** Two waiters clear the table that both see occupied; meanwhile it was taken again. *)
Lemma optimistic_concurrency_witness :
  let c1 := IdClear (sample_clear 51 2) None in
  let c2 := IdClear (sample_clear 53 2) None in
  let d1 := snd (run (send c1) (calm 200 2000000000) occupied_db) in
  let d2 := after_command (COccupy (sample_occupy 52 3) None) (calm 300 3000000000) d1 in
  occ_Version <$> db_occupancy d2 !! 3%N = Some 4 /\ snd (run (send c2) (calm 400 4000000000) d2) = d2.
Proof.
  intros c1 c2 d1 d2. split; [vm_compute; reflexivity|].
  apply (optimistic_concurrency c1 c2 (TheTable 3%N) 2 (calm 200 2000000000) occupied_db
    (fst (run (send c1) (calm 200 2000000000) occupied_db)) d1 d2 (calm 400 4000000000)
    (fst (run (send c2) (calm 400 4000000000) d2)) (snd (run (send c2) (calm 400 4000000000) d2))).
  - exact (history_floor_inv sample_db occupied_db sample_floor_inv occupied_history).
  - reflexivity.
  - reflexivity.
  - apply surjective_pairing.
  - right. assert (is_ok (fst (run (send c1) (calm 200 2000000000) occupied_db)) = true) as Hok by (vm_compute; reflexivity).
    destruct (fst (run (send c1) (calm 200 2000000000) occupied_db)) as [rep|] eqn:Hr; [|discriminate Hok].
    exists rep. split; [reflexivity|]. apply (f_equal (fun r => match r with Ok x => rep_Replayed x | Err _ => true end)) in Hr.
    rewrite <- Hr. vm_compute. reflexivity.
  - apply after_command_history, history_start.
  - apply surjective_pairing.
Defined.

(** C25. A successful occupy: the table was available at the expected version; its
    row is now occupied, one version later, and points at a new session of the
    requested party, source and actor; nothing else on the floor changed; and
    exactly one event, [table.occupied] with the new version and the session's
    id, was logged. *)
Theorem occupy_functional arg enc e d res rep d'
    (Hrun : run (OccupyTableCommand arg enc) e d = (Ok (Some res, rep), d')) :
  let t := ocp_TableID arg in
  let o' := res_Occupancy res in
  let x := res_Session res in
  exists o, db_occupancy d !! t = Some o /\ occ_Status o = TableStatusAvailable /\
    occ_Version o = ocp_ExpectedVersion arg /\
    db_occupancy d' = <[t := o']> (db_occupancy d) /\
    occ_Status o' = TableStatusOccupied /\ occ_CurrentSessionID o' = Some (ses_ID x) /\
    occ_Version o' = occ_Version o + 1 /\ occ_UpdatedBy o' = nullableText (ocp_ActorRef arg) /\
    db_sessions d !! ses_ID x = None /\ db_sessions d' = <[ses_ID x := x]> (db_sessions d) /\
    ses_TableID x = t /\ ses_EndedAt x = None /\ ses_PartySize x = ocp_PartySize arg /\
    ses_Source x = ocp_Source arg /\ ses_OpenedBy x = nullableText (ocp_ActorRef arg) /\
    db_assists d' = db_assists d /\
    exists eid ev, db_events d !! eid = None /\ db_events d' = <[eid := ev]> (db_events d) /\
      oev_EventType ev = "table.occupied" /\ about "table" t (occ_Version o + 1) ev /\
      json_get "sessionId" (oev_EventData ev) = Some (JUuid (ses_ID x)).
Proof.
  intros t o' x. apply run_event in Hrun as (s1 & s2 & eid & time & Hd & Hex & Hlog); [|apply _].
  apply occupyTableInTx_Ok in Hex as
    (o & _ & Ho & _ & Hst & Hv & _ & (id & Hx) & Hfresh & _ & Hset & _ & _ & Hdb).
  rewrite Hd in *. unfold occupied_row in Hset.
  apply res_bind_Ok in Hset as (v & [-> _]%int4_succ_Ok & Hset). injection Hset as Hset.
  apply logged_frame in Hlog as ((Hocc & Hses & Has) & _ & _ & Hf & trace & Hev & _).
  rewrite Hdb in *. exists o. split_and!; try done;
    try (subst o'; rewrite <- Hset; done); try (subst x; rewrite Hx; done).
  eexists eid, _. split_and!; [done|exact Hev|done| |done].
  unfold about. simpl. by rewrite <- Hset.
Qed.

Lemma occupy_functional_witness :
  exists res rep d', run (OccupyTableCommand (sample_occupy 50 1) None) (calm 100 1000000000) sample_db
    = (Ok (Some res, rep), d') /\ ses_PartySize (res_Session res) = Some 2.
Proof.
  assert (exists res rep d',
    run (OccupyTableCommand (sample_occupy 50 1) None) (calm 100 1000000000) sample_db
      = (Ok (Some res, rep), d')) as (res & rep & d' & H1).
  { vm_compute. do 3 eexists. reflexivity. }
  exists res, rep, d'. split; [exact H1|].
  destruct (occupy_functional _ _ _ _ _ _ _ H1)
    as (o & _ & _ & _ & _ & _ & _ & _ & _ & _ & _ & _ & _ & Hp & _).
  exact Hp.
Defined.

(** A successful clear: the table was occupied at the expected version by a
    session that had not ended; its row is now available, one version later and
    without a session; that session ended now, by this actor, and is otherwise
    the same; nothing else on the floor changed; and exactly one event,
    [table.cleared], was logged. *)
Theorem clear_functional arg enc e d res rep d'
    (Hrun : run (ClearTableCommand arg enc) e d = (Ok (Some res, rep), d')) :
  let t := clp_TableID arg in
  let o' := res_Occupancy res in
  let x' := res_Session res in
  exists o sid x, db_occupancy d !! t = Some o /\ occ_Status o = TableStatusOccupied /\
    occ_Version o = clp_ExpectedVersion arg /\ occ_CurrentSessionID o = Some sid /\
    db_sessions d !! sid = Some x /\ ses_EndedAt x = None /\
    db_occupancy d' = <[t := o']> (db_occupancy d) /\
    occ_Status o' = TableStatusAvailable /\ occ_CurrentSessionID o' = None /\
    occ_Version o' = occ_Version o + 1 /\
    db_sessions d' = <[sid := x']> (db_sessions d) /\
    ses_EndedAt x' <> None /\ ses_ClosedBy x' = nullableText (clp_ActorRef arg) /\
    ses_TableID x' = ses_TableID x /\ ses_StartedAt x' = ses_StartedAt x /\
    ses_PartySize x' = ses_PartySize x /\ (forall t1, ses_EndedAt x' = Some t1 -> ses_StartedAt x <= t1) /\
    db_assists d' = db_assists d /\
    exists eid ev, db_events d !! eid = None /\ db_events d' = <[eid := ev]> (db_events d) /\
      oev_EventType ev = "table.cleared" /\ about "table" t (occ_Version o + 1) ev.
Proof.
  intros t o' x'. apply run_event in Hrun as (s1 & s2 & eid & time & Hd & Hex & Hlog); [|apply _].
  apply clearTableInTx_Ok in Hex as
    (o & x & sid & _ & Ho & _ & Hst & Hv & _ & Hcur & Hx & _ & _ & Hend & Hcl & Hsok & Hset
       & _ & _ & Hdb).
  rewrite Hd in *. unfold available_row in Hset.
  apply res_bind_Ok in Hset as (v & [-> _]%int4_succ_Ok & Hset). injection Hset as Hset.
  unfold session_ok in Hsok. apply res_bind_Ok in Hsok as (? & [Hck _]%check_Ok & _).
  unfold closed_session in Hcl. injection Hcl as Hcl.
  apply logged_frame in Hlog as ((Hocc & Hses & Has) & _ & _ & Hf & trace & Hev & _).
  rewrite Hdb in *. exists o, sid, x. split_and!; try done;
    try (subst o'; rewrite <- Hset; done); try (subst x'; rewrite <- Hcl; done).
  - intros t1 H1. fold x' in Hcl, Hck. unfold session_checks in Hck. rewrite H1 in Hck. simpl in Hck.
    bool_facts. by rewrite <- Hcl in *.
  - eexists eid, _. split_and!; [done|exact Hev|done|]. unfold about. simpl. by rewrite <- Hset.
Qed.

Lemma clear_functional_witness :
  exists res rep d', run (ClearTableCommand (sample_clear 51 2) None) (calm 200 2000000000) occupied_db
    = (Ok (Some res, rep), d') /\ occ_CurrentSessionID (res_Occupancy res) = None.
Proof.
  assert (exists res rep d',
    run (ClearTableCommand (sample_clear 51 2) None) (calm 200 2000000000) occupied_db
      = (Ok (Some res, rep), d')) as (res & rep & d' & H1).
  { vm_compute. do 3 eexists. reflexivity. }
  exists res, rep, d'. split; [exact H1|].
  destruct (clear_functional _ _ _ _ _ _ _ H1)
    as (o & sid & x & _ & _ & _ & _ & _ & _ & _ & _ & Hp & _).
  exact Hp.
Defined.

(** All of an occupation, step by step. *)
Lemma occupy_command_runs arg enc e d tb o
    (Hff : fault_free e) (Hinv : floor_inv d) (Hready : occupy_ready d arg tb o)
    (Hids : fresh_ids e 0 d)
    (Horg : is_some (db_organisations d !! ocp_OrganisationID arg) = true)
    (Hloc : location_fk d (ocp_OrganisationID arg) (ocp_LocationID arg) = true)
    (Hdev : opt_all (fun x => is_some (db_devices d !! x)) (cmd_DeviceID (ocp_Command arg)) = true)
    (Hresp : forall res, exists status body, response enc res status body /\
       (cmd_ID (ocp_Command arg) <> uuid_Nil ->
        recordable d (ocp_OrganisationID arg) (ocp_LocationID arg) (ocp_Command arg) status
          (Some (default (JObj []) body)))) :
  exists res rep d', run (OccupyTableCommand arg enc) e d = (Ok (Some res, rep), d') /\
    rep_Replayed rep = false.
Proof.
  set (s0 := body_start e (ocp_Command arg) d).
  assert (st_db s0 = d) as Hd0 by (unfold s0, body_start; by case_match).
  destruct (occupyTableInTx_run e Hff arg s0 tb o) as (res & s1 & Hex & Htick).
  { by rewrite Hd0. } { by rewrite Hd0. } { intros t _. rewrite Hd0. apply (fr_sessions _ _ _ Hids). lia. }
  pose proof Hex as (o1 & _ & _ & _ & _ & _ & _ & _ & _ & _ & Hset & Hck & _ & Hdb)%occupyTableInTx_Ok.
  rewrite Hd0 in Hdb.
  destruct (writeOperationalEvent_run e Hff (occupied_event arg res) s1) as (s2 & Haf).
  { rewrite Hdb. split; simpl; try done.
    - unfold occupancy_checks in Hck. bool_facts. done.
    - intros dst Hin. repeat (apply elem_of_cons in Hin as [->|Hin]; [done|]).
      by apply not_elem_of_nil in Hin. }
  { apply (fr_inj _ _ _ Hids). }
  { intros t _. rewrite Hdb. apply (fr_events _ _ _ Hids). lia. }
  { intros t _. rewrite Hdb. apply (fr_outbox _ _ _ Hids). lia. }
  destruct (Hresp res) as (status & body & Henc & Hrec).
  assert (exists m n, st_db s2 = set_outbox m (set_events n (st_db s1))) as (m & n & Hdb2).
  { apply writeOperationalEvent_Ok in Haf as (eid & time & trace & ob & _ & _ & _ & ->). eauto. }
  destruct (runTenantCommand_run e Hff (ocp_OrganisationID arg) (ocp_LocationID arg)
    (ocp_ActorRef arg) (ocp_Command arg) (occupyTableInTx arg)
    (fun result => writeOperationalEvent (occupied_event arg result)) enc d res s1 s2 status body)
    as (rep & d' & Hrun & Hrep); [done..| |by eauto 10].
  intros Hid. destruct (Hrec Hid) as [H1 H2 H3 H4 H5 H6 H7 H8]. split; [done|].
  rewrite Hdb2, Hdb. by split.
Qed.

(** Occupying a free table succeeds: when no call fails, the identifiers
    drawn are new, the table is live and available at the expected version below
    the largest [int32], the party size is positive and the source named, the
    tenant's rows exist, and the response can be recorded, the command returns a
    result that is not a replay. *)
Theorem occupy_succeeds arg enc e d tb o
    (Hff : fault_free e) (Hinv : floor_inv d) (Hready : occupy_ready d arg tb o)
    (Hids : fresh_ids e 0 d)
    (Horg : is_some (db_organisations d !! ocp_OrganisationID arg) = true)
    (Hloc : location_fk d (ocp_OrganisationID arg) (ocp_LocationID arg) = true)
    (Hdev : opt_all (fun x => is_some (db_devices d !! x)) (cmd_DeviceID (ocp_Command arg)) = true)
    (Hresp : forall res, exists status body, response enc res status body /\
       (cmd_ID (ocp_Command arg) <> uuid_Nil ->
        recordable d (ocp_OrganisationID arg) (ocp_LocationID arg) (ocp_Command arg) status
          (Some (default (JObj []) body)))) :
  exists res rep d', run (OccupyTableCommand arg enc) e d = (Ok (Some res, rep), d') /\
    rep_Replayed rep = false.
Proof. by apply (occupy_command_runs arg enc e d tb o). Qed.

Lemma occupy_succeeds_witness :
  exists res rep d', run (OccupyTableCommand (sample_occupy 50 1) None) (calm 100 1000000000) sample_db
    = (Ok (Some res, rep), d') /\ rep_Replayed rep = false.
Proof.
  apply (occupy_succeeds _ _ _ _ sample_table sample_occupancy); try done.
  - apply sample_floor_inv.
  - split; [intros t1 t2; simpl; lia|intros; reflexivity..].
  - intros res. exists 200, None. split; [done|]. intros _. split; simpl; try done; try lia.
Defined.
