(* ===== verification/AssistTheorems.v ===== *)
(** Refused requests and the life of an assist request
    ([internal/domain/operations]). *)

From S2P Require Import Prelude Json Crypto Schema GoTx Store Queries Events Operations Guest TxFacts CommandFacts FloorSpec GuestFacts Commands History EventLog Idempotency Progress Samples.
#[local] Open Scope string_scope.
#[local] Open Scope Z_scope.
#[local] Open Scope list_scope.

(** ** Refusals *)

Section Refusals.
Context (e : Env) (Hff : fault_free e).

Lemma lock_not_found t org loc s :
  (live_table (st_db s) t = false \/
   forall o, db_occupancy (st_db s) !! t = Some o -> occ_in_scope t org loc o = false) ->
  lockTableOccupancy t org loc e s = (Err ErrNotFound, tick s).
Proof.
  intros Hno. unfold lockTableOccupancy, map_err, LockTableOccupancy.
  rewrite (exec_run_Err e Hff _ _ NoRows); [done|].
  destruct (live_table (st_db s) t); [|done]. destruct Hno as [|Hno]; [done|].
  unfold select_one. destruct (db_occupancy (st_db s) !! t) as [o|]; [|done].
  by rewrite Hno.
Qed.

Lemma lock_assist_run id org loc s a :
  db_assists (st_db s) !! id = Some a -> ast_in_scope org loc a = true ->
  LockAssistRequest id org loc e s = (Ok a, tick s).
Proof.
  intros Ha Hs. unfold LockAssistRequest.
  erewrite exec_run; [|done|unfold select_one; rewrite Ha, Hs; reflexivity]. by destruct s.
Qed.

Lemma lock_assist_none id org loc s :
  (forall a, db_assists (st_db s) !! id = Some a -> ast_in_scope org loc a = false) ->
  LockAssistRequest id org loc e s = (Err NoRows, tick s).
Proof.
  intros Hno. unfold LockAssistRequest. rewrite (exec_run_Err e Hff _ _ NoRows); [done|].
  unfold select_one. destruct (db_assists (st_db s) !! id) as [a|]; [|done]. by rewrite Hno.
Qed.
End Refusals.

(** A command that is not answered from a record. *)
Definition unrecorded (d : Db) (org : uuid) (meta : CommandMeta) : Prop :=
  cmd_ID meta <> uuid_Nil -> db_idempotency d !! (org, cmd_ID meta) = None.

(** Why occupying is refused, and that a refusal changes nothing: a table
    that is not live, or not of this tenant, is not found; an occupied table is
    [ErrAlreadyOccupied] whatever version is expected; any other version than
    the current one is a conflict that reports the current version and is a
    [ErrVersionConflict]. *)
Theorem occupy_refused arg enc e d (Hff : fault_free e)
    (Hnew : unrecorded d (ocp_OrganisationID arg) (ocp_Command arg)) :
  let t := ocp_TableID arg in
  let scope := occ_in_scope t (ocp_OrganisationID arg) (ocp_LocationID arg) in
  let conflict v := VersionConflictError pkg "table_occupancy" t (ocp_ExpectedVersion arg) v in
  (live_table d t = false \/ (forall o, db_occupancy d !! t = Some o -> scope o = false) ->
     run (OccupyTableCommand arg enc) e d = (Err ErrNotFound, d)) /\
  (forall o, live_table d t = true -> db_occupancy d !! t = Some o -> scope o = true ->
     (occ_Status o = TableStatusOccupied ->
        run (OccupyTableCommand arg enc) e d = (Err ErrAlreadyOccupied, d)) /\
     (occ_Status o <> TableStatusOccupied -> occ_Version o <> ocp_ExpectedVersion arg ->
        run (OccupyTableCommand arg enc) e d = (Err (conflict (occ_Version o)), d) /\
        errors_Is (conflict (occ_Version o)) ErrVersionConflict = true)).
Proof.
  intros t scope conflict. destruct (body_start_db e (ocp_Command arg) d) as [Hd _].
  unfold OccupyTableCommand. split.
  - intros Hno. eapply runTenantCommand_refuses; [done|apply _|done|]. unfold occupyTableInTx.
    apply bind_run_Err. eapply lock_not_found; [done|]. by rewrite Hd.
  - intros o Hl Ho Hs. rewrite <- Hd in Hl, Ho.
    pose proof (lockTableOccupancy_run e Hff _ _ _ _ _ Hl Ho Hs) as Hlock. split.
    + intros Hst. eapply runTenantCommand_refuses; [done|apply _|done|]. unfold occupyTableInTx.
      erewrite bind_run by exact Hlock. rewrite Hst. reflexivity.
    + intros Hst Hv. split; [|done]. eapply runTenantCommand_refuses; [done|apply _|done|].
      unfold occupyTableInTx. erewrite bind_run by exact Hlock. unfold guard_err.
      destruct (String.eqb_spec (occ_Status o) TableStatusOccupied); [done|].
      erewrite bind_run by done. destruct (Z.eqb_spec (occ_Version o) (ocp_ExpectedVersion arg)); done.
Qed.

Lemma occupy_refused_witness :
  run (OccupyTableCommand (sample_occupy 60 2) None) (calm 300 3000000000) occupied_db
  = (Err ErrAlreadyOccupied, occupied_db).
Proof.
  assert (exists o, live_table occupied_db 3%N = true /\ db_occupancy occupied_db !! 3%N = Some o /\
    occ_in_scope 3 1 2 o = true /\ occ_Status o = TableStatusOccupied /\
    db_idempotency occupied_db !! (1%N, 60%N) = None) as (o & Hl & Ho & Hs & Hst & Hn).
  { vm_compute. eexists. split; [done|]. split; [reflexivity|done]. }
  revert Hl Ho Hn. generalize occupied_db. intros d Hl Ho Hn.
  apply (proj2 (occupy_refused (sample_occupy 60 2) None (calm 300 3000000000) d
    (fun _ => eq_refl) (fun _ => Hn)) o Hl Ho Hs). exact Hst.
Defined.

(** Changing an assist request: what is refused, and with which error, for
    every status and every next status. *)
Theorem assist_change_refused arg next ty enc e d (Hff : fault_free e)
    (Hnew : unrecorded d (cap_OrganisationID arg) (cap_Command arg)) :
  let id := cap_AssistID arg in
  let refused err := run (changeAssistCommand arg next ty enc) e d = (Err err, d) in
  ((forall a, db_assists d !! id = Some a ->
      ast_in_scope (cap_OrganisationID arg) (cap_LocationID arg) a = false) -> refused ErrNotFound) /\
  (forall a, db_assists d !! id = Some a ->
     ast_in_scope (cap_OrganisationID arg) (cap_LocationID arg) a = true ->
     (ast_Version a <> cap_ExpectedVersion arg ->
        refused (VersionConflictError pkg "assist_request" id (cap_ExpectedVersion arg) (ast_Version a))) /\
     (ast_Version a = cap_ExpectedVersion arg ->
        (ast_Status a = "resolved" -> next = "resolved" -> refused ErrAssistAlreadyResolved) /\
        (terminal_status (ast_Status a) = true -> (ast_Status a, next) <> ("resolved", "resolved") ->
           refused ErrInvalidAssistTransition) /\
        (ast_Status a = "acknowledged" -> next = "acknowledged" -> refused ErrInvalidAssistTransition))).
Proof.
  intros id refused. destruct (body_start_db e (cap_Command arg) d) as [Hd _].
  assert (forall err, changeAssistInTx arg next e (body_start e (cap_Command arg) d)
            = (Err err, tick (body_start e (cap_Command arg) d)) -> refused err) as Hbody.
  { intros err. unfold refused, changeAssistCommand. by apply runTenantCommand_refuses; [|apply _|]. }
  split.
  - intros Hno. apply Hbody. unfold changeAssistInTx. apply bind_run_Err. unfold map_err.
    rewrite lock_assist_none; [done..|]. by rewrite Hd.
  - intros a Ha Hs. rewrite <- Hd in Ha.
    assert (forall err, (guard_err (negb (ast_Version a =? cap_ExpectedVersion arg))
      (VersionConflictError pkg "assist_request" id (cap_ExpectedVersion arg) (ast_Version a)) ;;
      guard_err (String.eqb (ast_Status a) AssistStatusResolved && String.eqb next AssistStatusResolved)
        ErrAssistAlreadyResolved ;;
      guard_err (negb (validAssistTransition (ast_Status a) next)) ErrInvalidAssistTransition)
      e (tick (body_start e (cap_Command arg) d)) = (Err err, tick (body_start e (cap_Command arg) d))
      -> refused err) as Hguards.
    { intros err Hg. apply Hbody. unfold changeAssistInTx.
      erewrite bind_run by (apply map_err_run; eapply lock_assist_run; done).
      unfold guard_err, fail, mret, Go_ret, mbind, Go_bind in *. fold id.
      repeat case_match; simplify_eq; done. }
    split; [|intros Hv; split_and!].
    + intros Hv. apply Hguards. unfold guard_err.
      destruct (Z.eqb_spec (ast_Version a) (cap_ExpectedVersion arg)); done.
    + intros Hst ->. apply Hguards. by rewrite Hv, Z.eqb_refl, Hst.
    + intros Hterm Hne. apply Hguards. rewrite Hv, Z.eqb_refl.
      rewrite (terminal_no_transition _ next Hterm).
      destruct (String.eqb_spec (ast_Status a) AssistStatusResolved) as [H1|],
        (String.eqb_spec next AssistStatusResolved) as [H2|]; try done. by rewrite H1, H2 in Hne.
    + intros Hst ->. apply Hguards. by rewrite Hv, Z.eqb_refl, Hst.
Qed.

Lemma assist_change_refused_witness :
  exists d id a, db_assists d !! id = Some a /\ ast_Status a = "resolved" /\
    run (changeAssistCommand (sample_change id 61 (ast_Version a)) "resolved" "assist.resolved" None)
      (calm 500 5000000000) d = (Err ErrAssistAlreadyResolved, d).
Proof.
  assert (exists id a, db_assists (after_command (CResolve (sample_change 303 60 1) None)
      (calm 400 4000000000) requested_db) !! id = Some a /\ ast_Status a = "resolved" /\
    ast_in_scope 1 2 a = true /\
    db_idempotency (after_command (CResolve (sample_change 303 60 1) None)
      (calm 400 4000000000) requested_db) !! (1%N, 61%N) = None) as (id & a & Ha & Hst & Hs & Hn).
  { exists 303%N. vm_compute. eexists. split; [reflexivity|]. done. }
  revert Ha Hn. generalize (after_command (CResolve (sample_change 303 60 1) None)
      (calm 400 4000000000) requested_db). intros d Ha Hn.
  exists d, id, a. split; [done|]. split; [done|].
  apply (proj2 (assist_change_refused (sample_change id 61 (ast_Version a)) "resolved"
    "assist.resolved" None (calm 500 5000000000) d (fun _ => eq_refl) (fun _ => Hn)) a Ha Hs); done.
Defined.

(** ** The life of an assist request *)

Definition assist_rank (status : string) : Z :=
  if String.eqb status "pending" then 0 else if String.eqb status "acknowledged" then 1 else 2.

Lemma transition_rank cur next :
  validAssistTransition cur next = true -> assist_rank cur < assist_rank next.
Proof.
  intros [[-> ->]|[[->| ->] [->| ->]]]%validAssistTransition_cases; done.
Qed.

(** C26. Assist requests only move forward: over every history a request stays in
    the table; one that is resolved or cancelled never changes again; any other
    changes at most twice, each change one version and at least one rank on
    (pending, acknowledged, finished); and an unchanged version means an
    unchanged row. *)
Theorem assist_life_cycle d0 d a r (Hinv : floor_inv d0) (Hist : history d0 d)
    (Hr : db_assists d0 !! a = Some r) :
  exists r', db_assists d !! a = Some r' /\
    (terminal_status (ast_Status r) = true -> r' = r) /\
    ast_Version r <= ast_Version r' <= ast_Version r + 2 /\
    ast_Version r' - ast_Version r <= assist_rank (ast_Status r') - assist_rank (ast_Status r) /\
    (ast_Version r' = ast_Version r -> r' = r).
Proof.
  assert (forall s, 0 <= assist_rank s <= 2) as Hrank.
  { intros s. unfold assist_rank. repeat case_match; lia. }
  pose proof (Hrank (ast_Status r)) as Hr0.
  induction Hist as [|d d' c e res Hist IH Hrun].
  { exists r. split_and!; try done; lia. }
  destruct IH as (r1 & Hr1 & Hterm & Hv & Hrk & Heq).
  apply run_outcome in Hrun as [Hc _]; [|by eapply history_floor_inv].
  destruct (change_assist _ _ _ _ Hc Hr1) as (r2 & Hr2 & [->|[Hv2 Hval]]); [by exists r1|].
  exists r2. pose proof (transition_rank _ _ Hval). pose proof (Hrank (ast_Status r2)).
  split_and!; [done| |lia|lia|lia|lia].
  intros Ht. rewrite (Hterm Ht) in Hval. by rewrite terminal_no_transition in Hval.
Qed.

Lemma assist_life_cycle_witness :
  exists id r r', db_assists requested_db !! id = Some r /\
    db_assists (after_command (CAcknowledge (sample_change id 60 1) None) (calm 400 4000000000)
      requested_db) !! id = Some r' /\ ast_Version r' <= ast_Version r + 2.
Proof.
  assert (exists r, db_assists requested_db !! 303%N = Some r) as (r & Hr).
  { vm_compute. by eexists. }
  assert (floor_inv requested_db) as Hi.
  { apply (history_floor_inv sample_db); [apply sample_floor_inv|].
    apply after_command_history, occupied_history. }
  destruct (assist_life_cycle requested_db _ 303%N r Hi
    (after_command_history (CAcknowledge (sample_change 303 60 1) None) (calm 400 4000000000)
       requested_db requested_db (history_start _)) Hr) as (r' & Hr' & _ & Hv & _).
  exists 303%N, r, r'. split; [exact Hr|]. split; [exact Hr'|]. apply Hv.
Defined.
