(* ===== verification/GuestTheorems.v ===== *)
(** The main results on the guest service and the QR capabilities
    ([internal/domain/operations/guest.go], [tokens.go]). *)

From S2P Require Import Prelude Json Crypto Schema GoTx Store Queries Events Operations Guest TxFacts CommandFacts FloorSpec GuestFacts Commands History EventLog Idempotency Progress Samples.
#[local] Open Scope string_scope.
#[local] Open Scope Z_scope.
#[local] Open Scope list_scope.

(** ** Resolving tokens *)

Lemma run_resolve token e d r d' :
  run (resolveQRCapability token) e d = (r, d') ->
  d' = d /\ forall c, r = Ok c -> exists t, resolves d (pg_time (env_pgclock e t)) token c.
Proof.
  unfold run. destruct (resolveQRCapability token e (start d)) as [r1 s1] eqn:Hr.
  intros [= <- <-]. apply resolveQRCapability_inv in Hr as [Hd Hr]. split; [done|].
  by intros c ->.
Qed.

(** Without faults a token resolves to some capability of its hash when there is
    a usable one. *)
Lemma resolve_run e d token c :
  fault_free e -> resolves d (pg_time (env_pgclock e 0)) token c ->
  (forall k x, db_qr d !! k = Some x -> qr_ID x <> uuid_Nil) ->
  exists c2, run (resolveQRCapability token) e d = (Ok c2, d).
Proof.
  intros Hff (prefix & Hparts & Hp & (k & Hk) & Hact & Hlive & Hnil) Hids.
  unfold run, resolveQRCapability. rewrite Hparts. unfold inTx.
  erewrite bind_run; [|by apply map_err_run, BeginTx_run].
  set (s1 := begun e (start d)). unfold ListActiveTableQRCapabilitiesByPrefix.
  set (l := rows db_qr d (fun x => String.eqb (qr_TokenLookupPrefix x) prefix
                && qr_active (st_now s1) x && qr_live d x) by_issued_at_desc).
  assert (qr_active (st_now s1) c = true) as Hact1 by exact Hact.
  assert (c ∈ l) as Hin.
  { apply rows_elem. split; [by exists k|]. by rewrite Hp, String.eqb_refl, Hact1, Hlive. }
  assert (map_err (Wrap "listing qr capabilities by prefix") (exec (fun now u d0 =>
    select_many db_qr (fun x => String.eqb (qr_TokenLookupPrefix x) prefix
      && qr_active now x && qr_live d0 x) by_issued_at_desc now u d0)) e s1 = (Ok l, tick s1)) as Hl.
  { apply map_err_run. by erewrite exec_run. }
  destruct (find_capability l (qr_TokenHash c)) as [m|] eqn:Hf.
  - exists m. pose proof (find_capability_Some _ _ _ Hf) as [Hm _].
    apply rows_elem in Hm as [(km & Hkm) _].
    erewrite bind_run; [|apply or_rollback_run; erewrite bind_run by exact Hl; rewrite Hf].
    2: { destruct (N.eqb_spec (qr_ID m) uuid_Nil) as [H0|_]; [by apply Hids in Hkm|reflexivity]. }
    erewrite bind_run; [|by apply map_err_run, Commit_run]. done.
  - exfalso. apply list_elem_of_In in Hin. pose proof (List.find_none _ _ Hf _ Hin) as Hne.
    by apply bool_decide_eq_false in Hne.
Qed.

(** C27. A token opens only what it was issued for: it resolves to a capability
    of the database whose stored hash is the SHA-256 of the trimmed token, which
    is neither revoked nor expired when the transaction began, and whose table
    is live, whose location is active and which both belong to the capability's
    tenant.  Resolving never changes the database. *)
Theorem token_resolves_to_live_capability token e d r d'
    (Hrun : run (resolveQRCapability token) e d = (r, d')) :
  d' = d /\ forall c, r = Ok c ->
    (exists k, db_qr d !! k = Some c) /\
    qr_TokenHash c = Sum256 (bytes_N (TrimSpace token)) /\
    (16 <= String.length (TrimSpace token))%nat /\
    qr_RevokedAt c = None /\
    (exists t, forall x, qr_ExpiresAt c = Some x -> pg_time (env_pgclock e t) < x) /\
    (exists l tb, db_locations d !! qr_LocationID c = Some l /\ loc_Status l = "active" /\
       loc_OrganisationID l = qr_OrganisationID c /\
       db_tables d !! qr_TableID c = Some tb /\ tbl_IsActive tb = true /\ tbl_DeletedAt tb = None /\
       tbl_OrganisationID tb = qr_OrganisationID c /\ tbl_LocationID tb = qr_LocationID c).
Proof.
  apply run_resolve in Hrun as [-> Hr]. split; [done|]. intros c Hc.
  destruct (Hr c Hc) as (t & prefix & Hparts & _ & Hk & Hact & Hlive & _). split; [done|].
  unfold TokenLookupParts in Hparts. destruct (Nat.ltb_spec (String.length (TrimSpace token))
    guestTokenPrefixLength) as [|Hlen]; [done|]. injection Hparts as _ Hh.
  unfold qr_active in Hact. apply andb_prop in Hact as [Hrev Hexp]. unfold qr_live in Hlive.
  destruct (db_locations d !! qr_LocationID c) as [l|] eqn:Hl; [|done].
  destruct (db_tables d !! qr_TableID c) as [tb|] eqn:Htb; [|done]. bool_facts.
  repeat match goal with
    | Hs : String.eqb _ _ = true |- _ => apply String.eqb_eq in Hs
    | Hs : N.eqb _ _ = true |- _ => apply N.eqb_eq in Hs
    end.
  destruct (qr_RevokedAt c); [done|]. destruct (tbl_DeletedAt tb) eqn:Hdel; [done|].
  split_and!; [done|exact Hlen|done| |by exists l, tb].
  exists t. intros x Hx. rewrite Hx in Hexp. by apply Z.ltb_lt in Hexp.
Qed.

Lemma run_tenant {A} (fn : Go A) e d a d' :
  InTx fn -> run (inTenantTx fn) e d = (Ok a, d') ->
  exists s1 s2 t, st_db s1 = d /\ st_now s1 = pg_time (env_pgclock e t) /\
    fn e s1 = (Ok a, s2) /\ st_db s2 = d'.
Proof.
  intros Hin H. unfold run in H. destruct (inTenantTx fn e (start d)) as [r1 s1] eqn:Hr.
  injection H as -> <-. apply inTenantTx_inv in Hr as [(err & ? & _)|(b & Hc & [?|[(err & ?) _]])];
    [done| |done|done]. simplify_eq. destruct Hc as (s2 & s3 & ? & (t & ?) & ? & ?). eauto 10.
Qed.

(** ** Revocation is for good *)

Lemma dead_token d k c token prefix e r d' :
  qr_inv d -> db_qr d !! k = Some c -> is_some (qr_RevokedAt c) = true ->
  TokenLookupParts token = Ok (prefix, qr_TokenHash c) ->
  run (resolveQRCapability token) e d = (r, d') -> forall c', r <> Ok c'.
Proof.
  intros [_ Huniq] Hk Hrev Hparts Hrun c' ->.
  apply run_resolve in Hrun as [_ Hr]. destruct (Hr c' eq_refl) as (t & p' & Hp' & _ & (k' & Hk') & Hact & _).
  rewrite Hparts in Hp'. injection Hp' as _ Hh. assert (k' = k) as -> by eauto.
  rewrite Hk in Hk'. injection Hk' as ->. unfold qr_active in Hact. by rewrite Hrev in Hact.
Qed.

(** A token whose capability was revoked in [d1] is dead in every later state. *)
Lemma dead_forever d1 d2 k c token prefix e r d' :
  floor_inv d1 -> qr_inv d1 -> db_qr d1 !! k = Some c -> is_some (qr_RevokedAt c) = true ->
  TokenLookupParts token = Ok (prefix, qr_TokenHash c) -> history d1 d2 ->
  run (resolveQRCapability token) e d2 = (r, d') -> forall c', r <> Ok c'.
Proof.
  intros Hi Hq Hk Hrev Hparts Hist Hrun. destruct (history_qr _ _ Hi Hist) as [Hqi Hall].
  destruct (Hall _ _ Hk) as (c2 & Hk2 & (_ & _ & _ & _ & Hh & _ & Hr)).
  eapply (dead_token d2 k c2); eauto. by rewrite Hh.
Qed.

(** C28. Rotating a capability kills the old token for ever and issues a new one
    for the same table with the same label and expiry: after a rotation, in
    every later state, the old token resolves to nothing. *)
Theorem rotation_kills_old_token org loc tbl cap c e d x d1 token prefix d2 e2 r d3
    (Hinv : floor_inv d) (Hq : qr_inv d) (Hc : db_qr d !! cap = Some c)
    (Htoken : TokenLookupParts token = Ok (prefix, qr_TokenHash c))
    (Hrun : run (RotateTableQRCapability org loc tbl cap) e d = (Ok x, d1))
    (Hist : history d1 d2) (Hlater : run (resolveQRCapability token) e2 d2 = (r, d3)) :
  (forall c', r <> Ok c') /\
  qrx_TableID x = tbl /\ qr_TableID c = tbl /\ qrx_Label x = default "" (qr_Label c) /\
  qrx_RevokedAt x = None /\
  (exists c1, db_qr d1 !! qrx_ID x = Some c1 /\ db_qr d !! qrx_ID x = None /\
     qr_TokenHash c1 = Sum256 (bytes_N (TrimSpace (qrx_Token x))) /\
     qr_ExpiresAt c1 = pg_time <$> qr_ExpiresAt c).
Proof.
  assert (floor_inv d1 /\ qr_inv d1) as [Hinv1 Hq1].
  { assert (history d d1) as H1.
    { apply (history_run _ _ _ (CRotateQR org loc tbl cap) e (Ok tt) (history_start d)).
      unfold run in *. simpl. unfold mbind, Go_bind, mret, Go_ret.
      destruct (RotateTableQRCapability org loc tbl cap e (start d)). by injection Hrun as -> <-. }
    split; [by eapply history_floor_inv|]. by apply (history_qr _ _ Hinv H1). }
  apply run_tenant in Hrun as (s1 & s2 & t & Hd & _ & Hfn & Hd1);
    [|unfold RotateTableQRCapabilityRow, GenerateCapabilityToken, CreateTableQRCapabilityHashed; apply _].
  apply bind_Ok in Hfn as (prev & s3 & Hrot & Hfn).
  unfold RotateTableQRCapabilityRow in Hrot. apply map_err_Ok, exec_Ok in Hrot as (_ & db & Hrot & ->).
  apply update_row_Ok in Hrot as (c0 & Hc0 & Hw & [= <-] & _ & ->).
  rewrite Hd, Hc in Hc0. injection Hc0 as <-. bool_facts.
  repeat match goal with Hs : N.eqb _ _ = true |- _ => apply N.eqb_eq in Hs end.
  apply bind_Ok in Hfn as (tok & s4 & Htok & Hfn).
  apply GenerateCapabilityToken_Ok in Htok as [Hgen ->].
  apply bind_Ok in Hfn as (parts & s5 & Hparts & Hfn). unfold lift in Hparts.
  destruct (generated_parts _ Hgen) as (Htrim & _ & Htp). rewrite Htp in Hparts.
  injection Hparts as <- <-.
  apply bind_Ok in Hfn as (next & s6 & Hcreate & [<- <-]%ret_Ok).
  unfold CreateTableQRCapabilityHashed in Hcreate.
  apply map_err_Ok, exec_Ok in Hcreate as (_ & db2 & Hcreate & ->).
  apply insert_row_Ok in Hcreate as (-> & Hfresh & _ & ->). simpl in *. rewrite Hd in *.
  assert (db_qr d1 !! cap = Some (revoked_qr (default (st_now s1) (qr_RevokedAt c)) (st_now s1) c))
    as Hold.
  { rewrite <- Hd1. simpl. rewrite lookup_insert_ne; [by rewrite lookup_insert_eq|].
    intros <-. by rewrite lookup_insert_eq in Hfresh. }
  split_and!; try done.
  - intros c'. by eapply dead_forever.
  - eexists. split; [rewrite <- Hd1; simpl; by rewrite lookup_insert_eq|].
    split_and!; [|by simpl; rewrite Htrim|done].
    by apply lookup_insert_None in Hfresh as [? _].
Qed.

Lemma rotation_kills_old_token_witness :
  exists d1, forall c', fst (run (resolveQRCapability sample_token) (calm 300 3000000000) d1) <> Ok c'.
Proof.
  destruct sample_token_known as (c & prefix & Hc & Ht). destruct exported_inv as [Hf Hq].
  assert (exists x d1, run (RotateTableQRCapability 1 2 3 103) (calm 200 2000000000) exported_db
            = (Ok x, d1)) as (x & d1 & Hrun).
  { vm_compute. do 2 eexists. reflexivity. }
  exists d1.
  apply (rotation_kills_old_token _ _ _ _ c _ _ x d1 sample_token prefix d1 (calm 300 3000000000) _ _
           Hf Hq Hc Ht Hrun (history_start d1) (surjective_pairing _)).
Defined.

(** A revoked token is dead for ever. *)
Theorem revocation_kills_token org loc tbl cap c e d x d1 token prefix d2 e2 r d3
    (Hinv : floor_inv d) (Hq : qr_inv d) (Hc : db_qr d !! cap = Some c)
    (Htoken : TokenLookupParts token = Ok (prefix, qr_TokenHash c))
    (Hrun : run (RevokeTableQRCapability org loc tbl cap) e d = (Ok x, d1))
    (Hist : history d1 d2) (Hlater : run (resolveQRCapability token) e2 d2 = (r, d3)) :
  (forall c', r <> Ok c') /\ qr_TableID c = tbl /\ qr_RevokedAt c = None /\
  is_some (qr_RevokedAt x) = true.
Proof.
  assert (floor_inv d1 /\ qr_inv d1) as [Hinv1 Hq1].
  { assert (history d d1) as H1.
    { apply (history_run _ _ _ (CRevokeQR org loc tbl cap) e (Ok tt) (history_start d)).
      unfold run in *. simpl. unfold mbind, Go_bind, mret, Go_ret.
      destruct (RevokeTableQRCapability org loc tbl cap e (start d)). by injection Hrun as -> <-. }
    split; [by eapply history_floor_inv|]. by apply (history_qr _ _ Hinv H1). }
  apply run_tenant in Hrun as (s1 & s2 & t & Hd & _ & Hfn & Hd1);
    [|unfold RevokeTableQRCapabilityRow; apply _].
  apply bind_Ok in Hfn as (rv & s3 & Hrev & Hfn). unfold RevokeTableQRCapabilityRow in Hrev.
  apply map_err_Ok, exec_Ok in Hrev as (_ & db & Hrev & ->). apply update_row_Ok in Hrev as (c0 & Hc0 & Hw & [= <-] & _ & ->).
  rewrite Hd, Hc in Hc0. injection Hc0 as <-. bool_facts.
  apply bind_Ok in Hfn as ([] & s4 & Hg & [<- <-]%ret_Ok). apply guard_err_Ok in Hg as (Hg & -> & _).
  simpl in *. bool_facts. apply N.eqb_eq in Hg.
  assert (db_qr d1 !! cap = Some (revoked_qr (st_now s1) (st_now s1) c)) as Hold.
  { rewrite <- Hd1. simpl. by rewrite lookup_insert_eq. }
  split_and!; try done; [|by destruct (qr_RevokedAt c)].
  intros c'. by eapply dead_forever.
Qed.

Lemma revocation_kills_token_witness :
  exists d1, forall c', fst (run (resolveQRCapability sample_token) (calm 300 3000000000) d1) <> Ok c'.
Proof.
  destruct sample_token_known as (c & prefix & Hc & Ht). destruct exported_inv as [Hf Hq].
  assert (exists x d1, run (RevokeTableQRCapability 1 2 3 103) (calm 200 2000000000) exported_db
            = (Ok x, d1)) as (x & d1 & Hrun).
  { vm_compute. do 2 eexists. reflexivity. }
  exists d1.
  apply (revocation_kills_token _ _ _ _ c _ _ x d1 sample_token prefix d1 (calm 300 3000000000) _ _
           Hf Hq Hc Ht Hrun (history_start d1) (surjective_pairing _)).
Defined.

Lemma token_resolves_to_live_capability_witness :
  exists c, fst (run (resolveQRCapability sample_token) (calm 200 2000000000) exported_db) = Ok c /\
    qr_RevokedAt c = None.
Proof.
  assert (exists c, fst (run (resolveQRCapability sample_token) (calm 200 2000000000) exported_db) = Ok c)
    as (c & Hc).
  { vm_compute. eexists. reflexivity. }
  exists c. split; [exact Hc|].
  apply (token_resolves_to_live_capability sample_token (calm 200 2000000000) exported_db _ _
           (surjective_pairing _)). exact Hc.
Defined.

(** C36. A printed code works: the token of an exported capability resolves, in
    the state the export left, to exactly that capability, when its table is
    live, its location active and its expiry in the future, whatever other
    capabilities exist. *)
Theorem exported_token_resolves org loc tbl label ex e d x d1 e2
    (Hff : fault_free e2) (Hq : qr_inv d)
    (Hnil : forall k c, db_qr d !! k = Some c -> qr_ID c <> uuid_Nil)
    (Hrun : run (ExportTableQRCapability org loc tbl label ex) e d = (Ok x, d1))
    (Hid : qrx_ID x <> uuid_Nil)
    (Hlive : exists l tb, db_locations d !! loc = Some l /\ loc_OrganisationID l = org /\
       loc_Status l = "active" /\ db_tables d !! tbl = Some tb /\ tbl_OrganisationID tb = org /\
       tbl_LocationID tb = loc /\ tbl_IsActive tb = true /\ tbl_DeletedAt tb = None)
    (Hexp : forall t, ex = Some t -> pg_time (env_pgclock e2 0) < pg_time t) :
  exists c, run (resolveQRCapability (qrx_Token x)) e2 d1 = (Ok c, d1) /\
    qr_ID c = qrx_ID x /\ qr_TableID c = tbl /\ qr_LocationID c = loc /\ qr_OrganisationID c = org /\
    qr_Label c = Some (TrimSpace label).
Proof.
  unfold run in Hrun.
  destruct (ExportTableQRCapability org loc tbl label ex e (start d)) as [r1 s9] eqn:Hr.
  injection Hrun as -> <-. unfold ExportTableQRCapability in Hr.
  apply bind_Ok in Hr as (token & s1 & Htok & Hr).
  apply GenerateCapabilityToken_Ok in Htok as [Hgen ->].
  apply bind_Ok in Hr as (parts & s2 & Hparts & Hr). unfold lift in Hparts.
  destruct (generated_parts _ Hgen) as (Htrim & _ & Htp). rewrite Htp in Hparts.
  injection Hparts as <- <-.
  apply inTenantTx_inv in Hr as [(err & ? & _)|(b & Hc & Hr)];
    [done| |unfold CreateTableQRCapabilityHashed; apply _].
  destruct Hr as [[= <-]|[(err & ?) _]]; [|done].
  destruct Hc as (s3 & s4 & Hd3 & (t & Hn) & Hfn & Hd9).
  apply bind_Ok in Hfn as (c & s5 & Hcr & [<- <-]%ret_Ok). unfold CreateTableQRCapabilityHashed in Hcr.
  apply map_err_Ok, exec_Ok in Hcr as (_ & db & Hcr & ->).
  apply insert_row_Ok in Hcr as (Hnew & Hfresh & Hok & ->). rewrite Hd3 in *. simpl in Hd9, Hfresh, Hok.
  assert (qr_inv (st_db s9)) as Hq9.
  { rewrite <- Hd9. by apply (qr_evolves_insert d c Hfresh Hok). }
  assert (db_qr (st_db s9) !! qr_ID c = Some c) as Hlk.
  { rewrite <- Hd9. simpl. by rewrite lookup_insert_eq. }
  assert (resolves (st_db s9) (pg_time (env_pgclock e2 0)) token c) as Hres.
  { exists (String.substring 0 16 token). subst c. split_and!; try done.
    - by eexists.
    - unfold qr_active. simpl. destruct ex as [t1|]; [|done]. simpl. by apply Z.ltb_lt, Hexp.
    - unfold qr_live. rewrite <- Hd9. simpl.
      destruct Hlive as (l & tb & Hl & <- & Hs & Htb & Ho & <- & Ha & Hdel).
      by rewrite Hl, Htb, Ho, Hs, Ha, Hdel, !N.eqb_refl. }
  destruct (resolve_run e2 (st_db s9) token c Hff Hres) as (c2 & Hrun2).
  { intros k y Hk. rewrite <- Hd9 in Hk. simpl in Hk.
    apply lookup_insert_Some in Hk as [[_ <-]|[_ Hk]]; [done|by eapply Hnil]. }
  exists c. assert (c2 = c) as ->.
  { apply run_resolve in Hrun2 as [_ H2].
    destruct (H2 c2 eq_refl) as (t2 & p2 & Hp2 & _ & (k2 & Hk2) & _).
    rewrite Htp in Hp2. injection Hp2 as _ Hh. destruct Hq9 as [_ Hu].
    assert (k2 = qr_ID c) as -> by (eapply Hu; [done|done|subst c; by rewrite <- Hh]). congruence. }
  split; [exact Hrun2|]. by subst c.
Qed.

Lemma exported_token_resolves_witness :
  exists x d1 c, run (ExportTableQRCapability 1 2 3 "T1" None) (calm 100 1000000000) sample_db = (Ok x, d1) /\
    run (resolveQRCapability (qrx_Token x)) (calm 200 2000000000) d1 = (Ok c, d1) /\ qr_TableID c = 3%N.
Proof.
  assert (exists x d1, run (ExportTableQRCapability 1 2 3 "T1" None) (calm 100 1000000000) sample_db
            = (Ok x, d1) /\ qrx_ID x <> uuid_Nil) as (x & d1 & Hrun & Hid).
  { vm_compute. do 2 eexists. split; [reflexivity|done]. }
  destruct (exported_token_resolves 1 2 3 "T1" None (calm 100 1000000000) sample_db x d1
    (calm 200 2000000000) (fun _ => eq_refl) sample_qr_inv) as (c & Hc & _ & Ht & _); [..|exact Hrun|exact Hid| | |].
  - intros k c Hk. simpl in Hk. by rewrite lookup_empty in Hk.
  - exists sample_location, sample_table. repeat (split; [reflexivity|]). reflexivity.
  - done.
  - exists x, d1, c. split; [exact Hrun|]. split; [exact Hc|exact Ht].
Defined.

(** ** Guest requests *)

(** A guest command that returned a fresh value ran its body. *)
Lemma guest_command_run {T} org loc actor meta (execute : Go T) after enc e s v rep s' :
  InTx execute -> (forall v, InTx (after v)) ->
  runGuestCommand org loc actor meta execute after enc e s = (Ok (Some v, rep), s') ->
  exists s1 s2 s3 t, st_db s1 = st_db s /\ st_now s1 = pg_time (env_pgclock e t) /\
    execute e s1 = (Ok v, s2) /\ after v e s2 = (Ok tt, s3) /\ bookkeeping (st_db s3) (st_db s').
Proof.
  intros Hin Haf Hr. rewrite runGuestCommand_eq in Hr.
  apply runTenantCommand_inv in Hr as
    [(err & ? & _)|[(rep1 & _ & _ & _ & [?|(err & ?)])|(v1 & rep1 & Hrun & [?|[(err & ?) _]])]];
    [done|done|done| |done|done|done].
  simplify_eq. apply executed_frame in Hrun as (s2 & s3 & s4 & ? & (t & ?) & ? & ? & ?). eauto 10.
Qed.

(** A guest may only ask, for the table of the token, for an action the
    location offers, while somebody sits there.  The answer is either the
    request of that action that is already pending, and then nothing but the
    command's record is written; or a new pending request of the table's current
    session, logged by one event, when none was pending and every finished one
    of the same action and session was made at least two minutes ago. *)
Theorem guest_request_isolated arg enc e d a isnew rep d'
    (Hrun : run (CreateGuestRequest arg enc) e d = (Ok (Some (a, isnew), rep), d')) :
  let key := TrimSpace (grp_ActionKey arg) in
  validGuestActionKey key = true /\
  exists cap t l o sid, resolves d (pg_time (env_pgclock e t)) (grp_Token arg) cap /\
    db_locations d !! qr_LocationID cap = Some l /\
    guestActionEnabled (loc_OperatingConfig l) key = true /\
    db_occupancy d !! qr_TableID cap = Some o /\ occ_Status o = "occupied" /\
    occ_CurrentSessionID o = Some sid /\
    guest_match cap key sid a = true /\ ast_Status a = "pending" /\
    db_occupancy d' = db_occupancy d /\ db_sessions d' = db_sessions d /\ db_qr d' = db_qr d /\
    if isnew then
      db_assists d !! ast_ID a = None /\ db_assists d' = <[ast_ID a := a]> (db_assists d) /\
      (exists eid ev, db_events d' = <[eid := ev]> (db_events d) /\
         oev_EventType ev = "assist.requested" /\ about "assist" (ast_ID a) 1 ev) /\
      (forall k x, db_assists d !! k = Some x -> guest_match cap key sid x = true ->
         ast_Status x <> "pending") /\
      (exists tick, forall k x, db_assists d !! k = Some x -> guest_match cap key sid x = true ->
         terminal_status (ast_Status x) = true ->
         120000000000 <= env_clock e tick - ast_RequestedAt x)
    else
      (exists k, db_assists d !! k = Some a) /\ db_assists d' = db_assists d /\
      db_events d' = db_events d /\ db_outbox d' = db_outbox d.
Proof.
  intros key. unfold run in Hrun.
  destruct (CreateGuestRequest arg enc e (start d)) as [r1 s9] eqn:Hr. injection Hrun as -> <-.
  unfold CreateGuestRequest in Hr. apply bind_Ok in Hr as ([] & s0 & Hg & Hr).
  apply guard_err_Ok in Hg as (Hg & -> & _). bool_facts. split; [done|].
  apply bind_Ok in Hr as (cap & s1 & Hres & Hr).
  apply resolveQRCapability_inv in Hres as [Hd (t & Hres)]. simpl in Hd, Hres.
  apply guest_command_run in Hr as (s2 & s3 & s4 & tn & Hd2 & Hn & Hex & Haf & Hbk);
    [|apply _|intros v; simpl; destruct (negb v.2); apply _].
  apply createGuestRequestInTx_Ok in Hex as (tc & l & o & sid & Hl & Hlo & Hen & Hlive & Ho & Hsc & Hst
    & Hcur & Hcase).
  rewrite Hd2, Hd in *. destruct Hbk as ((Hb1 & Hb2 & Hb3) & Hb4 & Hb5 & Hb6 & _).
  exists cap, t, l, o, sid. do 6 (split; [done|]). destruct isnew; simpl in Haf.
  - destruct Hcase as (Hnop & Hcool & (id & Ha) & Hfresh & _ & Hdb).
    apply writeOperationalEvent_Ok in Haf as (eid & time & Hadd).
    apply event_added_frame in Hadd as ((Ha1 & Ha2 & Ha3) & _ & Ha4 & _ & _ & _ & trace & Ha5 & _).
    rewrite Hb1, Hb2, Hb3, Hb4, Hb6, Ha1, Ha2, Ha3, Ha4, Ha5, Hdb. simpl.
    assert (guest_match cap key sid a = true /\ ast_Status a = "pending" /\ ast_Version a = 1)
      as (Hm & Hp & Hv).
    { subst a. split_and!; try done. unfold guest_match, guest_scope, ast_in_scope, sql_eq. simpl.
      by rewrite !N.eqb_refl, !bool_decide_true. }
    split_and!; try done; [|by exists tc]. eexists eid, _. split_and!; [done|done|].
    unfold about. simpl. by rewrite Hv.
  - apply ret_Ok in Haf as [_ <-]. destruct Hcase as (Hk & Hm & Hp & Hdb).
    rewrite Hb1, Hb2, Hb3, Hb4, Hb5, Hb6, Hdb. done.
Qed.

(** The sample table occupied and with a capability for guests. *)
Definition guest_db : Db :=
  after_command (CExportQR 1%N 2%N 3%N "T1" None) (calm 100 1000000000) occupied_db.

Definition sample_guest_request (key : uuid) : GuestRequestParams :=
  {| grp_Token := sample_token; grp_ActionKey := " call_waiter "; grp_IdempotencyKey := key;
     grp_PayloadHash := repeat 9%N 32 |}.

Definition plain_encode (a : AssistRequest) : result error (Z * option json) :=
  Ok (201, Some (JObj [("id", JUuid (ast_ID a)); ("status", JStr (ast_Status a))])).

Lemma guest_request_isolated_witness :
  exists a rep d', run (CreateGuestRequest (sample_guest_request 70) plain_encode) (calm 400 4000000000)
    guest_db = (Ok (Some (a, true), rep), d') /\ db_occupancy d' = db_occupancy guest_db.
Proof.
  assert (exists a rep d', run (CreateGuestRequest (sample_guest_request 70) plain_encode)
    (calm 400 4000000000) guest_db = (Ok (Some (a, true), rep), d')) as (a & rep & d' & Hrun).
  { vm_compute. do 3 eexists. reflexivity. }
  exists a, rep, d'. split; [exact Hrun|].
  destruct (guest_request_isolated _ _ _ _ _ _ _ _ Hrun)
    as (_ & cap & t & l & o & sid & _ & _ & _ & _ & _ & _ & _ & _ & Ho & _).
  exact Ho.
Defined.

(** A guest can only cancel a pending request that guests made for the table
    of the token; everything else on the floor is left alone. *)
Theorem guest_cancel_isolated arg enc e d a' rep d'
    (Hrun : run (CancelGuestRequest arg enc) e d = (Ok (Some a', rep), d')) :
  exists cap t a, resolves d (pg_time (env_pgclock e t)) (gcp_Token arg) cap /\
    db_assists d !! gcp_AssistID arg = Some a /\ ast_Source a = "guest_qr" /\
    ast_Status a = "pending" /\ ast_TableID a = qr_TableID cap /\
    ast_LocationID a = qr_LocationID cap /\ ast_OrganisationID a = qr_OrganisationID cap /\
    ast_Status a' = "cancelled" /\ ast_Version a' = ast_Version a + 1 /\
    ast_CancelledBy a' = Some "guest:qr" /\
    db_assists d' = <[gcp_AssistID arg := a']> (db_assists d) /\
    db_occupancy d' = db_occupancy d /\ db_sessions d' = db_sessions d /\ db_qr d' = db_qr d.
Proof.
  unfold run in Hrun. destruct (CancelGuestRequest arg enc e (start d)) as [r1 s9] eqn:Hr.
  injection Hrun as -> <-. unfold CancelGuestRequest in Hr.
  apply bind_Ok in Hr as (cap & s1 & Hres & Hr).
  apply resolveQRCapability_inv in Hres as [Hd (t & Hres)]. simpl in Hd, Hres.
  apply guest_command_run in Hr as (s2 & s3 & s4 & tn & Hd2 & Hn & Hex & Haf & Hbk); [|apply _|apply _].
  apply cancelGuestRequestInTx_Ok in Hex as (a & Ha & Hs & Ht & Hsrc & Hst & Hset & _ & Hdb).
  apply writeOperationalEvent_Ok in Haf as (eid & time & Hadd).
  apply event_added_frame in Hadd as ((Ha1 & Ha2 & Ha3) & _ & Ha4 & _).
  destruct Hbk as ((Hb1 & Hb2 & Hb3) & _ & _ & Hb6 & _).
  rewrite Hb1, Hb2, Hb3, Hb6, Ha1, Ha2, Ha3, Ha4, Hdb. rewrite Hd2, Hd in *. simpl.
  unfold ast_in_scope in Hs. bool_facts.
  repeat match goal with Hs : N.eqb _ _ = true |- _ => apply N.eqb_eq in Hs end.
  unfold cancelled_row in Hset. apply res_bind_Ok in Hset as (v & [-> _]%int4_succ_Ok & [= Hset]).
  exists cap, t, a. split_and!; try done; by rewrite <- Hset.
Qed.

Lemma guest_cancel_isolated_witness :
  exists id a' rep d0 d', run (CancelGuestRequest {| gcp_Token := sample_token; gcp_AssistID := id;
      gcp_IdempotencyKey := 71; gcp_PayloadHash := repeat 9%N 32 |} plain_encode) (calm 500 5000000000) d0
    = (Ok (Some a', rep), d') /\ ast_Status a' = "cancelled".
Proof.
  assert (exists a' rep d', run (CancelGuestRequest {| gcp_Token := sample_token; gcp_AssistID := 410%N;
      gcp_IdempotencyKey := 71%N; gcp_PayloadHash := repeat 9%N 32 |} plain_encode) (calm 500 5000000000)
      (after_command (CGuestRequest (sample_guest_request 70) plain_encode) (calm 400 4000000000) guest_db)
    = (Ok (Some a', rep), d')) as (a' & rep & d' & Hrun).
  { vm_compute. do 3 eexists. reflexivity. }
  eexists 410%N, a', rep, _, d'. split; [exact Hrun|].
  destruct (guest_cancel_isolated _ _ _ _ _ _ _ Hrun)
    as (cap & t & a & _ & _ & _ & _ & _ & _ & _ & H & _).
  exact H.
Defined.

(** ** One pending request per action *)

Definition one_pending (d : Db) : Prop :=
  forall k1 k2 x1 x2, db_assists d !! k1 = Some x1 -> db_assists d !! k2 = Some x2 ->
    ast_Source x1 = "guest_qr" -> ast_Source x2 = "guest_qr" ->
    ast_Status x1 = "pending" -> ast_Status x2 = "pending" -> same_slot x1 x2 -> k1 = k2.

Lemma same_slot_sym x y : same_slot x y -> same_slot y x.
Proof. unfold same_slot. intros (?&?&?&?&?). by split_and!. Qed.

Lemma transition_not_pending cur next : validAssistTransition cur next = true -> next <> "pending".
Proof. by intros [[-> _]|[[->| ->] _]]%validAssistTransition_cases. Qed.

Lemma change_one_pending d d' : one_pending d -> change d d' -> one_pending d'.
Proof.
  intros Hone [(_ & _ & Hs) _ _ _ _|d2 ev tnow eid time Hst ((_ & _ & Hs) & _)%logged_frame];
    unfold one_pending; rewrite Hs; [done|].
  destruct Hst as [| |r ev Hf Hp Hv Hck Hfree Hrep|a r r' ev Hr _ Hval]; simpl; [done|done|..];
    intros k1 k2 x1 x2 [[<- <-]|[Hn1 Hx1]]%lookup_insert_Some [[<- <-]|[Hn2 Hx2]]%lookup_insert_Some
      Hs1 Hs2 Hp1 Hp2 Hslot; try done; try (by eapply Hone).
  - destruct (Hfree Hs1 k2 x2 Hx2 Hs2 (same_slot_sym _ _ Hslot) Hp2).
  - destruct (Hfree Hs2 k1 x1 Hx1 Hs1 Hslot Hp1).
  - by apply transition_not_pending in Hval.
  - by apply transition_not_pending in Hval.
Qed.

(** C29. Guests cannot flood the staff: over every history, a guest action of a
    table session has at most one pending request. *)
Theorem one_pending_per_action d0 d (Hinv : floor_inv d0) (Hone : one_pending d0) (Hist : history d0 d) :
  one_pending d.
Proof.
  induction Hist as [|d d' c e r Hist IH Hr]; [done|].
  apply run_outcome in Hr as [Hc _]; [|by eapply history_floor_inv]. by eapply change_one_pending.
Qed.

Lemma one_pending_per_action_witness : one_pending guest_db.
Proof.
  apply (one_pending_per_action sample_db).
  - apply sample_floor_inv.
  - intros k1 k2 x1 x2 H. simpl in H. by rewrite lookup_empty in H.
  - apply after_command_history, occupied_history.
Defined.

(** ** The actions on offer *)

Lemma action_leb_total a b : action_leb a b = false -> action_leb b a = true.
Proof.
  unfold action_leb. destruct (Z.eqb_spec (gac_SortOrder a) (gac_SortOrder b)) as [->|Hne].
  - rewrite Z.eqb_refl. apply string_leb_total.
  - destruct (Z.eqb_spec (gac_SortOrder b) (gac_SortOrder a)) as [Heq|]; [by rewrite Heq in Hne|].
    rewrite Z.ltb_ge, Z.ltb_lt. lia.
Qed.

Lemma action_leb_trans a b c : action_leb a b = true -> action_leb b c = true -> action_leb a c = true.
Proof.
  unfold action_leb.
  destruct (Z.eqb_spec (gac_SortOrder a) (gac_SortOrder b)),
    (Z.eqb_spec (gac_SortOrder b) (gac_SortOrder c)), (Z.eqb_spec (gac_SortOrder a) (gac_SortOrder c));
    rewrite ?Z.ltb_lt; try lia; [apply string_leb_trans|intros ? ?; lia..].
Qed.

(** Whatever a location's configuration holds, its guests are offered at
    least one action, every action has a valid key (a lower-case letter, then
    one to sixty-three letters, digits or underscores) and a label, and they are
    in the order of their sort order and label; and if the configuration lists a
    usable action, every action offered comes from the configuration. *)
Theorem guest_actions_wellformed (raw : json) :
  let actions := GuestActionsFromConfig raw in
  actions <> [] /\
  (forall a, a ∈ actions ->
     validGuestActionKey (gac_Key a) = true /\ gac_Label a <> "" /\ gac_Enabled a = true) /\
  sorted_by action_leb actions = true /\
  (forall item, item ∈ config_actions raw -> action_of_config item <> None ->
     forall a, a ∈ actions -> exists item', item' ∈ config_actions raw /\ action_of_config item' = Some a).
Proof.
  intros actions. subst actions. unfold GuestActionsFromConfig.
  assert (forall a, a ∈ defaultGuestActions ->
     validGuestActionKey (gac_Key a) = true /\ gac_Label a <> "" /\ gac_Enabled a = true) as Hdef.
  { intros a Ha. repeat (apply elem_of_cons in Ha as [->|Ha]; [done|]). by apply not_elem_of_nil in Ha. }
  destruct (config_actions raw) as [|i items] eqn:Hc.
  { split_and!; [done|done|reflexivity|]. intros item Hi. by apply not_elem_of_nil in Hi. }
  set (l := omap action_of_config (i :: items)).
  destruct (sort_by action_leb l) as [|a0 l0] eqn:Hs.
  { split_and!; [done|done|reflexivity|]. intros item Hi Hsome. apply sort_by_nil in Hs.
    destruct (action_of_config item) as [b|] eqn:Hb; [|done].
    assert (b ∈ l) as Hin by (apply list_elem_of_omap; eauto). rewrite Hs in Hin.
    by apply not_elem_of_nil in Hin. }
  rewrite <- Hs. split_and!; [by rewrite Hs| |apply sort_by_sorted; eauto using action_leb_total, action_leb_trans|].
  - intros a Ha. apply sort_by_elem, list_elem_of_omap in Ha as (item & _ & Hi).
    unfold action_of_config in Hi. destruct (negb _ || _ || _) eqn:Hg; [done|]. injection Hi as <-.
    apply orb_false_elim in Hg as [[Hk Hl]%orb_false_elim _]. apply negb_false_iff in Hk.
    split_and!; [done| |done]. simpl. intros He. rewrite He in Hl. done.
  - intros item _ _ a Ha. apply sort_by_elem, list_elem_of_omap in Ha as (item' & Hi & Ha). eauto.
Qed.
