(* ===== verification/OutboxFacts.v ===== *)
(** The outbox worker ([internal/outbox/outbox.go]): what a claim takes, what
    processing a record leaves behind under every pattern of failures, and what
    redelivery does. *)

From S2P Require Import Prelude Json Schema GoTx Store Queries Events Operations Outbox TxFacts CommandFacts Idempotency.
#[local] Open Scope string_scope.
#[local] Open Scope Z_scope.
#[local] Open Scope list_scope.

(** ** Administrative transactions *)

Lemma adminExec_inv q e s r s' :
  adminExec q e s = (r, s') ->
  (exists err, r = Err err /\ st_db s' = st_db s) \/
  (exists now u, q now u (st_db s) = Ok (tt, st_db s') /\ (exists t, now = pg_time (env_pgclock e t)) /\
     (r = Ok tt \/ (exists err, r = Err err) /\ lost_commit e)).
Proof.
  intros H. unfold adminExec in H.
  apply begin_step in H as [?|(s0 & Hd0 & Hs0 & Hn0 & H)]; [by left|].
  apply (context_step _ _ _ _ _ _ (st_db s)) in H as [?|(s1 & Hd1 & Hs1 & Hn1 & H)]; [by left| |done|done].
  apply (guarded_step _ _ _ _ _ _ (st_db s)) in H as [?|([] & s2 & Ha & Hs2 & _ & H)];
    [by left| |apply _|done].
  apply or_rollback_Ok, exec_Ok in Ha as (_ & d & Hq & ->).
  apply (commit_step _ _ _ _ _ _ (st_db s)) in H as [?|[Hdb Hr]]; [by left| |done].
  right. exists (st_now s1), (env_uuid e (st_tick s1)). rewrite Hdb, <- Hd1. simpl.
  split_and!; [done| |done]. exists (st_tick s). by rewrite Hn1, Hn0.
Qed.

Lemma adminExec_run q e s d :
  fault_free e ->
  q (pg_time (env_pgclock e (st_tick s))) (env_uuid e (S (S (st_tick s)))) (st_db s) = Ok (tt, d) ->
  exists s', adminExec q e s = (Ok tt, s') /\ st_db s' = d.
Proof.
  intros Hff Hq. exists (close_tx d (with_db d (tick (tick (begun e s))))). split.
  - unfold adminExec. erewrite bind_run; [|by apply map_err_run, BeginTx_run].
    erewrite bind_run; [|by apply or_rollback_run, SetContext_run].
    erewrite bind_run; [|by apply or_rollback_run, exec_run].
    erewrite bind_run; [|by apply map_err_run, Commit_run]. reflexivity.
  - reflexivity.
Qed.

(** The immutable part of a record, and the growth of its attempts. *)
Definition same_record (r r' : OutboxRecord) : Prop :=
  obx_ID r' = obx_ID r /\ obx_OrganisationID r' = obx_OrganisationID r /\
  obx_LocationID r' = obx_LocationID r /\ obx_EventID r' = obx_EventID r /\
  obx_Topic r' = obx_Topic r /\ obx_Payload r' = obx_Payload r /\
  obx_Destination r' = obx_Destination r /\ obx_CreatedAt r' = obx_CreatedAt r /\
  obx_Attempts r <= obx_Attempts r'.

#[export] Instance same_record_preorder : PreOrder same_record.
Proof.
  split; [intros r; unfold same_record; split_and!; done || lia|].
  unfold same_record. intros a b c (?&?&?&?&?&?&?&?&?) (?&?&?&?&?&?&?&?&?).
  split_and!; try congruence. lia.
Qed.

(** Records are neither lost, nor made up, nor altered. *)
Definition records_kept (d d' : Db) : Prop :=
  (forall id r, db_outbox d !! id = Some r -> exists r', db_outbox d' !! id = Some r' /\ same_record r r') /\
  (forall id, db_outbox d !! id = None -> db_outbox d' !! id = None).

#[export] Instance records_kept_preorder : PreOrder records_kept.
Proof.
  split; [split; [|done]; intros id r Hr; exists r; split; [done|reflexivity]|].
  intros a b c [H1 H2] [H3 H4]. split; [|auto]. intros id r Hr.
  destruct (H1 _ _ Hr) as (r1 & Hr1 & Hs1). destruct (H3 _ _ Hr1) as (r2 & Hr2 & Hs2).
  exists r2. split; [done|]. by etransitivity.
Qed.

Lemma records_kept_insert d id r r' :
  db_outbox d !! id = Some r -> same_record r r' ->
  records_kept d (set_outbox (<[id := r']> (db_outbox d)) d).
Proof.
  intros Hr Hs. split; simpl.
  - intros k x Hk. destruct (decide (k = id)) as [->|Hne].
    + rewrite lookup_insert_eq. exists r'. by simplify_eq.
    + rewrite lookup_insert_ne by done. exists x. split; [done|reflexivity].
  - intros k Hk. rewrite lookup_insert_ne; [done|congruence].
Qed.

Lemma records_kept_same d d' : db_outbox d' = db_outbox d -> records_kept d d'.
Proof. intros H. split; rewrite H; [|done]. intros id r Hr. exists r. split; [done|reflexivity]. Qed.

Lemma update_outbox_kept id set now u d d' :
  (forall n r, same_record r (set n r)) ->
  update_outbox id set now u d = Ok (tt, d') -> records_kept d d'.
Proof.
  unfold update_outbox. intros Hset H. destruct (db_outbox d !! id) as [r|] eqn:Hr; injection H as <-.
  - by eapply records_kept_insert.
  - reflexivity.
Qed.

Lemma adminExec_records q e s r s' :
  (forall now u d d', q now u d = Ok (tt, d') -> records_kept d d') ->
  adminExec q e s = (r, s') -> records_kept (st_db s) (st_db s').
Proof.
  intros Hq H. apply adminExec_inv in H as [(err & _ & ->)|(now & u & Hrun & _)]; [reflexivity|eauto].
Qed.

(** ** Claims *)

Definition outbox_keyed (d : Db) : Prop := forall k r, db_outbox d !! k = Some r -> obx_ID r = k.

Lemma claim_rows_spec w now l d records d' :
  NoDup (obx_ID <$> l) -> claim_rows w now l d = Ok (records, d') ->
  d' = set_outbox (db_outbox d') d /\
  map rcd_ID records = obx_ID <$> l /\
  (forall r, r ∈ l -> exists r', claimed_row w now r = Ok r' /\ db_outbox d' !! obx_ID r = Some r' /\
     record_of r' ∈ records) /\
  (forall k, k ∉ obx_ID <$> l -> db_outbox d' !! k = db_outbox d !! k).
Proof.
  revert d records. induction l as [|r l IH]; intros d records Hnd H; simpl in H.
  { injection H as <- <-. split_and!; [by destruct d|done| |done]. intros r Hr. by apply not_elem_of_nil in Hr. }
  apply res_bind_Ok in H as (r' & Hr' & H). apply res_bind_Ok in H as ([rs d1] & Hrec & H).
  injection H as <- <-. rewrite fmap_cons in Hnd. apply NoDup_cons in Hnd as [Hnin Hnd].
  apply IH in Hrec as (Hd & Hids & Hall & Hoth); [|done]. simpl in *.
  assert (obx_ID r' = obx_ID r) as Hid.
  { unfold claimed_row in Hr'. by apply res_bind_Ok in Hr' as (n & _ & [= <-]). }
  split_and!.
  - rewrite Hd. by destruct d.
  - by rewrite Hids, Hid.
  - intros x [->|Hx]%elem_of_cons.
    + exists r'. split_and!; [done| |left]. rewrite Hoth by done. simpl. by rewrite lookup_insert_eq.
    + destruct (Hall x Hx) as (x' & ? & ? & ?). exists x'. split_and!; [done..|by right].
  - intros k [Hk1 Hk2]%not_elem_of_cons. rewrite Hoth by done. simpl. by rewrite lookup_insert_ne.
Qed.

Lemma claim_rows_members w now l d records d' record :
  claim_rows w now l d = Ok (records, d') -> record ∈ records ->
  exists r r', r ∈ l /\ claimed_row w now r = Ok r' /\ record = record_of r'.
Proof.
  revert d records. induction l as [|r l IH]; intros d records H Hin; simpl in H.
  { injection H as <- <-. by apply not_elem_of_nil in Hin. }
  apply res_bind_Ok in H as (r' & Hr' & H). apply res_bind_Ok in H as ([rs d1] & Hrec & [= <- <-]).
  apply elem_of_cons in Hin as [->|Hin].
  - exists r, r'. split_and!; [left|done..].
  - destruct (IH _ _ Hrec Hin) as (x & x' & Hx & ?). exists x, x'. split_and!; [by right|naive_solver..].
Qed.

Lemma NoDup_rows_ids d whr le : outbox_keyed d -> NoDup (obx_ID <$> rows db_outbox d whr le).
Proof. apply NoDup_rows_keys. Qed.

Lemma NoDup_take_ids (l : list OutboxRecord) n : NoDup (obx_ID <$> l) -> NoDup (obx_ID <$> take n l).
Proof.
  intros H. rewrite <- (take_drop n l), fmap_app in H. by apply NoDup_app in H as [? _].
Qed.

(** What a claim takes at time [now]. *)
Definition to_claim (w : Worker) (now : Z) (d : Db) : list OutboxRecord :=
  take (Z.to_nat (wk_batchSize w)) (rows db_outbox d (claimable w now) by_created).

Lemma claim_inv w e s r s' :
  claim w e s = (r, s') ->
  (exists err, r = Err err /\ st_db s' = st_db s) \/
  (exists now records, claim_rows w now (to_claim w now (st_db s)) (st_db s) = Ok (records, st_db s') /\
     (exists t, now = pg_time (env_pgclock e t)) /\
     (r = Ok records \/ (exists err, r = Err err) /\ lost_commit e)).
Proof.
  intros H. unfold claim in H.
  apply begin_step in H as [?|(s0 & Hd0 & Hs0 & Hn0 & H)]; [by left|].
  apply (context_step _ _ _ _ _ _ (st_db s)) in H as [?|(s1 & Hd1 & Hs1 & Hn1 & H)]; [by left| |done|done].
  apply (guarded_step _ _ _ _ _ _ (st_db s)) in H as [?|(records & s2 & Ha & Hs2 & _ & H)];
    [by left| |apply _|done].
  apply or_rollback_Ok, exec_Ok in Ha as (_ & d & Hq & ->).
  apply (commit_step _ _ _ _ _ _ (st_db s)) in H as [?|[Hdb Hr]]; [by left| |done].
  right. exists (st_now s1), records. rewrite Hdb, <- Hd1. simpl. unfold to_claim.
  split_and!; [done| |done]. exists (st_tick s). by rewrite Hn1, Hn0.
Qed.

Lemma to_claim_elem w now d r :
  r ∈ to_claim w now d -> (exists k, db_outbox d !! k = Some r) /\ claimable w now r = true.
Proof.
  intros Hr. assert (r ∈ rows db_outbox d (claimable w now) by_created) as Hin.
  { rewrite <- (take_drop (Z.to_nat (wk_batchSize w)) (rows _ _ _ _)). apply elem_of_app. by left. }
  by apply rows_elem in Hin.
Qed.

Lemma by_created_total a b : by_created a b = false -> by_created b a = true.
Proof.
  unfold by_created. intros H. apply orb_false_iff in H as [H1 H2].
  apply Z.ltb_ge in H1. apply orb_true_iff.
  destruct (Z.eq_dec (obx_CreatedAt a) (obx_CreatedAt b)) as [He|Hne].
  - right. rewrite He, Z.eqb_refl in *. simpl in *. apply N.leb_gt in H2. apply N.leb_le. lia.
  - left. apply Z.ltb_lt. lia.
Qed.

Lemma by_created_trans a b c :
  by_created a b = true -> by_created b c = true -> by_created a c = true.
Proof.
  unfold by_created. rewrite !orb_true_iff, !andb_true_iff, !Z.ltb_lt, !Z.eqb_eq, !N.leb_le. lia.
Qed.

Lemma sorted_take (le : OutboxRecord -> OutboxRecord -> bool) n l x y :
  sorted_by le l = true -> x ∈ take n l -> y ∈ l -> y ∉ take n l -> le x y = true.
Proof.
  revert n. induction l as [|z l IH]; intros n Hs Hx Hy Hny; [by rewrite take_nil in Hx; apply not_elem_of_nil in Hx|].
  destruct n as [|n]; [by apply not_elem_of_nil in Hx|]. simpl in *.
  apply andb_true_iff in Hs as [Hz Hs]. rewrite forallb_elem in Hz.
  apply not_elem_of_cons in Hny as [Hyz Hny]. apply elem_of_cons in Hy as [->|Hy]; [done|].
  apply elem_of_cons in Hx as [->|Hx]; eauto.
Qed.

(** What is left unclaimed comes after a full batch. *)
Lemma to_claim_rest w now d r :
  (exists k, db_outbox d !! k = Some r) -> claimable w now r = true -> r ∉ to_claim w now d ->
  length (to_claim w now d) = Z.to_nat (wk_batchSize w) /\
  forall t, t ∈ to_claim w now d -> by_created t r = true.
Proof.
  intros Hk Hc Hn. assert (r ∈ rows db_outbox d (claimable w now) by_created) as Hin by (by apply rows_elem).
  unfold to_claim in *. split.
  - rewrite length_take. apply Nat.min_l. destruct (decide (Z.to_nat (wk_batchSize w) <=
      length (rows db_outbox d (claimable w now) by_created))%nat) as [|Hlt]; [done|].
    exfalso. apply Hn. rewrite take_ge by lia. done.
  - intros t Ht. eapply sorted_take; [|exact Ht|exact Hin|exact Hn].
    apply sort_by_sorted; [apply by_created_total|apply by_created_trans].
Qed.

(** A claim succeeds when no counter of attempts overflows. *)
Lemma claim_rows_run w now l d :
  (forall r, r ∈ l -> exists n, int4_succ (obx_Attempts r) = Ok n) ->
  exists records d', claim_rows w now l d = Ok (records, d').
Proof.
  revert d. induction l as [|r l IH]; intros d Hall; [by do 2 eexists|]. simpl.
  destruct (Hall r) as (n & Hn); [by left|]. unfold claimed_row. rewrite Hn. simpl.
  edestruct IH as (records & d' & ->); [intros x Hx; apply Hall; by right|]. by do 2 eexists.
Qed.

Lemma claim_run w e s records d :
  fault_free e ->
  claim_rows w (pg_time (env_pgclock e (st_tick s)))
    (to_claim w (pg_time (env_pgclock e (st_tick s))) (st_db s)) (st_db s) = Ok (records, d) ->
  exists s', claim w e s = (Ok records, s') /\ st_db s' = d.
Proof.
  intros Hff Hq. exists (close_tx d (with_db d (tick (tick (begun e s))))). split; [|done].
  unfold claim. erewrite bind_run; [|by apply map_err_run, BeginTx_run].
  erewrite bind_run; [|by apply or_rollback_run, SetContext_run].
  erewrite bind_run; [|apply or_rollback_run, exec_run; [done|exact Hq]].
  erewrite bind_run; [|by apply map_err_run, Commit_run]. done.
Qed.

Lemma claimed_row_spec w now r r' :
  claimed_row w now r = Ok r' ->
  obx_Status r' = "processing" /\ obx_Attempts r' = obx_Attempts r + 1 /\
  obx_LockedAt r' = Some now /\ obx_LockedBy r' = Some (wk_instanceID w) /\ same_record r r'.
Proof.
  unfold claimed_row. intros (n & [-> _]%int4_succ_Ok & [= <-])%res_bind_Ok.
  unfold same_record. simpl. split_and!; done || lia.
Qed.

Lemma claim_rows_keyed w now l d records d' :
  NoDup (obx_ID <$> l) -> outbox_keyed d -> claim_rows w now l d = Ok (records, d') -> outbox_keyed d'.
Proof.
  intros Hnd Hk Hq k x Hx. apply claim_rows_spec in Hq as (_ & _ & Hall & Hoth); [|done].
  destruct (decide (k ∈ obx_ID <$> l)) as [(r & -> & Hr)%list_elem_of_fmap|Hn].
  - destruct (Hall r Hr) as (r' & Hc & Hl & _). rewrite Hx in Hl. injection Hl as ->.
    by apply claimed_row_spec in Hc as (_ & _ & _ & _ & (? & _)).
  - rewrite Hoth in Hx by done. by apply Hk.
Qed.

(** A record in its claim window is not claimable. *)
Lemma locked_unclaimable w now r t :
  obx_Status r = "processing" -> obx_LockedAt r = Some t ->
  now <= t + Milliseconds (wk_claimTimeout w) * 1000000 -> claimable w now r = false.
Proof.
  intros Hs Hl Hle. unfold claimable. rewrite Hs, Hl.
  replace (t <? now - Milliseconds (wk_claimTimeout w) * 1000000) with false
    by (symmetry; apply Z.ltb_ge; lia). done.
Qed.

Lemma claim_records w e s r s' :
  outbox_keyed (st_db s) -> claim w e s = (r, s') ->
  records_kept (st_db s) (st_db s') /\ db_events (st_db s') = db_events (st_db s).
Proof.
  intros Hk H. apply claim_inv in H as [(err & _ & ->)|(now & records & Hrun & _)];
    [by split|].
  assert (NoDup (obx_ID <$> to_claim w now (st_db s))) as Hnd
    by (apply NoDup_take_ids, NoDup_rows_ids, Hk).
  apply claim_rows_spec in Hrun as (Hd & _ & Hall & Hoth); [|done].
  split; [|by rewrite Hd].
  assert (forall k x, db_outbox (st_db s) !! k = Some x -> k ∈ obx_ID <$> to_claim w now (st_db s) ->
    x ∈ to_claim w now (st_db s)) as Hmem.
  { intros k x Hx (y & -> & Hy)%list_elem_of_fmap.
    pose proof (to_claim_elem _ _ _ _ Hy) as [(k' & Hk') _]. rewrite (Hk _ _ Hk') in Hx. congruence. }
  split.
  - intros k x Hx. destruct (decide (k ∈ obx_ID <$> to_claim w now (st_db s))) as [Hin|Hnin].
    + pose proof (Hmem _ _ Hx Hin) as Hin'. destruct (Hall x Hin') as (x' & Hc & Hl & _).
      rewrite (Hk _ _ Hx) in Hl. exists x'. split; [done|]. unfold claimed_row in Hc.
      apply res_bind_Ok in Hc as (n & [-> _]%int4_succ_Ok & [= <-]).
      unfold same_record. simpl. split_and!; done || lia.
    + rewrite Hoth by done. exists x. split; [done|reflexivity].
  - intros k Hn. rewrite Hoth; [done|]. intros (y & -> & Hy)%list_elem_of_fmap.
    pose proof (to_claim_elem _ _ _ _ Hy) as [(k' & Hk') _]. rewrite (Hk _ _ Hk') in Hn. congruence.
Qed.

(** ** Consumers *)

(** A consumer keeps out of the worker's own tables. *)
Class Lawful (c : Consumer) : Prop :=
  lawful : forall ev e s r s', con_Handle c ev e s = (r, s') ->
    db_outbox (st_db s') = db_outbox (st_db s) /\
    db_consumer_events (st_db s') = db_consumer_events (st_db s).

#[export] Instance lawful_nil name : Lawful (ConsumerFunc name None).
Proof. by intros ev e s r s' [= _ <-]. Qed.

Definition consumer_done (d : Db) (name : string) (event : uuid) : Prop :=
  exists x, db_consumer_events d !! (name, event) = Some x /\ cev_Status x = "processed".

(** The rows of other consumers and events are left alone. *)
Definition others_kept (name : string) (event : uuid) (d d' : Db) : Prop :=
  db_outbox d' = db_outbox d /\
  forall k, k <> (name, event) -> db_consumer_events d' !! k = db_consumer_events d !! k.

#[export] Instance others_kept_preorder name ev : PreOrder (others_kept name ev).
Proof.
  split; [done|]. intros a b c [H1 H2] [H3 H4]. split; [congruence|].
  intros k Hk. rewrite H4, H2; done.
Qed.

Lemma insert_consumer_event_Ok name ev rid now u d b d' :
  insert_consumer_event name ev rid now u d = Ok (b, d') ->
  b = true /\ db_consumer_events d !! (name, ev) = None /\ others_kept name ev d d' /\
  exists x, db_consumer_events d' !! (name, ev) = Some x /\ cev_Status x = "processing".
Proof.
  unfold insert_consumer_event. destruct (db_consumer_events d !! (name, ev)) eqn:Hl; [done|].
  intros (_ & _ & [= <- <-])%res_bind_Ok. split_and!; [done|done| |].
  - split; [done|]. intros k Hk. simpl. by rewrite lookup_insert_ne.
  - eexists. simpl. rewrite lookup_insert_eq. done.
Qed.

Definition started (name : string) (ev : uuid) (d : Db) (r : result error bool) (d' : Db) : Prop :=
  others_kept name ev d d' /\
  (forall x, db_consumer_events d !! (name, ev) = Some x -> db_consumer_events d' !! (name, ev) = Some x) /\
  match r with
  | Ok true => exists x, db_consumer_events d' !! (name, ev) = Some x /\ cev_Status x <> "processed"
  | Ok false => consumer_done d' name ev
  | Err _ => True
  end.

Lemma commit_then_started (b : bool) f name ev d e s r s' :
  st_saved s = Some d -> started name ev d (Ok b) (st_db s) ->
  (map_err f Commit ;; mret b) e s = (r, s') -> started name ev d r (st_db s').
Proof.
  intros Hs Hst H. apply (commit_step _ _ _ _ _ _ d) in H as [(err & -> & ->)|[-> Hr]]; [done| |done].
  destruct Hr as [->|[(err & ->) _]]; [done|]. destruct Hst as (? & ? & _). done.
Qed.

Lemma startConsumer_inv record name e s r s' :
  startConsumer record name e s = (r, s') -> started name (rcd_EventID record) (st_db s) r (st_db s').
Proof.
  intros H. unfold startConsumer in H.
  apply begin_step in H as [(err & -> & ->)|(s0 & Hd0 & Hs0 & _ & H)]; [done|].
  apply (context_step _ _ _ _ _ _ (st_db s)) in H as [(err & -> & ->)|(s1 & Hd1 & Hs1 & _ & H)];
    [done| |done|done].
  unfold attempt, mbind at 1, Go_bind at 1 in H.
  destruct (exec (insert_consumer_event _ _ _) e s1) as [[b|err] s2] eqn:Hins.
  - apply exec_Ok in Hins as (_ & d & Hins & ->).
    apply insert_consumer_event_Ok in Hins as (-> & Hnone & Hoth & x & Hx & Hst).
    unfold mbind at 1, Go_bind at 1, mret at 1, Go_ret at 1 in H.
    unfold mbind at 1, Go_bind at 1, mret at 1, Go_ret at 1 in H.
    eapply commit_then_started; [|..|exact H]; [exact Hs1|]. rewrite Hd1 in *. simpl.
    split_and!; [done|by intros y; rewrite Hnone|]. exists x. by rewrite Hst.
  - destruct (errors_Is err NoRows) eqn:Hno.
    + apply exec_Err in Hins as (-> & [(f & _ & ->)|(_ & Hq)]); [done|].
      unfold mbind at 1, Go_bind at 1, mret at 1, Go_ret at 1 in H.
      apply (guarded_step _ _ _ _ _ _ (st_db s)) in H as [(err2 & -> & ->)|(skip & s3 & Hsk & Hs3 & _ & H)];
        [done| |apply _|exact Hs1].
      apply bind_Ok in Hsk as (row & s4 & Hrow & [<- <-]%ret_Ok).
      apply or_rollback_Ok, exec_Ok in Hrow as (_ & d & (Hrow & _ & ->)%select_one_Ok & ->).
      rewrite Hd1 in *. unfold StatusProcessed in H.
      destruct (String.eqb_spec (cev_Status row) "processed") as [Hp|Hp];
        (eapply commit_then_started; [exact Hs3| |exact H]); simpl; rewrite Hd1;
        (split; [done|]); (split; [done|]); exists row; rewrite <- Hd1; done.
    + apply exec_Err in Hins as (-> & _). unfold mbind at 1, Go_bind at 1 in H.
      destruct (@rollback_run bool (Wrap "recording consumer idempotency start" err) e (tick s1))
        as (err' & s3 & Hrb & _ & Hdb & _).
      rewrite Hrb in H. injection H as <- <-. rewrite Hdb. unfold saved_db. simpl. by rewrite Hs1.
Qed.

Lemma update_consumer_Ok name ev set now u d d' :
  update_consumer name ev set now u d = Ok (tt, d') ->
  others_kept name ev d d' /\
  (forall x, db_consumer_events d !! (name, ev) = Some x ->
     db_consumer_events d' !! (name, ev) = Some (set now x)).
Proof.
  unfold update_consumer. destruct (db_consumer_events d !! (name, ev)) as [r|] eqn:Hr; intros [= <-].
  - split; [split; [done|]|].
    + intros k Hk. simpl. by rewrite lookup_insert_ne.
    + intros x [= <-]. simpl. by rewrite lookup_insert_eq.
  - by split.
Qed.

Lemma map_err_case {A} f (m : Go A) e s r s' :
  map_err f m e s = (r, s') ->
  exists r0, m e s = (r0, s') /\ match r0 with Ok a => r = Ok a | Err err => r = Err (f err) end.
Proof.
  unfold map_err. destruct (m e s) as [[a|err] s1]; intros [= <- <-]; [by exists (Ok a)|by exists (Err err)].
Qed.

(** An attempted computation always leads on to its continuation. *)
Lemma attempt_bind {A B} (m : Go A) (k : result error A -> Go B) e s :
  (attempt m ≫= k) e s = let '(r, s1) := m e s in k r e s1.
Proof. unfold attempt, mbind, Go_bind. by destruct (m e s). Qed.

Section Processing.
Context `{ErrorTexts} (conv : Z -> Z).

Lemma markConsumerProcessed_inv name ev e s r s' :
  markConsumerProcessed name ev e s = (r, s') ->
  others_kept name ev (st_db s) (st_db s') /\
  (r = Ok tt -> (exists x, db_consumer_events (st_db s) !! (name, ev) = Some x) ->
   consumer_done (st_db s') name ev).
Proof.
  intros (r0 & Hr & Hcase)%map_err_case. apply adminExec_inv in Hr as
  [(err & -> & ->)|(now & u & Hq & _ & Hres)].
  - split; [done|]. intros ->. done.
  - apply update_consumer_Ok in Hq as [Hoth Hset]. split; [done|]. intros _ (x & Hx).
  eexists. split; [by apply Hset|done].
Qed.

Lemma markConsumerFailed_inv name ev cause e s r s' :
  markConsumerFailed name ev cause e s = (r, s') -> others_kept name ev (st_db s) (st_db s').
Proof.
  intros (r0 & Hr & _)%map_err_case. apply adminExec_inv in Hr as
  [(err & -> & ->)|(now & u & Hq & _)]; [done|]. by apply update_consumer_Ok in Hq as [? _].
Qed.

(** One consumer: its rows only, and on success its row says processed. *)
Lemma handleConsumer_inv record event c e s r s' :
  Lawful c -> handleConsumer record event c e s = (r, s') ->
  others_kept (con_Name c) (rcd_EventID record) (st_db s) (st_db s') /\
  (r = Ok tt -> consumer_done (st_db s') (con_Name c) (rcd_EventID record)).
Proof.
  intros Hlaw Hrun. unfold handleConsumer, mbind at 1, Go_bind at 1 in Hrun.
  destruct (startConsumer record (con_Name c) e s) as [[[]|err] s1] eqn:Hst;
  apply startConsumer_inv in Hst as (Hoth & _ & Hcase).
  - rewrite attempt_bind in Hrun.
  destruct (con_Handle c event e s1) as [[u|err] s2] eqn:Hh; apply Hlaw in Hh as [Hob Hce];
  assert (others_kept (con_Name c) (rcd_EventID record) (st_db s) (st_db s2)) as Hkept
  by (etransitivity; [exact Hoth|]; split; [done|]; intros k _; by rewrite Hce).
  + apply markConsumerProcessed_inv in Hrun as [Hm Hdone]. split; [by etransitivity|].
  intros Hr. apply (Hdone Hr). destruct Hcase as (x & Hx & _). exists x. by rewrite Hce.
  + rewrite attempt_bind in Hrun.
  destruct (markConsumerFailed _ _ _ e s2) as [r3 s3] eqn:Hm.
  apply markConsumerFailed_inv in Hm. injection Hrun as <- <-. split; [by etransitivity|done].
  - injection Hrun as <- <-. split; [done|]. intros _. exact Hcase.
  - injection Hrun as <- <-. by split.
Qed.
End Processing.

(** ** Backoff *)

Lemma round53_small z : 0 <= z < 2 ^ 53 -> round53 z = z.
Proof.
  intros Hz. unfold round53. assert (Z.log2 z - 52 <= 0) as He.
  { destruct (Z.eq_dec z 0) as [->|Hne]; [by vm_compute|].
    assert (Z.log2 z < 53) by (apply Z.log2_lt_pow2; lia). lia. }
  apply Z.leb_le in He. by rewrite He.
Qed.

Lemma backoff_exact conv w attempt :
  0 <= wk_backoffBase w < 2 ^ 53 ->
  wk_backoffBase w * 2 ^ Z.max 0 (attempt - 1) <= int64_max ->
  backoff conv w attempt = Z.min (wk_backoffMax w) (wk_backoffBase w * 2 ^ Z.max 0 (attempt - 1)).
Proof.
  intros Hb Hfit. unfold backoff. rewrite round53_small by done. apply Z.leb_le in Hfit. rewrite Hfit.
  destruct (Z.ltb_spec (wk_backoffMax w) (wk_backoffBase w * 2 ^ Z.max 0 (attempt - 1))); lia.
Qed.

Lemma backoff_at_most conv w attempt : backoff conv w attempt <= wk_backoffMax w.
Proof. unfold backoff. cbv zeta. case_match; [done|]. case_match; lia. Qed.
