(* ===== verification/Delivery.v ===== *)
(** The outbox worker on whole records and batches: one record only touches its
    own row and its consumers' rows, and ends processed, pending or failed. *)

From S2P Require Import Prelude Json Schema GoTx Store Queries Events Operations Outbox TxFacts CommandFacts Idempotency OutboxFacts.
#[local] Open Scope string_scope.
#[local] Open Scope Z_scope.
#[local] Open Scope list_scope.

(** The row of [id] is the only one that may differ. *)
Definition only_row (id : uuid) (d d' : Db) : Prop :=
  forall k, k <> id -> db_outbox d' !! k = db_outbox d !! k.

#[export] Instance only_row_preorder id : PreOrder (only_row id).
Proof. split; [done|]. intros a b c H1 H2 k Hk. by rewrite H2, H1. Qed.

Lemma only_row_same id d d' : db_outbox d' = db_outbox d -> only_row id d d'.
Proof. by intros H k _; rewrite H. Qed.

Lemma update_outbox_Ok id set now u d d' :
  update_outbox id set now u d = Ok (tt, d') ->
  only_row id d d' /\ db_outbox d' !! id = set now <$> db_outbox d !! id /\
  db_consumer_events d' = db_consumer_events d.
Proof.
  unfold update_outbox. destruct (db_outbox d !! id) as [r|] eqn:Hr; intros [= <-]; simpl.
  - split_and!; [|by rewrite lookup_insert_eq|done]. intros k Hk. simpl. by rewrite lookup_insert_ne.
  - by rewrite Hr.
Qed.

Lemma update_outbox_run id set now u d r :
  db_outbox d !! id = Some r ->
  update_outbox id set now u d = Ok (tt, set_outbox (<[id := set now r]> (db_outbox d)) d).
Proof. unfold update_outbox. by intros ->. Qed.

(** An administrative update of one record, whatever fails. *)
Lemma admin_outbox_inv id set e s r s' :
  adminExec (update_outbox id set) e s = (r, s') ->
  only_row id (st_db s) (st_db s') /\ db_consumer_events (st_db s') = db_consumer_events (st_db s) /\
  (r = Ok tt -> exists now, db_outbox (st_db s') !! id = set now <$> db_outbox (st_db s) !! id).
Proof.
  intros [(err & -> & ->)|(now & u & Hq & _ & Hr)]%adminExec_inv; [done|].
  apply update_outbox_Ok in Hq as (Honly & Hid & Hc). split_and!; [done..|]. eauto.
Qed.

(** The statements of a record's end: its immutable part stays. *)
Lemma with_status_same st av pr le now r : same_record r (with_status st av pr le now r).
Proof. unfold same_record. simpl. split_and!; done || lia. Qed.
#[export] Hint Resolve with_status_same records_kept_same : seatd.
#[export] Hint Unfold processed_outbox retried_outbox failed_outbox : seatd.

(** An administrative update that keeps each record's immutable part. *)
Lemma admin_outbox_kept id set e s r s' :
  (forall n x, same_record x (set n x)) ->
  adminExec (update_outbox id set) e s = (r, s') -> records_kept (st_db s) (st_db s').
Proof. intros Hset. apply adminExec_records. intros now u d d'. by apply update_outbox_kept. Qed.

Section Processing.
Context `{ErrorTexts} (conv : Z -> Z).

(** ** The consumers of one record *)

Lemma handleConsumer_keeps_done record event c e s r s' name ev :
  Lawful c -> handleConsumer record event c e s = (r, s') ->
  consumer_done (st_db s) name ev -> consumer_done (st_db s') name ev.
Proof.
  intros Hlaw Hrun (x & Hx & Hp).
  destruct (decide ((name, ev) = (con_Name c, rcd_EventID record))) as [[= -> ->]|Hne].
  - unfold handleConsumer, mbind at 1, Go_bind at 1 in Hrun.
  destruct (startConsumer record (con_Name c) e s) as [r1 s1] eqn:Hst.
  apply startConsumer_inv in Hst as (_ & Hkeep & Hcase). specialize (Hkeep _ Hx).
  destruct r1 as [[]|err]; [|injection Hrun as <- <-; by exists x..].
  destruct Hcase as (y & Hy & Hny). congruence.
  - apply handleConsumer_inv in Hrun as [[_ Hoth] _]; [|done]. exists x. by rewrite Hoth.
Qed.

Lemma consumers_keep_done record event cs e s r s' name ev :
  Forall Lawful cs -> for_each cs (handleConsumer record event) e s = (r, s') ->
  consumer_done (st_db s) name ev -> consumer_done (st_db s') name ev.
Proof.
  intros Hlaw. revert s. induction Hlaw as [|c cs Hc _ IH]; intros s Hrun Hd.
  - by injection Hrun as _ <-.
  - simpl in Hrun. unfold mbind, Go_bind in Hrun.
  destruct (handleConsumer record event c e s) as [[u|err] s1] eqn:Hh;
  pose proof (handleConsumer_keeps_done _ _ _ _ _ _ _ _ _ Hc Hh Hd) as Hd1.
  + eauto.
  + by injection Hrun as _ <-.
Qed.

Lemma consumers_inv record event cs e s r s' :
  Forall Lawful cs -> for_each cs (handleConsumer record event) e s = (r, s') ->
  db_outbox (st_db s') = db_outbox (st_db s) /\
  (forall k, k.2 <> rcd_EventID record ->
   db_consumer_events (st_db s') !! k = db_consumer_events (st_db s) !! k) /\
  (r = Ok tt -> forall c, c ∈ cs -> consumer_done (st_db s') (con_Name c) (rcd_EventID record)).
Proof.
  intros Hlaw. revert s. induction Hlaw as [|c cs Hc Hcs IH]; intros s Hrun.
  - injection Hrun as <- <-. split_and!; [done..|]. by intros _ c ?%not_elem_of_nil.
  - simpl in Hrun. unfold mbind, Go_bind in Hrun.
  destruct (handleConsumer record event c e s) as [[[]|err] s1] eqn:Hh;
  apply handleConsumer_inv in Hh as [[Ho1 Hk1] Hd1]; try done;
  assert (forall k, k.2 <> rcd_EventID record ->
  db_consumer_events (st_db s1) !! k = db_consumer_events (st_db s) !! k) as Hk1'
  by (intros k Hk; apply Hk1; by intros ->).
  + pose proof (consumers_keep_done _ _ _ _ _ _ _ (con_Name c) (rcd_EventID record) Hcs Hrun
  (Hd1 eq_refl)) as Hkeep.
  apply IH in Hrun as (Ho & Hk & Hd). split_and!; [congruence| |].
  * intros k Hne. rewrite Hk, Hk1'; done.
  * intros Hr c' [->|Hin]%elem_of_cons; auto.
  + injection Hrun as <- <-. by split_and!.
Qed.

(** ** A record *)

Lemma markFailed_inv record cause e s r s' :
  markFailed record cause e s = (r, s') ->
  (exists err, r = Err err) /\ only_row (rcd_ID record) (st_db s) (st_db s') /\
  db_consumer_events (st_db s') = db_consumer_events (st_db s) /\
  records_kept (st_db s) (st_db s').
Proof.
  unfold markFailed, mbind, Go_bind. intros Hrun.
  destruct (map_err _ _ e s) as [r1 s1] eqn:Hm.
  apply map_err_case in Hm as (r0 & Ha & _).
  assert (records_kept (st_db s) (st_db s1)) as Hkept
  by (eapply admin_outbox_kept; [|exact Ha]; autounfold with seatd; auto with seatd).
  apply admin_outbox_inv in Ha as (Ho & Hc & _).
  destruct r1; injection Hrun as <- <-; eauto.
Qed.

Lemma retryOrFail_inv w record cause e s r s' :
  retryOrFail conv w record cause e s = (r, s') ->
  (exists err, r = Err err) /\ only_row (rcd_ID record) (st_db s) (st_db s') /\
  db_consumer_events (st_db s') = db_consumer_events (st_db s) /\
  records_kept (st_db s) (st_db s').
Proof.
  unfold retryOrFail. destruct (wk_maxAttempts w <=? rcd_Attempts record); [apply markFailed_inv|].
  unfold mbind, Go_bind. intros Hrun.
  destruct (map_err _ _ e s) as [r1 s1] eqn:Hm.
  apply map_err_case in Hm as (r0 & Ha & _).
  assert (records_kept (st_db s) (st_db s1)) as Hkept
  by (eapply admin_outbox_kept; [|exact Ha]; autounfold with seatd; auto with seatd).
  apply admin_outbox_inv in Ha as (Ho & Hc & _).
  destruct r1; injection Hrun as <- <-; eauto.
Qed.

Lemma markProcessed_inv record e s r s' :
  markProcessed record e s = (r, s') ->
  only_row (rcd_ID record) (st_db s) (st_db s') /\
  db_consumer_events (st_db s') = db_consumer_events (st_db s) /\
  records_kept (st_db s) (st_db s') /\
  (r = Ok tt -> forall x, db_outbox (st_db s) !! rcd_ID record = Some x ->
   exists x', db_outbox (st_db s') !! rcd_ID record = Some x' /\ obx_Status x' = "processed").
Proof.
  intros Ha.
  assert (records_kept (st_db s) (st_db s')) as Hkept
  by (eapply admin_outbox_kept; [|exact Ha]; autounfold with seatd; auto with seatd).
  apply admin_outbox_inv in Ha as (Ho & Hc & Hset). split_and!; [done..|].
  intros Hr x Hx. apply Hset in Hr as (now & ->). rewrite Hx. eexists. done.
Qed.

(** The consumers a worker may hand a record to are lawful. *)
Definition lawful_worker (w : Worker) : Prop := forall record, Forall Lawful (record_consumers w record).

(** Processing touches the record's row and its event's consumer rows only; a
success means the record and each of its consumers are processed. *)
Lemma processRecord_inv w record e s r s' :
  lawful_worker w -> processRecord conv w record e s = (r, s') ->
  only_row (rcd_ID record) (st_db s) (st_db s') /\
  (forall k, k.2 <> rcd_EventID record ->
   db_consumer_events (st_db s') !! k = db_consumer_events (st_db s) !! k) /\
  records_kept (st_db s) (st_db s') /\
  (r = Ok tt ->
   (exists event, Envelope_of_json (rcd_Payload record) = Some event) /\
   (forall c, c ∈ record_consumers w record ->
  consumer_done (st_db s') (con_Name c) (rcd_EventID record)) /\
   (forall x, db_outbox (st_db s) !! rcd_ID record = Some x ->
  exists x', db_outbox (st_db s') !! rcd_ID record = Some x' /\ obx_Status x' = "processed")).
Proof.
  intros Hlaw Hrun. unfold processRecord in Hrun.
  destruct (Envelope_of_json (rcd_Payload record)) as [event|].
  2: { apply markFailed_inv in Hrun as ((err & ->) & Ho & Hc & Hk). split_and!; [done| |done..].
   intros k _. by rewrite Hc. }
  rewrite attempt_bind in Hrun. destruct (for_each _ _ e s) as [[[]|err] s1] eqn:Hf;
  apply consumers_inv in Hf as (Hob & Hce & Hdone); try apply Hlaw;
  pose proof (records_kept_same _ _ Hob) as Hk1.
  - apply markProcessed_inv in Hrun as (Ho & Hc & Hk & Hset). split_and!.
  + etransitivity; [by apply only_row_same|done].
  + intros k Hne. by rewrite Hc, Hce.
  + by etransitivity.
  + intros Hr. split_and!; [eauto| |rewrite <- Hob; by apply Hset].
  intros c Hin. destruct (Hdone eq_refl c Hin) as (x & Hx & Hp). exists x. by rewrite Hc.
  - apply retryOrFail_inv in Hrun as ((err' & ->) & Ho & Hc & Hk). split_and!; [| | |done].
  + etransitivity; [by apply only_row_same|done].
  + intros k Hne. by rewrite Hc, Hce.
  + by etransitivity.
Qed.

Lemma processRecord_keeps_done w record e s r s' name ev :
  lawful_worker w -> processRecord conv w record e s = (r, s') ->
  consumer_done (st_db s) name ev -> consumer_done (st_db s') name ev.
Proof.
  intros Hlaw Hrun Hdone. unfold processRecord in Hrun.
  destruct (Envelope_of_json (rcd_Payload record)) as [event|].
  2: { apply markFailed_inv in Hrun as (_ & _ & Hc & _). unfold consumer_done. by rewrite Hc. }
  rewrite attempt_bind in Hrun. destruct (for_each _ _ e s) as [r1 s1] eqn:Hf.
  eapply consumers_keep_done in Hf; [|apply Hlaw|exact Hdone].
  assert (db_consumer_events (st_db s') = db_consumer_events (st_db s1)) as Hc.
  { destruct r1; [by apply markProcessed_inv in Hrun as (_ & ? & _)|].
  by apply retryOrFail_inv in Hrun as (_ & _ & ? & _). }
  unfold consumer_done. by rewrite Hc.
Qed.

Lemma process_all_keeps_done w records e s r s' name ev :
  lawful_worker w -> process_all conv w records e s = (r, s') ->
  consumer_done (st_db s) name ev -> consumer_done (st_db s') name ev.
Proof.
  intros Hlaw. revert s r. induction records as [|record rest IH]; intros s r Hrun Hd.
  - by injection Hrun as _ <-.
  - simpl in Hrun. rewrite attempt_bind in Hrun.
  destruct (processRecord conv w record e s) as [r1 s1] eqn:Hp.
  eapply processRecord_keeps_done in Hp; [|done|exact Hd].
  unfold mbind, Go_bind in Hrun.
  destruct (process_all conv w rest e s1) as [[first|err] s2] eqn:Hrest; injection Hrun as _ <-; eauto.
Qed.

Lemma process_all_kept w records e s r s' :
  lawful_worker w -> process_all conv w records e s = (r, s') -> records_kept (st_db s) (st_db s').
Proof.
  intros Hlaw. revert s r. induction records as [|record rest IH]; intros s r Hrun.
  - by injection Hrun as _ <-.
  - simpl in Hrun. rewrite attempt_bind in Hrun.
  destruct (processRecord conv w record e s) as [r1 s1] eqn:Hp.
  apply processRecord_inv in Hp as (_ & _ & Hk & _); [|done].
  etransitivity; [exact Hk|]. unfold mbind, Go_bind in Hrun.
  destruct (process_all conv w rest e s1) as [[first|err] s2] eqn:Hrest; injection Hrun as _ <-; eauto.
Qed.
Lemma ProcessBatch_kept w schedule e s r s' :
  outbox_keyed (st_db s) -> lawful_worker w -> ProcessBatch conv w schedule e s = (r, s') ->
  records_kept (st_db s) (st_db s').
Proof.
  intros Hkeyed Hlaw Hb. unfold ProcessBatch, mbind at 1, Go_bind at 1 in Hb.
  destruct (claim w e s) as [[records|err] s1] eqn:Hc; apply claim_records in Hc as [Hk _]; try done.
  - unfold mbind, Go_bind in Hb.
  destruct (process_all conv w (schedule records) e s1) as [r2 s2] eqn:Hp.
  apply process_all_kept in Hp; [|done].
  assert (records_kept (st_db s) (st_db s2)) as Hks by (by etransitivity).
  destruct r2; by injection Hb as _ <-.
  - by injection Hb as _ <-.
Qed.

Lemma records_kept_keyed d d' : outbox_keyed d -> records_kept d d' -> outbox_keyed d'.
Proof.
  intros Hk [Hkeep Hnew] k r Hr. destruct (db_outbox d !! k) as [x|] eqn:Hx.
  - destruct (Hkeep _ _ Hx) as (r' & Hr' & (Hid & _)). rewrite Hr in Hr'. injection Hr' as ->.
  rewrite Hid. by apply Hk.
  - apply Hnew in Hx. congruence.
Qed.

Lemma Run_kept fuel w schedule cancelled n e s r s' :
  outbox_keyed (st_db s) -> lawful_worker w -> Run conv fuel w schedule cancelled n e s = (r, s') ->
  records_kept (st_db s) (st_db s').
Proof.
  intros Hk Hlaw. revert n s Hk. induction fuel as [|fuel IH]; intros n s Hk Hrun.
  { by injection Hrun as _ <-. }
  cbn [Run] in Hrun. rewrite attempt_bind in Hrun.
  destruct (ProcessBatch conv w schedule e s) as [rb s1] eqn:Hb.
  apply ProcessBatch_kept in Hb; [|done|done].
  assert (forall m, Run conv fuel w schedule cancelled m e s1 = (r, s') -> records_kept (st_db s) (st_db s'))
  as Hgo.
  { intros m Hm. etransitivity; [exact Hb|]. eapply IH; [|exact Hm]. by eapply records_kept_keyed. }
  destruct (match rb with Ok x => x | Err e0 => (0, Some e0) end) as [processed err].
  destruct (from_option _ false err); [by injection Hrun as _ <-|].
  destruct (0 <? processed); [by eapply Hgo|]. destruct (cancelled n); [by injection Hrun as _ <-|].
  by eapply Hgo.
Qed.

(** ** Runs without faults *)

Section Forward.
Context (e : Env) (Hff : fault_free e).

(** A record's end is exactly the outcome's. *)
Definition settled (w : Worker) (record : Record_) (r : result error unit) (now : Z)
  (x : OutboxRecord) : OutboxRecord :=
    match r with
    | Ok _ => processed_outbox now x
    | Err err =>
    if bool_decide (is_Some (Envelope_of_json (rcd_Payload record)))
   && (rcd_Attempts record <? wk_maxAttempts w)
    then retried_outbox (Milliseconds (backoff conv w (rcd_Attempts record))) (error_text err) now x
    else failed_outbox (error_text err) now x
    end.

Lemma admin_outbox_run id set s x :
    db_outbox (st_db s) !! id = Some x ->
    exists s', adminExec (update_outbox id set) e s = (Ok tt, s') /\
  st_db s' = set_outbox (<[id := set (pg_time (env_pgclock e (st_tick s))) x]> (db_outbox (st_db s))) (st_db s).
Proof. intros Hx. by apply adminExec_run, update_outbox_run. Qed.

Lemma markFailed_run record cause s x :
    db_outbox (st_db s) !! rcd_ID record = Some x ->
    exists s', markFailed record cause e s = (Err cause, s') /\
  exists now, db_outbox (st_db s') !! rcd_ID record = Some (failed_outbox (error_text cause) now x).
Proof.
  intros Hx. destruct (admin_outbox_run _ (failed_outbox (error_text cause)) _ _ Hx) as (s' & Hr & Hd).
  exists s'. split.
  - unfold markFailed. erewrite bind_run; [|by apply map_err_run]. done.
  - eexists. rewrite Hd. simpl. by rewrite lookup_insert_eq.
Qed.

Lemma retryOrFail_run w record cause s x :
    db_outbox (st_db s) !! rcd_ID record = Some x ->
    exists s', retryOrFail conv w record cause e s = (Err cause, s') /\
  exists now, db_outbox (st_db s') !! rcd_ID record = Some
    (if rcd_Attempts record <? wk_maxAttempts w
     then retried_outbox (Milliseconds (backoff conv w (rcd_Attempts record))) (error_text cause) now x
     else failed_outbox (error_text cause) now x).
Proof.
    intros Hx. unfold retryOrFail. rewrite Z.ltb_antisym.
    destruct (wk_maxAttempts w <=? rcd_Attempts record); [by apply markFailed_run|].
    destruct (admin_outbox_run _ (retried_outbox (Milliseconds (backoff conv w (rcd_Attempts record)))
  (error_text cause)) _ _ Hx) as (s' & Hr & Hd).
    exists s'. split.
    - erewrite bind_run; [|by apply map_err_run]. done.
    - eexists. rewrite Hd. simpl. by rewrite lookup_insert_eq.
Qed.

Lemma markProcessed_run record s x :
    db_outbox (st_db s) !! rcd_ID record = Some x ->
    exists s', markProcessed record e s = (Ok tt, s') /\
  exists now, st_db s' = set_outbox (<[rcd_ID record := processed_outbox now x]> (db_outbox (st_db s))) (st_db s).
Proof. intros Hx. destruct (admin_outbox_run _ processed_outbox _ _ Hx) as (s' & Hr & Hd). eauto. Qed.

Lemma processRecord_settles w record s x r s' :
  lawful_worker w -> db_outbox (st_db s) !! rcd_ID record = Some x ->
  processRecord conv w record e s = (r, s') ->
  exists now, db_outbox (st_db s') !! rcd_ID record = Some (settled w record r now x).
Proof.
    intros Hlaw Hx Hrun. unfold processRecord in Hrun. unfold settled.
    destruct (Envelope_of_json (rcd_Payload record)) as [event|].
    - rewrite attempt_bind in Hrun. destruct (for_each _ _ e s) as [[[]|err] s1] eqn:Hf;
    apply consumers_inv in Hf as (Hob & _ & _); try apply Hlaw; rewrite <- Hob in Hx.
  + destruct (markProcessed_run _ _ _ Hx) as (s2 & Hrun2 & now & Hd). rewrite Hrun in Hrun2.
    injection Hrun2 as -> ->. exists now. rewrite Hd. simpl. by rewrite lookup_insert_eq.
  + destruct (retryOrFail_run w _ err _ _ Hx) as (s2 & Hrun2 & now & Hd). rewrite Hrun in Hrun2.
    injection Hrun2 as -> ->. exists now. rewrite bool_decide_true by eauto. exact Hd.
    - edestruct (markFailed_run record) as (s2 & Hrun2 & now & Hd); [exact Hx|].
  rewrite Hrun in Hrun2. injection Hrun2 as -> ->. exists now.
  rewrite bool_decide_false; [exact Hd|]. exact is_Some_None.
Qed.

(** ** Redelivery *)

(** ** Delivery *)

(** A consumer that always succeeds, and leaves the tables its bookkeeping needs. *)
Definition accepts (c : Consumer) : Prop :=
  con_Name c <> "" /\
  forall ev s, exists s', con_Handle c ev e s = (Ok tt, s') /\ db_events (st_db s') = db_events (st_db s).

Lemma startConsumer_run record name s :
  name <> "" -> is_Some (db_events (st_db s) !! rcd_EventID record) ->
  is_Some (db_outbox (st_db s) !! rcd_ID record) ->
  exists b s', startConsumer record name e s = (Ok b, s') /\ db_events (st_db s') = db_events (st_db s).
Proof.
    intros Hname [ev Hev] [x Hx]. unfold startConsumer.
    destruct (db_consumer_events (st_db s) !! (name, rcd_EventID record)) as [row|] eqn:Hrow.
    - exists (negb (String.eqb (cev_Status row) "processed")). eexists.
  erewrite bind_run; [|by apply map_err_run, BeginTx_run].
  erewrite bind_run; [|by apply or_rollback_run, SetContext_run].
  rewrite attempt_bind, (exec_run_Err e Hff _ _ NoRows) by (unfold insert_consumer_event; simpl; by rewrite Hrow).
  simpl. erewrite bind_run; [|done].
  erewrite bind_run; [|erewrite bind_run; [|apply or_rollback_run, exec_run; [done|]];
    [done|unfold select_one; simpl; by rewrite Hrow]].
  unfold StatusProcessed. destruct (String.eqb (cev_Status row) "processed");
    (erewrite bind_run; [|by apply map_err_run, Commit_run]; by split).
    - exists true. eexists.
  erewrite bind_run; [|by apply map_err_run, BeginTx_run].
  erewrite bind_run; [|by apply or_rollback_run, SetContext_run].
  rewrite attempt_bind. erewrite exec_run; [|done|].
  2: { unfold insert_consumer_event. simpl. rewrite Hrow. unfold consumer_event_ok, consumer_event_checks.
   simpl. rewrite Hev, Hx. destruct name; [done|]. done. }
  erewrite bind_run; [|done]. erewrite bind_run; [|done]. cbn match.
  erewrite bind_run; [|by apply map_err_run, Commit_run]. by split.
Qed.

Lemma markConsumerProcessed_run name ev s :
    exists s', markConsumerProcessed name ev e s = (Ok tt, s') /\
  db_events (st_db s') = db_events (st_db s) /\ db_outbox (st_db s') = db_outbox (st_db s).
Proof.
    set (d := st_db s). set (now := pg_time (env_pgclock e (st_tick s))).
    assert (exists d', update_consumer name ev (fun now => with_consumer_status "processed" (Some now) None)
  now (env_uuid e (S (S (st_tick s)))) d = Ok (tt, d') /\ db_events d' = db_events d /\ db_outbox d' = db_outbox d)
  as (d' & Hq & He & Ho).
    { unfold update_consumer. destruct (db_consumer_events d !! (name, ev)); by eexists. }
    destruct (adminExec_run _ e s d' Hff Hq) as (s' & Hrun & Hd). exists s'. rewrite Hd.
    split; [|done]. unfold markConsumerProcessed. by apply map_err_run.
Qed.

Lemma handleConsumer_run record event c s :
    Lawful c -> accepts c -> is_Some (db_events (st_db s) !! rcd_EventID record) ->
    is_Some (db_outbox (st_db s) !! rcd_ID record) ->
    exists s', handleConsumer record event c e s = (Ok tt, s') /\
  db_events (st_db s') = db_events (st_db s) /\ db_outbox (st_db s') = db_outbox (st_db s).
Proof.
  intros Hlaw [Hname Hacc] Hev Hob.
  destruct (startConsumer_run _ _ _ Hname Hev Hob) as (b & s1 & Hst & He1).
  pose proof (startConsumer_inv _ _ _ _ _ _ Hst) as ([Ho1 _] & _).
  unfold handleConsumer. erewrite bind_run by exact Hst. destruct b; [|by exists s1].
  rewrite attempt_bind. destruct (Hacc event s1) as (s2 & Hh & He2). rewrite Hh.
  apply Hlaw in Hh as [Ho2 _].
  destruct (markConsumerProcessed_run (con_Name c) (rcd_EventID record) s2) as (s3 & Hm & He3 & Ho3).
  exists s3. split_and!; [done|congruence..].
Qed.

Lemma consumers_run record event cs s :
    Forall Lawful cs -> Forall accepts cs -> is_Some (db_events (st_db s) !! rcd_EventID record) ->
    is_Some (db_outbox (st_db s) !! rcd_ID record) ->
    exists s', for_each cs (handleConsumer record event) e s = (Ok tt, s') /\
  db_events (st_db s') = db_events (st_db s) /\ db_outbox (st_db s') = db_outbox (st_db s).
Proof.
  intros Hlaw. revert s. induction Hlaw as [|c cs Hc Hcs IH]; intros s Hacc Hev Hob; [by exists s|].
  apply Forall_cons_1 in Hacc as [Ha Hacc].
  destruct (handleConsumer_run record event c s Hc Ha Hev Hob) as (s1 & Hh & He1 & Ho1).
  destruct (IH s1 Hacc) as (s2 & Hrest & He2 & Ho2); [by rewrite He1|by rewrite Ho1|].
  exists s2. simpl. erewrite bind_run by exact Hh. split_and!; [done|congruence..].
Qed.

Lemma processRecord_run w record s :
  lawful_worker w -> Forall accepts (record_consumers w record) ->
  is_Some (Envelope_of_json (rcd_Payload record)) ->
  is_Some (db_events (st_db s) !! rcd_EventID record) ->
  is_Some (db_outbox (st_db s) !! rcd_ID record) ->
  exists s', processRecord conv w record e s = (Ok tt, s') /\ db_events (st_db s') = db_events (st_db s).
Proof.
  intros Hlaw Hacc [event Hdec] Hev Hob. unfold processRecord. rewrite Hdec.
  destruct (consumers_run record event _ _ (Hlaw record) Hacc Hev Hob) as (s1 & Hrun & He1 & Ho1).
  rewrite attempt_bind, Hrun. rewrite <- Ho1 in Hob. destruct Hob as [x Hx].
  destruct (markProcessed_run _ _ _ Hx) as (s2 & Hrun2 & now & Hd). exists s2. split; [done|].
  by rewrite Hd.
Qed.

(** A row that says processed keeps saying so while others are processed. *)
Lemma process_all_run w records s :
    lawful_worker w ->
    (forall record, record ∈ records -> Forall accepts (record_consumers w record) /\
   is_Some (Envelope_of_json (rcd_Payload record)) /\
   is_Some (db_events (st_db s) !! rcd_EventID record) /\
   is_Some (db_outbox (st_db s) !! rcd_ID record)) ->
    exists s', process_all conv w records e s = (Ok None, s') /\
  (forall k, k ∉ rcd_ID <$> records -> db_outbox (st_db s') !! k = db_outbox (st_db s) !! k) /\
  (forall record, record ∈ records ->
     (exists x, db_outbox (st_db s') !! rcd_ID record = Some x /\ obx_Status x = "processed") /\
     forall c, c ∈ record_consumers w record ->
   consumer_done (st_db s') (con_Name c) (rcd_EventID record)).
Proof.
    intros Hlaw. revert s. induction records as [|record rest IH]; intros s Hall.
    { exists s. split_and!; [done..|]. by intros record ?%not_elem_of_nil. }
    destruct (Hall record) as (Hacc & Hdec & Hev & Hob); [by left|].
    destruct (processRecord_run w record s Hlaw Hacc Hdec Hev Hob) as (s1 & Hp & He1).
    pose proof (processRecord_inv _ _ _ _ _ _ Hlaw Hp) as (Honly & _ & [Hkeep _] & Hdone).
    destruct (Hdone eq_refl) as (_ & Hcd & Hst). destruct Hob as [x0 Hx0].
    destruct (Hst _ Hx0) as (x1 & Hx1 & Hp1).
    destruct (IH s1) as (s2 & Hrest & Hoth & Hall2).
    { intros r Hr. destruct (Hall r) as (? & ? & ? & Hob); [by right|]. rewrite He1. split_and!; [done..|].
  destruct Hob as [y Hy]. destruct (Hkeep _ _ Hy) as (y' & ? & _). by exists y'. }
    exists s2. simpl. rewrite attempt_bind, Hp. erewrite bind_run by exact Hrest. split_and!; [done| |].
    - intros k [Hk1 Hk2]%not_elem_of_cons. rewrite Hoth, Honly; done.
    - intros r [->|Hr]%elem_of_cons; [|by apply Hall2]. split.
  2: { intros c Hc. eapply process_all_keeps_done; [done|exact Hrest|by apply Hcd]. }
  destruct (decide (rcd_ID record ∈ rcd_ID <$> rest)) as [Hin|Hnin].
  + apply list_elem_of_fmap in Hin as (r & Heq & Hr). rewrite Heq. by apply (Hall2 r Hr).
  + exists x1. by rewrite Hoth.
Qed.
End Forward.
End Processing.
