(* ===== verification/Pipeline.v ===== *)
(** From the operational commands to the consumers: what the commands write is
    deliverable, and a worker's batch delivers it. *)

From S2P Require Import Prelude Json Crypto Schema GoTx Store Queries Events Operations Guest Outbox TxFacts CommandFacts FloorSpec GuestFacts Commands History EventLog Idempotency OutboxFacts Delivery.
#[local] Open Scope string_scope.
#[local] Open Scope Z_scope.
#[local] Open Scope list_scope.

(** A record that a worker can hand on: its event is logged, its payload decodes
    and its attempts have not run out of the column's range. *)
Definition deliverable_row (d : Db) (k : uuid) (r : OutboxRecord) : Prop :=
  obx_ID r = k /\ is_Some (db_events d !! obx_EventID r) /\
  is_Some (Envelope_of_json (obx_Payload r)) /\ 0 <= obx_Attempts r < int32_max.

Definition deliverable (d : Db) : Prop :=
  forall k r, db_outbox d !! k = Some r -> deliverable_row d k r.

Lemma deliverable_keyed d : deliverable d -> outbox_keyed d.
Proof. intros H k r Hr. by apply H in Hr as [? _]. Qed.

Lemma change_deliverable d d' : deliverable d -> change d d' -> deliverable d'.
Proof.
  intros Hinv [_ He Ho _ _|d2 ev tnow eid time Hst
    (_ & _ & _ & Hf & trace & He & _ & Hob)%logged_frame]; intros k r Hr.
  { rewrite Ho in Hr. apply Hinv in Hr. unfold deliverable_row. by rewrite He. }
  assert (db_events d2 = db_events d /\ db_outbox d2 = db_outbox d /\ in_int32 (ope_EntityVersion ev) = true)
    as (He2 & Ho2 & H32).
  { destruct Hst; match goal with H : reports _ _ _ _ |- _ =>
      destruct H as (_ & _ & Hv & H32 & _); rewrite Hv end; done. }
  eapply outbox_added_only in Hob as [Hold|(dst & _ & ->)]; [..|exact Hr].
  - rewrite Ho2 in Hold. apply Hinv in Hold as (Hk & Hev & Hdec & Hatt).
    split; [done|]. split; [|by split]. rewrite He. rewrite <- He2 in Hev. destruct Hev as [x Hx]. exists x.
    rewrite lookup_insert_ne; [done|congruence].
  - unfold deliverable_row, int32_max. simpl. split_and!; [done| | |done|done].
    + rewrite He, lookup_insert_eq. done.
    + destruct (event_row_describes ev eid time trace H32) as (v & Hv & _). by exists v.
Qed.

Lemma history_deliverable d0 d :
  floor_inv d0 -> deliverable d0 -> history d0 d -> deliverable d.
Proof.
  intros Hi Ho H. induction H as [|d d' c e r H IH Hr]; [done|].
  apply run_outcome in Hr as [Hc _]; [|by eapply history_floor_inv].
  by eapply change_deliverable.
Qed.

(** ** A batch *)

Section Batch.
Context `{ErrorTexts} (conv : Z -> Z).

Lemma to_claim_attempts w now d r :
  deliverable d -> r ∈ to_claim w now d -> exists n, int4_succ (obx_Attempts r) = Ok n.
Proof.
  intros Hd ((k & Hk) & _)%to_claim_elem. apply Hd in Hk as (_ & _ & _ & Hn).
  exists (obx_Attempts r + 1). apply int4_succ_Ok. unfold int32_min, int32_max in *. lia.
Qed.

Lemma to_claim_fits w now d k r :
  Z.of_nat (size (db_outbox d)) <= wk_batchSize w -> db_outbox d !! k = Some r ->
  claimable w now r = true -> r ∈ to_claim w now d.
Proof.
  intros Hfit Hk Hc. assert (r ∈ rows db_outbox d (claimable w now) by_created) as Hin
  by (apply rows_elem; eauto).
  unfold to_claim. rewrite take_ge; [done|]. unfold rows.
  rewrite sort_by_perm. transitivity (length (snd <$> map_to_list (db_outbox d))).
  - apply List.filter_length_le.
  - rewrite length_fmap, length_map_to_list. lia.
Qed.

Lemma batch_run w schedule e s :
  fault_free e -> lawful_worker w -> (forall record, Forall (accepts e) (record_consumers w record)) ->
  (forall l, schedule l ≡ₚ l) -> deliverable (st_db s) ->
  exists n s', ProcessBatch conv w schedule e s = (Ok (n, None), s') /\
  forall r, r ∈ to_claim w (pg_time (env_pgclock e (st_tick s))) (st_db s) ->
  (exists r', db_outbox (st_db s') !! obx_ID r = Some r' /\ obx_Status r' = "processed") /\
  forall c, c ∈ record_consumers w (record_of r) ->
  consumer_done (st_db s') (con_Name c) (obx_EventID r).
Proof.
  intros Hff Hlaw Hacc Hsched Hd. set (now := pg_time (env_pgclock e (st_tick s))).
  destruct (claim_rows_run w now (to_claim w now (st_db s)) (st_db s)) as (records & d & Hq).
  { intros r. by apply to_claim_attempts. }
  destruct (claim_run w e s records d Hff Hq) as (s1 & Hclaim & Hd1).
  pose proof (claim_records _ _ _ _ _ (deliverable_keyed _ Hd) Hclaim) as [Hkept Hevs].
  pose proof (claim_rows_spec _ _ _ _ _ _ (NoDup_take_ids _ _ (NoDup_rows_ids _ _ _ (deliverable_keyed _ Hd))) Hq)
  as (_ & Hids & Hall & _). fold (to_claim w now (st_db s)) in *.
  assert (forall record, record ∈ records -> exists r', record = record_of r' /\
  is_Some (Envelope_of_json (obx_Payload r')) /\ is_Some (db_events (st_db s) !! obx_EventID r') /\
  is_Some (db_outbox d !! obx_ID r')) as Hrec.
  { intros record Hin. assert (rcd_ID record ∈ obx_ID <$> to_claim w now (st_db s)) as Hm.
  { rewrite <- Hids. apply list_elem_of_fmap. by exists record. }
  eapply claim_rows_members in Hq as (r & r' & Hr & Hc & ->); [|exact Hin].
  exists r'. destruct (Hall r Hr) as (r2 & Hc2 & Hl & _). rewrite Hc in Hc2. injection Hc2 as <-.
  apply claimed_row_spec in Hc as (_ & _ & _ & _ & (-> & _ & _ & -> & _ & -> & _)).
  destruct (to_claim_elem _ _ _ _ Hr) as [(k & Hk) _].
  destruct (Hd _ _ Hk) as (_ & ? & ? & _). split_and!; [done..|]. rewrite Hl. eauto. }
  destruct (process_all_run conv e Hff w (schedule records) s1 Hlaw) as (s2 & Hpa & _ & Hdone).
  { intros record Hin. rewrite Hsched in Hin. destruct (Hrec _ Hin) as (r' & -> & ? & ? & ?).
  rewrite Hevs, Hd1. simpl. by split_and!. }
  exists (Z.of_nat (length records)), s2. split.
  - unfold ProcessBatch. erewrite bind_run by exact Hclaim. by erewrite bind_run by exact Hpa.
  - intros r Hr. destruct (Hall r Hr) as (r' & Hc & _ & Hin).
  apply claimed_row_spec in Hc as (_ & _ & _ & _ & Hid & _ & _ & Hev & Htp & _ & Hdst & _).
  rewrite <- (Hsched records) in Hin. destruct (Hdone _ Hin) as [Hp Hcs]. simpl in *.
  rewrite Hid in Hp. rewrite Hev in Hcs. split; [done|]. intros c Hcin. apply Hcs.
  unfold record_consumers in *. simpl in *. by rewrite Hdst, Htp.
Qed.
End Batch.
