(* ===== verification/OutboxTheorems.v ===== *)
(** What the outbox worker of [internal/outbox/outbox.go] promises: which records
    it claims, what each outcome leaves behind, that redelivery does not handle
    an event twice, and that a batch delivers what the commands wrote. *)

From S2P Require Import Prelude Json Crypto Schema GoTx Store Queries Events Operations Guest Outbox TxFacts CommandFacts FloorSpec GuestFacts Commands History EventLog Idempotency Samples OutboxFacts Delivery Pipeline.
#[local] Open Scope string_scope.
#[local] Open Scope Z_scope.
#[local] Open Scope list_scope.

(** ** Samples *)

Definition sample_config (claim_timeout : Z) : Config :=
  {| cfg_InstanceID := ""; cfg_BatchSize := 0; cfg_Concurrency := 0; cfg_MaxAttempts := 0;
     cfg_PollInterval := 0; cfg_BackoffBase := 0; cfg_BackoffMax := 0;
     cfg_ClaimTimeout := claim_timeout |}.

Definition audit_worker : Worker :=
  NewWorker [("audit.operations", [ConsumerFunc "audit.log" None])] (sample_config 0) "worker-1".
Definition broken_worker : Worker :=
  NewWorker [("audit.operations", [ConsumerFunc "audit.log" (Some (fun _ => fail (Errorf "boom")))])]
    (sample_config 0) "worker-2".

(** Clocks that stand still. *)
Definition still (base : N) (now : Z) : Env :=
  {| env_clock := fun _ => now; env_pgclock := fun _ => now;
     env_uuid := fun t => (base + N.of_nat t)%N; env_rand := fun _ _ => 0%N;
     env_fault := fun _ => None; env_traceparent := ""; env_tracestate := "" |}.

Lemma one_consumer w name dest fn cfg id (P : Consumer -> Prop) :
  w = NewWorker [(dest, [ConsumerFunc name fn])] cfg id -> P (ConsumerFunc name fn) ->
  forall record, Forall P (record_consumers w record).
Proof.
  intros -> Hl record. unfold record_consumers. simpl.
  destruct (String.eqb dest (rcd_Destination record)), (String.eqb dest (rcd_Topic record)); simpl;
    first [by apply Forall_nil_2|by apply Forall_singleton].
Qed.

Lemma audit_lawful : lawful_worker audit_worker.
Proof. intros record. eapply one_consumer; [reflexivity|apply _]. Qed.

Lemma broken_lawful : lawful_worker broken_worker.
Proof. intros record. eapply one_consumer; [reflexivity|]. by intros ev e s r s' [= _ <-]. Qed.

Lemma audit_accepts e record : Forall (accepts e) (record_consumers audit_worker record).
Proof.
  eapply one_consumer; [reflexivity|]. split; [done|]. intros ev s. by exists s.
Qed.

Lemma sample_deliverable : deliverable sample_db.
Proof. intros k r H. simpl in H. by rewrite lookup_empty in H. Qed.

Lemma occupied_deliverable : deliverable occupied_db.
Proof. exact (history_deliverable _ _ sample_floor_inv sample_deliverable occupied_history). Qed.

Lemma requested_keyed : outbox_keyed requested_db.
Proof.
  apply deliverable_keyed, (history_deliverable _ _ sample_floor_inv sample_deliverable).
  apply after_command_history, occupied_history.
Qed.

Definition sample_envelope : Envelope :=
  {| env_ID := 107%N; env_Type := TypeTableOccupied; env_SchemaVersion := SchemaVersion;
     env_OccurredAt := 1000; env_OrganisationID := 1%N; env_LocationID := 2%N;
     env_ActorRef := "user:1"; env_DeviceID := None; env_EntityType := "table";
     env_EntityID := 3%N; env_EntityVersion := Some 2; env_CommandID := None;
     env_CorrelationID := None; env_Traceparent := ""; env_Tracestate := "";
     env_Data := JObj [] |}.

(** What amd64 gives for a float beyond the range of [int64]. *)
Definition amd64_conv (_ : Z) : Z := int64_min.

Definition one_by_one (l : list Record_) : list Record_ := l.

Definition delivered_db : Db :=
  snd (run (ProcessBatch amd64_conv audit_worker one_by_one) (calm 400 4000000000) occupied_db).

(** The records the first claim of a worker returns. *)
Definition first_claim (w : Worker) (d : Db) : list Record_ :=
  match fst (run (claim w) (calm 400 4000000000) d) with Ok l => l | Err _ => [] end.

Definition sample_record : Record_ :=
  List.hd {| rcd_ID := 0%N; rcd_OrganisationID := 0%N; rcd_LocationID := 0%N; rcd_EventID := 0%N;
        rcd_Destination := ""; rcd_Topic := ""; rcd_Payload := JNull; rcd_Attempts := 0;
        rcd_CreatedAt := 0 |} (first_claim audit_worker occupied_db).

(** ** Claiming *)

(** A claim that succeeds takes the oldest eligible records, at most a batch of
    them and fewer only when there are no more; each becomes processing, locked
    by this worker since the statement's time, with one more attempt, and is
    returned; every other row is unchanged. *)
Theorem claim_takes_oldest w e d records d' (Hkeyed : outbox_keyed d)
    (Hrun : run (claim w) e d = (Ok records, d')) :
  exists now taken, (exists t, now = pg_time (env_pgclock e t)) /\
    map rcd_ID records = obx_ID <$> taken /\ NoDup (obx_ID <$> taken) /\
    (length taken <= Z.to_nat (wk_batchSize w))%nat /\
    (forall r, r ∈ taken -> db_outbox d !! obx_ID r = Some r /\ claimable w now r = true /\
       exists r', db_outbox d' !! obx_ID r = Some r' /\ record_of r' ∈ records /\
         obx_Status r' = "processing" /\ obx_Attempts r' = obx_Attempts r + 1 /\
         obx_LockedAt r' = Some now /\ obx_LockedBy r' = Some (wk_instanceID w) /\ same_record r r') /\
    (forall k r, db_outbox d !! k = Some r -> claimable w now r = true -> r ∉ taken ->
       length taken = Z.to_nat (wk_batchSize w) /\ forall t, t ∈ taken -> by_created t r = true) /\
    (forall k, k ∉ obx_ID <$> taken -> db_outbox d' !! k = db_outbox d !! k).
Proof.
  unfold run in Hrun. destruct (claim w e (start d)) as [r s'] eqn:Hc. injection Hrun as -> <-.
  apply claim_inv in Hc as [(err & [=] & _)|(now & rs & Hq & Ht & [[= ->]|[(err & [=]) _]])].
  simpl in *. assert (NoDup (obx_ID <$> to_claim w now d)) as Hnd
    by (apply NoDup_take_ids, NoDup_rows_ids, Hkeyed).
  apply claim_rows_spec in Hq as (_ & Hids & Hall & Hoth); [|done].
  exists now, (to_claim w now d). split_and!; [done..| | | |done].
  - unfold to_claim. rewrite length_take. lia.
  - intros x Hx. pose proof (to_claim_elem _ _ _ _ Hx) as [(k & Hk) Hcl].
    rewrite (Hkeyed _ _ Hk) in *. split_and!; [done..|].
    destruct (Hall x Hx) as (x' & Hrow & Hl & Hin). rewrite (Hkeyed _ _ Hk) in Hl.
    apply claimed_row_spec in Hrow as (? & ? & ? & ? & ?). exists x'. by split_and!.
  - intros k x Hk Hcl Hn. apply (to_claim_rest w now); eauto.
Qed.

Lemma claim_takes_oldest_witness : exists records d',
  run (claim audit_worker) (calm 400 4000000000) occupied_db = (Ok records, d') /\
  exists now taken, map rcd_ID records = obx_ID <$> taken /\ length taken = 1%nat /\
    exists t, now = pg_time (env_pgclock (calm 400 4000000000) t).
Proof.
  assert (exists records d', run (claim audit_worker) (calm 400 4000000000) occupied_db = (Ok records, d')
    /\ length records = 1%nat) as (records & d' & Hrun & Hlen).
  { vm_compute. do 2 eexists. split; reflexivity. }
  exists records, d'. split; [exact Hrun|].
  destruct (claim_takes_oldest _ _ _ _ _ (deliverable_keyed _ occupied_deliverable) Hrun)
    as (now & taken & Ht & Hids & _).
  exists now, taken. split; [exact Hids|]. split; [|exact Ht].
  rewrite <- Hlen. rewrite <- (length_map rcd_ID records), Hids. by rewrite length_fmap.
Defined.

(** Two workers never hold the same record: what one claim took, a later claim
    does not take before the claim timeout has passed. *)
Theorem claims_disjoint w1 w2 e1 e2 d rs1 d1 rs2 d2 (Hkeyed : outbox_keyed d)
    (H1 : run (claim w1) e1 d = (Ok rs1, d1)) (H2 : run (claim w2) e2 d1 = (Ok rs2, d2))
    (Hclock : forall t1 t2, pg_time (env_pgclock e2 t2)
       <= pg_time (env_pgclock e1 t1) + Milliseconds (wk_claimTimeout w2) * 1000000) :
  forall r1 r2, r1 ∈ rs1 -> r2 ∈ rs2 -> rcd_ID r1 <> rcd_ID r2.
Proof.
  unfold run in *.
  destruct (claim w1 e1 (start d)) as [x1 s1] eqn:Hc1. injection H1 as -> <-.
  destruct (claim w2 e2 (start (st_db s1))) as [x2 s2] eqn:Hc2. injection H2 as -> <-.
  apply claim_inv in Hc1 as [(err & [=] & _)|(now1 & rs & Hq1 & (t1 & ->) & [[= ->]|[(err & [=]) _]])].
  apply claim_inv in Hc2 as [(err & [=] & _)|(now2 & rs' & Hq2 & (t2 & ->) & [[= ->]|[(err & [=]) _]])].
  simpl in *. pose proof (NoDup_take_ids _ (Z.to_nat (wk_batchSize w1)) (NoDup_rows_ids _
    (claimable w1 (pg_time (env_pgclock e1 t1))) by_created Hkeyed)) as Hnd.
  pose proof (claim_rows_spec _ _ _ _ _ _ Hnd Hq1) as (_ & _ & Hall & _).
  pose proof (claim_rows_keyed _ _ _ _ _ _ Hnd Hkeyed Hq1) as Hkeyed1.
  intros r1 r2 Hr1 Hr2 Hid.
  destruct (claim_rows_members _ _ _ _ _ _ _ Hq1 Hr1) as (x & x' & Hx & Hcx & ->).
  destruct (claim_rows_members _ _ _ _ _ _ _ Hq2 Hr2) as (y & y' & Hy & Hcy & ->).
  destruct (Hall x Hx) as (x2 & Hcx2 & Hl & _). rewrite Hcx in Hcx2. injection Hcx2 as <-.
  apply claimed_row_spec in Hcx as (Hst & _ & Hlock & _ & (Hxid & _)).
  apply claimed_row_spec in Hcy as (_ & _ & _ & _ & (Hyid & _)).
  pose proof (to_claim_elem _ _ _ _ Hy) as [(k & Hk) Hcl]. simpl in Hid.
  rewrite (Hkeyed1 _ _ Hk) in Hyid. assert (y = x') as -> by congruence.
  by rewrite (locked_unclaimable w2 _ x' _ Hst Hlock (Hclock t1 t2)) in Hcl.
Qed.

Definition claimed_db : Db := snd (run (claim audit_worker) (still 400 4000000000) requested_db).

Lemma claims_disjoint_witness : exists rs1 rs2 d2,
  run (claim audit_worker) (still 400 4000000000) requested_db = (Ok rs1, claimed_db) /\
  run (claim broken_worker) (still 500 5000000000) claimed_db = (Ok rs2, d2) /\
  (forall r1 r2, r1 ∈ rs1 -> r2 ∈ rs2 -> rcd_ID r1 <> rcd_ID r2) /\ length rs1 = 2%nat.
Proof.
  assert (exists rs1, fst (run (claim audit_worker) (still 400 4000000000) requested_db) = Ok rs1 /\
    length rs1 = 2%nat) as (rs1 & H1 & Hlen) by (vm_compute; eexists; split; reflexivity).
  assert (exists rs2, fst (run (claim broken_worker) (still 500 5000000000) claimed_db) = Ok rs2)
    as (rs2 & H2) by (vm_compute; eexists; reflexivity).
  unfold claimed_db in *. destruct (run (claim audit_worker) _ _) as [x1 d1] eqn:Hc1.
  cbn [fst snd] in *. destruct (run (claim broken_worker) _ d1) as [x2 d2] eqn:Hc2. cbn [fst] in H2.
  subst x1 x2. exists rs1, rs2, d2. split; [reflexivity|]. split; [reflexivity|]. split; [|exact Hlen].
  apply (claims_disjoint _ _ _ _ _ _ _ _ _ requested_keyed Hc1 Hc2). intros t1 t2. vm_compute. discriminate.
Defined.

(** ** Redelivery *)

(** An event a consumer has already processed is not handled by it again: the
    run does not depend on the handler, under every pattern of failures. *)
Theorem redelivery_deduplicated `{HT : ErrorTexts} record event name h1 h2 e s
    (Hdone : consumer_done (st_db s) name (rcd_EventID record)) :
  handleConsumer record event {| con_Name := name; con_Handle := h1 |} e s =
  handleConsumer record event {| con_Name := name; con_Handle := h2 |} e s.
Proof.
  unfold handleConsumer. simpl.
  destruct (startConsumer record name e s) as [[[]|err] s1] eqn:Hst;
    [|by rewrite !(bind_run _ _ _ _ _ _ Hst)|by rewrite !(bind_run_Err _ _ _ _ _ _ Hst)].
  apply startConsumer_inv in Hst as (_ & Hkeep & x & Hx & Hne). destruct Hdone as (y & Hy & Hp).
  rewrite (Hkeep _ Hy) in Hx. congruence.
Qed.

Lemma redelivery_deduplicated_witness :
  handleConsumer sample_record sample_envelope
    {| con_Name := "audit.log"; con_Handle := fun _ => mret tt |} (calm 500 5000000000) (start delivered_db) =
  handleConsumer sample_record sample_envelope
    {| con_Name := "audit.log"; con_Handle := fun _ => fail (Errorf "boom") |} (calm 500 5000000000)
    (start delivered_db).
Proof.
  apply redelivery_deduplicated. vm_compute. eexists. split; reflexivity.
Defined.

(** What success means: when processing a record reports no error, its payload
    was an envelope, each of its consumers has processed the event, and the
    record says processed; whatever calls failed before. *)
Theorem success_is_processed `{HT : ErrorTexts} conv w record e s s' (Hlaw : lawful_worker w)
    (Hrun : processRecord conv w record e s = (Ok tt, s')) :
  is_Some (Envelope_of_json (rcd_Payload record)) /\
  (forall c, c ∈ record_consumers w record ->
     consumer_done (st_db s') (con_Name c) (rcd_EventID record)) /\
  (forall x, db_outbox (st_db s) !! rcd_ID record = Some x ->
     exists x', db_outbox (st_db s') !! rcd_ID record = Some x' /\ obx_Status x' = "processed").
Proof.
  apply processRecord_inv in Hrun as (_ & _ & _ & Hok); [|done].
  destruct (Hok eq_refl) as ((event & Hev) & ? & ?). by split_and!.
Qed.

Lemma success_is_processed_witness : exists s',
  processRecord amd64_conv audit_worker sample_record (calm 500 5000000000) (start occupied_db) = (Ok tt, s') /\
  consumer_done (st_db s') "audit.log" 107%N.
Proof.
  assert (fst (processRecord amd64_conv audit_worker sample_record (calm 500 5000000000) (start occupied_db))
    = Ok tt) as Hok by (vm_compute; reflexivity).
  destruct (processRecord amd64_conv audit_worker sample_record _ _) as [r s'] eqn:Hrun.
  cbn [fst] in Hok. subst r. exists s'. split; [reflexivity|].
  destruct (success_is_processed _ _ _ _ _ _ audit_lawful Hrun) as (_ & Hdone & _).
  apply (Hdone (ConsumerFunc "audit.log" None)). vm_compute. left.
Defined.

(** A worker is done with every record it processes: without faults the record
    ends processed when every consumer succeeded; pending again, delayed by the
    backoff, when one failed and attempts are left; and failed when none are, or
    its payload is not an envelope; with the text of the error in it. *)
Theorem process_settles `{HT : ErrorTexts} conv w record e s x r s' (Hff : fault_free e) (Hlaw : lawful_worker w)
    (Hrow : db_outbox (st_db s) !! rcd_ID record = Some x)
    (Hrun : processRecord conv w record e s = (r, s')) :
  exists now, db_outbox (st_db s') !! rcd_ID record = Some (
    match r with
    | Ok _ => processed_outbox now x
    | Err err =>
        if bool_decide (is_Some (Envelope_of_json (rcd_Payload record)))
           && (rcd_Attempts record <? wk_maxAttempts w)
        then retried_outbox (Milliseconds (backoff conv w (rcd_Attempts record))) (error_text err) now x
        else failed_outbox (error_text err) now x
    end).
Proof. exact (processRecord_settles conv e Hff w record s x r s' Hlaw Hrow Hrun). Qed.

Lemma process_settles_witness : exists x s' now,
  processRecord amd64_conv broken_worker sample_record (calm 500 5000000000) (start occupied_db)
    = (Err (Wrap "consumer audit.log handling event 00000000-0000-0000-0000-00000000006b" (Errorf "boom")), s') /\
  db_outbox (st_db s') !! rcd_ID sample_record = Some (retried_outbox 1000
    "consumer audit.log handling event 00000000-0000-0000-0000-00000000006b: boom" now x).
Proof.
  assert (fst (processRecord amd64_conv broken_worker sample_record (calm 500 5000000000) (start occupied_db))
    = Err (Wrap "consumer audit.log handling event 00000000-0000-0000-0000-00000000006b" (Errorf "boom")))
    as Herr by (vm_compute; reflexivity).
  assert (exists x, db_outbox (st_db (start occupied_db)) !! rcd_ID sample_record = Some x) as (x & Hx)
    by (vm_compute; eexists; reflexivity).
  destruct (processRecord amd64_conv broken_worker sample_record _ _) as [r s'] eqn:Hrun.
  cbn [fst] in Herr. subst r.
  destruct (process_settles _ _ _ (calm 500 5000000000) _ _ _ _ (fun _ => eq_refl) broken_lawful Hx Hrun) as (now & Hnow).
  exists x, s', now. split; [reflexivity|]. exact Hnow.
Defined.

(** Nothing is lost: whatever fails, however long the worker runs and in whatever
    order it processes its records, it neither removes nor adds a record, nor
    alters its identity, event, payload or destination, nor lowers its attempts. *)
Theorem run_keeps_records `{HT : ErrorTexts} conv fuel w schedule cancelled e d r d'
    (Hkeyed : outbox_keyed d) (Hlaw : lawful_worker w)
    (Hrun : run (Run conv fuel w schedule cancelled 0) e d = (r, d')) :
  (forall id x, db_outbox d !! id = Some x ->
     exists x', db_outbox d' !! id = Some x' /\ same_record x x') /\
  (forall id, db_outbox d !! id = None -> db_outbox d' !! id = None).
Proof.
  unfold run in Hrun. destruct (Run conv fuel w schedule cancelled 0 e (start d)) as [r1 s'] eqn:Hb.
  injection Hrun as <- <-. exact (Run_kept conv fuel w schedule cancelled 0 e (start d) r1 s' Hkeyed Hlaw Hb).
Qed.

Lemma run_keeps_records_witness : exists r d',
  run (Run amd64_conv 3 broken_worker (@rev Record_) (fun _ => true) 0) (lossy 400 4000000000 3) occupied_db
    = (r, d') /\
  forall id, db_outbox occupied_db !! id = None -> db_outbox d' !! id = None.
Proof.
  destruct (run (Run amd64_conv 3 broken_worker (@rev Record_) (fun _ => true) 0) (lossy 400 4000000000 3)
    occupied_db) as [r d'] eqn:Hrun.
  exists r, d'. split; [reflexivity|].
  exact (proj2 (run_keeps_records _ _ _ _ _ _ _ _ _ (deliverable_keyed _ occupied_deliverable) broken_lawful
    Hrun)).
Defined.

(** C30. Delivery: after any history of commands on a fresh outbox, a batch in which
    no call fails, with room for the backlog, reports no error, and every record
    that was due is processed and so is its event by each of its consumers. *)
Theorem batch_delivers `{HT : ErrorTexts} conv w schedule e d0 d (Hinv : floor_inv d0) (Hdel : deliverable d0)
    (Hist : history d0 d) (Hff : fault_free e) (Hlaw : lawful_worker w)
    (Hacc : forall record, Forall (accepts e) (record_consumers w record))
    (Hsched : forall l, schedule l ≡ₚ l) (Hfit : Z.of_nat (size (db_outbox d)) <= wk_batchSize w) :
  exists n d', run (ProcessBatch conv w schedule) e d = (Ok (n, None), d') /\
    forall id r, db_outbox d !! id = Some r -> claimable w (pg_time (env_pgclock e 0)) r = true ->
      (exists r', db_outbox d' !! id = Some r' /\ obx_Status r' = "processed") /\
      forall c, c ∈ record_consumers w (record_of r) -> consumer_done d' (con_Name c) (obx_EventID r).
Proof.
  pose proof (history_deliverable _ _ Hinv Hdel Hist) as Hd.
  destruct (batch_run conv w schedule e (start d) Hff Hlaw Hacc Hsched Hd) as (n & s' & Hrun & Hall).
  exists n, (st_db s'). split; [unfold run; by rewrite Hrun|]. intros id r Hr Hcl.
  destruct (Hd _ _ Hr) as (<- & _). apply Hall. by eapply to_claim_fits.
Qed.

Lemma batch_delivers_witness : exists n d',
  run (ProcessBatch amd64_conv audit_worker one_by_one) (calm 400 4000000000) occupied_db = (Ok (n, None), d') /\
  exists r', db_outbox d' !! rcd_ID sample_record = Some r' /\ obx_Status r' = "processed".
Proof.
  assert (Z.of_nat (size (db_outbox occupied_db)) <= wk_batchSize audit_worker) as Hfit
    by (vm_compute; discriminate).
  destruct (batch_delivers amd64_conv audit_worker one_by_one (calm 400 4000000000) sample_db occupied_db
    sample_floor_inv sample_deliverable occupied_history (fun _ => eq_refl) audit_lawful
    (audit_accepts _) (fun l => Permutation_refl l) Hfit) as (n & d' & Hrun & Hall).
  exists n, d'. split; [exact Hrun|].
  assert (from_option (claimable audit_worker (pg_time (env_pgclock (calm 400 4000000000) 0))) false
    (db_outbox occupied_db !! rcd_ID sample_record) = true) as Hcl by (vm_compute; reflexivity).
  destruct (db_outbox occupied_db !! rcd_ID sample_record) as [r|] eqn:Hr; [|discriminate Hcl].
  exact (proj1 (Hall _ _ Hr Hcl)).
Defined.

(** ** Backoff *)

(** The delay grows exponentially with the attempts and is capped: it never
    exceeds the maximum, whatever a conversion out of range gives, and while the
    product is an [int64] it is [base * 2^(attempt-1)] or the maximum. *)
Theorem backoff_capped_exponential conv w attempt :
  backoff conv w attempt <= wk_backoffMax w /\
  (0 <= wk_backoffBase w < 2 ^ 53 -> wk_backoffBase w * 2 ^ Z.max 0 (attempt - 1) <= int64_max ->
   backoff conv w attempt = Z.min (wk_backoffMax w) (wk_backoffBase w * 2 ^ Z.max 0 (attempt - 1))).
Proof. split; [apply backoff_at_most|apply backoff_exact]. Qed.

Lemma backoff_capped_exponential_witness :
  map (backoff amd64_conv audit_worker) [1; 2; 3; 7; 34]
    = [1000000000; 2000000000; 4000000000; 60000000000; 60000000000] /\
  backoff amd64_conv audit_worker 5 = Z.min 60000000000 (1000000000 * 2 ^ 4).
Proof.
  split; [vm_compute; reflexivity|].
  apply (backoff_capped_exponential amd64_conv audit_worker 5); vm_compute; try done; split; done.
Defined.

(** The limits of a worker are its configuration's, or the defaults; in both
    cases positive.  With them and the default backoff, a delay cannot overflow
    before the 35th attempt. *)
Theorem defaults_are_safe conv m cfg generated attempt :
  let w := NewWorker m cfg generated in
  0 < wk_batchSize w /\ 0 < wk_concurrency w /\ 0 < wk_maxAttempts w /\ 0 < wk_pollInterval w /\
  0 < wk_backoffBase w /\ 0 < wk_backoffMax w /\ 0 < wk_claimTimeout w /\
  (cfg_BackoffBase cfg <= 0 -> attempt <= 34 -> 0 < backoff conv w attempt).
Proof.
  intros w. assert (forall d v, 0 < d -> 0 < positive_or d v) as Hpos.
  { intros d v Hd. unfold positive_or. destruct (Z.leb_spec v 0); lia. }
  split_and!; try (apply Hpos; lia). intros Hbase Hatt.
  assert (wk_backoffBase w = 1000000000) as Hb.
  { simpl. unfold positive_or. destruct (Z.leb_spec (cfg_BackoffBase cfg) 0); lia. }
  assert (2 ^ Z.max 0 (attempt - 1) <= 2 ^ 33) as Hp by (apply Z.pow_le_mono_r; lia).
  assert (0 < 2 ^ Z.max 0 (attempt - 1)) as Hp0 by (apply Z.pow_pos_nonneg; lia).
  assert (0 < wk_backoffMax w) by (apply Hpos; lia).
  rewrite backoff_exact; rewrite Hb; unfold int64_max; lia.
Qed.

(** ** A stale worker *)

(** The final statements of a worker do not check that it still holds the
    record.  A worker whose claim ran out, and whose record another worker has
    delivered meanwhile, puts it back to pending when its own consumer fails
    late, and the consumer no longer counts as done: the event is handled again. *)
Theorem stale_failure_undoes_delivery `{HT : ErrorTexts} conv w record name cause wrapped e s x
    (Hff : fault_free e) (Hrow : db_outbox (st_db s) !! rcd_ID record = Some x)
    (Hprocessed : obx_Status x = "processed")
    (Hdone : consumer_done (st_db s) name (rcd_EventID record))
    (Hattempts : rcd_Attempts record < wk_maxAttempts w) :
  exists s', (attempt (markConsumerFailed name (rcd_EventID record) cause) ;;
              retryOrFail conv w record wrapped) e s = (Err wrapped, s') /\
    (exists x', db_outbox (st_db s') !! rcd_ID record = Some x' /\ obx_Status x' = "pending") /\
    ~ consumer_done (st_db s') name (rcd_EventID record).
Proof.
  destruct Hdone as (c & Hc & _).
  edestruct (adminExec_run (update_consumer name (rcd_EventID record) (fun _ r =>
    with_consumer_status "failed" (cev_ProcessedAt r) (Some (error_text cause)) r)) e s) as (s1 & Hm & Hd1);
    [done|unfold update_consumer; by rewrite Hc|].
  destruct (retryOrFail_run conv e Hff w record wrapped s1 x) as (s2 & Hr & now & Hx).
  { by rewrite Hd1. }
  apply Z.ltb_lt in Hattempts. rewrite Hattempts in Hx.
  exists s2. rewrite attempt_bind. unfold markConsumerFailed. rewrite (map_err_run _ _ _ _ _ _ Hm).
  split; [done|]. split; [by eexists|]. intros (c' & Hc' & Hp).
  apply retryOrFail_inv in Hr as (_ & _ & Hsame & _). rewrite Hsame, Hd1 in Hc'. simpl in Hc'.
  rewrite lookup_insert_eq in Hc'. injection Hc' as <-. done.
Qed.

Lemma stale_failure_undoes_delivery_witness : exists s',
  (attempt (markConsumerFailed "audit.log" 107%N (Errorf "late")) ;;
   retryOrFail amd64_conv broken_worker sample_record (Errorf "late")) (calm 500 5000000000) (start delivered_db)
  = (Err (Errorf "late"), s') /\ ~ consumer_done (st_db s') "audit.log" 107%N.
Proof.
  assert (exists x, db_outbox (st_db (start delivered_db)) !! rcd_ID sample_record = Some x /\
    obx_Status x = "processed") as (x & Hx & Hp) by (vm_compute; eexists; split; reflexivity).
  assert (consumer_done (st_db (start delivered_db)) "audit.log" 107%N) as Hdone
    by (vm_compute; eexists; split; reflexivity).
  assert (rcd_EventID sample_record = 107%N) as Hev by (vm_compute; reflexivity).
  rewrite <- Hev in *.
  destruct (stale_failure_undoes_delivery amd64_conv broken_worker sample_record "audit.log" (Errorf "late")
    (Errorf "late") (calm 500 5000000000) (start delivered_db) x) as (s' & Hrun & _ & Hnot);
    [by intros t|exact Hx|exact Hp|exact Hdone|vm_compute; reflexivity|].
  exists s'. split; [exact Hrun|exact Hnot].
Defined.
