(* ===== verification/SyncFacts.v ===== *)
(** Catching up by cursor: what the pages of [loadEventsAfter] hold. *)

From S2P Require Import Prelude Json Schema GoTx Store Queries Events Hub Sync TxFacts CommandFacts Idempotency.
#[local] Open Scope string_scope.
#[local] Open Scope Z_scope.
#[local] Open Scope list_scope.

(** Events carry their key, and neither the zero time nor the nil identifier. *)
Definition events_valid (d : Db) : Prop :=
  forall k ev, db_events d !! k = Some ev ->
    oev_ID ev = k /\ oev_ID ev <> uuid_Nil /\ oev_OccurredAt ev <> time_zero.

Definition events_after (req : requestContext) (after : Cursor) (d : Db) : list OperationalEvent :=
  rows db_events d (fun ev => event_in_scope req ev && after_cursor after ev) by_occurred.

Lemma by_occurred_total a b : by_occurred a b = false -> by_occurred b a = true.
Proof.
  unfold by_occurred. intros H. apply orb_false_iff in H as [H1 H2].
  apply Z.ltb_ge in H1. apply orb_true_iff.
  destruct (Z.eq_dec (oev_OccurredAt a) (oev_OccurredAt b)) as [He|Hne].
  - right. rewrite He, Z.eqb_refl in *. simpl in *. apply N.leb_gt in H2. apply N.leb_le. lia.
  - left. apply Z.ltb_lt. lia.
Qed.

Lemma by_occurred_spec a b :
  by_occurred a b = true <->
  oev_OccurredAt a < oev_OccurredAt b \/ (oev_OccurredAt a = oev_OccurredAt b /\ (oev_ID a <= oev_ID b)%N).
Proof. unfold by_occurred. by rewrite orb_true_iff, andb_true_iff, Z.ltb_lt, Z.eqb_eq, N.leb_le. Qed.

Lemma by_occurred_trans a b c :
  by_occurred a b = true -> by_occurred b c = true -> by_occurred a c = true.
Proof. rewrite !by_occurred_spec. lia. Qed.

(** A cursor made of an event lets through what stands strictly after it. *)
Lemma after_event x ev :
  oev_ID x <> uuid_Nil -> oev_OccurredAt x <> time_zero ->
  after_cursor (cursorFrom (oev_OccurredAt x) (oev_ID x)) ev = true <->
  oev_OccurredAt x < oev_OccurredAt ev \/
  (oev_OccurredAt x = oev_OccurredAt ev /\ (oev_ID x < oev_ID ev)%N).
Proof.
  intros Hid Ht. unfold after_cursor, cursorFrom, cursorTime, cursorUUID, IsZero.
  apply N.eqb_neq in Hid. apply Z.eqb_neq in Ht. rewrite Hid. simpl. rewrite Ht, Hid.
  by rewrite orb_true_iff, andb_true_iff, Z.ltb_lt, Z.eqb_eq, N.ltb_lt.
Qed.

Lemma after_cursor_mono after x ev :
  after_cursor after x = true ->
  oev_OccurredAt x < oev_OccurredAt ev \/ (oev_OccurredAt x = oev_OccurredAt ev /\ (oev_ID x < oev_ID ev)%N) ->
  after_cursor after ev = true.
Proof.
  unfold after_cursor. destruct (cursorTime after) as [t|]; [|done].
  rewrite !orb_true_iff, !andb_true_iff, !Z.ltb_lt, !Z.eqb_eq.
  destruct (cursorUUID after); rewrite ?N.ltb_lt; intros; [lia|naive_solver lia].
Qed.

Section Pages.
Context (req : requestContext) (d : Db) (Hvalid : events_valid d).

Lemma events_after_elem after ev :
  ev ∈ events_after req after d <->
  (exists k, db_events d !! k = Some ev) /\ event_in_scope req ev = true /\ after_cursor after ev = true.
Proof. unfold events_after. by rewrite rows_elem, andb_true_iff. Qed.

Lemma events_after_sorted after : sorted_by by_occurred (events_after req after d) = true.
Proof. apply sort_by_sorted; [apply by_occurred_total|apply by_occurred_trans]. Qed.

Lemma events_after_NoDup after : NoDup (events_after req after d).
Proof.
  apply (NoDup_fmap_1 oev_ID). apply NoDup_rows_keys. intros k r Hr. by apply Hvalid in Hr as [? _].
Qed.

Lemma event_antisym a b k1 k2 :
  db_events d !! k1 = Some a -> db_events d !! k2 = Some b ->
  by_occurred a b = true -> by_occurred b a = true -> a = b.
Proof.
  intros Ha Hb H1%by_occurred_spec H2%by_occurred_spec.
  destruct (Hvalid _ _ Ha) as (<- & _), (Hvalid _ _ Hb) as (<- & _).
  assert (oev_ID a = oev_ID b) as He by lia. rewrite He in Ha. congruence.
Qed.

Lemma sorted_by_app le (l1 l2 : list OperationalEvent) :
  sorted_by le (l1 ++ l2) = true ->
  sorted_by le l2 = true /\ forall x y, x ∈ l1 -> y ∈ l2 -> le x y = true.
Proof.
  induction l1 as [|z l1 IH]; intros H; [split; [done|]; by intros x y ?%not_elem_of_nil|].
  simpl in H. apply andb_true_iff in H as [Hz H]. rewrite forallb_elem in Hz.
  destruct (IH H) as [H2 Hle]. split; [done|]. intros x y [->|Hx]%elem_of_cons Hy; [|by apply Hle].
  apply Hz, elem_of_app. by right.
Qed.

(** Splitting the events at one of them. *)
Lemma events_after_split after l1 x l2 :
  events_after req after d = l1 ++ x :: l2 ->
  events_after req (cursorFrom (oev_OccurredAt x) (oev_ID x)) d = l2.
Proof.
  intros Hsplit. pose proof (events_after_sorted after) as Hs. pose proof (events_after_NoDup after) as Hnd.
  rewrite Hsplit in Hs, Hnd.
  assert (x ∈ events_after req after d) as Hx by (rewrite Hsplit; apply elem_of_app; right; left).
  apply events_after_elem in Hx as ((k & Hk) & Hsc & Haf).
  destruct (Hvalid _ _ Hk) as (_ & Hid & Ht).
  pose proof (sorted_by_app _ _ _ Hs) as [Hs2 Hle1]. simpl in Hs2.
  apply andb_true_iff in Hs2 as [Hle2 Hs2]. rewrite forallb_elem in Hle2.
  apply NoDup_app in Hnd as (_ & Hdisj & [Hnx Hnd2]%NoDup_cons).
  apply (sorted_by_unique by_occurred); [|apply events_after_sorted|done|].
  { intros a b Ha Hb. apply events_after_elem in Ha as ((? & ?) & _), Hb as ((? & ?) & _).
  by eapply event_antisym. }
  apply NoDup_Permutation; [apply events_after_NoDup|done|]. intros ev.
  rewrite events_after_elem, after_event by done. split.
  - intros ((k' & Hk') & Hsc' & Hlt).
  assert (ev ∈ events_after req after d) as Hev.
  { apply events_after_elem. split_and!; [eauto|done|by eapply after_cursor_mono]. }
  rewrite Hsplit in Hev. apply elem_of_app in Hev as [Hev|[->|Hev]%elem_of_cons]; [|lia|done].
  specialize (Hle1 ev x Hev). rewrite by_occurred_spec in Hle1. destruct Hle1; [left|lia|lia].
  - intros Hev. assert (ev ∈ events_after req after d) as Hin
  by (rewrite Hsplit; apply elem_of_app; right; by right).
  apply events_after_elem in Hin as ((k' & Hk') & Hsc' & _). split_and!; [eauto|done|].
  pose proof (Hle2 ev Hev) as Hle. apply by_occurred_spec in Hle.
  destruct (decide (oev_ID x = oev_ID ev)) as [He|Hne]; [|lia].
  exfalso. destruct (Hvalid _ _ Hk) as (<- & _), (Hvalid _ _ Hk') as (<- & _).
  rewrite He in Hk. assert (x = ev) as -> by congruence. done.
Qed.

Lemma next_cursor_snoc after l x :
  next_cursor after (l ++ [x]) = cursorFrom (oev_OccurredAt x) (oev_ID x).
Proof. unfold next_cursor. by rewrite fold_left_app. Qed.

(** The cursor of a page leads to the rest. *)
Lemma events_after_next after limit :
  events_after req (next_cursor after (event_page req after limit d)) d
  = drop (Z.to_nat limit) (events_after req after d).
Proof.
  unfold event_page. fold (events_after req after d).
  destruct (take (Z.to_nat limit) (events_after req after d)) as [|y l _] eqn:Ht using rev_ind.
  - unfold next_cursor. simpl. rewrite <- (take_drop (Z.to_nat limit) (events_after req after d)) at 1.
  by rewrite Ht.
  - rewrite next_cursor_snoc. apply (events_after_split after l y).
  rewrite <- (take_drop (Z.to_nat limit) (events_after req after d)) at 1. by rewrite Ht, <- app_assoc.
Qed.
End Pages.

Lemma listEvents_run e req after limit d :
  fault_free e ->
  run (listEvents req after limit) e d
  = (Ok (event_message req <$> event_page req after limit d,
         next_cursor after (event_page req after limit d)), d).
Proof.
  intros Hff. unfold run, listEvents, inTenantTx, contextTx, loadEventsAfter.
  erewrite bind_run; [|by apply map_err_run, BeginTx_run].
  erewrite bind_run; [|by apply or_rollback_run, SetContext_run].
  erewrite bind_run; [|apply or_rollback_run; erewrite bind_run;
    [|apply map_err_run, exec_run; [done|reflexivity]]; reflexivity].
  erewrite bind_run; [|by apply map_err_run, Commit_run]. done.
Qed.

(** A client that asks for page after page until one comes back empty. *)
Fixpoint catch_up (fuel : nat) (e : nat -> Env) (req : requestContext) (after : Cursor) (limit : Z)
    (d : Db) : list Message :=
  match fuel with
  | O => []
  | S fuel =>
      match fst (run (listEvents req after limit) (e fuel) d) with
      | Ok ([], _) | Err _ => []
      | Ok (messages, next) => messages ++ catch_up fuel e req next limit d
      end
  end.

Lemma catch_up_all fuel e req after limit d :
  events_valid d -> (forall n, fault_free (e n)) -> 0 < limit ->
  (length (events_after req after d) < fuel)%nat ->
  catch_up fuel e req after limit d = event_message req <$> events_after req after d.
Proof.
  intros Hv Hff Hlim. revert after. induction fuel as [|fuel IH]; intros after Hfuel; [lia|].
  simpl. rewrite listEvents_run by done. simpl.
  pose proof (events_after_next req d Hv after limit) as Hnext.
  unfold event_page in *. fold (events_after req after d) in *.
  destruct (take (Z.to_nat limit) (events_after req after d)) as [|x l] eqn:Ht.
  - simpl. destruct (events_after req after d); [done|]. destruct (Z.to_nat limit) eqn:Hn; [lia|done].
  - rewrite fmap_cons. cbv iota beta. rewrite IH.
    + rewrite Hnext, <- fmap_cons, <- Ht, <- fmap_app. by rewrite take_drop.
    + rewrite Hnext, length_drop. apply (f_equal length) in Ht. rewrite length_take in Ht. simpl in Ht. lia.
Qed.
