(* ===== verification/RealtimeTheorems.v ===== *)
(** What the realtime gateway ([internal/realtime]) promises: the hub is safe
    under every interleaving, fans events out within their location only and
    never blocks, and a client that reconnects catches up completely. *)

From S2P Require Import Prelude Json Crypto Schema GoTx Store Queries Events Operations Guest Hub HubFacts Sync TxFacts CommandFacts FloorSpec GuestFacts Commands History EventLog Idempotency Samples SyncFacts.
#[local] Open Scope string_scope.
#[local] Open Scope Z_scope.
#[local] Open Scope list_scope.

(** ** Samples *)

Definition room_a : Scope := {| sc_OrganisationID := 1%N; sc_LocationID := 2%N |}.
Definition room_b : Scope := {| sc_OrganisationID := 1%N; sc_LocationID := 9%N |}.

Definition floor_event (eid : uuid) : Envelope :=
  {| env_ID := eid; env_Type := TypeTableOccupied; env_SchemaVersion := SchemaVersion;
     env_OccurredAt := 1000; env_OrganisationID := 1%N; env_LocationID := 2%N;
     env_ActorRef := "user:1"; env_DeviceID := None; env_EntityType := "table";
     env_EntityID := 3%N; env_EntityVersion := Some 2; env_CommandID := None;
     env_CorrelationID := None; env_Traceparent := ""; env_Tracestate := "";
     env_Data := JObj [] |}.

(** Two connections, the first with room for one message, then two events for
    its room; [n] further steps of the second publication. *)
Definition busy_schedule (n : nat) : list choice :=
  [Go 0 (OpSubscribe 1 room_a "user:1" 7%N 1); Run 0; Run 0; End 0;
   Go 1 (OpSubscribe 2 room_b "user:2" 8%N 4); Run 1; Run 1; End 1;
   Go 2 (OpPublish (floor_event 100)); Run 2; Run 2; Run 2; End 2;
   Go 3 (OpPublish (floor_event 101))] ++ repeat (Run 3) n.

Definition busy (n : nat) : World * gmap nat (list op) :=
  default (new_world, ∅) (run_schedule (busy_schedule n) (new_world, ∅)).

Lemma busy_reachable n : reachable (busy n).
Proof.
  unfold busy. destruct (run_schedule _ _) as [cfg|] eqn:H; simpl; [|apply reachable_init].
  eapply run_schedule_reachable; [apply reachable_init|exact H].
Qed.

(** ** The hub *)

(** C31. No interleaving of subscriptions, unsubscriptions, publications and write
    loops makes a goroutine panic by sending on or closing a closed channel, or
    puts more messages in a connection's queue than its buffer holds; the
    channels of a connection are closed exactly when its flag says so. *)
Theorem hub_safe w T (Hr : reachable (w, T)) :
  w_panicked w = false /\
  forall id c, w_heap w !! id = Some c ->
    (length (cl_send c) <= cl_cap c)%nat /\ cl_send_closed c = cl_closed c /\ cl_done_closed c = cl_closed c.
Proof.
  destruct (reachable_inv _ Hr) as (P & Hw & _). split; [apply Hw|]. intros id c Hc.
  by destruct (wi_client _ _ Hw _ _ Hc) as [[]  _].
Qed.

Lemma hub_safe_witness :
  (forall c, w_heap (busy 9).1 !! 1%nat = Some c -> (length (cl_send c) <= cl_cap c)%nat) /\
  (cl_closed <$> w_heap (busy 9).1 !! 1%nat) = Some true.
Proof.
  split; [|vm_compute; reflexivity]. intros c Hc.
  assert (reachable ((busy 9).1, (busy 9).2)) as Hr by (rewrite <- surjective_pairing; apply busy_reachable).
  destruct (hub_safe _ _ Hr) as [_ Hall]. exact (proj1 (Hall _ _ Hc)).
Defined.

(** C32. Tenant isolation: under every interleaving, each message that a connection
    has queued or sent belongs to the connection's own organisation and
    location. *)
Theorem hub_tenant_isolation w T id c m (Hr : reachable (w, T)) (Hc : w_heap w !! id = Some c)
    (Hm : m ∈ cl_received c ++ cl_send c) :
  msg_OrganisationID m = sc_OrganisationID (cl_scope c) /\ msg_LocationID m = sc_LocationID (cl_scope c).
Proof.
  destruct (reachable_inv _ Hr) as (P & Hw & _).
  destruct (wi_client _ _ Hw _ _ Hc) as [[_ _ _ _ Hs] _]. rewrite Forall_forall in Hs.
  specialize (Hs m Hm). unfold scoped, message_scope in Hs. by rewrite <- Hs.
Qed.

Lemma hub_tenant_isolation_witness :
  exists c m, w_heap (busy 0).1 !! 1%nat = Some c /\ m ∈ cl_received c ++ cl_send c /\ msg_LocationID m = 2%N.
Proof.
  assert (exists c, w_heap (busy 0).1 !! 1%nat = Some c) as (c & Hc) by (vm_compute; eexists; reflexivity).
  assert ((cl_scope <$> w_heap (busy 0).1 !! 1%nat) = Some room_a /\
    ((fun c => cl_received c ++ cl_send c) <$> w_heap (busy 0).1 !! 1%nat)
      = Some [MessageFromEvent (floor_event 100)]) as [Hs Hl] by (vm_compute; split; reflexivity).
  rewrite Hc in Hs, Hl. cbn in Hs, Hl. injection Hs as Hs. injection Hl as Hl.
  exists c, (MessageFromEvent (floor_event 100)). split; [exact Hc|].
  assert (MessageFromEvent (floor_event 100) ∈ cl_received c ++ cl_send c) as Hin by (rewrite Hl; left).
  split; [exact Hin|].
  assert (reachable ((busy 0).1, (busy 0).2)) as Hr by (rewrite <- surjective_pairing; apply busy_reachable).
  destruct (hub_tenant_isolation _ _ _ _ _ Hr Hc Hin) as [_ Hl2]. rewrite Hl2, Hs. reflexivity.
Defined.

(** An operation that waits for something outside the hub: a write loop for the
    next message of its open channel. *)
Definition waits (w : World) (o : op) : Prop :=
  match o with
  | OpRecv id => exists c, w_heap w !! id = Some c /\ cl_send c = [] /\ cl_closed c = false
  | OpSubscribe id _ _ _ _ => is_Some (w_heap w !! id)
  | _ => False
  end.

(** C33. The hub never deadlocks: a goroutine that is not waiting for a message can
    take its next step, unless it waits for another goroutine's [closeOnce], and
    then that one can. *)
Theorem hub_no_deadlock order w T t o rest (Hr : reachable (w, T)) (Ht : T !! t = Some (o :: rest)) :
  waits w o \/ is_Some (exec_op order o w) \/
  exists id t' b rest', o = OpUnsubscribe id /\ T !! t' = Some (OpBody b id :: rest') /\
    is_Some (exec_op order (OpBody b id) w).
Proof.
  destruct (reachable_inv _ Hr) as (P & Hw & Hl & HT). simpl in *.
  pose proof (Forall_inv (proj1 (HT _ _ Ht))) as Ho.
  assert (forall b id rest t, T !! t = Some (OpBody b id :: rest) -> is_Some (exec_op order (OpBody b id) w)) as Hbody.
  { intros b id rest0 t0 Ht0. pose proof (body_phase _ _ _ _ _ _ Hl Ht0) as HP.
    destruct (wi_known _ _ Hw _ _ HP) as [c Hc]. destruct (wi_client _ _ Hw _ _ Hc) as [Hok Hph].
    rewrite HP in Hph. unfold in_phase in Hph. destruct b; simpl; rewrite ?Hc; simpl; try done.
    destruct (close_ok c Hok) as [-> _]; [|done]. by destruct (cl_closeOnce c). }
  destruct o as [id scope actor device buffer|k|id|b id|event|id m|id]; simpl in Ho.
  - simpl. destruct (w_heap w !! id) eqn:Hc; [left|right; left]; done.
  - right. left. done.
  - destruct Ho as [c Hc]. destruct (wi_client _ _ Hw _ _ Hc) as [_ Hph]. simpl. rewrite Hc. simpl.
    destruct (cl_closeOnce c) eqn:Honce; [right; left; done| |right; left; done].
    right. right. unfold in_phase in Hph. rewrite Honce in Hph.
    destruct (P !! id) as [b|] eqn:HP; [|done]. destruct (lk_phase _ _ Hl _ _ HP) as (t' & Ht').
    unfold body_at in Ht'. destruct (T !! t') as [[|[] rest']|] eqn:HT'; try done.
    simpl in Ht'. injection Ht' as -> ->. exists id, t', b, rest'. split_and!; [done|done|by eapply Hbody].
  - right. left. by eapply Hbody.
  - right. left. done.
  - destruct Ho as (c & Hc & Hm). destruct (wi_client _ _ Hw _ _ Hc) as [Hok _].
    destruct (trySend_ok m c Hok Hm) as (c' & b & Hts & _). right. left. simpl. rewrite Hc. simpl.
    rewrite Hts. by destruct b.
  - destruct Ho as [c Hc]. destruct (wi_client _ _ Hw _ _ Hc) as [[_ Hs _ _ _] _]. simpl. rewrite Hc. simpl.
    destruct (cl_send c) eqn:Hq; [|right; left; done]. rewrite Hs.
    destruct (cl_closed c) eqn:Hcl; [right; left; done|]. left. by exists c.
Qed.

Lemma hub_no_deadlock_witness :
  exists o rest, (busy 3).2 !! 3%nat = Some (o :: rest) /\
    (waits (busy 3).1 o \/ is_Some (exec_op elements o (busy 3).1) \/
     exists id t' b rest', o = OpUnsubscribe id /\ (busy 3).2 !! t' = Some (OpBody b id :: rest') /\
       is_Some (exec_op elements (OpBody b id) (busy 3).1)).
Proof.
  assert (exists o rest, (busy 3).2 !! 3%nat = Some (o :: rest)) as (o & rest & Ht)
    by (vm_compute; do 2 eexists; reflexivity).
  exists o, rest. split; [exact Ht|].
  apply (hub_no_deadlock elements (busy 3).1 (busy 3).2 3%nat o rest); [|exact Ht].
  rewrite <- surjective_pairing. apply busy_reachable.
Defined.

(** What a publication does when nothing else runs: it terminates; each
    connection of the event's location with room has the message at the end of
    its queue; each one without room is closed and no longer a member, its queue
    unchanged; every other connection is untouched; and the counters say so. *)
Theorem publish_delivers order event w (Hr : reachable (w, ∅)) (Hord : forall s, order s ≡ₚ elements s) :
  let m := MessageFromEvent event in
  let scope := scope_of_event event in
  exists w', run_ops (2 + 8 * size (members w scope)) order [OpPublish event] w = Some w' /\
    (forall id c, w_heap w !! id = Some c -> id ∈ members w scope -> (length (cl_send c) < cl_cap c)%nat ->
       id ∈ members w' scope /\
       w_heap w' !! id = Some (set_send (cl_send c ++ [m]) (cl_received c) c)) /\
    (forall id c, w_heap w !! id = Some c -> id ∈ members w scope -> length (cl_send c) = cl_cap c ->
       (id ∉ members w' scope) /\
       exists c', w_heap w' !! id = Some c' /\ cl_closed c' = true /\ cl_send c' = cl_send c) /\
    (forall id, id ∉ members w scope -> w_heap w' !! id = w_heap w !! id) /\
    (forall other, other <> scope -> forall id, id ∈ members w' other <-> id ∈ members w other) /\
    MessagesPublished (metrics_of w') = MessagesPublished (metrics_of w) + 1 /\
    MessagesDropped (metrics_of w')
      = MessagesDropped (metrics_of w)
        + Z.of_nat (length (List.filter (full w) (order (members w scope)))).
Proof.
  intros m scope. pose proof (reachable_inv _ Hr) as Hinv.
  pose proof Hinv as (P & Hw & _). simpl in Hw.
  assert (forall id, id ∈ members w scope -> exists c, w_heap w !! id = Some c /\ client_ok c /\
    cl_closeOnce c = NotStarted /\ cl_closed c = false /\ cl_scope c = scope) as Hmem.
  { intros id Hid. pose proof Hid as (c & Hc & Hs & _)%(wi_members _ _ Hw).
    destruct (idle_client _ _ _ Hinv Hc) as (Hok & Hin & Hcl). rewrite Hs in Hin.
    exists c. split_and!; [done|done|by apply Hcl, Hin|by apply Hin|done]. }
  set (w1 := add_one Published w).
  destruct (sends_run order m (order (members w scope)) w1) as
    (w' & Hrun & Hoth & Hthis & Hmemb & Hpub & Hdrop).
  { rewrite Hord. apply NoDup_elements. }
  { intros id. rewrite Hord, elem_of_elements. intros Hid.
    destruct (Hmem id Hid) as (c & Hc & Hok & Ho & Hcl & _). by exists c. }
  exists w'. split_and!.
  - transitivity (run_ops (S (8 * size (members w scope))) order
      (OpCount Published :: ((fun id => OpSend id m) <$> order (members w scope))) w).
    { rewrite <- (app_nil_r (OpCount Published :: _)). reflexivity. }
    transitivity (run_ops (8 * size (members w scope)) order
      ((fun id => OpSend id m) <$> order (members w scope)) w1); [reflexivity|].
    replace (8 * size (members w scope))%nat with (8 * length (order (members w scope)))%nat; [exact Hrun|].
    rewrite Hord. done.
  - intros id c Hc Hid Hroom%Nat.ltb_lt. split.
    + apply Hmemb. split; [done|]. intros (_ & x & Hx & _ & Hfull). simpl in Hx. rewrite Hc in Hx.
      injection Hx as <-. unfold room in Hfull. congruence.
    + rewrite (Hthis id c); [|by rewrite Hord, elem_of_elements|done]. unfold sent_client, room.
      by rewrite Hroom.
  - intros id c Hc Hid Heq. destruct (Hmem id Hid) as (x & Hx & _ & _ & _ & Hs).
    rewrite Hc in Hx. injection Hx as <-.
    assert (room c = false) as Hroom by (unfold room; apply Nat.ltb_ge; lia). split.
    + rewrite Hmemb. intros [_ Hn]. apply Hn. split; [by rewrite Hord, elem_of_elements|]. by exists c.
    + exists (sent_client m c). unfold sent_client at 2 3. rewrite Hroom. split_and!; [|done|done].
      apply Hthis; [by rewrite Hord, elem_of_elements|done].
  - intros id Hid. rewrite Hoth; [done|]. by rewrite Hord, elem_of_elements.
  - intros other Hne id. rewrite Hmemb. split; [by intros [? _]|]. intros Hid. split; [done|].
    intros (Hin & x & Hx & Hs & _). rewrite Hord, elem_of_elements in Hin.
    destruct (Hmem id Hin) as (y & Hy & _ & _ & _ & Hs'). simpl in Hx. congruence.
  - rewrite Hpub. done.
  - rewrite Hdrop. done.
Qed.

Lemma publish_delivers_witness :
  exists w', run_ops 10 elements [OpPublish (floor_event 102)]
    (default new_world (fst <$> run_schedule [Go 0 (OpSubscribe 1 room_a "user:1" 7%N 1); Run 0; Run 0; End 0]
      (new_world, ∅))) = Some w' /\ 1%nat ∈ members w' room_a.
Proof.
  set (w := default new_world (fst <$> _)).
  assert (reachable (w, ∅)) as Hr.
  { eapply (run_schedule_reachable [Go 0 (OpSubscribe 1 room_a "user:1" 7%N 1); Run 0; Run 0; End 0]);
      [apply reachable_init|]. vm_compute. reflexivity. }
  destruct (publish_delivers elements (floor_event 102) w Hr (fun s => Permutation_refl _))
    as (w' & Hrun & Hroom & _).
  exists w'. split; [exact Hrun|].
  assert (exists c, w_heap w !! 1%nat = Some c) as (c & Hc) by (vm_compute; eexists; reflexivity).
  apply (Hroom 1%nat c Hc).
  - vm_compute. reflexivity.
  - assert (((fun c => (length (cl_send c), cl_cap c)) <$> w_heap w !! 1%nat) = Some (0%nat, 1%nat)) as Hl
      by (vm_compute; reflexivity).
    rewrite Hc in Hl. injection Hl as -> ->. lia.
Defined.

(** ** Catching up *)

(** C34. A client that asks for the events after a cursor, page after page, receives
    every event of its location after the cursor exactly once, in the order of
    time and identifier, whatever the page size; from the empty cursor, the
    whole log. *)
Theorem catch_up_complete fuel e req after limit d (Hvalid : events_valid d)
    (Hff : forall n, fault_free (e n)) (Hlimit : 1 <= limit <= 500)
    (Hfuel : (length (events_after req after d) < fuel)%nat) :
  catch_up fuel e req after limit d = event_message req <$> events_after req after d /\
  NoDup (msg_EventID <$> catch_up fuel e req after limit d) /\
  (forall k ev, db_events d !! k = Some ev -> event_in_scope req ev = true ->
     after_cursor after ev = true -> event_message req ev ∈ catch_up fuel e req after limit d).
Proof.
  rewrite catch_up_all by (done || lia). split_and!; [done| |].
  - rewrite <- list_fmap_compose. change (msg_EventID ∘ event_message req) with oev_ID.
    apply NoDup_rows_keys. intros k r Hr. by apply Hvalid in Hr as [? _].
  - intros k ev Hk Hs Ha. apply list_elem_of_fmap. exists ev. split; [done|].
    apply events_after_elem. eauto.
Qed.

Lemma cleared_valid : events_valid cleared_db.
Proof.
  assert (forallb (fun kv => (oev_ID kv.2 =? kv.1)%N && negb (oev_ID kv.2 =? uuid_Nil)%N
    && negb (oev_OccurredAt kv.2 =? time_zero)) (map_to_list (db_events cleared_db)) = true) as H
    by (vm_compute; reflexivity).
  intros k ev Hk%elem_of_map_to_list. rewrite forallb_elem in H. specialize (H _ Hk).
  apply andb_true_iff in H as [H1 H3]. apply andb_true_iff in H1 as [H1 H2]. cbn [fst snd] in *.
  apply N.eqb_eq in H1. apply negb_true_iff, N.eqb_neq in H2. apply negb_true_iff, Z.eqb_neq in H3. done.
Qed.

Definition sample_req : requestContext :=
  {| req_OrganisationID := 1%N; req_LocationID := 2%N; req_ActorRef := "user:1"; req_DeviceID := 7%N |}.

Lemma catch_up_complete_witness :
  length (catch_up 3 (fun n => calm (1000 + N.of_nat n) 5000000000) sample_req zero_Cursor 1 cleared_db) = 2%nat.
Proof.
  assert (length (events_after sample_req zero_Cursor cleared_db) = 2%nat) as Hlen by (vm_compute; reflexivity).
  assert (1 <= 1 <= 500) as Hlim by lia.
  assert (length (events_after sample_req zero_Cursor cleared_db) < 3)%nat as Hfuel by (rewrite Hlen; lia).
  rewrite (proj1 (catch_up_complete 3 (fun n => calm (1000 + N.of_nat n) 5000000000) sample_req zero_Cursor 1
    cleared_db cleared_valid (fun _ _ => eq_refl) Hlim Hfuel)).
  rewrite length_fmap. exact Hlen.
Defined.

(** Push and pull agree: for every event that a history of commands logs, the
    message that the hub makes of the event's outbox payload is the one that
    [listEvents] returns for the event's row, except that the row's time has
    been rounded to the database's precision. *)
Theorem push_pull_agree d0 d eid row v (Hinv : floor_inv d0) (Hout : outbox_inv d0)
    (Hist : history d0 d) (Hrow : db_events d !! eid = Some row)
    (Hv : Envelope_of_json (oev_Payload row) = Some v) :
  let req := {| req_OrganisationID := oev_OrganisationID row; req_LocationID := oev_LocationID row;
                req_ActorRef := ""; req_DeviceID := uuid_Nil |} in
  let pushed := MessageFromEvent v in
  let pulled := event_message req row in
  scope_of_event v = {| sc_OrganisationID := req_OrganisationID req; sc_LocationID := req_LocationID req |} /\
  pushed = {| msg_Type := msg_Type pulled; msg_EventID := msg_EventID pulled;
              msg_OrganisationID := msg_OrganisationID pulled; msg_LocationID := msg_LocationID pulled;
              msg_EntityType := msg_EntityType pulled; msg_EntityID := msg_EntityID pulled;
              msg_Version := msg_Version pulled; msg_OccurredAt := msg_OccurredAt pushed;
              msg_Data := msg_Data pulled |} /\
  msg_OccurredAt pulled = pg_time (msg_OccurredAt pushed).
Proof.
  intros req pushed pulled.
  destruct (history_outbox_inv _ _ Hinv Hout Hist _ _ Hrow) as (Hid & (v' & Hv' & H) & _).
  rewrite Hv in Hv'. injection Hv' as <-. destruct H as (H1 & H2 & H3 & H4 & H5 & H6 & H7 & _ & H9 & H10).
  unfold scope_of_event, pushed, pulled, MessageFromEvent. simpl. rewrite H1, H2, H3, H4, H5, H6, H7, H9, Hid.
  by split_and!.
Qed.

Lemma push_pull_agree_witness : exists row v,
  db_events occupied_db !! 107%N = Some row /\ Envelope_of_json (oev_Payload row) = Some v /\
  oev_OccurredAt row = pg_time (env_OccurredAt v).
Proof.
  assert (exists row, db_events occupied_db !! 107%N = Some row) as (row & Hrow) by (vm_compute; by eexists).
  assert (outbox_inv sample_db) as Hout
    by (intros k x Hk; unfold sample_db in Hk; simpl in Hk; by rewrite lookup_empty in Hk).
  destruct (history_outbox_inv _ _ sample_floor_inv Hout occupied_history _ _ Hrow) as (_ & (v & Hv & _) & _).
  exists row, v. split; [exact Hrow|]. split; [exact Hv|].
  exact (proj2 (proj2 (push_pull_agree sample_db occupied_db 107%N row v sample_floor_inv Hout occupied_history
    Hrow Hv))).
Defined.

(** ** An event behind the cursor

    A cursor is a time that a command read from its own clock before it
    committed.  A command that read an earlier time and committed later leaves
    an event behind the cursor: no page after the cursor holds it. *)
Definition behind (base : N) (app_now pg_now : Z) : Env :=
  {| env_clock := fun t => app_now + Z.of_nat t; env_pgclock := fun t => pg_now + Z.of_nat t;
     env_uuid := fun t => (base + N.of_nat t)%N; env_rand := fun _ _ => 0%N;
     env_fault := fun _ => None; env_traceparent := ""; env_tracestate := "" |}.

Definition slow_commit_db : Db :=
  after_command (CClear (sample_clear 51 2) None) (behind 200 900000000 2000000000) occupied_db.

Theorem late_commit_missed :
  let cursor := {| cur_OccurredAt := 1000000000; cur_EventID := 107%N |} in
  (snp_Cursor <$> (match fst (run (getLocationSnapshot (fun _ _ => true) sample_req) (calm 300 3000000000)
     occupied_db) with Ok s => Some s | Err _ => None end)) = Some cursor /\
  size (db_events slow_commit_db) = 2%nat /\
  fst (run (listEvents sample_req cursor 200) (calm 400 4000000000) slow_commit_db) = Ok ([], cursor).
Proof. vm_compute. split_and!; reflexivity. Qed.
