(* ===== verification/FrameTheorems.v ===== *)
(** The websocket frames of [internal/realtime/websocket.go]: reading what a
    client writes, writing what a peer reads, the limits, and the read loop. *)

From S2P Require Import Prelude Json Crypto GoTx WebSocket.
#[local] Open Scope string_scope.
#[local] Open Scope N_scope.
#[local] Open Scope list_scope.

(** ** The peer, by RFC 6455 *)

Definition client_header (op length : N) : list N :=
  N.lor 128 op ::
  (if length <? 126 then [N.lor 128 length]
   else if length <=? 65535 then N.lor 128 126 :: be_bytes 2 length
   else N.lor 128 127 :: be_bytes 8 length).

Definition client_frame (op : N) (mask payload : list N) : list N :=
  client_header op (N.of_nat (length payload)) ++ mask ++ unmask mask 0 payload.

(** A client's decoder of the server's unmasked frames. *)
Definition peer_decode (input : list N) : option (N * list N * list N) :=
  match input with
  | b0 :: b1 :: input =>
      if (N.land b0 128 =? 0) || negb (N.land b1 128 =? 0) then None
      else match extended_length (N.land b1 127) input with
           | Ok (length, input) =>
               if (N.to_nat length <=? List.length input)%nat
               then Some (N.land b0 15, take (N.to_nat length) input, drop (N.to_nat length) input)
               else None
           | Err _ => None
           end
  | _ => None
  end.

(** ** Bytes *)

Lemma be_uint_be_bytes n x acc :
  fold_left (fun acc b => acc * 256 + b) (be_bytes n x) acc
  = acc * 256 ^ N.of_nat n + x mod 256 ^ N.of_nat n.
Proof.
  revert acc. induction n as [|n IH]; intros acc.
  - simpl. rewrite N.mod_1_r. lia.
  - cbn [be_bytes fold_left]. rewrite IH, Nat2N.inj_succ, N.pow_succ_r', N.shiftr_div_pow2.
    replace (2 ^ (8 * N.of_nat n)) with (256 ^ N.of_nat n) by (rewrite N.pow_mul_r; done).
    rewrite (N.mul_comm 256 (256 ^ N.of_nat n)), N.Div0.mod_mul_r. lia.
Qed.

Lemma be_uint_bytes n x : x < 256 ^ N.of_nat n -> be_uint (be_bytes n x) = x.
Proof. intros H. unfold be_uint. rewrite be_uint_be_bytes, N.mod_small by done. lia. Qed.

Lemma unmask_involutive mask i payload : unmask mask i (unmask mask i payload) = payload.
Proof.
  revert i. induction payload as [|b payload IH]; intros i; [done|]. simpl.
  by rewrite IH, N.lxor_assoc, N.lxor_nilpotent, N.lxor_0_r.
Qed.

Lemma unmask_length mask i payload : length (unmask mask i payload) = length payload.
Proof. revert i. induction payload as [|b payload IH]; intros i; [done|]. simpl. by rewrite IH. Qed.

Lemma below_forall (P : N -> bool) n :
  forallb (fun i => P (N.of_nat i)) (seq 0 n) = true -> forall x, x < N.of_nat n -> P x = true.
Proof.
  rewrite List.forallb_forall. intros H x Hx. rewrite <- (N2Nat.id x). apply H, in_seq. lia.
Qed.

Lemma op_bits op : op < 16 -> N.land (N.lor 128 op) 128 <> 0 /\ N.land (N.lor 128 op) 15 = op.
Proof.
  intros H. apply (below_forall (fun op => negb (N.land (N.lor 128 op) 128 =? 0)
    && (N.land (N.lor 128 op) 15 =? op)) 16 eq_refl) in H.
  apply andb_true_iff in H as [H1 H2]. apply negb_true_iff, N.eqb_neq in H1. by apply N.eqb_eq in H2.
Qed.

Lemma length_bits l :
  l < 128 -> N.land (N.lor 128 l) 128 <> 0 /\ N.land (N.lor 128 l) 127 = l /\
    N.land l 128 = 0 /\ N.land l 127 = l.
Proof.
  intros H. apply (below_forall (fun l => negb (N.land (N.lor 128 l) 128 =? 0)
    && (N.land (N.lor 128 l) 127 =? l) && (N.land l 128 =? 0) && (N.land l 127 =? l)) 128 eq_refl) in H.
  repeat (apply andb_true_iff in H as [H ?]). apply negb_true_iff, N.eqb_neq in H.
  by repeat match goal with E : (_ =? _) = true |- _ => apply N.eqb_eq in E end.
Qed.

Lemma ReadFull_app n l rest : length l = n -> ReadFull n (l ++ rest) = Ok (l, rest).
Proof.
  intros H. unfold ReadFull. rewrite length_app.
  replace (n <=? length l + length rest)%nat with true by (symmetry; apply Nat.leb_le; lia).
  by rewrite take_app_length', drop_app_length'.
Qed.

Lemma ReadFull_Ok n input l rest : ReadFull n input = Ok (l, rest) -> input = l ++ rest /\ length l = n.
Proof.
  unfold ReadFull. destruct (n <=? length input)%nat eqn:E; [|done]. intros [= <- <-].
  rewrite take_drop, length_take. apply Nat.leb_le in E. split; [done|lia].
Qed.

(** The extended length that follows the second header byte. *)
Definition length_bytes (length : N) : N * list N :=
  if length <? 126 then (length, [])
  else if length <=? 65535 then (126, be_bytes 2 length) else (127, be_bytes 8 length).

Lemma length_bytes_small length : fst (length_bytes length) < 128.
Proof. unfold length_bytes. destruct (N.ltb_spec length 126); [simpl; lia|]. by destruct (length <=? 65535). Qed.

Lemma extended_length_bytes length rest :
  length < 2 ^ 64 ->
  extended_length (fst (length_bytes length)) (snd (length_bytes length) ++ rest) = Ok (length, rest).
Proof.
  intros Hl. unfold length_bytes, extended_length. destruct (N.ltb_spec length 126); cbn [fst snd].
  - destruct (N.eqb_spec length 126); [lia|]. destruct (N.eqb_spec length 127); [lia|done].
  - destruct (N.leb_spec length 65535); cbn [fst snd].
    + rewrite N.eqb_refl, ReadFull_app by apply be_bytes_length. cbn [res_then].
      rewrite be_uint_bytes; [done|]. change (256 ^ N.of_nat 2) with 65536. lia.
    + rewrite (proj2 (N.eqb_neq 127 126)), N.eqb_refl, ReadFull_app by (done || apply be_bytes_length).
      cbn [res_then]. rewrite be_uint_bytes; [done|]. change (256 ^ N.of_nat 8) with (2 ^ 64). done.
Qed.

Lemma client_header_eq op length :
  client_header op length = [N.lor 128 op; N.lor 128 (fst (length_bytes length))] ++ snd (length_bytes length).
Proof. unfold client_header, length_bytes. by destruct (length <? 126), (length <=? 65535). Qed.

Lemma frame_header_eq op length :
  frame_header op length = [N.lor 128 op; fst (length_bytes length)] ++ snd (length_bytes length).
Proof. unfold frame_header, length_bytes. by destruct (length <? 126), (length <=? 65535). Qed.

Lemma readFrame_client readLimit op mask payload rest :
  op < 16 -> length mask = 4%nat -> (Z.of_nat (length payload) <= readLimit < 2 ^ 63)%Z ->
  N.of_nat (length payload) <= maxFrameSize ->
  readFrame readLimit (client_frame op mask payload ++ rest) = Ok (op, payload, rest).
Proof.
  intros Hop Hmask Hlim Hmax. destruct (op_bits op Hop) as [Hb0 Hop'].
  destruct (length_bits _ (length_bytes_small (N.of_nat (length payload)))) as (Hb1 & Hb2 & _).
  unfold readFrame, client_frame. rewrite client_header_eq, <- !app_assoc.
  rewrite (ReadFull_app 2) by done. cbn [res_then]. cbn [nth].
  apply N.eqb_neq in Hb0, Hb1. rewrite Hb0, Hb1, Hop', Hb2.
  rewrite extended_length_bytes by (unfold maxFrameSize in Hmax; lia). cbn [res_then].
  assert ((limit_uint64 readLimit <? N.of_nat (length payload))
    || (maxFrameSize <? N.of_nat (length payload)) = false) as ->.
  { apply orb_false_iff. split; apply N.ltb_ge; [|done]. unfold limit_uint64.
    rewrite Z.mod_small by lia. lia. }
  rewrite (ReadFull_app 4) by done. cbn [res_then].
  rewrite Nat2N.id, (ReadFull_app (length payload)) by apply unmask_length. cbn [res_then].
  by rewrite unmask_involutive.
Qed.

Lemma res_then_Ok {A B} (r : result error A) (k : A -> result error B) b :
  res_then r k = Ok b -> exists a, r = Ok a /\ k a = Ok b.
Proof. destruct r; [eauto|done]. Qed.

Lemma extended_length_Ok l input length rest :
  extended_length l input = Ok (length, rest) -> exists l, input = l ++ rest.
Proof.
  unfold extended_length. repeat case_match.
  - intros ([ext input'] & (-> & _)%ReadFull_Ok & [= <- <-])%res_then_Ok. eauto.
  - intros ([ext input'] & (-> & _)%ReadFull_Ok & [= <- <-])%res_then_Ok. eauto.
  - intros [= <- <-]. by exists [].
Qed.

Lemma readFrame_inv readLimit input op payload rest :
  readFrame readLimit input = Ok (op, payload, rest) ->
  (exists consumed, input = consumed ++ rest /\ (6 + length payload <= length consumed)%nat) /\
  N.of_nat (length payload) <= limit_uint64 readLimit /\ N.of_nat (length payload) <= maxFrameSize /\
  op < 16.
Proof.
  intros ([header i1] & (-> & Hh)%ReadFull_Ok & H)%res_then_Ok.
  cbv zeta in H. destruct (N.land (nth 0 header 0) 128 =? 0); [done|].
  destruct (N.land (nth 1 header 0) 128 =? 0); [done|].
  apply res_then_Ok in H as ([len i2] & (ext & ->)%extended_length_Ok & H).
  destruct (_ || _) eqn:Hlim; [done|]. apply orb_false_iff in Hlim as [H1%N.ltb_ge H2%N.ltb_ge].
  apply res_then_Ok in H as ([mask i3] & (-> & Hm)%ReadFull_Ok & H).
  apply res_then_Ok in H as ([masked i4] & (-> & Hp)%ReadFull_Ok & [= <- <- <-]).
  rewrite unmask_length, Hp, N2Nat.id. split_and!; [|done|done|].
  - exists (header ++ ext ++ mask ++ masked). rewrite <- !app_assoc. split; [done|].
    rewrite !length_app. lia.
  - change 15 with (N.ones 4). rewrite N.land_ones. by apply N.mod_lt.
Qed.

Lemma ReadLoop_frame fuel readLimit op mask payload rest n :
  op = opText \/ op = opPing \/ op = opPong -> length mask = 4%nat ->
  (Z.of_nat (length payload) <= readLimit < 2 ^ 63)%Z -> N.of_nat (length payload) <= maxFrameSize ->
  ReadLoop (S fuel) readLimit (fun _ => None) (fun _ => None) n (client_frame op mask payload ++ rest)
  = '(out, err) ← ReadLoop fuel readLimit (fun _ => None) (fun _ => None) (S n) rest;
    Some ((if op =? opPing then [(opPong, payload)] else []) ++ out, err).
Proof.
  intros Hop Hmask Hlim Hmax. cbn [ReadLoop].
  rewrite readFrame_client by (done || by destruct Hop as [->|[->| ->]]).
  by destruct Hop as [->|[->| ->]].
Qed.

(** ** Properties *)

(** Reading a client's frame gives back its opcode and payload and leaves the
    rest of the stream, for every mask and every payload within the limits, in
    all three encodings of the length. *)
Theorem frame_roundtrip readLimit op mask payload rest (Hop : op < 16) (Hmask : length mask = 4%nat)
    (Hlimit : (Z.of_nat (length payload) <= readLimit < 2 ^ 63)%Z)
    (Hmax : N.of_nat (length payload) <= maxFrameSize) :
  readFrame readLimit (client_frame op mask payload ++ rest) = Ok (op, payload, rest).
Proof. by apply readFrame_client. Qed.

Lemma frame_roundtrip_witness :
  readFrame 4096 (client_frame opText [1; 2; 3; 4] (repeat 65 200) ++ [7]) = Ok (opText, repeat 65 200, [7]).
Proof.
  apply frame_roundtrip; [done|done|rewrite repeat_length; lia|rewrite repeat_length; unfold maxFrameSize; lia].
Defined.

(** What the server writes, a peer that follows the protocol decodes: the same
    opcode and payload, unmasked and unfragmented. *)
Theorem written_frame_decodes op payload rest (Hop : op < 16) (Hlen : N.of_nat (length payload) < 2 ^ 64) :
  peer_decode (writeFrame op payload ++ rest) = Some (op, payload, rest).
Proof.
  destruct (op_bits op Hop) as [Hb0 Hop'].
  destruct (length_bits _ (length_bytes_small (N.of_nat (length payload)))) as (_ & _ & Hb1 & Hb2).
  unfold writeFrame. rewrite frame_header_eq, <- !app_assoc. cbn [app peer_decode].
  apply N.eqb_neq in Hb0. rewrite Hb0, Hb1, N.eqb_refl, Hb2, Hop', extended_length_bytes by done.
  simpl orb. rewrite Nat2N.id, length_app.
  replace (length payload <=? length payload + length rest)%nat with true by (symmetry; apply Nat.leb_le; lia).
  by rewrite take_app_length, drop_app_length.
Qed.

Lemma written_frame_decodes_witness :
  peer_decode (writeFrame opPong (repeat 1 300) ++ []) = Some (opPong, repeat 1 300, []).
Proof. apply written_frame_decodes; [done|rewrite repeat_length; lia]. Defined.

(** C35. The read loop always returns, with an error, whatever the client sends: each
    frame takes bytes off the stream; and no frame is read whose payload exceeds
    the read limit or the maximum frame size. *)
Theorem read_loop_returns readLimit write done n input :
  (exists out err, ReadLoop (S (length input)) readLimit write done n input = Some (out, err)) /\
  (forall op payload rest, readFrame readLimit input = Ok (op, payload, rest) ->
     N.of_nat (length payload) <= limit_uint64 readLimit /\ N.of_nat (length payload) <= maxFrameSize).
Proof.
  split; [|by intros op payload rest (_ & ? & ? & _)%readFrame_inv].
  assert (forall fuel n input, (length input < fuel)%nat ->
    exists out err, ReadLoop fuel readLimit write done n input = Some (out, err)) as Hall; [|apply Hall; lia].
  clear n input. induction fuel as [|fuel IH]; intros n input Hf; [lia|]. simpl.
  destruct (readFrame readLimit input) as [[[op payload] rest]|err] eqn:Hr; [|eauto].
  apply readFrame_inv in Hr as ((consumed & -> & Hc) & _). rewrite length_app in Hf.
  destruct (IH (S n) rest) as (out & err & Hrun); [lia|].
  assert (forall l, exists out' err', match done n with Some e => Some (l, e)
    | None => '(o, e) ← ReadLoop fuel readLimit write done (S n) rest; Some (l ++ o, e) end = Some (out', err'))
    as Hgo by (intros l; destruct (done n); [eauto|]; rewrite Hrun; simpl; eauto).
  destruct (op =? opClose); [eauto|]. destruct (op =? opPing); [destruct (write n); [eauto|apply Hgo]|].
  destruct (_ || _); [apply Hgo|eauto].
Qed.

(** The read loop answers each ping, and nothing else, with a pong of the same
    payload, in order, until the client's stream ends. *)
Theorem pings_answered readLimit frames (Hlimit : (readLimit < 2 ^ 63)%Z)
    (Hframes : Forall (fun f => (f.1.1 = opText \/ f.1.1 = opPing \/ f.1.1 = opPong) /\
       length f.1.2 = 4%nat /\ (Z.of_nat (length f.2) <= readLimit)%Z /\
       N.of_nat (length f.2) <= maxFrameSize) frames) :
  ReadLoop (S (length frames)) readLimit (fun _ => None) (fun _ => None) 0
    (concat ((fun f => client_frame f.1.1 f.1.2 f.2) <$> frames))
  = Some ((fun f => (opPong, f.2)) <$> List.filter (fun f => f.1.1 =? opPing) frames, EOF).
Proof.
  generalize 0%nat. induction Hframes as [|[[op mask] payload] frames (Hop & Hmask & Hlen & Hmax) Hfr IH];
    intros n; [done|].
  cbn [fst snd] in *. change (S (length ((op, mask, payload) :: frames))) with (S (S (length frames))).
  rewrite fmap_cons. cbn [concat fst snd]. rewrite ReadLoop_frame by (done || lia).
  rewrite (IH (S n)). cbn [List.filter fst]. by destruct (op =? opPing).
Qed.

Lemma pings_answered_witness :
  ReadLoop 4 4096 (fun _ => None) (fun _ => None) 0
    (concat ((fun f => client_frame f.1.1 f.1.2 f.2) <$>
      [(opPing, [1; 2; 3; 4], [10; 11]); (opText, [5; 6; 7; 8], [12]); (opPing, [9; 9; 9; 9], [])]))
  = Some ([(opPong, [10; 11]); (opPong, [])], EOF).
Proof.
  apply (pings_answered 4096 [(opPing, [1; 2; 3; 4], [10; 11]); (opText, [5; 6; 7; 8], [12]);
    (opPing, [9; 9; 9; 9], [])]); [lia|].
  repeat apply Forall_cons_2; [..|apply Forall_nil_2]; cbn [fst snd length];
    (split; [tauto|]; split; [reflexivity|]; split; [lia|unfold maxFrameSize; lia]).
Defined.
