(* ===== verification/IdentitySamples.v ===== *)
(** People, roles and memberships of the sample restaurant, on which the
    theorems about the identity package are tried. *)

From S2P Require Import Prelude Json Crypto Schema GoTx Store Queries Tokens IdentityQueries Identity Memberships TxFacts Steps IdentityFacts MembershipFacts Samples.
#[local] Open Scope string_scope.
#[local] Open Scope Z_scope.
#[local] Open Scope list_scope.

(** Text functions on ASCII text; an address is any text with an [@]. *)
#[export] Instance sample_text : GoText := {|
  ToUpper := map_string ascii_upper;
  ToLower := map_string ascii_lower;
  pg_lower := map_string ascii_lower;
  ParseAddress := fun s => if existsb (Ascii.eqb "@") (bytes_of_string s) then Some s else None;
  ParseAddr := fun s => Some s;
  LoadLocation := fun _ => true;
  pg_collate := string_leb;
  ToUpper_ascii := fun s _ => eq_refl;
|}.

Definition sample_user (id : uuid) (name email : string) : UserProfile :=
  {| usr_ID := id; usr_DisplayName := name; usr_Email := Some email; usr_Status := "active";
     usr_CreatedAt := 0; usr_UpdatedAt := 0 |}.

Definition sample_member (id user : uuid) (role : string) : OrganisationMembership :=
  {| omb_ID := id; omb_OrganisationID := 1%N; omb_MemberRef := userProfileActorRef user;
     omb_Role := role; omb_CreatedAt := 0; omb_UpdatedAt := 0; omb_UserProfileID := Some user;
     omb_DisabledAt := None |}.

(** The roles and permissions the migrations insert, as far as the samples use them. *)
Definition sample_roles : gset string :=
  {["organisation_owner"; "location_manager"; "waiter"; "read_only"; "platform_admin"]}.
Definition sample_permissions : gset (string * string) :=
  {[("organisation_owner", "organisation.manage"); ("organisation_owner", "device.manage");
    ("organisation_owner", "location.manage"); ("organisation_owner", "layout.read");
    ("organisation_owner", "layout.write"); ("organisation_owner", "integrations.read");
    ("organisation_owner", "integrations.manage"); ("location_manager", "layout.read");
    ("location_manager", "device.manage"); ("waiter", "operations.write");
    ("read_only", "operations.read")]}.

Definition sample_identity (members : list OrganisationMembership) : IdentityDb :=
  {| idb_users := {[10%N := sample_user 10 "Olive" "olive@bistro.test";
                    11%N := sample_user 11 "Reed" "reed@bistro.test"]};
     idb_externals := ∅; idb_roles := sample_roles; idb_role_permissions := sample_permissions;
     idb_org_members := list_to_map (map (fun m => (omb_ID m, m)) members);
     idb_loc_members := ∅; idb_platform_members := ∅; idb_grants := ∅; idb_web_sessions := ∅;
     idb_credentials := ∅; idb_pairing_codes := ∅; idb_audit := ∅ |}.

(** One owner and a reader. *)
Definition people_db : Db :=
  set_identity (sample_identity [sample_member 20 10 "organisation_owner";
                                 sample_member 21 11 "read_only"]) sample_db.

(** Two owners. *)
Definition owners_db : Db :=
  set_identity (sample_identity [sample_member 20 10 "organisation_owner";
                                 sample_member 21 11 "organisation_owner"]) sample_db.

Definition olive : TenantActor :=
  {| act_OrganisationID := 1%N; act_LocationID := uuid_Nil;
     act_ActorRef := userProfileActorRef 10 |}.

Definition olive_at_main : TenantActor :=
  {| act_OrganisationID := 1%N; act_LocationID := 2%N; act_ActorRef := userProfileActorRef 10 |}.

Definition reassign_to (from : uuid) (email : string) : PlatformReassignOwnershipParams :=
  {| pro_TargetOrganisationID := 1%N; pro_FromMembershipID := from; pro_ToEmail := email;
     pro_ActorRef := "platform" |}.

Definition disable_args (id : uuid) : DisableMembershipParams :=
  {| dmp_Actor := olive; dmp_Scope := "organisation"; dmp_ID := id |}.

Example disable_reader_ok :
  is_ok (fst (run (DisableMembership (disable_args 21)) (calm 100 1000000) people_db)) = true.
Proof. vm_compute. reflexivity. Qed.

Example disable_last_owner_refused :
  fst (run (DisableMembership (disable_args 20)) (calm 100 1000000) people_db) = Err ErrValidation.
Proof. vm_compute. reflexivity. Qed.

Example reassign_runs :
  is_ok (fst (run (PlatformReassignOwnership (reassign_to 20 "reed@bistro.test"))
                (calm 100 1000000) people_db)) = true.
Proof. vm_compute. reflexivity. Qed.

(** ** A person logged in, and devices paired *)

(** A request during which the database's clock stands still. *)
Definition still (base : N) (now : Z) : Env :=
  {| env_clock := fun t => now; env_pgclock := fun t => now;
     env_uuid := fun t => (base + N.of_nat t)%N;
     env_rand := fun t i => (base + N.of_nat t + N.of_nat i)%N;
     env_fault := fun _ => None; env_traceparent := ""; env_tracestate := "" |}.

Lemma run_succeeds {A} (m : Go A) e d :
  is_ok (fst (run m e d)) = true -> exists a, run m e d = (Ok a, snd (run m e d)).
Proof. destruct (run m e d) as [[a|err] d']; simpl; [eauto|done]. Qed.

Definition login_args : CreateWebSessionParams :=
  {| cws_UserProfileID := 10%N; cws_TTL := 0; cws_UserAgent := "Firefox"; cws_IPAddress := "";
     cws_RotatedFrom := uuid_Nil |}.

Definition login : Go WebSessionResult := CreateWebSession login_args.
Definition logged_in_db : Db := snd (run login (calm 100 1000000) people_db).
Definition session_secret : string :=
  match fst (run login (calm 100 1000000) people_db) with Ok w => wss_Secret w | Err _ => "" end.

Definition pairing_args : CreatePairingCodeParams :=
  {| cpc_Actor := olive_at_main; cpc_DeviceType := ""; cpc_TTL := 0 |}.

Definition offer : Go (DevicePairingCode * string) := CreatePairingCode pairing_args.
Definition offered_code (e : Env) (d : Db) : string :=
  match fst (run offer e d) with Ok (_, code) => code | Err _ => "" end.

Definition pair_args (code : string) : PairDeviceParams :=
  {| pdp_Code := code; pdp_Platform := "android"; pdp_AppVersion := "1.0"; pdp_Name := "Bar";
     pdp_Capabilities := RawEmpty; pdp_Configuration := RawEmpty |}.

Definition pair_code (code : string) : Go RegisterDeviceResult := PairDevice (pair_args code).
Definition paired_secret (code : string) (e : Env) (d : Db) : string :=
  match fst (run (pair_code code) e d) with Ok r => rdr_Secret r | Err _ => "" end.
Definition paired_device (code : string) (e : Env) (d : Db) : uuid :=
  match fst (run (pair_code code) e d) with Ok r => dev_ID (rdr_Device r) | Err _ => uuid_Nil end.

(** Two codes offered, then a device paired with each. *)
Definition offered_db : Db := snd (run offer (calm 200 2000000) people_db).
Definition code_one : string := offered_code (calm 200 2000000) people_db.
Definition offered_twice_db : Db := snd (run offer (calm 300 3000000) offered_db).
Definition code_two : string := offered_code (calm 300 3000000) offered_db.
Definition paired_db : Db := snd (run (pair_code code_one) (calm 400 4000000) offered_twice_db).
Definition device_one : uuid := paired_device code_one (calm 400 4000000) offered_twice_db.
Definition secret_one : string := paired_secret code_one (calm 400 4000000) offered_twice_db.
Definition paired_both_db : Db := snd (run (pair_code code_two) (calm 500 5000000) paired_db).
Definition secret_two : string := paired_secret code_two (calm 500 5000000) paired_db.
Definition revoked_db : Db := snd (run (RevokeDevice olive device_one) (calm 600 6000000) paired_both_db).

Example login_ok : is_ok (fst (run login (calm 100 1000000) people_db)) = true.
Proof. vm_compute. reflexivity. Qed.
Example pair_one_ok :
  is_ok (fst (run (pair_code code_one) (calm 400 4000000) offered_twice_db)) = true.
Proof. vm_compute. reflexivity. Qed.
Example revoke_ok :
  is_ok (fst (run (RevokeDevice olive device_one) (calm 600 6000000) paired_both_db)) = true.
Proof. vm_compute. reflexivity. Qed.
Example other_device_ok :
  is_ok (fst (run (AuthenticateDeviceCredential secret_two) (calm 700 7000000) revoked_db)) = true.
Proof. vm_compute. reflexivity. Qed.
