(* ===== verification/IdentityTheorems.v ===== *)
(** Sessions, devices and pairing codes: what is accepted, and what is never
    accepted again. *)

From S2P Require Import Prelude Json Crypto Schema GoTx Store Queries Tokens IdentityQueries Identity Memberships TxFacts Steps IdentityFacts Samples Idempotency IdentitySamples.
#[local] Open Scope string_scope.
#[local] Open Scope Z_scope.
#[local] Open Scope list_scope.

Section Facts.
Context {GT : GoText}.

Lemma inAdminTx_Ok {A} (fn : Go A) e s a s' :
  InTx fn -> inAdminTx fn e s = (Ok a, s') -> committed fn e (st_db s) a (st_db s').
Proof. intros Hfn H%inTx_Ok; [by eapply committed_context|]. solve_intx. Qed.

Lemma inTenantTx_Ok {A} (fn : Go A) e s a s' :
  InTx fn -> Identity.inTenantTx fn e s = (Ok a, s') -> committed fn e (st_db s) a (st_db s').
Proof. intros Hfn H%inTx_Ok; [by eapply committed_context|]. solve_intx. Qed.

Lemma no_rows_exec {A} err msg (q : Stmt A) e s a s' :
  map_err (no_rows_to err msg) (exec q) e s = (Ok a, s') ->
  exists d, q (st_now s) (env_uuid e (st_tick s)) (st_db s) = Ok (a, d) /\ s' = with_db d (tick s).
Proof. intros (_ & d & Hq & ->)%map_err_Ok%exec_Ok. eauto. Qed.

(** ** Web sessions *)

Lemma with_user_Ok {A} (user : A -> uuid) (q : Stmt A) now u d p a d' :
  with_user user q now u d = Ok (p, a, d') ->
  q now u d = Ok (a, d') /\ db_users d !! user a = Some p.
Proof.
  unfold with_user. intros ([b d1] & Hq & H)%res_bind_Ok. cbn [fst snd] in H.
  destruct (db_users d !! user b) eqn:Hu; [|done]. by injection H as <- <- <-.
Qed.

Lemma session_live_inv d now s :
  session_live d now s = true ->
  wse_RevokedAt s = None /\ now < wse_ExpiresAt s /\
  exists p, db_users d !! wse_UserProfileID s = Some p /\ usr_Status p = "active".
Proof.
  unfold session_live, user_active, null. intros [[Hr He%Z.ltb_lt]%andb_prop Hu]%andb_prop.
  destruct (wse_RevokedAt s); [done|]. destruct (db_users d !! _) as [p|]; [|done].
  apply String.eqb_eq in Hu. eauto.
Qed.

(** The session that [GetWebSessionByPrefix] and the comparison accept. *)
Lemma lookupWebSession_Ok none prefix secret e s row s' :
  lookupWebSession none prefix secret e s = (Ok row, s') ->
  st_db s' = st_db s /\ st_now s' = st_now s /\
  exists k, db_web_sessions (st_db s) !! k = Some (snd row) /\
  wse_LookupPrefix (snd row) = prefix /\ HashSecret secret = Ok (wse_SessionHash (snd row)) /\
  session_live (st_db s) (st_now s) (snd row) = true /\
  db_users (st_db s) !! wse_UserProfileID (snd row) = Some (fst row).
Proof.
  unfold lookupWebSession. intros ([p w] & s1 & H1 & H)%bind_Ok.
  apply no_rows_exec in H1 as (d1 & H1 & ->).
  apply bind_Ok in H as (ok & s2 & H2 & H). injection H2 as H2 <-.
  apply bind_Ok in H as ([] & s3 & H3 & H). apply guard_err_Ok in H3 as (Hok & -> & _).
  apply ret_Ok in H as [<- <-]. apply negb_false_iff in Hok as ->.
  apply SecretMatches_true in H2. apply with_user_Ok in H1 as [H1 Hu].
  apply select_first_Ok in H1 as (-> & (k & Hk) & [Hp%String.eqb_eq Hl]%andb_prop & _).
  split_and!; [done..|]. exists k. done.
Qed.

(** The memberships a session carries: enabled ones of its user. *)
Inductive member_of (d : Db) (u : uuid) : Membership -> Prop :=
| member_org k r :
    db_org_members d !! k = Some r -> omb_UserProfileID r = Some u -> omb_DisabledAt r = None ->
    member_of d u (org_membership r)
| member_loc k r :
    db_loc_members d !! k = Some r -> lmb_UserProfileID r = Some u -> lmb_DisabledAt r = None ->
    member_of d u (loc_membership r)
| member_platform k r :
    db_platform_members d !! k = Some r -> pmb_UserProfileID r = u -> pmb_DisabledAt r = None ->
    member_of d u (platform_membership r).

(** People and memberships are as they were. *)
Record same_members (d d' : Db) : Prop := {
  sm_users : db_users d' = db_users d;
  sm_orgs : db_org_members d' = db_org_members d;
  sm_locs : db_loc_members d' = db_loc_members d;
  sm_platform : db_platform_members d' = db_platform_members d;
}.

#[local] Instance same_members_preorder : PreOrder same_members.
Proof. split; [by split|]. intros x y z [] []. split; congruence. Qed.

#[local] Hint Extern 1 (same_members _ _) => split; reflexivity : keeps.

Lemma same_members_member d d' u m : same_members d d' -> member_of d' u m -> member_of d u m.
Proof.
  intros [Hu Ho Hl Hp]. destruct 1; rewrite ?Ho, ?Hl, ?Hp in *; by econstructor.
Qed.

Lemma sql_eq_nullable (o : option uuid) u :
  sql_eq o (nullableUUID u) = true -> o = Some u.
Proof.
  unfold sql_eq, nullableUUID. destruct o as [v|]; [|done].
  destruct (N.eqb_spec u uuid_Nil); [done|]. by intros ->%bool_decide_eq_true.
Qed.

Lemma null_None {A} (o : option A) : null o = true <-> o = None.
Proof. unfold null. by destruct o. Qed.

(** Hydrating reads: the session is the given one, its memberships are live. *)
Lemma hydrateWebSession_Ok session secret e s w s' :
  hydrateWebSession session secret e s = (Ok w, s') ->
  st_db s' = st_db s /\ wss_Session w = session /\ wss_Secret w = secret /\
  Forall (member_of (st_db s) (wse_UserProfileID session)) (wss_Memberships w).
Proof.
  intros (s1 & s2 & Hd & _ & Hb & Hd')%inAdminTx_Ok; [|solve_intx]. rewrite <- Hd, <- Hd'. clear Hd Hd'.
  apply bind_Ok in Hb as (orgs & s3 & H1 & Hb). apply map_err_Ok, exec_Ok in H1 as (_ & d1 & [= <- <-] & ->).
  apply bind_Ok in Hb as (locs & s4 & H2 & Hb). apply map_err_Ok, exec_Ok in H2 as (_ & d2 & [= <- <-] & ->).
  apply bind_Ok in Hb as (plats & s5 & H3 & Hb). apply map_err_Ok, exec_Ok in H3 as (_ & d3 & [= <- <-] & ->).
  apply ret_Ok in Hb as [<- <-]. cbn [st_db with_db tick wss_Session wss_Secret wss_Memberships].
  split_and!; [done..|]. rewrite !Forall_app, !List.Forall_map. split_and!; apply Forall_forall; intros m Hm;
  apply rows_elem in Hm as [[k Hk] [Hu Hn%null_None]%andb_prop].
  - apply sql_eq_nullable in Hu. by econstructor.
  - apply N.eqb_eq in Hu. by econstructor.
  - apply sql_eq_nullable in Hu. by econstructor.
Qed.

(** The transaction of a validation. *)
Lemma validate_tx_Ok prefix secret e s row s' :
  inAdminTx (row ← lookupWebSession ErrUnauthorized prefix secret;
  map_err (Wrap "touching web session") (TouchWebSession (wse_ID (snd row))) ;; mret row) e s
  = (Ok row, s') ->
  same_members (st_db s) (st_db s') /\
  exists k t, db_web_sessions (st_db s) !! k = Some (snd row) /\
  wse_LookupPrefix (snd row) = prefix /\ HashSecret secret = Ok (wse_SessionHash (snd row)) /\
  session_live (st_db s) (pg_time (env_pgclock e t)) (snd row) = true /\
  db_users (st_db s) !! wse_UserProfileID (snd row) = Some (fst row).
Proof.
  intros (s1 & s2 & Hd & (t & Ht) & Hb & Hd')%inAdminTx_Ok; [|solve_intx]. rewrite <- Hd.
  apply bind_Ok in Hb as (r & s3 & H1 & Hb).
  apply lookupWebSession_Ok in H1 as (Hdb & _ & k & Hk & Hp & Hh & Hl & Hu).
  apply bind_Ok in Hb as ([] & s4 & H2 & Hb). apply ret_Ok in Hb as [<- <-].
  split; [|exists k, t; by rewrite <- Ht]. rewrite <- Hd', <- Hdb.
  apply map_err_Ok in H2. unfold TouchWebSession in H2. apply exec_Ok in H2 as (_ & d1 & H2 & ->).
  cbv beta in H2. apply update_exec_Ok in H2 as [[-> _]|(x & y & _ & _ & _ & _ & ->)]; by split.
Qed.


Lemma lift_prefix_Ok secret e s prefix s' :
  map_err (fun _ => ErrUnauthorized) (lift (LookupPrefix secret)) e s = (Ok prefix, s') ->
  LookupPrefix secret = Ok prefix /\ s' = s.
Proof. by intros [= -> ->]%map_err_Ok. Qed.

(** A validation looks for the session of the secret's prefix and hash. *)
Lemma ValidateWebSession_Ok secret e s w s' :
  ValidateWebSession secret e s = (Ok w, s') ->
  exists k t, db_web_sessions (st_db s) !! k = Some (wss_Session w) /\
  LookupPrefix secret = Ok (wse_LookupPrefix (wss_Session w)) /\
  HashSecret secret = Ok (wse_SessionHash (wss_Session w)) /\
  session_live (st_db s) (pg_time (env_pgclock e t)) (wss_Session w) = true /\
  db_users (st_db s) !! wse_UserProfileID (wss_Session w) = Some (wss_User w) /\
  Forall (member_of (st_db s) (wse_UserProfileID (wss_Session w))) (wss_Memberships w).
Proof.
  unfold ValidateWebSession. intros (prefix & s1 & H1 & H)%bind_Ok.
  apply lift_prefix_Ok in H1 as [Hp ->]. apply bind_Ok in H as (row & s2 & H2 & H).
  apply validate_tx_Ok in H2 as (Hsame & k & t & Hk & Hpre & Hh & Hl & Hu).
  apply bind_Ok in H as (ses & s3 & H3 & H). apply ret_Ok in H as [<- <-].
  apply hydrateWebSession_Ok in H3 as (_ & Hs & _ & Hm). cbn [with_session_user wss_Session wss_User wss_Memberships].
  rewrite Hs. exists k, t. split_and!; [done|by rewrite Hpre|done..|].
  eapply Forall_impl; [exact Hm|]. intros m. by apply same_members_member.
Qed.

Lemma validated_session e d secret w d'
  (Hrun : run (ValidateWebSession secret) e d = (Ok w, d')) :
  exists k t p, db_web_sessions d !! k = Some (wss_Session w) /\
  LookupPrefix secret = Ok (wse_LookupPrefix (wss_Session w)) /\
  HashSecret secret = Ok (wse_SessionHash (wss_Session w)) /\
  wse_RevokedAt (wss_Session w) = None /\
  pg_time (env_pgclock e t) < wse_ExpiresAt (wss_Session w) /\
  db_users d !! wse_UserProfileID (wss_Session w) = Some p /\ wss_User w = p /\
  usr_Status p = "active" /\
  Forall (member_of d (wse_UserProfileID (wss_Session w))) (wss_Memberships w).
Proof.
  apply run_Ok in Hrun as (s' & H & _). apply ValidateWebSession_Ok in H as (k & t & Hk & Hp & Hh & Hl & Hu & Hm).
  apply session_live_inv in Hl as (Hr & He & p & Hp' & Ha).
  exists k, t, p. simpl in *. split_and!; try done. congruence.
Qed.

(** A web session is accepted only when it is live: when validating a secret
    succeeds, the database holds a session with the secret's prefix and hash that
    is neither revoked nor expired on the database's clock, the user returned is
    its active user, and every membership returned is an enabled one of that
    user. *)
Theorem session_accepted_is_live e d secret w d'
  (Hrun : run (ValidateWebSession secret) e d = (Ok w, d')) :
  exists k t p, db_web_sessions d !! k = Some (wss_Session w) /\
  LookupPrefix secret = Ok (wse_LookupPrefix (wss_Session w)) /\
  HashSecret secret = Ok (wse_SessionHash (wss_Session w)) /\
  wse_RevokedAt (wss_Session w) = None /\
  pg_time (env_pgclock e t) < wse_ExpiresAt (wss_Session w) /\
  db_users d !! wse_UserProfileID (wss_Session w) = Some p /\ wss_User w = p /\
  usr_Status p = "active" /\
  Forall (member_of d (wse_UserProfileID (wss_Session w))) (wss_Memberships w).
Proof. by apply (validated_session e d secret w d'). Qed.

(** ** Revocation *)

(** The tables of secrets have one row per prefix. *)
Record auth_inv (d : Db) : Prop := {
  ai_sessions : well_keyed wse_ID wse_LookupPrefix (db_web_sessions d);
  ai_credentials : well_keyed dcr_ID dcr_LookupPrefix (db_credentials d);
  ai_devices : well_keyed dev_ID dev_ID (db_devices d);
  ai_codes : well_keyed dpc_ID dpc_PairingCodeLookupPrefix (db_pairing_codes d);
}.

Lemma auth_step_inv d d' : auth_step d d' -> auth_inv d -> auth_inv d'.
Proof. intros [[? ?] [? ?] [? ?] [? ?]] []. split; auto. Qed.

Lemma identity_history_auth d d' : identity_history d d' -> auth_step d d'.
Proof. apply identity_history_keeps; [apply _|apply identity_keeps_auth]. Qed.

Lemma run_auth c e d r d' : run (run_identity c) e d = (r, d') -> auth_step d d'.
Proof. apply keeps_run; [apply _|apply identity_keeps_auth]. Qed.

(** The database after an operation is the one after its command. *)
Lemma run_discard {A} (m : Go A) e d : snd (run (discard m) e d) = snd (run m e d).
Proof.
  unfold run, discard. destruct (m e (start d)) as [[a|err] s] eqn:H.
  - by rewrite (bind_run _ _ _ _ _ _ H).
  - by rewrite (bind_run_Err _ _ _ _ _ _ H).
Qed.

Lemma run_auth_of {A} (m : Go A) c :
  run_identity c = discard m -> forall e d r d', run m e d = (r, d') -> auth_step d d'.
Proof.
  intros Hc e d r d' Hr. pose proof (run_discard m e d) as Hd. rewrite Hr, <- Hc in Hd.
  destruct (run (run_identity c) e d) as [r' d2] eqn:H2. simpl in Hd. subst d2. by eapply run_auth.
Qed.

(** No live session matches the secret, now or after anything that may happen. *)
Lemma revoked_stays_dead d k s secret d' e w d2 :
  auth_inv d -> db_web_sessions d !! k = Some s -> is_some (wse_RevokedAt s) = true ->
  LookupPrefix secret = Ok (wse_LookupPrefix s) -> auth_step d d' ->
  run (ValidateWebSession secret) e d' = (Ok w, d2) -> False.
Proof.
  intros Hinv Hk Hr Hp Hstep Hrun.
  destruct (ts_rows _ _ _ _ _ (au_sessions _ _ Hstep) _ _ Hk) as (s1 & Hk1 & Hle).
  destruct (validated_session _ _ _ _ _ Hrun) as (j & t & p & Hj & Hpj & _ & Hrj & _).
  apply (auth_step_inv _ _ Hstep) in Hinv.
  assert (k = j) as <-.
  { eapply (wk_mark _ _ _ (ai_sessions _ Hinv)); [exact Hk1|exact Hj|].
  rewrite (sl_prefix _ _ Hle). congruence. }
  assert (s1 = wss_Session w) as -> by congruence. rewrite (sl_revoked _ _ Hle Hr) in Hrj.
  by rewrite Hrj in Hr.
Qed.

Lemma select_first_unique {A} (get : Db -> gmap N A) (whr : A -> bool) now u d k r :
  get d !! k = Some r -> whr r = true ->
  (forall j x, get d !! j = Some x -> whr x = true -> x = r) ->
  select_first get whr any_order now u d = Ok (r, d).
Proof.
  intros Hk Hw Huniq. destruct (select_first get whr any_order now u d) as [[x d1]|err] eqn:Hs.
  - apply select_first_Ok in Hs as (-> & (j & Hj) & Hwj & _). by rewrite (Huniq _ _ Hj Hwj).
  - apply select_first_NoRows in Hs as [_ Hno]. specialize (Hno _ _ Hk). congruence.
Qed.

(** What revoking does to a session that is live while it runs. *)
Lemma RevokeWebSession_revokes e d secret d1 k s :
  auth_inv d -> db_web_sessions d !! k = Some s ->
  LookupPrefix secret = Ok (wse_LookupPrefix s) ->
  (forall t, session_live d (pg_time (env_pgclock e t)) s = true) ->
  run (RevokeWebSession secret) e d = (Ok tt, d1) ->
  exists s1, db_web_sessions d1 !! k = Some s1 /\ is_some (wse_RevokedAt s1) = true /\ session_le s s1.
Proof.
  intros Hinv Hk Hp Hlive Hrun. apply run_Ok in Hrun as (s' & H & <-).
  unfold RevokeWebSession in H. apply bind_Ok in H as (prefix & s0 & H0 & H).
  apply lift_prefix_Ok in H0 as [Hp0 ->]. rewrite Hp in Hp0. injection Hp0 as <-.
  apply inAdminTx_Ok in H as (s1 & s2 & Hd & (t & Ht) & Hb & Hd'); [|solve_intx].
  cbn [st_db start] in Hd. rewrite <- Hd'. clear Hd'. apply bind_Ok in Hb as (r & s3 & H1 & Hb).
  apply attempt_Ok in H1. specialize (Hlive t). rewrite <- Ht in Hlive.
  destruct (session_live_inv _ _ _ Hlive) as (_ & _ & p & Hu & _).
  assert (db_users (st_db s1) !! wse_UserProfileID s = Some p) as Hu1 by by rewrite Hd.
  assert (forall u, with_user wse_UserProfileID (fun now u d => select_first db_web_sessions
  (fun s0 => String.eqb (wse_LookupPrefix s0) (wse_LookupPrefix s) && session_live d now s0)
  any_order now u d) (st_now s1) u (st_db s1) = Ok (p, s, st_db s1)) as Hsel.
  { intros u. unfold with_user. rewrite (select_first_unique _ _ _ _ _ k s); simpl.
  - by rewrite Hu1.
  - by rewrite Hd.
  - by rewrite String.eqb_refl, Hd, Hlive.
  - rewrite Hd. intros j x Hj [Hx%String.eqb_eq _]%andb_prop.
  assert (j = k) as -> by by eapply (wk_mark _ _ _ (ai_sessions _ Hinv)). congruence. }
  unfold GetWebSessionByPrefix, exec in H1. destruct (env_fault e (st_tick s1)).
  { injection H1 as <- <-. by apply bind_Ok in Hb as (? & ? & [=] & _) || discriminate Hb. }
  rewrite Hsel in H1. injection H1 as <- <-.
  apply bind_Ok in Hb as (ok & s4 & H2 & Hb). injection H2 as _ <-.
  apply bind_Ok in Hb as ([] & s5 & H3 & Hb). apply guard_err_Ok in H3 as (_ & -> & _).
  apply map_err_Ok in Hb. unfold RevokeWebSessionRow in Hb. apply exec_Ok in Hb as (_ & d2 & Hb & ->).
  cbn [st_db with_db tick snd] in *. rewrite (wk_key _ _ _ (ai_sessions _ Hinv) _ _ Hk) in Hb.
  apply update_exec_Ok in Hb as [[_ Hno]|(x & y & Hx & _ & [= <-] & _ & ->)].
  - rewrite Hd in Hno. by specialize (Hno _ Hk).
  - rewrite Hd in Hx |- *. rewrite Hk in Hx. injection Hx as <-. eexists.
  split; [simpl; apply lookup_insert_eq|]. split; [done|]. split; try done. simpl.
  unfold stays. by destruct (wse_RevokedAt s).
Qed.

(** C37. Revoking is final: once revoking a live session's secret has succeeded,
    no validation of the secret succeeds, whatever operations of the identity
    package run in between and whatever their arguments, clocks, random bytes and
    failures. *)
Theorem revoked_session_never_accepted e1 d secret d1 d2 e2 k s
  (Hinv : auth_inv d) (Hk : db_web_sessions d !! k = Some s)
  (Hp : LookupPrefix secret = Ok (wse_LookupPrefix s))
  (Hlive : forall t, session_live d (pg_time (env_pgclock e1 t)) s = true)
  (Hrevoke : run (RevokeWebSession secret) e1 d = (Ok tt, d1))
  (Hlater : identity_history d1 d2) :
  is_ok (fst (run (ValidateWebSession secret) e2 d2)) = false.
Proof.
  destruct (RevokeWebSession_revokes _ _ _ _ _ _ Hinv Hk Hp Hlive Hrevoke) as (s1 & Hk1 & Hr & Hle).
  destruct (run (ValidateWebSession secret) e2 d2) as [[w|err] d3] eqn:Hv; [|done]. exfalso.
  eapply (revoked_stays_dead d1 k s1); [|exact Hk1|exact Hr| |by apply identity_history_auth|exact Hv].
  - eapply auth_step_inv; [|exact Hinv]. by apply (run_auth (IRevokeSession secret) e1 _ (Ok tt)).
  - by rewrite (sl_prefix _ _ Hle).
Qed.

(** ** Devices *)

(** A credential's device, as authentication finds it. *)
Lemma AuthenticateDeviceCredential_Ok secret e s v s' :
  AuthenticateDeviceCredential secret e s = (Ok v, s') ->
  exists k c t, db_credentials (st_db s) !! k = Some c /\
  LookupPrefix secret = Ok (dcr_LookupPrefix c) /\ HashSecret secret = Ok (dcr_CredentialHash c) /\
  dcr_RevokedAt c = None /\ opt_all (fun x => pg_time (env_pgclock e t) <? x) (dcr_ExpiresAt c) = true /\
  db_devices (st_db s) !! dcr_DeviceID c = Some v /\ dev_trusted v = true.
Proof.
  unfold AuthenticateDeviceCredential. intros (prefix & s1 & H1 & H)%bind_Ok. injection H1 as Hp <-.
  apply inAdminTx_Ok in H as (s1 & s2 & Hd & (t & Ht) & Hb & _); [|solve_intx].
  apply bind_Ok in Hb as ([c w] & s3 & H1 & Hb). apply no_rows_exec in H1 as (d1 & H1 & ->).
  apply res_bind_Ok in H1 as ([c1 d2] & H1 & H2). cbn [fst snd] in H2.
  apply select_first_Ok in H1 as (-> & (k & Hk) & Hw & _). rewrite Hd in *.
  destruct (db_devices (st_db s) !! dcr_DeviceID c1) as [w1|] eqn:Hdev; [|done].
  injection H2 as -> -> <-. apply andb_prop in Hw as [Hpre%String.eqb_eq Hl].
  unfold credential_live in Hl. rewrite Hdev in Hl.
  apply andb_prop in Hl as [[Hr%null_None He]%andb_prop Htr].
  apply bind_Ok in Hb as (ok & s4 & H3 & Hb). injection H3 as H3 <-.
  apply bind_Ok in Hb as ([] & s5 & H4 & Hb). apply guard_err_Ok in H4 as (Hok & -> & _).
  apply negb_false_iff in Hok as ->. apply SecretMatches_true in H3.
  apply bind_Ok in Hb as (v1 & s6 & _ & Hb). apply bind_Ok in Hb as ([] & s7 & _ & Hb).
  apply ret_Ok in Hb as [<- _]. exists k, c, t. rewrite Hpre. cbn [fst snd] in *. rewrite <- Ht.
  split_and!; done.
Qed.


Lemma RevokeDevice_Ok actor dev e s v s' :
  RevokeDevice actor dev e s = (Ok v, s') ->
  db_devices (st_db s') !! dev = Some v /\ is_some (dev_RevokedAt v) = true /\
  dev_TrustState v = "revoked".
Proof.
  unfold RevokeDevice. intros ([] & s1 & H1 & H)%bind_Ok.
  apply bind_Ok in H1 as ([] & s2 & H2 & H1).
  apply guard_err_Ok in H2 as (_ & -> & _). apply guard_err_Ok in H1 as (_ & -> & _).
  apply inTenantTx_Ok in H as (s3 & s4 & _ & _ & Hb & <-); [|solve_intx].
  unfold revokeDeviceInTx in Hb. apply bind_Ok in Hb as (cur & s5 & _ & Hb).
  apply bind_Ok in Hb as ([] & s6 & _ & Hb). apply bind_Ok in Hb as ([] & s7 & _ & Hb).
  apply no_rows_exec in Hb as (d1 & Hb & ->).
  apply update_row_Ok in Hb as (w & Hw & _ & [= <-] & _ & ->). simpl. by rewrite lookup_insert_eq.
Qed.

(** A revoked device is out for good: after revoking it has succeeded, no
    credential authenticates as this device, whatever operations of the identity
    package run in between - trusting it again, pairing other devices or
    registering credentials included. *)
Theorem revoked_device_never_authenticates e1 d actor dev v d1 d2 e2 secret v2 d3
  (Hinv : auth_inv d)
  (Hrevoke : run (RevokeDevice actor dev) e1 d = (Ok v, d1))
  (Hlater : identity_history d1 d2)
  (Hauth : run (AuthenticateDeviceCredential secret) e2 d2 = (Ok v2, d3)) :
  dev_ID v2 <> dev.
Proof.
  intros Heq.
  assert (auth_inv d2) as Hinv2.
  { apply (auth_step_inv d1); [by apply identity_history_auth|]. apply (auth_step_inv d); [|done].
  by apply (run_auth_of _ (IRevokeDevice actor dev) eq_refl _ _ _ _ Hrevoke). }
  apply run_Ok in Hrevoke as (s' & H & <-). apply RevokeDevice_Ok in H as (Hv & Hr & _).
  apply run_Ok in Hauth as (s2 & H & _).
  apply AuthenticateDeviceCredential_Ok in H as (k & c & t & _ & _ & _ & _ & _ & Hdev & Htr).
  destruct (ts_rows _ _ _ _ _ (au_devices _ _ (identity_history_auth _ _ Hlater)) _ _ Hv)
  as (v1 & Hv1 & Hle).
  cbn [st_db start] in Hdev. pose proof (wk_key _ _ _ (ai_devices _ Hinv2) _ _ Hdev) as Hk.
  assert (v1 = v2) as -> by congruence. apply andb_prop in Htr as [_ Hn%null_None].
  rewrite (dl_revoked _ _ Hle Hr) in Hn. by rewrite Hn in Hr.
Qed.

(** ** Pairing *)

(** The effect of a successful pairing. *)
Record paired (d : Db) (code : string) (r : RegisterDeviceResult) (d' : Db) (now : Z)
(c : DevicePairingCode) : Prop := {
  pr_code : db_pairing_codes d !! dpc_ID c = Some c;
  pr_prefix : PairingCodeLookupPrefix code = Ok (dpc_PairingCodeLookupPrefix c);
  pr_hash : HashSecret code = Ok (dpc_PairingCodeHash c);
  pr_live : pairing_live now c = true;
  pr_location : location_active d (dpc_OrganisationID c) (dpc_LocationID c) = true;
  pr_consumed : db_pairing_codes d' !! dpc_ID c =
    Some (consumed_code (nullableUUID (dev_ID (rdr_Device r))) now c);
  pr_device : db_devices d' !! dev_ID (rdr_Device r) = Some (rdr_Device r);
  pr_trusted : dev_trusted (rdr_Device r) = true;
  pr_org : dev_OrganisationID (rdr_Device r) = dpc_OrganisationID c;
  pr_loc : dev_LocationID (rdr_Device r) = nullableUUID (dpc_LocationID c);
  pr_type : dev_DeviceType (rdr_Device r) = dpc_DeviceType c;
  pr_credential : db_credentials d' !! dcr_ID (rdr_Credential r) = Some (rdr_Credential r);
  pr_cred_device : dcr_DeviceID (rdr_Credential r) = dev_ID (rdr_Device r);
  pr_cred_prefix : LookupPrefix (rdr_Secret r) = Ok (dcr_LookupPrefix (rdr_Credential r));
  pr_cred_hash : HashSecret (rdr_Secret r) = Ok (dcr_CredentialHash (rdr_Credential r));
  pr_cred_live : dcr_RevokedAt (rdr_Credential r) = None /\ dcr_ExpiresAt (rdr_Credential r) = None;
  pr_device_ok : device_ok d' (dev_ID (rdr_Device r)) (rdr_Device r) = Ok tt;
  pr_credential_ok : credential_ok d' (dcr_ID (rdr_Credential r)) (rdr_Credential r) = Ok tt;
}.

Lemma newCredentialSecret_Ok e s secret prefix hash s' :
  newCredentialSecret e s = (Ok (secret, prefix, hash), s') ->
  st_db s' = st_db s /\ LookupPrefix secret = Ok prefix /\ HashSecret secret = Ok hash.
Proof.
  unfold newCredentialSecret. intros (sec & s1 & H1 & H)%bind_Ok.
  apply map_err_Ok in H1. unfold GenerateOpaqueSecret in H1. apply bind_Ok in H1 as (buf & s2 & H2 & H1).
  apply ret_Ok in H1 as [_ <-]. unfold rand_Read in H2. case_match; [done|]. injection H2 as _ <-.
  apply bind_Ok in H as (p & s3 & H3 & H). injection H3 as Hp <-.
  apply bind_Ok in H as (h & s4 & H4 & H). injection H4 as Hh <-.
  apply ret_Ok in H as [[= <- <- <-] <-]. done.
Qed.

Lemma pairDeviceInTx_Ok code prefix platform version name caps config secret cprefix chash e s r s' :
  LookupPrefix secret = Ok cprefix -> HashSecret secret = Ok chash ->
  PairingCodeLookupPrefix code = Ok prefix ->
  well_keyed dpc_ID dpc_PairingCodeLookupPrefix (db_pairing_codes (st_db s)) ->
  pairDeviceInTx code prefix platform version name caps config secret cprefix chash e s = (Ok r, s') ->
  exists c, paired (st_db s) code r (st_db s') (st_now s) c.
Proof.
  intros Hsp Hsh Hcp Hwk. unfold pairDeviceInTx. intros (c & s1 & H1 & H)%bind_Ok.
  apply no_rows_exec in H1 as (d1 & H1 & ->).
  apply select_first_Ok in H1 as (-> & (k & Hk) & [[Hp%String.eqb_eq Hl]%andb_prop Hloc]%andb_prop & _).
  pose proof (wk_key _ _ _ Hwk _ _ Hk) as Hid. subst k.
  apply bind_Ok in H as (ok & s2 & H2 & H). injection H2 as H2 <-.
  apply bind_Ok in H as ([] & s3 & H3 & H). apply guard_err_Ok in H3 as (Hok & -> & _).
  apply negb_false_iff in Hok as ->. apply SecretMatches_true in H2.
  apply bind_Ok in H as (v & s4 & H4 & H). apply map_err_Ok, exec_Ok in H4 as (_ & d2 & H4 & ->).
  apply insert_row_Ok in H4 as (Hv & _ & _ & ->).
  apply bind_Ok in H as (c2 & s5 & H5 & H). apply no_rows_exec in H5 as (d3 & H5 & ->).
  apply update_row_Ok in H5 as (c1 & Hc1 & _ & [= <-] & _ & ->).
  cbn [st_db st_now with_db tick] in *. unfold db_pairing_codes in Hc1; simpl in Hc1.
  change (db_pairing_codes (st_db s) !! dpc_ID c = Some c1) in Hc1. rewrite Hk in Hc1. injection Hc1 as <-.
  apply bind_Ok in H as (v2 & s6 & H6 & H). apply map_err_Ok, exec_Ok in H6 as (_ & d4 & H6 & ->).
  apply update_row_Ok in H6 as (v1 & Hv1 & Hwhr & [= <-] & Hdok & ->). simpl in Hv1.
  rewrite lookup_insert_eq in Hv1. injection Hv1 as <-.
  apply bind_Ok in H as (cr & s7 & H7 & H). apply map_err_Ok, exec_Ok in H7 as (_ & d5 & H7 & ->).
  apply insert_row_Ok in H7 as (Hcr & _ & Hcok & ->). apply ret_Ok in H as [<- <-].
  exists c. subst v cr.
  split; [..|exact Hdok|unfold credential_ok, no_other in Hcok |- *; simpl in Hcok |- *;
  unfold db_credentials; simpl; by rewrite delete_insert_eq]; simpl; rewrite ?lookup_insert_eq; try done; first [by rewrite Hp|apply lookup_insert_eq].
Qed.

Lemma PairDevice_Ok arg e d r d' :
  auth_inv d -> run (PairDevice arg) e d = (Ok r, d') ->
  exists c t, paired d (NormalizePairingCode (pdp_Code arg)) r d' (pg_time (env_pgclock e t)) c.
Proof.
  intros Hinv (s' & H & <-)%run_Ok. unfold PairDevice in H.
  apply bind_Ok in H as (prefix & s1 & H1 & H). apply map_err_Ok in H1. injection H1 as Hp <-.
  apply bind_Ok in H as ([] & s2 & H2 & H). apply guard_err_Ok in H2 as (_ & -> & _).
  apply bind_Ok in H as ([] & s3 & H3 & H). apply guard_err_Ok in H3 as (_ & -> & _).
  apply bind_Ok in H as ([[secret cp] ch] & s4 & H4 & H).
  apply newCredentialSecret_Ok in H4 as (Hdb & Hcp & Hch).
  apply inAdminTx_Ok in H as (s5 & s6 & Hd & (t & Ht) & Hb & <-); [|solve_intx].
  apply pairDeviceInTx_Ok in Hb as [c Hb]; [|done|done|done|rewrite Hd, Hdb; apply Hinv].
  rewrite Hd, Hdb, Ht in Hb. exists c, t. exact Hb.
Qed.

(** A pairing code pairs one device: after a device has been paired with a
    code, no request with a spelling of the same code pairs another, whatever
    runs in between. *)
Theorem pairing_code_single_use arg1 e1 d r d1 d2 arg2 e2
  (Hinv : auth_inv d) (Hpair : run (PairDevice arg1) e1 d = (Ok r, d1))
  (Hlater : identity_history d1 d2)
  (Hsame : NormalizePairingCode (pdp_Code arg2) = NormalizePairingCode (pdp_Code arg1)) :
  is_ok (fst (run (PairDevice arg2) e2 d2)) = false.
Proof.
  destruct (run (PairDevice arg2) e2 d2) as [[r2|err] d3] eqn:Hr2; [|done]. exfalso.
  assert (auth_step d d1) as Hstep1 by apply (run_auth_of _ (IPairDevice arg1) eq_refl _ _ _ _ Hpair).
  assert (auth_inv d1) as Hinv1 by by eapply auth_step_inv.
  assert (auth_inv d2) as Hinv2 by (eapply auth_step_inv; [by apply identity_history_auth|done]).
  apply PairDevice_Ok in Hpair as (c & t & Hpair); [|done].
  apply PairDevice_Ok in Hr2 as (c2 & t2 & Hr2); [|done]. rewrite Hsame in Hr2.
  destruct (ts_rows _ _ _ _ _ (au_codes _ _ (identity_history_auth _ _ Hlater)) _ _
  (pr_consumed _ _ _ _ _ _ Hpair)) as (c3 & Hc3 & Hle).
  assert (dpc_ID c = dpc_ID c2) as Heq.
  { eapply (wk_mark _ _ _ (ai_codes _ Hinv2)); [exact Hc3|exact (pr_code _ _ _ _ _ _ Hr2)|].
  rewrite (pl_prefix _ _ Hle). simpl. pose proof (pr_prefix _ _ _ _ _ _ Hpair) as H1.
  pose proof (pr_prefix _ _ _ _ _ _ Hr2) as H2. congruence. }
  pose proof (pr_code _ _ _ _ _ _ Hr2) as Hc2. rewrite <- Heq, Hc3 in Hc2. injection Hc2 as ->.
  pose proof (pr_live _ _ _ _ _ _ Hr2) as [Hn%null_None _]%andb_prop.
  rewrite (pl_consumed _ _ Hle eq_refl) in Hn. done.
Qed.

(** ** A paired device is let in *)

Lemma check_goes b err : b = true -> check b err = Ok tt.
Proof. by intros ->. Qed.

Lemma inTx_run {A} (fn : Go A) e s a :
  fault_free e -> (forall s1, st_db s1 = st_db s -> exists s2, fn e s1 = (Ok a, s2)) ->
  exists s', inTx fn e s = (Ok a, s').
Proof.
  intros Hff Hfn. unfold inTx.
  erewrite bind_run; [|by apply map_err_run, (BeginTx_run e Hff)].
  destruct (Hfn (begun e s)) as (s2 & H2); [done|].
  erewrite bind_run; [|by apply or_rollback_run].
  erewrite bind_run; [|by apply map_err_run, (Commit_run e Hff)]. by eexists.
Qed.

Lemma SetContext_keeps e s : fault_free e ->
  exists s', map_err (Wrap "setting platform admin context") SetContext e s = (Ok tt, s') /\
  st_db s' = st_db s.
Proof. intros Hff. eexists. split; [by apply map_err_run, (SetContext_run e Hff)|]. done. Qed.

Lemma credential_ok_touched d k v c used now :
  credential_ok d (dcr_ID c) c = Ok tt -> dcr_DeviceID c = k ->
  credential_ok (set_devices (<[k := v]> (db_devices d)) d) (dcr_ID c)
  (stamped_credential used (dcr_RevokedAt c) now c) = Ok tt.
Proof.
  intros H Hv. unfold credential_ok in H. checks_in H.
  unfold credential_ok. rewrite check_goes; [|exact Hchk]. cbn [res_bind].
  rewrite check_goes; [|exact Hchk0]. cbn [res_bind]. rewrite check_goes; [|exact Hchk1]. cbn [res_bind].
  apply check_goes. simpl. by rewrite Hv, lookup_insert_eq.
Qed.

(** A paired device is let in: when no call fails, the secret that pairing
    returned authenticates, on every clock, as the device that was paired, in the
    organisation and location of the pairing code. *)
Theorem paired_device_authenticates arg e1 d r d1 e2
  (Hinv : auth_inv d) (Hpair : run (PairDevice arg) e1 d = (Ok r, d1)) (Hff : fault_free e2) :
  exists d2, run (AuthenticateDeviceCredential (rdr_Secret r)) e2 d1 = (Ok (rdr_Device r), d2).
Proof.
  assert (auth_inv d1) as Hinv1.
  { eapply auth_step_inv; [|exact Hinv]. by apply (run_auth_of _ (IPairDevice arg) eq_refl _ _ _ _ Hpair). }
  apply PairDevice_Ok in Hpair as (c & t & P); [|done]. destruct P.
  unfold AuthenticateDeviceCredential, run. rewrite pr_cred_prefix0.
  erewrite bind_run; [|done]. unfold inAdminTx.
  set (v := rdr_Device r) in *. set (cr := rdr_Credential r) in *.
  assert (exists s', inTx (map_err (Wrap "setting platform admin context") SetContext ;;
  row ← map_err (no_rows_to ErrUnauthorized "getting device credential")
  (GetDeviceCredentialByPrefix (dcr_LookupPrefix cr));
  ok ← lift (SecretMatches (rdr_Secret r) (dcr_CredentialHash row.1));
  guard_err (negb ok) ErrUnauthorized ;;
  map_err (Wrap "marking device seen") (MarkDeviceSeen (dev_ID row.2) (dev_OrganisationID row.2)) ;;
  map_err (Wrap "touching device credential") (TouchDeviceCredential (dcr_ID row.1)) ;;
  mret row.2) e2 (start d1) = (Ok v, s')) as (s' & Hrun); [|exists (st_db s'); by rewrite Hrun].
  apply inTx_run; [done|]. intros s1 Hs1. cbn [st_db start] in Hs1.
  destruct (SetContext_keeps e2 s1 Hff) as (s2 & Hctx & Hs2). rewrite Hs1 in Hs2.
  erewrite bind_run; [|exact Hctx].
  assert (GetDeviceCredentialByPrefix (dcr_LookupPrefix cr) e2 s2 = (Ok (cr, v), with_db (st_db s2) (tick s2)))
  as Hget.
  { apply exec_run; [done|]. rewrite Hs2. cbv beta. rewrite (select_first_unique _ _ _ _ _ (dcr_ID cr) cr).
  - cbn [res_bind fst snd]. by rewrite pr_cred_device0, pr_device0.
  - done.
  - rewrite String.eqb_refl. unfold credential_live. destruct pr_cred_live0 as [-> ->].
  by rewrite pr_cred_device0, pr_device0.
  - intros j x Hj [Hx%String.eqb_eq _]%andb_prop.
  assert (j = dcr_ID cr) as -> by by eapply (wk_mark _ _ _ (ai_credentials _ Hinv1)). congruence. }
  erewrite bind_run; [|apply map_err_run, Hget]. cbn [fst snd].
  erewrite bind_run; [|unfold lift; by rewrite (proj2 (SecretMatches_true _ _) pr_cred_hash0)].
  erewrite bind_run; [|done].
  erewrite bind_run; [|apply map_err_run, exec_run; [done|]; cbn [st_db with_db tick]; rewrite Hs2;
  eapply update_row_run; [exact pr_device0|unfold dev_in_org; by rewrite N.eqb_refl, pr_trusted0|done
  |exact pr_device_ok0]].
  erewrite bind_run; [|apply map_err_run, exec_run; [done|]; cbn [st_db with_db tick];
  eapply update_exec_run; [exact pr_credential0|by destruct pr_cred_live0 as [-> _]|reflexivity
  |by apply credential_ok_touched]].
  by eexists.
Qed.
End Facts.

(** ** The theorems at the sample restaurant *)

Lemma people_auth : auth_inv people_db.
Proof.
  split; split; intros *; unfold people_db, db_web_sessions, db_credentials, db_devices, db_pairing_codes;
  simpl; by rewrite lookup_empty.
Qed.

Lemma discard_auth {A} (m : Go A) c e d :
  run_identity c = discard m -> auth_inv d -> auth_inv (snd (run m e d)).
Proof.
  intros Hc. destruct (run m e d) as [r d'] eqn:Hr. apply (auth_step_inv d).
  exact (run_auth_of m c Hc _ _ _ _ Hr).
Qed.

Lemma logged_in_auth : auth_inv logged_in_db.
Proof. apply (discard_auth login (ICreateSession login_args)); [done|exact people_auth]. Qed.

Lemma offered_auth : auth_inv offered_twice_db.
Proof.
  apply (discard_auth offer (ICreatePairingCode pairing_args)); [done|].
  apply (discard_auth offer (ICreatePairingCode pairing_args)); [done|exact people_auth].
Qed.

Lemma paired_both_auth : auth_inv paired_both_db.
Proof.
  apply (discard_auth (pair_code code_two) (IPairDevice (pair_args code_two))); [done|].
  apply (discard_auth (pair_code code_one) (IPairDevice (pair_args code_one))); [done|exact offered_auth].
Qed.

Lemma session_accepted_is_live_witness :
  exists w, run (ValidateWebSession session_secret) (calm 200 2000000) logged_in_db
    = (Ok w, snd (run (ValidateWebSession session_secret) (calm 200 2000000) logged_in_db)) /\
  wse_RevokedAt (wss_Session w) = None.
Proof.
  destruct (run_succeeds (ValidateWebSession session_secret) (calm 200 2000000) logged_in_db) as [w Hw];
    [vm_compute; reflexivity|].
  exists w. split; [exact Hw|].
  destruct (session_accepted_is_live _ _ _ _ _ Hw) as (_ & _ & _ & _ & _ & _ & H & _). exact H.
Defined.

(** The only session there is. *)
Definition the_session : option WebSession :=
  match map_to_list (db_web_sessions logged_in_db) with (_, s) :: _ => Some s | [] => None end.

Lemma revoked_session_never_accepted_witness :
  is_ok (fst (run (ValidateWebSession session_secret) (calm 400 4000000)
    (snd (run (RevokeWebSession session_secret) (still 300 3000000) logged_in_db)))) = false.
Proof.
  destruct (map_to_list (db_web_sessions logged_in_db)) as [|[k s] l] eqn:Hl;
    [vm_compute in Hl; discriminate Hl|].
  assert (db_web_sessions logged_in_db !! k = Some s) as Hk
    by (apply elem_of_map_to_list; rewrite Hl; left).
  assert (the_session = Some s) as Hs by (unfold the_session; rewrite Hl; reflexivity).
  destruct (run_succeeds (RevokeWebSession session_secret) (still 300 3000000) logged_in_db) as [[] Hr];
    [vm_compute; reflexivity|].
  refine (revoked_session_never_accepted (still 300 3000000) _ session_secret _ _ (calm 400 4000000) k s
    logged_in_auth Hk _ _ Hr (identity_start _)).
  - assert (option_map wse_LookupPrefix the_session
            = match LookupPrefix session_secret with Ok p => Some p | Err _ => None end) as Hp
      by (vm_compute; reflexivity).
    rewrite Hs in Hp. destruct (LookupPrefix session_secret) as [p|]; [|discriminate Hp].
    simpl in Hp. injection Hp as <-. reflexivity.
  - intros t. change (pg_time (env_pgclock (still 300 3000000) t)) with (pg_time 3000000).
    assert (option_map (session_live logged_in_db (pg_time 3000000)) the_session = Some true) as Hlive
      by (vm_compute; reflexivity).
    rewrite Hs in Hlive. injection Hlive as Hlive. exact Hlive.
Defined.

Lemma revoked_device_never_authenticates_witness :
  exists v, fst (run (AuthenticateDeviceCredential secret_two) (calm 700 7000000) revoked_db) = Ok v /\
  dev_ID v <> device_one.
Proof.
  destruct (run_succeeds (RevokeDevice olive device_one) (calm 600 6000000) paired_both_db) as [v Hv];
    [exact revoke_ok|].
  destruct (run_succeeds (AuthenticateDeviceCredential secret_two) (calm 700 7000000) revoked_db) as [v2 Ha];
    [exact other_device_ok|].
  exists v2. split; [rewrite Ha; reflexivity|].
  exact (revoked_device_never_authenticates _ _ _ _ _ _ _ _ _ _ _ paired_both_auth Hv (identity_start _) Ha).
Defined.

Lemma pairing_code_single_use_witness :
  is_ok (fst (run (pair_code code_one) (calm 500 5000000) paired_db)) = false.
Proof.
  destruct (run_succeeds (pair_code code_one) (calm 400 4000000) offered_twice_db) as [r Hr]; [exact pair_one_ok|].
  exact (pairing_code_single_use (pair_args code_one) _ _ _ _ _ (pair_args code_one) (calm 500 5000000)
    offered_auth Hr (identity_start _) eq_refl).
Defined.

Lemma paired_device_authenticates_witness :
  exists r d, fst (run (pair_code code_one) (calm 400 4000000) offered_twice_db) = Ok r /\
  run (AuthenticateDeviceCredential (rdr_Secret r)) (calm 500 5000000) paired_db = (Ok (rdr_Device r), d).
Proof.
  destruct (run_succeeds (pair_code code_one) (calm 400 4000000) offered_twice_db) as [r Hr]; [exact pair_one_ok|].
  assert (fault_free (calm 500 5000000)) as Hff by (intros t; reflexivity).
  destruct (paired_device_authenticates _ _ _ _ _ _ offered_auth Hr Hff) as [d Hd].
  exists r, d. split; [rewrite Hr; reflexivity|exact Hd].
Defined.
