(* ===== verification/Guards.v ===== *)
(** Handlers of the HTTP API that go no further than their authentication unless
    the request is allowed: a small logic of such handlers, and what the contexts
    of the platform's and the tenants' requests guarantee. *)

From S2P Require Import Prelude Json Schema GoTx Store Queries Tokens IdentityQueries Identity Http PlatformQueries Auth Platform TxFacts Steps IdentityFacts IntegrationFacts SystemCommands IdentityTheorems.
#[local] Open Scope string_scope.
#[local] Open Scope Z_scope.
#[local] Open Scope list_scope.

(** ** Parts of a handler that only look at the request *)

Class Inert {A} (m : Http A) : Prop :=
  inert : forall e s r s', m e s = (r, s') -> s' = s /\ is_ok r = true.

#[export] Instance inert_ret {A} (a : A) : Inert (http_ret a).
Proof. by intros e s r s' [= <- <-]. Qed.
#[export] Instance inert_refuse {A} err : Inert (@refuse A err).
Proof. by intros e s r s' [= <- <-]. Qed.
#[export] Instance inert_refuse_if b err : Inert (refuse_if b err).
Proof. unfold refuse_if. destruct b; apply _. Qed.
#[export] Instance inert_bind {A B} (m : Http A) (k : A -> Http B) :
  Inert m -> (forall a, Inert (k a)) -> Inert (http_bind m k).
Proof.
  intros Hm Hk e s r s' H. unfold http_bind, mbind, Go_bind in H.
  destruct (m e s) as [[[a|err]|err] s1] eqn:H1; apply Hm in H1 as [-> Ho]; [by apply Hk in H| |done].
  by injection H as <- <-.
Qed.
#[export] Hint Extern 5 (Inert (match ?x with _ => _ end)) => destruct x : typeclass_instances.

Section Inert.
Context {HT : HttpText}.

#[export] Instance inert_parseHeaderUUID r n b : Inert (parseHeaderUUID r n b).
Proof. unfold parseHeaderUUID. cbv zeta. apply _. Qed.
#[export] Instance inert_pathUUID r n : Inert (pathUUID r n).
Proof. unfold pathUUID. apply _. Qed.
#[export] Instance inert_bearerCredential r : Inert (bearerCredential r).
Proof. unfold bearerCredential. cbv zeta. apply _. Qed.
#[export] Instance inert_decodeJSONBody {A} fs f (a : A) r : Inert (decodeJSONBody fs f a r).
Proof. unfold decodeJSONBody. apply _. Qed.
#[export] Instance inert_decode_strings fs r : Inert (decode_strings fs r).
Proof. unfold decode_strings. apply _. Qed.
#[export] Instance inert_requireReason s : Inert (requireReason s).
Proof. unfold requireReason. cbv zeta. apply _. Qed.
#[export] Instance inert_reason r : Inert (decodePlatformStatusChangeReason r).
Proof. unfold decodePlatformStatusChangeReason. apply _. Qed.
#[export] Instance inert_platformLimit r : Inert (platformLimit r).
Proof. unfold platformLimit. cbv zeta. apply _. Qed.
#[export] Instance inert_webSessionRequestContext w org loc b pol :
  Inert (webSessionRequestContext w org loc b pol).
Proof. unfold webSessionRequestContext. cbv zeta. apply _. Qed.
#[export] Instance inert_deviceRequestContext v org loc b pol :
  Inert (deviceRequestContext v org loc b pol).
Proof. unfold deviceRequestContext. cbv zeta. apply _. Qed.
End Inert.

(** ** Handlers that need something *)

(** What holds of the environment and the state a handler starts in, unless it answers
    an error and moves the database by [T] at most. *)
Definition Needs {A} (T : Db -> Db -> Prop) (P : Env -> St -> Prop) (m : Http A) : Prop :=
  forall e s r s', st_saved s = None -> m e s = (r, s') ->
    P e s \/ (exists err, r = Ok (Err err)) /\ T (st_db s) (st_db s').

Lemma needs_weaken {A} (T T' : Db -> Db -> Prop) (P P' : Env -> St -> Prop) (m : Http A) :
  (forall d d', T d d' -> T' d d') -> (forall e s, P e s -> P' e s) -> Needs T P m -> Needs T' P' m.
Proof. intros HT HP Hm e s r s' Hs [H|(? & H)]%Hm; [left|right|]; auto. Qed.

Lemma needs_first {A B} T P (m : Http A) (k : A -> Http B) : Needs T P m -> Needs T P (http_bind m k).
Proof.
  intros Hm e s r s' Hs H. unfold http_bind, mbind, Go_bind in H.
  destruct (m e s) as [r1 s1] eqn:H1. destruct (Hm _ _ _ _ Hs H1) as [?|[(err & ->) Hd]]; [by left|].
  injection H as <- <-. eauto.
Qed.

Lemma needs_inert {A B} T `{!Reflexive T} P (m : Http A) (k : A -> Http B) :
  Inert m -> (forall a, Needs T P (k a)) -> Needs T P (http_bind m k).
Proof.
  intros Hm Hk e s r s' Hs H. unfold http_bind, mbind, Go_bind in H.
  destruct (m e s) as [[[a|err]|err] s1] eqn:H1; apply Hm in H1 as [-> Ho]; [by eapply Hk| |done].
  injection H as <- <-. eauto.
Qed.

Create HintDb needs.

Lemma needs_ret {A B} T P (a : A) (k : A -> Http B) :
  Needs T P (k a) -> Needs T P (http_bind (http_ret a) k).
Proof. intros Hk e s r s' Hs H. by apply (Hk e s r s'). Qed.

Lemma http_bind_assoc {A B C} (m : Http A) (k : A -> Http B) (h : B -> Http C) e s :
  http_bind (http_bind m k) h e s = http_bind m (fun a => http_bind (k a) h) e s.
Proof.
  unfold http_bind, mbind, Go_bind. by destruct (m e s) as [[[a|err]|err] s1].
Qed.

Lemma needs_assoc {A B C} T P (m : Http A) (k : A -> Http B) (h : B -> Http C) :
  Needs T P (http_bind m (fun a => http_bind (k a) h)) -> Needs T P (http_bind (http_bind m k) h).
Proof. intros Hn e s r s' Hs H. rewrite http_bind_assoc in H. by eapply Hn. Qed.

(** Walk to the part that needs it. *)
Ltac solve_needs :=
  lazymatch goal with
  | |- forall _, _ => intros ?; solve_needs
  | |- Needs _ _ (let _ := _ in _) => cbv zeta; solve_needs
  | |- Needs _ _ (match ?x with _ => _ end) => destruct x; solve_needs
  | |- Needs _ _ (refuse _) => intros ? ? ? ? ? [= <- <-]; eauto
  | |- Needs _ _ (http_bind (http_bind _ _) _) => apply needs_assoc; cbv beta; solve_needs
  | |- Needs _ _ (http_bind _ _) =>
      first [ apply needs_ret; cbn [fst snd]; solve_needs
            | apply needs_inert; [typeclasses eauto|typeclasses eauto|]; solve_needs
            | apply needs_first; solve_needs ]
  | |- Needs _ _ ?m => first [solve [eauto with needs]
                             |let h := get_head m in progress unfold h; cbv beta zeta; solve_needs]
  end.

(** ** What authentication leaves *)

(** Sessions, credentials and devices may have been marked as seen; nothing else. *)
Definition seen (d d' : Db) : Prop :=
  d' = set_devices (db_devices d')
         (set_credentials (db_credentials d') (set_web_sessions (db_web_sessions d') d)).

Definition touched (d d' : Db) : Prop := seen d d' /\ auth_step d d'.

#[export] Instance seen_preorder : PreOrder seen.
Proof.
  split.
  - intros d. unfold seen. by destruct d as [????????????[]].
  - intros x y z H1 H2. unfold seen in *. rewrite H2 at 1. by rewrite H1.
Qed.

#[export] Instance touched_preorder : PreOrder touched.
Proof. split; [by split|]. intros x y z [] []. split; by etrans. Qed.

#[local] Hint Extern 1 (seen _ _) => unfold seen;
  repeat match goal with d : Db |- _ => destruct d as [????????????[]] end; reflexivity : keeps.

Section Seen.
Context {GT : GoText}.

Lemma validate_seen secret : Keeps touched (ValidateWebSession secret).
Proof. apply keeps_both; solve_keeps. Qed.

Lemma device_seen secret : Keeps touched (AuthenticateDeviceCredential secret).
Proof. apply keeps_both; solve_keeps. Qed.

Lemma validate_touches secret : TopKeeps touched (ValidateWebSession secret).
Proof. apply top_of_keeps; [apply _|solve_closed|apply validate_seen]. Qed.

Lemma device_touches secret : TopKeeps touched (AuthenticateDeviceCredential secret).
Proof. apply top_of_keeps; [apply _|solve_closed|apply device_seen]. Qed.
End Seen.

(** [calling], read backwards. *)
Lemma calling_inv {A} write (m : Go A) e s r s' :
  calling write m e s = (r, s') ->
  (exists a, m e s = (Ok a, s') /\ r = Ok (Ok a)) \/
  (exists err, m e s = (Err err, s') /\ r = Ok (Err (write err))).
Proof.
  unfold calling, attempt, mbind, Go_bind. destruct (m e s) as [[a|err] s1]; intros [= <- <-]; eauto.
Qed.

Lemma http_bind_inv {A B} (m : Http A) (k : A -> Http B) e s r s' :
  http_bind m k e s = (r, s') ->
  (exists a s1, m e s = (Ok (Ok a), s1) /\ k a e s1 = (r, s')) \/
  (exists err, m e s = (Ok (Err err), s') /\ r = Ok (Err err)) \/
  (exists err, m e s = (Err err, s') /\ r = Err err).
Proof.
  unfold http_bind, mbind, Go_bind. destruct (m e s) as [[[a|err]|err] s1]; [by eauto|..];
    intros [= <- <-]; eauto.
Qed.

(** ** Requests of the platform *)

(** What [ActorHasPlatformPermission] answers. *)
Definition platform_allows (d : Db) (user : uuid) (permission : string) : bool :=
  map_any (fun m => active_platform_member user m && role_allows d (pmb_Role m) permission)
    (db_platform_members d).

Lemma inAuthorizedPlatformTx_refused {A} req p (fn : Go A) e s r s' :
  platform_allows (st_db s) (prc_UserProfileID req) p = false ->
  inAuthorizedPlatformTx req p fn e s = (r, s') ->
  (exists err, r = Err err) /\ st_db s' = st_db s.
Proof.
  intros Hno H. unfold inAuthorizedPlatformTx in H. unfold guard_err in H.
  destruct (_ || _); [by injection H as <- <-; eauto|].
  apply begin_step in H as [(err & -> & ->)|(s1 & Hd1 & Hs1 & _ & H)]; [by eauto|].
  apply (context_step _ _ _ _ _ _ (st_db s)) in H as [(err & -> & ->)|(s2 & Hd2 & Hs2 & _ & H)];
    [by eauto| |done|done].
  apply (guarded_step _ _ _ _ _ _ (st_db s)) in H as [(err & -> & ->)|(b & s3 & H1 & Hs3 & _ & H)];
    [by eauto| |apply _|done].
  apply or_rollback_Ok, exec_Ok in H1 as (_ & d & [= <- <-] & ->). rewrite Hd2 in *.
  unfold platform_allows in Hno. rewrite Hno in H.
  apply (guarded_step _ _ _ _ _ _ (st_db s)) in H as [(err & -> & ->)|(b & s4 & H1 & _)];
    [by eauto| |apply _|done].
  by apply or_rollback_Ok, guard_err_Ok in H1 as (? & _).
Qed.

Lemma CommitPlatform_cases e s b r s' : st_saved s = Some b -> CommitPlatform e s = (r, s') ->
  is_ok r = true /\ st_db s' = st_db s \/
  is_ok r = false /\ (st_db s' = b \/ st_db s' = st_db s /\ lost_commit e).
Proof.
  intros Hs H. unfold CommitPlatform, saved_db in H. rewrite Hs in H.
  assert (forall r s', Commit e s = (r, s') -> is_ok r = true /\ st_db s' = st_db s \/
    is_ok r = false /\ (st_db s' = b \/ st_db s' = st_db s /\ lost_commit e)) as Hc.
  { clear H. intros [u|err] s1 H.
    - apply Commit_Ok in H as [-> _]. by left.
    - right. split; [done|]. apply (Commit_Err _ _ _ _ b) in H as [_ [->|[(f & ? & ?) ->]]]; [by left| |done].
      right. split; [done|]. by exists (st_tick s), f. }
  destruct (platform_members_updated b (st_db s)); [|by apply Hc].
  destruct (lockout_guard _); [by apply Hc|]. injection H as <- <-. right. split; [done|by left].
Qed.

(** A transaction of the platform that calls a service and then writes: the service is
    not reached; or it is, and what it left stays, whatever is answered; or what was
    written after it is committed too. *)
Lemma service_tx_inv {A B} req p (m : Go A) (k : A -> Go B) e s r s' :
  (forall a, InTx (k a)) ->
  inAuthorizedPlatformTx req p (on_other_connection m ≫= k) e s = (r, s') ->
  is_ok r = false /\ st_db s' = st_db s \/
  exists s1 r1 s2, st_db s1 = st_db s /\ st_saved s1 = None /\ m e s1 = (r1, s2) /\
    (is_ok r = false /\ st_db s' = st_db s2 \/
     exists a s3 b s4, r1 = Ok a /\ st_db s3 = st_db s2 /\ k a e s3 = (Ok b, s4) /\ st_db s' = st_db s4 /\
       (r = Ok b \/ is_ok r = false /\ lost_commit e)).
Proof.
  intros Hin H. unfold inAuthorizedPlatformTx in H. unfold guard_err in H at 1.
  destruct (_ || _); [injection H as <- <-; by left|].
  apply begin_step in H as [(err & -> & ->)|(t1 & Hd1 & Hs1 & _ & H)]; [by left|].
  apply (context_step _ _ _ _ _ _ (st_db s)) in H as [(err & -> & ->)|(t2 & Hd2 & Hs2 & _ & H)]; [by left| |done..].
  apply (guarded_step _ _ _ _ _ _ (st_db s)) in H as [(err & -> & ->)|(ok & t3 & H1 & Hs3 & _ & H)];
    [by left| |apply _|done].
  apply or_rollback_Ok, exec_Ok in H1 as (_ & d & [= <- <-] & ->).
  apply (guarded_step _ _ _ _ _ _ (st_db s)) in H as [(err & -> & ->)|(u & t4 & H1 & Hs4 & _ & H)];
    [by left| |apply _|done].
  apply or_rollback_Ok, guard_err_Ok in H1 as (_ & -> & _). clear Hs3.
  right. unfold mbind at 1, Go_bind at 1, or_rollback at 1, attempt at 1 in H.
  unfold mbind at 1, Go_bind at 1 in H. unfold mbind at 1, Go_bind at 1, on_other_connection at 1 in H.
  unfold saved_db in H at 1. rewrite Hs4 in H.
  destruct (m e _) as [r1 s2] eqn:Hm in H. 
  refine (ex_intro _ _ (ex_intro _ _ (ex_intro _ _ (conj _ (conj _ (conj Hm _)))))); [done|done|].
  set (t5 := {| st_db := st_db s2; st_saved := Some (st_db s2); st_now := _; st_tick := _ |}) in H.
  destruct r1 as [a|err].
  2:{ left. destruct (@rollback_run B (id err) e t5) as (err' & t6 & Hrb & _ & Hdb & _).
      cbn [mbind Go_bind] in H. rewrite Hrb in H. injection H as <- <-. by split. }
  destruct (k a e t5) as [[b|err] s4] eqn:Hk.
  2:{ left. destruct (@rollback_run B (id err) e s4) as (err' & t6 & Hrb & _ & Hdb & _).
      pose proof (Hin _ _ _ _ _ Hk) as [Hsv _]. rewrite Hrb in H. injection H as <- <-.
      split; [done|]. rewrite Hdb. unfold saved_db. by rewrite Hsv. }
  pose proof (Hin _ _ _ _ _ Hk) as [Hsv _]. unfold mret at 1, Go_ret at 1 in H.
  unfold mbind, Go_bind, map_err in H. destruct (CommitPlatform e s4) as [rc s5] eqn:Hc.
  apply (CommitPlatform_cases _ _ (st_db s2)) in Hc as [[Hok Hd]|[Hok [Hd|[Hd Hlost]]]]; [..|by rewrite Hsv].
  - right. exists a, t5, b, s4. destruct rc; [|done]. injection H as <- <-. split_and!; auto.
  - left. destruct rc; [done|]. injection H as <- <-. by split.
  - right. exists a, t5, b, s4. destruct rc; [done|]. injection H as <- <-. split_and!; auto.
Qed.

(** ** What a handler does, by what it answers *)

(** What a part of a handler can hand to the rest. *)
Definition Yields {A} (m : Http A) (a : A) : Prop := exists e s s', m e s = (Ok (Ok a), s').

(** Answered as asked: neither refused nor given up. *)
Definition served {A} (r : result error (result ApiError A)) : bool :=
  match r with Ok (Ok _) => true | _ => false end.

Section Answers.
Context {A : Type} (T : Env -> Db -> result error (result ApiError A) -> Db -> Prop).

(** What is answered, with any call failing, and the database it leaves are as [T] says. *)
Definition Answers (m : Http A) : Prop :=
  forall e s r s', st_saved s = None -> m e s = (r, s') -> T e (st_db s) r (st_db s').

Lemma answers_assoc {B C} (m : Http B) (k : B -> Http C) (h : C -> Http A) :
  Answers (http_bind m (fun a => http_bind (k a) h)) -> Answers (http_bind (http_bind m k) h).
Proof. intros Hn e s r s' Hs H. rewrite http_bind_assoc in H. by eapply Hn. Qed.

(** What comes first goes unnoticed. *)
Lemma answers_after {B} S (m : Http B) (k : B -> Http A) :
  (forall e d d1 r d2, S d d1 -> T e d1 r d2 -> T e d r d2) ->
  (forall e d r d', S d d' -> served r = false -> T e d r d') ->
  TopKeeps S m -> (forall a, Answers (k a)) -> Answers (http_bind m k).
Proof.
  intros HS Hrefused Hm Hk e s r s' Hs H.
  apply http_bind_inv in H as [(a & s1 & H1 & H)|[(err & H1 & ->)|(err & H1 & ->)]];
    apply (Hm _ _ _ _ Hs) in H1 as [Hs1 H1]; [|by apply Hrefused..].
  eapply HS; [exact H1|]. by eapply Hk.
Qed.

Context (Hrefused : forall e d r, served r = false -> T e d r d).

Lemma answers_inert {B} (m : Http B) (k : B -> Http A) :
  Inert m -> (forall a, Yields m a -> Answers (k a)) -> Answers (http_bind m k).
Proof.
  intros Hm Hk e s r s' Hs H.
  apply http_bind_inv in H as [(a & s1 & H1 & H)|[(err & H1 & ->)|(err & H1 & ->)]];
    [|apply Hm in H1 as [-> _]; by apply Hrefused..].
  eapply Hk; [by do 3 eexists| |]; apply Hm in H1 as [-> _]; eauto.
Qed.

Lemma answers_ret {B} (a : B) (k : B -> Http A) : Answers (k a) -> Answers (http_bind (http_ret a) k).
Proof. intros Hk e s r s' Hs H. by apply (Hk e s r s'). Qed.

(** A service is called, what it did is recorded, and the answer is written. *)
Lemma answers_service {B C} req p write (m : Go B) (k : B -> Go C) (h : C -> Http A) :
  (forall b, InTx (k b)) -> (forall c e s, exists a, h c e s = (Ok (Ok a), s)) ->
  (forall e s r1 s1 r, st_saved s = None -> m e s = (r1, s1) -> served r = false ->
     T e (st_db s) r (st_db s1)) ->
  (forall e s b s1 s2 c s3 r, st_saved s = None -> m e s = (Ok b, s1) -> st_db s2 = st_db s1 ->
     k b e s2 = (Ok c, s3) -> (served r = true \/ lost_commit e) -> T e (st_db s) r (st_db s3)) ->
  Answers (http_bind (calling write (inAuthorizedPlatformTx req p (on_other_connection m ≫= k))) h).
Proof.
  intros Hin Hh Hcalled Hrecorded e s r s' Hs H.
  assert (exists r1 s1, inAuthorizedPlatformTx req p (on_other_connection m ≫= k) e s = (r1, s1) /\
    st_db s' = st_db s1 /\ served r = is_ok r1) as (r1 & s1 & Htx & -> & Hserved).
  { apply http_bind_inv in H as [(c & s1 & H1 & H)|[(err & H1 & ->)|(err & H1 & ->)]];
      apply calling_inv in H1 as [(c1 & H1 & Hr)|(err1 & H1 & Hr)]; try discriminate Hr; eauto.
    destruct (Hh c e s1) as [a Ha]. rewrite Ha in H. injection H as <- <-. eauto. }
  apply service_tx_inv in Htx as [[Hno ->]|(t & rt & t1 & <- & Ht & Hm & Hcase)]; [apply Hrefused; congruence| |done].
  destruct Hcase as [[Hno ->]|(b & t2 & c & t3 & -> & Hd & Hk & -> & Hr)].
  - eapply Hcalled; [done|exact Hm|congruence].
  - eapply Hrecorded; [done|exact Hm|exact Hd|exact Hk|]. destruct Hr as [->|[_ ?]]; auto.
Qed.
End Answers.

Lemma needs_platform_tx {A} req p write (fn : Go A) :
  Needs eq (fun _ s => platform_allows (st_db s) (prc_UserProfileID req) p = true)
    (calling write (inAuthorizedPlatformTx req p fn)).
Proof.
  intros e s r s' Hs H. destruct (platform_allows _ _ _) eqn:Hp; [by left|right].
  apply calling_inv in H as [(a & H & _)|(err & H & ->)];
    apply inAuthorizedPlatformTx_refused in H as [(? & Hr) ->]; eauto. done.
Qed.
#[export] Hint Resolve needs_platform_tx : needs.

Section Platform.
Context {GT : GoText} {HT : HttpText}.
Context (cfg : Config).

(** In production a platform request acts for the user of a live session. *)
Lemma platformRequestContext_inv r e s res s' :
  isDevelopmentEnvironment (cfg_Environment cfg) = false -> st_saved s = None ->
  platformRequestContext cfg r e s = (res, s') ->
  st_saved s' = None /\
  ((exists err, res = Ok (Err err)) /\ touched (st_db s) (st_db s') \/
   exists secret w, ValidateWebSession secret e s = (Ok w, s') /\
     bearerCredential r e s = (Ok (Ok secret), s) /\
     res = Ok (Ok {| prc_ActorRef := actorRefForSession w; prc_UserProfileID := usr_ID (wss_User w) |})).
Proof.
  intros Hprod Hs H. unfold platformRequestContext in H. rewrite Hprod in H. simpl in H.
  apply http_bind_inv in H as [(u & s1 & H1 & H)|[(err & H1 & ->)|(err & H1 & ->)]];
    apply inert in H1 as [-> Ho]; [|by split; [done|]; left; split; [eauto|]|done].
  apply http_bind_inv in H as [(u1 & s1 & H1 & H)|[(err & H1 & ->)|(err & H1 & ->)]];
    apply inert in H1 as [-> Ho1]; [|by split; [done|]; left; split; [eauto|]|done].
  apply http_bind_inv in H as [(secret & s1 & H1 & H)|[(err & H1 & ->)|(err & H1 & ->)]];
    pose proof (inert _ _ _ _ H1) as [-> Ho2]; [|by split; [done|]; left; split; [eauto|]|done].
  apply http_bind_inv in H as [(w & s1 & H2 & H)|[(err & H2 & ->)|(err & H2 & ->)]];
    apply calling_inv in H2 as [(w' & H2 & Hr)|(err' & H2 & Hr)]; try discriminate Hr;
    destruct (validate_touches _ _ _ _ _ Hs H2) as [Hs' Ht].
  - injection Hr as <-. injection H as <- <-. split; [done|]. right. eauto 10.
  - split; [done|]. left. split; [eauto|done].
Qed.
End Platform.

(** The session of the bearer is live, and its user has the permission. *)
Definition platform_admitted {GT : GoText} {HT : HttpText} (r : Request) (p : string) (e : Env) (s : St) : Prop :=
  exists secret w s1, bearerCredential r e s = (Ok (Ok secret), s) /\
    ValidateWebSession secret e s = (Ok w, s1) /\
    platform_allows (st_db s) (usr_ID (wss_User w)) p = true.

Lemma seen_allows d d' user p : seen d d' -> platform_allows d' user p = platform_allows d user p.
Proof. by intros ->. Qed.

Lemma needs_platform {GT : GoText} {HT : HttpText} {A} cfg r p (k : PlatformRequestContext -> Http A) :
  isDevelopmentEnvironment (cfg_Environment cfg) = false ->
  (forall req, Needs eq (fun _ s => platform_allows (st_db s) (prc_UserProfileID req) p = true) (k req)) ->
  Needs touched (platform_admitted r p) (http_bind (platformRequestContext cfg r) k).
Proof.
  intros Hprod Hk e s res s' Hs H.
  apply http_bind_inv in H as [(req & s1 & H1 & H)|[(err & H1 & ->)|(err & H1 & ->)]];
    destruct (platformRequestContext_inv _ _ _ _ _ _ Hprod Hs H1)
      as [Hs1 [[(err' & Hr) Ht]|(secret & w & Hv & Hb & Hr)]]; try done; [|by right; split; [eauto|]].
  injection Hr as ->. pose proof (validate_touches _ _ _ _ _ Hs Hv) as [_ Ht].
  destruct (Hk _ _ _ _ _ Hs1 H) as [Hp|[(err & ->) <-]].
  - left. exists secret, w, s1. split_and!; [done..|]. destruct Ht as [Ht _].
    by rewrite <- (seen_allows _ _ _ _ Ht).
  - right. split; [eauto|done].
Qed.
