(* ===== verification/MembershipTheorems.v ===== *)
(** An organisation keeps an owner, members are changed by those who may, and
    what the operations on memberships leave behind. *)

From S2P Require Import Prelude Json Crypto Schema GoTx Store Queries Tokens IdentityQueries Identity Memberships TxFacts Steps IdentityFacts MembershipFacts Samples IdentitySamples.
#[local] Open Scope string_scope.
#[local] Open Scope Z_scope.
#[local] Open Scope list_scope.

(** ** Owners are kept *)

(** Rows are stored under their identifier and name people that exist. *)
Record members_ok (d : Db) : Prop := {
  mo_keyed : members_keyed d;
  mo_users : forall k m u, db_org_members d !! k = Some m -> omb_UserProfileID m = Some u ->
    is_some (db_users d !! u) = true;
}.

Definition owner_step (d d' : Db) : Prop :=
  members_ok d -> members_ok d' /\ forall org, has_owner org d -> has_owner org d'.

#[export] Instance owner_step_preorder : PreOrder owner_step.
Proof.
  split; [by intros d|]. intros x y z H1 H2 Hx. destruct (H1 Hx) as [Hy Ho]. destruct (H2 Hy). auto.
Qed.

Lemma users_grow_some d d' u :
  users_grow d d' -> is_some (db_users d !! u) = true -> is_some (db_users d' !! u) = true.
Proof.
  intros Hg. destruct (db_users d !! u) eqn:Hu; [|done]. by rewrite (Hg _ _ Hu).
Qed.

Lemma owner_step_same d d' : orgs_same d d' -> users_grow d d' -> owner_step d d'.
Proof.
  unfold orgs_same. intros Ho Hg [Hk Hu]. split.
  - split; unfold members_keyed; rewrite Ho; [done|]. intros k m u Hm Hmu.
    eapply users_grow_some; eauto.
  - unfold has_owner. by rewrite Ho.
Qed.

(** One row changes: it keeps its place, and if it was an owner's it still is, or
    there is another. *)
Lemma owner_step_row d d' k r' :
  row_changed k r' d d' -> users_grow d d' -> (members_ok d -> omb_ID r' = k) ->
  (members_ok d -> forall u, omb_UserProfileID r' = Some u -> is_some (db_users d' !! u) = true) ->
  (forall org r, db_org_members d !! k = Some r -> active_owner org r = true ->
     active_owner org r' = true \/
     exists j m, db_org_members d !! j = Some m /\ active_owner org m = true /\ j <> k) ->
  owner_step d d'.
Proof.
  unfold row_changed. intros Hch Hg Hid Hfk Hown Hok. specialize (Hid Hok). specialize (Hfk Hok).
  destruct Hok as [Hk Hu]. split.
  - split; unfold members_keyed; rewrite Hch.
    + intros i m [[<- <-]|[_ Hm]]%lookup_insert_Some; auto.
    + intros i m u [[<- <-]|[_ Hm]]%lookup_insert_Some Hmu; [auto|].
      eapply users_grow_some; eauto.
  - intros org (i & m & Hi & Ha). unfold has_owner. rewrite Hch.
    destruct (decide (i = k)) as [->|Hne].
    + destruct (Hown _ _ Hi Ha) as [?|(j & x & Hj & Hx & Hne)].
      * exists k, r'. by rewrite lookup_insert_eq.
      * exists j, x. by rewrite lookup_insert_ne by done.
    + exists i, m. by rewrite lookup_insert_ne by done.
Qed.

Lemma not_owner_disabled org r : is_some (omb_DisabledAt r) = true -> active_owner org r = false.
Proof. intros H. unfold active_owner, null. by rewrite H, andb_false_r. Qed.

(** Granting a membership never takes an owner away. *)
Lemma granted_step org role u m d d' k r' :
  granted org role u m d d' k r' -> users_grow d d' -> owner_step d d'.
Proof.
  intros [] Hg. eapply owner_step_row; [done|done|done|..].
  - intros _ v Hv. rewrite gr_user in Hv. by injection Hv as <-.
  - intros o r Hr Ha. apply gr_old in Hr as [Hd _]. by rewrite (not_owner_disabled o r Hd) in Ha.
Qed.

Lemma row_kept_user d d' k r r' :
  db_org_members d !! k = Some r -> omb_UserProfileID r' = omb_UserProfileID r -> users_grow d d' ->
  members_ok d -> forall u, omb_UserProfileID r' = Some u -> is_some (db_users d' !! u) = true.
Proof.
  intros Hr Heq Hg Hok u Hu. rewrite Heq in Hu. eapply users_grow_some; [done|].
  by eapply (mo_users _ Hok).
Qed.

Section Owners.
Context {GT : GoText}.

Lemma body_same {A} (m : Go A) e s r s' :
  BodyKeeps orgs_same m -> BodyKeeps users_grow m -> m e s = (r, s') -> owner_step (st_db s) (st_db s').
Proof. intros Ho Hu H. apply owner_step_same; eauto. Qed.

(** The update of a location's membership. *)
Lemma loc_update_same org id whr role dis :
  BodyKeeps orgs_same (update_member org MembershipScopeLocation id whr role dis).
Proof. unfold update_member. simpl. solve_body. Qed.

#[local] Hint Resolve loc_update_same : keeps.

Lemma requireAnother_Ok org e s u s' k :
  requireAnotherOrganisationOwner org e s = (Ok u, s') ->
  st_db s' = st_db s /\
  exists j m, db_org_members (st_db s) !! j = Some m /\ active_owner org m = true /\ j <> k.
Proof.
  unfold requireAnotherOrganisationOwner. intros (n & s1 & H1 & H)%bind_Ok.
  apply map_err_Ok, exec_Ok in H1 as (_ & d & H1 & ->). apply guard_err_Ok in H as (Hn & -> & _).
  split; [|by eapply another_owner].
  unfold owner_count in H1. destruct (in_int32 _); [|done]. by injection H1 as _ <-.
Qed.

Lemma granted_body org role profile ref e s m s' :
  createOrReactivateOrganisationMembership org role profile ref e s = (Ok m, s') ->
  owner_step (st_db s) (st_db s').
Proof.
  intros H Hok. pose proof H as H0. apply createOrReactivate_Ok in H0 as (k & r' & Hg); [|apply Hok].
  eapply granted_step; [exact Hg| |done].
  assert (BodyKeeps users_grow (createOrReactivateOrganisationMembership org role profile ref))
  as Hu by solve_body. by eapply Hu.
Qed.

(** Disabling a row of which another owner was seen. *)
Lemma disable_step org id e s m s' :
  disableMembership org MembershipScopeOrganisation id e s = (Ok m, s') ->
  (forall r, db_org_members (st_db s) !! id = Some r -> active_owner org r = true ->
  exists j m, db_org_members (st_db s) !! j = Some m /\ active_owner org m = true /\ j <> id) ->
  owner_step (st_db s) (st_db s').
Proof.
  intros H Hother.
  assert (BodyKeeps users_grow (disableMembership org MembershipScopeOrganisation id)) as Hu by solve_body.
  pose proof (Hu _ _ _ _ H) as Hg.
  apply disable_org in H as (r & r' & Hr & Ho & Hch & Hid & Ho' & _ & Hus & _ & _).
  eapply owner_step_row; [exact Hch|exact Hg| | |].
  - intros Hok. rewrite Hid. by apply (mo_keyed _ Hok).
  - by eapply row_kept_user.
  - intros o x Hx Ha. rewrite Hr in Hx. injection Hx as <-. right.
  assert (o = org) as -> by (apply active_owner_inv in Ha as (? & _); congruence). eauto.
Qed.

Ltac split_body H :=
  let a := fresh "a" in let s := fresh "s" in let H1 := fresh "Hb" in
  apply bind_Ok in H as (a & s & H1 & H).

(** A step that is known to change no organisation membership. *)
Ltac same_step H :=
  etrans; [eapply body_same; [| |exact H]; [solve_body|solve_body]|].

Lemma createMembership_body actor scope role loc email name e s m s' :
  createMembershipInTx actor scope role loc email name e s = (Ok m, s') ->
  owner_step (st_db s) (st_db s').
Proof.
  unfold createMembershipInTx. intros H. split_body H. same_step Hb.
  split_body H. same_step Hb0. split_body H.
  etrans; [|eapply body_same; [| |exact H]; [solve_body|solve_body]].
  destruct (String.eqb scope MembershipScopeOrganisation); [by eapply granted_body|].
  eapply body_same; [| |exact Hb1]; [solve_body|solve_body].
Qed.

(** The row an operation is about, with its scope. *)
Lemma getForUpdate_scope org scope id e s m s' :
  getManagedMembershipForUpdate org scope id e s = (Ok m, s') ->
  st_db s' = st_db s /\
  (scope = MembershipScopeLocation \/
   scope = MembershipScopeOrganisation /\ exists r, db_org_members (st_db s) !! id = Some r /\
     omb_OrganisationID r = org /\ m = managed_org (st_db s) r).
Proof.
  intros H. pose proof H as H0. unfold getManagedMembershipForUpdate in H0.
  apply bind_Ok in H0 as ([] & s1 & H1 & H0). apply guard_err_Ok in H1 as (Hsc & -> & _).
  apply negb_false_iff, orb_true_iff in Hsc as [Hsc%String.eqb_eq|Hsc%String.eqb_eq]; subst scope.
  - apply getForUpdate_org in H as (r & Hr & Ho & -> & -> & _). split; [done|]. right. eauto.
  - simpl in H0. apply scan_Ok in H0 as (x & d & Hq & _ & Hd & _).
  apply select_one_Ok in Hq as (_ & _ & ->). auto.
Qed.

(** The check before an owner's row is changed: another owner was seen. *)
Lemma owner_guard_Ok org (b : bool) e s u s' k :
  (if b then requireAnotherOrganisationOwner org else mret tt) e s = (Ok u, s') ->
  st_db s' = st_db s /\
  (b = true -> exists j m, db_org_members (st_db s) !! j = Some m /\ active_owner org m = true /\ j <> k).
Proof.
  destruct b; [by intros [? ?]%(requireAnother_Ok _ _ _ _ _ k)|]. by intros [_ <-]%ret_Ok.
Qed.

Lemma disableMembership_body actor scope id e s m s' :
  (disableMembershipChecks actor scope id ;; disableMembershipWrites actor scope id) e s = (Ok m, s') ->
  owner_step (st_db s) (st_db s').
Proof.
  unfold disableMembershipChecks, disableMembershipWrites. intros H. split_body H.
  split_body Hb. same_step Hb0. split_body Hb. split_body Hb. apply guard_err_Ok in Hb2 as (_ & -> & _).
  apply getForUpdate_scope in Hb1 as [Hdb Hrow]. apply (owner_guard_Ok _ _ _ _ _ _ id) in Hb as [Hdb2 Hother].
  split_body H. etrans; [|eapply body_same; [| |exact H]; [solve_body|solve_body]].
  rewrite <- Hdb, <- Hdb2. rewrite Hdb in *. destruct Hrow as [->|[-> (r & Hr & Ho & ->)]].
  - eapply body_same; [| |exact Hb]; [solve_body|solve_body].
  - eapply disable_step; [exact Hb|]. rewrite Hdb2. intros x Hx Ha. apply Hother.
  rewrite Hr in Hx. injection Hx as <-. apply active_owner_inv in Ha as (_ & Hro & _). simpl. by rewrite Hro.
Qed.

Lemma updateMembershipRole_body actor scope id role e s m s' :
  updateMembershipRoleInTx actor scope id role e s = (Ok m, s') -> owner_step (st_db s) (st_db s').
Proof.
  unfold updateMembershipRoleInTx. intros H. split_body H. same_step Hb.
  split_body H. split_body H. apply guard_err_Ok in Hb1 as (Hen & -> & _). split_body H.
  apply getForUpdate_scope in Hb0 as [Hdb Hrow]. apply (owner_guard_Ok _ _ _ _ _ _ id) in Hb1 as [Hdb2 Hother].
  split_body H. etrans; [|eapply body_same; [| |exact H]; [solve_body|solve_body]].
  rewrite <- Hdb, <- Hdb2. rewrite Hdb in *. destruct Hrow as [->|[-> (r & Hr & Ho & ->)]].
  - eapply body_same; [| |exact Hb0]; [solve_body|solve_body].
  - assert (BodyKeeps users_grow (updateMembershipRole (act_OrganisationID actor)
  MembershipScopeOrganisation id role)) as Hu by solve_body.
  pose proof (Hu _ _ _ _ Hb0) as Hg.
  apply updateRole_org in Hb0 as (x & Hx & _ & [[Hdis _]|(r' & Hch & Hid & Ho' & Hrole & Hus & Hdis & _)]);
  rewrite Hdb2 in *; rewrite Hr in Hx; injection Hx as <-; [simpl in Hen; congruence|].
  eapply owner_step_row; [exact Hch|exact Hg| | |].
  + intros Hok. rewrite Hid. by apply (mo_keyed _ Hok).
  + by eapply row_kept_user.
  + intros o y Hy Ha. rewrite ?Hdb2 in Hy. rewrite Hr in Hy. injection Hy as <-.
  apply active_owner_inv in Ha as (<- & Hro & Hna). simpl in Hother. rewrite Hro in Hother. simpl in Hother.
  destruct (String.eqb_spec role RoleOrganisationOwner) as [->|Hne].
  * left. apply active_owner_inv. split_and!; congruence.
  * right. rewrite Ho. by apply Hother.
Qed.

(** Whoever has the address and is an enabled member is an owner already. *)
Definition hands_over_to (d : Db) (org : uuid) (email : string) : Prop :=
  forall k p j m, db_users d !! k = Some p -> has_email (Some email) p = true ->
  db_org_members d !! j = Some m -> omb_OrganisationID m = org ->
  omb_UserProfileID m = Some (usr_ID p) -> omb_DisabledAt m = None ->
  omb_Role m = RoleOrganisationOwner.

(** The next owner, before the previous one is disabled. *)
Lemma next_owner org profile e s r s1 next s2 from :
  members_ok (st_db s) ->
  attempt (createOrReactivateOrganisationMembership org RoleOrganisationOwner profile
  (userProfileActorRef (usr_ID profile))) e s = (Ok r, s1) ->
  match r with
  | Ok next => mret next
  | Err err => if errors_Is err ErrAlreadyExists
  then getMembershipByProfile org MembershipScopeOrganisation uuid_Nil (usr_ID profile)
  else fail err
  end e s1 = (Ok next, s2) -> mng_ID next <> from ->
  owner_step (st_db s) (st_db s2) /\
  exists j m, db_org_members (st_db s2) !! j = Some m /\ j <> from /\ omb_OrganisationID m = org /\
  omb_UserProfileID m = Some (usr_ID profile) /\ omb_DisabledAt m = None /\ next = managed_org (st_db s2) m /\
  (omb_Role m = RoleOrganisationOwner \/ db_org_members (st_db s) !! j = Some m).
Proof.
  intros Hok H1%attempt_Ok H2 Hne. destruct r as [m0|err].
  - apply ret_Ok in H2 as [-> <-]. split; [by eapply granted_body|].
  apply createOrReactivate_Ok in H1 as (k & r' & []); [|apply Hok].
  exists k, r'. rewrite gr_changed, lookup_insert_eq. split_and!; try done; [|by left].
  rewrite gr_managed in Hne. simpl in Hne. congruence.
  - destruct (errors_Is err ErrAlreadyExists) eqn:Hex; [|done].
  destruct (createOrReactivate_exists _ _ _ _ _ _ _ _ H1 Hex) as (Hdb & existing & s3 & H3 & Hen).
  pose proof (getByProfile_same _ _ _ _ _ _ _ _ _ _ _ H2 H3 Hdb) as ->.
  apply getByProfile_org in H2 as (k & m & Hk & Ho & Hu & _ & _ & -> & Hdb2). rewrite Hdb in *.
  split; [by rewrite Hdb2|]. exists k, m. rewrite Hdb2. simpl in Hne.
  rewrite (mo_keyed _ Hok _ _ Hk) in Hne. split_and!; try done. by right.
Qed.

Lemma reassign_body org from email e s r s' :
  hands_over_to (st_db s) org email ->
  reassignInTx org from email e s = (Ok r, s') -> owner_step (st_db s) (st_db s').
Proof.
  intros Hho H Hok. unfold reassignInTx in H. split_body H.
  apply getForUpdate_org in Hb as (r0 & Hr0 & Ho0 & -> & Hdb0 & _).
  split_body H. apply guard_err_Ok in Hb as (_ & -> & _). split_body H. apply guard_err_Ok in Hb as (_ & -> & _).
  split_body H. pose proof Hb as Hp. apply getOrCreate_Ok in Hp as [Hsame Hprof].
  assert (owner_step (st_db s0) (st_db s1)) as Hst1
  by (eapply body_same; [| |exact Hb]; [solve_body|solve_body]).
  rewrite Hdb0 in *. destruct (Hst1 Hok) as [Hok1 Ho1].
  split_body H. split_body H. split_body H. apply guard_err_Ok in Hb2 as (Hne%N.eqb_neq & -> & _).
  destruct (next_owner _ _ _ _ _ _ _ _ from Hok1 Hb0 Hb1 Hne) as
  (Hst2 & j & m & Hj & Hjf & Hmo & Hmu & Hmd & _ & Hrole).
  destruct (Hst2 Hok1) as [Hok2 Ho2]. split_body H. apply ret_Ok in H as [_ <-].
  destruct (disable_step _ _ _ _ _ _ Hb2) as [? ?]; [|done|split; [done|]; eauto].
  intros x Hx Ha. exists j, m. split; [done|]. split; [|done]. apply active_owner_inv.
  split_and!; [done| |done]. destruct Hrole as [?|Hjs]; [done|]. rewrite Hsame in Hjs.
  destruct Hprof as [(k & Hk & He)|Hfresh]; [by eapply Hho|].
  apply (mo_users _ Hok _ _ _ Hjs) in Hmu. by rewrite Hfresh in Hmu.
Qed.

(** Before a body, a transaction sets its context. *)
Lemma context_body {A} (R : Db -> Db -> Prop) msg (fn : Go A) :
  (forall e s a s', fn e s = (Ok a, s') -> R (st_db s) (st_db s')) ->
  forall e s a s', (map_err (Wrap msg) SetContext ;; fn) e s = (Ok a, s') -> R (st_db s) (st_db s').
Proof.
  intros Hfn e s a s' ([] & s1 & H1 & H)%bind_Ok. apply map_err_Ok, SetContext_Ok in H1 as (<- & _).
  by apply Hfn in H.
Qed.

(** A transaction around [fn] keeps owners when [fn] does. *)
Lemma owner_tx {A} msg (fn : Go A) :
  InTx fn -> (forall e s a s', fn e s = (Ok a, s') -> owner_step (st_db s) (st_db s')) ->
  BodyKeeps owner_step (inTx (map_err (Wrap msg) SetContext ;; fn)).
Proof.
  intros Hin Hfn. apply body_inTx; [apply _|solve_intx|]. intros e s a s'. by apply context_body.
Qed.

Definition orgs_kept (d d' : Db) : Prop := orgs_same d d' /\ users_grow d d'.

#[export] Instance orgs_kept_preorder : PreOrder orgs_kept.
Proof.
  split; [by split|]. intros x y z [H1 H2] [H3 H4]. split; by etrans.
Qed.

#[local] Hint Extern 1 (orgs_kept _ _) => split; [reflexivity|solve [eauto with keeps]] : keeps.

(** The commands that change organisation memberships. *)
Definition on_memberships (c : IdentityCommand) : bool :=
  match c with
  | ICreateMembership _ | IUpdateRole _ | IDisable _ | IInviteOwner _ | IDisableOwner _
  | IReactivateOwner _ | IReassign _ => true
  | _ => false
  end.

Lemma other_commands_kept c : on_memberships c = false -> Keeps orgs_kept (run_identity c).
Proof. destruct c; simpl; intros Hc; try discriminate Hc; solve_keeps. Qed.

Lemma owner_discard {A} (m : Go A) : BodyKeeps owner_step m -> BodyKeeps owner_step (discard m).
Proof. intros Hm. unfold discard. refine (body_bind _ _ _ _ _); [done|]. intros _. refine (body_ret _ _). Qed.

(** A reassignment that passes ownership to somebody. *)
Definition hands_over (d : Db) (c : IdentityCommand) : Prop :=
  match c with
  | IReassign arg => forall email, normalizeEmail (pro_ToEmail arg) = Ok email ->
  hands_over_to d (pro_TargetOrganisationID arg) email
  | _ => True
  end.

Lemma disableOwner_body org id e s m s' :
  (current ← getManagedMembershipForUpdate org MembershipScopeOrganisation id;
  guard_err (is_some (mng_DisabledAt current)) ErrNotFound ;;
  guard_err (negb (String.eqb (mng_Role current) RoleOrganisationOwner)) ErrValidation ;;
  requireAnotherOrganisationOwner org ;;
  disableMembership org MembershipScopeOrganisation id) e s = (Ok m, s') ->
  owner_step (st_db s) (st_db s').
Proof.
  intros H. split_body H. apply getForUpdate_org in Hb as (r & Hr & Ho & -> & Hdb & _).
  split_body H. apply guard_err_Ok in Hb as (_ & -> & _). split_body H.
  apply guard_err_Ok in Hb as (_ & -> & _). split_body H.
  apply (requireAnother_Ok _ _ _ _ _ id) in Hb as [Hdb2 Hother]. rewrite <- Hdb, <- Hdb2.
  eapply disable_step; [exact H|]. intros x _ _. by rewrite Hdb2.
Qed.

Lemma reactivateOwner_body org id e s m s' :
  (current ← getManagedMembershipForUpdate org MembershipScopeOrganisation id;
  guard_err (negb (String.eqb (mng_Role current) RoleOrganisationOwner)) ErrValidation ;;
  updateMembershipEnabled org MembershipScopeOrganisation id RoleOrganisationOwner) e s = (Ok m, s') ->
  owner_step (st_db s) (st_db s').
Proof.
  intros H. split_body H. apply getForUpdate_org in Hb as (r & Hr & Ho & -> & Hdb & _).
  split_body H. apply guard_err_Ok in Hb as (_ & -> & _).
  assert (BodyKeeps users_grow (updateMembershipEnabled org MembershipScopeOrganisation id
  RoleOrganisationOwner)) as Hu by solve_body. pose proof (Hu _ _ _ _ H) as Hg. rewrite <- Hdb in *.
  apply updateEnabled_org in H as (x & now & Hx & _ & Hch & _). rewrite Hr in Hx. injection Hx as <-.
  eapply owner_step_row; [exact Hch|exact Hg| | |].
  - intros Hok. exact (mo_keyed _ Hok _ _ Hr).
  - by eapply row_kept_user.
  - intros o y Hy Ha. rewrite Hr in Hy. injection Hy as <-. left. apply active_owner_inv in Ha as (<- & _).
  by apply active_owner_inv.
Qed.

Lemma inviteOwner_body org email name e s m s' :
  (map_err (no_rows_to ErrNotFound "getting organisation")
  (exec (select_one db_organisations org (fun _ => true))) ;;
  profile ← getOrCreateUserProfileByEmail email name;
  createOrReactivateOrganisationMembership org RoleOrganisationOwner profile
  (userProfileActorRef (usr_ID profile))) e s = (Ok m, s') ->
  owner_step (st_db s) (st_db s').
Proof.
  intros H. split_body H. same_step Hb. split_body H. same_step Hb0. by eapply granted_body.
Qed.

(** *** A new owner *)

(** An enabled owner who was none before: the only membership that changed. *)
Definition owner_made (org : uuid) (d d' : Db) : Prop :=
  exists k m u, db_org_members d' = <[k := m]> (db_org_members d) /\ active_owner org m = true /\
    omb_UserProfileID m = Some u /\ is_some (db_users d' !! u) = true /\
    forall m0, db_org_members d !! k = Some m0 -> active_owner org m0 = false.

Lemma granted_owner_made org u m d d' k r' : granted org RoleOrganisationOwner u m d d' k r' -> owner_made org d d'.
Proof.
  intros [Hch Hold _ Horg Hrole Hu Hfk Hen _]. exists k, r', u. unfold row_changed in Hch.
  split_and!; [done|by apply active_owner_inv|done..|]. intros m0 Hm0. apply Hold in Hm0 as [Hd _].
  destruct (active_owner org m0) eqn:Ha; [|done]. apply active_owner_inv in Ha as (_ & _ & Hn). by rewrite Hn in Hd.
Qed.

Definition same_audit (d d' : Db) : Prop := db_audit d' = db_audit d.
#[local] Instance same_audit_preorder : PreOrder same_audit.
Proof. split; [by intros d|]. intros x y z H1 H2. by etrans. Qed.

Lemma audit_grant org role profile ref :
  BodyKeeps same_audit (createOrReactivateOrganisationMembership org role profile ref).
Proof. solve_body. Qed.
Lemma audit_profile email name : BodyKeeps same_audit (getOrCreateUserProfileByEmail email name).
Proof. solve_body. Qed.

(** Inviting an owner, with whatever failing: nothing happens; or the owner is made,
    and nothing is written to the audit log. *)
Lemma invite_effect arg e s r s' :
  members_keyed (st_db s) -> PlatformInviteOwner arg e s = (r, s') ->
  is_ok r = false /\ st_db s' = st_db s \/
  owner_made (pio_TargetOrganisationID arg) (st_db s) (st_db s') /\ db_audit (st_db s') = db_audit (st_db s).
Proof.
  intros Hkey H. unfold PlatformInviteOwner in H. cbv zeta in H. unfold mbind at 1, Go_bind at 1, lift in H.
  destruct (normalizeEmail _) as [email|err]; [|injection H as <- <-; by left].
  unfold mbind at 1, Go_bind at 1, guard_err at 1 in H. destruct (_ || _); [injection H as <- <-; by left|].
  unfold mret, Go_ret, map_err at 1 in H.
  destruct (@inPlatformDBTx ManagedMembership _ e s) as [r1 s1] eqn:H1 in H.
  assert (s' = s1 /\ is_ok r = is_ok r1) as [-> Hr] by by destruct r1; injection H as <- <-. clear H. rewrite Hr.
  apply inTx_inv in H1 as [(err & -> & ->)|(a & (s2 & s3 & Hd & _ & Hb & Hd') & _)]; [by left| |solve_intx].
  right. rewrite <- Hd', <- Hd in *.
  apply bind_Ok in Hb as ([] & s4 & H4 & Hb). apply map_err_Ok, SetContext_Ok in H4 as (Hdb4 & _).
  rewrite <- Hdb4 in *. split_body Hb. assert (st_db s0 = st_db s4) as Hs0.
  { apply map_err_Ok, exec_Ok in Hb0 as (_ & d1 & H1 & ->). by apply select_one_Ok in H1 as (_ & _ & ->). }
  rewrite <- Hs0 in *. split_body Hb. pose proof Hb1 as Hu. apply getOrCreate_Ok in Hu as [Hm _].
  pose proof Hb as Hg. apply createOrReactivate_Ok in Hg as (k & r' & Hg%granted_owner_made).
  2: { unfold members_keyed. by rewrite Hm. }
  split.
  - destruct Hg as (k1 & m & u & Hch & Ha & Hmu & Hfk & Hold). exists k1, m, u. rewrite Hm in *. by split_and!.
  - etrans; [exact (audit_grant _ _ _ _ _ _ _ _ Hb)|exact (audit_profile _ _ _ _ _ _ Hb1)].
Qed.

(** Everything before and around the transaction of an operation. *)
Ltac owner_op :=
  lazymatch goal with
  | |- forall _, _ => intros ?; owner_op
  | |- BodyKeeps owner_step (inTx _) => apply owner_tx; [solve_intx|intros ? ? ? ?]
  | |- BodyKeeps owner_step ?m =>
      lazymatch m with
      | mbind _ _ => refine (body_bind _ _ _ _ _); owner_op
      | map_err _ _ => apply body_map_err; owner_op
      | guard_err _ _ => refine (body_guard_err _ _ _)
      | lift _ => refine (body_lift _ _)
      | _ => unfold_head m; cbv beta zeta; owner_op
      end
  end.

(** Every other change of a membership keeps owners, whatever happens inside. *)
Lemma other_membership_body c :
  on_memberships c = true -> is_reassign c = false -> BodyKeeps owner_step (run_identity c).
Proof.
  destruct c; try discriminate; intros _; try discriminate; intros _; apply owner_discard; owner_op.
  - apply createMembership_body.
  - apply updateMembershipRole_body.
  - apply disableMembership_body.
  - apply inviteOwner_body.
  - apply disableOwner_body.
  - apply reactivateOwner_body.
Qed.

Lemma orgs_kept_owner d d' : orgs_kept d d' -> owner_step d d'.
Proof. intros []. by apply owner_step_same. Qed.

(** Ownership is handed over by what the request asks for. *)
Lemma reassign_step arg e s r s' :
  (forall email, normalizeEmail (pro_ToEmail arg) = Ok email ->
     hands_over_to (st_db s) (pro_TargetOrganisationID arg) email) ->
  PlatformReassignOwnership arg e s = (r, s') -> owner_step (st_db s) (st_db s').
Proof.
  intros Hho H. unfold PlatformReassignOwnership in H. unfold mbind, Go_bind, lift in H.
  destruct (normalizeEmail (pro_ToEmail arg)) as [email|err]; [|by injection H as _ <-].
  unfold guard_err in H. destruct (_ || _); [by injection H as _ <-|].
  unfold map_err in H. simpl in H. destruct (inPlatformDBTx (reassignInTx (pro_TargetOrganisationID arg)
  (pro_FromMembershipID arg) email) e s) as [r1 s1] eqn:H1.
  assert (s' = s1) as -> by by destruct r1; injection H as _ <-. clear H.
  apply inTx_inv in H1 as [(err & _ & ->)|(a & (s2 & s3 & Hd & _ & Hb & Hd') & _)]; [done| |solve_intx].
  apply bind_Ok in Hb as ([] & s4 & H4 & Hb). apply map_err_Ok, SetContext_Ok in H4 as (Hdb4 & _).
  apply reassign_body in Hb; [|rewrite Hdb4, Hd; by apply Hho].
  rewrite <- Hd'. rewrite Hdb4, Hd in Hb. exact Hb.
Qed.

(** Every command, from any state, keeps an owner in every organisation that has
    one, provided a reassignment hands over to somebody who becomes or is one. *)
Lemma command_owner_step c e d r d' :
  hands_over d c -> run (run_identity c) e d = (r, d') -> owner_step d d'.
Proof.
  destruct (on_memberships c) eqn:Hm.
  2: { intros _ H. apply keeps_run with (R := orgs_kept) in H; [by apply orgs_kept_owner|apply _|].
    by apply other_commands_kept. }
  destruct (is_reassign c) eqn:Hc; [|intros _; by apply body_run, other_membership_body].
  destruct c; try discriminate Hc; intros Hho; simpl.
  unfold run, discard. intros Hrun.
  unfold mbind, Go_bind in Hrun. destruct (PlatformReassignOwnership arg e (start d)) as [r0 s0] eqn:H0.
  apply reassign_step in H0; [|exact Hho]. by destruct r0; injection Hrun as _ <-.
Qed.

(** The histories of such commands. *)
Inductive owner_history (d0 : Db) : Db -> Prop :=
| owner_start : owner_history d0 d0
| owner_next d c e r d' :
    owner_history d0 d -> hands_over d c -> run (run_identity c) e d = (r, d') ->
    owner_history d0 d'.

Lemma owner_history_step d d' : owner_history d d' -> owner_step d d'.
Proof.
  induction 1 as [|d1 c e r d2 _ IH Hho Hrun]; [done|]. etrans; [exact IH|]. by eapply command_owner_step.
Qed.

(** An organisation keeps an owner: along every history of the operations of
    the identity package, with whatever arguments, failing calls and lost commits,
    an organisation that has an enabled owner has one afterwards - provided that
    ownership is reassigned only to people who are not enabled members with a
    lesser role. *)
Theorem organisation_keeps_owner org d d'
  (Hok : members_ok d) (Howner : has_owner org d) (Hhist : owner_history d d') :
  has_owner org d'.
Proof. by apply (owner_history_step _ _ Hhist Hok). Qed.
End Owners.

(** Whether an organisation has an enabled owner, computed. *)
Definition owner_in (org : uuid) (d : Db) : bool := map_any (active_owner org) (db_org_members d).

Lemma owner_in_spec org d : owner_in org d = true <-> has_owner org d.
Proof. apply map_any_true. Qed.

Lemma no_owner org d : owner_in org d = false -> ~ has_owner org d.
Proof. intros H Ho%owner_in_spec. congruence. Qed.

Lemma sample_members_ok l :
  forallb (fun m => match omb_UserProfileID m with
                    | Some u => is_some (idb_users (sample_identity []) !! u) | None => true end) l = true ->
  NoDup (omb_ID <$> l) -> members_ok (set_identity (sample_identity l) sample_db).
Proof.
  intros Hu Hnd.
  assert (forall k m, db_org_members (set_identity (sample_identity l) sample_db) !! k = Some m ->
    m ∈ l /\ omb_ID m = k) as Hin.
  { intros k m Hk. unfold db_org_members in Hk. simpl in Hk.
    apply elem_of_list_to_map_2 in Hk. apply list_elem_of_In, in_map_iff in Hk as (x & [= <- <-] & Hx).
    split; [by apply list_elem_of_In|done]. }
  split.
  - intros k m Hk. by apply Hin.
  - intros k m u Hk Hmu. apply Hin in Hk as [Hm _]. rewrite forallb_elem in Hu. apply Hu in Hm.
    by rewrite Hmu in Hm.
Qed.

Lemma people_members_ok : members_ok people_db.
Proof. apply sample_members_ok; [done|]. repeat constructor; set_solver. Qed.

(** After the reader has been disabled and enabled again. *)
Definition people_later : Db :=
  snd (run (run_identity (IDisable (disable_args 21))) (calm 100 1000000) people_db).

Lemma organisation_keeps_owner_witness : has_owner 1 people_db /\ has_owner 1 people_later.
Proof.
  assert (has_owner 1 people_db) as H0 by (apply owner_in_spec; vm_compute; reflexivity).
  split; [exact H0|]. apply (organisation_keeps_owner 1 people_db people_later people_members_ok H0).
  unfold people_later. destruct (run (run_identity (IDisable (disable_args 21))) (calm 100 1000000) people_db)
    as [r d] eqn:Hr.
  refine (owner_next _ _ (IDisable (disable_args 21)) _ _ _ (owner_start _) I Hr).
Defined.

(** Reassigning ownership to an enabled member with a lesser role leaves the
    organisation without an owner: the operation succeeds, disables the owner it
    was asked to replace, and leaves the other member's role as it was. *)
Theorem reassignment_can_orphan :
  exists d arg e prev next d', has_owner 1 d /\
    run (PlatformReassignOwnership arg) e d = (Ok (prev, next), d') /\
    is_some (mng_DisabledAt prev) = true /\ mng_Role next = RoleReadOnly /\ ~ has_owner 1 d'.
Proof.
  exists people_db, (reassign_to 20 "reed@bistro.test"), (calm 100 1000000).
  destruct (run (PlatformReassignOwnership (reassign_to 20 "reed@bistro.test")) (calm 100 1000000) people_db)
    as [r d'] eqn:Hr.
  assert (match fst (run (PlatformReassignOwnership (reassign_to 20 "reed@bistro.test"))
            (calm 100 1000000) people_db) with
          | Ok (p, n) => is_some (mng_DisabledAt p) && String.eqb (mng_Role n) RoleReadOnly
          | Err _ => false end
          && negb (owner_in 1 (snd (run (PlatformReassignOwnership (reassign_to 20 "reed@bistro.test"))
            (calm 100 1000000) people_db))) = true) as H by (vm_compute; reflexivity).
  rewrite Hr in H. cbn [fst snd] in H. destruct r as [[prev next]|err]; [|done].
  apply andb_prop in H as [[Hp Hn%String.eqb_eq]%andb_prop Ho%negb_true_iff].
  exists prev, next, d'. split; [apply owner_in_spec; vm_compute; reflexivity|].
  split; [done|]. split; [done|]. split; [done|]. by apply no_owner.
Qed.

(** One interleaving of two requests that disable the two owners of the sample
    restaurant: the checks of both read the database before either writes, and the
    writes follow one after the other.  The checks and the writes are the two halves
    of the operation's transaction ([disableMembershipChecks],
    [disableMembershipWrites]); that the database lets them interleave so - each
    request locks only the row it disables - is read off the queries, and is not part
    of the model, which has no row locks. *)
Lemma concurrent_disables_can_orphan :
  exists d actor id1 id2 e1 e2 d1 m1 d2 m2,
    has_owner 1 d /\ id1 <> id2 /\
    run (disableMembershipChecks actor MembershipScopeOrganisation id1) e1 d = (Ok tt, d) /\
    run (disableMembershipChecks actor MembershipScopeOrganisation id2) e2 d = (Ok tt, d) /\
    run (disableMembershipWrites actor MembershipScopeOrganisation id1) e1 d = (Ok m1, d1) /\
    run (disableMembershipWrites actor MembershipScopeOrganisation id2) e2 d1 = (Ok m2, d2) /\
    ~ has_owner 1 d2.
Proof.
  exists owners_db, olive, 20%N, 21%N, (calm 100 1000000), (calm 200 2000000).
  destruct (run (disableMembershipWrites olive MembershipScopeOrganisation 20) (calm 100 1000000) owners_db)
    as [r1 d1] eqn:H1.
  destruct (run (disableMembershipWrites olive MembershipScopeOrganisation 21) (calm 200 2000000) d1)
    as [r2 d2] eqn:H2.
  assert (is_ok (fst (run (disableMembershipWrites olive MembershipScopeOrganisation 20)
      (calm 100 1000000) owners_db)) = true) as Hok1 by (vm_compute; reflexivity).
  assert (let d := snd (run (disableMembershipWrites olive MembershipScopeOrganisation 20)
            (calm 100 1000000) owners_db) in
          let rd := run (disableMembershipWrites olive MembershipScopeOrganisation 21)
            (calm 200 2000000) d in is_ok (fst rd) && negb (owner_in 1 (snd rd)) = true) as Hok2
    by (vm_compute; reflexivity).
  cbv zeta in Hok2. rewrite H1 in Hok1, Hok2. cbn [fst snd] in Hok1, Hok2. rewrite H2 in Hok2.
  cbn [fst snd] in Hok2. destruct r1 as [m1|]; [|done]. destruct r2 as [m2|]; [|done].
  apply andb_prop in Hok2 as [_ Ho%negb_true_iff].
  exists d1, m1, d2, m2. split; [apply owner_in_spec; vm_compute; reflexivity|]. split; [done|].
  split; [vm_compute; reflexivity|]. split; [vm_compute; reflexivity|]. split; [done|]. split; [done|].
  by apply no_owner.
Qed.
