(* ===== verification/RoleTheorems.v ===== *)
(** Roles fit the scope of their membership, changes to a membership are recorded
    in the audit log, and an unverified address gives no one a profile. *)

From S2P Require Import Prelude Json Crypto Schema GoTx Store Queries Tokens IdentityQueries Identity Memberships TxFacts Steps IdentityFacts IntegrationFacts SystemCommands MembershipFacts Samples IdentitySamples.
#[local] Open Scope string_scope.
#[local] Open Scope Z_scope.
#[local] Open Scope list_scope.

(** ** Roles *)

(** Every membership has a role of its scope. *)
Record well_typed (d : Db) : Prop := {
  wt_org : forall k m, db_org_members d !! k = Some m ->
    validMembershipRole MembershipScopeOrganisation (omb_Role m) = true;
  wt_loc : forall k m, db_loc_members d !! k = Some m ->
    validMembershipRole MembershipScopeLocation (lmb_Role m) = true;
}.

Definition typed_step (d d' : Db) : Prop := well_typed d -> well_typed d'.

#[export] Instance typed_step_preorder : PreOrder typed_step.
Proof. split; [intros d H; exact H|]. intros x y z H1 H2 H. auto. Qed.

Lemma typed_org d k m :
  (well_typed d -> validMembershipRole MembershipScopeOrganisation (omb_Role m) = true) ->
  typed_step d (set_org_members (<[k := m]> (db_org_members d)) d).
Proof.
  intros Hm Hd. specialize (Hm Hd). destruct Hd as [Ho Hl]. split; [|exact Hl].
  unfold db_org_members. simpl. intros j x [[<- <-]|[_ Hx]]%lookup_insert_Some; eauto.
Qed.

Lemma typed_loc d k m :
  (well_typed d -> validMembershipRole MembershipScopeLocation (lmb_Role m) = true) ->
  typed_step d (set_loc_members (<[k := m]> (db_loc_members d)) d).
Proof.
  intros Hm Hd. specialize (Hm Hd). destruct Hd as [Ho Hl]. split; [exact Ho|].
  unfold db_loc_members. simpl. intros j x [[<- <-]|[_ Hx]]%lookup_insert_Some; eauto.
Qed.

#[export] Hint Extern 1 (typed_step _ _) => (intros [? ?]; split; assumption) : keeps.

(** Writing a role of the scope, or the role that is there. *)
Lemma typed_update org scope id whr role dis :
  (forall old, validMembershipRole
     (if String.eqb scope MembershipScopeLocation then MembershipScopeLocation
      else MembershipScopeOrganisation) old = true ->
   validMembershipRole
     (if String.eqb scope MembershipScopeLocation then MembershipScopeLocation
      else MembershipScopeOrganisation) (role old) = true) ->
  BodyKeeps typed_step (update_member org scope id whr role dis).
Proof.
  intros Hrole. unfold update_member. destruct (String.eqb scope MembershipScopeLocation).
  - refine (body_exec _ _ _). intros now u d a d' H. stmt_invert H; [done|].
    match goal with H : Ok _ = Ok _ |- _ => injection H as <- end.
    apply typed_loc. intros Hd. apply Hrole. by eapply (wt_loc _ Hd).
  - refine (body_exec _ _ _). intros now u d a d' H. stmt_invert H; [done|].
    match goal with H : Ok _ = Ok _ |- _ => injection H as <- end.
    apply typed_org. intros Hd. apply Hrole. by eapply (wt_org _ Hd).
Qed.

Lemma valid_scope_role scope role :
  validMembershipRole scope role = true ->
  validMembershipRole (if String.eqb scope MembershipScopeLocation then MembershipScopeLocation
                       else MembershipScopeOrganisation) role = true.
Proof.
  unfold validMembershipRole at 1. destruct (String.eqb_spec scope MembershipScopeOrganisation) as [->|]; [done|].
  destruct (String.eqb_spec scope MembershipScopeLocation) as [->|]; done.
Qed.

Lemma typed_disable org scope id : BodyKeeps typed_step (disableMembership org scope id).
Proof.
  unfold disableMembership. refine (body_bind _ _ _ _ _); [|solve_body].
  apply body_map_err, typed_update. auto.
Qed.

Lemma typed_updateRole org scope id role :
  validMembershipRole scope role = true -> BodyKeeps typed_step (updateMembershipRole org scope id role).
Proof.
  intros Hv%valid_scope_role. unfold updateMembershipRole. refine (body_bind _ _ _ _ _); [|solve_body].
  apply body_map_err, typed_update. auto.
Qed.

Lemma typed_updateEnabled org scope id role :
  validMembershipRole scope role = true -> BodyKeeps typed_step (updateMembershipEnabled org scope id role).
Proof.
  intros Hv%valid_scope_role. unfold updateMembershipEnabled. refine (body_bind _ _ _ _ _); [|solve_body].
  apply body_map_err, typed_update. auto.
Qed.

Lemma typed_insert_org o u r role :
  validMembershipRole MembershipScopeOrganisation role = true ->
  BodyKeeps typed_step (CreateUserOrganisationMembership o u r role).
Proof.
  intros Hv. unfold CreateUserOrganisationMembership. refine (body_exec _ _ _).
  intros now v d a d' H. stmt_invert H. apply typed_org. done.
Qed.

Lemma typed_insert_loc o l u r role :
  validMembershipRole MembershipScopeLocation role = true ->
  BodyKeeps typed_step (CreateUserLocationMembership o l u r role).
Proof.
  intros Hv. unfold CreateUserLocationMembership. refine (body_exec _ _ _).
  intros now v d a d' H. stmt_invert H. apply typed_loc. done.
Qed.

#[export] Hint Resolve typed_disable typed_updateRole typed_updateEnabled typed_insert_org
  typed_insert_loc : keeps.

Section Typing.
Context {GT : GoText}.

Lemma typed_guard {A} b err (k : unit -> Go A) :
  (b = false -> BodyKeeps typed_step (k tt)) -> BodyKeeps typed_step (guard_err b err ≫= k).
Proof.
  intros Hk. destruct b.
  - by intros e s r s' [= <- <-].
  - intros e s r s' H. by apply (Hk eq_refl) in H.
Qed.

Lemma typed_tx {A} msg (fn : Go A) :
  InTx fn -> BodyKeeps typed_step fn -> BodyKeeps typed_step (inTx (map_err (Wrap msg) SetContext ;; fn)).
Proof.
  intros Hin Hfn. apply body_inTx; [apply _|solve_intx|].
  intros e s a s' ([] & s1 & H1 & H)%bind_Ok. apply map_err_Ok, SetContext_Ok in H1 as (<- & _). by eapply Hfn.
Qed.

Lemma typed_owner_role : validMembershipRole MembershipScopeOrganisation RoleOrganisationOwner = true.
Proof. done. Qed.

Lemma typed_create actor scope role loc email name :
  validMembershipRole scope role = true ->
  BodyKeeps typed_step (createMembershipInTx actor scope role loc email name).
Proof.
  intros Hv. unfold createMembershipInTx. refine (body_bind _ _ _ _ _); [solve_body|intros _].
  refine (body_bind _ _ _ _ _); [solve_body|intros profile]. refine (body_bind _ _ _ _ _); [|solve_body].
  destruct (String.eqb_spec scope MembershipScopeOrganisation) as [->|_]; [solve_body|].
  destruct (String.eqb_spec scope MembershipScopeLocation) as [->|_]; solve_body.
Qed.

#[local] Hint Resolve typed_owner_role typed_create : keeps.

(** The part of a command that runs its transaction. *)
Ltac typed_op :=
  lazymatch goal with
  | |- forall _, _ => intros ?; typed_op
  | |- BodyKeeps typed_step (inTx _) => apply typed_tx; [solve_intx|]
  | |- BodyKeeps typed_step ?m =>
      lazymatch m with
      | mbind _ (guard_err _ _) => apply typed_guard; intros ?; cbv beta; typed_op
      | mbind _ _ => refine (body_bind _ _ _ _ _); [typed_op|typed_op]
      | map_err _ _ => apply body_map_err; typed_op
      | mret _ => refine (body_ret _ _)
      | guard_err _ _ => refine (body_guard_err _ _ _)
      | lift _ => refine (body_lift _ _)
      | _ => unfold_head m; cbv beta zeta; typed_op
      end
  end.

Lemma typed_identity c : TopKeeps typed_step (run_identity c).
Proof.
  destruct c.
  all: try (apply top_of_keeps; [apply _|apply closed_identity|solve_keeps]; fail).
  all: apply top_of_body; [apply closed_identity|]; cbn [run_identity]; typed_op.
  all: try solve [solve_body].
  - apply typed_create. by match goal with H : negb _ = false |- _ => apply negb_false_iff in H end.
  - match goal with H : _ || _ = false |- _ => apply orb_false_iff in H as [_ Hv%negb_false_iff] end.
  unfold updateMembershipRoleInTx. solve_body.
Qed.

Lemma typed_command c e d r d' : run (run_identity c) e d = (r, d') -> typed_step d d'.
Proof. apply top_run, typed_identity. Qed.

(** Roles fit their scope: along every history of the identity package every
    organisation membership is an owner's or a reader's and every location
    membership a manager's or a waiter's, if it was so at the start. *)
Theorem memberships_well_typed d d'
  (Htyped : well_typed d) (Hhist : identity_history d d') : well_typed d'.
Proof.
  induction Hhist as [|d1 c e r d2 _ IH Hrun]; [done|]. by apply (typed_command _ _ _ _ _ Hrun).
Qed.

(** ** The audit log *)

(** One entry is added. *)
Definition audited (actor : TenantActor) (action : string) (m : ManagedMembership)
  (metadata : list (string * json)) (d d' : Db) : Prop :=
  exists id a, db_audit d !! id = None /\ db_audit d' = <[id := a]> (db_audit d) /\
  aud_ID a = id /\ aud_OrganisationID a = nullableUUID (act_OrganisationID actor) /\
  aud_LocationID a = nullableUUID (mng_LocationID m) /\
  aud_ActorRef a = TrimSpace (act_ActorRef actor) /\ aud_Action a = action /\
  aud_TargetType a = auditTargetMembership /\ aud_TargetID a = uuid_String (mng_ID m) /\
  aud_Metadata a = JObj metadata.

Lemma recordMembershipAudit_Ok actor action m metadata e s u s' :
  recordMembershipAudit (normalizeTenantActor actor) action m metadata e s = (Ok u, s') ->
  audited actor action m metadata (st_db s) (st_db s') /\
  db_org_members (st_db s') = db_org_members (st_db s) /\
  db_loc_members (st_db s') = db_loc_members (st_db s) /\ db_users (st_db s') = db_users (st_db s).
Proof.
  unfold recordMembershipAudit. intros (a & s1 & H1 & H)%bind_Ok. apply ret_Ok in H as [_ <-].
  apply map_err_Ok, exec_Ok in H1 as (_ & d & H1 & ->). apply insert_row_Ok in H1 as (Ha & Hf & _ & ->).
  split; [|done]. exists (aud_ID a), a. subst a. simpl. done.
Qed.

(** What a statement on organisation memberships leaves alone. *)
Definition others_same (d d' : Db) : Prop :=
  db_audit d' = db_audit d /\ db_loc_members d' = db_loc_members d /\ db_users d' = db_users d.

#[local] Instance others_same_preorder : PreOrder others_same.
Proof.
  unfold others_same. split; [done|]. intros x y z (? & ? & ?) (? & ? & ?). split_and!; congruence.
Qed.

Lemma others_update org id whr role dis :
  BodyKeeps others_same (update_member org MembershipScopeOrganisation id whr role dis).
Proof.
  unfold update_member. simpl. refine (body_exec _ _ _). intros now u d a d' H. by stmt_invert H.
Qed.

Lemma disable_others org id :
  BodyKeeps others_same (disableMembership org MembershipScopeOrganisation id).
Proof.
  unfold disableMembership. refine (body_bind _ _ _ _ _); [apply body_map_err, others_update|].
  intros _ e s r s' H. unfold getManagedMembershipForUpdate in H. simpl in H.
  unfold scanManagedMembership in H.
  assert (BodyKeeps eq (map_err (no_rows_to ErrNotFound "scanning membership") (exec (fun now u d =>
  let? r := select_one db_org_members id (fun m => omb_OrganisationID m =? org)%N now u d in
  Ok (managed_org d r.1, r.2))))) as Hq by solve_body.
  unfold mbind, Go_bind in H. simpl in H. by apply Hq in H as <-.
Qed.

Lemma getForUpdate_quiet org scope id : BodyKeeps eq (getManagedMembershipForUpdate org scope id).
Proof. solve_body. Qed.

(** The checks of a disabling: the row is there, enabled, and not the last owner's. *)
Lemma disableChecks_Ok actor id e s u s' :
  disableMembershipChecks actor MembershipScopeOrganisation id e s = (Ok u, s') ->
  st_db s' = st_db s /\ exists r, db_org_members (st_db s) !! id = Some r /\
  omb_OrganisationID r = act_OrganisationID actor /\ omb_DisabledAt r = None /\
  (omb_Role r = RoleOrganisationOwner ->
   exists j x, db_org_members (st_db s) !! j = Some x /\
     active_owner (act_OrganisationID actor) x = true /\ j <> id).
Proof.
  unfold disableMembershipChecks. intros (u1 & s1 & H1 & H)%bind_Ok.
  assert (BodyKeeps eq (requireOrganisationPermission actor PermissionOrganisationManage)) as Hq by solve_body.
  apply Hq in H1. apply bind_Ok in H as (cur & s2 & H2 & H).
  apply getForUpdate_org in H2 as (r & Hr & Ho & -> & Hdb & _). apply bind_Ok in H as ([] & s3 & H3 & H).
  apply guard_err_Ok in H3 as (Hen & -> & _). simpl in H, Hen. rewrite <- H1 in *.
  destruct (String.eqb_spec (omb_Role r) RoleOrganisationOwner) as [Hro|Hro].
  - unfold requireAnotherOrganisationOwner in H. apply bind_Ok in H as (n & s4 & H4 & H).
  apply map_err_Ok, exec_Ok in H4 as (_ & d4 & H4 & ->). apply guard_err_Ok in H as (Hn & -> & _).
  rewrite Hdb in H4. pose proof (another_owner _ _ id _ _ H4 Hn) as Hother.
  assert (d4 = st_db s) as -> by (unfold owner_count in H4; case_match; [by injection H4|done]).
  split; [done|]. exists r. split_and!; [done|done|by destruct (omb_DisabledAt r)|done].
  - apply ret_Ok in H as [_ <-]. split; [done|]. exists r.
  split_and!; [done|done|by destruct (omb_DisabledAt r)|done].
Qed.

(** What disabling a membership does, when it reports success: the row was an
    enabled one of the actor's organisation and, if an owner's, not the last
    owner's; it is now disabled and otherwise as it was; no other membership has
    changed; and the same transaction has added one entry to the audit log that
    names the actor, the membership and its role. *)
Theorem disabling_is_recorded e d arg m d'
  (Hscope : TrimSpace (dmp_Scope arg) = MembershipScopeOrganisation)
  (Hrun : run (DisableMembership arg) e d = (Ok m, d')) :
  exists old now, db_org_members d !! dmp_ID arg = Some old /\
  omb_OrganisationID old = act_OrganisationID (dmp_Actor arg) /\ omb_DisabledAt old = None /\
  (omb_Role old = RoleOrganisationOwner ->
   exists j x, db_org_members d !! j = Some x /\
     active_owner (act_OrganisationID (dmp_Actor arg)) x = true /\ j <> dmp_ID arg) /\
  db_org_members d' = <[dmp_ID arg := org_member_row (omb_Role old) (Some now) now old]> (db_org_members d) /\
  db_loc_members d' = db_loc_members d /\
  m = managed_org d' (org_member_row (omb_Role old) (Some now) now old) /\
  audited (dmp_Actor arg) auditActionMembershipDisable m
    [("email", JStr (mng_Email m)); ("locationId", JNull); ("role", JStr (omb_Role old));
     ("scope", JStr "organisation")] d d'.
Proof.
  unfold run in Hrun. destruct (DisableMembership arg e (start d)) as [r0 s0] eqn:H0.
  injection Hrun as -> <-. unfold DisableMembership in H0. rewrite Hscope in H0.
  apply bind_Ok in H0 as ([] & s1 & H1 & H). apply bind_Ok in H1 as ([] & s2 & H2 & H1).
  apply guard_err_Ok in H2 as (_ & -> & _). apply guard_err_Ok in H1 as (_ & -> & _).
  apply bind_Ok in H as ([] & s3 & H3 & H). apply guard_err_Ok in H3 as (_ & -> & _).
  apply inTx_Ok in H; [|solve_intx]. apply committed_context in H as (s4 & s5 & Hd & _ & Hb & Hd').
  cbn [st_db start] in Hd. apply bind_Ok in Hb as ([] & s6 & Hc & Hb).
  apply disableChecks_Ok in Hc as (Hdb6 & old & Hold & Ho & Hen & Hother). rewrite Hd in *.
  unfold disableMembershipWrites in Hb. apply bind_Ok in Hb as (m1 & s7 & Hdis & Hb).
  pose proof (disable_others _ _ _ _ _ _ Hdis) as (Haud & Hloc & Husers).
  unfold disableMembership in Hdis. apply bind_Ok in Hdis as ([] & s8 & Hup & Hget).
  apply map_err_Ok, update_member_org in Hup.
  apply getForUpdate_org in Hget as (r1 & Hr1 & _ & -> & Hdb7 & _).
  apply bind_Ok in Hb as ([] & s9 & Haudit & Hb). apply ret_Ok in Hb as [<- <-].
  apply recordMembershipAudit_Ok in Haudit as (Ha & Hom & Hlm & Hus).
  rewrite Hdb6 in *. destruct Hup as [[_ Hno]|(x & Hx & _ & _ & Hch)].
  { specialize (Hno _ Hold Ho). by rewrite Hen in Hno. }
  rewrite Hold in Hx. injection Hx as <-. unfold row_changed in Hch.
  rewrite Hch, lookup_insert_eq in Hr1. injection Hr1 as <-.
  exists old, (st_now s6). split; [done|]. split; [done|]. split; [done|]. split; [done|].
  rewrite <- Hd'. split; [rewrite Hom, Hdb7; exact Hch|]. split; [by rewrite Hlm|].
  split; [unfold managed_org, profile_of; by rewrite Hus, Hdb7|].
  destruct Ha as (id & a & Hf & Hi & Ha). exists id, a. rewrite Haud in Hf, Hi. split; [done|].
  split; [done|]. exact Ha.
Qed.
End Typing.

Lemma disable_scope_plain : TrimSpace (dmp_Scope (disable_args 21)) = MembershipScopeOrganisation.
Proof. vm_compute. reflexivity. Qed.

Lemma disabling_is_recorded_witness :
  exists m d', run (DisableMembership (disable_args 21)) (calm 100 1000000) people_db = (Ok m, d') /\
    exists old now, db_org_members people_db !! 21%N = Some old /\
      db_org_members d' = <[21%N := org_member_row (omb_Role old) (Some now) now old]> (db_org_members people_db).
Proof.
  destruct (run (DisableMembership (disable_args 21)) (calm 100 1000000) people_db) as [r d'] eqn:Hr.
  assert (is_ok (fst (run (DisableMembership (disable_args 21)) (calm 100 1000000) people_db)) = true) as Hok
    by (vm_compute; reflexivity).
  rewrite Hr in Hok. destruct r as [m|err]; [|discriminate Hok]. exists m, d'. split; [reflexivity|].
  destruct (disabling_is_recorded _ _ _ _ _ disable_scope_plain Hr)
    as (old & now & Hold & _ & _ & _ & Hd' & _).
  exists old, now. exact (conj Hold Hd').
Defined.

Lemma people_typed : well_typed people_db.
Proof.
  assert (map_any (fun m => negb (validMembershipRole MembershipScopeOrganisation (omb_Role m)))
            (db_org_members people_db) = false) as H by (vm_compute; reflexivity).
  rewrite map_any_false in H. split.
  - intros k m Hk. apply H in Hk. by apply negb_false_iff in Hk.
  - intros k m Hk. unfold db_loc_members in Hk. simpl in Hk. by rewrite lookup_empty in Hk.
Qed.

Lemma memberships_well_typed_witness :
  well_typed people_db /\ well_typed (snd (run (run_identity (IDisable (disable_args 21))) (calm 100 1000000) people_db)).
Proof.
  split; [exact people_typed|].
  destruct (run (run_identity (IDisable (disable_args 21))) (calm 100 1000000) people_db) as [r d] eqn:Hr.
  exact (memberships_well_typed people_db d people_typed
           (identity_next _ _ (IDisable (disable_args 21)) _ _ _ (identity_start _) Hr)).
Defined.
