(* ===== verification/SystemSamples.v ===== *)
(** Requests of the whole backend at the sample restaurant: to the configuration
    service; of a POS, with its connection, the mapping of its table, and webhooks with
    and without a signature; and of the HTTP API, with an administrator of the
    platform. *)

From Stdlib Require Import SpecFloat.
From S2P Require Import Prelude Json Crypto Schema AnalyticsQueries GoTx Store Queries Tokens IdentityQueries LayoutQueries Identity Memberships Configuration Onboarding IntegrationQueries Operations Guest Outbox ReferencePOS Integrations RateLimiter Http Dto PlatformQueries Auth Platform Api Routes TxFacts Steps LayoutFacts IdentityFacts MembershipFacts FloorSpec Commands History IntegrationFacts LayoutCommands IntegrationInv Guards Samples IdentitySamples.
#[local] Open Scope string_scope.
#[local] Open Scope Z_scope.
#[local] Open Scope list_scope.

(** Numbers stay what they are. *)
#[export] Instance sample_number : GoNumber :=
  {| float_number := fun j => j; float_number_exact := fun z _ => eq_refl |}.

(** ** Deciding the invariants of a concrete database *)

Definition sound_dec {A} (key : A -> N) (chk : A -> bool) (clash : A -> A -> bool) (fk : A -> bool)
    (m : gmap N A) : bool :=
  forallb (fun '(k, r) =>
    (key r =? k)%N && chk r && fk r && no_other (fun s => clash s r) k m) (map_to_list m).

Lemma sound_decided {A} key chk clash fk (m : gmap N A) :
  sound_dec key chk clash fk m = true -> sound key chk clash fk m.
Proof.
  intros H. assert (forall k r, m !! k = Some r ->
    key r = k /\ chk r = true /\ fk r = true /\ no_other (fun s => clash s r) k m = true) as Hall.
  { unfold sound_dec in H. rewrite forallb_forall in H. intros k r Hk.
    specialize (H (k, r)). rewrite !andb_true_iff, N.eqb_eq in H.
    destruct H as [[[? ?] ?] ?]; [|done]. by apply list_elem_of_In, elem_of_map_to_list. }
  split; intros k r *; [intros Hk; by apply Hall in Hk as (? & ? & ? & ?)..|].
  intros Hk Hj. apply Hall in Hk as (_ & _ & _ & Hno). rewrite no_other_spec in Hno. by apply Hno.
Qed.

Lemma people_layout : layout_inv people_db.
Proof. split; apply sound_decided; vm_compute; reflexivity. Qed.

Lemma people_occupied : tables_occupied people_db.
Proof.
  intros t r Ht. unfold people_db, sample_db in *. simpl in *.
  apply lookup_singleton_Some in Ht as [<- <-]. by eexists.
Qed.

Lemma people_floor : floor_inv people_db.
Proof. exact (floor_inv_same sample_db people_db (conj eq_refl (conj eq_refl eq_refl)) sample_floor_inv). Qed.

(** ** Requests *)

Definition olive_configures : Configuration.TenantActor :=
  {| cac_OrganisationID := 1%N; cac_LocationID := 2%N; cac_ActorRef := userProfileActorRef 10 |}.

Definition second_table (label : string) : UpsertTableParams :=
  {| utp_Actor := olive_configures; utp_ID := uuid_Nil; utp_FloorID := 4%N; utp_ZoneID := 5%N;
     utp_Label := label; utp_CapacityLabel := "2"; utp_Shape := "square"; utp_Geometry := RawEmpty;
     utp_ExpectedVersion := 0 |}.

Definition create_second : Go Table := CreateTable (second_table " T2 ").
Definition second_db : Db := snd (run create_second (calm 800 8000000) people_db).

Example create_second_ok : is_ok (fst (run create_second (calm 800 8000000) people_db)) = true.
Proof. vm_compute. reflexivity. Qed.
Example create_again_conflicts :
  fst (run create_second (calm 900 9000000) second_db)
  = Err (ConflictError Configuration.pkg "tables_floor_id_label_key").
Proof. vm_compute. reflexivity. Qed.
Example snapshot_ok : is_ok (fst (run (GetLayoutSnapshot olive_configures) (calm 900 9000000) second_db)) = true.
Proof. vm_compute. reflexivity. Qed.

(** A tenant is provisioned, and its owner sets it up. *)
Definition provision_args : PlatformProvisionTenantParams :=
  {| ppt_OrganisationName := "Nora's"; ppt_OrganisationSlug := "noras"; ppt_LocationName := "Harbour";
     ppt_LocationSlug := "harbour"; ppt_Timezone := ""; ppt_OwnerEmail := "Nora@Noras.test";
     ppt_OwnerDisplayName := "Nora" |}.

Definition provision : Go PlatformProvisionTenantResult := PlatformProvisionTenant provision_args.
Definition noras_db : Db := snd (run provision (calm 900 9000000) people_db).
Definition noras_org : uuid :=
  match fst (run provision (calm 900 9000000) people_db) with
  | Ok p => org_ID (ppr_Organisation p)
  | Err _ => uuid_Nil
  end.
Definition nora : uuid :=
  match fst (run provision (calm 900 9000000) people_db) with
  | Ok p => mng_UserProfileID (ppr_Owner p)
  | Err _ => uuid_Nil
  end.

Definition noras_floor : OnboardingFloor :=
  {| obf_Name := "Quay"; obf_Slug := "quay"; obf_Canvas := RawEmpty;
     obf_Zones := [{| obz_Name := "Inside"; obz_SortOrder := 0 |};
                   {| obz_Name := "Deck"; obz_SortOrder := 1 |}];
     obf_Tables := [{| obt_Label := "D1"; obt_CapacityLabel := ""; obt_Shape := "";
                       obt_Geometry := RawText (Some (JObj [])); obt_ZoneName := "Deck" |};
                    {| obt_Label := "I1"; obt_CapacityLabel := "6"; obt_Shape := "circle";
                       obt_Geometry := RawText (Some (JObj [])); obt_ZoneName := "" |}];
     obf_SortOrder := 0 |}.

Definition setup_args : OwnerSetupParams :=
  {| osp_UserProfileID := nora; osp_Floor := noras_floor;
     osp_ServicePeriods := [{| obp_Name := "Lunch"; obp_DaysOfWeek := [1; 2; 3]; obp_StartTime := "12:00";
                               obp_EndTime := "15:30" |}] |}.

Definition setup : Go OwnerSetupResult := OwnerSetup setup_args.
Definition ready_db : Db := snd (run setup (calm 1000 10000000) noras_db).

Example provision_ok : is_ok (fst (run provision (calm 900 9000000) people_db)) = true.
Proof. vm_compute. reflexivity. Qed.
Example setup_ok : is_ok (fst (run setup (calm 1000 10000000) noras_db)) = true.
Proof. vm_compute. reflexivity. Qed.
Example setup_again_refused :
  fst (run setup (calm 1100 11000000) ready_db) = Err Identity.ErrAlreadyExists.
Proof. vm_compute. reflexivity. Qed.

(** Guests sit at the sample table, which is then archived. *)
Definition seated_db : Db :=
  snd (run (OccupyTableCommand (sample_occupy 50 1) None) (calm 1200 12000000) people_db).
Definition archived_table : Go Table := ArchiveTable olive_configures 3 1.
Definition archived_db : Db := snd (run archived_table (calm 1300 13000000) seated_db).

Definition seat_second : OccupyTableParams :=
  {| ocp_OrganisationID := 1%N; ocp_LocationID := 2%N;
     ocp_TableID := match fst (run create_second (calm 800 8000000) people_db) with
                    | Ok t => tbl_ID t | Err _ => uuid_Nil end;
     ocp_ExpectedVersion := 1; ocp_PartySize := Some 2; ocp_ActorRef := "user:1"; ocp_Source := "staff";
     ocp_Command := {| cmd_ID := uuid_Nil; cmd_Type := ""; cmd_PayloadHash := []; cmd_DeviceID := None;
                       cmd_Retention := 0 |} |}.

Example seat_ok :
  is_ok (fst (run (OccupyTableCommand seat_second None) (calm 1200 12000000) second_db)) = true.
Proof. vm_compute. reflexivity. Qed.
Example archive_ok : is_ok (fst (run archived_table (calm 1300 13000000) seated_db)) = true.
Proof. vm_compute. reflexivity. Qed.
Example clear_refused :
  fst (run (ClearTableCommand (sample_clear 51 2) None) (calm 1400 14000000) archived_db)
  = Err Operations.ErrNotFound.
Proof. vm_compute. reflexivity. Qed.

(** JSON text, with its quotation marks written as single ones. *)
Definition quoted (s : string) : list N :=
  map (fun b => if (b =? 39)%N then 34%N else b) (bytes_N s).

Definition pos_payload : list N :=
  quoted "{'eventId':'evt-1','externalTableId':'pos-1','status':'occupied','partySize':4}".
Definition pos_payload_json : json :=
  JObj [("eventId", JStr "evt-1"); ("externalTableId", JStr "pos-1"); ("status", JStr "occupied");
        ("partySize", JNum 4)].
Definition pos_config : json :=
  JObj [("referenceTables",
         JArr [JObj [("externalTableId", JStr "pos-1"); ("label", JStr "Window"); ("status", JStr "occupied")];
               JObj [("externalTableId", JStr "pos-9"); ("status", JStr "reserved")];
               JObj [("externalTableId", JStr " pos-2 "); ("status", JStr "available")]])].
Definition pos_config_text : list N :=
  quoted "{'referenceTables':[{'label':'Window','status':'occupied','externalTableId':'pos-1'},{'status':'reserved','externalTableId':'pos-9'},{'status':'available','externalTableId':' pos-2 '}]}".

(** The texts the samples use, and the environment without a secret. *)
#[export] Instance sample_pos : PosText :=
  {| json_Unmarshal := fun t =>
       if bool_decide (t = pos_payload) then Some pos_payload_json
       else if bool_decide (t = pos_config_text) then Some pos_config else None;
     jsonb_in := fun t => if bool_decide (t = pos_payload) then Some pos_payload_json else None;
     jsonb_out := fun j =>
       match j with
       | JObj ((k, _) :: _) => if String.eqb k "referenceTables" then pos_config_text else pos_payload
       | _ => []
       end;
     parse_rfc3339 := fun _ => None;
     Getenv := fun _ => "" |}.

Definition pos_connection_row : IntegrationConnection :=
  {| icn_ID := 60%N; icn_OrganisationID := 1%N; icn_LocationID := 2%N; icn_Vendor := "reference_pos";
     icn_DisplayName := "Till"; icn_CredentialRef := "env:till"; icn_Status := "connected";
     icn_Capabilities := JObj []; icn_Config := pos_config; icn_LastSuccessfulSyncAt := None;
     icn_LastError := None; icn_CreatedAt := 0; icn_UpdatedAt := 0 |}.

Definition pos_mapping_row : IntegrationTableMapping :=
  {| itm_ID := 61%N; itm_OrganisationID := 1%N; itm_LocationID := 2%N; itm_ConnectionID := 60%N;
     itm_ExternalTableID := "pos-1"; itm_TableID := Some 3%N; itm_ExternalLabel := None;
     itm_Status := "mapped"; itm_LastSeenAt := None; itm_CreatedAt := 0; itm_UpdatedAt := 0 |}.

Definition pos_tables : IntegrationDb :=
  {| xdb_connections := {[60%N := pos_connection_row]}; xdb_mappings := {[61%N := pos_mapping_row]};
     xdb_webhooks := ∅; xdb_runs := ∅; xdb_discrepancies := ∅ |}.

Definition pos_db : Db := set_integrations pos_tables people_db.

Definition pos_signature : string :=
  Eval vm_compute in
  hex_EncodeToString (hmac_sha256 (bytes_N "reference-pos-local-secret") pos_payload).

Definition pos_webhook (signature : string) : Go WebhookResult :=
  ReceiveWebhook ReferencePOS.adapters "reference_pos" 60 signature pos_payload.

(** The table is taken once the webhook was received. *)
Definition pos_received_db : Db := snd (run (pos_webhook pos_signature) (calm 2000 20000000) pos_db).

Example webhook_applied :
  match fst (run (pos_webhook pos_signature) (calm 2000 20000000) pos_db) with
  | Ok r => (wrs_Applied r, whk_ProcessingState (wrs_Webhook r), whk_Attempts (wrs_Webhook r))
  | Err _ => (false, "", 0)
  end = (true, "processed", 1).
Proof. vm_compute. reflexivity. Qed.

Example webhook_occupies :
  occ_Status <$> db_occupancy pos_received_db !! 3%N = Some "occupied".
Proof. vm_compute. reflexivity. Qed.

Example webhook_forged :
  match fst (run (pos_webhook "c0ffee") (calm 2000 20000000) pos_db) with
  | Ok r => (wrs_Applied r, whk_ProcessingState (wrs_Webhook r))
  | Err _ => (true, "")
  end = (false, "skipped").
Proof. vm_compute. reflexivity. Qed.

Definition olive_integrates : ReferencePOS.TenantActor :=
  {| iac_OrganisationID := 1%N; iac_LocationID := 2%N; iac_ActorRef := userProfileActorRef 10 |}.

(** The reconciliation corrects the mapped table and reports the other. *)
Example reconciled :
  (fun r => (rrn_Status r, rrn_CheckedCount r, rrn_DiscrepancyCount r, rrn_AutoCorrectedCount r))
    <$> match fst (run (Reconcile ReferencePOS.adapters olive_integrates 60) (calm 3000 30000000) pos_db) with
        | Ok r => Some r | Err _ => None end
  = Some ("completed", 2, 2, 1).
Proof. vm_compute. reflexivity. Qed.

Lemma pos_integrations : integrations_inv pos_db.
Proof. split; apply sound_decided; vm_compute; reflexivity. Qed.

(** The identifiers of the samples are small. *)
Definition sample_uuids : list uuid := N.of_nat <$> seq 0 200.

Definition parse_sample (s : string) : option uuid :=
  List.find (fun u => String.eqb (uuid_String u) s) sample_uuids.

Lemma parse_sample_text s u : parse_sample s = Some u -> uuid_text s = true.
Proof.
  intros [Hin <-%String.eqb_eq]%List.find_some.
  assert (forallb (fun u => uuid_text (uuid_String u)) sample_uuids = true) as H by (vm_compute; reflexivity).
  rewrite forallb_forall in H. by apply H.
Qed.

#[export] Instance sample_http : HttpText := {|
  uuid_Parse := parse_sample;
  SplitHostPort := fun s => Some s;
  ParseRFC3339 := fun _ => None;
  ParseFloat_fits := fun _ => true;
  uuid_Parse_text := parse_sample_text;
|}.

#[export] Instance sample_platform : PlatformText := {|
  pg_ilike := fun _ _ => true;
|}.

(** Three zones: UTC, Johannesburg, and Cairo in 2024, whose clocks skipped the first hour
    of the 26th of April and repeated the last one of the 31st of October. *)
Definition sample_offset (zone : string) (s : Z) : Z :=
  if String.eqb zone "Africa/Johannesburg" then 7200
  else if String.eqb zone "Africa/Cairo"
  then (if (1714082400 <=? s) && (s <? 1730408400) then 10800 else 7200)
  else 0.

Definition sample_mean (l : list spec_float) : spec_float :=
  f_div (fold_left f_add l float_zero) (f_of_Z (Z.of_nat (length l))).

#[export] Instance sample_reports : ReportData := {|
  zone_offset := sample_offset;
  time_Local := "UTC";
  json_float := fun x => match x with S754_finite s m e => JReal (int_String (Zpos m) +:+ "e" +:+ int_String e)
                                  | _ => JNum 0 end;
  pg_midnight := fun day => day * day_nanos;
  pg_avg_epoch := fun l => sample_mean (map epoch_seconds l);
  pg_avg := sample_mean;
  pg_sum := fun l => fold_left f_add l float_zero;
  pg_percentile_cont := fun p l => nth (length l / 2) (sort_by SFleb l) float_zero;
  zone_offset_UTC := fun _ => eq_refl;
|}.

Definition production : Http.Config :=
  {| cfg_Environment := "production"; cfg_GuestWebOrigin := ""; cfg_InternalAPISecret := "s3cret";
     cfg_TrustedIdentityHeaders := false |}.

Definition no_body : Body := {| body_bytes := None; body_first := None; body_end := true |}.
Definition json_body (ms : list (string * json)) : Body :=
  {| body_bytes := None; body_first := Some (JObj ms); body_end := true |}.

(** A request with a bearer, for the route's path with the given wildcards. *)
Definition sample_request_to (rt : Route) (secret : string) (headers wild : list (string * string))
    (body : Body) : Request :=
  let values := list_to_map wild : gmap string string in
  {| req_Method := fst (pattern rt);
     req_Path := path_of (fun name => default "" (values !! name)) (snd (pattern rt));
     req_Header := list_to_map (("Authorization", "Bearer " +:+ secret) :: headers);
     req_Query := ∅; req_PathValue := values; req_Body := body; req_UserAgent := "Firefox";
     req_RemoteAddr := "192.0.2.1:4000" |}.

(** ** The platform *)

Definition petra : UserProfile := sample_user 12 "Petra" "petra@platform.test".

Definition petra_admin : PlatformMembership :=
  {| pmb_ID := 30%N; pmb_UserProfileID := 12%N; pmb_Role := "platform_admin";
     pmb_GrantedByActorRef := "platform"; pmb_GrantedAt := 0; pmb_DisabledAt := None;
     pmb_DisabledByActorRef := None; pmb_CreatedAt := 0; pmb_UpdatedAt := 0 |}.

Definition platform_identity : IdentityDb :=
  let i := sample_identity [sample_member 20 10 "organisation_owner";
                            sample_member 21 11 "read_only"] in
  {| idb_users := <[12%N := petra]> (idb_users i); idb_externals := ∅; idb_roles := idb_roles i;
     idb_role_permissions := {[("platform_admin", "platform.admin");
       ("platform_admin", "platform.admin.write"); ("platform_admin", "platform.admin.manage_admins")]}
       ∪ idb_role_permissions i;
     idb_org_members := idb_org_members i; idb_loc_members := ∅;
     idb_platform_members := {[30%N := petra_admin]}; idb_grants := ∅; idb_web_sessions := ∅;
     idb_credentials := ∅; idb_pairing_codes := ∅; idb_audit := ∅ |}.

Definition login_of (user : uuid) : Go WebSessionResult :=
  CreateWebSession {| cws_UserProfileID := user; cws_TTL := 0; cws_UserAgent := "Firefox";
                      cws_IPAddress := ""; cws_RotatedFrom := uuid_Nil |}.

Definition secret_of (user : uuid) (e : Env) (d : Db) : string :=
  match fst (run (login_of user) e d) with Ok w => wss_Secret w | Err _ => "" end.

Definition platform_db0 : Db := set_identity platform_identity sample_db.
Definition petra_secret : string := secret_of 12 (calm 100 1000000) platform_db0.
Definition platform_db1 : Db := snd (run (login_of 12) (calm 100 1000000) platform_db0).
Definition olive_secret : string := secret_of 10 (calm 120 1200000) platform_db1.
Definition platform_db : Db := snd (run (login_of 10) (calm 120 1200000) platform_db1).

Definition suspend_request : Request :=
  sample_request_to RSuspendPlatformTenant petra_secret [] [("id", uuid_String 1)]
    (json_body [("reason", JStr " unpaid ")]).

Definition occupy_request : Request :=
  sample_request_to ROccupyTable olive_secret
    [(headerOrganisationID, uuid_String 1); (headerLocationID, uuid_String 2)] [("id", uuid_String 3)]
    {| body_bytes := Some []; body_first := Some (JObj [("commandId", JStr (uuid_String 60));
         ("expectedVersion", JNum 1)]); body_end := true |}.

Definition invite_request : Request :=
  sample_request_to RInvitePlatformTenantOwner petra_secret [] [("id", uuid_String 1)]
    (json_body [("email", JStr "nora@bistro.test"); ("displayName", JStr "Nora");
                ("reason", JStr "second owner")]).

(** A call of the request fails. *)
Definition failing_at (n : nat) (base : N) (now : Z) : Env :=
  {| env_clock := fun t => now + Z.of_nat t; env_pgclock := fun t => now + Z.of_nat t;
     env_uuid := fun t => (base + N.of_nat t)%N;
     env_rand := fun t i => (base + N.of_nat t + N.of_nat i)%N;
     env_fault := fun t => if Nat.eqb t n
                           then Some {| fault_error := ConnectionFailure; fault_applied := false |} else None;
     env_traceparent := ""; env_tracestate := "" |}.

Definition status_of {A} (r : result error (result ApiError A)) : option Z :=
  match r with Ok (Err err) => Some (ape_Status err) | _ => None end.

Lemma request_succeeds {A} (m : Http A) e d : served (fst (run m e d)) = true ->
  exists a, run m e d = (Ok (Ok a), snd (run m e d)).
Proof. destruct (run m e d) as [[[a|err]|err] d']; simpl; [eauto|done..]. Qed.

Example suspend_ok :
  served (fst (run (handle production RSuspendPlatformTenant suspend_request) (calm 150 2000000) platform_db))
  = true.
Proof. vm_compute. reflexivity. Qed.
Example occupy_ok :
  served (fst (run (handle production ROccupyTable occupy_request) (calm 150 2000000) platform_db)) = true.
Proof. vm_compute. reflexivity. Qed.
