(* ===== verification/AnalyticsTheorems.v ===== *)
(** What analytics computes.  Its rows satisfy the checks of their tables, whatever
    requests arrive.  A rebuild replaces the metrics of each day it visits by
    exactly those of the floor, or leaves them alone, and touches nothing else; the
    days it visits; the day an event has projected; occupancy as the overlap of
    sessions with a window; times of day as text. *)

From Stdlib Require Import SpecFloat.
From S2P Require Import Prelude Json Crypto Schema GoTx AnalyticsQueries Analytics Store Queries Tokens IdentityQueries LayoutQueries Identity Memberships Onboarding Events Outbox ReferencePOS Integrations Configuration Operations Guest Http PlatformQueries Auth Platform Api Routes TxFacts Steps IdentityFacts CommandFacts Commands IntegrationFacts SystemCommands HttpSteps Idempotency Samples IdentitySamples SystemSamples.
#[local] Open Scope string_scope.
#[local] Open Scope Z_scope.
#[local] Open Scope list_scope.

(** ** Views of the metrics *)

(** The tables of metrics: the five with a row a day, and the hours of the tables. *)
Inductive Shelf : Type := Daily (t : MetricTable) | Hourly.

#[export] Instance Shelf_eq_dec : EqDecision Shelf.
Proof. solve_decision. Defined.

(** What a row says, but when it was projected. *)
Definition shown (r : AnalyticsDailyMetric) : Z * Z * Metric :=
  (adm_BucketStart r, adm_BucketEnd r, adm_Metric r).
Definition hour_shown (r : AnalyticsHourlyTableMetric) : Z * Z * Metric :=
  (ahm_BucketStart r, ahm_BucketEnd r, ahm_Metric r).

Definition metric_at (d : Db) (s : Shelf) (k : metric_key) : option (Z * Z * Metric) :=
  match s with
  | Daily t => shown <$> db_daily t d !! k
  | Hourly => hour_shown <$> db_hourly d !! k
  end.

(** Rows stand under the key they carry. *)
Record metrics_keyed (d : Db) : Prop := {
  mk_daily : forall t k r, db_daily t d !! k = Some r -> daily_key r = k;
  mk_hourly : forall k r, db_hourly d !! k = Some r -> hourly_key r = k;
}.

Definition only_analytics (d d' : Db) : Prop := exists a, d' = set_analytics a d.

#[export] Instance only_analytics_preorder : PreOrder only_analytics.
Proof.
  split.
  - intros d. exists (db_analytics d). by destruct d.
  - intros d1 d2 d3 [a ->] [b ->]. by exists b.
Qed.

Lemma daily_set t t' m d : db_daily t (set_daily t' m d) = if decide (t = t') then m else db_daily t d.
Proof. by destruct t, t'. Qed.

Lemma only_daily t m d : only_analytics d (set_daily t m d).
Proof. by eexists. Qed.
Lemma only_hourly m d : only_analytics d (set_hourly m d).
Proof. by eexists. Qed.
#[local] Hint Resolve only_daily only_hourly : keeps.

(** What calls that do not project leave: the metrics, and all but analytics. *)
Record metrics_kept (d d' : Db) : Prop := {
  kp_only : only_analytics d d';
  kp_daily : forall t, db_daily t d' = db_daily t d;
  kp_hourly : db_hourly d' = db_hourly d;
}.

#[export] Instance metrics_kept_preorder : PreOrder metrics_kept.
Proof.
  split; [by split|]. intros d1 d2 d3 [H1 E1 F1] [H2 E2 F2]. split; [by etrans| |by etrans].
  intros t. by rewrite E2.
Qed.

Lemma kept_checkpoints m d : metrics_kept d (set_checkpoints m d).
Proof. split; [by eexists|by intros []|done]. Qed.
Lemma kept_rebuilds m d : metrics_kept d (set_rebuilds m d).
Proof. split; [by eexists|by intros []|done]. Qed.
#[local] Hint Resolve kept_checkpoints kept_rebuilds : keeps.

Lemma kept_keyed d d' : metrics_kept d d' -> metrics_keyed d -> metrics_keyed d'.
Proof. intros [_ E F] [H1 H2]. split; [intros t k r; rewrite E; apply H1|intros k r; rewrite F; apply H2]. Qed.

Lemma kept_at d d' s k : metrics_kept d d' -> metric_at d' s k = metric_at d s k.
Proof. intros [_ E F]. destruct s; cbn [metric_at]; by rewrite ?E, ?F. Qed.

(** ** The rows of analytics

    Every row stands under the key it carries and satisfies the checks of its table. *)

Record analytics_inv (d : Db) : Prop := {
  ai_daily : forall t k r, db_daily t d !! k = Some r -> daily_key r = k /\ (adm_BucketStart r <? adm_BucketEnd r) = true;
  ai_hourly : map_Forall (fun k r => hourly_key r = k /\ hourly_checks r = true) (db_hourly d);
  ai_checkpoints : map_Forall (fun k r => apc_ProjectorName r = k /\ checkpoint_checks r = true) (db_checkpoints d);
  ai_rebuilds : map_Forall (fun k r => arr_ID r = k /\ rebuild_checks r = true) (db_rebuilds d);
}.

Definition analytics_kept (d d' : Db) : Prop := analytics_inv d -> analytics_inv d'.

#[export] Instance analytics_kept_preorder : PreOrder analytics_kept.
Proof. split; [intros d H; exact H|]. intros x y z H1 H2 Hx. auto. Qed.

Lemma same_analytics_kept d d' : db_analytics d' = db_analytics d -> analytics_kept d d'.
Proof.
  intros E [H1 H2 H3 H4]. unfold db_daily, db_hourly, db_checkpoints, db_rebuilds in *.
  split; unfold db_daily, db_hourly, db_checkpoints, db_rebuilds; by rewrite E.
Qed.

Lemma inv_keyed d : analytics_inv d -> metrics_keyed d.
Proof.
  intros [H1 H2 _ _]. split; [intros t k r Hr; by apply (H1 t k r)|intros k r Hr; by apply H2 in Hr as [? _]].
Qed.

(** Each statement keeps the rows of its table; the others are not touched. *)
Lemma inv_daily t m d : (forall k r, m !! k = Some r -> daily_key r = k /\ (adm_BucketStart r <? adm_BucketEnd r) = true) ->
  analytics_kept d (set_daily t m d).
Proof.
  intros Hm [H1 H2 H3 H4]. split; [|exact H2|exact H3|exact H4]. intros t' k r. rewrite daily_set.
  case_decide; [apply Hm|apply H1].
Qed.
Lemma inv_hourly m d : map_Forall (fun k r => hourly_key r = k /\ hourly_checks r = true) m ->
  analytics_kept d (set_hourly m d).
Proof. intros Hm [H1 H2 H3 H4]. split; [|exact Hm|exact H3|exact H4].
  intros t k r Hr. apply (H1 t k r). by destruct t. Qed.
Lemma inv_checkpoints m d : map_Forall (fun k r => apc_ProjectorName r = k /\ checkpoint_checks r = true) m ->
  analytics_kept d (set_checkpoints m d).
Proof. intros Hm [H1 H2 H3 H4]. split; [|exact H2|exact Hm|exact H4].
  intros t k r Hr. apply (H1 t k r). by destruct t. Qed.
Lemma inv_rebuilds m d : map_Forall (fun k r => arr_ID r = k /\ rebuild_checks r = true) m ->
  analytics_kept d (set_rebuilds m d).
Proof. intros Hm [H1 H2 H3 H4]. split; [|exact H2|exact H3|exact Hm].
  intros t k r Hr. apply (H1 t k r). by destruct t. Qed.

Section Kept.
Context {GT : GoText} {GN : GoNumber} {ET : ErrorTexts} {PT : PosText}
  {HT : HttpText} {PL : PlatformText} {RD : ReportData}.

Lemma body_given {A} (q : Stmt A) :
  (forall now u d a d', q now u d = Ok (a, d') -> analytics_inv d -> analytics_inv d') -> BodyKeeps analytics_kept (exec q).
Proof. intros Hq. refine (body_exec _ _ _). exact Hq. Qed.

Lemma inv_upsert name new set :
  (forall now, apc_ProjectorName (new now) = name) ->
  (forall now c, apc_ProjectorName (set now c) = apc_ProjectorName c) ->
  BodyKeeps analytics_kept (upsert_checkpoint name new set).
Proof.
  intros Hn Hs. apply body_given. intros now u d a d' H Hi.
  apply res_bind_Ok in H as (x & [Hc _]%check_Ok & [= _ <-]). apply inv_checkpoints; [|done].
  apply map_Forall_insert_2; [|apply Hi]. split; [|done]. destruct (db_checkpoints d !! name) as [c|] eqn:E; [|apply Hn].
  rewrite Hs. by apply (ai_checkpoints _ Hi) in E as [? _].
Qed.

#[export] Instance analytics_kept_statements : AnalyticsStatements analytics_kept.
Proof.
  split; intros; try (by apply inv_upsert); apply body_given; intros now u d a d' H Hi.
  - apply insert_row_Ok in H as (-> & _ & Hok & ->). apply inv_daily; [|done]. unfold daily_ok, hourly_ok, rebuild_ok in Hok. checks_in Hok.
    intros k r [[<- <-]|[_ Hr]]%lookup_insert_Some; [by split|by apply (ai_daily _ Hi) in Hr].
  - apply insert_row_Ok in H as (-> & _ & Hok & ->). apply inv_hourly; [|done].
    unfold daily_ok, hourly_ok, rebuild_ok in Hok. checks_in Hok. apply map_Forall_insert_2; [by split|apply Hi].
  - injection H as _ <-. apply inv_daily; [|done]. intros k r [Hr _]%map_lookup_filter_Some. by apply (ai_daily _ Hi) in Hr.
  - injection H as _ <-. apply inv_hourly; [|done]. intros k r [Hr _]%map_lookup_filter_Some.
    by apply (ai_hourly _ Hi) in Hr.
  - apply update_exec_Ok in H as [[-> _]|(c & c' & Hc & _ & [= <-] & [Hok _]%check_Ok & ->)]; [done|].
    apply inv_checkpoints; [|done]. apply map_Forall_insert_2; [|apply Hi]. split; [|done].
    by apply (ai_checkpoints _ Hi) in Hc as [? _].
  - apply insert_row_Ok in H as (-> & _ & Hok & ->). apply inv_rebuilds; [|done].
    unfold daily_ok, hourly_ok, rebuild_ok in Hok. checks_in Hok. apply map_Forall_insert_2; [by split|apply Hi].
  - apply update_row_Ok in H as (x & Hx & _ & [= <-] & Hok & ->). apply inv_rebuilds; [|done].
    unfold daily_ok, hourly_ok, rebuild_ok in Hok. checks_in Hok. apply map_Forall_insert_2; [|apply Hi]. split; [|done]. by apply (ai_rebuilds _ Hi) in Hx as [? _].
  - apply insert_row_Ok in H as (_ & _ & _ & ->). by apply (same_analytics_kept d).
  - apply update_row_Ok in H as (? & _ & _ & _ & _ & ->). by apply (same_analytics_kept d).
  - apply update_row_Ok in H as (? & _ & _ & _ & _ & ->). by apply (same_analytics_kept d).
Qed.

#[local] Hint Extern 1 (analytics_kept _ _) => (apply same_analytics_kept; reflexivity) : keeps.

Lemma floor_keeps_analytics c : Keeps analytics_kept (run_command c).
Proof. destruct c; solve_keeps. Qed.
Lemma identity_keeps_analytics c : Keeps analytics_kept (run_identity c).
Proof. destruct c; solve_keeps. Qed.
Lemma layout_keeps_analytics c : Keeps analytics_kept (run_layout c).
Proof. destruct c; solve_keeps. Qed.

#[export] Instance analytics_backend : Backend analytics_kept analytics_kept.
Proof.
  apply backend_of; [apply _|..].
  - intros c. apply floor_top; [apply _|apply floor_keeps_analytics].
  - intros c _. apply identity_top; [apply _|apply identity_keeps_analytics].
  - intros c. apply layout_top; [apply _|apply layout_keeps_analytics].
  - intros c. apply integration_top; [apply _|by intros x d; apply same_analytics_kept|apply floor_keeps_analytics].
  - apply analytics_top; apply _.
  - intros. solve_body.
  - by intros x d; apply same_analytics_kept.
  - by intros x d; apply same_analytics_kept.
  - by intros x d; apply same_analytics_kept.
  - by intros x d; apply same_analytics_kept.
Qed.
End Kept.

(** ** What a day should say *)

Section Projected.
Context {RD : ReportData}.
Context (org loc : uuid) (d : Db).

Definition measured (scope : Scope) (start finish : Z) : Z * Z * Metric :=
  let start := pg_time start in
  let finish := pg_time finish in
  (start, finish, FinalizeMetric (window_metric org loc scope start finish finish d)).

(** The groups of a table of metrics are those of the live tables of the location. *)
Definition has_group (t : MetricTable) (g : uuid) : bool :=
  let live f := existsb (fun x => live_at org loc x && (f x =? g)%N) (values (db_tables d)) in
  match t with
  | LocationMetrics => (g =? loc)%N
  | FloorMetrics => live tbl_FloorID
  | ZoneMetrics => live tbl_ZoneID
  | TableMetrics => live tbl_ID
  | PeriodMetrics =>
      match db_periods d !! g with Some p => period_at org loc p && svp_IsActive p | None => false end
  end.

Definition group_scope (t : MetricTable) (g : uuid) : Scope :=
  match t with
  | FloorMetrics => ScopeFloor g
  | ZoneMetrics => ScopeZone g
  | TableMetrics => ScopeTable g
  | LocationMetrics | PeriodMetrics => ScopeLocation
  end.

(** The window of a group on a date, in the time zone of the location: the day from
    midnight to midnight, or the service period of that day. *)
Definition group_window (t : MetricTable) (tz : string) (g : uuid) (day : GoTime) : option (Z * Z) :=
  match t with
  | PeriodMetrics =>
      p ← db_periods d !! g;
      match ServicePeriodWindowForDate day tz (svp_DaysOfWeek p) (Some (svp_StartTime p)) (Some (svp_EndTime p)) with
      | Ok (Some w) => Some (tm_instant (spw_Start w), tm_instant (spw_End w))
      | _ => None
      end
  | _ => let w := localCalendarDateWindow day tz in Some (tm_instant (fst w), tm_instant (snd w))
  end.

Definition projected (tz : string) (day : GoTime) (t : MetricTable) (g : uuid) : option (Z * Z * Metric) :=
  if has_group t g
  then w ← group_window t tz g day; Some (measured (group_scope t g) (fst w) (snd w))
  else None.

(** The hours of the day of a table, each under the instant at which it begins. *)
Definition projected_hour (tz : string) (day : GoTime) (g : uuid) (begins : Z) : option (Z * Z * Metric) :=
  if has_group TableMetrics g
  then
    let w := localCalendarDateWindow day tz in
    h ← List.find (fun h => pg_time (fst h) =? begins) (day_hours (tm_instant (fst w)) (tm_instant (snd w)));
    Some (measured (ScopeTable g) (fst h) (snd h))
  else None.
End Projected.

(** ** Days and their hours *)

Section Touching.
Context {RD : ReportData} (tz : string).

(** A day that begins when its date does, and does not end before. *)
Definition whole_day (day : GoTime) : Prop :=
  day = Date (day_of day) 0 tz /\ tm_instant day <= tm_instant (AddDays day 1).

(** The rows that a day is about: those of its date, and the hours that begin in it -
    in what is cleared, from the day that is visited to the next, or in what is
    projected, from midnight to midnight. *)
Definition touches (day : GoTime) (s : Shelf) (b : Z) : Prop :=
  match s with
  | Daily _ => b = day_of day
  | Hourly =>
      let w := localCalendarDateWindow day tz in
      pg_time (tm_instant day) <= b < pg_time (tm_instant (AddDays day 1)) \/
      tm_instant (fst w) <= b < tm_instant (snd w)
  end.

Lemma pg_time_below t : pg_time t <= t.
Proof. unfold pg_time. pose proof (Z.mul_div_le t 1000). lia. Qed.

Lemma pg_time_micros t : (1000 | t) -> pg_time t = t.
Proof. intros [k ->]. unfold pg_time. by rewrite Z.div_mul. Qed.

Lemma pg_time_le a t : (1000 | a) -> a <= t -> a <= pg_time t.
Proof.
  intros Ha Ht. rewrite <- (pg_time_micros a Ha). unfold pg_time. apply Z.mul_le_mono_nonneg_r; [done|].
  by apply Z.div_le_mono.
Qed.

Lemma nanos_micros k : (1000 | k * nanos).
Proof. exists (k * 1000000). unfold nanos. lia. Qed.

(** Go's dates are whole seconds where their clocks are. *)
Lemma Date_micros k c : (1000 | c) -> (1000 | tm_instant (Date k c tz)).
Proof.
  intros Hc. unfold Date. cbv zeta. cbn [tm_instant]. apply Z.divide_sub_r; [|apply nanos_micros].
  apply Z.divide_add_r; [|done]. exists (k * (day_seconds * 1000000)). unfold day_nanos, nanos. lia.
Qed.

Lemma clock_micros t : (1000 | tm_instant t) -> (1000 | clock_of t).
Proof.
  intros Ht. unfold clock_of. rewrite Z.mod_eq by done. apply Z.divide_sub_r.
  - unfold wall. apply Z.divide_add_r; [done|apply nanos_micros].
  - apply Z.divide_mul_l. by exists (day_seconds * 1000000).
Qed.

Lemma hours_from_bounds fuel start finish h : h ∈ hours_from fuel start finish -> start <= fst h < finish.
Proof.
  revert start. induction fuel as [|fuel IH]; intros start Hh; cbn [hours_from] in Hh; [by apply not_elem_of_nil in Hh|].
  destruct (Z.ltb_spec start finish); [|by apply not_elem_of_nil in Hh].
  apply elem_of_cons in Hh as [->|Hh]; [done|]. apply IH in Hh. unfold hours, nanos in *. lia.
Qed.

Lemma whole_micros day : whole_day day ->
  pg_time (tm_instant day) = tm_instant day /\ pg_time (tm_instant (AddDays day 1)) = tm_instant (AddDays day 1).
Proof.
  intros [E _]. assert (1000 | tm_instant day) as Hd by (rewrite E; apply Date_micros, Z.divide_0_r).
  split; apply pg_time_micros; [done|]. unfold AddDays. rewrite E at 3. cbn [tm_loc Date].
  by apply Date_micros, clock_micros.
Qed.

Lemma window_whole day : whole_day day -> localCalendarDateWindow day tz = (UTC day, UTC (AddDays day 1)).
Proof. intros [E _]. unfold localCalendarDateWindow, calendarDateInLocation. by rewrite <- !E. Qed.

Lemma touches_whole day b : whole_day day ->
  touches day Hourly b <-> tm_instant day <= b < tm_instant (AddDays day 1).
Proof.
  intros Hd. unfold touches. rewrite (window_whole _ Hd). destruct (whole_micros _ Hd) as [-> ->]. cbn. tauto.
Qed.

Lemma days_from_after fuel day stop z :
  (forall y, y ∈ days_from fuel day stop -> whole_day y) -> z ∈ days_from fuel day stop ->
  tm_instant day <= tm_instant z.
Proof.
  revert day. induction fuel as [|fuel IH]; intros day Hw Hz; cbn [days_from] in *; [by apply not_elem_of_nil in Hz|].
  destruct (Before day stop); [|by apply not_elem_of_nil in Hz].
  assert (whole_day day) as [_ Hle] by (apply Hw; left).
  apply elem_of_cons in Hz as [->|Hz]; [done|]. etrans; [exact Hle|]. apply IH; [|done]. intros y Hy. apply Hw. by right.
Qed.
End Touching.

(** ** Bodies that edit the metrics

    While a rebuild runs, the database is the one it started from but for the tables of
    analytics.  A body edits the view of every row by a function. *)

Definition edit := Shelf -> metric_key -> option (Z * Z * Metric) -> option (Z * Z * Metric).

Definition no_edit : edit := fun _ _ x => x.
Definition then_edit (f g : edit) : edit := fun t k x => g t k (f t k x).

(** Row [k] of [t] says [v], if that is anything. *)
Definition put (t : Shelf) (k : metric_key) (v : option (Z * Z * Metric)) : edit := fun t' k' x =>
  if decide (t' = t /\ k' = k) then match v with Some _ => v | None => x end else x.

(** The rows of a day are gone. *)
Definition wipe (ts : list MetricTable) (org loc : uuid) (day : Z) : edit := fun s k x =>
  match s with
  | Daily t => if decide (t ∈ ts /\ k.1.1.1 = org /\ k.1.1.2 = loc /\ k.2 = day) then None else x
  | Hourly => x
  end.

(** The hours that begin in an interval are gone. *)
Definition wipe_hours (org loc : uuid) (start finish : Z) : edit := fun s k x =>
  match s with
  | Daily _ => x
  | Hourly =>
      if decide (k.1.1.1 = org /\ k.1.1.2 = loc /\ pg_time start <= k.2 < pg_time finish) then None else x
  end.

Definition edit_all {A} (l : list A) (f : A -> edit) : edit := fun t k x => foldl (fun x a => f a t k x) x l.

Section Edits.
Context (d0 : Db).

Definition fine (d : Db) : Prop := only_analytics d0 d /\ metrics_keyed d.

Definition Reads {A} (P : A -> Prop) (m : Go A) : Prop :=
  forall e s a s', fine (st_db s) -> m e s = (Ok a, s') -> st_db s' = st_db s /\ P a.

Definition Does {A} (f : edit) (m : Go A) : Prop :=
  forall e s a s', fine (st_db s) -> m e s = (Ok a, s') ->
    fine (st_db s') /\ forall t k, metric_at (st_db s') t k = f t k (metric_at (st_db s) t k).

Lemma does_ret {A} (a : A) : Does no_edit (mret a).
Proof. by intros e s b s' Hs [_ <-]%ret_Ok. Qed.

Lemma does_kept {A} (m : Go A) : BodyKeeps metrics_kept m -> Does no_edit m.
Proof.
  intros Hm e s a s' [Ho Hk] H. pose proof (Hm _ _ _ _ H) as HK. split.
  - split; [etrans; [exact Ho|apply HK]|by eapply kept_keyed].
  - intros t k. by apply kept_at.
Qed.

Lemma reads_then {A B} P (m : Go A) f (k : A -> Go B) :
  Reads P m -> (forall a, P a -> Does f (k a)) -> Does f (m ≫= k).
Proof.
  intros Hm Hk e s b s' Hs (a & s1 & H1 & H)%bind_Ok. destruct (Hm _ _ _ _ Hs H1) as [E Ha].
  rewrite <- E in *. by eapply Hk.
Qed.

Lemma does_then {A B} (m : Go A) f g (k : A -> Go B) :
  Does f m -> (forall a, Does g (k a)) -> Does (then_edit f g) (m ≫= k).
Proof.
  intros Hm Hk e s b s' Hs (a & s1 & H1 & H)%bind_Ok. destruct (Hm _ _ _ _ Hs H1) as [Hs1 E1].
  destruct (Hk a _ _ _ _ Hs1 H) as [Hs' E]. split; [done|]. intros t k0. by rewrite E, E1.
Qed.

Lemma does_map_err {A} f h (m : Go A) : Does f m -> Does f (map_err h m).
Proof. intros Hm e s a s' Hs H%map_err_Ok. by eapply Hm. Qed.
Lemma reads_map_err {A} P h (m : Go A) : Reads P m -> Reads P (map_err h m).
Proof. intros Hm e s a s' Hs H%map_err_Ok. by eapply Hm. Qed.

(** What a call returns can be forgotten. *)
Lemma does_ignore {A} f (m : Go A) : Does f m -> Does f (m ;; mret tt).
Proof. intros Hm e s b s' Hs (a & s1 & H1 & [_ <-]%ret_Ok)%bind_Ok. by eapply Hm. Qed.

Lemma does_for_each {A} (l : list A) (body : A -> Go unit) (f : A -> edit) :
  (forall a, a ∈ l -> Does (f a) (body a)) -> Does (edit_all l f) (for_each l body).
Proof.
  induction l as [|a l IH]; intros Hl; cbn [for_each].
  - intros e s b s' Hs [_ <-]%ret_Ok. done.
  - apply (does_then _ (f a) (edit_all l f)); [apply Hl; left|]. intros _. apply IH. intros b Hb. apply Hl. by right.
Qed.

Lemma does_same {A} f g (m : Go A) : (forall t k x, f t k x = g t k x) -> Does f m -> Does g m.
Proof.
  intros Hfg Hm e s a s' Hs H. destruct (Hm _ _ _ _ Hs H) as [Hs' E]. split; [done|].
  intros t k. by rewrite E, Hfg.
Qed.

(** *** Statements *)

Lemma reads_query {A} (f : Db -> A) P : (forall a, P (f (set_analytics a d0))) -> Reads P (query f).
Proof.
  intros HP e s a s' [[x Hx] _] H. apply exec_Ok in H as (_ & d & [= <- <-] & ->). rewrite Hx. by split.
Qed.

Lemma reads_exec {A} (q : Stmt A) P :
  (forall now u x a d, q now u (set_analytics x d0) = Ok (a, d) -> d = set_analytics x d0 /\ P a) ->
  Reads P (exec q).
Proof.
  intros HP e s a s' [[x Hx] _] H. apply exec_Ok in H as (_ & d & H & ->). rewrite Hx in H.
  apply HP in H as [-> Ha]. by rewrite <- Hx.
Qed.

Lemma does_set_daily {A} (q : Stmt A) (f : edit) :
  (forall now u d a d', metrics_keyed d -> q now u d = Ok (a, d') ->
     exists t m, d' = set_daily t m d /\ (forall k r, m !! k = Some r -> daily_key r = k) /\
       forall s k, f s k (metric_at d s k) = if decide (s = Daily t) then shown <$> m !! k else metric_at d s k) ->
  Does f (exec q).
Proof.
  intros Hq e s a s' [Ho Hk] H. apply exec_Ok in H as (_ & d & H & ->). cbn [st_db with_db tick].
  apply Hq in H as (t & m & -> & Hm & Hf); [|done]. split; [split|].
  - etrans; [exact Ho|apply only_daily].
  - split; [|apply Hk]. intros t' k r. rewrite daily_set. destruct (decide (t' = t)); [apply Hm|apply Hk].
  - intros [t'|] k; rewrite Hf; [|by rewrite decide_False]. cbn [metric_at]. rewrite daily_set.
    destruct (decide (t' = t)) as [->|Hne]; [by rewrite decide_True|]. rewrite decide_False; [done|congruence].
Qed.

Lemma does_set_hourly {A} (q : Stmt A) (f : edit) :
  (forall now u d a d', metrics_keyed d -> q now u d = Ok (a, d') ->
     exists m, d' = set_hourly m d /\ (forall k r, m !! k = Some r -> hourly_key r = k) /\
       forall s k, f s k (metric_at d s k) = if decide (s = Hourly) then hour_shown <$> m !! k else metric_at d s k) ->
  Does f (exec q).
Proof.
  intros Hq e s a s' [Ho Hk] H. apply exec_Ok in H as (_ & d & H & ->). cbn [st_db with_db tick].
  apply Hq in H as (m & -> & Hm & Hf); [|done]. split; [split|].
  - etrans; [exact Ho|apply only_hourly].
  - split; [|apply Hm]. intros t k r Hr. apply (mk_daily _ Hk t). by destruct t.
  - intros [t|] k; rewrite Hf; [|by rewrite decide_True]. rewrite decide_False by done. by destruct t.
Qed.

Lemma does_insert t org loc g day start finish m :
  Does (put (Daily t) (org, loc, g, day) (Some (pg_time start, pg_time finish, m)))
    (InsertDailyMetric t org loc g day start finish m).
Proof.
  apply does_set_daily. intros now u d a d' Hk H. apply insert_row_Ok in H as (-> & Hf & _ & ->).
  eexists _, _. split; [reflexivity|]. split.
  - intros k r [[<- <-]|[_ Hr]]%lookup_insert_Some; [done|by eapply mk_daily].
  - intros s k. unfold put, daily_key. cbn. destruct (decide (s = Daily t)) as [->|Ht].
    2:{ by rewrite decide_False by naive_solver. }
    destruct (decide (k = (org, loc, g, day))) as [->|Hne].
    + rewrite decide_True by done. symmetry. by rewrite lookup_insert_eq.
    + rewrite decide_False by naive_solver. by rewrite lookup_insert_ne.
Qed.

Lemma does_insert_hour org loc g start finish m :
  Does (put Hourly (org, loc, g, pg_time start) (Some (pg_time start, pg_time finish, m)))
    (InsertHourlyMetric org loc g start finish m).
Proof.
  apply does_set_hourly. intros now u d a d' Hk H. apply insert_row_Ok in H as (-> & Hf & _ & ->).
  eexists. split; [reflexivity|]. split.
  - intros k r [[<- <-]|[_ Hr]]%lookup_insert_Some; [done|by eapply mk_hourly].
  - intros s k. unfold put, hourly_key. cbn. destruct (decide (s = Hourly)) as [->|Ht].
    2:{ by rewrite decide_False by naive_solver. }
    destruct (decide (k = (org, loc, g, pg_time start))) as [->|Hne].
    + rewrite decide_True by done. symmetry. by rewrite lookup_insert_eq.
    + rewrite decide_False by naive_solver. by rewrite lookup_insert_ne.
Qed.

(** What is left of a table from which the rows of [f] were deleted. *)
Lemma without_lookup {A} (f : A -> bool) (m : gmap metric_key A) k :
  without f m !! k = match m !! k with Some r => if f r then None else Some r | None => None end.
Proof.
  unfold without. destruct (m !! k) as [r|] eqn:Hr.
  - destruct (f r) eqn:Hf; [apply map_lookup_filter_None|by apply map_lookup_filter_Some].
    right. intros x Hx. rewrite Hr in Hx. injection Hx as <-. cbn. by rewrite Hf.
  - apply map_lookup_filter_None. by left.
Qed.

Lemma does_delete t org loc day : Does (wipe [t] org loc day) (DeleteDailyMetrics t org loc day).
Proof.
  apply does_set_daily. intros now u d a d' Hk [= _ <-]. eexists _, _. split; [reflexivity|]. split.
  - intros k r [Hr _]%map_lookup_filter_Some. by eapply mk_daily.
  - intros [t'|] k; unfold wipe; [|by rewrite decide_False]. cbn [metric_at].
    destruct (decide (t' = t)) as [->|Ht].
    2:{ rewrite !decide_False; [done|congruence|]. by intros [H%list_elem_of_singleton _]. }
    rewrite (decide_True (P := Daily t = Daily t)) by done. rewrite without_lookup.
    destruct (db_daily t d !! k) as [r|] eqn:Hr; [|by case_decide].
    pose proof (mk_daily _ Hk _ _ _ Hr) as <-. unfold of_day. case_decide as H.
    + destruct H as (_ & Ho & Hl & Hd). cbn in Ho, Hl, Hd. by rewrite Ho, Hl, Hd, !N.eqb_refl, Z.eqb_refl.
    + destruct (_ && _) eqn:Hof; [|done]. exfalso. apply H.
      apply andb_prop in Hof as [[Ho%N.eqb_eq Hl%N.eqb_eq]%andb_prop Hd%Z.eqb_eq].
      split_and!; [by apply list_elem_of_singleton|done..].
Qed.

Lemma does_delete_hours org loc start finish :
  Does (wipe_hours org loc start finish) (DeleteHourlyMetrics org loc start finish).
Proof.
  apply does_set_hourly. intros now u d a d' Hk [= _ <-]. eexists. split; [reflexivity|]. split.
  - intros k r [Hr _]%map_lookup_filter_Some. by eapply mk_hourly.
  - intros [t|] k; unfold wipe_hours; [by rewrite decide_False|]. cbn [metric_at].
    rewrite (decide_True (P := Hourly = Hourly)) by done. rewrite without_lookup.
    destruct (db_hourly d !! k) as [r|] eqn:Hr; [|by case_decide].
    pose proof (mk_hourly _ Hk _ _ Hr) as <-. unfold of_hours. case_decide as H.
    + destruct H as (Ho & Hl & [Hs Hf]). cbn in Ho, Hl, Hs, Hf. rewrite Ho, Hl, !N.eqb_refl.
      by rewrite (proj2 (Z.leb_le _ _)), (proj2 (Z.ltb_lt _ _)).
    + destruct (_ && _) eqn:Hof; [|done]. exfalso. apply H.
      apply andb_prop in Hof as [[[Ho%N.eqb_eq Hl%N.eqb_eq]%andb_prop Hs%Z.leb_le]%andb_prop Hf%Z.ltb_lt]. done.
Qed.
End Edits.

(** ** The projector *)

Section Projector.
Context {GT : GoText} {RD : ReportData}.
Context (org loc : uuid) (d0 : Db).

Lemma reads_window scope start finish :
  Reads d0 (fun m => (pg_time start, pg_time finish, m) = measured org loc d0 scope start finish)
    (calculateWindowMetric org loc scope start finish finish).
Proof.
  intros e s m s' Hs (m0 & s1 & H1%map_err_Ok & [<- <-]%ret_Ok)%bind_Ok.
  revert e s m0 s1 Hs H1. apply (reads_exec d0). intros now u x m d H. unfold as_int4 in H.
  case_match; [|done]. by injection H as <- <-.
Qed.

Lemma does_measured t g msg day scope start finish :
  Does d0 (put (Daily t) (org, loc, g, day) (Some (measured org loc d0 scope start finish)))
    (metric ← calculateWindowMetric org loc scope start finish finish;
     insert_daily msg t org loc g day start finish metric).
Proof.
  eapply reads_then; [apply reads_window|]. intros m <-. apply does_ignore, does_map_err, does_insert.
Qed.

Lemma does_measured_hour g start finish :
  Does d0 (put Hourly (org, loc, g, pg_time start) (Some (measured org loc d0 (ScopeTable g) start finish)))
    (metric ← calculateWindowMetric org loc (ScopeTable g) start finish finish;
     map_err (Wrap "inserting table analytics metric") (InsertHourlyMetric org loc g start finish metric) ;; mret tt).
Proof.
  eapply reads_then; [apply reads_window|]. intros m <-. apply does_ignore, does_map_err, does_insert_hour.
Qed.

(** *** Groups *)

Lemma values_elem {K A} `{Countable K} (m : gmap K A) x : x ∈ values m <-> exists k, m !! k = Some x.
Proof.
  unfold values. rewrite list_elem_of_fmap. split.
  - intros ([k y] & -> & Hk%elem_of_map_to_list). eauto.
  - intros [k Hk]. exists (k, x). split; [done|]. by apply elem_of_map_to_list.
Qed.

Lemma live_group f g ts :
  existsb (fun x => live_at org loc x && (f x =? g)%N) ts = true <-> g ∈ map f (List.filter (live_at org loc) ts).
Proof.
  rewrite List.existsb_exists, list_elem_of_In, in_map_iff. split.
  - intros (x & Hx & [Hl He%N.eqb_eq]%andb_prop). exists x. split; [done|]. by apply List.filter_In.
  - intros (x & <- & [Hx Hl]%List.filter_In). exists x. by rewrite Hl, N.eqb_refl.
Qed.

Lemma reads_groups f : Reads d0 (fun ids => forall g, g ∈ ids <->
    existsb (fun x => live_at org loc x && (f x =? g)%N) (values (db_tables d0)) = true)
  (live_groups f org loc).
Proof.
  apply (reads_query d0). intros a g. cbn [db_tables set_analytics].
  by rewrite live_group, sort_by_elem, elem_of_remove_dups.
Qed.

Lemma reads_tables : Reads d0 (fun ts => forall g, g ∈ map tbl_ID ts <-> has_group org loc d0 TableMetrics g = true)
  (live_tables org loc).
Proof.
  apply (reads_exec d0). intros now u x ts d [= <- <-]. split; [done|]. intros g. cbn [has_group].
  rewrite live_group, !list_elem_of_In, !in_map_iff. split; intros (t & <- & Ht); exists t; (split; [done|]).
  - apply list_elem_of_In, rows_elem in Ht as [(k & Hk) Hl]. apply List.filter_In. split; [|done].
    apply list_elem_of_In, values_elem. by exists k.
  - apply List.filter_In in Ht as [(k & Hk)%list_elem_of_In%values_elem Hl].
    apply list_elem_of_In, rows_elem. split; [by exists k|done].
Qed.

Lemma reads_periods : (forall k p, db_periods d0 !! k = Some p -> svp_ID p = k) ->
  Reads d0 (fun ps => forall p, p ∈ ps <-> db_periods d0 !! svp_ID p = Some p /\ period_at org loc p && svp_IsActive p = true)
    (ListActiveServicePeriodsByLocation org loc).
Proof.
  intros Hk. apply (reads_exec d0). intros now u x ps d [= <- <-]. split; [done|]. intros p.
  rewrite rows_elem. split; intros [Hp Hl]; (split; [|done]); [|by exists (svp_ID p)].
  destruct Hp as [k Hp]. by rewrite (Hk _ _ Hp).
Qed.

Lemma reads_location : Reads d0 (fun l => db_locations d0 !! loc = Some l) (GetLocation loc org).
Proof.
  apply (reads_exec d0). intros now u x l d H. apply select_one_Ok in H as (H & _ & ->). by split.
Qed.

Lemma reads_zone msg l : Reads d0 (fun tz => tz = loc_Timezone l) (load_location msg l).
Proof. by intros e s tz s' _ (u & s1 & (_ & -> & _)%guard_err_Ok & [<- <-]%ret_Ok)%bind_Ok. Qed.

(** Several rows of one table and day. *)
Lemma edit_all_put {A} (l : list A) (id : A -> uuid) t day val t' k x :
  edit_all l (fun a => put t (org, loc, id a, day) (val (id a))) t' k x =
  if decide (t' = t /\ k.1.1.1 = org /\ k.1.1.2 = loc /\ k.2 = day /\ k.1.2 ∈ map id l)
  then match val k.1.2 with Some v => Some v | None => x end else x.
Proof.
  unfold edit_all. revert x. induction l as [|a l IH]; intros x; cbn [foldl map].
  { rewrite decide_False; [done|]. intros (_ & _ & _ & _ & H). by apply not_elem_of_nil in H. }
  rewrite IH. clear IH. destruct k as [[[o c] g] k]. cbn [fst snd]. unfold put.
  destruct (decide (t' = t /\ o = org /\ c = loc /\ k = day)) as [(-> & -> & -> & ->)|Hn].
  2:{ by rewrite !decide_False by naive_solver. }
  destruct (decide (g = id a)) as [->|Hg].
  - repeat case_decide; destruct (val (id a)); try done; exfalso; set_solver.
  - repeat case_decide; try done; exfalso; set_solver.
Qed.

Definition groups_of (s : Shelf) : MetricTable := match s with Daily t => t | Hourly => TableMetrics end.

(** The groups of one table get their metrics of a day, or of an hour. *)
Definition stage (t : Shelf) (date : Z) (val : uuid -> option (Z * Z * Metric)) : edit := fun t' k x =>
  if decide (t' = t /\ k.1.1.1 = org /\ k.1.1.2 = loc /\ k.2 = date /\ has_group org loc d0 (groups_of t) k.1.2 = true)
  then match val k.1.2 with Some v => Some v | None => x end else x.

Lemma stage_put {A} (l : list A) (id : A -> uuid) t day val :
  (forall g, g ∈ map id l <-> has_group org loc d0 (groups_of t) g = true) ->
  forall t' k x, edit_all l (fun a => put t (org, loc, id a, day) (val (id a))) t' k x = stage t day val t' k x.
Proof.
  intros Hl t' k x. rewrite edit_all_put. unfold stage. apply decide_ext. by rewrite Hl.
Qed.

Definition day_metric (scope : uuid -> Scope) (start finish : Z) (g : uuid) : option (Z * Z * Metric) :=
  Some (measured org loc d0 (scope g) start finish).

Lemma does_projectLocation date start finish :
  Does d0 (stage (Daily LocationMetrics) date (day_metric (fun _ => ScopeLocation) start finish))
    (projectLocation org loc date start finish).
Proof.
  eapply does_same; [|apply does_measured]. intros t [[[o c] g] k] x.
  rewrite <- (stage_put [loc] id); [done|]. intros h. cbn [map has_group groups_of]. by rewrite list_elem_of_singleton, N.eqb_eq.
Qed.

Lemma does_projectGrouped t f scope date start finish :
  (forall g, has_group org loc d0 t g = existsb (fun x => live_at org loc x && (f x =? g)%N) (values (db_tables d0))) ->
  Does d0 (stage (Daily t) date (day_metric scope start finish)) (projectGrouped t f scope org loc date start finish).
Proof.
  intros Hg. eapply reads_then; [apply reads_map_err, reads_groups|]. intros ids Hids.
  eapply does_same; [|apply does_for_each; intros g _; apply does_measured].
  intros t' k x. apply (stage_put ids id _ _ (day_metric scope start finish)). intros g. cbn [groups_of]. rewrite List.map_id, Hg. apply Hids.
Qed.

Lemma does_projectTables date start finish :
  Does d0 (stage (Daily TableMetrics) date (day_metric ScopeTable start finish))
    (projectTables org loc date start finish "day").
Proof.
  eapply reads_then; [apply reads_map_err, reads_tables|]. intros ts Hts.
  eapply does_same; [|apply does_for_each; intros g _; apply does_measured].
  intros t' k x. apply (stage_put (map tbl_ID ts) id _ _ (day_metric ScopeTable start finish)).
  intros g. rewrite List.map_id. apply Hts.
Qed.

Lemma does_projectHour date start finish :
  Does d0 (stage Hourly (pg_time start) (day_metric ScopeTable start finish))
    (projectTables org loc date start finish "hour").
Proof.
  eapply reads_then; [apply reads_map_err, reads_tables|]. intros ts Hts.
  eapply does_same; [|apply does_for_each; intros g _; apply does_measured_hour].
  intros t' k x. apply (stage_put (map tbl_ID ts) id _ _ (day_metric ScopeTable start finish)).
  intros g. rewrite List.map_id. apply Hts.
Qed.

(** Each hour gets the metrics of its tables. *)
Definition stage_hours (hours : list (Z * Z)) : edit :=
  edit_all hours (fun h => stage Hourly (pg_time (fst h)) (day_metric ScopeTable (fst h) (snd h))).

Lemma does_hours date hours :
  Does d0 (stage_hours hours) (for_each hours (fun hour => projectTables org loc date (fst hour) (snd hour) "hour")).
Proof. apply does_for_each. intros h _. apply does_projectHour. Qed.

Context (l : Location) (Hl : db_locations d0 !! loc = Some l).
Context (Hperiods : forall k p, db_periods d0 !! k = Some p -> svp_ID p = k).

Definition period_metric (day : GoTime) (g : uuid) : option (Z * Z * Metric) :=
  w ← group_window d0 PeriodMetrics (loc_Timezone l) g day; Some (measured org loc d0 ScopeLocation (fst w) (snd w)).

Lemma does_projectPeriod day p :
  db_periods d0 !! svp_ID p = Some p ->
  Does d0 (put (Daily PeriodMetrics) (org, loc, svp_ID p, day_of day) (period_metric day (svp_ID p)))
    (projectPeriod org loc day (loc_Timezone l) p).
Proof.
  intros Hp e s u s' Hs (found & s1 & H1 & H)%bind_Ok. apply pair_eq in H1 as [H1 <-].
  unfold period_metric, group_window. rewrite Hp. cbn [mbind option_bind]. rewrite H1. destruct found as [w|].
  - revert e s u s' Hs H. apply does_measured.
  - cbn [option_bind]. revert e s u s' Hs H. eapply does_same; [|apply does_ret].
    intros t k x. unfold put, no_edit. by case_decide.
Qed.

Lemma does_periods day :
  Does d0 (stage (Daily PeriodMetrics) (day_of day) (period_metric day))
    (periods ← map_err (Wrap "listing projection service periods") (ListActiveServicePeriodsByLocation org loc);
     location ← map_err (Wrap "getting service period location") (GetLocation loc org);
     tz ← load_location "loading service period timezone" location;
     for_each periods (projectPeriod org loc day tz)).
Proof.
  eapply reads_then; [apply reads_map_err, (reads_periods Hperiods)|]. intros ps Hps.
  eapply reads_then; [apply reads_map_err, reads_location|]. intros l' Hl'.
  rewrite Hl in Hl'. injection Hl' as <-. eapply reads_then; [apply reads_zone|]. intros tz ->.
  eapply does_same; [|apply does_for_each; intros p Hp; apply does_projectPeriod; by apply Hps].
  apply stage_put. intros g. cbn [has_group groups_of]. rewrite list_elem_of_In, in_map_iff. split.
  - intros (p & <- & [-> Hp]%list_elem_of_In%Hps). done.
  - destruct (db_periods d0 !! g) as [p|] eqn:Hp; [|done]. intros Hw. exists p. pose proof (Hperiods _ _ Hp) as <-.
    split; [done|]. by apply list_elem_of_In, Hps.
Qed.

Lemma does_clear day :
  Does d0 (then_edit (wipe_hours org loc (tm_instant day) (tm_instant (AddDays day 1)))
      (wipe [TableMetrics; ZoneMetrics; FloorMetrics; LocationMetrics; PeriodMetrics] org loc (day_of day)))
    (clearProjectionDay org loc day).
Proof.
  apply does_then; [apply does_map_err, does_delete_hours|]. intros _.
  apply (does_same _ (edit_all [TableMetrics; ZoneMetrics; FloorMetrics; LocationMetrics; PeriodMetrics]
    (fun t => wipe [t] org loc (day_of day)))).
  - intros [t|] k x; [|done]. unfold edit_all, wipe. cbn [foldl]. repeat case_decide; try done; exfalso; set_solver.
  - apply does_for_each. intros t _. apply does_map_err, does_delete.
Qed.

(** A day of the location, whole: its rows are the projected ones, and its hours too. *)
Definition day_edit (day : GoTime) : edit := fun s k x =>
  match s with
  | Daily t =>
      if decide (k.1.1.1 = org /\ k.1.1.2 = loc /\ k.2 = day_of day)
      then projected org loc d0 (loc_Timezone l) day t k.1.2 else x
  | Hourly =>
      if decide (k.1.1.1 = org /\ k.1.1.2 = loc)
      then match projected_hour org loc d0 (loc_Timezone l) day k.1.2 k.2 with
           | Some v => Some v
           | None =>
               if decide (pg_time (tm_instant day) <= k.2 < pg_time (tm_instant (AddDays day 1))) then None else x
           end
      else x
  end.

Lemma stage_at t date val t' g x :
  stage t date val t' (org, loc, g, date) x =
  if decide (t' = t)
  then if has_group org loc d0 (groups_of t) g then match val g with Some v => Some v | None => x end else x
  else x.
Proof.
  unfold stage. cbn [fst snd]. destruct (decide (t' = t)) as [->|Hn]; [|by rewrite decide_False by naive_solver].
  destruct (has_group org loc d0 _ g); [by rewrite decide_True|by rewrite decide_False by naive_solver].
Qed.

Lemma stage_off t date val t' o c g k x :
  ~ (t' = t /\ o = org /\ c = loc /\ k = date) -> stage t date val t' (o, c, g, k) x = x.
Proof. intros Hn. unfold stage. by rewrite decide_False by naive_solver. Qed.

Lemma stage_hours_off hours s k x :
  ~ (s = Hourly /\ k.1.1.1 = org /\ k.1.1.2 = loc) -> stage_hours hours s k x = x.
Proof.
  intros Hn. destruct k as [[[o c] g] k]. cbn [fst snd] in Hn. unfold stage_hours, edit_all. revert x.
  induction hours as [|h hours IH]; intros x; cbn [foldl]; [done|]. rewrite stage_off by naive_solver. apply IH.
Qed.

(** The hours of a day begin at different instants. *)
Lemma pg_time_hour t : pg_time (t + hours 1) = pg_time t + hours 1.
Proof.
  unfold pg_time, hours, nanos. replace (t + 1 * 3600 * 1000000000) with (t + 3600000000 * 1000) by lia.
  rewrite Z.div_add by done. lia.
Qed.

Lemma no_hour_before fuel start finish b : b < pg_time start ->
  List.find (fun h => pg_time (fst h) =? b) (hours_from fuel start finish) = None.
Proof.
  revert start. induction fuel as [|fuel IH]; intros start Hb; cbn [hours_from]; [done|].
  destruct (start <? finish); [|done]. cbn [List.find fst]. destruct (Z.eqb_spec (pg_time start) b); [lia|].
  apply IH. rewrite pg_time_hour. unfold hours, nanos. lia.
Qed.

Lemma stage_hours_at fuel start finish g b x :
  stage_hours (hours_from fuel start finish) Hourly (org, loc, g, b) x =
  match (if has_group org loc d0 TableMetrics g
         then h ← List.find (fun h => pg_time (fst h) =? b) (hours_from fuel start finish);
              Some (measured org loc d0 (ScopeTable g) (fst h) (snd h))
         else None) with Some v => Some v | None => x end.
Proof.
  revert start x. induction fuel as [|fuel IH]; intros start x; cbn [hours_from]; [by destruct (has_group _ _ _ _ _)|].
  destruct (start <? finish); [|by destruct (has_group _ _ _ _ _)].
  unfold stage_hours, edit_all. cbn [foldl fst snd List.find].
  change (foldl _ ?y _) with (stage_hours (hours_from fuel (start + hours 1) finish) Hourly (org, loc, g, b) y).
  rewrite IH. destruct (Z.eqb_spec (pg_time start) b) as [<-|Hne].
  - rewrite stage_at, decide_True by done. cbn [groups_of].
    destruct (has_group _ _ _ _ g); [|done]. rewrite no_hour_before; [done|].
    rewrite pg_time_hour. unfold hours, nanos. lia.
  - by rewrite stage_off by naive_solver.
Qed.

Lemma does_rebuildDay day : Does d0 (day_edit day) (rebuildDay org loc (loc_Timezone l) day).
Proof.
  unfold rebuildDay.
  destruct (localCalendarDateWindow day (loc_Timezone l)) as [dayStart dayEnd] eqn:Hw.
  eapply does_same; [|eapply does_then; [apply does_clear|intros _; unfold projectDay; cbv zeta;
    eapply does_then; [apply does_projectLocation|intros _];
    eapply does_then; [apply (does_projectGrouped FloorMetrics); done|intros _];
    eapply does_then; [apply (does_projectGrouped ZoneMetrics); done|intros _];
    eapply does_then; [apply does_projectTables|intros _];
    eapply does_then; [apply does_hours|intros _; apply does_periods]]].
  intros [t|] [[[o c] g] k] x; unfold then_edit.
  - unfold wipe_hours. rewrite stage_hours_off by naive_solver. unfold day_edit, wipe. cbn [fst snd].
    destruct (decide (o = org /\ c = loc /\ k = day_of day)) as [(-> & -> & ->)|Hne].
    + rewrite !stage_at. rewrite (decide_True (P := _ /\ _)) by (split_and!; [destruct t; set_solver|done..]).
      unfold projected, group_window, day_metric, period_metric. rewrite Hw. cbn [fst snd].
      destruct t; cbn [group_scope groups_of];
        repeat (rewrite decide_False by discriminate || rewrite decide_True by reflexivity);
        (destruct (has_group org loc d0 _ g); [|done]); [done..|].
      set (o := _ ≫= _). by destruct o.
    + rewrite !stage_off by naive_solver. by rewrite decide_False by naive_solver.
  - unfold wipe, wipe_hours. rewrite !(stage_off (Daily _)) by naive_solver. unfold day_edit. cbn [fst snd].
    destruct (decide (o = org /\ c = loc)) as [(-> & ->)|Hne].
    + unfold day_hours. rewrite stage_hours_at. unfold projected_hour, day_hours. cbv zeta. rewrite Hw. cbn [fst snd].
      set (v := if has_group _ _ _ _ _ then _ else _). destruct v; [done|]. apply decide_ext. naive_solver.
    + rewrite stage_hours_off by naive_solver. by rewrite decide_False by naive_solver.
Qed.

(** *** Days and ranges *)

Lemma wrap32_succ m : wrap32 (wrap32 m + 1) = wrap32 (m + 1).
Proof.
  unfold wrap32. f_equal. replace ((m + 2147483648) mod 4294967296 - 2147483648 + 1 + 2147483648)
    with ((m + 2147483648) mod 4294967296 + 1) by lia.
  rewrite Zplus_mod_idemp_l. f_equal. lia.
Qed.

Lemma loop_does days m : forall e s n s', fine d0 (st_db s) ->
  rebuild_loop org loc (loc_Timezone l) days (wrap32 m) e s = (Ok (n, None), s') ->
  fine d0 (st_db s') /\ n = wrap32 (m + Z.of_nat (length days)) /\
  forall t k, metric_at (st_db s') t k = edit_all days day_edit t k (metric_at (st_db s) t k).
Proof.
  revert m. induction days as [|day days IH]; intros m e s n s' Hs H; cbn [rebuild_loop] in H.
  - apply ret_Ok in H as [[= <-] <-]. split_and!; [done| |done]. f_equal. cbn. lia.
  - apply bind_Ok in H as (r & s1 & H1%attempt_Ok & H). destruct r as [u|err]; [|by apply ret_Ok in H as [[=] _]].
    destruct (does_rebuildDay day _ _ _ _ Hs H1) as [Hs1 E]. rewrite wrap32_succ in H.
    apply IH in H as (Hs' & -> & E'); [|done]. split_and!; [done|f_equal; cbn [length]; lia|].
    intros t k. by rewrite E', E.
Qed.

(** The projection of a day depends on its date. *)
Lemma projected_date tz day day' t g : tm_loc day = tz -> tm_loc day' = tz -> day_of day = day_of day' ->
  projected org loc d0 tz day t g = projected org loc d0 tz day' t g.
Proof.
  intros H1 H2 Hd. unfold projected. do 2 f_equal. unfold group_window, localCalendarDateWindow, calendarDateInLocation.
  rewrite Hd. destruct t; try done. unfold ServicePeriodWindowForDate.
  assert (forall x, tm_loc x = tz -> day_of (In_ x tz) = day_of x) as HI by (by intros [] <-). by rewrite !HI, Hd.
Qed.

Lemma edit_days_hit days day t g x :
  (forall y, y ∈ days -> tm_loc y = loc_Timezone l) -> day ∈ days ->
  edit_all days day_edit (Daily t) (org, loc, g, day_of day) x = projected org loc d0 (loc_Timezone l) day t g.
Proof.
  intros Hz Hd. pose proof (Hz _ Hd) as Hzd. unfold edit_all.
  assert (forall ys x, (forall y, y ∈ ys -> tm_loc y = loc_Timezone l) ->
    foldl (fun x y => day_edit y (Daily t) (org, loc, g, day_of day) x) x ys = x \/
    foldl (fun x y => day_edit y (Daily t) (org, loc, g, day_of day) x) x ys = projected org loc d0 (loc_Timezone l) day t g) as Hstep.
  { induction ys as [|y ys IH]; intros x0 Hys; [by left|]. cbn [foldl].
    destruct (IH (day_edit y (Daily t) (org, loc, g, day_of day) x0)) as [->| ->]; [by intros; apply Hys; right| |by right].
    unfold day_edit. cbn [fst snd]. case_decide as Hc; [|by left]. right. apply projected_date; [apply Hys; left|done|].
    symmetry. apply Hc. }
  apply list_elem_of_split in Hd as (xs & ys & ->). rewrite foldl_app. cbn [foldl].
  assert (forall y, day_edit day (Daily t) (org, loc, g, day_of day) y = projected org loc d0 (loc_Timezone l) day t g) as ->.
  { intros y. unfold day_edit. by rewrite decide_True. }
  destruct (Hstep ys (projected org loc d0 (loc_Timezone l) day t g)); [intros; apply Hz; set_solver|done..].
Qed.

Lemma hour_in_window day g b v :
  projected_hour org loc d0 (loc_Timezone l) day g b = Some v ->
  let w := localCalendarDateWindow day (loc_Timezone l) in tm_instant (fst w) <= b < tm_instant (snd w).
Proof.
  unfold projected_hour. destruct (has_group _ _ _ _ g); [|done]. cbv zeta. destruct (List.find _ _) as [h|] eqn:Hf; [|done].
  intros _. apply List.find_some in Hf as [Hin <-%Z.eqb_eq]. apply list_elem_of_In, hours_from_bounds in Hin as [Hs Hf].
  split; [apply pg_time_le; [exact (Date_micros (loc_Timezone l) _ 0 (Z.divide_0_r _))|exact Hs]|].
  pose proof (pg_time_below (fst h)). lia.
Qed.

Lemma day_edit_miss day s k x :
  ~ (k.1.1.1 = org /\ k.1.1.2 = loc /\ touches (loc_Timezone l) day s k.2) -> day_edit day s k x = x.
Proof.
  intros Hn. unfold day_edit. destruct s as [t|].
  - by rewrite decide_False by naive_solver.
  - case_decide as Hd; [|done]. destruct Hd as [Ho Hl'].
    destruct (projected_hour _ _ _ _ _ _ _) as [v|] eqn:Hp.
    + apply hour_in_window in Hp. exfalso. apply Hn. split_and!; [done..|]. by right.
    + rewrite decide_False; [done|]. intros Hb. apply Hn. split_and!; [done..|]. by left.
Qed.

Lemma edit_days_miss days s k x :
  ~ (k.1.1.1 = org /\ k.1.1.2 = loc /\ exists day, day ∈ days /\ touches (loc_Timezone l) day s k.2) ->
  edit_all days day_edit s k x = x.
Proof.
  revert x. induction days as [|day days IH]; intros x Hn; [done|].
  unfold edit_all. cbn [foldl]. change (foldl _ ?y days) with (edit_all days day_edit s k y).
  rewrite day_edit_miss, IH; [done|..].
  - intros (? & ? & y & Hy & ?). apply Hn. split_and!; [done..|]. exists y. split; [by right|done].
  - intros (? & ? & ?). apply Hn. split_and!; [done..|]. exists day. split; [left|done].
Qed.

(** Days that begin at their midnights do not share an hour. *)
Lemma edit_days_hours fuel day stop y g b x :
  (forall z, z ∈ days_from fuel day stop -> whole_day (loc_Timezone l) z) ->
  y ∈ days_from fuel day stop -> tm_instant y <= b < tm_instant (AddDays y 1) ->
  edit_all (days_from fuel day stop) day_edit Hourly (org, loc, g, b) x
  = projected_hour org loc d0 (loc_Timezone l) y g b.
Proof.
  revert day x. induction fuel as [|fuel IH]; intros day x Hwhole Hy Hb; cbn [days_from] in *; [by apply not_elem_of_nil in Hy|].
  destruct (Before day stop); [|by apply not_elem_of_nil in Hy].
  unfold edit_all. cbn [foldl]. change (foldl _ ?v ?ds) with (edit_all ds day_edit Hourly (org, loc, g, b) v).
  apply elem_of_cons in Hy as [->|Hy]; [|apply IH; [|done..]; intros z Hz; apply Hwhole; by right].
  assert (whole_day (loc_Timezone l) day) as Hday by (apply Hwhole; left).
  rewrite edit_days_miss.
  - unfold day_edit. cbn [fst snd]. rewrite decide_True by done.
    destruct (projected_hour _ _ _ _ _ _ _); [done|]. rewrite decide_True; [done|].
    by destruct (whole_micros _ _ Hday) as [-> ->].
  - intros (_ & _ & z & Hz & Ht). assert (whole_day (loc_Timezone l) z) as Hwz by (apply Hwhole; by right).
    apply (touches_whole _ _ _ Hwz) in Ht. cbn [snd] in Ht.
    assert (tm_instant (AddDays day 1) <= tm_instant z); [|lia].
    eapply (days_from_after (loc_Timezone l)); [|exact Hz]. intros v Hv. apply Hwhole. by right.
Qed.

Lemma days_from_zone fuel day stop y : y ∈ days_from fuel day stop -> tm_loc y = tm_loc day.
Proof.
  revert day. induction fuel as [|fuel IH]; intros day Hy; cbn [days_from] in Hy; [by apply not_elem_of_nil in Hy|].
  destruct (Before day stop); [|by apply not_elem_of_nil in Hy].
  apply elem_of_cons in Hy as [->|Hy]; [done|]. by rewrite (IH _ Hy).
Qed.
End Projector.

(** The metrics of these days of a location are the projected ones - those of its
    hours too, where the days begin at their midnights - all others are as they were,
    and so is all that is not of analytics. *)
Record rebuilt {RD : ReportData} (org loc : uuid) (tz : string) (days : list GoTime) (d d' : Db) : Prop := {
  rb_only : only_analytics d d';
  rb_keyed : metrics_keyed d';
  rb_days : forall day t g, day ∈ days ->
    metric_at d' (Daily t) (org, loc, g, day_of day) = projected org loc d tz day t g;
  rb_hours : (forall day, day ∈ days -> whole_day tz day) ->
    forall day g begins, day ∈ days -> tm_instant day <= begins < tm_instant (AddDays day 1) ->
      metric_at d' Hourly (org, loc, g, begins) = projected_hour org loc d tz day g begins;
  rb_other : forall s k,
    ~ (k.1.1.1 = org /\ k.1.1.2 = loc /\ exists day, day ∈ days /\ touches tz day s k.2) ->
    metric_at d' s k = metric_at d s k;
}.

Definition periods_keyed (d : Db) : Prop := forall k p, db_periods d !! k = Some p -> svp_ID p = k.

Section Ranges.
Context {GT : GoText} {RD : ReportData} {ET : ErrorTexts}.

Lemma kept_running : BodyKeeps metrics_kept
  (map_err (Wrap "marking analytics rebuild running") (MarkRebuildRunning ProjectorName ProjectorVersion)).
Proof. solve_body. Qed.
Lemma kept_complete : BodyKeeps metrics_kept
  (map_err (Wrap "marking analytics rebuild complete") (MarkRebuildComplete ProjectorName)).
Proof. solve_body. Qed.

Lemma rebuildRange_Ok org loc from to e s n s' :
  metrics_keyed (st_db s) -> periods_keyed (st_db s) ->
  rebuildRange org loc from to e s = (Ok (n, None), s') ->
  exists l, db_locations (st_db s) !! loc = Some l /\
    rebuilt org loc (loc_Timezone l) (rebuild_days from to (loc_Timezone l)) (st_db s) (st_db s') /\
    n = wrap32 (Z.of_nat (length (rebuild_days from to (loc_Timezone l)))).
Proof.
  intros Hk Hp H. apply bind_Ok in H as ([tz|err] & s1 & H1%attempt_Ok & H); [|by apply ret_Ok in H as [[=] _]].
  assert (forall s2, st_db s2 = st_db s -> fine (st_db s) (st_db s2)) as Hs by (by intros s2 ->).
  apply bind_Ok in H1 as (l & s2 & Hl%map_err_Ok & H1). destruct (reads_location _ _ _ _ _ _ _ (Hs s eq_refl) Hl) as [E2 Hloc].
  apply bind_Ok in H1 as (tz' & s3 & Hz & H1).
  destruct (reads_zone (st_db s) _ _ _ _ _ _ (Hs s2 E2) Hz) as [E3 ->]. rewrite E2 in E3.
  apply bind_Ok in H1 as (u & s4 & Hm & [<- <-]%ret_Ok).
  destruct (does_kept (st_db s) _ kept_running _ _ _ _ (Hs s3 E3) Hm) as [Hs4 E4].
  apply bind_Ok in H as ([m [err|]] & s5 & Hloop & H); [by apply ret_Ok in H as [[=] _]|].
  change 0 with (wrap32 0) in Hloop.
  destruct (loop_does org loc (st_db s) l Hloc Hp _ _ _ _ _ _ Hs4 Hloop) as (Hs5 & -> & E5).
  apply bind_Ok in H as ([u1|err] & s6 & Hc%attempt_Ok & [[= <-] <-]%ret_Ok).
  destruct (does_kept (st_db s) _ kept_complete _ _ _ _ Hs5 Hc) as [Hs6 E6].
  assert (forall t k, metric_at (st_db s6) t k =
    edit_all (rebuild_days from to (loc_Timezone l)) (day_edit org loc (st_db s) l) t k (metric_at (st_db s) t k)) as E.
  { intros t k. rewrite E6. unfold no_edit. rewrite E5, E4. unfold no_edit. by rewrite E3. }
  exists l. split; [done|]. split; [|done]. split; [apply Hs6|apply Hs6| | |].
  - intros day t g Hd. rewrite E. apply edit_days_hit; try done. intros y Hy%days_from_zone. exact Hy.
  - intros Hw day g b Hd Hb. rewrite E. by apply edit_days_hours.
  - intros t k Hn. rewrite E. by apply edit_days_miss.
Qed.

Lemma rebuilt_between org loc tz days d d1 d2 d3 :
  metrics_kept d d1 -> rebuilt org loc tz days d1 d2 -> metrics_kept d2 d3 -> rebuilt org loc tz days d d3.
Proof.
  intros H1 [Ho Hk Hd Hh Hother] H3. split.
  - etrans; [apply H1|]. etrans; [exact Ho|apply H3].
  - by eapply kept_keyed.
  - intros day t g Hin. rewrite (kept_at _ _ _ _ H3), Hd by done. destruct H1 as [[a ->] _ _]. done.
  - intros Hw day g b Hin Hb. rewrite (kept_at _ _ _ _ H3), (Hh Hw day g b Hin Hb). destruct H1 as [[a ->] _ _]. done.
  - intros t k Hn. by rewrite (kept_at _ _ _ _ H3), Hother, (kept_at _ _ _ _ H1).
Qed.

Lemma body_step {A B} R (m : Go A) (k : A -> Go B) e s r s' :
  BodyKeeps R m -> (m ≫= k) e s = (r, s') ->
  is_ok r = false /\ R (st_db s) (st_db s') \/
  exists a s1, m e s = (Ok a, s1) /\ R (st_db s) (st_db s1) /\ k a e s1 = (r, s').
Proof.
  intros Hm H. unfold mbind, Go_bind in H. destruct (m e s) as [[a|err] s1] eqn:H1; pose proof (Hm _ _ _ _ H1).
  - right. eauto.
  - left. by injection H as <- <-.
Qed.

(** The transaction of a rebuild: all of the range, or nothing. *)
Lemma capturing_range org loc from to e s out s' :
  metrics_keyed (st_db s) -> periods_keyed (st_db s) ->
  capturing 0 (rebuildRange org loc from to) e s = (out, s') ->
  exists n o, out = Ok (n, o) /\
  (is_Some o /\ st_db s' = st_db s \/
   exists l, db_locations (st_db s) !! loc = Some l /\
     rebuilt org loc (loc_Timezone l) (rebuild_days from to (loc_Timezone l)) (st_db s) (st_db s') /\
     (o = None -> n = wrap32 (Z.of_nat (length (rebuild_days from to (loc_Timezone l)))))).
Proof.
  intros Hk Hp H.
  destruct (capturing_run 0 (rebuildRange org loc from to) e s (rebuildRange_returns _ _ _ _)) as (n & r & s1 & H1 & H2 & Hn).
  rewrite H2 in H. injection H as <- <-. eexists _, _. split; [reflexivity|].
  assert (InTx (out ← rebuildRange org loc from to; fail_with out)) as Hin.
  { apply in_tx_bind; [solve_intx|]. intros [? [?|]]; apply _. }
  apply (inTenantTx_inv _ _ _ _ _ Hin) in H1 as [(err & -> & E)|(a & (s2 & s3 & Hd & _ & Hrun & Hd') & Hr)];
    [by left; eauto|].
  right. apply bind_Ok in Hrun as ([m [err|]] & s4 & Hrange & Hf); [done|]. injection Hf as <- <-.
  rewrite <- Hd in Hk, Hp |- *. apply rebuildRange_Ok in Hrange as (l & Hl & Hb & ->); [|done..]. rewrite Hd' in Hb.
  exists l. split_and!; [done..|]. intros Ho. destruct Hr as [->|[(err & ->) _]]; [|done]. symmetry. by apply Hn.
Qed.

Lemma finished_says id status days err e s run s' :
  GoTx.inTenantTx (finishRebuildRun id status days err) e s = (Ok run, s') ->
  rbr_Status run = status /\ rbr_DaysProcessed run = days.
Proof.
  intros [(x & [=] & _)|(a & (s2 & s3 & _ & _ & Hrun & _) & Hr)]%inTenantTx_inv; [|solve_intx].
  assert (a = run) as -> by (destruct Hr as [[= ->]|[(x & [=]) _]]; done).
  apply bind_Ok in Hrun as (row & s4 & H%map_err_Ok & [<- _]%ret_Ok).
  apply exec_Ok in H as (_ & d & H & _). apply update_row_Ok in H as (old & _ & _ & [= <-] & _ & _). done.
Qed.

Lemma kept_periods d d' : metrics_kept d d' -> periods_keyed d -> periods_keyed d'.
Proof. by intros [[a ->] _ _]. Qed.

(** How a rebuild ends: the run is finished, and what is returned says how. *)
Lemma finish_step (o : option error) id status days text e s r s' :
  (finished ← attempt (GoTx.inTenantTx (finishRebuildRun id status days text));
   match o, finished with
   | Some err, Err finishErr => fail (Join err finishErr)
   | Some err, Ok _ => fail err
   | None, Err finishErr => fail finishErr
   | None, Ok run => mret run
   end) e s = (r, s') ->
  exists fin s1, GoTx.inTenantTx (finishRebuildRun id status days text) e s = (fin, s1) /\
    metrics_kept (st_db s) (st_db s1) /\
    r = match o, fin with
        | Some err, Err finishErr => Err (Join err finishErr)
        | Some err, Ok _ => Err err
        | None, _ => fin
        end /\ s1 = s'.
Proof.
  intros H. destruct (GoTx.inTenantTx _ e s) as [fin s1] eqn:Hfin. exists fin, s1. split; [done|].
  assert (BodyKeeps metrics_kept (GoTx.inTenantTx (finishRebuildRun id status days text))) as Hb by solve_op.
  split; [by apply (Hb _ _ _ _ Hfin)|]. unfold mbind, Go_bind, attempt in H. rewrite Hfin in H.
  by destruct o, fin; injection H as <- <-.
Qed.

(** C16. A rebuild of a range is exact and all or nothing.  Whatever fails on the way, either
    all metrics stay as they were, and the request returns an error; or each visited day
    of the location has, in every table with a row a day, for the location, for each
    floor, zone and table that is in use and for each service period that takes place on
    that day, precisely the row that the formulas give for its window of the sessions and
    assist requests in the database - no row is missing and none is left over.  The same
    holds of the hourly rows of each table in use, when the visited days begin at their
    midnights ([whole_day]; all do in a [steady] zone, [steady_whole]): one row for each
    hour from a day to the next, and no other in between.  The rows of all other days,
    hours and locations, in every table of metrics, and everything that is not of
    analytics are as they were.  A run that is returned is completed and counts its days.
    That rows stand under the key they carry is part of what every request keeps
    ([system_coherent]). *)
Theorem rebuild_exact arg e d r d'
    (Hkeyed : metrics_keyed d) (Hperiods : periods_keyed d) (Hrun : run (Rebuild arg) e d = (r, d')) :
  let org := aac_OrganisationID (rbp_Actor arg) in
  let loc := aac_LocationID (rbp_Actor arg) in
  (metrics_kept d d' /\ is_ok r = false) \/
  exists l, db_locations d !! loc = Some l /\
    let days := rebuild_days (rbp_From arg) (rbp_To arg) (loc_Timezone l) in
    rebuilt org loc (loc_Timezone l) days d d' /\
    forall x, r = Ok x -> rbr_Status x = "completed" /\ rbr_DaysProcessed x = wrap32 (Z.of_nat (length days)).
Proof.
  cbv zeta. unfold run in Hrun. destruct (Rebuild arg e (start d)) as [r0 s'] eqn:H. injection Hrun as -> <-.
  change d with (st_db (start d)). remember (start d) as s0 eqn:Hs0.
  assert (metrics_keyed (st_db s0) /\ periods_keyed (st_db s0)) as [Hk Hp] by (by rewrite Hs0). clear Hs0 Hkeyed Hperiods.
  unfold Rebuild in H. cbv zeta in H.
  apply (body_step metrics_kept) in H as [[Hr HK]|(u & s1 & _ & K1 & H)]; [by left|..|solve_op].
  apply (body_step metrics_kept) in H as [[Hr HK]|(u1 & s2 & _ & K2 & H)]; [left; split; [by etrans|done]|..|solve_op].
  apply (body_step metrics_kept) in H as [[Hr HK]|(u2 & s3 & _ & K3 & H)]; [left; split; [do 2 (etrans; [done|]); done|done]|..|solve_op].
  apply (body_step metrics_kept) in H as [[Hr HK]|(made & s4 & _ & K4 & H)];
    [left; split; [do 3 (etrans; [done|]); done|done]|..|solve_op].
  assert (metrics_kept (st_db s0) (st_db s4)) as K by (do 3 (etrans; [done|]); done). clear K1 K2 K3 K4.
  destruct (capturing 0 (rebuildRange (aac_OrganisationID (rbp_Actor arg)) (aac_LocationID (rbp_Actor arg))
    (rbp_From arg) (rbp_To arg)) e s4) as [out s5] eqn:Hcap.
  destruct (capturing_range _ _ _ _ _ _ _ _ (kept_keyed _ _ K Hk) (kept_periods _ _ K Hp) Hcap) as (n & o & -> & Hcase).
  rewrite (bind_run _ _ _ _ _ _ Hcap) in H. cbn beta iota in H.
  apply (finish_step o) in H as (fin & s6 & Hfin & K6 & Hr & <-). clear Hcap.
  destruct Hcase as [[[err ->] E5]|(l & Hl & Hb & Hn)].
  - left. rewrite E5 in K6. split; [etrans; [exact K|exact K6]|]. by destruct fin; subst r.
  - right. exists l. split; [by destruct K as [[a Ea] _ _]; rewrite Ea in Hl|]. split; [by eapply rebuilt_between|].
    intros x ->. destruct o as [err|]; [by destruct fin|]. destruct fin as [y|]; [|done]. injection Hr as <-.
    rewrite <- Hn by done. by apply finished_says in Hfin.
Qed.
End Ranges.

(** ** The days of a range *)

Section Calendar.
Context {RD : ReportData}.

(** A zone whose clocks always show midnight, and never move by more than four hours
    from one midnight to the next. *)
Record steady (tz : string) : Prop := {
  st_midnight : forall k, wall (Date k 0 tz) = k * day_nanos;
  st_jump : forall k, Z.abs (zone_offset tz (tm_instant (Date (k + 1) 0 tz) / nanos)
                             - zone_offset tz (tm_instant (Date k 0 tz) / nanos)) <= 4 * 3600;
}.

Section Steady.
Context (tz : string) (Hz : steady tz).

Abbreviation midnight k := (Date k 0 tz) (only parsing).

Lemma midnight_date k : day_of (midnight k) = k /\ clock_of (midnight k) = 0.
Proof. unfold day_of, clock_of. rewrite (st_midnight _ Hz). split; [by apply Z.div_mul|by apply Z_mod_mult]. Qed.

Lemma midnight_next k : AddDays (midnight k) 1 = midnight (k + 1).
Proof. unfold AddDays. by destruct (midnight_date k) as [-> ->]. Qed.

Lemma midnight_step k : tm_instant (midnight k) + hours 20 <= tm_instant (midnight (k + 1)).
Proof.
  pose proof (st_midnight _ Hz k) as H1. pose proof (st_midnight _ Hz (k + 1)) as H2. pose proof (st_jump _ Hz k) as Hj.
  unfold wall in H1, H2. cbn [tm_loc Date] in H1, H2. unfold hours, day_nanos, day_seconds, nanos in *. lia.
Qed.

Lemma midnight_mono k m : k <= m -> tm_instant (midnight k) <= tm_instant (midnight m).
Proof.
  intros Hkm. replace m with (k + Z.of_nat (Z.to_nat (m - k))) by lia. generalize (Z.to_nat (m - k)). clear m Hkm.
  induction n as [|n IH]; [by rewrite Z.add_0_r|]. rewrite Nat2Z.inj_succ, Z.add_succ_r, <- Z.add_1_r.
  pose proof (midnight_step (k + Z.of_nat n)). unfold hours, nanos in *. lia.
Qed.

Lemma midnight_before k m : Before (midnight k) (midnight m) = (k <? m).
Proof.
  unfold Before. apply eq_true_iff_eq. rewrite !Z.ltb_lt. split; intros H.
  - apply Z.lt_nge. intros Hm%midnight_mono. lia.
  - pose proof (midnight_step k). pose proof (midnight_mono (k + 1) m). unfold hours, nanos in *. lia.
Qed.

Lemma days_from_steady fuel k m :
  (tm_instant (midnight m) - tm_instant (midnight k)) / hours 20 < Z.of_nat fuel ->
  days_from fuel (midnight k) (midnight m) = (fun j => midnight j) <$> seqZ k (m - k).
Proof.
  revert k. induction fuel as [|fuel IH]; intros k Hf; cbn [days_from].
  - assert (~ k <= m) as Hn.
    { intros Hkm%midnight_mono. pose proof (Z.div_pos (tm_instant (midnight m) - tm_instant (midnight k)) (hours 20)).
      unfold hours, nanos in *. lia. }
    by rewrite seqZ_nil by lia.
  - rewrite midnight_before. destruct (Z.ltb_spec k m) as [Hlt|Hge]; [|by rewrite seqZ_nil by lia].
    rewrite seqZ_cons, fmap_cons by lia. f_equal. rewrite midnight_next, IH.
    + do 2 f_equal; lia.
    + pose proof (midnight_step k) as Hs.
      assert ((tm_instant (midnight m) - tm_instant (midnight (k + 1))) / hours 20
        <= (tm_instant (midnight m) - tm_instant (midnight k) + (-1) * hours 20) / hours 20) as Hd
        by (apply Z.div_le_mono; unfold hours, nanos in *; lia).
      rewrite Z.div_add in Hd by done. lia.
Qed.

Lemma days_fuel_enough k m fuel : (days_fuel (midnight k) (midnight m) <= fuel)%nat ->
  (tm_instant (midnight m) - tm_instant (midnight k)) / hours 20 < Z.of_nat fuel.
Proof. unfold days_fuel. lia. Qed.

Lemma rebuild_days_steady from to :
  rebuild_days from to tz = (fun j => midnight j) <$> seqZ (day_of from) (day_of to - day_of from).
Proof. by apply days_from_steady, days_fuel_enough. Qed.
End Steady.

Lemma steady_whole tz from to day : steady tz -> day ∈ rebuild_days from to tz -> whole_day tz day.
Proof.
  intros Hz. rewrite rebuild_days_steady by done. intros (k & -> & _)%list_elem_of_fmap. split.
  - by destruct (midnight_date tz Hz k) as [-> _].
  - rewrite (midnight_next tz Hz). apply (midnight_mono tz Hz). lia.
Qed.

(** C18. The loop over the days of a range ends, and visits each date of the range once and
    in order, at its midnight: in a zone whose clocks show every midnight and never move
    by more than four hours within a day, more fuel than [days_fuel] changes nothing, and
    the dates visited are those from the one of [from] up to, and without, the one of [to]. *)
Theorem rebuild_days_cover tz from to (Hz : steady tz) :
  (forall fuel, (days_fuel (calendarDateInLocation from tz) (calendarDateInLocation to tz) <= fuel)%nat ->
     days_from fuel (calendarDateInLocation from tz) (calendarDateInLocation to tz) = rebuild_days from to tz) /\
  map day_of (rebuild_days from to tz) = seqZ (day_of from) (day_of to - day_of from) /\
  forall day, day ∈ rebuild_days from to tz -> tm_loc day = tz /\ clock_of day = 0.
Proof.
  rewrite rebuild_days_steady by done. split_and!.
  - intros fuel Hf. by apply days_from_steady, days_fuel_enough.
  - change (map day_of) with (fmap (M := list) day_of). rewrite <- list_fmap_compose. etrans; [|apply list_fmap_id].
    apply list_fmap_ext. intros i k _. by apply (midnight_date tz Hz k).
  - intros day (k & -> & _)%list_elem_of_fmap. split; [done|]. by apply (midnight_date tz Hz k).
Qed.

(** *** A fixed offset *)

Definition fixed_offset (tz : string) (o : Z) : Prop := forall s, zone_offset tz s = o.

Lemma fixed_instant tz o k c : fixed_offset tz o -> tm_instant (Date k c tz) = k * day_nanos + c - o * nanos.
Proof. intros Ho. unfold Date. rewrite !Ho. cbn. destruct (o =? 0) eqn:E; lia. Qed.

Lemma fixed_steady tz o : fixed_offset tz o -> steady tz.
Proof.
  intros Ho. split; intros k; [|by rewrite !Ho, Z.sub_diag].
  unfold wall. rewrite Ho, (fixed_instant _ o) by done. lia.
Qed.


(** *** The days of an event

    [Projector.Handle] hands the local day of the event, as two instants in UTC, to
    [rebuildRange], which takes their dates: those are the date itself where midnight
    is not before Greenwich's, and the date before it where it is. *)








End Calendar.

(** ** Events *)

Section Events.
Context {GT : GoText} {RD : ReportData}.



End Events.

(** ** Occupancy *)

Section Occupancy.
Context (org loc : uuid) (scope : Scope) (d : Db).

Definition counted (start finish asOf : Z) (s : TableSession) : Z :=
  fst (OverlapDuration (ses_StartedAt s) (ses_EndedAt s) start finish asOf).

Lemma sum_cons {A} (f : A -> Z) a l : sum_of f (a :: l) = f a + sum_of f l.
Proof. done. Qed.

Lemma sum_ext {A} (f g : A -> Z) l : (forall a, f a = g a) -> sum_of f l = sum_of g l.
Proof. intros H. induction l as [|a l IH]; [done|]. by rewrite !sum_cons, H, IH. Qed.

Lemma sum_add {A} (f g : A -> Z) l : sum_of (fun a => f a + g a) l = sum_of f l + sum_of g l.
Proof. induction l as [|a l IH]; [done|]. rewrite !sum_cons, IH. lia. Qed.

Lemma maxTime_max a b : maxTime a b = Z.max a b.
Proof. unfold maxTime. destruct (Z.ltb_spec b a); lia. Qed.
Lemma minTime_min a b : minTime a b = Z.min a b.
Proof. unfold minTime. destruct (Z.ltb_spec a b); lia. Qed.

Ltac by_order :=
  cbv zeta; cbn [default from_option]; unfold id; repeat match goal with
  | |- context [?a <? ?b] => destruct (Z.ltb_spec a b)
  | |- context [?a <=? ?b] => destruct (Z.leb_spec a b)
  end; cbn [andb negb fst]; lia.

Lemma counted_overlap start finish asOf s :
  (if overlaps start finish asOf s then overlap start finish asOf s else 0) = counted start finish asOf s.
Proof.
  unfold overlaps, overlap, counted, OverlapDuration, session_end. cbv zeta. rewrite maxTime_max, minTime_min.
  destruct (ses_EndedAt s); by_order.
Qed.

(** A session that ends before it begins counts for nothing; any other counts by its
    overlap with the window, an open one up to [asOf]. *)
Lemma occupancy_overlaps start finish asOf :
  session_overlap org loc scope start finish asOf d =
  sum_of (counted start finish asOf) (scoped_sessions org loc scope d).
Proof.
  unfold session_overlap. induction (scoped_sessions org loc scope d) as [|s l IH]; [done|].
  rewrite sum_cons, <- counted_overlap, <- IH. cbn [List.filter]. by destruct (overlaps start finish asOf s).
Qed.

(** Two windows that meet count what the window over both of them counts. *)
Lemma counted_split a b c s : a <= b <= c -> counted a c c s = counted a b b s + counted b c c s.
Proof.
  intros H. unfold counted, OverlapDuration. cbv zeta. rewrite !maxTime_max, !minTime_min.
  destruct (ses_EndedAt s); by_order.
Qed.

Lemma overlap_split a b c : a <= b <= c ->
  session_overlap org loc scope a c c d =
  session_overlap org loc scope a b b d + session_overlap org loc scope b c c d.
Proof.
  intros H. rewrite !occupancy_overlaps, <- sum_add. apply sum_ext. intros s. by apply counted_split.
Qed.

Lemma overlap_empty a : session_overlap org loc scope a a a d = 0.
Proof. pose proof (overlap_split a a a). lia. Qed.

Lemma hours_add_from fuel start finish : (finish - start) / hours 1 < Z.of_nat fuel -> start <= finish ->
  sum_of (fun h => session_overlap org loc scope (fst h) (snd h) (snd h) d) (hours_from fuel start finish)
  = session_overlap org loc scope start finish finish d.
Proof.
  revert start. induction fuel as [|fuel IH]; intros start Hf Hle.
  { pose proof (Z.div_pos (finish - start) (hours 1)). unfold hours, nanos in *. lia. }
  cbn [hours_from]. destruct (Z.ltb_spec start finish) as [Hlt|Hge].
  2:{ replace finish with start by lia. by rewrite overlap_empty. }
  rewrite sum_cons. cbn [fst snd]. unfold minTime.
  destruct (Z.ltb_spec (start + hours 1) finish) as [Hin|Hout].
  - rewrite IH; [symmetry; apply overlap_split|..]; try (unfold hours, nanos in *; lia).
    replace (finish - (start + hours 1)) with (finish - start + (-1) * hours 1) by lia.
    rewrite Z.div_add by done. lia.
  - destruct fuel as [|fuel]; cbn [hours_from]; [by rewrite Z.add_0_r|].
    destruct (Z.ltb_spec (start + hours 1) finish); [lia|]. cbn. lia.
Qed.

(** C19. The occupancy of the hours of a day adds up to that of the day: the loop over the
    hours ends at the end of the day, whatever its length, and the durations that sessions
    overlap with its hours, each taken as of the end of its hour, sum to their overlap with
    the day, taken as of its end - for the location, a floor, a zone or a table, with
    sessions that are open, end in another hour or day, or end before they begin.  The
    occupancy of a window is the sum of [OverlapDuration] over its sessions. *)
Theorem hours_add_up start finish (Hle : start <= finish) :
  sum_of (fun h => session_overlap org loc scope (fst h) (snd h) (snd h) d) (day_hours start finish)
    = session_overlap org loc scope start finish finish d /\
  session_overlap org loc scope start finish finish d
    = sum_of (fun s => fst (OverlapDuration (ses_StartedAt s) (ses_EndedAt s) start finish finish))
        (scoped_sessions org loc scope d).
Proof.
  split; [|apply occupancy_overlaps]. apply hours_add_from; [|done]. unfold hours_fuel.
  pose proof (Z.div_pos (finish - start) (hours 1)). unfold hours, nanos in *. lia.
Qed.
End Occupancy.

(** ** A day in Johannesburg

    A guest is seated at second 1 of the epoch, which is two in the morning there, and
    leaves at second 2. *)

Definition joburg : Location :=
  {| loc_ID := 2%N; loc_OrganisationID := 1%N; loc_Slug := "main"; loc_Name := "Main room";
     loc_Timezone := "Africa/Johannesburg"; loc_Status := "active"; loc_LegacyRestaurantID := None;
     loc_CreatedAt := 0; loc_UpdatedAt := 0; loc_OperatingConfig := JObj [];
     loc_FeatureFlags := JObj [] |}.

(** Breakfast, on Thursdays from one to three. *)
Definition breakfast : ServicePeriod :=
  {| svp_ID := 60%N; svp_OrganisationID := 1%N; svp_LocationID := 2%N; svp_Name := "Breakfast";
     svp_DaysOfWeek := [4]; svp_StartTime := 3600000000; svp_EndTime := 10800000000; svp_IsActive := true;
     svp_Version := 1; svp_CreatedAt := 0; svp_UpdatedAt := 0 |}.

Definition day_db : Db :=
  set_identity (db_identity people_db) (set_locations {[2%N := joburg]} (set_periods {[60%N := breakfast]} cleared_db)).

Lemma day_db_keyed : metrics_keyed day_db /\ periods_keyed day_db.
Proof.
  assert (db_analytics day_db = empty_analytics /\ db_periods day_db = {[60%N := breakfast]}) as [Ha Hp]
    by (split; vm_compute; reflexivity).
  split; [split|].
  - intros t k r. unfold db_daily. rewrite Ha. destruct t; cbn; by rewrite lookup_empty.
  - intros k r. unfold db_hourly. rewrite Ha. cbn. by rewrite lookup_empty.
  - intros k p. rewrite Hp. by intros [<- <-]%lookup_singleton_Some.
Qed.


Lemma joburg_fixed : fixed_offset "Africa/Johannesburg" 7200.
Proof. done. Qed.

Definition on_day (day : Z) : GoTime := {| tm_instant := day * day_nanos; tm_loc := "UTC" |}.

Definition rebuild_first_day : Go RebuildRun :=
  Rebuild {| rbp_Actor := {| aac_OrganisationID := 1%N; aac_LocationID := 2%N;
                             aac_ActorRef := userProfileActorRef 10 |};
             rbp_LocationID := 2%N; rbp_From := on_day 0; rbp_To := on_day 1 |}.

Definition first_day : GoTime := Date 0 0 "Africa/Johannesburg".

(** One table, one session of a second; breakfast saw it too. *)
Example projected_first_day :
  map (fun t => option_map (fun v => (met_ActiveTableCount (snd v), met_OccupancySeconds (snd v),
                                      met_CompletedSessionCount (snd v)))
        (projected 1 2 day_db "Africa/Johannesburg" first_day (fst t) (snd t)))
    [(LocationMetrics, 2%N); (TableMetrics, 3%N); (PeriodMetrics, 60%N); (TableMetrics, 4%N)]
  = [Some (1, f_of_Z 1, 1); Some (1, f_of_Z 1, 1); Some (1, f_of_Z 1, 1); None].
Proof. vm_compute. reflexivity. Qed.

(** The hours of that day: the guest of two in the morning is in the third. *)
Example projected_first_hours :
  map (fun hour => option_map (fun v => (met_OccupancySeconds (snd v), met_CompletedSessionCount (snd v)))
        (projected_hour 1 2 day_db "Africa/Johannesburg" first_day 3 (tm_instant first_day + hours hour)))
    [1; 2; 3; 24]
  = [Some (float_zero, 0); Some (f_of_Z 1, 1); Some (float_zero, 0); None].
Proof. vm_compute. reflexivity. Qed.

Lemma rebuild_exact_witness :
  metrics_keyed day_db /\ periods_keyed day_db /\
  exists x d', run rebuild_first_day (calm 700 90000000000000) day_db = (Ok x, d') /\
    rbr_Status x = "completed" /\ rbr_DaysProcessed x = 1 /\
    (forall t g, metric_at d' (Daily t) (1%N, 2%N, g, 0)
       = projected 1 2 day_db "Africa/Johannesburg" first_day t g) /\
    forall g b, tm_instant first_day <= b < tm_instant first_day + hours 24 ->
      metric_at d' Hourly (1%N, 2%N, g, b) = projected_hour 1 2 day_db "Africa/Johannesburg" first_day g b.
Proof.
  destruct day_db_keyed as [Hk Hp]. split; [done|]. split; [done|].
  destruct (run_succeeds rebuild_first_day (calm 700 90000000000000) day_db) as [x Hx]; [by vm_compute|].
  exists x. eexists. split; [exact Hx|].
  destruct (rebuild_exact _ _ _ _ _ Hk Hp Hx) as [[_ [=]]|(l & Hl & Hb & Hn)].
  assert (l = joburg) as -> by (by injection Hl as <-).
  specialize (Hn x eq_refl) as [Hs Hd].
  assert (first_day ∈ rebuild_days (on_day 0) (on_day 1) "Africa/Johannesburg") as Hin by (vm_compute; left).
  split_and!; [exact Hs|rewrite Hd; by vm_compute| |].
  - intros t g. exact (rb_days _ _ _ _ _ _ Hb first_day t g Hin).
  - intros g b Hb'. apply (rb_hours _ _ _ _ _ _ Hb); [|exact Hin|exact Hb'].
    intros day. apply steady_whole, (fixed_steady _ _ joburg_fixed).
Defined.

Lemma rebuild_days_cover_witness :
  steady "Africa/Johannesburg" /\
  map day_of (rebuild_days (on_day 10) (on_day 13) "Africa/Johannesburg") = [10; 11; 12].
Proof.
  split; [exact (fixed_steady _ _ joburg_fixed)|].
  exact (proj1 (proj2 (rebuild_days_cover _ (on_day 10) (on_day 13) (fixed_steady _ _ joburg_fixed)))).
Defined.





Lemma hours_add_up_witness :
  0 <= 7200 * nanos /\
  sum_of (fun h => session_overlap 1 2 ScopeLocation (fst h) (snd h) (snd h) cleared_db) (day_hours 0 (7200 * nanos))
    = 1000000000.
Proof. split; [done|]. rewrite (proj1 (hours_add_up 1 2 ScopeLocation cleared_db 0 (7200 * nanos) ltac:(done))). by vm_compute. Defined.

(** *** A midnight that is skipped

    In Cairo clocks went from midnight to one on 26 April 2024.  The day after is cleared
    from one o'clock on, because [AddDate] keeps the time of day, but projected from
    midnight, where the day before has put an hour already: the rebuild of both days
    fails, and its run counts a day of which nothing is left. *)

Definition cairo_db : Db := set_locations ((fun l => {| loc_ID := loc_ID l; loc_OrganisationID := loc_OrganisationID l;
  loc_Slug := loc_Slug l; loc_Name := loc_Name l; loc_Timezone := "Africa/Cairo"; loc_Status := loc_Status l;
  loc_LegacyRestaurantID := None; loc_CreatedAt := 0; loc_UpdatedAt := 0; loc_OperatingConfig := JObj [];
  loc_FeatureFlags := JObj [] |}) <$> db_locations day_db) day_db.

Definition rebuild_spring : Go RebuildRun :=
  Rebuild {| rbp_Actor := {| aac_OrganisationID := 1%N; aac_LocationID := 2%N;
                             aac_ActorRef := userProfileActorRef 10 |};
             rbp_LocationID := 2%N; rbp_From := on_day 19839; rbp_To := on_day 19841 |}.

Example skipped_midnight_fails :
  let '(r, d') := run rebuild_spring (calm 700 1720000000000000000) cairo_db in
  r = Err (Wrap "inserting table analytics metric" (PgErr (UniqueViolation "analytics_hourly_table_metrics_pkey"))) /\
  map (fun x => (arr_Status x, arr_DaysProcessed x)) (values (db_rebuilds d')) = [("failed", 1)].
Proof. vm_compute. split; reflexivity. Qed.
