(* ===== verification/IntegrationTheorems.v ===== *)
(** The main results on the integrations service: what a vendor can make the floor
    do, that an event is handled once, that a webhook without a valid signature
    does nothing, and what a reconciliation corrects and what it leaves to people. *)

From S2P Require Import Prelude Json Crypto Schema AnalyticsQueries GoTx Store Queries Tokens IdentityQueries IntegrationQueries Events Operations Outbox ReferencePOS Integrations TxFacts Steps LayoutFacts IdentityFacts CommandFacts FloorSpec Commands History IntegrationFacts Http PlatformQueries Routes SystemCommands HttpSteps LayoutCommands IntegrationInv IntegrationSteps Idempotency Samples IdentitySamples SystemSamples.
#[local] Open Scope string_scope.
#[local] Open Scope Z_scope.
#[local] Open Scope list_scope.

Section Integrations.
Context {GT : GoText} {GN : GoNumber} {ET : ErrorTexts} {PT : PosText}
  {HT : HttpText} {PL : PlatformText} {RD : ReportData}.

(** ** Refinement *)

Lemma pos_step_floor d d' :
  pos_step d d' -> floor_inv d -> floor_inv d' /\ rtc floor_step (floor_of d) (floor_of d').
Proof.
  intros [[x ->]|c e s r s' _ _ <- Hr <-] Hinv.
  - split; [by apply (floor_inv_same d)|done].
  - apply run_command_outcome in Hr as [Hc _]; [|done]. split; [by eapply change_floor_inv|].
    destruct (change_refines _ _ Hinv Hc) as [->|Hst]; [done|by apply rtc_once].
Qed.

Lemma pos_steps_floor d d' :
  rtc pos_step d d' -> floor_inv d -> floor_inv d' /\ rtc floor_step (floor_of d) (floor_of d').
Proof.
  induction 1 as [d|d d1 d' H1 _ IH]; intros Hinv; [done|].
  destruct (pos_step_floor _ _ H1 Hinv) as [Hinv1 Hs1]. destruct (IH Hinv1). split; [done|]. by etrans.
Qed.

(** C11. A vendor goes through the operations service: whatever request of the
    integrations service runs, with whatever adapters, and whatever fails in it,
    what it does to the database is a sequence of changes to the integrations' own
    tables and of occupy and clear commands issued in the name of an integration;
    so the floor stays well formed and moves by steps of its specification. *)
Theorem integration_refines_floor adapters c e d r d'
    (Hremote : all_remote adapters) (Hinv : floor_inv d)
    (Hrun : run (run_integration adapters c) e d = (r, d')) :
  rtc pos_step d d' /\ floor_inv d' /\ rtc floor_step (floor_of d) (floor_of d').
Proof.
  apply (top_run (rtc pos_step)) in Hrun; [|by apply top_integration; try apply _].
  split; [done|]. by apply pos_steps_floor.
Qed.

(** ** The inbox *)

Lemma bind_inv {A B} (m : Go A) (k : A -> Go B) e s r s' :
  (m ≫= k) e s = (r, s') ->
  (exists err, m e s = (Err err, s') /\ r = Err err) \/
  exists a s1, m e s = (Ok a, s1) /\ k a e s1 = (r, s').
Proof. unfold mbind, Go_bind. destruct (m e s) as [[a|err] s1]; [eauto|intros [= <- <-]; eauto]. Qed.

Lemma guard_err_db b err e s r s' : guard_err b err e s = (r, s') -> s' = s.
Proof. unfold guard_err. destruct b; by intros [= _ <-]. Qed.

Lemma reference_adapter vendor e s r s' :
  adapter ReferencePOS.adapters vendor e s = (r, s') ->
  s' = s /\ forall a, r = Ok a -> vendor = VendorReferencePOS /\ a = ReferencePOSAdapter.
Proof.
  unfold adapter, adapters. destruct (decide (ad_Vendor ReferencePOSAdapter = vendor)) as [<-|Hne].
  - rewrite lookup_singleton_eq. intros [= <- <-]. split; [done|]. by intros a [= <-].
  - rewrite lookup_singleton_ne by done. by intros [= <- <-].
Qed.

(** How far a webhook got: it was refused or could not be stored; it is known;
    or its new row was stored, and then marked or applied. *)
Inductive webhook_ran (id : uuid) (payload : list N) (signature : string) (e : Env) (d : Db)
    : result error WebhookResult -> Db -> Prop :=
| ran_refused err : webhook_ran id payload signature e d (Err err) d
| ran_known row fact valid k w r :
    db_connections d !! id = Some row -> HandleWebhook (scanConnection row) payload signature = Ok (fact, valid) ->
    icn_Vendor row = VendorReferencePOS ->
    db_webhooks d !! k = Some w -> same_event (icn_Vendor row) (fct_ExternalEventID fact) w = true ->
    r = Ok {| wrs_Webhook := scanWebhook w; wrs_Applied := false |} \/ (exists err, r = Err err) ->
    webhook_ran id payload signature e d r d
| ran_new row fact valid w d1 r d' :
    db_connections d !! id = Some row -> HandleWebhook (scanConnection row) payload signature = Ok (fact, valid) ->
    icn_Vendor row = VendorReferencePOS ->
    webhook_stored (scanConnection row) (fct_ExternalEventID fact) valid d w true d1 ->
    (d' = d1 /\ (exists err, r = Err err) \/
     exists s1 s', st_db s1 = d1 /\ st_db s' = d' /\
       (if valid then apply_and_mark (scanConnection row) (scanWebhook w) fact
        else skip_webhook (scanWebhook w)) e s1 = (r, s')) ->
    webhook_ran id payload signature e d r d'.

Lemma ReceiveWebhook_ran vendor id signature payload e s r s' :
  ReceiveWebhook ReferencePOS.adapters vendor id signature payload e s = (r, s') ->
  webhook_ran id payload signature e (st_db s) r (st_db s').
Proof.
  intros H. unfold ReceiveWebhook in H. cbv zeta in H.
  apply bind_inv in H as [(err & H & ->)|([] & s1 & H1 & H)].
  { apply guard_err_db in H as ->. constructor. }
  apply guard_err_db in H1 as ->.
  apply bind_inv in H as [(err & H & ->)|(conn & s1 & H1 & H)].
  { apply getConnectionByID_db in H as ->. constructor. }
  apply getConnectionByID_Ok in H1 as (row & Hrow & -> & Hd1). rewrite <- Hd1 in *.
  apply bind_inv in H as [(err & H & ->)|([] & s2 & H1 & H)].
  { apply guard_err_db in H as ->. constructor. }
  apply guard_err_Ok in H1 as (Hven & -> & _). apply negb_false_iff, String.eqb_eq in Hven. simpl in Hven.
  apply bind_inv in H as [(err & H & ->)|(a & s2 & H1 & H)].
  { apply reference_adapter in H as [-> _]. constructor. }
  apply reference_adapter in H1 as [-> Ha]. destruct (Ha _ eq_refl) as [Hv ->]. rewrite Hv in Hven.
  simpl in H. apply bind_inv in H as [(err & H & ->)|([fact valid] & s2 & H1 & H)].
  { unfold lift in H. injection H as _ <-. constructor. }
  unfold lift in H1. injection H1 as Hh <-. simpl in H.
  apply bind_inv in H as [(err & H & ->)|([w isNew] & s2 & H1 & H)].
  - apply insertWebhook_ran in H as [[_ ->]|(w & [|] & Hst & _)]; [constructor|..].
    + eapply ran_new; eauto.
    + destruct Hst as ((k & Hk) & Hsame & ->). eapply ran_known; eauto.
  - apply insertWebhook_ran in H1 as [[(? & ?) _]|(w0 & b & Hst & [[= -> ->]|(? & ?)])]; [done| |done].
    simpl in H. destruct b; simpl in H.
    + assert (iwh_ProcessingState w0 = "received") as Hp by (by destruct Hst as [(j & n & i & ->) _]).
      rewrite Hp in H. simpl in H. eapply ran_new; [done..|]. right. exists s2, s'. by destruct valid.
    + injection H as <- <-. destruct Hst as ((k & Hk) & Hsame & ->). eapply ran_known; eauto.
Qed.

(** ** Webhooks without a valid signature *)

Lemma HandleWebhook_valid conn payload signature fact valid :
  HandleWebhook conn payload signature = Ok (fact, valid) ->
  valid = verifyReferenceSignature payload signature.
Proof. unfold HandleWebhook. repeat case_match; try done. by intros [= _ <-]. Qed.

Lemma skip_webhook_ran w e s r s' :
  skip_webhook w e s = (r, s') ->
  (forall res, r = Ok res -> wrs_Applied res = false) /\
  (st_db s' = st_db s \/
   webhook_marked (whk_ID w) "skipped" (Some "signature validation failed") (st_db s) (st_db s')).
Proof.
  intros [(err & H & ->)|(x & s1 & H & H2)]%bind_inv.
  - split; [done|]. by apply markWebhook_ran in H.
  - injection H2 as <- <-. split; [by intros res [= <-]|]. by apply markWebhook_ran in H.
Qed.

(** C13. A webhook without a valid signature does nothing but leave a trace: it is
    never applied, and whatever fails, the database is as it was except for at most
    one new row of the webhook inbox, which is marked as unsigned and is not
    processed.  The floor, the mappings and the connection are untouched. *)
Theorem forged_webhook_harmless vendor id signature payload e d r d'
    (Hforged : verifyReferenceSignature payload signature = false)
    (Hrun : run (ReceiveWebhook ReferencePOS.adapters vendor id signature payload) e d = (r, d')) :
  (forall res, r = Ok res -> wrs_Applied res = false) /\
  (d' = d \/
   exists w, db_webhooks d !! iwh_ID w = None /\ d' = set_webhooks (<[iwh_ID w := w]> (db_webhooks d)) d /\
     iwh_SignatureValid w = false /\
     (iwh_ProcessingState w = "received" \/ iwh_ProcessingState w = "skipped")).
Proof using All.
  apply run_inv in Hrun as (s' & H & <-). apply ReceiveWebhook_ran in H. simpl in H. revert H.
  generalize (st_db s'). intros d' H.
  destruct H as [err|row fact valid k w r Hrow Hh _ _ _ Hr|row fact valid w d1 r d' Hrow Hh _ Hst Hr].
  - split; [done|by left].
  - split; [|by left]. intros res ->. destruct Hr as [[= ->]|(? & ?)]; done.
  - apply HandleWebhook_valid in Hh. rewrite Hforged in Hh. subst valid.
    pose proof (webhook_stored_lookup _ _ _ _ _ _ Hst) as Hw.
    destruct Hst as ((j & now & wid & ->) & _ & Hn & Hd1).
    destruct Hr as [[-> (err & ->)]|(s1 & s2 & Hs1 & Hs2 & H)].
    + split; [done|]. right. eexists. split_and!; [exact Hn|exact Hd1|done|by left].
    + apply skip_webhook_ran in H as [Happ Hm]. rewrite Hs1, Hs2 in Hm. split; [exact Happ|]. right.
      destruct Hm as [->|(w0 & n & Hw0 & _ & ->)];
        [eexists; split_and!; [exact Hn|exact Hd1|done|by left]|].
      pose proof (eq_trans (eq_sym Hw) Hw0) as [= <-]. rewrite Hd1.
      eexists (webhook_row _ _ _ _ _). split_and!; [exact Hn|apply webhook_stored_twice|done|by right].
Qed.

(** ** Each event once *)

(** The inbox and the connections. *)
Definition same_inbox (d d' : Db) : Prop :=
  db_webhooks d' = db_webhooks d /\ db_connections d' = db_connections d.

#[export] Instance same_inbox_preorder : PreOrder same_inbox.
Proof. split; [done|]. intros x y z [? ?] [? ?]. split; congruence. Qed.

#[local] Hint Extern 1 (same_inbox _ _) => (split; reflexivity) : keeps.

Lemma applyWebhookFact_inbox conn fact : BodyKeeps same_inbox (applyWebhookFact conn fact).
Proof.
  unfold applyWebhookFact. refine (body_bind _ _ _ _ _); [unfold mappingByExternalID, inAdminTx; solve_op|].
  intros m. destruct (mapped_table m) as [t|]; [|refine (body_fail _ _)].
  refine (body_bind _ _ _ _ _); [unfold currentTableState, inAdminTx; solve_op|]. intros cur.
  destruct (String.eqb _ _); [refine (body_ret _ _)|].
  intros e s r s' H%applyTableState_integrations. unfold same_inbox, db_webhooks, db_connections.
  by rewrite H.
Qed.

(** What a request that marked its webhook returns is in the inbox. *)
Definition answers (w : IntegrationWebhookInbox) (res : WebhookResult) (d : Db) : Prop :=
  exists w', db_webhooks d !! iwh_ID w = Some w' /\ webhook_le w w' /\ wrs_Webhook res = scanWebhook w'.

Lemma mark_answers w st le b e s res s' :
  db_webhooks (st_db s) !! iwh_ID w = Some w ->
  (x ← markWebhook (whk_ID (scanWebhook w)) st le; mret {| wrs_Webhook := x; wrs_Applied := b |}) e s
    = (Ok res, s') ->
  answers w res (st_db s').
Proof.
  intros Hw (x & s1 & H & [<- <-]%ret_Ok)%bind_Ok.
  apply markWebhook_inbox in H as (w0 & w' & Hw0 & Hle & -> & Hd). simpl in Hw0, Hd.
  rewrite Hw in Hw0. injection Hw0 as <-. exists w'. rewrite Hd. split; [exact (lookup_insert_eq _ _ _)|done].
Qed.

Lemma apply_and_mark_answers conn w fact e s res s' :
  db_webhooks (st_db s) !! iwh_ID w = Some w ->
  apply_and_mark conn (scanWebhook w) fact e s = (Ok res, s') -> answers w res (st_db s').
Proof.
  intros Hw (r & s1 & H1%attempt_Ok & H)%bind_Ok. apply applyWebhookFact_inbox in H1 as [Hin _].
  rewrite <- Hin in Hw. destruct r as [[]|err]; [by eapply mark_answers|].
  apply (mark_answers w WebhookFailed (error_text err) false e s1); [done|].
  apply bind_Ok in H as (m & s2 & H1%attempt_Ok & H). destruct m as [x|merr]; [|done].
  by rewrite (bind_run _ _ _ _ _ _ H1).
Qed.

Lemma webhook_answered id payload signature e d res d' :
  (forall k w, db_webhooks d !! k = Some w -> iwh_ID w = k) ->
  webhook_ran id payload signature e d (Ok res) d' ->
  exists row fact valid w, HandleWebhook (scanConnection row) payload signature = Ok (fact, valid) /\
    icn_Vendor row = VendorReferencePOS /\
    same_event VendorReferencePOS (fct_ExternalEventID fact) w = true /\
    answers w res d'.
Proof.
  intros Hkey H. inversion H as [|row fact valid k w r Hrow Hh Hv Hk Hs Hr|row fact valid w d1 r d2 Hrow Hh Hv Hst Hr]; subst.
  - destruct Hr as [[= ->]|(? & ?)]; [|done]. rewrite Hv in Hs. exists row, fact, valid, w. split_and!; try done.
    exists w. rewrite (Hkey _ _ Hk). done.
  - destruct Hr as [[_ (? & ?)]|(s1 & s2 & <- & <- & H2)]; [done|].
    pose proof (webhook_stored_lookup _ _ _ _ _ _ Hst) as Hw.
    exists row, fact, valid, w. destruct Hst as ((j & now & wid & Hnew) & _). split_and!; try done.
    + rewrite Hnew. unfold same_event. simpl. by rewrite Hv, !String.eqb_refl.
    + destruct valid; [by eapply apply_and_mark_answers|]. by eapply mark_answers.
Qed.

Lemma same_event_spec v x w :
  same_event v x w = true <-> iwh_Vendor w = v /\ iwh_ExternalEventID w = x.
Proof. unfold same_event. by rewrite andb_true_iff, !String.eqb_eq. Qed.

(** The event a payload says it is, decoded as [HandleWebhook] does. *)
Definition webhook_event (payload : list N) : option string :=
  body ← json_Unmarshal payload ≫= decode_webhook; Some (TrimSpace (wbd_EventID body)).

Lemma HandleWebhook_event conn payload signature fact valid :
  HandleWebhook conn payload signature = Ok (fact, valid) ->
  webhook_event payload = Some (fct_ExternalEventID fact).
Proof.
  unfold HandleWebhook, webhook_event. destruct (_ ≫= _) as [body|]; [|done].
  cbv zeta. destruct (_ || _); [done|]. by intros [= <- _].
Qed.

(** C12. An event is handled once: when a webhook was answered, then, after any
    requests of the whole backend, every further webhook with the same event
    identifier, whatever its connection, its signature and the rest of its payload,
    leaves the database as it is and is not applied; if it is answered, it is with
    the webhook stored first. *)
Theorem webhook_handled_once v1 c1 s1 p1 e1 d0 res1 d1 d2 v2 c2 s2 p2 e2 r2 d3
    (Hinv : integrations_inv d0)
    (H1 : run (ReceiveWebhook ReferencePOS.adapters v1 c1 s1 p1) e1 d0 = (Ok res1, d1))
    (Hist : system_history d1 d2)
    (Hevent : webhook_event p2 = webhook_event p1)
    (H2 : run (ReceiveWebhook ReferencePOS.adapters v2 c2 s2 p2) e2 d2 = (r2, d3)) :
  d3 = d2 /\
  forall res2, r2 = Ok res2 ->
    wrs_Applied res2 = false /\ whk_ID (wrs_Webhook res2) = whk_ID (wrs_Webhook res1).
Proof using All.
  pose proof (is_inv _ _ (system_keeps_integrations
    (SIntegration (XReceiveWebhook v1 c1 s1 p1)) _ _ _ _ (discard_run _ _ _ _ _ H1)) Hinv) as Hinv1.
  pose proof (system_history_keeps integrations_step _ _ system_keeps_integrations Hist) as [Hle2 Hinv2].
  specialize (Hinv2 Hinv1).
  apply run_Ok in H1 as (t1 & H1 & <-). apply ReceiveWebhook_ran in H1.
  apply webhook_answered in H1 as (row1 & fact1 & valid1 & w1 & Hh1 & _ & Hs1 & (w1' & Hw1 & Hle1 & Hres1));
    [|exact (so_key (ii_webhooks _ Hinv))].
  destruct (ile_webhooks _ _ Hle2 _ _ Hw1) as (w2 & Hw2 & Hle12).
  assert (same_event VendorReferencePOS (fct_ExternalEventID fact1) w2 = true) as Hs2.
  { unfold same_event. rewrite (wle_vendor _ _ Hle12), (wle_event _ _ Hle12),
      (wle_vendor _ _ Hle1), (wle_event _ _ Hle1). exact Hs1. }
  apply run_inv in H2 as (t2 & H2 & <-). apply ReceiveWebhook_ran in H2. simpl in H2. revert H2.
  generalize (st_db t2). intros d3 H2.
  destruct H2 as [err|row fact valid k w r _ Hh2 Hv Hk Hs Hr|row fact valid w d4 r d3 _ Hh2 Hv Hst _].
  - done.
  - split; [done|]. intros res2 ->. destruct Hr as [[= ->]|(? & ?)]; [|done]. split; [done|].
    assert (iwh_ID w1 = k) as <-.
    { apply (so_unique (ii_webhooks _ Hinv2) _ _ _ _ Hk Hw2). unfold same_webhook.
      apply same_event_spec in Hs as [-> ->]. rewrite Hv.
      apply HandleWebhook_event in Hh1, Hh2. rewrite Hh1, Hh2 in Hevent. by injection Hevent as ->. }
    rewrite Hres1. simpl. rewrite Hw2 in Hk. injection Hk as <-.
    by rewrite (wle_id _ _ Hle12).
  - exfalso. destruct Hst as (_ & Hun & _). specialize (Hun _ _ Hw2).
    apply HandleWebhook_event in Hh1, Hh2. rewrite Hh1, Hh2 in Hevent. injection Hevent as Hevent.
    simpl in Hun. by rewrite Hv, Hevent, Hs2 in Hun.
Qed.

(** ** A webhook that is applied *)

Lemma applyWebhookFact_Ok conn fact e s u s' :
  (forall k m, db_mappings (st_db s) !! k = Some m -> itm_ID m = k) ->
  unrecorded e (st_db s) -> applyWebhookFact conn fact e s = (Ok u, s') ->
  exists m t, db_mappings (st_db s) !! itm_ID m = Some m /\
    same_external_table (con_ID conn) (fct_ExternalTableID fact) m = true /\
    itm_Status m = MappingMapped /\ itm_TableID m = Some t /\
    table_moved conn t (fct_Status fact) (fct_PartySize fact) (st_db s) (st_db s').
Proof.
  intros Hkey Hnew H. unfold applyWebhookFact in H. apply bind_Ok in H as (x & s1 & H1 & H).
  apply mappingByExternalID_Ok in H1 as (m & -> & Hm); [|done].
  pose proof (mapping_seen_frame _ _ _ _ _ Hm) as (Hfl & _ & Hid).
  destruct Hm as (_ & _ & Hm). unfold mapped_table in H. simpl in H.
  destruct (String.eqb_spec (itm_Status m) MappingMapped) as [Hst|]; [|done].
  destruct (itm_TableID m) as [t|] eqn:Ht; [|done].
  destruct Hm as [(_ & _ & ?)|(m0 & Hm0 & Hsame & Hst0 & Ht0)]; [done|].
  exists m0, t. rewrite (Hkey _ _ Hm0). split_and!; [done|done|congruence|congruence|].
  apply bind_Ok in H as (cur & s2 & H1 & H).
  apply currentTableState_Ok in H1 as (o & Ho & _ & _ & Hcur & _ & Hd2). rewrite Hcur in H.
  eapply table_moved_frame; [exact Hfl|]. rewrite <- Hd2.
  destruct (String.eqb_spec (occ_Status o) (fct_Status fact)) as [Heq|_].
  - apply ret_Ok in H as [_ <-]. eapply moved_not; [done| |exact Heq]. by rewrite Hd2.
  - eapply applyTableState_Ok; [|exact H]. intros org n. rewrite Hd2, Hid. apply Hnew.
Qed.

Lemma table_moved_then conn t status party d d1 d' :
  same_floor d1 d' -> table_moved conn t status party d d1 -> table_moved conn t status party d d'.
Proof.
  intros Hs Hm. pose proof Hs as (Hocc & Hses & Has). destruct Hm as [o Hf Ho Hst| |].
  - eapply moved_not; [by etrans|done..].
  - eapply moved_seated; try done; congruence.
  - eapply moved_cleared; try done; congruence.
Qed.

Lemma connection_synced_frame id now d d' : connection_synced id now d d' -> same_floor d d'.
Proof. unfold connection_synced. by destruct (db_connections d !! id); intros ->. Qed.

Lemma apply_and_mark_applied conn w fact e s res s' :
  apply_and_mark conn w fact e s = (Ok res, s') -> wrs_Applied res = true ->
  exists s1 x, applyWebhookFact conn fact e s = (Ok tt, s1) /\
    markWebhook (whk_ID w) WebhookProcessed "" e s1 = (Ok x, s') /\
    res = {| wrs_Webhook := x; wrs_Applied := true |}.
Proof.
  intros (r & s1 & H1%attempt_Ok & H)%bind_Ok Ha. destruct r as [[]|err].
  - apply bind_Ok in H as (x & s2 & H2 & [<- <-]%ret_Ok). eauto.
  - apply bind_Ok in H as (mk & s2 & _ & H). destruct mk; [|done]. by apply ret_Ok in H as [<- _].
Qed.

(** C14. What it means that a webhook was applied: its signature is the one of the
    payload, its event was not known, and its external table is mapped to a table
    of the connection; that table was brought to the status the vendor reports,
    with the party it reports, in the name of the connection; the webhook is the
    one new row of the inbox, processed at the first attempt; and the connection is
    connected, synchronised now and without an error. *)
Theorem applied_webhook_moves_table vendor id signature payload e d res d'
    (Hinv : integrations_inv d) (Hnew : unrecorded e d)
    (Hrun : run (ReceiveWebhook ReferencePOS.adapters vendor id signature payload) e d = (Ok res, d'))
    (Happlied : wrs_Applied res = true) :
  verifyReferenceSignature payload signature = true /\
  exists row fact m t w now,
    db_connections d !! id = Some row /\
    HandleWebhook (scanConnection row) payload signature = Ok (fact, true) /\
    event_unseen (icn_Vendor row) (fct_ExternalEventID fact) d /\
    db_mappings d !! itm_ID m = Some m /\ itm_ConnectionID m = id /\
    itm_ExternalTableID m = fct_ExternalTableID fact /\ itm_Status m = MappingMapped /\
    itm_TableID m = Some t /\
    table_moved (scanConnection row) t (fct_Status fact) (fct_PartySize fact) d d' /\
    db_webhooks d !! iwh_ID w = None /\ db_webhooks d' = <[iwh_ID w := w]> (db_webhooks d) /\
    wrs_Webhook res = scanWebhook w /\ iwh_SignatureValid w = true /\
    iwh_ProcessingState w = "processed" /\ iwh_Attempts w = 1 /\
    db_connections d' = <[id := connection_row "connected" (Some now) None now row]> (db_connections d).
Proof using All.
  apply run_Ok in Hrun as (t1 & H & <-). apply ReceiveWebhook_ran in H.
  inversion H as [|row fact valid k w r Hrow Hh Hv Hk Hs Hr|row fact valid w d1 r d2 Hrow Hh Hv Hst Hr]; subst.
  { destruct Hr as [[= ->]|(? & ?)]; done. }
  destruct Hr as [[_ (? & ?)]|(s1 & s2 & Hd1 & Hd2 & H2)]; [done|].
  pose proof (so_key (ii_connections _ Hinv) _ _ Hrow) as Hid.
  pose proof (webhook_stored_lookup _ _ _ _ _ _ Hst) as Hw.
  destruct Hst as ((j & now0 & wid & Hneww) & Hun & Hn & Hdb1).
  pose proof (HandleWebhook_valid _ _ _ _ _ Hh) as Hvalid. destruct valid.
  2: { apply skip_webhook_ran in H2 as [Ha _]. by rewrite (Ha _ eq_refl) in Happlied. }
  split; [done|]. apply apply_and_mark_applied in H2 as (s3 & x & H3 & H2 & ->); [|done].
  pose proof (applyWebhookFact_inbox _ _ _ _ _ _ H3) as [Hin Hconn].
  rewrite Hd1 in Hin. rewrite Hd1, Hdb1 in Hconn.
  apply applyWebhookFact_Ok in H3 as (m & t & Hm & Hsame & Hmst & Ht & Hmv).
  2: { rewrite Hd1, Hdb1. exact (so_key (ii_mappings _ Hinv)). }
  2: { intros org n. rewrite Hd1, Hdb1. apply Hnew. }
  rewrite Hd1, Hdb1 in Hm, Hmv.
  apply markWebhook_Ok in H2 as (w0 & w1 & now & d3 & Hw0 & Hw1 & -> & Hd3 & Hsync). simpl in Hsync.
  assert (w0 = w) as ->.
  { rewrite Hin in Hw0. exact (eq_sym (f_equal (default w) (eq_trans (eq_sym Hw) Hw0))). }
  rewrite Hdb1 in Hin.
  unfold same_external_table in Hsame. apply andb_prop in Hsame as [Hc%N.eqb_eq Hx%String.eqb_eq].
  simpl in Hc. rewrite Hid in Hc.
  pose proof (connection_synced_frame _ _ _ _ Hsync) as Hfl.
  assert (iwh_ID w1 = iwh_ID w) as Hw1id by (by rewrite Hw1).
  assert (iwh_ConnectionID w = id) as Hwc by (by rewrite Hneww).
  assert (db_connections d3 = db_connections d) as Hc3 by (by rewrite Hd3).
  simpl in Hrow. unfold connection_synced in Hsync. rewrite Hwc, Hc3, Hrow in Hsync.
  exists row, fact, m, t, w1, now. rewrite Hw1id, <- Hd2. split_and!; try done.
  - eapply table_moved_then; [exact Hfl|]. apply (table_moved_then _ _ _ _ _ (st_db s3)); [by rewrite Hd3|].
    by eapply table_moved_frame; [|exact Hmv].
  - rewrite Hsync. change (db_webhooks d3 = <[iwh_ID w := w1]> (db_webhooks d)). rewrite Hd3.
    change (<[iwh_ID w := w1]> (db_webhooks (st_db s3)) = <[iwh_ID w := w1]> (db_webhooks d)).
    rewrite Hin. exact (insert_insert_eq _ _ _ _).
  - by rewrite Hw1, Hneww.
  - by rewrite Hw1.
  - by rewrite Hw1, Hneww.
  - by rewrite Hsync.
Qed.

(** ** Reconciliation *)

(** C15. Reconciling one external table: what is done is decided by its mapping, by
    the state of the table and by its open assists.  A table that is not mapped is
    reported for review; a table that is as the vendor says is left alone; a table
    with an open assist is reported as an ambiguous conflict for people to resolve;
    any other table is brought to the vendor's state in the name of the connection,
    which is recorded as an automatic correction.  Except in the last case the floor
    stays as it was. *)
Theorem reconcile_table_functional conn run_ state e d resolution had corrected d'
    (Hinv : integrations_inv d) (Hnew : unrecorded e d)
    (Hrun : run (reconcileTableState conn run_ state) e d = (Ok (resolution, had, corrected), d')) :
  exists m d1, mapping_seen conn (ext_TableID state) d m d1 /\ db_mappings d' = db_mappings d1 /\
    match mapped_table (scanMapping m) with
    | None =>
        (resolution, had, corrected) = ("review_required", true, false) /\ same_floor d d' /\
        discrepancy_noted conn run_ state m None "unmapped_table" None "review_required" d d'
    | Some t =>
        exists o, db_occupancy d !! t = Some o /\
          if String.eqb (occ_Status o) (ext_Status state)
          then (resolution, had, corrected) = ("ignored", false, false) /\ same_floor d d' /\
               db_discrepancies d' = db_discrepancies d
          else if map_any (assist_open (con_OrganisationID conn) (con_LocationID conn) t) (db_assists d)
          then (resolution, had, corrected) = ("review_required", true, false) /\ same_floor d d' /\
               discrepancy_noted conn run_ state m (Some t) "ambiguous_conflict" (Some (occ_Status o))
                 "review_required" d d'
          else (resolution, had, corrected) = ("auto_corrected", true, true) /\
               table_moved conn t (ext_Status state) None d d' /\
               discrepancy_noted conn run_ state m (Some t) "occupancy_mismatch" (Some (occ_Status o))
                 "auto_corrected" d d'
    end.
Proof using All.
  apply run_Ok in Hrun as (s' & H & <-).
  apply reconcileTableState_Ok in H as (m & d1 & Hm & Hmap & H); [|exact (so_key (ii_mappings _ Hinv))].
  change (st_db (start d)) with d in *.
  exists m, d1. split; [done|]. split; [done|]. destruct (mapped_table _) as [t|]; [|exact H].
  destruct H as (o & Ho & H). exists o. split; [done|].
  destruct (String.eqb _ _); [exact H|]. destruct (map_any _ _); [exact H|].
  destruct H as (? & Hmv & ?). split_and!; [done|by apply Hmv|done].
Qed.

(** Discrepancies a loop over external tables recorded: one for each table that had
    one, corrected or not. *)
Lemma table_reconciled_counts conn run_ state fresh d d' resolution had corrected :
  table_reconciled conn run_ state fresh d d' (resolution, had, corrected) ->
  (size (db_discrepancies d') = (if (had : bool) then 1 else 0) + size (db_discrepancies d))%nat /\
  (corrected = true -> had = true).
Proof.
  intros (m & d1 & _ & _ & H). destruct (mapped_table _) as [t|]; [destruct H as (o & _ & H)|];
    [destruct (String.eqb _ _); [|destruct (map_any _ _)]|];
    destruct H as ([= -> -> ->] & _ & Hn); (split; [|done]);
    first [exact (discrepancy_noted_size _ _ _ _ _ _ _ _ _ _ Hn)|by rewrite Hn].
Qed.

Lemma wrap32_small z : 0 <= z <= int32_max -> wrap32 z = z.
Proof. unfold wrap32, int32_max. intros. rewrite Z.mod_small; lia. Qed.

Lemma reconcile_states_Ok conn run_ checked states : forall n c e s n' c' s',
  st_saved s = None -> integrations_inv (st_db s) ->
  0 <= c <= n -> n + Z.of_nat (length states) <= int32_max ->
  reconcile_states conn run_ checked states n c e s = (Ok (n', c'), s') ->
  st_saved s' = None /\ integrations_inv (st_db s') /\
  Z.of_nat (size (db_discrepancies (st_db s'))) = Z.of_nat (size (db_discrepancies (st_db s))) + (n' - n) /\
  0 <= c' <= n' /\ n <= n' <= n + Z.of_nat (length states).
Proof.
  induction states as [|state states IH]; intros n c e s n' c' s' Hs Hinv Hc Hn H; simpl in *.
  - apply ret_Ok in H as [[= <- <-] <-]. split_and!; (done || lia).
  - apply bind_Ok in H as (r & s1 & H1%attempt_Ok & H). destruct r as [[[res had] cor]|err].
    2: { apply bind_Ok in H as (u & s2 & _ & H). done. }
    pose proof (top_reconcileTableState integrations_step conn run_ state _ _ _ _ Hs H1) as [Hs1 [_ Hinv1]].
    apply reconcileTableState_Ok in H1; [|exact (so_key (ii_mappings _ Hinv))].
    apply table_reconciled_counts in H1 as [Hsize Hcor].
    assert (n + 1 <= int32_max) as Hlt by lia.
    rewrite (wrap32_small (n + 1)), (wrap32_small (c + 1)) in H by lia.
    assert (cor = true -> had = true) as _ by exact Hcor.
    apply IH in H as (? & ? & Hsz & ? & ?); [|done|by apply Hinv1| |].
    + split_and!; try done; destruct had; lia.
    + destruct cor; [rewrite (Hcor eq_refl)|destruct had]; lia.
    + destruct had; lia.
Qed.

(** Runs do not touch the discrepancies. *)
Definition same_discrepancies (d d' : Db) : Prop := db_discrepancies d' = db_discrepancies d.

#[export] Instance same_discrepancies_preorder : PreOrder same_discrepancies.
Proof. split; [done|]. unfold same_discrepancies. intros x y z. congruence. Qed.

#[local] Hint Extern 1 (same_discrepancies _ _) => reflexivity : keeps.

Lemma createRun_discrepancies conn : BodyKeeps same_discrepancies (createRun conn).
Proof. unfold createRun, scanRun, inAdminTx. solve_op. Qed.
Lemma finishRun_discrepancies id status n i j err :
  BodyKeeps same_discrepancies (finishRun id status n i j err).
Proof. unfold finishRun, scanRun, inAdminTx. solve_op. Qed.

Lemma scanRun_Ok r e s x s' :
  db_runs (st_db s) !! irr_ID r = Some r -> scanRun (irr_ID r) e s = (Ok x, s') -> x = scan_run r.
Proof.
  intros Hr H. unfold scanRun, inAdminTx, select_run in H. tx_Ok H. rewrite Hr in Hget.
  by injection Hget as <-.
Qed.

Lemma finishRun_Ok id status n i j err e s x s' :
  (forall k r, db_runs (st_db s) !! k = Some r -> irr_ID r = k) ->
  finishRun id status n i j err e s = (Ok x, s') ->
  rrn_ID x = id /\ rrn_Status x = status /\ rrn_CheckedCount x = n /\ rrn_DiscrepancyCount x = i /\
  rrn_AutoCorrectedCount x = j /\ rrn_LastError x = error_arg err.
Proof.
  intros Hkey H. unfold finishRun in H. apply bind_Ok in H as (r1 & s1 & H1 & H).
  unfold inAdminTx in H1. apply contextTx_Ok in H1 as (s2 & s3 & Hd & _ & H1 & Hd'); [|solve_intx].
  apply bind_Ok in H1 as (r2 & s4 & H2 & H1).
  apply exec_Ok in H2 as (_ & d & (r & Hr & _ & [= Hset] & _ & ->)%update_row_Ok & Hs4).
  rewrite Hd in Hr. pose proof (Hkey _ _ Hr) as Hid.
  apply bind_Ok in H1 as (u & s5 & H1 & [-> <-]%ret_Ok).
  assert (db_runs (st_db s1) !! id = Some r1) as Hr1.
  { rewrite <- Hd'. assert (db_runs (st_db s5) = db_runs (st_db s4)) as ->.
    { unfold mark_connection_synced, mark_connection_degraded in H1.
      repeat case_match; go_steps H1; try done;
        match goal with Hu : update_exec _ _ _ _ _ _ _ _ _ = Ok _ |- _ =>
          apply update_exec_Ok in Hu as [[-> _]|(? & ? & _ & _ & _ & _ & ->)]; done end. }
    rewrite Hs4. exact (lookup_insert_eq _ _ _). }
  assert (irr_ID r1 = id) as Hid2 by (by rewrite <- Hset).
  assert (x = scan_run r1) as -> by (clear Hset; eapply scanRun_Ok; [|exact H]; by rewrite Hid2).
  rewrite <- Hset in *. by split_and!.
Qed.

(** The figures of a reconciliation are true: a run that completed has checked
    every table the vendor reported, its discrepancies are as many as the rows it
    added to the discrepancies, and it corrected no more than it found and found no
    more than it checked. *)
Theorem reconciliation_counts conn states e d run_ d'
    (Hinv : integrations_inv d)
    (Hstates : FetchExternalStatus conn = Ok states) (Hlen : Z.of_nat (length states) <= int32_max)
    (Hrun : run (reconcileConnection ReferencePOS.adapters conn) e d = (Ok run_, d')) :
  rrn_Status run_ = "completed" /\ rrn_LastError run_ = None /\
  rrn_CheckedCount run_ = Z.of_nat (length states) /\
  Z.of_nat (size (db_discrepancies d')) = Z.of_nat (size (db_discrepancies d)) + rrn_DiscrepancyCount run_ /\
  0 <= rrn_AutoCorrectedCount run_ <= rrn_DiscrepancyCount run_ /\
  rrn_DiscrepancyCount run_ <= rrn_CheckedCount run_.
Proof using All.
  apply run_Ok in Hrun as (t1 & H & <-). unfold reconcileConnection in H.
  apply bind_Ok in H as (a & s1 & H1 & H). apply reference_adapter in H1 as [-> Ha].
  destruct (Ha _ eq_refl) as [_ ->]. apply bind_Ok in H as (r & s1 & H1 & H).
  pose proof (top_createRun integrations_step conn e (start d) _ _ eq_refl H1) as [Hs1 [_ Hi1]].
  apply createRun_discrepancies in H1. simpl in H. rewrite (bind_run _ _ _ _ (Ok states) s1) in H
    by (unfold attempt, lift; by rewrite Hstates).
  apply bind_Ok in H as ([n c] & s2 & H2 & H).
  apply reconcile_states_Ok in H2 as (Hs2 & Hi2 & Hsize & Hc & Hn); [|done|by apply Hi1|lia|lia].
  rewrite (wrap32_small _ (conj (Zle_0_nat _) Hlen)) in H.
  pose proof (finishRun_discrepancies _ _ _ _ _ _ _ _ _ _ H) as Hd3.
  apply finishRun_Ok in H as (_ & -> & -> & -> & -> & ->); [|exact (so_key (ii_runs _ Hi2))].
  unfold same_discrepancies in *. cbn [fst snd]. rewrite Hd3, Hsize, H1.
  change (st_db (start d)) with d. split_and!; (done || lia).
Qed.

(** ** Tenants *)

(** The actor may do this at its location. *)
Definition integrates (d : Db) (actor : ReferencePOS.TenantActor) (permission : string) : bool :=
  loc_grants d (iac_OrganisationID actor) (iac_LocationID actor)
    (fun m => String.eqb (lmb_MemberRef m) (iac_ActorRef actor)) permission
  || org_grants d (iac_OrganisationID actor)
       (fun m => String.eqb (omb_MemberRef m) (iac_ActorRef actor)) permission.

(** A row of the actor's location. *)
Definition row_of {A} (rows : gmap N A) (org loc : A -> uuid) (actor : ReferencePOS.TenantActor)
    (id : uuid) : bool :=
  match rows !! id with
  | Some r => (org r =? iac_OrganisationID actor)%N && (loc r =? iac_LocationID actor)%N
  | None => false
  end.

Definition integration_allowed (d : Db) (c : IntegrationCommand) : bool :=
  match c with
  | XListConnections actor | XListMappings actor _ | XListWebhooks actor _
  | XListDiscrepancies actor _ => integrates d actor PermissionIntegrationsRead
  | XHealth actor id =>
      integrates d actor PermissionIntegrationsRead
      && row_of (db_connections d) icn_OrganisationID icn_LocationID actor id
  | XUpdateMapping actor id _ _ =>
      integrates d actor PermissionIntegrationsManage
      && row_of (db_mappings d) itm_OrganisationID itm_LocationID actor id
  | XReplayWebhook actor id =>
      integrates d actor PermissionIntegrationsManage
      && row_of (db_webhooks d) iwh_OrganisationID iwh_LocationID actor id
  | XReconcile actor id =>
      integrates d actor PermissionIntegrationsManage
      && row_of (db_connections d) icn_OrganisationID icn_LocationID actor id
  | XReceiveWebhook _ _ _ _ | XReconcileConnected => true
  end.

Lemma needs_integration {A} actor p (k : unit -> Go A) e s a s' :
  (Integrations.requireLocationPermission actor p ≫= k) e s = (Ok a, s') ->
  integrates (st_db s) actor p = true /\ exists s1, st_db s1 = st_db s /\ k tt e s1 = (Ok a, s').
Proof.
  intros ([] & s1 & H & Hk)%bind_Ok. apply bind_Ok in H as (b & s2 & H & H2).
  apply map_err_Ok, exec_Ok in H as (_ & d1 & [= <- <-] & ->).
  apply guard_err_Ok in H2 as (H2%negb_false_iff & -> & _). split; [done|]. eexists. by split; [|exact Hk].
Qed.

(** A statement that finds no row of the actor's location. *)
Ltac row_refused H Hno :=
  unfold select_connection, select_webhook, update_mapping in H; go_steps H; stmt_facts;
  unfold row_of in Hno; unfold connection_at, webhook_at in *;
  match goal with Hg : _ !! _ = Some _, Hw : _ = true |- _ => by rewrite Hg, Hw in Hno end.

Lemma integration_refused c d :
  integration_allowed d c = false -> refused d (run_integration ReferencePOS.adapters c).
Proof using All.
  intros Hno. destruct c; try discriminate Hno; simpl in Hno |- *; unfold discard.
  all: try solve [refuse_tenant; apply needs_integration in H as [Hm _]; rewrite Hs in Hm; congruence].
  all: destruct (integrates d actor _) eqn:Hm; simpl in Hno;
    [|solve [refuse_tenant; apply needs_integration in H as [Hm2 _]; rewrite Hs in Hm2; congruence]].
  all: try solve [refuse_tenant; apply needs_integration in H as [_ (s2 & Hs2 & H)];
    rewrite <- Hs, <- Hs2 in Hno; row_refused H Hno].
  apply refused_first. unfold ReplayWebhook. apply refused_then; [unfold quiet; solve_body|]. intros _.
  apply refused_first. unfold getWebhookForActor.
  apply refused_then; [unfold quiet, getConnectionForWebhook; solve_op|]. intros conn.
  apply refused_first. refuse_tenant. rewrite <- Hs in Hno. row_refused H Hno.
Qed.

(** Integrations belong to their tenants: a request on behalf of a tenant to
    list, inspect, map, replay or reconcile fails and changes nothing, unless its
    actor holds an enabled membership whose role grants the permission at its
    location and the connection, mapping or webhook it names is one of that
    location. *)
Theorem integrations_belong_to_tenants c e d r d'
    (Hno : integration_allowed d c = false)
    (Hrun : run (run_integration ReferencePOS.adapters c) e d = (r, d')) :
  is_ok r = false /\ d' = d.
Proof using All.
  apply run_inv in Hrun as (s' & H & <-). exact (integration_refused c d Hno e (start d) r s' eq_refl H).
Qed.
End Integrations.

(** ** At the sample restaurant *)

Lemma pos_floor : floor_inv pos_db.
Proof. exact (floor_inv_same people_db pos_db (conj eq_refl (conj eq_refl eq_refl)) people_floor). Qed.

Lemma pos_unrecorded e : unrecorded e pos_db.
Proof. intros org t. exact (lookup_empty _). Qed.

Definition pos_env : Env := calm 2000 20000000.

Lemma integration_refines_floor_witness :
  all_remote ReferencePOS.adapters /\ floor_inv pos_db /\
  exists d', run (run_integration ReferencePOS.adapters
      (XReceiveWebhook "reference_pos" 60 pos_signature pos_payload)) pos_env pos_db = (Ok tt, d') /\
    rtc pos_step pos_db d'.
Proof.
  split; [exact reference_all_remote|]. split; [exact pos_floor|].
  destruct (run_succeeds (run_integration ReferencePOS.adapters
    (XReceiveWebhook "reference_pos" 60 pos_signature pos_payload)) pos_env pos_db) as [[] H];
    [vm_compute; reflexivity|].
  eexists. split; [exact H|].
  exact (proj1 (integration_refines_floor _ _ _ _ _ _ reference_all_remote pos_floor H)).
Defined.

Lemma forged_webhook_harmless_witness :
  verifyReferenceSignature pos_payload "c0ffee" = false /\
  exists res d', run (pos_webhook "c0ffee") pos_env pos_db = (Ok res, d') /\ wrs_Applied res = false.
Proof.
  assert (verifyReferenceSignature pos_payload "c0ffee" = false) as Hf by (vm_compute; reflexivity).
  split; [exact Hf|].
  destruct (run_succeeds (pos_webhook "c0ffee") pos_env pos_db) as [res H]; [vm_compute; reflexivity|].
  eexists res, _. split; [exact H|].
  exact (proj1 (forged_webhook_harmless _ _ _ _ _ _ _ _ Hf H) _ eq_refl).
Defined.

(** The event is sent again, without its signature. *)
Lemma webhook_handled_once_witness :
  integrations_inv pos_db /\
  exists res1 d1 res2 d2, run (pos_webhook pos_signature) pos_env pos_db = (Ok res1, d1) /\
    run (pos_webhook "c0ffee") (calm 3000 30000000) d1 = (Ok res2, d2) /\ d2 = d1 /\
    whk_ID (wrs_Webhook res2) = whk_ID (wrs_Webhook res1).
Proof.
  split; [exact pos_integrations|].
  destruct (run_succeeds (pos_webhook pos_signature) pos_env pos_db) as [res1 H1]; [vm_compute; reflexivity|].
  set (d1 := snd (run _ _ pos_db)) in H1.
  destruct (run_succeeds (pos_webhook "c0ffee") (calm 3000 30000000) d1) as [res2 H2]; [vm_compute; reflexivity|].
  destruct (webhook_handled_once _ _ _ _ _ _ _ _ _ _ _ _ _ _ _ _ pos_integrations H1 (system_start d1)
    eq_refl H2) as [Hd Hres].
  eexists res1, d1, res2, _. split; [exact H1|]. split; [exact H2|]. split; [exact Hd|].
  exact (proj2 (Hres _ eq_refl)).
Defined.

Lemma applied_webhook_moves_table_witness :
  integrations_inv pos_db /\ unrecorded pos_env pos_db /\
  exists res d', run (pos_webhook pos_signature) pos_env pos_db = (Ok res, d') /\ wrs_Applied res = true /\
    verifyReferenceSignature pos_payload pos_signature = true.
Proof.
  split; [exact pos_integrations|]. split; [exact (pos_unrecorded _)|].
  destruct (run_succeeds (pos_webhook pos_signature) pos_env pos_db) as [res H]; [vm_compute; reflexivity|].
  assert (match fst (run (pos_webhook pos_signature) pos_env pos_db) with
          | Ok r => wrs_Applied r | Err _ => false end = true) as Ha by (vm_compute; reflexivity).
  rewrite H in Ha. eexists res, _. split; [exact H|]. split; [exact Ha|].
  exact (proj1 (applied_webhook_moves_table _ _ _ _ _ _ _ _ pos_integrations (pos_unrecorded _) H Ha)).
Defined.

Definition pos_conn : Connection := scanConnection pos_connection_row.

(** A reconciliation has started. *)
Definition pos_run_db : Db := snd (run (createRun pos_conn) (calm 3000 30000000) pos_db).
Definition pos_run_id : uuid :=
  Eval vm_compute in
  match fst (run (createRun pos_conn) (calm 3000 30000000) pos_db) with Ok r => rrn_ID r | Err _ => 0%N end.
Definition pos_state : ExternalTableState :=
  {| ext_TableID := "pos-1"; ext_Label := "Window"; ext_Status := "occupied" |}.

Lemma pos_run_integrations : integrations_inv pos_run_db.
Proof. split; apply sound_decided; vm_compute; reflexivity. Qed.

Lemma reconcile_table_functional_witness :
  integrations_inv pos_run_db /\ unrecorded (calm 3100 31000000) pos_run_db /\
  exists d', run (reconcileTableState pos_conn pos_run_id pos_state) (calm 3100 31000000) pos_run_db
      = (Ok ("auto_corrected", true, true), d') /\
    exists m d1, mapping_seen pos_conn "pos-1" pos_run_db m d1.
Proof.
  split; [exact pos_run_integrations|].
  assert (unrecorded (calm 3100 31000000) pos_run_db) as Hnew.
  { intros org t. exact (lookup_empty _). }
  split; [exact Hnew|].
  assert (fst (run (reconcileTableState pos_conn pos_run_id pos_state) (calm 3100 31000000) pos_run_db)
    = Ok ("auto_corrected", true, true)) as Hf by (vm_compute; reflexivity).
  pose proof (surjective_pairing
    (run (reconcileTableState pos_conn pos_run_id pos_state) (calm 3100 31000000) pos_run_db)) as H.
  rewrite Hf in H. eexists. split; [exact H|].
  destruct (reconcile_table_functional _ _ _ _ _ _ _ _ _ pos_run_integrations Hnew H)
    as (m & d1 & Hm & _). exists m, d1. exact Hm.
Defined.

Lemma reconciliation_counts_witness :
  integrations_inv pos_db /\
  exists states run_ d', FetchExternalStatus pos_conn = Ok states /\ Z.of_nat (length states) = 2 /\
    run (reconcileConnection ReferencePOS.adapters pos_conn) pos_env pos_db = (Ok run_, d') /\
    rrn_Status run_ = "completed".
Proof.
  split; [exact pos_integrations|].
  assert (exists states, FetchExternalStatus pos_conn = Ok states /\ Z.of_nat (length states) = 2)
    as (states & Hs & Hl).
  { vm_compute. eexists. split; reflexivity. }
  destruct (run_succeeds (reconcileConnection ReferencePOS.adapters pos_conn) pos_env pos_db) as [run_ H];
    [vm_compute; reflexivity|].
  eexists states, run_, _. split; [exact Hs|]. split; [exact Hl|]. split; [exact H|].
  refine (proj1 (reconciliation_counts _ _ _ _ _ _ pos_integrations Hs _ H)).
  rewrite Hl. vm_compute. discriminate.
Defined.

(** A connection cannot be reconciled from another location. *)
Definition stranger : ReferencePOS.TenantActor :=
  {| iac_OrganisationID := 1%N; iac_LocationID := 77%N; iac_ActorRef := iac_ActorRef olive_integrates |}.

Lemma integrations_belong_to_tenants_witness :
  integration_allowed pos_db (XReconcile stranger 60) = false /\
  snd (run (run_integration ReferencePOS.adapters (XReconcile stranger 60)) pos_env pos_db) = pos_db.
Proof.
  assert (integration_allowed pos_db (XReconcile stranger 60) = false) as Hno by (vm_compute; reflexivity).
  split; [exact Hno|].
  exact (proj2 (integrations_belong_to_tenants _ _ _ _ _ Hno (surjective_pairing _))).
Defined.

(** A webhook that was processed is applied again when a manager replays it: guests
    that left meanwhile are seated once more. *)
Definition staff_clears : ClearTableParams :=
  {| clp_OrganisationID := 1%N; clp_LocationID := 2%N; clp_TableID := 3%N; clp_ExpectedVersion := 2;
     clp_ActorRef := "ana"; clp_Command := sample_meta 91 "table.clear" |}.

Example replay_applies_again :
  let d1 := pos_received_db in
  let d2 := snd (run (ClearTable staff_clears) (calm 4000 40000000) d1) in
  let replayed := run (ReplayWebhook ReferencePOS.adapters olive_integrates
    (match fst (run (pos_webhook pos_signature) pos_env pos_db) with
     | Ok r => whk_ID (wrs_Webhook r) | Err _ => 0%N end)) (calm 5000 50000000) d2 in
  (occ_Status <$> db_occupancy d1 !! 3%N, occ_Status <$> db_occupancy d2 !! 3%N,
   occ_Status <$> db_occupancy (snd replayed) !! 3%N)
  = (Some "occupied", Some "available", Some "occupied").
Proof. vm_compute. reflexivity. Qed.
