(* ===== verification/PlatformTheorems.v ===== *)
(** Administration of the platform: who may do it, and what it leaves in the
    audit log. *)

From S2P Require Import Prelude Json Schema AnalyticsQueries GoTx Store Queries Tokens IdentityQueries LayoutQueries Identity Memberships Onboarding Operations Outbox ReferencePOS RateLimiter Http Dto PlatformQueries Auth Platform Api Routes TxFacts Steps IdentityFacts Commands IntegrationFacts SystemCommands HttpSteps MembershipFacts IdentityTheorems Guards MembershipTheorems Idempotency Samples IdentitySamples SystemSamples.
#[local] Open Scope string_scope.
#[local] Open Scope Z_scope.
#[local] Open Scope list_scope.

(** ** Permissions *)

(** The permission a route of the platform needs ([docs/api-authz-rules.md]). *)
Definition platform_permission (rt : Route) : option string :=
  match rt with
  | RSearchPlatformTenants | RGetPlatformTenant | RGetPlatformTenantDiagnostics
  | RListPlatformTenantOwners | RListPlatformTenantAudit | RListPlatformAdmins =>
      Some PermissionPlatformAdmin
  | RCreatePlatformTenant | RInvitePlatformTenantOwner | RSuspendPlatformTenantOwner
  | RReactivatePlatformTenantOwner | RReassignPlatformTenantOwner | RSuspendPlatformTenant
  | RReactivatePlatformTenant => Some PermissionPlatformAdminWrite
  | RInvitePlatformAdmin | RRevokePlatformAdminInvitation | RRevokePlatformAdmin
  | RReactivatePlatformAdmin => Some PermissionPlatformManageAdmins
  | _ => None
  end.

(** What the routes that are audited record. *)
Definition platform_action (rt : Route) : option string :=
  match rt with
  | RSearchPlatformTenants => Some platformActionTenantSearch
  | RGetPlatformTenant => Some platformActionTenantRead
  | RGetPlatformTenantDiagnostics => Some platformActionTenantDiagnosticsRead
  | RListPlatformTenantAudit => Some platformActionTenantAuditRead
  | RCreatePlatformTenant => Some platformActionTenantCreate
  | RInvitePlatformTenantOwner => Some platformActionOwnerInvite
  | RSuspendPlatformTenantOwner => Some platformActionOwnerSuspend
  | RReactivatePlatformTenantOwner => Some platformActionOwnerReactivate
  | RReassignPlatformTenantOwner => Some platformActionOwnerReassign
  | RSuspendPlatformTenant => Some platformActionTenantSuspend
  | RReactivatePlatformTenant => Some platformActionTenantReactivate
  | RInvitePlatformAdmin => Some platformActionAdminInvite
  | RRevokePlatformAdminInvitation => Some platformActionAdminInviteRevoke
  | RRevokePlatformAdmin => Some platformActionAdminRevoke
  | RReactivatePlatformAdmin => Some platformActionAdminReactivate
  | _ => None
  end.

(** The routes that change something want a reason. *)
Definition wants_reason (rt : Route) : bool :=
  match platform_permission rt with
  | Some p => negb (String.eqb p PermissionPlatformAdmin)
  | None => false
  end.

Definition gives_reason (v : AuditEvent) : Prop :=
  exists members reason, aud_Metadata v = JObj members /\ In ("reason", JStr reason) members /\
    reason <> "".

(** The organisation of the route's tenant, where it has one. *)
Definition names_tenant {HT : HttpText} (rt : Route) (r : Request) (v : AuditEvent) : Prop :=
  match rt with
  | RSearchPlatformTenants | RInvitePlatformAdmin | RRevokePlatformAdminInvitation
  | RRevokePlatformAdmin | RReactivatePlatformAdmin => aud_OrganisationID v = None
  | RCreatePlatformTenant => True
  | _ => exists id, uuid_Parse (PathValue r "id") = Some id /\ aud_OrganisationID v = nullableUUID id
  end.

Record audited {HT : HttpText} (rt : Route) (r : Request) (actor : string) (v : AuditEvent) : Prop := {
  au_actor : aud_ActorRef v = actor;
  au_action : platform_action rt = Some (aud_Action v);
  au_tenant : names_tenant rt r v;
  au_reason : wants_reason rt = true -> gives_reason v;
}.

(** ** The audit log *)

(** Nothing of the log is lost; and one event more that satisfies [P]. *)
Definition audit_grows (d d' : Db) : Prop := db_audit d ⊆ db_audit d'.

Definition logs (P : AuditEvent -> Prop) (d d' : Db) : Prop :=
  exists k v, db_audit d !! k = None /\ db_audit d' !! k = Some v /\ P v.

#[export] Instance audit_grows_preorder : PreOrder audit_grows.
Proof.
  split; unfold audit_grows; [intros d; reflexivity|]. intros x y z Hxy Hyz. by etrans.
Qed.

Lemma logs_later P d1 d2 d3 : audit_grows d1 d2 -> logs P d2 d3 -> logs P d1 d3.
Proof. intros Hg (k & v & Hn & Hv & HP). exists k, v. split_and!; [|done..]. by eapply lookup_weaken_None. Qed.

Lemma grows_insert d k v : db_audit d !! k = None -> audit_grows d (set_audit (<[k := v]> (db_audit d)) d).
Proof. intros Hn. by apply insert_subseteq. Qed.

#[local] Hint Extern 1 (audit_grows _ _) => first [by apply grows_insert|unfold audit_grows; reflexivity] : keeps.

Create HintDb audit.

Section Logs.
Context (P : AuditEvent -> Prop).

(** A part of a transaction that records such an event when it succeeds. *)
Definition Logs {A} (m : Go A) : Prop := Ends (fun _ => logs P) m.

Lemma logs_then {A B} (m : Go A) (k : A -> Go B) :
  OkKeeps audit_grows m -> (forall a, Logs (k a)) -> Logs (m ≫= k).
Proof.
  intros Hm Hk e s b s' (a & s1 & H1 & H)%bind_Ok. apply Hm in H1. eapply logs_later; [exact H1|].
  by eapply Hk.
Qed.

Lemma logs_record {A} req org action ty id ms (a : A) :
  (forall now u, P (new_audit (nullableUUID org) None (prc_ActorRef req) action ty id (json_of_map ms) now u)) ->
  Logs (recordPlatformAudit req org action ty id ms ;; mret a).
Proof.
  intros HP e s b s' H. unfold recordPlatformAudit, RecordAuditEvent in H. go_steps H.
  match goal with H0 : insert_row _ _ _ _ _ _ _ _ _ = _ |- _ =>
    apply insert_row_Ok in H0 as (-> & Hn & _ & ->) end.
  eexists _, _. split; [exact Hn|]. split; [apply lookup_insert_eq|apply HP].
Qed.
End Logs.
(** ** Handlers that record an event *)

Definition LogsTx {A} (P : AuditEvent -> Prop) (m : Go A) : Prop :=
  forall e s a s', st_saved s = Some (st_db s) -> m e s = (Ok a, s') -> logs P (st_db s) (st_db s').

Lemma logs_tx {A} P (m : Go A) : Logs P m -> LogsTx P m.
Proof. intros Hm e s a s' _ H. by apply Hm in H. Qed.

Lemma logs_service {A B} P (m : Go A) (k : A -> Go B) :
  TopKeeps audit_grows m -> (forall a, Logs P (k a)) -> LogsTx P (on_other_connection m ≫= k).
Proof.
  intros Hm Hk e s b s' Hs (a & s1 & H1 & H)%bind_Ok. apply Hk in H. eapply logs_later; [|exact H].
  unfold on_other_connection, saved_db in H1. rewrite Hs in H1.
  destruct (m e _) as [r2 s2] eqn:H2. injection H1 as _ <-. by apply Hm in H2 as [_ ?].
Qed.

Lemma platform_tx_Ok {A} req p (fn : Go A) e s a s' :
  inAuthorizedPlatformTx req p fn e s = (Ok a, s') ->
  exists s1 s2, st_db s1 = st_db s /\ st_saved s1 = Some (st_db s) /\ fn e s1 = (Ok a, s2) /\
    st_db s' = st_db s2.
Proof.
  unfold inAuthorizedPlatformTx. intros H. apply bind_Ok in H as (u & s0 & H0 & H).
  apply guard_err_Ok in H0 as (_ & -> & _).
  apply begin_step in H as [(err & [=] & _)|(s1 & Hd1 & Hs1 & _ & H)].
  apply (context_step _ _ _ _ _ _ (st_db s)) in H as [(err & [=] & _)|(s2 & Hd2 & Hs2 & _ & H)]; [|done..].
  apply bind_Ok in H as (b & s3 & H1 & H). apply or_rollback_Ok, exec_Ok in H1 as (_ & d & [= <- <-] & ->).
  apply bind_Ok in H as (u1 & s4 & H1 & H). apply or_rollback_Ok, guard_err_Ok in H1 as (_ & -> & _).
  apply bind_Ok in H as (a1 & s5 & H1 & H). apply or_rollback_Ok in H1.
  apply bind_Ok in H as (u2 & s6 & H2 & H). apply ret_Ok in H as [-> ->].
  eexists _, s5. split_and!; [| |exact H1|]; [done|done|].
  apply map_err_Ok in H2. unfold CommitPlatform in H2.
  repeat case_match; try done; by apply Commit_Ok in H2 as [-> _].
Qed.

Section Audits.
Context (P : AuditEvent -> Prop).

Definition Audits {A} (m : Http A) : Prop :=
  forall e s a s', m e s = (Ok (Ok a), s') -> logs P (st_db s) (st_db s').

Lemma audits_inert {A B} (m : Http A) (k : A -> Http B) :
  Inert m -> (forall a, Yields m a -> Audits (k a)) -> Audits (http_bind m k).
Proof.
  intros Hm Hk e s b s' (a & s1 & H1 & H)%http_bind_Ok.
  eapply Hk in H; [|by do 3 eexists]. by apply Hm in H1 as [-> _].
Qed.

Lemma audits_assoc {A B C} (m : Http A) (k : A -> Http B) (h : B -> Http C) :
  Audits (http_bind m (fun a => http_bind (k a) h)) -> Audits (http_bind (http_bind m k) h).
Proof. intros Hn e s r s' H. rewrite http_bind_assoc in H. by eapply Hn. Qed.

Lemma audits_ret {A B} (a : A) (k : A -> Http B) : Audits (k a) -> Audits (http_bind (http_ret a) k).
Proof. intros Hk e s r s' H. by apply (Hk e s r s'). Qed.

Lemma audits_tx {A B} req p write (fn : Go A) (k : A -> Http B) :
  LogsTx P fn -> (forall a, Inert (k a)) ->
  Audits (http_bind (calling write (inAuthorizedPlatformTx req p fn)) k).
Proof.
  intros Hfn Hk e s b s' (a & s1 & H1 & H)%http_bind_Ok. apply Hk in H as [-> _].
  apply calling_Ok, platform_tx_Ok in H1 as (s2 & s3 & Hd & Hs & Hf & ->). rewrite <- Hd in *.
  by apply Hfn in Hf.
Qed.
End Audits.

Lemma requireReason_yields t reason : Yields (requireReason t) reason -> reason <> "".
Proof.
  intros (e & s & s' & H). unfold requireReason in H. apply http_bind_Ok in H as (u & s1 & H1 & H).
  apply refuse_if_Ok in H1 as [Hne ->]. apply http_ret_Ok in H as [<- _]. by apply String.eqb_neq.
Qed.

Lemma decodeReason_yields r reason : Yields (decodePlatformStatusChangeReason r) reason -> reason <> "".
Proof.
  intros (e & s & s' & H). unfold decodePlatformStatusChangeReason in H.
  apply http_bind_Ok in H as (body & s1 & _ & H). eapply requireReason_yields. by do 3 eexists.
Qed.

Lemma pathUUID_yields {HT : HttpText} r name id :
  Yields (pathUUID r name) id -> uuid_Parse (PathValue r name) = Some id.
Proof.
  intros (e & s & s' & H). unfold pathUUID in H. destruct (uuid_Parse _); [|done].
  by apply http_ret_Ok in H as [-> _].
Qed.

Lemma gives_reason_map v ms reason :
  aud_Metadata v = json_of_map ms -> In ("reason", JStr reason) ms -> reason <> "" -> gives_reason v.
Proof.
  intros Hv Hin Hne. exists (sort_by key_leb ms), reason. split_and!; [done| |done].
  apply list_elem_of_In. apply sort_by_elem. by apply list_elem_of_In.
Qed.

Section Services.
Context {GT : GoText}.

Lemma identity_audit c : TopKeeps audit_grows (run_identity c).
Proof. apply top_of_keeps; [apply _|apply closed_identity|]. destruct c; solve_keeps. Qed.

Lemma service_audit {A} (m : Go A) c : run_identity c = discard m -> TopKeeps audit_grows m.
Proof. intros Hc. apply top_undiscard. change (TopKeeps audit_grows (discard m)). rewrite <- Hc. apply identity_audit. Qed.

Lemma invite_audit arg : TopKeeps audit_grows (PlatformInviteOwner arg).
Proof. by apply (service_audit _ (IInviteOwner arg)). Qed.
Lemma disable_audit arg : TopKeeps audit_grows (PlatformDisableOwnerMembership arg).
Proof. by apply (service_audit _ (IDisableOwner arg)). Qed.
Lemma reactivate_audit arg : TopKeeps audit_grows (PlatformReactivateOwnerMembership arg).
Proof. by apply (service_audit _ (IReactivateOwner arg)). Qed.
Lemma reassign_audit arg : TopKeeps audit_grows (PlatformReassignOwnership arg).
Proof. by apply (service_audit _ (IReassign arg)). Qed.

Lemma provision_audit arg : TopKeeps audit_grows (PlatformProvisionTenant arg).
Proof. apply top_of_keeps; [apply _|solve_closed|]. solve_keeps. Qed.
End Services.

Section Platform.
Context {GT : GoText} {HT : HttpText} {GN : GoNumber} {ET : ErrorTexts} {PT : PosText}
  {PL : PlatformText} {RD : ReportData}.
Context (cfg : Config).

Lemma needs_permission rt r p :
  isDevelopmentEnvironment (cfg_Environment cfg) = false -> platform_permission rt = Some p ->
  Needs touched (platform_admitted r p) (handle cfg rt r).
Proof.
  intros Hprod Hp. destruct rt; try discriminate Hp; injection Hp as <-; cbn [handle];
    lazymatch goal with |- Needs _ _ ?m => let h := get_head m in unfold h end;
    unfold changePlatformTenantStatus, changePlatformAdminStatus, changePlatformTenantOwnerStatus,
      platformTenantOwnerRequest, platformTenantRequest;
    repeat lazymatch goal with |- Needs _ _ (http_bind (http_bind _ _) _) => apply needs_assoc end;
    (apply needs_platform; [exact Hprod|]); solve_needs.
Qed.

(** *** The audit log *)

#[local] Hint Extern 1 (audit_grows _ _) => first [by apply grows_insert|unfold audit_grows; reflexivity] : keeps.

#[local] Hint Resolve provision_audit invite_audit disable_audit reactivate_audit reassign_audit : audit.

Ltac solve_logs :=
  lazymatch goal with
  | |- forall _, _ => intros ?; solve_logs
  | |- LogsTx _ (on_other_connection _ ≫= _) =>
      apply logs_service; [solve [eauto with audit]|]; cbv beta zeta; solve_logs
  | |- LogsTx _ (mbind _ _) => apply logs_tx; solve_logs
  | |- LogsTx _ ?m => let h := get_head m in progress unfold h; cbv beta zeta iota; solve_logs
  | |- Logs _ (recordPlatformAudit _ _ _ _ _ _ ;; mret _) => apply logs_record; intros ? ?; split
  | |- Logs _ (mbind _ _) => apply logs_then; [solve_ok|]; solve_logs
  | |- Logs _ ?m => let h := get_head m in progress unfold h; cbv beta zeta iota; solve_logs
  end.

Ltac solve_audits :=
  lazymatch goal with
  | |- forall _, _ => intros ?; solve_audits
  | |- Audits _ (let _ := _ in _) => cbv zeta; solve_audits
  | |- Audits _ (http_bind (http_bind _ _) _) => apply audits_assoc; cbv beta; solve_audits
  | |- Audits _ (http_bind (http_ret _) _) => apply audits_ret; cbn [fst snd]; solve_audits
  | |- Audits _ (http_bind (calling _ (inAuthorizedPlatformTx _ _ _)) _) =>
      apply audits_tx; [|intros ?; unfold writeJSON; typeclasses eauto]
  | |- Audits _ (http_bind _ _) => apply audits_inert; [typeclasses eauto|]; solve_audits
  | |- Audits _ ?m => let h := get_head m in progress unfold h; cbv beta zeta; solve_audits
  end.

(** The same of a whole handler, for the actor of the bearer's session. *)
Definition AuditsAs {A} (r : Request) (P : string -> AuditEvent -> Prop) (m : Http A) : Prop :=
  forall e s a s', st_saved s = None -> m e s = (Ok (Ok a), s') ->
    exists secret w s1, bearerCredential r e s = (Ok (Ok secret), s) /\
      ValidateWebSession secret e s = (Ok w, s1) /\ logs (P (actorRefForSession w)) (st_db s) (st_db s').

Lemma audits_as_assoc {A B C} r P (m : Http A) (k : A -> Http B) (h : B -> Http C) :
  AuditsAs r P (http_bind m (fun a => http_bind (k a) h)) -> AuditsAs r P (http_bind (http_bind m k) h).
Proof. intros Hn e s a s' Hs H. rewrite http_bind_assoc in H. by eapply Hn. Qed.

Lemma audits_context {A} r P (k : PlatformRequestContext -> Http A) :
  isDevelopmentEnvironment (cfg_Environment cfg) = false ->
  (forall req, Audits (P (prc_ActorRef req)) (k req)) ->
  AuditsAs r P (http_bind (platformRequestContext cfg r) k).
Proof.
  intros Hprod Hk e s a s' Hs (req & s1 & H1 & H)%http_bind_Ok.
  destruct (platformRequestContext_inv _ _ _ _ _ _ Hprod Hs H1)
    as [Hs1 [[(err & [=]) _]|(secret & w & Hv & Hb & [= ->])]].
  exists secret, w, s1. split_and!; [done|done|]. apply Hk in H. eapply logs_later; [|exact H].
  destruct (validate_touches _ _ _ _ _ Hs Hv) as [_ [Hseen _]].
  unfold audit_grows. rewrite Hseen. reflexivity.
Qed.

Lemma handle_audits rt r :
  isDevelopmentEnvironment (cfg_Environment cfg) = false -> is_some (platform_action rt) = true ->
  AuditsAs r (audited rt r) (handle cfg rt r).
Proof.
  intros Hprod Ha. destruct rt; try discriminate Ha; cbn [handle];
    lazymatch goal with |- AuditsAs _ _ ?m => let h := get_head m in unfold h end;
    unfold changePlatformTenantStatus, changePlatformAdminStatus, changePlatformTenantOwnerStatus,
      platformTenantOwnerRequest, platformTenantRequest;
    repeat lazymatch goal with |- AuditsAs _ _ (http_bind (http_bind _ _) _) => apply audits_as_assoc end;
    (apply audits_context; [exact Hprod|]); solve_audits.
  all: repeat match goal with
    | H : Yields (requireReason _) _ |- _ => apply requireReason_yields in H
    | H : Yields (decodePlatformStatusChangeReason _) _ |- _ => apply decodeReason_yields in H
    | H : Yields (pathUUID _ _) _ |- _ => apply pathUUID_yields in H
    end.
  all: solve_logs; try done; try (intros _; eapply gives_reason_map; [reflexivity|simpl; tauto|done]).
  all: simpl; eauto.
Qed.

(** C3. Only its administrators administer the platform: whatever a request to a
    route of the platform does in production - with any of its calls failing - it
    was either refused, with an error, having at most marked the bearer's session as
    used; or its bearer holds the secret of a live session, and the user of that
    session an enabled platform membership whose role grants the permission of the
    route. *)
Theorem platform_permission_required rt r p e d res d'
    (Hprod : isDevelopmentEnvironment (cfg_Environment cfg) = false)
    (Hp : platform_permission rt = Some p)
    (Hrun : run (handle cfg rt r) e d = (res, d')) :
  ((exists err, res = Ok (Err err)) /\ touched d d') \/
  (exists secret w d1, bearerCredential r e (start d) = (Ok (Ok secret), start d) /\
     run (ValidateWebSession secret) e d = (Ok w, d1) /\ usr_Status (wss_User w) = "active" /\
     platform_allows d (usr_ID (wss_User w)) p = true).
Proof.
  unfold run in Hrun. destruct (handle cfg rt r e (start d)) as [r1 s1] eqn:H. injection Hrun as <- <-.
  destruct (needs_permission _ r _ Hprod Hp _ (start d) _ _ eq_refl H) as [(secret & w & s2 & Hb & Hv & Ha)|?];
    [right|by left].
  assert (run (ValidateWebSession secret) e d = (Ok w, st_db s2)) as Hr by (unfold run; by rewrite Hv).
  destruct (validated_session _ _ _ _ _ Hr) as (_ & _ & p1 & _ & _ & _ & _ & _ & _ & Hu & Hact & _).
  exists secret, w, (st_db s2). split_and!; [done..|by rewrite Hu|done].
Qed.

(** C5. The administration of the platform leaves a trail: when a request to an
    audited route of the platform is answered with success in production, the audit
    log has an event it did not have before, with the actor of the bearer's session,
    the action of the route, the tenant of the route where it has one, and, when the
    route changes something, the reason that was given, which is not empty. *)
Theorem platform_success_audited rt r e d ans d'
    (Hprod : isDevelopmentEnvironment (cfg_Environment cfg) = false)
    (Ha : is_some (platform_action rt) = true)
    (Hrun : run (handle cfg rt r) e d = (Ok (Ok ans), d')) :
  exists secret w d1 k v, bearerCredential r e (start d) = (Ok (Ok secret), start d) /\
    run (ValidateWebSession secret) e d = (Ok w, d1) /\
    db_audit d !! k = None /\ db_audit d' !! k = Some v /\ audited rt r (actorRefForSession w) v.
Proof.
  apply run_Ok in Hrun as (s' & H & <-).
  destruct (handle_audits rt r Hprod Ha _ (start d) _ _ eq_refl H) as (secret & w & s1 & Hb & Hv & k & v & ?).
  exists secret, w, (st_db s1), k, v. split_and!; [done|by unfold run; rewrite Hv|tauto..].
Qed.
End Platform.

(** Petra suspends the sample restaurant; Olive, who owns it, may not. *)
Definition olive_suspends : Request :=
  sample_request_to RSuspendPlatformTenant olive_secret [] [("id", uuid_String 1)]
    (json_body [("reason", JStr "holiday")]).

Lemma platform_permission_required_witness :
  exists res d', run (handle production RSuspendPlatformTenant olive_suspends) (calm 150 2000000) platform_db
      = (res, d') /\
  ((exists err, res = Ok (Err err)) /\ touched platform_db d' \/
   exists secret w d1, bearerCredential olive_suspends (calm 150 2000000) (start platform_db)
       = (Ok (Ok secret), start platform_db) /\
     run (ValidateWebSession secret) (calm 150 2000000) platform_db = (Ok w, d1) /\
     usr_Status (wss_User w) = "active" /\
     platform_allows platform_db (usr_ID (wss_User w)) PermissionPlatformAdminWrite = true).
Proof.
  destruct (run (handle production RSuspendPlatformTenant olive_suspends) (calm 150 2000000) platform_db)
    as [res d'] eqn:H.
  exists res, d'. split; [reflexivity|].
  exact (platform_permission_required production RSuspendPlatformTenant olive_suspends
    PermissionPlatformAdminWrite _ _ _ _ eq_refl eq_refl H).
Defined.

Lemma platform_success_audited_witness :
  exists ans d', run (handle production RSuspendPlatformTenant suspend_request) (calm 150 2000000) platform_db
      = (Ok (Ok ans), d') /\
  exists secret w d1 k v, bearerCredential suspend_request (calm 150 2000000) (start platform_db)
      = (Ok (Ok secret), start platform_db) /\
    run (ValidateWebSession secret) (calm 150 2000000) platform_db = (Ok w, d1) /\
    db_audit platform_db !! k = None /\ db_audit d' !! k = Some v /\
    audited RSuspendPlatformTenant suspend_request (actorRefForSession w) v.
Proof.
  destruct (request_succeeds (handle production RSuspendPlatformTenant suspend_request)
    (calm 150 2000000) platform_db) as [ans H]; [vm_compute; reflexivity|].
  exists ans, (snd (run (handle production RSuspendPlatformTenant suspend_request) (calm 150 2000000) platform_db)).
  split; [exact H|].
  exact (platform_success_audited production RSuspendPlatformTenant suspend_request _ _ _ _ eq_refl eq_refl H).
Defined.

(** *** Invitations that fail *)

Section Invitations.
Context {GT : GoText} {HT : HttpText} {GN : GoNumber} {ET : ErrorTexts} {PT : PosText}
  {PL : PlatformText} {RD : ReportData}.

Definition audited_invitation (org : uuid) (v : AuditEvent) : Prop :=
  aud_Action v = platformActionOwnerInvite /\ aud_OrganisationID v = nullableUUID org.

(** An invitation that was not answered with success has done nothing; or it has made
    the owner, and there is no event of it, unless the answer of a commit was lost. *)
Definition invitation_outcome (r : Request) (e : Env) (d : Db)
    (res : result error (result ApiError Answer)) (d' : Db) : Prop :=
  members_keyed d -> served res = false ->
  touched d d' \/
  exists org, uuid_Parse (PathValue r "id") = Some org /\ owner_made org d d' /\
    (db_audit d' = db_audit d \/ lost_commit e /\ logs (audited_invitation org) d d').

Lemma touched_members d d' : touched d d' ->
  db_org_members d' = db_org_members d /\ db_users d' = db_users d /\ db_audit d' = db_audit d.
Proof. intros [Hs _]. unfold seen in Hs. rewrite Hs. by destruct d as [????????????[]]. Qed.

Lemma owner_made_later org d d1 d2 :
  db_org_members d2 = db_org_members d1 -> db_users d2 = db_users d1 -> owner_made org d d1 -> owner_made org d d2.
Proof. intros Hm Hu. unfold owner_made. by rewrite Hm, Hu. Qed.

Lemma recorded_members {A} req org action ty id ms (a : A) e s b s' :
  (recordPlatformAudit req org action ty id ms ;; mret a) e s = (Ok b, s') ->
  db_org_members (st_db s') = db_org_members (st_db s) /\ db_users (st_db s') = db_users (st_db s).
Proof.
  unfold recordPlatformAudit, RecordAuditEvent. intros H. go_steps H.
  match goal with H0 : insert_row _ _ _ _ _ _ _ _ _ = _ |- _ =>
    apply insert_row_Ok in H0 as (_ & _ & _ & ->) end. done.
Qed.

(** The caller of a platform's request is found by marking a session as used. *)
Lemma context_touches cfg r : TopKeeps touched (platformRequestContext cfg r).
Proof.
  assert (forall A (m : Http A), Inert m -> TopKeeps touched m) as Hi.
  { intros A m Hm e s res s' Hs H. apply Hm in H as [-> _]. by split. }
  unfold platformRequestContext. cbv zeta. refine (top_http_bind _ _ _ (Hi _ _ _) _). intros _.
  destruct (_ && _).
  - destruct (userProfileIDFromActorRef _); [|apply Hi, _].
    refine (top_http_bind _ _ _ _ _); [|intros ?; apply Hi, _].
    refine (top_calling _ _ _ _). apply (top_exec _). unfold quiet. solve_body.
  - refine (top_http_bind _ _ _ (Hi _ _ _) _). intros _. refine (top_http_bind _ _ _ (Hi _ _ _) _). intros secret.
    refine (top_http_bind _ _ _ _ _); [|intros ?; apply Hi, _]. refine (top_calling _ _ _ _).
    apply validate_touches.
Qed.

Lemma invitation_answers cfg r : Answers (invitation_outcome r) (invitePlatformTenantOwner cfg r).
Proof.
  unfold invitePlatformTenantOwner, platformTenantRequest. apply answers_assoc.
  apply (answers_after _ touched); [| |apply context_touches|].
  - intros e d d1 res d2 Ht Hres Hkey Hno. destruct (touched_members _ _ Ht) as (Hm & _ & Ha).
    destruct Hres as [?|(org & Hp & Hown & Haud)]; [|done|left; by etrans|].
    + unfold members_keyed. by rewrite Hm.
    + right. exists org. unfold owner_made in Hown. unfold logs in Haud. rewrite Hm in Hown. rewrite Ha in Haud.
      by split_and!.
  - intros e d res d' Ht _ _. by left.
  - intros req. assert (forall e d res, served res = false -> invitation_outcome r e d res d) as Hrefused.
    { intros e d res _ _ _. by left. }
    apply answers_assoc, answers_inert; [done|apply _|]. intros org Horg%pathUUID_yields.
    apply answers_ret. apply answers_inert; [done|apply _|]. intros body _.
    apply answers_inert; [done|apply _|]. intros reason _.
    apply answers_service; [done| | | |]; cbn [fst snd].
    + solve_intx.
    + intros m e s. by eexists.
    + intros e s r1 s1 res _ H Hserved Hkey _. apply invite_effect in H as [[_ ->]|[Hown Haud]]; [by left| |done].
      right. eauto.
    + intros e s m s1 s2 c s3 res _ H Hd Hk Hcase Hkey Hno.
      apply invite_effect in H as [[Hf _]|[Hown Haud]]; [done| |done]. right. exists org.
      destruct Hcase as [Hyes|Hlost]; [congruence|]. pose proof (recorded_members _ _ _ _ _ _ _ _ _ _ _ Hk) as [Hm Hu].
      rewrite Hd in Hm, Hu. split_and!; [done|by apply (owner_made_later _ _ (st_db s1))|right; split; [done|]].
      apply (logs_record (audited_invitation org)) in Hk; [|intros ? ?; by split].
      unfold logs in *. by rewrite Hd, Haud in Hk.
Qed.
(** C8. The trail of an invitation can be missing, but only in one way: the service
    that makes an owner commits in a transaction of its own, before the event is
    recorded.  So whenever an invitation of an owner is not answered with success -
    refused, or failed in whichever call - either nothing happened but that the
    bearer's session is marked as used; or the tenant of the path has an owner it did
    not have, no other membership changed, and there is no event of it in the audit
    log - unless the event is there and it is the answer of a commit that was lost. *)
Theorem failed_audit_keeps_owner cfg r e d res d'
    (Hkey : members_keyed d)
    (Hrun : run (handle cfg RInvitePlatformTenantOwner r) e d = (res, d'))
    (Hno : served res = false) :
  touched d d' \/
  exists org, uuid_Parse (PathValue r "id") = Some org /\ owner_made org d d' /\
    (db_audit d' = db_audit d \/ lost_commit e /\ logs (audited_invitation org) d d').
Proof.
  apply run_inv in Hrun as (s' & H & <-). by apply (invitation_answers cfg r e (start d) res s').
Qed.
End Invitations.

(** Recording the event fails: the restaurant has a new owner, and no event. *)
Definition failed_invitation : result error (result ApiError Answer) * Db :=
  run (handle production RInvitePlatformTenantOwner invite_request) (failing_at 23 150 2000000) platform_db.

Definition more_owners (d d' : Db) : bool :=
  (length (map_to_list (db_org_members d)) <? length (map_to_list (db_org_members d')))%nat.

Lemma platform_members : members_keyed platform_db.
Proof.
  intros k m Hk. apply elem_of_map_to_list in Hk.
  assert (forallb (fun km => (omb_ID (snd km) =? fst km)%N) (map_to_list (db_org_members platform_db)) = true) as H
    by (vm_compute; reflexivity).
  rewrite forallb_forall in H. apply N.eqb_eq, (H (k, m)). by apply list_elem_of_In.
Qed.

Lemma failed_audit_keeps_owner_witness :
  exists err d', failed_invitation = (Ok (Err err), d') /\ ape_Status err = StatusInternalServerError /\
    exists org, uuid_Parse (PathValue invite_request "id") = Some org /\ owner_made org platform_db d' /\
      db_audit d' = ∅.
Proof.
  assert (bool_decide (status_of (fst failed_invitation) = Some StatusInternalServerError)
    && more_owners platform_db (snd failed_invitation)
    && (length (map_to_list (db_audit (snd failed_invitation))) =? 0)%nat = true) as H by (vm_compute; reflexivity).
  apply andb_prop in H as [[Hs%bool_decide_eq_true Hmore%Nat.ltb_lt]%andb_prop Ha%Nat.eqb_eq].
  apply length_zero_iff_nil, map_to_list_empty_iff in Ha. destruct failed_invitation as [res d'] eqn:Hrun. cbn [fst snd] in *.
  destruct res as [[ans|err]|err]; try discriminate Hs. exists err, d'. split; [reflexivity|].
  split; [by injection Hs|]. unfold failed_invitation in Hrun.
  destruct (failed_audit_keeps_owner production invite_request _ _ _ _ platform_members Hrun eq_refl)
    as [Ht|(org & Hp & Hown & _)].
  - apply touched_members in Ht as [Hm _]. rewrite Hm in Hmore. lia.
  - exists org. by split_and!.
Defined.


(** ** The last administrator *)

Section Lockout.
Context {GT : GoText} {GN : GoNumber} {ET : ErrorTexts} {PT : PosText}
  {HT : HttpText} {PL : PlatformText} {RD : ReportData}.

Definition has_admin (d : Db) : Prop := map_any active_platform_admin (db_platform_members d) = true.
Definition admin_kept (d d' : Db) : Prop := has_admin d -> has_admin d'.

#[local] Instance admin_kept_preorder : PreOrder admin_kept.
Proof. split; [intros d H; exact H|]. intros x y z H1 H2 Hx. auto. Qed.

Lemma admin_same d d' : db_platform_members d' = db_platform_members d -> admin_kept d d'.
Proof. unfold admin_kept, has_admin. by intros ->. Qed.

Lemma map_any_insert {A} (f : A -> bool) (m : gmap N A) k x :
  m !! k = None -> map_any f m = true -> map_any f (<[k := x]> m) = true.
Proof.
  intros Hk. rewrite <- !not_false_iff_true, !map_any_false. intros Hm H. apply Hm. intros j y Hj.
  apply (H j y). rewrite lookup_insert_ne; [done|]. congruence.
Qed.

(** The trigger looks at every update, and an insertion disables nobody. *)
Lemma admin_CreatePlatformMembership user role by_ :
  Keeps admin_kept (CreatePlatformMembership user role by_).
Proof.
  apply (keeps_exec admin_kept). intros now u d a d' H.
  destruct (select_first _ _ _ _ _ _) as [[m dm]|err].
  - unfold res_bind at 1 in H. destruct (update_row _ _ _ _ _ _ _ _ _) as [[r dr]|err]; [|done].
    unfold lockout_guard, check in H. cbn [snd] in H. intros _. unfold has_admin, active_platform_admin.
    destruct (map_any _ _) eqn:Hany; [|done]. injection H as <- <-. exact Hany.
  - apply insert_row_Ok in H as (-> & Hn & _ & ->). intros Hd. by apply map_any_insert.
Qed.

#[local] Hint Resolve admin_CreatePlatformMembership : keeps.
#[local] Hint Extern 1 (admin_kept _ _) => (let H := fresh in intros H; exact H) : keeps.

Lemma identity_keeps_admin c : Keeps admin_kept (run_identity c).
Proof. destruct c; solve_keeps. Qed.
Lemma floor_keeps_admin c : Keeps admin_kept (run_command c).
Proof. destruct c; solve_keeps. Qed.
Lemma layout_keeps_admin c : Keeps admin_kept (run_layout c).
Proof. destruct c; solve_keeps. Qed.

#[local] Instance admin_backend : Backend admin_kept anything.
Proof.
  split; try (intros; intros e s r s' H; exact I); [apply _..| | | | | | |].
  - intros b v _ Hleft Hb. unfold admin_left, platform_members_updated in Hleft.
    destruct (bool_decide _) eqn:Hsame; [|by apply Hleft].
    apply bool_decide_eq_true in Hsame. unfold has_admin. by rewrite Hsame.
  - intros c. apply floor_top; [apply _|apply floor_keeps_admin].
  - intros c _. apply identity_top; [apply _|apply identity_keeps_admin].
  - intros c. apply layout_top; [apply _|apply layout_keeps_admin].
  - intros c. apply integration_top; [apply _|intros x d H; exact H|apply floor_keeps_admin].
  - intros c. apply analytics_of; [apply _|..]; by intros x d H.
  - intros m d H. exact H.
Qed.

(** C6. Nobody locks the platform: whatever requests of the backend arrive, revocations
    of administrators, revoked invitations and logins that accept an invitation among
    them, in any order and with any of their calls failing, a platform that has an
    active [platform_admin] has one afterwards. *)
Theorem platform_never_locked_out d0 d
    (Hd0 : has_admin d0) (Hhist : system_history d0 d) : has_admin d.
Proof.
  revert Hd0. apply (system_history_keeps admin_kept); [|exact Hhist]. intros c e d1 r d2.
  apply (backend_keeps admin_kept anything). intros arg. apply reassign_top; [apply _|apply identity_keeps_admin].
Qed.
End Lockout.

(** Petra tries to revoke herself. *)
Definition revoke_herself : Request :=
  sample_request_to RRevokePlatformAdmin petra_secret [] [("id", uuid_String 30)]
    (json_body [("reason", JStr "leaving")]).

Lemma platform_never_locked_out_witness :
  has_admin platform_db /\
  exists res d', run (run_system (SHttp production RRevokePlatformAdmin revoke_herself))
      (calm 150 2000000) platform_db = (res, d') /\ has_admin d'.
Proof.
  split; [vm_compute; reflexivity|].
  destruct (run (run_system (SHttp production RRevokePlatformAdmin revoke_herself))
    (calm 150 2000000) platform_db) as [res d'] eqn:H.
  exists res, d'. split; [reflexivity|].
  refine (platform_never_locked_out platform_db d' _ (system_next _ _ _ _ _ _ (system_start _) H)).
  vm_compute. reflexivity.
Defined.
