(* ===== verification/RouteTheorems.v ===== *)
(** The policies of the tenants' routes: the API derives them from the text of a
    path, here they are declared route by route; and what a request of a tenant must
    show. *)

From S2P Require Import Prelude Json Crypto Schema AnalyticsQueries GoTx Store Queries Tokens IdentityQueries LayoutQueries Identity Memberships Onboarding Integrations Outbox ReferencePOS RateLimiter Http Dto PlatformQueries Auth Platform Api Routes TxFacts Steps IdentityFacts IntegrationFacts SystemCommands IdentityTheorems Guards Samples IdentitySamples SystemSamples.
#[local] Open Scope string_scope.
#[local] Open Scope Z_scope.
#[local] Open Scope list_scope.

(** ** Declared policies *)

Inductive principals : Type := UsersOnly | UsersAndDevices.

Definition tenant_policy (rt : Route) : option (string * principals) :=
  match rt with
  | RGetOrganisation | RUpdateOrganisation => Some (PermissionOrganisationManage, UsersOnly)
  | RListMemberships | RCreateMembership | RUpdateMembershipRole | RDisableMembership =>
      Some (PermissionOrganisationManage, UsersOnly)
  | RGetOwnerSnapshot | RGetLayoutEditorSnapshot | RListTableQRCapabilities =>
      Some (PermissionLayoutRead, UsersOnly)
  | RGetLocation | RListFloors | RListZones | RListTables | RGetTable =>
      Some (PermissionLayoutRead, UsersAndDevices)
  | RUpdateLocation => Some (PermissionLocationManage, UsersOnly)
  | RCreateFloor | RUpdateFloor | RArchiveFloor | RRestoreFloor | RCreateZone | RUpdateZone
  | RArchiveZone | RCreateTable | RUpdateTable | RArchiveTable | RRestoreTable
  | RExportTableQRCapability | RRotateTableQRCapability | RRevokeTableQRCapability =>
      Some (PermissionLayoutWrite, UsersOnly)
  | RGetLocationState | RListAssists => Some (PermissionOperationsRead, UsersAndDevices)
  | ROccupyTable | RClearTable | RAcknowledgeAssist | RResolveAssist | RCancelAssist =>
      Some (PermissionOperationsWrite, UsersAndDevices)
  | RGetAuditTimeline => Some (PermissionAuditRead, UsersOnly)
  | RListDevices | RCreateDevicePairingCode | RRevokeDevice => Some (PermissionDeviceManage, UsersOnly)
  | RListIntegrations | RGetIntegrationHealth | RListIntegrationMappings | RListIntegrationWebhooks
  | RListIntegrationDiscrepancies => Some (PermissionIntegrationsRead, UsersOnly)
  | RUpdateIntegrationMapping | RReplayIntegrationWebhook | RReconcileIntegration =>
      Some (PermissionIntegrationsManage, UsersOnly)
  | RGetAnalyticsSummary | RGetAnalyticsTimeseries | RGetAnalyticsComparison | RGetAnalyticsDataQuality
  | RRebuildAnalytics | RListServicePeriods | RCreateServicePeriod | RUpdateServicePeriod
  | RArchiveServicePeriod => Some (PermissionAnalyticsRead, UsersOnly)
  | _ => None
  end.

(** The wildcards of a route are UUIDs, but for the scope of a membership. *)
Definition wildcard_ok {HT : HttpText} (r : Request) (seg : segment) : bool :=
  match seg with
  | Lit _ => true
  | Wild name =>
      if String.eqb name "scope"
      then String.eqb (PathValue r name) "organisation" || String.eqb (PathValue r name) "location"
      else is_some (uuid_Parse (PathValue r name))
  end.

(** ** Texts of paths *)

Lemma bytes_append s t : bytes_of_string (s +:+ t) = bytes_of_string s ++ bytes_of_string t.
Proof.
  induction s as [|c s IH]; [done|].
  change (c :: bytes_of_string (s +:+ t) = c :: (bytes_of_string s ++ bytes_of_string t)). by rewrite IH.
Qed.

Lemma bytes_inj s t : bytes_of_string s = bytes_of_string t -> s = t.
Proof. intros H. rewrite <- (string_of_bytes_of_string s), H. apply string_of_bytes_of_string. Qed.

Lemma has_suffix_spec p s : has_suffix p s = true <-> bytes_of_string p `suffix_of` bytes_of_string s.
Proof.
  induction s as [|c s IH]; simpl; rewrite orb_true_iff, String.eqb_eq.
  - split; [intros [->|[=]]; done|]. intros H%suffix_nil_inv. left. by apply bytes_inj.
  - rewrite IH. split; [intros [->|H]; [done|by apply suffix_cons_r]|].
    destruct p as [|d p]; [intros _; right; apply suffix_nil|].
    intros [H|H]%suffix_cons_inv; [left; by apply bytes_inj|by right].
Qed.

(** A suffix no longer than the end of a text is a suffix of that end. *)
Lemma has_suffix_end p s t : (length (bytes_of_string p) <= length (bytes_of_string t))%nat ->
  has_suffix p (s +:+ t) = has_suffix p t.
Proof.
  intros Hl. apply eq_true_iff_eq. rewrite !has_suffix_spec, bytes_append. split; intros [k H].
  - apply app_eq_inv in H as [(l & _ & H)|(l & _ & H)]; [|by exists l].
    rewrite H, length_app in Hl. destruct l; [by exists []|simpl in Hl; lia].
  - exists (bytes_of_string s ++ k). by rewrite H, (assoc_L app).
Qed.

(** The characters of an identifier. *)
Lemma uuid_text_shape s : uuid_text s = true ->
  exists a m z, bytes_of_string s = a :: m ++ [z] /\ (30 <= length m)%nat /\
    Forall (fun c => uuid_char c = true) m.
Proof.
  unfold uuid_text. cbv zeta. rewrite andb_true_iff, Nat.leb_le, forallb_forall. intros [Hl Hm].
  destruct (bytes_of_string s) as [|a l]; [simpl in Hl; lia|]. cbn [tl length] in *.
  destruct (exists_last (l := l)) as (m & z & ->); [by intros ->; simpl in Hl; lia|].
  rewrite removelast_last in Hm. exists a, m, z. split_and!; [done| |].
  - rewrite length_app in Hl. simpl in Hl. lia.
  - apply Forall_forall. intros c Hc. apply Hm. by apply list_elem_of_In.
Qed.

(** A prefix has the characters of its text. *)
Lemma has_prefix_spec p s : has_prefix p s = true <-> bytes_of_string p `prefix_of` bytes_of_string s.
Proof.
  revert s. induction p as [|c p IH]; intros s; simpl.
  - split; [intros _; apply prefix_nil|done].
  - destruct s as [|d s]; simpl.
    + split; [done|]. intros H%prefix_nil_inv. done.
    + rewrite andb_true_iff, Ascii.eqb_eq, IH. split.
      * intros [-> H]. by apply prefix_cons.
      * intros H. split; [by apply prefix_cons_inv_1 in H|by apply prefix_cons_inv_2 in H].
Qed.

(** No identifier ends with the name of a command. *)
Lemma id_no_suffix p s : uuid_text s = true -> (1 <= length (bytes_of_string p) <= 30)%nat ->
  has_suffix (String "/" p) s = false.
Proof.
  intros (a & m & z & Hs & Hm & Hall)%uuid_text_shape Hl. apply not_true_is_false.
  rewrite has_suffix_spec, Hs. intros [[|b k] H]; cbn [bytes_of_string app] in H.
  - injection H as _ H. apply (f_equal length) in H. rewrite length_app in H. simpl in H. lia.
  - injection H as _ H. destruct (exists_last (l := bytes_of_string p)) as (q & y & Hq).
    { intros Hq. rewrite Hq in Hl. simpl in Hl. lia. }
    rewrite Hq, app_comm_cons, (assoc_L app) in H. apply app_inj_2 in H as [-> _]; [|done].
    rewrite Forall_app, Forall_cons in Hall. destruct Hall as (_ & [=] & _).
Qed.

(** The paths of the capabilities' routes are recognised by a part of them, which no
    identifier completes. *)
Definition qr_part := "/qr-capabilities".

Lemma no_slash_contains m t : Forall (fun c => uuid_char c = true) m ->
  contains qr_part (string_of_bytes m +:+ t) = contains qr_part t.
Proof.
  induction 1 as [|c m Hc _ IH]; [done|].
  change (contains qr_part (String c (string_of_bytes m +:+ t)) = contains qr_part t).
  cbn [contains]. rewrite IH. destruct (has_prefix qr_part _) eqn:Hp; [|done].
  apply has_prefix_spec, prefix_cons_inv_1 in Hp as <-. done.
Qed.

Lemma bytes_string_of_bytes l : bytes_of_string (string_of_bytes l) = l.
Proof. induction l as [|c l IH]; simpl; [done|by rewrite IH]. Qed.

Lemma contains_cons c s :
  has_prefix qr_part (String c s) = false -> contains qr_part (String c s) = contains qr_part s.
Proof. intros H. cbn [contains]. by rewrite H. Qed.

Lemma contains_id s t : uuid_text s = true -> has_prefix "q" t = false ->
  contains qr_part (String "/" (s +:+ t)) = contains qr_part t.
Proof.
  intros (a & m & z & Hs & Hm & Hall)%uuid_text_shape Ht.
  assert (s +:+ t = String a (string_of_bytes m +:+ String z t)) as ->.
  { apply bytes_inj. rewrite bytes_append, Hs. cbn [bytes_of_string].
    rewrite bytes_append, bytes_string_of_bytes. cbn [bytes_of_string].
    by rewrite <- app_comm_cons, <- (assoc_L app). }
  rewrite !contains_cons.
  - rewrite no_slash_contains by done. apply contains_cons. apply not_true_is_false.
    intros H%has_prefix_spec%prefix_cons_inv_2. destruct t as [|c t]; [by apply prefix_nil_not in H|].
    by apply prefix_cons_inv_1 in H as <-.
  - apply not_true_is_false. intros H%has_prefix_spec. cbn [bytes_of_string] in H.
    rewrite bytes_append, bytes_string_of_bytes in H. apply prefix_cons_inv_2 in H.
    destruct Hall as [|c m Hc _]; [simpl in Hm; lia|]. by apply prefix_cons_inv_1 in H as <-.
  - apply not_true_is_false. intros H%has_prefix_spec. cbn [bytes_of_string] in H.
    rewrite bytes_append, bytes_string_of_bytes in H. do 2 apply prefix_cons_inv_2 in H.
    destruct m as [|c0 [|c1 [|c2 [|c3 [|c4 m]]]]]; simpl in Hm; try lia.
    do 4 apply prefix_cons_inv_2 in H. apply prefix_cons_inv_1 in H as <-.
    rewrite !Forall_cons in Hall. destruct Hall as (_ & _ & _ & _ & [=] & _).
Qed.

Lemma append_cons c s t : String c s +:+ t = String c (s +:+ t).
Proof. done. Qed.
Lemma append_nil_l t : "" +:+ t = t.
Proof. done. Qed.
Lemma append_assoc s t u : (s +:+ t) +:+ u = s +:+ (t +:+ u).
Proof. apply bytes_inj. by rewrite !bytes_append, (assoc_L app). Qed.

Definition table_path (id rest : string) : string := "/v1/tables/" +:+ (id +:+ rest).

Lemma table_command id rest p : (length (bytes_of_string p) <= length (bytes_of_string rest))%nat ->
  has_suffix p (table_path id rest) = has_suffix p rest.
Proof. intros Hl. unfold table_path. rewrite <- append_assoc. by apply has_suffix_end. Qed.

Lemma table_no_command id p : uuid_text id = true -> (1 <= length (bytes_of_string p) <= 30)%nat ->
  has_suffix (String "/" p) (table_path id "") = false.
Proof.
  intros Hid Hp. unfold table_path. rewrite <- append_assoc.
  assert (("/v1/tables/" +:+ id) +:+ "" = "/v1/tables/" +:+ id) as ->.
  { apply bytes_inj. rewrite !bytes_append. by rewrite app_nil_r. }
  pose proof Hid as (a & m & z & Hs & Hm & _)%uuid_text_shape.
  rewrite has_suffix_end; [by apply id_no_suffix|]. rewrite Hs. simpl. rewrite length_app. simpl. lia.
Qed.

(** ** The policies *)

Section Policies.
Context {HT : HttpText}.

(** The parts of a path that literals do not decide. *)
Ltac path_facts r Hp :=
  let no_qr := (repeat first [rewrite contains_id by (by auto) | rewrite contains_cons by reflexivity];
                reflexivity) in
  first [ assert (contains qr_part (req_Path r) = false) as Hqr by (rewrite Hp; no_qr)
        | assert (contains qr_part (req_Path r) = true) as Hqr by (rewrite Hp; no_qr) ];
  try first
    [ assert (floor_command (req_Path r) = false) as Hfc by
        (rewrite Hp; first [ reflexivity
          | change (floor_command (table_path (PathValue r "id") "") = false); unfold floor_command;
            rewrite !table_no_command by (first [by auto|simpl; lia]); reflexivity
          | lazymatch goal with |- context [PathValue r "id" +:+ ?t] =>
              change (floor_command (table_path (PathValue r "id") t) = false); unfold floor_command;
              rewrite !table_command by (simpl; lia); reflexivity end ])
    | assert (floor_command (req_Path r) = true) as Hfc by
        (rewrite Hp; lazymatch goal with |- context [PathValue r "id" +:+ ?t] =>
              change (floor_command (table_path (PathValue r "id") t) = true); unfold floor_command;
              apply orb_true_iff; first [ left; rewrite table_command by (simpl; lia); reflexivity
                                        | right; rewrite table_command by (simpl; lia); reflexivity ] end) ].

Lemma wildcard_uuid r name :
  String.eqb name "scope" = false -> wildcard_ok r (Wild name) = true ->
  uuid_text (PathValue r name) = true.
Proof.
  unfold wildcard_ok. intros ->. destruct (uuid_Parse _) eqn:H; [|done]. intros _. by eapply uuid_Parse_text.
Qed.

Lemma wildcard_scope r : wildcard_ok r (Wild "scope") = true ->
  PathValue r "scope" = "organisation" \/ PathValue r "scope" = "location".
Proof. unfold wildcard_ok. simpl. by rewrite orb_true_iff, !String.eqb_eq. Qed.

Lemma derived_policy rt r p who
    (Hpol : tenant_policy rt = Some (p, who)) (Hr : routed rt r)
    (Hw : forallb (wildcard_ok r) (snd (pattern rt)) = true) :
  pol_Permission (routeAuthPolicy r) = p /\
  pol_AllowDevice (routeAuthPolicy r) = match who with UsersOnly => false | UsersAndDevices => true end.
Proof.
  destruct Hr as [Hm Hp].
  destruct rt; try discriminate Hpol; injection Hpol as <- <-; cbn [pattern fst snd path_of forallb] in *;
    rewrite ?append_cons, ?append_nil_l in Hp;
    repeat match goal with
    | H : _ && _ = true |- _ => apply andb_prop in H as [? H]
    | H : wildcard_ok r (Wild "scope") = true |- _ =>
        apply wildcard_scope in H as [H|H]; rewrite H, ?append_cons, ?append_nil_l in Hp
    | H : wildcard_ok r (Wild _) = true |- _ => apply wildcard_uuid in H; [|reflexivity]
    end;
    path_facts r Hp;
    unfold routeAuthPolicy, routePermission, routeRequiresUser, routeAllowsDevice, read_or, is_get;
    cbn [pol_Permission pol_AllowDevice]; fold qr_part; rewrite ?Hqr, ?Hfc, ?Hp, ?Hm; try (split; reflexivity).
Qed.

(** C7. The policies that the API derives from the text of a path are the declared ones:
    for every route of a tenant, and every request that the mux routes to it whose
    wildcards are identifiers, [routeAuthPolicy], which looks at prefixes, suffixes and
    parts of the path, yields the permission that is declared for the route, and
    admits devices exactly where the declaration does. *)
Theorem route_policies_declared rt r p who
    (Hpol : tenant_policy rt = Some (p, who)) (Hr : routed rt r)
    (Hw : forallb (wildcard_ok r) (snd (pattern rt)) = true) :
  pol_Permission (routeAuthPolicy r) = p /\
  pol_AllowDevice (routeAuthPolicy r) = match who with UsersOnly => false | UsersAndDevices => true end.
Proof. by apply (derived_policy rt). Qed.
End Policies.

(** ** Permissions of a session *)

Lemma hasPermission_In l p : hasPermission l p = true <-> In p l.
Proof.
  unfold hasPermission. rewrite List.existsb_exists. split.
  - by intros (x & Hx & ->%String.eqb_eq).
  - intros Hp. exists p. split; [done|apply String.eqb_refl].
Qed.

Lemma append_new_In l acc x : In x (foldl append_new acc l) -> In x acc \/ In x l.
Proof.
  revert acc. induction l as [|y l IH]; intros acc; simpl; [by left|]. intros [H|H]%IH; [|by right; right].
  unfold append_new in H. destruct (hasPermission acc y); [by left|].
  apply in_app_iff in H as [H|[->|[]]]; [by left|by right; left].
Qed.

Lemma sessionRoles_In w org loc role : In role (sessionRoles w org loc) ->
  exists m, In m (wss_Memberships w) /\ allows_scope org loc m = true /\ mem_Role m = role.
Proof.
  unfold sessionRoles. generalize (wss_Memberships w). intros ms.
  assert (forall acc, In role (foldl (fun roles m =>
    if negb (mem_OrganisationID m =? org)%N then roles
    else if (loc =? uuid_Nil)%N && negb (mem_LocationID m =? uuid_Nil)%N then roles
    else if negb (loc =? uuid_Nil)%N && negb (mem_LocationID m =? uuid_Nil)%N
            && negb (mem_LocationID m =? loc)%N then roles
    else if String.eqb (mem_Role m) "" then roles
    else append_new roles (mem_Role m)) acc ms) ->
    In role acc \/ exists m, In m ms /\ allows_scope org loc m = true /\ mem_Role m = role) as H.
  { induction ms as [|m ms IH]; intros acc; simpl; [by left|].
    intros [H|(m' & ? & ?)]%IH; [|by right; exists m'; auto].
    repeat case_match; try by left. unfold append_new in H.
    destruct (hasPermission acc (mem_Role m)); [by left|].
    apply in_app_iff in H as [H|[<-|[]]]; [by left|]. right. exists m. split_and!; [by left| |done].
    unfold allows_scope. repeat match goal with
      | H : negb _ = false |- _ => apply negb_false_iff in H as ->
      end.
    destruct (loc =? uuid_Nil)%N, (mem_LocationID m =? uuid_Nil)%N, (mem_LocationID m =? loc)%N; done. }
  intros [[]|Hm]%H. exact Hm.
Qed.

Lemma sessionPermissions_In w org loc p : hasPermission (sessionPermissions w org loc) p = true ->
  exists m, In m (wss_Memberships w) /\ allows_scope org loc m = true /\
    hasPermission (rolePermissions (mem_Role m)) p = true.
Proof.
  rewrite hasPermission_In. unfold sessionPermissions.
  assert (forall roles acc, In p (foldl (fun permissions role =>
    foldl append_new permissions (rolePermissions role)) acc roles) ->
    In p acc \/ exists role, In role roles /\ In p (rolePermissions role)) as H.
  { induction roles as [|role roles IH]; intros acc; simpl; [by left|].
    intros [H|(x & ? & ?)]%IH; [|by right; exists x; auto].
    apply append_new_In in H as [H|H]; [by left|]. right. exists role. auto. }
  intros [[]|(role & (m & Hm & Hs & <-)%sessionRoles_In & Hp)]%H. exists m.
  split_and!; [done..|]. by apply hasPermission_In.
Qed.

(** ** What a tenant's request must show *)

Section Tenants.
Context {GT : GoText} {HT : HttpText} {GN : GoNumber} {ET : ErrorTexts} {PT : PosText}
  {PL : PlatformText} {RD : ReportData}.
Context (cfg : Config).

Definition header_uuid (r : Request) (name : string) : option uuid :=
  uuid_Parse (TrimSpace (Header_Get r name)).

(** The tenant its headers name; the location may be missing. *)
Record names_scope (r : Request) (org loc : uuid) : Prop := {
  nsc_org : header_uuid r headerOrganisationID = Some org;
  nsc_loc : loc = uuid_Nil \/ header_uuid r headerLocationID = Some loc;
}.

(** A user: the bearer's session is live, and one of its memberships covers the
    tenant and has a role with the permission. *)
Definition user_admitted (r : Request) (p : string) (e : Env) (d : Db) (org loc : uuid) : Prop :=
  exists secret w d1 m, bearerCredential r e (start d) = (Ok (Ok secret), start d) /\
    run (ValidateWebSession secret) e d = (Ok w, d1) /\ usr_Status (wss_User w) = "active" /\
    In m (wss_Memberships w) /\ member_of d (wse_UserProfileID (wss_Session w)) m /\
    allows_scope org loc m = true /\
    hasPermission (rolePermissions (mem_Role m)) p = true.

(** A device: the bearer's credential is live, and its trusted device is of the tenant
    and of a type with the permission. *)
Definition device_admitted (r : Request) (p : string) (e : Env) (d : Db) (org loc : uuid) : Prop :=
  exists secret d1 k c v t, bearerCredential r e (start d) = (Ok (Ok secret), start d) /\ touched d d1 /\
    db_credentials d1 !! k = Some c /\ LookupPrefix secret = Ok (dcr_LookupPrefix c) /\
    HashSecret secret = Ok (dcr_CredentialHash c) /\ dcr_RevokedAt c = None /\
    opt_all (fun x => pg_time (env_pgclock e t) <? x) (dcr_ExpiresAt c) = true /\
    db_devices d1 !! dcr_DeviceID c = Some v /\ dev_trusted v = true /\
    dev_OrganisationID v = org /\ (loc = uuid_Nil \/ dev_LocationID v = Some loc) /\
    hasPermission (devicePermissions v) p = true.

Definition tenant_admitted (r : Request) (p : string) (who : principals) (e : Env) (s : St) : Prop :=
  s = start (st_db s) -> exists org loc, names_scope r org loc /\
    (user_admitted r p e (st_db s) org loc \/
     who = UsersAndDevices /\ device_admitted r p e (st_db s) org loc).

Lemma parseHeaderUUID_Ok r name b e s id s' :
  parseHeaderUUID r name b e s = (Ok (Ok id), s') ->
  id = uuid_Nil /\ b = false \/ header_uuid r name = Some id.
Proof.
  unfold parseHeaderUUID, header_uuid. destruct (String.eqb _ "").
  - intros (u & s1 & H1 & H)%http_bind_Ok. apply refuse_if_Ok in H1 as [-> _].
    apply http_ret_Ok in H as [<- _]. by left.
  - destruct (uuid_Parse _); [|done]. intros [-> _]%http_ret_Ok. by right.
Qed.

Lemma webSession_admits r p e d org loc secret w d1 req b pol :
  bearerCredential r e (start d) = (Ok (Ok secret), start d) ->
  run (ValidateWebSession secret) e d = (Ok w, d1) ->
  pol_Permission pol = p -> p <> "" ->
  (exists s', webSessionRequestContext w org loc b pol e s' = (Ok (Ok req), s')) ->
  user_admitted r p e d org loc.
Proof.
  intros Hb Hv Hpol Hne (s' & H). unfold webSessionRequestContext in H.
  apply http_bind_Ok in H as (u & s1 & H1 & H). apply refuse_if_Ok in H1 as [_ ->].
  apply http_bind_Ok in H as (u1 & s1 & H1 & _). apply refuse_if_Ok in H1 as [H1 _].
  rewrite Hpol in H1. apply andb_false_iff in H1 as [H1|H1].
  { unfold not_empty in H1. apply negb_false_iff in H1. by apply String.eqb_eq in H1. }
  apply negb_false_iff, sessionPermissions_In in H1 as (m & Hm & Hs & Hp).
  destruct (validated_session _ _ _ _ _ Hv) as (k & t & u2 & _ & _ & _ & _ & _ & Hu & Hw & Hact & Hall).
  exists secret, w, d1, m. split_and!; try done; [by rewrite Hw|]. rewrite Forall_forall in Hall.
  by apply list_elem_of_In, Hall in Hm.
Qed.

Lemma device_admits r p e d d1 org loc secret v s s' req b pol :
  bearerCredential r e (start d) = (Ok (Ok secret), start d) -> touched d d1 -> st_db s = d1 ->
  AuthenticateDeviceCredential secret e s = (Ok v, s') -> pol_Permission pol = p -> p <> "" ->
  (exists s', deviceRequestContext v org loc b pol e s' = (Ok (Ok req), s')) ->
  device_admitted r p e d org loc.
Proof.
  intros Hb Ht Hs Hv Hpol Hne (s2 & H).
  apply AuthenticateDeviceCredential_Ok in Hv as (k & c & t & Hk & Hp & Hh & Hrev & Hexp & Hdev & Htr).
  unfold deviceRequestContext in H. apply http_bind_Ok in H as (u & s1 & H1 & H).
  apply refuse_if_Ok in H1 as [Horg%negb_false_iff%N.eqb_eq ->].
  destruct (dev_LocationID v) as [assigned|] eqn:Hloc; [|done].
  apply http_bind_Ok in H as (u1 & s1 & H1 & H). apply refuse_if_Ok in H1 as [Has%negb_false_iff%N.eqb_eq ->].
  apply http_bind_Ok in H as (u2 & s1 & H1 & _). apply refuse_if_Ok in H1 as [Hper _].
  rewrite Hpol in Hper. apply andb_false_iff in Hper as [Hper|Hper].
  { unfold not_empty in Hper. apply negb_false_iff in Hper. by apply String.eqb_eq in Hper. }
  apply negb_false_iff in Hper. rewrite Hs in *. exists secret, d1, k, c, v, t.
  split_and!; try done. destruct (loc =? uuid_Nil)%N eqn:Hl; [left; by apply N.eqb_eq|right]. congruence.
Qed.

(** Where a request is authenticated. *)
Lemma needs_authenticated r p who b1 b2 :
  pol_Permission (routeAuthPolicy r) = p -> p <> "" ->
  pol_AllowDevice (routeAuthPolicy r) = match who with UsersOnly => false | UsersAndDevices => true end ->
  Needs touched (tenant_admitted r p who) (authenticatedRequestContext r b1 b2).
Proof.
  intros Hpol Hne Hdev e s res s' Hs H. unfold authenticatedRequestContext in H.
  apply http_bind_inv in H as [(org & s1 & H1 & H)|[(err & H1 & ->)|(err & H1 & ->)]];
    pose proof (inert _ _ _ _ H1) as [-> Ho]; [|by right; split; [eauto|]|done].
  apply http_bind_inv in H as [(loc & s1 & H2 & H)|[(err & H2 & ->)|(err & H2 & ->)]];
    pose proof (inert _ _ _ _ H2) as [-> Ho2]; [|by right; split; [eauto|]|done].
  apply parseHeaderUUID_Ok in H1 as [[_ [=]]|Horg]. apply parseHeaderUUID_Ok in H2.
  assert (names_scope r org loc) as Hscope by (split; [done|destruct H2 as [[? _]|?]; auto]).
  apply http_bind_inv in H as [(secret & s1 & H3 & H)|[(err & H3 & ->)|(err & H3 & ->)]];
    pose proof (inert _ _ _ _ H3) as [-> Ho3]; [|by right; split; [eauto|]|done].
  cbv zeta in H. apply http_bind_inv in H as [(u & s1 & H4 & H)|[(err & H4 & ->)|(err & H4 & ->)]];
    pose proof (inert _ _ _ _ H4) as [-> Ho4]; [|by right; split; [eauto|]|done].
  apply http_bind_inv in H as [(session & s1 & H5 & H)|[(err & H5 & _)|(err & H5 & _)]];
    unfold trying, mbind, Go_bind, attempt in H5;
    destruct (ValidateWebSession secret e s) as [v s5] eqn:Hv; try done.
  injection H5 as <- <-. destruct (validate_touches _ _ _ _ _ Hs Hv) as [Hs5 Ht].
  destruct v as [w|verr].
  - apply http_bind_inv in H as [(u1 & s6 & H6 & H)|[(err & H6 & ->)|(err & H6 & ->)]];
      pose proof (inert _ _ _ _ H6) as [-> Ho6]; [|by right; split; [eauto|]|done].
    pose proof (inert _ _ _ _ H) as [-> Ho7]. destruct res as [[req|err]|err]; [|by right; split; [eauto|]|done].
    left. intros Hst. exists org, loc. split; [done|]. left. rewrite Hst in Hv, H3.
    eapply webSession_admits; [exact H3| |done|done|eauto]. unfold run. by rewrite Hv.
  - apply http_bind_inv in H as [(u1 & s6 & H6 & H)|[(err & H6 & ->)|(err & H6 & ->)]];
      pose proof (inert _ _ _ _ H6) as [-> Ho6]; [|by right; split; [eauto|]|done].
    apply refuse_if_Ok in H6 as [[_ Hd%negb_false_iff]%orb_false_iff _]. rewrite Hdev in Hd.
    apply http_bind_inv in H as [(v & s7 & H7 & H)|[(err & H7 & ->)|(err & H7 & ->)]];
      apply calling_inv in H7 as [(v' & H7 & Hr)|(err' & H7 & Hr)]; try discriminate Hr;
      destruct (device_touches _ _ _ _ _ Hs5 H7) as [_ Ht7]; [|right; split; [eauto|by etrans]].
    injection Hr as <-. pose proof (inert _ _ _ _ H) as [-> Ho8].
    destruct res as [[req|err]|err]; [|right; split; [eauto|by etrans]|done].
    left. intros Hst. exists org, loc. split; [done|]. right. split; [by destruct who|].
    rewrite Hst in H3. eapply device_admits; [exact H3|exact Ht|done|exact H7|done|done|eauto].
Qed.

Lemma needs_requestContext r p who b1 b2 :
  isDevelopmentEnvironment (cfg_Environment cfg) = false ->
  cfg_TrustedIdentityHeaders cfg && hasClientIdentityHeaders r = false ->
  pol_Permission (routeAuthPolicy r) = p -> p <> "" ->
  pol_AllowDevice (routeAuthPolicy r) = match who with UsersOnly => false | UsersAndDevices => true end ->
  Needs touched (tenant_admitted r p who) (requestContext cfg r b1 b2).
Proof.
  intros Hprod Htrust Hpol Hne Hdev. unfold requestContext. rewrite Hprod, Htrust. cbn [negb].
  apply needs_inert; [apply _..|]. intros _. by apply needs_authenticated.
Qed.

Lemma tenant_policy_nonempty rt p who : tenant_policy rt = Some (p, who) -> p <> "".
Proof. by destruct rt; intros [= <- <-]. Qed.

(** C4. Requests of tenants are authenticated and authorised: whatever a request to a
    route of a tenant does in production, unless it comes through the trusted proxy -
    with any of its calls failing - it was either refused, with an error, having at
    most marked the bearer's session, credential or device as used; or its headers
    name a tenant, and its bearer is a user with a live session and an enabled
    membership that covers the tenant and whose role has the permission of the route,
    or, where the route admits devices, a trusted device of the tenant with a live
    credential and of a type with that permission. *)
Theorem tenant_request_authorised rt r p who e d res d'
    (Hprod : isDevelopmentEnvironment (cfg_Environment cfg) = false)
    (Htrust : cfg_TrustedIdentityHeaders cfg && hasClientIdentityHeaders r = false)
    (Hpol : tenant_policy rt = Some (p, who)) (Hr : routed rt r)
    (Hw : forallb (wildcard_ok r) (snd (pattern rt)) = true)
    (Hrun : run (handle cfg rt r) e d = (res, d')) :
  ((exists err, res = Ok (Err err)) /\ touched d d') \/
  (exists org loc, names_scope r org loc /\
     (user_admitted r p e d org loc \/ who = UsersAndDevices /\ device_admitted r p e d org loc)).
Proof.
  destruct (derived_policy rt r p who Hpol Hr Hw) as [Hperm Hdev].
  assert (forall b1 b2, Needs touched (tenant_admitted r p who) (requestContext cfg r b1 b2)) as Hctx.
  { intros b1 b2. apply needs_requestContext; try done. by eapply tenant_policy_nonempty. }
  assert (Needs touched (tenant_admitted r p who) (handle cfg rt r)) as Hn.
  { clear Hr Hw Hrun Hperm Hdev. destruct rt; try discriminate Hpol; cbn [handle]; solve_needs. }
  unfold run in Hrun. destruct (handle cfg rt r e (start d)) as [r1 s1] eqn:H. injection Hrun as <- <-.
  destruct (Hn e (start d) _ _ eq_refl H) as [Ha|?]; [right; by apply Ha|by left].
Qed.
End Tenants.

(** Olive occupies a table of her restaurant. *)
Lemma tenant_request_authorised_witness :
  exists res d', run (handle production ROccupyTable occupy_request) (calm 150 2000000) platform_db
      = (res, d') /\
  ((exists err, res = Ok (Err err)) /\ touched platform_db d' \/
   exists org loc, names_scope occupy_request org loc /\
     (user_admitted occupy_request PermissionOperationsWrite (calm 150 2000000) platform_db org loc \/
      UsersAndDevices = UsersAndDevices /\
      device_admitted occupy_request PermissionOperationsWrite (calm 150 2000000) platform_db org loc)).
Proof.
  destruct (run (handle production ROccupyTable occupy_request) (calm 150 2000000) platform_db)
    as [res d'] eqn:H.
  exists res, d'. split; [reflexivity|].
  refine (tenant_request_authorised production ROccupyTable occupy_request PermissionOperationsWrite
    UsersAndDevices _ _ _ _ eq_refl _ eq_refl _ _ H);
    [reflexivity|split; reflexivity|vm_compute; reflexivity].
Defined.

(** Occupying table 3, as the mux routes it. *)
Lemma route_policies_declared_witness :
  routed ROccupyTable occupy_request /\
  pol_Permission (routeAuthPolicy occupy_request) = PermissionOperationsWrite /\
  pol_AllowDevice (routeAuthPolicy occupy_request) = true.
Proof.
  split; [split; reflexivity|].
  refine (route_policies_declared ROccupyTable occupy_request PermissionOperationsWrite UsersAndDevices _ _ _);
    [reflexivity|split; reflexivity|vm_compute; reflexivity].
Defined.
