(* ===== verification/SystemTheorems.v ===== *)
(** The whole backend at once: whatever requests arrive, in any order and with
    any of their calls failing, the people, the layout and the floor of the
    database stay coherent. *)

From S2P Require Import Prelude Json Crypto Schema AnalyticsQueries GoTx Store Queries Tokens IdentityQueries LayoutQueries Identity Memberships IntegrationQueries Configuration Onboarding Operations Guest Outbox ReferencePOS Integrations TxFacts Steps LayoutFacts IdentityFacts MembershipFacts FloorSpec Commands IntegrationFacts Http PlatformQueries Routes SystemCommands HttpSteps LayoutCommands IntegrationInv History Samples IdentitySamples SystemSamples AnalyticsTheorems IdentityTheorems RoleTheorems.
#[local] Open Scope string_scope.
#[local] Open Scope Z_scope.
#[local] Open Scope list_scope.

(** The invariants of the components, together. *)
Record coherent (d : Db) : Prop := {
  co_layout : layout_inv d;
  co_occupied : tables_occupied d;
  co_floor : floor_inv d;
  co_auth : auth_inv d;
  co_typed : well_typed d;
  co_integrations : integrations_inv d;
  co_analytics : analytics_inv d;
}.

Section System.
Context {GT : GoText} {GN : GoNumber} {ET : ErrorTexts} {PT : PosText}
  {HT : HttpText} {PL : PlatformText} {RD : ReportData}.

(** ** What each service leaves of the others' invariants *)

Lemma same_people_auth d d' : same_people d d' -> auth_inv d -> auth_inv d'.
Proof.
  intros [Hi Hd] [H1 H2 H3 H4]. split; unfold db_web_sessions, db_credentials, db_pairing_codes;
    rewrite ?Hi, ?Hd; done.
Qed.

Lemma same_people_typed d d' : same_people d d' -> well_typed d -> well_typed d'.
Proof.
  intros [Hi Hd] [H1 H2]. split; unfold db_org_members, db_loc_members; rewrite Hi; done.
Qed.

Lemma same_floor_floor d d' : IdentityFacts.same_floor d d' -> floor_inv d -> floor_inv d'.
Proof. intros []. by apply floor_inv_same. Qed.

Lemma same_floor_occupied d d' : IdentityFacts.same_floor d d' -> tables_occupied d -> tables_occupied d'.
Proof. intros []. by apply occupancy_kept_all, same_tables_kept. Qed.

Lemma layout_keeps_typed c : BodyKeeps typed_step (run_layout c).
Proof. pose proof typed_owner_role. destruct c; solve_op. Qed.

(** ** Every request keeps the database coherent *)

Definition coherent_step (d d' : Db) : Prop := coherent d -> coherent d'.
Definition auth_kept (d d' : Db) : Prop := auth_inv d -> auth_inv d'.

#[export] Instance auth_kept_preorder : PreOrder auth_kept.
Proof. split; [intros d H; exact H|]. intros x y z H1 H2 Hx. auto. Qed.

#[export] Instance coherent_step_preorder : PreOrder coherent_step.
Proof. split; [intros d H; exact H|]. intros x y z H1 H2 Hx. auto. Qed.

Lemma top_coherent {A} (m : Go A) :
  TopKeeps layout_step m -> TopKeeps occupied_step m -> TopKeeps floor_kept m -> TopKeeps auth_kept m ->
  TopKeeps typed_step m -> TopKeeps integrations_step m -> TopKeeps analytics_kept m -> TopKeeps coherent_step m.
Proof.
  intros H1 H2 H3 H4 H5 H6 H7 e s r s' Hs H.
  destruct (H1 _ _ _ _ Hs H) as [Hs' Hl], (H2 _ _ _ _ Hs H) as [_ Ho], (H3 _ _ _ _ Hs H) as [_ Hf],
    (H4 _ _ _ _ Hs H) as [_ Ha], (H5 _ _ _ _ Hs H) as [_ Ht], (H6 _ _ _ _ Hs H) as [_ Hi],
    (H7 _ _ _ _ Hs H) as [_ Hy].
  split; [done|]. intros []. split; auto; [by eapply ls_inv|by eapply is_inv].
Qed.

Lemma people_auth_kept d d' : same_people d d' -> auth_kept d d'.
Proof. intros Hp Ha. by eapply same_people_auth. Qed.
Lemma people_typed_step d d' : same_people d d' -> typed_step d d'.
Proof. intros Hp Ht. by eapply same_people_typed. Qed.

Lemma floor_coherent c : TopKeeps coherent_step (run_command c).
Proof.
  apply top_coherent; [apply (be_floor (R := layout_step))| | | |
    |apply (be_floor (R := integrations_step))|apply (be_floor (R := analytics_kept))].
  - eapply top_weaken; [exact kept_occupied|]. apply floor_top; [apply _|apply floor_keeps_occupancy].
  - intros e s r s' Hs H. split; [by apply (closed_floor c) in H as []|]. intros Hi.
    eapply change_floor_inv; [exact Hi|]. by apply run_command_outcome in H as [].
  - eapply top_weaken; [exact people_auth_kept|]. apply floor_top; [apply _|apply floor_keeps_people].
  - eapply top_weaken; [exact people_typed_step|]. apply floor_top; [apply _|apply floor_keeps_people].
Qed.

Lemma identity_coherent c : TopKeeps coherent_step (run_identity c).
Proof.
  apply top_coherent; [| | | | |apply identity_integrations|apply identity_top; [apply _|apply identity_keeps_analytics]].
  - apply identity_top; [apply _|apply identity_keeps_layout].
  - eapply top_weaken; [exact same_floor_occupied|]. apply identity_top; [apply _|apply identity_keeps_floor].
  - eapply top_weaken; [exact same_floor_floor|]. apply identity_top; [apply _|apply identity_keeps_floor].
  - eapply top_weaken; [exact auth_step_inv|]. apply identity_top; [apply _|apply identity_keeps_auth].
  - apply typed_identity.
Qed.

Lemma layout_coherent c : TopKeeps coherent_step (run_layout c).
Proof.
  apply top_coherent; [apply (be_layout (R := layout_step))| | | |
    |apply (be_layout (R := integrations_step))|apply (be_layout (R := analytics_kept))].
  - apply top_of_body; [apply closed_layout|apply layout_keeps_occupied].
  - eapply top_weaken; [exact floor_grows_inv|]. apply layout_top; [apply _|apply layout_keeps_floor].
  - eapply top_weaken; [exact auth_step_inv|]. apply layout_top; [apply _|apply layout_keeps_auth].
  - apply top_of_body; [apply closed_layout|apply layout_keeps_typed].
Qed.

Lemma integration_people c : TopKeeps same_people (run_integration ReferencePOS.adapters c).
Proof. apply integration_top; [apply _|by intros|apply floor_keeps_people]. Qed.

Lemma integration_coherent c : TopKeeps coherent_step (run_integration ReferencePOS.adapters c).
Proof.
  apply top_coherent; [apply (be_integration (R := layout_step))| | | |
    |apply (be_integration (R := integrations_step))|apply (be_integration (R := analytics_kept))].
  - eapply top_weaken; [exact kept_occupied|].
    apply integration_top; [apply _|intros; by apply same_tables_kept|apply floor_keeps_occupancy].
  - apply top_integration; [|apply _|apply reference_all_remote].
    apply own_statements_of; [apply _|]. intros x d0 [? ? ?]. by split.
  - eapply top_weaken; [exact people_auth_kept|apply integration_people].
  - eapply top_weaken; [exact people_typed_step|apply integration_people].
Qed.

Lemma analytics_coherent c : TopKeeps coherent_step (run_analytics c).
Proof.
  apply top_coherent; [apply (be_analytics (R := layout_step))| | | |
    |apply (be_analytics (R := integrations_step))|apply (be_analytics (R := analytics_kept))];
    (apply analytics_of; [apply _|..]).
  - intros a d. by apply kept_occupied, same_tables_kept.
  - intros m d. by apply kept_occupied, same_tables_kept.
  - intros a d [? ? ?]. by split.
  - intros m d [? ? ?]. by split.
  - intros a d. by apply people_auth_kept.
  - intros m d. by apply people_auth_kept.
  - intros a d. by apply people_typed_step.
  - intros m d. by apply people_typed_step.
Qed.

(** What the platform and the abuse log write touches none of it, but the status of
    an organisation. *)
Lemma coherent_same d d' :
  layout_step d d' -> db_tables d' = db_tables d -> CommandFacts.same_floor d d' -> auth_step d d' ->
  db_org_members d' = db_org_members d -> db_loc_members d' = db_loc_members d ->
  integrations_step d d' -> db_analytics d' = db_analytics d -> coherent_step d d'.
Proof.
  intros Hl Ht Hf Ha Hom Hlm Hi Hy [H1 H2 H3 H4 [H5 H6] H7 H8]. split.
  - by eapply ls_inv.
  - eapply occupancy_kept_all; [|exact H2]. apply same_tables_kept; [done|apply Hf].
  - by eapply floor_inv_same.
  - by eapply auth_step_inv.
  - split; by rewrite ?Hom, ?Hlm.
  - by eapply is_inv.
  - by eapply same_analytics_kept.
Qed.

Lemma coherent_SetOrganisationStatus id st : BodyKeeps coherent_step (SetOrganisationStatus id st).
Proof.
  intros e s r s' H. pose proof (layout_SetOrganisationStatus id st _ _ _ _ H) as Hl.
  pose proof (integrations_SetOrganisationStatus id st _ _ _ _ H) as Hi.
  assert (exists m, st_db s' = set_organisations m (st_db s)) as [m Hm].
  { unfold SetOrganisationStatus, exec in H. exists (db_organisations (st_db s')).
    assert (st_db s = set_organisations (db_organisations (st_db s)) (st_db s)) as Hd by by destruct (st_db s).
    destruct (env_fault e (st_tick s)); [by injection H as _ <-|].
    destruct (update_row _ _ _ _ _ _ _ _ _) as [[x d']|] eqn:Hq; injection H as _ <-; [|done].
    by apply update_row_Ok in Hq as (? & _ & _ & _ & _ & ->). }
  by apply coherent_same; try done; rewrite Hm.
Qed.

#[export] Instance coherent_backend : Backend coherent_step coherent_step.
Proof.
  apply backend_of; [apply _|apply floor_coherent|intros c _; apply identity_coherent|apply layout_coherent
    |apply integration_coherent|apply analytics_coherent|apply coherent_SetOrganisationStatus|..]; intros x d; apply coherent_same; try done;
    first [by apply same_integrations_step|split; [by split|by intros []]].
Qed.

Lemma run_coherent c e d r d' : run (run_system c) e d = (r, d') -> coherent d -> coherent d'.
Proof.
  apply (backend_keeps coherent_step coherent_step). intros arg. apply reassign_of, identity_coherent.
Qed.

(** C2. The backend keeps its database coherent: whatever requests of the floor,
    of guests, of people and devices, of the configuration, of onboarding, of
    integrations and of analytics arrive, webhooks included, whether a service is called or the HTTP
    API, which serves the platform's administration too, in any order, with any arguments,
    clocks and generated values and with any of their calls failing, every row of
    the layout, of the integrations and of analytics satisfies the constraints of its table,
    every table has an occupancy of its tenant, a table is occupied exactly when
    it points at a session of its own that has not ended, lookup prefixes of
    sessions, credentials and pairing codes are unique, every membership has a
    role of its scope, and no two webhooks of a vendor have the same event. *)
Theorem system_coherent d0 d
    (Hd0 : coherent d0) (Hhist : system_history d0 d) : coherent d.
Proof. induction Hhist as [|d c e r d' _ IH Hr]; [done|]. by eapply run_coherent. Qed.
End System.

Lemma pos_coherent : coherent pos_db.
Proof.
  split.
  - by apply (ls_inv people_db); [apply layout_step_integrations|exact people_layout].
  - exact people_occupied.
  - exact (floor_inv_same people_db pos_db (conj eq_refl (conj eq_refl eq_refl)) people_floor).
  - by apply (same_people_auth people_db pos_db); [split|exact people_auth].
  - by apply (same_people_typed people_db pos_db); [split|exact people_typed].
  - exact pos_integrations.
  - split; [intros [] k r; cbn; by rewrite lookup_empty|apply map_Forall_empty..].
Qed.

(** Olive adds a table and logs in, and the POS seats guests. *)
Lemma system_coherent_witness :
  coherent pos_db /\
  exists d1 d2 d3, run (run_system (SLayout (LCreateTable (second_table "T2")))) (calm 800 8000000) pos_db
      = (Ok tt, d1) /\
    run (run_system (SIdentity (ICreateSession login_args))) (calm 900 9000000) d1 = (Ok tt, d2) /\
    run (run_system (SIntegration (XReceiveWebhook "reference_pos" 60 pos_signature pos_payload)))
      (calm 2000 20000000) d2 = (Ok tt, d3) /\ coherent d3.
Proof.
  split; [exact pos_coherent|].
  destruct (run_succeeds (run_system (SLayout (LCreateTable (second_table "T2")))) (calm 800 8000000) pos_db)
    as [[] H1]; [vm_compute; reflexivity|].
  set (d1 := snd (run _ _ pos_db)) in H1.
  destruct (run_succeeds (run_system (SIdentity (ICreateSession login_args))) (calm 900 9000000) d1)
    as [[] H2]; [vm_compute; reflexivity|].
  set (d2 := snd (run _ _ d1)) in H2.
  destruct (run_succeeds (run_system (SIntegration (XReceiveWebhook "reference_pos" 60 pos_signature pos_payload)))
    (calm 2000 20000000) d2) as [[] H3]; [vm_compute; reflexivity|].
  eexists d1, d2, _. split_and!; [exact H1|exact H2|exact H3|].
  exact (system_coherent pos_db _ pos_coherent (system_next _ _ _ _ _ _ (system_next _ _ _ _ _ _
    (system_next _ _ _ _ _ _ (system_start _) H1) H2) H3)).
Defined.
