(* ===== verification/LayoutTheorems.v ===== *)
(** What the configuration service guarantees: a tenant changes its own rows and
    only with permission, two edits of one version of a row exclude each other,
    and a snapshot of a layout is complete. *)

From S2P Require Import Prelude Json Crypto Schema AnalyticsQueries GoTx Store Queries Tokens IdentityQueries LayoutQueries Identity Memberships Onboarding Operations Guest Outbox ReferencePOS TxFacts Steps LayoutFacts IdentityFacts MembershipFacts FloorSpec Commands Http PlatformQueries Routes SystemCommands HttpSteps LayoutCommands History Idempotency Progress FloorTheorems Samples IdentitySamples SystemSamples IdentityTheorems Configuration.
#[local] Open Scope string_scope.
#[local] Open Scope Z_scope.
#[local] Open Scope list_scope.

(** ** Tenants *)

(** The rows that are not [mine] are the same. *)
Definition others {A} (mine : A -> bool) (m m' : gmap N A) : Prop :=
  forall k r, mine r = false -> m !! k = Some r <-> m' !! k = Some r.

#[export] Instance others_preorder {A} (mine : A -> bool) : PreOrder (others mine).
Proof. split; [done|]. intros x y z Hxy Hyz k r Hr. rewrite (Hxy _ _ Hr). by apply Hyz. Qed.

Lemma others_insert {A} (mine : A -> bool) m k r :
  (forall x, m !! k = Some x -> mine x = true) -> mine r = true -> others mine m (<[k := r]> m).
Proof.
  intros Hold Hr j x Hx. rewrite lookup_insert_Some. split.
  - intros Hj. right. split; [|done]. intros ->. apply Hold in Hj. congruence.
  - intros [[-> ->]|[_ Hj]]; congruence.
Qed.

(** The rows under other keys are the same. *)
Definition elsewhere {A} (key : N) (m m' : gmap N A) : Prop := forall k, k <> key -> m' !! k = m !! k.

#[export] Instance elsewhere_preorder {A} key : PreOrder (@elsewhere A key).
Proof. split; [done|]. intros x y z Hxy Hyz k Hk. by rewrite (Hyz _ Hk), (Hxy _ Hk). Qed.

(** Nothing changed but the organisation, the location and its layout. *)
Record confined (org loc : uuid) (d d' : Db) : Prop := {
  cf_organisations : elsewhere org (db_organisations d) (db_organisations d');
  cf_locations : elsewhere loc (db_locations d) (db_locations d') /\
    others (fun l => loc_OrganisationID l =? org)%N (db_locations d) (db_locations d');
  cf_floors : others (fun f => (flr_OrganisationID f =? org)%N && (flr_LocationID f =? loc)%N)
    (db_floors d) (db_floors d');
  cf_zones : others (fun z => (zon_OrganisationID z =? org)%N && (zon_LocationID z =? loc)%N)
    (db_zones d) (db_zones d');
  cf_tables : others (fun t => (tbl_OrganisationID t =? org)%N && (tbl_LocationID t =? loc)%N)
    (db_tables d) (db_tables d');
  cf_occupancy : others (fun o => (occ_OrganisationID o =? org)%N && (occ_LocationID o =? loc)%N)
    (db_occupancy d) (db_occupancy d');
  cf_periods : db_periods d' = db_periods d;
  cf_people : same_people d d';
  cf_floor : db_sessions d' = db_sessions d /\ db_assists d' = db_assists d /\ db_qr d' = db_qr d;
  cf_log : db_idempotency d' = db_idempotency d /\ db_events d' = db_events d /\
    db_outbox d' = db_outbox d /\ db_consumer_events d' = db_consumer_events d;
  cf_rest : db_integrations d' = db_integrations d /\ db_analytics d' = db_analytics d /\
    db_abuse d' = db_abuse d;
}.

#[export] Instance confined_preorder org loc : PreOrder (confined org loc).
Proof.
  split; [by split|]. intros x y z [] []. destruct_and?.
  split; try (by etrans); split_and?; first [congruence|by etrans].
Qed.

Section Confinement.
Context {GT : GoText} {GN : GoNumber} {ET : ErrorTexts} {PT : PosText}
  {HT : HttpText} {PL : PlatformText} {RD : ReportData}.

Section Writes.
Context (org loc : uuid).

Lemma others_new {A} (mine : A -> bool) m k r :
  m !! k = None -> mine r = true -> others mine m (<[k := r]> m).
Proof. intros Hk Hr. apply others_insert; [|done]. intros x Hx. congruence. Qed.

Lemma others_replace {A} (mine : A -> bool) m k x r :
  m !! k = Some x -> mine x = true -> mine r = true -> others mine m (<[k := r]> m).
Proof. intros Hk Hx Hr. apply others_insert; [|done]. intros y Hy. congruence. Qed.

Lemma elsewhere_insert {A} (m : gmap N A) k r : elsewhere k m (<[k := r]> m).
Proof. intros j Hj. by rewrite lookup_insert_ne. Qed.

Lemma mine_eq (a b : uuid) : a = org -> b = loc -> (a =? org)%N && (b =? loc)%N = true.
Proof. intros -> ->. by rewrite !N.eqb_refl. Qed.

(** A statement that writes one row of the tenant. *)
Ltac confined_stmt :=
  apply (keeps_exec (confined org loc));
  let H := fresh "Hq" in
  intros ?now ?u ?d ?a ?d' H; cbv beta zeta in H; stmt_invert H; try reflexivity; row_changes;
  unfold floor_at, zone_at, table_at in *; bool_facts;
  repeat match goal with H : (_ =? _)%N = true |- _ => apply N.eqb_eq in H end;
  split; simpl; try done;
  first [ by apply others_new, mine_eq
        | eapply others_replace; [eassumption|by apply mine_eq..] ].

Lemma confined_CreateFloorRow slug name sort canvas bg :
  Keeps (confined org loc) (CreateFloorRow org loc slug name sort canvas bg).
Proof. unfold CreateFloorRow. confined_stmt. Qed.
Lemma confined_UpdateFloorRow id slug name sort canvas bg v :
  Keeps (confined org loc) (UpdateFloorRow id org loc slug name sort canvas bg v).
Proof. unfold UpdateFloorRow, floor_row. confined_stmt. Qed.
Lemma confined_ArchiveFloorRow id v : Keeps (confined org loc) (ArchiveFloorRow id org loc v).
Proof. unfold ArchiveFloorRow, active_floor, floor_row. confined_stmt. Qed.
Lemma confined_RestoreFloorRow id v : Keeps (confined org loc) (RestoreFloorRow id org loc v).
Proof. unfold RestoreFloorRow, active_floor, floor_row. confined_stmt. Qed.
Lemma confined_CreateZoneRow flr name sort : Keeps (confined org loc) (CreateZoneRow org loc flr name sort).
Proof. unfold CreateZoneRow. confined_stmt. Qed.
Lemma confined_UpdateZoneRow id flr name sort v :
  Keeps (confined org loc) (UpdateZoneRow id org loc flr name sort v).
Proof. unfold UpdateZoneRow, zone_row. confined_stmt. Qed.
Lemma confined_ArchiveZoneRow id flr v : Keeps (confined org loc) (ArchiveZoneRow id org loc flr v).
Proof. unfold ArchiveZoneRow, zone_row. confined_stmt. Qed.
Lemma confined_CreateTableRow flr zon label cap shape geo :
  Keeps (confined org loc) (CreateTableRow org loc flr zon label cap shape geo).
Proof. unfold CreateTableRow. confined_stmt. Qed.
Lemma confined_CreateTableOccupancy t : Keeps (confined org loc) (CreateTableOccupancy t org loc).
Proof. unfold CreateTableOccupancy. confined_stmt. Qed.
Lemma confined_UpdateTableRow id flr zon label cap shape geo v :
  Keeps (confined org loc) (UpdateTableRow id org loc flr zon label cap shape geo v).
Proof. unfold UpdateTableRow, table_row. confined_stmt. Qed.
Lemma confined_ArchiveTableRow id v : Keeps (confined org loc) (ArchiveTableRow id org loc v).
Proof. unfold ArchiveTableRow, active_table, table_row. confined_stmt. Qed.
Lemma confined_RestoreTableRow id v : Keeps (confined org loc) (RestoreTableRow id org loc v).
Proof. unfold RestoreTableRow, active_table, table_row. confined_stmt. Qed.

Lemma confined_UpdateOrganisationRow slug name status :
  Keeps (confined org loc) (UpdateOrganisationRow org slug name status).
Proof.
  apply (keeps_exec (confined org loc)). intros now u d a d' H. stmt_invert H.
  split; simpl; try done. apply elsewhere_insert.
Qed.
Lemma confined_UpdateLocationRow name tz status oc ff :
  Keeps (confined org loc) (UpdateLocationRow loc org name tz status oc ff).
Proof.
  apply (keeps_exec (confined org loc)). intros now u d a d' H.
  apply update_row_Ok in H as (l & Hl & Hw & [= <-] & _ & ->).
  split; simpl; try done. split; [apply elsewhere_insert|by eapply others_replace].
Qed.
End Writes.

#[local] Hint Resolve confined_CreateFloorRow confined_UpdateFloorRow confined_ArchiveFloorRow
  confined_RestoreFloorRow confined_CreateZoneRow confined_UpdateZoneRow confined_ArchiveZoneRow
  confined_CreateTableRow confined_CreateTableOccupancy confined_UpdateTableRow
  confined_ArchiveTableRow confined_RestoreTableRow confined_UpdateOrganisationRow
  confined_UpdateLocationRow : keeps.

(** The actor of a request to the configuration service. *)
Definition layout_actor (c : LayoutCommand) : option TenantActor :=
  match c with
  | LOwnerSnapshot actor | LLayoutSnapshot actor => Some actor
  | LUpdateOrganisation arg => Some (uop_Actor arg)
  | LUpdateLocation arg => Some (ulp_Actor arg)
  | LCreateFloor arg | LUpdateFloor arg => Some (ufp_Actor arg)
  | LArchiveFloor actor _ _ | LRestoreFloor actor _ _ => Some actor
  | LCreateZone arg | LUpdateZone arg => Some (uzp_Actor arg)
  | LArchiveZone actor _ _ _ => Some actor
  | LCreateTable arg | LUpdateTable arg => Some (utp_Actor arg)
  | LArchiveTable actor _ _ | LRestoreTable actor _ _ => Some actor
  | LProvision _ | LOwnerSetup _ => None
  end.

(** What follows a check may rely on it. *)
Lemma keeps_checked R `{!PreOrder R} {A} b err (k : unit -> Go A) :
  (b = false -> Keeps R (k tt)) -> Keeps R (guard_err b err ≫= k).
Proof.
  intros Hk. destruct b; [|apply Hk; done]. by intros d0 e s r s' [= <- <-].
Qed.

Lemma request_confined c actor :
  layout_actor c = Some actor ->
  Keeps (confined (cac_OrganisationID actor) (cac_LocationID actor)) (run_layout c).
Proof.
  destruct c; intros [= <-]; try solve [solve_keeps]; apply keeps_bind; try solve [solve_keeps].
  - unfold UpdateOrganisation. apply keeps_bind; [solve_keeps|intros _].
    apply (keeps_checked _). intros Hid. apply negb_false_iff, N.eqb_eq in Hid. rewrite Hid. solve_keeps.
  - unfold UpdateLocation. apply keeps_bind; [solve_keeps|intros _].
    apply (keeps_checked _). intros Hid. apply negb_false_iff, N.eqb_eq in Hid. rewrite Hid. solve_keeps.
Qed.

(** ** Permissions *)

Definition grants_organisation (d : Db) (actor : TenantActor) (permission : string) : bool :=
  org_grants d (cac_OrganisationID actor)
    (fun m => String.eqb (omb_MemberRef m) (cac_ActorRef actor)) permission.

Definition grants_location (d : Db) (actor : TenantActor) (permission : string) : bool :=
  loc_grants d (cac_OrganisationID actor) (cac_LocationID actor)
    (fun m => String.eqb (lmb_MemberRef m) (cac_ActorRef actor)) permission
  || grants_organisation d actor permission.

(** The actor of the request holds an enabled membership whose role grants what
    the request requires. *)
Definition layout_allowed (d : Db) (c : LayoutCommand) : bool :=
  match c with
  | LOwnerSnapshot actor => grants_organisation d actor PermissionOrganisationManage
  | LUpdateOrganisation arg => grants_organisation d (uop_Actor arg) PermissionOrganisationManage
  | LLayoutSnapshot actor => grants_location d actor PermissionLayoutRead
  | LUpdateLocation arg => grants_location d (ulp_Actor arg) PermissionLocationManage
  | _ => match layout_actor c with
         | Some actor => grants_location d actor PermissionLayoutWrite
         | None => true
         end
  end.

Lemma needs_grant_organisation {A} actor p (k : unit -> Go A) d e s a s' :
  grants_organisation d actor p = false -> st_db s = d ->
  (requireOrganisationPermission actor p ≫= k) e s = (Ok a, s') -> False.
Proof.
  intros Hno Hs (u & s1 & H & _)%bind_Ok. apply bind_Ok in H as (b & s2 & H & H2).
  apply map_err_Ok, exec_Ok in H as (_ & d1 & [= <- <-] & ->).
  apply guard_err_Ok in H2 as (H2%negb_false_iff & _). unfold grants_organisation in Hno. congruence.
Qed.

Lemma needs_grant_location {A} actor p (k : unit -> Go A) d e s a s' :
  grants_location d actor p = false -> st_db s = d ->
  (requireLocationPermission actor p ≫= k) e s = (Ok a, s') -> False.
Proof.
  intros Hno Hs (u & s1 & H & _)%bind_Ok. apply bind_Ok in H as (b & s2 & H & H2).
  apply map_err_Ok, exec_Ok in H as (_ & d1 & [= <- <-] & ->).
  apply guard_err_Ok in H2 as (H2%negb_false_iff & _).
  unfold grants_location, grants_organisation in Hno. congruence.
Qed.

Lemma request_refused c d : layout_allowed d c = false -> refused d (run_layout c).
Proof.
  destruct c; intros Hno; try discriminate Hno; simpl; unfold discard; refuse_tenant.
  all: try solve [eapply needs_grant_location; [exact Hno|exact Hs|exact H]].
  all: try solve [eapply needs_grant_organisation; [exact Hno|exact Hs|exact H]].
  apply bind_Ok in H as (b & s2 & H1 & H). apply bind_Ok in H as (u & s3 & H2 & _).
  eapply (needs_grant_organisation actor PermissionOrganisationManage mret);
    [exact Hno|exact Hs|]. unfold requireOrganisationPermission.
  unfold mbind, Go_bind in *. rewrite H1, H2. reflexivity.
Qed.

(** C9. Tenants are isolated: a request to the configuration service changes
    nothing but the row of its actor's organisation, the row of its actor's
    location - and that only if it is a location of the organisation - and the
    floors, zones, tables and occupancies of that organisation and location: no row
    of another tenant, no session, request, event, person, device, connection or
    metric.  And it changes nothing at all, and fails, when the actor holds no
    enabled membership whose role grants what the request requires; also when calls
    fail or a commit is lost. *)
Theorem tenant_isolation c actor e d r d'
    (Hactor : layout_actor c = Some actor) (Hrun : run (run_layout c) e d = (r, d')) :
  confined (cac_OrganisationID actor) (cac_LocationID actor) d d' /\
  (layout_allowed d c = false -> is_ok r = false /\ d' = d).
Proof.
  split; [exact (keeps_run _ _ _ _ _ _ (request_confined c actor Hactor) Hrun)|].
  intros Hno. unfold run in Hrun. destruct (run_layout c e (start d)) as [r0 s0] eqn:H0.
  injection Hrun as <- <-. by apply (request_refused c d Hno e (start d)).
Qed.

(** ** Edits of one version of a row *)

Inductive Edited := EditedFloor | EditedZone | EditedTable.

(** The row an update, archive or restore is for, with the version it expects. *)
Definition edits (c : LayoutCommand) : option (Edited * uuid * Z) :=
  match c with
  | LUpdateFloor arg => Some (EditedFloor, ufp_ID arg, ufp_ExpectedVersion arg)
  | LArchiveFloor _ id v | LRestoreFloor _ id v => Some (EditedFloor, id, v)
  | LUpdateZone arg => Some (EditedZone, uzp_ID arg, uzp_ExpectedVersion arg)
  | LArchiveZone _ id _ v => Some (EditedZone, id, v)
  | LUpdateTable arg => Some (EditedTable, utp_ID arg, utp_ExpectedVersion arg)
  | LArchiveTable _ id v | LRestoreTable _ id v => Some (EditedTable, id, v)
  | _ => None
  end.

Definition version_of (d : Db) (row : Edited) (id : uuid) : option Z :=
  match row with
  | EditedFloor => flr_Version <$> db_floors d !! id
  | EditedZone => zon_Version <$> db_zones d !! id
  | EditedTable => tbl_Version <$> db_tables d !! id
  end.

Lemma versions_grow d d' row id v :
  layout_le d d' -> version_of d row id = Some v -> exists v', version_of d' row id = Some v' /\ v <= v'.
Proof.
  intros [_ _ Hf Hz Ht]. destruct row; simpl; intros (x & Hx & ->)%fmap_Some.
  - apply Hf in Hx as (y & -> & [_ _ _ Hn]). eexists. split; [done|]. destruct Hn as [->|]; lia.
  - apply Hz in Hx as (y & -> & [_ _ _ _ Hn]). eexists. split; [done|]. destruct Hn as [->|]; lia.
  - apply Ht in Hx as (y & -> & [_ _ _ Hn]). eexists. split; [done|]. destruct Hn as [->|]; lia.
Qed.

(** A row edited: it had the expected version and has the next one. *)
Definition bumped (row : Edited) (id : uuid) (v : Z) (d d' : Db) : Prop :=
  version_of d row id = Some v /\ version_of d' row id = Some (v + 1).

Lemma bump_floor id org loc v set e s f s' :
  (forall now x y, set now x = Ok y -> flr_Version y = flr_Version x + 1) ->
  exec (update_row db_floors set_floors floor_ok id (floor_at org loc v) set) e s = (Ok f, s') ->
  bumped EditedFloor id v (st_db s) (st_db s').
Proof.
  intros Hset H. apply exec_Ok in H as (_ & d & H & ->). apply update_row_Ok in H as (x & Hx & Hw & Hs & _ & ->).
  apply Hset in Hs. unfold floor_at in Hw. bool_facts. split; simpl; [by rewrite Hx; simpl; f_equal|].
  unfold db_floors. simpl. rewrite lookup_insert_eq. simpl. f_equal. lia.
Qed.

Lemma bump_zone id org loc flr v set e s z s' :
  (forall now x y, set now x = Ok y -> zon_Version y = zon_Version x + 1) ->
  exec (update_row db_zones set_zones zone_ok id (zone_at org loc flr v) set) e s = (Ok z, s') ->
  bumped EditedZone id v (st_db s) (st_db s').
Proof.
  intros Hset H. apply exec_Ok in H as (_ & d & H & ->). apply update_row_Ok in H as (x & Hx & Hw & Hs & _ & ->).
  apply Hset in Hs. unfold zone_at in Hw. bool_facts. split; simpl; [by rewrite Hx; simpl; f_equal|].
  unfold db_zones. simpl. rewrite lookup_insert_eq. simpl. f_equal. lia.
Qed.

Lemma bump_table id org loc v set e s t s' :
  (forall now x y, set now x = Ok y -> tbl_Version y = tbl_Version x + 1) ->
  exec (update_row db_tables set_tables table_ok id (table_at org loc v) set) e s = (Ok t, s') ->
  bumped EditedTable id v (st_db s) (st_db s').
Proof.
  intros Hset H. apply exec_Ok in H as (_ & d & H & ->). apply update_row_Ok in H as (x & Hx & Hw & Hs & _ & ->).
  apply Hset in Hs. unfold table_at in Hw. bool_facts. split; simpl; [by rewrite Hx; simpl; f_equal|].
  rewrite lookup_insert_eq. simpl. f_equal. lia.
Qed.

Lemma floor_row_version slug name sort canvas bg active now f f' :
  floor_row slug name sort canvas bg active now f = Ok f' -> flr_Version f' = flr_Version f + 1.
Proof. by intros (v & [Hv _]%int4_succ_Ok & [= <-])%res_bind_Ok. Qed.
Lemma zone_row_version name sort active now z z' :
  zone_row name sort active now z = Ok z' -> zon_Version z' = zon_Version z + 1.
Proof. by intros (v & [Hv _]%int4_succ_Ok & [= <-])%res_bind_Ok. Qed.
Lemma table_row_version flr zon label cap shape geo active deleted now t t' :
  table_row flr zon label cap shape geo active deleted now t = Ok t' -> tbl_Version t' = tbl_Version t + 1.
Proof. by intros (v & [Hv _]%int4_succ_Ok & [= <-])%res_bind_Ok. Qed.

Lemma ends_discard {A} P (m : Go A) : Ends (fun _ => P) m -> Ends (fun _ => P) (discard m).
Proof. intros Hm e s [] s' (a & s1 & H1 & [= <-])%bind_Ok. by eapply Hm. Qed.

Ltac edit_walk :=
  lazymatch goal with
  | |- forall _, _ => intros ?; edit_walk
  | |- Ends _ (GoTx.inTenantTx _) => apply ends_tenant_tx; [solve_intx|edit_walk]
  | |- Ends _ (map_err _ _) => apply ends_map_err; edit_walk
  | |- Ends _ (exec _) =>
      intros ? ? ? ?;
      first [ apply bump_floor; intros *; apply floor_row_version
            | apply bump_zone; intros *; apply zone_row_version
            | apply bump_table; intros *; apply table_row_version ]
  | |- Ends _ ?m =>
      lazymatch m with
      | mbind _ _ => apply ends_quiet_then; [unfold quiet; solve [solve_body]|edit_walk]
      | _ => unfold_head m; cbv beta zeta; edit_walk
      end
  end.

Lemma edit_bumps c row id v :
  edits c = Some (row, id, v) -> Ends (fun _ => bumped row id v) (run_layout c).
Proof. destruct c; intros [= <- <- <-]; apply ends_discard; edit_walk. Qed.

Lemma edit_refused c row id v d :
  edits c = Some (row, id, v) -> version_of d row id <> Some v -> refused d (run_layout c).
Proof.
  intros Hedit Hv. destruct c; try discriminate Hedit; injection Hedit as <- <- <-; simpl;
    unfold discard; refuse_tenant;
    match type of H with ?m _ _ = _ => enough (Ends (fun _ => bumped _ _ _) m) as Hm by
      (apply Hm in H as [H _]; apply Hv; rewrite <- Hs; exact H) end; edit_walk.
Qed.

(** C10. Edits are optimistic: when two requests update, archive or restore the same
    floor, zone or table and expect the same version of it, and the first
    succeeds, the second fails and changes nothing, whatever requests of the
    backend come between. *)
Theorem layout_edit_exclusive c1 c2 edit e1 e2 d d1 d2 d3 r
    (Hedit1 : edits c1 = Some edit) (Hedit2 : edits c2 = Some edit)
    (H1 : run (run_layout c1) e1 d = (Ok tt, d1)) (Hlater : system_history d1 d2)
    (H2 : run (run_layout c2) e2 d2 = (r, d3)) : is_ok r = false /\ d3 = d2.
Proof.
  destruct edit as [[row id] v]. apply run_Ok in H1 as (s1 & H1 & <-).
  apply (edit_bumps _ _ _ _ Hedit1) in H1 as [_ Hnew].
  pose proof (system_history_keeps layout_step _ _ system_keeps_layout Hlater) as [Hle _].
  destruct (versions_grow _ _ _ _ _ Hle Hnew) as (v' & Hv' & Hge).
  unfold run in H2. destruct (run_layout c2 e2 (start d2)) as [r0 s0] eqn:H0. injection H2 as <- <-.
  apply (edit_refused c2 row id v d2 Hedit2) in H0; [done| |done].
  rewrite Hv'. intros [= ->]. lia.
Qed.

(** ** Snapshots *)

Lemma scan_states_run d l :
  (forall t, t ∈ l -> is_some (db_occupancy d !! tbl_ID t) = true) ->
  exists ts, scan_states d l = Ok ts /\ map fst ts = l /\
    forall t o, (t, o) ∈ ts <-> t ∈ l /\ db_occupancy d !! tbl_ID t = Some o.
Proof.
  induction l as [|t l IH]; intros Hl; simpl.
  - exists []. split_and!; [done..|]. intros t o. rewrite !elem_of_nil. tauto.
  - assert (is_some (db_occupancy d !! tbl_ID t) = true) as Ht by (apply Hl; left).
    destruct (db_occupancy d !! tbl_ID t) as [o|] eqn:Ho; [|done].
    destruct IH as (ts & -> & Hm & Hin); [intros x Hx; apply Hl; by right|].
    exists ((t, o) :: ts). split_and!; [done|by rewrite <- Hm|]. intros x y.
    rewrite !elem_of_cons, Hin. split; [|naive_solver].
    intros [[= -> ->]|[? ?]]; naive_solver.
Qed.

(** The actor of a request about a location is complete. *)
Definition names_location (actor : TenantActor) : bool :=
  negb (cac_OrganisationID actor =? uuid_Nil)%N && not_empty (TrimSpace (cac_ActorRef actor))
  && negb (cac_LocationID actor =? uuid_Nil)%N.

Lemma validate_run actor e s :
  names_location actor = true -> validate actor true e s = (Ok tt, s).
Proof.
  unfold names_location, validate, not_empty. intros H. bool_facts.
  erewrite bind_run; [|apply guard_err_run; by rewrite H, H1]. by apply guard_err_run.
Qed.

Lemma permission_run actor p e s :
  fault_free e -> grants_location (st_db s) actor p = true ->
  requireLocationPermission actor p e s = (Ok tt, tick s).
Proof.
  intros Hff Hg. unfold requireLocationPermission.
  erewrite bind_run; [|apply map_err_run, (exec_run e Hff); reflexivity].
  apply guard_err_run. unfold grants_location, grants_organisation in Hg. by rewrite Hg.
Qed.

(** The whole layout of the actor's location, each row once, and each table with
    its occupancy. *)
Record complete_snapshot (actor : TenantActor) (d : Db) (snap : LayoutSnapshot) : Prop := {
  cs_floors : forall f, f ∈ lsn_Floors snap <->
    exists k, db_floors d !! k = Some f /\ flr_OrganisationID f = cac_OrganisationID actor /\
      flr_LocationID f = cac_LocationID actor;
  cs_zones : forall z, z ∈ lsn_Zones snap <->
    exists k, db_zones d !! k = Some z /\ zon_OrganisationID z = cac_OrganisationID actor /\
      zon_LocationID z = cac_LocationID actor;
  cs_tables : forall t o, (t, o) ∈ lsn_Tables snap <->
    exists k, db_tables d !! k = Some t /\ tbl_OrganisationID t = cac_OrganisationID actor /\
      tbl_LocationID t = cac_LocationID actor /\ db_occupancy d !! k = Some o;
  cs_once : NoDup (flr_ID <$> lsn_Floors snap) /\ NoDup (zon_ID <$> lsn_Zones snap) /\
    NoDup (tbl_ID ∘ fst <$> lsn_Tables snap);
}.

Definition at_location {A} (org_of loc_of : A -> uuid) (actor : TenantActor) (r : A) : bool :=
  (org_of r =? cac_OrganisationID actor)%N && (loc_of r =? cac_LocationID actor)%N.

Lemma rows_mine {A} (get : Db -> gmap N A) (org_of loc_of : A -> uuid) d actor le r :
  r ∈ rows get d (at_location org_of loc_of actor) le <->
  exists k, get d !! k = Some r /\ org_of r = cac_OrganisationID actor /\
    loc_of r = cac_LocationID actor.
Proof. unfold at_location. rewrite rows_elem, andb_true_iff, !N.eqb_eq. naive_solver. Qed.

Lemma tables_mine d actor t :
  t ∈ tables_of (cac_OrganisationID actor) (cac_LocationID actor) d <->
  exists k, db_tables d !! k = Some t /\ tbl_OrganisationID t = cac_OrganisationID actor /\
    tbl_LocationID t = cac_LocationID actor.
Proof. exact (rows_mine db_tables tbl_OrganisationID tbl_LocationID d actor _ t). Qed.

Lemma snapshot_of d actor (Hlay : layout_inv d) (Hocc : tables_occupied d) :
  exists ts, scan_states d (tables_of (cac_OrganisationID actor) (cac_LocationID actor) d) = Ok ts /\
    forall l1 l2, complete_snapshot actor d
      {| lsn_Floors := rows db_floors d (at_location flr_OrganisationID flr_LocationID actor) l1;
         lsn_Zones := rows db_zones d (at_location zon_OrganisationID zon_LocationID actor) l2;
         lsn_Tables := ts |}.
Proof.
  pose proof (so_key (li_tables _ Hlay)) as Hkey.
  destruct (scan_states_run d (tables_of (cac_OrganisationID actor) (cac_LocationID actor) d))
    as (ts & Hts & Hfst & Hin).
  { intros t (k & Hk & _ & _)%tables_mine. destruct (Hocc _ _ Hk) as (o & Ho & _).
    by rewrite (Hkey _ _ Hk), Ho. }
  exists ts. split; [exact Hts|]. intros l1 l2. split; simpl.
  - intros f. apply rows_mine.
  - intros z. apply rows_mine.
  - intros t o. rewrite Hin, tables_mine. split.
    + intros [(k & Hk & ? & ?) Ho]. rewrite (Hkey _ _ Hk) in Ho. eauto 10.
    + intros (k & Hk & ? & ? & Ho). rewrite (Hkey _ _ Hk). eauto 10.
  - split_and!; [apply NoDup_rows_keys, (so_key (li_floors _ Hlay))
                |apply NoDup_rows_keys, (so_key (li_zones _ Hlay))|].
    rewrite list_fmap_compose. replace (fst <$> ts) with (map fst ts) by done. rewrite Hfst.
    apply NoDup_rows_keys, Hkey.
Qed.

(** A layout snapshot is complete: in a coherent database, for an actor of a
    location who may read its layout, and when no call fails, [LayoutSnapshot]
    returns every floor and every zone of the location, archived ones included,
    and every table with the occupancy that is its own, each of them once; it
    changes nothing. *)
Theorem layout_snapshot_complete actor e d
    (Hff : fault_free e) (Hlay : layout_inv d) (Hocc : tables_occupied d)
    (Hactor : names_location actor = true)
    (Hgrant : grants_location d actor PermissionLayoutRead = true) :
  exists snap, run (GetLayoutSnapshot actor) e d = (Ok snap, d) /\ complete_snapshot actor d snap.
Proof.
  destruct (snapshot_of d actor Hlay Hocc) as (ts & Hts & Hsnap).
  destruct (inTenantTx_run e Hff (
    requireLocationPermission actor PermissionLayoutRead ;;
    floors ← map_err (Wrap "listing floors")
      (ListAllFloorsByLocation (cac_OrganisationID actor) (cac_LocationID actor));
    zones ← map_err (Wrap "listing zones")
      (ListAllZonesByLocation (cac_OrganisationID actor) (cac_LocationID actor));
    tables ← map_err (Wrap "listing table states")
      (ListTableStatesByLocationIncludingArchived (cac_OrganisationID actor) (cac_LocationID actor));
    mret {| lsn_Floors := floors; lsn_Zones := zones; lsn_Tables := tables |})
    (fun snap d' => complete_snapshot actor d snap /\ d' = d) (start d)) as (snap & s' & H & Hc & Hd).
  { intros s1 Hs1. simpl in Hs1. erewrite bind_run; [|apply permission_run; [exact Hff|by rewrite Hs1]].
    erewrite bind_run; [|apply map_err_run, (exec_run e Hff); reflexivity].
    erewrite bind_run; [|apply map_err_run, (exec_run e Hff); reflexivity].
    erewrite bind_run;
      [|apply map_err_run, (exec_run e Hff); cbn [st_db with_db tick]; rewrite Hs1, Hts; reflexivity].
    do 2 eexists. split; [reflexivity|]. cbn [st_db with_db tick]. rewrite Hs1. split; [apply Hsnap|done]. }
  exists snap. split; [|done]. unfold run, GetLayoutSnapshot, Configuration.inTenantTx.
  erewrite bind_run; [|by apply validate_run]. rewrite H. by rewrite Hd.
Qed.

(** ** A new table *)

(** What creating a table writes: the table, and its occupancy, free at version 1. *)
Definition table_created (arg : UpsertTableParams) (t : Table) (d d1 : Db) : Prop :=
  let org := cac_OrganisationID (utp_Actor arg) in
  let loc := cac_LocationID (utp_Actor arg) in
  exists geometry now1 now2,
    t = new_table org loc (utp_FloorID arg) (utp_ZoneID arg) (TrimSpace (utp_Label arg))
          (TrimSpace (utp_CapacityLabel arg)) (utp_Shape arg) geometry now1 (tbl_ID t) /\
    db_tables d !! tbl_ID t = None /\ db_occupancy d !! tbl_ID t = None /\
    d1 = set_occupancy (<[tbl_ID t := new_occupancy (tbl_ID t) org loc now2 0%N]> (db_occupancy d))
           (set_tables (<[tbl_ID t := t]> (db_tables d)) d).

Lemma createTable_writes arg : Ends (table_created arg) (CreateTable arg).
Proof.
  unfold CreateTable, createTableInTx. apply ends_quiet_then; [unfold quiet; solve_body|intros []].
  apply ends_quiet_then; [unfold quiet; solve_body|intros geometry].
  apply ends_tenant_tx; [solve_intx|]. apply ends_quiet_then; [unfold quiet; solve_body|intros []].
  intros e s t s' (table & s2 & H1 & H)%bind_Ok. apply map_err_Ok, exec_Ok in H1 as (_ & d1 & H1 & ->).
  apply bind_Ok in H as (o & s3 & H2 & [= -> <-]). apply map_err_Ok, exec_Ok in H2 as (_ & d2 & H2 & ->).
  apply insert_row_Ok in H1 as (Ht & Hn & _ & ->). apply insert_row_Ok in H2 as (Ho & Hn2 & _ & ->).
  subst o t. do 3 eexists. split_and!; [reflexivity|exact Hn|exact Hn2|reflexivity].
Qed.

(** A table of a layout stands in a location of an organisation. *)
Lemma table_tenant d k t :
  layout_inv d -> db_tables d !! k = Some t ->
  is_some (db_organisations d !! tbl_OrganisationID t) = true /\
  location_fk d (tbl_OrganisationID t) (tbl_LocationID t) = true.
Proof.
  intros [_ Hl Hf Hz Ht _] Hk. apply (so_fk Ht) in Hk. unfold zone_fk in Hk.
  destruct (db_zones d !! tbl_ZoneID t) as [z|] eqn:Hzon; [|done]. apply (so_fk Hz) in Hzon.
  unfold floor_fk in Hzon. destruct (db_floors d !! zon_FloorID z) as [f|] eqn:Hflr; [|done].
  apply (so_fk Hf) in Hflr. bool_facts.
  repeat match goal with H : (_ =? _)%N = true |- _ => apply N.eqb_eq in H end.
  assert (flr_OrganisationID f = tbl_OrganisationID t) as Ho by congruence.
  assert (flr_LocationID f = tbl_LocationID t) as Hlo by congruence. rewrite Ho, Hlo in Hflr.
  split; [|done]. unfold location_fk in Hflr.
  destruct (db_locations d !! tbl_LocationID t) as [l|] eqn:Hloc; [|done].
  apply N.eqb_eq in Hflr. rewrite <- Hflr. by apply (so_fk Hl) in Hloc.
Qed.

(** A request to seat guests at a new table. *)
Record seats (t : Table) (arg : OccupyTableParams) : Prop := {
  st_table : ocp_TableID arg = tbl_ID t;
  st_scope : ocp_OrganisationID arg = tbl_OrganisationID t /\ ocp_LocationID arg = tbl_LocationID t;
  st_version : ocp_ExpectedVersion arg = 1;
  st_party : opt_all (fun n => 0 <? n) (ocp_PartySize arg) = true;
  st_source : ocp_Source arg <> "";
  st_command : cmd_ID (ocp_Command arg) = uuid_Nil /\ cmd_DeviceID (ocp_Command arg) = None;
}.

(** A new table can be used: right after [CreateTable] returned it, a request
    that expects version 1 seats guests at it, when no call fails and the
    identifiers drawn are new. *)
Theorem new_table_is_usable arg e1 d t d1 seat e2
    (Hlay : layout_inv d) (Hfloor : floor_inv d) (H1 : run (CreateTable arg) e1 d = (Ok t, d1))
    (Hseat : seats t seat) (Hff : fault_free e2) (Hids : fresh_ids e2 0 d1) :
  exists res rep d2, run (OccupyTableCommand seat None) e2 d1 = (Ok (Some res, rep), d2) /\
    rep_Replayed rep = false.
Proof.
  assert (run (run_layout (LCreateTable arg)) e1 d = (Ok tt, d1)) as Hr by by eapply discard_run.
  assert (layout_inv d1) as Hlay1
    by (eapply ls_inv; [exact (keeps_run _ _ _ _ _ _ (layout_keeps_layout _) Hr)|done]).
  assert (floor_inv d1) as Hfloor1
    by (eapply floor_grows_inv; [exact (keeps_run _ _ _ _ _ _ (layout_keeps_floor _) Hr)|done]).
  pose proof (ends_run _ _ _ _ _ _ (createTable_writes arg) H1) as (geo & n1 & n2 & Ht & Hn & Hno & Hd1).
  set (o := new_occupancy _ _ _ _ _) in Hd1.
  assert (db_tables d1 !! tbl_ID t = Some t) as Hk by (rewrite Hd1; apply lookup_insert_eq).
  assert (db_occupancy d1 !! tbl_ID t = Some o) as Hko by (rewrite Hd1; apply lookup_insert_eq).
  destruct (table_tenant _ _ _ Hlay1 Hk) as [Horg Hloc].
  destruct Hseat as [Hst [Hso Hsl] Hv Hp Hs [Hid Hdev]].
  eapply (occupy_command_runs seat None e2 d1 t o); try done; rewrite ?Hso, ?Hsl, ?Hdev; try done.
  - split; rewrite ?Hst, ?Hso, ?Hsl, ?Hv; try done; rewrite Ht; done.
  - intros res. exists 200, None. split; [done|]. rewrite Hid. done.
Qed.

(** ** Archived tables *)

(** The table archived: the same but inactive, one version later. *)
Definition table_archived (id : uuid) (t : Table) (d d1 : Db) : Prop :=
  tbl_IsActive t = false /\ d1 = set_tables (<[id := t]> (db_tables d)) d.

Lemma archiveTable_writes actor id v : Ends (table_archived id) (ArchiveTable actor id v).
Proof.
  unfold ArchiveTable, changeTableActive. apply ends_quiet_then; [unfold quiet; solve_body|intros []].
  apply ends_tenant_tx; [solve_intx|]. apply ends_quiet_then; [unfold quiet; solve_body|intros []].
  apply ends_map_err. intros e s t s' (_ & d & H & ->)%exec_Ok.
  apply update_row_Ok in H as (x & _ & _ & (w & _ & [= <-])%res_bind_Ok & _ & ->). by split.
Qed.

(** Archiving a table does not look at who sits at it, and strands them: after
    [ArchiveTable] succeeds every session and occupancy is as before, an open
    session of the table included, and as long as nobody edits the table no
    request clears it - whatever requests of the backend come between. *)
Theorem archiving_strands_session actor id v e1 d t d1 d2 arg enc e2 res rep d3
    (H1 : run (ArchiveTable actor id v) e1 d = (Ok t, d1))
    (Hlater : system_history d1 d2) (Hsame : version_of d2 EditedTable id = Some (tbl_Version t))
    (Harg : clp_TableID arg = id) :
  db_sessions d1 = db_sessions d /\ db_occupancy d1 = db_occupancy d /\
  run (ClearTableCommand arg enc) e2 d2 <> (Ok (Some res, rep), d3).
Proof.
  apply (ends_run _ _ _ _ _ _ (archiveTable_writes _ _ _)) in H1 as [Hoff ->].
  split_and!; [done..|]. intros H2.
  assert (db_tables d2 !! id = Some t) as Ht.
  { pose proof (system_history_keeps layout_step _ _ system_keeps_layout Hlater) as [[_ _ _ _ Hrows] _].
    destruct (Hrows id t) as (t' & Ht' & [_ _ _ [->|Hlt]]); [apply lookup_insert_eq|done|].
    simpl in Hsame. rewrite Ht' in Hsame. injection Hsame as Hv. lia. }
  apply run_event in H2 as (s1 & s2 & eid & time & Hd & Hex & _); [|apply _].
  apply clearTableInTx_Ok in Hex as (o & x & sid & Hlive & _). rewrite Hd in Hlive.
  unfold live_table in Hlive. rewrite Harg, Ht, Hoff in Hlive. done.
Qed.
End Confinement.

(** ** The theorems at the sample restaurant *)

Lemma tenant_isolation_witness :
  layout_actor (LCreateTable (second_table "T2")) = Some olive_configures /\
  confined 1 2 people_db
    (snd (run (run_layout (LCreateTable (second_table "T2"))) (calm 800 8000000) people_db)).
Proof.
  split; [reflexivity|].
  destruct (run (run_layout (LCreateTable (second_table "T2"))) (calm 800 8000000) people_db) as [r d'] eqn:Hr.
  exact (proj1 (tenant_isolation (LCreateTable (second_table "T2")) olive_configures _ _ _ _ eq_refl Hr)).
Defined.

(** Two people edit version 1 of the table: one archives it, one restores it. *)
Lemma layout_edit_exclusive_witness :
  exists r d3, run (run_layout (LRestoreTable olive_configures 3 1)) (calm 900 9000000)
      (snd (run (run_layout (LArchiveTable olive_configures 3 1)) (calm 800 8000000) people_db)) = (r, d3) /\
    is_ok r = false.
Proof.
  destruct (run_succeeds (run_layout (LArchiveTable olive_configures 3 1)) (calm 800 8000000) people_db)
    as [[] H1]; [vm_compute; reflexivity|].
  set (d1 := snd (run (run_layout (LArchiveTable olive_configures 3 1)) (calm 800 8000000) people_db)) in *.
  destruct (run (run_layout (LRestoreTable olive_configures 3 1)) (calm 900 9000000) d1) as [r d3] eqn:H2.
  exists r, d3. split; [reflexivity|].
  exact (proj1 (layout_edit_exclusive (LArchiveTable olive_configures 3 1) (LRestoreTable olive_configures 3 1)
    (EditedTable, 3%N, 1) _ _ _ _ _ _ _ eq_refl eq_refl H1 (system_start d1) H2)).
Defined.

Lemma layout_snapshot_complete_witness :
  exists snap, run (GetLayoutSnapshot olive_configures) (calm 800 8000000) people_db = (Ok snap, people_db) /\
    sample_zone ∈ lsn_Zones snap.
Proof.
  destruct (layout_snapshot_complete olive_configures (calm 800 8000000) people_db) as (snap & H & Hc).
  - intros t. reflexivity.
  - exact people_layout.
  - exact people_occupied.
  - vm_compute. reflexivity.
  - vm_compute. reflexivity.
  - exists snap. split; [exact H|]. apply (cs_zones _ _ _ Hc). exists 5%N.
    split; [vm_compute; reflexivity|split; reflexivity].
Defined.

Lemma second_empty :
  db_sessions second_db = ∅ /\ db_events second_db = ∅ /\ db_outbox second_db = ∅.
Proof. split_and!; vm_compute; reflexivity. Qed.

Lemma new_table_is_usable_witness :
  exists res rep d2, run (OccupyTableCommand seat_second None) (calm 1200 12000000) second_db
    = (Ok (Some res, rep), d2).
Proof.
  destruct (run_succeeds create_second (calm 800 8000000) people_db) as [t H1]; [vm_compute; reflexivity|].
  destruct second_empty as (Hs & He & Ho).
  destruct (new_table_is_usable (second_table " T2 ") (calm 800 8000000) people_db t second_db seat_second
    (calm 1200 12000000) people_layout people_floor H1) as (res & rep & d2 & H2 & _).
  - assert (fst (run create_second (calm 800 8000000) people_db) = Ok t) as Ht by (rewrite H1; reflexivity).
    vm_compute in Ht. injection Ht as <-. split; try reflexivity; [split; reflexivity|discriminate|split; reflexivity].
  - intros x. reflexivity.
  - split; [intros t1 t2; simpl; lia|..]; intros x _; rewrite ?Hs, ?He, ?Ho; apply lookup_empty.
  - exists res, rep, d2. exact H2.
Defined.

Lemma archiving_strands_session_witness :
  exists t, run archived_table (calm 1300 13000000) seated_db = (Ok t, archived_db) /\
    db_sessions archived_db = db_sessions seated_db.
Proof.
  destruct (run_succeeds archived_table (calm 1300 13000000) seated_db) as [t H1]; [vm_compute; reflexivity|].
  exists t. split; [exact H1|].
  destruct (archiving_strands_session olive_configures 3 1 (calm 1300 13000000) seated_db t archived_db archived_db
    (sample_clear 51 2) None (calm 1400 14000000)
    {| res_Table := sample_table; res_Occupancy := sample_occupancy;
       res_Session := new_session 1 2 3 None None "" 0 0 |}
    {| rep_Replayed := false; rep_Status := 0; rep_Body := None |} archived_db H1 (system_start _))
    as [Hs _]; [|reflexivity|exact Hs].
  assert (fst (run archived_table (calm 1300 13000000) seated_db) = Ok t) as Ht by (rewrite H1; reflexivity).
  vm_compute in Ht. injection Ht as <-. vm_compute. reflexivity.
Defined.
