(* ===== verification/AccessTheorems.v ===== *)
(** Who may act in a tenant's name: whatever service an actor asks, it gets nothing and
    changes nothing unless its memberships grant the permission. *)

From S2P Require Import Prelude Json Crypto Schema GoTx AnalyticsQueries Analytics ReferencePOS Operations Guest Outbox Events Onboarding Store Queries Tokens IdentityQueries LayoutQueries Identity Memberships Http PlatformQueries Routes TxFacts Steps IdentityFacts MembershipFacts Commands IntegrationFacts SystemCommands HttpSteps History Idempotency Samples IdentitySamples SystemSamples IntegrationTheorems LayoutTheorems.
#[local] Open Scope string_scope.
#[local] Open Scope Z_scope.
#[local] Open Scope list_scope.

(** ** Permissions *)

Section Access.
Context {GT : GoText}.

(** The actor holds an enabled membership whose role grants the permission. *)
Definition may_in_organisation (d : Db) (actor : TenantActor) (permission : string) : bool :=
  org_grants d (act_OrganisationID actor)
  (fun m => String.eqb (omb_MemberRef m) (TrimSpace (act_ActorRef actor))) permission.

Definition may_at_location (d : Db) (actor : TenantActor) (loc : uuid) (permission : string) : bool :=
  loc_grants d (act_OrganisationID actor) loc
  (fun m => String.eqb (lmb_MemberRef m) (TrimSpace (act_ActorRef actor))) permission
  || may_in_organisation d actor permission.

(** What the commands of tenants require. *)
Definition authorised (d : Db) (c : IdentityCommand) : bool :=
  match c with
  | ICreateMembership arg => may_in_organisation d (cmp_Actor arg) PermissionOrganisationManage
  | IUpdateRole arg => may_in_organisation d (ump_Actor arg) PermissionOrganisationManage
  | IDisable arg => may_in_organisation d (dmp_Actor arg) PermissionOrganisationManage
  | ICreatePairingCode arg =>
      may_at_location d (cpc_Actor arg) (act_LocationID (cpc_Actor arg)) PermissionDeviceManage
  | IRevokeDevice actor dev =>
      match db_devices d !! dev with
      | Some v =>
          match dev_LocationID v with
          | Some loc => may_at_location d actor loc PermissionDeviceManage
          | None => may_in_organisation d actor PermissionDeviceManage
          end
      | None => false
      end
  | _ => true
  end.

Lemma requireOrganisationPermission_Ok actor p e s u s' :
  requireOrganisationPermission actor p e s = (Ok u, s') ->
  org_grants (st_db s) (act_OrganisationID actor)
  (fun m => String.eqb (omb_MemberRef m) (act_ActorRef actor)) p = true.
Proof.
  unfold requireOrganisationPermission. intros (b & s1 & H1 & H)%bind_Ok.
  apply map_err_Ok, exec_Ok in H1 as (_ & d & [= <- <-] & ->).
  by apply guard_err_Ok in H as (H%negb_false_iff & _).
Qed.

Lemma requireLocationPermission_Ok actor p e s u s' :
  requireLocationPermission actor p e s = (Ok u, s') ->
  loc_grants (st_db s) (act_OrganisationID actor) (act_LocationID actor)
  (fun m => String.eqb (lmb_MemberRef m) (act_ActorRef actor)) p
  || org_grants (st_db s) (act_OrganisationID actor)
  (fun m => String.eqb (omb_MemberRef m) (act_ActorRef actor)) p = true.
Proof.
  unfold requireLocationPermission. intros ([] & s0 & H0 & H)%bind_Ok. apply guard_err_Ok in H0 as (_ & -> & _).
  apply bind_Ok in H as (b & s1 & H1 & H). apply map_err_Ok, exec_Ok in H1 as (_ & d & [= <- <-] & ->).
  by apply guard_err_Ok in H as (H%negb_false_iff & _).
Qed.

Lemma quiet_rand_Read n : quiet (rand_Read n).
Proof. intros e s r s' H. unfold rand_Read in H. case_match; by injection H as _ <-. Qed.

#[local] Hint Resolve quiet_rand_Read : keeps.
#[local] Hint Extern 1 (BodyKeeps eq (rand_Read _)) => apply quiet_rand_Read : keeps.

(** Walk to the transaction; what comes before it is quiet. *)
Ltac refuse :=
  lazymatch goal with
  | |- forall _, _ => intros ?; refuse
  | |- refused _ (inTx _) => apply refused_tx; [solve_intx|]
  | |- refused _ ?m =>
      lazymatch m with
      | mbind _ _ =>
          first [ apply refused_then; [unfold quiet; solve [solve_body]|]; refuse
                | apply refused_first; refuse ]
      | map_err _ _ => apply refused_map_err; refuse
      | match ?x with _ => _ end => destruct x; refuse
      | _ => unfold_head m; cbv beta zeta; refuse
      end
  end.

Lemma needs_organisation {A} actor p (k : unit -> Go A) e s a s' d :
  may_in_organisation d actor p = false -> st_db s = d ->
  (requireOrganisationPermission (normalizeTenantActor actor) p ≫= k) e s = (Ok a, s') -> False.
Proof.
  intros Hno Hs (u & s1 & H & _)%bind_Ok. apply requireOrganisationPermission_Ok in H.
  rewrite Hs in H. unfold may_in_organisation in Hno. simpl in H. congruence.
Qed.

Lemma needs_location {A} actor loc p (k : unit -> Go A) e s a s' d :
  may_at_location d actor loc p = false -> st_db s = d ->
  (requireLocationPermission {| act_OrganisationID := act_OrganisationID actor;
  act_LocationID := loc; act_ActorRef := TrimSpace (act_ActorRef actor) |} p ≫= k) e s = (Ok a, s') -> False.
Proof.
  intros Hno Hs (u & s1 & H & _)%bind_Ok. apply requireLocationPermission_Ok in H.
  rewrite Hs in H. unfold may_at_location, may_in_organisation in Hno. simpl in H. congruence.
Qed.

Lemma needs_device actor dev e s v s' d :
  authorised d (IRevokeDevice actor dev) = false -> st_db s = d ->
  revokeDeviceInTx (normalizeTenantActor actor) dev e s = (Ok v, s') -> False.
Proof.
  simpl. intros Hno Hs H. unfold revokeDeviceInTx in H. apply bind_Ok in H as (cur & s1 & H1 & H).
  apply map_err_Ok, exec_Ok in H1 as (_ & d1 & H1 & ->). apply select_one_Ok in H1 as (Hv & _ & ->).
  rewrite Hs in *. rewrite Hv in Hno. simpl in H. destruct (dev_LocationID cur) as [loc|].
  - by eapply (needs_location actor loc) in H.
  - by eapply (needs_organisation actor) in H.
Qed.

(** ** The services *)

(** What the actor of an analytics request may do at its location. *)
Definition may_analyse (d : Db) (actor : Analytics.TenantActor) (permission : string) : bool :=
  loc_grants d (aac_OrganisationID actor) (aac_LocationID actor)
    (fun m => String.eqb (lmb_MemberRef m) (aac_ActorRef actor)) permission
  || org_grants d (aac_OrganisationID actor)
       (fun m => String.eqb (omb_MemberRef m) (aac_ActorRef actor)) permission.

Definition analytics_allowed (d : Db) (c : AnalyticsCommand) : bool :=
  match c with
  | ASummary actor location _ _ =>
      may_analyse d {| aac_OrganisationID := aac_OrganisationID actor; aac_LocationID := location;
                       aac_ActorRef := aac_ActorRef actor |} PermissionAnalyticsRead
  | ATimeseries actor _ _ _ | AComparison actor _ _ _ | ADataQuality actor | AListServicePeriods actor =>
      may_analyse d actor PermissionAnalyticsRead
  | ACreateServicePeriod actor _ | AUpdateServicePeriod actor _ _ | AArchiveServicePeriod actor _ _ =>
      may_analyse d actor PermissionLocationManage
  | ARebuild arg => may_analyse d (rbp_Actor arg) PermissionLocationManage
  | AProject _ => true
  end.

(** The operations of the services that take an actor of a tenant, with those that
    take none. *)
Inductive TenantOperation :=
| TListDevices (actor : Identity.TenantActor)
| TListMemberships (actor : Identity.TenantActor) (includeDisabled : bool)
| TPeople (c : IdentityCommand)
| TLayout (c : LayoutCommand)
| TIntegration (c : IntegrationCommand)
| TAnalytics (c : AnalyticsCommand).

Definition allowed (d : Db) (o : TenantOperation) : bool :=
  match o with
  | TListDevices actor =>
      if (act_LocationID actor =? uuid_Nil)%N then may_in_organisation d actor PermissionDeviceManage
      else may_at_location d actor (act_LocationID actor) PermissionDeviceManage
  | TListMemberships actor _ => may_in_organisation d actor PermissionOrganisationManage
  | TPeople c => authorised d c
  | TLayout c => layout_allowed d c
  | TIntegration c => integration_allowed d c
  | TAnalytics c => analytics_allowed d c
  end.

Section Operations.
Context {GN : GoNumber} {ET : ErrorTexts} {PT : PosText}
  {HT : HttpText} {PL : PlatformText} {RD : ReportData}.

Definition run_operation (o : TenantOperation) : Go unit :=
  match o with
  | TListDevices actor => discard (ListDevices actor)
  | TListMemberships actor b => discard (ListManagedMemberships actor b)
  | TPeople c => run_identity c
  | TLayout c => run_layout c
  | TIntegration c => run_integration ReferencePOS.adapters c
  | TAnalytics c => run_analytics c
  end.

Lemma people_refused c d : authorised d c = false -> refused d (run_identity c).
Proof.
  intros Hno. destruct c; try discriminate Hno; simpl; unfold discard; apply refused_first; refuse;
    intros e0 s0 ? s1 Hs H; simpl in H.
  - by eapply (needs_location (cpc_Actor arg)) in H.
  - by eapply needs_device.
  - by eapply (needs_organisation (cmp_Actor arg)) in H.
  - by eapply (needs_organisation (ump_Actor arg)) in H.
  - unfold disableMembershipChecks in H. apply bind_Ok in H as ([] & s2 & H & _).
    by eapply (needs_organisation (dmp_Actor arg)) in H.
Qed.

Lemma devices_refused actor d : allowed d (TListDevices actor) = false -> refused d (ListDevices actor).
Proof.
  cbn [allowed]. intros Hno. unfold ListDevices. cbv zeta. refuse. intros e s u s1 Hs H.
  cbn [normalizeTenantActor act_LocationID] in H.
  destruct (act_LocationID actor =? uuid_Nil)%N; [by eapply (needs_organisation actor) in H|].
  by eapply (needs_location actor (act_LocationID actor)) in H.
Qed.

#[local] Existing Instance hydrate_in_tx.

Lemma memberships_refused actor b d :
  allowed d (TListMemberships actor b) = false -> refused d (ListManagedMemberships actor b).
Proof.
  cbn [allowed]. intros Hno. unfold ListManagedMemberships. cbv zeta. refuse. intros e s u s1 Hs H.
  by eapply (needs_organisation actor) in H.
Qed.

Lemma analyst_Ok actor p msg e s u s' :
  Analytics.requirePermission actor p msg e s = (Ok u, s') -> may_analyse (st_db s) actor p = true.
Proof.
  intros (b & s2 & H & H2)%bind_Ok. apply map_err_Ok, exec_Ok in H as (_ & d & [= <- <-] & ->).
  by apply guard_err_Ok in H2 as (H2%negb_false_iff & _).
Qed.

Lemma analytics_refused c d : analytics_allowed d c = false -> refused d (run_analytics c).
Proof.
  intros Hno. destruct c; try discriminate Hno; simpl; unfold discard; refuse_tenant.
  all: cbn [analytics_allowed] in Hno; 
    first [apply analyst_Ok in H | apply bind_Ok in H as (u & s2 & H & _); apply analyst_Ok in H];
    rewrite Hs in H; congruence.
Qed.

(** C39. Nothing is done in a tenant's name without permission.  Whatever operation an
    actor asks of the services - to list devices or memberships; to create, change or
    disable a membership; to create a pairing code or revoke a device; to read or edit
    the organisation, its locations and their floors, zones and tables; to list, map,
    inspect, replay or reconcile integrations; to read analytics, rebuild them or edit
    service periods - it fails, and the database is as it was, if no enabled membership
    of the actor has a role that grants the permission the operation requires; also
    when calls fail or a commit is lost. *)
Theorem permission_enforced o e d r d'
    (Hno : allowed d o = false) (Hrun : run (run_operation o) e d = (r, d')) :
  is_ok r = false /\ d' = d.
Proof.
  assert (refused d (run_operation o)) as Href.
  { destruct o; cbn [run_operation].
    - by apply refused_first, devices_refused.
    - by apply refused_first, memberships_refused.
    - by apply people_refused.
    - by apply request_refused.
    - by apply integration_refused.
    - by apply analytics_refused. }
  apply run_inv in Hrun as (s' & H & <-). by apply (Href e (start d)).
Qed.
End Operations.
End Access.

(** Reed may only read: he may not disable Olive, nor see the devices or the members. *)
Definition reed : Identity.TenantActor :=
  {| act_OrganisationID := 1%N; act_LocationID := uuid_Nil;
     act_ActorRef := userProfileActorRef 11 |}.

Definition reed_disables : IdentityCommand :=
  IDisable {| dmp_Actor := reed; dmp_Scope := "organisation"; dmp_ID := 20%N |}.

Lemma permission_enforced_witness :
  (exists r d', run (run_identity reed_disables) (calm 100 1000000) people_db = (r, d') /\
     is_ok r = false /\ d' = people_db) /\
  is_ok (fst (run (run_operation (TListDevices reed)) (calm 100 1000000) people_db)) = false /\
  is_ok (fst (run (run_operation (TListMemberships reed true)) (calm 100 1000000) people_db)) = false.
Proof.
  split; [|split].
  - destruct (run (run_identity reed_disables) (calm 100 1000000) people_db) as [r d'] eqn:Hr.
    exists r, d'. split; [reflexivity|].
    apply (permission_enforced (TPeople reed_disables) (calm 100 1000000) people_db r d'); [|exact Hr].
    vm_compute. reflexivity.
  - apply (permission_enforced (TListDevices reed) (calm 100 1000000) people_db _ _
      ltac:(vm_compute; reflexivity) (surjective_pairing _)).
  - apply (permission_enforced (TListMemberships reed true) (calm 100 1000000) people_db _ _
      ltac:(vm_compute; reflexivity) (surjective_pairing _)).
Defined.
