(* ===== verification/OnboardingTheorems.v ===== *)
(** How a tenant starts: a provisioned organisation has an owner and keeps one,
    its owner sets up its first location once, and what the setup leaves is the
    layout that was asked for. *)

From S2P Require Import Prelude Json Crypto Schema AnalyticsQueries GoTx Store Queries Tokens IdentityQueries LayoutQueries Identity Memberships Configuration Onboarding Operations Guest Outbox ReferencePOS TxFacts Steps LayoutFacts IdentityFacts MembershipFacts FloorSpec Commands IntegrationFacts Http Dto PlatformQueries Auth Platform Routes SystemCommands HttpSteps LayoutCommands History Idempotency Samples IdentitySamples SystemSamples IdentityTheorems Guards MembershipTheorems PlatformTheorems AccessTheorems.
#[local] Open Scope string_scope.
#[local] Open Scope Z_scope.
#[local] Open Scope list_scope.

(** ** Owners *)

Section Owners.
Context {GT : GoText} {GN : GoNumber} {ET : ErrorTexts} {PT : PosText}
  {HT : HttpText} {PL : PlatformText} {RD : ReportData}.

Lemma same_people_owner d d' : same_people d d' -> owner_step d d'.
Proof.
  intros [Hi _]. apply owner_step_same; unfold orgs_same, users_grow, db_org_members, db_users; by rewrite Hi.
Qed.

Lemma ok_granted org role profile ref :
  OkKeeps owner_step (createOrReactivateOrganisationMembership org role profile ref).
Proof. intros e s a s'. apply granted_body. Qed.

#[local] Hint Extern 1 (orgs_kept _ _) => split; [reflexivity|solve [eauto with keeps]] : keeps.

Lemma body_getOrCreate email name : BodyKeeps owner_step (getOrCreateUserProfileByEmail email name).
Proof.
  intros e s a s' H. apply orgs_kept_owner. revert e s a s' H.
  change (BodyKeeps orgs_kept (getOrCreateUserProfileByEmail email name)). solve_body.
Qed.

#[local] Hint Resolve ok_granted body_getOrCreate : keeps.
#[local] Hint Extern 1 (owner_step _ _) => apply same_people_owner; split; reflexivity : keeps.

Lemma layout_owner_step c : BodyKeeps owner_step (run_layout c).
Proof. destruct c; solve_op. Qed.
Lemma owner_command c : is_reassign c = false -> TopKeeps owner_step (run_identity c).
Proof.
  intros Hr. destruct (on_memberships c) eqn:Hc.
  - apply top_of_body; [apply closed_identity|by apply other_membership_body].
  - eapply top_weaken; [exact orgs_kept_owner|]. apply identity_top; [apply _|by apply other_commands_kept].
Qed.

Lemma owner_SetOrganisationStatus id st : BodyKeeps owner_step (SetOrganisationStatus id st).
Proof. solve_body. Qed.

#[local] Instance owner_backend : Backend owner_step owner_step.
Proof.
  apply backend_of; [apply _|..].
  - intros c. eapply top_weaken; [exact same_people_owner|]. apply floor_top; [apply _|apply floor_keeps_people].
  - apply owner_command.
  - intros c. apply top_of_body; [apply closed_layout|apply layout_owner_step].
  - intros c. eapply top_weaken; [exact same_people_owner|].
    apply integration_top; [apply _|by intros|apply floor_keeps_people].
  - intros c. apply analytics_of; [apply _|..]; intros x d; by apply same_people_owner.
  - apply owner_SetOrganisationStatus.
  - intros x d. apply owner_step_same; [done|]. by intros ?.
  - intros x d. apply owner_step_same; [done|]. by intros ?.
  - intros x d. apply owner_step_same; [done|]. by intros ?.
  - intros x d. apply owner_step_same; [done|]. by intros ?.
Qed.

Definition is_reassignment (rt : Route) : bool :=
  match rt with RReassignPlatformTenantOwner => true | _ => false end.

(** *** Reassigning ownership over HTTP *)

(** The tenant and the address that a request to reassign ownership names: one in its
    path, the other in its body. *)
Definition reassigns (rq : Request) (org : uuid) (email : string) : Prop :=
  uuid_Parse (PathValue rq "id") = Some org /\
  exists body, Yields (decode_strings ["toEmail"; "reason"] rq) body /\
    normalizeEmail (field body "toEmail") = Ok email.

(** The route keeps owners, if it hands over to nobody who stays a lesser member. *)
Definition hands_over_ok {A} (rq : Request) (e : Env) (d : Db) (r : result error A) (d' : Db) : Prop :=
  (forall org email, reassigns rq org email -> hands_over_to d org email) -> owner_step d d'.

Lemma same_members_owner d d' :
  db_org_members d' = db_org_members d -> db_users d' = db_users d -> owner_step d d'.
Proof. intros Hm Hu. apply owner_step_same; unfold orgs_same, users_grow; [done|]. rewrite Hu. by intros ?. Qed.

Lemma reassign_answers cfg rq : Answers (hands_over_ok rq) (reassignPlatformTenantOwner cfg rq).
Proof.
  unfold reassignPlatformTenantOwner, platformTenantOwnerRequest, platformTenantRequest.
  do 2 apply answers_assoc. apply (answers_after _ touched); [| |apply context_touches|].
  - intros e d d1 r d2 (Hm & Hu & _)%touched_members Hstep Hho. etrans; [by apply (same_members_owner _ d1)|].
    apply Hstep. intros org email Hr. apply Hho in Hr. unfold hands_over_to in *. by rewrite Hm, Hu.
  - intros e d r d' (Hm & Hu & _)%touched_members _ _. by apply same_members_owner.
  - intros req. assert (forall e d (r : result error (result ApiError Answer)), served r = false ->
      hands_over_ok rq e d r d) as Hrefused by by intros e d r _ _.
    apply answers_assoc, answers_inert; [done|apply _|]. intros org Horg%pathUUID_yields.
    apply answers_ret, answers_assoc, answers_inert; [done|apply _|]. intros from _.
    apply answers_ret, answers_inert; [done|apply _|]. intros body Hbody.
    apply answers_inert; [done|apply _|]. intros reason _.
    assert (forall d, (forall org email, reassigns rq org email -> hands_over_to d org email) ->
      forall email, normalizeEmail (field body "toEmail") = Ok email -> hands_over_to d org email) as Hto.
    { intros d Hho email He. apply Hho. split; [done|]. by exists body. }
    apply answers_service; [done| | | |]; cbn [fst snd].
    + solve_intx.
    + intros m e s. by eexists.
    + intros e s r1 s1 r _ H _ Hho. eapply reassign_step; [|exact H]. by apply Hto.
    + intros e s m s1 s2 c s3 r _ H Hd [Hm Hu]%recorded_members _ Hho. rewrite Hd in *.
      etrans; [|by apply (same_members_owner (st_db s1))]. eapply reassign_step; [|exact H]. by apply Hto.
Qed.

(** Histories of the backend in which ownership passes only to people who are not
    enabled members with a lesser role, by calls of the service and by requests of
    the HTTP API. *)
Definition hands_over_in (d : Db) (c : SystemCommand) : Prop :=
  match c with
  | SIdentity c => hands_over d c
  | SHttp _ RReassignPlatformTenantOwner rq =>
      forall org email, reassigns rq org email -> hands_over_to d org email
  | _ => True
  end.

Inductive tenant_history (d0 : Db) : Db -> Prop :=
| tenant_start : tenant_history d0 d0
| tenant_next d c e r d' :
    tenant_history d0 d -> hands_over_in d c -> run (run_system c) e d = (r, d') ->
    tenant_history d0 d'.

Lemma tenant_history_step d d' : tenant_history d d' -> owner_step d d'.
Proof.
  induction 1 as [|d1 c e r d2 _ IH Hho Hrun]; [done|]. etrans; [exact IH|].
  destruct c as [c|c|c|c|c|cfg rt rq].
  2: by eapply command_owner_step.
  5: destruct (is_reassignment rt) eqn:Hre.
  5: { destruct rt; try discriminate Hre. apply run_inv in Hrun as (s' & H & <-). cbn [run_system] in H.
    unfold discard, mbind, Go_bind in H.
    destruct (handle cfg RReassignPlatformTenantOwner rq e (start d1)) as [r1 s1] eqn:H1.
    apply (reassign_answers cfg rq e (start d1)) in H1; [|done]. specialize (H1 Hho).
    by destruct r1; injection H as _ <-. }
  all: revert Hrun; apply top_run; cbn [run_system].
  - apply be_floor.
  - apply be_layout.
  - apply be_integration.
  - apply be_analytics.
  - refine (top_bind _ _ _ (http_keeps owner_step owner_step cfg rt rq _) _); [by destruct rt|].
    intros a. refine (top_ret _ _).
Qed.

(** C40. Every tenant keeps an owner: along every history of the backend - requests
    of the floor, of guests, of people and devices, of the configuration, of
    onboarding, of integrations, of analytics and of the HTTP API, the platform's
    administration and its reassignments included, with whatever failing calls and
    lost commits - an organisation that has an enabled owner has one afterwards,
    provided that ownership is reassigned only to people who are not enabled members
    with a lesser role: each reassignment, whether the service's or a request's whose
    path names the tenant and whose body names the address, names such a person in
    the state in which it arrives. *)
Theorem tenant_keeps_owner org d d'
    (Hok : members_ok d) (Howner : has_owner org d) (Hhist : tenant_history d d') :
  has_owner org d'.
Proof. by apply (tenant_history_step _ _ Hhist Hok). Qed.

(** ** Provisioning *)

(** What provisioning leaves: a new organisation, its first location, and an
    enabled owner whose profile exists. *)
Record provisioned (arg : PlatformProvisionTenantParams) (p : PlatformProvisionTenantResult) (d d' : Db)
    : Prop := {
  pv_new : db_organisations d !! org_ID (ppr_Organisation p) = None;
  pv_organisation : db_organisations d' !! org_ID (ppr_Organisation p) = Some (ppr_Organisation p);
  pv_slug : org_Slug (ppr_Organisation p) = TrimSpace (ppt_OrganisationSlug arg);
  pv_fresh : org_OnboardedAt (ppr_Organisation p) = None;
  pv_location : db_locations d' !! loc_ID (ppr_Location p) = Some (ppr_Location p);
  pv_tenant : loc_OrganisationID (ppr_Location p) = org_ID (ppr_Organisation p);
  pv_timezone : loc_Timezone (ppr_Location p) = or_default (TrimSpace (ppt_Timezone arg)) "UTC";
  pv_owner : exists k m u, db_org_members d' !! k = Some m /\
    active_owner (org_ID (ppr_Organisation p)) m = true /\ omb_UserProfileID m = Some u /\
    is_some (db_users d' !! u) = true /\ ppr_Owner p = managed_org d' m;
}.

(** People are found or made without touching the restaurant. *)
Lemma grant_same_floor org role profile ref e s m s' :
  createOrReactivateOrganisationMembership org role profile ref e s = (Ok m, s') ->
  IdentityFacts.same_floor (st_db s) (st_db s').
Proof.
  intros H. enough (BodyKeeps IdentityFacts.same_floor
    (createOrReactivateOrganisationMembership org role profile ref)) as Hb by by eapply Hb.
  solve_body.
Qed.

Lemma profile_same_floor email name e s p s' :
  getOrCreateUserProfileByEmail email name e s = (Ok p, s') ->
  IdentityFacts.same_floor (st_db s) (st_db s').
Proof.
  intros H. enough (BodyKeeps IdentityFacts.same_floor (getOrCreateUserProfileByEmail email name)) as Hb
    by by eapply Hb.
  solve_body.
Qed.

Lemma granted_owner org u m d d' k r' :
  granted org RoleOrganisationOwner u m d d' k r' ->
  exists k m0 u, db_org_members d' !! k = Some m0 /\ active_owner org m0 = true /\
    omb_UserProfileID m0 = Some u /\ is_some (db_users d' !! u) = true /\ m = managed_org d' m0.
Proof.
  intros [Hch _ _ Horg Hrole Hu Hfk Hen Hm]. exists k, r', u. unfold row_changed in Hch.
  rewrite Hch, lookup_insert_eq. split_and!; [done| |done..]. by apply active_owner_inv.
Qed.

Lemma provision_Ok oslug oname lslug lname tz email name e s p s' :
  members_keyed (st_db s) ->
  provisionInTx oslug oname lslug lname tz email name e s = (Ok p, s') ->
  exists now1 u1 now2 u2,
    ppr_Organisation p = new_organisation oslug oname now1 u1 /\
    ppr_Location p = new_location u1 lslug lname tz now2 u2 /\
    db_organisations (st_db s) !! u1 = None /\
    db_organisations (st_db s') = <[u1 := ppr_Organisation p]> (db_organisations (st_db s)) /\
    db_locations (st_db s') = <[u2 := ppr_Location p]> (db_locations (st_db s)) /\
    exists k m u, db_org_members (st_db s') !! k = Some m /\ active_owner u1 m = true /\
      omb_UserProfileID m = Some u /\ is_some (db_users (st_db s') !! u) = true /\
      ppr_Owner p = managed_org (st_db s') m.
Proof.
  intros Hkey. unfold provisionInTx. intros ([] & s1 & H1 & H)%bind_Ok.
  apply map_err_Ok, SetContext_Ok in H1 as (Hs1 & _).
  apply bind_Ok in H as (org & s2 & H2 & H). apply map_err_Ok, exec_Ok in H2 as (_ & d2 & H2 & ->).
  apply insert_row_Ok in H2 as (Horg & Hn & _ & ->). rewrite Hs1 in *.
  apply bind_Ok in H as (loc & s3 & H3 & H). apply map_err_Ok, exec_Ok in H3 as (_ & d3 & H3 & ->).
  apply insert_row_Ok in H3 as (Hloc & _ & _ & ->).
  apply bind_Ok in H as (profile & s4 & H4 & H). apply bind_Ok in H as (owner & s5 & H5 & [= <- <-]).
  pose proof (profile_same_floor _ _ _ _ _ _ H4) as [Ho4 Hl4 _ _ _ _ _ _ _ _ _].
  pose proof (grant_same_floor _ _ _ _ _ _ _ _ H5) as [Ho5 Hl5 _ _ _ _ _ _ _ _ _].
  apply getOrCreate_Ok in H4 as [Hm4 _].
  apply createOrReactivate_Ok in H5 as (k & r' & Hg%granted_owner);
    [|unfold members_keyed; by rewrite Hm4].
  cbn [ppr_Organisation ppr_Location ppr_Owner].
  rewrite Ho5, Hl5, Ho4, Hl4. subst org. do 4 eexists.
  split; [reflexivity|]. split; [exact Hloc|]. split; [exact Hn|].
  split; [reflexivity|]. split; [by rewrite Hloc|]. exact Hg.
Qed.

(** Provisioning a tenant creates what it returns: an organisation that was
    not there, with the trimmed slug and not yet onboarded; its first location,
    in the timezone given or UTC; and an enabled owner membership of a profile
    that exists. *)
Theorem provisioning_creates_tenant arg e d p d'
    (Hkey : members_keyed d) (Hrun : run (PlatformProvisionTenant arg) e d = (Ok p, d')) :
  provisioned arg p d d'.
Proof.
  apply run_Ok in Hrun as (s' & H & <-). unfold PlatformProvisionTenant in H.
  apply bind_Ok in H as (email & s1 & [= He <-] & H).
  apply bind_Ok in H as ([] & s2 & (_ & -> & _)%guard_err_Ok & H).
  apply bind_Ok in H as ([] & s3 & (_ & -> & _)%guard_err_Ok & H).
  apply map_err_Ok in H. apply inTx_Ok in H as (s4 & s5 & Hs & _ & H & <-); [|solve_intx].
  apply provision_Ok in H as (n1 & u1 & n2 & u2 & Ho & Hl & Hn & Hdo & Hdl & Hown); rewrite Hs in *; [|done].
  rewrite Ho in Hdo. rewrite Hl in Hdl. cbn [st_db start] in Hn.
  split; rewrite ?Ho, ?Hl, ?Hdo, ?Hdl; try done; try apply lookup_insert_eq.
Qed.

(** ** An organisation is set up once *)

Definition onboarded (d : Db) (org : uuid) : Prop :=
  exists o, db_organisations d !! org = Some o /\ is_some (org_OnboardedAt o) = true.

Definition onboarded_kept (d d' : Db) : Prop := forall org, onboarded d org -> onboarded d' org.

#[export] Instance onboarded_kept_preorder : PreOrder onboarded_kept.
Proof. split; [intros d org H; exact H|]. intros x y z H1 H2 org Hx. auto. Qed.

Lemma onboarded_write d k o :
  (forall x, db_organisations d !! k = Some x -> is_some (org_OnboardedAt x) = true ->
     is_some (org_OnboardedAt o) = true) ->
  onboarded_kept d (set_organisations (<[k := o]> (db_organisations d)) d).
Proof.
  intros Hk org (x & Hx & Hon). unfold onboarded. simpl. destruct (decide (org = k)) as [->|Hne].
  - exists o. rewrite lookup_insert_eq. eauto.
  - exists x. by rewrite lookup_insert_ne.
Qed.

Lemma onboarded_CreateOrganisation slug name : Keeps onboarded_kept (CreateOrganisation slug name).
Proof.
  apply (keeps_exec onboarded_kept). intros now u d a d' (-> & Hn & _ & ->)%insert_row_Ok.
  apply onboarded_write. intros x Hx. simpl in *. congruence.
Qed.

Lemma onboarded_UpdateOrganisationRow id slug name status :
  Keeps onboarded_kept (UpdateOrganisationRow id slug name status).
Proof.
  apply (keeps_exec onboarded_kept). intros now u d a d' (x & Hx & _ & [= <-] & _ & ->)%update_row_Ok.
  apply onboarded_write. intros y Hy. simpl. congruence.
Qed.

Lemma onboarded_SetOrganisationOnboarded id : Keeps onboarded_kept (SetOrganisationOnboarded id).
Proof.
  apply (keeps_exec onboarded_kept). intros now u d a d' (x & Hx & _ & [= <-] & _ & ->)%update_row_Ok.
  by apply onboarded_write.
Qed.

#[local] Hint Resolve onboarded_CreateOrganisation onboarded_UpdateOrganisationRow
  onboarded_SetOrganisationOnboarded : keeps.
#[local] Hint Extern 1 (onboarded_kept _ _) => (let H := fresh in intros ? H; exact H) : keeps.

Lemma floor_keeps_onboarded c : Keeps onboarded_kept (run_command c).
Proof. destruct c; solve_keeps. Qed.
Lemma identity_keeps_onboarded c : Keeps onboarded_kept (run_identity c).
Proof. destruct c; solve_keeps. Qed.
Lemma layout_keeps_onboarded c : Keeps onboarded_kept (run_layout c).
Proof. destruct c; solve_keeps. Qed.
Lemma onboarded_SetOrganisationStatus id st : BodyKeeps onboarded_kept (SetOrganisationStatus id st).
Proof.
  apply exec_body; [apply _|]. apply (keeps_exec onboarded_kept).
  intros now u d a d' (x & Hx & _ & [= <-] & _ & ->)%update_row_Ok. apply onboarded_write. intros y Hy. simpl. congruence.
Qed.

#[local] Instance onboarded_backend : Backend onboarded_kept onboarded_kept.
Proof.
  apply backend_of; [apply _|..].
  - intros c. apply floor_top; [apply _|apply floor_keeps_onboarded].
  - intros c _. apply identity_top; [apply _|apply identity_keeps_onboarded].
  - intros c. apply layout_top; [apply _|apply layout_keeps_onboarded].
  - intros c. apply integration_top; [apply _|intros x d o H; exact H|apply floor_keeps_onboarded].
  - intros c. apply analytics_of; [apply _|..]; intros x d o H; exact H.
  - apply onboarded_SetOrganisationStatus.
  - intros x d o H. exact H.
  - intros x d o H. exact H.
  - intros x d o H. exact H.
  - intros x d o H. exact H.
Qed.

Lemma system_keeps_onboarded c e d r d' : run (run_system c) e d = (r, d') -> onboarded_kept d d'.
Proof.
  apply (backend_keeps onboarded_kept onboarded_kept). intros arg.
  apply reassign_top; [apply _|apply identity_keeps_onboarded].
Qed.

(** ** The layout of the first location *)

(** Rows of a layout are added, none is changed. *)
Record extends (d d' : Db) : Prop := {
  ex_floors : db_floors d ⊆ db_floors d';
  ex_zones : db_zones d ⊆ db_zones d';
  ex_tables : db_tables d ⊆ db_tables d';
  ex_occupancy : db_occupancy d ⊆ db_occupancy d';
  ex_periods : db_periods d ⊆ db_periods d';
}.

#[export] Instance extends_preorder : PreOrder extends.
Proof. split; [by split|]. intros x y z [] []. split; by etrans. Qed.

(** The values a list of steps returns, and what still holds of each at the end. *)
Lemma mapM_post {A B} (f : A -> Go B) (Q : A -> B -> Db -> Prop) (l : list A) e s bs s' :
  (forall a e s b s', f a e s = (Ok b, s') -> extends (st_db s) (st_db s') /\ Q a b (st_db s')) ->
  (forall a b d d', extends d d' -> Q a b d -> Q a b d') ->
  mapM f l e s = (Ok bs, s') ->
  extends (st_db s) (st_db s') /\ Forall2 (fun a b => Q a b (st_db s')) l bs.
Proof.
  intros Hf Hmono. revert s bs. induction l as [|a l IH]; intros s bs H; simpl in H.
  - injection H as <- <-. done.
  - apply bind_Ok in H as (b & s1 & H1 & H). apply Hf in H1 as [Hx1 Hq1].
    apply bind_Ok in H as (bs' & s2 & H2 & [= <- <-]). apply IH in H2 as [Hx2 Hall].
    split; [by etrans|]. constructor; [|done]. by eapply Hmono.
Qed.

Definition zone_made (org loc flr : uuid) (z : OnboardingZone) (z' : Zone) (d : Db) : Prop :=
  db_zones d !! zon_ID z' = Some z' /\ zon_Name z' = obz_Name z /\ zon_SortOrder z' = obz_SortOrder z /\
  zon_OrganisationID z' = org /\ zon_LocationID z' = loc /\ zon_FloorID z' = flr /\
  zon_IsActive z' = true.

(** The table stands in the zone it names, or in the first one, and is free. *)
Definition table_made (org loc flr : uuid) (zones : list Zone) (default : Zone) (t : OnboardingTable)
    (t' : Table) (d : Db) : Prop :=
  db_tables d !! tbl_ID t' = Some t' /\ tbl_Label t' = obt_Label t /\
  tbl_CapacityLabel t' = obt_CapacityLabel t /\ tbl_Shape t' = obt_Shape t /\
  tbl_OrganisationID t' = org /\ tbl_LocationID t' = loc /\ tbl_FloorID t' = flr /\
  tbl_ZoneID t' = (if String.eqb (obt_ZoneName t) "" then zon_ID default
                   else zone_named zones (obt_ZoneName t)) /\
  tbl_IsActive t' = true /\ tbl_DeletedAt t' = None /\
  exists now, db_occupancy d !! tbl_ID t' = Some (new_occupancy (tbl_ID t') org loc now 0%N).

Definition period_made (org loc : uuid) (p : OnboardingServicePeriod) (p' : ServicePeriod) (d : Db) : Prop :=
  exists days start finish, parseOnboardingServicePeriod p = Ok (svp_Name p', days, start, finish) /\
    db_periods d !! svp_ID p' = Some p' /\ svp_DaysOfWeek p' = days /\ svp_StartTime p' = start /\
    svp_EndTime p' = finish /\ svp_OrganisationID p' = org /\ svp_LocationID p' = loc.

(** One row is added. *)
Ltac extended := split; simpl; try done; by apply insert_subseteq.

Lemma zone_step org loc flr z e s z' s' :
  create_onboarding_zone org loc flr z e s = (Ok z', s') ->
  extends (st_db s) (st_db s') /\ zone_made org loc flr z z' (st_db s').
Proof.
  intros (_ & d & H & ->)%map_err_Ok%exec_Ok. apply insert_row_Ok in H as (Hz & Hn & _ & ->).
  split; [extended|]. split; [apply lookup_insert_eq|]. by rewrite Hz.
Qed.

Lemma table_step org loc flr zones dz t e s t' s' :
  create_onboarding_table org loc flr zones dz t e s = (Ok t', s') ->
  extends (st_db s) (st_db s') /\ table_made org loc flr zones dz t t' (st_db s').
Proof.
  intros (tb & s2 & H1 & H)%bind_Ok. apply map_err_Ok, exec_Ok in H1 as (_ & d1 & H1 & ->).
  apply bind_Ok in H as (o & s3 & H2 & [= -> <-]). apply map_err_Ok, exec_Ok in H2 as (_ & d2 & H2 & ->).
  apply insert_row_Ok in H1 as (Ht & Hn & _ & ->). apply insert_row_Ok in H2 as (Ho & Hn2 & _ & ->).
  cbn [st_db with_db tick] in *. split.
  - split; simpl; try done; by apply insert_subseteq.
  - split; [apply lookup_insert_eq|]. subst o. split_and!; try (by rewrite Ht).
    eexists. apply lookup_insert_eq.
Qed.

Lemma period_step org loc p e s p' s' :
  createOnboardingServicePeriod org loc p e s = (Ok p', s') ->
  extends (st_db s) (st_db s') /\ period_made org loc p p' (st_db s').
Proof.
  intros ([[[name days] start] finish] & s1 & H1 & H)%bind_Ok. unfold lift in H1. injection H1 as Hp <-.
  apply map_err_Ok, exec_Ok in H as (_ & d & H & ->). apply insert_row_Ok in H as (Hz & Hn & _ & ->).
  split; [extended|]. exists days, start, finish. split; [by rewrite Hz|].
  split; [apply lookup_insert_eq|]. by rewrite Hz.
Qed.

(** Made rows are still there later. *)
Lemma zone_made_later org loc flr z z' d d' :
  extends d d' -> zone_made org loc flr z z' d -> zone_made org loc flr z z' d'.
Proof. intros Hx (H & ?). split; [|done]. eapply lookup_weaken; [exact H|apply Hx]. Qed.

Lemma table_made_later org loc flr zones dz t t' d d' :
  extends d d' -> table_made org loc flr zones dz t t' d -> table_made org loc flr zones dz t t' d'.
Proof.
  intros Hx (H & ? & ? & ? & ? & ? & ? & ? & ? & ? & now & Ho). split; [|split_and!; try done].
  - eapply lookup_weaken; [exact H|apply Hx].
  - exists now. eapply lookup_weaken; [exact Ho|apply Hx].
Qed.

Lemma period_made_later org loc p p' d d' :
  extends d d' -> period_made org loc p p' d -> period_made org loc p p' d'.
Proof.
  intros Hx (days & start & finish & Hp & H & ?). exists days, start, finish. split; [done|].
  split; [|done]. eapply lookup_weaken; [exact H|apply Hx].
Qed.

(** The layout asked for, made. *)
Record layout_made (org loc : uuid) (f : OnboardingFloor) (floor : Schema.Floor) (zones : list Zone)
    (tables : list Table) (d : Db) : Prop := {
  lm_floor : db_floors d !! flr_ID floor = Some floor /\ flr_Slug floor = obf_Slug f /\
    flr_Name floor = obf_Name f /\ flr_OrganisationID floor = org /\ flr_LocationID floor = loc;
  lm_zones : Forall2 (fun z z' => zone_made org loc (flr_ID floor) z z' d) (obf_Zones f) zones;
  lm_tables : exists default, head zones = Some default /\
    Forall2 (fun t t' => table_made org loc (flr_ID floor) zones default t t' d) (obf_Tables f) tables;
}.

Lemma layout_made_later org loc f floor zones tables d d' :
  extends d d' -> layout_made org loc f floor zones tables d -> layout_made org loc f floor zones tables d'.
Proof.
  intros Hx [(Hf & ?) Hz (dz & Hh & Ht)]. split.
  - split; [|done]. eapply lookup_weaken; [exact Hf|apply Hx].
  - eapply Forall2_impl; [exact Hz|]. intros z z'. by apply zone_made_later.
  - exists dz. split; [done|]. eapply Forall2_impl; [exact Ht|]. intros t t'. by apply table_made_later.
Qed.

Lemma createOnboardingLayout_Ok org loc f e s floor zones tables s' :
  createOnboardingLayout org loc f e s = (Ok (floor, zones, tables), s') ->
  extends (st_db s) (st_db s') /\ layout_made org loc f floor zones tables (st_db s').
Proof.
  intros (fl & s1 & H1 & H)%bind_Ok. apply map_err_Ok, exec_Ok in H1 as (_ & d1 & H1 & ->).
  apply insert_row_Ok in H1 as (Hf & Hn & _ & ->). apply bind_Ok in H as (zs & s2 & H2 & H).
  apply (mapM_post _ (zone_made org loc (flr_ID fl))) in H2 as [Hx2 Hz];
    [|intros *; apply zone_step|intros *; apply zone_made_later].
  destruct zs as [|dz zs]; [done|]. apply bind_Ok in H as (ts & s3 & H3 & [= <- <- <- <-]).
  apply (mapM_post _ (table_made org loc (flr_ID fl) (dz :: zs) dz)) in H3 as [Hx3 Ht];
    [|intros *; apply table_step|intros *; apply table_made_later].
  cbn [st_db with_db tick] in *. split.
  - etrans; [|etrans; [exact Hx2|exact Hx3]]. extended.
  - split.
    + split; [|by rewrite Hf]. eapply lookup_weaken; [|apply Hx3]. eapply lookup_weaken; [|apply Hx2].
      apply lookup_insert_eq.
    + eapply Forall2_impl; [exact Hz|]. intros z z'. by apply zone_made_later.
    + exists dz. by split.
Qed.

(** What a setup found and what it left. *)
Record set_up (arg : OwnerSetupParams) (r : OwnerSetupResult) (org : uuid) (d d' : Db) : Prop := {
  su_owner : exists k m, db_org_members d !! k = Some m /\ active_owner org m = true /\
    omb_UserProfileID m = Some (osp_UserProfileID arg);
  su_before : exists o, db_organisations d !! org = Some o /\ org_OnboardedAt o = None;
  su_after : db_organisations d' !! org = Some (osr_Organisation r) /\ onboarded d' org;
  su_location : exists k, db_locations d !! k = Some (osr_Location r) /\
    loc_OrganisationID (osr_Location r) = org;
  su_layout : layout_made org (loc_ID (osr_Location r)) (osp_Floor arg) (osr_Floor r) (osr_Zones r)
    (osr_Tables r) d';
  su_periods : Forall2 (fun p p' => period_made org (loc_ID (osr_Location r)) p p' d')
    (osp_ServicePeriods arg) (osr_ServicePeriods r);
}.

Lemma owner_found (m : OrganisationMembership) d u le :
  List.find (fun m => String.eqb (omb_Role m) RoleOrganisationOwner)
    (rows db_org_members d
       (fun m => sql_eq (omb_UserProfileID m) (nullableUUID u) && null (omb_DisabledAt m)) le) = Some m ->
  exists k m', db_org_members d !! k = Some m' /\ active_owner (omb_OrganisationID m) m' = true /\
    omb_UserProfileID m' = Some u.
Proof.
  intros [Hin Hrole]%find_some. apply list_elem_of_In, rows_elem in Hin as [[k Hk] Hw].
  apply andb_prop in Hw as [Hu Hd]. exists k, m. split; [done|]. split; [|by apply sql_eq_nullable in Hu].
  apply active_owner_inv. split; [done|]. split; [by apply String.eqb_eq|by apply null_None].
Qed.

Lemma ownerSetupInTx_Ok arg e s r s' :
  ownerSetupInTx arg e s = (Ok r, s') -> exists org, set_up arg r org (st_db s) (st_db s').
Proof.
  intros (orgs & s1 & H1 & H)%bind_Ok. apply map_err_Ok, exec_Ok in H1 as (_ & d1 & [= <- <-] & ->).
  set (ownerOrg := match List.find _ _ with Some m => _ | None => _ end) in H.
  apply bind_Ok in H as ([] & s2 & (Hnil & -> & _)%guard_err_Ok & H).
  apply bind_Ok in H as (org & s3 & H3 & H). apply map_err_Ok, exec_Ok in H3 as (_ & d3 & H3 & ->).
  apply select_one_Ok in H3 as (Horg & _ & ->).
  apply bind_Ok in H as ([] & s4 & (Hon & -> & _)%guard_err_Ok & H).
  apply bind_Ok in H as (locs & s5 & H5 & H). apply map_err_Ok, exec_Ok in H5 as (_ & d5 & [= <- <-] & ->).
  set (locs := rows db_locations _ _ _) in H. destruct locs as [|loc locs'] eqn:Hlocs; [done|].
  apply bind_Ok in H as ([[floor zones] tables] & s6 & H6 & H).
  apply createOnboardingLayout_Ok in H6 as [Hx6 Hlay]. apply bind_Ok in H as (periods & s7 & H7 & H).
  apply (mapM_post _ (period_made ownerOrg (loc_ID loc))) in H7 as [Hx7 Hper];
    [|intros *; apply period_step|intros *; apply period_made_later].
  apply bind_Ok in H as (org' & s8 & H8 & [= <- <-]). apply map_err_Ok, exec_Ok in H8 as (_ & d8 & H8 & ->).
  apply update_row_Ok in H8 as (o & Ho & _ & [= Hset] & _ & ->). cbn [st_db with_db tick] in *.
  assert (extends (st_db s7) (set_organisations (<[ownerOrg := org']> (db_organisations (st_db s7))) (st_db s7)))
    as Hx8 by by split.
  exists ownerOrg. split; cbn [osr_Organisation osr_Location osr_Floor osr_Zones osr_Tables osr_ServicePeriods st_db].
  - subst ownerOrg. destruct (List.find _ _) as [m|] eqn:Hfind; [|done]. by eapply owner_found.
  - exists org. split; [done|]. by destruct (org_OnboardedAt org).
  - split; [apply lookup_insert_eq|]. exists org'. split; [apply lookup_insert_eq|]. by rewrite <- Hset.
  - assert (loc ∈ loc :: locs') as Hin by left. rewrite <- Hlocs in Hin.
    apply rows_elem in Hin as [[k Hk] Hw%N.eqb_eq]. eauto.
  - eapply layout_made_later; [|exact Hlay]. by etrans.
  - eapply Forall2_impl; [exact Hper|]. intros p p'. by apply period_made_later.
Qed.

Lemma ownerSetup_ends arg :
  Ends (fun r d d' => exists org, set_up (normalizeOwnerSetupParams arg) r org d d') (OwnerSetup arg).
Proof.
  unfold OwnerSetup. apply ends_guard_then. intros _. apply ends_quiet_then; [unfold quiet; solve_body|].
  intros _. apply ends_map_err. intros e s r s' H.
  apply inAdminTx_Ok in H as (s1 & s2 & <- & _ & H & <-); [|unfold ownerSetupInTx; solve_intx].
  by apply ownerSetupInTx_Ok in H.
Qed.

(** A name that occurs finds a zone of that name. *)
Lemma zone_named_found zones name :
  existsb (String.eqb name) (map zon_Name zones) = true ->
  exists z, z ∈ zones /\ zone_named zones name = zon_ID z /\ zon_Name z = name.
Proof.
  intros (n & Hn & Heq%String.eqb_eq)%existsb_exists. subst n. apply in_map_iff in Hn as (z0 & Hz0 & Hin0).
  unfold zone_named. destruct (List.find _ (rev zones)) as [z|] eqn:Hf.
  - apply find_some in Hf as [Hin Hz%String.eqb_eq]. exists z. rewrite <- in_rev in Hin.
    split; [by apply list_elem_of_In|done].
  - eapply find_none in Hf; [|rewrite <- in_rev; exact Hin0]. by rewrite Hz0, String.eqb_refl in Hf.
Qed.

Lemma zone_names_made org loc flr zs zones d :
  Forall2 (fun z z' => zone_made org loc flr z z' d) zs zones -> map zon_Name zones = map obz_Name zs.
Proof. induction 1 as [|z z' zs zones (_ & Hn & _) _ IH]; simpl; [done|]. by rewrite Hn, IH. Qed.

(** Every table stands in one of the zones, the one it names. *)
Definition in_named_zone (zones : list Zone) (t : OnboardingTable) (t' : Table) : Prop :=
  exists z, z ∈ zones /\ tbl_ZoneID t' = zon_ID z /\ (obt_ZoneName t <> "" -> zon_Name z = obt_ZoneName t).

Lemma tables_in_zones org loc f floor zones tables d :
  layout_made org loc f floor zones tables d ->
  forallb (valid_onboarding_table (map obz_Name (obf_Zones f))) (obf_Tables f) = true ->
  Forall2 (in_named_zone zones) (obf_Tables f) tables.
Proof.
  intros [_ Hz (dz & Hhd & Ht)] Hv. rewrite <- (zone_names_made _ _ _ _ _ _ Hz) in Hv.
  induction Ht as [|t t' ts ts' Hm _ IH]; [done|]. simpl in Hv. apply andb_prop in Hv as [Hv Hvs].
  constructor; [|by apply IH]. destruct Hm as (_ & _ & _ & _ & _ & _ & _ & Hzone & _).
  unfold valid_onboarding_table in Hv. apply andb_prop in Hv as [_ Hname].
  unfold in_named_zone. rewrite Hzone. destruct (String.eqb_spec (obt_ZoneName t) "") as [->|Hne].
  - exists dz. split; [by apply head_Some_elem_of|]. done.
  - simpl in Hname. apply zone_named_found in Hname as (z & ? & ? & ?). eauto.
Qed.

Lemma validate_setup_Ok arg e s u s' :
  validateOwnerSetupParams arg e s = (Ok u, s') ->
  forallb (valid_onboarding_table (map obz_Name (obf_Zones (osp_Floor arg)))) (obf_Tables (osp_Floor arg)) = true.
Proof.
  unfold validateOwnerSetupParams. intros ([] & s1 & _ & H)%bind_Ok.
  apply bind_Ok in H as ([] & s2 & _ & H). apply bind_Ok in H as ([] & s3 & H3 & _).
  by apply guard_err_Ok in H3 as (H3%negb_false_iff & _).
Qed.

(** C38. A successful setup was asked for by an enabled owner of an organisation that
    was not onboarded, and leaves what was asked for in the organisation's first
    location: the floor, every zone, every table - free, and standing in the zone
    it names, or in the first - and every service period with its days and times;
    and it leaves the organisation onboarded. *)
Theorem owner_setup_functional arg e d r d'
    (Hrun : run (OwnerSetup arg) e d = (Ok r, d')) :
  let asked := normalizeOwnerSetupParams arg in
  exists org, set_up asked r org d d' /\
    Forall2 (in_named_zone (osr_Zones r)) (obf_Tables (osp_Floor asked)) (osr_Tables r).
Proof.
  intros asked. pose proof (ends_run _ _ _ _ _ _ (ownerSetup_ends arg) Hrun) as (org & Hset).
  exists org. split; [exact Hset|]. apply run_Ok in Hrun as (s' & H & _). unfold OwnerSetup in H.
  apply bind_Ok in H as ([] & s1 & _ & H). apply bind_Ok in H as ([] & s2 & H2 & _).
  apply validate_setup_Ok in H2. eapply tables_in_zones; [apply (su_layout _ _ _ _ _ Hset)|exact H2].
Qed.

(** An organisation is set up once: once an owner's setup of it succeeded, no
    later setup of it succeeds, by whichever owner, whatever requests of the
    backend come between. *)
Theorem owner_setup_once arg1 e1 d r1 d1 d2 arg2 e2 r2 d3
    (Hlay : layout_inv d) (H1 : run (OwnerSetup arg1) e1 d = (Ok r1, d1))
    (Hlater : system_history d1 d2) (H2 : run (OwnerSetup arg2) e2 d2 = (Ok r2, d3)) :
  org_ID (osr_Organisation r2) <> org_ID (osr_Organisation r1).
Proof.
  pose proof (ends_run _ _ _ _ _ _ (ownerSetup_ends arg1) H1) as (o1 & Hs1).
  pose proof (ends_run _ _ _ _ _ _ (ownerSetup_ends arg2) H2) as (o2 & Hs2).
  apply (discard_run (OwnerSetup arg1)) in H1. apply (discard_run (OwnerSetup arg2)) in H2.
  assert (layout_step d d1) as [_ Hi1] by exact (system_keeps_layout (SLayout (LOwnerSetup arg1)) _ _ _ _ H1).
  pose proof (system_history_keeps layout_step _ _ system_keeps_layout Hlater) as [_ Hi2].
  assert (layout_step d2 d3) as [_ Hi3] by exact (system_keeps_layout (SLayout (LOwnerSetup arg2)) _ _ _ _ H2).
  destruct (su_after _ _ _ _ _ Hs1) as [Hk1 Hon]. destruct (su_after _ _ _ _ _ Hs2) as [Hk2 _].
  rewrite (so_key (li_organisations _ (Hi1 Hlay)) _ _ Hk1).
  rewrite (so_key (li_organisations _ (Hi3 (Hi2 (Hi1 Hlay)))) _ _ Hk2). intros ->.
  destruct (system_history_keeps onboarded_kept _ _ system_keeps_onboarded Hlater _ Hon) as (o & Ho & Hyes).
  destruct (su_before _ _ _ _ _ Hs2) as (o' & Ho' & Hno). rewrite Ho in Ho'. injection Ho' as <-.
  by rewrite Hno in Hyes.
Qed.
End Owners.

(** ** Times of day *)

Lemma digit_bounds c x : digit_value c = Some x -> 0 <= x <= 9.
Proof.
  unfold digit_value. destruct ((48 <=? N_of_ascii c) && (N_of_ascii c <=? 57))%N eqn:H; [|done].
  intros [= <-]. apply andb_prop in H as [H1%N.leb_le H2%N.leb_le]. lia.
Qed.

Lemma getnum_bounds l fixed x l' : getnum l fixed = Some (x, l') -> 0 <= x.
Proof.
  unfold getnum. destruct l as [|c l]; [done|]. destruct (digit_value c) as [a|] eqn:Ha; [|done].
  apply digit_bounds in Ha. destruct l as [|c2 l]; [by destruct fixed; [|intros [= <- _]; lia]|].
  destruct (digit_value c2) as [b|] eqn:Hb; [apply digit_bounds in Hb|]; [intros [= <- _]; lia|].
  destruct fixed; [done|]. intros [= <- _]. lia.
Qed.

Lemma below_bounds bound l fixed x l' : below bound (getnum l fixed) = Some (x, l') -> 0 <= x < bound.
Proof.
  unfold below. destruct (getnum l fixed) as [[y r]|] eqn:H; [|done]. apply getnum_bounds in H.
  destruct (Z.ltb_spec y bound); [|done]. intros [= <- _]. lia.
Qed.

Lemma time_Parse_bounds seconds value h m s :
  time_Parse seconds value = Some (h, m, s) -> 0 <= h < 24 /\ 0 <= m < 60 /\ 0 <= s < 60.
Proof.
  unfold time_Parse, parse_hh_mm.
  destruct (below 24 _) as [[h0 l1]|] eqn:Hh; [|done]. apply below_bounds in Hh.
  destruct (colon l1) as [l2|]; [|done].
  destruct (below 60 (getnum l2 true)) as [[m0 l3]|] eqn:Hm; [|done]. apply below_bounds in Hm.
  destruct seconds; [|destruct l3; [|done]; intros [= <- <- <-]; lia].
  destruct (colon l3) as [l4|]; [|done].
  destruct (below 60 (getnum l4 true)) as [[s0 l5]|] eqn:Hs; [|done]. apply below_bounds in Hs.
  destruct (drop_fraction l5); [|done]. intros [= <- <- <-]. lia.
Qed.

(** Two digits. *)
Definition two_digits (n : Z) : string :=
  String (ascii_of_N (Z.to_N (48 + n / 10))) (String (ascii_of_N (Z.to_N (48 + n mod 10))) "").

Definition hours : list Z := map Z.of_nat (seq 0 24).
Definition sixty : list Z := map Z.of_nat (seq 0 60).

Lemma in_range_elem z n : 0 <= z < Z.of_nat n -> In z (map Z.of_nat (seq 0 n)).
Proof. intros Hz. apply in_map_iff. exists (Z.to_nat z). split; [lia|]. apply in_seq. lia. Qed.

Lemma clock_reads_all :
  forallb (fun h => forallb (fun m =>
    bool_decide (parseOnboardingClock (two_digits h ++ ":" ++ two_digits m)%string
                 = Some ((h * 60 + m) * 60000000))) sixty) hours = true.
Proof. vm_compute. reflexivity. Qed.

(** The clock of a service period: an accepted time is a whole second of one
    day, and every [HH:MM] of the day is accepted and read back as itself. *)
Theorem onboarding_clock_correct :
  (forall value t, parseOnboardingClock value = Some t -> 0 <= t < 86400000000 /\ t mod 1000000 = 0) /\
  (forall h m, 0 <= h < 24 -> 0 <= m < 60 ->
     parseOnboardingClock (two_digits h ++ ":" ++ two_digits m)%string = Some ((h * 60 + m) * 60000000)).
Proof.
  split.
  - intros value t. unfold parseOnboardingClock.
    assert (forall p t, match p : option (Z * Z * Z) with None => None | Some (h, m, s) =>
        Some (h * 3600000000 + m * 60000000 + s * 1000000) end = Some t ->
      (forall h m s, p = Some (h, m, s) -> 0 <= h < 24 /\ 0 <= m < 60 /\ 0 <= s < 60) ->
      0 <= t < 86400000000 /\ t mod 1000000 = 0) as Hp.
    { intros [[[h m] s]|] x H Hb; [|done]. injection H as <-. destruct (Hb _ _ _ eq_refl) as (? & ? & ?).
      split; [lia|]. replace (_ + _ + _) with ((h * 3600 + m * 60 + s) * 1000000) by lia. by apply Z.mod_mul. }
    intros H. eapply Hp; [exact H|]. intros h m s Hx.
    destruct (time_Parse false _) as [p|] eqn:Hf; [injection Hx as ->; by eapply time_Parse_bounds|].
    by eapply time_Parse_bounds.
  - intros h m Hh Hm. pose proof clock_reads_all as H. rewrite forallb_forall in H.
    specialize (H h (in_range_elem h 24 Hh)). rewrite forallb_forall in H.
    specialize (H m (in_range_elem m 60 Hm)). by apply bool_decide_eq_true in H.
Qed.

(** ** The theorems at the sample tenant *)

Lemma people_keyed : members_keyed people_db.
Proof. apply people_members_ok. Qed.

Lemma provisioning_creates_tenant_witness :
  exists p, run provision (calm 900 9000000) people_db = (Ok p, noras_db) /\
    loc_Timezone (ppr_Location p) = "UTC".
Proof.
  destruct (run_succeeds provision (calm 900 9000000) people_db) as [p Hp]; [vm_compute; reflexivity|].
  exists p. split; [exact Hp|].
  exact (pv_timezone _ _ _ _ (provisioning_creates_tenant provision_args _ _ p _ people_keyed Hp)).
Defined.

(** Reed, who reads only, is disabled; then Petra hands the restaurant over to Nina. *)
Definition reassign_request : Request :=
  sample_request_to RReassignPlatformTenantOwner petra_secret []
    [("id", uuid_String 1); ("membershipId", uuid_String 20)]
    (json_body [("toEmail", JStr "nina@bistro.test"); ("reason", JStr "sold")]).

Definition without_reader : Db :=
  snd (run (run_system (SIdentity (IDisable (disable_args 21)))) (calm 140 1900000) platform_db).
Definition handed_over : Db :=
  snd (run (run_system (SHttp production RReassignPlatformTenantOwner reassign_request))
    (calm 150 2000000) without_reader).

Example handed_over_ok :
  served (fst (run (handle production RReassignPlatformTenantOwner reassign_request) (calm 150 2000000)
    without_reader)) = true.
Proof. vm_compute. reflexivity. Qed.

(** Where every enabled member is an owner, ownership may pass to anybody. *)
Lemma only_owners d org email :
  map_any (fun m => null (omb_DisabledAt m) && negb (String.eqb (omb_Role m) RoleOrganisationOwner))
    (db_org_members d) = false -> hands_over_to d org email.
Proof.
  intros H k p j m _ _ Hm _ _ Hen. apply map_any_false with (k := j) (x := m) in H; [|done].
  rewrite Hen in H. by apply negb_false_iff, String.eqb_eq in H.
Qed.

Lemma platform_members_ok : members_ok platform_db.
Proof.
  split; [apply platform_members|]. intros k m u Hm Hu.
  assert (map_any (fun m => match omb_UserProfileID m with
    | Some u => negb (is_some (db_users platform_db !! u)) | None => false end) (db_org_members platform_db)
    = false) as H by (vm_compute; reflexivity).
  apply map_any_false with (k := k) (x := m) in H; [|done]. rewrite Hu in H. by apply negb_false_iff in H.
Qed.

Lemma tenant_keeps_owner_witness : has_owner 1 platform_db /\ has_owner 1 handed_over.
Proof.
  assert (has_owner 1 platform_db) as Ho by (apply owner_in_spec; vm_compute; reflexivity).
  split; [exact Ho|]. apply (tenant_keeps_owner 1 platform_db handed_over platform_members_ok Ho).
  eapply (tenant_next _ without_reader (SHttp production RReassignPlatformTenantOwner reassign_request)).
  - eapply (tenant_next _ platform_db (SIdentity (IDisable (disable_args 21)))); [apply tenant_start|exact I|].
    apply surjective_pairing.
  - intros org email _. apply only_owners. vm_compute. reflexivity.
  - apply surjective_pairing.
Defined.

Lemma owner_setup_functional_witness :
  exists r, run setup (calm 1000 10000000) noras_db = (Ok r, ready_db) /\
    Forall2 (in_named_zone (osr_Zones r)) (map normalizeOnboardingTable (obf_Tables noras_floor)) (osr_Tables r).
Proof.
  destruct (run_succeeds setup (calm 1000 10000000) noras_db) as [r Hr]; [vm_compute; reflexivity|].
  exists r. split; [exact Hr|].
  destruct (owner_setup_functional setup_args _ _ r _ Hr) as (org & _ & Hzones). exact Hzones.
Defined.

(** Two tenants, each set up once. *)
Definition second_tenant : PlatformProvisionTenantParams :=
  {| ppt_OrganisationName := "Quin's"; ppt_OrganisationSlug := "quins"; ppt_LocationName := "Hill";
     ppt_LocationSlug := "hill"; ppt_Timezone := ""; ppt_OwnerEmail := "quin@quins.test";
     ppt_OwnerDisplayName := "Quin" |}.

Definition provision_second : Go PlatformProvisionTenantResult := PlatformProvisionTenant second_tenant.
Definition quins_db : Db := snd (run provision_second (calm 1100 11000000) ready_db).
Definition quin_setup : OwnerSetupParams :=
  {| osp_UserProfileID := match fst (run provision_second (calm 1100 11000000) ready_db) with
                          | Ok p => mng_UserProfileID (ppr_Owner p) | Err _ => uuid_Nil end;
     osp_Floor := noras_floor; osp_ServicePeriods := [] |}.

Lemma noras_layout : layout_inv noras_db.
Proof.
  destruct (run_succeeds provision (calm 900 9000000) people_db) as [p Hp]; [vm_compute; reflexivity|].
  apply discard_run in Hp.
  destruct (keeps_run _ _ _ _ _ _ (layout_keeps_layout (LProvision provision_args)) Hp) as [_ Hi].
  exact (Hi people_layout).
Qed.

Lemma owner_setup_once_witness :
  exists r1 r2 d3, run setup (calm 1000 10000000) noras_db = (Ok r1, ready_db) /\
    run (OwnerSetup quin_setup) (calm 1200 12000000) quins_db = (Ok r2, d3) /\
    org_ID (osr_Organisation r2) <> org_ID (osr_Organisation r1).
Proof.
  destruct (run_succeeds setup (calm 1000 10000000) noras_db) as [r1 H1]; [vm_compute; reflexivity|].
  destruct (run_succeeds provision_second (calm 1100 11000000) ready_db) as [p Hp]; [vm_compute; reflexivity|].
  destruct (run_succeeds (OwnerSetup quin_setup) (calm 1200 12000000) quins_db) as [r2 H2];
    [vm_compute; reflexivity|].
  exists r1, r2, (snd (run (OwnerSetup quin_setup) (calm 1200 12000000) quins_db)).
  split; [exact H1|]. split; [exact H2|].
  exact (owner_setup_once setup_args _ _ r1 _ quins_db quin_setup _ r2 _ noras_layout H1
    (system_next _ _ (SLayout (LProvision second_tenant)) _ _ _ (system_start _) (discard_run _ _ _ _ _ Hp)) H2).
Defined.
